(* ===== verification/_CoqProject ===== *)
-Q . S2P
Prelude.v
Redis.v
QueueScripts.v
QueueFacts.v
PyValue.v
QueueClient.v
QueueCommands.v
QueueTrace.v
QueueRuntime.v
QueueFence.v
QueueUnique.v
QueueOwnership.v
QueueQuota.v
QueueDelivery.v
QueueNames.v
QueueLease.v
QueueInsight.v
QueueAdmission.v
RunAttempt.v
RunAttemptFacts.v
RunTerminal.v
RunLifecycle.v
RunLifecycleFacts.v
TextParts.v
TextPartsFacts.v
Platform.v
PlatformFacts.v
WorkerLifecycle.v
Cancellation.v
StaleReconciliation.v
PlatformExample.v
PlatformTrace.v
PlatformPaths.v
PlatformSafety.v
OrphanedRuns.v
StaleLiveness.v
ResultCommit.v
ResultCommitFacts.v
McpTools.v
McpToolsFacts.v
WorkspacePolicy.v
CancelTail.v
Numerals.v
StreamCursors.v
StreamCursorsFacts.v
StreamProtocol.v
StreamEvents.v
StreamEventsFacts.v
CanonicalJson.v
StreamChannel.v
StreamChannelFacts.v
StreamReplay.v
StreamAuthority.v
StreamAuthorityFacts.v
StreamDelivery.v
StreamDeliveryFacts.v
StreamRecords.v
EventLedger.v
EventLedgerFacts.v
StreamRows.v
StreamRowsFacts.v
PartLedger.v
PartScan.v
PartRenumber.v
PartAppend.v
PartAccept.v
StreamCallbacks.v
StreamPublication.v
StreamPublicationFacts.v
RunInputs.v
RunInputsChoices.v
RunInputsFacts.v
RunInputsTimeout.v
RunInputsExample.v
