(* ===== verification/Prelude.v ===== *)
(** * ai-platform: queue, attempts, life cycle, results and streams of runs

    The platform runs AI agent tasks ("runs") for many tenants.  A request creates a
    run in PostgreSQL and admits it to a Redis queue; a worker leases the queued
    message, starts an attempt for the run, keeps lease and attempt alive with
    heartbeats while a sandboxed executor works, and ends the run; a reconciler
    cleans up after workers that disappeared.  This library models that path: the
    queue with its Lua scripts, the attempts with the SQL triggers that guard them,
    the staged end of a run, the transactions that combine the two (workers, cancel
    requests, the sweep over stale runs, the commit of results), the texts and questions
    that owner and executor exchange while a run executes, the event stream of a run from
    the executor's callback through the durable ledger and Redis to the browser, what an
    ordinary user is told, and the policies for tools and workspace paths.

    ** Parts of the program and where they are modelled

    - [Prelude]: outcomes of Python calls ([res], with notations in [py_scope]),
      strings as Python uses them, tactics, hints and lemmas shared by all files.
    - [Redis]: the Redis data the queue uses (a [store] per deployment), Lua values
      and the Lua functions the scripts call.  A Lua number and a Python float are
      [luanum], a fixed-point number with the infinities and NaN; what the code
      needs of rounding, of cjson and of number text are the fields of [LuaRuntime]
      and the laws [LuaRuntimeLaws].
    - [PyValue]: dynamic Python values with truth, [str], [get] and numeric
      conversions; the JSON codec and number parsing are the class [PyRuntime].
    - [QueueScripts], [QueueClient]: src/app/queue.py.  [QueueScripts] has one
      definition per Lua script (enqueue, lease under quota, requeue, dead-letter,
      acknowledge, fail, heartbeat, fences); [QueueClient] has the Python functions
      that call them, with the errors they raise.  [QueuePayloads] stands for the
      pydantic payload and SHA-256.
    - [QueueCommands]: the single commands of the two functions of queue.py that are
      not one script, the removal by scanning and the query of a position.
    - [QueueTrace]: the transition system of a queue that many clients use: every
      script, the two functions as a whole, and each of their commands; its laws
      ([QueueLaws]) are documented facts of cjson, hashing and payload validation.
      [QueueRuntime]: a concrete runtime that satisfies all of them, for examples.
    - [QueueInsight]: the read side of src/app/queue.py, status and insight.
    - [RunAttempt]: src/app/runs/domain/attempt_lifecycle.py, the run_attempts table
      of src/app/schema.sql with its triggers and constraints, and the operations of
      src/app/runs/infrastructure/postgres.py and
      src/app/runs/application/attempt_lifecycle.py that use them.
    - [RunLifecycle]: src/app/runs/application/lifecycle.py,
      src/app/runs/infrastructure/lifecycle_postgres.py,
      src/app/runs/domain/terminalization.py, the cost projection
      (cost_observability.py) and the closing of steps (steps_postgres.py).
    - [RunTerminal]: src/app/runs/domain/public_terminal.py, public_outcome.py and
      retry.py.
    - [TextParts]: src/app/streaming/domain/assistant_text_parts.py, the check of one
      new fact and the reducer of a message ledger.
    - [Platform]: the tables runs, run_attempts, run_steps, run_events, audit_log and
      sandbox_leases as one database [pdb], of which the attempts and the life cycle
      see their part, and the ends of a run with provider lineage and stream row
      (src/app/runs/application/terminalization_v4.py, provider_terminalization.py).
      Modules that only keep their own tables are the ports [PlatformPorts]; they act
      on [pd_outside].
    - [WorkerLifecycle]: src/app/execution/application/worker_attempt_lifecycle.py.
    - [Cancellation]: src/app/runs/application/cancellation.py and its adapter in
      src/app/runs/infrastructure/postgres.py.
    - [StaleReconciliation]: the candidate query of lifecycle_postgres.py,
      src/app/execution/application/stale_terminalization.py, the sweep and the
      exception handler of src/app/worker_main.py, and the failed receipt of
      src/app/executor_reconciler.py.
    - [ResultCommit]: src/app/runs/application/worker_result_commit.py and
      worker_execution_terminal.py; the writers they call are [ResultPorts].
    - [CancelTail]: src/app/runs/domain/cancel_tail.py and the receipts of
      src/app/runs/application/attempt_lifecycle.py after a cancellation.
    - [PlatformTrace]: the transition system of these transactions.  [PlatformPaths]: what
      a transaction does to the attempts.
      [PlatformExample]: concrete ports and a small database for examples.
    - [McpTools]: src/app/mcp/domain/identifiers.py, tool_references.py and
      tool_policy.py.  [WorkspacePolicy]: src/app/sandbox/domain/workspace_policy.py
      and workspace_delivery.py.
    - [RunInputs]: src/app/runs/domain/inputs.py, src/app/runs/application/inputs.py,
      src/app/runs/infrastructure/inputs_postgres.py and the three tables of run inputs;
      the sanitizer of public text is an argument, as in the code.  [RunInputsChoices]:
      which part of a question an answer depends on.  [RunInputsExample]
      executes a session of the example run.

    The stream of a run (src/app/streaming unless said otherwise):

    - [Numerals]: decimal numerals as Python reads and prints them.  [CanonicalJson]: the
      canonical JSON text digests are taken of.
    - [StreamCursors]: domain/live.py, transport.py and run_events.py, with the classes of
      exceptions of the streaming code ([stream_exn], [sres]).
    - [StreamProtocol]: domain/protocol_v4.py, the registries and types of the protocol.
      [StreamEvents]: domain/public_payload_fields.py and public_events_v4.py.
    - [StreamCallbacks]: application/callback_events_v4.py, the items of a callback.
    - [EventLedger]: infrastructure/event_ledger_postgres.py and run_events_postgres.py,
      the durable ledger.  [StreamRows]: the rows of infrastructure/v4.py on it, with the
      checks of answer facts and the answers read by receipt.
    - [StreamPublication]: application/worker_publication_v4.py, durable_v4.py,
      infrastructure/worker_v4.py and run_v4_events.py, how a worker admits a stream,
      records the facts of the run and publishes committed rows.
    - [StreamChannel]: the append scripts of redis.py and infrastructure/callback_stream.py.
      [StreamReplay]: the reading half of the bridge in infrastructure/v4.py.
    - [StreamAuthority]: the admission, revocation and reader leases of redis.py.
    - [StreamDelivery]: the stream route of src/app/routes/lambchat_compat.py, a generator
      in a world that changes at every await.

    A Redis script and a database transaction are atomic in the model, as they are
    in the program; a client function that awaits Redis several times is the
    sequence of those commands, and the transition systems interleave whole
    operations of many clients (the queue's also the single commands).  Clocks, random secrets and generated ids are
    arguments.  Every definition is executable.

    ** What the theorems show

    - Queue, safety: a message is in the queue at most once ([QueueUnique]), leaves
      it only with a cause ([QueueDelivery]), and a fenced run stays out
      ([QueueFence]).  The single copy, and what rests on it (active leases, repeated
      admissions), is for messages of distinct digests, tenant names without a colon and
      functions of several commands that are not interrupted; [QueueUnique] and
      [QueueLease] have executions in which a message is duplicated, or its lease taken,
      where two tenants share an index entry or a query of a position is interrupted.
      That a message leaves with a cause needs none of this.
    - Queue, leases: an active lease cannot be taken away, a lease goes to the oldest
      message a worker may take, a fresh lease is current ([QueueLease]); an ended
      lease stays ended ([QueueOwnership]); limits hold ([QueueQuota]).
    - Queue, interfaces: admission is idempotent ([QueueAdmission]), reports agree
      with what the scripts do ([QueueInsight]), names parse back and do not collide
      ([QueueNames]).
    - Attempts ([RunAttemptFacts]): the Python rules and the SQL trigger agree, an
      attempt only moves forward and is immutable at its end, a replaced owner is
      fenced for good, a repeated worker start is harmless, a stale attempt can
      always be failed, and runs only move forward with their attempts.
    - Life cycle ([RunLifecycleFacts]): an ended run never changes, its end is
      announced once, the first staged intent wins, an uncontested end goes through,
      reported completions are true, success commits exactly when nothing stands
      against it.
    - Platform ([PlatformFacts], [PlatformTrace], [PlatformPaths], [PlatformSafety]): over every sequence
      of the transactions [platform_step] lists a run has one attempt at most and shows
      its status; a run whose cancellation was asked for never succeeds, and does not fail
      either once the request has reached its attempt.  A worker that ends a run is one
      admitted for it, and whoever finishes a staged end names its attempt.  The handler of
      an escaped exception is not among the transactions, see below.
    - Orphans ([OrphanedRuns], [StaleLiveness]): a sweep takes the stalest runs within
      its bound, and a run without an owner is failed with its attempt.  Two gaps are
      proved: a staged cancellation is never settled by a sweep, and the handler of an
      escaped exception ends the run but not its attempt.
    - Results ([ResultCommitFacts]): a reported outcome is the durable status of run
      and attempt.  One gap is proved: a failure reported after a cancel request is
      dropped and the run stays open.  After a cancel request a worker can hand in
      receipts and nothing else ([CancelTail]).
    - Inputs ([RunInputsFacts], [RunInputsTimeout]): questions and answers stay in step and
      a question is answered once, a settled attempt has heard every text, an accepted
      submission can be repeated (an answer too, where the sanitizer leaves its own results
      alone: [RunInputsChoices]), an overdue question of an open session is settled by the
      next poll.
    - Events ([StreamEventsFacts], [StreamCursorsFacts]): validated envelopes have the types
      the protocol declares, cursors parse back, keys do not collide.
    - Ledger ([EventLedgerFacts]): events are numbered without gaps in commit order, a batch
      is accepted once, paging is complete.
    - Rows ([StreamRowsFacts], [StreamCallbacks]): what the mapper of callbacks accepts
      passes the checks of rows and is recorded unless its answer facts do not fit those of
      the stream; a row is recorded once; it is published as the event it was prepared from
      exactly when its id and its trace reference have the form of an envelope's; an answer
      matches its receipt.  One gap is proved: a row with a trace reference of more than 128
      characters is recorded and never published, and the scan of answer facts rejects the
      ledger that has it.
    - Answers ([TextPartsFacts], [PartLedger], [PartScan], [PartRenumber], [PartAppend],
      [PartAccept]): a completed answer is the concatenation of its deltas, the check of
      one fact refines the reducer of whole ledgers, and the indexed lookups before an
      append keep the ledger one that the full scan accepts (for trace references of at
      most 128 characters).
    - Publication ([StreamPublicationFacts]): an acknowledged batch was added to the stream
      or the stream had that batch or a later one, the end
      of a run is recorded once, an executor is dispatched on an open stream only.
    - Channel ([StreamChannelFacts]): a stream goes through its phases, appends can be
      repeated.
    - Delivery ([StreamDeliveryFacts], [StreamRecords], [StreamAuthorityFacts]): a browser
      gets a contiguous stretch of the log or a gap notice, the replay ends, no frame is
      sent a lease after a revocation, the wait for an admission ends.
    - Policies ([McpToolsFacts], [WorkspacePolicy]): the tool policy fails closed, tool
      references parse back except for servers that end in a colon, and what leaves a
      workspace was open to the run.
    - Taxonomy ([RunTerminal]): the public projection is total, closed and stable
      under itself, and nobody is invited to repeat an execution with unknown effects.

    ** Bounds and fuel

    Loops over lists are structural.  The lease scan has one round more than twice
    the length of the queue as fuel: each round either takes a message out or widens
    the scanned window, and [lease_takes_oldest_eligible] shows that it finds an
    eligible message whenever there is one.  String stripping and decimal printing recurse on a fuel that
    is the length of the string or the number of binary digits, which every round
    lowers.  The replay of a stream takes the length of the history as fuel, and
    [replay_terminates] shows that it is enough; the live loop of a connection never ends
    by itself, its fuel is the prefix of it that is observed.  The wait for an admission
    has the 51 rounds the code allows, and a text is cut into chunks with its length as
    fuel.  Integer columns of PostgreSQL are 32 bits wide and a write outside the
    range raises.

    ** Not modelled

    HTTP routes other than the stream of a session and the web front end, authentication,
    the worker process and the agent SDK (with domain/public_execution.py and the text
    projection, which read its events), container and object storage, schema migrations,
    the skill catalog: outside effects or glue over the modelled operations.  The compiler
    of execution specs rests on regular expressions for secrets, the admission of a
    dispatch on authorization services, and the classification of executor failures and
    the provider sessions on the diagnostics and transcripts of the SDK; the attempts know
    a spec by its canonical text and digest, and the provider sessions are ports.  Row
    locks that make a query skip rows other transactions hold are not modelled: a
    transaction sees the whole database. *)
From stdpp Require Import base gmap list strings.
From Stdlib Require Import ZArith Lia Ascii.

#[global] Open Scope Z_scope.

(** ** Python exceptions as values *)

(** The outcome of a Python call that either returns a value or raises an
    exception, identified by the stable code the platform gives it. *)
Inductive res (A : Type) : Type :=
| Ok (a : A)
| Raise (code : string).

Arguments Ok {A} a.
Arguments Raise {A} code.

Declare Scope py_scope.
Delimit Scope py_scope with py.

Definition res_bind {A B} (m : res A) (k : A → res B) : res B :=
  match m with
  | Ok a => k a
  | Raise e => Raise e
  end.

Notation "'let!' x ':=' m 'in' k" := (res_bind m (fun x => k))
  (at level 10, x name, m at level 100, k at level 200) : py_scope.
Notation "'let!' ' p ':=' m 'in' k" := (res_bind m (fun x => match x with p => k end))
  (at level 10, p pattern, m at level 100, k at level 200) : py_scope.
Notation "'raise!' e 'when' b ; k" := (if b then Raise e else k)
  (at level 10, e at level 9, b at level 100, k at level 200) : py_scope.

(** ** Strings as Python uses them

    A Python [str] is kept as the bytes of its UTF-8 encoding. *)

(** Membership of a string in a literal set of strings. *)
Fixpoint str_in (s : string) (l : list string) : bool :=
  match l with
  | [] => false
  | x :: l' => String.eqb s x || str_in s l'
  end.

(** Every byte of a string satisfies a test. *)
Fixpoint str_forall (p : ascii → bool) (s : string) : bool :=
  match s with
  | EmptyString => true
  | String c s' => p c && str_forall p s'
  end.

(** [s.split(sep)] for a one-byte separator. *)
Fixpoint split_on (sep : ascii) (s : string) : list string :=
  match s with
  | EmptyString => [EmptyString]
  | String c s' =>
      if Ascii.eqb c sep then EmptyString :: split_on sep s'
      else match split_on sep s' with
           | [] => [String c EmptyString]
           | w :: ws => String c w :: ws
           end
  end.

(** Character classes of the regular expressions in the source. *)
Definition ascii_between (lo hi : ascii) (c : ascii) : bool :=
  ((N_of_ascii lo <=? N_of_ascii c) && (N_of_ascii c <=? N_of_ascii hi))%N.
Definition is_digit : ascii → bool := ascii_between "0" "9".
Definition is_lower : ascii → bool := ascii_between "a" "z".
Definition is_upper : ascii → bool := ascii_between "A" "Z".
Definition is_alnum (c : ascii) : bool := is_digit c || is_lower c || is_upper c.
(** The class [[0-9a-f]]. *)
Definition is_hex (c : ascii) : bool := is_digit c || ascii_between "a" "f" c.

(** [len(s)]: code points are the bytes that do not continue one. *)
Definition utf8_continuation (c : ascii) : bool :=
  ((128 <=? N_of_ascii c) && (N_of_ascii c <? 192))%N.
Fixpoint py_len (s : string) : Z :=
  match s with
  | EmptyString => 0
  | String c s' => (if utf8_continuation c then 0 else 1) + py_len s'
  end.

(** The UTF-8 encodings of the code points [str.isspace] accepts. *)
Definition byte_string (l : list N) : string :=
  String.string_of_list_ascii (ascii_of_N <$> l).
Definition py_spaces : list string :=
  byte_string <$>
  ([[9]; [10]; [11]; [12]; [13]; [28]; [29]; [30]; [31]; [32]; [194; 133]; [194; 160];
    [225; 154; 128]; [226; 128; 128]; [226; 128; 129]; [226; 128; 130]; [226; 128; 131];
    [226; 128; 132]; [226; 128; 133]; [226; 128; 134]; [226; 128; 135]; [226; 128; 136];
    [226; 128; 137]; [226; 128; 138]; [226; 128; 168]; [226; 128; 169]; [226; 128; 175];
    [226; 129; 159]; [227; 128; 128]]%N).

(** [strip_prefix p s] removes [p] from the front of [s], if it is there. *)
Fixpoint strip_prefix (p s : string) : option string :=
  match p, s with
  | EmptyString, _ => Some s
  | String a p', String b s' => if Ascii.eqb a b then strip_prefix p' s' else None
  | String _ _, EmptyString => None
  end.
Definition strip_any (ps : list string) (s : string) : option string :=
  foldr (fun p r => match strip_prefix p s with Some s' => Some s' | None => r end) None ps.
Fixpoint strip_many (ps : list string) (fuel : nat) (s : string) : string :=
  match fuel with
  | O => s
  | S fuel' => match strip_any ps s with
               | Some s' => strip_many ps fuel' s'
               | None => s
               end
  end.
Definition str_rev (s : string) : string :=
  String.string_of_list_ascii (rev (String.list_ascii_of_string s)).
(** [s.strip()]; every round removes at least one byte, so the length is
    enough fuel. *)
Definition lstrip (s : string) : string := strip_many py_spaces (String.length s) s.
Definition rstrip (s : string) : string :=
  str_rev (strip_many (str_rev <$> py_spaces) (String.length s) (str_rev s)).
Definition strip (s : string) : string := rstrip (lstrip s).

(** [bool(s)] of a string. *)
Definition str_truthy (s : string) : bool := negb (String.eqb s "").

(** [str(n)] of an integer. *)
Definition digit_char (d : Z) : ascii := ascii_of_N (Z.to_N (48 + d)).
Fixpoint dec_digits (fuel : nat) (n : Z) (acc : string) : string :=
  match fuel with
  | O => acc
  | S fuel' =>
      let acc' := String (digit_char (n mod 10)) acc in
      if n / 10 =? 0 then acc' else dec_digits fuel' (n / 10) acc'
  end.
Definition py_str_nat (n : Z) : string := dec_digits (S (Z.to_nat (Z.log2 n))) n "".
Definition py_str_int (n : Z) : string :=
  if n <? 0 then String.append "-" (py_str_nat (- n)) else py_str_nat n.

(** [int(s)] of a string of decimal digits. *)
Fixpoint dec_value (s : string) (acc : Z) : Z :=
  match s with
  | EmptyString => acc
  | String c s' => dec_value s' (10 * acc + (Z.of_N (N_of_ascii c) - 48))
  end.

(** ** Decision procedures and proof automation *)

#[global] Instance res_eq_dec {A} `{EqDecision A} : EqDecision (res A).
Proof. solve_decision. Defined.

Create HintDb plat.

(** Split the outermost conditional of the goal or of a hypothesis, keeping the
    guard as an equation. *)
Ltac split_if :=
  match goal with
  | |- context [if ?b then _ else _] => destruct b eqn:?
  end.
Ltac split_if_in H :=
  match type of H with
  | context [if ?b then _ else _] => destruct b eqn:?
  end.

(** Turn boolean guards into propositions. *)
Ltac to_prop :=
  repeat match goal with
  | H : (_ && _)%bool = true |- _ => apply andb_true_iff in H as [? ?]
  | H : (_ || _)%bool = false |- _ => apply orb_false_iff in H as [? ?]
  | H : negb _ = true |- _ => apply negb_true_iff in H
  | H : negb _ = false |- _ => apply negb_false_iff in H
  | H : (_ =? _)%string = true |- _ => apply String.eqb_eq in H
  | H : (_ =? _)%string = false |- _ => apply String.eqb_neq in H
  | H : (_ <=? _) = true |- _ => apply Z.leb_le in H
  | H : (_ <=? _) = false |- _ => apply Z.leb_gt in H
  | H : (_ <? _) = true |- _ => apply Z.ltb_lt in H
  | H : (_ <? _) = false |- _ => apply Z.ltb_ge in H
  | H : (_ =? _) = true |- _ => apply Z.eqb_eq in H
  | H : (_ =? _) = false |- _ => apply Z.eqb_neq in H
  | H : bool_decide _ = true |- _ => apply bool_decide_eq_true in H
  | H : bool_decide _ = false |- _ => apply bool_decide_eq_false in H
  end.

(** Case analysis on the outcome of the calls an operation makes. *)
Ltac run_res E :=
  repeat match type of E with
  | res_bind ?m _ = Ok _ => let x := fresh "x" in destruct m as [x|] eqn:?; simpl in E; [|done]
  | (if ?b then _ else _) = Ok _ => destruct b eqn:?; try done
  | (let '(_, _) := ?p in _) = Ok _ => let d := fresh "d" in let o := fresh "o" in destruct p as [d o]
  | match ?o with Some _ => _ | None => _ end = Ok _ => destruct o eqn:?; try done
  end.

(** Facts that close side conditions in every component: reflexivity of the "may
    evolve to" relations, normal forms of strings. *)
Create HintDb platform.

(** ** Lemmas shared by the components *)

Lemma str_in_elem s l : str_in s l = true ↔ s ∈ l.
Proof.
  induction l as [|x l IH]; simpl.
  - split; [done | intros H; by apply elem_of_nil in H].
  - rewrite orb_true_iff, String.eqb_eq, elem_of_cons. by rewrite IH.
Qed.

Lemma str_in_false s l : str_in s l = false ↔ s ∉ l.
Proof. rewrite <- str_in_elem. by destruct (str_in s l). Qed.

Lemma str_in_Forall s l P : Forall P l → str_in s l = true → P s.
Proof. rewrite str_in_elem, Forall_forall. auto. Qed.

Lemma split_on_none sep s :
  str_forall (fun c => negb (Ascii.eqb c sep)) s = true → split_on sep s = [s].
Proof.
  induction s as [|c s IH]; simpl; [done|].
  intros H. to_prop. by rewrite H, IH.
Qed.

Lemma split_on_app sep s t :
  str_forall (fun c => negb (Ascii.eqb c sep)) s = true →
  split_on sep (String.append s (String sep t)) = s :: split_on sep t.
Proof.
  induction s as [|c s IH]; simpl.
  - intros _. by rewrite Ascii.eqb_refl.
  - intros H. to_prop. by rewrite H, IH.
Qed.

Lemma str_in_app s l1 l2 : str_in s (l1 ++ l2) = str_in s l1 || str_in s l2.
Proof. induction l1 as [|x l1 IH]; simpl; [done|]. by rewrite IH, orb_assoc. Qed.

Lemma str_forall_impl (p q : ascii → bool) s :
  (∀ c, p c = true → q c = true) → str_forall p s = true → str_forall q s = true.
Proof.
  intros Hpq. induction s as [|c s IH]; simpl; [done|].
  intros H. to_prop. by rewrite Hpq, IH.
Qed.

Lemma str_forall_app p s t :
  str_forall p (String.append s t) = str_forall p s && str_forall p t.
Proof. induction s as [|c s IH]; simpl; [done|]. by rewrite IH, andb_assoc. Qed.

(** A separator that occurs in neither head makes the concatenation of the two
    halves unique. *)
Lemma append_sep_inj sep s s' t t' :
  str_forall (fun c => negb (Ascii.eqb c sep)) s = true →
  str_forall (fun c => negb (Ascii.eqb c sep)) s' = true →
  String.append s (String sep t) = String.append s' (String sep t') → s = s' ∧ t = t'.
Proof.
  revert s'. induction s as [|c s IH]; intros [|c' s']; simpl; intros H H' E; to_prop.
  - by simplify_eq.
  - injection E as -> _. by rewrite Ascii.eqb_refl in *.
  - injection E as -> _. by rewrite Ascii.eqb_refl in *.
  - injection E as -> E. by destruct (IH s') as [-> ->].
Qed.

#[export] Hint Resolve str_forall_impl : plat.

Lemma append_assoc a b c : String.append (String.append a b) c = String.append a (String.append b c).
Proof.
  induction a as [|x a IH]; [done|].
  change (String x (String.append (String.append a b) c) = String x (String.append a (String.append b c))).
  by rewrite IH.
Qed.

(** ** Stripping *)

Lemma strip_prefix_Some p s t : strip_prefix p s = Some t ↔ s = String.append p t.
Proof.
  revert s. induction p as [|a p IH]; intros s; simpl.
  - split; [by intros [= ->]|by intros ->].
  - destruct s as [|b s]; [split; done|]. destruct (Ascii.eqb a b) eqn:E.
    + apply Ascii.eqb_eq in E as ->. rewrite IH. split; [by intros ->|by intros [= ->]].
    + split; [done|]. intros [= -> ->]. by rewrite Ascii.eqb_refl in E.
Qed.

Lemma strip_any_None ps s : strip_any ps s = None ↔ ∀ p t, p ∈ ps → s ≠ String.append p t.
Proof.
  unfold strip_any. induction ps as [|p ps IH]; simpl.
  - split; [intros _ p t Hp; by apply elem_of_nil in Hp | done].
  - destruct (strip_prefix p s) as [t|] eqn:E.
    + split; [done|]. intros Hn. apply strip_prefix_Some in E. exfalso. by apply (Hn p t); [left|].
    + rewrite IH. split.
      * intros Hn p' t [->|Hp]%elem_of_cons; [|by apply Hn]. intros Hs.
        apply strip_prefix_Some in Hs. congruence.
      * intros Hn p' t Hp. apply Hn. by right.
Qed.

Lemma strip_any_Some ps s s' :
  strip_any ps s = Some s' → ∃ p, p ∈ ps ∧ s = String.append p s'.
Proof.
  unfold strip_any. induction ps as [|p ps IH]; simpl; [done|].
  destruct (strip_prefix p s) as [t|] eqn:E.
  - intros [= ->]. exists p. split; [by left|]. by apply strip_prefix_Some.
  - intros Hs. destruct (IH Hs) as (p' & Hp & ->). exists p'. split; [by right|done].
Qed.

Lemma strip_many_none ps n s : strip_any ps s = None → strip_many ps n s = s.
Proof. intros Hn. destruct n; simpl; [done|]. by rewrite Hn. Qed.

Lemma append_length s t : String.length (String.append s t) = (String.length s + String.length t)%nat.
Proof. induction s as [|c s IH]; simpl; [done|]. by rewrite IH. Qed.

Lemma strip_many_done ps n s :
  Forall (fun p => p ≠ ""%string) ps → (String.length s ≤ n)%nat → strip_any ps (strip_many ps n s) = None.
Proof.
  intros Hne. revert s. induction n as [|n IH]; intros s Hlen; simpl.
  - destruct s; [|simpl in Hlen; lia]. apply strip_any_None. intros p t Hp Hs.
    rewrite Forall_forall in Hne. apply (Hne p Hp). by destruct p.
  - destruct (strip_any ps s) as [s'|] eqn:E; [|done]. apply IH.
    apply strip_any_Some in E as (p & Hp & ->). rewrite append_length in Hlen.
    rewrite Forall_forall in Hne. specialize (Hne p Hp). destruct p; [done|simpl in *; lia].
Qed.

Lemma strip_many_suffix ps n s : ∃ t, s = String.append t (strip_many ps n s).
Proof.
  revert s. induction n as [|n IH]; intros s; simpl; [by exists ""%string|].
  destruct (strip_any ps s) as [s'|] eqn:E; [|by exists ""%string].
  apply strip_any_Some in E as (p & _ & ->). destruct (IH s') as [t Ht]. exists (String.append p t).
  by rewrite append_assoc, <- Ht.
Qed.

Lemma list_of_append s t :
  String.list_ascii_of_string (String.append s t)
  = (String.list_ascii_of_string s ++ String.list_ascii_of_string t)%list.
Proof. induction s as [|c s IH]; simpl; [done|]. by rewrite IH. Qed.

Lemma string_of_app l k :
  String.string_of_list_ascii (l ++ k)
  = String.append (String.string_of_list_ascii l) (String.string_of_list_ascii k).
Proof. induction l as [|c l IH]; simpl; [done|]. by rewrite IH. Qed.

Lemma str_rev_append s t : str_rev (String.append s t) = String.append (str_rev t) (str_rev s).
Proof. unfold str_rev. by rewrite list_of_append, rev_app_distr, string_of_app. Qed.

Lemma str_rev_involutive s : str_rev (str_rev s) = s.
Proof.
  unfold str_rev. rewrite String.list_ascii_of_string_of_list_ascii, rev_involutive.
  apply String.string_of_list_ascii_of_string.
Qed.

Lemma str_rev_length s : String.length (str_rev s) = String.length s.
Proof.
  induction s as [|c s IH]; [done|].
  change (String c s) with (String.append (String c EmptyString) s).
  rewrite str_rev_append, append_length, IH, append_length.
  change (String.length (str_rev (String c EmptyString))) with 1%nat. simpl. lia.
Qed.

Lemma spaces_nonempty : Forall (fun p => p ≠ ""%string) py_spaces.
Proof. by repeat constructor. Qed.
Lemma rev_spaces_nonempty : Forall (fun p => p ≠ ""%string) (str_rev <$> py_spaces).
Proof. by repeat constructor. Qed.

Lemma rstrip_prefix s : ∃ t, s = String.append (rstrip s) t.
Proof.
  unfold rstrip. destruct (strip_many_suffix (str_rev <$> py_spaces) (String.length s) (str_rev s)) as [t Ht].
  exists (str_rev t). rewrite <- str_rev_append, <- Ht. by rewrite str_rev_involutive.
Qed.

(** Stripping twice is stripping once. *)
Lemma strip_idem s : strip (strip s) = strip s.
Proof.
  unfold strip. set (t := lstrip s).
  assert (strip_any py_spaces t = None) as Ht by (apply strip_many_done; [apply spaces_nonempty|done]).
  assert (strip_any py_spaces (rstrip t) = None) as Hr.
  { apply strip_any_None. intros p u Hp Hu. destruct (rstrip_prefix t) as [v Hv].
    rewrite strip_any_None in Ht. apply (Ht p (String.append u v) Hp). rewrite Hv at 1. by rewrite Hu, append_assoc. }
  unfold lstrip at 1. rewrite (strip_many_none _ _ _ Hr). unfold rstrip at 1.
  rewrite strip_many_none; [apply str_rev_involutive|]. unfold rstrip. rewrite str_rev_involutive.
  apply strip_many_done; [apply rev_spaces_nonempty|]. by rewrite str_rev_length.
Qed.

#[export] Hint Rewrite strip_idem str_rev_involutive String.eqb_refl : platform.

(** ** Identifier patterns and plain text *)

Definition id_char (extra : list ascii) (c : ascii) : bool := is_alnum c || existsb (Ascii.eqb c) extra.

(** [^[A-Za-z0-9][A-Za-z0-9<extra>]{0,<more>}$], matched in full. *)
Definition id_pattern (extra : list ascii) (more : nat) (s : string) : bool :=
  match s with
  | EmptyString => false
  | String c rest => is_alnum c && str_forall (id_char extra) rest && Nat.leb (String.length rest) more
  end.

(** Printable ASCII without the space. *)
Definition plain (c : ascii) : bool := ascii_between "!" "~" c.

Lemma str_forall_rev q s : str_forall q (str_rev s) = str_forall q s.
Proof.
  induction s as [|c s IH]; [done|]. change (String c s) with (String.append (String c "") s) at 1.
  rewrite str_rev_append, str_forall_app, IH. simpl. by rewrite andb_true_r, andb_comm.
Qed.

Lemma no_space_prefix ps s :
  Forall (fun q => str_forall plain q = false) ps → str_forall plain s = true → strip_any ps s = None.
Proof.
  intros Hps Hs. apply strip_any_None. intros q t Hq ->. rewrite str_forall_app in Hs.
  rewrite Forall_forall in Hps. by rewrite (Hps q Hq) in Hs.
Qed.

(** Plain text has nothing to strip. *)
Lemma strip_plain s : str_forall plain s = true → strip s = s.
Proof.
  intros Hs. unfold strip, lstrip. rewrite strip_many_none.
  - unfold rstrip. rewrite strip_many_none; [apply str_rev_involutive|]. apply no_space_prefix.
    + by repeat constructor.
    + by rewrite str_forall_rev.
  - apply no_space_prefix; [|done]. by repeat constructor.
Qed.

Lemma between_plain lo hi c :
  (N_of_ascii "!" <= N_of_ascii lo)%N → (N_of_ascii hi <= N_of_ascii "~")%N → ascii_between lo hi c = true → plain c = true.
Proof.
  unfold plain, ascii_between. rewrite !andb_true_iff, !N.leb_le. intros ? ? [? ?]. split; by etrans.
Qed.

Lemma alnum_plain c : is_alnum c = true → plain c = true.
Proof.
  unfold is_alnum. rewrite !orb_true_iff. intros [[?|?]|?]; (eapply between_plain; [| |done]); done.
Qed.

Lemma id_pattern_plain extra more s :
  forallb plain extra = true → id_pattern extra more s = true → str_forall plain s = true.
Proof.
  intros He. destruct s as [|c s]; [done|]. simpl. rewrite !andb_true_iff. intros [[Hc Hs] _].
  split; [by apply alnum_plain|]. eapply str_forall_impl; [|exact Hs]. intros x. unfold id_char.
  rewrite orb_true_iff. intros [Hx|Hx]; [by apply alnum_plain|]. apply existsb_exists in Hx as (y & Hy & ->%Ascii.eqb_eq).
  rewrite forallb_forall in He. by apply He.
Qed.
