(* ===== verification/Redis.v ===== *)
(** * The Redis database of the run queue and the Lua values of its scripts

    [src/app/queue.py] keeps every fact about queued and leased runs in Redis
    and changes it through Lua scripts that Redis runs atomically.  This file
    holds the part of Redis and of its embedded Lua that those scripts use: the
    store ([store], one field per key of [QueueKeys]), the commands on lists,
    hashes, sorted sets and expiring string keys, and the Lua values a script
    gets from [cjson.decode].

    - Time is [redis.call("TIME")] in microseconds.  A Lua number is a count of
      millionths ([LFin]), an infinity or a NaN; every number the scripts
      compute (times from TIME, counters, limits) is such a count.
    - Lua's number formatting and Redis's bundled [cjson] are C code: they are
      the fields of the class [LuaRuntime], and [LuaRuntimeLaws] states what
      their documentation promises.  Both print numbers with 14 significant
      digits, so a round trip is exact on integers below 10^14 and rounds
      timestamps; [lua_round] is that rounding.
    - A field missing from a table is Lua's [nil], written [None]; JSON's null
      decodes to the value [cjson.null], which is not [nil]. *)
From stdpp Require Import base gmap list strings.
From Stdlib Require Import ZArith Lia Ascii.
From S2P Require Import Prelude.



(** ** The store *)

(** A fence key: its value and the time, in milliseconds, it expires at. *)
Record fence := Fence { fence_token : string; fence_expire_ms : Z }.

Record store := Store {
  st_queued : list string;
  st_processing : list string;
  st_dead_letter : list string;
  st_processing_meta : gmap string string;
  st_retry_meta : gmap string string;
  st_queued_meta : gmap string string;
  st_queued_run_index : gmap string string;
  st_worker_heartbeat : gmap string string;
  st_queued_order : gmap string Z;
  st_queued_sequence : Z;
  st_fences : gmap string fence
}.

Definition empty_store : store := Store [] [] [] ∅ ∅ ∅ ∅ ∅ ∅ 0 ∅.

Definition set_queued (f : list string → list string) (st : store) : store :=
  Store (f (st_queued st)) (st_processing st) (st_dead_letter st) (st_processing_meta st)
    (st_retry_meta st) (st_queued_meta st) (st_queued_run_index st) (st_worker_heartbeat st)
    (st_queued_order st) (st_queued_sequence st) (st_fences st).
Definition set_processing (f : list string → list string) (st : store) : store :=
  Store (st_queued st) (f (st_processing st)) (st_dead_letter st) (st_processing_meta st)
    (st_retry_meta st) (st_queued_meta st) (st_queued_run_index st) (st_worker_heartbeat st)
    (st_queued_order st) (st_queued_sequence st) (st_fences st).
Definition set_dead_letter (f : list string → list string) (st : store) : store :=
  Store (st_queued st) (st_processing st) (f (st_dead_letter st)) (st_processing_meta st)
    (st_retry_meta st) (st_queued_meta st) (st_queued_run_index st) (st_worker_heartbeat st)
    (st_queued_order st) (st_queued_sequence st) (st_fences st).
Definition set_processing_meta (f : gmap string string → gmap string string) (st : store) : store :=
  Store (st_queued st) (st_processing st) (st_dead_letter st) (f (st_processing_meta st))
    (st_retry_meta st) (st_queued_meta st) (st_queued_run_index st) (st_worker_heartbeat st)
    (st_queued_order st) (st_queued_sequence st) (st_fences st).
Definition set_retry_meta (f : gmap string string → gmap string string) (st : store) : store :=
  Store (st_queued st) (st_processing st) (st_dead_letter st) (st_processing_meta st)
    (f (st_retry_meta st)) (st_queued_meta st) (st_queued_run_index st) (st_worker_heartbeat st)
    (st_queued_order st) (st_queued_sequence st) (st_fences st).
Definition set_queued_meta (f : gmap string string → gmap string string) (st : store) : store :=
  Store (st_queued st) (st_processing st) (st_dead_letter st) (st_processing_meta st)
    (st_retry_meta st) (f (st_queued_meta st)) (st_queued_run_index st) (st_worker_heartbeat st)
    (st_queued_order st) (st_queued_sequence st) (st_fences st).
Definition set_queued_run_index (f : gmap string string → gmap string string) (st : store) : store :=
  Store (st_queued st) (st_processing st) (st_dead_letter st) (st_processing_meta st)
    (st_retry_meta st) (st_queued_meta st) (f (st_queued_run_index st)) (st_worker_heartbeat st)
    (st_queued_order st) (st_queued_sequence st) (st_fences st).
Definition set_worker_heartbeat (f : gmap string string → gmap string string) (st : store) : store :=
  Store (st_queued st) (st_processing st) (st_dead_letter st) (st_processing_meta st)
    (st_retry_meta st) (st_queued_meta st) (st_queued_run_index st) (f (st_worker_heartbeat st))
    (st_queued_order st) (st_queued_sequence st) (st_fences st).
Definition set_queued_order (f : gmap string Z → gmap string Z) (st : store) : store :=
  Store (st_queued st) (st_processing st) (st_dead_letter st) (st_processing_meta st)
    (st_retry_meta st) (st_queued_meta st) (st_queued_run_index st) (st_worker_heartbeat st)
    (f (st_queued_order st)) (st_queued_sequence st) (st_fences st).
Definition set_queued_sequence (f : Z → Z) (st : store) : store :=
  Store (st_queued st) (st_processing st) (st_dead_letter st) (st_processing_meta st)
    (st_retry_meta st) (st_queued_meta st) (st_queued_run_index st) (st_worker_heartbeat st)
    (st_queued_order st) (f (st_queued_sequence st)) (st_fences st).
Definition set_fences (f : gmap string fence → gmap string fence) (st : store) : store :=
  Store (st_queued st) (st_processing st) (st_dead_letter st) (st_processing_meta st)
    (st_retry_meta st) (st_queued_meta st) (st_queued_run_index st) (st_worker_heartbeat st)
    (st_queued_order st) (st_queued_sequence st) (f (st_fences st)).

(** ** Commands *)

(** LLEN. *)
Definition llen (l : list string) : Z := Z.of_nat (length l).

(** LINDEX at a non-negative index. *)
Definition lindex (l : list string) (i : Z) : option string := l !! Z.to_nat i.

(** LRANGE and LTRIM keep the elements from [start] to [stop] inclusive; a
    negative index counts from the end, and a range out of the list is empty. *)
Definition norm_index (l : list string) (i : Z) : Z := if i <? 0 then llen l + i else i.
Definition lrange (l : list string) (start stop : Z) : list string :=
  let s := Z.max 0 (norm_index l start) in
  let e := Z.min (llen l - 1) (norm_index l stop) in
  if e <? s then [] else take (Z.to_nat (e - s + 1)) (drop (Z.to_nat s) l).
Definition ltrim (l : list string) (start stop : Z) : list string := lrange l start stop.

(** LSET at an index in range. *)
Definition lset (l : list string) (i : Z) (x : string) : list string := <[Z.to_nat i := x]> l.

(** LREM with count 1: remove the first occurrence from the head. *)
Fixpoint lrem1 (x : string) (l : list string) : list string :=
  match l with
  | [] => []
  | y :: l' => if String.eqb y x then l' else y :: lrem1 x l'
  end.
(** LREM with count 0: remove every occurrence. *)
Fixpoint lrem0 (x : string) (l : list string) : list string :=
  match l with
  | [] => []
  | y :: l' => if String.eqb y x then lrem0 x l' else y :: lrem0 x l'
  end.
(** What LREM returns: how many elements went. *)
Definition removed_count (before after : list string) : Z := llen before - llen after.

(** ZRANK: members in order of score, then of their bytes. *)
Fixpoint str_ltb (a b : string) : bool :=
  match a, b with
  | EmptyString, String _ _ => true
  | String x a', String y b' =>
      if Ascii.eqb x y then str_ltb a' b' else (N_of_ascii x <? N_of_ascii y)%N
  | _, EmptyString => false
  end.
Definition zbefore (a b : string * Z) : bool :=
  (a.2 <? b.2) || ((a.2 =? b.2) && str_ltb a.1 b.1).
Definition zrank (m : gmap string Z) (x : string) : option Z :=
  (fun score => Z.of_nat (length (List.filter (fun p => zbefore p (x, score)) (map_to_list m))))
    <$> m !! x.

(** EXISTS, GET and SET ... PX on fence keys; a key is gone once the clock, in
    milliseconds, is past its expiry. *)
Definition ms_of (now : Z) : Z := now / 1000.
Definition fence_get (st : store) (now : Z) (key : string) : option string :=
  match st_fences st !! key with
  | Some f => if ms_of now <=? fence_expire_ms f then Some (fence_token f) else None
  | None => None
  end.
Definition fence_exists (st : store) (now : Z) (key : string) : bool :=
  match fence_get st now key with Some _ => true | None => false end.
Definition fence_set (key token : string) (now ttl_ms : Z) (st : store) : store :=
  set_fences (insert key (Fence token (ms_of now + ttl_ms))) st.

(** ** Lua values *)

(** A Lua number, in millionths when finite. *)
Inductive luanum := LFin (micros : Z) | LInf (neg : bool) | LNaN.

Definition lint (n : Z) : luanum := LFin (n * 1000000).

Definition lnum_ltb (a b : luanum) : bool :=
  match a, b with
  | LFin x, LFin y => x <? y
  | LFin _, LInf neg => negb neg
  | LInf neg, LFin _ => neg
  | LInf n1, LInf n2 => n1 && negb n2
  | LNaN, _ | _, LNaN => false
  end.
Definition lnum_eqb (a b : luanum) : bool :=
  match a, b with
  | LFin x, LFin y => x =? y
  | LInf n1, LInf n2 => Bool.eqb n1 n2
  | _, _ => false
  end.
Definition lnum_leb (a b : luanum) : bool := lnum_ltb a b || lnum_eqb a b.
Definition lnum_add (a b : luanum) : luanum :=
  match a, b with
  | LFin x, LFin y => LFin (x + y)
  | LNaN, _ | _, LNaN => LNaN
  | LInf n1, LInf n2 => if Bool.eqb n1 n2 then LInf n1 else LNaN
  | LInf n, LFin _ | LFin _, LInf n => LInf n
  end.
Definition lnum_neg (a : luanum) : luanum :=
  match a with LFin x => LFin (- x) | LInf n => LInf (negb n) | LNaN => LNaN end.
Definition lnum_sub (a b : luanum) : luanum := lnum_add a (lnum_neg b).
(** [x == x and x ~= math.huge and x ~= -math.huge]. *)
Definition lnum_finite (a : luanum) : bool :=
  match a with LFin _ => true | _ => false end.

(** What [cjson.decode] returns; a Lua table is an array or an object. *)
Inductive lval :=
| LNull
| LBool (b : bool)
| LNum (n : luanum)
| LStr (s : string)
| LArr (l : list lval)
| LObj (kvs : list (string * lval)).

(** Field of an association list; the first binding of the key counts. *)
Fixpoint assoc {A} (k : string) (kvs : list (string * A)) : option A :=
  match kvs with
  | [] => None
  | (k', v) :: kvs' => if String.eqb k' k then Some v else assoc k kvs'
  end.
Fixpoint assoc_set {A} (k : string) (v : A) (kvs : list (string * A)) : list (string * A) :=
  match kvs with
  | [] => [(k, v)]
  | (k', v') :: kvs' =>
      if String.eqb k' k then (k, v) :: kvs' else (k', v') :: assoc_set k v kvs'
  end.

(** [type(v) == "table"]. *)
Definition is_table (v : lval) : bool :=
  match v with LArr _ | LObj _ => true | _ => false end.

(** [t[k]] for a string key of a table. *)
Definition tfield (k : string) (t : lval) : option lval :=
  match t with LObj kvs => assoc k kvs | _ => None end.

(** [t[k] = v]; a string key makes an array a table [cjson] writes as an object
    whose array elements have the names of their positions. *)
Fixpoint index_fields (i : Z) (l : list lval) : list (string * lval) :=
  match l with
  | [] => []
  | v :: l' => (py_str_int i, v) :: index_fields (i + 1) l'
  end.
Fixpoint assoc_del {A} (k : string) (kvs : list (string * A)) : list (string * A) :=
  match kvs with
  | [] => []
  | (k', v) :: kvs' => if String.eqb k' k then assoc_del k kvs' else (k', v) :: assoc_del k kvs'
  end.
Definition tset (k : string) (v : lval) (t : lval) : lval :=
  match t with
  | LObj kvs => LObj (assoc_set k v kvs)
  | LArr l => LObj (assoc_set k v (index_fields 1 l))
  | _ => t
  end.

(** [t[k] = v] where [v] may be [nil], which removes the field. *)
Definition tset_opt (k : string) (v : option lval) (t : lval) : lval :=
  match v, t with
  | Some v, _ => tset k v t
  | None, LObj kvs => LObj (assoc_del k kvs)
  | None, _ => t
  end.

(** The elements [ipairs] visits. *)
Definition ipairs (t : lval) : list lval :=
  match t with LArr l => l | _ => [] end.

(** Redis's Lua runtime: [cjson], and Lua's conversions between numbers and
    strings.  [tostring_other] is the text [tostring] gives [cjson.null] and
    tables, which names an address. *)
Class LuaRuntime := {
  cjson_encode : lval → string;
  cjson_decode : string → option lval;
  tonumber_str : string → option luanum;
  tostring_num : luanum → string;
  tostring_other : lval → string
}.

Section Lua.
Context `{LuaRuntime}.

(** [tostring(v)]. *)
Definition lua_tostring (v : lval) : string :=
  match v with
  | LStr s => s
  | LNum n => tostring_num n
  | LBool b => if b then "true" else "false"
  | LNull | LArr _ | LObj _ => tostring_other v
  end.

(** [tostring(v or "")]: [nil] and [false] fall through to the empty string. *)
Definition tostring_or_empty (v : option lval) : string :=
  match v with
  | None | Some (LBool false) => ""
  | Some v => lua_tostring v
  end.

(** [tonumber(v)]; on [nil] it is [nil]. *)
Definition tonumber (v : option lval) : option luanum :=
  match v with
  | Some (LNum n) => Some n
  | Some (LStr s) => tonumber_str s
  | _ => None
  end.

(** [a or b]. *)
Definition lua_or (a b : option lval) : option lval :=
  match a with
  | None | Some (LBool false) => b
  | _ => a
  end.

(** [pcall(cjson.decode, raw)] restricted to tables, the shape every script
    asks for ([ok and type(x) == "table"]). *)
Definition decode_table (raw : string) : option lval :=
  match cjson_decode raw with
  | Some v => if is_table v then Some v else None
  | None => None
  end.

(** [str field k of t] is [tostring(t[k] or "")]. *)
Definition tstr (k : string) (t : lval) : string := tostring_or_empty (tfield k t).

End Lua.

(** What the scripts rely on of [cjson] and of Lua's formatting: an encoded
    object decodes to one with the same fields up to the rounding of numbers and up
    to empty tables, which are always written as objects, an encoded array of strings
    decodes to itself, integers below 10^14 survive the rounding, and the rounding
    keeps the order of numbers.  [cjson.encode] raises on a number that is not finite;
    it is taken as total here because no script encodes one: the numbers it writes
    are the server's clock, lengths and ranks of lists, and fields of JSON text that
    [cjson] or [json.dumps] wrote. *)
Fixpoint lval_round (rnd : luanum → luanum) (v : lval) : lval :=
  match v with
  | LNum n => LNum (rnd n)
  | LArr [] => LObj []
  | LArr l => LArr (map (lval_round rnd) l)
  | LObj kvs => LObj (map (fun kv => (kv.1, lval_round rnd kv.2)) kvs)
  | LNull | LBool _ | LStr _ => v
  end.

Class LuaRuntimeLaws `{LuaRuntime} (lua_round : luanum → luanum) : Prop := {
  lua_round_int : ∀ n, Z.abs n < 10 ^ 14 → lua_round (lint n) = lint n;
  lua_round_mono : ∀ a b, lnum_leb a b = true → lnum_leb (lua_round a) (lua_round b) = true;
  cjson_object : ∀ kvs, ∃ kvs',
    cjson_decode (cjson_encode (LObj kvs)) = Some (LObj kvs') ∧
    ∀ k, assoc k kvs' = lval_round lua_round <$> assoc k kvs;
  cjson_strings : ∀ ids, ids ≠ [] →
    cjson_decode (cjson_encode (LArr (LStr <$> ids))) = Some (LArr (LStr <$> ids));
  tonumber_tostring : ∀ n, tonumber_str (tostring_num n) = Some (lua_round n)
}.

(** A script's reply, before [cjson.encode]; [lua_error] stands for a script
    that Redis aborts with a Lua error. *)
Record reply := Reply { rp_status : string; rp_fields : list (string * lval) }.
Definition lua_error : reply := Reply "" [("err", LStr "lua")].
