(* ===== verification/QueueScripts.v ===== *)
(** * The Lua scripts of the run queue

    One definition per script constant of [src/app/queue.py], each the whole
    script: a function of the Redis clock, the script's key and argument
    strings and the store, to the new store and the reply.  Redis runs a script
    without interleaving anything else, so a script is one step of the queue.
    Arguments a script passes through [tonumber] and tests against [nil] are
    options of numbers; the other numeric arguments are integers. *)
From stdpp Require Import base gmap list strings.
From Stdlib Require Import ZArith Lia Ascii.
From S2P Require Import Prelude Redis.

Section Scripts.
Context `{LuaRuntime}.

(** ** Pieces the scripts share *)

(** The non-empty ids of a decoded run index. *)
Definition nonempty_ids (l : list lval) : list string :=
  List.filter str_truthy (map (fun v => tostring_or_empty (Some v)) l).

(** [remove_run_index_message], a local function of two scripts. *)
Definition remove_run_index_message (run_index_field message_id : string) (st : store) : store :=
  match st_queued_run_index st !! run_index_field with
  | None => st
  | Some raw_index =>
      match decode_table raw_index with
      | Some decoded =>
          match List.filter (fun c => negb (String.eqb c message_id))
                  (nonempty_ids (ipairs decoded)) with
          | [] => set_queued_run_index (delete run_index_field) st
          | remaining =>
              set_queued_run_index
                (insert run_index_field (cjson_encode (LArr (LStr <$> remaining)))) st
          end
      | None =>
          if String.eqb raw_index message_id
          then set_queued_run_index (delete run_index_field) st else st
      end
  end.

(** The attempt number of the next lease of a message: one more than the count
    its retry or processing metadata keeps, at least 1. *)
Definition next_attempts (st : store) (message_id : string) : luanum :=
  let source :=
    match st_retry_meta st !! message_id with
    | Some m => Some m
    | None => st_processing_meta st !! message_id
    end in
  match source with
  | None => lint 1
  | Some raw =>
      match decode_table raw with
      | None => lint 1
      | Some meta =>
          let attempts :=
            match tonumber (lua_or (tfield "attempts" meta) (Some (LNum (lint 0)))) with
            | Some parsed => lnum_add parsed (lint 1)
            | None => lint 1
            end in
          if lnum_ltb attempts (lint 1) then lint 1 else attempts
      end
  end.

(** [lease_owner_token]: protocol 2 keeps the token under its own name. *)
Definition lease_owner_token (metadata : lval) : string :=
  match tonumber (tfield "lease_protocol_version" metadata) with
  | Some v => if lnum_eqb v (lint 2) then tstr "owner_token_v2" metadata
              else tstr "owner_token" metadata
  | None => tstr "owner_token" metadata
  end.

(** The fence key a script derives from lease metadata. *)
Definition metadata_fence_key (prefix : string) (metadata : lval) : string :=
  prefix +:+ ":" +:+ tstr "tenant_id" metadata +:+ ":" +:+ tstr "run_id" metadata.

(** ** ENQUEUE_WITH_METADATA_SCRIPT *)

Definition enqueue_index_ids (raw_index : option string) : list string :=
  match raw_index with
  | None => []
  | Some raw =>
      match decode_table raw with
      | Some decoded => nonempty_ids (ipairs decoded)
      | None => if str_truthy raw then [raw] else []
      end
  end.

Definition enqueue_script (now : Z)
    (fence_key raw message_id run_index_field metadata_json : string)
    (st : store) : store * reply :=
  if fence_exists st now fence_key then (st, Reply "reconciliation_fenced" []) else
  let message_ids := enqueue_index_ids (st_queued_run_index st !! run_index_field) in
  match (if str_in message_id message_ids then st_queued_meta st !! message_id else None),
        zrank (st_queued_order st) message_id with
  | Some raw_metadata, Some rank =>
      let sequence :=
        match decode_table raw_metadata with
        | Some existing =>
            default (lint (rank + 1))
              (tonumber (lua_or (tfield "sequence" existing) (Some (LNum (lint (rank + 1))))))
        | None => lint (rank + 1)
        end in
      (st, Reply "already_enqueued"
             [("position", LNum (lint (rank + 1))); ("sequence", LNum sequence)])
  | _, _ =>
      match st_processing_meta st !! message_id, st_retry_meta st !! message_id with
      | None, None =>
          let message_ids :=
            List.filter (fun c => negb (String.eqb c message_id)) message_ids ++ [message_id] in
          let sequence := st_queued_sequence st + 1 in
          let metadata := default (LObj []) (decode_table metadata_json) in
          let metadata :=
            tset "raw" (LStr raw) (tset "sequence" (LNum (lint sequence)) metadata) in
          let st := set_queued_sequence (fun n => n + 1) st in
          let st := set_queued (fun l => l ++ [raw]) st in
          let st := set_queued_meta (insert message_id (cjson_encode metadata)) st in
          let st := set_queued_run_index
                      (insert run_index_field (cjson_encode (LArr (LStr <$> message_ids)))) st in
          let st := set_queued_order (insert message_id sequence) st in
          (st, Reply "enqueued"
                 [("position", LNum (lint (llen (st_queued st))));
                  ("sequence", LNum (lint sequence))])
      | _, _ =>
          (st, Reply "already_leased" [("position", LNum (lint 0)); ("sequence", LNum (lint 0))])
      end
  end.

(** ** REMOVE_QUEUED_WITH_METADATA_SCRIPT *)

(** One round of its loop: the store, the elements removed and the matches. *)
Definition remove_queued_one (tenant_id run_id : string)
    (acc : store * Z * Z) (message_id : string) : store * Z * Z :=
  let '(st, removed_total, matched) := acc in
  match st_queued_meta st !! message_id with
  | None => (set_queued_order (delete message_id) st, removed_total, matched)
  | Some raw_metadata =>
      match decode_table raw_metadata with
      | None =>
          (set_queued_order (delete message_id) (set_queued_meta (delete message_id) st),
           removed_total, matched)
      | Some metadata =>
          if String.eqb (tstr "tenant_id" metadata) tenant_id
             && String.eqb (tstr "run_id" metadata) run_id then
            let raw := tstr "raw" metadata in
            let st' := if str_truthy raw then set_queued (lrem0 raw) st else st in
            let removed_total :=
              removed_total + removed_count (st_queued st) (st_queued st') in
            (set_queued_order (delete message_id) (set_queued_meta (delete message_id) st'),
             removed_total, matched + 1)
          else (st, removed_total, matched)
      end
  end.

Definition remove_queued_script (run_index_field tenant_id run_id : string)
    (st : store) : store * reply :=
  match st_queued_run_index st !! run_index_field with
  | None => (st, Reply "missing_index" [("removed", LNum (lint 0))])
  | Some raw_index =>
      let message_ids :=
        match decode_table raw_index with
        | Some decoded => nonempty_ids (ipairs decoded)
        | None => [raw_index]
        end in
      let '(st, removed_total, matched) :=
        fold_left (remove_queued_one tenant_id run_id) message_ids (st, 0, 0) in
      let st := set_queued_run_index (delete run_index_field) st in
      if matched =? 0 then (st, Reply "missing_metadata" [("removed", LNum (lint 0))])
      else (st, Reply "removed" [("removed", LNum (lint removed_total))])
  end.

(** ** LEASE_QUOTA_SCRIPT *)

(** The leased runs of the tenant and of its user. *)
Definition processing_counts (tenant_id user_id : string) (items : list string) : Z * Z :=
  fold_left
    (fun acc raw =>
       match decode_table raw with
       | Some payload =>
           if String.eqb (tstr "tenant_id" payload) tenant_id then
             (acc.1 + 1,
              if String.eqb (tstr "user_id" payload) user_id then acc.2 + 1 else acc.2)
           else acc
       | None => acc
       end)
    items (0, 0).

Definition move_sentinel (kind message_id : string) (now : luanum) (worker_id : string) : string :=
  kind +:+ ":" +:+ message_id +:+ ":" +:+ tostring_num now +:+ ":" +:+ worker_id.

(** The metadata a lease stores for its message. *)
Definition lease_metadata (raw message_id worker_id tenant_id user_id run_id attempt_id
    owner_token : string) (now : Z) (attempts : luanum)
    (tenant_processing user_processing tenant_limit user_limit : Z) : lval :=
  LObj
    [("message_id", LStr message_id); ("raw", LStr raw); ("attempts", LNum attempts);
     ("leased_at", LNum (LFin now)); ("heartbeat_at", LNum (LFin now));
     ("worker_id", LStr worker_id); ("attempt_id", LStr attempt_id);
     ("lease_protocol_version", LNum (lint 2)); ("owner_token_v2", LStr owner_token);
     ("run_id", LStr run_id); ("tenant_id", LStr tenant_id); ("user_id", LStr user_id);
     ("quota_snapshot",
       LObj
         [("tenant_processing", LNum (lint tenant_processing));
          ("tenant_processing_limit", LNum (lint tenant_limit));
          ("tenant_processing_saturated",
            LBool ((0 <? tenant_limit) && (tenant_limit <=? tenant_processing)));
          ("user_processing", LNum (lint user_processing));
          ("user_processing_limit", LNum (lint user_limit));
          ("user_processing_saturated",
            LBool ((0 <? user_limit) && (user_limit <=? user_processing)))])].

Definition lease_script (now : Z) (fence_key raw : string) (absolute_index : Z)
    (message_id worker_id : string) (max_processing_runs tenant_limit user_limit : Z)
    (tenant_id user_id run_id attempt_id owner_token : string)
    (st : store) : store * reply :=
  if fence_exists st now fence_key then (st, Reply "reconciliation_fenced" []) else
  if (0 <? max_processing_runs) && (max_processing_runs <=? llen (st_processing st)) then
    (st, Reply "capacity_full" []) else
  if (absolute_index <? 0) || (llen (st_queued st) <=? absolute_index) then
    (st, Reply "conflict" []) else
  if negb (bool_decide (lindex (st_queued st) absolute_index = Some raw)) then
    (st, Reply "conflict" []) else
  let '(tenant_processing, user_processing) :=
    processing_counts tenant_id user_id (st_processing st) in
  let counts := [("tenant_processing", LNum (lint tenant_processing));
                 ("user_processing", LNum (lint user_processing))] in
  if (0 <? tenant_limit) && (tenant_limit <=? tenant_processing) then
    (st, Reply "quota_blocked" counts) else
  if (0 <? user_limit) && (user_limit <=? user_processing) then
    (st, Reply "quota_blocked" counts) else
  let attempts := next_attempts st message_id in
  let sentinel := move_sentinel "__ai_platform_queue_move__" message_id (LFin now) worker_id in
  let st := set_queued (fun l => lrem1 sentinel (lset l absolute_index sentinel)) st in
  let st := set_queued_meta (delete message_id) st in
  let st := remove_run_index_message (tenant_id +:+ ":" +:+ run_id) message_id st in
  let st := set_queued_order (delete message_id) st in
  let st := set_processing (cons raw) st in
  let encoded_meta :=
    cjson_encode (lease_metadata raw message_id worker_id tenant_id user_id run_id attempt_id
                    owner_token now attempts tenant_processing user_processing
                    tenant_limit user_limit) in
  let st := set_processing_meta (insert message_id encoded_meta) st in
  let st := set_retry_meta (insert message_id encoded_meta) st in
  let st := set_worker_heartbeat (insert worker_id (tostring_num (LFin now))) st in
  (st, Reply "leased"
         ([("attempts", LNum attempts); ("leased_at", LNum (LFin now));
           ("attempt_id", LStr attempt_id); ("owner_token", LStr owner_token)] ++ counts)).

(** ** DEAD_LETTER_INVALID_QUOTA_SCRIPT *)

Definition dead_letter_invalid_script (raw : string) (absolute_index : Z)
    (message_id worker_id : string) (now : luanum) (error_message : string)
    (st : store) : store * reply :=
  if (absolute_index <? 0) || (llen (st_queued st) <=? absolute_index) then
    (st, Reply "conflict" []) else
  if negb (bool_decide (lindex (st_queued st) absolute_index = Some raw)) then
    (st, Reply "conflict" []) else
  let attempts := next_attempts st message_id in
  let sentinel :=
    move_sentinel "__ai_platform_queue_dead_letter__" message_id now worker_id in
  let st := set_queued (fun l => lrem1 sentinel (lset l absolute_index sentinel)) st in
  let st :=
    match st_queued_meta st !! message_id with
    | None => st
    | Some raw_queued_meta =>
        match decode_table raw_queued_meta with
        | None => st
        | Some queued_meta =>
            let tenant_id := tstr "tenant_id" queued_meta in
            let run_id := tstr "run_id" queued_meta in
            if str_truthy tenant_id && str_truthy run_id
            then remove_run_index_message (tenant_id +:+ ":" +:+ run_id) message_id st else st
        end
    end in
  let st := set_queued_meta (delete message_id) st in
  let st := set_queued_order (delete message_id) st in
  let dead_letter :=
    LObj [("schema_version", LStr "ai-platform.dead-letter.v1");
          ("error_code", LStr "invalid_queue_payload"); ("error_message", LStr error_message);
          ("attempts", LNum attempts); ("worker_id", LStr worker_id); ("raw", LStr raw);
          ("created_at", LNum now)] in
  let st := set_dead_letter (fun l => l ++ [cjson_encode dead_letter]) st in
  let st := set_retry_meta (delete message_id) st in
  (st, Reply "dead_lettered" [("attempts", LNum attempts)]).

(** ** ACQUIRE_RECONCILIATION_FENCE_SCRIPT *)

Inductive ownership := Absent | Owned | Inconclusive.

Definition ownership_status (o : ownership) : string :=
  match o with Absent => "absent" | Owned => "owned" | Inconclusive => "inconclusive" end.

(** [list_has_run]. *)
Fixpoint list_has_run (tenant_id run_id : string) (items : list string) : ownership :=
  match items with
  | [] => Absent
  | raw :: items' =>
      match decode_table raw with
      | None => Inconclusive
      | Some payload =>
          if String.eqb (tstr "tenant_id" payload) tenant_id
             && String.eqb (tstr "run_id" payload) run_id
          then Owned else list_has_run tenant_id run_id items'
      end
  end.

(** The latest of the activity times a lease's metadata carries: [None] when one
    is not a number, is in the future, or none is there. *)
Definition last_activity (now : luanum) (metadata : lval) : option luanum :=
  let step (acc : option (option luanum)) (field : string) : option (option luanum) :=
    match acc with
    | None => None
    | Some last =>
        match tfield field metadata with
        | None => Some last
        | Some v =>
            match tonumber (Some v) with
            | None => None
            | Some activity =>
                if lnum_ltb now activity then None else
                match last with
                | None => Some (Some activity)
                | Some l => if lnum_ltb l activity then Some (Some activity) else Some last
                end
            end
        end
    end in
  default None (fold_left step ["heartbeat_at"; "leased_at"] (Some None)).

(** What one entry of a metadata hash says about the run; [None] lets the scan
    go on to the next entry. *)
Definition metadata_entry_state (st : store) (tenant_id run_id : string) (now worker_ttl : luanum)
    (queued_metadata : bool) (message_id raw_metadata : string) : option ownership :=
  match decode_table raw_metadata with
  | None => Some Inconclusive
  | Some metadata =>
      if negb (String.eqb (tstr "tenant_id" metadata) tenant_id
               && String.eqb (tstr "run_id" metadata) run_id) then None else
      if queued_metadata then Some Owned else
      let worker_id := tstr "worker_id" metadata in
      if String.eqb worker_id "" then Some Inconclusive else
      match last_activity now metadata with
      | None => Some Inconclusive
      | Some activity =>
          let worker_active : option bool :=
            match st_worker_heartbeat st !! worker_id with
            | None => Some false
            | Some raw_worker_heartbeat =>
                match tonumber_str raw_worker_heartbeat with
                | None => None
                | Some worker_heartbeat =>
                    if lnum_ltb now worker_heartbeat then None
                    else Some (lnum_leb (lnum_sub now worker_heartbeat) worker_ttl)
                end
            end in
          match worker_active with
          | None => Some Inconclusive
          | Some worker_active =>
              if negb (lnum_leb (lnum_sub now activity) worker_ttl && worker_active) then None else
              match tfield "raw" metadata with
              | Some (LStr metadata_raw) =>
                  if String.eqb metadata_raw ""
                     || negb (String.eqb (tstr "message_id" metadata) message_id)
                  then Some Inconclusive else
                  match decode_table metadata_raw with
                  | None => Some Inconclusive
                  | Some raw_payload =>
                      if String.eqb (tstr "tenant_id" raw_payload) tenant_id
                         && String.eqb (tstr "run_id" raw_payload) run_id
                         && str_in metadata_raw (st_processing st)
                      then Some Owned else Some Inconclusive
                  end
              | _ => Some Inconclusive
              end
          end
      end
  end.

(** [metadata_state]: the first entry that decides, in the order HGETALL lists. *)
Definition metadata_state (st : store) (tenant_id run_id : string) (now worker_ttl : luanum)
    (scan_limit : Z) (queued_metadata : bool) (hash : gmap string string) : ownership :=
  if scan_limit <? Z.of_nat (size hash) then Inconclusive else
  (fix scan (items : list (string * string)) : ownership :=
     match items with
     | [] => Absent
     | (message_id, raw_metadata) :: items' =>
         match metadata_entry_state st tenant_id run_id now worker_ttl queued_metadata
                 message_id raw_metadata with
         | Some o => o
         | None => scan items'
         end
     end) (map_to_list hash).

Definition first_present (states : list ownership) : ownership :=
  fold_right (fun o rest => match o with Absent => rest | _ => o end) Absent states.

Definition acquire_fence_script (now : Z)
    (fence_key tenant_id run_id run_index_field owner_token : string)
    (worker_ttl : option luanum) (scan_limit fence_ttl_ms : option Z)
    (st : store) : store * reply :=
  if fence_exists st now fence_key then (st, Reply "fenced" []) else
  match worker_ttl, scan_limit, fence_ttl_ms with
  | Some worker_ttl, Some scan_limit, Some fence_ttl_ms =>
      if (scan_limit <? 1) || (fence_ttl_ms <? 1) then (st, Reply "inconclusive" []) else
      if (scan_limit <? llen (st_queued st)) || (scan_limit <? llen (st_processing st)) then
        (st, Reply "inconclusive" []) else
      match list_has_run tenant_id run_id (st_queued st) with
      | Absent =>
          match list_has_run tenant_id run_id (st_processing st) with
          | Absent =>
              match st_queued_run_index st !! run_index_field with
              | Some _ => (st, Reply "owned" [])
              | None =>
                  let state := metadata_state st tenant_id run_id (LFin now) worker_ttl scan_limit in
                  match first_present [state true (st_queued_meta st);
                                       state false (st_processing_meta st);
                                       state false (st_retry_meta st)] with
                  | Absent =>
                      (fence_set fence_key owner_token now fence_ttl_ms st, Reply "claimed" [])
                  | o => (st, Reply (ownership_status o) [])
                  end
              end
          | o => (st, Reply (ownership_status o) [])
          end
      | o => (st, Reply (ownership_status o) [])
      end
  | _, _, _ => (st, Reply "inconclusive" [])
  end.

(** ** RELEASE_RECONCILIATION_FENCE_SCRIPT and RENEW_RECONCILIATION_FENCE_SCRIPT *)

Definition release_fence_script (now : Z) (fence_key owner_token : string)
    (st : store) : store * Z :=
  match fence_get st now fence_key with
  | Some token =>
      if String.eqb token owner_token then (set_fences (delete fence_key) st, 1) else (st, 0)
  | None => (st, 0)
  end.

Definition renew_fence_script (now : Z) (fence_key owner_token : string)
    (fence_ttl_ms : option Z) (st : store) : store * reply :=
  match fence_ttl_ms with
  | None => (st, Reply "invalid_ttl" [])
  | Some ttl =>
      if ttl <? 1 then (st, Reply "invalid_ttl" []) else
      match fence_get st now fence_key with
      | Some token =>
          if String.eqb token owner_token
          then (fence_set fence_key owner_token now ttl st, Reply "renewed" [])
          else (st, Reply "owner_lost" [])
      | None => (st, Reply "owner_lost" [])
      end
  end.

(** ** REQUEUE_WITH_FENCE_SCRIPT and DEAD_LETTER_EXPIRED_LEASE_WITH_FENCE_SCRIPT *)

(** The lease metadata belongs to the expected attempt and owner. *)
Definition lease_matches (message_id attempt_id owner_token : string) (metadata : lval) : bool :=
  String.eqb (tstr "message_id" metadata) message_id
  && String.eqb (tstr "attempt_id" metadata) attempt_id
  && String.eqb (lease_owner_token metadata) owner_token.

(** [hget processing_meta] or else [hget retry_meta], decoded. *)
Definition current_lease (st : store) (message_id : string) : option lval :=
  match st_processing_meta st !! message_id with
  | Some raw => decode_table raw
  | None => match st_retry_meta st !! message_id with
            | Some raw => decode_table raw
            | None => None
            end
  end.

(** [metadata[field] = now] when the field is a number in the future. *)
Definition clamp_future (now : luanum) (field : string) (metadata : lval) : lval * bool :=
  match tonumber (tfield field metadata) with
  | Some t => if lnum_ltb now t then (tset field (LNum now) metadata, true) else (metadata, false)
  | None => (metadata, false)
  end.

(** [normalize_matching_future_metadata] on one hash. *)
Definition normalize_future (now : luanum) (message_id attempt_id owner_token : string)
    (hash : gmap string string) : gmap string string :=
  match hash !! message_id with
  | None => hash
  | Some raw =>
      match decode_table raw with
      | None => hash
      | Some metadata =>
          if lease_matches message_id attempt_id owner_token metadata then
            let '(metadata, changed1) := clamp_future now "heartbeat_at" metadata in
            let '(metadata, changed2) := clamp_future now "leased_at" metadata in
            if changed1 || changed2 then <[message_id := cjson_encode metadata]> hash else hash
          else hash
      end
  end.

(** The checks the two scripts open with: [inl] ends the script with that
    store and reply, [inr] goes on with the normalized store. *)
Definition expired_lease_gate (now : Z) (fence_key message_id attempt_id owner_token : string)
    (visibility : option luanum) (st : store) : (store * reply) + store :=
  if fence_exists st now fence_key then inl (st, Reply "reconciliation_fenced" []) else
  match current_lease st message_id with
  | None => inl (st, Reply "stale_owner" [])
  | Some lease =>
      if negb (lease_matches message_id attempt_id owner_token lease)
      then inl (st, Reply "stale_owner" []) else
      match visibility with
      | None => inl (st, Reply "inconclusive" [])
      | Some visibility =>
          if lnum_ltb visibility (lint 1) then inl (st, Reply "inconclusive" []) else
          match tonumber (lua_or (tfield "heartbeat_at" lease) (tfield "leased_at" lease)) with
          | None => inl (st, Reply "inconclusive" [])
          | Some activity =>
              if negb (lnum_finite activity) then inl (st, Reply "inconclusive" []) else
              let norm := normalize_future (LFin now) message_id attempt_id owner_token in
              let st := set_retry_meta norm (set_processing_meta norm st) in
              if lnum_ltb (LFin now) activity
              then inl (st, Reply "lease_clock_normalized" [("heartbeat_at", LNum (LFin now))]) else
              if lnum_leb (lnum_sub (LFin now) activity) visibility
              then inl (st, Reply "lease_active" []) else inr st
          end
      end
  end.

Definition requeue_script (now : Z) (fence_key raw message_id run_index_field metadata_json
    retry_metadata_json attempt_id owner_token : string) (visibility : option luanum)
    (st : store) : store * reply :=
  match expired_lease_gate now fence_key message_id attempt_id owner_token visibility st with
  | inl out => out
  | inr st =>
      match decode_table metadata_json with
      | None => (st, Reply "inconclusive" [])
      | Some metadata =>
          let index_ids : option (list string) :=
            match st_queued_run_index st !! run_index_field with
            | None => Some []
            | Some raw_index =>
                match decode_table raw_index with
                | None => None
                | Some decoded =>
                    Some (List.filter (fun c => negb (String.eqb c message_id))
                            (nonempty_ids (ipairs decoded)))
                end
            end in
          match index_ids with
          | None => (st, Reply "inconclusive" [])
          | Some ids =>
              let message_ids := ids ++ [message_id] in
              if negb (str_in raw (st_processing st)) then (st, Reply "processing_missing" []) else
              let sequence := st_queued_sequence st + 1 in
              let metadata :=
                tset "raw" (LStr raw) (tset "sequence" (LNum (lint sequence)) metadata) in
              let st := set_queued_sequence (fun n => n + 1) st in
              let st' := set_processing (lrem1 raw) st in
              if negb (removed_count (st_processing st) (st_processing st') =? 1)
              then (st', Reply "processing_missing" []) else
              let st := set_processing_meta (delete message_id) st' in
              let st := set_queued (fun l => l ++ [raw]) st in
              let st := set_queued_meta (insert message_id (cjson_encode metadata)) st in
              let st := set_queued_run_index
                          (insert run_index_field (cjson_encode (LArr (LStr <$> message_ids)))) st in
              let st := set_queued_order (insert message_id sequence) st in
              let st := if str_truthy retry_metadata_json
                        then set_retry_meta (insert message_id retry_metadata_json) st else st in
              (st, Reply "requeued" [])
          end
      end
  end.

Definition dead_letter_expired_script (now : Z) (fence_key raw message_id dead_letter_json : string)
    (remove_processing_meta : bool) (attempt_id owner_token : string)
    (visibility : option luanum) (st : store) : store * reply :=
  match expired_lease_gate now fence_key message_id attempt_id owner_token visibility st with
  | inl out => out
  | inr st =>
      let st := set_processing (lrem1 raw) st in
      let st := if remove_processing_meta then set_processing_meta (delete message_id) st else st in
      let st := set_dead_letter (fun l => l ++ [dead_letter_json]) st in
      let st := set_retry_meta (delete message_id) st in
      (st, Reply "dead_lettered" [])
  end.

(** ** HEARTBEAT_WITH_FENCE_SCRIPT *)

(** [timestamp_is_future]: [None] is Lua's [nil], an unusable timestamp. *)
Definition timestamp_is_future (heartbeat_at : luanum) (value : option lval) : option bool :=
  match value with
  | None | Some (LBool false) => Some false
  | Some v =>
      match tonumber (Some v) with
      | Some t => if lnum_finite t then Some (lnum_ltb heartbeat_at t) else None
      | None => None
      end
  end.

(** All the flags, or [None] when one is [nil]. *)
Fixpoint all_flags (flags : list (option bool)) : option (list bool) :=
  match flags with
  | [] => Some []
  | None :: _ => None
  | Some b :: flags' => cons b <$> all_flags flags'
  end.

(** Lease metadata of exactly this message, attempt, owner and worker. *)
Definition worker_lease_matches (message_id attempt_id owner_token worker_id : string)
    (metadata : lval) : bool :=
  lease_matches message_id attempt_id owner_token metadata
  && String.eqb (tstr "worker_id" metadata) worker_id.

Definition heartbeat_script (now : Z)
    (message_id attempt_id owner_token worker_id fence_prefix : string)
    (st : store) : store * reply :=
  match st_processing_meta st !! message_id with
  | None => (st, Reply "missing" [])
  | Some raw_metadata =>
  match decode_table raw_metadata with
  | None => (st, Reply "inconclusive" [])
  | Some metadata =>
  if negb (worker_lease_matches message_id attempt_id owner_token worker_id metadata)
  then (st, Reply "stale_owner" []) else
  let retry : option lval + reply :=
    match st_retry_meta st !! message_id with
    | None => inl None
    | Some raw_retry =>
        match decode_table raw_retry with
        | None => inr (Reply "inconclusive" [])
        | Some retry =>
            if negb (worker_lease_matches message_id attempt_id owner_token worker_id retry)
            then inr (Reply "stale_owner" []) else inl (Some retry)
        end
    end in
  match retry with
  | inr r => (st, r)
  | inl retry =>
  if fence_exists st now (metadata_fence_key fence_prefix metadata)
  then (st, Reply "reconciliation_fenced" []) else
  let heartbeat_at := LFin now in
  let retry_flag field :=
    match retry with
    | Some r => [timestamp_is_future heartbeat_at (tfield field r)]
    | None => []
    end in
  let flags :=
    ([timestamp_is_future heartbeat_at (tfield "leased_at" metadata)] ++ retry_flag "leased_at"
     ++ [timestamp_is_future heartbeat_at (tfield "heartbeat_at" metadata)]
     ++ retry_flag "heartbeat_at"
     ++ [timestamp_is_future heartbeat_at (LStr <$> st_worker_heartbeat st !! worker_id)])%list in
  match all_flags flags with
  | None => (st, Reply "inconclusive" [])
  | Some flags =>
      let clock_regressed := existsb id flags in
      let metadata :=
        if clock_regressed then tset "leased_at" (LNum heartbeat_at) metadata else metadata in
      let encoded := cjson_encode (tset "heartbeat_at" (LNum heartbeat_at) metadata) in
      let st := set_processing_meta (insert message_id encoded) st in
      let st := set_retry_meta (insert message_id encoded) st in
      let st := set_worker_heartbeat (insert worker_id (tostring_num heartbeat_at)) st in
      (st, if clock_regressed then Reply "clock_regressed" []
           else Reply "heartbeat" [("heartbeat_at", LNum heartbeat_at)])
  end
  end
  end
  end.

(** ** ACK_LEASE_SCRIPT, FAIL_LEASE_SCRIPT and VERIFY_LEASE_OWNERSHIP_SCRIPT *)

(** The checks all three open with, on the decoded processing metadata: [inl]
    ends the script, [inr] goes on with the metadata. *)
Definition owned_lease_gate (now : Z) (fence_key raw message_id attempt_id owner_token
    fence_prefix : string) (worker_id : option string) (st : store) : reply + lval :=
  match st_processing_meta st !! message_id ≫= decode_table with
  | None => inl (Reply "stale_owner" [])
  | Some metadata =>
      if negb (lease_matches message_id attempt_id owner_token metadata
               && String.eqb (tstr "raw" metadata) raw
               && match worker_id with
                  | Some w => String.eqb (tstr "worker_id" metadata) w
                  | None => true
                  end)
      then inl (Reply "stale_owner" []) else
      if negb (String.eqb fence_key (metadata_fence_key fence_prefix metadata))
      then inl (Reply "stale_owner" []) else
      if fence_exists st now fence_key then inl (Reply "reconciliation_fenced" []) else
      inr metadata
  end.

Definition ack_script (now : Z)
    (fence_key raw message_id attempt_id owner_token fence_prefix : string)
    (st : store) : store * reply :=
  match owned_lease_gate now fence_key raw message_id attempt_id owner_token fence_prefix None st with
  | inl r => (st, r)
  | inr _ =>
      let st := set_processing (lrem1 raw) st in
      let st := set_processing_meta (delete message_id) st in
      let st := set_retry_meta (delete message_id) st in
      (st, Reply "acked" [])
  end.

Definition fail_script (now : Z)
    (fence_key raw message_id attempt_id owner_token dead_letter_json fence_prefix : string)
    (st : store) : store * reply :=
  match owned_lease_gate now fence_key raw message_id attempt_id owner_token fence_prefix None st with
  | inl r => (st, r)
  | inr metadata =>
      match decode_table dead_letter_json with
      | None => (st, lua_error)
      | Some dead_letter =>
          let attempts := tonumber (lua_or (tfield "attempts" metadata) (Some (LNum (lint 0)))) in
          let dead_letter := tset_opt "attempts" (LNum <$> attempts) dead_letter in
          let st := set_processing (lrem1 raw) st in
          let st := set_processing_meta (delete message_id) st in
          let st := set_retry_meta (delete message_id) st in
          let st := set_dead_letter (fun l => l ++ [cjson_encode dead_letter]) st in
          (st, Reply "failed" [])
      end
  end.

Definition verify_script (now : Z)
    (fence_key message_id attempt_id owner_token raw worker_id fence_prefix : string)
    (st : store) : store * reply :=
  match owned_lease_gate now fence_key raw message_id attempt_id owner_token fence_prefix
          (Some worker_id) st with
  | inl r => (st, r)
  | inr _ => (st, Reply "current" [])
  end.

(** ** PRUNE_STALE_WORKER_HEARTBEATS_SCRIPT *)

Definition prune_script (args : list (string * string)) (st : store) : store * Z :=
  fold_left
    (fun acc arg =>
       let '(st, removed) := acc in
       if bool_decide (st_worker_heartbeat st !! arg.1 = Some arg.2)
       then (set_worker_heartbeat (delete arg.1) st, removed + 1) else (st, removed))
    args (st, 0).

End Scripts.
