(* ===== verification/QueueFacts.v ===== *)
(** * Facts about the queue's Redis commands

    Lemmas on list removal, association lists and decoded lease metadata that
    the theorems about the scripts and about the clients share. *)
From stdpp Require Import base gmap list strings sorting.
From Stdlib Require Import ZArith Lia Ascii.
From S2P Require Import Prelude Redis QueueScripts.

(** ** Lists *)

Lemma lrem1_sublist x l : lrem1 x l `sublist_of` l.
Proof.
  induction l as [|y l IH]; simpl; [done|].
  split_if; [by apply sublist_cons | by apply sublist_skip].
Qed.

Lemma lrem0_sublist x l : lrem0 x l `sublist_of` l.
Proof.
  induction l as [|y l IH]; simpl; [done|].
  split_if; [by apply sublist_cons | by apply sublist_skip].
Qed.

Lemma lrem1_notin x l : x ∉ l → lrem1 x l = l.
Proof.
  induction l as [|y l IH]; simpl; [done|].
  intros Hx. apply not_elem_of_cons in Hx as [Hne Hx].
  rewrite IH by done. rewrite (proj2 (String.eqb_neq y x)); congruence.
Qed.

Lemma lrem0_notin x l : x ∉ lrem0 x l.
Proof.
  induction l as [|y l IH]; simpl; [apply not_elem_of_nil|].
  split_if; [done|]. to_prop. apply not_elem_of_cons. auto.
Qed.

Lemma lrem1_Permutation x l : x ∈ l → l ≡ₚ x :: lrem1 x l.
Proof.
  induction l as [|y l IH]; simpl; [by intros ?%elem_of_nil|].
  intros Hx. split_if; to_prop; [by subst|].
  apply elem_of_cons in Hx as [->|Hx]; [done|].
  etransitivity; [apply perm_skip, IH, Hx | apply perm_swap].
Qed.

Lemma lrem1_other x y l : x ≠ y → x ∈ l → x ∈ lrem1 y l.
Proof.
  intros Hne Hx. destruct (decide (y ∈ l)) as [Hy|Hy]; [|by rewrite lrem1_notin].
  rewrite (lrem1_Permutation y l Hy) in Hx. by apply elem_of_cons in Hx as [?|?].
Qed.

Lemma lrem0_other x y l : x ≠ y → x ∈ l → x ∈ lrem0 y l.
Proof.
  intros Hne. induction l as [|z l IH]; simpl; [done|]. intros [->|Hx]%elem_of_cons.
  - rewrite (proj2 (String.eqb_neq _ _) Hne). by left.
  - case_match; [auto|right; auto].
Qed.

Lemma removed_count_lrem1 x l : x ∈ l → removed_count l (lrem1 x l) = 1.
Proof.
  intros Hx. unfold removed_count, llen.
  rewrite (Permutation_length (lrem1_Permutation x l Hx)). simpl. lia.
Qed.

(** Overwriting an element with a value that is not in the list and then
    removing that value deletes the element. *)
Lemma lrem1_insert s l i x :
  s ∉ l → l !! i = Some x → lrem1 s (<[i:=s]> l) = delete i l.
Proof.
  revert i. induction l as [|y l IH]; intros [|i] Hs Hi; simpl in *; try done.
  - by rewrite String.eqb_refl.
  - apply not_elem_of_cons in Hs as [Hne Hs].
    rewrite (proj2 (String.eqb_neq y s)) by congruence. by rewrite IH.
Qed.

Lemma delete_sublist {A} (l : list A) i : delete i l `sublist_of` l.
Proof.
  revert i. induction l as [|y l IH]; intros [|i]; simpl; try done.
  - by apply sublist_cons.
  - by apply sublist_skip.
Qed.

Lemma sublist_elem {A} (l k : list A) x : l `sublist_of` k → x ∈ l → x ∈ k.
Proof. intros H. by apply (sublist_subseteq l k H). Qed.

Lemma lrange_sublist l a b : lrange l a b `sublist_of` l.
Proof.
  unfold lrange. simpl. case_match; [apply sublist_nil_l|].
  etrans; [apply sublist_take|apply sublist_drop].
Qed.

Lemma lrem1_NoDup_ne x y l : NoDup l → y ∈ lrem1 x l → y ≠ x.
Proof.
  intros Hnd Hy ->. destruct (decide (x ∈ l)) as [Hx|Hx].
  - rewrite (lrem1_Permutation x l Hx) in Hnd. by apply NoDup_cons in Hnd as [? _].
  - by rewrite lrem1_notin in Hy.
Qed.

(** Writing a sentinel over position [i] and removing it leaves the list without
    that position. *)
Lemma sentinel_move s l i x :
  s ∉ l → l !! Z.to_nat i = Some x → lrem1 s (lset l i s) = delete (Z.to_nat i) l.
Proof. apply lrem1_insert. Qed.

(** ** Sorted sets *)

Lemma zrank_Some m x : is_Some (m !! x) → is_Some (zrank m x).
Proof. unfold zrank. intros [n ->]. by eexists. Qed.

(** ** Association lists *)

Lemma assoc_in {A} k (kvs : list (string * A)) v : assoc k kvs = Some v → (k, v) ∈ kvs.
Proof.
  induction kvs as [|[k' v'] kvs IH]; simpl; [done|]. destruct (String.eqb_spec k' k) as [->|].
  - intros [= ->]. by left.
  - right. auto.
Qed.
Lemma assoc_of_key {A} k (kvs : list (string * A)) : str_in k kvs.*1 = true → ∃ v, assoc k kvs = Some v.
Proof.
  induction kvs as [|[k' v'] kvs IH]; simpl; [done|]. destruct (String.eqb_spec k' k) as [->|Hne]; [eauto|].
  rewrite orb_true_iff. intros [E|]; [|auto]. by apply String.eqb_eq in E as ->.
Qed.

Lemma assoc_set_eq {A} k (v : A) kvs : assoc k (assoc_set k v kvs) = Some v.
Proof.
  induction kvs as [|[k' v'] kvs IH]; simpl; [by rewrite String.eqb_refl|].
  destruct (String.eqb k' k) eqn:E; simpl; [by rewrite String.eqb_refl | by rewrite E].
Qed.

Lemma assoc_set_ne {A} k k' (v : A) kvs :
  k ≠ k' → assoc k' (assoc_set k v kvs) = assoc k' kvs.
Proof.
  intros Hne. induction kvs as [|[k1 v1] kvs IH]; simpl.
  - by rewrite (proj2 (String.eqb_neq _ _) Hne).
  - destruct (String.eqb k1 k) eqn:E; simpl; [|by rewrite IH].
    to_prop. subst. by rewrite (proj2 (String.eqb_neq _ _) Hne).
Qed.

(** ** Store fields a script leaves alone *)

Create Rewrite HintDb store.

Section Facts.
Context `{LuaRuntime}.

Lemma remove_index_queued f m st :
  st_queued (remove_run_index_message f m st) = st_queued st.
Proof. unfold remove_run_index_message. by repeat case_match. Qed.
Lemma remove_index_processing f m st :
  st_processing (remove_run_index_message f m st) = st_processing st.
Proof. unfold remove_run_index_message. by repeat case_match. Qed.
Lemma remove_index_dead_letter f m st :
  st_dead_letter (remove_run_index_message f m st) = st_dead_letter st.
Proof. unfold remove_run_index_message. by repeat case_match. Qed.
Lemma remove_index_processing_meta f m st :
  st_processing_meta (remove_run_index_message f m st) = st_processing_meta st.
Proof. unfold remove_run_index_message. by repeat case_match. Qed.
Lemma remove_index_retry_meta f m st :
  st_retry_meta (remove_run_index_message f m st) = st_retry_meta st.
Proof. unfold remove_run_index_message. by repeat case_match. Qed.
Lemma remove_index_queued_meta f m st :
  st_queued_meta (remove_run_index_message f m st) = st_queued_meta st.
Proof. unfold remove_run_index_message. by repeat case_match. Qed.
Lemma remove_index_queued_order f m st :
  st_queued_order (remove_run_index_message f m st) = st_queued_order st.
Proof. unfold remove_run_index_message. by repeat case_match. Qed.
Lemma remove_index_fences f m st :
  st_fences (remove_run_index_message f m st) = st_fences st.
Proof. unfold remove_run_index_message. by repeat case_match. Qed.
Lemma remove_index_sequence f m st :
  st_queued_sequence (remove_run_index_message f m st) = st_queued_sequence st.
Proof. unfold remove_run_index_message. by repeat case_match. Qed.

End Facts.

#[export] Hint Rewrite @remove_index_queued @remove_index_processing @remove_index_dead_letter
  @remove_index_processing_meta @remove_index_retry_meta @remove_index_queued_meta
  @remove_index_queued_order @remove_index_fences @remove_index_sequence : store.
