(* ===== verification/PyValue.v ===== *)
(** * Python values

    The dynamic values the platform's Python code reads out of JSON documents,
    request bodies and database rows, with the built-in operations the modelled
    code applies to them: truth testing, [str], [dict.get], [isinstance] tests and
    equality.  A Python float is a [luanum], the same binary64 number Lua has.

    The text [str] gives a float, a list or a dict, the reading of numbers out of
    strings and the JSON codec are the fields of [PyRuntime]; the modelled code
    meets them only on malformed input. *)
From stdpp Require Import base gmap list strings.
From Stdlib Require Import ZArith Lia Ascii.
From S2P Require Import Prelude Redis.

Inductive pyval :=
| PNone
| PBool (b : bool)
| PInt (z : Z)
| PFloat (x : luanum)
| PStr (s : string)
| PList (l : list pyval)
| PDict (kvs : list (string * pyval)).

Class PyRuntime := {
  py_str_other : pyval → string;
  json_loads : string → option pyval;
  json_dumps : pyval → string;
  float_of_str : string → option luanum;
  int_of_str : string → option Z
}.

(** [bool(v)]. *)
Definition truthy (v : pyval) : bool :=
  match v with
  | PNone => false
  | PBool b => b
  | PInt z => negb (z =? 0)
  | PFloat x => negb (lnum_eqb x (lint 0))
  | PStr s => str_truthy s
  | PList l => match l with [] => false | _ => true end
  | PDict kvs => match kvs with [] => false | _ => true end
  end.

(** [a or b]. *)
Definition py_or (a b : pyval) : pyval := if truthy a then a else b.

(** [d.get(k)] and [d.get(k, default)] of a dict. *)
Definition get_default (k : string) (dflt : pyval) (d : list (string * pyval)) : pyval :=
  default dflt (assoc k d).
Definition get (k : string) (d : list (string * pyval)) : pyval := get_default k PNone d.
(** [k in d]. *)
Definition has_key (k : string) (d : list (string * pyval)) : bool :=
  match assoc k d with Some _ => true | None => false end.

(** [isinstance] and [type(v) is] tests. *)
Definition is_str (v : pyval) : bool := match v with PStr _ => true | _ => false end.
Definition is_none (v : pyval) : bool := match v with PNone => true | _ => false end.
Definition is_bool (v : pyval) : bool := match v with PBool _ => true | _ => false end.
(** [type(v) is int], which a bool is not. *)
Definition is_exact_int (v : pyval) : bool := match v with PInt _ => true | _ => false end.
Definition as_dict (v : pyval) : option (list (string * pyval)) :=
  match v with PDict kvs => Some kvs | _ => None end.
(** [v is True]. *)
Definition is_true (v : pyval) : bool := match v with PBool true => true | _ => false end.

(** [v == "text"]. *)
Definition eq_str (v : pyval) (s : string) : bool :=
  match v with PStr s' => String.eqb s' s | _ => false end.

(** A number's value for [==]: bools are integers, an int equals the float of
    its value. *)
Definition num_value (v : pyval) : option luanum :=
  match v with
  | PBool b => Some (lint (if b then 1 else 0))
  | PInt z => Some (lint z)
  | PFloat x => Some x
  | _ => None
  end.
Definition eq_int (v : pyval) (z : Z) : bool :=
  match num_value v with Some x => lnum_eqb x (lint z) | None => false end.

Section Builtins.
Context `{PyRuntime}.

(** [str(v)]. *)
Definition py_str (v : pyval) : string :=
  match v with
  | PStr s => s
  | PInt z => py_str_int z
  | PBool b => if b then "True" else "False"
  | PNone => "None"
  | PFloat _ | PList _ | PDict _ => py_str_other v
  end.

(** [str(v or "")]. *)
Definition str_or_empty (v : pyval) : string := py_str (py_or v (PStr "")).

(** [float(v)]: [None] is the TypeError or ValueError it raises. *)
Definition py_float (v : pyval) : option luanum :=
  match v with
  | PStr s => float_of_str s
  | _ => num_value v
  end.

(** [int(v)], truncating a float toward zero. *)
Definition py_int (v : pyval) : option Z :=
  match v with
  | PInt z => Some z
  | PBool b => Some (if b then 1 else 0)
  | PFloat (LFin m) => Some (Z.quot m 1000000)
  | PStr s => int_of_str s
  | _ => None
  end.

End Builtins.
