(* ===== verification/QueueClient.v ===== *)
(** * The Python side of the run queue

    The functions of [src/app/queue.py] that validate a call, name its keys, run
    one or more scripts and read their replies.  A function that awaits Redis more
    than once is written as the sequence of those commands on one store.

    - [QueuePayloads] stands for code the queue only calls: pydantic's validation
      of [QueueRunPayload] (its identity fields are [queue_payload]), the SHA-256
      digest and the text of a validation error.
    - Random lease secrets ([_new_lease_secret]) and the fence's uuid are
      arguments; the two clocks are [now] (Redis TIME, microseconds) and
      [wall] ([time.time()], a float).
    - A script's reply crosses the wire as JSON text ([eval_reply]) and is read
      back by [decode_redis_script_result]. *)
From stdpp Require Import base gmap list strings.
From Stdlib Require Import ZArith Lia Ascii.
From S2P Require Import Prelude Redis QueueScripts PyValue.

(** ** Keys, payloads and outcomes *)

Record QueueKeys := MkQueueKeys {
  key_queued : string;
  key_processing : string;
  key_processing_meta : string;
  key_retry_meta : string;
  key_dead_letter : string;
  key_worker_heartbeat : string;
  key_queued_meta : string;
  key_queued_run_index : string;
  key_queued_order : string;
  key_queued_sequence : string;
  key_reconciliation_fence_prefix : string
}.

Definition DEFAULT_QUEUE_KEY_PREFIX : string := "ai-platform:runs".
Definition DEFAULT_VISIBILITY_TIMEOUT_SECONDS : Z := 900.
Definition DEFAULT_MAX_ATTEMPTS : Z := 3.

(** [s.rstrip(":")]. *)
Fixpoint rstrip_colon (s : string) : string :=
  match s with
  | EmptyString => EmptyString
  | String c s' =>
      match rstrip_colon s' with
      | EmptyString => if Ascii.eqb c ":" then EmptyString else String c EmptyString
      | t => String c t
      end
  end.

Definition get_queue_keys (queue_key_prefix : string) : QueueKeys :=
  let stripped := rstrip_colon (strip queue_key_prefix) in
  let prefix := if str_truthy stripped then stripped else DEFAULT_QUEUE_KEY_PREFIX in
  {| key_queued := prefix +:+ ":queued";
     key_processing := prefix +:+ ":processing";
     key_processing_meta := prefix +:+ ":processing-meta";
     key_retry_meta := prefix +:+ ":retry-meta";
     key_dead_letter := prefix +:+ ":dead-letter";
     key_worker_heartbeat := prefix +:+ ":worker-heartbeat";
     key_queued_meta := prefix +:+ ":queued-meta";
     key_queued_run_index := prefix +:+ ":queued-run-index";
     key_queued_order := prefix +:+ ":queued-order";
     key_queued_sequence := prefix +:+ ":queued-sequence";
     key_reconciliation_fence_prefix := prefix +:+ ":reconciliation-fence" |}.

(** Every key of the queue but the fence prefix, which only starts keys. *)
Definition plain_keys (k : QueueKeys) : list string :=
  [key_queued k; key_processing k; key_processing_meta k; key_retry_meta k; key_dead_letter k;
   key_worker_heartbeat k; key_queued_meta k; key_queued_run_index k; key_queued_order k;
   key_queued_sequence k].

Record queue_payload := QueuePayload {
  pl_tenant_id : string;
  pl_workspace_id : string;
  pl_user_id : string;
  pl_run_id : string
}.

Class QueuePayloads := {
  submission : Type;
  admit_submission : submission → option string;
  validate_payload : string → option queue_payload;
  validation_error : string → string;
  sha256_hex : string → string
}.

Record QueueMessage := MkQueueMessage {
  qm_raw : string;
  qm_message_id : string;
  qm_queue_message_id : string;
  qm_attempt_id : string;
  qm_owner_token : string;
  qm_leased_at : luanum;
  qm_delivery_attempt : Z
}.

Record QueueAdmissionMetadata := MkQueueAdmission {
  queue_position : Z;
  queue_admission_ordinal : Z;
  admission_message_id : string;
  admission_source : string
}.

Record RunReconciliationFence := MkRunFence {
  rf_tenant_id : string;
  rf_run_id : string;
  rf_owner_token : string;
  rf_fence_key : string
}.

(** [LeaseMutationOutcome.succeeded]. *)
Definition lease_mutation_succeeded (status : string) : bool :=
  str_in status ["acked"; "failed"; "current"].

(** ** Lease handles *)

Definition lease_handle (message_id attempt_id owner_token : string) : string :=
  "qls1" +:+ ":" +:+ message_id +:+ ":" +:+ attempt_id +:+ ":" +:+ owner_token.

(** [re.fullmatch(r"[0-9a-f]{64}", s)]. *)
Definition is_hex64 (s : string) : bool :=
  Nat.eqb (String.length s) 64 && str_forall is_hex s.
Definition is_prefixed_hex64 (prefix s : string) : bool :=
  match strip_prefix prefix s with Some h => is_hex64 h | None => false end.

Definition parse_lease_handle (value : string) : option (string * string * string) :=
  match split_on ":" value with
  | [tag; message_id; attempt_id; owner_token] =>
      if String.eqb tag "qls1" && is_hex64 message_id
         && is_prefixed_hex64 "qat_" attempt_id && is_prefixed_hex64 "qown_" owner_token
      then Some (message_id, attempt_id, owner_token) else None
  | _ => None
  end.

Definition queued_run_index_field (tenant_id run_id : string) : string :=
  tenant_id +:+ ":" +:+ run_id.

Definition reconciliation_fence_key (keys : QueueKeys) (tenant_id run_id : string) : string :=
  key_reconciliation_fence_prefix keys +:+ ":" +:+ tenant_id +:+ ":" +:+ run_id.

Section Client.
Context `{LuaRuntime} `{PyRuntime} `{QueuePayloads}.
Context (keys : QueueKeys).

Definition message_id_for_raw (raw : string) : string := sha256_hex raw.

Definition lease_metadata_owner_token (metadata : list (string * pyval)) : string :=
  match get "lease_protocol_version" metadata with
  | PInt 2 => str_or_empty (get "owner_token_v2" metadata)
  | _ => str_or_empty (get "owner_token" metadata)
  end.

Definition lease_fence_key (raw : string) : option string :=
  (fun p => reconciliation_fence_key keys (pl_tenant_id p) (pl_run_id p)) <$> validate_payload raw.

(** ** Replies *)

Definition eval_reply (r : reply) : string :=
  cjson_encode (LObj (("status", LStr (rp_status r)) :: rp_fields r)).

Definition decode_redis_script_result (raw_result : string) : list (string * pyval) :=
  match json_loads raw_result with
  | Some (PDict d) => d
  | _ => [("status", PStr "invalid_result")]
  end.

Definition eval_result (r : reply) : list (string * pyval) :=
  decode_redis_script_result (eval_reply r).
Definition result_status (result : list (string * pyval)) : string :=
  str_or_empty (get "status" result).

(** ** Admission *)

Definition payload_metadata (p : queue_payload) (wall : luanum) : string :=
  json_dumps (PDict [("run_id", PStr (pl_run_id p)); ("tenant_id", PStr (pl_tenant_id p));
                     ("workspace_id", PStr (pl_workspace_id p)); ("user_id", PStr (pl_user_id p));
                     ("enqueued_at", PFloat wall)]).

(** The script call of an admission, for a payload that validated. *)
Definition enqueue_call (now : Z) (wall : luanum) (raw : string) (p : queue_payload)
    (st : store) : store * reply :=
  enqueue_script now (reconciliation_fence_key keys (pl_tenant_id p) (pl_run_id p))
    raw (message_id_for_raw raw) (queued_run_index_field (pl_tenant_id p) (pl_run_id p))
    (payload_metadata p wall) st.

Definition py_int_or_raise (v : pyval) : res Z :=
  match py_int v with Some z => Ok z | None => Raise "int_conversion" end.

Definition enqueue_run_with_metadata (now : Z) (wall : luanum) (payload : submission)
    (st : store) : store * res QueueAdmissionMetadata :=
  match admit_submission payload with
  | None => (st, Raise "queue_payload_invalid")
  | Some raw =>
  match validate_payload raw with
  | None => (st, Raise "queue_payload_invalid")
  | Some p =>
      let message_id := message_id_for_raw raw in
      let '(st, r) := enqueue_call now wall raw p st in
      let result := eval_result r in
      let status := result_status result in
      (st,
       if String.eqb status "reconciliation_fenced"
       then Raise "run_reconciliation_in_progress" else
       if String.eqb status "already_leased"
       then Ok (MkQueueAdmission 0 0 message_id "redis_existing_lease") else
       res_bind (py_int_or_raise (py_or (get "position" result) (PInt 1))) (fun position =>
       res_bind (py_int_or_raise
                   (py_or (get "sequence" result) (py_or (get "position" result) (PInt 1))))
         (fun ordinal => Ok (MkQueueAdmission position ordinal message_id "redis_metadata"))))
  end
  end.

(** [_queue_metadata_matches_run]. *)
Definition queue_metadata_matches_run (raw_metadata : option string) (tenant_id run_id : string)
    : option (list (string * pyval)) :=
  match raw_metadata ≫= json_loads with
  | Some (PDict metadata) =>
      if eq_str (get "tenant_id" metadata) tenant_id && eq_str (get "run_id" metadata) run_id
      then Some metadata else None
  | _ => None
  end.

Definition read_queue_admission (payload : submission) (st : store)
    : res (option QueueAdmissionMetadata) :=
  match admit_submission payload with
  | None => Raise "queue_payload_invalid"
  | Some raw =>
  match validate_payload raw with
  | None => Raise "queue_payload_invalid"
  | Some p =>
      let message_id := message_id_for_raw raw in
      let matches m := queue_metadata_matches_run m (pl_tenant_id p) (pl_run_id p) in
      let leased :=
        match matches (st_processing_meta st !! message_id) with
        | Some _ => Ok (Some (MkQueueAdmission 0 0 message_id "redis_readback_processing"))
        | None =>
            match matches (st_retry_meta st !! message_id) with
            | Some _ => Ok (Some (MkQueueAdmission 0 0 message_id "redis_readback_retry"))
            | None => Ok None
            end
        end in
      match matches (st_queued_meta st !! message_id), zrank (st_queued_order st) message_id with
      | Some queued_metadata, Some rank =>
          let position := rank + 1 in
          res_bind (py_int_or_raise (py_or (get "sequence" queued_metadata) (PInt position)))
            (fun sequence =>
               Ok (Some (MkQueueAdmission position sequence message_id "redis_readback_queued")))
      | _, _ => leased
      end
  end
  end.

(** ** Reconciliation fences *)

Definition acquire_run_reconciliation_fence (now : Z) (worker_heartbeat_ttl : luanum)
    (tenant_id run_id : string) (scan_limit ttl_seconds : Z) (resolved_token : string)
    (st : store) : store * option RunReconciliationFence :=
  let fence_key := reconciliation_fence_key keys tenant_id run_id in
  let '(st, r) :=
    acquire_fence_script now fence_key tenant_id run_id
      (queued_run_index_field tenant_id run_id) resolved_token (Some worker_heartbeat_ttl)
      (Some (Z.max scan_limit 1)) (Some (Z.max ttl_seconds 1 * 1000)) st in
  (st, if String.eqb (result_status (eval_result r)) "claimed"
       then Some (MkRunFence tenant_id run_id resolved_token fence_key) else None).

Definition release_run_reconciliation_fence (now : Z) (fence : RunReconciliationFence)
    (st : store) : store * bool :=
  let '(st, released) := release_fence_script now (rf_fence_key fence) (rf_owner_token fence) st in
  (st, negb (released =? 0)).

Definition renew_run_reconciliation_fence (now : Z) (fence : RunReconciliationFence)
    (ttl_seconds : Z) (st : store) : store * bool :=
  let '(st, r) := renew_fence_script now (rf_fence_key fence) (rf_owner_token fence)
                    (Some (Z.max ttl_seconds 1 * 1000)) st in
  (st, String.eqb (result_status (eval_result r)) "renewed").

(** ** Removal of queued runs *)

Definition decode_run_index_message_ids (raw_index : option string) : list string :=
  match raw_index with
  | None | Some "" => []
  | Some raw =>
      match json_loads raw with
      | Some (PList items) => List.filter str_truthy (py_str <$> items)
      | _ => [raw]
      end
  end.

(** [_remove_message_id_from_run_index]. *)
Definition remove_message_id_from_run_index (tenant_id run_id message_id : string)
    (st : store) : store :=
  let index_field := queued_run_index_field tenant_id run_id in
  match decode_run_index_message_ids (st_queued_run_index st !! index_field) with
  | [] => st
  | message_ids =>
      match List.filter (fun c => negb (String.eqb c message_id)) message_ids with
      | [] => set_queued_run_index (delete index_field) st
      | remaining =>
          set_queued_run_index (insert index_field (json_dumps (PList (PStr <$> remaining)))) st
      end
  end.

(** [_delete_queued_metadata_for_payload]. *)
Definition delete_queued_metadata_for_payload (message_id tenant_id run_id : string)
    (st : store) : store :=
  let st := set_queued_meta (delete message_id) st in
  let st := remove_message_id_from_run_index tenant_id run_id message_id st in
  set_queued_order (delete message_id) st.

(** [_remove_queued_run_bounded_fallback]. *)
Definition remove_queued_run_bounded_fallback (tenant_id run_id : string) (scan_limit : Z)
    (st : store) : store * Z :=
  if scan_limit <=? 0 then (st, 0) else
  fold_left
    (fun acc raw =>
       let '(st, removed_total) := acc in
       match validate_payload raw with
       | None => (st, removed_total)
       | Some p =>
           if negb (String.eqb (pl_tenant_id p) tenant_id && String.eqb (pl_run_id p) run_id)
           then (st, removed_total) else
           let st' := set_queued (lrem0 raw) st in
           let removed_total := removed_total + removed_count (st_queued st) (st_queued st') in
           (delete_queued_metadata_for_payload (message_id_for_raw raw)
              (pl_tenant_id p) (pl_run_id p) st', removed_total)
       end)
    (lrange (st_queued st) (- scan_limit) (-1)) (st, 0).

Definition remove_queued_run (tenant_id run_id : string) (fallback_scan_limit : Z)
    (st : store) : store * res Z :=
  let '(st, r) := remove_queued_script (queued_run_index_field tenant_id run_id)
                    tenant_id run_id st in
  let result := eval_result r in
  match py_int_or_raise (py_or (get "removed" result) (PInt 0)) with
  | Raise e => (st, Raise e)
  | Ok removed =>
      if (0 <? removed)
         || negb (str_in (result_status result) ["missing_index"; "missing_metadata"])
      then (st, Ok removed) else
      let '(st, removed) := remove_queued_run_bounded_fallback tenant_id run_id
                              fallback_scan_limit st in
      (st, Ok removed)
  end.

(** ** Queue position *)

(** The loop of [get_run_queue_position]: the store, the ids still valid and the
    best rank seen. *)
Fixpoint queue_position_scan (tenant_id run_id : string) (message_ids : list string)
    (st : store) (valid : list string) (best : option Z)
    : store * res (list string * option Z) :=
  match message_ids with
  | [] => (st, Ok (valid, best))
  | message_id :: rest =>
      let drop_order := set_queued_order (delete message_id) in
      match st_queued_meta st !! message_id with
      | None | Some "" => queue_position_scan tenant_id run_id rest (drop_order st) valid best
      | Some raw_metadata =>
          match json_loads raw_metadata with
          | None =>
              queue_position_scan tenant_id run_id rest
                (drop_order (set_queued_meta (delete message_id) st)) valid best
          | Some (PDict metadata) =>
              if negb (eq_str (get "tenant_id" metadata) tenant_id
                       && eq_str (get "run_id" metadata) run_id)
              then queue_position_scan tenant_id run_id rest st valid best else
              match zrank (st_queued_order st) message_id with
              | None => queue_position_scan tenant_id run_id rest st valid best
              | Some rank =>
                  queue_position_scan tenant_id run_id rest st (valid ++ [message_id])
                    (match best with
                     | None => Some rank
                     | Some b => if rank <? b then Some rank else Some b
                     end)
              end
          | Some _ => (st, Raise "attribute_error")
          end
      end
  end.

Definition get_run_queue_position (tenant_id run_id : string) (st : store)
    : store * res (option Z) :=
  let index_field := queued_run_index_field tenant_id run_id in
  let raw_index := st_queued_run_index st !! index_field in
  match decode_run_index_message_ids raw_index with
  | [] => (st, Ok None)
  | message_ids =>
      let '(st, out) := queue_position_scan tenant_id run_id message_ids st [] None in
      match out with
      | Raise e => (st, Raise e)
      | Ok ([], _) => (set_queued_run_index (delete index_field) st, Ok None)
      | Ok (valid, best) =>
          let st :=
            if bool_decide (valid = message_ids) then st
            else set_queued_run_index
                   (insert index_field (json_dumps (PList (PStr <$> valid)))) st in
          (st, Ok (Some (default 0 best + 1)))
      end
  end.

(** ** Dead letters *)

Definition dead_letter_json (raw error_code error_message : string) (attempts worker_id : pyval)
    (wall : luanum) : string :=
  json_dumps (PDict [("schema_version", PStr "ai-platform.dead-letter.v1");
                     ("error_code", PStr error_code); ("error_message", PStr error_message);
                     ("attempts", attempts); ("worker_id", worker_id); ("raw", PStr raw);
                     ("created_at", PFloat wall)]).

Definition trim_dead_letters (max_entries_setting : Z) (st : store) : store :=
  set_dead_letter (fun l => ltrim l (- Z.max max_entries_setting 1) (-1)) st.

(** ** Leasing *)

(** [_dead_letter_invalid_queued_payload_atomic]. *)
Definition dead_letter_invalid_queued_payload_atomic (max_dead_letters : Z) (raw worker_id : string)
    (absolute_index : Z) (wall : luanum) (st : store) : store * list (string * pyval) :=
  let '(st, r) := dead_letter_invalid_script raw absolute_index (message_id_for_raw raw)
                    worker_id wall (validation_error raw) st in
  let decoded := eval_result r in
  (if String.eqb (result_status decoded) "dead_lettered"
   then trim_dead_letters max_dead_letters st else st, decoded).

(** The lease script as [_lease_run_with_quota] calls it for one candidate. *)
Definition lease_call (now : Z) (worker_id : string)
    (max_processing_runs tenant_limit user_limit : Z)
    (raw : string) (p : queue_payload) (absolute_index : Z) (attempt_id owner_token : string)
    (st : store) : store * reply :=
  lease_script now (reconciliation_fence_key keys (pl_tenant_id p) (pl_run_id p)) raw
    absolute_index (message_id_for_raw raw) worker_id max_processing_runs tenant_limit user_limit
    (pl_tenant_id p) (pl_user_id p) (pl_run_id p) attempt_id owner_token st.

(** The message a lease reply gives, when the reply is the one the script sends
    for this attempt. *)
Definition leased_message (raw attempt_id owner_token : string)
    (result : list (string * pyval)) : option QueueMessage :=
  match get "attempts" result, num_value (get "leased_at" result) with
  | PInt attempts, Some leased_at =>
      if (attempts <? 1) || is_bool (get "leased_at" result) || lnum_leb leased_at (lint 0)
         || negb (eq_str (get "attempt_id" result) attempt_id)
         || negb (eq_str (get "owner_token" result) owner_token) then None else
      let message_id := message_id_for_raw raw in
      Some {| qm_raw := raw;
              qm_message_id := lease_handle message_id attempt_id owner_token;
              qm_queue_message_id := message_id;
              qm_attempt_id := attempt_id;
              qm_owner_token := owner_token;
              qm_leased_at := leased_at;
              qm_delivery_attempt := attempts |}
  | _, _ => None
  end.

(** What one candidate of the scan does to it. *)
Inductive scan_step :=
| ScanNext                     (* [continue] with the next candidate *)
| ScanRestart                  (* an invalid payload went: re-read this position *)
| ScanDone (m : option QueueMessage).

Record lease_config := LeaseConfig {
  lc_worker_id : string;
  lc_max_processing_runs : option Z;
  lc_tenant_limit : Z;
  lc_user_limit : Z;
  lc_scan_limit : Z;
  lc_max_dead_letters : Z
}.

(** The secrets of a lease attempt at a queue position: attempt id and token. *)
Definition lease_secrets := Z → string * string.

Definition scan_candidate (now : Z) (wall : luanum) (cfg : lease_config) (secrets : lease_secrets)
    (absolute_index : Z) (raw : string) (st : store) : store * scan_step :=
  match validate_payload raw with
  | None =>
      let '(st, removal) :=
        dead_letter_invalid_queued_payload_atomic (lc_max_dead_letters cfg) raw
          (lc_worker_id cfg) absolute_index wall st in
      (st, if String.eqb (result_status removal) "dead_lettered" then ScanRestart else ScanNext)
  | Some p =>
      let '(attempt_id, owner_token) := secrets absolute_index in
      let '(st, r) :=
        lease_call now (lc_worker_id cfg) (default 0 (lc_max_processing_runs cfg))
          (lc_tenant_limit cfg) (lc_user_limit cfg) raw p absolute_index attempt_id owner_token st in
      let result := eval_result r in
      let status := result_status result in
      (st,
       if String.eqb status "capacity_full" then ScanDone None else
       if negb (String.eqb status "leased") then ScanNext else
       match leased_message raw attempt_id owner_token result with
       | Some m => ScanDone (Some m)
       | None => ScanNext
       end)
  end.

(** The [for] loop over one window; [None] means the window was exhausted. *)
Fixpoint scan_window (now : Z) (wall : luanum) (cfg : lease_config) (secrets : lease_secrets)
    (absolute_index : Z) (items : list string) (st : store) : store * option scan_step :=
  match items with
  | [] => (st, None)
  | raw :: items' =>
      let '(st, step) := scan_candidate now wall cfg secrets absolute_index raw st in
      match step with
      | ScanNext => scan_window now wall cfg secrets (absolute_index + 1) items' st
      | _ => (st, Some step)
      end
  end.

(** The [while scanned < queued_depth] loop.  Every round either moves past a
    window or shortens the queue. *)
Fixpoint lease_scan (fuel : nat) (now : Z) (wall : luanum) (cfg : lease_config)
    (secrets : lease_secrets) (scanned queued_depth : Z) (st : store)
    : store * option QueueMessage :=
  match fuel with
  | O => (st, None)
  | S fuel =>
      if negb (scanned <? queued_depth) then (st, None) else
      let end_index := Z.min (scanned + Z.max (lc_scan_limit cfg) 1 - 1) (queued_depth - 1) in
      match lrange (st_queued st) scanned end_index with
      | [] => (st, None)
      | queued_items =>
          let '(st, outcome) := scan_window now wall cfg secrets scanned queued_items st in
          match outcome with
          | Some (ScanDone m) => (st, m)
          | Some ScanRestart =>
              lease_scan fuel now wall cfg secrets scanned (llen (st_queued st)) st
          | _ =>
              lease_scan fuel now wall cfg secrets (scanned + llen queued_items) queued_depth st
          end
      end
  end.

(** [_lease_run_with_quota], with enough fuel for every round it can take. *)
Definition lease_run_with_quota (now : Z) (wall : luanum) (cfg : lease_config)
    (secrets : lease_secrets) (st : store) : store * option QueueMessage :=
  if match lc_max_processing_runs cfg with
     | Some m => (0 <? m) && (m <=? llen (st_processing st))
     | None => false
     end then (st, None) else
  if lc_scan_limit cfg <=? 0 then (st, None) else
  if llen (st_queued st) <=? 0 then (st, None) else
  lease_scan (S (2 * length (st_queued st))) now wall cfg secrets 0 (llen (st_queued st)) st.

(** [lease_run]: the limits default to "no limit", the window to the setting. *)
Definition lease_run (now : Z) (wall : luanum) (worker_id : string)
    (max_processing_runs tenant_processing_limit user_processing_limit lease_scan_limit : option Z)
    (scan_limit_setting max_dead_letters : Z) (secrets : lease_secrets) (st : store)
    : store * option QueueMessage :=
  lease_run_with_quota now wall
    {| lc_worker_id := worker_id; lc_max_processing_runs := max_processing_runs;
       lc_tenant_limit := default 0 tenant_processing_limit;
       lc_user_limit := default 0 user_processing_limit;
       lc_scan_limit := default scan_limit_setting lease_scan_limit;
       lc_max_dead_letters := max_dead_letters |}
    secrets st.

(** ** Ending, proving and extending a lease *)

Definition outcome_status (r : reply) : string :=
  str_or_empty (py_or (get "status" (eval_result r)) (PStr "inconclusive")).

Definition ack_run (now : Z) (raw message_id : string) (st : store) : store * string :=
  match parse_lease_handle message_id with
  | None => (st, "invalid_lease")
  | Some (queue_message_id, attempt_id, owner_token) =>
      match lease_fence_key raw with
      | None => (st, "invalid_payload")
      | Some fence_key =>
          let '(st, r) := ack_script now fence_key raw queue_message_id attempt_id owner_token
                            (key_reconciliation_fence_prefix keys) st in
          (st, outcome_status r)
      end
  end.

Definition fail_leased_run (now : Z) (wall : luanum) (max_dead_letters : Z)
    (raw error_code error_message message_id : string) (worker_id : pyval)
    (st : store) : store * string :=
  match parse_lease_handle message_id with
  | None => (st, "invalid_lease")
  | Some (queue_message_id, attempt_id, owner_token) =>
      match lease_fence_key raw with
      | None => (st, "invalid_payload")
      | Some fence_key =>
          let '(st, r) :=
            fail_script now fence_key raw queue_message_id attempt_id owner_token
              (dead_letter_json raw error_code error_message PNone worker_id wall)
              (key_reconciliation_fence_prefix keys) st in
          let status := outcome_status r in
          (if String.eqb status "failed" then trim_dead_letters max_dead_letters st else st, status)
      end
  end.

Definition verify_lease_ownership (now : Z) (message : QueueMessage) (worker_id : string)
    (st : store) : string :=
  if negb (bool_decide (parse_lease_handle (qm_message_id message)
                        = Some (qm_queue_message_id message, qm_attempt_id message,
                                qm_owner_token message)))
  then "invalid_lease" else
  match lease_fence_key (qm_raw message) with
  | None => "invalid_payload"
  | Some fence_key =>
      outcome_status
        (verify_script now fence_key (qm_queue_message_id message) (qm_attempt_id message)
           (qm_owner_token message) (qm_raw message) worker_id
           (key_reconciliation_fence_prefix keys) st).2
  end.

(** [heartbeat_run]: the status and the heartbeat time the reply carries. *)
Definition heartbeat_run (now : Z) (message_id worker_id : string)
    (st : store) : store * (string * option luanum) :=
  match parse_lease_handle message_id with
  | None => (st, ("invalid_lease", None))
  | Some (queue_message_id, attempt_id, owner_token) =>
      let '(st, r) := heartbeat_script now queue_message_id attempt_id owner_token worker_id
                        (key_reconciliation_fence_prefix keys) st in
      let status := outcome_status r in
      (st,
       if String.eqb status "heartbeat" then
         match py_float (get "heartbeat_at" (eval_result r)) with
         | Some t => if lnum_finite t then (status, Some t) else ("inconclusive", None)
         | None => ("inconclusive", None)
         end
       else (status, None))
  end.

(** ** Reclaiming expired leases *)

(** [_requeue_run_with_fence], for a raw message whose payload validates. *)
Definition requeue_run_with_fence (now : Z) (wall : luanum) (raw : string) (p : queue_payload)
    (retry_metadata : list (string * pyval)) (attempt_id owner_token : string) (visibility : Z)
    (st : store) : store * bool :=
  let '(st, r) :=
    requeue_script now (reconciliation_fence_key keys (pl_tenant_id p) (pl_run_id p)) raw
      (message_id_for_raw raw) (queued_run_index_field (pl_tenant_id p) (pl_run_id p))
      (payload_metadata p wall) (json_dumps (PDict retry_metadata)) attempt_id owner_token
      (Some (lint visibility)) st in
  (st, String.eqb (result_status (eval_result r)) "requeued").

(** [_dead_letter_expired_lease_with_fence]. *)
Definition dead_letter_expired_lease_with_fence (now : Z) (wall : luanum) (max_dead_letters : Z)
    (raw message_id error_code error_message : string) (attempts : Z) (worker_id : pyval)
    (remove_processing_meta : bool) (attempt_id owner_token : string) (visibility : Z)
    (st : store) : store * bool :=
  let fence_key :=
    match validate_payload raw with
    | None => key_reconciliation_fence_prefix keys +:+ ":invalid:" +:+ message_id
    | Some p => reconciliation_fence_key keys (pl_tenant_id p) (pl_run_id p)
    end in
  let '(st, r) :=
    dead_letter_expired_script now fence_key raw message_id
      (dead_letter_json raw error_code error_message (PInt attempts) worker_id wall)
      remove_processing_meta attempt_id owner_token (Some (lint visibility)) st in
  let dead_lettered := String.eqb (result_status (eval_result r)) "dead_lettered" in
  (if dead_lettered then trim_dead_letters max_dead_letters st else st, dead_lettered).

(** What reclaiming a message decides, once its metadata is read. *)
Definition reclaim_with_metadata (now : Z) (wall checked_at : luanum) (max_dead_letters : Z)
    (visibility max_attempts : Z) (raw : string) (remove_processing_meta : bool)
    (meta : list (string * pyval)) (attempts : Z) (acc : store * Z * Z)
    : res (store * Z * Z) :=
  let '(st, reclaimed, dead_lettered) := acc in
  let attempt_id := str_or_empty (get "attempt_id" meta) in
  let owner_token := lease_metadata_owner_token meta in
  if String.eqb attempt_id "" || String.eqb owner_token "" || (attempts <? 1) then Ok acc else
  if max_attempts <=? attempts then
    let '(st, dead) :=
      dead_letter_expired_lease_with_fence now wall max_dead_letters raw (message_id_for_raw raw)
        "lease_expired_max_attempts" "Leased queue message exceeded max attempts"
        attempts (get "worker_id" meta) remove_processing_meta attempt_id owner_token visibility st in
    Ok (st, reclaimed, if dead then dead_lettered + 1 else dead_lettered)
  else
    match validate_payload raw with
    | None => Raise "validation_error"
    | Some p =>
        let retry_metadata :=
          assoc_set "requeued_at" (PFloat checked_at) (assoc_set "attempts" (PInt attempts) meta) in
        let '(st, requeued) :=
          requeue_run_with_fence now wall raw p retry_metadata attempt_id owner_token visibility st in
        Ok (st, if requeued then reclaimed + 1 else reclaimed, dead_lettered)
    end.

(** One message of [reclaim_expired_leases]. *)
Definition reclaim_one (now : Z) (wall checked_at : luanum) (max_dead_letters : Z)
    (visibility max_attempts : Z) (acc : store * Z * Z) (raw : string) : res (store * Z * Z) :=
  let '(st, _, _) := acc in
  let message_id := message_id_for_raw raw in
  match st_processing_meta st !! message_id with
  | None | Some "" =>
      let retry : res (list (string * pyval) * Z) :=
        match st_retry_meta st !! message_id with
        | None | Some "" => Ok ([], 0)
        | Some retry_meta =>
            match json_loads retry_meta with
            | Some (PDict retry) =>
                match py_int (py_or (get "attempts" retry) (PInt 0)) with
                | Some attempts => Ok (retry, attempts)
                | None => Ok ([], 0)
                end
            | Some _ => Raise "attribute_error"
            | None => Ok ([], 0)
            end
        end in
      res_bind retry (fun retry =>
      reclaim_with_metadata now wall checked_at max_dead_letters visibility max_attempts raw false
        retry.1 retry.2 acc)
  | Some raw_meta =>
      let meta :=
        match json_loads raw_meta with
        | Some (PDict d) => Ok d
        | Some _ => Raise "attribute_error"
        | None => Ok []
        end in
      res_bind meta (fun meta =>
      match py_float (py_or (get "heartbeat_at" meta) (py_or (get "leased_at" meta) (PInt 0))) with
      | None => Raise "float_conversion"
      | Some heartbeat_at =>
          let age := lnum_sub checked_at heartbeat_at in
          if lnum_leb (lint 0) age && lnum_leb age (lint visibility) then Ok acc else
          res_bind (py_int_or_raise (py_or (get "attempts" meta) (PInt 0))) (fun attempts =>
          reclaim_with_metadata now wall checked_at max_dead_letters visibility max_attempts raw true
            meta attempts acc)
      end)
  end.

(** The [for raw in processing] loop; an exception leaves the rest undone. *)
Fixpoint reclaim_all (now : Z) (wall checked_at : luanum) (max_dead_letters : Z)
    (visibility max_attempts : Z) (raws : list string) (acc : store * Z * Z)
    : res (store * Z * Z) :=
  match raws with
  | [] => Ok acc
  | raw :: raws' =>
      res_bind (reclaim_one now wall checked_at max_dead_letters visibility max_attempts acc raw)
        (reclaim_all now wall checked_at max_dead_letters visibility max_attempts raws')
  end.

Definition reclaim_expired_leases (now : Z) (wall : luanum) (checked_at : option luanum)
    (max_dead_letters visibility max_attempts : Z) (st : store) : res (store * Z * Z) :=
  reclaim_all now wall (default wall checked_at) max_dead_letters visibility max_attempts
    (lrange (st_processing st) 0 (-1)) (st, 0, 0).

End Client.
