(* ===== verification/QueueCommands.v ===== *)
(** * The single commands of the queue's client

    Most changes of the queue are scripts, which Redis runs as one step.  Two
    functions of [src/app/queue.py] send several commands instead: the removal that
    scans the queue when a run has no index entry
    ([_remove_queued_run_bounded_fallback]) and the query of a run's position
    ([get_run_queue_position]), which repairs the index on its way.  Other clients
    may act between their commands.  [queue_command] names the commands they send;
    each function, run alone, is a sequence of them. *)
From stdpp Require Import base gmap list strings.
From Stdlib Require Import ZArith Lia Ascii.
From S2P Require Import Prelude Redis QueueScripts QueueFacts PyValue QueueClient.

Inductive queue_command :=
| CmdRemove (tenant_id run_id raw : string)
| CmdForgetMeta (message_id : string)
| CmdForgetOrder (message_id : string)
| CmdWriteIndex (index_field : string) (message_ids : list string)
| CmdDropIndex (index_field : string).

(** The two lists, the leases and the fences, for a change beside them: messages may
    leave the queue and queue metadata may go, everything else stays. *)
Record aside (st st' : store) : Prop := {
  as_queued : st_queued st' `sublist_of` st_queued st;
  as_processing : st_processing st' = st_processing st;
  as_processing_meta : st_processing_meta st' = st_processing_meta st;
  as_retry_meta : st_retry_meta st' = st_retry_meta st;
  as_fences : st_fences st' = st_fences st;
  as_dead_letter : st_dead_letter st' = st_dead_letter st;
  as_queued_meta : st_queued_meta st' ⊆ st_queued_meta st
}.

#[export] Instance aside_preorder : PreOrder aside.
Proof.
  split; [by intros st|]. intros s1 s2 s3 [? ? ? ? ? ? ?] [? ? ? ? ? ? ?].
  split; try congruence; by etrans.
Qed.

(** The commands of a removal name the run that is removed. *)
Definition removes_only (tenant_id run_id : string) (c : queue_command) : Prop :=
  match c with CmdRemove t r _ => t = tenant_id ∧ r = run_id | _ => True end.

(** A query removes nothing. *)
Definition removes_nothing (c : queue_command) : Prop :=
  match c with CmdRemove _ _ _ => False | _ => True end.

Section Commands.
Context `{LuaRuntime} `{PyRuntime} `{QueuePayloads}.

(** One command.  The client sends an [LREM] only for a message it has parsed and
    found to be the run's. *)
Definition run_command (c : queue_command) (st : store) : store :=
  match c with
  | CmdRemove tenant_id run_id raw =>
      match validate_payload raw with
      | Some p =>
          if String.eqb (pl_tenant_id p) tenant_id && String.eqb (pl_run_id p) run_id
          then set_queued (lrem0 raw) st else st
      | None => st
      end
  | CmdForgetMeta message_id => set_queued_meta (delete message_id) st
  | CmdForgetOrder message_id => set_queued_order (delete message_id) st
  | CmdWriteIndex index_field message_ids =>
      set_queued_run_index (insert index_field (json_dumps (PList (PStr <$> message_ids)))) st
  | CmdDropIndex index_field => set_queued_run_index (delete index_field) st
  end.

Definition run_commands (cs : list queue_command) (st : store) : store :=
  fold_left (fun st c => run_command c st) cs st.

Lemma run_command_aside c st : aside st (run_command c st).
Proof.
  destruct c; simpl; repeat case_match; try done; split; simpl; try done.
  - apply lrem0_sublist.
  - apply delete_subseteq.
Qed.

Lemma run_commands_aside cs st : aside st (run_commands cs st).
Proof.
  revert st. induction cs as [|c cs IH]; intros st; simpl; [done|].
  etrans; [apply run_command_aside|apply IH].
Qed.

Lemma run_commands_app cs cs' st : run_commands (cs ++ cs') st = run_commands cs' (run_commands cs st).
Proof. apply fold_left_app. Qed.

(** ** The two functions *)

Lemma forget_is_commands mid t r st : ∃ cs,
  delete_queued_metadata_for_payload mid t r st = run_commands cs st ∧ Forall removes_nothing cs.
Proof.
  unfold delete_queued_metadata_for_payload, remove_message_id_from_run_index.
  repeat case_match.
  - exists [CmdForgetMeta mid; CmdForgetOrder mid]. split; [done|by repeat constructor].
  - exists [CmdForgetMeta mid; CmdDropIndex (queued_run_index_field t r); CmdForgetOrder mid].
    split; [done|by repeat constructor].
  - eexists [CmdForgetMeta mid; CmdWriteIndex (queued_run_index_field t r) _; CmdForgetOrder mid].
    split; [done|by repeat constructor].
Qed.

Lemma removes_weaken t r cs : Forall removes_nothing cs → Forall (removes_only t r) cs.
Proof. intros Hc. eapply Forall_impl; [exact Hc|]. by intros []. Qed.

Lemma fallback_is_commands t r n st : ∃ cs,
  (remove_queued_run_bounded_fallback t r n st).1 = run_commands cs st ∧ Forall (removes_only t r) cs.
Proof.
  unfold remove_queued_run_bounded_fallback. case_match; [by exists []|].
  generalize (lrange (st_queued st) (- n) (-1)) as items, 0 as k. intros items. revert st.
  induction items as [|raw items IH]; intros st k; simpl; [by exists []|].
  destruct (validate_payload raw) as [p|] eqn:Hv; [|apply IH].
  destruct (String.eqb (pl_tenant_id p) t && String.eqb (pl_run_id p) r) eqn:E; simpl; [|apply IH].
  match goal with |- context [delete_queued_metadata_for_payload ?m ?a ?b ?s] =>
    destruct (forget_is_commands m a b s) as (cs & -> & Hc) end.
  match goal with |- context [fold_left _ items (?s, ?j)] => destruct (IH s j) as (cs' & Hcs & Hc') end.
  exists (CmdRemove t r raw :: cs ++ cs'). simpl run_commands. rewrite Hv, E, run_commands_app. split; [exact Hcs|].
  constructor; [done|]. apply Forall_app_2; [by apply removes_weaken|done].
Qed.

Lemma scan_is_commands t r ids st valid best : ∃ cs,
  (queue_position_scan t r ids st valid best).1 = run_commands cs st ∧ Forall removes_nothing cs.
Proof.
  revert st valid best. induction ids as [|mid ids IH]; intros st valid best; simpl; [by exists []|].
  assert (∀ c valid best, removes_nothing c → ∃ cs,
    (queue_position_scan t r ids (run_command c st) valid best).1 = run_commands cs st ∧
    Forall removes_nothing cs) as Hstep.
  { intros c v b Hc. destruct (IH (run_command c st) v b) as (cs & -> & Hcs).
    exists (c :: cs). split; [done|by constructor]. }
  assert (∃ cs, (queue_position_scan t r ids (set_queued_order (delete mid)
      (set_queued_meta (delete mid) st)) valid best).1 = run_commands cs st ∧ Forall removes_nothing cs)
    as Hboth.
  { destruct (IH (set_queued_order (delete mid) (set_queued_meta (delete mid) st)) valid best)
      as (cs & -> & Hcs). exists (CmdForgetMeta mid :: CmdForgetOrder mid :: cs). by repeat constructor. }
  pose proof (fun v b => Hstep (CmdForgetOrder mid) v b I) as Hdrop. simpl in Hdrop.
  repeat case_match; auto; by exists [].
Qed.

Lemma position_is_commands t r st : ∃ cs,
  (get_run_queue_position t r st).1 = run_commands cs st ∧ Forall removes_nothing cs.
Proof.
  unfold get_run_queue_position.
  destruct (decode_run_index_message_ids _) as [|i ids]; [by exists []|].
  destruct (scan_is_commands t r (i :: ids) st [] None) as (cs & Hs & Hc).
  destruct (queue_position_scan _ _ _ _ _ _) as [st' out]. simpl in Hs. subst st'.
  destruct out as [[[|v valid] best]|e]; simpl.
  - exists (cs ++ [CmdDropIndex (queued_run_index_field t r)]). rewrite run_commands_app.
    split; [done|]. apply Forall_app_2; [done|by repeat constructor].
  - case_bool_decide; [by exists cs|].
    exists (cs ++ [CmdWriteIndex (queued_run_index_field t r) (v :: valid)]). rewrite run_commands_app.
    split; [done|]. apply Forall_app_2; [done|by repeat constructor].
  - by exists cs.
Qed.

Lemma fallback_aside t r n st : aside st (remove_queued_run_bounded_fallback t r n st).1.
Proof. destruct (fallback_is_commands t r n st) as (cs & -> & _). apply run_commands_aside. Qed.

Lemma position_aside t r st : aside st (get_run_queue_position t r st).1.
Proof. destruct (position_is_commands t r st) as (cs & -> & _). apply run_commands_aside. Qed.

End Commands.

#[export] Hint Resolve run_command_aside fallback_aside position_aside : core.
