(* ===== verification/QueueTrace.v ===== *)
(** * Executions of the run queue

    The queue as a transition system: [qop] names the changes a client of
    [src/app/queue.py] can make to the Redis store, [run_qop] performs one at a
    given clock, and a trace is any list of timed operations by any number of
    clients.  A script or a single command is one operation.  The two functions
    that send several commands, the removal by scanning the queue and the query of a
    position, appear twice: as a whole ([QRemoveFallback], [QPosition]), and as the
    single commands they send ([QCommand]), which may then be interleaved with
    anything.  [QueueLaws] collects what the theorems assume of the code outside the
    repository. *)
From stdpp Require Import base gmap list strings.
From Stdlib Require Import ZArith Lia Ascii.
From S2P Require Import Prelude Redis QueueScripts PyValue QueueClient QueueCommands.

Inductive qop :=
| QEnqueue (wall : luanum) (raw : string)
| QRemoveQueued (tenant_id run_id : string)
| QLease (worker_id : string) (max_processing_runs tenant_limit user_limit : Z)
    (raw : string) (absolute_index : Z) (attempt_id owner_token : string)
| QDeadLetterInvalid (raw worker_id : string) (absolute_index : Z) (wall : luanum)
| QAcquire (worker_ttl : luanum) (tenant_id run_id : string) (scan_limit ttl_seconds : Z)
    (token : string)
| QRelease (fence : RunReconciliationFence)
| QRenew (fence : RunReconciliationFence) (ttl_seconds : Z)
| QRequeue (wall : luanum) (raw : string) (retry_metadata : list (string * pyval))
    (attempt_id owner_token : string) (visibility : Z)
| QDeadLetterExpired (wall : luanum) (raw error_code error_message : string) (attempts : Z)
    (worker_id : pyval) (remove_processing_meta : bool) (attempt_id owner_token : string)
    (visibility : Z)
| QHeartbeat (handle worker_id : string)
| QAck (raw handle : string)
| QFail (wall : luanum) (raw error_code error_message handle : string) (worker_id : pyval)
| QPrune (args : list (string * string))
| QTrim (max_dead_letters : Z)
| QRemoveFallback (tenant_id run_id : string) (scan_limit : Z)
| QPosition (tenant_id run_id : string)
| QCommand (c : queue_command).

(** The raw message an operation submits or moves. *)
Definition qop_raw (op : qop) : option string :=
  match op with
  | QEnqueue _ raw | QLease _ _ _ _ raw _ _ _ | QRequeue _ raw _ _ _ _
  | QDeadLetterExpired _ raw _ _ _ _ _ _ _ _ | QAck raw _ | QFail _ raw _ _ _ _
  | QDeadLetterInvalid raw _ _ _ => Some raw
  | _ => None
  end.

Section Trace.
Context `{LuaRuntime} `{PyRuntime} `{QueuePayloads}.
Context (keys : QueueKeys).

Definition run_qop (now : Z) (op : qop) (st : store) : store :=
  match op with
  | QEnqueue wall raw =>
      match validate_payload raw with
      | Some p => (enqueue_call keys now wall raw p st).1
      | None => st
      end
  | QRemoveQueued tenant_id run_id =>
      (remove_queued_script (queued_run_index_field tenant_id run_id) tenant_id run_id st).1
  | QLease worker_id max tenant_limit user_limit raw index attempt_id owner_token =>
      match validate_payload raw with
      | Some p => (lease_call keys now worker_id max tenant_limit user_limit raw p index
                     attempt_id owner_token st).1
      | None => st
      end
  | QDeadLetterInvalid raw worker_id index wall =>
      match validate_payload raw with
      | Some _ => st
      | None => (dead_letter_invalid_script raw index (message_id_for_raw raw) worker_id wall
                   (validation_error raw) st).1
      end
  | QAcquire worker_ttl tenant_id run_id scan_limit ttl token =>
      (acquire_run_reconciliation_fence keys now worker_ttl tenant_id run_id scan_limit ttl
         token st).1
  | QRelease fence => (release_run_reconciliation_fence now fence st).1
  | QRenew fence ttl => (renew_run_reconciliation_fence now fence ttl st).1
  | QRequeue wall raw retry_metadata attempt_id owner_token visibility =>
      match validate_payload raw with
      | Some p => (requeue_run_with_fence keys now wall raw p retry_metadata attempt_id
                     owner_token visibility st).1
      | None => st
      end
  | QDeadLetterExpired wall raw code message attempts worker_id remove attempt_id owner_token vis =>
      (dead_letter_expired_script now
         (match validate_payload raw with
          | None => key_reconciliation_fence_prefix keys +:+ ":invalid:" +:+ message_id_for_raw raw
          | Some p => reconciliation_fence_key keys (pl_tenant_id p) (pl_run_id p)
          end)
         raw (message_id_for_raw raw)
         (dead_letter_json raw code message (PInt attempts) worker_id wall)
         remove attempt_id owner_token (Some (lint vis)) st).1
  | QHeartbeat handle worker_id => (heartbeat_run keys now handle worker_id st).1
  | QAck raw handle => (ack_run keys now raw handle st).1
  | QFail wall raw code message handle worker_id =>
      match parse_lease_handle handle, lease_fence_key keys raw with
      | Some (mid, attempt_id, owner_token), Some fence_key =>
          (fail_script now fence_key raw mid attempt_id owner_token
             (dead_letter_json raw code message PNone worker_id wall)
             (key_reconciliation_fence_prefix keys) st).1
      | _, _ => st
      end
  | QPrune args => (prune_script args st).1
  | QTrim max_dead_letters => trim_dead_letters max_dead_letters st
  | QRemoveFallback tenant_id run_id scan_limit =>
      (remove_queued_run_bounded_fallback tenant_id run_id scan_limit st).1
  | QPosition tenant_id run_id => (get_run_queue_position tenant_id run_id st).1
  | QCommand c => run_command c st
  end.

(** A timed sequence of operations, first to last. *)
Fixpoint run_trace (tr : list (Z * qop)) (st : store) : store :=
  match tr with
  | [] => st
  | (now, op) :: tr' => run_trace tr' (run_qop now op st)
  end.

End Trace.

(** What the queue relies on of pydantic, of SHA-256 and of the two JSON codecs:
    a validated message is a JSON object whose identity fields [cjson] reads as
    pydantic does, text Python dumps is an object with the same string fields,
    a list of strings written by either codec is read back by both, and text that is
    empty or starts with an underscore is not JSON. *)
Class QueueLaws `{LuaRuntime} `{PyRuntime} `{QueuePayloads} (lua_round : luanum → luanum) : Prop := {
  queue_lua_laws :: LuaRuntimeLaws lua_round;
  payload_fields : ∀ raw p, validate_payload raw = Some p → ∃ t,
    decode_table raw = Some t ∧ tstr "tenant_id" t = pl_tenant_id p ∧
    tstr "run_id" t = pl_run_id p ∧ tstr "user_id" t = pl_user_id p;
  cjson_not_underscore : ∀ s, cjson_decode (String "_" s) = None;
  cjson_not_empty : cjson_decode "" = None;
  dumps_fields : ∀ kvs, ∃ kvs', cjson_decode (json_dumps (PDict kvs)) = Some (LObj kvs') ∧
    ∀ k s, assoc k kvs = Some (PStr s) → assoc k kvs' = Some (LStr s);
  dumps_ids : ∀ ids, ids ≠ [] →
    cjson_decode (json_dumps (PList (PStr <$> ids))) = Some (LArr (LStr <$> ids)) ∧
    json_loads (json_dumps (PList (PStr <$> ids))) = Some (PList (PStr <$> ids));
  encoded_ids : ∀ ids, ids ≠ [] →
    json_loads (cjson_encode (LArr (LStr <$> ids))) = Some (PList (PStr <$> ids));
  reply_fields : ∀ kvs, ∃ d, json_loads (cjson_encode (LObj kvs)) = Some (PDict d) ∧
    (∀ k, assoc k kvs = None → assoc k d = None) ∧
    (∀ k s, assoc k kvs = Some (LStr s) → assoc k d = Some (PStr s)) ∧
    (∀ k n, Z.abs n < 10 ^ 14 → assoc k kvs = Some (LNum (lint n)) → assoc k d = Some (PInt n)) ∧
    (∀ k n, assoc k kvs = Some (LNum n) → ∃ v, assoc k d = Some v ∧
       is_bool v = false ∧ num_value v = Some (lua_round n));
  message_id_hex : ∀ raw, is_hex64 (sha256_hex raw) = true
}.

Lemma message_id_nonempty `{QueueLaws lua_round} raw : sha256_hex raw ≠ "".
Proof. intros E. pose proof (message_id_hex raw) as Hh. by rewrite E in Hh. Qed.
