(* ===== verification/QueueRuntime.v ===== *)
(** * A concrete runtime for the queue

    The theorems about the queue hold for every Redis, JSON codec, digest and
    payload validator that satisfies [QueueLaws].  This file gives one: a small
    self-delimiting text codec in place of JSON, an exact number format, a
    polynomial digest of 64 hexadecimal digits and a validator that reads the
    identity fields out of the decoded message.  It shows that the laws can hold
    together and lets the witnesses run the queue on concrete messages. *)
From stdpp Require Import base gmap list strings.
From Stdlib Require Import ZArith Lia Ascii.
From S2P Require Import Prelude Redis QueueScripts PyValue QueueClient QueueTrace.

(** ** The codec *)

(** A string is its characters, each after a "c", and a closing "e". *)
Fixpoint enc_str (s rest : string) : string :=
  match s with
  | EmptyString => String "e" rest
  | String a s' => String "c" (String a (enc_str s' rest))
  end.
Fixpoint dec_str (s : string) : option (string * string) :=
  match s with
  | String "e" rest => Some (EmptyString, rest)
  | String "c" (String a s') =>
      match dec_str s' with Some (t, rest) => Some (String a t, rest) | None => None end
  | _ => None
  end.

(** A number is its kind and, when finite, its binary digits. *)
Fixpoint enc_pos (p : positive) (rest : string) : string :=
  match p with
  | xH => String "h" rest
  | xO p' => String "0" (enc_pos p' rest)
  | xI p' => String "1" (enc_pos p' rest)
  end.
Fixpoint dec_pos (s : string) : option (positive * string) :=
  match s with
  | String "h" rest => Some (xH, rest)
  | String "0" s' => match dec_pos s' with Some (p, rest) => Some (xO p, rest) | None => None end
  | String "1" s' => match dec_pos s' with Some (p, rest) => Some (xI p, rest) | None => None end
  | _ => None
  end.
Definition enc_num (n : luanum) (rest : string) : string :=
  match n with
  | LFin Z0 => String "z" rest
  | LFin (Zpos p) => String "+" (enc_pos p rest)
  | LFin (Zneg p) => String "-" (enc_pos p rest)
  | LInf false => String "i" rest
  | LInf true => String "j" rest
  | LNaN => String "q" rest
  end.
Definition dec_num (s : string) : option (luanum * string) :=
  match s with
  | String "z" rest => Some (LFin 0, rest)
  | String "+" s' => match dec_pos s' with Some (p, rest) => Some (LFin (Zpos p), rest) | None => None end
  | String "-" s' => match dec_pos s' with Some (p, rest) => Some (LFin (Zneg p), rest) | None => None end
  | String "i" rest => Some (LInf false, rest)
  | String "j" rest => Some (LInf true, rest)
  | String "q" rest => Some (LNaN, rest)
  | _ => None
  end.

Fixpoint enc_val (v : lval) (rest : string) : string :=
  match v with
  | LNull => String "n" rest
  | LBool true => String "t" rest
  | LBool false => String "f" rest
  | LNum n => String "#" (enc_num n rest)
  | LStr s => String "s" (enc_str s rest)
  | LArr l => String "[" (foldr (fun v r => String "," (enc_val v r)) (String "]" rest) l)
  | LObj kvs =>
      String "{" (foldr (fun kv r => String "," (enc_str kv.1 (enc_val kv.2 r))) (String "}" rest) kvs)
  end.

Section Lists.
Context (dec : string → option (lval * string)).
Fixpoint dec_items (fuel : nat) (s : string) : option (list lval * string) :=
  match fuel with
  | O => None
  | S fuel =>
      match s with
      | String "]" rest => Some ([], rest)
      | String "," s' =>
          match dec s' with
          | Some (v, s'') =>
              match dec_items fuel s'' with Some (l, rest) => Some (v :: l, rest) | None => None end
          | None => None
          end
      | _ => None
      end
  end.
Fixpoint dec_fields (fuel : nat) (s : string) : option (list (string * lval) * string) :=
  match fuel with
  | O => None
  | S fuel =>
      match s with
      | String "}" rest => Some ([], rest)
      | String "," s' =>
          match dec_str s' with
          | Some (k, s1) =>
              match dec s1 with
              | Some (v, s2) =>
                  match dec_fields fuel s2 with
                  | Some (l, rest) => Some ((k, v) :: l, rest)
                  | None => None
                  end
              | None => None
              end
          | None => None
          end
      | _ => None
      end
  end.
End Lists.

Fixpoint dec_val (fuel : nat) (s : string) : option (lval * string) :=
  match fuel with
  | O => None
  | S fuel =>
      match s with
      | String "n" rest => Some (LNull, rest)
      | String "t" rest => Some (LBool true, rest)
      | String "f" rest => Some (LBool false, rest)
      | String "#" s' => match dec_num s' with Some (n, rest) => Some (LNum n, rest) | None => None end
      | String "s" s' => match dec_str s' with Some (t, rest) => Some (LStr t, rest) | None => None end
      | String "[" s' =>
          match dec_items (dec_val fuel) fuel s' with Some (l, rest) => Some (LArr l, rest) | None => None end
      | String "{" s' =>
          match dec_fields (dec_val fuel) fuel s' with
          | Some (l, rest) => Some (LObj l, rest)
          | None => None
          end
      | _ => None
      end
  end.

Definition encode_text (v : lval) : string := enc_val v "".
Definition decode_text (s : string) : option lval :=
  match dec_val (S (String.length s)) s with
  | Some (v, "") => Some v
  | _ => None
  end.

(** The fuel a value needs. *)
Fixpoint val_size (v : lval) : nat :=
  match v with
  | LArr l => S (foldr (fun v n => S (val_size v + n)) 1%nat l)
  | LObj kvs => S (foldr (fun kv n => S (val_size kv.2 + n)) 1%nat kvs)
  | _ => 1%nat
  end.

(** ** JSON values of Python *)

Fixpoint py_of_lval (v : lval) : pyval :=
  match v with
  | LNull => PNone
  | LBool b => PBool b
  | LNum (LFin m) => if m mod 1000000 =? 0 then PInt (m / 1000000) else PFloat (LFin m)
  | LNum n => PFloat n
  | LStr s => PStr s
  | LArr l => PList (map py_of_lval l)
  | LObj kvs => PDict (map (fun kv => (kv.1, py_of_lval kv.2)) kvs)
  end.
Fixpoint lval_of_py (v : pyval) : lval :=
  match v with
  | PNone => LNull
  | PBool b => LBool b
  | PInt z => LNum (lint z)
  | PFloat x => LNum x
  | PStr s => LStr s
  | PList l => LArr (map lval_of_py l)
  | PDict kvs => LObj (map (fun kv => (kv.1, lval_of_py kv.2)) kvs)
  end.

(** ** The digest *)

Fixpoint poly_hash (s : string) (acc : Z) : Z :=
  match s with
  | EmptyString => acc
  | String c s' => poly_hash s' ((acc * 257 + Z.of_N (N_of_ascii c) + 1) mod 2 ^ 256)
  end.
Definition hex_digit (n : Z) : ascii :=
  default "0"%char (String.get (Z.to_nat (n mod 16)) "0123456789abcdef").
Fixpoint hex_digits (k : nat) (n : Z) : string :=
  match k with
  | O => EmptyString
  | S k => String (hex_digit n) (hex_digits k (n / 16))
  end.
Definition toy_digest (s : string) : string := hex_digits 64 (poly_hash s 7).

(** ** The instances *)

#[export] Instance toy_lua : LuaRuntime := {
  cjson_encode := fun v => encode_text (lval_round id v);
  cjson_decode := decode_text;
  tonumber_str := fun s => match dec_num s with Some (n, "") => Some n | _ => None end;
  tostring_num := fun n => enc_num n "";
  tostring_other := fun _ => "table"
}.

#[export] Instance toy_py : PyRuntime := {
  py_str_other := fun _ => "object";
  json_loads := fun s => py_of_lval <$> decode_text s;
  json_dumps := fun v => encode_text (lval_of_py v);
  float_of_str := fun s => match dec_num s with Some (n, "") => Some n | _ => None end;
  int_of_str := fun _ => None
}.

Definition toy_validate (raw : string) : option queue_payload :=
  match decode_table raw with
  | Some t =>
      match tfield "tenant_id" t, tfield "workspace_id" t, tfield "user_id" t, tfield "run_id" t with
      | Some (LStr tenant), Some (LStr workspace), Some (LStr user), Some (LStr run) =>
          Some (QueuePayload tenant workspace user run)
      | _, _, _, _ => None
      end
  | None => None
  end.

#[export] Instance toy_payloads : QueuePayloads := {
  submission := string;
  admit_submission := Some;
  validate_payload := toy_validate;
  validation_error := fun _ => "invalid";
  sha256_hex := toy_digest
}.

(** A message of a run, its keys and its secrets. *)
Definition toy_raw (tenant user run : string) : string :=
  encode_text (LObj [("tenant_id", LStr tenant); ("workspace_id", LStr "w"); ("user_id", LStr user);
                     ("run_id", LStr run)]).
Definition toy_keys : QueueKeys := get_queue_keys "q".
Definition toy_attempt (n : Z) : string := "qat_" +:+ hex_digits 64 n.
Definition toy_owner (n : Z) : string := "qown_" +:+ hex_digits 64 n.
Definition toy_handle (raw : string) (n : Z) : string :=
  lease_handle (toy_digest raw) (toy_attempt n) (toy_owner n).

(** ** The laws *)

Section ValInd.
Context (P : lval → Prop).
Context (Hnull : P LNull) (Hbool : ∀ b, P (LBool b)) (Hnum : ∀ n, P (LNum n)) (Hstr : ∀ s, P (LStr s)).
Context (Harr : ∀ l, Forall P l → P (LArr l)).
Context (Hobj : ∀ kvs, Forall (fun kv => P kv.2) kvs → P (LObj kvs)).
Fixpoint lval_nested_ind (v : lval) : P v :=
  match v with
  | LNull => Hnull
  | LBool b => Hbool b
  | LNum n => Hnum n
  | LStr s => Hstr s
  | LArr l =>
      Harr l ((fix go l : Forall P l :=
                 match l with
                 | [] => List.Forall_nil _
                 | v :: l' => List.Forall_cons _ _ _ (lval_nested_ind v) (go l')
                 end) l)
  | LObj kvs =>
      Hobj kvs ((fix go kvs : Forall (fun kv => P kv.2) kvs :=
                   match kvs with
                   | [] => List.Forall_nil _
                   | kv :: kvs' => List.Forall_cons _ _ _ (lval_nested_ind kv.2) (go kvs')
                   end) kvs)
  end.
End ValInd.

Lemma dec_enc_str s rest : dec_str (enc_str s rest) = Some (s, rest).
Proof. induction s as [|a s IH]; simpl; [done|]. by rewrite IH. Qed.

Lemma dec_enc_pos p rest : dec_pos (enc_pos p rest) = Some (p, rest).
Proof. induction p as [p IH|p IH|]; simpl; [by rewrite IH..|done]. Qed.

Lemma dec_enc_num n rest : dec_num (enc_num n rest) = Some (n, rest).
Proof. destruct n as [[|p|p]|[]|]; simpl; rewrite ?dec_enc_pos; done. Qed.

Lemma dec_enc_val v : ∀ fuel rest, (val_size v ≤ fuel)%nat →
  dec_val fuel (enc_val v rest) = Some (v, rest).
Proof.
  induction v as [|b|n|s|l IH|kvs IH] using lval_nested_ind; intros [|fuel] rest Hf;
    try (simpl in Hf; lia).
  - done.
  - by destruct b.
  - simpl. by rewrite dec_enc_num.
  - simpl. by rewrite dec_enc_str.
  - simpl in *. apply le_S_n in Hf.
    assert (∀ f2, (foldr (fun v n => S (val_size v + n)) 1 l ≤ f2)%nat →
      (foldr (fun v n => S (val_size v + n)) 1 l ≤ fuel)%nat →
      dec_items (dec_val fuel) f2 (foldr (fun v r => String "," (enc_val v r)) (String "]" rest) l)
      = Some (l, rest)) as Hl; [|by rewrite Hl by lia].
    clear Hf. induction IH as [|v l Hv _ IHl]; intros [|f2] Hf2 Hf; simpl in *; try lia; [done|].
    rewrite Hv by lia. by rewrite IHl by lia.
  - simpl in *. apply le_S_n in Hf.
    assert (∀ f2, (foldr (fun kv n => S (val_size kv.2 + n)) 1 kvs ≤ f2)%nat →
      (foldr (fun kv n => S (val_size kv.2 + n)) 1 kvs ≤ fuel)%nat →
      dec_fields (dec_val fuel) f2
        (foldr (fun kv r => String "," (enc_str kv.1 (enc_val kv.2 r))) (String "}" rest) kvs)
      = Some (kvs, rest)) as Hl; [|by rewrite Hl by lia].
    clear Hf. induction IH as [|[k v] kvs Hv _ IHl]; intros [|f2] Hf2 Hf; simpl in *; try lia; [done|].
    rewrite dec_enc_str, Hv by lia. by rewrite IHl by lia.
Qed.

Lemma enc_str_length s rest : (String.length rest < String.length (enc_str s rest))%nat.
Proof. induction s; simpl; lia. Qed.
Lemma enc_pos_length p rest : (String.length rest < String.length (enc_pos p rest))%nat.
Proof. induction p; simpl; lia. Qed.
Lemma enc_num_length n rest : (String.length rest < String.length (enc_num n rest))%nat.
Proof.
  destruct n as [[|p|p]|[]|]; simpl; try lia.
  all: pose proof (enc_pos_length p rest); lia.
Qed.

Lemma enc_val_length v rest : (val_size v + String.length rest ≤ String.length (enc_val v rest))%nat.
Proof.
  revert rest. induction v as [|b|n|s|l IH|kvs IH] using lval_nested_ind; intros rest; simpl.
  - lia.
  - destruct b; simpl; lia.
  - pose proof (enc_num_length n rest). lia.
  - pose proof (enc_str_length s rest). lia.
  - apply le_n_S. induction IH as [|v l Hv _ IHl]; simpl; [lia|].
    specialize (Hv (foldr (fun v r => String "," (enc_val v r)) (String "]" rest) l)). lia.
  - apply le_n_S. induction IH as [|[k v] l Hv _ IHl]; simpl in *; [lia|].
    specialize (Hv (foldr (fun kv r => String "," (enc_str kv.1 (enc_val kv.2 r))) (String "}" rest) l)).
    match goal with |- context [enc_str k ?r] => pose proof (enc_str_length k r) end. lia.
Qed.

Lemma decode_encode_text v : decode_text (encode_text v) = Some v.
Proof.
  unfold decode_text, encode_text. rewrite dec_enc_val; [done|].
  pose proof (enc_val_length v ""). simpl in *. lia.
Qed.

Lemma lval_round_strings ids : ids ≠ [] → lval_round id (LArr (LStr <$> ids)) = LArr (LStr <$> ids).
Proof.
  destruct ids as [|i ids]; [done|]. intros _. simpl. do 2 f_equal. induction ids; simpl; congruence.
Qed.

Lemma assoc_map {A B} (f : A → B) k kvs :
  assoc k (map (fun kv => (kv.1, f kv.2)) kvs) = f <$> assoc k kvs.
Proof. induction kvs as [|[k' v] kvs IH]; simpl; [done|]. by case_match. Qed.

#[export] Instance toy_lua_laws : LuaRuntimeLaws id.
Proof.
  split.
  - done.
  - done.
  - intros kvs. eexists. cbn [cjson_decode cjson_encode toy_lua]. rewrite decode_encode_text.
    split; [done|]. intros k. by rewrite assoc_map.
  - intros ids Hne. cbn [cjson_decode cjson_encode toy_lua].
    by rewrite decode_encode_text, lval_round_strings.
  - intros n. simpl. by rewrite dec_enc_num.
Qed.

Lemma py_number n : ∃ v, py_of_lval (LNum n) = v ∧ is_bool v = false ∧ num_value v = Some n.
Proof.
  destruct n as [m|b|]; simpl; eauto. case_match; eexists; split; try done. simpl. to_prop.
  split; [done|]. unfold lint. f_equal. f_equal. pose proof (Z.div_mod m 1000000). lia.
Qed.

Lemma hex_digits_hex k n : str_forall is_hex (hex_digits k n) = true ∧ String.length (hex_digits k n) = k.
Proof.
  revert n. induction k as [|k IH]; intros n; simpl; [done|]. destruct (IH (n / 16)) as [-> ->].
  split; [|done]. rewrite andb_true_r. unfold hex_digit.
  pose proof (Z.mod_pos_bound n 16 eq_refl) as Hb. generalize dependent (n mod 16). intros d Hd.
  assert (d ∈ (Z.of_nat <$> seq 0 16)) as Hin.
  { apply list_elem_of_fmap. exists (Z.to_nat d). split; [lia|]. apply elem_of_seq. lia. }
  simpl in Hin. rewrite !elem_of_cons, elem_of_nil in Hin. by intuition subst.
Qed.

Lemma toy_digest_hex raw : is_hex64 (toy_digest raw) = true.
Proof.
  unfold is_hex64, toy_digest. destruct (hex_digits_hex 64 (poly_hash raw 7)) as [H1 H2].
  by rewrite H1, H2, Nat.eqb_refl.
Qed.

Lemma lval_of_strings ids : map lval_of_py (PStr <$> ids) = LStr <$> ids.
Proof. induction ids as [|i ids IH]; simpl; [done|]. f_equal. exact IH. Qed.
Lemma py_of_strings ids : map py_of_lval (LStr <$> ids) = PStr <$> ids.
Proof. induction ids as [|i ids IH]; simpl; [done|]. f_equal. exact IH. Qed.

#[export] Instance toy_queue_laws : QueueLaws id.
Proof.
  split; [apply _|..|exact toy_digest_hex].
  - simpl. unfold toy_validate. intros raw p Hv. destruct (decode_table raw) as [t|]; [|done].
    exists t. split; [done|]. unfold tstr. repeat case_match; simplify_eq.
    all: by repeat match goal with H : tfield _ _ = _ |- _ => rewrite H; clear H end.
  - done.
  - done.
  - intros kvs. simpl. eexists. rewrite decode_encode_text. split; [done|].
    intros k s Hk. by rewrite assoc_map, Hk.
  - intros ids _. simpl. rewrite decode_encode_text, lval_of_strings. simpl. by rewrite py_of_strings.
  - intros ids Hne. cbn [json_loads cjson_encode toy_lua toy_py].
    rewrite decode_encode_text, lval_round_strings by done. simpl. by rewrite py_of_strings.
  - intros kvs. simpl. eexists. rewrite decode_encode_text. simpl. split; [done|].
    repeat split; intros k; rewrite !assoc_map.
    + by intros ->.
    + by intros s ->.
    + intros n _ ->. simpl. unfold lint. by rewrite Z.mod_mul, Z.div_mul by done.
    + intros n ->. simpl. destruct (py_number n) as (v & Hv & ? & ?). exists v. split; [by rewrite <- Hv|done].
Qed.
