(* ===== verification/QueueFence.v ===== *)
(** * Reconciliation fences

    A reconciler that decides the fate of a stale run first claims the run's
    fence.  The theorems here show what the fence gives it: it is claimed only
    for a run no list of the queue holds, and while it lasts no sequence of
    operations by other clients puts the run back into the queue or under a
    lease. *)
From stdpp Require Import base gmap list strings.
From Stdlib Require Import ZArith Lia Ascii.
From S2P Require Import Prelude Redis QueueScripts QueueFacts PyValue QueueClient QueueCommands QueueTrace.
From S2P Require Import QueueRuntime.

Section Fence.
Context `{LuaRuntime} `{PyRuntime} `{QueuePayloads}.
Context (keys : QueueKeys).

(** No list of the queue holds a message of the run. *)
Definition run_absent (tenant_id run_id : string) (st : store) : Prop :=
  ∀ raw p, raw ∈ st_queued st ++ st_processing st → validate_payload raw = Some p →
    ¬ (pl_tenant_id p = tenant_id ∧ pl_run_id p = run_id).

(** The operations only the holder of a fence performs. *)
Definition owner_op (fence : RunReconciliationFence) (op : qop) : Prop :=
  match op with
  | QRelease f | QRenew f _ =>
      rf_fence_key f = rf_fence_key fence ∧ rf_owner_token f = rf_owner_token fence
  | _ => False
  end.

(** The fence is in the store with its token and expires at [expire_ms]. *)
Definition holds_fence (fence : RunReconciliationFence) (expire_ms : Z) (st : store) : Prop :=
  st_fences st !! rf_fence_key fence = Some (Fence (rf_owner_token fence) expire_ms).

(** ** Reading replies *)

Context {lua_round : luanum → luanum} {laws : QueueLaws lua_round}.

Lemma wire_status r : result_status (eval_result r) = rp_status r.
Proof.
  unfold result_status, eval_result, decode_redis_script_result, eval_reply.
  destruct (reply_fields (("status", LStr (rp_status r)) :: rp_fields r)) as (d & -> & _ & Hs & _).
  unfold get, get_default. rewrite (Hs "status" (rp_status r)) by done. simpl.
  unfold str_or_empty, py_or. simpl. destruct (str_truthy (rp_status r)) eqn:E; [done|].
  unfold str_truthy in E. to_prop. by rewrite E.
Qed.

(** ** Membership of the lists *)

Lemma sentinel_move_elem x s i l :
  x ∈ lrem1 s (lset l i s) → (∃ y, l !! Z.to_nat i = Some y) → x ∈ l.
Proof.
  unfold lset. intros Hx [y Hy]. destruct (decide (s ∈ l)) as [Hs|Hs].
  - apply (sublist_elem _ _ _ (lrem1_sublist _ _)) in Hx.
    apply list_elem_of_lookup in Hx as [j Hj].
    destruct (decide (j = Z.to_nat i)) as [->|Hne].
    + rewrite list_lookup_insert_eq in Hj by (by eapply lookup_lt_Some). by simplify_eq.
    + rewrite list_lookup_insert_ne in Hj by done. by eapply list_elem_of_lookup_2.
  - rewrite (lrem1_insert _ _ _ y) in Hx by done. by eapply sublist_elem, Hx; apply delete_sublist.
Qed.

(** Every element of the lists after [f] was there before. *)
Definition lists_shrink (st st' : store) : Prop :=
  st_queued st' ++ st_processing st' ⊆ st_queued st ++ st_processing st.

Lemma lists_shrink_refl st : lists_shrink st st.
Proof. by unfold lists_shrink. Qed.
Local Hint Resolve lists_shrink_refl : core.

Lemma lists_shrink_fields st st' :
  st_queued st' ⊆ st_queued st ++ st_processing st →
  st_processing st' ⊆ st_queued st ++ st_processing st → lists_shrink st st'.
Proof. unfold lists_shrink. set_solver. Qed.

Lemma enqueue_call_lists now wall raw p st x :
  let st' := (enqueue_call keys now wall raw p st).1 in
  x ∈ st_queued st' ++ st_processing st' →
  x ∈ st_queued st ++ st_processing st ∨
  (x = raw ∧ fence_exists st now (reconciliation_fence_key keys (pl_tenant_id p) (pl_run_id p)) = false).
Proof.
  unfold enqueue_call, enqueue_script. simpl. intros Hx. repeat case_match; simpl in *; auto.
  all: rewrite !elem_of_app, ?list_elem_of_singleton in *; naive_solver.
Qed.

Lemma lease_call_lists now w m tl ul raw p i a o st :
  lists_shrink st (lease_call keys now w m tl ul raw p i a o st).1.
Proof.
  unfold lease_call, lease_script. repeat case_match; simpl; try done.
  to_prop. unfold lindex in *. apply lists_shrink_fields; simpl; autorewrite with store; simpl.
  - intros x Hx. apply elem_of_app. left. eapply sentinel_move_elem; eauto.
  - intros x Hx. apply elem_of_app. apply elem_of_cons in Hx as [->|Hx]; [left|by right].
    by eapply list_elem_of_lookup_2.
Qed.

Lemma gate_lists now fk mid a o v st :
  match expired_lease_gate now fk mid a o v st with
  | inl (st', _) | inr st' =>
      st_queued st' = st_queued st ∧ st_processing st' = st_processing st ∧
      st_fences st' = st_fences st
  end.
Proof. unfold expired_lease_gate. repeat case_match; simplify_eq; done. Qed.

Lemma requeue_lists now fk raw mid f mj rj a o v st :
  lists_shrink st (requeue_script now fk raw mid f mj rj a o v st).1.
Proof.
  unfold requeue_script. pose proof (gate_lists now fk mid a o v st) as Hg.
  destruct (expired_lease_gate _ _ _ _ _ _ _) as [[st' r]|st'] eqn:E;
    destruct Hg as (Hq & Hp & _); simpl.
  { unfold lists_shrink. by rewrite Hq, Hp. }
  assert (lists_shrink st st') as Hrefl by (unfold lists_shrink; by rewrite Hq, Hp).
  repeat case_match; simpl; try done.
  all: apply lists_shrink_fields; simpl; rewrite ?Hq, ?Hp in *; to_prop.
  all: pose proof (sublist_subseteq _ _ (lrem1_sublist raw (st_processing st))).
  all: try match goal with H : str_in _ _ = true |- _ => apply str_in_elem in H end.
  all: set_solver.
Qed.

Lemma remove_one_lists t r acc mid :
  st_queued (remove_queued_one t r acc mid).1.1 `sublist_of` st_queued acc.1.1 ∧
  st_processing (remove_queued_one t r acc mid).1.1 = st_processing acc.1.1 ∧
  st_fences (remove_queued_one t r acc mid).1.1 = st_fences acc.1.1.
Proof.
  destruct acc as [[st n] k]. unfold remove_queued_one.
  repeat case_match; simplify_eq; simpl; repeat split; try done. apply lrem0_sublist.
Qed.

Lemma remove_all_lists t r ids acc :
  let acc' := fold_left (remove_queued_one t r) ids acc in
  st_queued acc'.1.1 `sublist_of` st_queued acc.1.1 ∧
  st_processing acc'.1.1 = st_processing acc.1.1 ∧ st_fences acc'.1.1 = st_fences acc.1.1.
Proof.
  revert acc. induction ids as [|mid ids IH]; intros acc; simpl; [done|].
  destruct (IH (remove_queued_one t r acc mid)) as (Hq & -> & ->).
  destruct (remove_one_lists t r acc mid) as (Hq' & -> & ->).
  split; [by etransitivity | done].
Qed.

Lemma remove_queued_lists f t r st :
  let st' := (remove_queued_script f t r st).1 in
  lists_shrink st st' ∧ st_fences st' = st_fences st.
Proof.
  unfold remove_queued_script. destruct (st_queued_run_index st !! f) as [s|]; [|done].
  set (ids := match decode_table s with Some _ => _ | None => _ end).
  pose proof (remove_all_lists t r ids (st, 0, 0)) as (Hq & Hp & Hf).
  destruct (fold_left _ ids _) as [[st' n] k]; simpl in *.
  assert (lists_shrink st st') as Hl.
  { apply lists_shrink_fields; simpl; rewrite ?Hp.
    - intros x Hx. apply elem_of_app. left. by eapply sublist_elem.
    - set_solver. }
  by case_match; simpl.
Qed.

Lemma dead_letter_invalid_lists raw i mid w now e st :
  let st' := (dead_letter_invalid_script raw i mid w now e st).1 in
  lists_shrink st st' ∧ st_fences st' = st_fences st.
Proof.
  unfold dead_letter_invalid_script. repeat case_match; simpl; try done.
  all: autorewrite with store; simpl; split; [|done].
  all: to_prop; unfold lindex in *; apply lists_shrink_fields; simpl; autorewrite with store; simpl.
  all: try (intros x Hx; apply elem_of_app; left; eapply sentinel_move_elem; by eauto).
  all: set_solver.
Qed.

Lemma prune_lists args st :
  let st' := (prune_script args st).1 in
  st_queued st' = st_queued st ∧ st_processing st' = st_processing st ∧ st_fences st' = st_fences st.
Proof.
  unfold prune_script. generalize 0 as n. revert st.
  induction args as [|arg args IH]; intros st n; simpl; [done|].
  case_match; [destruct (IH (set_worker_heartbeat (delete arg.1) st) (n + 1)) as (-> & -> & ->) | apply IH].
  done.
Qed.

Lemma dead_letter_expired_lists now fk raw mid j b a o v st :
  lists_shrink st (dead_letter_expired_script now fk raw mid j b a o v st).1.
Proof.
  unfold dead_letter_expired_script. pose proof (gate_lists now fk mid a o v st) as Hg.
  destruct (expired_lease_gate _ _ _ _ _ _ _) as [[st' r]|st']; destruct Hg as (Hq & Hp & _); simpl.
  - unfold lists_shrink. by rewrite Hq, Hp.
  - pose proof (sublist_subseteq _ _ (lrem1_sublist raw (st_processing st'))).
    apply lists_shrink_fields; destruct b; simpl; rewrite <- ?Hq, <- ?Hp; set_solver.
Qed.

Lemma heartbeat_lists now mid a o w fp st :
  let st' := (heartbeat_script now mid a o w fp st).1 in
  st_queued st' = st_queued st ∧ st_processing st' = st_processing st ∧ st_fences st' = st_fences st.
Proof. unfold heartbeat_script. repeat case_match; done. Qed.

Lemma ack_lists now fk raw mid a o fp st :
  lists_shrink st (ack_script now fk raw mid a o fp st).1.
Proof.
  unfold ack_script. case_match; simpl; [done|].
  pose proof (sublist_subseteq _ _ (lrem1_sublist raw (st_processing st))).
  apply lists_shrink_fields; simpl; set_solver.
Qed.

Lemma fail_lists now fk raw mid a o j fp st :
  lists_shrink st (fail_script now fk raw mid a o j fp st).1.
Proof.
  unfold fail_script. repeat case_match; simpl; try done.
  pose proof (sublist_subseteq _ _ (lrem1_sublist raw (st_processing st))).
  apply lists_shrink_fields; simpl; set_solver.
Qed.

Lemma acquire_script_lists now fk t r f tok wt sl ttl st :
  let st' := (acquire_fence_script now fk t r f tok wt sl ttl st).1 in
  st_queued st' = st_queued st ∧ st_processing st' = st_processing st.
Proof. unfold acquire_fence_script, fence_set. repeat case_match; done. Qed.

Lemma acquire_run_lists now wt t r sl ttl tok st :
  lists_shrink st (acquire_run_reconciliation_fence keys now wt t r sl ttl tok st).1.
Proof.
  unfold acquire_run_reconciliation_fence.
  pose proof (acquire_script_lists now (reconciliation_fence_key keys t r) t r
    (queued_run_index_field t r) tok (Some wt) (Some (Z.max sl 1)) (Some (Z.max ttl 1 * 1000)) st)
    as [Hq Hp].
  destruct (acquire_fence_script _ _ _ _ _ _ _ _ _ _); simpl in *.
  unfold lists_shrink. by rewrite Hq, Hp.
Qed.

Lemma release_run_lists now f st : lists_shrink st (release_run_reconciliation_fence now f st).1.
Proof.
  unfold release_run_reconciliation_fence, release_fence_script.
  unfold lists_shrink. by repeat case_match; simplify_eq.
Qed.

Lemma renew_run_lists now f ttl st : lists_shrink st (renew_run_reconciliation_fence now f ttl st).1.
Proof.
  unfold renew_run_reconciliation_fence, renew_fence_script, fence_set.
  unfold lists_shrink. by repeat case_match; simplify_eq.
Qed.

Lemma requeue_run_lists now wall raw p rm a o v st :
  lists_shrink st (requeue_run_with_fence keys now wall raw p rm a o v st).1.
Proof.
  unfold requeue_run_with_fence.
  match goal with |- context [requeue_script ?n ?k ?w ?m ?f ?j ?q ?a' ?o' ?v' ?s] =>
    pose proof (requeue_lists n k w m f j q a' o' v' s) as Hr;
    destruct (requeue_script n k w m f j q a' o' v' s) end. done.
Qed.

Lemma heartbeat_run_lists now h w st : lists_shrink st (heartbeat_run keys now h w st).1.
Proof.
  unfold heartbeat_run. destruct (parse_lease_handle h) as [[[m a] o]|]; simpl; auto.
  pose proof (heartbeat_lists now m a o w (key_reconciliation_fence_prefix keys) st) as (Hq & Hp & _).
  destruct (heartbeat_script _ _ _ _ _ _ _); simpl in *. unfold lists_shrink. by rewrite Hq, Hp.
Qed.

Lemma ack_run_lists now raw h st : lists_shrink st (ack_run keys now raw h st).1.
Proof.
  unfold ack_run. destruct (parse_lease_handle h) as [[[m a] o]|]; simpl; auto.
  destruct (lease_fence_key keys raw) as [fk|]; simpl; auto.
  pose proof (ack_lists now fk raw m a o (key_reconciliation_fence_prefix keys) st).
  by destruct (ack_script _ _ _ _ _ _ _ _).
Qed.

Lemma prune_lists_shrink args st : lists_shrink st (prune_script args st).1.
Proof. destruct (prune_lists args st) as (Hq & Hp & _). unfold lists_shrink. by rewrite Hq, Hp. Qed.

Lemma remove_queued_shrink f t r st : lists_shrink st (remove_queued_script f t r st).1.
Proof. apply remove_queued_lists. Qed.

Lemma dead_letter_invalid_shrink raw i mid w now e st :
  lists_shrink st (dead_letter_invalid_script raw i mid w now e st).1.
Proof. apply dead_letter_invalid_lists. Qed.

Lemma trim_lists n st : lists_shrink st (trim_dead_letters n st).
Proof. by unfold lists_shrink. Qed.

Lemma aside_lists st st' : aside st st' → lists_shrink st st'.
Proof.
  intros [Hq Hp _ _ _ _ _]. apply lists_shrink_fields; rewrite ?Hp; [|set_solver].
  apply sublist_subseteq in Hq. set_solver.
Qed.

Local Hint Resolve aside_lists trim_lists lease_call_lists remove_queued_shrink dead_letter_invalid_shrink
  acquire_run_lists release_run_lists renew_run_lists requeue_run_lists dead_letter_expired_lists
  heartbeat_run_lists ack_run_lists fail_lists prune_lists_shrink : core.

(** An operation adds to the lists only a message it enqueues, and only when the
    fence of the message's run is not there. *)
Lemma run_qop_lists now op st x :
  x ∈ st_queued (run_qop keys now op st) ++ st_processing (run_qop keys now op st) →
  x ∈ st_queued st ++ st_processing st ∨
  ∃ p, validate_payload x = Some p ∧
    fence_exists st now (reconciliation_fence_key keys (pl_tenant_id p) (pl_run_id p)) = false.
Proof.
  assert (lists_shrink st (run_qop keys now op st) ∨ ∃ wall raw, op = QEnqueue wall raw) as [Hs|Hop].
  { destruct op; simpl; eauto; left; repeat case_match; auto. }
  { intros Hx. left. by apply Hs. }
  destruct Hop as (wall & raw & ->). simpl. case_match; [|auto]. intros Hx.
  apply enqueue_call_lists in Hx as [Hx|[-> Hf]]; eauto.
Qed.

(** ** The fence stays *)

Lemma enqueue_fences now wall raw p st :
  st_fences (enqueue_call keys now wall raw p st).1 = st_fences st.
Proof. unfold enqueue_call, enqueue_script. by repeat case_match. Qed.

Lemma lease_fences now w m tl ul raw p i a o st :
  st_fences (lease_call keys now w m tl ul raw p i a o st).1 = st_fences st.
Proof.
  unfold lease_call, lease_script. repeat case_match; simpl; by autorewrite with store.
Qed.

Lemma requeue_run_fences now wall raw p rm a o v st :
  st_fences (requeue_run_with_fence keys now wall raw p rm a o v st).1 = st_fences st.
Proof.
  unfold requeue_run_with_fence, requeue_script.
  match goal with |- context [expired_lease_gate ?n ?k ?m ?a' ?o' ?v' ?s] =>
    pose proof (gate_lists n k m a' o' v' s) as Hg;
    destruct (expired_lease_gate n k m a' o' v' s) as [[s' r]|s'] end;
    destruct Hg as (_ & _ & Hf); rewrite <- Hf; [done|].
  by repeat case_match; simplify_eq.
Qed.

Lemma dead_letter_expired_fences now fk raw mid j b a o v st :
  st_fences (dead_letter_expired_script now fk raw mid j b a o v st).1 = st_fences st.
Proof.
  unfold dead_letter_expired_script. pose proof (gate_lists now fk mid a o v st) as Hg.
  destruct (expired_lease_gate _ _ _ _ _ _ _) as [[st' r]|st'];
    destruct Hg as (_ & _ & Hf); rewrite <- Hf; [done | by destruct b].
Qed.

Lemma heartbeat_run_fences now h w st :
  st_fences (heartbeat_run keys now h w st).1 = st_fences st.
Proof.
  unfold heartbeat_run. destruct (parse_lease_handle h) as [[[m a] o]|]; simpl; auto.
  pose proof (heartbeat_lists now m a o w (key_reconciliation_fence_prefix keys) st) as (_ & _ & Hf).
  by destruct (heartbeat_script _ _ _ _ _ _ _).
Qed.

Lemma ack_run_fences now raw h st : st_fences (ack_run keys now raw h st).1 = st_fences st.
Proof. unfold ack_run, ack_script. by repeat case_match; simplify_eq. Qed.

Lemma fail_fences now fk raw mid a o j fp st :
  st_fences (fail_script now fk raw mid a o j fp st).1 = st_fences st.
Proof. unfold fail_script. by repeat case_match. Qed.

Lemma fence_exists_held fence expire st now :
  holds_fence fence expire st → ms_of now ≤ expire →
  fence_get st now (rf_fence_key fence) = Some (rf_owner_token fence).
Proof.
  unfold holds_fence, fence_get. intros -> Hle. simpl. by rewrite (proj2 (Z.leb_le _ _) Hle).
Qed.

(** Another client cannot take a live fence away. *)
Lemma run_qop_fence fence expire now op st :
  holds_fence fence expire st → ms_of now ≤ expire → ¬ owner_op fence op →
  holds_fence fence expire (run_qop keys now op st).
Proof.
  intros Hf Hle Hop. pose proof (fence_exists_held _ _ _ _ Hf Hle) as Hget.
  assert (∀ st', st_fences st' = st_fences st → holds_fence fence expire st') as Hs.
  { unfold holds_fence. by intros st' ->. }
  destruct op; simpl; repeat case_match; auto using enqueue_fences, lease_fences,
    requeue_run_fences, dead_letter_expired_fences, heartbeat_run_fences, ack_run_fences, fail_fences.
  - apply Hs, remove_queued_lists.
  - apply Hs, dead_letter_invalid_lists.
  - unfold acquire_run_reconciliation_fence, acquire_fence_script.
    destruct (decide (rf_fence_key fence = reconciliation_fence_key keys tenant_id run_id)) as [E|E].
    + rewrite <- E. unfold fence_exists at 1. by rewrite Hget.
    + unfold fence_set. repeat case_match; simplify_eq; auto.
      all: unfold holds_fence; simpl; by rewrite lookup_insert_ne.
  - unfold release_run_reconciliation_fence, release_fence_script.
    destruct (decide (rf_fence_key fence0 = rf_fence_key fence)) as [E|E].
    + rewrite E, Hget. repeat case_match; simplify_eq; auto. to_prop. exfalso. by apply Hop.
    + repeat case_match; simplify_eq; auto. unfold holds_fence. simpl. by rewrite lookup_delete_ne.
  - unfold renew_run_reconciliation_fence, renew_fence_script.
    destruct (decide (rf_fence_key fence0 = rf_fence_key fence)) as [E|E].
    + rewrite E, Hget. repeat case_match; simplify_eq; auto. to_prop. exfalso. by apply Hop.
    + unfold fence_set. repeat case_match; simplify_eq; auto.
      all: unfold holds_fence; simpl; by rewrite lookup_insert_ne.
  - apply Hs, prune_lists.
  - apply Hs, as_fences. auto.
  - apply Hs, as_fences. auto.
  - apply Hs, as_fences. auto.
Qed.

(** ** The main theorems *)

Lemma list_has_run_absent t r l raw p :
  list_has_run t r l = Absent → raw ∈ l → validate_payload raw = Some p →
  ¬ (pl_tenant_id p = t ∧ pl_run_id p = r).
Proof.
  induction l as [|y l IH]; simpl; [by intros _ ?%elem_of_nil|].
  intros Hl Hin Hv [<- <-]. apply elem_of_cons in Hin as [->|Hin].
  - destruct (payload_fields y p Hv) as (tbl & Ht & E1 & E2 & _).
    by rewrite Ht, E1, E2, !String.eqb_refl in Hl.
  - repeat case_match; try done. by eapply IH.
Qed.

(** What a claimed fence proves about the store it was claimed on. *)
Lemma acquire_claimed now wt t r sl ttl tok st st' fence :
  acquire_run_reconciliation_fence keys now wt t r sl ttl tok st = (st', Some fence) →
  fence = MkRunFence t r tok (reconciliation_fence_key keys t r) ∧
  fence_exists st now (reconciliation_fence_key keys t r) = false ∧
  run_absent t r st ∧ st_queued_run_index st !! queued_run_index_field t r = None ∧
  st' = fence_set (reconciliation_fence_key keys t r) tok now (Z.max ttl 1 * 1000) st.
Proof.
  unfold acquire_run_reconciliation_fence.
  destruct (acquire_fence_script _ _ _ _ _ _ _ _ _ _) as [s rep] eqn:E.
  rewrite wire_status. unfold acquire_fence_script in E.
  intros Hfin. repeat case_match; simplify_eq; simpl in *; try done.
  repeat split; auto. intros raw p [Hin|Hin]%elem_of_app Hv;
    by (eapply list_has_run_absent; [|exact Hin|exact Hv]).
Qed.

(** C6.  While a reconciler holds the fence of a run, no sequence of operations
    by other clients puts a message of the run into the queue or under a lease:
    from the moment the fence is claimed until it expires the run stays out of
    both lists, and the fence stays with its holder. *)
Theorem reconciliation_fence_excludes_run now wt t r sl ttl tok st st' fence tr :
  acquire_run_reconciliation_fence keys now wt t r sl ttl tok st = (st', Some fence) →
  Forall (fun step => ms_of step.1 ≤ ms_of now + Z.max ttl 1 * 1000 ∧ ¬ owner_op fence step.2) tr →
  run_absent t r (run_trace keys tr st') ∧
  holds_fence fence (ms_of now + Z.max ttl 1 * 1000) (run_trace keys tr st').
Proof.
  intros Hacq Htr. destruct (acquire_claimed _ _ _ _ _ _ _ _ _ _ Hacq) as (Hf & _ & Habs & _ & Hst').
  assert (run_absent t r st') as Habs' by by subst.
  assert (holds_fence fence (ms_of now + Z.max ttl 1 * 1000) st') as Hh.
  { subst. unfold holds_fence, fence_set. simpl. apply lookup_insert_eq. }
  clear Habs Hst' Hacq. revert st' Habs' Hh. induction Htr as [|[now' op] tr [Hle Hop] _ IH].
  { done. }
  intros s Habs Hh. simpl in *. apply IH; [|by apply run_qop_fence].
  intros raw p Hin Hv [Ht Hr]. apply run_qop_lists in Hin as [Hin|(p' & Hv' & Hno)].
  - by eapply Habs.
  - simplify_eq. pose proof (fence_exists_held _ _ _ _ Hh Hle) as Hget. simpl in Hget.
    unfold fence_exists in Hno. by rewrite Hget in Hno.
Qed.

End Fence.

(** A fence for a run of tenant "t", another run queued before it, and an attempt
    to queue and to fence the run while it lasts. *)
Definition fence_setup : store := run_trace toy_keys [(5, QEnqueue (LFin 5) (toy_raw "t" "u" "other"))] empty_store.
Definition fence_claim : store * option RunReconciliationFence :=
  acquire_run_reconciliation_fence toy_keys 1000 (lint 60) "t" "r" 100 30 "tok" fence_setup.
Definition fence_contenders : list (Z * qop) :=
  [(2000, QEnqueue (LFin 2000) (toy_raw "t" "u" "r"));
   (3000, QAcquire (lint 60) "t" "r" 100 30 "other-token");
   (4000, QLease "worker" 0 0 0 (toy_raw "t" "u" "other") 0 (toy_attempt 1) (toy_owner 1))].

Lemma reconciliation_fence_excludes_run_witness :
  run_absent "t" "r" (run_trace toy_keys fence_contenders fence_claim.1) ∧
  holds_fence (MkRunFence "t" "r" "tok" (reconciliation_fence_key toy_keys "t" "r")) 30001
    (run_trace toy_keys fence_contenders fence_claim.1).
Proof.
  refine (reconciliation_fence_excludes_run toy_keys 1000 (lint 60) "t" "r" 100 30 "tok" fence_setup
    fence_claim.1 _ fence_contenders _ _).
  - vm_compute. reflexivity.
  - repeat constructor; try (vm_compute; discriminate); intros [].
Defined.
