(* ===== verification/QueueUnique.v ===== *)
(** * No run is queued or leased twice

    The queue keeps a message in exactly one place: over every execution that
    starts from an empty store, a raw message is in the queued list or in the
    processing list at most once, never in both, and nothing the scripts keep
    beside the lists (metadata, order, run index) goes out of step with them in
    a way that would let a second copy in. *)
From stdpp Require Import base gmap list strings.
From Stdlib Require Import ZArith Lia Ascii.
From S2P Require Import Prelude Redis QueueScripts QueueFacts PyValue QueueClient QueueCommands QueueTrace.
From S2P Require Import QueueRuntime QueueFence.

Section Unique.
Context `{LuaRuntime} `{PyRuntime} `{QueuePayloads}.
Context (keys : QueueKeys).

(** The ids the run index keeps under a field. *)
Definition index_ids (st : store) (field : string) : list string :=
  enqueue_index_ids (st_queued_run_index st !! field).

(** The text of a list of ids, which the scripts and the Python client read alike. *)
Definition stores_ids (s : string) (ids : list string) : Prop :=
  decode_table s = Some (LArr (LStr <$> ids)) ∧ json_loads s = Some (PList (PStr <$> ids)).

(** The run index holds lists of ids. *)
Definition index_wf (st : store) : Prop :=
  ∀ f s, st_queued_run_index st !! f = Some s → ∃ ids,
    ids ≠ [] ∧ Forall (fun i => i ≠ "") ids ∧ stores_ids s ids.

(** Everything the queue keeps about one queued message. *)
Definition queued_entry (st : store) (raw : string) (p : queue_payload) : Prop :=
  ∃ m kvs n, st_queued_meta st !! message_id_for_raw raw = Some m ∧
    decode_table m = Some (LObj kvs) ∧
    assoc "tenant_id" kvs = Some (LStr (pl_tenant_id p)) ∧
    assoc "run_id" kvs = Some (LStr (pl_run_id p)) ∧ assoc "raw" kvs = Some (LStr raw) ∧
    st_queued_order st !! message_id_for_raw raw = Some n ∧
    message_id_for_raw raw ∈ index_ids st (queued_run_index_field (pl_tenant_id p) (pl_run_id p)).

(** Lease metadata that names the message it is filed under. *)
Definition meta_names_message (mid m : string) : Prop :=
  ∃ kvs raw, decode_table m = Some (LObj kvs) ∧ assoc "raw" kvs = Some (LStr raw) ∧
    message_id_for_raw raw = mid.

(** Queue metadata that describes the message it is filed under. *)
Definition queued_meta_names (mid m : string) : Prop :=
  ∃ kvs raw p, decode_table m = Some (LObj kvs) ∧ message_id_for_raw raw = mid ∧
    validate_payload raw = Some p ∧ assoc "raw" kvs = Some (LStr raw) ∧
    assoc "tenant_id" kvs = Some (LStr (pl_tenant_id p)) ∧
    assoc "run_id" kvs = Some (LStr (pl_run_id p)) ∧
    ∃ d, json_loads m = Some (PDict d) ∧ assoc "tenant_id" d = Some (PStr (pl_tenant_id p)) ∧
      assoc "run_id" d = Some (PStr (pl_run_id p)).

(** The messages a trace uses, with no two of the same digest, and the tenants
    they name; a tenant id holds no colon, the separator of the run index. *)
Record plain_messages (U : string → Prop) : Prop := {
  pm_digest : ∀ a b, U a → U b → message_id_for_raw a = message_id_for_raw b → a = b;
  pm_tenant : ∀ raw p, U raw → validate_payload raw = Some p →
    str_forall (fun c => negb (Ascii.eqb c ":")) (pl_tenant_id p) = true
}.

(** The order of the queue lists queued messages, under sequence numbers given out. *)
Definition order_wf (st : store) : Prop :=
  ∀ mid n, st_queued_order st !! mid = Some n →
    n ≤ st_queued_sequence st ∧ ∃ raw, raw ∈ st_queued st ∧ message_id_for_raw raw = mid.

(** Every lease is filed under the message it names. *)
Definition leases_named (st : store) : Prop :=
  ∀ mid m, st_processing_meta st !! mid = Some m → meta_names_message mid m.

Record queue_inv (U : string → Prop) (st : store) : Prop := {
  qi_nodup : NoDup (st_queued st ++ st_processing st);
  qi_valid : ∀ raw, raw ∈ st_queued st ++ st_processing st →
    U raw ∧ is_Some (validate_payload raw);
  qi_queued : ∀ raw p, raw ∈ st_queued st → validate_payload raw = Some p → queued_entry st raw p;
  qi_processing : ∀ raw, raw ∈ st_processing st →
    is_Some (st_processing_meta st !! message_id_for_raw raw) ∨
    is_Some (st_retry_meta st !! message_id_for_raw raw);
  qi_meta : leases_named st;
  qi_queued_meta : ∀ mid m, st_queued_meta st !! mid = Some m → queued_meta_names mid m;
  qi_index : index_wf st;
  qi_order : order_wf st
}.

(** The ids other than one message's. *)
Definition keep_others (mid : string) (ids : list string) : list string :=
  List.filter (fun c => negb (String.eqb c mid)) ids.

(** Writing a list of ids under a field. *)
Definition write_ids (f : string) (ids : list string) : store → store :=
  set_queued_run_index (insert f (cjson_encode (LArr (LStr <$> ids)))).

(** Putting a message at the end of the queue, as admission does. *)
Definition enqueue_push (mid f raw : string) (metadata : lval) (st : store) : store :=
  set_queued_order (insert mid (st_queued_sequence st + 1))
    (set_queued_run_index
       (insert f (cjson_encode (LArr (LStr <$> keep_others mid (index_ids st f) ++ [mid]))))
       (set_queued_meta (insert mid (cjson_encode metadata))
          (set_queued (fun l => l ++ [raw]) (set_queued_sequence (fun n => n + 1) st)))).

(** No queued message with the id is one of the run. *)
Definition run_unqueued (t r mid : string) (st : store) : Prop :=
  ∀ x p, x ∈ st_queued st → message_id_for_raw x = mid → validate_payload x = Some p →
    ¬ (pl_tenant_id p = t ∧ pl_run_id p = r).

(** The messages and tenants an operation names are plain ones, and a function that
    sends several commands runs as a whole. *)
Definition plain_op (U : string → Prop) (op : qop) : Prop :=
  match op with
  | QCommand _ => False
  | QRemoveQueued tenant_id _ | QPosition tenant_id _ => str_forall (fun c => negb (Ascii.eqb c ":")) tenant_id = true
  | _ => match qop_raw op with Some raw => U raw | None => True end
  end.

Context {lua_round : luanum → luanum} {laws : QueueLaws lua_round}.

(** ** The run index *)

Lemma nonempty_ids_strings ids :
  Forall (fun i => i ≠ "") ids → nonempty_ids (ipairs (LArr (LStr <$> ids))) = ids.
Proof.
  unfold nonempty_ids. simpl. induction 1 as [|i ids Hi _ IH]; simpl; [done|].
  unfold str_truthy at 1. rewrite (proj2 (String.eqb_neq _ _) Hi). simpl. by f_equal.
Qed.

Lemma enqueue_index_ids_decoded s ids :
  Forall (fun i => i ≠ "") ids → decode_table s = Some (LArr (LStr <$> ids)) →
  enqueue_index_ids (Some s) = ids.
Proof. intros Hf Hd. unfold enqueue_index_ids. rewrite Hd. by apply nonempty_ids_strings. Qed.

Lemma decode_encoded_ids ids :
  ids ≠ [] → decode_table (cjson_encode (LArr (LStr <$> ids))) = Some (LArr (LStr <$> ids)).
Proof. intros Hne. unfold decode_table. by rewrite cjson_strings. Qed.

Lemma encoded_ids_stored ids : ids ≠ [] → stores_ids (cjson_encode (LArr (LStr <$> ids))) ids.
Proof. intros Hne. split; [by apply decode_encoded_ids | by apply encoded_ids]. Qed.

Lemma dumped_ids_stored ids : ids ≠ [] → stores_ids (json_dumps (PList (PStr <$> ids))) ids.
Proof. intros Hne. destruct (dumps_ids ids Hne) as [E1 E2]. split; [|done]. unfold decode_table. by rewrite E1. Qed.

Lemma decode_encoded_obj kvs : ∃ kvs',
  decode_table (cjson_encode (LObj kvs)) = Some (LObj kvs') ∧
  ∀ k, assoc k kvs' = lval_round lua_round <$> assoc k kvs.
Proof.
  destruct (cjson_object kvs) as (kvs' & E & Hf). exists kvs'. unfold decode_table. by rewrite E.
Qed.

Lemma elem_keep_others x mid ids : x ∈ keep_others mid ids ↔ x ∈ ids ∧ x ≠ mid.
Proof.
  unfold keep_others. rewrite !list_elem_of_In, filter_In, negb_true_iff, String.eqb_neq. done.
Qed.

Lemma keep_others_nonempty mid ids :
  Forall (fun i => i ≠ "") ids → Forall (fun i => i ≠ "") (keep_others mid ids).
Proof. rewrite !Forall_forall. intros Hf x Hx%elem_keep_others. naive_solver. Qed.

Lemma index_ids_nonempty st f : index_wf st → Forall (fun i => i ≠ "") (index_ids st f).
Proof.
  intros Hwf. unfold index_ids. destruct (st_queued_run_index st !! f) as [s|] eqn:E; [|done].
  destruct (Hwf f s E) as (ids & _ & Hf & Hd & _). by rewrite (enqueue_index_ids_decoded s ids).
Qed.

Lemma stored_ids_wf f s ids st :
  ids ≠ [] → Forall (fun i => i ≠ "") ids → stores_ids s ids → index_wf st →
  index_wf (set_queued_run_index (insert f s) st).
Proof.
  intros Hne Hf Hs Hwf g s'. simpl. rewrite lookup_insert. case_decide; [|apply Hwf].
  intros [= <-]. by exists ids.
Qed.

Lemma index_ids_stored f s ids st g :
  Forall (fun i => i ≠ "") ids → stores_ids s ids →
  index_ids (set_queued_run_index (insert f s) st) g = if decide (f = g) then ids else index_ids st g.
Proof.
  intros Hf [Hs _]. unfold index_ids. simpl. rewrite lookup_insert. case_decide; [|done].
  by apply enqueue_index_ids_decoded.
Qed.

Lemma write_ids_wf f ids st :
  ids ≠ [] → Forall (fun i => i ≠ "") ids → index_wf st → index_wf (write_ids f ids st).
Proof. intros Hne Hf. apply (stored_ids_wf _ _ ids); auto using encoded_ids_stored. Qed.

Lemma index_ids_write f ids st g :
  ids ≠ [] → Forall (fun i => i ≠ "") ids →
  index_ids (write_ids f ids st) g = if decide (f = g) then ids else index_ids st g.
Proof. intros Hne Hf. apply index_ids_stored; auto using encoded_ids_stored. Qed.

(** The Python client reads the ids the scripts read. *)
Lemma python_index_ids st f :
  index_wf st → decode_run_index_message_ids (st_queued_run_index st !! f) = index_ids st f.
Proof.
  intros Hwf. unfold index_ids. destruct (st_queued_run_index st !! f) as [s|] eqn:E; [|done].
  destruct (Hwf f s E) as (ids & _ & Hf & Hs & Hpy). rewrite (enqueue_index_ids_decoded s ids) by done.
  destruct s as [|c s]; [unfold decode_table in Hs; by rewrite cjson_not_empty in Hs|].
  unfold decode_run_index_message_ids. rewrite Hpy. clear -Hf.
  induction Hf as [|i ids Hi _ IH]; simpl; [done|]. unfold str_truthy at 1.
  rewrite (proj2 (String.eqb_neq _ _) Hi). simpl. by f_equal.
Qed.

Lemma delete_field_wf f st : index_wf st → index_wf (set_queued_run_index (delete f) st).
Proof. intros Hwf g s. simpl. intros [_ Hg]%lookup_delete_Some. by apply (Hwf g). Qed.

Lemma remove_index_spec f mid st :
  index_wf st →
  index_wf (remove_run_index_message f mid st) ∧
  ∀ g, index_ids (remove_run_index_message f mid st) g =
       if decide (f = g) then keep_others mid (index_ids st f) else index_ids st g.
Proof.
  intros Hwf. unfold remove_run_index_message.
  destruct (st_queued_run_index st !! f) as [s|] eqn:E.
  2:{ split; [done|]. intros g. case_decide; [subst|done]. unfold index_ids. by rewrite E. }
  destruct (Hwf f s E) as (ids & Hne & Hf & Hd & _). rewrite Hd, nonempty_ids_strings by done.
  assert (index_ids st f = ids) as Hids.
  { unfold index_ids. rewrite E. by apply enqueue_index_ids_decoded. }
  fold (keep_others mid ids). rewrite Hids. pose proof (keep_others_nonempty mid ids Hf) as Hk.
  destruct (keep_others mid ids) as [|i rest] eqn:Ek.
  - split; [by apply delete_field_wf|]. intros g. unfold index_ids. simpl.
    rewrite lookup_delete. by case_decide.
  - rewrite <- Ek in *. assert (keep_others mid ids ≠ []) by by rewrite Ek.
    split; [by apply write_ids_wf | intros g; by apply index_ids_write].
Qed.

(** ** Metadata *)

Lemma decode_table_obj raw t k v :
  decode_table raw = Some t → tfield k t = Some v → ∃ kvs, t = LObj kvs ∧ assoc k kvs = Some v.
Proof. intros _ Hf. destruct t; try done. by eexists. Qed.

(** Re-encoding metadata with its times changed keeps the message it names. *)
Lemma meta_names_tset mid m k v :
  k ≠ "raw" → ∀ t, decode_table m = Some t → meta_names_message mid m →
  ∃ kvs, tset k v t = LObj kvs ∧ ∃ raw, assoc "raw" kvs = Some (LStr raw) ∧ message_id_for_raw raw = mid.
Proof.
  intros Hk t Ht (kvs & raw & Hd & Hraw & Hmid). simplify_eq. simpl. eexists. split; [done|].
  exists raw. by rewrite assoc_set_ne.
Qed.

Lemma meta_names_encode mid kvs raw :
  assoc "raw" kvs = Some (LStr raw) → message_id_for_raw raw = mid →
  meta_names_message mid (cjson_encode (LObj kvs)).
Proof.
  intros Hraw Hmid. destruct (decode_encoded_obj kvs) as (kvs' & Hd & Hf).
  exists kvs', raw. by rewrite Hf, Hraw.
Qed.

Lemma clamp_future_raw now k t kvs :
  k ≠ "raw" → t = LObj kvs →
  ∃ kvs', (clamp_future now k t).1 = LObj kvs' ∧ assoc "raw" kvs' = assoc "raw" kvs.
Proof.
  intros Hk ->. unfold clamp_future. repeat case_match; simpl; eauto.
  eexists. split; [done|]. by rewrite assoc_set_ne.
Qed.

Lemma normalize_future_spec now mid a o hash :
  (∀ k, is_Some (hash !! k) → is_Some (normalize_future now mid a o hash !! k)) ∧
  ((∀ k m, hash !! k = Some m → meta_names_message k m) →
   ∀ k m, normalize_future now mid a o hash !! k = Some m → meta_names_message k m).
Proof.
  unfold normalize_future. destruct (hash !! mid) as [raw|] eqn:E; [|done].
  destruct (decode_table raw) as [t|] eqn:Ed; [|done]. destruct (lease_matches _ _ _ _); [|done].
  destruct (clamp_future now "heartbeat_at" t) as [t1 c1] eqn:E1.
  destruct (clamp_future now "leased_at" t1) as [t2 c2] eqn:E2. destruct (c1 || c2); [|done].
  split.
  - intros k Hk. rewrite lookup_insert. by case_decide.
  - intros Hm k m. rewrite lookup_insert. case_decide as Hk; [|apply Hm]. intros [= <-]. subst k.
    destruct (Hm mid raw E) as (kvs & r & Hd & Hraw & Hmid). simplify_eq.
    destruct (clamp_future_raw now "heartbeat_at" (LObj kvs) kvs) as (kvs1 & F1 & R1); [done..|].
    rewrite E1 in F1. simpl in F1. subst t1.
    destruct (clamp_future_raw now "leased_at" (LObj kvs1) kvs1) as (kvs2 & F2 & R2); [done..|].
    rewrite E2 in F2. simpl in F2. subst t2.
    eapply meta_names_encode; [|done]. by rewrite R2, R1.
Qed.

(** ** Steps that keep the lists *)

Lemma inv_same_lists U st st' :
  queue_inv U st →
  st_queued st' = st_queued st → st_processing st' = st_processing st →
  st_queued_meta st' = st_queued_meta st → st_queued_order st' = st_queued_order st →
  st_queued_run_index st' = st_queued_run_index st → st_queued_sequence st' = st_queued_sequence st →
  (∀ k, is_Some (st_processing_meta st !! k) → is_Some (st_processing_meta st' !! k)) →
  (∀ k, is_Some (st_retry_meta st !! k) → is_Some (st_retry_meta st' !! k)) →
  (∀ k m, st_processing_meta st' !! k = Some m → meta_names_message k m) →
  queue_inv U st'.
Proof.
  intros [Hnd Hv Hq Hp Hm Hqm Hi Ho] Eq Ep Eqm Eo Ei Es Kp Kr Km.
  split; rewrite ?Eq, ?Ep; auto.
  - intros raw p Hin Hval. destruct (Hq raw p Hin Hval) as (m & kvs & n & ? & ? & ? & ? & ? & ? & ?).
    exists m, kvs, n. unfold index_ids. rewrite Eqm, Eo, Ei. auto 10.
  - intros raw Hin. destruct (Hp raw Hin); auto.
  - by rewrite Eqm.
  - intros f s. rewrite Ei. apply Hi.
  - intros k n. rewrite Eo, Es, Eq. apply Ho.
Qed.

Lemma inv_gate U now fk mid a o v st :
  queue_inv U st →
  match expired_lease_gate now fk mid a o v st with
  | inl (st', _) | inr st' => queue_inv U st'
  end.
Proof.
  intros Hinv. unfold expired_lease_gate. repeat case_match; simplify_eq; try done.
  all: eapply inv_same_lists; try done; simpl;
    try (intros k Hk; by apply normalize_future_spec).
  all: apply normalize_future_spec, (qi_meta _ _ Hinv).
Qed.

Lemma heartbeat_named now mid a o w fp st :
  leases_named st → leases_named (heartbeat_script now mid a o w fp st).1.
Proof.
  intros Hm. unfold heartbeat_script. destruct (st_processing_meta st !! mid) as [raw|] eqn:E; [|done].
  destruct (decode_table raw) as [t|] eqn:Ed; [|done]. destruct (negb _); [done|].
  destruct (match st_retry_meta st !! mid with Some _ => _ | None => _ end) as [retry|r']; [|done].
  destruct (fence_exists _ _ _); [done|]. destruct (all_flags _) as [flags|]; [|done]. simpl.
  pose proof (Hm mid raw E) as Hnames.
  assert (∃ kvs, (if existsb id flags then tset "leased_at" (LNum (LFin now)) t else t) = LObj kvs ∧
    ∃ raw', assoc "raw" kvs = Some (LStr raw') ∧ message_id_for_raw raw' = mid) as (kvs & -> & r' & Hr & Hmid).
  { destruct (existsb id flags); [by eapply meta_names_tset|].
    destruct Hnames as (kvs & r' & ? & ? & ?). simplify_eq. eauto. }
  intros k m. simpl. rewrite lookup_insert. case_decide as Hk; [|apply Hm]. intros [= <-]. subst k.
  eapply meta_names_encode; [|done]. by rewrite assoc_set_ne.
Qed.

Lemma inv_heartbeat U now mid a o w fp st :
  queue_inv U st → queue_inv U (heartbeat_script now mid a o w fp st).1.
Proof.
  intros Hinv. apply (inv_same_lists U st); [done|..|apply heartbeat_named, Hinv].
  all: unfold heartbeat_script; repeat case_match; try done; simpl.
  all: intros k Hk; rewrite lookup_insert; by case_decide.
Qed.

(** ** Steps that take a message out of the processing list *)

Lemma inv_drop U st st' raw :
  plain_messages U → U raw → queue_inv U st →
  st_queued st' = st_queued st → st_processing st' = lrem1 raw (st_processing st) →
  st_queued_meta st' = st_queued_meta st → st_queued_order st' = st_queued_order st →
  st_queued_run_index st' = st_queued_run_index st → st_queued_sequence st' = st_queued_sequence st →
  (∀ k, k ≠ message_id_for_raw raw → st_processing_meta st' !! k = st_processing_meta st !! k) →
  (∀ k, k ≠ message_id_for_raw raw → st_retry_meta st' !! k = st_retry_meta st !! k) →
  (∀ k m, st_processing_meta st' !! k = Some m → st_processing_meta st !! k = Some m) →
  queue_inv U st'.
Proof.
  intros HU HUr [Hnd Hv Hq Hp Hm Hqm Hi Ho] Eq Ep Eqm Eo Ei Es Kp Kr Km.
  pose proof (lrem1_sublist raw (st_processing st)) as Hsub.
  assert (∀ x, x ∈ lrem1 raw (st_processing st) → x ∈ st_processing st) as Hin.
  { intros x. by apply sublist_elem. }
  split; rewrite ?Eq, ?Ep.
  - eapply sublist_NoDup; [exact Hnd|]. by apply sublist_app.
  - intros x Hx. apply Hv. rewrite elem_of_app in *. naive_solver.
  - intros x p Hx Hval. destruct (Hq x p Hx Hval) as (m & kvs & n & ? & ? & ? & ? & ? & ? & ?).
    exists m, kvs, n. unfold index_ids. rewrite Eqm, Eo, Ei. auto 10.
  - intros x Hx. assert (message_id_for_raw x ≠ message_id_for_raw raw) as Hne.
    { intros Hmid. apply (lrem1_NoDup_ne raw x (st_processing st)); [by apply NoDup_app in Hnd as (_ & _ & ?)|done|].
      apply (pm_digest _ HU); [apply Hv, elem_of_app; auto|done|done]. }
    rewrite Kp, Kr by done. auto.
  - intros k m Hk. by apply Hm, Km.
  - by rewrite Eqm.
  - intros f s. rewrite Ei. apply Hi.
  - intros k n. rewrite Eo, Es, Eq. apply Ho.
Qed.

Lemma inv_dead_letter_expired U now fk raw j b a o v st :
  plain_messages U → U raw → queue_inv U st →
  queue_inv U (dead_letter_expired_script now fk raw (message_id_for_raw raw) j b a o v st).1.
Proof.
  intros HU HUr Hinv. unfold dead_letter_expired_script.
  pose proof (inv_gate U now fk (message_id_for_raw raw) a o v st Hinv) as Hg.
  destruct (expired_lease_gate _ _ _ _ _ _ _) as [[st' r]|st']; [done|].
  eapply inv_drop; [done|exact HUr|exact Hg|..]; destruct b; simpl; try done.
  all: try (intros k Hk; by rewrite lookup_delete_ne).
  intros k m [_ Hk]%lookup_delete_Some. done.
Qed.

(** The message whose lease the gate accepts. *)
Lemma owned_gate_message now fk raw mid a o fp w st t :
  leases_named st → owned_lease_gate now fk raw mid a o fp w st = inr t →
  message_id_for_raw raw = mid.
Proof.
  intros Hinv. unfold owned_lease_gate.
  destruct (st_processing_meta st !! mid) as [m|] eqn:E; simpl; [|done].
  destruct (decode_table m) as [t'|] eqn:Ed; [|done]. repeat case_match; try done; intros _; to_prop.
  all: destruct (Hinv mid m E) as (kvs & r & Hd & Hr & Hmid); simplify_eq.
  all: unfold tstr in *; simpl in *; rewrite Hr in *; by simpl in *; subst.
Qed.

Lemma inv_ack U now fk raw mid a o fp st :
  plain_messages U → U raw → queue_inv U st → queue_inv U (ack_script now fk raw mid a o fp st).1.
Proof.
  intros HU HUr Hinv. unfold ack_script. destruct (owned_lease_gate _ _ _ _ _ _ _ _ _) as [r|t] eqn:E; [done|].
  apply owned_gate_message in E as <-; [|apply Hinv].
  eapply inv_drop; [done|exact HUr|exact Hinv|..]; simpl; try done.
  1, 2: intros k Hk; by rewrite lookup_delete_ne.
  intros k m [_ Hk]%lookup_delete_Some. done.
Qed.

Lemma inv_fail U now fk raw mid a o j fp st :
  plain_messages U → U raw → queue_inv U st → queue_inv U (fail_script now fk raw mid a o j fp st).1.
Proof.
  intros HU HUr Hinv. unfold fail_script. destruct (owned_lease_gate _ _ _ _ _ _ _ _ _) as [r|t] eqn:E; [done|].
  apply owned_gate_message in E as <-; [|apply Hinv]. case_match; [|done].
  eapply inv_drop; [done|exact HUr|exact Hinv|..]; simpl; try done.
  1, 2: intros k Hk; by rewrite lookup_delete_ne.
  intros k m [_ Hk]%lookup_delete_Some. done.
Qed.

(** ** Steps that put a message at the end of the queue *)

Lemma payload_metadata_fields p wall : ∃ kvs, decode_table (payload_metadata p wall) = Some (LObj kvs) ∧
  assoc "tenant_id" kvs = Some (LStr (pl_tenant_id p)) ∧ assoc "run_id" kvs = Some (LStr (pl_run_id p)).
Proof.
  unfold payload_metadata, decode_table.
  match goal with |- context [json_dumps (PDict ?d)] => destruct (dumps_fields d) as (kvs & -> & Hf) end.
  exists kvs. split; [done|]. split; by apply Hf.
Qed.

Lemma index_ids_push f ids mid st g :
  Forall (fun i => i ≠ "") ids → mid ≠ "" →
  index_ids (write_ids f (keep_others mid ids ++ [mid]) st) g =
  if decide (f = g) then keep_others mid ids ++ [mid] else index_ids st g.
Proof.
  intros Hf Hmid. apply index_ids_write; [by destruct (keep_others mid ids)|].
  apply Forall_app_2; [by apply keep_others_nonempty | by constructor].
Qed.

(** The metadata of a message put into the queue describes it, to both readers. *)
Lemma queued_meta_encode raw p kvs seq :
  validate_payload raw = Some p →
  assoc "tenant_id" kvs = Some (LStr (pl_tenant_id p)) → assoc "run_id" kvs = Some (LStr (pl_run_id p)) →
  queued_meta_names (message_id_for_raw raw)
    (cjson_encode (tset "raw" (LStr raw) (tset "sequence" seq (LObj kvs)))).
Proof.
  intros Hv Ht Hr. simpl.
  destruct (decode_encoded_obj (assoc_set "raw" (LStr raw) (assoc_set "sequence" seq kvs))) as (kvs' & Hd & Hk).
  destruct (reply_fields (assoc_set "raw" (LStr raw) (assoc_set "sequence" seq kvs))) as (d & Hl & _ & Hs & _).
  exists kvs', raw, p. rewrite !Hk, assoc_set_eq, !assoc_set_ne, Ht, Hr by done.
  repeat (split; [done|]). exists d. split; [exact Hl|]. split; apply Hs; by rewrite !assoc_set_ne.
Qed.

Lemma inv_push U st st' raw p kvs seq n :
  plain_messages U → U raw → validate_payload raw = Some p → queue_inv U st →
  raw ∉ st_queued st ++ st_processing st →
  assoc "tenant_id" kvs = Some (LStr (pl_tenant_id p)) → assoc "run_id" kvs = Some (LStr (pl_run_id p)) →
  let mid := message_id_for_raw raw in
  let f := queued_run_index_field (pl_tenant_id p) (pl_run_id p) in
  st_queued st' = st_queued st ++ [raw] → st_processing st' = st_processing st →
  st_queued_meta st' = <[mid := cjson_encode (tset "raw" (LStr raw) (tset "sequence" seq (LObj kvs)))]>
                         (st_queued_meta st) →
  st_queued_order st' = <[mid := n]> (st_queued_order st) →
  st_queued_run_index st' =
    st_queued_run_index (write_ids f (keep_others mid (index_ids st f) ++ [mid]) st) →
  st_processing_meta st' = st_processing_meta st →
  (∀ k, is_Some (st_retry_meta st !! k) → is_Some (st_retry_meta st' !! k)) →
  st_queued_sequence st ≤ st_queued_sequence st' → n ≤ st_queued_sequence st' →
  queue_inv U st'.
Proof.
  intros HU HUr Hv [Hnd Hval Hq Hp Hm Hqm Hi Ho] Hnot Ht Hr mid f Eq Ep Eqm Eo Ei Epm Kr Ks Kn.
  pose proof (index_ids_nonempty st f Hi) as Hne.
  assert (mid ≠ "") as Hmid by apply message_id_nonempty.
  assert (∀ g, index_ids st' g = if decide (f = g) then keep_others mid (index_ids st f) ++ [mid]
                                 else index_ids st g) as Hids.
  { intros g. rewrite <- (index_ids_push f _ mid st g Hne Hmid). unfold index_ids at 1. by rewrite Ei. }
  assert (st_queued st' ++ st_processing st' ≡ₚ raw :: st_queued st ++ st_processing st) as Hperm.
  { rewrite Eq, Ep, <- app_assoc. simpl. by rewrite Permutation_middle. }
  split.
  - rewrite Hperm. by constructor.
  - intros x. rewrite Hperm, elem_of_cons. intros [->|Hx]; [eauto|auto].
  - intros x px Hx Hvx. rewrite Eq, elem_of_app, list_elem_of_singleton in Hx.
    destruct (decide (x = raw)) as [->|Hxr].
    + simplify_eq. destruct (decode_encoded_obj (assoc_set "raw" (LStr raw) (assoc_set "sequence" seq kvs)))
        as (kvs' & Hd & Hk).
      eexists _, kvs', n. rewrite Eqm, Eo, Hids, decide_True by done.
      fold mid. rewrite !lookup_insert_eq, !Hk, assoc_set_eq, !assoc_set_ne, Ht, Hr by done.
      rewrite elem_of_app, list_elem_of_singleton. auto 10.
    + destruct Hx as [Hx|Hx]; [|done].
      assert (message_id_for_raw x ≠ mid) as Hxm.
      { intros E. apply Hxr, (pm_digest _ HU); [apply Hval, elem_of_app; auto|done..]. }
      destruct (Hq x px Hx Hvx) as (m & kx & nx & ? & ? & ? & ? & ? & ? & Hin).
      exists m, kx, nx. rewrite Eqm, Eo, Hids, !lookup_insert_ne by done.
      repeat (split; [done|]). case_decide as Hf; [|done].
      rewrite elem_of_app, elem_keep_others. left. by rewrite Hf.
  - intros x Hx. rewrite Ep in Hx. rewrite Epm. destruct (Hp x Hx); auto.
  - intros k m. rewrite Epm. apply Hm.
  - intros k m. rewrite Eqm, lookup_insert. case_decide as Hk; [|apply Hqm]. intros [= <-]. subst k.
    by eapply queued_meta_encode.
  - intros g s. rewrite Ei. apply write_ids_wf; [by destruct (keep_others _ _)| |done].
    apply Forall_app_2; [by apply keep_others_nonempty | by constructor].
  - intros k x. rewrite Eo, Eq, lookup_insert. case_decide as Hk.
    + intros [= <-]. subst k. split; [done|]. exists raw. split; [|done]. apply elem_of_app. right. by left.
    + intros Hx. destruct (Ho k x Hx) as (Hle & y & Hy & Hym). split; [lia|]. exists y.
      split; [|done]. apply elem_of_app. by left.
Qed.

Lemma inv_enqueue U now wall raw p st :
  plain_messages U → U raw → validate_payload raw = Some p → queue_inv U st →
  queue_inv U (enqueue_call keys now wall raw p st).1.
Proof.
  intros HU HUr Hv Hinv. unfold enqueue_call, enqueue_script. case_match; [done|].
  set (mid := message_id_for_raw raw). set (f := queued_run_index_field _ _).
  fold (index_ids st f).
  destruct (decide (raw ∈ st_queued st)) as [Hin|Hnq].
  { destruct (qi_queued _ _ Hinv raw p Hin Hv) as (m & kvs & n & Hm & _ & _ & _ & _ & Ho & Hidx).
    fold mid f in Hidx, Hm, Ho. apply str_in_elem in Hidx. rewrite Hidx, Hm.
    destruct (zrank_Some (st_queued_order st) mid) as [rk ->]; [by eexists|]. done. }
  destruct (decide (raw ∈ st_processing st)) as [Hin|Hnp].
  { destruct (qi_processing _ _ Hinv raw Hin) as [[m Hm]|[m Hm]]; fold mid in Hm; rewrite Hm;
      by repeat case_match. }
  destruct (payload_metadata_fields p wall) as (kvs & -> & Ht & Hr). simpl default.
  assert (queue_inv U (enqueue_push mid f raw (tset "raw" (LStr raw)
            (tset "sequence" (LNum (lint (st_queued_sequence st + 1))) (LObj kvs))) st)) as Hpush.
  { unfold enqueue_push. eapply inv_push; [done|exact HUr|exact Hv|exact Hinv|set_solver|exact Ht|exact Hr|..];
      try done; simpl; lia. }
  repeat case_match; done.
Qed.

Lemma requeue_index_ids st f mid :
  index_wf st →
  match st_queued_run_index st !! f with
  | None => Some []
  | Some raw_index =>
      match decode_table raw_index with
      | None => None
      | Some decoded => Some (keep_others mid (nonempty_ids (ipairs decoded)))
      end
  end = Some (keep_others mid (index_ids st f)).
Proof.
  intros Hwf. unfold index_ids, enqueue_index_ids.
  destruct (st_queued_run_index st !! f) as [s|] eqn:E; [|done].
  by destruct (Hwf f s E) as (ids & _ & _ & -> & _).
Qed.

Lemma inv_requeue U now wall raw p rm a o v st :
  plain_messages U → U raw → validate_payload raw = Some p → queue_inv U st →
  queue_inv U (requeue_run_with_fence keys now wall raw p rm a o v st).1.
Proof.
  intros HU HUr Hv Hinv. unfold requeue_run_with_fence, requeue_script.
  set (mid := message_id_for_raw raw). set (f := queued_run_index_field _ _).
  pose proof (inv_gate U now (reconciliation_fence_key keys (pl_tenant_id p) (pl_run_id p)) mid a o
    (Some (lint v)) st Hinv) as Hg.
  destruct (expired_lease_gate _ _ _ _ _ _ _) as [[st' r]|st1]; [done|]. clear Hinv.
  destruct (payload_metadata_fields p wall) as (kvs & -> & Ht & Hr).
  fold (keep_others mid). setoid_rewrite (requeue_index_ids st1 f mid (qi_index _ _ Hg)).
  destruct (str_in raw (st_processing st1)) eqn:Hin; [|done]. simpl negb. cbv iota.
  apply str_in_elem in Hin. simpl (st_processing _). rewrite (removed_count_lrem1 _ _ Hin). simpl negb.
  cbv iota. simpl fst.
  set (st2 := set_processing_meta (delete mid) (set_processing (lrem1 raw) st1)).
  assert (queue_inv U st2) as Hinv2.
  { eapply inv_drop; [done|exact HUr|exact Hg|done..| |done|]; simpl.
    - intros k Hk. by rewrite lookup_delete_ne.
    - intros k m [_ Hk]%lookup_delete_Some. done. }
  pose proof (qi_nodup _ _ Hg) as Hnd.
  assert (raw ∉ st_queued st2 ++ st_processing st2) as Hnot.
  { simpl. rewrite (lrem1_Permutation _ _ Hin), <- Permutation_middle in Hnd.
    by apply NoDup_cons in Hnd as [? _]. }
  eapply inv_push; [done|exact HUr|exact Hv|exact Hinv2|exact Hnot|exact Ht|exact Hr|..];
    case_match; try done; simpl; try lia.
  intros k Hk. rewrite lookup_insert. by case_decide.
Qed.

(** ** Leasing *)

Lemma valid_not_underscore raw s : is_Some (validate_payload raw) → raw ≠ String "_" s.
Proof.
  intros [p Hp] ->. destruct (payload_fields _ p Hp) as (t & Hd & _).
  unfold decode_table in Hd. by rewrite cjson_not_underscore in Hd.
Qed.

Lemma inv_lease U now w m tl ul raw p i a o st :
  plain_messages U → validate_payload raw = Some p → queue_inv U st →
  queue_inv U (lease_call keys now w m tl ul raw p i a o st).1.
Proof.
  intros HU Hv Hinv. unfold lease_call, lease_script.
  case_match; [done|]. case_match; [done|]. case_match; [done|].
  destruct (bool_decide (lindex _ _ = _)) eqn:Hi; [|done]. simpl negb. cbv iota.
  to_prop. unfold lindex in Hi. destruct (processing_counts _ _ _) as [tp up].
  case_match; [done|]. case_match; [done|]. simpl fst.
  set (mid := message_id_for_raw raw). set (f := pl_tenant_id p +:+ ":" +:+ pl_run_id p).
  set (s := move_sentinel _ _ _ _). set (meta := cjson_encode (lease_metadata _ _ _ _ _ _ _ _ _ _ _ _ _ _)).
  destruct Hinv as [Hnd Hval Hq Hp Hm Hqm Hwf Ho].
  assert (s ∉ st_queued st) as Hs.
  { intros Hin. eapply (valid_not_underscore s); [|done]. apply Hval, elem_of_app. by left. }
  pose proof (sentinel_move s _ i raw Hs Hi) as Hmove.
  pose proof (delete_Permutation _ _ _ Hi) as Hperm.
  assert (NoDup (raw :: delete (Z.to_nat i) (st_queued st) ++ st_processing st)) as Hnd'.
  { by rewrite Hperm in Hnd. }
  apply NoDup_cons in Hnd' as [Hfresh Hnd'].
  assert (raw ∈ st_queued st) as Hraw by by eapply list_elem_of_lookup_2.
  assert (U raw) as HUr by (apply Hval, elem_of_app; by left).
  assert (∀ x, x ∈ delete (Z.to_nat i) (st_queued st) ++ st_processing st →
    message_id_for_raw x ≠ mid ∧ U x ∧ is_Some (validate_payload x)) as Hother.
  { intros x Hx. assert (x ∈ st_queued st ++ st_processing st) as Hx'.
    { rewrite Hperm. simpl. by right. }
    split; [|by apply Hval]. intros E. apply Hfresh. by rewrite <- (pm_digest _ HU x raw (proj1 (Hval x Hx')) HUr E). }
  destruct (remove_index_spec f mid (set_queued_meta (delete mid)
    (set_queued (fun l => lrem1 s (lset l i s)) st))) as [Hwf' Hids]; [done|].
  split; simpl; autorewrite with store; simpl; rewrite ?Hmove.
  - rewrite <- Permutation_middle. by constructor.
  - intros x. rewrite elem_of_app, elem_of_cons. intros Hx.
    destruct (decide (x = raw)) as [->|Hne]; [eauto|]. apply Hother, elem_of_app. naive_solver.
  - intros x px Hx Hvx. destruct (Hother x) as (Hxm & _); [apply elem_of_app; by left|].
    destruct (Hq x px) as (mx & kx & nx & ? & ? & ? & ? & ? & ? & Hin); [|done|].
    { rewrite Hperm. by right. }
    exists mx, kx, nx. simpl. autorewrite with store. simpl. rewrite !lookup_delete_ne by done.
    repeat (split; [done|]). unfold index_ids at 1. simpl. fold (index_ids (remove_run_index_message f mid
      (set_queued_meta (delete mid) (set_queued (fun l => lrem1 s (lset l i s)) st)))
      (queued_run_index_field (pl_tenant_id px) (pl_run_id px))).
    rewrite Hids. case_decide as Hf; [|done]. rewrite Hf. by apply elem_keep_others.
  - intros x Hx. apply elem_of_cons in Hx as [->|Hx]; [left; by rewrite lookup_insert_eq|].
    destruct (Hp x Hx) as [[y Hy]|[y Hy]]; [left|right]; rewrite lookup_insert; by case_decide.
  - intros k y. simpl. autorewrite with store. simpl. rewrite lookup_insert. case_decide as Hk; [|apply Hm]. intros [= <-]. subst k.
    by eapply meta_names_encode.
  - intros k y [_ Hk]%lookup_delete_Some. by apply Hqm.
  - exact Hwf'.
  - intros k n. simpl. autorewrite with store. simpl. rewrite Hmove. intros [Hne Hk]%lookup_delete_Some.
    destruct (Ho k n Hk) as (Hle & y & Hy & Hym). split; [done|]. exists y. split; [|done].
    rewrite Hperm in Hy. apply elem_of_cons in Hy as [->|Hy]; [|done]. by destruct Hne.
Qed.

(** ** Removing a queued run *)

(** Taking messages out of the queue and forgetting what is kept under an id no
    remaining message has. *)
Lemma inv_unqueue U st st' mid :
  queue_inv U st → st_queued st' `sublist_of` st_queued st →
  (∀ x, x ∈ st_queued st' → message_id_for_raw x ≠ mid) →
  (∀ x, x ∈ st_queued st → message_id_for_raw x ≠ mid → x ∈ st_queued st') →
  (∀ k, k ≠ mid → st_queued_meta st' !! k = st_queued_meta st !! k) →
  (∀ k m, st_queued_meta st' !! k = Some m → st_queued_meta st !! k = Some m) →
  st_queued_order st' = delete mid (st_queued_order st) → st_queued_sequence st' = st_queued_sequence st →
  st_processing st' = st_processing st → st_queued_run_index st' = st_queued_run_index st →
  st_processing_meta st' = st_processing_meta st → st_retry_meta st' = st_retry_meta st →
  queue_inv U st'.
Proof.
  intros [Hnd Hval Hq Hp Hm Hqm Hwf Ho] Hsub Hmid Hkeep Km Ks Ko Es Ep Ei Epm Er.
  split; rewrite ?Ep, ?Epm, ?Er; auto.
  - eapply sublist_NoDup; [exact Hnd|]. by apply sublist_app.
  - intros x Hx. apply Hval. rewrite elem_of_app in *.
    destruct Hx as [Hx|Hx]; [left; by eapply sublist_elem | by right].
  - intros x px Hx Hvx. pose proof (Hmid x Hx).
    destruct (Hq x px) as (mx & kx & nx & ? & ? & ? & ? & ? & ? & ?); [by eapply sublist_elem|done|].
    exists mx, kx, nx. unfold index_ids. rewrite Km, Ko, Ei, lookup_delete_ne by done. auto 10.
  - intros k m. rewrite Epm. apply Hm.
  - intros g s. rewrite Ei. apply Hwf.
  - intros k n. rewrite Ko, Es. intros [Hne Hk]%lookup_delete_Some.
    destruct (Ho k n Hk) as (Hle & y & Hy & Hym). split; [done|]. exists y. split; [|done].
    apply Hkeep; [done|]. by subst.
Qed.

(** The queue metadata of a queued message, as the removal script reads it. *)
Lemma queued_meta_of U st x :
  queue_inv U st → x ∈ st_queued st → ∃ p m kvs,
    validate_payload x = Some p ∧ st_queued_meta st !! message_id_for_raw x = Some m ∧
    decode_table m = Some (LObj kvs) ∧ tstr "tenant_id" (LObj kvs) = pl_tenant_id p ∧
    tstr "run_id" (LObj kvs) = pl_run_id p ∧ tstr "raw" (LObj kvs) = x ∧ x ≠ "".
Proof.
  intros Hinv Hx. destruct (qi_valid _ _ Hinv x) as (_ & p & Hv); [set_solver|].
  destruct (qi_queued _ _ Hinv x p Hx Hv) as (m & kvs & nx & ? & ? & E1 & E2 & E3 & _).
  exists p, m, kvs. unfold tstr. simpl. rewrite E1, E2, E3. repeat split; auto. intros ->.
  destruct (payload_fields _ _ Hv) as (t & Hd & _). unfold decode_table in Hd.
  by rewrite cjson_not_empty in Hd.
Qed.

Lemma inv_remove_one U t r acc mid :
  queue_inv U acc.1.1 →
  let st' := (remove_queued_one t r acc mid).1.1 in
  queue_inv U st' ∧ st_queued_run_index st' = st_queued_run_index acc.1.1 ∧ run_unqueued t r mid st'.
Proof.
  destruct acc as [[st n] k]. simpl fst. intros Hinv. pose proof (queued_meta_of U st) as Hx.
  assert (∀ q, q `sublist_of` st_queued st →
    (∀ x, x ∈ q → message_id_for_raw x = mid → False) →
    (∀ x, x ∈ st_queued st → message_id_for_raw x ≠ mid → x ∈ q) →
    queue_inv U (set_queued_order (delete mid) (set_queued (fun _ => q) st)) ∧
    queue_inv U (set_queued_order (delete mid) (set_queued_meta (delete mid) (set_queued (fun _ => q) st))))
    as Hdrop.
  { intros q Hq Hno Hkeep. split; apply (inv_unqueue U st _ mid); simpl; try done;
      intros; try (by rewrite ?lookup_delete_ne).
    match goal with H : delete _ _ !! _ = Some _ |- _ => by apply lookup_delete_Some in H as [_ ?] end. }
  unfold remove_queued_one. destruct (st_queued_meta st !! mid) as [m|] eqn:Em.
  2:{ assert (∀ x, x ∈ st_queued st → message_id_for_raw x = mid → False) as Hno.
    { intros x Hin <-. destruct (Hx x Hinv Hin) as (? & ? & ? & ? & ? & _). by simplify_eq. }
    destruct (Hdrop (st_queued st)) as [Hi1 _]; [done..|]. simpl. split; [by destruct st|].
    split; [done|]. intros x p Hin E. by destruct (Hno x). }
  destruct (decode_table m) as [tb|] eqn:Ed.
  2:{ assert (∀ x, x ∈ st_queued st → message_id_for_raw x = mid → False) as Hno.
    { intros x Hin <-. destruct (Hx x Hinv Hin) as (? & ? & ? & ? & ? & ? & _). by simplify_eq. }
    destruct (Hdrop (st_queued st)) as [_ Hi2]; [done..|]. simpl. split; [by destruct st|].
    split; [done|]. intros x p Hin E. by destruct (Hno x). }
  destruct (String.eqb (tstr "tenant_id" tb) t && String.eqb (tstr "run_id" tb) r) eqn:Et; simpl.
  - set (q := if str_truthy (tstr "raw" tb) then lrem0 (tstr "raw" tb) (st_queued st) else st_queued st).
    assert (q `sublist_of` st_queued st) as Hsub.
    { unfold q. case_match; [apply lrem0_sublist|done]. }
    assert (∀ x, x ∈ q → message_id_for_raw x = mid → False) as Hno.
    { intros x Hin <-. destruct (Hx x Hinv) as (p & m' & kvs & _ & Hm' & Hd' & _ & _ & Hraw & Hne);
        [by eapply sublist_elem|]. rewrite Em in Hm'. injection Hm' as <-.
      rewrite Ed in Hd'. injection Hd' as ->. unfold q, str_truthy in Hin. rewrite Hraw in Hin.
      rewrite (proj2 (String.eqb_neq _ _) Hne) in Hin. by apply lrem0_notin in Hin. }
    destruct (Hdrop q) as [_ Hi2]; [done..| |].
    { intros x Hin Hne. unfold q. case_match; [|done]. apply lrem0_other; [|done]. intros ->. apply Hne.
      destruct (qi_queued_meta _ _ Hinv mid m Em) as (kvs & raw & p & Hd & Hmid & _ & Hr & _).
      rewrite Ed in Hd. injection Hd as ->. unfold tstr. simpl. by rewrite Hr. }
    replace (if str_truthy (tstr "raw" tb) then set_queued (lrem0 (tstr "raw" tb)) st else st)
      with (set_queued (fun _ => q) st) by (unfold q; case_match; by destruct st).
    split; [done|]. split; [done|]. intros x p Hin E. by destruct (Hno x).
  - split; [done|]. split; [done|]. intros x p Hin <- Hv [<- <-].
    destruct (Hx x Hinv Hin) as (p' & m' & kvs & ? & ? & ? & E1 & E2 & _). simplify_eq.
    by rewrite E1, E2, !String.eqb_refl in Et.
Qed.

Lemma inv_remove_all U t r ids acc :
  queue_inv U acc.1.1 →
  let st' := (fold_left (remove_queued_one t r) ids acc).1.1 in
  queue_inv U st' ∧ st_queued_run_index st' = st_queued_run_index acc.1.1 ∧
  ∀ mid, mid ∈ ids → run_unqueued t r mid st'.
Proof.
  revert acc. induction ids as [|mid ids IH]; intros acc Hinv; simpl.
  { split; [done|]. split; [done|]. by intros mid ?%elem_of_nil. }
  destruct (inv_remove_one U t r acc mid Hinv) as (Hi1 & Ei & Hgone).
  destruct (IH _ Hi1) as (Hi2 & -> & Hrest). split; [done|]. split; [done|].
  intros mid' [->|Hin]%elem_of_cons; [|by apply Hrest]. intros x p Hx. apply Hgone.
  eapply sublist_elem, Hx. apply remove_all_lists.
Qed.

Lemma inv_remove_queued U t r st :
  plain_messages U → str_forall (fun c => negb (Ascii.eqb c ":")) t = true → queue_inv U st →
  queue_inv U (remove_queued_script (queued_run_index_field t r) t r st).1.
Proof.
  intros HU Ht Hinv. unfold remove_queued_script. set (f := queued_run_index_field t r).
  destruct (st_queued_run_index st !! f) as [s|] eqn:Es; [|done].
  destruct (qi_index _ _ Hinv f s Es) as (ids & _ & Hne & Hd & _).
  rewrite Hd, nonempty_ids_strings by done.
  destruct (inv_remove_all U t r ids (st, 0, 0) Hinv) as (Hi1 & Ei & Hgone).
  destruct (fold_left _ ids _) as [[st1 n] k]. simpl in Hi1, Ei, Hgone.
  assert (queue_inv U (set_queued_run_index (delete f) st1)) as Hfin.
  { destruct Hi1 as [Hnd Hval Hq Hp Hm Hqm Hwf Ho]. split; simpl; auto; [|by apply delete_field_wf].
    intros x p Hx Hv. destruct (Hq x p Hx Hv) as (mx & kx & nx & ? & ? & ? & ? & ? & ? & Hin).
    exists mx, kx, nx. repeat (split; [done|]). revert Hin. unfold index_ids. simpl.
    destruct (decide (f = queued_run_index_field (pl_tenant_id p) (pl_run_id p))) as [E|E].
    - rewrite <- E, Ei, Es. simpl. rewrite Hd, nonempty_ids_strings by done. intros Hin. exfalso.
      unfold f, queued_run_index_field in E. apply append_sep_inj in E as [E1 E2]; [|done|].
      + by apply (Hgone _ Hin x p Hx).
      + eapply (pm_tenant _ HU x p); [|done]. apply Hval, elem_of_app. by left.
    - by rewrite lookup_delete_ne. }
  by case_match.
Qed.

(** ** The functions of several commands *)

(** Changing the run index so that every queued message is still listed. *)
Lemma inv_reindex U st g :
  queue_inv U st → index_wf (set_queued_run_index g st) →
  (∀ x p, x ∈ st_queued st → validate_payload x = Some p →
     message_id_for_raw x ∈ index_ids (set_queued_run_index g st)
       (queued_run_index_field (pl_tenant_id p) (pl_run_id p))) →
  queue_inv U (set_queued_run_index g st).
Proof.
  intros [Hnd Hval Hq Hp Hm Hqm Hwf Ho] Hwf' Hids. split; simpl; auto.
  intros x p Hx Hv. destruct (Hq x p Hx Hv) as (mx & kx & nx & ? & ? & ? & ? & ? & ? & _).
  exists mx, kx, nx. repeat (split; [done|]). by apply Hids.
Qed.

Lemma queued_listed U st x p :
  queue_inv U st → x ∈ st_queued st → validate_payload x = Some p →
  message_id_for_raw x ∈ index_ids st (queued_run_index_field (pl_tenant_id p) (pl_run_id p)).
Proof. intros Hinv Hx Hv. by destruct (qi_queued _ _ Hinv x p Hx Hv) as (? & ? & ? & _ & _ & _ & _ & _ & _ & ?). Qed.

(** Taking an id no queued message has out of the index. *)
Lemma inv_forget_index U t r mid st :
  queue_inv U st → (∀ x, x ∈ st_queued st → message_id_for_raw x ≠ mid) →
  queue_inv U (remove_message_id_from_run_index t r mid st).
Proof.
  intros Hinv Hmid. unfold remove_message_id_from_run_index. set (f := queued_run_index_field t r).
  rewrite (python_index_ids st f (qi_index _ _ Hinv)).
  assert (∀ g, index_wf (set_queued_run_index g st) →
    index_ids (set_queued_run_index g st) f = keep_others mid (index_ids st f) →
    (∀ h, f ≠ h → index_ids (set_queued_run_index g st) h = index_ids st h) →
    queue_inv U (set_queued_run_index g st)) as Hre.
  { intros g Hwf Hf Hother. apply inv_reindex; [done..|]. intros x p Hx Hv.
    pose proof (queued_listed U st x p Hinv Hx Hv) as Hin.
    destruct (decide (f = queued_run_index_field (pl_tenant_id p) (pl_run_id p))) as [E|E].
    - rewrite <- E in *. rewrite Hf. apply elem_keep_others. auto.
    - by rewrite Hother. }
  pose proof (index_ids_nonempty st f (qi_index _ _ Hinv)) as Hne.
  destruct (index_ids st f) as [|i ids] eqn:Ei; [done|].
  fold (keep_others mid (i :: ids)). pose proof (keep_others_nonempty mid _ Hne) as Hk.
  destruct (keep_others mid (i :: ids)) as [|j rest] eqn:Ek; apply Hre.
  - apply delete_field_wf, Hinv.
  - unfold index_ids. simpl. by rewrite lookup_delete_eq.
  - intros h Hh. unfold index_ids. simpl. by rewrite lookup_delete_ne.
  - apply (stored_ids_wf f _ (j :: rest)); auto using dumped_ids_stored. apply Hinv.
  - rewrite (index_ids_stored f _ (j :: rest)), decide_True; auto using dumped_ids_stored.
  - intros h Hh. rewrite (index_ids_stored f _ (j :: rest)), decide_False; auto using dumped_ids_stored.
Qed.

Lemma inv_fallback_one U raw p st :
  plain_messages U → U raw → queue_inv U st →
  queue_inv U (delete_queued_metadata_for_payload (message_id_for_raw raw) (pl_tenant_id p) (pl_run_id p)
                 (set_queued (lrem0 raw) st)).
Proof.
  intros HU HUr Hinv. unfold delete_queued_metadata_for_payload. set (mid := message_id_for_raw raw).
  assert (∀ x, x ∈ lrem0 raw (st_queued st) → message_id_for_raw x ≠ mid) as Hmid.
  { intros x Hx E. pose proof (sublist_elem _ _ _ (lrem0_sublist raw _) Hx) as Hx'.
    assert (x = raw) as -> by (apply (pm_digest _ HU); [apply (qi_valid _ _ Hinv), elem_of_app; by left|done..]).
    by apply lrem0_notin in Hx. }
  pose proof (inv_forget_index U (pl_tenant_id p) (pl_run_id p) mid
    (set_queued_order (delete mid) (set_queued_meta (delete mid) (set_queued (lrem0 raw) st)))) as Hf.
  assert (set_queued_order (delete mid) (remove_message_id_from_run_index (pl_tenant_id p) (pl_run_id p) mid
      (set_queued_meta (delete mid) (set_queued (lrem0 raw) st)))
    = remove_message_id_from_run_index (pl_tenant_id p) (pl_run_id p) mid
        (set_queued_order (delete mid) (set_queued_meta (delete mid) (set_queued (lrem0 raw) st)))) as ->.
  { unfold remove_message_id_from_run_index. simpl. by repeat case_match. }
  apply Hf; [|done]. apply (inv_unqueue U st _ mid); simpl; try done.
  - apply lrem0_sublist.
  - intros x Hx Hne. apply lrem0_other; [|done]. by intros ->.
  - intros k Hk. by rewrite lookup_delete_ne.
  - by intros k m [_ ?]%lookup_delete_Some.
Qed.

Lemma inv_fallback U t r n st :
  plain_messages U → queue_inv U st → queue_inv U (remove_queued_run_bounded_fallback t r n st).1.
Proof.
  intros HU Hinv. unfold remove_queued_run_bounded_fallback. case_match; [done|].
  assert (Forall U (lrange (st_queued st) (- n) (-1))) as Hall.
  { apply Forall_forall. intros x Hx. apply (qi_valid _ _ Hinv), elem_of_app. left. revert Hx.
    apply sublist_elem, lrange_sublist. }
  revert Hinv. generalize 0 as k. revert st Hall. intros st.
  generalize (lrange (st_queued st) (- n) (-1)) as items. intros items Hall. revert st.
  induction Hall as [|raw items HUr _ IH]; intros st k Hinv; simpl; [done|].
  destruct (validate_payload raw) as [p|]; [|by apply IH]. case_match; apply IH; [done|].
  by apply inv_fallback_one.
Qed.

(** What the scan of a position query keeps and finds. *)
Lemma scan_spec U t r ids st valid best :
  queue_inv U st → ∃ st' valid' best',
  queue_position_scan t r ids st valid best = (st', Ok (valid ++ valid', best')) ∧
  queue_inv U st' ∧ st_queued st' = st_queued st ∧ st_queued_run_index st' = st_queued_run_index st ∧
  valid' `sublist_of` ids ∧
  ∀ x p, x ∈ st_queued st → validate_payload x = Some p → pl_tenant_id p = t → pl_run_id p = r →
    message_id_for_raw x ∈ ids → message_id_for_raw x ∈ valid'.
Proof.
  revert st valid best. induction ids as [|mid ids IH]; intros st valid best Hinv; simpl.
  { exists st, [], best. rewrite app_nil_r. by repeat (split; [done|]). }
  destruct (st_queued_meta st !! mid) as [m|] eqn:Em.
  2:{ assert (∀ x, x ∈ st_queued st → message_id_for_raw x ≠ mid) as Hno.
    { intros x Hx <-. destruct (queued_meta_of U st x Hinv Hx) as (? & ? & ? & ? & ? & _). by simplify_eq. }
    destruct (IH (set_queued_order (delete mid) st) valid best) as (st' & v & b & -> & Hi & Hq & Hx & Hs & Hall).
    { apply (inv_unqueue U st _ mid); simpl; try done. }
    exists st', v, b. repeat (split; [done|]). split; [by constructor|].
    intros x p Hx' Hv Ht Hr. rewrite elem_of_cons. intros [E|Hin]; [by destruct (Hno x)|].
    by apply (Hall x p). }
  destruct (qi_queued_meta _ _ Hinv mid m Em) as (kvs & raw & p & Hd & _ & _ & _ & Htk & Hrk & d & Hl & Ht & Hr).
  destruct m as [|c m]; [unfold decode_table in Hd; by rewrite cjson_not_empty in Hd|].
  rewrite Hl. unfold get, get_default. rewrite Ht, Hr. simpl.
  assert (∀ x q, x ∈ st_queued st → validate_payload x = Some q → message_id_for_raw x = mid →
    pl_tenant_id q = pl_tenant_id p ∧ pl_run_id q = pl_run_id p ∧ is_Some (st_queued_order st !! mid)) as Hsame.
  { intros x q Hx Hq <-. destruct (qi_queued _ _ Hinv x q Hx Hq) as (m' & k' & n' & E1 & E2 & E3 & E4 & _ & E5 & _).
    simplify_eq. split; [congruence|]. split; [congruence|by eexists]. }
  destruct (String.eqb (pl_tenant_id p) t && String.eqb (pl_run_id p) r) eqn:E; simpl.
  - destruct (zrank (st_queued_order st) mid) as [rk|] eqn:Ek.
    + match goal with |- context [queue_position_scan t r ids st (valid ++ [mid]) ?b] =>
        destruct (IH st (valid ++ [mid]) b Hinv) as (st' & v & b' & -> & Hi & Hq & Hx & Hs & Hall) end.
      exists st', (mid :: v), b'. rewrite <- app_assoc. repeat (split; [done|]). split; [by constructor|].
      intros x q Hx' Hvx Htx Hrx. rewrite !elem_of_cons. intros [E'|Hin]; [by left|right]. by apply (Hall x q).
    + destruct (IH st valid best Hinv) as (st' & v & b' & -> & Hi & Hq & Hx & Hs & Hall).
      exists st', v, b'. repeat (split; [done|]). split; [by constructor|].
      intros x q Hx' Hvx Htx Hrx. rewrite elem_of_cons. intros [E'|Hin]; [|by apply (Hall x q)].
      destruct (Hsame x q Hx' Hvx E') as (_ & _ & Ho). apply zrank_Some in Ho as [? ?]. congruence.
  - destruct (IH st valid best Hinv) as (st' & v & b' & -> & Hi & Hq & Hx & Hs & Hall).
    exists st', v, b'. repeat (split; [done|]). split; [by constructor|].
    intros x q Hx' Hvx Htx Hrx. rewrite elem_of_cons. intros [E'|Hin]; [|by apply (Hall x q)].
    destruct (Hsame x q Hx' Hvx E') as (E1 & E2 & _). subst. rewrite <- E1, <- E2, !String.eqb_refl in E. done.
Qed.

Lemma inv_position U t r st :
  plain_messages U → str_forall (fun c => negb (Ascii.eqb c ":")) t = true → queue_inv U st →
  queue_inv U (get_run_queue_position t r st).1.
Proof.
  intros HU Ht Hinv. unfold get_run_queue_position. set (f := queued_run_index_field t r).
  rewrite (python_index_ids st f (qi_index _ _ Hinv)).
  destruct (index_ids st f) as [|i ids] eqn:Ei; [done|].
  destruct (scan_spec U t r (i :: ids) st [] None Hinv) as (st' & v & b & -> & Hi & Hq & Hx & Hs & Hall).
  simpl app. assert (∀ g, index_wf (set_queued_run_index g st') →
    index_ids (set_queued_run_index g st') f = v →
    (∀ h, f ≠ h → index_ids (set_queued_run_index g st') h = index_ids st' h) →
    queue_inv U (set_queued_run_index g st')) as Hre.
  { intros g Hwf Hf Hother. apply inv_reindex; [done..|]. intros x p Hx' Hv.
    pose proof (queued_listed U st' x p Hi Hx' Hv) as Hin.
    destruct (decide (f = queued_run_index_field (pl_tenant_id p) (pl_run_id p))) as [E|E]; [|by rewrite Hother].
    rewrite <- E, Hf. assert (U x) as HUx by (apply (qi_valid _ _ Hi), elem_of_app; by left).
    rewrite Hq in Hx'. apply (Hall x p); try done.
    1, 2: symmetry; unfold f, queued_run_index_field in E;
      apply append_sep_inj in E as [? ?]; [done..|by eapply (pm_tenant _ HU x p)].
    rewrite <- Ei. unfold index_ids. rewrite <- Hx, E. exact Hin. }
  assert (Forall (fun i => i ≠ "") v) as Hv.
  { pose proof (index_ids_nonempty st f (qi_index _ _ Hinv)) as Hne. rewrite Ei in Hne.
    rewrite Forall_forall in *. intros x Hin. by apply Hne; eapply sublist_elem. }
  destruct v as [|v vs]; [|pose proof (dumped_ids_stored (v :: vs) ltac:(done)); case_bool_decide; [done|]];
    simpl; apply Hre.
  - apply delete_field_wf, Hi.
  - unfold index_ids. simpl. by rewrite lookup_delete_eq.
  - intros h Hh. unfold index_ids. simpl. by rewrite lookup_delete_ne.
  - apply (stored_ids_wf f _ (v :: vs)); [done..|apply Hi].
  - by rewrite (index_ids_stored f _ (v :: vs)), decide_True.
  - intros h Hh. by rewrite (index_ids_stored f _ (v :: vs)), decide_False.
Qed.

(** ** Every operation *)

Lemma inv_store U st st' :
  queue_inv U st → st_queued st' = st_queued st → st_processing st' = st_processing st →
  st_queued_meta st' = st_queued_meta st → st_queued_order st' = st_queued_order st →
  st_queued_run_index st' = st_queued_run_index st → st_queued_sequence st' = st_queued_sequence st →
  st_processing_meta st' = st_processing_meta st → st_retry_meta st' = st_retry_meta st →
  queue_inv U st'.
Proof.
  intros Hinv ? ? ? ? ? ? Ep Er. apply (inv_same_lists U st); rewrite ?Ep, ?Er; auto. apply Hinv.
Qed.

Lemma prune_inv U args st : queue_inv U st → queue_inv U (prune_script args st).1.
Proof.
  unfold prune_script. generalize 0 as n. revert st.
  induction args as [|arg args IH]; intros st n Hinv; simpl; [done|].
  case_match; apply IH; [|done]. by eapply inv_store.
Qed.

Lemma inv_run_qop U now op st :
  plain_messages U → plain_op U op → queue_inv U st → queue_inv U (run_qop keys now op st).
Proof.
  intros HU Hop Hinv. destruct op; simpl in *; try (case_match; [|done]).
  - by apply inv_enqueue.
  - by apply inv_remove_queued.
  - by apply inv_lease.
  - destruct (validate_payload raw) eqn:Ev; [done|]. unfold dead_letter_invalid_script.
    case_match; [done|]. case_match; [done|]. to_prop. exfalso.
    destruct (qi_valid _ _ Hinv raw) as [_ [p Hp]]; [|by simplify_eq].
    apply elem_of_app. left. by eapply list_elem_of_lookup_2.
  - unfold acquire_run_reconciliation_fence, acquire_fence_script, fence_set.
    repeat case_match; simplify_eq; simpl; try done. all: by eapply inv_store.
  - unfold release_run_reconciliation_fence, release_fence_script.
    repeat case_match; simplify_eq; simpl; try done. all: by eapply inv_store.
  - unfold renew_run_reconciliation_fence, renew_fence_script, fence_set.
    repeat case_match; simplify_eq; simpl; try done. all: by eapply inv_store.
  - by apply inv_requeue.
  - by apply inv_dead_letter_expired.
  - unfold heartbeat_run. destruct (parse_lease_handle _) as [[[m a] o]|]; [|done].
    pose proof (inv_heartbeat U now m a o worker_id (key_reconciliation_fence_prefix keys) st Hinv).
    by destruct (heartbeat_script _ _ _ _ _ _ _).
  - unfold ack_run. destruct (parse_lease_handle _) as [[[m a] o]|]; [|done].
    destruct (lease_fence_key keys raw) as [fk|]; [|done].
    pose proof (inv_ack U now fk raw m a o (key_reconciliation_fence_prefix keys) st HU Hop Hinv).
    by destruct (ack_script _ _ _ _ _ _ _ _).
  - destruct p as [[m a] o]. case_match; [|done]. by apply inv_fail.
  - by apply prune_inv.
  - by eapply inv_store.
  - by apply inv_fallback.
  - by apply inv_position.
  - done.
Qed.

Lemma inv_run_trace U tr st :
  plain_messages U → Forall (fun step => plain_op U step.2) tr → queue_inv U st →
  queue_inv U (run_trace keys tr st).
Proof.
  intros HU Htr. revert st. induction Htr as [|[now op] tr Hop _ IH]; intros st Hinv; simpl; [done|].
  apply IH. by apply inv_run_qop.
Qed.

Lemma inv_empty U : queue_inv U empty_store.
Proof. split; simpl; try done; try (by intros ? ?%elem_of_nil); try (by intros ? ? ?%elem_of_nil).
  constructor. Qed.

(** C1.  The queue keeps one copy: over every execution of the queue from an empty
    store, by any number of clients and at any clock, in which the messages have
    distinct digests, tenant names hold no colon and the two functions that send
    several commands (the removal by scanning and the query of a position) are not
    interrupted, a message is never twice in the queued and processing lists
    together, and what the queue keeps beside the lists stays in step with them.
    The last two are needed: [colliding_tenants_duplicate_a_message] and
    [interrupted_query_duplicates_a_message]. *)
Theorem queue_keeps_single_copy U tr :
  plain_messages U → Forall (fun step => plain_op U step.2) tr →
  NoDup (st_queued (run_trace keys tr empty_store) ++ st_processing (run_trace keys tr empty_store)) ∧
  queue_inv U (run_trace keys tr empty_store).
Proof.
  intros HU Htr. pose proof (inv_run_trace U tr empty_store HU Htr (inv_empty U)) as Hinv.
  split; [apply Hinv | done].
Qed.

End Unique.

(** Two runs of one tenant: both queued, one queued again, one leased, its lease
    expired and the run queued again, its position asked for, and the other run
    removed, first by scanning. *)
Definition copy_raws : list string := [toy_raw "t" "u" "r1"; toy_raw "t" "u" "r2"].
Definition copy_trace : list (Z * qop) :=
  [(1000000, QEnqueue (lint 1) (toy_raw "t" "u" "r1"));
   (2000000, QEnqueue (lint 2) (toy_raw "t" "u" "r2"));
   (3000000, QEnqueue (lint 3) (toy_raw "t" "u" "r1"));
   (4000000, QLease "w1" 0 0 0 (toy_raw "t" "u" "r1") 0 (toy_attempt 1) (toy_owner 1));
   (5000000, QEnqueue (lint 5) (toy_raw "t" "u" "r1"));
   (2000000000, QRequeue (lint 2000) (toy_raw "t" "u" "r1") [] (toy_attempt 1) (toy_owner 1) 900);
   (2001000000, QPosition "t" "r1");
   (2002000000, QRemoveFallback "t" "r2" 500);
   (2003000000, QRemoveQueued "t" "r2")].

Lemma queue_keeps_single_copy_witness :
  st_queued (run_trace toy_keys copy_trace empty_store) = [toy_raw "t" "u" "r1"] ∧
  NoDup (st_queued (run_trace toy_keys copy_trace empty_store)
         ++ st_processing (run_trace toy_keys copy_trace empty_store)).
Proof.
  split; [vm_compute; reflexivity|].
  refine (proj1 (queue_keeps_single_copy toy_keys (fun raw => raw ∈ copy_raws) copy_trace _ _)).
  - split; unfold copy_raws.
    + intros a b Ha Hb. rewrite !elem_of_cons, elem_of_nil in Ha, Hb.
      destruct Ha as [->|[->|[]]], Hb as [->|[->|[]]]; vm_compute; done.
    + intros raw p Ha. rewrite !elem_of_cons, elem_of_nil in Ha.
      destruct Ha as [->|[->|[]]]; vm_compute; intros [= <-]; reflexivity.
  - unfold copy_trace, copy_raws. repeat constructor; simpl; rewrite ?elem_of_cons; auto.
Defined.

(** The hypothesis on tenant names is needed: the run index keys a run by
    "tenant:run", and identifiers may hold colons, so removing the run "c" of a
    tenant "a:b" deletes the index entry of the run "b:c" of the tenant "a", after
    which a repeated admission queues that run twice. *)
Lemma colliding_tenants_duplicate_a_message :
  let raw := toy_raw "a" "u" "b:c" in
  st_queued (run_trace toy_keys
    [(1000000, QEnqueue (lint 1) raw); (2000000, QRemoveQueued "a:b" "c");
     (3000000, QEnqueue (lint 3) raw)] empty_store) = [raw; raw].
Proof. vm_compute. reflexivity. Qed.

(** The hypothesis on the functions of several commands is needed too: a query of a
    run's position reads the index, the run's message is leased and another message
    of the run is queued, and the query, which finds no metadata for the id it read,
    deletes the index entry; a repeated admission of the new message then queues it
    twice. *)
Lemma interrupted_query_duplicates_a_message :
  let old := toy_raw "t" "u" "r" in let new := toy_raw "t" "v" "r" in
  st_queued (run_trace toy_keys
    [(1000000, QEnqueue (lint 1) old);
     (2000000, QLease "w" 0 0 0 old 0 (toy_attempt 1) (toy_owner 1));
     (3000000, QEnqueue (lint 3) new);
     (4000000, QCommand (CmdForgetOrder (toy_digest old)));
     (4000000, QCommand (CmdDropIndex (queued_run_index_field "t" "r")));
     (5000000, QEnqueue (lint 5) new)] empty_store) = [new; new].
Proof. vm_compute. reflexivity. Qed.
