(* ===== verification/QueueOwnership.v ===== *)
(** * Ownership of a lease

    A lease belongs to the attempt and the owner token it was issued with.  The
    theorems here show that the token is what the queue checks: whatever other
    clients do, an ended lease is never accepted again, and a lease that is not
    ended stays with its owner. *)
From stdpp Require Import base gmap list strings.
From Stdlib Require Import ZArith Lia Ascii.
From S2P Require Import Prelude Redis QueueScripts QueueFacts PyValue QueueClient QueueCommands QueueTrace.
From S2P Require Import QueueRuntime QueueFence QueueUnique.

Section Ownership.
Context `{LuaRuntime} `{PyRuntime} `{QueuePayloads}.
Context (keys : QueueKeys).

(** Lease metadata in the protocol the scripts write, issued to a token. *)
Definition lease_meta (tok m : string) : Prop :=
  ∃ kvs, decode_table m = Some (LObj kvs) ∧
    assoc "lease_protocol_version" kvs = Some (LNum (lint 2)) ∧
    assoc "owner_token_v2" kvs = Some (LStr tok).

(** The same of a decoded table. *)
Definition owned_fields (tok : string) (t : lval) : Prop :=
  ∃ kvs, t = LObj kvs ∧ assoc "lease_protocol_version" kvs = Some (LNum (lint 2)) ∧
    assoc "owner_token_v2" kvs = Some (LStr tok).

Definition leases_issued (st : store) : Prop :=
  ∀ k m, st_processing_meta st !! k = Some m → ∃ tok, lease_meta tok m.

(** No lease of the message is in the hands of the token. *)
Definition owner_gone (mid tok : string) (st : store) : Prop :=
  ∀ m, st_processing_meta st !! mid = Some m → ¬ lease_meta tok m.

(** Every lease of the second store is a lease of the first. *)
Definition meta_from (st st' : store) : Prop :=
  ∀ k m', st_processing_meta st' !! k = Some m' → ∃ m, st_processing_meta st !! k = Some m ∧
    ∀ tok, lease_meta tok m → lease_meta tok m'.

(** The operation issues a lease to the token. *)
Definition op_issues (tok : string) (op : qop) : Prop :=
  match op with QLease _ _ _ _ _ _ _ owner_token => owner_token = tok | _ => False end.

(** What a client that presents a handle is told, and what happens to the store. *)
Definition handle_refused (handle : string) (st : store) : Prop :=
  (∀ now raw, (ack_run keys now raw handle st).1 = st ∧
     lease_mutation_succeeded (ack_run keys now raw handle st).2 = false) ∧
  (∀ now wall n raw code message worker,
     (fail_leased_run keys now wall n raw code message handle worker st).1 = st ∧
     lease_mutation_succeeded (fail_leased_run keys now wall n raw code message handle worker st).2 = false) ∧
  (∀ now worker, (heartbeat_run keys now handle worker st).1 = st ∧
     (heartbeat_run keys now handle worker st).2.1 ≠ "heartbeat").

Context {lua_round : luanum → luanum} {laws : QueueLaws lua_round}.

Lemma outcome_wire r : rp_status r ≠ "" → outcome_status r = rp_status r.
Proof.
  intros Hne. rewrite <- wire_status. unfold outcome_status, result_status.
  pose proof (wire_status r) as Hw. unfold result_status, str_or_empty, py_or in *.
  destruct (truthy (get "status" (eval_result r))) eqn:E; [by rewrite E|]. simpl in Hw. congruence.
Qed.

Lemma lease_meta_unique tok tok' m : lease_meta tok m → lease_meta tok' m → tok = tok'.
Proof. intros (kvs & ? & _ & ?) (kvs' & ? & _ & ?). by simplify_eq. Qed.

Lemma lease_meta_owner tok m t :
  lease_meta tok m → decode_table m = Some t → lease_owner_token t = tok.
Proof.
  intros (kvs & Hd & Hv & Ho) Ht. simplify_eq. unfold lease_owner_token, tstr. simpl.
  by rewrite Hv, Ho.
Qed.

Lemma lease_meta_encode tok kvs :
  assoc "lease_protocol_version" kvs = Some (LNum (lint 2)) →
  assoc "owner_token_v2" kvs = Some (LStr tok) → lease_meta tok (cjson_encode (LObj kvs)).
Proof.
  intros Hv Ho. destruct (decode_encoded_obj kvs) as (kvs' & Hd & Hf). exists kvs'.
  rewrite !Hf, Hv, Ho. simpl. by rewrite lua_round_int.
Qed.


Lemma owned_fields_tset tok k v t :
  k = "heartbeat_at" ∨ k = "leased_at" → owned_fields tok t → owned_fields tok (tset k v t).
Proof.
  intros Hk (kvs & -> & Hv & Ho). eexists. split; [done|].
  by destruct Hk as [-> | ->]; rewrite !assoc_set_ne.
Qed.

Lemma owned_fields_clamp tok now k t :
  k = "heartbeat_at" ∨ k = "leased_at" → owned_fields tok t → owned_fields tok (clamp_future now k t).1.
Proof. intros Hk Ht. unfold clamp_future. repeat case_match; simpl; auto using owned_fields_tset. Qed.

Lemma owned_fields_encode tok t : owned_fields tok t → lease_meta tok (cjson_encode t).
Proof. intros (kvs & -> & Hv & Ho). by apply lease_meta_encode. Qed.

Lemma lease_meta_fields tok m t : lease_meta tok m → decode_table m = Some t → owned_fields tok t.
Proof. intros (kvs & Hd & Hv & Ho) Ht. simplify_eq. by eexists. Qed.

Lemma meta_from_same st st' : st_processing_meta st' = st_processing_meta st → meta_from st st'.
Proof. intros E k m'. rewrite E. eauto. Qed.

Lemma meta_from_delete k st st' : meta_from st st' → meta_from st (set_processing_meta (delete k) st').
Proof. intros Hf k' m'. simpl. intros [_ Hk]%lookup_delete_Some. by apply Hf. Qed.

Lemma normalize_meta now mid a o hash k m' :
  normalize_future now mid a o hash !! k = Some m' →
  ∃ m, hash !! k = Some m ∧ ∀ tok, lease_meta tok m → lease_meta tok m'.
Proof.
  unfold normalize_future. destruct (hash !! mid) as [raw|] eqn:E; [|eauto].
  destruct (decode_table raw) as [t|] eqn:Ed; [|eauto]. destruct (lease_matches _ _ _ _); [|eauto].
  destruct (clamp_future now "heartbeat_at" t) as [t1 c1] eqn:E1.
  destruct (clamp_future now "leased_at" t1) as [t2 c2] eqn:E2. destruct (c1 || c2); [|eauto].
  rewrite lookup_insert. case_decide as Hk; [|eauto]. intros [= <-]. subst k. exists raw.
  split; [done|]. intros tok Hm. apply owned_fields_encode.
  replace t2 with (clamp_future now "leased_at" (clamp_future now "heartbeat_at" t).1).1
    by (rewrite E1; simpl; by rewrite E2).
  apply owned_fields_clamp; [by right|]. apply owned_fields_clamp; [by left|].
  by eapply lease_meta_fields.
Qed.

Lemma gate_meta now fk mid a o v st :
  match expired_lease_gate now fk mid a o v st with
  | inl (st', _) | inr st' => meta_from st st'
  end.
Proof.
  unfold expired_lease_gate. repeat case_match; simplify_eq; try by apply meta_from_same.
  all: intros k m'; simpl; apply normalize_meta.
Qed.

Lemma requeue_meta now fk raw mid f mj rj a o v st :
  meta_from st (requeue_script now fk raw mid f mj rj a o v st).1.
Proof.
  unfold requeue_script. pose proof (gate_meta now fk mid a o v st) as Hg.
  destruct (expired_lease_gate _ _ _ _ _ _ _) as [[st' r]|st']; [done|].
  repeat case_match; simpl; try done; intros k m'; simpl.
  all: intros [_ Hk]%lookup_delete_Some; by apply Hg.
Qed.

Lemma dead_letter_expired_meta now fk raw mid j b a o v st :
  meta_from st (dead_letter_expired_script now fk raw mid j b a o v st).1.
Proof.
  unfold dead_letter_expired_script. pose proof (gate_meta now fk mid a o v st) as Hg.
  destruct (expired_lease_gate _ _ _ _ _ _ _) as [[st' r]|st']; [done|].
  intros k m'. destruct b; simpl; [intros [_ Hk]%lookup_delete_Some|]; by apply Hg.
Qed.

Lemma heartbeat_meta now mid a o w fp st : meta_from st (heartbeat_script now mid a o w fp st).1.
Proof.
  unfold heartbeat_script. destruct (st_processing_meta st !! mid) as [m|] eqn:E; [|by apply meta_from_same].
  destruct (decode_table m) as [t|] eqn:Ed; [|by apply meta_from_same].
  repeat case_match; try by apply meta_from_same.
  all: intros k m'; simpl; rewrite lookup_insert; case_decide as Hk; [|eauto].
  all: intros [= <-]; subst k; exists m; split; [done|]; intros tok Hm.
  all: apply owned_fields_encode, owned_fields_tset; [by left|].
  all: try (apply owned_fields_tset; [by right|]); by eapply lease_meta_fields.
Qed.

Lemma ack_meta now fk raw mid a o fp st : meta_from st (ack_script now fk raw mid a o fp st).1.
Proof.
  unfold ack_script. case_match; [by apply meta_from_same|]. intros k m'. simpl.
  intros [_ Hk]%lookup_delete_Some. eauto.
Qed.

Lemma fail_meta now fk raw mid a o j fp st : meta_from st (fail_script now fk raw mid a o j fp st).1.
Proof.
  unfold fail_script. repeat case_match; try by apply meta_from_same. intros k m'. simpl.
  intros [_ Hk]%lookup_delete_Some. eauto.
Qed.

Lemma remove_all_meta t r ids acc :
  st_processing_meta (fold_left (remove_queued_one t r) ids acc).1.1 = st_processing_meta acc.1.1.
Proof.
  revert acc. induction ids as [|mid ids IH]; intros acc; simpl; [done|]. rewrite IH.
  destruct acc as [[st n] k]. unfold remove_queued_one. by repeat case_match.
Qed.

Lemma remove_queued_meta f t r st : meta_from st (remove_queued_script f t r st).1.
Proof.
  apply meta_from_same. unfold remove_queued_script. case_match; [|done].
  set (ids := match decode_table s with Some _ => _ | None => _ end).
  pose proof (remove_all_meta t r ids (st, 0, 0)) as Hm.
  destruct (fold_left _ ids _) as [[st' n] k]. by case_match.
Qed.

Lemma prune_processing_meta args st :
  st_processing_meta (prune_script args st).1 = st_processing_meta st.
Proof.
  unfold prune_script. generalize 0 as n. revert st.
  induction args as [|arg args IH]; intros st n; simpl; [done|]. case_match; by rewrite IH.
Qed.

Lemma aside_meta st st' : aside st st' → meta_from st st'.
Proof. intros Ha. by apply meta_from_same, as_processing_meta. Qed.

Lemma prune_meta args st : meta_from st (prune_script args st).1.
Proof. apply meta_from_same, prune_processing_meta. Qed.

Lemma requeue_run_meta now wall raw p rm a o v st :
  meta_from st (requeue_run_with_fence keys now wall raw p rm a o v st).1.
Proof.
  unfold requeue_run_with_fence.
  match goal with |- context [requeue_script ?n ?k ?w ?m ?f ?j ?q ?a' ?o' ?v' ?s] =>
    pose proof (requeue_meta n k w m f j q a' o' v' s);
    destruct (requeue_script n k w m f j q a' o' v' s) end. done.
Qed.

Lemma heartbeat_run_meta now h w st : meta_from st (heartbeat_run keys now h w st).1.
Proof.
  unfold heartbeat_run. destruct (parse_lease_handle h) as [[[m a] o]|]; [|by apply meta_from_same].
  pose proof (heartbeat_meta now m a o w (key_reconciliation_fence_prefix keys) st).
  by destruct (heartbeat_script _ _ _ _ _ _ _).
Qed.

Lemma ack_run_meta now raw h st : meta_from st (ack_run keys now raw h st).1.
Proof.
  unfold ack_run. destruct (parse_lease_handle h) as [[[m a] o]|]; [|by apply meta_from_same].
  destruct (lease_fence_key keys raw) as [fk|]; [|by apply meta_from_same].
  pose proof (ack_meta now fk raw m a o (key_reconciliation_fence_prefix keys) st).
  by destruct (ack_script _ _ _ _ _ _ _ _).
Qed.

Lemma other_meta now op st :
  match op with
  | QEnqueue _ _ | QDeadLetterInvalid _ _ _ _ | QAcquire _ _ _ _ _ _ | QRelease _ | QRenew _ _ | QTrim _ =>
      meta_from st (run_qop keys now op st)
  | _ => True
  end.
Proof.
  destruct op; simpl; try done; apply meta_from_same.
  - unfold enqueue_call, enqueue_script. by repeat case_match.
  - unfold dead_letter_invalid_script. repeat case_match; simpl; by autorewrite with store.
  - unfold acquire_run_reconciliation_fence, acquire_fence_script, fence_set. by repeat case_match; simplify_eq.
  - unfold release_run_reconciliation_fence, release_fence_script. by repeat case_match; simplify_eq.
  - unfold renew_run_reconciliation_fence, renew_fence_script, fence_set. by repeat case_match; simplify_eq.
  - done.
Qed.

(** A lease either was there before or was issued by the operation. *)
Lemma run_qop_meta now op st k m' :
  st_processing_meta (run_qop keys now op st) !! k = Some m' →
  (∃ m, st_processing_meta st !! k = Some m ∧ ∀ tok, lease_meta tok m → lease_meta tok m') ∨
  ∃ tok, lease_meta tok m' ∧ op_issues tok op.
Proof.
  assert (meta_from st (run_qop keys now op st) ∨ ∃ w m tl ul raw i a o,
    op = QLease w m tl ul raw i a o) as [Hs|(w & m & tl & ul & raw & i & a & o & ->)].
  { pose proof (other_meta now op st) as Ho. destruct op; auto; simpl.
    2: right; repeat eexists. all: left; repeat case_match; auto using aside_meta, remove_queued_meta,
      requeue_run_meta, dead_letter_expired_meta, heartbeat_run_meta, ack_run_meta, fail_meta,
      prune_meta, meta_from_same. }
  { intros Hk. left. by apply Hs. }
  simpl. destruct (validate_payload raw) as [p|]; [|eauto]. unfold lease_call, lease_script.
  repeat case_match; simpl; eauto. autorewrite with store. simpl.
  destruct (decide (message_id_for_raw raw = k)) as [<-|Hne].
  - rewrite lookup_insert_eq. intros [= <-]. right. exists o. split; [|done]. by apply lease_meta_encode.
  - rewrite lookup_insert_ne by done. eauto.
Qed.

Lemma leases_issued_step now op st : leases_issued st → leases_issued (run_qop keys now op st).
Proof.
  intros Hl k m' [(m & Hm & Hk)|(tok & ? & _)]%run_qop_meta; [|eauto].
  destruct (Hl k m Hm) as [tok Ht]. eauto.
Qed.

Lemma leases_issued_trace tr st : leases_issued st → leases_issued (run_trace keys tr st).
Proof.
  revert st. induction tr as [|[now op] tr IH]; intros st Hl; simpl; [done|].
  apply IH. by apply leases_issued_step.
Qed.

Lemma leases_issued_from st st' : meta_from st st' → leases_issued st → leases_issued st'.
Proof. intros Hf Hl k m' (m & Hm & Hk)%Hf. destruct (Hl k m Hm) as [tok Ht]. eauto. Qed.

(** A token that does not hold a lease of a message gets none back. *)
Lemma owner_gone_trace mid tok tr st :
  leases_issued st → owner_gone mid tok st → Forall (fun step => ¬ op_issues tok step.2) tr →
  owner_gone mid tok (run_trace keys tr st).
Proof.
  intros Hl Hg Htr. revert st Hl Hg. induction Htr as [|[now op] tr Hop _ IH]; intros st Hl Hg; [done|].
  simpl. apply IH; [by apply leases_issued_step|].
  intros m' [(m & Hm & Hk)|(tok' & Ht & Hi)]%run_qop_meta Hc.
  - destruct (Hl mid m Hm) as [tok' Ht]. pose proof (lease_meta_unique _ _ _ (Hk tok' Ht) Hc) as ->.
    by apply (Hg m).
  - pose proof (lease_meta_unique _ _ _ Ht Hc) as ->. done.
Qed.

(** Without a lease, every gate a handle meets is closed. *)
Lemma owner_gone_gate mid a o fk raw fp w now st :
  leases_issued st → owner_gone mid o st →
  owned_lease_gate now fk raw mid a o fp w st = inl (Reply "stale_owner" []).
Proof.
  intros Hl Hg. unfold owned_lease_gate. destruct (st_processing_meta st !! mid) as [m|] eqn:E; [|done].
  simpl. destruct (decode_table m) as [t|] eqn:Ed; [|done]. destruct (Hl mid m E) as [tok Ht].
  unfold lease_matches. rewrite (lease_meta_owner tok m t Ht Ed).
  destruct (decide (tok = o)) as [->|Hne]; [by destruct (Hg m)|].
  by rewrite (proj2 (String.eqb_neq _ _) Hne), andb_false_r.
Qed.

Lemma owner_gone_heartbeat mid a o fp w now st :
  leases_issued st → owner_gone mid o st → ∃ s,
  heartbeat_script now mid a o w fp st = (st, Reply s []) ∧ s ∈ ["missing"; "stale_owner"].
Proof.
  intros Hl Hg. unfold heartbeat_script.
  destruct (st_processing_meta st !! mid) as [m|] eqn:E; [|eexists; split; [done|set_solver]].
  destruct (Hl mid m E) as [tok Ht]. destruct (decode_table m) as [t|] eqn:Ed.
  - unfold worker_lease_matches, lease_matches. rewrite (lease_meta_owner tok m t Ht Ed).
    destruct (decide (tok = o)) as [->|Hne]; [by destruct (Hg m)|].
    rewrite (proj2 (String.eqb_neq _ _) Hne), andb_false_r. eexists; split; [done|set_solver].
  - destruct Ht as (kvs & ? & _). congruence.
Qed.

Lemma owner_gone_refused handle mid a o st :
  parse_lease_handle handle = Some (mid, a, o) → leases_issued st → owner_gone mid o st →
  handle_refused handle st.
Proof.
  intros Hp Hl Hg. split; [|split].
  - intros now raw. unfold ack_run. rewrite Hp. destruct (lease_fence_key keys raw) as [fk|]; [|done].
    unfold ack_script. rewrite owner_gone_gate by done. simpl. by rewrite outcome_wire.
  - intros now wall n raw code message worker. unfold fail_leased_run. rewrite Hp.
    destruct (lease_fence_key keys raw) as [fk|]; [|done].
    unfold fail_script. rewrite owner_gone_gate by done. by rewrite outcome_wire.
  - intros now worker. unfold heartbeat_run. rewrite Hp.
    destruct (owner_gone_heartbeat mid a o (key_reconciliation_fence_prefix keys) worker now st Hl Hg)
      as (s & -> & Hs).
    rewrite outcome_wire by (simpl; set_solver). simpl. split; [done|].
    rewrite !elem_of_cons, elem_of_nil in Hs. by destruct Hs as [->|[->|[]]].
Qed.

Lemma acked_owner_gone now raw handle mid a o st st' :
  parse_lease_handle handle = Some (mid, a, o) →
  ack_run keys now raw handle st = (st', "acked") → owner_gone mid o st'.
Proof.
  unfold ack_run. intros ->. destruct (lease_fence_key keys raw) as [fk|]; [|done].
  unfold ack_script. destruct (owned_lease_gate _ _ _ _ _ _ _ _ _) as [r|t] eqn:E.
  - unfold owned_lease_gate in E.
    repeat case_match; simplify_eq; rewrite outcome_wire by done; intros Hr; simplify_eq.
  - intros Hr m. simplify_eq. simpl. by rewrite lookup_delete_eq.
Qed.

Lemma failed_owner_gone now wall n raw code message worker handle mid a o st st' :
  parse_lease_handle handle = Some (mid, a, o) →
  fail_leased_run keys now wall n raw code message handle worker st = (st', "failed") →
  owner_gone mid o st'.
Proof.
  unfold fail_leased_run. intros ->. destruct (lease_fence_key keys raw) as [fk|]; [|done].
  unfold fail_script. destruct (owned_lease_gate _ _ _ _ _ _ _ _ _) as [r|t] eqn:E.
  - unfold owned_lease_gate in E.
    repeat case_match; simplify_eq; rewrite outcome_wire by done; intros Hr; simplify_eq.
  - unfold dead_letter_json. match goal with |- context [json_dumps (PDict ?d)] =>
      destruct (dumps_fields d) as (kvs & Hd & _) end.
    unfold decode_table. rewrite Hd. simpl. rewrite outcome_wire by done. simpl.
    intros Hr m. simplify_eq. simpl. by rewrite lookup_delete_eq.
Qed.

(** C12.  A lease ends once.  After the owner of a lease acknowledged or failed its
    message, no sequence of operations makes the queue accept the ended lease
    again, unless the same random token is issued for a new lease: a repeated
    acknowledgement, failure or heartbeat with the old handle is refused and
    changes nothing. *)
Theorem ended_lease_stays_ended tr1 handle mid a o st' tr2 :
  parse_lease_handle handle = Some (mid, a, o) →
  (∃ now raw, ack_run keys now raw handle (run_trace keys tr1 empty_store) = (st', "acked")) ∨
  (∃ now wall n raw code message worker,
     fail_leased_run keys now wall n raw code message handle worker (run_trace keys tr1 empty_store)
     = (st', "failed")) →
  Forall (fun step => ¬ op_issues o step.2) tr2 →
  handle_refused handle (run_trace keys tr2 st').
Proof.
  intros Hp Hend Htr. assert (leases_issued (run_trace keys tr1 empty_store)) as Hl.
  { by apply leases_issued_trace. }
  assert (owner_gone mid o st' ∧ meta_from (run_trace keys tr1 empty_store) st') as [Hg Hf].
  { destruct Hend as [(now & raw & E)|(now & wall & n & raw & code & message & worker & E)].
    - split; [by eapply acked_owner_gone|]. pose proof (ack_run_meta now raw handle (run_trace keys tr1 empty_store)).
      by rewrite E in *.
    - split; [by eapply failed_owner_gone|]. revert E. unfold fail_leased_run. rewrite Hp.
      destruct (lease_fence_key keys raw) as [fk|]; [|done].
      match goal with |- context [fail_script ?x1 ?x2 ?x3 ?x4 ?x5 ?x6 ?x7 ?x8 ?s] =>
        pose proof (fail_meta x1 x2 x3 x4 x5 x6 x7 x8 s); destruct (fail_script x1 x2 x3 x4 x5 x6 x7 x8 s) end.
      intros E. simplify_eq. by case_match. }
  pose proof (leases_issued_from _ _ Hf Hl) as Hl'.
  eapply owner_gone_refused; [done|by apply leases_issued_trace|by apply owner_gone_trace].
Qed.

End Ownership.

(** A run is queued, leased and acknowledged, then queued and leased again. *)
Definition ended_before : list (Z * qop) :=
  [(1000000, QEnqueue (lint 1) (toy_raw "t" "u" "r"));
   (2000000, QLease "w" 0 0 0 (toy_raw "t" "u" "r") 0 (toy_attempt 1) (toy_owner 1))].
Definition ended_after : list (Z * qop) :=
  [(4000000, QEnqueue (lint 4) (toy_raw "t" "u" "r"));
   (5000000, QLease "w" 0 0 0 (toy_raw "t" "u" "r") 0 (toy_attempt 2) (toy_owner 2))].
Definition ended_ack : store * string :=
  ack_run toy_keys 3000000 (toy_raw "t" "u" "r") (toy_handle (toy_raw "t" "u" "r") 1)
    (run_trace toy_keys ended_before empty_store).

Lemma ended_lease_stays_ended_witness :
  ended_ack.2 = "acked" ∧
  handle_refused toy_keys (toy_handle (toy_raw "t" "u" "r") 1)
    (run_trace toy_keys ended_after ended_ack.1).
Proof.
  split; [vm_compute; reflexivity|].
  refine (ended_lease_stays_ended toy_keys ended_before _ (toy_digest (toy_raw "t" "u" "r"))
    (toy_attempt 1) (toy_owner 1) _ ended_after _ _ _).
  - vm_compute. reflexivity.
  - left. exists 3000000, (toy_raw "t" "u" "r"). vm_compute. reflexivity.
  - repeat constructor; vm_compute; first [exact id | discriminate].
Defined.
