(* ===== verification/QueueQuota.v ===== *)
(** * Processing limits

    Workers lease under a cluster-wide limit and under limits per tenant and per
    user of a tenant.  The theorem here shows that the lease script keeps them in
    every execution in which all workers use the same limits. *)
From stdpp Require Import base gmap list strings.
From Stdlib Require Import ZArith Lia Ascii.
From S2P Require Import Prelude Redis QueueScripts QueueFacts PyValue QueueClient QueueCommands QueueTrace.
From S2P Require Import QueueRuntime QueueFence.

Section Quota.
Context `{LuaRuntime} `{PyRuntime} `{QueuePayloads}.
Context (keys : QueueKeys).

(** A message of the tenant, and of the tenant's user, as the script reads it. *)
Definition of_tenant (tenant_id raw : string) : bool :=
  match decode_table raw with
  | Some t => String.eqb (tstr "tenant_id" t) tenant_id
  | None => false
  end.
Definition of_user (tenant_id user_id raw : string) : bool :=
  match decode_table raw with
  | Some t => String.eqb (tstr "tenant_id" t) tenant_id && String.eqb (tstr "user_id" t) user_id
  | None => false
  end.
Definition count_if (f : string → bool) (l : list string) : Z := Z.of_nat (length (List.filter f l)).

(** A limit of zero or less is no limit. *)
Definition within (limit n : Z) : Prop := 0 < limit → n ≤ limit.

Definition within_limits (max tenant_limit user_limit : Z) (st : store) : Prop :=
  within max (llen (st_processing st)) ∧
  ∀ tenant_id user_id,
    within tenant_limit (count_if (of_tenant tenant_id) (st_processing st)) ∧
    within user_limit (count_if (of_user tenant_id user_id) (st_processing st)).

(** A lease operation under these limits; the others have none. *)
Definition uses_limits (max tenant_limit user_limit : Z) (op : qop) : Prop :=
  match op with
  | QLease _ m tl ul _ _ _ _ => m = max ∧ tl = tenant_limit ∧ ul = user_limit
  | _ => True
  end.

Definition processing_sub (st st' : store) : Prop :=
  st_processing st' `sublist_of` st_processing st.

Context {lua_round : luanum → luanum} {laws : QueueLaws lua_round}.

Lemma count_if_cons f x l : count_if f (x :: l) = (if f x then 1 else 0) + count_if f l.
Proof. unfold count_if. simpl. case_match; simpl; lia. Qed.

(** The script's loop counts the two kinds of message. *)
Lemma processing_counts_eq t u l :
  processing_counts t u l = (count_if (of_tenant t) l, count_if (of_user t u) l).
Proof.
  unfold processing_counts.
  match goal with |- fold_left ?f _ _ = _ => set (step := f) end.
  enough (∀ acc, fold_left step l acc =
    (acc.1 + count_if (of_tenant t) l, acc.2 + count_if (of_user t u) l)) as ->.
  { simpl. by rewrite !Z.add_0_l. }
  induction l as [|x l IH]; intros [a b]; simpl.
  - unfold count_if. simpl. by rewrite !Z.add_0_r.
  - rewrite IH, !count_if_cons. unfold step, of_tenant, of_user.
    destruct (decode_table x) as [tb|]; simpl; [|f_equal; lia].
    destruct (String.eqb (tstr "tenant_id" tb) t); simpl; [|f_equal; lia].
    destruct (String.eqb (tstr "user_id" tb) u); simpl; f_equal; lia.
Qed.

Lemma count_if_sublist f l k : l `sublist_of` k → count_if f l ≤ count_if f k.
Proof.
  unfold count_if. intros Hs. apply inj_le. induction Hs; simpl; repeat case_match; simpl; lia.
Qed.

Lemma within_limits_sub max tl ul st st' :
  processing_sub st st' → within_limits max tl ul st → within_limits max tl ul st'.
Proof.
  intros Hs [Hm Hc]. pose proof (sublist_length _ _ Hs). unfold within_limits, within, llen in *.
  split; [intros; specialize (Hm ltac:(done)); lia|].
  intros t u. destruct (Hc t u) as [Ht Hu].
  pose proof (count_if_sublist (of_tenant t) _ _ Hs). pose proof (count_if_sublist (of_user t u) _ _ Hs).
  split; intros; [specialize (Ht ltac:(done)) | specialize (Hu ltac:(done))]; lia.
Qed.

(** ** Operations other than a lease *)

Lemma processing_sub_eq st st' : st_processing st' = st_processing st → processing_sub st st'.
Proof. unfold processing_sub. by intros ->. Qed.

Lemma requeue_processing now wall raw p rm a o v st :
  processing_sub st (requeue_run_with_fence keys now wall raw p rm a o v st).1.
Proof.
  unfold requeue_run_with_fence, requeue_script, processing_sub.
  match goal with |- context [expired_lease_gate ?n ?k ?m ?a' ?o' ?v' ?s] =>
    pose proof (gate_lists n k m a' o' v' s) as Hg;
    destruct (expired_lease_gate n k m a' o' v' s) as [[s' r]|s'] end;
    destruct Hg as (_ & Hp & _); rewrite <- Hp; [done|].
  repeat case_match; simplify_eq; simpl; try done; apply lrem1_sublist.
Qed.

Lemma dead_letter_expired_processing now fk raw mid j b a o v st :
  processing_sub st (dead_letter_expired_script now fk raw mid j b a o v st).1.
Proof.
  unfold dead_letter_expired_script, processing_sub. pose proof (gate_lists now fk mid a o v st) as Hg.
  destruct (expired_lease_gate _ _ _ _ _ _ _) as [[st' r]|st'];
    destruct Hg as (_ & Hp & _); rewrite <- Hp; [done|]. destruct b; apply lrem1_sublist.
Qed.

Lemma ack_run_processing now raw h st : processing_sub st (ack_run keys now raw h st).1.
Proof.
  unfold ack_run, ack_script, processing_sub.
  repeat case_match; simplify_eq; simpl; try done; apply lrem1_sublist.
Qed.

Lemma fail_processing now fk raw mid a o j fp st :
  processing_sub st (fail_script now fk raw mid a o j fp st).1.
Proof. unfold fail_script, processing_sub. repeat case_match; simpl; try done; apply lrem1_sublist. Qed.

Lemma heartbeat_run_processing now h w st : processing_sub st (heartbeat_run keys now h w st).1.
Proof.
  unfold heartbeat_run. destruct (parse_lease_handle h) as [[[m a] o]|]; [|by apply processing_sub_eq].
  pose proof (heartbeat_lists now m a o w (key_reconciliation_fence_prefix keys) st) as (_ & Hp & _).
  destruct (heartbeat_script _ _ _ _ _ _ _). by apply processing_sub_eq.
Qed.

Lemma remove_queued_processing f t r st : processing_sub st (remove_queued_script f t r st).1.
Proof.
  apply processing_sub_eq. unfold remove_queued_script. case_match; [|done].
  set (ids := match decode_table s with Some _ => _ | None => _ end).
  pose proof (remove_all_lists t r ids (st, 0, 0)) as (_ & Hp & _).
  destruct (fold_left _ ids _) as [[st' n] k]. by case_match.
Qed.

(** Only a lease adds to the processing list. *)
Lemma run_qop_processing now op st :
  (∀ w m tl ul raw i a o, op ≠ QLease w m tl ul raw i a o) → processing_sub st (run_qop keys now op st).
Proof.
  intros Hop. destruct op; try (by edestruct Hop); simpl;
    try (case_match; [|by apply processing_sub_eq]);
    auto using remove_queued_processing, requeue_processing, dead_letter_expired_processing,
      ack_run_processing, heartbeat_run_processing.
  - apply processing_sub_eq. unfold enqueue_call, enqueue_script. by repeat case_match.
  - apply processing_sub_eq. case_match; [done|]. unfold dead_letter_invalid_script.
    repeat case_match; simpl; by autorewrite with store.
  - apply processing_sub_eq. unfold acquire_run_reconciliation_fence, acquire_fence_script, fence_set.
    by repeat case_match; simplify_eq.
  - apply processing_sub_eq. unfold release_run_reconciliation_fence, release_fence_script.
    by repeat case_match; simplify_eq.
  - apply processing_sub_eq. unfold renew_run_reconciliation_fence, renew_fence_script, fence_set.
    by repeat case_match; simplify_eq.
  - destruct p as [[m a] o]. case_match; [|by apply processing_sub_eq]. apply fail_processing.
  - apply processing_sub_eq, prune_lists.
  - by apply processing_sub_eq.
  - apply processing_sub_eq, as_processing. auto.
  - apply processing_sub_eq, as_processing. auto.
  - apply processing_sub_eq, as_processing. auto.
Qed.

(** ** A lease *)

Lemma lease_within_limits now w m tl ul raw p i a o st :
  validate_payload raw = Some p → within_limits m tl ul st →
  within_limits m tl ul (lease_call keys now w m tl ul raw p i a o st).1.
Proof.
  intros Hv Hlim. unfold lease_call, lease_script. rewrite processing_counts_eq.
  case_match; [done|]. destruct ((0 <? m) && _) eqn:Hm; [done|]. case_match; [done|].
  case_match; [done|]. destruct ((0 <? tl) && _) eqn:Ht; [done|].
  destruct ((0 <? ul) && _) eqn:Hu; [done|]. destruct Hlim as [Hmax Hc].
  destruct (payload_fields raw p Hv) as (tb & Hd & Et & Er & Eu).
  unfold within_limits, within in *. simpl. autorewrite with store. simpl.
  split; [unfold llen in *; simpl; lia|]. intros t u. destruct (Hc t u) as [Hct Hcu].
  rewrite !count_if_cons. unfold of_tenant at 1, of_user at 1. rewrite Hd, Et, Eu.
  destruct (String.eqb (pl_tenant_id p) t) eqn:E1; simpl; [|split; intros; lia]. to_prop. subst t.
  split; [intros; lia|]. destruct (String.eqb (pl_user_id p) u) eqn:E2; [|intros; lia].
  to_prop. subst u. intros; lia.
Qed.

Lemma within_limits_step m tl ul now op st :
  uses_limits m tl ul op → within_limits m tl ul st → within_limits m tl ul (run_qop keys now op st).
Proof.
  intros Hop Hlim.
  assert ((∃ w m tl ul raw i a o, op = QLease w m tl ul raw i a o) ∨
          ∀ w m tl ul raw i a o, op ≠ QLease w m tl ul raw i a o) as [Hl|Hl].
  { destruct op; (left; by repeat eexists) || (right; done). }
  - destruct Hl as (w & m' & tl' & ul' & raw & i & a & o & ->). simpl in *. destruct Hop as (-> & -> & ->).
    destruct (validate_payload raw) as [p|] eqn:Hv; [|done]. by apply lease_within_limits.
  - eapply within_limits_sub; [by apply run_qop_processing | done].
Qed.

(** C13.  Limits hold under concurrency: in every execution from an empty store in
    which all workers lease under the same limits, the number of leased messages,
    the number of any tenant and the number of any user of a tenant never exceed
    the limits that are set. *)
Theorem processing_limits_hold m tl ul tr :
  Forall (fun step => uses_limits m tl ul step.2) tr →
  within_limits m tl ul (run_trace keys tr empty_store).
Proof.
  intros Htr. assert (within_limits m tl ul empty_store) as Hinit.
  { split; [|intros t u; split]; unfold within, llen, count_if; simpl; lia. }
  revert Hinit. generalize empty_store as st.
  induction Htr as [|[now op] tr Hop _ IH]; intros st Hlim; simpl; [done|].
  apply IH. by apply within_limits_step.
Qed.

End Quota.

(** Three runs, two of one user; a limit of one run per user. *)
Definition quota_trace : list (Z * qop) :=
  [(1, QEnqueue (lint 1) (toy_raw "t" "u" "r1")); (2, QEnqueue (lint 2) (toy_raw "t" "u" "r2"));
   (3, QEnqueue (lint 3) (toy_raw "t" "v" "r3"));
   (4, QLease "w" 3 2 1 (toy_raw "t" "u" "r1") 0 (toy_attempt 1) (toy_owner 1));
   (5, QLease "w" 3 2 1 (toy_raw "t" "u" "r2") 0 (toy_attempt 2) (toy_owner 2));
   (6, QLease "w" 3 2 1 (toy_raw "t" "v" "r3") 1 (toy_attempt 3) (toy_owner 3))].

Lemma processing_limits_hold_witness :
  st_processing (run_trace toy_keys quota_trace empty_store) = [toy_raw "t" "v" "r3"; toy_raw "t" "u" "r1"] ∧
  within_limits 3 2 1 (run_trace toy_keys quota_trace empty_store).
Proof.
  split; [vm_compute; reflexivity|].
  apply (processing_limits_hold toy_keys 3 2 1 quota_trace). repeat constructor.
Defined.
