(* ===== verification/QueueNames.v ===== *)
(** * Handles and keys

    The textual names of the queue: a lease handle carries the message id, the
    attempt and the owner token in one string, and every key of a deployment is
    made from one configured prefix. *)
From stdpp Require Import base gmap list strings.
From Stdlib Require Import ZArith Lia Ascii.
From S2P Require Import Prelude Redis QueueScripts PyValue QueueClient.
From S2P Require Import QueueRuntime.

(** What a handle is made of. *)
Definition handle_parts (message_id attempt_id owner_token : string) : Prop :=
  is_hex64 message_id = true ∧ is_prefixed_hex64 "qat_" attempt_id = true ∧
  is_prefixed_hex64 "qown_" owner_token = true.

(** [sep.join(words)]. *)
Fixpoint join_on (sep : ascii) (words : list string) : string :=
  match words with
  | [] => EmptyString
  | [w] => w
  | w :: ws => w +:+ String sep (join_on sep ws)
  end.

Definition no_colon (c : ascii) : bool := negb (Ascii.eqb c ":").

Lemma split_on_join sep s : join_on sep (split_on sep s) = s.
Proof.
  induction s as [|c s IH]; simpl; [done|].
  destruct (Ascii.eqb c sep) eqn:E.
  - apply Ascii.eqb_eq in E as ->. destruct (split_on sep s) eqn:Es; [by destruct s; simpl in Es; repeat case_match|].
    simpl in *. by rewrite IH.
  - destruct (split_on sep s) as [|w ws] eqn:Es; [by destruct s; simpl in Es; repeat case_match|].
    destruct ws; simpl in *; by rewrite <- IH.
Qed.

Lemma hex_no_colon c : is_hex c = true → no_colon c = true.
Proof.
  intros Hc. unfold no_colon. destruct (Ascii.eqb c ":") eqn:E; [|done].
  apply Ascii.eqb_eq in E as ->. by vm_compute in Hc.
Qed.

Lemma strip_prefix_app p s t : strip_prefix p s = Some t → s = p +:+ t.
Proof.
  revert s. induction p as [|a p IH]; intros s; simpl; [by intros [= ->]|].
  destruct s as [|b s]; [done|]. destruct (Ascii.eqb a b) eqn:E; [|done].
  apply Ascii.eqb_eq in E as ->. intros Hs. by rewrite (IH s Hs).
Qed.

Lemma hex64_no_colon s : is_hex64 s = true → str_forall no_colon s = true.
Proof.
  unfold is_hex64. intros Hs. to_prop. eapply str_forall_impl; [|done]. apply hex_no_colon.
Qed.

Lemma prefixed_no_colon p s :
  str_forall no_colon p = true → is_prefixed_hex64 p s = true → str_forall no_colon s = true.
Proof.
  unfold is_prefixed_hex64. intros Hp. destruct (strip_prefix p s) as [t|] eqn:E; [|done].
  apply strip_prefix_app in E as ->. intros Ht. rewrite str_forall_app, Hp. by apply hex64_no_colon.
Qed.

Lemma parse_print_handle m a o :
  handle_parts m a o → parse_lease_handle (lease_handle m a o) = Some (m, a, o).
Proof.
  intros (Hm & Ha & Ho). unfold parse_lease_handle.
  change (lease_handle m a o) with ("qls1" +:+ String ":" (m +:+ String ":" (a +:+ String ":" o))).
  rewrite (split_on_app ":" "qls1") by done.
  rewrite (split_on_app ":" m) by exact (hex64_no_colon m Hm).
  rewrite (split_on_app ":" a) by exact (prefixed_no_colon "qat_" a eq_refl Ha).
  rewrite split_on_none by exact (prefixed_no_colon "qown_" o eq_refl Ho).
  by rewrite Hm, Ha, Ho.
Qed.

(** Lease handles round trip: a handle made of a digest, an attempt id and an
    owner token is read back as exactly those three, and a string is accepted as a
    handle only if it is the handle of the three parts it is read as, each of the
    right form. *)
Lemma lease_handle_roundtrip :
  (∀ message_id attempt_id owner_token, handle_parts message_id attempt_id owner_token →
     parse_lease_handle (lease_handle message_id attempt_id owner_token)
     = Some (message_id, attempt_id, owner_token)) ∧
  (∀ value message_id attempt_id owner_token,
     parse_lease_handle value = Some (message_id, attempt_id, owner_token) →
     value = lease_handle message_id attempt_id owner_token ∧
     handle_parts message_id attempt_id owner_token).
Proof.
  split.
  - apply parse_print_handle.
  - intros v m a o. unfold parse_lease_handle. pose proof (split_on_join ":" v) as Hj.
    destruct (split_on ":" v) as [|w1 [|w2 [|w3 [|w4 [|]]]]]; try done.
    case_match; [|done]. intros Hp. simplify_eq. to_prop. subst. done.
Qed.

Lemma append_inj_l p s t : p +:+ s = p +:+ t → s = t.
Proof. induction p as [|c p IH]; simpl; [done|]. intros Heq. injection Heq. apply IH. Qed.

Lemma NoDup_append p l : NoDup l → NoDup ((String.append p) <$> l).
Proof. apply NoDup_fmap_2. intros s t. apply append_inj_l. Qed.

(** The keys of a deployment never collide: for every configured prefix, the
    ten keys of the queue are pairwise different, and no reconciliation fence key,
    whatever the tenant and the run, is one of them. *)
Lemma queue_keys_distinct prefix tenant_id run_id :
  NoDup (reconciliation_fence_key (get_queue_keys prefix) tenant_id run_id
         :: plain_keys (get_queue_keys prefix)).
Proof.
  unfold plain_keys, get_queue_keys, reconciliation_fence_key. simpl.
  set (p := if str_truthy _ then _ else _). clearbody p.
  replace ((p +:+ ":reconciliation-fence") +:+ ":" +:+ tenant_id +:+ ":" +:+ run_id)
    with (p +:+ (":reconciliation-fence:" +:+ tenant_id +:+ ":" +:+ run_id)).
  2:{ by rewrite append_assoc. }
  apply (NoDup_append p (cons _ [_; _; _; _; _; _; _; _; _; _])).
  apply NoDup_cons. split; [|by apply (bool_decide_unpack _); vm_compute].
  rewrite !elem_of_cons, elem_of_nil. intuition discriminate.
Qed.
