(* ===== verification/QueueLease.v ===== *)
(** * Leasing and keeping a lease

    What a worker gets from [lease_run]: the oldest queued message it may take,
    under a lease that is current, can be renewed and, while it is renewed, is not
    taken away. *)
From stdpp Require Import base gmap list strings.
From Stdlib Require Import ZArith Lia Ascii.
From S2P Require Import Prelude Redis QueueScripts QueueFacts PyValue QueueClient QueueCommands QueueTrace.
From S2P Require Import QueueRuntime QueueFence QueueUnique QueueOwnership QueueQuota QueueNames.

Section Lease.
Context `{LuaRuntime} `{PyRuntime} `{QueuePayloads}.
Context (keys : QueueKeys).

(** A limit that is set and reached. *)
Definition reached (limit n : Z) : bool := (0 <? limit) && (limit <=? n).

(** The reference: whether a worker may lease the message now. *)
Definition eligible (now : Z) (cfg : lease_config) (st : store) (raw : string) : bool :=
  match validate_payload raw with
  | None => false
  | Some p =>
      negb (fence_exists st now (reconciliation_fence_key keys (pl_tenant_id p) (pl_run_id p)))
      && negb (reached (default 0 (lc_max_processing_runs cfg)) (llen (st_processing st)))
      && negb (reached (lc_tenant_limit cfg) (count_if (of_tenant (pl_tenant_id p)) (st_processing st)))
      && negb (reached (lc_user_limit cfg)
                 (count_if (of_user (pl_tenant_id p) (pl_user_id p)) (st_processing st)))
  end.

(** The queued texts have distinct digests and none begins with an underscore, the
    mark of the scripts' placeholders; the well-formed ones have been tried a
    readable number of times; the clock is past its origin.  Texts that are not
    messages may be queued too. *)
Record lease_ready (lua_round : luanum → luanum) (now : Z) (st : store) : Prop := {
  lr_digest : ∀ a b, a ∈ st_queued st → b ∈ st_queued st →
    message_id_for_raw a = message_id_for_raw b → a = b;
  lr_plain : ∀ s, String "_" s ∉ st_queued st;
  lr_attempts : ∀ raw, raw ∈ st_queued st → is_Some (validate_payload raw) → ∃ n,
    next_attempts st (message_id_for_raw raw) = lint n ∧ 1 ≤ n < 10 ^ 14;
  lr_clock : lnum_ltb (lint 0) (lua_round (LFin now)) = true
}.

(** The store after the text at a place of the queue went to the dead letters. *)
Record dropped_invalid (st st' : store) (k : nat) : Prop := {
  di_queued : st_queued st' = delete k (st_queued st);
  di_processing : st_processing st' = st_processing st;
  di_fences : st_fences st' = st_fences st;
  di_invalid : ∃ raw, st_queued st !! k = Some raw ∧ validate_payload raw = None
}.

(** The message [m] comes from the lease script run on [st]. *)
Definition lease_outcome (now : Z) (cfg : lease_config) (secrets : lease_secrets) (st st' : store)
    (m : QueueMessage) : Prop :=
  ∃ p i r, validate_payload (qm_raw m) = Some p ∧ secrets i = (qm_attempt_id m, qm_owner_token m) ∧
    lease_call keys now (lc_worker_id cfg) (default 0 (lc_max_processing_runs cfg)) (lc_tenant_limit cfg)
      (lc_user_limit cfg) (qm_raw m) p i (qm_attempt_id m) (qm_owner_token m) st = (st', r) ∧
    rp_status r = "leased" ∧ qm_queue_message_id m = message_id_for_raw (qm_raw m) ∧
    qm_message_id m = lease_handle (qm_queue_message_id m) (qm_attempt_id m) (qm_owner_token m).

(** The lease of a message: who owns it and the stamp of its last activity. *)
Definition lease_stamped (now t0 : Z) (raw owner : string) (st : store) : Prop :=
  ∃ m kvs, st_processing_meta st !! message_id_for_raw raw = Some m ∧ decode_table m = Some (LObj kvs) ∧
    assoc "lease_protocol_version" kvs = Some (LNum (lint 2)) ∧
    assoc "owner_token_v2" kvs = Some (LStr owner) ∧
    assoc "heartbeat_at" kvs = Some (LNum (LFin t0)) ∧
    (∀ l, tonumber (assoc "leased_at" kvs) = Some l → lnum_ltb (LFin now) l = false) ∧
    raw ∈ st_processing st.

(** A worker got or renewed a lease of the message with the owner token. *)
Inductive obtained (now : Z) (raw owner : string) (st st' : store) : Prop :=
| by_lease w m tl ul p i a r :
    validate_payload raw = Some p → lease_call keys now w m tl ul raw p i a owner st = (st', r) →
    rp_status r = "leased" → obtained now raw owner st st'
| by_heartbeat handle a w at' :
    parse_lease_handle handle = Some (message_id_for_raw raw, a, owner) → raw ∈ st_processing st →
    heartbeat_run keys now handle w st = (st', ("heartbeat", at')) → obtained now raw owner st st'.

(** A step of another client before the lease expires: it does not present the
    owner's handle, and if it reclaims leases the visibility timeout it uses has
    not passed since the stamp. *)
Definition before_expiry (now t0 : Z) (owner : string) (step : Z * qop) : Prop :=
  now ≤ step.1 ∧ t0 ≤ step.1 ∧
  match step.2 with
  | QAck _ h | QFail _ _ _ _ h _ | QHeartbeat h _ => ∀ mid a, parse_lease_handle h ≠ Some (mid, a, owner)
  | QRequeue _ _ _ _ _ v | QDeadLetterExpired _ _ _ _ _ _ _ _ _ v => step.1 - t0 ≤ v * 1000000
  | _ => True
  end.

Context {lua_round : luanum → luanum} {laws : QueueLaws lua_round}.

(** ** One candidate *)

Lemma leased_reply raw a o n now tp up :
  1 ≤ n < 10 ^ 14 → lnum_ltb (lint 0) (lua_round (LFin now)) = true →
  leased_message raw a o (eval_result (Reply "leased"
    [("attempts", LNum (lint n)); ("leased_at", LNum (LFin now)); ("attempt_id", LStr a);
     ("owner_token", LStr o); ("tenant_processing", LNum (lint tp)); ("user_processing", LNum (lint up))]))
  = Some (MkQueueMessage raw (lease_handle (message_id_for_raw raw) a o) (message_id_for_raw raw)
            a o (lua_round (LFin now)) n).
Proof.
  intros Hn Hclock. unfold eval_result, decode_redis_script_result, eval_reply. simpl rp_status. simpl rp_fields.
  match goal with |- context [cjson_encode (LObj ?kvs)] =>
    destruct (reply_fields kvs) as (d & -> & _ & Hs & Hi & Hx) end.
  unfold leased_message, get, get_default.
  rewrite (Hi "attempts" n) by (lia || done). rewrite (Hs "attempt_id" a), (Hs "owner_token" o) by done. simpl.
  destruct (Hx "leased_at" (LFin now)) as (v & -> & Hb & Hv); [done|]. simpl. rewrite Hv, Hb.
  rewrite !String.eqb_refl, (proj2 (Z.ltb_ge n 1)) by lia. simpl.
  assert (lnum_leb (lua_round (LFin now)) (lint 0) = false) as ->; [|done].
  destruct (lua_round (LFin now)) as [x|[]|]; simpl in *; try done. unfold lnum_leb. simpl. to_prop.
  apply orb_false_iff. split; [apply Z.ltb_ge | apply Z.eqb_neq]; lia.
Qed.

(** The lease script on a message that is where the worker saw it. *)
Lemma lease_call_decides now cfg raw p i a o st :
  let max := default 0 (lc_max_processing_runs cfg) in
  validate_payload raw = Some p → 0 ≤ i → lindex (st_queued st) i = Some raw →
  reached max (llen (st_processing st)) = false →
  let out := lease_call keys now (lc_worker_id cfg) max (lc_tenant_limit cfg) (lc_user_limit cfg)
               raw p i a o st in
  if eligible now cfg st raw then
    ∃ tp up, out.2 = Reply "leased"
      [("attempts", LNum (next_attempts st (message_id_for_raw raw))); ("leased_at", LNum (LFin now));
       ("attempt_id", LStr a); ("owner_token", LStr o); ("tenant_processing", LNum (lint tp));
       ("user_processing", LNum (lint up))]
  else out.1 = st ∧ rp_status out.2 ∈ ["reconciliation_fenced"; "quota_blocked"].
Proof.
  intros max Hv Hi Hraw Hcap. unfold eligible. rewrite Hv. fold max. rewrite Hcap. simpl negb.
  rewrite andb_true_r. unfold lease_call, lease_script. unfold reached in *. rewrite Hcap.
  destruct (fence_exists _ _ _); simpl; [split; [done|set_solver]|].
  rewrite (proj2 (Z.ltb_ge i 0) Hi), Hraw, bool_decide_true by done. simpl.
  assert (llen (st_queued st) <=? i = false) as ->.
  { apply Z.leb_gt. apply lookup_lt_Some in Hraw. unfold llen. lia. }
  rewrite processing_counts_eq. simpl.
  destruct ((0 <? lc_tenant_limit cfg) && _); simpl; [split; [done|set_solver]|].
  destruct ((0 <? lc_user_limit cfg) && _); simpl; [split; [done|set_solver]|]. eauto.
Qed.

Lemma eligible_same now cfg st st' raw :
  st_processing st' = st_processing st → st_fences st' = st_fences st →
  eligible now cfg st' raw = eligible now cfg st raw.
Proof. intros Hp Hf. unfold eligible, fence_exists, fence_get. by rewrite Hp, Hf. Qed.

Lemma eligible_valid now cfg st raw : eligible now cfg st raw = true → is_Some (validate_payload raw).
Proof. unfold eligible. by destruct (validate_payload raw). Qed.

(** The scan of a text that is not a message: it is dead-lettered. *)
Lemma invalid_is_dropped now wall cfg i raw st :
  lease_ready lua_round now st → 0 ≤ i → lindex (st_queued st) i = Some raw →
  validate_payload raw = None →
  let out := dead_letter_invalid_queued_payload_atomic (lc_max_dead_letters cfg) raw
               (lc_worker_id cfg) i wall st in
  result_status out.2 = "dead_lettered" ∧ lease_ready lua_round now out.1 ∧
  dropped_invalid st out.1 (Z.to_nat i).
Proof.
  intros [Hdig Hpl Hatt Hclock] Hi Hraw Hinv.
  unfold dead_letter_invalid_queued_payload_atomic, dead_letter_invalid_script.
  rewrite (proj2 (Z.ltb_ge i 0) Hi), Hraw, bool_decide_true by done. unfold lindex in Hraw. simpl.
  assert (llen (st_queued st) <=? i = false) as ->.
  { apply Z.leb_gt. apply lookup_lt_Some in Hraw. unfold llen. lia. }
  rewrite !wire_status. simpl.
  pose proof (sentinel_move (move_sentinel "__ai_platform_queue_dead_letter__" (message_id_for_raw raw) wall
    (lc_worker_id cfg)) (st_queued st) i raw ltac:(apply Hpl) Hraw) as Hmove.
  set (ix := match st_queued_meta st !! message_id_for_raw raw with Some _ => _ | None => _ end).
  assert (st_queued ix = delete (Z.to_nat i) (st_queued st) ∧ st_processing ix = st_processing st ∧
    st_processing_meta ix = st_processing_meta st ∧ st_retry_meta ix = st_retry_meta st ∧
    st_fences ix = st_fences st) as (Eq & Ep & Em & Er & Ef).
  { unfold ix. repeat case_match; autorewrite with store; simpl; by rewrite Hmove. }
  split; [by rewrite wire_status|]. split; [|by split; simpl; eauto].
  assert (∀ x, x ∈ delete (Z.to_nat i) (st_queued st) → x ∈ st_queued st) as Hsub.
  { intros x. by apply sublist_elem, delete_sublist. }
  split; simpl; [| | |done]; rewrite Eq; auto.
  - intros s Hs. by apply (Hpl s), Hsub.
  - intros x Hx Hv. destruct (Hatt x (Hsub x Hx) Hv) as (n & Hn & Hb). exists n. split; [|done].
    rewrite <- Hn. unfold next_attempts. simpl. rewrite Em, lookup_delete_ne, Er; [done|]. intros E.
    assert (x = raw) as -> by (apply Hdig; [by apply Hsub|by eapply list_elem_of_lookup_2|done]).
    destruct Hv as [p Hp]. congruence.
Qed.

Lemma scan_candidate_decides now wall cfg secrets raw i st :
  lease_ready lua_round now st → 0 ≤ i → lindex (st_queued st) i = Some raw →
  reached (default 0 (lc_max_processing_runs cfg)) (llen (st_processing st)) = false →
  match validate_payload raw with
  | None => ∃ st', scan_candidate keys now wall cfg secrets i raw st = (st', ScanRestart) ∧
      lease_ready lua_round now st' ∧ dropped_invalid st st' (Z.to_nat i)
  | Some _ =>
      if eligible now cfg st raw
      then ∃ st' m, scan_candidate keys now wall cfg secrets i raw st = (st', ScanDone (Some m)) ∧
             qm_raw m = raw ∧ lease_outcome now cfg secrets st st' m
      else scan_candidate keys now wall cfg secrets i raw st = (st, ScanNext)
  end.
Proof.
  intros Hr Hi Hraw Hcap. pose proof Hr as [_ _ Hatt Hclock].
  assert (raw ∈ st_queued st) as Hin by by eapply list_elem_of_lookup_2.
  unfold scan_candidate. destruct (validate_payload raw) as [p|] eqn:Hv.
  2:{ destruct (invalid_is_dropped now wall cfg i raw st Hr Hi Hraw Hv) as (Hs & Hr' & Hd).
    destruct (dead_letter_invalid_queued_payload_atomic _ _ _ _ _ _) as [st' out]. simpl in *.
    rewrite Hs. eauto. }
  destruct (Hatt raw Hin) as (n & Hn & Hnb); [by eexists|]. destruct (secrets i) as [a o] eqn:Hsec.
  pose proof (lease_call_decides now cfg raw p i a o st Hv Hi Hraw Hcap) as Hd.
  destruct (lease_call _ _ _ _ _ _ _ _ _ _ _ _) as [st' r] eqn:Hcall. simpl in Hd.
  destruct (eligible now cfg st raw).
  - destruct Hd as (tp & up & ->). rewrite wire_status, Hn, leased_reply by done. simpl.
    eexists _, _. split; [done|]. split; [done|]. eexists p, i, _. simpl. eauto 10.
  - destruct Hd as [-> Hs]. rewrite wire_status.
    rewrite !elem_of_cons, elem_of_nil in Hs. by destruct Hs as [->|[->|[]]].
Qed.

(** ** The scan *)

(** A window: the first candidate that decides it is leased or dropped, or there is
    none and the scan goes on. *)
Lemma scan_window_decides now wall cfg secrets st items i :
  lease_ready lua_round now st → 0 ≤ i →
  (∀ j raw, items !! j = Some raw → st_queued st !! (Z.to_nat i + j)%nat = Some raw) →
  reached (default 0 (lc_max_processing_runs cfg)) (llen (st_processing st)) = false →
  (∃ st' m, scan_window keys now wall cfg secrets i items st = (st', Some (ScanDone (Some m))) ∧
     List.find (eligible now cfg st) items = Some (qm_raw m) ∧ lease_outcome now cfg secrets st st' m) ∨
  (∃ st' k, scan_window keys now wall cfg secrets i items st = (st', Some ScanRestart) ∧
     (Z.to_nat i ≤ k)%nat ∧ lease_ready lua_round now st' ∧ dropped_invalid st st' k) ∨
  (scan_window keys now wall cfg secrets i items st = (st, None) ∧
     List.find (eligible now cfg st) items = None).
Proof.
  intros Hr Hi Hitems Hcap. revert i Hi Hitems.
  induction items as [|raw items IH]; intros i Hi Hitems; simpl; [by right; right|].
  assert (lindex (st_queued st) i = Some raw) as Hraw.
  { unfold lindex. rewrite <- (Nat.add_0_r (Z.to_nat i)). by apply (Hitems 0%nat). }
  pose proof (scan_candidate_decides now wall cfg secrets raw i st Hr Hi Hraw Hcap) as Hd.
  destruct (validate_payload raw) as [p|] eqn:Hv.
  2:{ destruct Hd as (st' & -> & Hr' & Hdrop). right. left. eauto 10. }
  destruct (eligible now cfg st raw).
  - destruct Hd as (st' & m & -> & <- & Ho). left. eauto.
  - rewrite Hd. destruct (IH (i + 1)) as [Hx|[Hx|Hx]]; [lia| |by left| |by right; right].
    + intros j x Hj. replace (Z.to_nat (i + 1) + j)%nat with (Z.to_nat i + S j)%nat by lia. by apply Hitems.
    + destruct Hx as (st' & k & -> & Hk & Hr' & Hdrop). right. left. exists st', k.
      split; [done|]. split; [lia|done].
Qed.

Lemma find_app {A} (f : A → bool) l k :
  List.find f (l ++ k) = match List.find f l with Some x => Some x | None => List.find f k end.
Proof. induction l as [|x l IH]; simpl; [done|]. by destruct (f x). Qed.

Lemma find_ext {A} (f g : A → bool) l : (∀ x, f x = g x) → List.find f l = List.find g l.
Proof. intros E. induction l as [|x l IH]; simpl; [done|]. by rewrite E, IH. Qed.

(** Taking out an element that is not looked for. *)
Lemma find_delete {A} (f : A → bool) l n k x :
  (n ≤ k)%nat → l !! k = Some x → f x = false →
  List.find f (drop n (delete k l)) = List.find f (drop n l).
Proof.
  revert n k. induction l as [|y l IH]; intros n k Hle Hk Hf; [done|].
  destruct k as [|k].
  - assert (n = 0%nat) as -> by lia. simpl in *. simplify_eq. by rewrite Hf.
  - destruct n as [|n]; simpl in *.
    + destruct (f y); [done|]. apply (IH 0%nat k); [lia|done..].
    + apply IH; [lia|done..].
Qed.

Lemma lrange_inside l i j :
  0 ≤ i ≤ j ∧ j < llen l → lrange l i j = take (Z.to_nat (j - i + 1)) (drop (Z.to_nat i) l).
Proof.
  intros (Hi & Hj). unfold lrange, norm_index.
  rewrite (proj2 (Z.ltb_ge i 0)), (proj2 (Z.ltb_ge j 0)), Z.max_r, Z.min_r by lia.
  by rewrite (proj2 (Z.ltb_ge j i)) by lia.
Qed.

(** The scan finds the first eligible message from its position on, whatever it
    drops on its way. *)
Lemma lease_scan_finds now wall cfg secrets st fuel scanned :
  lease_ready lua_round now st → 0 ≤ scanned →
  reached (default 0 (lc_max_processing_runs cfg)) (llen (st_processing st)) = false →
  (length (st_queued st) - Z.to_nat scanned < fuel)%nat →
  let out := lease_scan keys fuel now wall cfg secrets scanned (llen (st_queued st)) st in
  qm_raw <$> out.2 = List.find (eligible now cfg st) (drop (Z.to_nat scanned) (st_queued st)) ∧
  match out.2 with Some m => ∃ st1, lease_outcome now cfg secrets st1 out.1 m | None => True end.
Proof.
  cbv zeta. revert st scanned. induction fuel as [|fuel IH]; intros st scanned Hr Hs Hcap Hf; [lia|].
  cbn [lease_scan]. destruct (scanned <? llen (st_queued st)) eqn:Elt; simpl negb; cbv iota; to_prop.
  2:{ unfold llen in Elt. by rewrite drop_ge by lia. }
  set (e := Z.min _ _). unfold llen in Elt.
  assert (lrange (st_queued st) scanned e =
    take (Z.to_nat (e - scanned + 1)) (drop (Z.to_nat scanned) (st_queued st))) as Hl.
  { apply lrange_inside. unfold e, llen. lia. }
  set (k := Z.to_nat (e - scanned + 1)) in *. set (rest := drop (Z.to_nat scanned) (st_queued st)) in *.
  assert (1 ≤ k ≤ length rest)%nat as Hk.
  { unfold k, rest, e, llen. rewrite length_drop. lia. }
  rewrite Hl. replace (List.find (eligible now cfg st) rest)
    with (List.find (eligible now cfg st) (take k rest ++ drop k rest)) by (by rewrite take_drop).
  rewrite find_app.
  pose proof (scan_window_decides now wall cfg secrets st (take k rest) scanned Hr Hs) as Hw.
  specialize (Hw ltac:(intros j raw Hj; apply lookup_take_Some in Hj as [Hj _];
    unfold rest in Hj; by rewrite lookup_drop in Hj) Hcap).
  assert (llen (take k rest) = Z.of_nat k) as Hlen by (unfold llen; rewrite length_take; lia).
  destruct (take k rest) as [|x items] eqn:Et; [unfold llen in Hlen; simpl in Hlen; lia|].
  destruct Hw as [(st' & m & -> & -> & Ho)|[(st' & j & -> & Hj & Hr' & Hd)|[-> ->]]].
  - simpl. eauto.
  - rewrite <- find_app, <- Et, take_drop. pose proof Hd as [Eq Ep Ef (raw & Hraw & Hinv)].
    destruct (IH st' scanned) as [-> Ho]; [done..|by rewrite Ep| |].
    { rewrite Eq, length_delete by (by eexists). unfold rest in Hk. rewrite length_drop in Hk. lia. }
    split; [|exact Ho]. rewrite Eq. unfold rest.
    rewrite (find_ext (eligible now cfg st') (eligible now cfg st)) by (intros y; by apply eligible_same).
    apply (find_delete _ _ _ _ raw); [done..|]. unfold eligible. by rewrite Hinv.
  - rewrite Hlen. destruct (IH st (scanned + Z.of_nat k)) as [-> Ho]; [done|lia|done|lia|].
    split; [|exact Ho]. unfold rest. rewrite drop_drop. f_equal. f_equal. lia.
Qed.

Lemma capacity_reached cfg n :
  match lc_max_processing_runs cfg with Some m => (0 <? m) && (m <=? n) | None => false end
  = reached (default 0 (lc_max_processing_runs cfg)) n.
Proof. unfold reached. by destruct (lc_max_processing_runs cfg). Qed.

Lemma lease_run_spec now wall cfg secrets st :
  lease_ready lua_round now st →
  let out := lease_run_with_quota keys now wall cfg secrets st in
  (qm_raw <$> out.2
   = if 0 <? lc_scan_limit cfg then List.find (eligible now cfg st) (st_queued st) else None) ∧
  match out.2 with Some m => ∃ st1, lease_outcome now cfg secrets st1 out.1 m | None => True end.
Proof.
  intros Hr. unfold lease_run_with_quota. rewrite capacity_reached.
  destruct (reached _ _) eqn:Hcap.
  - split; [|done]. simpl. case_match; [|done]. symmetry. destruct (List.find _ _) as [x|] eqn:E; [|done].
    apply List.find_some in E as [_ E]. unfold eligible in E.
    destruct (validate_payload x); [|done]. by rewrite Hcap, andb_false_r in E.
  - destruct (0 <? lc_scan_limit cfg) eqn:Hlim; to_prop.
    2:{ by rewrite (proj2 (Z.leb_le _ _) Hlim). }
    rewrite (proj2 (Z.leb_gt _ _) Hlim). destruct (llen (st_queued st) <=? 0) eqn:E; to_prop.
    + split; [|done]. unfold llen in E. by destruct (st_queued st).
    + apply (lease_scan_finds now wall cfg secrets st _ 0); done || lia.
Qed.

(** C14.  Leasing is first-in first-out among the runs that may start: [lease_run]
    returns the oldest queued message whose run is not fenced and whose tenant and
    user are below their limits, and nothing exactly when there is none, however
    large the queue, however small the scan window and however many texts that are
    not messages it drops on its way; with a window of zero or less it returns
    nothing.  The queue is one whose texts have distinct digests and do not begin
    with the mark of the scripts' placeholders, and whose messages have a readable
    number of deliveries below 10^14, on a server whose clock is past its origin
    ([lease_ready]). *)
Theorem lease_takes_oldest_eligible now wall cfg secrets st :
  lease_ready lua_round now st →
  qm_raw <$> (lease_run_with_quota keys now wall cfg secrets st).2
  = if 0 <? lc_scan_limit cfg then List.find (eligible now cfg st) (st_queued st) else None.
Proof.
  intros Hr. pose proof (lease_run_spec now wall cfg secrets st Hr) as [Hfound _]. exact Hfound.
Qed.

(** ** A lease in use *)

Lemma stamped_same now t0 raw o st st' :
  st_processing_meta st' !! message_id_for_raw raw = st_processing_meta st !! message_id_for_raw raw →
  raw ∈ st_processing st' → lease_stamped now t0 raw o st → lease_stamped now t0 raw o st'.
Proof. intros E Hin (m & kvs & Hm & Hrest). exists m, kvs. rewrite E. naive_solver. Qed.

(** Its owner token is the one the scripts compare. *)
Lemma stamped_owner now t0 raw o st m t :
  lease_stamped now t0 raw o st → st_processing_meta st !! message_id_for_raw raw = Some m →
  decode_table m = Some t → lease_owner_token t = o.
Proof.
  intros (m' & kvs & Hm & Hd & Hv & Ho & _) Hm' Ht. simplify_eq.
  by eapply lease_meta_owner; [exists kvs|].
Qed.

Lemma normalize_other now mid a o hash k :
  k ≠ mid → normalize_future now mid a o hash !! k = hash !! k.
Proof.
  intros Hne. unfold normalize_future. repeat case_match; try done. by rewrite lookup_insert_ne.
Qed.

(** Stamps that are not in the future are not normalized. *)
Lemma normalize_stamped now now' t0 raw a o o' st :
  now ≤ now' → t0 ≤ now' → lease_stamped now t0 raw o st →
  normalize_future (LFin now') (message_id_for_raw raw) a o' (st_processing_meta st)
    !! message_id_for_raw raw = st_processing_meta st !! message_id_for_raw raw.
Proof.
  intros Hn Ht (m & kvs & Hm & Hd & _ & _ & Hh & Hl & _). unfold normalize_future. rewrite Hm, Hd.
  case_match; [|done]. unfold clamp_future at 1. simpl. rewrite Hh. simpl.
  rewrite (proj2 (Z.ltb_ge now' t0)) by lia. unfold clamp_future. simpl.
  destruct (tonumber (assoc "leased_at" kvs)) as [[x|[]|]|] eqn:El; try done; specialize (Hl _ eq_refl);
    simpl in Hl; [|done]. to_prop. by rewrite (proj2 (Z.ltb_ge now' x)) by lia.
Qed.

(** The gate of reclaiming keeps an active lease, whatever attempt it is told. *)
Lemma gate_stamped now now' t0 raw fk mid a o o' v st :
  now ≤ now' → t0 ≤ now' → (mid = message_id_for_raw raw → now' - t0 ≤ v * 1000000) →
  lease_stamped now t0 raw o st →
  match expired_lease_gate now' fk mid a o' (Some (lint v)) st with
  | inl (st', _) => lease_stamped now t0 raw o st'
  | inr st' => lease_stamped now t0 raw o st' ∧ mid ≠ message_id_for_raw raw
  end.
Proof.
  intros Hn Ht Hv Hs.
  assert (lease_stamped now t0 raw o
    (set_retry_meta (normalize_future (LFin now') mid a o')
      (set_processing_meta (normalize_future (LFin now') mid a o') st))) as Hnorm.
  { pose proof Hs as (m & kvs & _ & _ & _ & _ & _ & _ & Hin). eapply stamped_same; [|exact Hin|exact Hs].
    simpl. destruct (decide (message_id_for_raw raw = mid)) as [<-|Hne];
      [by apply (normalize_stamped now now' t0 raw a o o') | by apply normalize_other]. }
  unfold expired_lease_gate. destruct (fence_exists st now' fk); [done|].
  destruct (current_lease st mid) as [lease|] eqn:El; [|done]. destruct (negb (lease_matches _ _ _ _)); [done|].
  destruct (lnum_ltb (lint v) (lint 1)); [done|].
  destruct (tonumber _) as [act|] eqn:Ea; [|done]. destruct (negb (lnum_finite act)); [done|].
  destruct (lnum_ltb (LFin now') act) eqn:Ef; [done|].
  destruct (lnum_leb (lnum_sub (LFin now') act) (lint v)) eqn:Eage; [done|]. split; [done|].
  intros ->. destruct Hs as (m & kvs & Hm & Hd & _ & _ & Hh & _). unfold current_lease in El.
  rewrite Hm, Hd in El. simplify_eq. simpl in Ea. rewrite Hh in Ea. simpl in Ea. simplify_eq.
  unfold lnum_leb in Eage. simpl in Eage. to_prop. specialize (Hv eq_refl). lia.
Qed.

Lemma elem_lrem1_other raw x st :
  message_id_for_raw x ≠ message_id_for_raw raw → raw ∈ st_processing st → raw ∈ lrem1 x (st_processing st).
Proof.
  intros Hne Hin. destruct (decide (x ∈ st_processing st)) as [Hx|Hx]; [|by rewrite lrem1_notin].
  rewrite (lrem1_Permutation x _ Hx) in Hin. apply elem_of_cons in Hin as [->|?]; done.
Qed.

Lemma requeue_stamped now now' t0 raw o wall x p rm a o' v st :
  now ≤ now' → t0 ≤ now' → now' - t0 ≤ v * 1000000 → lease_stamped now t0 raw o st →
  lease_stamped now t0 raw o (requeue_run_with_fence keys now' wall x p rm a o' v st).1.
Proof.
  intros Hn Ht Hv Hs. unfold requeue_run_with_fence, requeue_script.
  pose proof (gate_stamped now now' t0 raw (reconciliation_fence_key keys (pl_tenant_id p) (pl_run_id p))
    (message_id_for_raw x) a o o' v st Hn Ht (fun _ => Hv) Hs) as Hg.
  destruct (expired_lease_gate _ _ _ _ _ _ _) as [[st' r]|st']; [done|]. destruct Hg as [Hg Hne].
  pose proof Hg as (m & kvs & _ & _ & _ & _ & _ & _ & Hin).
  pose proof (elem_lrem1_other raw x st' Hne Hin).
  repeat case_match; simplify_eq; simpl; try done; (eapply stamped_same; [|done|exact Hg]); simpl; try done.
  all: by rewrite lookup_delete_ne.
Qed.

Lemma expired_stamped now now' t0 raw o fk x j b a o' v st :
  now ≤ now' → t0 ≤ now' → now' - t0 ≤ v * 1000000 → lease_stamped now t0 raw o st →
  lease_stamped now t0 raw o
    (dead_letter_expired_script now' fk x (message_id_for_raw x) j b a o' (Some (lint v)) st).1.
Proof.
  intros Hn Ht Hv Hs. unfold dead_letter_expired_script.
  pose proof (gate_stamped now now' t0 raw fk (message_id_for_raw x) a o o' v st Hn Ht (fun _ => Hv) Hs) as Hg.
  destruct (expired_lease_gate _ _ _ _ _ _ _) as [[st' r]|st']; [done|]. destruct Hg as [Hg Hne].
  pose proof Hg as (m & kvs & _ & _ & _ & _ & _ & _ & Hin).
  pose proof (elem_lrem1_other raw x st' Hne Hin).
  eapply stamped_same; [|by destruct b|exact Hg]. destruct b; simpl; [by rewrite lookup_delete_ne|done].
Qed.

(** Another owner's handle does not open the gate of the message. *)
Lemma owned_gate_stamped U now t0 raw o fk x mid a o' fp w now' st t :
  queue_inv U st → lease_stamped now t0 raw o st → o' ≠ o →
  owned_lease_gate now' fk x mid a o' fp w st = inr t →
  message_id_for_raw x = mid ∧ mid ≠ message_id_for_raw raw.
Proof.
  intros Hinv Hs Hne Hg. split; [eapply owned_gate_message, Hg; apply Hinv|]. intros ->. revert Hg.
  unfold owned_lease_gate. destruct (st_processing_meta st !! message_id_for_raw raw) as [m|] eqn:E; [|done].
  simpl. destruct (decode_table m) as [t'|] eqn:Ed; [|done]. unfold lease_matches.
  rewrite (stamped_owner _ _ _ _ _ _ _ Hs E Ed).
  by rewrite (proj2 (String.eqb_neq o o')), andb_false_r by congruence.
Qed.

Lemma ack_stamped U now t0 raw o now' x h st :
  queue_inv U st → (∀ mid a, parse_lease_handle h ≠ Some (mid, a, o)) → lease_stamped now t0 raw o st →
  lease_stamped now t0 raw o (ack_run keys now' x h st).1.
Proof.
  intros Hinv Hh Hs. unfold ack_run. destruct (parse_lease_handle h) as [[[mid a] o']|]; [|done].
  destruct (lease_fence_key keys x) as [fk|]; [|done]. unfold ack_script.
  destruct (owned_lease_gate _ _ _ _ _ _ _ _ _) as [r|t] eqn:E; [done|].
  eapply owned_gate_stamped in E as [<- Hne]; [|done..|intros ->; by apply (Hh mid a)].
  pose proof Hs as (m & kvs & _ & _ & _ & _ & _ & _ & Hin).
  eapply stamped_same; [|by apply elem_lrem1_other|exact Hs]. simpl. by rewrite lookup_delete_ne.
Qed.

Lemma fail_stamped U now t0 raw o now' fk x mid a o' j fp st :
  queue_inv U st → o' ≠ o → lease_stamped now t0 raw o st →
  lease_stamped now t0 raw o (fail_script now' fk x mid a o' j fp st).1.
Proof.
  intros Hinv Hne Hs. unfold fail_script.
  destruct (owned_lease_gate _ _ _ _ _ _ _ _ _) as [r|t] eqn:E; [done|].
  eapply owned_gate_stamped in E as [<- Hne']; [|done..]. case_match; [|done].
  pose proof Hs as (m & kvs & _ & _ & _ & _ & _ & _ & Hin).
  eapply stamped_same; [|by apply elem_lrem1_other|exact Hs]. simpl. by rewrite lookup_delete_ne.
Qed.

Lemma heartbeat_stamped now t0 raw o now' mid a o' w fp st :
  o' ≠ o → lease_stamped now t0 raw o st →
  lease_stamped now t0 raw o (heartbeat_script now' mid a o' w fp st).1.
Proof.
  intros Hne Hs. pose proof (heartbeat_lists now' mid a o' w fp st) as (_ & Hp & _).
  eapply stamped_same; [|rewrite Hp; by destruct Hs as (m & kvs & _ & _ & _ & _ & _ & _ & Hin)|exact Hs].
  unfold heartbeat_script. destruct (decide (mid = message_id_for_raw raw)) as [->|Hmid].
  - destruct (st_processing_meta st !! message_id_for_raw raw) as [m|] eqn:E; [|done].
    destruct (decode_table m) as [t|] eqn:Ed; [|done]. unfold worker_lease_matches, lease_matches.
    rewrite (stamped_owner _ _ _ _ _ _ _ Hs E Ed).
    by rewrite (proj2 (String.eqb_neq o o')), andb_false_r by congruence.
  - repeat case_match; simpl; try done; by rewrite lookup_insert_ne.
Qed.

Lemma lease_stamped_lease U now t0 raw o now' w m tl ul x p i a o' st :
  plain_messages U → queue_inv U st → lease_stamped now t0 raw o st →
  lease_stamped now t0 raw o (lease_call keys now' w m tl ul x p i a o' st).1.
Proof.
  intros HU Hinv Hs. unfold lease_call, lease_script.
  repeat case_match; simpl; try done. to_prop. unfold lindex in *.
  pose proof Hs as (m0 & kvs & _ & _ & _ & _ & _ & _ & Hin).
  assert (message_id_for_raw x ≠ message_id_for_raw raw) as Hne.
  { assert (x ∈ st_queued st) as Hx by by eapply list_elem_of_lookup_2. intros E.
    pose proof (qi_nodup _ _ Hinv) as (_ & Hdis & _)%NoDup_app. apply (Hdis x Hx).
    rewrite (pm_digest _ HU x raw); [done|apply (qi_valid _ _ Hinv); set_solver..|done]. }
  eapply stamped_same; [| |exact Hs]; simpl; autorewrite with store; simpl; [by rewrite lookup_insert_ne|].
  by right.
Qed.

Lemma before_expiry_step U now t0 raw o st step :
  plain_messages U → queue_inv U st → before_expiry now t0 o step → lease_stamped now t0 raw o st →
  lease_stamped now t0 raw o (run_qop keys step.1 step.2 st).
Proof.
  intros HU Hinv (Hn & Ht & Hop) Hs. destruct step as [now' op]. simpl in *.
  pose proof Hs as (m0 & kvs & _ & _ & _ & _ & _ & _ & Hin).
  assert (meta_same : ∀ st', st_processing_meta st' = st_processing_meta st →
    st_processing st' = st_processing st → lease_stamped now t0 raw o st').
  { intros st' E1 E2. eapply stamped_same; [by rewrite E1|by rewrite E2|exact Hs]. }
  destruct op; simpl in *; try (case_match; [|done]); auto using requeue_stamped, expired_stamped.
  - apply meta_same; unfold enqueue_call, enqueue_script; by repeat case_match.
  - apply meta_same; unfold remove_queued_script; (case_match; [|done]);
      set (ids := match decode_table _ with Some _ => _ | None => _ end);
      [pose proof (remove_all_meta tenant_id run_id ids (st, 0, 0)) as Hx
      |pose proof (remove_all_lists tenant_id run_id ids (st, 0, 0)) as (_ & Hx & _)];
      destruct (fold_left _ ids _) as [[st' n] k]; by case_match.
  - by eapply lease_stamped_lease.
  - case_match; [done|]. apply meta_same; unfold dead_letter_invalid_script;
      repeat case_match; simpl; by autorewrite with store.
  - apply meta_same; unfold acquire_run_reconciliation_fence, acquire_fence_script, fence_set;
      by repeat case_match; simplify_eq.
  - apply meta_same; unfold release_run_reconciliation_fence, release_fence_script;
      by repeat case_match; simplify_eq.
  - apply meta_same; unfold renew_run_reconciliation_fence, renew_fence_script, fence_set;
      by repeat case_match; simplify_eq.
  - unfold heartbeat_run. destruct (parse_lease_handle _) as [[[mid a] o']|] eqn:E; [|done].
    match goal with |- context [heartbeat_script ?x1 ?x2 ?x3 ?x4 ?x5 ?x6 ?x7] =>
      pose proof (heartbeat_stamped now t0 raw o x1 x2 x3 x4 x5 x6 x7);
      destruct (heartbeat_script x1 x2 x3 x4 x5 x6 x7) end.
    simpl in *. naive_solver.
  - by eapply ack_stamped.
  - destruct p as [[mid a] o']. case_match; [|done]. eapply fail_stamped; [done| |done]. naive_solver.
  - apply meta_same; [apply prune_processing_meta | apply prune_lists].
  - apply meta_same; [apply as_processing_meta | apply as_processing]; auto.
  - apply meta_same; [apply as_processing_meta | apply as_processing]; auto.
  - apply meta_same; [apply as_processing_meta | apply as_processing]; auto.
Qed.

(** ** Getting a lease *)

Lemma lease_metadata_decodes raw mid w t u r a o now n tp up tl ul : ∃ kvs,
  decode_table (cjson_encode (lease_metadata raw mid w t u r a o now n tp up tl ul)) = Some (LObj kvs) ∧
  ∀ k, assoc k kvs = lval_round lua_round <$>
         (tfield k (lease_metadata raw mid w t u r a o now n tp up tl ul)).
Proof. apply decode_encoded_obj. Qed.

Lemma leased_stamped now t0 raw o w m tl ul p i a st st' r :
  lua_round (LFin now) = LFin t0 → lease_call keys now w m tl ul raw p i a o st = (st', r) →
  rp_status r = "leased" → lease_stamped (Z.max now t0) t0 raw o st'.
Proof.
  intros Hround. unfold lease_call, lease_script. intros E Hst.
  repeat case_match; simplify_eq; simpl in Hst; try done.
  match goal with |- context [cjson_encode (lease_metadata ?x1 ?x2 ?x3 ?x4 ?x5 ?x6 ?x7 ?x8 ?x9 ?y1 ?y2 ?y3 ?y4 ?y5)] =>
    destruct (lease_metadata_decodes x1 x2 x3 x4 x5 x6 x7 x8 x9 y1 y2 y3 y4 y5) as (kvs & Hd & Hf) end.
  eexists _, kvs. simpl. autorewrite with store. simpl. rewrite lookup_insert_eq.
  split; [done|]. split; [exact Hd|]. rewrite !Hf. simpl. rewrite lua_round_int, Hround by done.
  repeat (split; [done|]). split; [|by left]. intros l [= <-]. simpl. apply Z.ltb_ge. lia.
Qed.

(** A timestamp the heartbeat script lets pass is not after its clock. *)
Lemma timestamp_past now v t :
  timestamp_is_future (LFin now) v = Some false → tonumber v = Some t → lnum_leb t (LFin now) = true.
Proof.
  unfold timestamp_is_future. destruct v as [v|]; [|done]. intros Hf Ht. rewrite Ht in Hf.
  destruct v as [|[]| | | |]; try done; destruct t as [x|[]|]; simpl in *; try done; simplify_eq.
  all: to_prop; unfold lnum_leb; simpl; apply orb_true_iff; rewrite Z.ltb_lt, Z.eqb_eq; lia.
Qed.

Lemma all_flags_false flags l : all_flags flags = Some l → existsb id l = false →
  ∀ f, f ∈ flags → f = Some false.
Proof.
  revert l. induction flags as [|[b|] flags IH]; intros l; simpl; [by intros _ _ f ?%elem_of_nil| |done].
  destruct (all_flags flags) as [l'|]; [|done]. intros [= <-]. simpl. intros Hl f. to_prop.
  rewrite elem_of_cons. intros [->|Hf]; [by rewrite H2|by eapply IH].
Qed.

Lemma heartbeat_makes_stamped now t0 raw o a w fp st st' r :
  lua_round (LFin now) = LFin t0 → leases_issued st → raw ∈ st_processing st →
  heartbeat_script now (message_id_for_raw raw) a o w fp st = (st', r) → rp_status r = "heartbeat" →
  lease_stamped (Z.max now t0) t0 raw o st'.
Proof.
  intros Hround Hl Hin. unfold heartbeat_script.
  destruct (st_processing_meta st !! message_id_for_raw raw) as [m|] eqn:Em; [|intros; by simplify_eq].
  destruct (Hl _ m Em) as [tok Htok]. pose proof Htok as (kvs & Hd & Hv & Ho). rewrite Hd.
  unfold worker_lease_matches, lease_matches. rewrite (lease_meta_owner tok m _ Htok Hd).
  destruct (negb _) eqn:Hm; [intros; by simplify_eq|]. to_prop. subst tok.
  destruct (match st_retry_meta st !! message_id_for_raw raw with Some _ => _ | None => _ end) as [retry|r'] eqn:Er.
  2:{ intros. simplify_eq. repeat case_match; by simplify_eq. }
  destruct (fence_exists _ _ _); [intros; by simplify_eq|].
  destruct (all_flags _) as [flags|] eqn:Ef; [|intros; by simplify_eq].
  destruct (existsb id flags) eqn:Ex; [intros; by simplify_eq|]. intros E Hst. simplify_eq.
  assert (timestamp_is_future (LFin now) (assoc "leased_at" kvs) = Some false) as Hpast.
  { eapply (all_flags_false _ _ Ef Ex). apply elem_of_app. left. by apply list_elem_of_singleton. }
  destruct (decode_encoded_obj (assoc_set "heartbeat_at" (LNum (LFin now)) kvs)) as (kvs' & Hd' & Hf).
  eexists _, kvs'. simpl. rewrite lookup_insert_eq. split; [done|]. split; [exact Hd'|].
  rewrite !Hf, assoc_set_eq, !assoc_set_ne, Hv, Ho by done. simpl. rewrite lua_round_int, Hround by done.
  repeat (split; [done|]). split; [|done]. intros l Hlt.
  destruct (assoc "leased_at" kvs) as [[| |x|s| |]|]; try done.
  - injection Hlt as <-. pose proof (timestamp_past now (Some (LNum x)) x Hpast eq_refl) as Hle.
    apply lua_round_mono in Hle. rewrite Hround in Hle.
    destruct (lua_round x) as [y|[]|]; simpl in *; try done. unfold lnum_leb in Hle. simpl in Hle.
    apply orb_true_iff in Hle. rewrite Z.ltb_lt, Z.eqb_eq in Hle. apply Z.ltb_ge. lia.
  - pose proof (timestamp_past now (Some (LStr s)) l Hpast Hlt) as Hle.
    destruct l as [y|[]|]; simpl in *; try done. unfold lnum_leb in Hle. simpl in Hle.
    apply orb_true_iff in Hle. rewrite Z.ltb_lt, Z.eqb_eq in Hle. apply Z.ltb_ge. lia.
Qed.

(** The metadata of a fresh lease opens every gate of its owner. *)
Lemma leased_gate now now' w m tl ul raw p i a o st st' r worker :
  validate_payload raw = Some p → lease_call keys now w m tl ul raw p i a o st = (st', r) →
  rp_status r = "leased" → worker = None ∨ worker = Some w →
  let fk := reconciliation_fence_key keys (pl_tenant_id p) (pl_run_id p) in
  fence_exists st' now' fk = false →
  ∃ t, owned_lease_gate now' fk raw (message_id_for_raw raw) a o
         (key_reconciliation_fence_prefix keys) worker st' = inr t.
Proof.
  intros Hv E Hst Hw fk Hnf. unfold lease_call, lease_script in E.
  repeat case_match; simplify_eq; simpl in Hst; try done.
  match goal with |- context [cjson_encode (lease_metadata ?x1 ?x2 ?x3 ?x4 ?x5 ?x6 ?x7 ?x8 ?x9 ?y1 ?y2 ?y3 ?y4 ?y5)] =>
    destruct (lease_metadata_decodes x1 x2 x3 x4 x5 x6 x7 x8 x9 y1 y2 y3 y4 y5) as (kvs & Hd & Hf) end.
  exists (LObj kvs). unfold owned_lease_gate. rewrite Hnf. simpl. autorewrite with store. simpl.
  rewrite lookup_insert_eq. simpl. rewrite Hd.
  unfold lease_matches, lease_owner_token, metadata_fence_key, tstr. simpl. rewrite !Hf. simpl.
  rewrite lua_round_int by done. simpl. unfold fk, reconciliation_fence_key.
  destruct Hw as [-> | ->]; by rewrite ?String.eqb_refl.
Qed.

(** The lease a worker receives is good: the message [lease_run] returns is at
    once verified as current for that worker, and its owner can acknowledge it,
    which takes it out of processing, as long as no reconciler has fenced the run. *)
Lemma fresh_lease_is_current now now' wall cfg secrets st st' msg :
  lease_ready lua_round now st →
  (∀ i, is_prefixed_hex64 "qat_" (secrets i).1 = true ∧ is_prefixed_hex64 "qown_" (secrets i).2 = true) →
  lease_run_with_quota keys now wall cfg secrets st = (st', Some msg) →
  (∀ key, lease_fence_key keys (qm_raw msg) = Some key → fence_exists st' now' key = false) →
  verify_lease_ownership keys now' msg (lc_worker_id cfg) st' = "current" ∧
  (ack_run keys now' (qm_raw msg) (qm_message_id msg) st').2 = "acked" ∧
  st_processing (ack_run keys now' (qm_raw msg) (qm_message_id msg) st').1
  = lrem1 (qm_raw msg) (st_processing st').
Proof.
  intros Hr Hsec E Hnf. pose proof (lease_run_spec now wall cfg secrets st Hr) as [_ Ho].
  rewrite E in Ho. simpl in Ho. destruct Ho as (st1 & p & i & r & Hv & Hs & Hcall & Hst & Hid & Hh).
  destruct (Hsec i) as [Ha Hown]. rewrite Hs in Ha, Hown. simpl in Ha, Hown.
  assert (parse_lease_handle (qm_message_id msg)
    = Some (qm_queue_message_id msg, qm_attempt_id msg, qm_owner_token msg)) as Hparse.
  { rewrite Hh. apply parse_print_handle. split; [rewrite Hid; apply message_id_hex|done]. }
  unfold lease_fence_key in Hnf. rewrite Hv in Hnf. specialize (Hnf _ eq_refl).
  unfold verify_lease_ownership, ack_run, lease_fence_key. rewrite Hparse, bool_decide_true, Hv by done.
  simpl. unfold verify_script, ack_script. rewrite Hid.
  destruct (leased_gate _ now' _ _ _ _ _ _ _ _ _ _ _ _ (Some (lc_worker_id cfg)) Hv Hcall Hst (or_intror eq_refl) Hnf) as [t ->].
  destruct (leased_gate _ now' _ _ _ _ _ _ _ _ _ _ _ _ None Hv Hcall Hst (or_introl eq_refl) Hnf) as [t' ->].
  simpl. by rewrite !outcome_wire.
Qed.

(** C10.  A worker keeps the lease it uses: from the moment a worker leases a message
    or renews its lease, until the visibility timeout has passed since that stamp,
    no sequence of operations by other clients, reclaimers included, takes the
    message out of processing or hands its lease to anyone else.  ([t0] is the
    stamp as the metadata keeps it, in microseconds.)  As for the single copy, this is
    for messages of distinct digests, tenant names without a colon and functions of
    several commands that are not interrupted: otherwise a second copy of the message
    can be queued, and leasing it replaces the lease
    ([second_copy_takes_the_lease]). *)
Theorem active_lease_survives U tr0 now t0 raw o st' tr :
  plain_messages U → Forall (fun step => plain_op U step.2) (tr0 ++ tr) → U raw →
  lua_round (LFin now) = LFin t0 →
  obtained now raw o (run_trace keys tr0 empty_store) st' →
  Forall (before_expiry now t0 o) tr →
  raw ∈ st_processing (run_trace keys tr st') ∧
  ∃ m, st_processing_meta (run_trace keys tr st') !! message_id_for_raw raw = Some m ∧ lease_meta o m.
Proof.
  intros HU [Htr0 Htr]%Forall_app HUr Hround Hob Hexp.
  pose proof (inv_run_trace keys U tr0 empty_store HU Htr0 (inv_empty U)) as Hinv0.
  assert (lease_stamped (Z.max now t0) t0 raw o st' ∧ queue_inv U st') as [Hs Hinv].
  { destruct Hob as [w m tl ul p i a r Hv Hcall Hst|handle a w at' Hh Hin Hcall].
    - split; [by eapply leased_stamped|]. pose proof (inv_lease keys U now w m tl ul raw p i a o _ HU Hv Hinv0) as Hx.
      by rewrite Hcall in Hx.
    - revert Hcall. unfold heartbeat_run. rewrite Hh.
      pose proof (inv_heartbeat U now (message_id_for_raw raw) a o w (key_reconciliation_fence_prefix keys) _ Hinv0) as Hx.
      destruct (heartbeat_script _ _ _ _ _ _ _) as [s r] eqn:Es. simpl in Hx. intros E.
      assert (s = st' ∧ outcome_status r = "heartbeat") as [-> Hst].
      { injection E as -> E. split; [done|]. destruct (String.eqb_spec (outcome_status r) "heartbeat"); [done|].
        repeat case_match; simplify_eq. }
      split; [|done]. eapply heartbeat_makes_stamped; [done| |done|exact Es|].
      + by eapply leases_issued_trace; [apply laws|intros k m].
      + destruct (decide (rp_status r = "")) as [E'|Hne]; [|by rewrite outcome_wire in Hst].
        revert Es E'. unfold heartbeat_script. intros Es E'. repeat case_match; by simplify_eq. }
  clear Hob Hinv0. revert st' Hs Hinv. induction Hexp as [|step tr Hstep Hexp IH]; intros st Hs Hinv.
  - destruct Hs as (m & kvs & Hm & Hd & Hv & Ho & _ & _ & Hin). split; [done|]. exists m. split; [done|]. by exists kvs.
  - apply Forall_cons in Htr as [Hop Htr]. simpl. destruct step as [now' op]. apply IH; [done| |by eapply inv_run_qop].
    apply (before_expiry_step U (Z.max now t0) t0 raw o st (now', op)); try done.
    destruct Hstep as (? & ? & ?). split; [simpl in *; lia|done].
Qed.

End Lease.

(** Three runs of two users, one of them leased, under one run per user, and a text
    that is not a message at the head of the queue. *)
Definition lease_setup : store :=
  set_queued (cons "junk") (run_trace toy_keys
    [(1000000, QEnqueue (lint 1) (toy_raw "t" "u" "r1")); (2000000, QEnqueue (lint 2) (toy_raw "t" "u" "r2"));
     (3000000, QEnqueue (lint 3) (toy_raw "t" "v" "r3"));
     (4000000, QLease "w" 3 2 1 (toy_raw "t" "u" "r1") 0 (toy_attempt 1) (toy_owner 1))] empty_store).
Definition lease_cfg : lease_config := LeaseConfig "w" (Some 3) 2 1 1 10.
Definition lease_keys_of (i : Z) : string * string := (toy_attempt (i + 2), toy_owner (i + 2)).

Lemma lease_setup_ready : lease_ready id 5000000 lease_setup.
Proof.
  assert (st_queued lease_setup = ["junk"; toy_raw "t" "u" "r2"; toy_raw "t" "v" "r3"]) as E
    by (vm_compute; reflexivity).
  split; [intros a b Ha Hb|intros s Hs|intros raw Hin|reflexivity]; rewrite E, !elem_of_cons, elem_of_nil in *.
  - destruct Ha as [->|[->|[->|[]]]], Hb as [->|[->|[->|[]]]]; try (intros _; reflexivity).
    all: intros Hx; exfalso; vm_compute in Hx; discriminate Hx.
  - destruct Hs as [Hs|[Hs|[Hs|[]]]]; vm_compute in Hs; discriminate Hs.
  - destruct Hin as [->|[->|[->|[]]]]; intros [p Hp].
    1: by vm_compute in Hp.
    all: exists 1; split; [vm_compute; reflexivity | lia].
Defined.

Lemma lease_takes_oldest_eligible_witness :
  List.find (eligible toy_keys 5000000 lease_cfg lease_setup) (st_queued lease_setup)
  = Some (toy_raw "t" "v" "r3") ∧
  qm_raw <$> (lease_run_with_quota toy_keys 5000000 (lint 5) lease_cfg lease_keys_of lease_setup).2
  = if 0 <? lc_scan_limit lease_cfg
    then List.find (eligible toy_keys 5000000 lease_cfg lease_setup) (st_queued lease_setup) else None.
Proof.
  split; [vm_compute; reflexivity|].
  exact (lease_takes_oldest_eligible toy_keys 5000000 (lint 5) lease_cfg lease_keys_of lease_setup
           lease_setup_ready).
Defined.

Definition lease_msg : QueueMessage :=
  {| qm_raw := toy_raw "t" "v" "r3"; qm_message_id := toy_handle (toy_raw "t" "v" "r3") 3;
     qm_queue_message_id := toy_digest (toy_raw "t" "v" "r3"); qm_attempt_id := toy_attempt 3;
     qm_owner_token := toy_owner 3; qm_leased_at := LFin 5000000; qm_delivery_attempt := 1 |}.
Definition lease_after : store :=
  (lease_run_with_quota toy_keys 5000000 (lint 5) lease_cfg lease_keys_of lease_setup).1.

Lemma prefixed_digits p n : is_prefixed_hex64 p (p +:+ hex_digits 64 n) = true.
Proof.
  unfold is_prefixed_hex64. assert (∀ s, strip_prefix p (p +:+ s) = Some s) as ->.
  { intros s. induction p as [|c p IH]; [done|]. simpl. by rewrite Ascii.eqb_refl. }
  unfold is_hex64. destruct (hex_digits_hex 64 n) as [-> ->]. done.
Qed.


(** Before the lease of 2 s expires, a reclaimer tries to requeue and to dead-letter
    it, another worker tries to acknowledge it and the run is admitted again. *)
Definition active_trace : list (Z * qop) :=
  [(6000000, QRequeue (lint 6) (toy_raw "t" "u" "r1") [] (toy_attempt 1) (toy_owner 1) 10);
   (7000000, QDeadLetterExpired (lint 7) (toy_raw "t" "u" "r1") "code" "message" 3 (PStr "w") true
               (toy_attempt 1) (toy_owner 1) 10);
   (8000000, QAck (toy_raw "t" "u" "r1") (toy_handle (toy_raw "t" "u" "r1") 2));
   (9000000, QEnqueue (lint 9) (toy_raw "t" "u" "r1"))].
Definition active_before : list (Z * qop) := [(1000000, QEnqueue (lint 1) (toy_raw "t" "u" "r1"))].
Definition active_lease : store * reply :=
  lease_call toy_keys 2000000 "w" 0 0 0 (toy_raw "t" "u" "r1") (QueuePayload "t" "w" "u" "r1") 0
    (toy_attempt 1) (toy_owner 1) (run_trace toy_keys active_before empty_store).

Lemma active_lease_survives_witness :
  toy_raw "t" "u" "r1" ∈ st_processing (run_trace toy_keys active_trace active_lease.1) ∧
  ∃ m, st_processing_meta (run_trace toy_keys active_trace active_lease.1)
         !! message_id_for_raw (toy_raw "t" "u" "r1") = Some m ∧ lease_meta (toy_owner 1) m.
Proof.
  refine (active_lease_survives toy_keys (fun raw => raw = toy_raw "t" "u" "r1") active_before 2000000 2000000
    (toy_raw "t" "u" "r1") (toy_owner 1) active_lease.1 active_trace _ _ eq_refl eq_refl _ _).
  - split; [by intros a b -> ->|]. intros raw p ->. vm_compute. intros [= <-]. reflexivity.
  - repeat constructor.
  - eapply (by_lease toy_keys 2000000 _ _ _ _ "w" 0 0 0 (QueuePayload "t" "w" "u" "r1") 0 (toy_attempt 1)
      active_lease.2); vm_compute; reflexivity.
  - repeat constructor; vm_compute; discriminate.
Defined.

(** Without plain tenant names a message can be queued twice, and the lease of the
    second copy replaces that of the first, whose owner is then refused. *)
Lemma second_copy_takes_the_lease :
  let raw := toy_raw "a" "u" "b:c" in
  let st := run_trace toy_keys
    [(1000000, QEnqueue (lint 1) raw); (2000000, QRemoveQueued "a:b" "c"); (3000000, QEnqueue (lint 3) raw);
     (4000000, QLease "w" 0 0 0 raw 0 (toy_attempt 1) (toy_owner 1));
     (5000000, QLease "v" 0 0 0 raw 0 (toy_attempt 2) (toy_owner 2))] empty_store in
  (ack_run toy_keys 6000000 raw (toy_handle raw 1) st).2 = "stale_owner".
Proof. vm_compute. reflexivity. Qed.
