(* ===== verification/QueueInsight.v ===== *)
(** * Queue status and insight

    The read side of [src/app/queue.py]: the counts, capacity and lease states the
    platform shows to operators and users, and the reason it gives for a wait.
    The theorems tie what is shown to what the scripts do: the states partition the
    processing list, a quota is shown as full exactly when the lease script refuses
    for it, and a queue shown without reclaimable leases is one that reclaiming
    leaves alone. *)
From stdpp Require Import base gmap list strings sorting.
From Stdlib Require Import ZArith Lia Ascii.
From S2P Require Import Prelude Redis QueueScripts QueueFacts PyValue QueueClient QueueTrace.
From S2P Require Import QueueRuntime QueueFence QueueQuota QueueLease.

Record capacity_view := Capacity {
  cap_max_active_worker_runs : Z;
  cap_processing_saturated : bool;
  cap_available_worker_slots : option Z
}.

Record processing_view := ProcessingState {
  ps_active : Z;
  ps_stale : Z;
  ps_reclaimable : Z;
  ps_missing_metadata : Z
}.

Record user_view := UserState { us_queued : Z; us_processing : Z; us_processing_saturated : bool }.

Record throttling_view := Throttling {
  th_tenant_processing : Z;
  th_tenant_processing_limit : Z;
  th_tenant_processing_saturated : bool;
  th_user_processing_limit : Z;
  th_current_user : option user_view;
  th_users : gmap string user_view
}.

(** The settings the two reports read. *)
Record insight_settings := InsightSettings {
  is_worker_heartbeat_ttl : luanum;
  is_visibility_timeout : Z;
  is_insight_scan_limit : Z;
  is_max_active_worker_runs : Z;
  is_tenant_processing_limit : Z;
  is_user_processing_limit : Z;
  is_lease_scan_limit : Z
}.

Record insight_view := Insight {
  in_tenant_id : string;
  in_reason : string;
  in_queued : Z;
  in_processing : Z;
  in_dead_letter : Z;
  in_tenant_queued : Z;
  in_tenant_processing : Z;
  in_active_workers : Z;
  in_processing_state : processing_view;
  in_capacity : capacity_view;
  in_capacity_limits : Z * Z * Z;
  in_sample : Z * Z * bool;
  in_throttling : throttling_view
}.

Record status_view := Status {
  sv_depths : Z * Z * Z;
  sv_processing_state : processing_view;
  sv_keys : list string;
  sv_workers : list string
}.

(** The order of Python's [sorted] on distinct strings. *)
Definition str_le (a b : string) : Prop := str_ltb b a = false.
#[export] Instance str_le_dec a b : Decision (str_le a b) := decide (str_ltb b a = false).

(** [counts[k] = counts.get(k, 0) + 1]. *)
Definition bump `{Countable K} (k : K) (counts : gmap K Z) : gmap K Z :=
  <[k := default 0 (counts !! k) + 1]> counts.

Section Insight.
Context `{LuaRuntime} `{PyRuntime} `{QueuePayloads}.
Context (keys : QueueKeys).

(** [_queued_quota_counts]. *)
Definition queued_quota_counts (raw_items : list string) (tenant_id : string) : Z * gmap string Z :=
  fold_left
    (fun acc raw =>
       match validate_payload raw with
       | None => acc
       | Some p =>
           if negb (String.eqb (pl_tenant_id p) tenant_id) then acc
           else (acc.1 + 1, bump (pl_user_id p) acc.2)
       end)
    raw_items (0, ∅).

(** [_processing_quota_counts_from_raw_items]. *)
Definition processing_quota_counts (raw_items : list string)
    : gmap string Z * gmap (string * string) Z :=
  fold_left
    (fun acc raw =>
       match validate_payload raw with
       | None => acc
       | Some p => (bump (pl_tenant_id p) acc.1, bump (pl_tenant_id p, pl_user_id p) acc.2)
       end)
    raw_items (∅, ∅).

(** [_active_worker_heartbeats]. *)
Definition active_worker_heartbeats (worker_heartbeats : gmap string string) (now ttl : luanum)
    : gmap string string :=
  if lnum_leb ttl (lint 0) then worker_heartbeats else
  filter (fun kv => match float_of_str kv.2 with
                    | Some heartbeat_at => lnum_leb (lnum_sub now heartbeat_at) ttl
                    | None => false
                    end = true) worker_heartbeats.

(** [_prune_stale_worker_heartbeats], on the heartbeats read before. *)
Definition prune_stale_worker_heartbeats (worker_heartbeats : gmap string string) (now ttl : luanum)
    (st : store) : store * gmap string string :=
  let active := active_worker_heartbeats worker_heartbeats now ttl in
  let stale_worker_ids := merge_sort str_le (map_to_list (worker_heartbeats ∖ active)).*1 in
  match stale_worker_ids with
  | [] => (st, active)
  | _ => ((prune_script
             ((fun id => (id, default "" (worker_heartbeats !! id))) <$> stale_worker_ids) st).1, active)
  end.

(** [_capacity_snapshot]. *)
Definition capacity_snapshot (processing max_active_worker_runs : Z) : capacity_view :=
  if max_active_worker_runs <=? 0 then
    {| cap_max_active_worker_runs := max_active_worker_runs; cap_processing_saturated := false;
       cap_available_worker_slots := None |}
  else
    {| cap_max_active_worker_runs := max_active_worker_runs;
       cap_processing_saturated := max_active_worker_runs <=? processing;
       cap_available_worker_slots := Some (Z.max (max_active_worker_runs - processing) 0) |}.

(** One item of [_processing_state_snapshot]. *)
Definition processing_state_item (meta_items active_workers : gmap string string) (now : luanum)
    (visibility : Z) (tenant_id : option string) (raw : string) (acc : processing_view)
    : res processing_view :=
  let tenant_filter := match tenant_id with Some t => str_truthy t | None => false end in
  let tenant := default "" tenant_id in
  let payload_tenant_id :=
    if tenant_filter then default "" (pl_tenant_id <$> validate_payload raw) else "" in
  match meta_items !! message_id_for_raw raw with
  | None | Some "" =>
      if tenant_filter && negb (String.eqb payload_tenant_id tenant) then Ok acc else
      Ok {| ps_active := ps_active acc; ps_stale := ps_stale acc + 1;
            ps_reclaimable := ps_reclaimable acc + 1;
            ps_missing_metadata := ps_missing_metadata acc + 1 |}
  | Some raw_meta =>
      let meta : res (list (string * pyval)) :=
        match json_loads raw_meta with
        | Some (PDict d) => Ok d
        | Some _ => Raise "attribute_error"
        | None => Ok []
        end in
      res_bind meta (fun meta =>
      let meta_tenant_id := str_or_empty (get "tenant_id" meta) in
      if tenant_filter
         && negb (String.eqb (if str_truthy meta_tenant_id then meta_tenant_id else payload_tenant_id) tenant)
      then Ok acc else
      let worker_id := str_or_empty (get "worker_id" meta) in
      let heartbeat_at :=
        default (lint 0)
          (py_float (py_or (get "heartbeat_at" meta) (py_or (get "leased_at" meta) (PInt 0)))) in
      let lease_expired :=
        (0 <? visibility) && lnum_ltb (lint visibility) (lnum_sub now heartbeat_at) in
      let worker_active := str_truthy worker_id
                           && match active_workers !! worker_id with Some _ => true | None => false end in
      let stale := lease_expired || negb worker_active in
      Ok {| ps_active := ps_active acc + (if stale then 0 else 1);
            ps_stale := ps_stale acc + (if stale then 1 else 0);
            ps_reclaimable := ps_reclaimable acc + (if lease_expired then 1 else 0);
            ps_missing_metadata := ps_missing_metadata acc |})
  end.

(** [_processing_state_snapshot]. *)
Fixpoint processing_state_snapshot (meta_items active_workers : gmap string string) (now : luanum)
    (visibility : Z) (tenant_id : option string) (raw_items : list string) (acc : processing_view)
    : res processing_view :=
  match raw_items with
  | [] => Ok acc
  | raw :: rest =>
      res_bind (processing_state_item meta_items active_workers now visibility tenant_id raw acc)
        (processing_state_snapshot meta_items active_workers now visibility tenant_id rest)
  end.
Definition no_processing : processing_view := ProcessingState 0 0 0 0.

(** [_queue_throttling_snapshot]. *)
Definition user_state (tenant_id : string) (user_counts : gmap (string * string) Z)
    (user_queued_counts : gmap string Z) (user_limit : Z) (user : string) : user_view :=
  let processing := default 0 (user_counts !! (tenant_id, user)) in
  {| us_queued := default 0 (user_queued_counts !! user);
     us_processing := processing;
     us_processing_saturated := (0 <? user_limit) && (user_limit <=? processing) |}.

Definition queue_throttling_snapshot (tenant_id : string) (tenant_counts : gmap string Z)
    (user_counts : gmap (string * string) Z) (user_queued_counts : gmap string Z)
    (tenant_limit user_limit : Z) (user_id : option string) (include_user_breakdown : bool)
    : throttling_view :=
  let tenant_processing := default 0 (tenant_counts !! tenant_id) in
  let user_of := user_state tenant_id user_counts user_queued_counts user_limit in
  {| th_tenant_processing := tenant_processing;
     th_tenant_processing_limit := tenant_limit;
     th_tenant_processing_saturated := (0 <? tenant_limit) && (tenant_limit <=? tenant_processing);
     th_user_processing_limit := user_limit;
     th_current_user :=
       match user_id with
       | Some user => if str_truthy user then Some (user_of user) else None
       | None => None
       end;
     th_users :=
       if include_user_breakdown then
         let user_ids : gset string :=
           list_to_set (snd <$> List.filter (fun k => String.eqb k.1 tenant_id)
                                  (map_to_list user_counts).*1)
           ∪ dom user_queued_counts in
         set_to_map (fun user => (user, user_of user)) user_ids
       else ∅ |}.

(** [_queue_reason]. *)
Definition queue_reason (queued processing active_workers max_active_worker_runs : Z)
    (state : processing_view) : string :=
  if 0 <? ps_reclaimable state then "processing_lease_reclaimable" else
  if 0 <? ps_stale state then "processing_lease_stale" else
  if (queued <=? 0) && (processing <=? 0) then "worker_available" else
  if (0 <? max_active_worker_runs) && (max_active_worker_runs <=? processing)
  then "worker_capacity_full" else
  if processing <? active_workers then "worker_available" else
  if (0 <? active_workers) && (active_workers <=? processing) then "workers_busy" else
  "queued_behind_existing_work".

(** The reason [get_queue_insight] reports, after its quota checks. *)
Definition insight_reason (user_id : option string) (include_user_breakdown : bool)
    (tenant_queued : Z) (throttling : throttling_view) (reason : string) : string :=
  if (0 <? tenant_queued) && th_tenant_processing_saturated throttling then "tenant_quota_full" else
  let blocked u := (0 <? us_queued u) && us_processing_saturated u in
  match user_id with
  | Some user =>
      if str_truthy user then
        match th_current_user throttling with
        | Some u => if blocked u then "user_quota_full" else reason
        | None => reason
        end
      else if include_user_breakdown && existsb blocked (map_to_list (th_users throttling)).*2
           then "user_quota_full" else reason
  | None =>
      if include_user_breakdown && existsb blocked (map_to_list (th_users throttling)).*2
      then "user_quota_full" else reason
  end.

(** [get_queue_insight]. *)
Definition get_queue_insight (now : luanum) (s : insight_settings) (tenant_id : string)
    (user_id : option string) (include_user_breakdown : bool) (st : store)
    : store * res insight_view :=
  let queued_depth := llen (st_queued st) in
  let processing_depth := llen (st_processing st) in
  let queued_items :=
    if 0 <? is_insight_scan_limit s
    then lrange (st_queued st) (- is_insight_scan_limit s) (-1) else [] in
  let processing_items := lrange (st_processing st) 0 (-1) in
  let '(st, active) :=
    prune_stale_worker_heartbeats (st_worker_heartbeat st) now (is_worker_heartbeat_ttl s) st in
  (st,
   res_bind (processing_state_snapshot (st_processing_meta st) active now (is_visibility_timeout s)
               (Some tenant_id) processing_items no_processing) (fun state =>
   let capacity := capacity_snapshot processing_depth (is_max_active_worker_runs s) in
   let '(tenant_counts, user_counts) := processing_quota_counts processing_items in
   let '(tenant_queued, user_queued_counts) := queued_quota_counts queued_items tenant_id in
   let throttling :=
     queue_throttling_snapshot tenant_id tenant_counts user_counts user_queued_counts
       (is_tenant_processing_limit s) (is_user_processing_limit s) user_id include_user_breakdown in
   let active_workers := Z.of_nat (size active) in
   let reason := queue_reason queued_depth processing_depth active_workers
                   (is_max_active_worker_runs s) state in
   Ok {| in_tenant_id := tenant_id;
         in_reason := insight_reason user_id include_user_breakdown tenant_queued throttling reason;
         in_queued := queued_depth; in_processing := processing_depth;
         in_dead_letter := llen (st_dead_letter st);
         in_tenant_queued := tenant_queued;
         in_tenant_processing := default 0 (tenant_counts !! tenant_id);
         in_active_workers := active_workers;
         in_processing_state := state; in_capacity := capacity;
         in_capacity_limits := (is_tenant_processing_limit s, is_user_processing_limit s,
                                is_lease_scan_limit s);
         in_sample := (is_insight_scan_limit s, llen queued_items,
                       queued_depth <=? llen queued_items);
         in_throttling := throttling |})).

(** [get_queue_status]. *)
Definition get_queue_status (now : luanum) (s : insight_settings) (st : store)
    : store * res status_view :=
  let depths := (llen (st_queued st), llen (st_processing st), llen (st_dead_letter st)) in
  let processing_items := lrange (st_processing st) 0 (-1) in
  let processing_meta := st_processing_meta st in
  let '(st, active) :=
    prune_stale_worker_heartbeats (st_worker_heartbeat st) now (is_worker_heartbeat_ttl s) st in
  (st,
   res_bind (processing_state_snapshot processing_meta active now (is_visibility_timeout s) None
               processing_items no_processing) (fun state =>
   Ok {| sv_depths := depths; sv_processing_state := state;
         sv_keys := [key_queued keys; key_processing keys; key_processing_meta keys;
                     key_retry_meta keys; key_dead_letter keys; key_worker_heartbeat keys];
         sv_workers := merge_sort str_le (map_to_list active).*1 |})).

(** Metadata is a JSON object or no JSON at all. *)
Definition meta_readable (meta_items : gmap string string) : Prop :=
  ∀ k m, meta_items !! k = Some m → match json_loads m with Some v => is_Some (as_dict v) | None => True end.

(** The stamp a lease is judged by is not after the clock. *)
Definition stamps_past (meta_items : gmap string string) (now : luanum) : Prop :=
  ∀ k m d t, meta_items !! k = Some m → json_loads m = Some (PDict d) →
    py_float (py_or (get "heartbeat_at" d) (py_or (get "leased_at" d) (PInt 0))) = Some t →
    lnum_leb (lint 0) (lnum_sub now t) = true ∧ lnum_finite t = true.

(** The counts of a view are in order. *)
Definition view_ordered (v : processing_view) : Prop :=
  0 ≤ ps_active v ∧ 0 ≤ ps_missing_metadata v ≤ ps_reclaimable v ∧ ps_reclaimable v ≤ ps_stale v.

Context {lua_round : luanum → luanum} {laws : QueueLaws lua_round}.

(** ** Lease states *)

(** One item adds to exactly one of the two states, or, when the tenant does not
    match, to none. *)
Lemma processing_item_step meta active now vis tenant raw acc :
  meta_readable meta → view_ordered acc → ∃ v,
  processing_state_item meta active now vis tenant raw acc = Ok v ∧ view_ordered v ∧
  ps_active acc + ps_stale acc ≤ ps_active v + ps_stale v ≤ ps_active acc + ps_stale acc + 1 ∧
  (tenant = None → ps_active v + ps_stale v = ps_active acc + ps_stale acc + 1) ∧
  ps_reclaimable acc ≤ ps_reclaimable v.
Proof.
  intros Hr Hacc. unfold processing_state_item, view_ordered in *.
  destruct (meta !! message_id_for_raw raw) as [m|] eqn:Em.
  - destruct m as [|c m].
    { case_match; [|eexists; split; [done|]; simpl; lia].
      eexists. split; [done|]. simpl. repeat split; try lia. intros ->. simpl in *. done. }
    specialize (Hr _ _ Em). set (r := match json_loads _ with Some _ => _ | None => _ end).
    assert (∃ d, r = Ok d) as [d ->].
    { unfold r. destruct (json_loads (String c m)) as [v|]; [|eauto]. destruct Hr as [d Hd].
      destruct v; try done. eauto. }
    simpl. clear Hr. match goal with |- context [if ?b then Ok acc else _] => destruct b eqn:? end.
    + eexists. split; [done|]. repeat split; try lia. intros ->. simpl in *. done.
    + eexists. split; [done|]. simpl.
      repeat match goal with |- context [if ?b then _ else _] => destruct b eqn:? end; simpl in *;
        try lia; try done.
  - case_match; [|eexists; split; [done|]; simpl; lia].
    eexists. split; [done|]. simpl. repeat split; try lia. intros ->. simpl in *. done.
Qed.

Lemma processing_snapshot_spec meta active now vis tenant items acc :
  meta_readable meta → view_ordered acc → ∃ v,
  processing_state_snapshot meta active now vis tenant items acc = Ok v ∧ view_ordered v ∧
  ps_active v + ps_stale v ≤ ps_active acc + ps_stale acc + llen items ∧
  (tenant = None → ps_active v + ps_stale v = ps_active acc + ps_stale acc + llen items) ∧
  ps_reclaimable acc ≤ ps_reclaimable v.
Proof.
  intros Hr. revert acc. induction items as [|raw items IH]; intros acc Hacc.
  { exists acc. unfold llen. simpl. repeat split; try apply Hacc; try done; lia. }
  destruct (processing_item_step meta active now vis tenant raw acc Hr Hacc) as (v & Hv & Ho & Hs & Hn & Hrec).
  destruct (IH v Ho) as (v' & Hv' & Ho' & Hs' & Hn' & Hrec'). exists v'. simpl. rewrite Hv. simpl.
  unfold llen in *. simpl length. split; [done|]. split; [done|]. repeat split; try lia.
  intros Ht. specialize (Hn Ht). specialize (Hn' Ht). lia.
Qed.

(** The lease states the platform reports are a partition: on metadata that can
    be read, the report for the whole queue never fails, every message being
    processed is counted once, as active or as stale, and the leases reported
    without metadata are among the reclaimable ones, which are among the stale ones.
    The report for one tenant counts at most the whole. *)
Lemma processing_states_partition meta active now vis items :
  meta_readable meta →
  (∃ v, processing_state_snapshot meta active now vis None items no_processing = Ok v ∧
     ps_active v + ps_stale v = llen items ∧
     0 ≤ ps_active v ∧ 0 ≤ ps_missing_metadata v ≤ ps_reclaimable v ∧ ps_reclaimable v ≤ ps_stale v) ∧
  (∀ tenant, ∃ v, processing_state_snapshot meta active now vis (Some tenant) items no_processing = Ok v ∧
     ps_active v + ps_stale v ≤ llen items).
Proof.
  intros Hr. assert (view_ordered no_processing) as H0' by (unfold view_ordered; simpl; lia). split.
  - destruct (processing_snapshot_spec meta active now vis None items _ Hr H0') as (v & Hv & Ho & _ & Hn & _).
    exists v. split; [done|]. split; [by apply Hn | exact Ho].
  - intros t. destruct (processing_snapshot_spec meta active now vis (Some t) items _ Hr H0') as (v & Hv & _ & Hs & _).
    exists v. split; [done|]. simpl in Hs. lia.
Qed.

(** ** Quotas *)

Lemma bump_lookup `{Countable K} (k k' : K) counts :
  default 0 (bump k counts !! k') = default 0 (counts !! k') + (if decide (k = k') then 1 else 0).
Proof.
  unfold bump. rewrite lookup_insert. case_decide as E; [subst|]; simpl; lia.
Qed.

Lemma processing_quota_counts_eq items t u :
  Forall (fun raw => is_Some (validate_payload raw)) items →
  default 0 ((processing_quota_counts items).1 !! t) = count_if (of_tenant t) items ∧
  default 0 ((processing_quota_counts items).2 !! (t, u)) = count_if (of_user t u) items.
Proof.
  intros Hall. unfold processing_quota_counts.
  match goal with |- context [fold_left ?f _ _] => set (step := f) end.
  enough (∀ acc, default 0 ((fold_left step items acc).1 !! t) = default 0 (acc.1 !! t) + count_if (of_tenant t) items ∧
    default 0 ((fold_left step items acc).2 !! (t, u)) = default 0 (acc.2 !! (t, u)) + count_if (of_user t u) items)
    as Hg by (destruct (Hg (∅, ∅)) as [-> ->]; done).
  induction Hall as [|raw items [p Hp] _ IH]; intros acc; simpl.
  { unfold count_if. simpl. lia. }
  destruct (IH (step acc raw)) as [-> ->]. rewrite !count_if_cons. unfold step. rewrite Hp. simpl.
  rewrite !bump_lookup. destruct (payload_fields raw p Hp) as (tb & Hd & Et & Er & Eu).
  unfold of_tenant at 2, of_user at 2. rewrite Hd, Et, Eu.
  destruct (String.eqb_spec (pl_tenant_id p) t), (String.eqb_spec (pl_user_id p) u);
    repeat case_decide; simplify_eq; simpl; split; try lia; try congruence.
Qed.

(** What the platform shows as a full quota is what the lease script enforces:
    over well-formed leased messages, the counts Python makes for the report are the
    counts the Lua script makes, so the tenant's (and the current user's) quota is
    reported as saturated exactly when the script answers [quota_blocked]. *)
Lemma reported_saturation_is_enforced items t u queued tl ul breakdown :
  Forall (fun raw => is_Some (validate_payload raw)) items → str_truthy u = true →
  let view := queue_throttling_snapshot t (processing_quota_counts items).1
                (processing_quota_counts items).2 queued tl ul (Some u) breakdown in
  let script := processing_counts t u items in
  th_tenant_processing view = script.1 ∧
  th_tenant_processing_saturated view = (0 <? tl) && (tl <=? script.1) ∧
  ∃ cu, th_current_user view = Some cu ∧ us_processing cu = script.2 ∧
    us_processing_saturated cu = (0 <? ul) && (ul <=? script.2).
Proof.
  intros Hall Hu. pose proof (processing_quota_counts_eq items t u Hall) as [Ht Hus].
  rewrite processing_counts_eq. simpl in *. rewrite Hu, Ht. repeat split. eexists. split; [done|]. simpl. by rewrite Hus.
Qed.

(** ** Reclaiming *)

Lemma processing_item_reclaimable meta active now vis raw acc v :
  0 < vis → processing_state_item meta active now vis None raw acc = Ok v →
  ps_reclaimable v = ps_reclaimable acc →
  ∃ c m, meta !! message_id_for_raw raw = Some (String c m) ∧
    (json_loads (String c m) = None ∨ ∃ d, json_loads (String c m) = Some (PDict d)) ∧
    let d := match json_loads (String c m) with Some (PDict d) => d | _ => [] end in
    lnum_ltb (lint vis) (lnum_sub now (default (lint 0)
      (py_float (py_or (get "heartbeat_at" d) (py_or (get "leased_at" d) (PInt 0)))))) = false.
Proof.
  intros Hvis. unfold processing_state_item.
  destruct (meta !! message_id_for_raw raw) as [[|c m]|]; simpl; try (intros [= <-]; simpl; lia).
  rewrite (proj2 (Z.ltb_lt 0 vis) Hvis). intros Hv Hrec. exists c, m. split; [done|].
  destruct (json_loads (String c m)) as [[| | | | | |d]|]; simpl in *; try done; simplify_eq; simpl in Hrec.
  all: split; [eauto|]; match type of Hrec with context [if ?b then _ else _] => destruct b eqn:Eb end;
    [lia|first [exact Eb | done]].
Qed.

Lemma lnum_leb_of_ltb a b : lnum_finite a = true → lnum_finite b = true → lnum_ltb b a = false → lnum_leb a b = true.
Proof.
  destruct a as [x|[]|], b as [y|[]|]; simpl; try done. intros _ _ Hx. to_prop.
  unfold lnum_leb. simpl. apply orb_true_iff. rewrite Z.ltb_lt, Z.eqb_eq. lia.
Qed.

Lemma reclaim_one_untouched now wall n x vis maxa st r d active raw acc v :
  0 < vis → x = LFin n → lnum_ltb (lint vis) x = true → stamps_past (st_processing_meta st) x →
  processing_state_item (st_processing_meta st) active x vis None raw acc = Ok v →
  ps_reclaimable v = ps_reclaimable acc →
  reclaim_one keys now wall x r vis maxa (st, d, 0) raw = Ok (st, d, 0).
Proof.
  intros Hvis Hx Hlt Hpast Hi Hrec.
  destruct (processing_item_reclaimable _ _ _ _ _ _ _ Hvis Hi Hrec) as (c & m & Hm & Hj & Hage).
  unfold reclaim_one. rewrite Hm. destruct Hj as [Hj|[dd Hj]]; rewrite Hj in *; simpl in *.
  - exfalso. clear -Hage Hlt Hx. subst x. simpl in *. unfold get, get_default in Hage. simpl in Hage.
    to_prop. unfold lint in *. lia.
  - destruct (py_float _) as [t|] eqn:Ef; simpl in *.
    + destruct (Hpast _ _ dd t Hm Hj Ef) as [Hpos Hfin]. rewrite Hpos. simpl.
      assert (lnum_leb (lnum_sub x t) (lint vis) = true) as ->; [|done].
      apply lnum_leb_of_ltb; [|done|done]. subst x. by destruct t.
    + exfalso. subst x. simpl in *. to_prop. lia.
Qed.

Lemma item_reclaimable_mono meta active now vis tenant raw acc v :
  processing_state_item meta active now vis tenant raw acc = Ok v → ps_reclaimable acc ≤ ps_reclaimable v.
Proof.
  unfold processing_state_item, res_bind. intros E.
  repeat case_match; simplify_eq; simpl; lia.
Qed.

Lemma snapshot_reclaimable_mono meta active now vis tenant items acc v :
  processing_state_snapshot meta active now vis tenant items acc = Ok v →
  ps_reclaimable acc ≤ ps_reclaimable v.
Proof.
  revert acc. induction items as [|raw items IH]; intros acc; simpl; [intros [= ->]; lia|].
  destruct (processing_state_item _ _ _ _ _ _ _) as [v1|] eqn:E; simpl; [|done]. intros Hv.
  apply item_reclaimable_mono in E. apply IH in Hv. lia.
Qed.

(** The report predicts the reclaimer: when the status report counts no
    reclaimable lease and no stamp is ahead of the clock, a pass of
    [reclaim_expired_leases] with the same clock and timeout changes nothing, requeues
    nothing and dead-letters nothing. *)
Lemma no_reclaimable_no_reclaim now wall n max_dead vis max_attempts active st v :
  let checked_at := LFin n in
  0 < vis → vis * 1000000 < n → stamps_past (st_processing_meta st) checked_at →
  processing_state_snapshot (st_processing_meta st) active checked_at vis None
    (lrange (st_processing st) 0 (-1)) no_processing = Ok v →
  ps_reclaimable v = 0 →
  reclaim_expired_leases keys now wall (Some checked_at) max_dead vis max_attempts st = Ok (st, 0, 0).
Proof.
  intros x Hvis Hn Hpast Hs Hrec. unfold reclaim_expired_leases. simpl default.
  assert (lnum_ltb (lint vis) x = true) as Hlt by (simpl; apply Z.ltb_lt; unfold lint in *; lia).
  generalize dependent (lrange (st_processing st) 0 (-1)). intros items.
  assert (0 ≤ ps_reclaimable no_processing) as Hge by done.
  assert (ps_reclaimable v ≤ ps_reclaimable no_processing) as Hle by (simpl; lia). clear Hrec.
  revert Hge Hle. generalize no_processing as acc.
  induction items as [|raw items IH]; intros acc Hge Hle Hs; [done|].
  cbn [reclaim_all processing_state_snapshot] in *.
  destruct (processing_state_item _ _ _ _ _ _ _) as [v1|] eqn:Hi; simpl in Hs; [|done].
  pose proof (item_reclaimable_mono _ _ _ _ _ _ _ _ Hi) as Hm1.
  pose proof (snapshot_reclaimable_mono _ _ _ _ _ _ _ _ Hs) as Hm2.
  rewrite (reclaim_one_untouched now wall n x vis max_attempts st max_dead 0 active raw acc v1)
    by (done || lia). simpl. apply (IH v1); done || lia.
Qed.

End Insight.

(** The time stamps of a metadata text lie in the past. *)
Definition past_text (m : string) : bool :=
  match json_loads m with
  | Some (PDict d) =>
      match py_float (py_or (get "heartbeat_at" d) (py_or (get "leased_at" d) (PInt 0))) with
      | Some t => lnum_leb (lint 0) (lnum_sub (LFin 1000000000) t) && lnum_finite t
      | None => true
      end
  | _ => true
  end.

Lemma meta_check (M : gmap string string) (f : string → bool) k m :
  forallb (fun kv => f kv.2) (map_to_list M) = true → M !! k = Some m → f m = true.
Proof.
  intros Hall Hk. rewrite forallb_forall in Hall. apply (Hall (k, m)).
  by apply list_elem_of_In, elem_of_map_to_list.
Qed.


Lemma insight_stamps_past : stamps_past (st_processing_meta lease_setup) (LFin 1000000000).
Proof.
  intros k m d t Hk Hj Hf.
  pose proof (meta_check (st_processing_meta lease_setup) past_text k m ltac:(vm_compute; reflexivity) Hk) as Hm.
  unfold past_text in Hm. clear Hk.
  rewrite Hj, Hf in Hm. by apply andb_true_iff in Hm.
Defined.

