(* ===== verification/QueueAdmission.v ===== *)
(** * Admission

    Admitting a run twice is harmless: the second admission finds the first, and
    what either reports can be read back. *)
From stdpp Require Import base gmap list strings.
From Stdlib Require Import ZArith Lia Ascii.
From S2P Require Import Prelude Redis QueueScripts QueueFacts PyValue QueueClient QueueCommands QueueTrace.
From S2P Require Import QueueRuntime QueueFence QueueUnique.

Section Admission.
Context `{LuaRuntime} `{PyRuntime} `{QueuePayloads}.
Context (keys : QueueKeys).

(** What the queue holds about a message right after its admission. *)
Definition admitted (raw : string) (p : queue_payload) (seq : Z) (st : store) : Prop :=
  let mid := message_id_for_raw raw in
  let f := queued_run_index_field (pl_tenant_id p) (pl_run_id p) in
  str_in mid (index_ids st f) = true ∧ st_queued_order st !! mid = Some seq ∧
  ∃ kvs, st_queued_meta st !! mid = Some (cjson_encode (LObj kvs)) ∧
    assoc "tenant_id" kvs = Some (LStr (pl_tenant_id p)) ∧
    assoc "run_id" kvs = Some (LStr (pl_run_id p)) ∧ assoc "sequence" kvs = Some (LNum (lint seq)).

Context {lua_round : luanum → luanum} {laws : QueueLaws lua_round}.

Lemma reply_numbers status n m :
  Z.abs n < 10 ^ 14 → Z.abs m < 10 ^ 14 →
  let result := eval_result (Reply status [("position", LNum (lint n)); ("sequence", LNum (lint m))]) in
  get "position" result = PInt n ∧ get "sequence" result = PInt m.
Proof.
  intros Hn Hm. unfold eval_result, decode_redis_script_result, eval_reply. simpl rp_status. simpl rp_fields.
  match goal with |- context [cjson_encode (LObj ?kvs)] =>
    destruct (reply_fields kvs) as (d & -> & _ & _ & Hi & _) end.
  unfold get, get_default. by rewrite (Hi "position" n), (Hi "sequence" m).
Qed.

Lemma enqueue_call_admits now wall raw p st st1 r :
  index_wf st → enqueue_call keys now wall raw p st = (st1, r) → rp_status r = "enqueued" →
  admitted raw p (st_queued_sequence st + 1) st1 ∧
  st_queued_order st1 = <[message_id_for_raw raw := st_queued_sequence st + 1]> (st_queued_order st) ∧
  r = Reply "enqueued" [("position", LNum (lint (llen (st_queued st1))));
                        ("sequence", LNum (lint (st_queued_sequence st + 1)))].
Proof.
  intros Hwf. unfold enqueue_call, enqueue_script.
  set (mid := message_id_for_raw raw). set (f := queued_run_index_field _ _). fold (index_ids st f).
  destruct (payload_metadata_fields p wall) as (kvs & -> & Ht & Hr). simpl default.
  intros E Hs. pose proof (index_ids_nonempty st f Hwf) as Hne.
  assert (mid ≠ "") as Hmid by apply message_id_nonempty.
  assert (r = Reply "enqueued" [("position", LNum (lint (llen (st_queued st1))));
                                ("sequence", LNum (lint (st_queued_sequence st + 1)))] ∧
    st1 = enqueue_push mid f raw (tset "raw" (LStr raw)
            (tset "sequence" (LNum (lint (st_queued_sequence st + 1))) (LObj kvs))) st) as [-> ->].
  { repeat case_match; simplify_eq; done. }
  split; [|by split]. unfold admitted. fold mid f. split; [|split].
  - apply str_in_elem. change (mid ∈ index_ids (write_ids f (keep_others mid (index_ids st f) ++ [mid]) st) f).
    rewrite index_ids_push, decide_True by done. apply elem_of_app. right. by left.
  - apply lookup_insert_eq.
  - eexists. split; [apply lookup_insert_eq|].
    rewrite !(assoc_set_ne "raw") by done. rewrite assoc_set_eq.
    by rewrite (assoc_set_ne "sequence" "tenant_id"), (assoc_set_ne "sequence" "run_id").
Qed.

(** ** The rank of the newest message *)

Lemma filter_others {A} (f : A → bool) l x :
  NoDup l → x ∈ l → f x = false → (∀ y, y ∈ l → y ≠ x → f y = true) →
  length (List.filter f l) = Nat.pred (length l).
Proof.
  intros Hnd Hx Hfx Hf. induction Hnd as [|y l Hy Hnd IH]; [by apply elem_of_nil in Hx|]. simpl.
  apply elem_of_cons in Hx as [<-|Hx].
  - rewrite Hfx. clear IH. assert (List.filter f l = l) as ->; [|done].
    assert (∀ z, z ∈ l → f z = true) as Hall.
    { intros z Hz. apply Hf; [by right|]. by intros ->. }
    clear -Hall. induction l as [|z l IH]; simpl; [done|].
    rewrite (Hall z) by by left. f_equal. apply IH. intros w Hw. apply Hall. by right.
  - assert (y ≠ x) by by intros ->. rewrite (Hf y) by (done || by left). simpl.
    rewrite IH; [|done|intros z Hz; apply Hf; by right]. destruct l; [by apply elem_of_nil in Hx|done].
Qed.

(** A message queued under a number above all others is last. *)
Lemma zrank_last m x n :
  m !! x = Some n → (∀ y k, m !! y = Some k → y ≠ x → k < n) →
  zrank m x = Some (Z.of_nat (size m) - 1).
Proof.
  intros Hx Hlt. unfold zrank. rewrite Hx. simpl. f_equal.
  rewrite (filter_others _ _ (x, n)).
  - rewrite length_map_to_list. assert (size m ≠ 0%nat); [|lia]. intros E%map_size_empty_inv. by subst.
  - apply NoDup_map_to_list.
  - by apply elem_of_map_to_list.
  - unfold zbefore. simpl. rewrite Z.ltb_irrefl, Z.eqb_refl. simpl.
    clear. induction x as [|c x IH]; simpl; [done|]. by rewrite Ascii.eqb_refl.
  - intros [y k] Hy%elem_of_map_to_list Hne. unfold zbefore. simpl. apply orb_true_iff. left. apply Z.ltb_lt.
    apply (Hlt y k Hy). intros ->. by simplify_eq.
Qed.

(** The order has one entry for each queued message. *)
Lemma order_size U st :
  plain_messages U → queue_inv U st → size (st_queued_order st) = length (st_queued st).
Proof.
  intros HU Hinv. assert (dom (st_queued_order st) = list_to_set (message_id_for_raw <$> st_queued st)) as Hd.
  { apply set_eq. intros mid. rewrite elem_of_dom, elem_of_list_to_set, list_elem_of_fmap. split.
    - intros [n Hn]. destruct (qi_order _ _ Hinv mid n Hn) as (_ & raw & Hin & E). eauto.
    - intros (raw & -> & Hin). destruct (qi_valid _ _ Hinv raw) as [_ [p Hp]]; [apply elem_of_app; by left|].
      destruct (qi_queued _ _ Hinv raw p Hin Hp) as (? & ? & n & _ & _ & _ & _ & _ & Ho & _). by eexists. }
  rewrite <- size_dom, Hd, size_list_to_set, length_fmap; [done|].
  pose proof (qi_nodup _ _ Hinv) as (Hnd & _ & _)%NoDup_app.
  apply NoDup_fmap_2_strong; [|done]. intros a b Ha Hb. apply (pm_digest _ HU).
  all: apply (qi_valid _ _ Hinv), elem_of_app; by left.
Qed.

Lemma admitted_again now wall raw p seq rank st :
  admitted raw p seq st → Z.abs seq < 10 ^ 14 →
  zrank (st_queued_order st) (message_id_for_raw raw) = Some rank →
  fence_exists st now (reconciliation_fence_key keys (pl_tenant_id p) (pl_run_id p)) = false →
  enqueue_call keys now wall raw p st
  = (st, Reply "already_enqueued" [("position", LNum (lint (rank + 1))); ("sequence", LNum (lint seq))]).
Proof.
  intros (Hidx & Ho & kvs & Hm & Ht & Hr & Hseq) Hb Hrank Hf. unfold enqueue_call, enqueue_script. rewrite Hf.
  unfold index_ids in Hidx. rewrite Hidx, Hm, Hrank. destruct (decode_encoded_obj kvs) as (kvs' & -> & Hk).
  simpl. rewrite Hk, Hseq. simpl. by rewrite lua_round_int.
Qed.

(** C15.  Admission is idempotent and readable: once [enqueue_run_with_metadata] has
    queued a run, it has reported the length of the queue as the position and the next
    sequence number as the ordinal; admitting the same submission again changes nothing
    and reports exactly the same admission, position included, and
    [read_queue_admission] reads the same position and ordinal back.  The queue before
    is any reachable one, under the conditions of the single copy (distinct digests,
    tenant names without a colon, functions of several commands not interrupted); no
    reconciler has fenced the run, and the counters are within the exact range of Lua
    numbers. *)
Theorem admission_is_idempotent U tr now now' wall wall' payload raw p st1 adm :
  plain_messages U → Forall (fun step => plain_op U step.2) tr → U raw →
  let st := run_trace keys tr empty_store in
  admit_submission payload = Some raw → validate_payload raw = Some p →
  enqueue_run_with_metadata keys now wall payload st = (st1, Ok adm) →
  raw ∉ st_queued st → raw ∈ st_queued st1 →
  0 ≤ st_queued_sequence st < 10 ^ 14 - 1 → llen (st_queued st1) < 10 ^ 14 →
  fence_exists st1 now' (reconciliation_fence_key keys (pl_tenant_id p) (pl_run_id p)) = false →
  adm = MkQueueAdmission (llen (st_queued st1)) (st_queued_sequence st + 1) (message_id_for_raw raw)
          "redis_metadata" ∧
  enqueue_run_with_metadata keys now' wall' payload st1 = (st1, Ok adm) ∧
  read_queue_admission payload st1
  = Ok (Some (MkQueueAdmission (queue_position adm) (queue_admission_ordinal adm)
                (admission_message_id adm) "redis_readback_queued")).
Proof.
  intros HU Htr HUr st Hsub Hv E Hnot Hin Hseq Hlen Hf.
  pose proof (inv_run_trace keys U tr empty_store HU Htr (inv_empty U)) as Hinv. fold st in Hinv.
  revert E. unfold enqueue_run_with_metadata at 1. rewrite Hsub, Hv.
  pose proof (inv_enqueue keys U now wall raw p st HU HUr Hv Hinv) as Hinv1.
  destruct (enqueue_call keys now wall raw p st) as [st' r] eqn:Hcall. rewrite wire_status. intros E.
  assert (st' = st1) as -> by (by injection E).
  assert (rp_status r = "enqueued") as Hst.
  { revert Hcall Hin Hnot. clear. unfold enqueue_call, enqueue_script. repeat case_match; intros;
      simplify_eq; try done. }
  destruct (enqueue_call_admits _ _ _ _ _ _ _ (qi_index _ _ Hinv) Hcall Hst) as (Hadm & Hord & ->).
  set (seq := st_queued_sequence st + 1) in *. assert (0 < seq < 10 ^ 14) as Hb by (unfold seq; lia).
  assert (0 < llen (st_queued st1)) as Hpos.
  { unfold llen. destruct (st_queued st1); [by apply elem_of_nil in Hin|simpl; lia]. }
  assert (zrank (st_queued_order st1) (message_id_for_raw raw) = Some (llen (st_queued st1) - 1)) as Hrank.
  { rewrite (zrank_last _ _ seq).
    - by rewrite (order_size U st1 HU Hinv1).
    - rewrite Hord. apply lookup_insert_eq.
    - intros y k Hk Hne. rewrite Hord, lookup_insert_ne in Hk by done.
      destruct (qi_order _ _ Hinv y k Hk) as [Hle _]. unfold seq. lia. }
  destruct (reply_numbers "enqueued" (llen (st_queued st1)) seq) as [Ep Es]; [lia..|].
  rewrite Ep, Es in E. simpl in E. unfold py_or in E. simpl in E.
  rewrite !(proj2 (Z.eqb_neq _ 0)) in E by lia. simpl in E. injection E as <-. simpl. split; [done|].
  assert (llen (st_queued st1) - 1 + 1 = llen (st_queued st1)) as Elen by lia. split.
  - unfold enqueue_run_with_metadata.
    rewrite Hsub, Hv, (admitted_again now' wall' raw p seq _ st1 Hadm ltac:(lia) Hrank Hf), Elen, wire_status.
    simpl String.eqb. cbv iota.
    destruct (reply_numbers "already_enqueued" (llen (st_queued st1)) seq) as [-> ->]; [lia..|].
    simpl. unfold py_or. simpl. by rewrite !(proj2 (Z.eqb_neq _ 0)) by lia.
  - unfold read_queue_admission. rewrite Hsub, Hv, Hrank, Elen.
    destruct Hadm as (_ & _ & kvs & -> & Ht & Hr & Hs). unfold queue_metadata_matches_run. simpl.
    destruct (reply_fields kvs) as (d & -> & _ & Hstr & Hint & _).
    unfold eq_str, get, get_default. rewrite (Hstr "tenant_id" _ Ht), (Hstr "run_id" _ Hr). simpl.
    rewrite !String.eqb_refl. simpl. rewrite (Hint "sequence" seq) by (lia || done). simpl.
    unfold py_or. simpl. by rewrite (proj2 (Z.eqb_neq seq 0)) by lia.
Qed.

End Admission.

(** A run admitted behind another one. *)
Definition admission_before : list (Z * qop) := [(500000, QEnqueue (lint 0) (toy_raw "t" "v" "q"))].
Definition admission_first : store * res QueueAdmissionMetadata :=
  enqueue_run_with_metadata toy_keys 1000000 (lint 1) (toy_raw "t" "u" "r" : submission)
    (run_trace toy_keys admission_before empty_store).
Definition admission_report : QueueAdmissionMetadata :=
  MkQueueAdmission 2 2 (toy_digest (toy_raw "t" "u" "r")) "redis_metadata".

Lemma admission_is_idempotent_witness :
  enqueue_run_with_metadata toy_keys 2000000 (lint 2) (toy_raw "t" "u" "r" : submission) admission_first.1
  = (admission_first.1, Ok admission_report) ∧
  read_queue_admission (toy_raw "t" "u" "r" : submission) admission_first.1
  = Ok (Some (MkQueueAdmission 2 2 (toy_digest (toy_raw "t" "u" "r")) "redis_readback_queued")).
Proof.
  refine (proj2 (admission_is_idempotent toy_keys
    (fun raw => raw ∈ [toy_raw "t" "v" "q"; toy_raw "t" "u" "r"]) admission_before
    1000000 2000000 (lint 1) (lint 2) (toy_raw "t" "u" "r" : submission)
    (toy_raw "t" "u" "r") (QueuePayload "t" "w" "u" "r") admission_first.1 admission_report
    _ _ _ eq_refl _ _ _ _ _ _ _)).
  - split.
    + intros a b Ha Hb. rewrite !elem_of_cons, elem_of_nil in Ha, Hb.
      destruct Ha as [->|[->|[]]], Hb as [->|[->|[]]]; vm_compute; done.
    + intros raw p Ha. rewrite !elem_of_cons, elem_of_nil in Ha.
      destruct Ha as [->|[->|[]]]; vm_compute; intros [= <-]; reflexivity.
  - repeat constructor.
  - rewrite !elem_of_cons. by right; left.
  - vm_compute. reflexivity.
  - vm_compute. reflexivity.
  - intros Hin. vm_compute in Hin. apply elem_of_cons in Hin as [Hin|Hin]; [discriminate|by apply elem_of_nil in Hin].
  - vm_compute. apply elem_of_cons. right. apply elem_of_cons. left. reflexivity.
  - vm_compute. split; [discriminate|reflexivity].
  - vm_compute. reflexivity.
  - vm_compute. reflexivity.
Defined.
