(* ===== verification/RunAttempt.v ===== *)
(** * Run attempts

    A run is executed by attempts, each owned by a worker, the reconciler or an
    operator and fenced by an owner generation.  This file models the pure
    transition rules ([src/app/runs/domain/attempt_lifecycle.py]), the SQL guards of
    the table ([src/app/schema.sql]) and the persistence operations that use both
    ([src/app/runs/infrastructure/postgres.py],
    [src/app/runs/application/attempt_lifecycle.py]).

    - A database is the rows of [runs] and [run_attempts] ([attempt_db]).  An
      operation runs in one transaction under row locks: it returns the new
      database and its result, or raises and leaves the database as it was.
    - An [update] first runs the two row triggers, in the order of their names,
      then the constraints of the table.
    - [now] is the transaction's time, a number; a Python [datetime] also says
      whether it carries a time zone. *)
From stdpp Require Import base gmap list strings.
From Stdlib Require Import ZArith Lia Ascii.
From S2P Require Import Prelude Redis PyValue QueueClient.
#[local] Open Scope py_scope.

(** ** Transition rules *)

Definition RUN_ATTEMPT_STATUSES : list string :=
  ["created"; "queued"; "claimed"; "running"; "cancel_requested"; "expired"; "succeeded"; "failed";
   "cancelled"].
Definition RUN_ATTEMPT_OWNER_KINDS : list string := ["queue_worker"; "reconciler"; "operator"].
Definition OPEN_RUN_ATTEMPT_STATUSES : list string :=
  ["created"; "queued"; "claimed"; "running"; "cancel_requested"; "expired"].
Definition TERMINAL_RUN_ATTEMPT_STATUSES : list string := ["succeeded"; "failed"; "cancelled"].

Definition LEGAL_RUN_ATTEMPT_TRANSITIONS : list (string * list string) :=
  [("created", ["queued"; "cancelled"]);
   ("queued", ["claimed"; "cancelled"]);
   ("claimed", ["running"; "cancel_requested"; "failed"; "expired"]);
   ("running", ["cancel_requested"; "succeeded"; "failed"; "expired"]);
   ("cancel_requested", ["cancelled"]);
   ("expired", ["failed"; "cancelled"]);
   ("succeeded", []);
   ("failed", []);
   ("cancelled", [])].

Definition projected_run_status (attempt_status : string) : string :=
  if str_in attempt_status ["created"; "queued"] then "queued" else
  if str_in attempt_status ["claimed"; "running"; "cancel_requested"; "expired"] then "running" else
  attempt_status.

Record transition_decision := TransitionDecision {
  td_previous_status : string;
  td_status : string;
  td_did_transition : bool;
  td_projected_run_status : string;
  td_owner_generation : Z
}.

(** A generation argument that passes the type and range check. *)
Definition valid_generation (v : pyval) : option Z :=
  match v with PInt z => if z <? 1 then None else Some z | _ => None end.

Definition decide_run_attempt_transition (current_status requested_status : string)
    (owner_generation expected_owner_generation : pyval) : res transition_decision :=
  raise! "run_attempt_current_status_invalid" when negb (str_in current_status RUN_ATTEMPT_STATUSES);
  raise! "run_attempt_requested_status_invalid" when negb (str_in requested_status RUN_ATTEMPT_STATUSES);
  match valid_generation owner_generation, valid_generation expected_owner_generation with
  | Some generation, Some expected =>
      raise! "run_attempt_owner_generation_stale" when negb (generation =? expected);
      if String.eqb current_status requested_status then
        Ok {| td_previous_status := current_status; td_status := current_status;
              td_did_transition := false;
              td_projected_run_status := projected_run_status current_status;
              td_owner_generation := generation |}
      else
      if negb (str_in requested_status (default [] (assoc current_status LEGAL_RUN_ATTEMPT_TRANSITIONS))) then
        Raise (if str_in current_status TERMINAL_RUN_ATTEMPT_STATUSES
               then "run_attempt_terminal_immutable" else "run_attempt_transition_invalid")
      else
        Ok {| td_previous_status := current_status; td_status := requested_status;
              td_did_transition := true;
              td_projected_run_status := projected_run_status requested_status;
              td_owner_generation := generation + 1 |}
  | _, _ => Raise "run_attempt_owner_generation_invalid"
  end.

(** ** Rows *)

Record execution_spec := ExecutionSpec {
  es_tenant_id : string; es_run_id : string; es_workspace_id : string; es_user_id : string;
  es_session_id : string; es_agent_id : string; es_execution_kind : string; es_skill_id : string;
  es_schema_version : string; es_canonical_json : string; es_sha256 : string
}.

Record attempt_row := Attempt {
  a_id : string;
  a_tenant_id : string;
  a_run_id : string;
  a_ordinal : Z;
  a_status : string;
  a_owner_kind : string;
  a_owner_id : string;
  a_owner_generation : Z;
  a_queue_message_id : option string;
  a_queue_attempt_id : string;
  a_spec : execution_spec;
  a_lease_expires_at : option Z;
  a_last_heartbeat_at : option Z;
  a_started_at : option Z;
  a_finished_at : option Z;
  a_terminal_reason : string;
  a_error_code : option string;
  a_created_at : Z;
  a_updated_at : Z
}.

Record run_row := Run {
  r_status : string;
  r_workspace_id : string; r_user_id : option string; r_session_id : string; r_agent_id : string;
  r_execution_kind : string; r_skill_id : option string;
  r_cancel_requested_at : option Z;
  r_started_at : option Z;
  r_finished_at : option Z
}.

Record attempt_db := AttemptDb {
  db_runs : gmap (string * string) run_row;
  db_attempts : list attempt_row
}.

#[global] Instance execution_spec_eq_dec : EqDecision execution_spec.
Proof. solve_decision. Defined.
#[global] Instance attempt_row_eq_dec : EqDecision attempt_row.
Proof. solve_decision. Defined.

(** ** The guards of the table *)

Definition is_terminal (status : string) : bool := str_in status TERMINAL_RUN_ATTEMPT_STATUSES.
Definition is_open (status : string) : bool := str_in status OPEN_RUN_ATTEMPT_STATUSES.

(** Whether a run in a status may be projected to another. *)
Definition run_accepts (projected status : string) : bool :=
  (String.eqb projected "queued" && String.eqb status "queued")
  || (String.eqb projected "running" && str_in status ["queued"; "running"])
  || (is_terminal projected && str_in status ["queued"; "running"; projected]).

(** The transitions the trigger lists. *)
Definition sql_legal_transition (old new : string) : bool :=
  (String.eqb old "created" && str_in new ["queued"; "cancelled"])
  || (String.eqb old "queued" && str_in new ["claimed"; "cancelled"])
  || (String.eqb old "claimed" && str_in new ["running"; "cancel_requested"; "failed"; "expired"])
  || (String.eqb old "running" && str_in new ["cancel_requested"; "succeeded"; "failed"; "expired"])
  || (String.eqb old "cancel_requested" && String.eqb new "cancelled")
  || (String.eqb old "expired" && str_in new ["failed"; "cancelled"]).

Definition sql_projected_run_status (status : string) : string :=
  if str_in status ["created"; "queued"] then "queued" else
  if str_in status ["claimed"; "running"; "cancel_requested"; "expired"] then "running" else status.

(** The projection of an attempt's status onto its run. *)
Definition project_run (now : Z) (projected : string) (r : run_row) : run_row :=
  {| r_status := projected;
     r_workspace_id := r_workspace_id r; r_user_id := r_user_id r; r_session_id := r_session_id r;
     r_agent_id := r_agent_id r; r_execution_kind := r_execution_kind r; r_skill_id := r_skill_id r;
     r_cancel_requested_at := r_cancel_requested_at r;
     r_started_at := if String.eqb projected "running" then Some (default now (r_started_at r))
                     else r_started_at r;
     r_finished_at := if is_terminal projected then Some (default now (r_finished_at r))
                      else r_finished_at r |}.

(** The insert branch of [ai_platform_guard_run_attempt_transition]. *)
Definition guard_insert (new : attempt_row) (db : attempt_db) : res unit :=
  raise! "run_attempt_initial_state_invalid" when
    negb (String.eqb (a_status new) "created" && (a_owner_generation new =? 1)
          && bool_decide (a_queue_message_id new = None) && bool_decide (a_lease_expires_at new = None)
          && bool_decide (a_last_heartbeat_at new = None) && bool_decide (a_started_at new = None)
          && bool_decide (a_finished_at new = None) && String.eqb (a_terminal_reason new) ""
          && bool_decide (a_error_code new = None));
  let spec := a_spec new in
  match db_runs db !! (a_tenant_id new, a_run_id new) with
  | Some r =>
      raise! "run_attempt_parent_state_invalid" when
        negb (String.eqb (r_status r) "queued"
              && String.eqb (es_tenant_id spec) (a_tenant_id new)
              && String.eqb (es_run_id spec) (a_run_id new)
              && String.eqb (r_workspace_id r) (es_workspace_id spec)
              && bool_decide (r_user_id r = Some (es_user_id spec))
              && String.eqb (r_session_id r) (es_session_id spec)
              && String.eqb (r_agent_id r) (es_agent_id spec)
              && String.eqb (r_execution_kind r) (es_execution_kind spec)
              && bool_decide (r_skill_id r = if str_truthy (es_skill_id spec)
                                             then Some (es_skill_id spec) else None));
      Ok tt
  | None => Raise "run_attempt_parent_state_invalid"
  end.

(** [ai_platform_guard_run_attempt_heartbeat_monotonicity]. *)
Definition heartbeat_regresses (old new : option Z) : bool :=
  match old, new with
  | None, _ => false
  | Some _, None => true
  | Some o, Some n => n <? o
  end.
Definition guard_heartbeat (old new : attempt_row) : res unit :=
  raise! "run_attempt_heartbeat_regression" when
    heartbeat_regresses (a_last_heartbeat_at old) (a_last_heartbeat_at new);
  raise! "run_attempt_lease_expiry_regression" when
    heartbeat_regresses (a_lease_expires_at old) (a_lease_expires_at new);
  Ok tt.

(** The update branch of [ai_platform_guard_run_attempt_transition]. *)
Definition same_identity (old new : attempt_row) : bool :=
  String.eqb (a_id new) (a_id old) && String.eqb (a_tenant_id new) (a_tenant_id old)
  && String.eqb (a_run_id new) (a_run_id old) && (a_ordinal new =? a_ordinal old)
  && String.eqb (a_queue_attempt_id new) (a_queue_attempt_id old)
  && bool_decide (a_spec new = a_spec old) && (a_created_at new =? a_created_at old).

Definition guard_update (now : Z) (old new : attempt_row) (db : attempt_db) : res attempt_db :=
  raise! "run_attempt_terminal_immutable" when
    is_terminal (a_status old) && negb (bool_decide (new = old));
  raise! "run_attempt_identity_immutable" when negb (same_identity old new);
  raise! "run_attempt_queue_identity_immutable" when
    negb (bool_decide (a_queue_message_id new = a_queue_message_id old))
    && negb (String.eqb (a_status old) "created" && String.eqb (a_status new) "queued"
             && bool_decide (a_queue_message_id old = None)
             && negb (bool_decide (a_queue_message_id new = None)));
  if String.eqb (a_status new) (a_status old) then
    if (a_owner_generation new =? a_owner_generation old)
       && String.eqb (a_owner_kind new) (a_owner_kind old)
       && String.eqb (a_owner_id new) (a_owner_id old) then Ok db else
    if String.eqb (a_status old) "cancel_requested" && String.eqb (a_owner_kind new) "reconciler"
       && (a_owner_generation new =? a_owner_generation old + 1)
       && (negb (String.eqb (a_owner_kind new) (a_owner_kind old))
           || negb (String.eqb (a_owner_id new) (a_owner_id old))) then Ok db else
    Raise "run_attempt_owner_transition_invalid"
  else
  raise! "run_attempt_owner_generation_invalid" when
    negb (a_owner_generation new =? a_owner_generation old + 1);
  raise! "run_attempt_expiry_reconciler_required" when
    String.eqb (a_status new) "expired" && negb (String.eqb (a_owner_kind new) "reconciler");
  raise! "run_attempt_transition_invalid" when negb (sql_legal_transition (a_status old) (a_status new));
  let projected := sql_projected_run_status (a_status new) in
  let key := (a_tenant_id new, a_run_id new) in
  match db_runs db !! key with
  | Some r =>
      raise! "run_attempt_parent_transition_conflict" when negb (run_accepts projected (r_status r));
      Ok {| db_runs := <[key := project_run now projected r]> (db_runs db);
            db_attempts := db_attempts db |}
  | None => Raise "run_attempt_parent_transition_conflict"
  end.

Section Attempts.
Context (sha256_hex : string → string).

(** The checks of one row. *)
Definition row_checks (a : attempt_row) : bool :=
  (0 <? a_ordinal a) && (0 <? a_owner_generation a)
  && str_in (a_status a) RUN_ATTEMPT_STATUSES && str_in (a_owner_kind a) RUN_ATTEMPT_OWNER_KINDS
  && str_truthy (a_id a) && str_truthy (a_owner_id a) && str_truthy (a_queue_attempt_id a)
  && str_truthy (es_schema_version (a_spec a))
  && negb (bool_decide (a_queue_message_id a = Some ""))
  && str_truthy (es_canonical_json (a_spec a)) && is_hex64 (es_sha256 (a_spec a))
  && String.eqb (es_sha256 (a_spec a)) (sha256_hex (es_canonical_json (a_spec a)))
  && Bool.eqb (is_terminal (a_status a)) (negb (bool_decide (a_finished_at a = None))).

Definition same_run (a b : attempt_row) : bool :=
  String.eqb (a_tenant_id a) (a_tenant_id b) && String.eqb (a_run_id a) (a_run_id b).

(** Two different rows that no unique index allows together: the primary key, the
    ordinal and the queue attempt of a run, and the one open attempt of a run. *)
Definition rows_conflict (a b : attempt_row) : bool :=
  String.eqb (a_id a) (a_id b)
  || (same_run a b && ((a_ordinal a =? a_ordinal b)
                       || String.eqb (a_queue_attempt_id a) (a_queue_attempt_id b)
                       || (is_open (a_status a) && is_open (a_status b)))).

Definition sql_insert_attempt (new : attempt_row) (db : attempt_db) : res attempt_db :=
  let! _ := guard_insert new db in
  raise! "check_violation" when negb (row_checks new);
  raise! "unique_violation" when existsb (rows_conflict new) (db_attempts db);
  Ok {| db_runs := db_runs db; db_attempts := db_attempts db ++ [new] |}.

(** [update run_attempts set ... where ... returning]: a predicate that names the
    primary key selects at most one row. *)
Definition replace_attempt (new : attempt_row) (rows : list attempt_row) : list attempt_row :=
  (fun r => if String.eqb (a_id r) (a_id new) then new else r) <$> rows.

Definition sql_update_attempt (now : Z) (pred : attempt_row → bool)
    (upd : attempt_row → attempt_row) (db : attempt_db) : res (attempt_db * option attempt_row) :=
  match List.find pred (db_attempts db) with
  | None => Ok (db, None)
  | Some old =>
      let new := upd old in
      let! _ := guard_heartbeat old new in
      let! db' := guard_update now old new db in
      raise! "check_violation" when negb (row_checks new);
      raise! "unique_violation" when
        existsb (fun r => negb (String.eqb (a_id r) (a_id old)) && rows_conflict new r) (db_attempts db);
      Ok ({| db_runs := db_runs db'; db_attempts := replace_attempt new (db_attempts db') |}, Some new)
  end.

(** ** Reads *)

Definition is_attempt (tenant_id run_id attempt_id : string) (a : attempt_row) : bool :=
  String.eqb (a_tenant_id a) tenant_id && String.eqb (a_run_id a) run_id && String.eqb (a_id a) attempt_id.

Definition get_run_attempt (tenant_id run_id attempt_id : string) (db : attempt_db) : option attempt_row :=
  List.find (is_attempt tenant_id run_id attempt_id) (db_attempts db).

Definition get_run_attempt_for_queue_attempt (tenant_id run_id queue_attempt_id : string)
    (db : attempt_db) : option attempt_row :=
  List.find (fun a => String.eqb (a_tenant_id a) tenant_id && String.eqb (a_run_id a) run_id
                      && String.eqb (a_queue_attempt_id a) queue_attempt_id) (db_attempts db).

(** [order by ordinal desc limit 1]. *)
Definition later (best : option attempt_row) (a : attempt_row) : option attempt_row :=
  match best with
  | None => Some a
  | Some b => if a_ordinal b <? a_ordinal a then Some a else best
  end.
Definition get_latest_run_attempt (tenant_id run_id : string) (db : attempt_db) : option attempt_row :=
  fold_left later
    (List.filter (fun a => String.eqb (a_tenant_id a) tenant_id && String.eqb (a_run_id a) run_id)
       (db_attempts db)) None.

(** ** Validation *)

Definition validated_attempt_owner (owner_kind owner_id : string) : res (string * string) :=
  raise! "run_attempt_owner_kind_invalid" when negb (str_in owner_kind RUN_ATTEMPT_OWNER_KINDS);
  raise! "run_attempt_owner_id_invalid" when negb (str_truthy (strip owner_id));
  Ok (owner_kind, strip owner_id).

Record datetime := DateTime { dt_instant : Z; dt_aware : bool }.

Definition validated_worker_queue_lease (queue_message_id : option string)
    (lease_expires_at last_heartbeat_at : option datetime) : res (option (string * Z * Z)) :=
  match queue_message_id, lease_expires_at, last_heartbeat_at with
  | None, None, None => Ok None
  | Some message_id, Some expires, Some heartbeat =>
      raise! "run_attempt_queue_message_id_invalid" when negb (is_hex64 message_id);
      raise! "run_attempt_queue_lease_timezone_required" when negb (dt_aware expires && dt_aware heartbeat);
      raise! "run_attempt_queue_lease_window_invalid" when dt_instant expires <=? dt_instant heartbeat;
      Ok (Some (message_id, dt_instant expires, dt_instant heartbeat))
  | _, _, _ => Raise "run_attempt_queue_lease_incomplete"
  end.

(** The byte that separates the parts of the derived identity. *)
Definition nul : string := String (ascii_of_N 0) EmptyString.

Definition run_attempt_id_for_queue_attempt (tenant_id run_id queue_attempt_id : string) : res string :=
  raise! "run_attempt_identity_invalid" when
    negb (str_truthy (strip tenant_id) && str_truthy (strip run_id) && str_truthy (strip queue_attempt_id));
  Ok ("rat_" +:+ sha256_hex (strip tenant_id +:+ nul +:+ strip run_id +:+ nul +:+ strip queue_attempt_id)).

(** ** Operations *)

Definition create_run_attempt (now : Z) (tenant_id run_id attempt_id : string) (ordinal : Z)
    (owner_kind owner_id queue_attempt_id : string) (spec : execution_spec) (db : attempt_db)
    : res (attempt_db * attempt_row) :=
  let! owner := validated_attempt_owner owner_kind owner_id in
  raise! "run_attempt_id_invalid" when negb (str_truthy (strip attempt_id));
  raise! "run_attempt_ordinal_invalid" when ordinal <? 1;
  raise! "run_attempt_queue_attempt_id_invalid" when negb (str_truthy (strip queue_attempt_id));
  raise! "run_attempt_execution_spec_identity_mismatch" when
    negb (String.eqb (es_tenant_id spec) tenant_id && String.eqb (es_run_id spec) run_id);
  let new :=
    {| a_id := strip attempt_id; a_tenant_id := tenant_id; a_run_id := run_id; a_ordinal := ordinal;
       a_status := "created"; a_owner_kind := owner.1; a_owner_id := owner.2; a_owner_generation := 1;
       a_queue_message_id := None; a_queue_attempt_id := strip queue_attempt_id; a_spec := spec;
       a_lease_expires_at := None; a_last_heartbeat_at := None; a_started_at := None;
       a_finished_at := None; a_terminal_reason := ""; a_error_code := None;
       a_created_at := now; a_updated_at := now |} in
  let! db := sql_insert_attempt new db in
  Ok (db, new).

(** What a transition may change besides the status. *)
Record transition_args := TransitionArgs {
  ta_next_owner_kind : option string;
  ta_next_owner_id : option string;
  ta_queue_message_id : option string;
  ta_lease_expires_at : option Z;
  ta_last_heartbeat_at : option Z;
  ta_terminal_reason : string;
  ta_error_code : option string
}.
Definition no_args : transition_args := TransitionArgs None None None None None "" None.
Definition next_owner_args (kind id : option string) : transition_args :=
  TransitionArgs kind id None None None "" None.

(** The row the caller expects. *)
Definition expected_row (tenant_id run_id attempt_id status owner_kind owner_id : string)
    (generation : Z) (a : attempt_row) : bool :=
  is_attempt tenant_id run_id attempt_id a && String.eqb (a_status a) status
  && String.eqb (a_owner_kind a) owner_kind && String.eqb (a_owner_id a) owner_id
  && (a_owner_generation a =? generation).

Definition coalesce {A} (a b : option A) : option A := match a with Some _ => a | None => b end.

(** The [set] clause of a transition. *)
Definition transition_update (now : Z) (requested_status : string) (next_owner : string * string)
    (generation : Z) (args : transition_args) (a : attempt_row) : attempt_row :=
  let terminal := is_terminal requested_status in
  {| a_id := a_id a; a_tenant_id := a_tenant_id a; a_run_id := a_run_id a; a_ordinal := a_ordinal a;
     a_status := requested_status; a_owner_kind := next_owner.1; a_owner_id := next_owner.2;
     a_owner_generation := generation;
     a_queue_message_id := coalesce (ta_queue_message_id args) (a_queue_message_id a);
     a_queue_attempt_id := a_queue_attempt_id a; a_spec := a_spec a;
     a_lease_expires_at := coalesce (ta_lease_expires_at args) (a_lease_expires_at a);
     a_last_heartbeat_at := coalesce (ta_last_heartbeat_at args) (a_last_heartbeat_at a);
     a_started_at := if String.eqb requested_status "running"
                     then coalesce (a_started_at a) (Some now) else a_started_at a;
     a_finished_at := if terminal then Some now else None;
     a_terminal_reason := if terminal then strip (ta_terminal_reason args) else a_terminal_reason a;
     a_error_code := if terminal then ta_error_code args else a_error_code a;
     a_created_at := a_created_at a; a_updated_at := now |}.

Definition transition_run_attempt (now : Z) (tenant_id run_id attempt_id expected_status
    requested_status expected_owner_kind expected_owner_id : string) (expected_owner_generation : Z)
    (args : transition_args) (db : attempt_db) : res (attempt_db * attempt_row) :=
  let! current_owner := validated_attempt_owner expected_owner_kind expected_owner_id in
  let! next_owner :=
    match ta_next_owner_kind args, ta_next_owner_id args with
    | None, None => Ok current_owner
    | Some kind, Some id => validated_attempt_owner kind id
    | _, _ => Raise "run_attempt_next_owner_incomplete"
    end in
  let! decision :=
    decide_run_attempt_transition expected_status requested_status
      (PInt expected_owner_generation) (PInt expected_owner_generation) in
  raise! "run_attempt_expiry_reconciler_required" when
    String.eqb requested_status "expired" && negb (String.eqb next_owner.1 "reconciler");
  raise! "run_attempt_queue_message_id_invalid" when
    match ta_queue_message_id args with Some m => negb (str_truthy (strip m)) | None => false end;
  raise! "run_attempt_terminal_reason_required" when
    is_terminal requested_status && negb (str_truthy (strip (ta_terminal_reason args)));
  let expected := expected_row tenant_id run_id attempt_id expected_status current_owner.1
                    current_owner.2 expected_owner_generation in
  if negb (td_did_transition decision) then
    match List.find expected (db_attempts db) with
    | Some row => Ok (db, row)
    | None => Raise "run_attempt_transition_conflict"
    end
  else
  let locked a :=
    expected a && match db_runs db !! (a_tenant_id a, a_run_id a) with
                  | Some r => run_accepts (td_projected_run_status decision) (r_status r)
                  | None => false
                  end in
  let! out := sql_update_attempt now locked
                (transition_update now requested_status next_owner (td_owner_generation decision) args) db in
  match out with
  | (db, Some row) => Ok (db, row)
  | (_, None) => Raise "run_attempt_transition_conflict"
  end.

(** The transition from the state a row was read in. *)
Definition transition_from (now : Z) (row : attempt_row) (requested_status : string)
    (args : transition_args) (db : attempt_db) : res (attempt_db * attempt_row) :=
  transition_run_attempt now (a_tenant_id row) (a_run_id row) (a_id row) (a_status row) requested_status
    (a_owner_kind row) (a_owner_id row) (a_owner_generation row) args db.

Definition next_ordinal (tenant_id run_id : string) (db : attempt_db) : Z :=
  fold_left Z.max
    (a_ordinal <$> List.filter (fun a => String.eqb (a_tenant_id a) tenant_id
                                         && String.eqb (a_run_id a) run_id) (db_attempts db)) 0 + 1.

Definition start_worker_run_attempt (now : Z) (tenant_id run_id queue_attempt_id worker_id : string)
    (spec : execution_spec) (queue_message_id : option string)
    (lease_expires_at last_heartbeat_at : option datetime) (db : attempt_db)
    : res (attempt_db * attempt_row) :=
  let! '(owner_kind, owner_id) := validated_attempt_owner "queue_worker" worker_id in
  let! queue_lease := validated_worker_queue_lease queue_message_id lease_expires_at last_heartbeat_at in
  match get_run_attempt_for_queue_attempt tenant_id run_id queue_attempt_id db with
  | Some existing =>
      if String.eqb (a_status existing) "running" && String.eqb (a_owner_kind existing) owner_kind
         && String.eqb (a_owner_id existing) owner_id
         && String.eqb (es_sha256 (a_spec existing)) (es_sha256 spec)
         && match queue_lease with
            | None => true
            | Some (message_id, _, _) =>
                String.eqb (default "" (a_queue_message_id existing)) message_id
            end
      then Ok (db, existing) else Raise "run_attempt_worker_start_conflict"
  | None =>
      let! attempt_id := run_attempt_id_for_queue_attempt tenant_id run_id queue_attempt_id in
      let! '(db, attempt) :=
        create_run_attempt now tenant_id run_id attempt_id (next_ordinal tenant_id run_id db)
          owner_kind owner_id queue_attempt_id spec db in
      let lease_args :=
        match queue_lease with
        | Some (message_id, expires, heartbeat) =>
            TransitionArgs None None (Some message_id) (Some expires) (Some heartbeat) "" None
        | None => no_args
        end in
      let! '(db, attempt) := transition_from now attempt "queued" lease_args db in
      let! '(db, attempt) := transition_from now attempt "claimed" no_args db in
      transition_from now attempt "running" no_args db
  end.

Definition assert_worker_run_attempt_current (tenant_id run_id queue_attempt_id worker_id : string)
    (db : attempt_db) : res (option attempt_row) :=
  match get_run_attempt_for_queue_attempt tenant_id run_id queue_attempt_id db with
  | None => Ok None
  | Some row =>
      raise! "run_attempt_worker_authority_stale" when
        negb (String.eqb (a_queue_attempt_id row) queue_attempt_id
              && String.eqb (a_owner_kind row) "queue_worker" && String.eqb (a_owner_id row) worker_id);
      raise! "run_attempt_worker_authority_terminal" when is_terminal (a_status row);
      Ok (Some row)
  end.

(** [last_heartbeat_at is null or last_heartbeat_at <= %s]. *)
Definition null_or_le (a : option Z) (b : Z) : bool := match a with None => true | Some x => x <=? b end.

Definition heartbeat_worker_run_attempt (now : Z) (tenant_id run_id attempt_id queue_attempt_id
    queue_message_id worker_id : string) (expected_owner_generation : Z)
    (lease_expires_at last_heartbeat_at : datetime) (db : attempt_db) : res (attempt_db * attempt_row) :=
  let! '(owner_kind, owner_id) := validated_attempt_owner "queue_worker" worker_id in
  let! queue_lease := validated_worker_queue_lease (Some queue_message_id) (Some lease_expires_at)
                        (Some last_heartbeat_at) in
  match queue_lease with
  | None => Raise "assertion_error"
  | Some (message_id, expires, heartbeat) =>
      raise! "run_attempt_worker_heartbeat_identity_invalid" when
        negb (str_truthy (strip attempt_id) && str_truthy (strip queue_attempt_id));
      raise! "run_attempt_owner_generation_invalid" when expected_owner_generation <? 1;
      let pred a :=
        is_attempt tenant_id run_id attempt_id a && String.eqb (a_queue_attempt_id a) queue_attempt_id
        && bool_decide (a_queue_message_id a = Some message_id) && String.eqb (a_status a) "running"
        && String.eqb (a_owner_kind a) owner_kind && String.eqb (a_owner_id a) owner_id
        && (a_owner_generation a =? expected_owner_generation)
        && null_or_le (a_last_heartbeat_at a) heartbeat && null_or_le (a_lease_expires_at a) expires in
      let upd a :=
        {| a_id := a_id a; a_tenant_id := a_tenant_id a; a_run_id := a_run_id a; a_ordinal := a_ordinal a;
           a_status := a_status a; a_owner_kind := a_owner_kind a; a_owner_id := a_owner_id a;
           a_owner_generation := a_owner_generation a; a_queue_message_id := a_queue_message_id a;
           a_queue_attempt_id := a_queue_attempt_id a; a_spec := a_spec a;
           a_lease_expires_at := Some expires; a_last_heartbeat_at := Some heartbeat;
           a_started_at := a_started_at a; a_finished_at := a_finished_at a;
           a_terminal_reason := a_terminal_reason a; a_error_code := a_error_code a;
           a_created_at := a_created_at a; a_updated_at := now |} in
      let! out := sql_update_attempt now pred upd db in
      match out with
      | (db, Some row) => Ok (db, row)
      | (_, None) => Raise "run_attempt_worker_heartbeat_conflict"
      end
  end.

(** The [set] clause of a cancel takeover. *)
Definition takeover_update (now : Z) (owner : string * string) (a : attempt_row) : attempt_row :=
  {| a_id := a_id a; a_tenant_id := a_tenant_id a; a_run_id := a_run_id a; a_ordinal := a_ordinal a;
     a_status := a_status a; a_owner_kind := owner.1; a_owner_id := owner.2;
     a_owner_generation := a_owner_generation a + 1; a_queue_message_id := a_queue_message_id a;
     a_queue_attempt_id := a_queue_attempt_id a; a_spec := a_spec a;
     a_lease_expires_at := a_lease_expires_at a; a_last_heartbeat_at := a_last_heartbeat_at a;
     a_started_at := a_started_at a; a_finished_at := a_finished_at a;
     a_terminal_reason := a_terminal_reason a; a_error_code := a_error_code a;
     a_created_at := a_created_at a; a_updated_at := now |}.

Definition request_run_attempt_cancel (now : Z) (tenant_id run_id attempt_id : string)
    (next_owner_kind next_owner_id : option string) (db : attempt_db)
    : res (attempt_db * option attempt_row) :=
  raise! "run_attempt_next_owner_incomplete" when
    match next_owner_kind, next_owner_id with Some _, None | None, Some _ => true | _, _ => false end;
  match get_run_attempt tenant_id run_id attempt_id db with
  | None => Ok (db, None)
  | Some row =>
      if String.eqb (a_status row) "cancel_requested" then
        match next_owner_kind, next_owner_id with
        | Some kind, Some id =>
            let! next_owner := validated_attempt_owner kind id in
            let! current_owner := validated_attempt_owner (a_owner_kind row) (a_owner_id row) in
            if bool_decide (next_owner = current_owner) then Ok (db, Some row) else
            raise! "run_attempt_cancel_takeover_reconciler_required" when
              negb (String.eqb next_owner.1 "reconciler");
            let! out :=
              sql_update_attempt now
                (expected_row tenant_id run_id attempt_id "cancel_requested" current_owner.1
                   current_owner.2 (a_owner_generation row))
                (takeover_update now next_owner) db in
            match out with
            | (db, Some transferred) => Ok (db, Some transferred)
            | (_, None) => Raise "run_attempt_cancel_takeover_conflict"
            end
        | _, _ => Ok (db, Some row)
        end
      else if is_terminal (a_status row) then Ok (db, Some row)
      else if str_in (a_status row) ["created"; "queued"] then Ok (db, Some row)
      else if negb (str_in (a_status row) ["claimed"; "running"])
      then Raise "run_attempt_cancel_request_conflict"
      else
        let! '(db, row) :=
          transition_run_attempt now tenant_id run_id attempt_id (a_status row) "cancel_requested"
            (a_owner_kind row) (a_owner_id row) (a_owner_generation row)
            (next_owner_args next_owner_kind next_owner_id) db in
        Ok (db, Some row)
  end.

Definition terminalize_run_attempt (now : Z) (tenant_id run_id attempt_id status terminal_reason : string)
    (error_code : option string) (db : attempt_db) : res (attempt_db * option attempt_row) :=
  raise! "run_attempt_terminal_status_invalid" when negb (is_terminal status);
  match get_run_attempt tenant_id run_id attempt_id db with
  | None => Ok (db, None)
  | Some row =>
      raise! "run_attempt_terminal_projection_conflict" when
        is_terminal (a_status row) && negb (String.eqb (a_status row) status);
      raise! "run_attempt_cancel_request_missing" when
        String.eqb status "cancelled" && str_in (a_status row) ["claimed"; "running"];
      let! '(db, row) :=
        transition_run_attempt now tenant_id run_id attempt_id (a_status row) status
          (a_owner_kind row) (a_owner_id row) (a_owner_generation row)
          (TransitionArgs None None None None None terminal_reason error_code) db in
      Ok (db, Some row)
  end.

(** The steps that move a stale attempt to [expired]. *)
Definition prepare_stale_run_attempt_reconciliation (now : Z) (tenant_id run_id terminal_status
    reconciler_id : string) (db : attempt_db) : res (attempt_db * option attempt_row) :=
  raise! "run_attempt_reconciliation_terminal_status_invalid" when
    negb (str_in terminal_status ["failed"; "cancelled"]);
  let! '(owner_kind, owner_id) := validated_attempt_owner "reconciler" reconciler_id in
  match get_latest_run_attempt tenant_id run_id db with
  | None => Ok (db, None)
  | Some attempt =>
      raise! "run_attempt_reconciliation_terminal_conflict" when is_terminal (a_status attempt);
      if String.eqb terminal_status "cancelled" then
        if str_in (a_status attempt) ["claimed"; "running"; "cancel_requested"] then
          request_run_attempt_cancel now tenant_id run_id (a_id attempt) (Some owner_kind) (Some owner_id) db
        else if str_in (a_status attempt) ["created"; "queued"; "expired"] then Ok (db, Some attempt)
        else Raise "run_attempt_reconciliation_cancel_conflict"
      else
        let args := next_owner_args (Some owner_kind) (Some owner_id) in
        let! '(db, attempt) :=
          if String.eqb (a_status attempt) "created"
          then transition_from now attempt "queued" args db else Ok (db, attempt) in
        let! '(db, attempt) :=
          if String.eqb (a_status attempt) "queued"
          then transition_from now attempt "claimed" args db else Ok (db, attempt) in
        if str_in (a_status attempt) ["claimed"; "running"] then
          let! '(db, attempt) := transition_from now attempt "expired" args db in
          Ok (db, Some attempt)
        else if String.eqb (a_status attempt) "expired" then Ok (db, Some attempt)
        else Raise "run_attempt_reconciliation_failure_conflict"
  end.

(** ** The application service *)

Definition heartbeat_worker (now : Z) (tenant_id run_id queue_attempt_id queue_message_id
    worker_id : string) (lease_expires_at last_heartbeat_at : datetime) (db : attempt_db)
    : res (attempt_db * option attempt_row) :=
  let! current := assert_worker_run_attempt_current tenant_id run_id queue_attempt_id worker_id db in
  match current with
  | None => Ok (db, None)
  | Some attempt =>
      let! '(db, row) :=
        heartbeat_worker_run_attempt now tenant_id run_id (a_id attempt) queue_attempt_id queue_message_id
          worker_id (a_owner_generation attempt) lease_expires_at last_heartbeat_at db in
      Ok (db, Some row)
  end.

Definition terminalize_latest (now : Z) (tenant_id run_id status terminal_reason : string)
    (error_code : option string) (db : attempt_db) : res (attempt_db * option attempt_row) :=
  match get_latest_run_attempt tenant_id run_id db with
  | None => Ok (db, None)
  | Some attempt =>
      let! '(db, attempt) :=
        if String.eqb status "cancelled"
        then request_run_attempt_cancel now tenant_id run_id (a_id attempt) None None db
        else Ok (db, Some attempt) in
      match attempt with
      | None => Ok (db, None)
      | Some attempt =>
          terminalize_run_attempt now tenant_id run_id (a_id attempt) status terminal_reason error_code db
      end
  end.

(** [enforce_user_active_run_admission], under the user's advisory lock. *)
Definition count_active_runs_for_user (tenant_id user_id : string) (db : attempt_db) : Z :=
  Z.of_nat (length (List.filter
    (fun kr => String.eqb kr.1.1 tenant_id && bool_decide (r_user_id kr.2 = Some user_id)
               && str_in (r_status kr.2) ["queued"; "running"]) (map_to_list (db_runs db)))).
Definition enforce_user_active_run_admission (tenant_id user_id : string) (limit : Z)
    (db : attempt_db) : res Z :=
  if limit <=? 0 then Ok 0 else
  let active_count := count_active_runs_for_user tenant_id user_id db in
  raise! "user_active_run_limit_exceeded" when limit <=? active_count;
  Ok active_count.

End Attempts.
