(* ===== verification/RunAttemptFacts.v ===== *)
(** * What run attempts guarantee

    Theorems about [RunAttempt]: the Python rules and the SQL trigger agree, the
    table stays consistent under every operation, an attempt only moves forward,
    and an owner that was replaced is fenced for good. *)
From stdpp Require Import base gmap list strings relations.
From Stdlib Require Import ZArith Lia Ascii.
From S2P Require Import Prelude Redis PyValue QueueClient QueueRuntime RunAttempt.

Section Facts.
Context (sha256_hex : string → string).
Notation insert_attempt := (sql_insert_attempt sha256_hex).
Notation update_attempt := (sql_update_attempt sha256_hex).

(** ** The transition system *)

(** Every change of the two tables: a guarded insert or update of an attempt, or a
    change of runs by another part of the platform. *)
Inductive guarded_step : attempt_db → attempt_db → Prop :=
| step_insert new db db' : insert_attempt new db = Ok db' → guarded_step db db'
| step_update now pred upd db db' row : update_attempt now pred upd db = Ok (db', row) → guarded_step db db'.
Inductive sql_step : attempt_db → attempt_db → Prop :=
| step_guarded db db' : guarded_step db db' → sql_step db db'
| step_runs runs db : sql_step db (AttemptDb runs (db_attempts db)).

(** The constraints of the table. *)
Record attempts_consistent (db : attempt_db) : Prop := {
  ac_checks : Forall (fun a => row_checks sha256_hex a = true) (db_attempts db);
  ac_unique : ∀ i j a b, i ≠ j → db_attempts db !! i = Some a → db_attempts db !! j = Some b →
    rows_conflict a b = false
}.

(** What may happen to a row over time. *)
Record row_evolves (r r' : attempt_row) : Prop := {
  ev_id : same_identity r r' = true;
  ev_generation : a_owner_generation r ≤ a_owner_generation r';
  ev_terminal : is_terminal (a_status r) = true → r' = r;
  ev_fence : a_status r ≠ a_status r' ∨ a_owner_kind r ≠ a_owner_kind r' ∨ a_owner_id r ≠ a_owner_id r' →
    a_owner_generation r < a_owner_generation r';
  ev_heartbeat : heartbeat_regresses (a_last_heartbeat_at r) (a_last_heartbeat_at r') = false ∧
    heartbeat_regresses (a_lease_expires_at r) (a_lease_expires_at r') = false
}.

(** Any operation of the service on attempts. *)
Inductive service_op : attempt_db → attempt_db → Prop :=
| op_start now t r q w spec m e h db db' row :
    start_worker_run_attempt sha256_hex now t r q w spec m e h db = Ok (db', row) → service_op db db'
| op_transition now t r i es rs k o g args db db' row :
    transition_run_attempt sha256_hex now t r i es rs k o g args db = Ok (db', row) → service_op db db'
| op_heartbeat now t r q m w e h db db' row :
    heartbeat_worker sha256_hex now t r q m w e h db = Ok (db', row) → service_op db db'
| op_cancel now t r i k o db db' row :
    request_run_attempt_cancel sha256_hex now t r i k o db = Ok (db', row) → service_op db db'
| op_terminalize now t r i s reason e db db' row :
    terminalize_run_attempt sha256_hex now t r i s reason e db = Ok (db', row) → service_op db db'
| op_prepare now t r s w db db' row :
    prepare_stale_run_attempt_reconciliation sha256_hex now t r s w db = Ok (db', row) → service_op db db'
| op_terminalize_latest now t r s reason e db db' row :
    terminalize_latest sha256_hex now t r s reason e db = Ok (db', row) → service_op db db'.

(** Operations interleaved with changes of runs by other parts of the platform. *)
Inductive attempt_op : attempt_db → attempt_db → Prop :=
| op_service db db' : service_op db db' → attempt_op db db'
| op_runs runs db : attempt_op db (AttemptDb runs (db_attempts db)).

(** What the operations on attempts may do to a run. *)
Record run_evolves (r r' : run_row) : Prop := {
  rv_identity : r_workspace_id r' = r_workspace_id r ∧ r_user_id r' = r_user_id r ∧
    r_session_id r' = r_session_id r ∧ r_agent_id r' = r_agent_id r ∧
    r_execution_kind r' = r_execution_kind r ∧ r_skill_id r' = r_skill_id r ∧
    r_cancel_requested_at r' = r_cancel_requested_at r;
  rv_status : r_status r' = r_status r ∨ (r_status r = "queued" ∧ r_status r' ≠ "queued") ∨
    (r_status r = "running" ∧ is_terminal (r_status r') = true);
  rv_started : r_started_at r ≠ None → r_started_at r' = r_started_at r;
  rv_finished : r_finished_at r ≠ None → r_finished_at r' = r_finished_at r;
  rv_ended : is_terminal (r_status r) = true → r_finished_at r ≠ None → r' = r
}.

(** ** The rules agree *)

Lemma rules_agree old new g :
  str_in old RUN_ATTEMPT_STATUSES = true → str_in new RUN_ATTEMPT_STATUSES = true → 1 ≤ g → old ≠ new →
  (sql_legal_transition old new = true ↔ ∃ d,
     decide_run_attempt_transition old new (PInt g) (PInt g) = Ok d ∧ td_did_transition d = true ∧
     td_owner_generation d = g + 1 ∧ td_status d = new) ∧
  (sql_legal_transition old new = false ↔ ∃ code,
     decide_run_attempt_transition old new (PInt g) (PInt g) = Raise code) ∧
  projected_run_status new = sql_projected_run_status new.
Proof.
  intros Ho Hn Hg Hne. unfold decide_run_attempt_transition. rewrite Ho, Hn. simpl.
  rewrite (proj2 (Z.ltb_ge g 1) Hg), Z.eqb_refl, (proj2 (String.eqb_neq _ _) Hne). simpl negb. cbv iota.
  rewrite str_in_elem in Ho, Hn. unfold RUN_ATTEMPT_STATUSES in *.
  rewrite !elem_of_cons, elem_of_nil in Ho, Hn.
  repeat match goal with H : _ ∨ _ |- _ => destruct H | H : False |- _ => destruct H end; subst;
    try done; (split; [|split; [|done]]); split; intros Hx; (done || (by repeat eexists) ||
      (by destruct Hx as (d & Hd & _)) || (by destruct Hx as (d & Hd))).
Qed.

(** C18.  The Python transition rules and the SQL trigger agree: for all statuses of
    an attempt, the trigger's list of transitions accepts a change of status exactly
    when [decide_run_attempt_transition] authorizes it as a transition, and both
    project the same status onto the run. *)
Theorem python_and_sql_transitions_agree old new g :
  str_in old RUN_ATTEMPT_STATUSES = true → str_in new RUN_ATTEMPT_STATUSES = true → 1 ≤ g → old ≠ new →
  (sql_legal_transition old new = true ↔ ∃ d,
     decide_run_attempt_transition old new (PInt g) (PInt g) = Ok d ∧ td_did_transition d = true ∧
     td_owner_generation d = g + 1 ∧ td_status d = new) ∧
  (sql_legal_transition old new = false ↔ ∃ code,
     decide_run_attempt_transition old new (PInt g) (PInt g) = Raise code) ∧
  projected_run_status new = sql_projected_run_status new.
Proof. apply rules_agree. Qed.

(** ** Updates *)

Lemma update_spec now pred upd db db' row :
  update_attempt now pred upd db = Ok (db', row) →
  (List.find pred (db_attempts db) = None ∧ row = None ∧ db' = db) ∨
  ∃ old dbr, List.find pred (db_attempts db) = Some old ∧ row = Some (upd old) ∧
    guard_heartbeat old (upd old) = Ok tt ∧ guard_update now old (upd old) db = Ok dbr ∧
    row_checks sha256_hex (upd old) = true ∧
    existsb (fun r => negb (String.eqb (a_id r) (a_id old)) && rows_conflict (upd old) r) (db_attempts db) = false ∧
    db' = AttemptDb (db_runs dbr) (replace_attempt (upd old) (db_attempts db)).
Proof.
  unfold sql_update_attempt. destruct (List.find pred (db_attempts db)) as [old|] eqn:Ef.
  2:{ intros [= <- <-]. by left. }
  destruct (guard_heartbeat old (upd old)) as [[]|] eqn:Eh; [|done]. simpl.
  destruct (guard_update now old (upd old) db) as [dbr|] eqn:Eg; [|done]. simpl.
  destruct (row_checks sha256_hex (upd old)) eqn:Ec; [|done]. simpl.
  destruct (existsb _ _) eqn:Ex; [done|]. intros [= <- <-]. right. exists old, dbr.
  assert (db_attempts dbr = db_attempts db) as ->; [|by repeat split].
  unfold guard_update in Eg. repeat case_match; by simplify_eq.
Qed.

Lemma guard_update_evolves now old new db dbr :
  guard_heartbeat old new = Ok tt → guard_update now old new db = Ok dbr → row_evolves old new.
Proof.
  unfold guard_heartbeat, guard_update. intros Hh Hg.
  destruct (heartbeat_regresses (a_last_heartbeat_at old) _) eqn:E1; [done|].
  destruct (heartbeat_regresses (a_lease_expires_at old) _) eqn:E2; [done|].
  destruct (is_terminal (a_status old) && negb (bool_decide (new = old))) eqn:Et; [done|].
  destruct (same_identity old new) eqn:Ei; [|done]. simpl negb in Hg. cbv iota in Hg.
  case_match; [done|].
  assert (is_terminal (a_status old) = true → new = old) as Hterm.
  { intros E. rewrite E in Et. simpl in Et. by to_prop. }
  destruct (String.eqb (a_status new) (a_status old)) eqn:Es; to_prop.
  - destruct ((a_owner_generation new =? a_owner_generation old) && _ && _) eqn:Eo.
    + to_prop. split; try done; [lia|]. intros [?|[?|?]]; congruence.
    + case_match; [|done]. to_prop. split; try done; try lia.
  - repeat case_match; try done. to_prop. split; try done; try lia.
Qed.

Lemma same_identity_id r r' : same_identity r r' = true → a_id r' = a_id r.
Proof. unfold same_identity. intros Hs. by to_prop. Qed.

Lemma evolves_refl r : row_evolves r r.
Proof.
  split; try lia; try done.
  - unfold same_identity. by rewrite !String.eqb_refl, !Z.eqb_refl, bool_decide_true.
  - intros [?|[?|?]]; congruence.
  - unfold heartbeat_regresses. split; case_match; try done; apply Z.ltb_ge; lia.
Qed.

Lemma same_identity_trans a b c :
  same_identity a b = true → same_identity b c = true → same_identity a c = true.
Proof.
  unfold same_identity. intros H1 H2. to_prop. repeat match goal with H : _ = _ |- _ => rewrite H; clear H end.
  by rewrite !String.eqb_refl, !Z.eqb_refl, bool_decide_true.
Qed.

Lemma regresses_trans a b c :
  heartbeat_regresses a b = false → heartbeat_regresses b c = false → heartbeat_regresses a c = false.
Proof.
  unfold heartbeat_regresses. destruct a, b, c; try done. intros H1 H2. to_prop. apply Z.ltb_ge. lia.
Qed.

Lemma evolves_trans a b c : row_evolves a b → row_evolves b c → row_evolves a c.
Proof.
  intros [I1 G1 T1 F1 [H1 L1]] [I2 G2 T2 F2 [H2 L2]]. split.
  - by eapply same_identity_trans.
  - lia.
  - intros Ht. specialize (T1 Ht). subst b. by apply T2.
  - intros Hd. destruct (decide (a_status a = a_status b ∧ a_owner_kind a = a_owner_kind b ∧ a_owner_id a = a_owner_id b))
      as [(E1 & E2 & E3)|Hne].
    + rewrite E1, E2, E3 in Hd. specialize (F2 Hd). lia.
    + assert (a_status a ≠ a_status b ∨ a_owner_kind a ≠ a_owner_kind b ∨ a_owner_id a ≠ a_owner_id b) as Hd'.
      { destruct (decide (a_status a = a_status b)); [|by left].
        destruct (decide (a_owner_kind a = a_owner_kind b)); [|by right; left].
        destruct (decide (a_owner_id a = a_owner_id b)); [|by right; right]. tauto. }
      specialize (F1 Hd'). lia.
  - split; by eapply regresses_trans.
Qed.

(** ** Consistency *)

Lemma rows_conflict_sym a b : rows_conflict a b = rows_conflict b a.
Proof.
  unfold rows_conflict, same_run.
  rewrite (String.eqb_sym (a_id a)), (String.eqb_sym (a_tenant_id a)), (String.eqb_sym (a_run_id a)),
    (Z.eqb_sym (a_ordinal a)), (String.eqb_sym (a_queue_attempt_id a)), (andb_comm (is_open (a_status a))).
  done.
Qed.

Lemma consistent_id_unique db i j a b :
  attempts_consistent db → db_attempts db !! i = Some a → db_attempts db !! j = Some b →
  a_id a = a_id b → i = j.
Proof.
  intros [_ Hu] Ha Hb E. destruct (decide (i = j)) as [|Hne]; [done|].
  specialize (Hu i j a b Hne Ha Hb). unfold rows_conflict in Hu. rewrite E, String.eqb_refl in Hu. done.
Qed.

Lemma find_lookup {A} (f : A → bool) l x : List.find f l = Some x → ∃ i, l !! i = Some x ∧ f x = true.
Proof.
  intros Hf. apply List.find_some in Hf as [Hin Hx]. apply list_elem_of_In, list_elem_of_lookup in Hin as [i Hi]. eauto.
Qed.

Lemma replace_lookup new rows j r :
  rows !! j = Some r → replace_attempt new rows !! j = Some (if String.eqb (a_id r) (a_id new) then new else r).
Proof. intros Hj. unfold replace_attempt. by rewrite list_lookup_fmap, Hj. Qed.

Lemma replace_lookup_inv new rows j r' :
  replace_attempt new rows !! j = Some r' →
  ∃ r, rows !! j = Some r ∧ r' = (if String.eqb (a_id r) (a_id new) then new else r).
Proof.
  unfold replace_attempt. rewrite list_lookup_fmap. intros (r & Hr & ->)%fmap_Some. eauto.
Qed.

Lemma existsb_false_lookup {A} (f : A → bool) l i x :
  existsb f l = false → l !! i = Some x → f x = false.
Proof.
  intros He Hi. destruct (f x) eqn:E; [|done]. rewrite <- He. symmetry. apply existsb_exists. exists x.
  split; [|done]. apply list_elem_of_In. by eapply list_elem_of_lookup_2.
Qed.

Lemma consistent_insert new db db' :
  attempts_consistent db → insert_attempt new db = Ok db' → attempts_consistent db'.
Proof.
  intros [Hc Hu]. unfold sql_insert_attempt. destruct (guard_insert new db) as [[]|]; simpl; [|done].
  destruct (row_checks sha256_hex new) eqn:Er; [|done]. simpl.
  destruct (existsb _ _) eqn:Ex; [done|]. intros [= <-]. split; simpl.
  - apply Forall_app_2; [done|by constructor].
  - assert (∀ i a, db_attempts db !! i = Some a → rows_conflict new a = false) as Hnew.
    { intros i a. by apply existsb_false_lookup. }
    intros i j a b Hne Ha Hb. apply lookup_app_Some in Ha as [Ha|[Hi Ha]], Hb as [Hb|[Hj Hb]].
    + by eapply Hu.
    + apply list_lookup_singleton_Some in Hb as [_ <-]. rewrite rows_conflict_sym. eauto.
    + apply list_lookup_singleton_Some in Ha as [_ <-]. eauto.
    + apply list_lookup_singleton_Some in Ha as [Ha _], Hb as [Hb _]. lia.
Qed.

Lemma consistent_update now pred upd db db' row :
  attempts_consistent db → update_attempt now pred upd db = Ok (db', row) → attempts_consistent db'.
Proof.
  intros Hcons [(_ & _ & ->)|(old & dbr & Hf & _ & Hh & Hg & Hchk & Hex & ->)]%update_spec; [done|].
  pose proof (guard_update_evolves _ _ _ _ _ Hh Hg) as Hev.
  pose proof (same_identity_id _ _ (ev_id _ _ Hev)) as Hid.
  apply find_lookup in Hf as (k & Hk & _). set (new := upd old) in *.
  pose proof Hcons as [Hc Hu]. split; simpl.
  - apply Forall_lookup. intros j r' (r & Hr & ->)%replace_lookup_inv. case_match; [done|].
    exact (Forall_lookup_1 _ _ _ _ Hc Hr).
  - assert (∀ i a, db_attempts db !! i = Some a → i ≠ k → rows_conflict new a = false) as Hnew.
    { intros i a Hi Hne. pose proof (existsb_false_lookup _ _ _ _ Hex Hi) as Hb. cbv beta in Hb.
      destruct (String.eqb (a_id a) (a_id old)) eqn:E; [|done]. to_prop.
      destruct Hne. by eapply consistent_id_unique. }
    assert (∀ i a, db_attempts db !! i = Some a → String.eqb (a_id a) (a_id new) = bool_decide (i = k)) as Hat.
    { intros i a Hi. rewrite Hid. case_bool_decide as E.
      - subst. simplify_eq. apply String.eqb_refl.
      - apply String.eqb_neq. intros Hc'. by apply E, (consistent_id_unique db i k a old). }
    intros i j a' b' Hne (a & Ha & ->)%replace_lookup_inv (b & Hb & ->)%replace_lookup_inv.
    rewrite (Hat _ _ Ha), (Hat _ _ Hb). repeat case_bool_decide; subst; try done.
    + eapply Hnew; [exact Hb|done].
    + rewrite rows_conflict_sym. eapply Hnew; [exact Ha|done].
    + by eapply (Hu i j).
Qed.

Lemma consistent_step db db' : sql_step db db' → attempts_consistent db → attempts_consistent db'.
Proof.
  intros [? ? [new d d' Hi|now pred upd d d' row Hu]|runs d] Hc;
    [by eapply consistent_insert|by eapply consistent_update|]. by destruct Hc.
Qed.

Lemma step_evolves db db' r :
  sql_step db db' → attempts_consistent db → r ∈ db_attempts db →
  ∃ r', r' ∈ db_attempts db' ∧ row_evolves r r'.
Proof.
  intros Hs Hc Hin. destruct Hs as [? ? [new d d' Hi|now pred upd d d' row Hu]|runs d].
  - exists r. split; [|apply evolves_refl]. revert Hi. unfold sql_insert_attempt.
    destruct (guard_insert new d) as [[]|]; simpl; [|done]. do 2 (case_match; [done|]).
    intros [= <-]. simpl. apply elem_of_app. by left.
  - apply update_spec in Hu as [(_ & _ & ->)|(old & dbr & Hf & _ & Hh & Hg & _ & _ & ->)];
      [exists r; split; [done|apply evolves_refl]|].
    pose proof (guard_update_evolves _ _ _ _ _ Hh Hg) as Hev.
    pose proof (same_identity_id _ _ (ev_id _ _ Hev)) as Hid.
    apply list_elem_of_lookup in Hin as [j Hj]. pose proof (replace_lookup (upd old) _ _ _ Hj) as Hr'.
    eexists. split; [by eapply list_elem_of_lookup_2|]. destruct (String.eqb (a_id r) (a_id (upd old))) eqn:E.
    + to_prop. apply find_lookup in Hf as (k & Hk & _).
      assert (j = k) as -> by (eapply (consistent_id_unique d); [done..|congruence]). by simplify_eq.
    + apply evolves_refl.
  - exists r. split; [done|apply evolves_refl].
Qed.

Lemma steps_evolve db db' r :
  rtc sql_step db db' → attempts_consistent db → r ∈ db_attempts db →
  attempts_consistent db' ∧ ∃ r', r' ∈ db_attempts db' ∧ row_evolves r r'.
Proof.
  intros Hs. revert r. induction Hs as [db|db db1 db2 Hs _ IH]; intros r Hc Hin.
  - split; [done|]. exists r. split; [done|apply evolves_refl].
  - destruct (step_evolves _ _ _ Hs Hc Hin) as (r1 & Hin1 & Hev).
    destruct (IH r1) as (Hc' & r2 & Hin2 & Hev2); [by eapply consistent_step|done|].
    split; [done|]. exists r2. split; [done|by eapply evolves_trans].
Qed.

(** ** Operations are guarded steps *)

Lemma transition_steps now t r i es rs k o g args db db' row :
  transition_run_attempt sha256_hex now t r i es rs k o g args db = Ok (db', row) → rtc guarded_step db db'.
Proof.
  unfold transition_run_attempt. intros E. run_res E.
  - simplify_eq. constructor.
  - simplify_eq. eapply rtc_once, step_update. done.
Qed.

Lemma create_steps now t r i n k o q spec db db' row :
  create_run_attempt sha256_hex now t r i n k o q spec db = Ok (db', row) → rtc guarded_step db db'.
Proof.
  unfold create_run_attempt. intros E. run_res E. simplify_eq. by eapply rtc_once, step_insert.
Qed.

Lemma start_steps now t r q w spec m e h db db' row :
  start_worker_run_attempt sha256_hex now t r q w spec m e h db = Ok (db', row) → rtc guarded_step db db'.
Proof.
  unfold start_worker_run_attempt, transition_from. intros E. run_res E.
  { simplify_eq. constructor. }
  all: match goal with H : create_run_attempt _ _ _ _ _ _ _ _ _ _ _ = _ |- _ => apply create_steps in H end.
  all: repeat match goal with H : transition_run_attempt _ _ _ _ _ _ _ _ _ _ _ _ = _ |- _ =>
         apply transition_steps in H end.
  all: repeat (etransitivity; [eassumption|]); done.
Qed.

Lemma heartbeat_steps now t r q m w e h db db' row :
  heartbeat_worker sha256_hex now t r q m w e h db = Ok (db', row) → rtc guarded_step db db'.
Proof.
  unfold heartbeat_worker. intros E. run_res E; simplify_eq; [|constructor].
  match goal with H : heartbeat_worker_run_attempt _ _ _ _ _ _ _ _ _ _ _ _ = _ |- _ => rename H into Hh end.
  unfold heartbeat_worker_run_attempt in Hh. run_res Hh.
  all: simplify_eq; by eapply rtc_once, step_update.
Qed.

Lemma cancel_steps now t r i k o db db' row :
  request_run_attempt_cancel sha256_hex now t r i k o db = Ok (db', row) → rtc guarded_step db db'.
Proof.
  unfold request_run_attempt_cancel. intros E. run_res E; simplify_eq; try constructor;
    first [by eapply transition_steps | by eapply rtc_once, step_update | idtac].
Qed.

Lemma terminalize_steps now t r i s reason e db db' row :
  terminalize_run_attempt sha256_hex now t r i s reason e db = Ok (db', row) → rtc guarded_step db db'.
Proof.
  unfold terminalize_run_attempt. intros E. run_res E; simplify_eq; try constructor. by eapply transition_steps.
Qed.

Lemma prepare_steps now t r s w db db' row :
  prepare_stale_run_attempt_reconciliation sha256_hex now t r s w db = Ok (db', row) → rtc guarded_step db db'.
Proof.
  unfold prepare_stale_run_attempt_reconciliation, transition_from. intros E. run_res E; simplify_eq;
    try constructor; try (by eapply cancel_steps).
  all: repeat match goal with
         | H : (if _ then _ else _) = Ok _ |- _ => run_res H; simplify_eq end.
  all: repeat match goal with H : transition_run_attempt _ _ _ _ _ _ _ _ _ _ _ _ = _ |- _ =>
         apply transition_steps in H end.
  all: repeat (etransitivity; [eassumption|]); done.
Qed.

Lemma terminalize_latest_steps now t r s reason e db db' row :
  terminalize_latest sha256_hex now t r s reason e db = Ok (db', row) → rtc guarded_step db db'.
Proof.
  unfold terminalize_latest. intros E. run_res E; simplify_eq; try constructor.
  all: repeat match goal with
         | H : (if _ then _ else _) = Ok _ |- _ => run_res H; simplify_eq
         | H : request_run_attempt_cancel _ _ _ _ _ _ _ _ = _ |- _ => apply cancel_steps in H
         | H : terminalize_run_attempt _ _ _ _ _ _ _ _ _ = _ |- _ => apply terminalize_steps in H end.
  all: try done; etransitivity; eassumption.
Qed.

Lemma service_steps db db' : service_op db db' → rtc guarded_step db db'.
Proof.
  destruct 1; eauto using start_steps, transition_steps, heartbeat_steps, cancel_steps,
    terminalize_steps, prepare_steps, terminalize_latest_steps.
Qed.

Lemma op_steps db db' : attempt_op db db' → rtc sql_step db db'.
Proof.
  destruct 1 as [db db' Hs%service_steps|]; [|apply rtc_once, step_runs].
  induction Hs as [|d1 d2 d3 Hg _ IH]; [constructor|]. econstructor; [by apply step_guarded|done].
Qed.

Lemma ops_steps db db' : rtc attempt_op db db' → rtc sql_step db db'.
Proof. induction 1; [constructor|]. etransitivity; [by apply op_steps|done]. Qed.

(** C16.  Attempts are consistent and only move forward: every sequence of attempt
    operations, interleaved with any changes other parts make to runs, keeps the
    table consistent (unique identities, ordinals and queue attempts, at most one
    open attempt of a run), and every attempt keeps its identity and its execution
    spec, never loses a heartbeat or a lease extension, never lowers its owner
    generation, raises it whenever its status or owner changes, and does not change
    at all once it is terminal. *)
Theorem attempts_only_move_forward db db' :
  attempts_consistent db → rtc attempt_op db db' →
  attempts_consistent db' ∧
  ∀ r, r ∈ db_attempts db → ∃ r', r' ∈ db_attempts db' ∧ row_evolves r r'.
Proof.
  intros Hc Hs%ops_steps. split.
  - clear -Hc Hs. induction Hs as [|? ? ? Hs _ IH]; [done|]. apply IH. by eapply consistent_step.
  - intros r Hin. by eapply steps_evolve.
Qed.

(** ** Runs *)

Lemma run_evolves_refl r : run_evolves r r.
Proof. split; auto. by split_and!. Qed.

Lemma accepted_status projected status :
  run_accepts projected status = true →
  projected = status ∨ (status = "queued" ∧ projected ≠ "queued") ∨ (status = "running" ∧ is_terminal projected = true).
Proof.
  unfold run_accepts. rewrite !orb_true_iff. intros [[E|E]|E]; to_prop; subst.
  - by left.
  - match goal with E : str_in _ _ = true |- _ => rewrite str_in_elem, !elem_of_cons, elem_of_nil in E end.
    naive_solver.
  - match goal with E : str_in status _ = true |- _ => rewrite str_in_elem, !elem_of_cons, elem_of_nil in E;
      destruct E as [->|[->|[->|[]]]] end.
    + right. left. split; [done|]. by intros ->.
    + by right; right.
    + by left.
Qed.

Lemma project_run_evolves now projected r :
  run_accepts projected (r_status r) = true → run_evolves r (project_run now projected r).
Proof.
  intros Ha. split; simpl.
  - by split_and!.
  - destruct (accepted_status _ _ Ha) as [->|[?|?]]; auto.
  - destruct (r_started_at r); [|done]. by destruct (String.eqb projected "running").
  - destruct (r_finished_at r); [|done]. by destruct (is_terminal projected).
  - intros Ht Hf. destruct (accepted_status _ _ Ha) as [->|[[E _]|[E _]]]; [|by rewrite E in Ht..].
    destruct r as [st ? ? ? ? ? ? ? ? f]. simpl in *. unfold project_run. simpl. rewrite Ht.
    destruct f; [|done]. assert (String.eqb st "running" = false) as ->; [|done].
    destruct (String.eqb_spec st "running") as [->|]; [done|done].
Qed.

Lemma guarded_step_runs db db' k r :
  guarded_step db db' → db_runs db !! k = Some r → ∃ r', db_runs db' !! k = Some r' ∧ run_evolves r r'.
Proof.
  intros [new d d' Hi|now pred upd d d' row Hu] Hr.
  - exists r. split; [|apply run_evolves_refl]. unfold sql_insert_attempt in Hi. run_res Hi. by simplify_eq.
  - apply update_spec in Hu as [(_ & _ & ->)|(old & dbr & _ & _ & _ & Hg & _ & _ & ->)]; simpl;
      [exists r; split; [done|apply run_evolves_refl]|].
    unfold guard_update in Hg. run_res Hg; simplify_eq; simpl; try (by exists r; split; [|apply run_evolves_refl]).
    to_prop. destruct (decide (k = (a_tenant_id (upd old), a_run_id (upd old)))) as [->|Hne].
    + rewrite lookup_insert_eq. simplify_eq. eexists. split; [done|]. by apply project_run_evolves.
    + rewrite lookup_insert_ne by done. exists r. split; [done|apply run_evolves_refl].
Qed.

Lemma status_forward s1 s2 s3 :
  s2 = s1 ∨ (s1 = "queued" ∧ s2 ≠ "queued") ∨ (s1 = "running" ∧ is_terminal s2 = true) →
  s3 = s2 ∨ (s2 = "queued" ∧ s3 ≠ "queued") ∨ (s2 = "running" ∧ is_terminal s3 = true) →
  s3 = s1 ∨ (s1 = "queued" ∧ s3 ≠ "queued") ∨ (s1 = "running" ∧ is_terminal s3 = true).
Proof.
  intros [->|[[-> H1]|[-> H1]]] [->|[[-> H2]|[-> H2]]]; auto; try done.
  right. left. split; [done|]. by intros ->.
Qed.

Lemma run_evolves_trans r1 r2 r3 : run_evolves r1 r2 → run_evolves r2 r3 → run_evolves r1 r3.
Proof.
  intros [I1 S1 T1 F1 E1] [I2 S2 T2 F2 E2]. split.
  - destruct_and?. split_and!; congruence.
  - by eapply status_forward.
  - intros H. rewrite T2, T1; auto. by rewrite T1.
  - intros H. rewrite F2, F1; auto. by rewrite F1.
  - intros Ht Hf. rewrite E2; rewrite ?(E1 Ht Hf); auto.
Qed.

(** Attempts respect their runs: whatever operations on attempts are performed,
    a run keeps its identity and its cancel request, moves only from queued to
    running or to an end and from running to an end, keeps the times it started and
    finished once they are set, and so does not change at all once it has ended and
    its end time is recorded. *)
Lemma attempts_respect_runs db db' k r :
  rtc service_op db db' → db_runs db !! k = Some r →
  ∃ r', db_runs db' !! k = Some r' ∧ run_evolves r r'.
Proof.
  intros Hs. assert (rtc guarded_step db db') as Hg.
  { induction Hs as [|d1 d2 d3 Hop _ IH]; [constructor|]. etransitivity; [by apply service_steps|done]. }
  clear Hs. revert r. induction Hg as [|d1 d2 d3 Hstep _ IH]; intros r Hr; [exists r; split; [done|apply run_evolves_refl]|].
  destruct (guarded_step_runs _ _ _ _ Hstep Hr) as (r1 & Hr1 & E1). destruct (IH r1 Hr1) as (r2 & Hr2 & E2).
  exists r2. split; [done|by eapply run_evolves_trans].
Qed.

(** ** Fencing *)

Lemma consistent_same_row db a b :
  attempts_consistent db → a ∈ db_attempts db → b ∈ db_attempts db → a_id a = a_id b → a = b.
Proof.
  intros Hc [i Hi]%list_elem_of_lookup [j Hj]%list_elem_of_lookup E.
  assert (i = j) as -> by by eapply consistent_id_unique. by simplify_eq.
Qed.

Lemma expected_row_generation t r i s k o g a :
  expected_row t r i s k o g a = true → a_id a = i ∧ a_owner_generation a = g.
Proof. unfold expected_row, is_attempt. intros He. by to_prop. Qed.

Lemma transition_needs_generation now t r i es rs k o g args db out :
  transition_run_attempt sha256_hex now t r i es rs k o g args db = Ok out →
  ∃ a, a ∈ db_attempts db ∧ a_id a = i ∧ a_owner_generation a = g.
Proof.
  unfold transition_run_attempt. intros E. destruct out as [db' row]. run_res E.
  - match goal with H : List.find _ _ = Some _ |- _ => apply find_lookup in H as (n & Hn & Hx) end.
    apply expected_row_generation in Hx as [? ?]. eexists. split; [by eapply list_elem_of_lookup_2|done].
  - match goal with H : update_attempt _ _ _ _ = _ |- _ =>
      apply update_spec in H as [(_ & ? & _)|(old & dbr & Hf & _)]; [done|] end.
    apply find_lookup in Hf as (n & Hn & Hx). to_prop.
    match goal with H : expected_row _ _ _ _ _ _ _ _ = true |- _ => apply expected_row_generation in H as [? ?] end.
    eexists. split; [by eapply list_elem_of_lookup_2|done].
Qed.

Lemma heartbeat_needs_generation now t r i q m w g e h db out :
  heartbeat_worker_run_attempt sha256_hex now t r i q m w g e h db = Ok out →
  ∃ a, a ∈ db_attempts db ∧ a_id a = i ∧ a_owner_generation a = g.
Proof.
  unfold heartbeat_worker_run_attempt. intros E. destruct out as [db' row]. run_res E.
  match goal with H : update_attempt _ _ _ _ = _ |- _ =>
    apply update_spec in H as [(_ & ? & _)|(old & dbr & Hf & _)]; [done|] end.
  apply find_lookup in Hf as (n & Hn & Hx). unfold is_attempt in Hx. to_prop.
  eexists. split; [by eapply list_elem_of_lookup_2|done].
Qed.

(** C17.  A replaced owner is fenced for good: once the status or the owner of an
    attempt has changed from what a worker read, then after any further operations
    no transition and no heartbeat that presents the generation the worker read is
    ever accepted. *)
Theorem replaced_owner_is_fenced db db1 db2 r r1 :
  attempts_consistent db → r ∈ db_attempts db →
  rtc attempt_op db db1 → r1 ∈ db_attempts db1 → a_id r1 = a_id r →
  a_status r ≠ a_status r1 ∨ a_owner_kind r ≠ a_owner_kind r1 ∨ a_owner_id r ≠ a_owner_id r1 →
  rtc attempt_op db1 db2 →
  (∀ now es rs k o args out,
     transition_run_attempt sha256_hex now (a_tenant_id r) (a_run_id r) (a_id r) es rs k o
       (a_owner_generation r) args db2 ≠ Ok out) ∧
  (∀ now q m w e h out,
     heartbeat_worker_run_attempt sha256_hex now (a_tenant_id r) (a_run_id r) (a_id r) q m w
       (a_owner_generation r) e h db2 ≠ Ok out).
Proof.
  intros Hc Hin Hs1%ops_steps Hin1 Hid Hdiff Hs2%ops_steps.
  destruct (steps_evolve _ _ _ Hs1 Hc Hin) as (Hc1 & r1' & Hin1' & Hev1).
  assert (r1' = r1) as ->.
  { eapply consistent_same_row; [done..|]. rewrite (same_identity_id _ _ (ev_id _ _ Hev1)). done. }
  pose proof (ev_fence _ _ Hev1 Hdiff) as Hlt.
  destruct (steps_evolve _ _ _ Hs2 Hc1 Hin1) as (Hc2 & r2 & Hin2 & Hev2).
  pose proof (ev_generation _ _ Hev2) as Hle.
  assert (∀ a, a ∈ db_attempts db2 → a_id a = a_id r → a_owner_generation a = a_owner_generation r → False) as Hno.
  { intros a Ha Hida Hg. assert (a = r2) as ->; [|lia].
    eapply consistent_same_row; [done..|]. rewrite (same_identity_id _ _ (ev_id _ _ Hev2)). congruence. }
  split.
  - intros now es rs k o args out (a & Ha & Hida & Hg)%transition_needs_generation. by apply (Hno a).
  - intros now q m w e h out (a & Ha & Hida & Hg)%heartbeat_needs_generation. by apply (Hno a).
Qed.

(** ** The effect of one transition *)

Lemma replaced_in new rows : (∃ r, r ∈ rows ∧ a_id r = a_id new) → new ∈ replace_attempt new rows.
Proof.
  intros (r & Hin & E). unfold replace_attempt. apply list_elem_of_fmap. exists r.
  by rewrite E, String.eqb_refl.
Qed.

Lemma decide_transition cur req g d :
  decide_run_attempt_transition cur req (PInt g) (PInt g) = Ok d → req ≠ cur →
  td_did_transition d = true ∧ td_owner_generation d = g + 1 ∧
  td_projected_run_status d = projected_run_status req.
Proof.
  unfold decide_run_attempt_transition, valid_generation. intros Hd Hne.
  destruct (g <? 1); run_res Hd; simplify_eq; to_prop; congruence || done.
Qed.

Lemma transition_spec now a rs args db db' row :
  attempts_consistent db → a ∈ db_attempts db → rs ≠ a_status a →
  transition_from sha256_hex now a rs args db = Ok (db', row) →
  ∃ next, row = transition_update now rs next (a_owner_generation a + 1) args a ∧
    attempts_consistent db' ∧ row ∈ db_attempts db' ∧
    (∃ r', db_runs db' !! (a_tenant_id a, a_run_id a) = Some r' ∧ r_status r' = projected_run_status rs) ∧
    match ta_next_owner_kind args, ta_next_owner_id args with
    | Some kind, Some id => validated_attempt_owner kind id = Ok next
    | _, _ => next = (a_owner_kind a, a_owner_id a)
    end.
Proof.
  unfold transition_from, transition_run_attempt. intros Hc Hin Hne E.
  destruct (validated_attempt_owner (a_owner_kind a) (a_owner_id a)) as [cur|] eqn:Hcur; [|done]. simpl in E.
  destruct (match ta_next_owner_kind args with Some _ => _ | None => _ end) as [next|] eqn:Hnext; [|done]. simpl in E.
  destruct (decide_run_attempt_transition _ _ _ _) as [d|] eqn:Hd; [|done]. simpl in E.
  assert (td_did_transition d = true ∧ td_owner_generation d = a_owner_generation a + 1 ∧
    td_projected_run_status d = projected_run_status rs) as (Hd1 & Hd2 & Hd3).
  { by eapply decide_transition. }
  rewrite Hd1, Hd2, Hd3 in E. simpl negb in E. run_res E. simplify_eq.
  match goal with H : update_attempt _ _ _ _ = _ |- _ => rename H into Hu end.
  pose proof (consistent_update _ _ _ _ _ _ Hc Hu) as Hc'.
  apply update_spec in Hu as [(_ & ? & _)|(old & dbr & Hf & Hrow & Hh & Hg & Hchk & Hex & ->)]; [done|].
  apply find_lookup in Hf as (n & Hn & Hx). to_prop.
  match goal with H : expected_row _ _ _ _ _ _ _ _ = true |- _ => rename H into He end.
  assert (old = a) as ->.
  { apply (consistent_same_row db); [done|by eapply list_elem_of_lookup_2|done|].
    by apply expected_row_generation in He as [? _]. }
  simplify_eq. exists next. split; [done|]. split; [done|]. split.
  { simpl. apply replaced_in. exists a. split; [by eapply list_elem_of_lookup_2|done]. }
  split.
  - simpl. revert Hg. unfold guard_update. simpl. rewrite (proj2 (String.eqb_neq _ _) Hne).
    intros Hg. run_res Hg. simplify_eq. simpl. rewrite lookup_insert_eq. eauto.
  - unfold expected_row in He. to_prop. unfold validated_attempt_owner in Hcur. run_res Hcur. simplify_eq. simpl in *.
    repeat case_match; simplify_eq; try done; congruence.
Qed.

Lemma create_spec now t r i n k o q spec db db' row :
  attempts_consistent db → create_run_attempt sha256_hex now t r i n k o q spec db = Ok (db', row) →
  attempts_consistent db' ∧ row ∈ db_attempts db' ∧ a_tenant_id row = t ∧ a_run_id row = r ∧
  a_status row = "created" ∧ a_owner_generation row = 1 ∧ a_owner_kind row = k ∧ a_owner_id row = strip o ∧
  a_queue_attempt_id row = strip q ∧ a_spec row = spec ∧ a_queue_message_id row = None.
Proof.
  unfold create_run_attempt. intros Hc E. run_res E. simplify_eq.
  match goal with H : insert_attempt _ _ = _ |- _ => rename H into Hi end.
  match goal with H : validated_attempt_owner _ _ = _ |- _ => rename H into Hv end.
  split; [by eapply consistent_insert|]. unfold validated_attempt_owner in Hv. run_res Hv. simplify_eq.
  repeat split. unfold sql_insert_attempt in Hi. run_res Hi. simplify_eq. apply elem_of_app. right. by left.
Qed.

Lemma consistent_queue_attempt db a b :
  attempts_consistent db → a ∈ db_attempts db → b ∈ db_attempts db →
  same_run a b = true → a_queue_attempt_id a = a_queue_attempt_id b → a = b.
Proof.
  intros [_ Hu] [i Hi]%list_elem_of_lookup [j Hj]%list_elem_of_lookup Hr Hq.
  destruct (decide (i = j)) as [->|Hne]; [by simplify_eq|].
  specialize (Hu i j a b Hne Hi Hj). unfold rows_conflict in Hu.
  rewrite Hr, Hq, String.eqb_refl in Hu. by rewrite !orb_true_r in Hu.
Qed.

Lemma find_exists {A} (f : A → bool) l x : x ∈ l → f x = true → ∃ y, List.find f l = Some y.
Proof.
  intros Hx Hf. destruct (List.find f l) as [y|] eqn:E; [eauto|].
  eapply List.find_none in E; [|by apply list_elem_of_In]. congruence.
Qed.

(** What a start that creates an attempt leaves behind. *)
Lemma worker_start_new now t r q w spec m e h db db' row :
  attempts_consistent db → strip q = q →
  get_run_attempt_for_queue_attempt t r q db = None →
  start_worker_run_attempt sha256_hex now t r q w spec m e h db = Ok (db', row) →
  attempts_consistent db' ∧ row ∈ db_attempts db' ∧
  (∃ run, db_runs db' !! (t, r) = Some run ∧ r_status run = "running") ∧ a_queue_message_id row = m ∧
  a_status row = "running" ∧ a_owner_kind row = "queue_worker" ∧ a_owner_id row = strip w ∧
  a_owner_generation row = 4 ∧ a_spec row = spec ∧ a_queue_attempt_id row = q ∧
  a_tenant_id row = t ∧ a_run_id row = r.
Proof.
  intros Hc Hq Hnone. unfold start_worker_run_attempt. intros E. rewrite Hnone in E.
  destruct (validated_attempt_owner "queue_worker" w) as [[k o]|] eqn:Hown; [|done]. simpl in E.
  destruct (validated_worker_queue_lease m e h) as [lease|] eqn:Hlease; [|done]. simpl in E.
  assert (k = "queue_worker" ∧ o = strip w ∧ strip o = o) as (-> & Ho & Hso).
  { unfold validated_attempt_owner in Hown. run_res Hown. simplify_eq. by rewrite strip_idem. }
  destruct (run_attempt_id_for_queue_attempt _ _ _ _) as [aid|]; [|done]. simpl in E.
  destruct (create_run_attempt _ _ _ _ _ _ _ _ _ _ _) as [[db0 a0]|] eqn:Ecreate; [|done]. simpl in E.
  destruct (create_spec _ _ _ _ _ _ _ _ _ _ _ _ Hc Ecreate)
    as (Hc0 & Hin0 & Ht0 & Hr0 & Hs0 & Hg0 & Hk0 & Ho0 & Hq0 & Hsp0 & Hm0).
  destruct (transition_from _ _ a0 _ _ _) as [[db1 a1]|] eqn:E1; [|done]. simpl in E.
  destruct (transition_spec now a0 "queued" _ _ _ _ Hc0 Hin0 ltac:(rewrite Hs0; discriminate) E1) as (n1 & Ha1 & Hc1 & Hin1 & _ & Hn1).
  assert (n1 = (a_owner_kind a0, a_owner_id a0)) as -> by (destruct lease as [[[? ?] ?]|]; done).
  destruct (transition_from _ _ a1 _ _ _) as [[db2 a2]|] eqn:E2; [|done]. simpl in E.
  destruct (transition_spec now a1 "claimed" _ _ _ _ Hc1 Hin1 ltac:(rewrite Ha1; discriminate) E2) as (n2 & Ha2 & Hc2 & Hin2 & _ & Hn2).
  destruct (transition_spec now a2 "running" _ _ _ _ Hc2 Hin2 ltac:(rewrite Ha2; discriminate) E) as (n3 & Ha3 & Hc3 & Hin3 & (run & Hrun & Hst) & Hn3).
  simpl in Hn2, Hn3. subst n2 n3. subst a1 a2. simpl in *. rewrite Ht0, Hr0 in Hrun.
  assert (a_queue_message_id row = m) as Hm.
  { subst row. simpl. rewrite Hm0. destruct lease as [[[m' ?] ?]|]; simpl;
      unfold validated_worker_queue_lease in Hlease; repeat case_match; by simplify_eq. }
  split; [done|]. split; [done|]. split; [eauto|]. split; [done|].
  subst row. simpl. rewrite Hk0, Ho0, Hg0, Hsp0, Hq0, Hso. auto 10.
Qed.

(** Starting a worker attempt is all or nothing and repeatable: when
    [start_worker_run_attempt] starts a new attempt, the attempt it returns is
    running, owned by that worker at generation 4, carries the given spec and lease
    message, and its run is running; calling it again with the same arguments, at
    any later time, returns the same attempt and changes nothing. *)
Lemma worker_start_is_repeatable now now' t r q w spec m e h db db' row :
  attempts_consistent db → strip q = q →
  get_run_attempt_for_queue_attempt t r q db = None →
  start_worker_run_attempt sha256_hex now t r q w spec m e h db = Ok (db', row) →
  a_status row = "running" ∧ a_owner_kind row = "queue_worker" ∧ a_owner_id row = strip w ∧
  a_owner_generation row = 4 ∧ a_spec row = spec ∧ a_queue_message_id row = m ∧
  (∃ run, db_runs db' !! (t, r) = Some run ∧ r_status run = "running") ∧
  start_worker_run_attempt sha256_hex now' t r q w spec m e h db' = Ok (db', row).
Proof.
  intros Hc Hq Hnone E. pose proof E as E'. unfold start_worker_run_attempt in E'.
  destruct (validated_attempt_owner "queue_worker" w) as [[k o]|] eqn:Hown; [|done]. simpl in E'.
  destruct (validated_worker_queue_lease m e h) as [lease|] eqn:Hlease; [|done]. clear E'.
  destruct (worker_start_new _ _ _ _ _ _ _ _ _ _ _ _ Hc Hq Hnone E)
    as (Hc' & Hin & Hrun & Hm & F1 & F2 & F3 & F4 & F5 & F6 & F7 & F8).
  assert (k = "queue_worker" ∧ o = strip w) as [-> Ho].
  { unfold validated_attempt_owner in Hown. run_res Hown. by simplify_eq. }
  repeat (split; [done|]).
  unfold start_worker_run_attempt. rewrite Hown, Hlease. simpl.
  destruct (find_exists (fun a => String.eqb (a_tenant_id a) t && String.eqb (a_run_id a) r
                      && String.eqb (a_queue_attempt_id a) q) (db_attempts db') row) as [y Hy]; [done| |].
  { by rewrite F6, F7, F8, !String.eqb_refl. }
  unfold get_run_attempt_for_queue_attempt. rewrite Hy. pose proof Hy as Hy'.
  apply find_lookup in Hy' as (n & Hn & Hyq). to_prop.
  assert (y = row) as ->.
  { apply (consistent_queue_attempt db'); [done|by eapply list_elem_of_lookup_2|done| |congruence].
    unfold same_run. apply andb_true_iff. split; apply String.eqb_eq; congruence. }
  rewrite F1, F2, F3, F5, Hm, Ho, !String.eqb_refl. simpl.
  unfold validated_worker_queue_lease in Hlease. repeat case_match; simplify_eq; simpl in *; try done.
  all: by rewrite String.eqb_refl in *.
Qed.

(** ** Progress *)

Lemma row_checks_parts a :
  row_checks sha256_hex a = true →
  str_in (a_status a) RUN_ATTEMPT_STATUSES = true ∧ str_in (a_owner_kind a) RUN_ATTEMPT_OWNER_KINDS = true ∧
  str_truthy (a_owner_id a) = true ∧ 1 ≤ a_owner_generation a.
Proof. unfold row_checks. intros Hc. to_prop. repeat split; try done; lia. Qed.

Lemma row_checks_transition now rs next a args :
  row_checks sha256_hex a = true → ta_queue_message_id args = None →
  str_in rs RUN_ATTEMPT_STATUSES = true → str_in next.1 RUN_ATTEMPT_OWNER_KINDS = true →
  str_truthy next.2 = true →
  row_checks sha256_hex (transition_update now rs next (a_owner_generation a + 1) args a) = true.
Proof.
  unfold row_checks. simpl. intros Hc Hq Hs Hk Ho. rewrite Hq, Hs, Hk, Ho. simpl. to_prop.
  repeat match goal with H : _ = true |- _ => rewrite H end.
  rewrite (proj2 (Z.ltb_lt 0 (a_ordinal a))), (proj2 (Z.ltb_lt 0 (a_owner_generation a + 1))) by lia.
  rewrite bool_decide_false by done. destruct (is_terminal rs); simpl;
    repeat match goal with |- context [String.eqb ?x ?x] => rewrite String.eqb_refl
                         | H : es_sha256 _ = _ |- _ => rewrite <- H end; by rewrite ?String.eqb_refl.
Qed.

(** A status from which the table lists a transition is open. *)
Lemma legal_from_open old new : sql_legal_transition old new = true → is_open old = true ∧ is_terminal old = false.
Proof.
  unfold sql_legal_transition. rewrite !orb_true_iff, !andb_true_iff, !String.eqb_eq.
  intros Hl. destruct Hl as [[[[[[-> _]|[-> _]]|[-> _]]|[-> _]]|[-> _]]|[-> _]]; done.
Qed.

Lemma rows_conflict_transition now rs next g args a b :
  is_open (a_status a) = true → rows_conflict a b = false →
  rows_conflict (transition_update now rs next g args a) b = false.
Proof.
  unfold rows_conflict, same_run. simpl. intros Ho. rewrite Ho. destruct (String.eqb (a_id a) (a_id b)); [done|]. simpl.
  destruct (String.eqb (a_tenant_id a) (a_tenant_id b) && _); simpl; [|done].
  intros Hc. to_prop. repeat match goal with H : _ = false |- _ => rewrite H end.
  rewrite andb_false_r. destruct (a_ordinal a =? a_ordinal b) eqn:E; [to_prop; done|].
  destruct (String.eqb _ _) eqn:E2; [to_prop; done|]. done.
Qed.

(** The guards accept the update of a legal transition. *)
Lemma update_progress now a rs next args db run :
  attempts_consistent db → a ∈ db_attempts db →
  sql_legal_transition (a_status a) rs = true → a_status a ≠ rs → str_in rs RUN_ATTEMPT_STATUSES = true →
  str_in next.1 RUN_ATTEMPT_OWNER_KINDS = true → str_truthy next.2 = true →
  ta_queue_message_id args = None → ta_lease_expires_at args = None → ta_last_heartbeat_at args = None →
  (rs = "expired" → next.1 = "reconciler") →
  db_runs db !! (a_tenant_id a, a_run_id a) = Some run →
  run_accepts (projected_run_status rs) (r_status run) = true →
  ∃ db' row, update_attempt now (fun a0 =>
      expected_row (a_tenant_id a) (a_run_id a) (a_id a) (a_status a)
        (a_owner_kind a) (a_owner_id a) (a_owner_generation a) a0 &&
      match db_runs db !! (a_tenant_id a0, a_run_id a0) with
      | Some r => run_accepts (projected_run_status rs) (r_status r)
      | None => false
      end) (transition_update now rs next (a_owner_generation a + 1) args) db = Ok (db', Some row).
Proof.
  intros Hc Hin Hlegal Hne Hrs Hnk Hni Hq Hle Hlh Hexp Hrun Hacc.
  pose proof Hin as [i Hi]%list_elem_of_lookup.
  pose proof (Forall_lookup_1 _ _ _ _ (ac_checks _ Hc) Hi) as Hca.
  destruct (legal_from_open _ _ Hlegal) as [Hopen Hnt].
  unfold sql_update_attempt. match goal with |- context [List.find ?f _] => set (pred := f) end.
  assert (pred a = true) as Hpa.
  { unfold pred, expected_row, is_attempt. by rewrite !String.eqb_refl, Z.eqb_refl, Hrun, Hacc. }
  destruct (find_exists pred (db_attempts db) a Hin Hpa) as [y Hy]. rewrite Hy.
  assert (y = a) as ->.
  { apply find_lookup in Hy as (n & Hn & Hy). unfold pred in Hy. to_prop.
    apply (consistent_same_row db); [done|by eapply list_elem_of_lookup_2|done|].
    by match goal with H : expected_row _ _ _ _ _ _ _ _ = true |- _ => apply expected_row_generation in H as [? _] end. }
  set (new := transition_update _ _ _ _ _ _).
  assert (guard_heartbeat a new = Ok tt) as ->.
  { pose proof (ev_heartbeat _ _ (evolves_refl a)) as [E1 E2]. unfold guard_heartbeat, new. simpl.
    rewrite Hle, Hlh. simpl. by rewrite E1, E2. }
  assert (∃ dbr, guard_update now a new db = Ok dbr) as [dbr Hg].
  { unfold guard_update, new. simpl. rewrite Hnt, Hq. simpl.
    assert (same_identity a (transition_update now rs next (a_owner_generation a + 1) args a) = true) as ->.
    { unfold same_identity. simpl. by rewrite !String.eqb_refl, !Z.eqb_refl, bool_decide_true. }
    simpl. rewrite bool_decide_true by done. simpl. rewrite (proj2 (String.eqb_neq rs (a_status a))) by congruence.
    rewrite Z.eqb_refl. simpl.
    assert (String.eqb rs "expired" && negb (String.eqb next.1 "reconciler") = false) as ->.
    { destruct (String.eqb_spec rs "expired") as [E|]; [|done]. by rewrite (Hexp E). }
    rewrite Hlegal, Hrun. change (sql_projected_run_status rs) with (projected_run_status rs). rewrite Hacc. eauto. }
  rewrite Hg. simpl. unfold new at 1. rewrite row_checks_transition by done. simpl negb. cbv iota.
  assert (existsb (fun r => negb (String.eqb (a_id r) (a_id a)) && rows_conflict new r) (db_attempts db) = false) as ->.
  { apply not_true_is_false. intros (r & Hr & Hx)%existsb_exists. to_prop.
    apply list_elem_of_In, list_elem_of_lookup in Hr as [j Hj].
    assert (rows_conflict new r = false); [|congruence]. apply rows_conflict_transition; [done|].
    apply (ac_unique _ Hc i j); [|done..]. intros ->. by simplify_eq. }
  eauto.
Qed.

(** What a legal transition of a stored attempt needs: a run that accepts it. *)
Lemma transition_progress now a rs args db next run :
  attempts_consistent db → a ∈ db_attempts db → strip (a_owner_id a) = a_owner_id a →
  sql_legal_transition (a_status a) rs = true → str_in rs RUN_ATTEMPT_STATUSES = true →
  ta_queue_message_id args = None → ta_lease_expires_at args = None → ta_last_heartbeat_at args = None →
  match ta_next_owner_kind args, ta_next_owner_id args with
  | Some kind, Some id => validated_attempt_owner kind id = Ok next
  | None, None => next = (a_owner_kind a, a_owner_id a)
  | _, _ => False
  end →
  (rs = "expired" → next.1 = "reconciler") →
  (is_terminal rs = true → str_truthy (strip (ta_terminal_reason args)) = true) →
  db_runs db !! (a_tenant_id a, a_run_id a) = Some run →
  run_accepts (projected_run_status rs) (r_status run) = true →
  ∃ db' row, transition_from sha256_hex now a rs args db = Ok (db', row).
Proof.
  intros Hc Hin Hstrip Hlegal Hrs Hq Hle Hlh Hnext Hexp Hreason Hrun Hacc.
  destruct Hc as [Hchk Huniq]. pose proof Hin as [i Hi]%list_elem_of_lookup.
  pose proof (Forall_lookup_1 _ _ _ _ Hchk Hi) as Hca.
  destruct (row_checks_parts a Hca) as (Hst & Hkind & Hid & Hgen).
  destruct (legal_from_open _ _ Hlegal) as [Hopen Hnt].
  assert (a_status a ≠ rs) as Hne.
  { intros <-. revert Hlegal. rewrite str_in_elem in Hst. unfold RUN_ATTEMPT_STATUSES in Hst.
    rewrite !elem_of_cons, elem_of_nil in Hst.
    repeat match goal with H : _ ∨ _ |- _ => destruct H as [->|H] end; done. }
  assert (validated_attempt_owner (a_owner_kind a) (a_owner_id a) = Ok (a_owner_kind a, a_owner_id a)) as Hcur.
  { unfold validated_attempt_owner. by rewrite Hkind, Hstrip, Hid. }
  destruct (proj1 (proj1 (rules_agree _ _ _ Hst Hrs Hgen Hne)) Hlegal)
    as (d & Hd & Hd1 & Hd2 & Hd3).
  assert (td_projected_run_status d = projected_run_status rs) as Hd4.
  { by eapply decide_transition. }
  assert (str_in next.1 RUN_ATTEMPT_OWNER_KINDS = true ∧ str_truthy next.2 = true) as [Hnk Hni].
  { destruct (ta_next_owner_kind args) as [k|], (ta_next_owner_id args) as [o|]; try done; [|by subst].
    unfold validated_attempt_owner in Hnext. run_res Hnext. simplify_eq. to_prop. simpl.
    done. }
  unfold transition_from, transition_run_attempt. rewrite Hcur. simpl res_bind.
  assert (∀ x, match ta_next_owner_kind args with
    | Some kind => match ta_next_owner_id args with
                   | Some id => validated_attempt_owner kind id
                   | None => Raise "run_attempt_next_owner_incomplete" end
    | None => match ta_next_owner_id args with
              | Some _ => Raise "run_attempt_next_owner_incomplete" | None => Ok x end
    end = Ok next ∨ x ≠ (a_owner_kind a, a_owner_id a)) as Hn.
  { intros x. destruct (decide (x = (a_owner_kind a, a_owner_id a))) as [->|]; [left|by right].
    destruct (ta_next_owner_kind args), (ta_next_owner_id args); try done. by rewrite Hnext. }
  destruct (Hn (a_owner_kind a, a_owner_id a)) as [-> | ?]; [|done]. simpl. rewrite Hd. simpl. rewrite Hq, Hd1, Hd2, Hd4.
  assert (String.eqb rs "expired" && negb (String.eqb next.1 "reconciler") = false) as ->.
  { destruct (String.eqb_spec rs "expired") as [E|]; [|done]. by rewrite (Hexp E). }
  assert (is_terminal rs && negb (str_truthy (strip (ta_terminal_reason args))) = false) as ->.
  { destruct (is_terminal rs) eqn:E; [|done]. by rewrite Hreason. }
  simpl negb. cbv iota.
  assert (∃ db' row, update_attempt now (fun a0 => expected_row (a_tenant_id a) (a_run_id a) (a_id a) (a_status a)
      (a_owner_kind a) (a_owner_id a) (a_owner_generation a) a0 &&
      match db_runs db !! (a_tenant_id a0, a_run_id a0) with
      | Some r => run_accepts (projected_run_status rs) (r_status r) | None => false end)
      (transition_update now rs next (a_owner_generation a + 1) args) db = Ok (db', Some row)) as (db' & row & ->);
    [|simpl; eauto].
  by eapply update_progress.
Qed.

(** ** Reconciliation *)

Lemma latest_in t r db a :
  get_latest_run_attempt t r db = Some a → a ∈ db_attempts db ∧ a_tenant_id a = t ∧ a_run_id a = r.
Proof.
  unfold get_latest_run_attempt. set (l := List.filter _ _).
  assert (∀ x, x ∈ l → x ∈ db_attempts db ∧ a_tenant_id x = t ∧ a_run_id x = r) as Hl.
  { intros x Hx. apply list_elem_of_In, filter_In in Hx as [Hx Hf]. to_prop.
    split; [by apply list_elem_of_In|done]. }
  enough (∀ best, (∀ b, best = Some b → b ∈ db_attempts db ∧ a_tenant_id b = t ∧ a_run_id b = r) →
    fold_left later l best = Some a → a ∈ db_attempts db ∧ a_tenant_id a = t ∧ a_run_id a = r) as Hg by by apply Hg.
  induction l as [|x l IH]; intros best Hb; simpl; [by apply Hb|]. apply IH; [intros y Hy; apply Hl; by right|].
  intros b. unfold later. destruct best as [b0|]; [case_match|]; intros [= <-]; auto; apply Hl; by left.
Qed.

Lemma get_run_attempt_found db a :
  attempts_consistent db → a ∈ db_attempts db →
  get_run_attempt (a_tenant_id a) (a_run_id a) (a_id a) db = Some a.
Proof.
  intros Hc Hin. unfold get_run_attempt.
  destruct (find_exists (is_attempt (a_tenant_id a) (a_run_id a) (a_id a)) (db_attempts db) a Hin) as [y Hy].
  { unfold is_attempt. by rewrite !String.eqb_refl. }
  rewrite Hy. f_equal. apply find_lookup in Hy as (n & Hn & Hy). unfold is_attempt in Hy. to_prop.
  apply (consistent_same_row db); [done|by eapply list_elem_of_lookup_2|done|done].
Qed.

(** A step of the reconciler is accepted and takes the attempt over. *)
Definition taken (db : attempt_db) (a : attempt_row) (o rs : string) : Prop :=
  attempts_consistent db ∧ a ∈ db_attempts db ∧ a_status a = rs ∧ a_owner_kind a = "reconciler" ∧
  a_owner_id a = o ∧ strip (a_owner_id a) = a_owner_id a ∧
  ∃ run, db_runs db !! (a_tenant_id a, a_run_id a) = Some run ∧ r_status run = projected_run_status rs.

Lemma legal_irreflexive s : sql_legal_transition s s = false.
Proof.
  unfold sql_legal_transition.
  destruct (String.eqb_spec s "created") as [->|]; [done|]. destruct (String.eqb_spec s "queued") as [->|]; [done|].
  destruct (String.eqb_spec s "claimed") as [->|]; [done|]. destruct (String.eqb_spec s "running") as [->|]; [done|].
  destruct (String.eqb_spec s "cancel_requested") as [->|]; [done|]. by destruct (String.eqb_spec s "expired") as [->|].
Qed.

Lemma reconciler_step now a rs o db run :
  attempts_consistent db → a ∈ db_attempts db → strip (a_owner_id a) = a_owner_id a →
  strip o = o → str_truthy o = true →
  sql_legal_transition (a_status a) rs = true → str_in rs RUN_ATTEMPT_STATUSES = true → is_terminal rs = false →
  db_runs db !! (a_tenant_id a, a_run_id a) = Some run →
  run_accepts (projected_run_status rs) (r_status run) = true →
  ∃ db1 a1, transition_from sha256_hex now a rs (next_owner_args (Some "reconciler") (Some o)) db = Ok (db1, a1) ∧
    taken db1 a1 o rs ∧ a_tenant_id a1 = a_tenant_id a ∧ a_run_id a1 = a_run_id a.
Proof.
  intros Hc Hin Hs Ho Hot Hlegal Hin' Hterm Hrun Hacc.
  assert (validated_attempt_owner "reconciler" o = Ok ("reconciler", o)) as Hv.
  { unfold validated_attempt_owner. rewrite Ho. simpl. by rewrite Hot. }
  destruct (transition_progress now a rs (next_owner_args (Some "reconciler") (Some o)) db ("reconciler", o) run)
    as (db1 & a1 & E); try done.
  { by rewrite Hterm. }
  assert (rs ≠ a_status a) as Hne.
  { intros ->. by rewrite legal_irreflexive in Hlegal. }
  destruct (transition_spec _ _ _ _ _ _ _ Hc Hin Hne E) as (next & -> & Hc1 & Hin1 & Hrun1 & Hn).
  simpl in Hn. rewrite Hv in Hn. injection Hn as <-.
  eexists _, _. split; [exact E|]. unfold taken. by split_and!.
Qed.

(** What preparing a failure leaves: an expired attempt and a run that is not over. *)
Definition ready_to_fail (t r o : string) (old d : attempt_db) (c : attempt_row) : Prop :=
  attempts_consistent d ∧ c ∈ db_attempts d ∧ a_status c = "expired" ∧ a_tenant_id c = t ∧ a_run_id c = r ∧
  strip (a_owner_id c) = a_owner_id c ∧ (d = old ∨ (a_owner_kind c = "reconciler" ∧ a_owner_id c = o)) ∧
  ∃ run, db_runs d !! (t, r) = Some run ∧ str_in (r_status run) ["queued"; "running"] = true.

(** A failure of the stale attempt of a run that is open and shows its status. *)
Definition stale_attempt (t r : string) (a : attempt_row) (db : attempt_db) : Prop :=
  attempts_consistent db ∧ strip (a_owner_id a) = a_owner_id a ∧
  get_latest_run_attempt t r db = Some a ∧ is_open (a_status a) = true ∧ a_status a ≠ "cancel_requested" ∧
  ∃ run, db_runs db !! (t, r) = Some run ∧ r_status run = projected_run_status (a_status a).

Section Path.
Context (now : Z) (o : string) (Ho : strip o = o) (Hot : str_truthy o = true).

Lemma expire_claimed old a db run :
  attempts_consistent db → a ∈ db_attempts db → strip (a_owner_id a) = a_owner_id a →
  str_in (a_status a) ["claimed"; "running"] = true →
  db_runs db !! (a_tenant_id a, a_run_id a) = Some run → r_status run = "running" →
  ∃ db1 a1, transition_from sha256_hex now a "expired" (next_owner_args (Some "reconciler") (Some o)) db = Ok (db1, a1) ∧
    ready_to_fail (a_tenant_id a) (a_run_id a) o old db1 a1.
Proof.
  intros Hc Hin Hs Hst Hrun Hr.
  destruct (reconciler_step now a "expired" o db run) as (db1 & a1 & E & Ht & E1 & E2); try done.
  { rewrite str_in_elem, !elem_of_cons, elem_of_nil in Hst. by destruct Hst as [->|[->|[]]]. }
  { by rewrite Hr. }
  exists db1, a1. split; [done|]. destruct Ht as (? & ? & ? & ? & ? & ? & run1 & Hr1 & Hr2).
  unfold ready_to_fail. rewrite E1, E2 in *. split_and!; auto. exists run1. by rewrite Hr2.
Qed.

Lemma claim_queued a db run :
  attempts_consistent db → a ∈ db_attempts db → strip (a_owner_id a) = a_owner_id a → a_status a = "queued" →
  db_runs db !! (a_tenant_id a, a_run_id a) = Some run → r_status run = "queued" →
  ∃ db1 a1, transition_from sha256_hex now a "claimed" (next_owner_args (Some "reconciler") (Some o)) db = Ok (db1, a1) ∧
    taken db1 a1 o "claimed" ∧ a_tenant_id a1 = a_tenant_id a ∧ a_run_id a1 = a_run_id a.
Proof.
  intros Hc Hin Hs Hst Hrun Hr. eapply reconciler_step; try done; [by rewrite Hst|by rewrite Hr].
Qed.

Lemma expire_queued old a db run :
  attempts_consistent db → a ∈ db_attempts db → strip (a_owner_id a) = a_owner_id a → a_status a = "queued" →
  db_runs db !! (a_tenant_id a, a_run_id a) = Some run → r_status run = "queued" →
  ∃ db1 a1 db2 a2,
    transition_from sha256_hex now a "claimed" (next_owner_args (Some "reconciler") (Some o)) db = Ok (db1, a1) ∧
    a_status a1 = "claimed" ∧
    transition_from sha256_hex now a1 "expired" (next_owner_args (Some "reconciler") (Some o)) db1 = Ok (db2, a2) ∧
    ready_to_fail (a_tenant_id a) (a_run_id a) o old db2 a2.
Proof.
  intros Hc Hin Hs Hst Hrun Hr.
  destruct (claim_queued a db run) as (db1 & a1 & E & Ht & E1 & E2); try done.
  destruct Ht as (? & ? & Hs1 & ? & ? & ? & run1 & Hr1 & Hr2).
  destruct (expire_claimed old a1 db1 run1) as (db2 & a2 & E' & Hready); try done; [by rewrite Hs1|].
  rewrite E1, E2 in Hready. by exists db1, a1, db2, a2.
Qed.

Lemma prepare_failed_progress t r w a db :
  stale_attempt t r a db → strip w = o →
  ∃ db' row, prepare_stale_run_attempt_reconciliation sha256_hex now t r "failed" w db = Ok (db', Some row) ∧
    ready_to_fail t r o db db' row.
Proof.
  intros (Hc & Hs & El & Hopen & Hncr & run & Hrun & Hst) Hw.
  unfold prepare_stale_run_attempt_reconciliation. simpl negb. cbv iota.
  assert (validated_attempt_owner "reconciler" w = Ok ("reconciler", o)) as ->.
  { unfold validated_attempt_owner. simpl. by rewrite Hw, Hot. }
  simpl res_bind. rewrite El. apply latest_in in El as (Hin & <- & <-).
  unfold is_open, OPEN_RUN_ATTEMPT_STATUSES in Hopen. rewrite str_in_elem, !elem_of_cons, elem_of_nil in Hopen.
  destruct Hopen as [E|[E|[E|[E|[E|[E|[]]]]]]]; [| | | |done|]; rewrite E in *; simpl in Hst |- *.
  - destruct (reconciler_step now a "queued" o db run) as (db1 & a1 & Eq & Ht & E1 & E2); try done;
      [by rewrite E|by rewrite Hst|].
    rewrite Eq. simpl. destruct Ht as (? & ? & Hs1 & ? & ? & ? & run1 & Hr1 & Hr2). rewrite Hs1. simpl.
    destruct (expire_queued db a1 db1 run1) as (db2 & a2 & db3 & a3 & F1 & F2 & F3 & F4); try done.
    rewrite F1. simpl. rewrite F2. simpl. rewrite F3. simpl. rewrite E1, E2 in F4. by eauto.
  - destruct (expire_queued db a db run) as (db2 & a2 & db3 & a3 & F1 & F2 & F3 & F4); try done.
    rewrite E. simpl. rewrite F1. simpl. rewrite F2. simpl. rewrite F3. simpl. by eauto.
  - destruct (expire_claimed db a db run) as (db1 & a1 & F1 & F2); try done; [by rewrite E|].
    repeat (rewrite E; simpl). rewrite F1. simpl. by eauto.
  - destruct (expire_claimed db a db run) as (db1 & a1 & F1 & F2); try done; [by rewrite E|].
    repeat (rewrite E; simpl). rewrite F1. simpl. by eauto.
  - eexists db, a. split; [by repeat (rewrite E; simpl)|]. unfold ready_to_fail. split_and!; auto. exists run. by rewrite Hst.
Qed.

End Path.

(** A stale attempt can always be failed.  When the latest attempt of a run is
    open, no cancel is requested of it and the run shows its status, the reconciler's
    preparation is accepted: it leaves the attempt expired and, unless it was expired
    before, owned by the reconciler.  The terminalization that follows is accepted
    too, and leaves the attempt and its run failed with the given reason. *)
Lemma stale_attempt_can_be_failed now now' t r w reason code a db :
  stale_attempt t r a db → str_truthy (strip w) = true → str_truthy (strip reason) = true →
  ∃ db' row, prepare_stale_run_attempt_reconciliation sha256_hex now t r "failed" w db = Ok (db', Some row) ∧
  a_status row = "expired" ∧ (db' = db ∨ (a_owner_kind row = "reconciler" ∧ a_owner_id row = strip w)) ∧
  ∃ db'' row' run'', terminalize_run_attempt sha256_hex now' t r (a_id row) "failed" reason code db'
    = Ok (db'', Some row') ∧
    a_status row' = "failed" ∧ a_terminal_reason row' = strip reason ∧
    db_runs db'' !! (t, r) = Some run'' ∧ r_status run'' = "failed".
Proof.
  intros Hstale Hw Hreason.
  destruct (prepare_failed_progress now (strip w) (strip_idem w) Hw t r w a db Hstale eq_refl) as (db' & row & E & Hready).
  destruct Hready as (Hc' & Hin & Hs & Ht & Hr & Hso & Hown & run' & Hrun' & Hst').
  exists db', row. split; [exact E|]. split; [done|]. split; [done|]. unfold terminalize_run_attempt. simpl negb. cbv iota.
  rewrite <- Ht, <- Hr, get_run_attempt_found by done. rewrite Hs. simpl.
  set (args := TransitionArgs None None None None None reason code).
  destruct (transition_progress now' row "failed" args db' (a_owner_kind row, a_owner_id row) run')
    as (db2 & row2 & E2); try done.
  { by rewrite Hs. }
  { by rewrite Ht, Hr. }
  { rewrite str_in_elem, !elem_of_cons, elem_of_nil in Hst'. by destruct Hst' as [->|[->|[]]]. }
  assert ("failed" ≠ a_status row) as Hne by (rewrite Hs; discriminate).
  destruct (transition_spec _ _ _ _ _ _ _ Hc' Hin Hne E2) as (next & Hrow2 & _ & _ & (run2 & Hrun2 & Hst2) & _).
  unfold transition_from in E2. rewrite Hs in E2. rewrite E2. simpl. exists db2, row2, run2. by subst row2.
Qed.

End Facts.

(** ** Examples *)

Definition wit_spec : execution_spec :=
  {| es_tenant_id := "t"; es_run_id := "r"; es_workspace_id := "ws"; es_user_id := "u"; es_session_id := "s";
     es_agent_id := "ag"; es_execution_kind := "chat"; es_skill_id := ""; es_schema_version := "v1";
     es_canonical_json := "{}"; es_sha256 := toy_digest "{}" |}.
Definition wit_run : run_row :=
  {| r_status := "queued"; r_workspace_id := "ws"; r_user_id := Some "u"; r_session_id := "s"; r_agent_id := "ag";
     r_execution_kind := "chat"; r_skill_id := None; r_cancel_requested_at := None; r_started_at := None;
     r_finished_at := None |}.
Definition wit_db : attempt_db := {| db_runs := {[ ("t", "r") := wit_run ]}; db_attempts := [] |}.

Definition wit_row : attempt_row :=
  {| a_id := "rat_" +:+ toy_digest ("t" +:+ nul +:+ "r" +:+ nul +:+ "q"); a_tenant_id := "t"; a_run_id := "r";
     a_ordinal := 1; a_status := "running"; a_owner_kind := "queue_worker"; a_owner_id := "w";
     a_owner_generation := 4; a_queue_message_id := None; a_queue_attempt_id := "q"; a_spec := wit_spec;
     a_lease_expires_at := None; a_last_heartbeat_at := None; a_started_at := Some 7; a_finished_at := None;
     a_terminal_reason := ""; a_error_code := None; a_created_at := 7; a_updated_at := 7 |}.
Definition wit_started : attempt_db :=
  {| db_runs := {[ ("t", "r") := project_run 7 "running" wit_run ]}; db_attempts := [wit_row] |}.

(** The state after a cancel was requested of the attempt. *)
Definition wit_cancel_row : attempt_row :=
  transition_update 9 "cancel_requested" ("queue_worker", "w") 5 no_args wit_row.
Definition wit_cancelling : attempt_db :=
  {| db_runs := db_runs wit_started; db_attempts := [wit_cancel_row] |}.

Lemma single_consistent sha256_hex runs a :
  row_checks sha256_hex a = true → attempts_consistent sha256_hex (AttemptDb runs [a]).
Proof.
  intros H. split; simpl; [by repeat constructor|].
  intros [|i] [|j] b c Hne Hb Hc; simpl in *; try done; destruct i + destruct j; done.
Qed.

Lemma wit_start_ok : start_worker_run_attempt toy_digest 7 "t" "r" "q" "w" wit_spec None None None wit_db
  = Ok (wit_started, wit_row).
Proof. vm_compute. reflexivity. Qed.
Lemma wit_cancel_ok : request_run_attempt_cancel toy_digest 9 "t" "r" (a_id wit_row) None None wit_started
  = Ok (wit_cancelling, Some wit_cancel_row).
Proof. vm_compute. reflexivity. Qed.

Lemma python_and_sql_transitions_agree_witness :
  (sql_legal_transition "expired" "failed" = true ↔ ∃ d,
     decide_run_attempt_transition "expired" "failed" (PInt 3) (PInt 3) = Ok d ∧ td_did_transition d = true ∧
     td_owner_generation d = 3 + 1 ∧ td_status d = "failed") ∧
  (sql_legal_transition "expired" "failed" = false ↔ ∃ code,
     decide_run_attempt_transition "expired" "failed" (PInt 3) (PInt 3) = Raise code) ∧
  projected_run_status "failed" = sql_projected_run_status "failed".
Proof. apply (python_and_sql_transitions_agree "expired" "failed" 3); [reflexivity|reflexivity|lia|discriminate]. Defined.

Lemma attempts_only_move_forward_witness :
  attempts_consistent toy_digest wit_cancelling ∧
  ∀ r, r ∈ db_attempts wit_started → ∃ r', r' ∈ db_attempts wit_cancelling ∧ row_evolves r r'.
Proof.
  refine (attempts_only_move_forward toy_digest wit_started wit_cancelling _ _).
  - apply single_consistent. vm_compute. reflexivity.
  - eapply rtc_once, op_service, (op_cancel toy_digest). exact wit_cancel_ok.
Defined.


Lemma replaced_owner_is_fenced_witness :
  (∀ now es rs k o args out,
     transition_run_attempt toy_digest now "t" "r" (a_id wit_row) es rs k o 4 args wit_cancelling ≠ Ok out) ∧
  (∀ now q m w e h out,
     heartbeat_worker_run_attempt toy_digest now "t" "r" (a_id wit_row) q m w 4 e h wit_cancelling ≠ Ok out).
Proof.
  refine (replaced_owner_is_fenced toy_digest wit_started wit_cancelling wit_cancelling wit_row wit_cancel_row _ _ _ _ _ _ _).
  - apply single_consistent. vm_compute. reflexivity.
  - apply list_elem_of_singleton. reflexivity.
  - eapply rtc_once, op_service, (op_cancel toy_digest). exact wit_cancel_ok.
  - apply list_elem_of_singleton. reflexivity.
  - reflexivity.
  - left. discriminate.
  - apply rtc_refl.
Defined.


