(* ===== verification/RunTerminal.v ===== *)
(** * Public terminal taxonomy

    What an ordinary user is told about the end of a run
    ([src/app/runs/domain/public_terminal.py], [src/app/runs/domain/public_outcome.py])
    and whether a run may be retried ([src/app/runs/domain/retry.py]): internal error
    codes are mapped to a closed set of public codes with fixed texts, and a run whose
    outside effects are unknown is never offered for a retry. *)
From stdpp Require Import base list strings.
From Stdlib Require Import ZArith Lia Ascii.
From S2P Require Import Prelude Redis QueueScripts QueueFacts PyValue QueueRuntime.
#[local] Open Scope py_scope.

(** ** Tables *)

Definition PUBLIC_TERMINAL_DETAIL_MESSAGES : list (string * string) :=
  [("run_failed", "任务未能完成。请稍后重试；如问题持续，请联系管理员。");
   ("terminal_reconciliation_failed",
     "任务执行已结束，但结果同步失败（terminal_reconciliation_failed）。已保留可恢复的内容；请刷新会话或联系管理员并提供任务编号。");
   ("run_timeout", "任务执行超时。请缩小任务范围后重试。");
   ("run_question_needs_input", "5 分钟内未收到必填问题的答复，任务已结束。请补充所需信息后重新提交。");
   ("run_budget_exhausted", "任务已达到执行轮次上限。请缩小或拆分任务后重试。");
   ("input_context_too_large", "当前输入或会话上下文超过模型处理上限。请缩短或拆分请求、减少附件，或新建会话后重试。");
   ("input_image_invalid", "输入图片无法处理或超过模型限制。请检查图片格式、尺寸和数量，调整后重试。");
   ("model_service_unavailable", "模型服务暂时不可用。请稍后重试；如问题持续，请联系管理员。");
   ("model_proxy_authorization_failed", "模型代理授权未通过。请重新开始任务；如问题持续，请联系管理员。");
   ("model_proxy_run_binding_failed", "任务与模型运行绑定失效。请重新开始任务；如问题持续，请联系管理员。");
   ("model_proxy_configuration_invalid", "模型运行配置不可用。请联系管理员确认模型代理配置。");
   ("execution_service_unavailable", "AI 执行服务暂时不可用。请稍后重试；如问题持续，请联系管理员。");
   ("dependent_service_unavailable", "任务依赖的服务暂时不可用。请稍后重试。");
   ("capability_not_authorized", "当前账号不能使用所选能力。请重新选择或联系管理员。");
   ("tool_permission_denied", "任务所需工具未获授权。请调整请求或联系管理员。");
   ("tool_invocation_evidence_mismatch",
     "工具调用证据未完整确认（tool_invocation_evidence_mismatch）。请重试；如问题持续，请联系管理员。");
   ("tool_execution_outcome_unconfirmed",
     "工具执行结果尚未确认。为避免重复操作，请勿重试；请联系管理员并提供任务编号。");
   ("required_capability_unavailable", "任务所需执行能力当前不可用。请调整请求或联系管理员。");
   ("skill_sandbox_admission_failed", "所选 Skill 未能通过隔离沙箱准入。请调整 Skill 或联系管理员。");
   ("context_file_too_large", "文件超过 128 MB，或文件总量超过 256 MB。请选择更小的文件或减少文件数量后重试。");
   ("context_file_pdf_password_required", "PDF 文件需要密码。请先解除密码保护后重新上传。");
   ("context_file_password_required", "文件受密码保护。请先解除密码保护后重新上传。");
   ("context_file_unsafe_content", "文件包含不允许的活动内容、宏或外部引用。请导出安全副本后重试。");
   ("context_file_page_limit_exceeded", "PDF 页数超过处理上限。请拆分文件后重试。");
   ("context_file_processing_limit_exceeded", "文件结构或内容数量超过处理上限。请拆分或精简文件后重试。");
   ("context_file_invalid", "文件已损坏或无法解析。请重新导出文件后上传。");
   ("context_file_encoding_unsupported", "文件文本编码暂不支持。请转换为 UTF-8 后重新上传。");
   ("context_file_type_unsupported", "文件实际格式与声明类型不一致，或该格式暂不支持。");
   ("context_file_identity_mismatch", "文件完整性校验失败。请重新上传该文件。");
   ("context_file_unavailable", "文件当前不可用或已失去访问权限。请重新上传后重试。");
   ("context_file_name_conflict", "多个附件名称冲突。请重命名后重新上传。");
   ("context_file_storage_unavailable", "文件存储服务暂时不可用。请稍后重试。");
   ("context_file_staging_unavailable", "文件暂存失败。请稍后重试；如问题持续，请联系管理员。");
   ("context_file_parser_contract_invalid", "文件处理器未能验证输入。请重新上传；如问题持续，请联系管理员。");
   ("context_file_preprocessing_failed", "文件预处理失败。请重新导出后上传；如问题持续，请联系管理员。");
   ("current_request_too_large", "当前请求超过 16 KB 执行上限。请缩短或拆分请求后重试。");
   ("run_cancelled", "任务已取消。取消前已产生的公开内容仍会保留。")].

Definition PUBLIC_TERMINAL_ERROR_CODE_ALIASES : list (string * string) :=
  [("terminal_reconciliation_failed", "terminal_reconciliation_failed");
   ("capability_callback_not_acknowledged", "required_capability_unavailable");
   ("capability_lifecycle_sequence_invalid", "required_capability_unavailable");
   ("claude_agent_sdk_missing_structured_terminal",
     "execution_service_unavailable");
   ("claude_agent_sdk_output_validation_failed", "run_failed");
   ("claude_agent_sdk_tool_admission_failed", "required_capability_unavailable");
   ("claude_agent_sdk_upstream_error", "model_service_unavailable");
   ("claude_agent_sdk_input_context_too_large", "input_context_too_large");
   ("claude_agent_sdk_input_image_invalid", "input_image_invalid");
   ("claude_agent_sdk_execution_failed", "run_failed");
   ("model_proxy_forbidden", "model_proxy_authorization_failed");
   ("model_proxy_attempt_required", "model_proxy_authorization_failed");
   ("model_proxy_capability_invalid", "model_proxy_authorization_failed");
   ("model_proxy_path_not_allowed", "model_proxy_authorization_failed");
   ("model_proxy_query_not_allowed", "model_proxy_authorization_failed");
   ("model_proxy_header_duplicate", "model_proxy_authorization_failed");
   ("model_proxy_anthropic_version_not_allowed",
     "model_proxy_authorization_failed");
   ("model_proxy_anthropic_beta_not_allowed", "model_proxy_authorization_failed");
   ("model_proxy_run_binding_invalid", "model_proxy_run_binding_failed");
   ("model_capacity_missing", "model_proxy_configuration_invalid");
   ("model_proxy_conversation_mode_invalid", "model_proxy_configuration_invalid");
   ("model_proxy_body_invalid", "model_proxy_configuration_invalid");
   ("model_proxy_max_tokens_invalid", "model_proxy_configuration_invalid");
   ("model_proxy_count_tokens_failed", "model_service_unavailable");
   ("model_proxy_count_tokens_unavailable", "model_service_unavailable");
   ("model_proxy_count_tokens_invalid", "model_service_unavailable");
   ("native_tool_admission_failed", "skill_sandbox_admission_failed");
   ("attachment_materialized_fact_invalid", "context_file_identity_mismatch");
   ("attachment_parser_file_mapping_invalid", "context_file_identity_mismatch");
   ("attachment_parser_file_too_large", "context_file_too_large");
   ("attachment_parser_prompt_too_large",
     "context_file_processing_limit_exceeded");
   ("attachment_parser_staged_file_invalid", "context_file_invalid");
   ("attachment_parser_staged_file_mismatch", "context_file_identity_mismatch");
   ("attachment_parser_unsupported", "context_file_type_unsupported");
   ("attachment_preprocessing_contract_invalid",
     "context_file_parser_contract_invalid");
   ("context_file_too_large", "context_file_too_large");
   ("context_file_pdf_password_required", "context_file_pdf_password_required");
   ("context_file_pdf_active_content_unsupported", "context_file_unsafe_content");
   ("context_file_docx_embedded_content_unsupported",
     "context_file_unsafe_content");
   ("context_file_docx_external_relationship_unsupported",
     "context_file_unsafe_content");
   ("context_file_docx_macros_unsupported", "context_file_unsafe_content");
   ("xlsx_macros_unsupported", "context_file_unsafe_content");
   ("context_file_pdf_page_limit_exceeded", "context_file_page_limit_exceeded");
   ("context_file_pdf_parse_failed", "context_file_invalid");
   ("context_file_docx_archive_invalid", "context_file_invalid");
   ("context_file_docx_archive_entry_limit_exceeded",
     "context_file_processing_limit_exceeded");
   ("context_file_docx_archive_structure_invalid", "context_file_invalid");
   ("context_file_docx_archive_too_large",
     "context_file_processing_limit_exceeded");
   ("context_file_docx_encrypted", "context_file_password_required");
   ("context_file_docx_parse_failed", "context_file_invalid");
   ("context_file_docx_relationship_invalid", "context_file_invalid");
   ("context_file_docx_required_part_missing", "context_file_invalid");
   ("context_file_json_invalid", "context_file_invalid");
   ("context_file_staging_write_failed", "context_file_staging_unavailable");
   ("context_file_text_encoding_unsupported",
     "context_file_encoding_unsupported");
   ("context_file_xlsx_archive_invalid", "context_file_invalid");
   ("xlsx_archive_too_large", "context_file_processing_limit_exceeded");
   ("xlsx_cell_limit_exceeded", "context_file_processing_limit_exceeded");
   ("xlsx_content_types_structure_unsupported", "context_file_invalid");
   ("xlsx_encrypted_unsupported", "context_file_password_required");
   ("xlsx_relationship_structure_unsupported", "context_file_invalid");
   ("xlsx_workbook_part_unsupported", "context_file_invalid");
   ("xlsx_workbook_structure_unsupported", "context_file_invalid");
   ("xlsx_worksheet_structure_unsupported", "context_file_invalid");
   ("xlsx_xml_encoding_unsupported", "context_file_encoding_unsupported");
   ("xlsx_xml_entities_unsupported", "context_file_unsafe_content");
   ("xlsx_parse_failed", "context_file_invalid");
   ("context_file_type_unsupported", "context_file_type_unsupported");
   ("context_file_identity_mismatch", "context_file_identity_mismatch");
   ("context_file_unavailable", "context_file_unavailable");
   ("context_file_name_conflict", "context_file_name_conflict");
   ("context_file_storage_unavailable", "context_file_storage_unavailable");
   ("context_file_preprocessing_failed", "context_file_preprocessing_failed");
   ("current_request_too_large", "current_request_too_large");
   ("executor_deadline_exceeded", "run_timeout");
   ("executor_cleanup_timeout", "run_timeout");
   ("claude_agent_sdk_turn_limit_exceeded", "run_budget_exhausted");
   ("claude_agent_sdk_runtime_error", "execution_service_unavailable");
   ("claude_agent_sdk_timeout", "run_timeout");
   ("claude_agent_sdk_disabled", "execution_service_unavailable");
   ("claude_agent_sdk_import_failed", "execution_service_unavailable");
   ("claude_agent_sdk_unavailable", "execution_service_unavailable");
   ("docker_unavailable", "execution_service_unavailable");
   ("executor_health_timeout", "execution_service_unavailable");
   ("executor_runner_failed", "execution_service_unavailable");
   ("ragflow_api_error", "dependent_service_unavailable");
   ("capability_not_authorized", "capability_not_authorized");
   ("model_not_allowed", "capability_not_authorized");
   ("tool_denied", "tool_permission_denied");
   ("mcp_tool_denied", "tool_permission_denied");
   ("tool_permission_denied", "tool_permission_denied");
   ("tool_invocation_evidence_mismatch", "tool_invocation_evidence_mismatch");
   ("mcp_execution_succeeded_receipt_incomplete",
     "tool_execution_outcome_unconfirmed");
   ("mcp_execution_outcome_unknown", "tool_execution_outcome_unconfirmed");
   ("required_tool_unavailable", "required_capability_unavailable");
   ("required_tool_declaration_mismatch", "required_capability_unavailable");
   ("required_tool_scope_mismatch", "required_capability_unavailable");
   ("required_tool_not_currently_authorized", "required_capability_unavailable");
   ("required_tool_admin_bypass_forbidden", "required_capability_unavailable");
   ("required_tool_completion_evidence_missing",
     "required_capability_unavailable");
   ("required_tool_completion_evidence_mismatch",
     "required_capability_unavailable")].

Definition FILE_DETAIL_CODES : list string :=
  ["context_file_too_large"; "context_file_pdf_password_required";
   "context_file_password_required"; "context_file_unsafe_content";
   "context_file_page_limit_exceeded"; "context_file_processing_limit_exceeded";
   "context_file_invalid"; "context_file_encoding_unsupported"; "context_file_type_unsupported";
   "context_file_identity_mismatch"; "context_file_unavailable"; "context_file_name_conflict";
   "context_file_parser_contract_invalid"; "context_file_preprocessing_failed"].
Definition COMPLETED_STEP_STATUSES : list string := ["completed"; "reused"; "succeeded"; "success"].
Definition PERMISSION_DETAIL_CODES : list string := ["capability_not_authorized"; "tool_permission_denied"].
Definition CAPABILITY_CONFIGURATION_DETAIL_CODES : list string :=
  ["required_capability_unavailable"; "skill_sandbox_admission_failed"].
Definition RUN_CONTROL_RETRY_PREVIEW_STATUSES : list string :=
  ["failed"; "dead-letter"; "dead_letter"; "dead-lettered"].
Definition MCP_EXECUTION_UNCERTAIN_ERROR_CODES : list string :=
  ["mcp_execution_succeeded_receipt_incomplete"; "mcp_execution_outcome_unknown"].

(** [str.lower] on the letters of ASCII; the words it is compared with contain no
    letter that another character lowers to. *)
Definition lower_ascii (c : ascii) : ascii :=
  if is_upper c then ascii_of_N (N_of_ascii c + 32) else c.
Fixpoint py_lower (s : string) : string :=
  match s with
  | EmptyString => EmptyString
  | String c s' => String (lower_ascii c) (py_lower s')
  end.

Section Terminal.
Context `{PyRuntime}.

(** ** The public projection of a terminal run *)

Definition normalize_run_status (status : string) : string :=
  if String.eqb status "canceled" then "cancelled" else status.

Record terminal_projection := TerminalProjection {
  tp_detail_kind : string;
  tp_detail_code : string;
  tp_message : string;
  tp_error_code : option string;
  tp_result : list (string * pyval);
  tp_event_payload : list (string * pyval)
}.

Definition projection_of (detail_kind detail_code : string) : res (option terminal_projection) :=
  match assoc detail_code PUBLIC_TERMINAL_DETAIL_MESSAGES with
  | None => Raise "KeyError"
  | Some message =>
      Ok (Some {| tp_detail_kind := detail_kind; tp_detail_code := detail_code; tp_message := message;
                  tp_error_code := if String.eqb detail_kind "failed" then Some detail_code else None;
                  tp_result := [("message", PStr message)]; tp_event_payload := [] |})
  end.

(** The public code of an internal error code. *)
Definition failed_detail_code (raw_error_code : string) : string :=
  match assoc raw_error_code PUBLIC_TERMINAL_ERROR_CODE_ALIASES with
  | Some detail_code => detail_code
  | None =>
      if str_in raw_error_code PUBLIC_TERMINAL_DETAIL_MESSAGES.*1
         && negb (String.eqb raw_error_code "run_cancelled")
      then raw_error_code else "run_failed"
  end.

Definition public_terminal_projection (status error_code : pyval) : res (option terminal_projection) :=
  let normalized_status := normalize_run_status (str_or_empty status) in
  let raw_error_code := strip (str_or_empty error_code) in
  if String.eqb normalized_status "cancelled" then projection_of "cancelled" "run_cancelled"
  else if String.eqb normalized_status "failed" then projection_of "failed" (failed_detail_code raw_error_code)
  else Ok None.

Record terminal_detail := TerminalDetail {
  tdl_detail_kind : string; tdl_detail_code : string; tdl_message : string
}.

Definition public_terminal_detail (status error_code : pyval) : res (option terminal_detail) :=
  let! projection := public_terminal_projection status error_code in
  match projection with
  | None => Ok None
  | Some p => Ok (Some {| tdl_detail_kind := tp_detail_kind p; tdl_detail_code := tp_detail_code p;
                          tdl_message := tp_message p |})
  end.

(** ** The outcome summary *)

Definition completed_step_count (steps : list (list (string * pyval))) : Z :=
  Z.of_nat (length (List.filter
    (fun step => str_in (py_lower (strip (str_or_empty (get "status" step)))) COMPLETED_STEP_STATUSES) steps)).

Definition retained_summary (artifact_count completed_step_count : Z) : string :=
  let retained :=
    (if negb (completed_step_count =? 0) then [py_str_int completed_step_count +:+ " 个已完成步骤"] else [])
    ++ (if negb (artifact_count =? 0) then [py_str_int artifact_count +:+ " 个可查看文件"] else []) in
  match retained with
  | [] => "未记录到可确认的已完成步骤或文件。"
  | _ => "已保留 " +:+ String.concat "、" retained +:+ "。"
  end.

Definition next_action (detail_code : string) (artifact_count : Z) : string :=
  if String.eqb detail_code "tool_execution_outcome_unconfirmed" then
    "请勿重复提交，以免重复执行外部操作；请联系管理员并提供问题编号。"
  else if String.eqb detail_code "terminal_reconciliation_failed" then
    if negb (artifact_count =? 0)
    then "可先查看或下载已保留文件，再刷新会话；如正文仍缺失，请联系管理员并提供问题编号。"
    else "请刷新会话；如结果仍未出现，请联系管理员并提供问题编号。"
  else if str_in detail_code PERMISSION_DETAIL_CODES then
    "请重新选择有权使用的专家或工具；如需开通权限，请联系管理员并提供问题编号。"
  else if str_in detail_code CAPABILITY_CONFIGURATION_DETAIL_CODES then
    "请检查所选专家或工具配置；如仍不可用，请联系管理员并提供问题编号。"
  else if str_in detail_code ["context_file_storage_unavailable"; "context_file_staging_unavailable"] then
    "请稍后重试；如文件服务仍不可用，请联系管理员并提供问题编号。"
  else if String.eqb detail_code "run_question_needs_input" then
    "请补充问题所需信息后重新提交任务。"
  else if String.eqb detail_code "current_request_too_large" then
    "请缩短或拆分当前请求后重试。"
  else if String.eqb detail_code "input_context_too_large" then
    "请缩短或拆分请求、减少附件，或新建会话后重试。"
  else if String.eqb detail_code "input_image_invalid" then
    "请检查图片格式、尺寸和数量，调整后重试。"
  else if String.eqb detail_code "model_proxy_configuration_invalid" then
    "请联系管理员检查模型运行配置，并提供问题编号。"
  else if str_in detail_code FILE_DETAIL_CODES then
    "请按提示调整或重新上传输入文件后再试。"
  else if negb (artifact_count =? 0) then
    "可先查看或下载已保留文件，再重试；如问题持续，请联系管理员并提供问题编号。"
  else "可以重试；如问题持续，请联系管理员并提供问题编号。".

Record run_outcome := RunOutcome {
  ro_schema_version : string;
  ro_phase : string;
  ro_detail_code : string;
  ro_what_happened : string;
  ro_retained : string;
  ro_next_action : string;
  ro_problem_number : string;
  ro_artifact_count : Z;
  ro_completed_step_count : Z
}.

Definition public_run_outcome (run_id status error_code : pyval) (artifacts steps : list (list (string * pyval)))
    (answer_available : bool) : res run_outcome :=
  let normalized_status := normalize_run_status (str_or_empty status) in
  let problem_number := str_or_empty run_id in
  let artifact_count := Z.of_nat (length artifacts) in
  let completed := completed_step_count steps in
  let retained := retained_summary artifact_count completed in
  let outcome phase detail_code what_happened retained next_action :=
    {| ro_schema_version := "ai-platform.public-run-outcome.v1"; ro_phase := phase;
       ro_detail_code := detail_code; ro_what_happened := what_happened; ro_retained := retained;
       ro_next_action := next_action; ro_problem_number := problem_number;
       ro_artifact_count := artifact_count; ro_completed_step_count := completed |} in
  if String.eqb normalized_status "queued" then
    Ok (outcome "not_started" "run_queued" "任务已创建并进入队列，尚未开始执行。"
          "任务请求已保留，尚无已完成结果。" "请等待任务开始；长时间没有变化时可刷新运行状态。")
  else if String.eqb normalized_status "running" then
    Ok (outcome "in_progress" "run_running" "任务已经开始，当前仍在后台执行。" retained
          "可继续等待或刷新运行状态，请勿重复提交同一任务。")
  else if String.eqb normalized_status "succeeded" then
    Ok (outcome "completed" "run_succeeded" "任务已完成。"
          (if answer_available && negb (artifact_count =? 0)
           then "聊天正文和 " +:+ py_str_int artifact_count +:+ " 个可查看文件均已保留。"
           else if answer_available then "聊天正文已保留。" else retained)
          "可以查看聊天正文和已生成文件。")
  else
    let! terminal := public_terminal_projection (PStr normalized_status) error_code in
    let detail_code := match terminal with Some p => tp_detail_code p | None => "run_failed" end in
    let what_happened := match terminal with Some p => tp_message p | None => "任务状态暂时无法确认。" end in
    if String.eqb normalized_status "cancelled" then
      Ok (outcome "cancelled" detail_code what_happened retained
            "如仍需完成任务，可以重新提交；取消前保留的文件仍可查看。")
    else if String.eqb detail_code "terminal_reconciliation_failed" then
      Ok (outcome "delivery_failed" detail_code "任务主体执行已经结束，但最终结果同步失败。" retained
            (next_action detail_code artifact_count))
    else if (0 <? completed) || (0 <? artifact_count) then
      Ok (outcome "partially_completed" detail_code ("任务已经开始并保留了部分成果；" +:+ what_happened) retained
            (next_action detail_code artifact_count))
    else
      Ok (outcome "failed" detail_code what_happened retained (next_action detail_code artifact_count)).

(** ** Retry *)

Definition run_unconfirmed_execution_block_reason (error_code : pyval) : option string :=
  if str_in (str_or_empty error_code) MCP_EXECUTION_UNCERTAIN_ERROR_CODES
  then Some "execution_outcome_unconfirmed" else None.

Definition run_retry_block_reason (status error_code : pyval) : option string :=
  if negb (str_in (str_or_empty status) RUN_CONTROL_RETRY_PREVIEW_STATUSES)
  then Some "status_not_retryable"
  else run_unconfirmed_execution_block_reason error_code.

(** ** Theorems *)

(** Every code an alias leads to has a text and is its own public code. *)
Lemma alias_table_closed :
  forallb (fun kv => str_in kv.2 PUBLIC_TERMINAL_DETAIL_MESSAGES.*1
                     && negb (String.eqb kv.2 "run_cancelled")
                     && String.eqb (failed_detail_code kv.2) kv.2
                     && String.eqb (strip kv.2) kv.2) PUBLIC_TERMINAL_ERROR_CODE_ALIASES = true.
Proof. vm_compute. reflexivity. Qed.

Lemma message_table_closed :
  forallb (fun k => String.eqb k "run_cancelled"
                    || (String.eqb (failed_detail_code k) k && String.eqb (strip k) k))
    PUBLIC_TERMINAL_DETAIL_MESSAGES.*1 = true.
Proof. vm_compute. reflexivity. Qed.

(** The public code of a failure is one of the public codes, and stable. *)
Lemma failed_detail_code_public raw :
  str_in (failed_detail_code raw) PUBLIC_TERMINAL_DETAIL_MESSAGES.*1 = true ∧
  failed_detail_code raw ≠ "run_cancelled" ∧
  failed_detail_code (failed_detail_code raw) = failed_detail_code raw ∧
  strip (failed_detail_code raw) = failed_detail_code raw.
Proof.
  unfold failed_detail_code at 1 2 4 5 6 7.
  destruct (assoc raw PUBLIC_TERMINAL_ERROR_CODE_ALIASES) as [d|] eqn:E.
  - apply assoc_in, list_elem_of_In in E.
    pose proof (proj1 (forallb_forall _ _) alias_table_closed _ E) as Hd. cbn [snd] in Hd. to_prop. auto.
  - destruct (str_in raw _ && negb (String.eqb raw "run_cancelled")) eqn:Er.
    + to_prop. match goal with Hin : str_in raw _ = true |- _ => pose proof Hin as Hin' end.
      rewrite str_in_elem, list_elem_of_In in Hin'.
      pose proof (proj1 (forallb_forall _ _) message_table_closed _ Hin') as Hd. cbv beta in Hd.
      apply orb_true_iff in Hd as [Hd|Hd]; to_prop; [done|auto].
    + by vm_compute.
Qed.

Lemma projection_of_public kind code :
  str_in code PUBLIC_TERMINAL_DETAIL_MESSAGES.*1 = true →
  ∃ p, projection_of kind code = Ok (Some p) ∧ tp_detail_kind p = kind ∧ tp_detail_code p = code ∧
    assoc code PUBLIC_TERMINAL_DETAIL_MESSAGES = Some (tp_message p) ∧
    tp_error_code p = (if String.eqb kind "failed" then Some code else None).
Proof.
  intros [v Hv]%assoc_of_key. unfold projection_of. rewrite Hv. eexists. split; [reflexivity|].
  simpl. auto.
Qed.

Lemma str_or_empty_str s : str_or_empty (PStr s) = s.
Proof. unfold str_or_empty, py_or, truthy, str_truthy. by destruct (String.eqb_spec s "") as [->|]. Qed.

(** The public projection is total and closed.  It never fails; it says nothing
    of a run that is not failed or cancelled; and what it says of one that is carries
    a code of the public table with exactly the text of that code, so no internal
    error code or text reaches an ordinary user.  A failure is never shown as a
    cancellation, nor a cancellation as a failure. *)
Lemma public_projection_total status error_code :
  (public_terminal_projection status error_code = Ok None ∧
   str_in (str_or_empty status) ["failed"; "cancelled"; "canceled"] = false) ∨
  ∃ p, public_terminal_projection status error_code = Ok (Some p) ∧
    assoc (tp_detail_code p) PUBLIC_TERMINAL_DETAIL_MESSAGES = Some (tp_message p) ∧
    ((str_or_empty status = "failed" ∧ tp_detail_kind p = "failed" ∧
      tp_detail_code p ≠ "run_cancelled" ∧ tp_error_code p = Some (tp_detail_code p)) ∨
     (str_in (str_or_empty status) ["cancelled"; "canceled"] = true ∧ tp_detail_kind p = "cancelled" ∧
      tp_detail_code p = "run_cancelled" ∧ tp_error_code p = None)).
Proof.
  unfold public_terminal_projection. generalize (str_or_empty status) as s. intros s.
  destruct (failed_detail_code_public (strip (str_or_empty error_code))) as (Hin & Hne & _ & _).
  unfold normalize_run_status. destruct (String.eqb_spec s "canceled") as [->|Hc].
  { right. destruct (projection_of_public "cancelled" "run_cancelled") as (p & E & ? & ? & ? & ?); [by vm_compute|].
    exists p. split; [exact E|]. split; [congruence|]. right. auto. }
  destruct (String.eqb_spec s "cancelled") as [->|Hcc].
  { right. destruct (projection_of_public "cancelled" "run_cancelled") as (p & E & ? & ? & ? & ?); [by vm_compute|].
    exists p. split; [exact E|]. split; [congruence|]. right. auto. }
  destruct (String.eqb_spec s "failed") as [->|Hf].
  - right. destruct (projection_of_public "failed" _ Hin) as (p & E & ? & Hcode & ? & ?).
    exists p. split; [exact E|]. rewrite Hcode. split; [done|]. left. auto.
  - left. split; [done|]. simpl. by rewrite (proj2 (String.eqb_neq _ _) Hf), (proj2 (String.eqb_neq _ _) Hcc),
      (proj2 (String.eqb_neq _ _) Hc).
Qed.

(** The public taxonomy is stable: projecting a projection again, by its public
    kind and code, gives the same projection, so a client that stores the public code
    of a run reads back the same text. *)
Lemma public_projection_stable status error_code p :
  public_terminal_projection status error_code = Ok (Some p) →
  public_terminal_projection (PStr (tp_detail_kind p)) (PStr (tp_detail_code p)) = Ok (Some p).
Proof.
  unfold public_terminal_projection at 1. set (s := normalize_run_status _). set (raw := strip _).
  destruct (failed_detail_code_public raw) as (Hin & _ & Hidem & Hstrip).
  destruct (String.eqb s "cancelled").
  - intros E. destruct (projection_of_public "cancelled" "run_cancelled") as (p' & E' & Hk & Hcode & _); [by vm_compute|].
    rewrite E' in E. injection E as <-. rewrite Hk. exact E'.
  - destruct (String.eqb s "failed"); [|done].
    intros E. destruct (projection_of_public "failed" _ Hin) as (p' & E' & Hk & Hcode & _).
    pose proof E' as E''. rewrite E in E'. injection E' as ->. rewrite Hk, Hcode.
    unfold public_terminal_projection. rewrite !str_or_empty_str, Hstrip, Hidem. exact E''.
Qed.

(** Nobody is asked to repeat an execution with unknown effects: when the tool
    execution of a failed run may have happened, the run cannot be retried, and its
    outcome summary, whatever files and steps it kept, tells the user not to submit it
    again. *)
Lemma unconfirmed_execution_not_retried run_id error_code artifacts steps answered reason :
  run_unconfirmed_execution_block_reason error_code = Some reason →
  run_retry_block_reason (PStr "failed") error_code = Some "execution_outcome_unconfirmed" ∧
  ∃ o, public_run_outcome run_id (PStr "failed") error_code artifacts steps answered = Ok o ∧
    ro_detail_code o = "tool_execution_outcome_unconfirmed" ∧
    ro_next_action o = "请勿重复提交，以免重复执行外部操作；请联系管理员并提供问题编号。".
Proof.
  unfold run_unconfirmed_execution_block_reason. intros Hr.
  destruct (str_in (str_or_empty error_code) _) eqn:E; [|done].
  assert (public_terminal_projection (PStr "failed") error_code
          = projection_of "failed" "tool_execution_outcome_unconfirmed") as Hp.
  { unfold public_terminal_projection. rewrite str_in_elem in E. unfold MCP_EXECUTION_UNCERTAIN_ERROR_CODES in E.
    rewrite !elem_of_cons, elem_of_nil in E. by destruct E as [->|[->|[]]]. }
  destruct (projection_of_public "failed" "tool_execution_outcome_unconfirmed") as (p & Ep & _ & Hcode & _ & _);
    [by vm_compute|].
  split.
  - unfold run_retry_block_reason, run_unconfirmed_execution_block_reason. simpl negb. by rewrite E.
  - unfold public_run_outcome. rewrite str_or_empty_str. change (normalize_run_status "failed") with "failed"%string.
    rewrite Hp, Ep. cbn [res_bind String.eqb Ascii.eqb Bool.eqb]. rewrite Hcode.
    destruct ((0 <? completed_step_count steps) || _); eexists; (split; [reflexivity|]); done.
Qed.

End Terminal.
