(* ===== verification/RunLifecycle.v ===== *)
(** * Run lifecycle

    How a run ends: success is committed in one step, failure and cancellation are
    first staged on the run and then finalized
    ([src/app/runs/domain/terminalization.py], [src/app/runs/application/lifecycle.py],
    [src/app/runs/infrastructure/lifecycle_postgres.py],
    [src/app/runs/domain/cost_observability.py],
    [src/app/runs/infrastructure/steps_postgres.py]).

    - The database has the rows of [runs] and [run_steps], the number of artifacts of
      each run, and the events and audit records appended so far.  An operation runs
      in one transaction on a locked run: it returns the new database and its result,
      or raises and leaves the database as it was.
    - A jsonb column holds the document written to it.
    - An [integer] column holds a 32-bit number; a write outside the range raises.
    - The ports the service is built with (the size limit of a result, the two
      sanitizers, the trace id of a run) are parameters. *)
From stdpp Require Import base gmap list strings.
From Stdlib Require Import ZArith Lia Ascii.
From S2P Require Import Prelude Redis PyValue QueueRuntime.
#[local] Open Scope py_scope.

Notation pydict := (list (string * pyval)).

(** ** Terminalization values *)

Definition TERMINAL_RUN_STATUSES : list string := ["succeeded"; "failed"; "cancelled"].

Record progress := RunTerminalizationProgress {
  completed : bool;
  p_status : option string;
  did_transition : bool
}.

Definition progress_is_terminal (requested_status : option string) (p : progress) : bool :=
  completed p
  && match p_status p with
     | Some s => str_in s TERMINAL_RUN_STATUSES
                 && match requested_status with None => true | Some r => String.eqb s r end
     | None => false
     end.

Definition progress_for_requested_status (p : option progress) (requested_status : string) : progress :=
  match p with
  | None => RunTerminalizationProgress false None false
  | Some p =>
      if progress_is_terminal (Some requested_status) p then p
      else RunTerminalizationProgress false (p_status p) (did_transition p)
  end.

(** ** Observations in a result document *)

(** [d.get(k)] when [d] is a dict, else [None]. *)
Definition dict_get (k : string) (v : pyval) : pyval :=
  match as_dict v with Some d => get k d | None => PNone end.

Definition coverage (result : pyval) : pyval :=
  dict_get "cost_coverage" (dict_get "sdk_usage" (dict_get "runtime_private_payload" result)).
Definition known_coverage (v : pyval) : bool :=
  eq_str v "complete" || eq_str v "partial" || eq_str v "unavailable".

Definition private_cost_observation (result : pyval) : pydict :=
  if known_coverage (coverage result)
  then [("runtime_private_payload", PDict [("sdk_usage", PDict [("cost_coverage", coverage result)])])]
  else [].

Definition projected_estimated_cost_minor (value result : pyval) : pyval :=
  if negb (known_coverage (coverage result)) then value else
  match dict_get "estimated_cost_minor" (dict_get "cost" result) with
  | PInt amount =>
      if eq_str (coverage result) "complete" && (0 <=? amount) && (amount <=? 2 ^ 31 - 1)
      then PInt amount else PNone
  | _ => PNone
  end.

Section Observations.
Context `{PyRuntime}.

(** [int(v)] with the errors it raises. *)
Definition int_builtin (v : pyval) : res Z :=
  match v with
  | PFloat (LInf _) => Raise "OverflowError"
  | PFloat LNaN => Raise "ValueError"
  | PStr s => match int_of_str s with Some z => Ok z | None => Raise "ValueError" end
  | _ => match py_int v with Some z => Ok z | None => Raise "TypeError" end
  end.
(** [try: ... except (TypeError, ValueError): return fallback]. *)
Definition except_number {A} (fallback : A) (m : res A) : res A :=
  match m with
  | Raise e => if str_in e ["TypeError"; "ValueError"] then Ok fallback else Raise e
  | Ok a => Ok a
  end.
Definition integer_or (value : pyval) (dflt : Z) : res Z :=
  except_number dflt (int_builtin (py_or value (PInt dflt))).

Record observability := Observability {
  o_latency_ms : option Z;
  o_input : Z;
  o_output : Z;
  o_total : Z;
  o_cost : Z
}.

Definition result_observability_values (result_json : option pydict) : res observability :=
  let result := default [] result_json in
  let token_counts := PDict (default [] (as_dict (get "token_counts" result))) in
  let cost := PDict (default [] (as_dict (get "cost" result))) in
  let! latency_ms :=
    match get "latency_ms" result with
    | PNone => Ok None
    | v => except_number None (let! z := int_builtin v in Ok (Some z))
    end in
  let! input_tokens := integer_or (dict_get "input" token_counts) 0 in
  let! output_tokens := integer_or (dict_get "output" token_counts) 0 in
  let! total_tokens := integer_or (dict_get "total" token_counts) (input_tokens + output_tokens) in
  let! estimated_cost_minor := integer_or (dict_get "estimated_cost_minor" cost) 0 in
  Ok {| o_latency_ms := latency_ms; o_input := input_tokens; o_output := output_tokens;
        o_total := total_tokens; o_cost := estimated_cost_minor |}.

End Observations.

(** ** Rows *)

Record lrun := LRun {
  l_status : string;
  l_user_id : option string;
  l_trace_id : string;
  l_result_json : pydict;
  l_error_code : option string;
  l_error_message : option string;
  l_observed : observability;
  l_finished_at : option Z;
  l_cancel_requested_at : option Z;
  l_target : option string;
  l_reason : string;
  l_staged_result : pydict;
  l_staged_error_code : option string;
  l_staged_error_message : option string
}.

Record run_step := RunStep {
  s_tenant_id : string; s_run_id : string; s_id : string; s_status : string;
  s_finished_at : option Z; s_updated_at : Z
}.

Record run_event := RunEvent {
  e_tenant_id : string; e_run_id : string; e_trace_id : option string; e_type : string; e_stage : string;
  e_message : string; e_payload : pydict; e_visible_to_user : option bool; e_error_code : option string;
  e_observed : option observability
}.

Record audit_record := AuditRecord {
  au_tenant_id : string; au_user_id : option string; au_action : string; au_target_id : string;
  au_trace_id : option string; au_payload : pydict
}.

Record lifecycle_db := LifecycleDb {
  ld_runs : gmap (string * string) lrun;
  ld_steps : list run_step;
  ld_artifacts : gmap (string * string) Z;
  ld_events : list run_event;
  ld_audit : list audit_record
}.

Definition set_runs (f : gmap (string * string) lrun → gmap (string * string) lrun) (db : lifecycle_db) : lifecycle_db :=
  {| ld_runs := f (ld_runs db); ld_steps := ld_steps db; ld_artifacts := ld_artifacts db;
     ld_events := ld_events db; ld_audit := ld_audit db |}.
Definition set_steps (f : list run_step → list run_step) (db : lifecycle_db) : lifecycle_db :=
  {| ld_runs := ld_runs db; ld_steps := f (ld_steps db); ld_artifacts := ld_artifacts db;
     ld_events := ld_events db; ld_audit := ld_audit db |}.
Definition append_event (e : run_event) (db : lifecycle_db) : lifecycle_db :=
  {| ld_runs := ld_runs db; ld_steps := ld_steps db; ld_artifacts := ld_artifacts db;
     ld_events := ld_events db ++ [e]; ld_audit := ld_audit db |}.
Definition append_audit_log (a : audit_record) (db : lifecycle_db) : lifecycle_db :=
  {| ld_runs := ld_runs db; ld_steps := ld_steps db; ld_artifacts := ld_artifacts db;
     ld_events := ld_events db; ld_audit := ld_audit db ++ [a] |}.

Definition run_is_terminal (r : lrun) : bool := str_in (l_status r) TERMINAL_RUN_STATUSES.

(** ** SQL primitives *)

Definition int4 (z : Z) : bool := (- 2 ^ 31 <=? z) && (z <=? 2 ^ 31 - 1).
Definition fits_int4 (o : observability) : bool :=
  match o_latency_ms o with Some z => int4 z | None => true end
  && int4 (o_input o) && int4 (o_output o) && int4 (o_total o) && int4 (o_cost o).

(** Whether a staging replaces what is staged. *)
Definition staging_wins (target : option string) (target_status : string) : bool :=
  match target with
  | None => true
  | Some t => String.eqb t "cancel_requested" && String.eqb target_status "cancelled"
  end.

Definition stage_run_terminalization (tenant_id run_id target_status terminal_reason : string)
    (result_json : option pydict) (error_code error_message : option string) (db : lifecycle_db)
    : res (lifecycle_db * option lrun) :=
  raise! "invalid_run_terminalization_target" when
    negb (str_in target_status ["failed"; "cancel_requested"; "cancelled"]);
  match ld_runs db !! (tenant_id, run_id) with
  | None => Ok (db, None)
  | Some r =>
      if run_is_terminal r then Ok (db, None) else
      let wins := staging_wins (l_target r) target_status in
      let staged :=
        {| l_status := l_status r; l_user_id := l_user_id r; l_trace_id := l_trace_id r;
           l_result_json := l_result_json r; l_error_code := l_error_code r;
           l_error_message := l_error_message r; l_observed := l_observed r;
           l_finished_at := l_finished_at r; l_cancel_requested_at := l_cancel_requested_at r;
           l_target := Some (if bool_decide (l_target r = Some "cancel_requested") && String.eqb target_status "cancelled"
                             then "cancelled" else default target_status (l_target r));
           l_reason := if wins then terminal_reason else l_reason r;
           l_staged_result := if wins then default [] result_json else l_staged_result r;
           l_staged_error_code := if wins then error_code else l_staged_error_code r;
           l_staged_error_message := if wins then error_message else l_staged_error_message r |} in
      Ok (set_runs <[(tenant_id, run_id) := staged]> db, Some staged)
  end.

Definition load_staged_terminalization (tenant_id run_id : string) (db : lifecycle_db) : option lrun :=
  match ld_runs db !! (tenant_id, run_id) with
  | Some r => if negb (bool_decide (l_target r = None)) || run_is_terminal r then Some r else None
  | None => None
  end.

(** A run with nothing staged. *)
Definition clear_staging (r : lrun) : lrun :=
  {| l_status := l_status r; l_user_id := l_user_id r; l_trace_id := l_trace_id r;
     l_result_json := l_result_json r; l_error_code := l_error_code r; l_error_message := l_error_message r;
     l_observed := l_observed r; l_finished_at := l_finished_at r;
     l_cancel_requested_at := l_cancel_requested_at r;
     l_target := None; l_reason := ""; l_staged_result := []; l_staged_error_code := None;
     l_staged_error_message := None |}.

Definition clear_cancel_requested_terminalization (tenant_id run_id : string) (db : lifecycle_db) : lifecycle_db :=
  match ld_runs db !! (tenant_id, run_id) with
  | Some r =>
      if bool_decide (l_target r = Some "cancel_requested") && negb (run_is_terminal r)
      then set_runs <[(tenant_id, run_id) := clear_staging r]> db else db
  | None => db
  end.

(** The steps of a run that are still open are closed. *)
Definition step_open (tenant_id run_id : string) (s : run_step) : bool :=
  String.eqb (s_tenant_id s) tenant_id && String.eqb (s_run_id s) run_id
  && str_in (s_status s) ["pending"; "running"].
Definition close_step (now : Z) (status : string) (s : run_step) : run_step :=
  {| s_tenant_id := s_tenant_id s; s_run_id := s_run_id s; s_id := s_id s; s_status := status;
     s_finished_at := Some (default now (s_finished_at s)); s_updated_at := now |}.
Definition cancel_open_run_steps (now : Z) (tenant_id run_id : string) (steps : list run_step) : list run_step :=
  (fun s => if step_open tenant_id run_id s then close_step now "cancelled" s else s) <$> steps.
Definition fail_open_run_steps (now : Z) (tenant_id run_id : string) (steps : list run_step) : list run_step :=
  (fun s => if step_open tenant_id run_id s
            then close_step now (if String.eqb (s_status s) "running" then "failed" else "cancelled") s
            else s) <$> steps.

(** [coalesce(nullif(v, 0), old)]. *)
Definition nonzero_or (v old : Z) : Z := if v =? 0 then old else v.

Definition finalize_staged_terminalization (now : Z) (tenant_id run_id target_status : string)
    (observed : observability) (db : lifecycle_db) : res (lifecycle_db * option (lrun * Z)) :=
  raise! "invalid_run_terminalization_target" when negb (str_in target_status ["failed"; "cancelled"]);
  match ld_runs db !! (tenant_id, run_id) with
  | None => Ok (db, None)
  | Some r =>
      if negb (bool_decide (l_target r = Some target_status)) || run_is_terminal r then Ok (db, None) else
      let old := l_observed r in
      let merged :=
        {| o_latency_ms := match o_latency_ms observed with Some z => Some z | None => o_latency_ms old end;
           o_input := nonzero_or (o_input observed) (o_input old);
           o_output := nonzero_or (o_output observed) (o_output old);
           o_total := nonzero_or (o_total observed) (o_total old);
           o_cost := nonzero_or (o_cost observed) (o_cost old) |} in
      raise! "integer_out_of_range" when negb (fits_int4 merged);
      let final :=
        {| l_status := target_status; l_user_id := l_user_id r; l_trace_id := l_trace_id r;
           l_result_json := l_staged_result r;
           l_error_code := if String.eqb target_status "failed" then l_staged_error_code r else None;
           l_error_message := if String.eqb target_status "failed" then l_staged_error_message r else None;
           l_observed := merged; l_finished_at := Some now;
           l_cancel_requested_at := l_cancel_requested_at r;
           l_target := None; l_reason := ""; l_staged_result := []; l_staged_error_code := None;
           l_staged_error_message := None |} in
      let db := set_runs <[(tenant_id, run_id) := final]> db in
      let db := set_steps (if String.eqb target_status "failed" then fail_open_run_steps now tenant_id run_id
                           else cancel_open_run_steps now tenant_id run_id) db in
      Ok (db, Some (final, default 0 (ld_artifacts db !! (tenant_id, run_id))))
  end.

Definition complete_run_sql (now : Z) (tenant_id run_id : string) (result_json : pydict)
    (observed : observability) (db : lifecycle_db) : res (lifecycle_db * bool) :=
  match ld_runs db !! (tenant_id, run_id) with
  | None => Ok (db, false)
  | Some r =>
      if run_is_terminal r || negb (bool_decide (l_cancel_requested_at r = None))
         || negb (bool_decide (l_target r = None)) then Ok (db, false) else
      raise! "integer_out_of_range" when negb (fits_int4 observed);
      let done :=
        {| l_status := "succeeded"; l_user_id := l_user_id r; l_trace_id := l_trace_id r;
           l_result_json := result_json; l_error_code := None; l_error_message := None;
           l_observed := observed; l_finished_at := Some now;
           l_cancel_requested_at := l_cancel_requested_at r; l_target := l_target r; l_reason := l_reason r;
           l_staged_result := l_staged_result r; l_staged_error_code := l_staged_error_code r;
           l_staged_error_message := l_staged_error_message r |} in
      Ok (set_runs <[(tenant_id, run_id) := done]> db, true)
  end.

Definition is_cancel_requested (tenant_id run_id : string) (db : lifecycle_db) : bool :=
  match ld_runs db !! (tenant_id, run_id) with
  | Some r => negb (bool_decide (l_cancel_requested_at r = None))
  | None => false
  end.

Definition classify_success_commit_block (tenant_id run_id : string) (db : lifecycle_db) : string :=
  match ld_runs db !! (tenant_id, run_id) with
  | None => "stale_terminal_state"
  | Some r =>
      if run_is_terminal r then "stale_terminal_state" else
      if negb (bool_decide (l_cancel_requested_at r = None))
         || str_in (default "" (l_target r)) ["cancel_requested"; "cancelled"]
      then "cancel_requested" else "stale_terminal_state"
  end.

(** ** The service *)

Class LifecyclePorts := {
  validate_result_size : option pydict → res unit;
  sanitize_payload : pyval → pyval;
  sanitize_text : option string → string;
  make_trace_id : string → string
}.

Section Service.
Context `{PyRuntime} `{LifecyclePorts}.

Definition complete_run (now : Z) (tenant_id run_id : string) (result_json : pydict) (db : lifecycle_db)
    : res (lifecycle_db * bool) :=
  let! _ := validate_result_size (Some result_json) in
  let! observed := result_observability_values (Some result_json) in
  complete_run_sql now tenant_id run_id result_json observed db.

(** [incoming if incoming not in (None, 0) else prior]. *)
Definition merge_observed (incoming prior : observability) : observability :=
  {| o_latency_ms := match o_latency_ms incoming with
                     | None => o_latency_ms prior
                     | Some z => if z =? 0 then o_latency_ms prior else Some z
                     end;
     o_input := nonzero_or (o_input incoming) (o_input prior);
     o_output := nonzero_or (o_output incoming) (o_output prior);
     o_total := nonzero_or (o_total incoming) (o_total prior);
     o_cost := nonzero_or (o_cost incoming) (o_cost prior) |}.

Definition opt_int (z : option Z) : pyval := match z with Some z => PInt z | None => PNone end.
Definition opt_str (s : option string) : pyval := match s with Some s => PStr s | None => PNone end.

Definition terminal_event (tenant_id run_id target_status : string) (staged final : lrun)
    (artifact_count : Z) : run_event :=
  let failed := String.eqb target_status "failed" in
  let result_payload := PDict (l_staged_result staged) in
  let estimated := projected_estimated_cost_minor (PInt (o_cost (l_observed final))) result_payload in
  let error_fields :=
    match l_staged_error_code staged with
    | Some code =>
        if failed && str_truthy code then
          ("error_code", PStr code)
          :: (let safe_message := sanitize_text (l_staged_error_message staged) in
              if str_truthy safe_message then [("error_message", PStr safe_message)] else [])
        else []
    | None => []
    end in
  {| e_tenant_id := tenant_id; e_run_id := run_id; e_trace_id := Some (l_trace_id staged);
     e_type := if failed then "run_failed" else "run_cancelled";
     e_stage := if failed then "worker" else "control";
     e_message := if failed then "Run failed" else "任务已取消";
     e_payload :=
       [("visible_to_user", PBool true);
        ("severity", PStr (if failed then "error" else "warning"));
        ("artifact_count", PInt artifact_count);
        ("result_status", PStr target_status);
        ("result", sanitize_payload result_payload);
        ("cost", PDict [("estimated_cost_minor", estimated)])]
       ++ private_cost_observation result_payload ++ error_fields;
     e_visible_to_user := Some true; e_error_code := None;
     e_observed := Some {| o_latency_ms := o_latency_ms (l_observed final); o_input := o_input (l_observed final);
                           o_output := o_output (l_observed final); o_total := o_total (l_observed final);
                           o_cost := match estimated with PInt z => z | _ => 0 end |} |}.

Definition terminal_audit (tenant_id run_id target_status : string) (staged final : lrun)
    (artifact_count : Z) : audit_record :=
  let o := l_observed final in
  {| au_tenant_id := tenant_id; au_user_id := None; au_action := "run." +:+ target_status;
     au_target_id := run_id; au_trace_id := Some (l_trace_id staged);
     au_payload :=
       [("reason", PStr (if str_truthy (l_reason staged) then l_reason staged else "run_terminalized"));
        ("artifact_count", PInt artifact_count);
        ("latency_ms", opt_int (o_latency_ms o));
        ("input_token_count", PInt (o_input o));
        ("output_token_count", PInt (o_output o));
        ("total_token_count", PInt (o_total o));
        ("estimated_cost_minor",
          projected_estimated_cost_minor (PInt (o_cost o)) (PDict (l_staged_result staged)));
        ("error_code", opt_str (l_staged_error_code staged))] |}.

Definition progress_run_terminalization (now : Z) (tenant_id run_id : string) (db : lifecycle_db)
    : res (lifecycle_db * option progress) :=
  match load_staged_terminalization tenant_id run_id db with
  | None => Ok (db, None)
  | Some staged =>
      if str_in (l_status staged) TERMINAL_RUN_STATUSES
      then Ok (db, Some (RunTerminalizationProgress true (Some (l_status staged)) false)) else
      let target_status := default "" (l_target staged) in
      if String.eqb target_status "cancel_requested" then
        Ok (clear_cancel_requested_terminalization tenant_id run_id db,
            Some (RunTerminalizationProgress false (Some "running") false))
      else if negb (str_in target_status ["failed"; "cancelled"]) then
        Ok (db, Some (RunTerminalizationProgress false
                        (if str_truthy target_status then Some target_status else None) false))
      else
      let! result_observed := result_observability_values (Some (l_staged_result staged)) in
      let observed := merge_observed result_observed (l_observed staged) in
      let! out := finalize_staged_terminalization now tenant_id run_id target_status observed db in
      match out with
      | (db, None) => Ok (db, Some (RunTerminalizationProgress false (Some target_status) false))
      | (db, Some (final, artifact_count)) =>
          let db := append_event (terminal_event tenant_id run_id target_status staged final artifact_count) db in
          let db := append_audit_log (terminal_audit tenant_id run_id target_status staged final artifact_count) db in
          Ok (db, Some (RunTerminalizationProgress true (Some target_status) true))
      end
  end.

(** Stage an intent and drive it as far as it goes. *)
Definition terminate_run (now : Z) (tenant_id run_id target_status terminal_reason : string)
    (result_json : option pydict) (error_code error_message : option string) (db : lifecycle_db)
    : res (lifecycle_db * progress) :=
  let! '(db, staged) :=
    stage_run_terminalization tenant_id run_id target_status terminal_reason result_json error_code
      error_message db in
  match staged with
  | None => Ok (db, RunTerminalizationProgress false None false)
  | Some staged =>
      let target := default "" (l_target staged) in
      if negb (String.eqb target target_status) then
        Ok (db, RunTerminalizationProgress false (if str_truthy target then Some target else None) false)
      else
      let! '(db, p) := progress_run_terminalization now tenant_id run_id db in
      Ok (db, progress_for_requested_status p target_status)
  end.

Definition fail_run (now : Z) (tenant_id run_id error_code error_message : string)
    (result_json : option pydict) (terminal_reason : string) (db : lifecycle_db)
    : res (lifecycle_db * progress) :=
  let! _ := validate_result_size result_json in
  terminate_run now tenant_id run_id "failed" terminal_reason result_json (Some error_code)
    (Some error_message) db.

Definition cancel_run (now : Z) (tenant_id run_id : string) (result_json : option pydict) (db : lifecycle_db)
    : res (lifecycle_db * progress) :=
  let! _ := validate_result_size result_json in
  terminate_run now tenant_id run_id "cancelled" "run_cancelled" result_json None None db.

Definition mark_run_enqueue_failed (now : Z) (tenant_id : string) (user_id : option string) (run_id : string)
    (trace_id : option string) (db : lifecycle_db) : res (lifecycle_db * progress) :=
  let error_code := "queue_enqueue_failed" in
  let error_message := "Queue admission failed; retry this run." in
  let! '(db, p) :=
    fail_run now tenant_id run_id error_code error_message
      (Some [("message", PStr error_message); ("retryable", PBool true)]) "run_failed" db in
  if did_transition p then
    let db := append_event
      {| e_tenant_id := tenant_id; e_run_id := run_id; e_trace_id := trace_id;
         e_type := "queue_enqueue_failed"; e_stage := "queue";
         e_message := "Queue admission failed; the run was marked failed.";
         e_payload := [("visible_to_user", PBool false); ("error_code", PStr error_code); ("retryable", PBool true)];
         e_visible_to_user := None; e_error_code := None; e_observed := None |} db in
    let db := append_audit_log
      {| au_tenant_id := tenant_id; au_user_id := user_id; au_action := "run.queue.enqueue_failed";
         au_target_id := run_id;
         au_trace_id := Some (match trace_id with
                              | Some t => if str_truthy t then t else make_trace_id run_id
                              | None => make_trace_id run_id
                              end);
         au_payload := [("error_code", PStr error_code); ("retryable", PBool true)] |} db in
    Ok (db, p)
  else Ok (db, p).

Definition progress_requested (now : Z) (tenant_id run_id requested_status : string) (db : lifecycle_db)
    : res (lifecycle_db * progress) :=
  let! '(db, p) := progress_run_terminalization now tenant_id run_id db in
  Ok (db, progress_for_requested_status p requested_status).

End Service.
