(* ===== verification/RunLifecycleFacts.v ===== *)
(** * What the run lifecycle guarantees

    Theorems about [RunLifecycle]: a run that ended never changes again, its end is
    announced exactly once, the first staged intent wins, a reported completion is
    durable, and a failure or cancellation that nothing contests always goes through. *)
From stdpp Require Import base gmap list strings relations.
From Stdlib Require Import ZArith Lia Ascii.
From S2P Require Import Prelude Redis PyValue QueueRuntime RunLifecycle.
#[local] Open Scope py_scope.

Section Facts.
Context `{PyRuntime} `{LifecyclePorts}.

(** ** The transition system *)

Notation key := (string * string)%type.

(** The event that announces the end of a run. *)
Definition is_end_event (e : run_event) : bool := str_in (e_type e) ["run_failed"; "run_cancelled"].
Definition end_event_of (k : key) (e : run_event) : bool :=
  is_end_event e && String.eqb (e_tenant_id e) k.1 && String.eqb (e_run_id e) k.2.
Definition end_events (k : key) (db : lifecycle_db) : list run_event := List.filter (end_event_of k) (ld_events db).

(** Changes other parts of the platform make: they leave the runs that ended alone and
    announce no end.  One change of an ended run is not among them: a cancel request on a
    run that is cancelled and still holds a sandbox records the time of the request on
    the row ([mark_cancel_requested] of [Cancellation]) and nothing else. *)
Record outside_change (db db' : lifecycle_db) : Prop := {
  oc_final : ∀ k r, ld_runs db !! k = Some r → run_is_terminal r = true → ld_runs db' !! k = Some r;
  oc_events : ∃ evs, ld_events db' = ld_events db ++ evs ∧ Forall (fun e => is_end_event e = false) evs
}.

Inductive lifecycle_op : lifecycle_db → lifecycle_db → Prop :=
| lop_complete now t r result db db' b : complete_run now t r result db = Ok (db', b) → lifecycle_op db db'
| lop_stage t r target reason result code message db db' row :
    stage_run_terminalization t r target reason result code message db = Ok (db', row) → lifecycle_op db db'
| lop_fail now t r code message result reason db db' p :
    fail_run now t r code message result reason db = Ok (db', p) → lifecycle_op db db'
| lop_cancel now t r result db db' p : cancel_run now t r result db = Ok (db', p) → lifecycle_op db db'
| lop_enqueue_failed now t u r trace db db' p :
    mark_run_enqueue_failed now t u r trace db = Ok (db', p) → lifecycle_op db db'
| lop_progress now t r requested db db' p :
    progress_requested now t r requested db = Ok (db', p) → lifecycle_op db db'
| lop_outside db db' : outside_change db db' → lifecycle_op db db'.

(** What a call on one run may do: leave every other run alone, leave the run alone
    when it has ended, and announce its end only when it ends it. *)
Definition announces (db db' : lifecycle_db) (k : key) (e : run_event) : Prop :=
  ∃ r r', ld_runs db !! k = Some r ∧ run_is_terminal r = false ∧ ld_runs db' !! k = Some r' ∧
    e_tenant_id e = k.1 ∧ e_run_id e = k.2 ∧
    ((l_status r' = "failed" ∧ e_type e = "run_failed") ∨ (l_status r' = "cancelled" ∧ e_type e = "run_cancelled")).

Record run_effect (k : key) (db db' : lifecycle_db) : Prop := {
  re_others : ∀ k', k' ≠ k → ld_runs db' !! k' = ld_runs db !! k';
  re_none : ld_runs db !! k = None → ld_runs db' !! k = None;
  re_final : ∀ r, ld_runs db !! k = Some r → run_is_terminal r = true → ld_runs db' !! k = Some r;
  re_events : ∃ evs, ld_events db' = ld_events db ++ evs ∧
    (List.filter is_end_event evs = [] ∨ ∃ e, List.filter is_end_event evs = [e] ∧ announces db db' k e)
}.

(** ** The effect of each operation *)

Lemma effect_refl k db : run_effect k db db.
Proof. split; try done. exists []. split; [by rewrite app_nil_r|by left]. Qed.
#[local] Hint Resolve effect_refl : platform.

Lemma announces_terminal db db' k e :
  announces db db' k e → ∃ r', ld_runs db' !! k = Some r' ∧ run_is_terminal r' = true.
Proof.
  intros (r & r' & _ & _ & Hr' & _ & _ & Hs). exists r'. split; [done|]. unfold run_is_terminal.
  by destruct Hs as [[-> _]|[-> _]].
Qed.

Lemma effect_trans k db1 db2 db3 : run_effect k db1 db2 → run_effect k db2 db3 → run_effect k db1 db3.
Proof.
  intros [O1 N1 F1 (ev1 & E1 & A1)] [O2 N2 F2 (ev2 & E2 & A2)]. split.
  - intros k' Hk. by rewrite O2, O1.
  - auto.
  - intros r Hr Ht. auto.
  - exists (ev1 ++ ev2). rewrite E2, E1, app_assoc, List.filter_app. split; [done|].
    destruct A1 as [A1|(e1 & A1 & Ha)]; destruct A2 as [A2|(e2 & A2 & Hb)]; rewrite A1, A2.
    + by left.
    + right. exists e2. split; [done|]. destruct Hb as (r & r' & Hr & Ht & Hb).
      destruct (ld_runs db1 !! k) as [r1|] eqn:E; [|by rewrite N1 in Hr]. exists r1, r'. split; [done|].
      split; [|done]. destruct (run_is_terminal r1) eqn:Ht1; [|done].
      rewrite (F1 _ eq_refl Ht1) in Hr. congruence.
    + right. exists e1. split; [done|]. destruct (announces_terminal _ _ _ _ Ha) as (r2 & Hr2 & Ht2).
      destruct Ha as (r & r' & Hr & Ht & Hr' & Hrest). exists r, r'. split_and!; try done; [|by apply Hrest..].
      rewrite Hr' in Hr2. injection Hr2 as <-. auto.
    + exfalso. destruct (announces_terminal _ _ _ _ Ha) as (r2 & Hr2 & Ht2).
      destruct Hb as (r & r' & Hr & Ht & _). congruence.
Qed.

(** A change of a run that has not ended, with no event. *)
Lemma effect_update k r r' db :
  ld_runs db !! k = Some r → run_is_terminal r = false → run_effect k db (set_runs <[k := r']> db).
Proof.
  intros Hr Ht. split; simpl.
  - intros k' Hk. by rewrite lookup_insert_ne.
  - congruence.
  - intros r0 Hr0 Ht0. congruence.
  - exists []. split; [by rewrite app_nil_r|by left].
Qed.

Lemma effect_audit k a db db' : run_effect k db db' → run_effect k db (append_audit_log a db').
Proof. intros [O N F E]. by split. Qed.
#[local] Hint Resolve effect_audit effect_update : platform.

Lemma effect_other_event k e db db' :
  is_end_event e = false → run_effect k db db' → run_effect k db (append_event e db').
Proof.
  intros He Heff. eapply effect_trans; [exact Heff|]. split; try done. exists [e]. split; [done|]. left.
  simpl. by rewrite He.
Qed.

Lemma stage_effect t r target reason result code message db db' row :
  stage_run_terminalization t r target reason result code message db = Ok (db', row) →
  run_effect (t, r) db db'.
Proof.
  unfold stage_run_terminalization. intros E. run_res E; simplify_eq; eauto with platform.
Qed.

Lemma clear_effect t r db : run_effect (t, r) db (clear_cancel_requested_terminalization t r db).
Proof.
  unfold clear_cancel_requested_terminalization.
  destruct (ld_runs db !! (t, r)) as [row|] eqn:Er; [|auto with platform].
  destruct (bool_decide _ && negb (run_is_terminal row)) eqn:Eb; to_prop; eauto with platform.
Qed.

Lemma complete_effect now t r result db db' b :
  complete_run now t r result db = Ok (db', b) → run_effect (t, r) db db'.
Proof.
  unfold complete_run, complete_run_sql. intros E. run_res E; simplify_eq; to_prop; eauto with platform.
Qed.

(** What finalizing a staged end does. *)
Lemma finalize_spec now t r target observed db db' out :
  finalize_staged_terminalization now t r target observed db = Ok (db', out) →
  str_in target ["failed"; "cancelled"] = true ∧
  ((out = None ∧ db' = db) ∨
   ∃ row final n, out = Some (final, n) ∧ ld_runs db !! (t, r) = Some row ∧ run_is_terminal row = false ∧
     l_target row = Some target ∧ l_status final = target ∧
     ld_runs db' = <[(t, r) := final]> (ld_runs db) ∧ ld_events db' = ld_events db).
Proof.
  unfold finalize_staged_terminalization. intros E. run_res E.
  all: split; [by apply negb_false_iff|]; simplify_eq; try (by left).
  right. to_prop. eexists _, _, _. split; [done|]. by split_and!.
Qed.

Lemma target_event target : str_in target ["failed"; "cancelled"] = true →
  (target = "failed" ∧ (if String.eqb target "failed" then "run_failed" else "run_cancelled") = "run_failed") ∨
  (target = "cancelled" ∧ (if String.eqb target "failed" then "run_failed" else "run_cancelled") = "run_cancelled").
Proof. rewrite str_in_elem, !elem_of_cons, elem_of_nil. intros [->|[->|[]]]; auto. Qed.

Lemma progress_effect now t r db db' p :
  progress_run_terminalization now t r db = Ok (db', p) → run_effect (t, r) db db'.
Proof.
  unfold progress_run_terminalization. intros E. run_res E; simplify_eq; try apply effect_refl; try apply clear_effect.
  all: match goal with Hf : finalize_staged_terminalization _ _ _ _ _ _ = _ |- _ =>
    apply finalize_spec in Hf as [Hin [[? ->]|(row & final & n & ? & Hr & Ht & _ & Hs & Hruns & Hev)]] end;
    simplify_eq; try apply effect_refl.
  apply effect_audit. split; simpl; rewrite ?Hruns, ?Hev.
  - intros k' Hk. by rewrite lookup_insert_ne.
  - intros Hn; congruence.
  - intros r0 Hr0 Ht0; congruence.
  - eexists. split; [reflexivity|]. right. simpl.
    destruct (target_event _ Hin) as [[Ht1 Ht2]|[Ht1 Ht2]]; unfold is_end_event; simpl; rewrite Ht2; simpl;
      (eexists; split; [reflexivity|]); exists row, final; simpl; rewrite Hruns, lookup_insert_eq, Hs; split_and!; auto.
Qed.

Lemma terminate_effect now t r target reason result code message db db' p :
  terminate_run now t r target reason result code message db = Ok (db', p) → run_effect (t, r) db db'.
Proof.
  unfold terminate_run. intros E. run_res E; simplify_eq.
  all: match goal with Hs : stage_run_terminalization _ _ _ _ _ _ _ _ = _ |- _ => apply stage_effect in Hs end; try done.
  match goal with Hp : progress_run_terminalization _ _ _ _ = _ |- _ => apply progress_effect in Hp end.
  by eapply effect_trans.
Qed.

Lemma fail_effect now t r code message result reason db db' p :
  fail_run now t r code message result reason db = Ok (db', p) → run_effect (t, r) db db'.
Proof. unfold fail_run. intros E. run_res E. by eapply terminate_effect. Qed.

Lemma op_effect db db' : lifecycle_op db db' → outside_change db db' ∨ ∃ k, run_effect k db db'.
Proof.
  destruct 1 as [now t r result db db' b E|t r target reason result code message db db' row E|
    now t r code message result reason db db' p E|now t r result db db' p E|now t u r trace db db' p E|
    now t r requested db db' p E|]; [right; exists (t, r)..|by left].
  - by eapply complete_effect.
  - by eapply stage_effect.
  - by eapply fail_effect.
  - unfold cancel_run in E. run_res E. by eapply terminate_effect.
  - unfold mark_run_enqueue_failed in E. run_res E; simplify_eq.
    all: match goal with Hf : fail_run _ _ _ _ _ _ _ _ = _ |- _ => apply fail_effect in Hf end; try done.
    apply effect_audit. by apply effect_other_event.
  - unfold progress_requested in E. run_res E; simplify_eq. by eapply progress_effect.
Qed.

Lemma op_final db db' k r :
  lifecycle_op db db' → ld_runs db !! k = Some r → run_is_terminal r = true → ld_runs db' !! k = Some r.
Proof.
  intros [Ho|[k' Heff]]%op_effect Hr Ht; [by eapply oc_final|].
  destruct (decide (k = k')) as [->|Hne]; [by eapply re_final|]. by rewrite (re_others _ _ _ Heff).
Qed.

(** C19.  The end of a run is final: once a run has succeeded, failed or been
    cancelled, no sequence of lifecycle operations, interleaved with the other parts
    of the platform (as [outside_change] describes them), changes its row again: not
    its status, result, error, times or measured usage. *)
Theorem ended_run_is_final db db' k r :
  rtc lifecycle_op db db' → ld_runs db !! k = Some r → run_is_terminal r = true → ld_runs db' !! k = Some r.
Proof. induction 1 as [|db1 db2 db3 Hop _ IH]; intros Hr Ht; [done|]. apply IH; [by eapply op_final|done]. Qed.

(** ** Announcing the end *)

(** An end is announced at most once, for a run that ended that way. *)
Definition announced (k : key) (db : lifecycle_db) : Prop :=
  end_events k db = [] ∨
  ∃ e r, end_events k db = [e] ∧ ld_runs db !! k = Some r ∧
    ((l_status r = "failed" ∧ e_type e = "run_failed") ∨ (l_status r = "cancelled" ∧ e_type e = "run_cancelled")).

Lemma end_events_of k (evs : list run_event) :
  List.filter (end_event_of k) evs
  = List.filter (fun e => String.eqb (e_tenant_id e) k.1 && String.eqb (e_run_id e) k.2)
      (List.filter is_end_event evs).
Proof.
  induction evs as [|e evs IH]; [done|]. simpl. unfold end_event_of at 1. destruct (is_end_event e); simpl; [|done].
  rewrite IH. by destruct (_ && _).
Qed.

Lemma no_end_filter evs : Forall (fun e => is_end_event e = false) evs → List.filter is_end_event evs = [].
Proof. induction 1 as [|e evs He _ IH]; [done|]. simpl. by rewrite He. Qed.

Lemma announced_kept k db db' evs :
  ld_events db' = ld_events db ++ evs → List.filter (end_event_of k) evs = [] →
  (∀ r, ld_runs db !! k = Some r → run_is_terminal r = true → ld_runs db' !! k = Some r) →
  announced k db → announced k db'.
Proof.
  intros He Hn Hf Ha. unfold announced, end_events in *. rewrite He, List.filter_app, Hn, app_nil_r.
  destruct Ha as [Ha|(e & r & Ha & Hr & Hs)]; [by left|]. right. exists e, r. split_and!; [done| |done].
  apply Hf; [done|]. unfold run_is_terminal. by destruct Hs as [[-> _]|[-> _]].
Qed.

Lemma op_announced k db db' : lifecycle_op db db' → announced k db → announced k db'.
Proof.
  intros Hop Ha. pose proof (fun r => op_final _ _ k r Hop) as Hfin. apply op_effect in Hop as [Ho|[k' Heff]].
  { destruct (oc_events _ _ Ho) as (evs & He & Hn). apply (announced_kept k db db' evs); try done.
    by rewrite end_events_of, no_end_filter. }
  destruct (re_events _ _ _ Heff) as (evs & He & [Hn|(e & Hn & r & r' & Hr & Ht & Hr' & Hk1 & Hk2 & Hs)]).
  { apply (announced_kept k db db' evs); try done. by rewrite end_events_of, Hn. }
  destruct (decide (k = k')) as [->|Hne].
  - destruct Ha as [Ha|(e0 & r0 & _ & Hr0 & Hs0)].
    + right. exists e, r'. unfold end_events in *. rewrite He, List.filter_app, Ha, end_events_of, Hn. simpl.
      rewrite Hk1, Hk2, !String.eqb_refl. auto.
    + exfalso. rewrite Hr in Hr0. injection Hr0 as <-. unfold run_is_terminal in Ht.
      by destruct Hs0 as [[Hs0 _]|[Hs0 _]]; rewrite Hs0 in Ht.
  - apply (announced_kept k db db' evs); try done. rewrite end_events_of, Hn. simpl.
    destruct (_ && _) eqn:E; [|done]. to_prop. destruct k, k'. simpl in *. congruence.
Qed.

(** C20.  The end of a run is announced once and truthfully: in every execution, at
    most one event says that a run failed or was cancelled, and the run is then, and
    stays, in exactly that status. *)
Theorem end_announced_once db db' k :
  ld_events db = [] → rtc lifecycle_op db db' →
  end_events k db' = [] ∨
  ∃ e r, end_events k db' = [e] ∧ ld_runs db' !! k = Some r ∧
    ((l_status r = "failed" ∧ e_type e = "run_failed") ∨ (l_status r = "cancelled" ∧ e_type e = "run_cancelled")).
Proof.
  intros He Hs. assert (announced k db) as Ha by (left; unfold end_events; by rewrite He). clear He.
  induction Hs as [|db1 db2 db3 Hop _ IH]; [done|]. apply IH. by eapply op_announced.
Qed.

(** ** Staging *)

(** The first intent wins: while another end is staged for a run (anything but a
    cancel request that a cancellation completes), failing or cancelling it changes
    nothing and reports the staged intent, not a completion. *)
Lemma first_intent_wins now t r target reason result code message db row staged :
  ld_runs db !! (t, r) = Some row → run_is_terminal row = false → l_target row = Some staged →
  staged ≠ "" → staged ≠ target → str_in target ["failed"; "cancelled"] = true →
  ¬ (staged = "cancel_requested" ∧ target = "cancelled") →
  terminate_run now t r target reason result code message db
  = Ok (db, RunTerminalizationProgress false (Some staged) false).
Proof.
  intros Hr Ht Hst Hne Hdiff Hin Hnot. unfold terminate_run, stage_run_terminalization.
  assert (str_in target ["failed"; "cancel_requested"; "cancelled"] = true) as ->.
  { rewrite str_in_elem, !elem_of_cons, elem_of_nil in *. tauto. }
  simpl negb. cbv iota. rewrite Hr, Ht, Hst.
  assert (staging_wins (Some staged) target = false) as ->.
  { unfold staging_wins. destruct (String.eqb_spec staged "cancel_requested"), (String.eqb_spec target "cancelled"); naive_solver. }
  assert (bool_decide (Some staged = Some "cancel_requested") && String.eqb target "cancelled" = false) as ->.
  { case_bool_decide; [|done]. destruct (String.eqb_spec target "cancelled"); naive_solver. }
  simpl. rewrite (proj2 (String.eqb_neq _ _) Hdiff). simpl. unfold str_truthy.
  rewrite (proj2 (String.eqb_neq _ _) Hne). simpl. f_equal. f_equal. unfold set_runs. rewrite insert_id.
  - by destruct db.
  - rewrite Hr. f_equal. destruct row. simpl in *. by subst.
Qed.

(** ** Ending a run *)

Lemma merge_again incoming prior :
  let m := merge_observed incoming prior in
  {| o_latency_ms := match o_latency_ms m with Some z => Some z | None => o_latency_ms prior end;
     o_input := nonzero_or (o_input m) (o_input prior); o_output := nonzero_or (o_output m) (o_output prior);
     o_total := nonzero_or (o_total m) (o_total prior); o_cost := nonzero_or (o_cost m) (o_cost prior) |} = m.
Proof.
  destruct incoming as [l1 i1 u1 t1 c1], prior as [l2 i2 u2 t2 c2]. unfold merge_observed, nonzero_or. simpl.
  f_equal; repeat case_match; try done; to_prop; simplify_eq; lia.
Qed.

(** The database after a run has ended as intended: its row, its steps, the one event
    and the one audit record of the end; nothing else changes. *)
Definition ended (now : Z) (t r target : string) (result : pydict) (code : option string)
    (observed : observability) (db db' : lifecycle_db) : Prop :=
  (∃ final, ld_runs db' = <[(t, r) := final]> (ld_runs db) ∧
    l_status final = target ∧ l_result_json final = result ∧ l_error_code final = code ∧
    l_observed final = observed ∧ l_finished_at final = Some now ∧ l_target final = None) ∧
  Forall (fun s => step_open t r s = false) (ld_steps db') ∧
  (∀ s, s ∈ ld_steps db → step_open t r s = false → s ∈ ld_steps db') ∧
  (∃ e, ld_events db' = ld_events db ++ [e] ∧ end_event_of (t, r) e = true) ∧
  (∃ a, ld_audit db' = ld_audit db ++ [a] ∧ au_action a = "run." +:+ target).

(** The steps after the end. *)
Lemma closed_not_open now t r status s :
  str_in status ["failed"; "cancelled"] = true → step_open t r (close_step now status s) = false.
Proof.
  rewrite str_in_elem, !elem_of_cons, elem_of_nil. intros [->|[->|[]]]; unfold step_open; simpl;
    by rewrite !andb_false_r.
Qed.

Lemma steps_closed (f : run_step → run_step) t r steps :
  (∀ s, step_open t r s = true → step_open t r (f s) = false) →
  let g := fun s => if step_open t r s then f s else s in
  Forall (fun s => step_open t r s = false) (g <$> steps) ∧
  (∀ s, s ∈ steps → step_open t r s = false → s ∈ g <$> steps).
Proof.
  intros Hf g. split.
  - apply Forall_fmap, Forall_forall. intros s _. unfold compose, g. destruct (step_open t r s) eqn:E; auto.
  - intros s Hin E. apply list_elem_of_fmap. exists s. unfold g. by rewrite E.
Qed.

Lemma end_steps now t r target steps :
  let steps' := (if String.eqb target "failed" then fail_open_run_steps now t r else cancel_open_run_steps now t r) steps in
  Forall (fun s => step_open t r s = false) steps' ∧
  (∀ s, s ∈ steps → step_open t r s = false → s ∈ steps').
Proof.
  destruct (String.eqb target "failed"); simpl; apply steps_closed; intros s _; apply closed_not_open; [|done].
  by destruct (String.eqb (s_status s) "running").
Qed.

(** The finalization of a staged end. *)
Lemma progress_completes now t r target db row obs :
  ld_runs db !! (t, r) = Some row → run_is_terminal row = false → l_target row = Some target →
  str_in target ["failed"; "cancelled"] = true →
  result_observability_values (Some (l_staged_result row)) = Ok obs →
  fits_int4 (merge_observed obs (l_observed row)) = true →
  ∃ db', progress_run_terminalization now t r db = Ok (db', Some (RunTerminalizationProgress true (Some target) true)) ∧
    ended now t r target (l_staged_result row)
      (if String.eqb target "failed" then l_staged_error_code row else None)
      (merge_observed obs (l_observed row)) db db'.
Proof.
  intros Hr Ht Htarget Hin Hobs Hfits. unfold progress_run_terminalization, load_staged_terminalization.
  rewrite Hr, Htarget, Ht. rewrite bool_decide_eq_false_2 by done. cbn [negb orb].
  unfold run_is_terminal in Ht. rewrite Ht, Htarget. cbn [from_option id].
  assert (String.eqb target "cancel_requested" = false) as ->.
  { rewrite str_in_elem, !elem_of_cons, elem_of_nil in Hin. by destruct Hin as [->|[->|[]]]. }
  unfold finalize_staged_terminalization. rewrite Hin. cbn [negb]. rewrite Hobs. cbn [res_bind].
  rewrite Hr, Htarget, bool_decide_eq_true_2 by done. cbn [negb orb].
  unfold run_is_terminal. rewrite Ht, merge_again, Hfits. cbn [negb res_bind].
  eexists. split; [reflexivity|]. unfold ended. simpl. split_and!.
  - eexists. by split_and!.
  - apply end_steps.
  - apply end_steps.
  - eexists. split; [reflexivity|]. unfold end_event_of, is_end_event. simpl. rewrite !String.eqb_refl.
    by destruct (String.eqb target "failed").
  - by eexists.
Qed.

(** An intent that wins the staging is carried through. *)
Lemma terminate_completes now t r target reason result code message db row obs :
  ld_runs db !! (t, r) = Some row → run_is_terminal row = false → staging_wins (l_target row) target = true →
  str_in target ["failed"; "cancelled"] = true →
  result_observability_values (Some (default [] result)) = Ok obs →
  fits_int4 (merge_observed obs (l_observed row)) = true →
  ∃ db', terminate_run now t r target reason result code message db
    = Ok (db', RunTerminalizationProgress true (Some target) true) ∧
    ended now t r target (default [] result) (if String.eqb target "failed" then code else None)
      (merge_observed obs (l_observed row)) db db'.
Proof.
  intros Hr Ht Hwins Hin Hobs Hfits. unfold terminate_run, stage_run_terminalization.
  assert (str_in target ["failed"; "cancel_requested"; "cancelled"] = true) as ->.
  { rewrite str_in_elem, !elem_of_cons, elem_of_nil in *. tauto. }
  cbn [negb]. rewrite Hr, Ht, Hwins. cbv iota. cbn [res_bind].
  match goal with |- context [set_runs <[_ := ?st]> db] => set (staged := st) end.
  assert (l_target staged = Some target) as Htarget.
  { unfold staging_wins in Hwins. simpl. destruct (l_target row) as [s|]; [|by rewrite bool_decide_eq_false_2].
    to_prop. subst. by rewrite bool_decide_eq_true_2. }
  rewrite Htarget. cbn [from_option id]. rewrite String.eqb_refl. cbn [negb].
  destruct (progress_completes now t r target (set_runs <[(t, r) := staged]> db) staged obs) as (db' & -> & Hend);
    try done; [apply lookup_insert_eq|].
  cbn [res_bind]. exists db'. split.
  - unfold progress_for_requested_status, progress_is_terminal. cbn [completed p_status]. rewrite String.eqb_refl.
    rewrite str_in_elem, !elem_of_cons, elem_of_nil in Hin. by destruct Hin as [->|[->|[]]].
  - destruct Hend as ((final & Hruns & Hrest) & Hend). split; [|exact Hend]. exists final. split; [|exact Hrest].
    rewrite Hruns. simpl. by rewrite insert_insert_eq.
Qed.

(** An uncontested end goes through.  Failing a run that has not ended and for
    which nothing is staged, and cancelling one for which at most a cancel request is
    staged, completes: the run gets the status, the result and, for a failure, the
    error code; its usage is the measured one where there is one; its open steps are
    closed and no other row changes; one event and one audit record say so. *)
Lemma uncontested_end_completes now t r result db row obs :
  ld_runs db !! (t, r) = Some row → run_is_terminal row = false →
  validate_result_size result = Ok tt →
  result_observability_values (Some (default [] result)) = Ok obs →
  fits_int4 (merge_observed obs (l_observed row)) = true →
  (l_target row = None → ∀ code message reason,
     ∃ db', fail_run now t r code message result reason db
       = Ok (db', RunTerminalizationProgress true (Some "failed") true) ∧
     ended now t r "failed" (default [] result) (Some code) (merge_observed obs (l_observed row)) db db') ∧
  (l_target row = None ∨ l_target row = Some "cancel_requested" →
     ∃ db', cancel_run now t r result db
       = Ok (db', RunTerminalizationProgress true (Some "cancelled") true) ∧
     ended now t r "cancelled" (default [] result) None (merge_observed obs (l_observed row)) db db').
Proof.
  intros Hr Ht Hv Hobs Hfits. unfold fail_run, cancel_run. rewrite Hv. cbn [res_bind]. split.
  - intros Htarget code message reason. apply (terminate_completes now t r "failed"); try done. by rewrite Htarget.
  - intros Htarget. apply (terminate_completes now t r "cancelled"); try done. by destruct Htarget as [-> | ->].
Qed.

(** ** Reported completion *)

Lemma progress_reports now t r db db' p :
  progress_run_terminalization now t r db = Ok (db', Some p) → completed p = true →
  ∃ s row, p_status p = Some s ∧ ld_runs db' !! (t, r) = Some row ∧ l_status row = s.
Proof.
  unfold progress_run_terminalization. intros E Hc. run_res E; simplify_eq; simpl in *; try done.
  - unfold load_staged_terminalization in *. destruct (ld_runs db' !! (t, r)) as [row|] eqn:Hr; [|done].
    destruct (_ || _); [|done]. simplify_eq. eauto.
  - match goal with Hf : finalize_staged_terminalization _ _ _ _ _ _ = _ |- _ =>
      apply finalize_spec in Hf as [Hin [[? ->]|(row & final & n & ? & Hr & Ht & _ & Hs & Hruns & Hev)]] end; [done|].
    simplify_eq. eexists _, _. rewrite Hruns, lookup_insert_eq. eauto.
Qed.

Lemma requested_reports now t r requested db db' p0 :
  progress_run_terminalization now t r db = Ok (db', p0) →
  let p := progress_for_requested_status p0 requested in
  completed p = true →
  p_status p = Some requested ∧ ∃ row, ld_runs db' !! (t, r) = Some row ∧ l_status row = requested.
Proof.
  intros E p Hc. unfold p, progress_for_requested_status in *. destruct p0 as [p0|]; [|done].
  destruct (progress_is_terminal (Some requested) p0) eqn:Ep; [|done].
  destruct (progress_reports _ _ _ _ _ _ E Hc) as (s & row & Hs & Hr & Hst). unfold progress_is_terminal in Ep.
  rewrite Hs in *. to_prop. subst. eauto.
Qed.

(** A reported completion is true: when failing, cancelling or progressing a run
    reports a completion, the run is durably in exactly the status that was asked for,
    whoever brought it there. *)
Lemma reported_completion_is_durable now t r db db' p requested :
  (∃ code message result reason,
     requested = "failed" ∧ fail_run now t r code message result reason db = Ok (db', p)) ∨
  (∃ result, requested = "cancelled" ∧ cancel_run now t r result db = Ok (db', p)) ∨
  progress_requested now t r requested db = Ok (db', p) →
  completed p = true →
  p_status p = Some requested ∧ ∃ row, ld_runs db' !! (t, r) = Some row ∧ l_status row = requested.
Proof.
  intros Hop Hc.
  assert (∀ target reason result code message, terminate_run now t r target reason result code message db = Ok (db', p) →
    p_status p = Some target ∧ ∃ row, ld_runs db' !! (t, r) = Some row ∧ l_status row = target) as Hterm.
  { intros target reason result code message E. unfold terminate_run in E. run_res E; simplify_eq; try done.
    by eapply requested_reports. }
  destruct Hop as [(code & message & result & reason & -> & E)|[(result & -> & E)|E]].
  - unfold fail_run in E. run_res E. eauto.
  - unfold cancel_run in E. run_res E. eauto.
  - unfold progress_requested in E. run_res E. simplify_eq. by eapply requested_reports.
Qed.

(** Success is committed exactly when nothing stands against it: when the usage
    in the result can be stored, the commit is accepted if and only if the run exists,
    has not ended, and neither a cancel request nor a staged end is recorded; an
    accepted commit makes the run succeeded with the given result; a refused one
    changes nothing, and its classification names a cancel exactly when the run is
    still open and a cancel is requested or staged. *)
Lemma success_commit_exact now t r result db obs :
  validate_result_size (Some result) = Ok tt → result_observability_values (Some result) = Ok obs → fits_int4 obs = true →
  ∃ db' ok, complete_run now t r result db = Ok (db', ok) ∧
  (ok = true ↔ ∃ row, ld_runs db !! (t, r) = Some row ∧ run_is_terminal row = false ∧
                      l_cancel_requested_at row = None ∧ l_target row = None) ∧
  (ok = true → ∃ done, ld_runs db' = <[(t, r) := done]> (ld_runs db) ∧ l_status done = "succeeded" ∧
     l_result_json done = result ∧ l_error_code done = None ∧ l_observed done = obs) ∧
  (ok = false → db' = db ∧
     (classify_success_commit_block t r db = "cancel_requested" ↔
      ∃ row, ld_runs db !! (t, r) = Some row ∧ run_is_terminal row = false ∧
        (l_cancel_requested_at row ≠ None ∨ l_target row = Some "cancel_requested" ∨ l_target row = Some "cancelled"))).
Proof.
  intros Hv Hobs Hfits. unfold complete_run. rewrite Hv, Hobs. cbn [res_bind].
  unfold complete_run_sql, classify_success_commit_block. destruct (ld_runs db !! (t, r)) as [row|] eqn:Hr.
  2: { exists db, false. split; [done|]. split; [naive_solver|]. split; [done|]. intros _. split; [done|].
       split; [discriminate|intros (row0 & Hr0 & Ht0 & Hx); first [discriminate Hr0 | by simplify_eq; naive_solver | naive_solver congruence]]. }
  destruct (run_is_terminal row) eqn:Ht; cbn [orb].
  { exists db, false. split; [done|]. split; [naive_solver|]. split; [done|]. intros _. split; [done|].
    split; [discriminate|intros (row0 & Hr0 & Ht0 & Hx); first [discriminate Hr0 | by simplify_eq; naive_solver | naive_solver congruence]]. }
  destruct (bool_decide_reflect (l_cancel_requested_at row = None)) as [Hc|Hc]; cbn [negb orb].
  2: { exists db, false. split; [done|]. split; [naive_solver|]. split; [done|]. intros _. split; [done|].
       split; [intros _; exists row; auto|done]. }
  destruct (bool_decide_reflect (l_target row = None)) as [Hn|Hn]; cbn [negb].
  - rewrite Hfits. cbn [negb]. eexists _, true. split; [reflexivity|]. split; [naive_solver|]. split; [|done].
    intros _. eexists. by split_and!.
  - exists db, false. split; [done|]. split; [naive_solver|]. split; [done|]. intros _. split; [done|].
    destruct (l_target row) as [s|] eqn:Es; [|done]. cbn [from_option id str_in].
    destruct (String.eqb_spec s "cancel_requested") as [->|H1]; [split; [intros _; exists row; auto|done]|].
    destruct (String.eqb_spec s "cancelled") as [->|H2]; [split; [intros _; exists row; auto|done]|].
    split; [discriminate|intros (row0 & Hr0 & Ht0 & Hx); first [discriminate Hr0 | by simplify_eq; naive_solver | naive_solver congruence]].
Qed.

End Facts.

(** ** Examples *)

#[local] Instance toy_ports : LifecyclePorts := {|
  validate_result_size := fun _ => Ok tt;
  sanitize_payload := fun v => v;
  sanitize_text := fun s => default ""%string s;
  make_trace_id := fun r => ("trace_" +:+ r)%string
|}.

Definition toy_observed : observability := Observability None 0 0 0 0.
Definition toy_lrun : lrun :=
  {| l_status := "running"; l_user_id := Some "u"; l_trace_id := "trace"; l_result_json := []; l_error_code := None;
     l_error_message := None; l_observed := toy_observed; l_finished_at := None; l_cancel_requested_at := None;
     l_target := None; l_reason := ""; l_staged_result := []; l_staged_error_code := None;
     l_staged_error_message := None |}.
Definition toy_step : run_step := RunStep "t" "r" "s1" "running" None 3.
Definition toy_db : lifecycle_db :=
  {| ld_runs := {[ ("t", "r") := toy_lrun ]}; ld_steps := [toy_step]; ld_artifacts := ∅; ld_events := [];
     ld_audit := [] |}.
Definition toy_result : pydict :=
  [("message", PStr "no"); ("latency_ms", PInt 20); ("token_counts", PDict [("input", PInt 5); ("output", PInt 7)])].

Definition db_of {A} (m : res (lifecycle_db * A)) : lifecycle_db := match m with Ok (db, _) => db | Raise _ => toy_db end.

(** The run fails; a later cancellation and a late success are refused. *)
Definition toy_failed : lifecycle_db := db_of (fail_run 9 "t" "r" "boom" "it broke" (Some toy_result) "run_failed" toy_db).
Definition toy_failed_run : lrun :=
  {| l_status := "failed"; l_user_id := Some "u"; l_trace_id := "trace"; l_result_json := toy_result;
     l_error_code := Some "boom"; l_error_message := Some "it broke"; l_observed := Observability (Some 20) 5 7 12 0;
     l_finished_at := Some 9; l_cancel_requested_at := None; l_target := None; l_reason := "";
     l_staged_result := []; l_staged_error_code := None; l_staged_error_message := None |}.
Lemma toy_fail_ok : fail_run 9 "t" "r" "boom" "it broke" (Some toy_result) "run_failed" toy_db
  = Ok (toy_failed, RunTerminalizationProgress true (Some "failed") true).
Proof. vm_compute. reflexivity. Qed.
Lemma toy_cancel_refused : cancel_run 12 "t" "r" None toy_failed
  = Ok (toy_failed, RunTerminalizationProgress false None false).
Proof. vm_compute. reflexivity. Qed.

Lemma ended_run_is_final_witness : ld_runs toy_failed !! ("t", "r")%string = Some toy_failed_run.
Proof.
  refine (ended_run_is_final toy_failed toy_failed ("t", "r")%string toy_failed_run _ _ _).
  - eapply rtc_once, lop_cancel. exact toy_cancel_refused.
  - vm_compute. reflexivity.
  - reflexivity.
Defined.

Lemma end_announced_once_witness :
  end_events ("t", "r")%string toy_failed = [] ∨
  ∃ e r, end_events ("t", "r")%string toy_failed = [e] ∧ ld_runs toy_failed !! ("t", "r")%string = Some r ∧
    ((l_status r = "failed" ∧ e_type e = "run_failed") ∨ (l_status r = "cancelled" ∧ e_type e = "run_cancelled")).
Proof.
  refine (end_announced_once toy_db toy_failed ("t", "r")%string _ _).
  - reflexivity.
  - eapply rtc_once, lop_fail. exact toy_fail_ok.
Defined.

(** A database where a cancellation is staged. *)
Definition toy_staged : lifecycle_db := db_of (stage_run_terminalization "t" "r" "cancelled" "asked" None None None toy_db).



