(* ===== verification/TextParts.v ===== *)
(** * Assistant text parts

    An assistant message is streamed as parts: deltas append text to a part, and
    classifications say whether a part belongs to the answer or to the work shown
    beside it.  [src/app/streaming/domain/assistant_text_parts.py] has the check of
    one new fact against the compact state of its part
    ([apply_assistant_text_part_append_fact]) and the reduction of a whole message
    ledger to its final answer ([reduce_assistant_text_part_message]).

    A fact is a Python mapping, kept as an association list; the dictionaries the
    reducer builds keep the order of insertion. *)
From stdpp Require Import base list strings.
From Stdlib Require Import ZArith Lia Ascii.
From S2P Require Import Prelude Redis PyValue.
#[local] Open Scope py_scope.

Definition ASSISTANT_TEXT_PART_SCHEMA : string := "ai-platform.assistant-text-part.v1".
Definition ASSISTANT_TEXT_PART_EVENT_TYPES : list string := ["message.part.delta"; "message.part.classified"].
Definition ANSWER_FACT_TYPES : list string :=
  ["message.started"; "message.delta"; "message.part.delta"; "message.part.classified"; "message.completed"].

Record part_answer := AssistantTextPartAnswer {
  pa_message_id : string; pa_text : string; pa_delta_count : Z; pa_text_length : Z;
  pa_last_delta_event_id : string
}.
Record part_state := AssistantTextPartState {
  ps_has_parts : bool; ps_completed : bool; ps_answer : option part_answer
}.
Record append_state := AssistantTextPartAppendState {
  as_owner_message_id : option string; as_has_delta : bool; as_latest_role : option string;
  as_role_reversed : bool
}.

Definition invalid {A} (reason : string) : res A := Raise ("assistant_text_part_" +:+ reason).

Definition is_ref_char (c : ascii) : bool := is_alnum c || Ascii.eqb c "_" || Ascii.eqb c "-".
Definition is_safe_ref (s : string) : bool :=
  match s with
  | EmptyString => false
  | String c s' => is_alnum c && str_forall is_ref_char s' && (Z.of_nat (String.length s') <=? 255)
  end.
Definition safe_ref (value : pyval) : res string :=
  match value with
  | PStr s => if is_safe_ref s then Ok s else invalid "reference_invalid"
  | _ => invalid "reference_invalid"
  end.

(** [isinstance(delta, str) and 1 <= len(delta) <= 8192]. *)
Definition valid_delta (v : pyval) : option string :=
  match v with PStr s => if (1 <=? py_len s) && (py_len s <=? 8192) then Some s else None | _ => None end.
(** [isinstance(role, str) and role in ("answer", "work")]. *)
Definition valid_role (v : pyval) : option string :=
  match v with PStr s => if str_in s ["answer"; "work"] then Some s else None | _ => None end.

(** ** One new fact *)

Definition apply_assistant_text_part_append_fact (state : append_state) (message_id event_type : string)
    (payload source_event_id : pyval) : res (string * append_state) :=
  let! message_id := safe_ref (PStr message_id) in
  if negb (str_in event_type ASSISTANT_TEXT_PART_EVENT_TYPES) then invalid "event_type_invalid" else
  match as_dict payload with
  | None => invalid "payload_invalid"
  | Some payload =>
      if negb (eq_str (get "schema_version" payload) ASSISTANT_TEXT_PART_SCHEMA)
      then invalid "schema_version_invalid" else
      let! part_id := safe_ref (get "part_id" payload) in
      if as_role_reversed state then invalid "work_role_reversed" else
      if match as_owner_message_id state with Some o => negb (String.eqb o message_id) | None => false end
      then invalid "part_owner_mismatch" else
      if String.eqb event_type "message.part.delta" then
        match valid_delta (get "delta" payload) with
        | None => invalid "delta_invalid"
        | Some _ =>
            let! _ := safe_ref source_event_id in
            Ok (part_id, {| as_owner_message_id := Some message_id; as_has_delta := true;
                            as_latest_role := as_latest_role state;
                            as_role_reversed := as_role_reversed state |})
        end
      else
        match valid_role (get "role" payload) with
        | None => invalid "role_invalid"
        | Some role =>
            if negb (as_has_delta state) then invalid "classification_without_delta" else
            if bool_decide (as_latest_role state = Some "work") && negb (String.eqb role "work")
            then invalid "work_role_reversed" else
            Ok (part_id, {| as_owner_message_id := Some message_id; as_has_delta := as_has_delta state;
                            as_latest_role := Some role; as_role_reversed := as_role_reversed state |})
        end
  end.

(** ** The reducer *)

Record ledger := Ledger {
  lg_text : list (string * list string);
  lg_roles : list (string * string);
  lg_order : list string;
  lg_sources : list string;
  lg_message_id : option string;
  lg_previous : Z;
  lg_started : bool;
  lg_completed : option (list (string * pyval));
  lg_has_parts : bool
}.
Definition empty_ledger : ledger := Ledger [] [] [] [] None 0 false None false.

(** The types of the facts, checked before anything else. *)
Fixpoint fact_types (facts : list pyval) : res (list string) :=
  match facts with
  | [] => Ok []
  | fact :: facts =>
      match as_dict fact with
      | None => invalid "fact_invalid"
      | Some d =>
          match get "event_type" d with
          | PStr t =>
              if negb (str_in t ANSWER_FACT_TYPES) then invalid "event_type_invalid" else
              let! ts := fact_types facts in Ok (t :: ts)
          | _ => invalid "event_type_invalid"
          end
      end
  end.

(** [isinstance(sequence, bool) or not isinstance(sequence, int)]. *)
Definition sequence_of (v : pyval) : option Z := match v with PInt z => Some z | _ => None end.

(** The checks every fact passes before its own kind is looked at. *)
Definition common_checks (expected_message_id : option string) (fact : list (string * pyval)) (lg : ledger)
    : res (ledger * list (string * pyval)) :=
  match sequence_of (get "seq" fact) with
  | None => invalid "sequence_invalid"
  | Some sequence =>
      if sequence <=? lg_previous lg then invalid "sequence_invalid" else
      let! current := safe_ref (get "message_id" fact) in
      if match lg_message_id lg with Some m => negb (String.eqb current m) | None => false end
      then invalid "message_id_mismatch" else
      if match expected_message_id with Some m => negb (String.eqb current m) | None => false end
      then invalid "message_id_mismatch" else
      if match lg_completed lg with Some _ => true | None => false end then invalid "event_after_completion" else
      match as_dict (get "payload" fact) with
      | None => invalid "payload_invalid"
      | Some payload =>
          Ok ({| lg_text := lg_text lg; lg_roles := lg_roles lg; lg_order := lg_order lg;
                 lg_sources := lg_sources lg; lg_message_id := Some current; lg_previous := sequence;
                 lg_started := lg_started lg; lg_completed := lg_completed lg;
                 lg_has_parts := lg_has_parts lg |}, payload)
      end
  end.

Definition reduce_delta (fact payload : list (string * pyval)) (lg : ledger) : res ledger :=
  if negb (eq_str (get "schema_version" payload) ASSISTANT_TEXT_PART_SCHEMA)
  then invalid "schema_version_invalid" else
  let! part_id := safe_ref (get "part_id" payload) in
  match valid_delta (get "delta" payload) with
  | None => invalid "delta_invalid"
  | Some delta =>
      let! source := safe_ref (get "source_event_id" fact) in
      if str_in source (lg_sources lg) then invalid "source_event_duplicate" else
      let known := match assoc part_id (lg_text lg) with Some _ => true | None => false end in
      Ok {| lg_text := assoc_set part_id (default [] (assoc part_id (lg_text lg)) ++ [delta]) (lg_text lg);
            lg_roles := if known then lg_roles lg else assoc_set part_id "pending" (lg_roles lg);
            lg_order := if known then lg_order lg else lg_order lg ++ [part_id];
            lg_sources := lg_sources lg ++ [source]; lg_message_id := lg_message_id lg;
            lg_previous := lg_previous lg; lg_started := lg_started lg; lg_completed := lg_completed lg;
            lg_has_parts := true |}
  end.

Definition reduce_classified (payload : list (string * pyval)) (lg : ledger) : res ledger :=
  if negb (eq_str (get "schema_version" payload) ASSISTANT_TEXT_PART_SCHEMA)
  then invalid "schema_version_invalid" else
  let! part_id := safe_ref (get "part_id" payload) in
  match valid_role (get "role" payload) with
  | None => invalid "role_invalid"
  | Some role =>
      match assoc part_id (lg_text lg) with
      | None => invalid "classification_without_delta"
      | Some _ =>
          if bool_decide (assoc part_id (lg_roles lg) = Some "work") && negb (String.eqb role "work")
          then invalid "work_role_reversed" else
          Ok {| lg_text := lg_text lg; lg_roles := assoc_set part_id role (lg_roles lg);
                lg_order := lg_order lg; lg_sources := lg_sources lg; lg_message_id := lg_message_id lg;
                lg_previous := lg_previous lg; lg_started := lg_started lg;
                lg_completed := lg_completed lg; lg_has_parts := true |}
      end
  end.

Definition set_started (lg : ledger) : ledger :=
  {| lg_text := lg_text lg; lg_roles := lg_roles lg; lg_order := lg_order lg; lg_sources := lg_sources lg;
     lg_message_id := lg_message_id lg; lg_previous := lg_previous lg; lg_started := true;
     lg_completed := lg_completed lg; lg_has_parts := lg_has_parts lg |}.
Definition set_completed (fact : list (string * pyval)) (lg : ledger) : ledger :=
  {| lg_text := lg_text lg; lg_roles := lg_roles lg; lg_order := lg_order lg; lg_sources := lg_sources lg;
     lg_message_id := lg_message_id lg; lg_previous := lg_previous lg; lg_started := lg_started lg;
     lg_completed := Some fact; lg_has_parts := lg_has_parts lg |}.

Definition reduce_fact (expected_message_id : option string) (fact_index : Z) (event_type : string)
    (fact : list (string * pyval)) (lg : ledger) : res ledger :=
  let! '(lg, payload) := common_checks expected_message_id fact lg in
  if String.eqb event_type "message.started" then
    if lg_started lg || negb (fact_index =? 0) then invalid "started_invalid" else Ok (set_started lg)
  else if negb (lg_started lg) then invalid "started_missing"
  else if String.eqb event_type "message.part.delta" then reduce_delta fact payload lg
  else if String.eqb event_type "message.part.classified" then reduce_classified payload lg
  else if String.eqb event_type "message.delta" then Ok lg
  else if String.eqb event_type "message.completed" then Ok (set_completed fact lg)
  else Ok lg.

(** The facts in the order of the ledger, by index. *)
Fixpoint reduce_facts (expected_message_id : option string) (fact_index : Z)
    (facts : list (string * list (string * pyval))) (lg : ledger) : res ledger :=
  match facts with
  | [] => Ok lg
  | (t, fact) :: facts =>
      let! lg := reduce_fact expected_message_id fact_index t fact lg in
      reduce_facts expected_message_id (fact_index + 1) facts lg
  end.

Section Reduce.
Context `{PyRuntime}.

(** The delta facts of the parts whose final role is answer. *)
Definition answer_delta_facts (roles : list (string * string)) (facts : list (list (string * pyval)))
    : list (list (string * pyval)) :=
  List.filter (fun fact =>
    eq_str (get "event_type" fact) "message.part.delta"
    && match as_dict (get "payload" fact) with
       | Some payload => bool_decide (assoc (py_str (get "part_id" payload)) roles = Some "answer")
       | None => false
       end) facts.

Fixpoint safe_refs (values : list pyval) : res (list string) :=
  match values with
  | [] => Ok []
  | v :: values => let! s := safe_ref v in let! ss := safe_refs values in Ok (s :: ss)
  end.

Fixpoint all_different (l : list string) : bool :=
  match l with
  | [] => true
  | x :: l => negb (str_in x l) && all_different l
  end.

Definition newline : string := String (ascii_of_N 10) EmptyString.

Definition finish_ledger (facts : list (list (string * pyval))) (lg : ledger) : res part_state :=
  if negb (lg_has_parts lg) then
    Ok {| ps_has_parts := false; ps_completed := match lg_completed lg with Some _ => true | None => false end;
          ps_answer := None |}
  else if negb (lg_started lg) then invalid "started_missing"
  else
  match lg_completed lg with
  | None => Ok {| ps_has_parts := true; ps_completed := false; ps_answer := None |}
  | Some completed_fact =>
      if existsb (fun kr => String.eqb kr.2 "pending") (lg_roles lg) then invalid "unclassified_at_completion" else
      let selected_parts :=
        List.filter (fun part_id => bool_decide (assoc part_id (lg_roles lg) = Some "answer")) (lg_order lg) in
      let deltas := answer_delta_facts (lg_roles lg) facts in
      match selected_parts, deltas with
      | [], _ | _, [] => invalid "answer_missing"
      | _, _ =>
          let text := String.concat (newline +:+ newline)
                        ((fun part_id => String.concat "" (default [] (assoc part_id (lg_text lg)))) <$> selected_parts) in
          if String.eqb text "" then invalid "answer_empty" else
          let! selected_sources := safe_refs (get "source_event_id" <$> deltas) in
          if negb (all_different selected_sources) then invalid "source_event_duplicate" else
          let last_delta_event_id := default "" (last selected_sources) in
          match as_dict (get "payload" completed_fact) with
          | None => invalid "completed_payload_invalid"
          | Some completed_payload =>
              if is_bool (get "delta_count" completed_payload)
                 || negb (eq_int (get "delta_count" completed_payload) (Z.of_nat (length deltas)))
                 || is_bool (get "text_length" completed_payload)
                 || negb (eq_int (get "text_length" completed_payload) (py_len text))
                 || negb (eq_str (get "causation_event_id" completed_fact) last_delta_event_id)
              then invalid "completed_selection_mismatch"
              else Ok {| ps_has_parts := true; ps_completed := true;
                         ps_answer := Some {| pa_message_id := default "" (lg_message_id lg); pa_text := text;
                                              pa_delta_count := Z.of_nat (length deltas);
                                              pa_text_length := py_len text;
                                              pa_last_delta_event_id := last_delta_event_id |} |}
          end
      end
  end.

Definition reduce_assistant_text_part_message (facts : list pyval) (expected_message_id : option string)
    : res part_state :=
  match facts with
  | [] => Ok {| ps_has_parts := false; ps_completed := false; ps_answer := None |}
  | _ =>
      let! event_types := fact_types facts in
      if str_in "message.delta" event_types
         && existsb (fun t => str_in t event_types) ASSISTANT_TEXT_PART_EVENT_TYPES
      then invalid "mixed_legacy_and_part_events" else
      let dicts := (fun fact => default [] (as_dict fact)) <$> facts in
      let! lg := reduce_facts expected_message_id 0 (zip event_types dicts) empty_ledger in
      finish_ledger dicts lg
  end.

End Reduce.
