(* ===== verification/TextPartsFacts.v ===== *)
(** * What the text part ledger guarantees

    Theorems about [TextParts]: the answer the reducer selects is the one a plain
    reading of the ledger gives, and the check of a single new fact accepts exactly
    what the reducer accepts. *)
From stdpp Require Import base list strings.
From Stdlib Require Import ZArith Lia Ascii.
From S2P Require Import Prelude Redis QueueScripts QueueFacts PyValue QueueRuntime TextParts.

(** ** The reference reading of a ledger *)

Notation fact := (list (string * pyval)).

(** The part a fact of a type speaks of. *)
Definition fact_part (event_type : string) (f : fact) : option string :=
  if eq_str (get "event_type" f) event_type then
    match as_dict (get "payload" f) with
    | Some payload => match get "part_id" payload with PStr p => Some p | _ => None end
    | None => None
    end
  else None.
Definition payload_str (field : string) (f : fact) : option string :=
  match as_dict (get "payload" f) with
  | Some payload => match get field payload with PStr s => Some s | _ => None end
  | None => None
  end.

(** The texts added to a part, and the roles it was given, in order. *)
Definition deltas_of (p : string) (fs : list fact) : list string :=
  omap (fun f => if bool_decide (fact_part "message.part.delta" f = Some p) then payload_str "delta" f else None) fs.
Definition roles_of (p : string) (fs : list fact) : list string :=
  omap (fun f => if bool_decide (fact_part "message.part.classified" f = Some p) then payload_str "role" f else None) fs.
(** The parts that have text, in the order they appear. *)
Definition add_part (acc : list string) (f : fact) : list string :=
  match fact_part "message.part.delta" f with
  | Some p => if str_in p acc then acc else acc ++ [p]
  | None => acc
  end.
Definition parts_of (fs : list fact) : list string := fold_left add_part fs [].
Definition answer_parts (fs : list fact) : list string :=
  List.filter (fun p => bool_decide (last (roles_of p fs) = Some "answer"%string)) (parts_of fs).

(** The deltas of those parts, in the order of the ledger. *)
Definition answer_deltas (fs : list fact) : list fact :=
  List.filter (fun f => match fact_part "message.part.delta" f with
                        | Some p => str_in p (answer_parts fs)
                        | None => false
                        end) fs.
(** A delta names its part. *)
Definition part_named (f : fact) : Prop :=
  eq_str (get "event_type" f) "message.part.delta" = true → fact_part "message.part.delta" f ≠ None.

Lemma deltas_snoc p fs f : deltas_of p (fs ++ [f]) = deltas_of p fs ++ deltas_of p [f].
Proof. apply omap_app. Qed.
Lemma roles_snoc p fs f : roles_of p (fs ++ [f]) = roles_of p fs ++ roles_of p [f].
Proof. apply omap_app. Qed.
Lemma parts_snoc fs f : parts_of (fs ++ [f]) = add_part (parts_of fs) f.
Proof. unfold parts_of. by rewrite fold_left_app. Qed.

(** The ledger mirrors the facts read so far. *)
Record mirrors (fs : list fact) (lg : ledger) : Prop := {
  mi_order : lg_order lg = parts_of fs;
  mi_text : ∀ p, assoc p (lg_text lg) = if str_in p (parts_of fs) then Some (deltas_of p fs) else None;
  mi_roles : ∀ p, assoc p (lg_roles lg)
    = if str_in p (parts_of fs) then Some (default "pending"%string (last (roles_of p fs))) else None;
  mi_absent : ∀ p, str_in p (parts_of fs) = false → deltas_of p fs = [] ∧ roles_of p fs = [];
  mi_work : ∀ p, "work"%string ∈ roles_of p fs → last (roles_of p fs) = Some "work"%string
}.

(** ** Reading one more fact *)

(** The fields [mirrors] speaks of. *)
Lemma mirrors_same fs lg lg' :
  lg_text lg' = lg_text lg → lg_roles lg' = lg_roles lg → lg_order lg' = lg_order lg →
  mirrors fs lg → mirrors fs lg'.
Proof. intros E1 E2 E3 [? ? ? ? ?]. split; rewrite ?E1, ?E2, ?E3; done. Qed.

(** A fact of another kind adds nothing. *)
Lemma mirrors_other fs f lg :
  fact_part "message.part.delta" f = None → fact_part "message.part.classified" f = None →
  mirrors fs lg → mirrors (fs ++ [f]) lg.
Proof.
  intros Hd Hc [M1 M2 M3 M4 M5].
  assert (∀ p, deltas_of p (fs ++ [f]) = deltas_of p fs) as Ed.
  { intros p. rewrite deltas_snoc. unfold deltas_of at 2. simpl. rewrite Hd. by rewrite app_nil_r. }
  assert (∀ p, roles_of p (fs ++ [f]) = roles_of p fs) as Er.
  { intros p. rewrite roles_snoc. unfold roles_of at 2. simpl. rewrite Hc. by rewrite app_nil_r. }
  assert (parts_of (fs ++ [f]) = parts_of fs) as Ep by (rewrite parts_snoc; unfold add_part; by rewrite Hd).
  split; intros; rewrite ?Ep, ?Ed, ?Er in *; auto.
Qed.

Lemma mirrors_delta fs f lg p delta :
  fact_part "message.part.delta" f = Some p → payload_str "delta" f = Some delta →
  fact_part "message.part.classified" f = None →
  mirrors fs lg →
  let known := match assoc p (lg_text lg) with Some _ => true | None => false end in
  ∀ lg', lg_text lg' = assoc_set p (default [] (assoc p (lg_text lg)) ++ [delta]) (lg_text lg) →
  lg_roles lg' = (if known then lg_roles lg else assoc_set p "pending"%string (lg_roles lg)) →
  lg_order lg' = (if known then lg_order lg else lg_order lg ++ [p]) →
  mirrors (fs ++ [f]) lg'.
Proof.
  intros Hp Hd Hc [M1 M2 M3 M4 M5] known lg' E1 E2 E3.
  assert (known = str_in p (parts_of fs)) as Hk by (unfold known; rewrite M2; by destruct (str_in p _)).
  assert (∀ q, roles_of q (fs ++ [f]) = roles_of q fs) as Er.
  { intros q. rewrite roles_snoc. unfold roles_of at 2. simpl. rewrite Hc. by rewrite app_nil_r. }
  assert (∀ q, deltas_of q (fs ++ [f]) = deltas_of q fs ++ (if bool_decide (p = q) then [delta] else [])) as Ed.
  { intros q. rewrite deltas_snoc. unfold deltas_of at 2. simpl. rewrite Hp, Hd. repeat case_bool_decide; naive_solver. }
  assert (parts_of (fs ++ [f]) = if known then parts_of fs else parts_of fs ++ [p]) as Ep.
  { rewrite parts_snoc. unfold add_part. by rewrite Hp, Hk. }
  assert (∀ q, q ≠ p → str_in q (parts_of (fs ++ [f])) = str_in q (parts_of fs)) as Hq.
  { intros q Hne. rewrite Ep. destruct known; [done|]. rewrite str_in_app. simpl.
    rewrite (proj2 (String.eqb_neq q p)) by done. by rewrite !orb_false_r. }
  assert (str_in p (parts_of (fs ++ [f])) = true) as Hpin.
  { rewrite Ep, Hk. destruct (str_in p (parts_of fs)) eqn:E; [done|]. rewrite str_in_app. simpl.
    by rewrite String.eqb_refl, orb_true_r. }
  split.
  - rewrite E3, Ep, M1. done.
  - intros q. rewrite E1, Ed. destruct (decide (q = p)) as [->|Hne].
    + rewrite assoc_set_eq, Hpin, bool_decide_eq_true_2, M2 by done.
      destruct (str_in p (parts_of fs)) eqn:E; [done|]. by destruct (M4 p E) as [-> _].
    + rewrite assoc_set_ne, Hq, M2, bool_decide_eq_false_2 by done. by rewrite app_nil_r.
  - intros q. rewrite E2, Er. destruct (decide (q = p)) as [->|Hne].
    + rewrite Hpin, Hk. destruct (str_in p (parts_of fs)) eqn:E; [by rewrite M3, E|].
      rewrite assoc_set_eq. by destruct (M4 p E) as [_ ->].
    + rewrite Hq by done. destruct known; [by rewrite M3|]. by rewrite assoc_set_ne, M3.
  - intros q Hqn. destruct (decide (q = p)) as [->|Hne]; [congruence|]. rewrite Hq in Hqn by done.
    rewrite Ed, Er, bool_decide_eq_false_2 by done. rewrite app_nil_r. auto.
  - intros q. rewrite Er. auto.
Qed.

Lemma mirrors_classified fs f lg p role :
  fact_part "message.part.classified" f = Some p → payload_str "role" f = Some role →
  fact_part "message.part.delta" f = None →
  mirrors fs lg → assoc p (lg_text lg) ≠ None →
  (assoc p (lg_roles lg) = Some "work"%string → role = "work"%string) →
  ∀ lg', lg_text lg' = lg_text lg → lg_roles lg' = assoc_set p role (lg_roles lg) → lg_order lg' = lg_order lg →
  mirrors (fs ++ [f]) lg'.
Proof.
  intros Hp Hr Hd [M1 M2 M3 M4 M5] Hknown Hwork lg' E1 E2 E3.
  assert (str_in p (parts_of fs) = true) as Hin by (rewrite M2 in Hknown; by destruct (str_in p _)).
  assert (∀ q, deltas_of q (fs ++ [f]) = deltas_of q fs) as Ed.
  { intros q. rewrite deltas_snoc. unfold deltas_of at 2. simpl. rewrite Hd. by rewrite app_nil_r. }
  assert (∀ q, roles_of q (fs ++ [f]) = roles_of q fs ++ (if bool_decide (p = q) then [role] else [])) as Er.
  { intros q. rewrite roles_snoc. unfold roles_of at 2. simpl. rewrite Hp, Hr. repeat case_bool_decide; naive_solver. }
  assert (parts_of (fs ++ [f]) = parts_of fs) as Ep by (rewrite parts_snoc; unfold add_part; by rewrite Hd).
  split.
  - by rewrite E3, Ep.
  - intros q. by rewrite E1, Ep, Ed.
  - intros q. rewrite E2, Ep, Er. destruct (decide (q = p)) as [->|Hne].
    + by rewrite assoc_set_eq, Hin, bool_decide_eq_true_2, last_snoc by done.
    + rewrite assoc_set_ne, M3, bool_decide_eq_false_2 by done. by rewrite app_nil_r.
  - intros q Hq. rewrite Ep in Hq. rewrite Ed, Er. destruct (decide (p = q)) as [->|Hne]; [congruence|].
    rewrite bool_decide_eq_false_2, app_nil_r by done. auto.
  - intros q. rewrite Er. destruct (decide (p = q)) as [->|Hne].
    + rewrite bool_decide_eq_true_2, last_snoc by done. rewrite elem_of_app, list_elem_of_singleton. intros [Hw|<-]; [|done].
      f_equal. apply Hwork. rewrite M3, Hin. by rewrite (M5 q Hw).
    + rewrite bool_decide_eq_false_2, app_nil_r by done. auto.
Qed.

Lemma common_spec expected f lg lg1 payload :
  common_checks expected f lg = Ok (lg1, payload) →
  as_dict (get "payload" f) = Some payload ∧ lg_text lg1 = lg_text lg ∧ lg_roles lg1 = lg_roles lg ∧
  lg_order lg1 = lg_order lg ∧ lg_sources lg1 = lg_sources lg ∧ lg_started lg1 = lg_started lg.
Proof. unfold common_checks. intros E. run_res E. by simplify_eq. Qed.

Lemma safe_ref_spec v s : safe_ref v = Ok s → v = PStr s ∧ is_safe_ref s = true.
Proof. unfold safe_ref. destruct v; try done. destruct (is_safe_ref s0) eqn:E; [|done]. by intros [= ->]. Qed.

Lemma valid_delta_spec v s : valid_delta v = Some s → v = PStr s.
Proof. unfold valid_delta. destruct v; try done. by case_match; intros [= ->]. Qed.
Lemma valid_role_spec v s : valid_role v = Some s → v = PStr s ∧ str_in s ["answer"; "work"]%string = true.
Proof. unfold valid_role. destruct v; try done. case_match; [|done]. by intros [= ->]. Qed.

Lemma fact_part_other t t' f : get "event_type" f = PStr t → t ≠ t' → fact_part t' f = None.
Proof. intros Ht Hne. unfold fact_part. rewrite Ht. simpl. by rewrite (proj2 (String.eqb_neq _ _) Hne). Qed.
Lemma fact_part_same t f payload p :
  get "event_type" f = PStr t → as_dict (get "payload" f) = Some payload → get "part_id" payload = PStr p →
  fact_part t f = Some p.
Proof. intros Ht Hp Hi. unfold fact_part. rewrite Ht, Hp, Hi. simpl. by rewrite String.eqb_refl. Qed.
Lemma payload_str_same k f payload s :
  as_dict (get "payload" f) = Some payload → get k payload = PStr s → payload_str k f = Some s.
Proof. intros Hp Hi. unfold payload_str. by rewrite Hp, Hi. Qed.

Lemma reduce_fact_mirrors expected i t f lg lg' fs :
  get "event_type" f = PStr t → reduce_fact expected i t f lg = Ok lg' → mirrors fs lg → mirrors (fs ++ [f]) lg'.
Proof.
  intros Ht E Hm. unfold reduce_fact in E.
  destruct (common_checks expected f lg) as [[lg1 payload]|] eqn:Ec; [|done]. cbn [res_bind] in E.
  apply common_spec in Ec as (Hp & E1 & E2 & E3 & _ & _).
  assert (mirrors fs lg1) as Hm1 by by eapply mirrors_same.
  destruct (String.eqb_spec t "message.part.delta") as [->|Hnd]; cbn [String.eqb Ascii.eqb Bool.eqb] in E.
  { run_res E. unfold reduce_delta in E. run_res E.
    repeat match goal with H : safe_ref _ = Ok _ |- _ => apply safe_ref_spec in H as [? _] end.
    match goal with H : valid_delta _ = Some _ |- _ => apply valid_delta_spec in H end.
    simplify_eq. eapply mirrors_delta; [by eapply fact_part_same|by eapply payload_str_same| |exact Hm1|..];
      [by eapply fact_part_other|done..]. }
  destruct (String.eqb_spec t "message.part.classified") as [->|Hnc]; cbn [String.eqb Ascii.eqb Bool.eqb] in E.
  { run_res E. unfold reduce_classified in E. run_res E.
    repeat match goal with H : safe_ref _ = Ok _ |- _ => apply safe_ref_spec in H as [? _] end.
    match goal with H : valid_role _ = Some _ |- _ => apply valid_role_spec in H as [? _] end.
    simplify_eq. eapply mirrors_classified; [by eapply fact_part_same|by eapply payload_str_same| |exact Hm1|..];
      try done; [by eapply fact_part_other|congruence|].
    intros Hw. match goal with H : _ && _ = false |- _ => rewrite bool_decide_eq_true_2 in H by done; simpl in H end.
    by to_prop. }
  assert (mirrors (fs ++ [f]) lg1) as Hm2.
  { apply mirrors_other; [by eapply fact_part_other..|done]. }
  run_res E; simplify_eq; try done; by apply (mirrors_same _ lg1).
Qed.

Lemma reduce_facts_mirrors expected i tfs lg lg' fs :
  Forall (fun tf => get "event_type" tf.2 = PStr tf.1) tfs →
  reduce_facts expected i tfs lg = Ok lg' → mirrors fs lg → mirrors (fs ++ tfs.*2) lg'.
Proof.
  intros Ht. revert i lg fs. induction Ht as [|[t f] tfs Ht _ IH]; intros i lg fs E Hm; simpl in E.
  { simplify_eq. by rewrite app_nil_r. }
  destruct (reduce_fact expected i t f lg) as [lg1|] eqn:E1; [|done]. cbn [res_bind] in E.
  rewrite fmap_cons. cbn [snd]. rewrite (cons_middle f fs), app_assoc.
  eapply IH; [exact E|]. by eapply reduce_fact_mirrors.
Qed.

(** The reducer accepts only deltas that name their part. *)
Lemma reduce_fact_named expected i t f lg lg' :
  get "event_type" f = PStr t → reduce_fact expected i t f lg = Ok lg' → part_named f.
Proof.
  intros Ht E Hd. rewrite Ht in Hd. simpl in Hd. to_prop. subst t. unfold reduce_fact in E.
  destruct (common_checks expected f lg) as [[lg1 payload]|] eqn:Ec; [|done]. cbn [res_bind] in E.
  apply common_spec in Ec as (Hp & _). cbn [String.eqb Ascii.eqb Bool.eqb] in E. run_res E. unfold reduce_delta in E. run_res E.
  repeat match goal with H : safe_ref _ = Ok _ |- _ => apply safe_ref_spec in H as [? _] end.
  by rewrite (fact_part_same "message.part.delta" f payload _ Ht Hp ltac:(eassumption)).
Qed.

Lemma reduce_facts_named expected i tfs lg lg' :
  Forall (fun tf => get "event_type" tf.2 = PStr tf.1) tfs →
  reduce_facts expected i tfs lg = Ok lg' → Forall part_named tfs.*2.
Proof.
  intros Ht. revert i lg. induction Ht as [|[t f] tfs Ht _ IH]; intros i lg E; simpl in E; [constructor|].
  destruct (reduce_fact expected i t f lg) as [lg1|] eqn:E1; [|done]. cbn [res_bind] in E.
  constructor; [by eapply reduce_fact_named|by eapply IH].
Qed.

(** A delta of a ledger makes its part one of the ledger. *)
Lemma add_part_keeps acc f p : p ∈ acc → p ∈ add_part acc f.
Proof. intros Hp. unfold add_part. repeat case_match; try done. apply elem_of_app. by left. Qed.
Lemma delta_part_listed fs f p :
  f ∈ fs → fact_part "message.part.delta" f = Some p → p ∈ parts_of fs.
Proof.
  intros Hf Hp. unfold parts_of. revert Hf. generalize (@nil string) as acc.
  induction fs as [|g fs IH]; intros acc Hf; [by apply elem_of_nil in Hf|]. simpl.
  apply elem_of_cons in Hf as [<-|Hf]; [|by apply IH]. clear IH.
  assert (p ∈ add_part acc f) as Hin.
  { unfold add_part. rewrite Hp. destruct (str_in p acc) eqn:E; [by apply str_in_elem|].
    apply elem_of_app. right. by left. }
  revert Hin. generalize (add_part acc f) as acc'. clear. induction fs as [|g fs IH]; intros acc Hin; [done|].
  simpl. apply IH. by apply add_part_keeps.
Qed.

Lemma mirrors_empty : mirrors [] empty_ledger.
Proof. split; simpl; intros; try done. match goal with H : _ ∈ [] |- _ => by apply elem_of_nil in H end. Qed.

(** The mappings of a list of facts. *)
Definition dicts (facts : list pyval) : list fact := (fun f => default [] (as_dict f)) <$> facts.

Lemma fact_types_spec facts ts :
  fact_types facts = Ok ts →
  Forall (fun tf => get "event_type" tf.2 = PStr tf.1) (zip ts (dicts facts)) ∧
  (zip ts (dicts facts)).*2 = dicts facts.
Proof.
  revert ts. induction facts as [|f facts IH]; intros ts E; simpl in E; [simplify_eq; by split|].
  destruct (as_dict f) as [d|] eqn:Ef; [|done]. destruct (get "event_type" d) as [| | | |t| |] eqn:Et; try done.
  run_res E. simplify_eq. destruct (IH _ eq_refl) as [I1 I2]. unfold dicts in *. simpl. rewrite Ef. simpl. split.
  - by constructor.
  - by f_equal.
Qed.

(** ** The selected answer *)

Section Answer.
Context `{PyRuntime}.

(** The deltas the reducer selects are those of the answer parts. *)
Lemma selected_deltas fs lg :
  mirrors fs lg → Forall part_named fs → answer_delta_facts (lg_roles lg) fs = answer_deltas fs.
Proof.
  intros [M1 M2 M3 M4 M5] Hn. unfold answer_delta_facts, answer_deltas. apply filter_ext_in.
  intros f Hf%list_elem_of_In. rewrite Forall_forall in Hn. specialize (Hn f Hf). unfold part_named in Hn.
  destruct (fact_part "message.part.delta" f) as [p|] eqn:Hp.
  - pose proof (delta_part_listed fs f p Hf Hp) as Hin. unfold fact_part in Hp.
    destruct (eq_str (get "event_type" f) "message.part.delta"); [|done].
    destruct (as_dict (get "payload" f)) as [payload|]; [|done].
    destruct (get "part_id" payload) as [| | | |s| |] eqn:Eg; try done. injection Hp as ->. simpl.
    rewrite M3, (proj2 (str_in_elem _ _) Hin). apply eq_true_iff_eq. rewrite bool_decide_eq_true, str_in_elem.
    unfold answer_parts. rewrite list_elem_of_In, filter_In, bool_decide_eq_true, <- list_elem_of_In.
    destruct (last (roles_of p fs)); simpl; naive_solver.
  - destruct (eq_str (get "event_type" f) "message.part.delta"); [|done]. by destruct Hn.
Qed.

Lemma safe_refs_spec vs ss : safe_refs vs = Ok ss → vs = PStr <$> ss.
Proof.
  revert ss. induction vs as [|v vs IH]; intros ss E; simpl in E; [by injection E as <-|]. run_res E. simplify_eq.
  match goal with H : safe_ref _ = Ok _ |- _ => apply safe_ref_spec in H as [-> _] end.
  rewrite fmap_cons. f_equal. by apply IH.
Qed.

(** What a ledger that is finished with an answer looks like. *)
Lemma finish_spec fs lg a hp c :
  finish_ledger fs lg = Ok (AssistantTextPartState hp c (Some a)) → mirrors fs lg → Forall part_named fs →
  (pa_delta_count a = Z.of_nat (length (answer_deltas fs)) ∧
   ∃ f, last (answer_deltas fs) = Some f ∧ get "source_event_id" f = PStr (pa_last_delta_event_id a)) ∧
  (∀ p, p ∈ parts_of fs → last (roles_of p fs) ≠ None) ∧
  answer_parts fs ≠ [] ∧
  pa_text a = String.concat (newline +:+ newline) ((fun p => String.concat "" (deltas_of p fs)) <$> answer_parts fs) ∧
  pa_text_length a = py_len (pa_text a) ∧ pa_text a ≠ ""%string.
Proof.
  intros E M Hn. pose proof M as [M1 M2 M3 M4 M5]. unfold finish_ledger in E.
  rewrite (selected_deltas fs lg M Hn) in E. run_res E.
  match goal with Hs : safe_refs _ = Ok ?ss |- _ => apply safe_refs_spec in Hs; rename Hs into Hsrc; rename ss into sources end.
  split.
  { injection E as _ _ <-. cbn [pa_delta_count pa_last_delta_event_id]. split; [done|].
    match goal with |- context [last ?l] => destruct (last l) as [f|] eqn:Hl end; [|by apply last_None in Hl].
    exists f. split; [done|]. assert (last (PStr <$> sources) = Some (get "source_event_id" f)) as Hls.
    { rewrite <- Hsrc, fmap_last, Hl. done. }
    rewrite fmap_last in Hls. destruct (last sources) as [src|]; [|done]. simpl in Hls. by injection Hls as <-. }
  match goal with Hx : List.filter _ (lg_order lg) = ?s :: ?l |- _ => rename Hx into Hsel; rewrite M1 in Hsel;
    set (sel := s :: l) in * end.
  assert (sel = answer_parts fs) as Hsel'.
  { rewrite <- Hsel. apply filter_ext_in. intros p Hp%list_elem_of_In%str_in_elem. rewrite M3, Hp.
    apply bool_decide_ext. destruct (last (roles_of p fs)); simpl; naive_solver. }
  assert ((fun p => String.concat "" (default [] (assoc p (lg_text lg)))) <$> sel
          = (fun p => String.concat "" (deltas_of p fs)) <$> answer_parts fs) as Htext.
  { rewrite <- Hsel'. apply list_fmap_ext. intros i p Hp%list_elem_of_lookup_2.
    rewrite Hsel' in Hp. apply list_elem_of_In, filter_In in Hp as [Hp%list_elem_of_In%str_in_elem _]. by rewrite M2, Hp. }
  match goal with Hx : String.eqb (String.concat _ (_ <$> sel)) "" = false |- _ => rename Hx into Hne end.
  rewrite Htext in Hne. to_prop.
  assert (pa_text a = String.concat (newline +:+ newline)
    ((fun p => String.concat "" (deltas_of p fs)) <$> answer_parts fs)) as Ha.
  { rewrite <- Htext. by injection E as _ _ <-. }
  split_and!; [|by rewrite <- Hsel'|exact Ha|by injection E as _ _ <-|by rewrite Ha].
  intros p Hp Hl. assert (assoc p (lg_roles lg) = Some "pending"%string) as Hpend.
  { rewrite M3, (proj2 (str_in_elem _ _) Hp), Hl. done. }
  apply assoc_in, list_elem_of_In in Hpend.
  match goal with Hx : existsb _ _ = false |- _ => pose proof (existsb_exists (fun kr : string * string => (kr.2 =? "pending")%string) (lg_roles lg)) as Hex; rewrite Hx in Hex end.
  destruct Hex as [_ Hex]. discriminate Hex. by exists (p, "pending"%string).
Qed.

Lemma work_not_answer fs lg p : mirrors fs lg → "work"%string ∈ roles_of p fs → p ∉ answer_parts fs.
Proof.
  intros M Hw Hin. apply list_elem_of_In, filter_In in Hin as [_ Hb]. apply bool_decide_eq_true in Hb.
  rewrite (mi_work _ _ M p Hw) in Hb. done.
Qed.

(** The ledger of a reduced message. *)
Lemma reduced_mirrors facts expected st :
  reduce_assistant_text_part_message facts expected = Ok st → ps_answer st ≠ None →
  ∃ lg, mirrors (dicts facts) lg ∧ Forall part_named (dicts facts) ∧ finish_ledger (dicts facts) lg = Ok st.
Proof.
  intros E Ha. unfold reduce_assistant_text_part_message in E. destruct facts as [|f facts]; [by injection E as <-|].
  destruct (fact_types (f :: facts)) as [ts|] eqn:Et; [|done]. cbn [res_bind] in E.
  destruct (_ && _); [done|]. fold (dicts (f :: facts)) in E. set (fs := dicts (f :: facts)) in *.
  destruct (reduce_facts expected 0 (zip ts fs) empty_ledger) as [lg|] eqn:El; [|done]. cbn [res_bind] in E.
  apply fact_types_spec in Et as [Ht Hz]. exists lg. unfold fs. rewrite <- Hz. split; [|split].
  - exact (reduce_facts_mirrors _ _ _ _ _ [] Ht El mirrors_empty).
  - by eapply reduce_facts_named.
  - by rewrite Hz.
Qed.

(** C21.  The selected answer is the one the ledger says: when a message ledger reduces
    to an answer, every part that has text has been classified; the answer consists of
    the parts whose last classification is "answer", in the order they first appear,
    each with exactly the deltas of that part in order; a part that was ever
    classified as work is not in it; the reported length is that of the text, the
    reported count is the number of deltas of those parts, and the reported last delta
    is the source of the last of them. *)
Theorem selected_answer_is_correct facts expected st a :
  reduce_assistant_text_part_message facts expected = Ok st → ps_answer st = Some a →
  let fs := dicts facts in
  (∀ p, p ∈ parts_of fs → last (roles_of p fs) ≠ None) ∧
  answer_parts fs ≠ [] ∧
  pa_text a = String.concat (newline +:+ newline) ((fun p => String.concat "" (deltas_of p fs)) <$> answer_parts fs) ∧
  pa_text_length a = py_len (pa_text a) ∧ pa_text a ≠ ""%string ∧
  pa_delta_count a = Z.of_nat (length (answer_deltas fs)) ∧
  (∃ f, last (answer_deltas fs) = Some f ∧ get "source_event_id" f = PStr (pa_last_delta_event_id a)) ∧
  (∀ p, "work"%string ∈ roles_of p fs → p ∉ answer_parts fs).
Proof.
  intros E Ha fs. destruct (reduced_mirrors _ _ _ E) as (lg & M & Hn & Ef); [by rewrite Ha|].
  destruct st as [hp c ans]. simpl in Ha. subst ans.
  destruct (finish_spec _ _ _ _ _ Ef M Hn) as ((H6 & H7) & H1 & H2 & H3 & H4 & H5). split_and!; try done.
  intros p. by eapply work_not_answer.
Qed.

End Answer.

(** ** The check of one fact *)

(** The compact state of a part that a ledger stands for. *)
Definition part_view (lg : ledger) (p : string) : append_state :=
  {| as_owner_message_id := if assoc p (lg_text lg) then lg_message_id lg else None;
     as_has_delta := if assoc p (lg_text lg) then true else false;
     as_latest_role := match assoc p (lg_roles lg) with
                       | Some r => if String.eqb r "pending" then None else Some r
                       | None => None
                       end;
     as_role_reversed := false |}.

(** A message that is being streamed. *)
Record streaming (m : string) (lg : ledger) : Prop := {
  sg_started : lg_started lg = true;
  sg_open : lg_completed lg = None;
  sg_message : lg_message_id lg = Some m;
  sg_keys : ∀ p, assoc p (lg_text lg) = None → assoc p (lg_roles lg) = None;
  sg_ref : is_safe_ref m = true
}.

(** The part a payload names. *)
Definition named_part (payload : pyval) : string :=
  match as_dict payload with
  | Some d => match get "part_id" d with PStr p => p | _ => "" end
  | None => ""
  end.

Lemma part_view_other lg lg' q :
  lg_message_id lg' = lg_message_id lg → assoc q (lg_text lg') = assoc q (lg_text lg) →
  assoc q (lg_roles lg') = assoc q (lg_roles lg) → part_view lg' q = part_view lg q.
Proof. intros E1 E2 E3. unfold part_view. by rewrite E1, E2, E3. Qed.

(** The ledger after the checks every fact passes. *)
Definition advance (seq : Z) (m : string) (lg : ledger) : ledger :=
  Ledger (lg_text lg) (lg_roles lg) (lg_order lg) (lg_sources lg) (Some m) seq (lg_started lg) (lg_completed lg)
    (lg_has_parts lg).

Lemma common_streaming m lg expected fact seq :
  streaming m lg → get "seq" fact = PInt seq → lg_previous lg < seq → get "message_id" fact = PStr m →
  expected = None ∨ expected = Some m →
  common_checks expected fact lg =
  match as_dict (get "payload" fact) with
  | None => Raise "assistant_text_part_payload_invalid"
  | Some d => Ok (advance seq m lg, d)
  end.
Proof.
  intros [S1 S2 S3 S4 S5] Hseq Hlt Hm Hexp. unfold common_checks. rewrite Hseq. cbn [sequence_of].
  rewrite (proj2 (Z.leb_gt _ _)) by lia. rewrite Hm. unfold safe_ref. rewrite S5. cbn [res_bind].
  rewrite S3, String.eqb_refl, S2. cbn [negb].
  assert (match expected with Some m0 => negb (m =? m0)%string | None => false end = false) as ->.
  { destruct Hexp as [-> | ->]; [done|]. by rewrite String.eqb_refl. }
  unfold advance. rewrite S2. by destruct (as_dict (get "payload" fact)).
Qed.

Lemma streaming_advance m lg seq : streaming m lg → streaming m (advance seq m lg).
Proof. intros [S1 S2 S3 S4 S5]. by split. Qed.

Lemma view_owner m lg p : streaming m lg →
  match as_owner_message_id (part_view lg p) with Some o => negb (o =? m)%string | None => false end = false.
Proof.
  intros S. unfold part_view. cbn [as_owner_message_id]. destruct (assoc p (lg_text lg)); [|done].
  by rewrite (sg_message _ _ S), String.eqb_refl.
Qed.

Lemma eq_str_in s l : existsb (fun x => eq_str (PStr s) x) l = str_in s l.
Proof. induction l as [|x l IH]; [done|]. cbn [existsb str_in]. by rewrite IH. Qed.

Lemma delta_refines m lg fact d :
  streaming m lg →
  let p := named_part (PDict d) in
  match apply_assistant_text_part_append_fact (part_view lg p) m "message.part.delta" (PDict d)
          (get "source_event_id" fact) with
  | Raise e => reduce_delta fact d lg = Raise e
  | Ok (p', state') =>
      p' = p ∧
      if existsb (fun s => eq_str (get "source_event_id" fact) s) (lg_sources lg)
      then reduce_delta fact d lg = Raise "assistant_text_part_source_event_duplicate"
      else ∃ lg', reduce_delta fact d lg = Ok lg' ∧ streaming m lg' ∧
             part_view lg' p = state' ∧ ∀ q, q ≠ p → part_view lg' q = part_view lg q
  end.
Proof.
  intros S p. unfold apply_assistant_text_part_append_fact, reduce_delta. unfold safe_ref at 1.
  rewrite (sg_ref _ _ S). cbn [res_bind]. rewrite (view_owner _ _ p S). cbn [as_dict as_role_reversed part_view].
  cbn [str_in ASSISTANT_TEXT_PART_EVENT_TYPES String.eqb Ascii.eqb Bool.eqb orb negb].
  destruct (negb (eq_str _ _)); [done|].
  destruct (safe_ref (get "part_id" d)) as [p'|] eqn:Ep; [|done]. cbn [res_bind].
  assert (p' = p) as -> by (unfold p, named_part; simpl; by destruct (safe_ref_spec _ _ Ep) as [-> _]).
  destruct (valid_delta (get "delta" d)) as [delta|]; [|done].
  destruct (safe_ref (get "source_event_id" fact)) as [src|] eqn:Es; [|done]. cbn [res_bind]. split; [done|].
  destruct (safe_ref_spec _ _ Es) as [-> _]. rewrite eq_str_in. destruct (str_in src (lg_sources lg)); [done|].
  destruct S as [S1 S2 S3 S4 S5]. eexists. split; [reflexivity|]. split_and!.
  - split; simpl; try done. intros q. destruct (decide (q = p)) as [->|Hne]; [by rewrite assoc_set_eq|].
    rewrite assoc_set_ne by done. intros Hq. destruct (assoc p (lg_text lg)); [by auto|].
    rewrite assoc_set_ne by done. auto.
  - unfold part_view. simpl. rewrite assoc_set_eq, S3. f_equal.
    destruct (assoc p (lg_text lg)) eqn:E; [done|]. by rewrite assoc_set_eq, (S4 p E).
  - intros q Hne. apply part_view_other; simpl; [done|by apply assoc_set_ne|].
    destruct (assoc p (lg_text lg)); [done|by apply assoc_set_ne].
Qed.

Lemma classified_refines m lg d src :
  streaming m lg →
  let p := named_part (PDict d) in
  match apply_assistant_text_part_append_fact (part_view lg p) m "message.part.classified" (PDict d) src with
  | Raise e => reduce_classified d lg = Raise e
  | Ok (p', state') =>
      p' = p ∧ ∃ lg', reduce_classified d lg = Ok lg' ∧ streaming m lg' ∧
        part_view lg' p = state' ∧ ∀ q, q ≠ p → part_view lg' q = part_view lg q
  end.
Proof.
  intros S p. unfold apply_assistant_text_part_append_fact, reduce_classified. unfold safe_ref at 1.
  rewrite (sg_ref _ _ S). cbn [res_bind]. rewrite (view_owner _ _ p S). cbn [as_dict as_role_reversed part_view].
  cbn [str_in ASSISTANT_TEXT_PART_EVENT_TYPES String.eqb Ascii.eqb Bool.eqb orb negb].
  destruct (negb (eq_str _ _)); [done|].
  destruct (safe_ref (get "part_id" d)) as [p'|] eqn:Ep; [|done]. cbn [res_bind].
  assert (p' = p) as -> by (unfold p, named_part; simpl; by destruct (safe_ref_spec _ _ Ep) as [-> _]).
  destruct (valid_role (get "role" d)) as [role|] eqn:Er; [|done]. apply valid_role_spec in Er as [_ Hrole].
  cbn [as_has_delta as_latest_role]. destruct S as [S1 S2 S3 S4 S5].
  assert (as_has_delta (part_view lg p) = if assoc p (lg_text lg) then true else false) as -> by done.
  destruct (assoc p (lg_text lg)) as [l|] eqn:Et; cbn [negb]; [|done]. cbn [as_latest_role part_view].
  assert (bool_decide (match assoc p (lg_roles lg) with Some r => if (r =? "pending")%string then None else Some r
    | None => None end = Some "work"%string) = bool_decide (assoc p (lg_roles lg) = Some "work"%string)) as ->.
  { apply bool_decide_ext. destruct (assoc p (lg_roles lg)) as [r|]; [|done].
    destruct (String.eqb_spec r "pending") as [->|]; naive_solver. }
  destruct (_ && _); [done|]. split; [done|]. eexists. split; [reflexivity|]. split_and!.
  - split; simpl; try done. intros q Hq. destruct (decide (q = p)) as [->|Hne]; [congruence|].
    rewrite assoc_set_ne by done. auto.
  - unfold part_view. simpl. rewrite assoc_set_eq, Et, S3.
    assert (String.eqb role "pending" = false) as ->; [|done].
    apply str_in_elem in Hrole. rewrite !elem_of_cons, elem_of_nil in Hrole. by destruct Hrole as [->|[->|[]]].
  - intros q Hne. apply part_view_other; simpl; [done|done|by apply assoc_set_ne].
Qed.

(** The check of a new fact refines the reducer.  For a message that is being
    streamed and a part fact of it with a later sequence number, checking the fact
    against the compact state of the part it names fails with an error exactly when
    the reducer fails on it with that error, except that the reducer also refuses a
    delta whose source event it has seen; otherwise both accept, the compact state
    computed is the one of the part in the new ledger, and no other part changes. *)
Lemma append_check_refines_reducer m lg expected i t fact seq :
  streaming m lg → str_in t ASSISTANT_TEXT_PART_EVENT_TYPES = true →
  get "seq" fact = PInt seq → lg_previous lg < seq → get "message_id" fact = PStr m →
  expected = None ∨ expected = Some m →
  let payload := get "payload" fact in
  let p := named_part payload in
  match apply_assistant_text_part_append_fact (part_view lg p) m t payload (get "source_event_id" fact) with
  | Raise e => reduce_fact expected i t fact lg = Raise e
  | Ok (p', state') =>
      p' = p ∧
      if String.eqb t "message.part.delta"
         && existsb (fun s => eq_str (get "source_event_id" fact) s) (lg_sources lg)
      then reduce_fact expected i t fact lg = Raise "assistant_text_part_source_event_duplicate"
      else ∃ lg', reduce_fact expected i t fact lg = Ok lg' ∧ streaming m lg' ∧
             part_view lg' p = state' ∧ ∀ q, q ≠ p → part_view lg' q = part_view lg q
  end.
Proof.
  intros S Ht Hseq Hlt Hm Hexp payload p. unfold reduce_fact.
  rewrite (common_streaming m lg expected fact seq S Hseq Hlt Hm Hexp). fold payload.
  pose proof (streaming_advance m lg seq S) as S'.
  assert (∀ q, part_view (advance seq m lg) q = part_view lg q) as Hv.
  { intros q. apply part_view_other; [|done..]. simpl. by rewrite (sg_message _ _ S). }
  destruct (as_dict payload) as [d|] eqn:Ed.
  2: { unfold apply_assistant_text_part_append_fact, safe_ref at 1. rewrite (sg_ref _ _ S), Ed. cbn [res_bind].
       by rewrite Ht. }
  assert (payload = PDict d) as Hpl by (destruct payload; by simplify_eq/=).
  assert (p = named_part (PDict d)) as Hp by (unfold p; by rewrite Hpl).
  rewrite Hpl, Hp. cbn [res_bind]. rewrite (sg_started _ _ S'). cbn [negb].
  rewrite <- (Hv (named_part (PDict d))). rewrite str_in_elem in Ht. unfold ASSISTANT_TEXT_PART_EVENT_TYPES in Ht.
  rewrite !elem_of_cons, elem_of_nil in Ht. destruct Ht as [->|[->|[]]];
    cbn [String.eqb Ascii.eqb Bool.eqb andb].
  - pose proof (delta_refines m (advance seq m lg) fact d S') as Hd. cbv zeta in Hd.
    destruct (apply_assistant_text_part_append_fact _ _ _ _ _) as [[p' st']|]; [|done].
    destruct Hd as [-> Hd]. split; [done|]. cbn [lg_sources advance] in Hd.
    destruct (existsb _ _); [done|]. destruct Hd as (lg' & E & H1 & H2 & H3). exists lg'. split_and!; try done.
    intros q Hq. by rewrite H3, Hv.
  - pose proof (classified_refines m (advance seq m lg) d (get "source_event_id" fact) S') as Hd. cbv zeta in Hd.
    destruct (apply_assistant_text_part_append_fact _ _ _ _ _) as [[p' st']|]; [|done].
    destruct Hd as (-> & lg' & E & H1 & H2 & H3). split; [done|]. exists lg'. split_and!; try done.
    intros q Hq. by rewrite H3, Hv.
Qed.

(** ** Examples *)

Definition ex_fact (t : string) (seq : Z) (payload : fact) (extra : fact) : pyval :=
  PDict ([("event_type", PStr t); ("seq", PInt seq); ("message_id", PStr "msg"); ("payload", PDict payload)]%string ++ extra).
Definition ex_delta (seq : Z) (part text source : string) : pyval :=
  ex_fact "message.part.delta" seq
    [("schema_version", PStr ASSISTANT_TEXT_PART_SCHEMA); ("part_id", PStr part); ("delta", PStr text)]%string
    [("source_event_id", PStr source)]%string.
Definition ex_role (seq : Z) (part role : string) : pyval :=
  ex_fact "message.part.classified" seq
    [("schema_version", PStr ASSISTANT_TEXT_PART_SCHEMA); ("part_id", PStr part); ("role", PStr role)]%string [].
Definition ex_ledger : list pyval :=
  [ex_fact "message.started" 1 [] []; ex_delta 2 "p1" "thinking" "s1"; ex_delta 3 "p2" "Hello " "s2";
   ex_role 4 "p1" "work"; ex_delta 5 "p2" "world" "s3"; ex_role 6 "p2" "answer";
   ex_fact "message.completed" 7 [("delta_count", PInt 2); ("text_length", PInt 11)]%string
     [("causation_event_id", PStr "s3")]%string].
Definition ex_answer : part_answer := AssistantTextPartAnswer "msg" "Hello world" 2 11 "s3".

Lemma selected_answer_is_correct_witness :
  let fs := dicts ex_ledger in
  (∀ p, p ∈ parts_of fs → last (roles_of p fs) ≠ None) ∧
  answer_parts fs ≠ [] ∧
  pa_text ex_answer = String.concat (newline +:+ newline) ((fun p => String.concat "" (deltas_of p fs)) <$> answer_parts fs) ∧
  pa_text_length ex_answer = py_len (pa_text ex_answer) ∧ pa_text ex_answer ≠ ""%string ∧
  pa_delta_count ex_answer = Z.of_nat (length (answer_deltas fs)) ∧
  (∃ f, last (answer_deltas fs) = Some f ∧ get "source_event_id" f = PStr (pa_last_delta_event_id ex_answer)) ∧
  (∀ p, "work"%string ∈ roles_of p fs → p ∉ answer_parts fs).
Proof.
  apply (selected_answer_is_correct ex_ledger None (AssistantTextPartState true true (Some ex_answer)) ex_answer);
    vm_compute; reflexivity.
Defined.
