(* ===== verification/Platform.v ===== *)
(** * The database of the platform

    Runs, attempts, steps, events and leases live in one PostgreSQL database, and the
    use cases combine operations of several modules in one transaction.  This file has
    the common database, in which [RunAttempt] and [RunLifecycle] each work on their
    own view, and the operations that are shared by the use cases:
    [src/app/runs/application/terminalization_v4.py],
    [src/app/runs/application/provider_terminalization.py], the end of an attempt with
    its hook and the restored authority of a reconciliation
    ([src/app/runs/application/attempt_lifecycle.py]) and the receipt check of the
    sandbox leases ([src/app/sandbox/infrastructure/leases_postgres.py]).

    - The type [O] stands for the tables of other modules (provider sessions, stream
      rows, diagnostics).  What those modules do inside a transaction is a port that
      reads the whole database and returns the new outside tables, or raises.
    - A transaction returns the new database, or raises and leaves it as it was. *)
From stdpp Require Import base gmap list strings.
From Stdlib Require Import ZArith Lia Ascii.
From S2P Require Import Prelude PyValue RunAttempt RunLifecycle.
#[local] Open Scope py_scope.

Notation run_key := (string * string)%type.

(** ** Rows *)

(** A row of [runs]: the columns of the life cycle and the ones beside them. *)
Record prun := PRun {
  pr_life : lrun;
  pr_workspace_id : string; pr_session_id : string; pr_agent_id : string;
  pr_execution_kind : string; pr_skill_id : option string;
  pr_cancel_requested_by : option string;
  pr_created_at : Z; pr_queued_at : option Z; pr_started_at : option Z
}.
Definition pr_status (r : prun) : string := l_status (pr_life r).
Definition pr_user_id (r : prun) : option string := l_user_id (pr_life r).
Definition pr_cancel_requested_at (r : prun) : option Z := l_cancel_requested_at (pr_life r).
Definition pr_target (r : prun) : option string := l_target (pr_life r).

(** The columns of [sandbox_leases] that runs depend on. *)
Record sandbox_lease := SandboxLease {
  sl_id : string; sl_tenant_id : string; sl_workspace_id : string; sl_user_id : string;
  sl_session_id : string; sl_run_id : string; sl_attempt_id : option string; sl_status : string;
  sl_terminal_received : bool; sl_reconciliation_status : string; sl_claim_token : option string;
  sl_owner_generation : option string
}.

Record pdb {O : Type} := Pdb {
  pd_runs : gmap run_key prun;
  pd_attempts : list attempt_row;
  pd_steps : list run_step;
  pd_artifacts : gmap run_key Z;
  pd_events : list (Z * run_event);
  pd_audit : list audit_record;
  pd_leases : list sandbox_lease;
  pd_outside : O
}.
Arguments pdb O : clear implicits.

Section Database.
Context {O : Type}.
Implicit Types (p : pdb O) (r : prun).

Definition set_pd_runs (f : gmap run_key prun → gmap run_key prun) p : pdb O :=
  {| pd_runs := f (pd_runs p); pd_attempts := pd_attempts p; pd_steps := pd_steps p;
     pd_artifacts := pd_artifacts p; pd_events := pd_events p; pd_audit := pd_audit p;
     pd_leases := pd_leases p; pd_outside := pd_outside p |}.
Definition set_outside (o : O) p : pdb O :=
  {| pd_runs := pd_runs p; pd_attempts := pd_attempts p; pd_steps := pd_steps p;
     pd_artifacts := pd_artifacts p; pd_events := pd_events p; pd_audit := pd_audit p;
     pd_leases := pd_leases p; pd_outside := o |}.
Definition add_event (now : Z) (e : run_event) p : pdb O :=
  {| pd_runs := pd_runs p; pd_attempts := pd_attempts p; pd_steps := pd_steps p;
     pd_artifacts := pd_artifacts p; pd_events := pd_events p ++ [(now, e)]; pd_audit := pd_audit p;
     pd_leases := pd_leases p; pd_outside := pd_outside p |}.
Definition add_audit (a : audit_record) p : pdb O :=
  {| pd_runs := pd_runs p; pd_attempts := pd_attempts p; pd_steps := pd_steps p;
     pd_artifacts := pd_artifacts p; pd_events := pd_events p; pd_audit := pd_audit p ++ [a];
     pd_leases := pd_leases p; pd_outside := pd_outside p |}.

(** ** The view of the attempts *)

Definition attempt_run r : run_row :=
  {| r_status := pr_status r; r_workspace_id := pr_workspace_id r; r_user_id := pr_user_id r;
     r_session_id := pr_session_id r; r_agent_id := pr_agent_id r;
     r_execution_kind := pr_execution_kind r; r_skill_id := pr_skill_id r;
     r_cancel_requested_at := pr_cancel_requested_at r; r_started_at := pr_started_at r;
     r_finished_at := l_finished_at (pr_life r) |}.

(** What the trigger of the attempts writes to a run: status, start and finish. *)
Definition put_attempt_run (a : run_row) r : prun :=
  let l := pr_life r in
  {| pr_life :=
       {| l_status := r_status a; l_user_id := l_user_id l; l_trace_id := l_trace_id l;
          l_result_json := l_result_json l; l_error_code := l_error_code l;
          l_error_message := l_error_message l; l_observed := l_observed l;
          l_finished_at := r_finished_at a; l_cancel_requested_at := l_cancel_requested_at l;
          l_target := l_target l; l_reason := l_reason l; l_staged_result := l_staged_result l;
          l_staged_error_code := l_staged_error_code l; l_staged_error_message := l_staged_error_message l |};
     pr_workspace_id := pr_workspace_id r; pr_session_id := pr_session_id r; pr_agent_id := pr_agent_id r;
     pr_execution_kind := pr_execution_kind r; pr_skill_id := pr_skill_id r;
     pr_cancel_requested_by := pr_cancel_requested_by r; pr_created_at := pr_created_at r;
     pr_queued_at := pr_queued_at r; pr_started_at := r_started_at a |}.

Definition attempt_view p : attempt_db :=
  {| db_runs := attempt_run <$> pd_runs p; db_attempts := pd_attempts p |}.
Definition put_attempt_view (a : attempt_db) p : pdb O :=
  {| pd_runs := map_imap (fun k r => Some (match db_runs a !! k with
                                           | Some row => put_attempt_run row r
                                           | None => r end)) (pd_runs p);
     pd_attempts := db_attempts a; pd_steps := pd_steps p; pd_artifacts := pd_artifacts p;
     pd_events := pd_events p; pd_audit := pd_audit p; pd_leases := pd_leases p;
     pd_outside := pd_outside p |}.
Definition with_attempts {A} (f : attempt_db → res (attempt_db * A)) p : res (pdb O * A) :=
  let! '(a, x) := f (attempt_view p) in Ok (put_attempt_view a p, x).

(** ** The view of the life cycle *)

Definition put_life (l : lrun) r : prun :=
  {| pr_life := l;
     pr_workspace_id := pr_workspace_id r; pr_session_id := pr_session_id r; pr_agent_id := pr_agent_id r;
     pr_execution_kind := pr_execution_kind r; pr_skill_id := pr_skill_id r;
     pr_cancel_requested_by := pr_cancel_requested_by r; pr_created_at := pr_created_at r;
     pr_queued_at := pr_queued_at r; pr_started_at := pr_started_at r |}.

Definition life_view p : lifecycle_db :=
  {| ld_runs := pr_life <$> pd_runs p; ld_steps := pd_steps p; ld_artifacts := pd_artifacts p;
     ld_events := snd <$> pd_events p; ld_audit := pd_audit p |}.
(** Events appended by the transaction get its time. *)
Definition put_life_view (now : Z) (d : lifecycle_db) p : pdb O :=
  {| pd_runs := map_imap (fun k r => Some (match ld_runs d !! k with
                                           | Some l => put_life l r
                                           | None => r end)) (pd_runs p);
     pd_attempts := pd_attempts p; pd_steps := ld_steps d; pd_artifacts := ld_artifacts d;
     pd_events := pd_events p ++ (pair now <$> drop (length (pd_events p)) (ld_events d));
     pd_audit := ld_audit d; pd_leases := pd_leases p; pd_outside := pd_outside p |}.
Definition with_life {A} (now : Z) (f : lifecycle_db → res (lifecycle_db * A)) p : res (pdb O * A) :=
  let! '(d, x) := f (life_view p) in Ok (put_life_view now d p, x).

(** A port of another module: it reads the database and changes only its own tables. *)
Definition call_port (f : pdb O → res O) p : res (pdb O) := let! o := f p in Ok (set_outside o p).

(** [get_run], for update. *)
Definition get_run (tenant_id run_id : string) p : option prun := pd_runs p !! (tenant_id, run_id).

End Database.

(** ** The other modules *)

Class PlatformPorts (O : Type) := {
  (** Provider sessions: [release_provider_lineage] and the hook of an ended attempt. *)
  release_provider_lineage (tenant_id run_id : string) : pdb O → res O;
  finalize_terminal_transition : option (attempt_row → attempt_row → pdb O → res O);
  (** Stream rows. *)
  append_terminal_row (tenant_id run_id : string) : pdb O → res O;
  append_cancel_requested (tenant_id run_id source : string) (trace_ref : option string) : pdb O → res O;
  append_cancel_terminal (tenant_id run_id : string) : pdb O → res O;
  prepare_pending_authority (tenant_id run_id attempt_id : string) : pdb O → res O;
  stream_events_latest (tenant_id run_id : string) : O → option Z;
  (** Diagnostics: the public part of a result comes back. *)
  record_result_diagnostics :
    option (string → string → option string → string → string → string → option pydict →
            pdb O → res (O * option pydict));
  (** Whether the frozen execution spec of an attempt parses and binds to its run. *)
  spec_binds : attempt_row → prun → bool
}.

Section Operations.
Context `{PyRuntime} `{LifecyclePorts} {O : Type} `{PlatformPorts O} (sha256_hex : string → string).
Implicit Types (p : pdb O).

(** [append_run_terminal_v4_row]: only for the transition of this transaction. *)
Definition append_run_terminal_v4_row (tenant_id run_id : string) (did_transition : bool) p : res (pdb O) :=
  if did_transition then call_port (append_terminal_row tenant_id run_id) p else Ok p.

(** Provider lineage is released with a terminal run, then the stream row is appended. *)
Definition after_end (tenant_id run_id : string) (terminal did_transition : bool) p : res (pdb O) :=
  let! p := if terminal then call_port (release_provider_lineage tenant_id run_id) p else Ok p in
  append_run_terminal_v4_row tenant_id run_id did_transition p.

Definition complete_run_with_v4 (now : Z) (tenant_id run_id : string) (result_json : pydict) p
    : res (pdb O * bool) :=
  let! '(p, completed) := with_life now (complete_run now tenant_id run_id result_json) p in
  let! p := after_end tenant_id run_id completed completed p in
  Ok (p, completed).

Definition fail_run_with_v4 (now : Z) (tenant_id run_id error_code error_message : string)
    (result_json : option pydict) (terminal_reason : string) p : res (pdb O * progress) :=
  let! '(p, g) :=
    with_life now (fail_run now tenant_id run_id error_code error_message result_json terminal_reason) p in
  let! p := after_end tenant_id run_id (progress_is_terminal None g) (did_transition g) p in
  Ok (p, g).

Definition cancel_run_with_v4 (now : Z) (tenant_id run_id : string) (result_json : option pydict) p
    : res (pdb O * progress) :=
  let! '(p, g) := with_life now (cancel_run now tenant_id run_id result_json) p in
  let! p := after_end tenant_id run_id (progress_is_terminal None g) (did_transition g) p in
  Ok (p, g).

Definition progress_run_terminalization_with_v4 (now : Z) (tenant_id run_id : string) p
    : res (pdb O * option progress) :=
  let! '(p, g) := with_life now (progress_run_terminalization now tenant_id run_id) p in
  match g with
  | None => Ok (p, None)
  | Some g =>
      let! p := after_end tenant_id run_id (progress_is_terminal None g) (did_transition g) p in
      Ok (p, Some g)
  end.

(** [progress_run_terminalization_with_context]: without the stream row. *)
Definition progress_run_terminalization_with_context (now : Z) (tenant_id run_id : string) p
    : res (pdb O * option progress) :=
  let! '(p, g) := with_life now (progress_run_terminalization now tenant_id run_id) p in
  let! p := if match g with Some g => progress_is_terminal None g | None => false end
            then call_port (release_provider_lineage tenant_id run_id) p else Ok p in
  Ok (p, g).

(** [RunAttemptLifecycleService.terminalize], with its hook. *)
Definition terminalize (now : Z) (tenant_id run_id attempt_id status terminal_reason : string)
    (error_code : option string) p : res (pdb O * option attempt_row) :=
  let previous :=
    match finalize_terminal_transition with
    | Some _ => get_run_attempt tenant_id run_id attempt_id (attempt_view p)
    | None => None
    end in
  let! '(p, terminal) :=
    with_attempts (terminalize_run_attempt sha256_hex now tenant_id run_id attempt_id status
                     terminal_reason error_code) p in
  let! p :=
    match previous, terminal, finalize_terminal_transition with
    | Some previous, Some terminal, Some hook => call_port (hook previous terminal) p
    | _, _, _ => Ok p
    end in
  Ok (p, terminal).

(** [finish_run_terminalization], one transaction. *)
Definition finish_run_terminalization (now : Z) (tenant_id run_id : string) (attempt_id : option string)
    (attempt_error_code : option string) p : res (pdb O * option progress) :=
  let! '(p, g) := progress_run_terminalization_with_v4 now tenant_id run_id p in
  match attempt_id, g with
  | Some attempt_id, Some g =>
      if progress_is_terminal None g then
        let status := default "None" (p_status g) in
        let! '(p, _) :=
          terminalize now tenant_id run_id attempt_id status ("run_" +:+ status)
            (if bool_decide (p_status g = Some "failed") then attempt_error_code else None) p in
        Ok (p, Some g)
      else Ok (p, Some g)
  | _, _ => Ok (p, g)
  end.

(** ** The authority of a reconciliation *)

Record run_scope := RunScope {
  sc_workspace_id : string; sc_user_id : string; sc_session_id : string; sc_agent_id : string
}.

Definition get_scoped_reconciliation_run (tenant_id run_id : string) (scope : run_scope) p : option prun :=
  match get_run tenant_id run_id p with
  | Some r =>
      if String.eqb (pr_workspace_id r) (sc_workspace_id scope)
         && bool_decide (pr_user_id r = Some (sc_user_id scope))
         && String.eqb (pr_session_id r) (sc_session_id scope)
         && String.eqb (pr_agent_id r) (sc_agent_id scope) && String.eqb (pr_status r) "running"
      then Some r else None
  | None => None
  end.

Definition lock_scoped_reconciliation_receipt (tenant_id run_id attempt_id lease_id claim_token : string)
    (expected_owner_generation : Z) (scope : run_scope) p : bool :=
  existsb (fun s =>
    String.eqb (sl_id s) lease_id && String.eqb (sl_tenant_id s) tenant_id
    && String.eqb (sl_workspace_id s) (sc_workspace_id scope)
    && String.eqb (sl_user_id s) (sc_user_id scope) && String.eqb (sl_session_id s) (sc_session_id scope)
    && String.eqb (sl_run_id s) run_id && bool_decide (sl_attempt_id s = Some attempt_id)
    && str_in (sl_status s) ["active"; "released"] && sl_terminal_received s
    && String.eqb (sl_reconciliation_status s) "claimed"
    && bool_decide (sl_claim_token s = Some claim_token)
    && bool_decide (sl_owner_generation s = Some (py_str (PInt expected_owner_generation)))) (pd_leases p).

Definition scope_given (scope : run_scope) : bool :=
  str_truthy (sc_workspace_id scope) && str_truthy (sc_user_id scope)
  && str_truthy (sc_session_id scope) && str_truthy (sc_agent_id scope).

(** [restore_reconciliation]: the attempt, once run, receipt and owner match. *)
Definition restore_reconciliation (tenant_id run_id attempt_id lease_id claim_token : string)
    (expected_owner_generation : pyval) (scope : run_scope) p : res attempt_row :=
  match expected_owner_generation with
  | PInt expected =>
      raise! "run_attempt_reconciliation_scope_invalid" when (expected <? 1) || negb (scope_given scope);
      match get_scoped_reconciliation_run tenant_id run_id scope p with
      | None => Raise "run_attempt_reconciliation_scope_invalid"
      | Some run =>
          raise! "run_attempt_reconciliation_claim_stale" when
            negb (lock_scoped_reconciliation_receipt tenant_id run_id attempt_id lease_id claim_token
                    expected scope p);
          match get_run_attempt tenant_id run_id attempt_id (attempt_view p) with
          | None => Raise "run_attempt_reconciliation_attempt_missing"
          | Some row =>
              let generation := a_owner_generation row in
              let cancellation :=
                String.eqb (a_status row) "cancel_requested"
                && negb (bool_decide (pr_cancel_requested_at run = None)) && (generation =? expected + 1) in
              raise! "run_attempt_reconciliation_owner_stale" when
                negb (String.eqb (a_owner_kind row) "queue_worker" && str_truthy (a_owner_id row)
                      && str_truthy (a_queue_attempt_id row)
                      && ((String.eqb (a_status row) "running" && (generation =? expected))
                          || cancellation));
              raise! "run_attempt_reconciliation_spec_invalid" when negb (spec_binds row run);
              Ok row
          end
      end
  | _ => Raise "run_attempt_reconciliation_scope_invalid"
  end.

End Operations.
