(* ===== verification/PlatformFacts.v ===== *)
(** * Runs and attempts together

    The run of an attempt shows the projection of the attempt's status, and a run has
    at most one attempt ([joint]).  Operations on attempts keep this on their own;
    ending a run suspends it for that run until its attempt has ended as well
    ([terminalize_joint]).  The lemmas about the views carry both to the database of
    [Platform]. *)
From stdpp Require Import base gmap list strings.
From Stdlib Require Import ZArith Lia Ascii.
From S2P Require Import Prelude QueueRuntime PyValue RunAttempt RunAttemptFacts RunLifecycle RunLifecycleFacts Platform.
#[local] Open Scope py_scope.

Definition akey (a : attempt_row) : run_key := (a_tenant_id a, a_run_id a).

Section Joint.
Context (sha256_hex : string → string).
Notation consistent := (attempts_consistent sha256_hex).

Definition mirrors (db : attempt_db) (a : attempt_row) : Prop :=
  ∃ r, db_runs db !! akey a = Some r ∧ r_status r = projected_run_status (a_status a).

(** The invariant, with the attempts of one run left out if one is named. *)
Record joint_except (hole : option run_key) (db : attempt_db) : Prop := {
  j_consistent : consistent db;
  j_single : ∀ a b, a ∈ db_attempts db → b ∈ db_attempts db → akey a = akey b → a_id a = a_id b;
  j_mirrors : ∀ a, a ∈ db_attempts db → hole ≠ Some (akey a) → mirrors db a
}.
Notation joint := (joint_except None).

Lemma projected_same s : sql_projected_run_status s = projected_run_status s.
Proof. done. Qed.

Lemma same_identity_key r r' : same_identity r r' = true → akey r' = akey r ∧ a_id r' = a_id r.
Proof. unfold same_identity, akey. intros Hs. to_prop. split; congruence. Qed.

Lemma projected_terminal s : is_terminal s = true → projected_run_status s = s.
Proof.
  unfold is_terminal. rewrite str_in_elem. unfold TERMINAL_RUN_ATTEMPT_STATUSES.
  rewrite !elem_of_cons, elem_of_nil. by intros [->|[->|[->|[]]]].
Qed.

Lemma status_cases s : str_in s RUN_ATTEMPT_STATUSES = true →
  (projected_run_status s = "queued" ∧ is_open s = true ∧ is_terminal s = false) ∨
  (projected_run_status s = "running" ∧ is_open s = true ∧ is_terminal s = false) ∨
  (projected_run_status s = s ∧ is_open s = false ∧ is_terminal s = true).
Proof.
  rewrite str_in_elem. unfold RUN_ATTEMPT_STATUSES. rewrite !elem_of_cons, elem_of_nil.
  intros Hs. destruct_or!; subst; first [by left | right; left; done | right; right; done].
Qed.

(** ** Guarded steps *)

(** What a guarded update does. *)
Lemma update_effect now pred upd db db' new :
  sql_update_attempt sha256_hex now pred upd db = Ok (db', Some new) →
  ∃ old, List.find pred (db_attempts db) = Some old ∧ new = upd old ∧ old ∈ db_attempts db ∧
    akey new = akey old ∧ a_id new = a_id old ∧ db_attempts db' = replace_attempt new (db_attempts db) ∧
    ((a_status new = a_status old ∧ db_runs db' = db_runs db) ∨
     (a_status new ≠ a_status old ∧ ∃ r, db_runs db !! akey old = Some r ∧
        run_accepts (projected_run_status (a_status new)) (r_status r) = true ∧
        db_runs db' = <[akey old := project_run now (projected_run_status (a_status new)) r]> (db_runs db))).
Proof.
  intros [(_ & ? & _)|(old & dbr & Hf & [= ->] & Hh & Hg & _ & _ & ->)]%update_spec; [done|].
  pose proof (guard_update_evolves _ _ _ _ _ Hh Hg) as Hev.
  destruct (same_identity_key _ _ (ev_id _ _ Hev)) as [Hk Hi]. exists old. split_and!; try done.
  { apply find_lookup in Hf as (n & Hn & _). by eapply list_elem_of_lookup_2. }
  simpl. unfold akey in Hk. injection Hk as Hk1 Hk2.
  unfold guard_update in Hg. run_res Hg; simplify_eq; to_prop; [left; done|left; done|].
  right. split; [done|]. unfold akey. rewrite Hk1, Hk2 in *. eexists. by split_and!.
Qed.

Lemma replaced_cases new rows a' :
  a' ∈ replace_attempt new rows → a' = new ∨ (a' ∈ rows ∧ a_id a' ≠ a_id new).
Proof.
  unfold replace_attempt. intros (r & -> & Hr)%list_elem_of_fmap.
  destruct (String.eqb (a_id r) (a_id new)) eqn:E; to_prop; auto.
Qed.

(** An update fills the hole when it changes the status of the run's attempt. *)
Lemma update_joint hole now pred upd db db' new :
  joint_except hole db → sql_update_attempt sha256_hex now pred upd db = Ok (db', Some new) →
  hole = None ∨ (hole = Some (akey new) ∧ ∀ old, List.find pred (db_attempts db) = Some old → a_status (upd old) ≠ a_status old) →
  joint db'.
Proof.
  intros [Hc Hs Hm] Hu Hhole. pose proof (consistent_update _ _ _ _ _ _ _ Hc Hu) as Hc'.
  destruct (update_effect _ _ _ _ _ _ Hu) as (old & Hf & Hnew & Hin & Hk & Hi & Hrows & Hruns).
  assert (∀ a, a ∈ db_attempts db → akey a = akey new → a_id a = a_id new) as Honly.
  { intros a Ha E. rewrite Hi. apply Hs; [done..|congruence]. }
  split; [done| |].
  - rewrite Hrows. intros a b [->|[Ha _]]%replaced_cases [->|[Hb _]]%replaced_cases E; auto.
    symmetry. by apply Honly.
  - intros a Ha _. rewrite Hrows in Ha. destruct (replaced_cases _ _ _ Ha) as [->|[Ha' Hne]].
    + unfold mirrors. rewrite Hk. destruct Hruns as [[Est ->]|(_ & r & _ & _ & ->)].
      * rewrite Est. destruct Hhole as [->|[_ Hch]]; [by apply Hm|]. exfalso. apply (Hch old Hf). congruence.
      * rewrite lookup_insert_eq. eexists. by split.
    + assert (akey a ≠ akey new) as Hkey by (intros E; by apply Hne, Honly).
      assert (hole ≠ Some (akey a)) as Hh by (destruct Hhole as [->|[-> _]]; congruence).
      destruct (Hm a Ha' Hh) as (r & Hr & Est). exists r. split; [|done].
      destruct Hruns as [[_ ->]|(_ & r' & _ & _ & ->)]; [done|]. rewrite lookup_insert_ne; congruence.
Qed.

Lemma guard_insert_spec new db x :
  guard_insert new db = Ok x →
  a_status new = "created" ∧ ∃ r, db_runs db !! akey new = Some r ∧ r_status r = "queued".
Proof. unfold guard_insert, akey. intros E. run_res E. to_prop. eauto. Qed.

Lemma insert_joint new db db' :
  joint db → sql_insert_attempt sha256_hex new db = Ok db' → joint db'.
Proof.
  intros [Hc Hs Hm] Hins. pose proof (consistent_insert _ _ _ _ Hc Hins) as Hc'.
  unfold sql_insert_attempt in Hins. run_res Hins. simplify_eq. to_prop.
  match goal with H : guard_insert _ _ = _ |- _ => apply guard_insert_spec in H as (Hst & r & Hr & Hq) end.
  assert (∀ a, a ∈ db_attempts db → akey a ≠ akey new) as Hfresh.
  { intros a Ha E. destruct (Hm a Ha) as (r' & Hr' & Est); [done|]. rewrite E, Hr in Hr'.
    injection E as E1 E2. injection Hr' as <-.
    apply list_elem_of_lookup in Ha as [i Hi].
    pose proof (Forall_lookup_1 _ _ _ _ (ac_checks _ _ Hc) Hi) as Hchk.
    match goal with H : existsb _ _ = false |- _ => pose proof (existsb_false_lookup _ _ _ _ H Hi) as Hconf end.
    destruct (row_checks_parts _ _ Hchk) as (Hst' & _).
    assert (is_open (a_status a) = true) as Ho.
    { destruct (status_cases _ Hst') as [(_ & ? & _)|[(_ & ? & _)|(Hp & _ & Ht)]]; [done..|].
      rewrite Hp in Est. by rewrite <- Est, Hq in Ht. }
    unfold rows_conflict, same_run in Hconf.
    rewrite E1, E2, !String.eqb_refl, Ho, Hst in Hconf. simpl in Hconf. rewrite !orb_true_r in Hconf. done. }
  split; simpl; [done| |].
  - intros a b [Ha|Ha%list_elem_of_singleton]%elem_of_app [Hb|Hb%list_elem_of_singleton]%elem_of_app E;
      subst; auto.
    + by destruct (Hfresh a Ha).
    + by destruct (Hfresh b Hb).
  - intros a [Ha|Ha%list_elem_of_singleton]%elem_of_app _; [by apply Hm|subst a].
    exists r. split; [done|]. by rewrite Hq, Hst.
Qed.

Lemma guarded_joint db db' : guarded_step sha256_hex db db' → joint db → joint db'.
Proof.
  intros [new d d' Hi|now pred upd d d' [row|] Hu] Hj; [by eapply insert_joint| |].
  - by eapply update_joint; [..|left].
  - by apply update_spec in Hu as [(_ & _ & ->)|(? & ? & _ & ? & _)].
Qed.

Lemma guarded_steps_joint db db' : rtc (guarded_step sha256_hex) db db' → joint db → joint db'.
Proof. induction 1; eauto using guarded_joint. Qed.

Lemma expected_row_parts t r i s k o g a :
  expected_row t r i s k o g a = true → akey a = (t, r) ∧ a_id a = i ∧ a_status a = s.
Proof. unfold expected_row, is_attempt, akey. intros E. to_prop. split; [congruence|done]. Qed.

Lemma decide_same s g d :
  decide_run_attempt_transition s s (PInt g) (PInt g) = Ok d → td_did_transition d = false.
Proof.
  unfold decide_run_attempt_transition, valid_generation. intros E. destruct (g <? 1); run_res E; simplify_eq; [done|].
  to_prop. congruence.
Qed.

(** A transition finds its row in the requested status or changes it. *)
Lemma transition_cases now t r i es rs k o g args db db' row :
  transition_run_attempt sha256_hex now t r i es rs k o g args db = Ok (db', row) →
  akey row = (t, r) ∧ a_id row = i ∧ a_status row = rs ∧
  ((db' = db ∧ es = rs ∧ row ∈ db_attempts db) ∨
   (es ≠ rs ∧ ∃ pred upd, sql_update_attempt sha256_hex now pred upd db = Ok (db', Some row) ∧
      ∀ old, List.find pred (db_attempts db) = Some old →
        akey old = (t, r) ∧ a_id old = i ∧ a_status old = es ∧ a_status (upd old) = rs)).
Proof.
  unfold transition_run_attempt. intros E. run_res E; simplify_eq; to_prop.
  - match goal with H : List.find _ _ = Some _ |- _ => destruct (find_lookup _ _ _ H) as (n & Hn & Hx) end.
    apply expected_row_parts in Hx as (Hk & Hi & Hs).
    assert (es = rs) as ->.
    { destruct (decide (rs = es)) as [|Hne]; [done|].
      match goal with H : decide_run_attempt_transition _ _ _ _ = _ |- _ =>
        destruct (decide_transition _ _ _ _ H Hne) as [? _] end. congruence. }
    split_and!; try done. left. split_and!; try done. by eapply list_elem_of_lookup_2.
  - match goal with H : sql_update_attempt _ _ _ _ _ = _ |- _ => rename H into Hu end.
    destruct (update_effect _ _ _ _ _ _ Hu) as (old & Hf & -> & _ & Hk & Hi & _).
    destruct (find_lookup _ _ _ Hf) as (n & _ & Hx). to_prop.
    match goal with H : expected_row _ _ _ _ _ _ _ _ = true |- _ => apply expected_row_parts in H as (Hk' & Hi' & Hs') end.
    split_and!; try (simpl; congruence). right. split.
    + intros ->. match goal with H : decide_run_attempt_transition _ _ _ _ = _ |- _ => apply decide_same in H end.
      congruence.
    + do 2 eexists. split; [exact Hu|]. intros old' Hf'. destruct (find_lookup _ _ _ Hf') as (m & _ & Hy). to_prop.
      match goal with H : expected_row _ _ _ _ _ _ _ old' = true |- _ => apply expected_row_parts in H as (? & ? & ?) end.
      by split_and!.
Qed.

(** Ending the attempt of a run that has ended. *)
Lemma terminalize_joint now t r i s reason code db db' out run :
  joint_except (Some (t, r)) db → (∀ a, a ∈ db_attempts db → akey a = (t, r) → a_id a = i) →
  db_runs db !! (t, r) = Some run → r_status run = s →
  terminalize_run_attempt sha256_hex now t r i s reason code db = Ok (db', out) → joint db'.
Proof.
  intros Hj Honly Hrun Hst. unfold terminalize_run_attempt, get_run_attempt. intros E. run_res E; simplify_eq; to_prop.
  - match goal with H : transition_run_attempt _ _ _ _ _ _ _ _ _ _ _ _ = _ |- _ =>
      destruct (transition_cases _ _ _ _ _ _ _ _ _ _ _ _ _ H) as (Hk & Hi & Hs & [(-> & Hes & Hin)|(Hes & pred & upd & Hu & Hold)]) end.
    + destruct Hj as [Hc Hsi Hm]. split; [done..|]. intros b Hb _.
      destruct (decide (akey b = (t, r))) as [Ek|Hne]; [|apply Hm; [done|congruence]].
      assert (b = o) as -> by (eapply consistent_same_row; [done..|]; rewrite (Honly b Hb Ek); congruence).
      exists run. rewrite Hk, Hs, projected_terminal; done.
    + eapply update_joint; [exact Hj|exact Hu|]. right. split; [congruence|].
      intros old Hf. destruct (Hold old Hf) as (_ & _ & ? & ?). congruence.
  - destruct Hj as [Hc Hs Hm]. split; [done..|]. intros a Ha _.
    destruct (decide (akey a = (t, r))) as [Ek|Hne]; [|apply Hm; [done|congruence]].
    eapply List.find_none in Heqo; [|by apply list_elem_of_In]. unfold is_attempt in Heqo.
    rewrite (Honly a Ha Ek) in Heqo. injection Ek as Et Er. rewrite Et, Er, !String.eqb_refl in Heqo. done.
Qed.
End Joint.

(** ** What the life cycle does to the status of a run *)

Section Statuses.
Context `{PyRuntime} `{LifecyclePorts}.

Definition same_status (db db' : lifecycle_db) : Prop :=
  ∀ k, l_status <$> ld_runs db' !! k = l_status <$> ld_runs db !! k.

Lemma same_status_refl db : same_status db db.
Proof. done. Qed.
Lemma same_status_trans db1 db2 db3 : same_status db1 db2 → same_status db2 db3 → same_status db1 db3.
Proof. intros H1 H2 k. by rewrite H2, H1. Qed.
Lemma same_status_set k l l' db :
  ld_runs db !! k = Some l → l_status l' = l_status l → same_status db (set_runs <[k := l']> db).
Proof.
  intros Hl Hs k'. simpl. destruct (decide (k' = k)) as [->|Hne].
  - rewrite lookup_insert_eq, Hl. simpl. congruence.
  - by rewrite lookup_insert_ne.
Qed.
#[local] Hint Resolve same_status_refl : platform.

Lemma stage_status t r target reason result code message db db' row :
  stage_run_terminalization t r target reason result code message db = Ok (db', row) → same_status db db'.
Proof.
  unfold stage_run_terminalization. intros E. run_res E; simplify_eq; auto with platform.
  by eapply same_status_set.
Qed.

Lemma clear_status t r db : same_status db (clear_cancel_requested_terminalization t r db).
Proof.
  unfold clear_cancel_requested_terminalization. destruct (ld_runs db !! (t, r)) eqn:E; [|done].
  case_match; [by eapply same_status_set|done].
Qed.

(** A progress that transitions ends the run in the status it reports. *)
Definition ended_as (t r s : string) (db db' : lifecycle_db) : Prop :=
  str_in s ["failed"; "cancelled"] = true ∧
  ∃ l, ld_runs db !! (t, r) = Some l ∧ run_is_terminal l = false ∧ l_status <$> ld_runs db' !! (t, r) = Some s.

Lemma stage_open t r target reason result code message db db' l :
  stage_run_terminalization t r target reason result code message db = Ok (db', Some l) →
  ∃ l0, ld_runs db !! (t, r) = Some l0 ∧ run_is_terminal l0 = false ∧ ld_runs db' !! (t, r) = Some l.
Proof.
  unfold stage_run_terminalization. intros E. run_res E; simplify_eq. eexists. split_and!; [done..|]. simpl.
  by rewrite lookup_insert_eq.
Qed.

Lemma progress_status now t r db db' g :
  progress_run_terminalization now t r db = Ok (db', g) →
  (same_status db db' ∧
   match g with
   | Some p => did_transition p = false ∧
       (progress_is_terminal None p = true → l_status <$> ld_runs db' !! (t, r) = p_status p)
   | None => True
   end) ∨
  ∃ s, g = Some (RunTerminalizationProgress true (Some s) true) ∧ ended_as t r s db db' ∧
    l_target <$> ld_runs db !! (t, r) = Some (Some s).
Proof.
  unfold progress_run_terminalization. intros E. run_res E; simplify_eq; simpl;
    try (left; split; [auto using same_status_refl, clear_status|]; split; [done|]; try done; fail).
  - left. split; [done|]. split; [done|]. intros _. unfold load_staged_terminalization in *.
    destruct (ld_runs db' !! (t, r)) as [l'|]; [|done]. case_match; [|done]. by simplify_eq.
  - right. eexists. split; [done|].
    match goal with H : finalize_staged_terminalization _ _ _ _ _ _ = _ |- _ =>
      apply finalize_spec in H as [Hin [[? _]|(row & final & n & ? & Hr & Ht & Htg & Hs & Hruns & _)]] end; [done|].
    split; [|rewrite Hr; simpl; congruence]. split; [done|]. exists row. split_and!; [done..|]. simpl.
    rewrite Hruns, lookup_insert_eq. simpl. congruence.
  - left. match goal with H : finalize_staged_terminalization _ _ _ _ _ _ = _ |- _ =>
      apply finalize_spec in H as [_ [[_ ->]|(? & ? & ? & ? & _)]] end; [|done]. by split.
  - by left.
Qed.

Lemma terminate_status now t r target reason result code message db db' g :
  terminate_run now t r target reason result code message db = Ok (db', g) →
  (same_status db db' ∧ progress_is_terminal None g = false) ∨
  (g = RunTerminalizationProgress true (Some target) true ∧ ended_as t r target db db').
Proof.
  unfold terminate_run. intros E. run_res E; simplify_eq.
  all: match goal with Hs : stage_run_terminalization _ _ _ _ _ _ _ _ = _ |- _ =>
    pose proof (stage_status _ _ _ _ _ _ _ _ _ _ Hs) as Hst; rename Hs into Hstage end; try (left; by split).
  match goal with Hp : progress_run_terminalization _ _ _ _ = _ |- _ => pose proof Hp as Hp';
    apply progress_status in Hp as [[Hsame Hg]|(s & -> & (Hin & l' & Hl & Ht & Hs) & Htg)] end;
    destruct (stage_open _ _ _ _ _ _ _ _ _ _ Hstage) as (l0 & Hl0 & Ht0 & Hd).
  - left. split; [by eapply same_status_trans|].
    destruct o0 as [g|]; [|done]. unfold progress_for_requested_status.
    destruct (progress_is_terminal (Some target) g) eqn:Eg; [|done]. exfalso.
    destruct Hg as [_ Hg]. unfold progress_is_terminal in *. to_prop. destruct (p_status g) as [s|]; [|done].
    to_prop. assert (l_status <$> ld_runs db' !! (t, r) = Some s) as Hs.
    { apply Hg. apply andb_true_iff. split; [done|]. by rewrite andb_true_r. }
    rewrite Hsame, Hst, Hl0 in Hs. simpl in Hs. injection Hs as Hs. unfold run_is_terminal in Ht0. congruence.
  - right. rewrite Hd in Hl. injection Hl as <-. rewrite Hd in Htg. injection Htg as Htg.
    assert (s = target) as -> by (rewrite Htg in *; simpl in *; by to_prop).
    unfold progress_for_requested_status, progress_is_terminal. simpl. split.
    + rewrite str_in_elem, !elem_of_cons, elem_of_nil in Hin. by destruct Hin as [->|[->|[]]].
    + split; [done|]. exists l0. by split_and!.
Qed.
(** A staged end that is driven without an error goes through. *)
Lemma progress_forced now t r target db db' g row :
  progress_run_terminalization now t r db = Ok (db', g) →
  ld_runs db !! (t, r) = Some row → run_is_terminal row = false → l_target row = Some target →
  str_in target ["failed"; "cancelled"] = true → g = Some (RunTerminalizationProgress true (Some target) true).
Proof.
  unfold progress_run_terminalization, load_staged_terminalization. intros E Hr Ht Htarget Hin.
  rewrite Hr, Htarget, Ht in E. rewrite bool_decide_eq_false_2 in E by done. cbn [negb orb] in E.
  unfold run_is_terminal in Ht. rewrite Ht, Htarget in E. cbn [from_option id] in E.
  assert (String.eqb target "cancel_requested" = false) as Hc.
  { rewrite str_in_elem, !elem_of_cons, elem_of_nil in Hin. by destruct Hin as [->|[->|[]]]. }
  rewrite Hc in E. unfold finalize_staged_terminalization in E. rewrite Hin in E. cbn [negb] in E.
  destruct (result_observability_values _) as [obs|]; cbn [res_bind] in E; [|done].
  rewrite Hr, Htarget, bool_decide_eq_true_2 in E by done. cbn [negb orb] in E.
  unfold run_is_terminal in E. rewrite Ht in E. destruct (negb (fits_int4 _)); cbn [res_bind] in E; [done|]. by simplify_eq.
Qed.

Lemma terminate_forced now t r target reason result code message db db' g row :
  terminate_run now t r target reason result code message db = Ok (db', g) →
  ld_runs db !! (t, r) = Some row → run_is_terminal row = false → staging_wins (l_target row) target = true →
  str_in target ["failed"; "cancelled"] = true → g = RunTerminalizationProgress true (Some target) true.
Proof.
  unfold terminate_run, stage_run_terminalization. intros E Hr Ht Hwins Hin.
  assert (str_in target ["failed"; "cancel_requested"; "cancelled"] = true) as Hin'.
  { rewrite str_in_elem, !elem_of_cons, elem_of_nil in *. tauto. }
  rewrite Hin' in E. cbn [negb] in E. rewrite Hr, Ht, Hwins in E. cbv iota in E. cbn [res_bind] in E.
  match type of E with context [set_runs <[_ := ?st]> db] => set (staged := st) in * end.
  assert (l_target staged = Some target) as Htarget.
  { unfold staging_wins in Hwins. simpl. destruct (l_target row) as [s|]; [|by rewrite bool_decide_eq_false_2].
    to_prop. subst. by rewrite bool_decide_eq_true_2. }
  rewrite Htarget in E. cbn [from_option id] in E. rewrite String.eqb_refl in E. cbn [negb] in E.
  destruct (progress_run_terminalization _ _ _ _) as [[db1 g1]|] eqn:Ep; cbn [res_bind] in E; [|done]. simplify_eq.
  rewrite (progress_forced now t r target _ _ _ staged Ep); try done; [|apply lookup_insert_eq].
  rewrite str_in_elem, !elem_of_cons, elem_of_nil in Hin. by destruct Hin as [->|[->|[]]].
Qed.

Lemma complete_status now t r result db db' b :
  complete_run now t r result db = Ok (db', b) →
  if b then ∃ l, ld_runs db !! (t, r) = Some l ∧ run_is_terminal l = false ∧ l_cancel_requested_at l = None ∧
              l_target l = None ∧ l_status <$> ld_runs db' !! (t, r) = Some "succeeded"
  else db' = db.
Proof.
  unfold complete_run, complete_run_sql. intros E. run_res E; simplify_eq; try done. to_prop.
  eexists. split_and!; [done..|]. simpl. by rewrite lookup_insert_eq.
Qed.

End Statuses.

(** ** The views *)

Section Views.
Context (sha256_hex : string → string) {O : Type}.
Implicit Types (p : pdb O).
Notation joint_except := (joint_except sha256_hex).

Lemma put_attempt_run_same a r : run_evolves (attempt_run r) a → attempt_run (put_attempt_run a r) = a.
Proof.
  intros [Hid _ _ _ _]. destruct a. unfold attempt_run, put_attempt_run, pr_status, pr_user_id, pr_cancel_requested_at in *.
  simpl in *. destruct_and!. subst. done.
Qed.

Lemma guarded_steps_runs db db' k :
  rtc (guarded_step sha256_hex) db db' →
  match db_runs db !! k with
  | Some r => ∃ r', db_runs db' !! k = Some r' ∧ run_evolves r r'
  | None => db_runs db' !! k = None
  end.
Proof.
  intros Hs. induction Hs as [db|d1 d2 d3 Hg _ IH].
  - destruct (db_runs db !! k); [|done]. eexists. split; [done|apply run_evolves_refl].
  - destruct (db_runs d1 !! k) as [r|] eqn:Er.
    + destruct (guarded_step_runs _ _ _ _ _ Hg Er) as (r2 & Hr2 & He). rewrite Hr2 in IH.
      destruct IH as (r3 & Hr3 & He'). exists r3. split; [done|by eapply run_evolves_trans].
    + assert (db_runs d2 !! k = None) as Hn.
      { destruct Hg as [new d d' Hi|now pred upd d d' [row|] Hu].
        - unfold sql_insert_attempt in Hi. run_res Hi. by simplify_eq.
        - destruct (update_effect _ _ _ _ _ _ _ Hu) as (old & _ & _ & _ & _ & _ & _ & [[_ ->]|(_ & r & Hr & _ & ->)]); [done|].
          rewrite lookup_insert_ne; [done|]. congruence.
        - by apply update_spec in Hu as [(_ & _ & ->)|(? & ? & _ & ? & _)]. }
      by rewrite Hn in IH.
Qed.

Lemma attempt_view_put p db : rtc (guarded_step sha256_hex) (attempt_view p) db → attempt_view (put_attempt_view db p) = db.
Proof.
  intros Hs. destruct db as [runs rows]. unfold attempt_view, put_attempt_view. simpl. f_equal.
  apply map_eq. intros k. rewrite lookup_fmap, map_lookup_imap.
  pose proof (guarded_steps_runs _ _ k Hs) as Hk. simpl in Hk. rewrite lookup_fmap in Hk.
  destruct (pd_runs p !! k) as [r|] eqn:Er; simpl in *; [|done].
  destruct Hk as (r' & -> & He). simpl. by rewrite put_attempt_run_same.
Qed.

Lemma put_life_same r : put_life (pr_life r) r = r.
Proof. by destruct r. Qed.

Lemma life_view_status now d p k :
  ld_runs d !! k = None ∨ is_Some (pd_runs p !! k) →
  pr_status <$> pd_runs (put_life_view now d p) !! k = match ld_runs d !! k with
    | Some l => Some (l_status l) | None => pr_status <$> pd_runs p !! k end.
Proof.
  simpl. rewrite map_lookup_imap. intros Hd. destruct (pd_runs p !! k) as [r|]; simpl.
  - by destruct (ld_runs d !! k).
  - by destruct Hd as [->|[? ?]].
Qed.

(** A life-cycle operation on one run leaves the other runs of the view alone. *)
Lemma life_joint_hole now k d p :
  run_effect k (life_view p) d → joint_except None (attempt_view p) →
  joint_except (Some k) (attempt_view (put_life_view now d p)).
Proof.
  intros Heff [Hc Hs Hm]. split; [by destruct Hc|done|]. intros a Ha Hne. destruct (Hm a Ha) as (r & Hr & Hst); [done|].
  assert (akey a ≠ k) as Hk by congruence. exists r. split; [|done].
  simpl in *. rewrite lookup_fmap in *. rewrite map_lookup_imap.
  pose proof (re_others _ _ _ Heff _ Hk) as Ho. simpl in Ho. rewrite lookup_fmap in Ho. rewrite Ho.
  destruct (pd_runs p !! akey a) as [pr|]; simpl in *; [|done]. by rewrite put_life_same.
Qed.

(** An operation that keeps the statuses keeps the invariant. *)
Lemma life_joint_same now k d p :
  run_effect k (life_view p) d → same_status (life_view p) d → joint_except None (attempt_view p) →
  joint_except None (attempt_view (put_life_view now d p)).
Proof.
  intros Heff Hsame Hj. destruct (life_joint_hole now _ _ _ Heff Hj) as [Hc Hs Hm]. split; [done..|].
  intros a Ha _. destruct (decide (akey a = k)) as [Hk|Hk]; [|apply Hm; [done|congruence]].
  destruct (j_mirrors _ _ _ Hj a Ha) as (r & Hr & Hst); [done|]. specialize (Hsame (akey a)). unfold mirrors.
  cbn [attempt_view life_view put_life_view db_runs ld_runs pd_runs] in *. rewrite lookup_fmap in Hsame.
  rewrite lookup_fmap in Hr.
  rewrite lookup_fmap, map_lookup_imap.
  destruct (pd_runs p !! akey a) as [pr|]; simpl in *; [|done]. injection Hr as <-.
  destruct (ld_runs d !! akey a) as [l|]; simpl in *; [|done]. injection Hsame as Hsame.
  eexists. split; [done|]. by rewrite <- Hst.
Qed.

Lemma hole_empty k db :
  joint_except (Some k) db → (∀ a, a ∈ db_attempts db → akey a ≠ k) → joint_except None db.
Proof. intros [Hc Hs Hm] Hn. split; [done..|]. intros a Ha _. apply Hm; [done|]. intros [= E]. by apply (Hn a Ha). Qed.

Lemma hole_weaken k db : joint_except None db → joint_except (Some k) db.
Proof. intros [Hc Hs Hm]. split; [done..|]. intros a Ha _. by apply Hm. Qed.

Lemma with_attempts_joint {A} (f : attempt_db → res (attempt_db * A)) p p' x :
  with_attempts f p = Ok (p', x) →
  (∀ db db' x, f db = Ok (db', x) → rtc (guarded_step sha256_hex) db db') →
  joint_except None (attempt_view p) → joint_except None (attempt_view p').
Proof.
  unfold with_attempts. intros E Hf Hj. run_res E. simplify_eq.
  match goal with Hr : f _ = Ok _ |- _ => apply Hf in Hr; rewrite (attempt_view_put _ _ Hr) end.
  by eapply guarded_steps_joint.
Qed.

End Views.

(** ** Ending a run *)

Section Ends.
Context `{PyRuntime} `{LifecyclePorts} {O : Type} `{PlatformPorts O} (sha256_hex : string → string).
Implicit Types (p : pdb O).
Notation joint_except := (joint_except sha256_hex).
Notation pjoint p := (joint_except None (attempt_view p)).

(** The run has ended as [s]; its attempt has not followed yet. *)
Record ends (t r s : string) p p' : Prop := {
  en_attempts : pd_attempts p' = pd_attempts p;
  en_hole : joint_except (Some (t, r)) (attempt_view p');
  en_status : pr_status <$> pd_runs p' !! (t, r) = Some s
}.

Lemma call_port_outside f p p' : call_port f p = Ok p' → ∃ o, p' = set_outside o p.
Proof. unfold call_port. intros E. run_res E. simplify_eq. eauto. Qed.

Lemma after_end_outside t r terminal did p p' : after_end t r terminal did p = Ok p' → ∃ o, p' = set_outside o p.
Proof.
  unfold after_end, append_run_terminal_v4_row. intros E. run_res E; simplify_eq.
  all: repeat match goal with Hc : (if _ then _ else _) = _ |- _ => run_res Hc; simplify_eq end.
  all: repeat match goal with Hc : call_port _ _ = _ |- _ => apply call_port_outside in Hc as [? ->] end; eauto.
  all: by exists (pd_outside p'); destruct p'.
Qed.

(** A life-cycle operation that ends the run. *)
Lemma life_ends now t r s d p :
  run_effect (t, r) (life_view p) d → pjoint p → is_Some (pd_runs p !! (t, r)) →
  l_status <$> ld_runs d !! (t, r) = Some s → ends t r s p (put_life_view now d p).
Proof.
  intros Heff Hj Hp Hs. split; [done|by apply life_joint_hole|].
  rewrite life_view_status by auto. by destruct (ld_runs d !! (t, r)).
Qed.

Lemma life_run_exists p k l : ld_runs (life_view p) !! k = Some l → is_Some (pd_runs p !! k).
Proof. simpl. rewrite lookup_fmap. by destruct (pd_runs p !! k). Qed.

Lemma with_life_inv {A} now (f : lifecycle_db → res (lifecycle_db * A)) p p' x :
  with_life now f p = Ok (p', x) → ∃ d, f (life_view p) = Ok (d, x) ∧ p' = put_life_view now d p.
Proof. unfold with_life. intros E. run_res E. simplify_eq. eauto. Qed.

Lemma ends_outside t r s p p' o : ends t r s p p' → ends t r s p (set_outside o p').
Proof. by intros [Ha Hb Hc]. Qed.

Lemma complete_v4_ends now t r result p p' b :
  complete_run_with_v4 now t r result p = Ok (p', b) → pjoint p →
  if b then ends t r "succeeded" p p' else pd_attempts p' = pd_attempts p ∧ pjoint p'.
Proof.
  unfold complete_run_with_v4. intros E Hj. run_res E. simplify_eq.
  match goal with Ha : after_end _ _ _ _ _ = _ |- _ => apply after_end_outside in Ha as [o' ->] end.
  match goal with Hw : with_life _ _ _ = _ |- _ => apply with_life_inv in Hw as (x & Hc & ->) end.
  pose proof (complete_effect _ _ _ _ _ _ _ Hc) as Heff. apply complete_status in Hc. destruct b.
  - destruct Hc as (l & Hl & _ & _ & _ & Hs). apply ends_outside, (life_ends now t r "succeeded" x p Heff Hj); [|done].
    by eapply life_run_exists.
  - subst x. split; [done|]. by apply (life_joint_same _ now _ _ p Heff).
Qed.

(** What [fail_run_with_v4] and [cancel_run_with_v4] share. *)
Lemma terminate_ends now t r target reason result code message d g p :
  terminate_run now t r target reason result code message (life_view p) = Ok (d, g) → pjoint p →
  (progress_is_terminal None g = false ∧ pjoint (put_life_view now d p)) ∨
  (g = RunTerminalizationProgress true (Some target) true ∧ str_in target ["failed"; "cancelled"] = true ∧
   ends t r target p (put_life_view now d p)).
Proof.
  intros Ht Hj. pose proof (terminate_effect _ _ _ _ _ _ _ _ _ _ _ Ht) as Heff.
  apply terminate_status in Ht as [[Hsame Hg]|(-> & Hin & l & Hl & _ & Hs)].
  - left. split; [done|]. by eapply life_joint_same.
  - right. split_and!; [done..|]. apply life_ends; [done..| |done]. by eapply life_run_exists.
Qed.

Lemma fail_v4_ends now t r code message result reason p p' g :
  fail_run_with_v4 now t r code message result reason p = Ok (p', g) → pjoint p →
  (progress_is_terminal None g = false ∧ pd_attempts p' = pd_attempts p ∧ pjoint p') ∨
  (g = RunTerminalizationProgress true (Some "failed") true ∧ ends t r "failed" p p').
Proof.
  unfold fail_run_with_v4. intros E Hj. run_res E. simplify_eq.
  match goal with Ha : after_end _ _ _ _ _ = _ |- _ => apply after_end_outside in Ha as [o' ->] end.
  match goal with Hw : with_life _ _ _ = _ |- _ => apply with_life_inv in Hw as (x & Hc & ->) end.
  unfold fail_run in Hc. run_res Hc. destruct (terminate_ends _ _ _ _ _ _ _ _ _ _ _ Hc Hj) as [[? ?]|(-> & _ & ?)].
  - by left.
  - right. split; [done|]. by apply ends_outside.
Qed.

Lemma cancel_v4_ends now t r result p p' g :
  cancel_run_with_v4 now t r result p = Ok (p', g) → pjoint p →
  (progress_is_terminal None g = false ∧ pd_attempts p' = pd_attempts p ∧ pjoint p') ∨
  (g = RunTerminalizationProgress true (Some "cancelled") true ∧ ends t r "cancelled" p p').
Proof.
  unfold cancel_run_with_v4. intros E Hj. run_res E. simplify_eq.
  match goal with Ha : after_end _ _ _ _ _ = _ |- _ => apply after_end_outside in Ha as [o' ->] end.
  match goal with Hw : with_life _ _ _ = _ |- _ => apply with_life_inv in Hw as (x & Hc & ->) end.
  unfold cancel_run in Hc. run_res Hc. destruct (terminate_ends _ _ _ _ _ _ _ _ _ _ _ Hc Hj) as [[? ?]|(-> & _ & ?)].
  - by left.
  - right. split; [done|]. by apply ends_outside.
Qed.

(** Driving a staged end: either nothing of the statuses changes, or the run ends. *)
Lemma progress_ends now t r d g p :
  progress_run_terminalization now t r (life_view p) = Ok (d, g) → pjoint p →
  (pjoint (put_life_view now d p) ∧
   ∀ g', g = Some g' → did_transition g' = false ∧
     (progress_is_terminal None g' = true → pr_status <$> pd_runs (put_life_view now d p) !! (t, r) = p_status g')) ∨
  ∃ s, g = Some (RunTerminalizationProgress true (Some s) true) ∧ str_in s ["failed"; "cancelled"] = true ∧
    ends t r s p (put_life_view now d p).
Proof.
  intros Hp Hj. pose proof (progress_effect _ _ _ _ _ _ Hp) as Heff.
  apply progress_status in Hp as [[Hsame Hg]|(s & -> & (Hin & l & Hl & _ & Hs) & _)].
  - left. split; [by eapply life_joint_same|]. intros g' ->. destruct Hg as [Hd Hg]. split; [done|]. intros Ht.
    rewrite <- (Hg Ht). specialize (Hsame (t, r)). simpl. rewrite map_lookup_imap.
    simpl in Hsame. rewrite lookup_fmap in Hsame.
    destruct (pd_runs p !! (t, r)) as [pr|], (ld_runs d !! (t, r)) as [l|]; simpl in *; done.
  - right. exists s. split_and!; [done..|]. apply life_ends; [done..| |done]. by eapply life_run_exists.
Qed.

(** The attempt follows its run. *)
Lemma terminalize_closes now t r i s reason code p p' out :
  joint_except (Some (t, r)) (attempt_view p) → pr_status <$> pd_runs p !! (t, r) = Some s →
  (∀ a, a ∈ pd_attempts p → akey a = (t, r) → a_id a = i) →
  terminalize sha256_hex now t r i s reason code p = Ok (p', out) → pjoint p'.
Proof.
  intros Hj Hs Honly. unfold terminalize, with_attempts. intros E. run_res E. simplify_eq.
  match goal with Hm : match _ with _ => _ end = Ok p' |- _ => rename Hm into Hhook end.
  match goal with Hr : res_bind _ _ = _ |- _ => run_res Hr; simplify_eq end.
  match goal with Ht : terminalize_run_attempt _ _ _ _ _ _ _ _ _ = _ |- _ =>
    pose proof (terminalize_steps _ _ _ _ _ _ _ _ _ _ _ Ht) as Hsteps; rename Ht into Hterm end.
  assert (∃ r0, db_runs (attempt_view p) !! (t, r) = Some r0 ∧ r_status r0 = s) as (r0 & Hr0 & Hs0).
  { simpl. rewrite lookup_fmap. destruct (pd_runs p !! (t, r)); [|done]. simpl in *. injection Hs as <-. eauto. }
  pose proof (terminalize_joint _ _ _ _ _ _ _ _ _ _ _ _ Hj Honly Hr0 Hs0 Hterm) as Hj'.
  rewrite <- (attempt_view_put _ _ _ Hsteps) in Hj'.
  repeat case_match; simplify_eq; try done. by apply call_port_outside in Hhook as [? ->].
Qed.

(** Terminalizing an attempt leaves an ended run in its status. *)
Lemma terminalize_keeps_ended now t r i status reason code p p' out k s :
  terminalize sha256_hex now t r i status reason code p = Ok (p', out) →
  pr_status <$> pd_runs p !! k = Some s → is_terminal s = true → pr_status <$> pd_runs p' !! k = Some s.
Proof.
  unfold terminalize, with_attempts. intros E Hs Ht. run_res E. simplify_eq.
  match goal with Hr : res_bind _ _ = _ |- _ => run_res Hr; simplify_eq end.
  match goal with Hm : match _ with _ => _ end = Ok p' |- _ => rename Hm into Hhook end.
  match goal with Ht : terminalize_run_attempt _ _ _ _ _ _ _ _ _ = Ok (?d, _) |- _ =>
    pose proof (guarded_steps_runs _ _ _ k (terminalize_steps _ _ _ _ _ _ _ _ _ _ _ Ht)) as Hk;
    assert (pr_status <$> pd_runs (put_attempt_view d p) !! k = Some s) as Hp end.
  { simpl in *. rewrite lookup_fmap in Hk. rewrite map_lookup_imap.
    destruct (pd_runs p !! k) as [run|]; [|done]. simpl in Hk, Hs |- *. injection Hs as Hs.
    destruct Hk as (row & -> & [_ Hst _ _ _]). simpl in *. rewrite Hs in Hst. f_equal.
    destruct Hst as [Hst|[[-> _]|[-> _]]]; [done|done|done]. }
  repeat case_match; simplify_eq; try done. all: by apply call_port_outside in Hhook as [? ->].
Qed.
End Ends.
