(* ===== verification/WorkerLifecycle.v ===== *)
(** * The worker's hold on a run

    [src/app/execution/application/worker_attempt_lifecycle.py]: a worker binds an
    execution to its queue lease and its durable attempt, and ends run and attempt in
    one transaction ([complete], [fail], [cancel]).  A reconciliation works with the
    restored attempt of the original worker instead.  The ports are the ones
    [src/app/bootstrap/worker_attempt_lifecycle.py] binds. *)
From stdpp Require Import base gmap list strings.
From Stdlib Require Import ZArith Lia Ascii.
From S2P Require Import Prelude PyValue QueueClient RunAttempt RunLifecycle Platform.
#[local] Open Scope py_scope.

Record worker_queue_lease := WorkerQueueLease {
  wq_queue_message_id : string; wq_last_heartbeat_at : datetime; wq_lease_expires_at : datetime
}.
(** The constructor with its checks. *)
Definition make_worker_queue_lease (queue_message_id : string) (last_heartbeat_at lease_expires_at : datetime)
    : res worker_queue_lease :=
  raise! "run_attempt_queue_message_id_invalid" when negb (is_hex64 queue_message_id);
  raise! "run_attempt_queue_lease_timezone_required" when
    negb (dt_aware last_heartbeat_at && dt_aware lease_expires_at);
  raise! "run_attempt_queue_lease_window_invalid" when
    dt_instant lease_expires_at <=? dt_instant last_heartbeat_at;
  Ok (WorkerQueueLease queue_message_id last_heartbeat_at lease_expires_at).

Record worker := WorkerAttemptLifecycle {
  w_tenant_id : string;
  w_run_id : string;
  w_attempt_id : string;
  w_queue_attempt_id : string;
  w_owner_id : string;
  w_queue_lease : option worker_queue_lease;
  w_reconciliation_lease_id : option string;
  w_reconciliation_claim_token : option string;
  w_reconciliation_owner_generation : pyval;
  w_reconciliation_scope : run_scope;
  w_reconciliation_owner_bound : bool
}.
Definition is_reconciliation (w : worker) : bool := negb (bool_decide (w_reconciliation_lease_id w = None)).

Definition IN_PROCESS : string := "worker-in-process".

Section Worker.
Context `{PyRuntime} `{LifecyclePorts} {O : Type} `{PlatformPorts O} (sha256_hex : string → string).
Implicit Types (p : pdb O) (w : worker).

Definition from_leased_attempt (tenant_id run_id leased_attempt_id : string) (worker_id : option string)
    (reconciliation : bool) (queue_lease : option worker_queue_lease)
    (reconciliation_lease_id reconciliation_claim_token : option string)
    (owner_generation : pyval) (scope : run_scope) : res worker :=
  raise! "executor_reconciliation_claim_incomplete" when
    xorb (bool_decide (reconciliation_lease_id = None)) (bool_decide (reconciliation_claim_token = None));
  raise! "executor_reconciliation_claim_binding_invalid" when
    xorb reconciliation (negb (bool_decide (reconciliation_lease_id = None)));
  raise! "executor_reconciliation_queue_lease_invalid" when
    reconciliation && negb (bool_decide (queue_lease = None));
  let worker_id := default "" worker_id in
  let owner := strip (if str_truthy worker_id then worker_id else IN_PROCESS) in
  let! attempt_id :=
    if reconciliation then Ok leased_attempt_id
    else run_attempt_id_for_queue_attempt sha256_hex tenant_id run_id leased_attempt_id in
  Ok {| w_tenant_id := tenant_id; w_run_id := run_id; w_attempt_id := attempt_id;
        w_queue_attempt_id := leased_attempt_id;
        w_owner_id := if str_truthy owner then owner else IN_PROCESS; w_queue_lease := queue_lease;
        w_reconciliation_lease_id := reconciliation_lease_id;
        w_reconciliation_claim_token := reconciliation_claim_token;
        w_reconciliation_owner_generation := owner_generation; w_reconciliation_scope := scope;
        w_reconciliation_owner_bound := false |}.

Definition restore_attempt w p : res attempt_row :=
  match w_reconciliation_lease_id w with
  | None => Raise "run_attempt_reconciliation_authority_missing"
  | Some lease_id =>
      let! row := restore_reconciliation (w_tenant_id w) (w_run_id w) (w_attempt_id w) lease_id
                    (default "" (w_reconciliation_claim_token w)) (w_reconciliation_owner_generation w)
                    (w_reconciliation_scope w) p in
      raise! "run_attempt_reconciliation_owner_stale" when
        w_reconciliation_owner_bound w
        && (negb (String.eqb (a_queue_attempt_id row) (w_queue_attempt_id w))
            || negb (String.eqb (a_owner_id row) (w_owner_id w)));
      Ok row
  end.

Definition restore_reconciliation_authority w p : res worker :=
  raise! "executor_reconciliation_claim_missing" when negb (is_reconciliation w);
  let! row := restore_attempt w p in
  Ok {| w_tenant_id := w_tenant_id w; w_run_id := w_run_id w; w_attempt_id := w_attempt_id w;
        w_queue_attempt_id := a_queue_attempt_id row; w_owner_id := a_owner_id row;
        w_queue_lease := w_queue_lease w; w_reconciliation_lease_id := w_reconciliation_lease_id w;
        w_reconciliation_claim_token := w_reconciliation_claim_token w;
        w_reconciliation_owner_generation := w_reconciliation_owner_generation w;
        w_reconciliation_scope := w_reconciliation_scope w; w_reconciliation_owner_bound := true |}.

Definition bind_execution_spec (now : Z) w (spec : execution_spec) p : res (pdb O * attempt_row) :=
  raise! "run_attempt_reconciliation_must_restore_spec" when is_reconciliation w;
  let! '(p, attempt) :=
    with_attempts (start_worker_run_attempt sha256_hex now (w_tenant_id w) (w_run_id w)
      (w_queue_attempt_id w) (w_owner_id w) spec (wq_queue_message_id <$> w_queue_lease w)
      (wq_lease_expires_at <$> w_queue_lease w) (wq_last_heartbeat_at <$> w_queue_lease w)) p in
  raise! "run_attempt_identity_derivation_mismatch" when negb (String.eqb (a_id attempt) (w_attempt_id w));
  Ok (p, attempt).

Definition lock_run w p : res prun :=
  match get_run (w_tenant_id w) (w_run_id w) p with
  | Some run => Ok run
  | None => Raise "run_attempt_parent_missing"
  end.

Definition observed_terminal_progress (run : prun) (requested_status : string) : option progress :=
  if str_in (pr_status run) ["succeeded"; "failed"; "cancelled"]
  then Some (RunTerminalizationProgress (String.eqb (pr_status run) requested_status)
               (Some (pr_status run)) false)
  else None.

Definition current_attempt w p : res (option attempt_row) :=
  if is_reconciliation w then let! row := restore_attempt w p in Ok (Some row)
  else assert_worker_run_attempt_current (w_tenant_id w) (w_run_id w) (w_queue_attempt_id w) (w_owner_id w)
         (attempt_view p).

Definition record_diagnostics w (attempt : option attempt_row) (error_code : string)
    (result_json : option pydict) p : res (pdb O * option pydict) :=
  match record_result_diagnostics with
  | None => Ok (p, result_json)
  | Some port =>
      let! '(o, result_json) :=
        port (w_tenant_id w) (w_run_id w) (a_id <$> attempt) "worker_executor" "terminalization"
          error_code result_json p in
      Ok (set_outside o p, result_json)
  end.

(** The attempt ends with its run. *)
Definition terminalize_current (now : Z) w (attempt : option attempt_row) (ended : bool)
    (status terminal_reason : string) (error_code : option string) p : res (pdb O) :=
  match attempt with
  | Some attempt =>
      if ended then
        let! '(p, _) := terminalize sha256_hex now (w_tenant_id w) (w_run_id w) (a_id attempt) status
                          terminal_reason error_code p in Ok p
      else Ok p
  | None => Ok p
  end.

Definition worker_complete (now : Z) w (result_json : pydict) p : res (pdb O * bool) :=
  let! run := lock_run w p in
  match observed_terminal_progress run "succeeded" with
  | Some observed => Ok (p, completed observed)
  | None =>
      let! attempt := current_attempt w p in
      let! '(p, result_json) := record_diagnostics w attempt "executor_diagnostics" (Some result_json) p in
      let! '(p, done) := complete_run_with_v4 now (w_tenant_id w) (w_run_id w) (default [] result_json) p in
      let! p := terminalize_current now w attempt done "succeeded" "run_succeeded" None p in
      Ok (p, done)
  end.

Definition worker_fail (now : Z) w (error_code error_message : string) (result_json : option pydict) p
    : res (pdb O * bool) :=
  let! run := lock_run w p in
  match observed_terminal_progress run "failed" with
  | Some observed => Ok (p, completed observed)
  | None =>
      let! attempt := current_attempt w p in
      let! '(p, result_json) := record_diagnostics w attempt error_code result_json p in
      let! '(p, g) := fail_run_with_v4 now (w_tenant_id w) (w_run_id w) error_code error_message
                        result_json "run_failed" p in
      let ended := progress_is_terminal (Some "failed") g in
      let! p := terminalize_current now w attempt ended "failed" "run_failed" (Some error_code) p in
      Ok (p, ended)
  end.

Definition bind_undispatched_cancel_generation w (owner_generation : pyval) p : res Z :=
  let! run := lock_run w p in
  let! attempt := current_attempt w p in
  match attempt, owner_generation with
  | Some attempt, PInt generation =>
      raise! "run_attempt_cancel_continuation_stale" when
        is_reconciliation w || negb (String.eqb (pr_status run) "running")
        || bool_decide (pr_cancel_requested_at run = None)
        || negb (String.eqb (a_status attempt) "cancel_requested")
        || negb (a_owner_generation attempt =? generation + 1);
      Ok (a_owner_generation attempt)
  | _, _ => Raise "run_attempt_cancel_continuation_stale"
  end.

Definition worker_cancel (now : Z) w (result_json : option pydict) p : res (pdb O * bool) :=
  let! run := lock_run w p in
  match observed_terminal_progress run "cancelled" with
  | Some observed => Ok (p, completed observed)
  | None =>
      let! attempt := current_attempt w p in
      let! '(p, attempt) :=
        match attempt with
        | Some attempt =>
            with_attempts (request_run_attempt_cancel sha256_hex now (w_tenant_id w) (w_run_id w)
                             (a_id attempt) None None) p
        | None => Ok (p, None)
        end in
      let! '(p, result_json) :=
        match result_json with
        | Some d =>
            if has_key "runtime_diagnostics" d
            then record_diagnostics w attempt (py_str (py_or (get "error_code" d) (PStr "executor_cancelled")))
                   (Some d) p
            else Ok (p, result_json)
        | None => Ok (p, None)
        end in
      let! '(p, g) := cancel_run_with_v4 now (w_tenant_id w) (w_run_id w) result_json p in
      let ended := progress_is_terminal (Some "cancelled") g in
      let! p := terminalize_current now w attempt ended "cancelled" "run_cancelled" None p in
      Ok (p, ended)
  end.

(** ** Binding from a queue payload *)

Record worker_payload := WorkerPayload {
  wp_tenant_id : string; wp_run_id : string; wp_workspace_id : string; wp_user_id : string;
  wp_session_id : string; wp_agent_id : string
}.
(** The lease row of a reconciliation, as the executor reconciler read it. *)
Record lease_row := LeaseRow {
  lr_id : string; lr_tenant_id : string; lr_run_id : string; lr_workspace_id : string;
  lr_user_id : string; lr_session_id : string; lr_attempt_id : option string; lr_payload : pyval
}.

Definition bind_worker_attempt_lifecycle (payload : worker_payload) (leased_attempt_id : string)
    (worker_id : option string) (reconciliation : option (lease_row * string))
    (queue_lease : option worker_queue_lease) : res worker :=
  match reconciliation with
  | None =>
      from_leased_attempt (wp_tenant_id payload) (wp_run_id payload) leased_attempt_id worker_id false
        queue_lease None None PNone (RunScope "" "" "" "")
  | Some (row, claim_token) =>
      raise! "run_attempt_reconciliation_scope_invalid" when
        negb (String.eqb (lr_tenant_id row) (wp_tenant_id payload)
              && String.eqb (lr_run_id row) (wp_run_id payload)
              && String.eqb (lr_workspace_id row) (wp_workspace_id payload)
              && String.eqb (lr_user_id row) (wp_user_id payload)
              && String.eqb (lr_session_id row) (wp_session_id payload));
      raise! "run_attempt_reconciliation_scope_invalid" when
        negb (bool_decide (lr_attempt_id row = Some leased_attempt_id));
      from_leased_attempt (wp_tenant_id payload) (wp_run_id payload) leased_attempt_id worker_id true
        queue_lease (Some (lr_id row)) (Some claim_token) (dict_get "owner_generation" (lr_payload row))
        (RunScope (wp_workspace_id payload) (wp_user_id payload) (wp_session_id payload)
           (wp_agent_id payload))
  end.

End Worker.
