(* ===== verification/Cancellation.v ===== *)
(** * Cancellation requests

    [src/app/runs/application/cancellation.py] and the adapter
    [PostgresRunCancellationPersistence] of [src/app/runs/infrastructure/postgres.py]:
    the owner or an administrator asks for the end of a run.  A queued run without an
    attempt ends at once; otherwise the request is recorded, the attempt is told, and
    its owner settles the run.  After the transaction the queue and the sandbox are
    cleaned up ([post_cancel]). *)
From stdpp Require Import base gmap list strings.
From Stdlib Require Import ZArith Lia Ascii.
From S2P Require Import Prelude PyValue RunAttempt RunLifecycle Platform.
#[local] Open Scope py_scope.

Record cancel_authority := CancelRequestAuthority {
  ca_run_id : string; ca_attempt_id : option string; ca_prior_status : string;
  ca_trace_ref : option string; ca_target_user_id : string; ca_actor_user_id : string;
  ca_requested_by_role : string; ca_source : string; ca_newly_requested : bool
}.
Record cancel_result := CancelRequestResult {
  cr_run_id : string; cr_status : string; cr_trace_ref : option string;
  cr_active_sandbox_leases : list sandbox_lease; cr_progress : option progress;
  cr_attempt_id : option string
}.

Section Cancellation.
Context `{PyRuntime} `{LifecyclePorts} {O : Type} `{PlatformPorts O} (sha256_hex : string → string).
Implicit Types (p : pdb O).

(** ** The adapter *)

(** [sandbox_leases] rows of a run that are active, in the order of creation. *)
Definition list_active_sandbox_leases_for_run (tenant_id run_id : string) p : list sandbox_lease :=
  List.filter (fun s => String.eqb (sl_tenant_id s) tenant_id && String.eqb (sl_run_id s) run_id
                        && String.eqb (sl_status s) "active") (pd_leases p).
Definition has_active_lease (tenant_id run_id : string) p : bool :=
  match list_active_sandbox_leases_for_run tenant_id run_id p with [] => false | _ => true end.

(** The run a request may touch; the owner only their own. *)
Definition eligible_run (tenant_id run_id : string) (owner : option string) p : option prun :=
  match get_run tenant_id run_id p with
  | Some r =>
      if match owner with Some u => bool_decide (pr_user_id r = Some u) | None => true end
         && (str_in (pr_status r) ["queued"; "running"]
             || (String.eqb (pr_status r) "cancelled" && has_active_lease tenant_id run_id p))
      then Some r else None
  | None => None
  end.

(** [cancel_requested_at] and [cancel_requested_by] keep their first values. *)
Definition mark_cancel_requested (now : Z) (actor : string) (r : prun) : prun :=
  let l := pr_life r in
  {| pr_life :=
       {| l_status := l_status l; l_user_id := l_user_id l; l_trace_id := l_trace_id l;
          l_result_json := l_result_json l; l_error_code := l_error_code l;
          l_error_message := l_error_message l; l_observed := l_observed l; l_finished_at := l_finished_at l;
          l_cancel_requested_at := Some (default now (l_cancel_requested_at l));
          l_target := l_target l; l_reason := l_reason l; l_staged_result := l_staged_result l;
          l_staged_error_code := l_staged_error_code l; l_staged_error_message := l_staged_error_message l |};
     pr_workspace_id := pr_workspace_id r; pr_session_id := pr_session_id r; pr_agent_id := pr_agent_id r;
     pr_execution_kind := pr_execution_kind r; pr_skill_id := pr_skill_id r;
     pr_cancel_requested_by := Some (default actor (pr_cancel_requested_by r));
     pr_created_at := pr_created_at r; pr_queued_at := pr_queued_at r; pr_started_at := pr_started_at r |}.

Definition cancel_event (tenant_id run_id message : string) (r : prun) (payload : pydict) : run_event :=
  {| e_tenant_id := tenant_id; e_run_id := run_id; e_trace_id := Some (l_trace_id (pr_life r));
     e_type := "cancel_requested"; e_stage := "control"; e_message := message; e_payload := payload;
     e_visible_to_user := None; e_error_code := None; e_observed := None |}.

(** What both requests do once the run is eligible. *)
Definition record_request (now : Z) (tenant_id run_id actor message : string) (payload : pydict)
    (r : prun) p : res (pdb O * option string) :=
  let newly := bool_decide (pr_cancel_requested_at r = None) in
  let p := set_pd_runs <[(tenant_id, run_id) := mark_cancel_requested now actor r]> p in
  let attempt_id := a_id <$> get_latest_run_attempt tenant_id run_id (attempt_view p) in
  let p := if newly then add_event now (cancel_event tenant_id run_id message r payload) p else p in
  let target_status := if String.eqb (pr_status r) "queued" then "cancelled" else "cancel_requested" in
  let! p :=
    match attempt_id with
    | Some attempt_id =>
        if String.eqb target_status "cancel_requested" then
          let! '(p, _) := with_attempts (request_run_attempt_cancel sha256_hex now tenant_id run_id
                                           attempt_id None None) p in Ok p
        else Ok p
    | None => Ok p
    end in
  let! '(p, _) := with_life now (stage_run_terminalization tenant_id run_id target_status
                                   "run_cancel_requested" None None None) p in
  Ok (p, attempt_id).

Definition trace_ref_of (r : prun) : option string :=
  if str_truthy (l_trace_id (pr_life r)) then Some (l_trace_id (pr_life r)) else None.

Definition begin_owner_request (now : Z) (tenant_id run_id owner_user_id : string) p
    : res (pdb O * option cancel_authority) :=
  match eligible_run tenant_id run_id (Some owner_user_id) p with
  | None => Ok (p, None)
  | Some r =>
      let! '(p, attempt_id) :=
        record_request now tenant_id run_id owner_user_id "已请求取消"
          [("visible_to_user", PBool true); ("severity", PStr "warning"); ("requested_by", PStr owner_user_id)]
          r p in
      Ok (p, Some {| ca_run_id := run_id; ca_attempt_id := attempt_id; ca_prior_status := pr_status r;
                     ca_trace_ref := trace_ref_of r; ca_target_user_id := owner_user_id;
                     ca_actor_user_id := owner_user_id; ca_requested_by_role := "owner"; ca_source := "user";
                     ca_newly_requested := bool_decide (pr_cancel_requested_at r = None) |})
  end.

Definition begin_admin_request (now : Z) (tenant_id run_id admin_user_id : string) p
    : res (pdb O * option cancel_authority) :=
  match eligible_run tenant_id run_id None p with
  | None => Ok (p, None)
  | Some r =>
      let! '(p, attempt_id) :=
        record_request now tenant_id run_id admin_user_id "管理员已请求取消"
          [("visible_to_user", PBool true); ("severity", PStr "warning"); ("requested_by", PStr admin_user_id);
           ("requested_by_role", PStr "admin"); ("target_user_id", opt_str (pr_user_id r))] r p in
      Ok (p, Some {| ca_run_id := run_id; ca_attempt_id := attempt_id; ca_prior_status := pr_status r;
                     ca_trace_ref := trace_ref_of r; ca_target_user_id := py_str (opt_str (pr_user_id r));
                     ca_actor_user_id := admin_user_id; ca_requested_by_role := "admin"; ca_source := "system";
                     ca_newly_requested := bool_decide (pr_cancel_requested_at r = None) |})
  end.

Definition cancel_audit (tenant_id : string) (authority : cancel_authority) (status : string) : audit_record :=
  let admin := String.eqb (ca_requested_by_role authority) "admin" in
  {| au_tenant_id := tenant_id; au_user_id := Some (ca_actor_user_id authority);
     au_action := if admin then "admin.run.cancel" else "run.cancel"; au_target_id := ca_run_id authority;
     au_trace_id := ca_trace_ref authority;
     au_payload :=
       if admin then [("run_id", PStr (ca_run_id authority));
                      ("target_user_id", PStr (ca_target_user_id authority)); ("result_status", PStr status)]
       else [("run_id", PStr (ca_run_id authority)); ("result_status", PStr status);
             ("requested_by_role", PStr "owner")] |}.

Definition finish_request (now : Z) (tenant_id : string) (authority : cancel_authority) (g : option progress) p
    : res (pdb O * cancel_result) :=
  let terminal_as s := match g with Some g => progress_is_terminal s g | None => false end in
  let! p :=
    match ca_attempt_id authority with
    | Some attempt_id =>
        if terminal_as (Some "cancelled") then
          let! '(p, _) := terminalize sha256_hex now tenant_id (ca_run_id authority) attempt_id "cancelled"
                            "run_cancelled" None p in Ok p
        else Ok p
    | None => Ok p
    end in
  let active_leases := list_active_sandbox_leases_for_run tenant_id (ca_run_id authority) p in
  let status :=
    if terminal_as None then match g with Some g => default "" (p_status g) | None => "" end
    else if String.eqb (ca_prior_status authority) "cancelled" then "cancelled" else "cancel_requested" in
  let p := add_audit (cancel_audit tenant_id authority status) p in
  Ok (p, {| cr_run_id := ca_run_id authority; cr_status := status; cr_trace_ref := ca_trace_ref authority;
            cr_active_sandbox_leases := active_leases; cr_progress := g;
            cr_attempt_id := ca_attempt_id authority |}).

(** ** The use case *)

Definition finish_authorized_request (now : Z) (tenant_id : string) (authority : option cancel_authority) p
    : res (pdb O * option cancel_result) :=
  match authority with
  | None => Ok (p, None)
  | Some authority =>
      let run_id := ca_run_id authority in
      let! p :=
        match ca_attempt_id authority with
        | Some attempt_id => call_port (prepare_pending_authority tenant_id run_id attempt_id) p
        | None => Ok p
        end in
      let! p :=
        if ca_newly_requested authority
        then call_port (append_cancel_requested tenant_id run_id (ca_source authority) (ca_trace_ref authority)) p
        else Ok p in
      let! '(p, g) :=
        if String.eqb (ca_prior_status authority) "queued" && bool_decide (ca_attempt_id authority = None)
        then progress_run_terminalization_with_context now tenant_id run_id p
        else Ok (p, None) in
      let! p :=
        if match g with Some g => did_transition g | None => false end
        then call_port (append_cancel_terminal tenant_id run_id) p else Ok p in
      let! '(p, result) := finish_request now tenant_id authority g p in
      Ok (p, Some result)
  end.

Definition request_owner_cancel (now : Z) (tenant_id run_id owner_user_id : string) p
    : res (pdb O * option cancel_result) :=
  let! '(p, authority) := begin_owner_request now tenant_id run_id owner_user_id p in
  finish_authorized_request now tenant_id authority p.

Definition request_admin_cancel (now : Z) (tenant_id run_id admin_user_id : string) p
    : res (pdb O * option cancel_result) :=
  let! '(p, authority) := begin_admin_request now tenant_id run_id admin_user_id p in
  finish_authorized_request now tenant_id authority p.

End Cancellation.

(** ** After the transaction *)

(** The dictionary a route returns. *)
Record route_result := RouteResult {
  rr_run_id : string; rr_status : string; rr_progress : option progress;
  rr_leases : option (option string * list sandbox_lease)
}.
Definition as_route_result (c : cancel_result) : route_result :=
  {| rr_run_id := cr_run_id c; rr_status := cr_status c;
     rr_progress := match cr_progress c with
                    | Some g => if did_transition g then Some g else None
                    | None => None
                    end;
     rr_leases := match cr_active_sandbox_leases c with
                  | [] => None
                  | leases => Some (cr_trace_ref c, leases)
                  end |}.

Inductive post_call :=
| AdmitStream (run_id attempt_id : string)
| PublishEvent (run_id : string)
| QueueCleanup (run_id : string)
| SandboxCleanup (run_id : string) (leases : option (option string * list sandbox_lease))
| Warn (message run_id : string).

(** The calls [post_cancel] makes, in order, and what it returns; the arguments are
    the outcomes of the four services. *)
Definition post_cancel (admit_stream publish_event queue_cleanup sandbox_cleanup : res unit)
    (cancellation : option cancel_result) : list post_call * res (option route_result) :=
  match cancellation with
  | None => ([], Ok None)
  | Some c =>
      let run_id := cr_run_id c in
      let attempt_id := default "" (cr_attempt_id c) in
      let guarded call outcome message :=
        if str_truthy attempt_id then
          call :: match outcome with Raise _ => [Warn message run_id] | Ok _ => [] end
        else [] in
      let admitted := guarded (AdmitStream run_id attempt_id) admit_stream "Cancellation v4 admission deferred" in
      let result := as_route_result c in
      let result := RouteResult (rr_run_id result) (rr_status result) None (rr_leases result) in
      let published :=
        guarded (PublishEvent run_id) publish_event "Cancellation v4 terminal publication deferred" in
      if String.eqb (rr_status result) "cancelled" then
        let calls := admitted ++ published ++ [QueueCleanup run_id; SandboxCleanup run_id (rr_leases result)] in
        match sandbox_cleanup, queue_cleanup with
        | Raise e, _ => (calls, Raise e)
        | Ok _, Raise _ => (calls, Raise "queue_cleanup_failed")
        | Ok _, Ok _ => (calls, Ok (Some result))
        end
      else (admitted ++ published, Ok (Some result))
  end.
