(* ===== verification/StaleReconciliation.v ===== *)
(** * Runs without an owner

    A worker that disappears leaves its run open.
    - [src/app/runs/infrastructure/lifecycle_postgres.py] lists the candidates,
      [src/app/execution/application/stale_terminalization.py] stages the end of one,
      and [src/app/worker_main.py] drives both under a fence of the queue
      ([reconcile_stale_runs_for_worker]).
    - [_terminalize_escaped_process_exception] of [src/app/worker_main.py] ends the run
      of a worker whose processing raised, and
      [_terminalize_reconciliation_failure] of [src/app/executor_reconciler.py] ends a
      run whose executor receipt could not be settled.

    Times are microseconds.  The order of text columns is a parameter (the collation of
    the database). *)
From stdpp Require Import base gmap list strings.
From Stdlib Require Import ZArith Lia Ascii.
From S2P Require Import Prelude PyValue RunAttempt RunLifecycle Platform WorkerLifecycle Cancellation.
#[local] Open Scope py_scope.

Definition SECOND : Z := 1000000.
Definition CANCEL_REQUESTED_ORPHAN_RECONCILIATION_SECONDS : Z := 5.

Section Stale.
Context `{PyRuntime} `{LifecyclePorts} {O : Type} `{PlatformPorts O} (sha256_hex : string → string).
Implicit Types (p : pdb O).

(** ** Candidates *)

Definition max_opt (a : option Z) (b : Z) : Z := match a with Some x => Z.max x b | None => b end.

(** The latest event of a run, stream rows included. *)
Definition latest_event (tenant_id run_id : string) p : option Z :=
  fold_left (fun best te =>
    if String.eqb (e_tenant_id te.2) tenant_id && String.eqb (e_run_id te.2) run_id
    then Some (max_opt best te.1) else best)
    (pd_events p) (stream_events_latest tenant_id run_id (pd_outside p)).

(** [greatest(latest event, started_at, queued_at, created_at)]. *)
Definition run_last_activity (tenant_id run_id : string) (r : prun) p : Z :=
  max_opt (latest_event tenant_id run_id p)
    (max_opt (pr_started_at r) (max_opt (pr_queued_at r) (pr_created_at r))).

Record stale_candidate := StaleCandidate {
  sc_tenant_id : string; sc_workspace : string; sc_user : option string; sc_run_id : string;
  sc_status : string; sc_cancel_requested_at : option Z; sc_stale_before : Z
}.

Definition is_candidate (clock stale_after cancel_after : Z) (k : run_key) (r : prun) p : bool :=
  str_in (pr_status r) ["queued"; "running"]
  && match pr_cancel_requested_at r with
     | Some at_ => at_ <=? clock - cancel_after * SECOND
     | None => run_last_activity k.1 k.2 r p <=? clock - stale_after * SECOND
     end
  && negb (has_active_lease k.1 k.2 p).

Definition candidate_of (k : run_key) (r : prun) p : stale_candidate :=
  {| sc_tenant_id := k.1; sc_workspace := pr_workspace_id r; sc_user := pr_user_id r; sc_run_id := k.2;
     sc_status := pr_status r; sc_cancel_requested_at := pr_cancel_requested_at r;
     sc_stale_before := run_last_activity k.1 k.2 r p |}.

(** [order by stale_before, tenant_id, id]. *)
Definition candidate_le (text_le : string → string → bool) (a b : stale_candidate) : bool :=
  if sc_stale_before a =? sc_stale_before b then
    if String.eqb (sc_tenant_id a) (sc_tenant_id b) then text_le (sc_run_id a) (sc_run_id b)
    else text_le (sc_tenant_id a) (sc_tenant_id b)
  else sc_stale_before a <? sc_stale_before b.
Fixpoint insert_by {A} (le : A → A → bool) (x : A) (l : list A) : list A :=
  match l with
  | [] => [x]
  | y :: l' => if le x y then x :: l else y :: insert_by le x l'
  end.
Definition sort_by {A} (le : A → A → bool) (l : list A) : list A := foldr (insert_by le) [] l.

Definition list_stale_run_reconciliation_candidates (text_le : string → string → bool) (clock : Z)
    (stale_after_seconds : Z) (cancel_requested_after_seconds : option Z) (limit : Z) p
    : list stale_candidate :=
  let bounded_staleness := Z.max stale_after_seconds 1 in
  let bounded_cancel_staleness := Z.max (default bounded_staleness cancel_requested_after_seconds) 1 in
  let bounded_limit := Z.max 1 (Z.min limit 50) in
  let rows := List.filter (fun kr => is_candidate clock bounded_staleness bounded_cancel_staleness kr.1 kr.2 p)
                (map_to_list (pd_runs p)) in
  take (Z.to_nat bounded_limit)
    (sort_by (candidate_le text_le) ((fun kr => candidate_of kr.1 kr.2 p) <$> rows)).

(** ** Staging *)

Definition unsettled_receipt (tenant_id run_id : string) p : bool :=
  existsb (fun s => String.eqb (sl_tenant_id s) tenant_id && String.eqb (sl_run_id s) run_id
                    && sl_terminal_received s && negb (String.eqb (sl_reconciliation_status s) "finalized"))
    (pd_leases p).

(** The [where] clause of the compare-and-set. *)
Definition stale_matches (tenant_id workspace_id : string) (user_id : option string) (run_id expected_status : string)
    (stale_before : Z) (cancel_requested_before : option Z) (terminal_status : string) (r : prun) p : bool :=
  String.eqb (pr_workspace_id r) workspace_id && bool_decide (pr_user_id r = user_id)
  && String.eqb (pr_status r) expected_status && bool_decide (pr_target r = None)
  && (negb (String.eqb terminal_status "cancelled") || negb (bool_decide (pr_cancel_requested_at r = None)))
  && (negb (String.eqb terminal_status "failed") || bool_decide (pr_cancel_requested_at r = None))
  && negb (has_active_lease tenant_id run_id p) && negb (unsettled_receipt tenant_id run_id p)
  && ((String.eqb terminal_status "cancelled"
       && match pr_cancel_requested_at r, cancel_requested_before with
          | Some a, Some b => a <=? b
          | _, _ => false
          end)
      || (String.eqb terminal_status "failed" && (run_last_activity tenant_id run_id r p <=? stale_before))).

Definition set_staging (target reason : string) (result : pydict) (code message : option string) (r : prun) : prun :=
  let l := pr_life r in
  put_life
    {| l_status := l_status l; l_user_id := l_user_id l; l_trace_id := l_trace_id l;
       l_result_json := l_result_json l; l_error_code := l_error_code l; l_error_message := l_error_message l;
       l_observed := l_observed l; l_finished_at := l_finished_at l;
       l_cancel_requested_at := l_cancel_requested_at l; l_target := Some target; l_reason := reason;
       l_staged_result := result; l_staged_error_code := code; l_staged_error_message := message |} r.

Definition stale_result (terminal_status : string) : pydict :=
  if String.eqb terminal_status "cancelled"
  then [("message", PStr "任务已取消"); ("reconciliation_reason", PStr "stale_run_no_owner")]
  else [("message", PStr "Run interrupted because no live execution owner remains.");
        ("retryable", PBool true); ("reconciliation_reason", PStr "stale_run_no_owner")].

Definition stale_event (tenant_id run_id terminal_status : string) (code : option string) (r : prun) : run_event :=
  let cancelled := String.eqb terminal_status "cancelled" in
  {| e_tenant_id := tenant_id; e_run_id := run_id; e_trace_id := Some (l_trace_id (pr_life r));
     e_type := "stale_run_reconciled"; e_stage := "worker_maintenance";
     e_message := if cancelled then "任务取消请求已在执行器丢失后收口" else "任务因执行器丢失而中断";
     e_payload :=
       [("visible_to_user", PBool true); ("severity", PStr (if cancelled then "warning" else "error"));
        ("result_status", PStr terminal_status); ("reason", PStr "stale_run_no_owner")]
       ++ match code with Some c => if str_truthy c then [("error_code", PStr c)] else [] | None => [] end;
     e_visible_to_user := None; e_error_code := code; e_observed := None |}.

Definition stage_stale_run_reconciliation (now : Z) (tenant_id workspace_id : string) (user_id : option string)
    (run_id expected_status : string) (stale_before : Z) (cancel_requested_before : option Z)
    (terminal_status : string) (error_code error_message : option string) p : res (pdb O * bool) :=
  raise! "invalid_stale_run_expected_status" when negb (str_in expected_status ["queued"; "running"]);
  raise! "invalid_stale_run_terminal_status" when negb (str_in terminal_status ["failed"; "cancelled"]);
  match get_run tenant_id run_id p with
  | Some r =>
      if stale_matches tenant_id workspace_id user_id run_id expected_status stale_before
           cancel_requested_before terminal_status r p then
        let p := set_pd_runs <[(tenant_id, run_id) :=
                   set_staging terminal_status "stale_run_no_owner" (stale_result terminal_status)
                     error_code error_message r]> p in
        let p := add_event now (stale_event tenant_id run_id terminal_status error_code r) p in
        let p := add_audit
          {| au_tenant_id := tenant_id; au_user_id := None; au_action := "run.stale.reconcile";
             au_target_id := run_id; au_trace_id := Some (l_trace_id (pr_life r));
             au_payload := [("workspace_id", PStr workspace_id); ("target_user_id", opt_str user_id);
                            ("expected_status", PStr expected_status); ("result_status", PStr terminal_status);
                            ("reason", PStr "stale_run_no_owner"); ("error_code", opt_str error_code)] |} p in
        Ok (p, true)
      else Ok (p, false)
  | None => Ok (p, false)
  end.

(** ** The sweep *)

Record sweep_result := SweepResult {
  sr_tenant_id : string; sr_run_id : string; sr_status : option string; sr_did_transition : bool
}.

(** The fence of one candidate: acquiring it raises, finds the run owned, or succeeds
    and stays valid until a check of the guard fails; a lost fence stays lost. *)
Inductive fence_outcome := FenceUnknown | FenceOwned | FenceHeld (lost_at : option nat).
Definition live (lost_at : option nat) (check : nat) : bool :=
  match lost_at with None => true | Some n => Nat.ltb check n end.

Definition reconciler_id : string := "stale-run-maintenance".

(** The first transaction: stage the end, then take the attempt over. *)
Definition stage_candidate (now : Z) (c : stale_candidate) p : res (pdb O * (bool * option string)) :=
  let terminal_status := if bool_decide (sc_cancel_requested_at c = None) then "failed" else "cancelled" in
  let cancelled := String.eqb terminal_status "cancelled" in
  let! '(p, staged) :=
    stage_stale_run_reconciliation now (sc_tenant_id c) (sc_workspace c) (sc_user c) (sc_run_id c)
      (sc_status c) (sc_stale_before c) (sc_cancel_requested_at c) terminal_status
      (if cancelled then None else Some "stale_run_interrupted")
      (if cancelled then None else Some "Run interrupted because no live execution owner remains.") p in
  if staged then
    let! '(p, attempt) :=
      with_attempts (prepare_stale_run_attempt_reconciliation sha256_hex now (sc_tenant_id c) (sc_run_id c)
                       terminal_status reconciler_id) p in
    Ok (p, (true, a_id <$> attempt))
  else Ok (p, (false, None)).

(** One candidate.  The fence is checked on entering the guard (0), before and after
    each transaction (1, 2 and 4, 5), between and after them (3, 6) and before the
    release (7); a failed check rolls the transaction it belongs to back. *)
Definition reconcile_candidate (now1 now2 : Z) (fence : fence_outcome) (c : stale_candidate) p
    : pdb O * option sweep_result :=
  let result s := Some (SweepResult (sc_tenant_id c) (sc_run_id c) s false) in
  let terminal_status := if bool_decide (sc_cancel_requested_at c = None) then "failed" else "cancelled" in
  if negb (str_truthy (sc_tenant_id c)) || negb (str_truthy (sc_workspace c)) || negb (str_truthy (sc_run_id c))
     || negb (str_in (sc_status c) ["queued"; "running"]) then (p, None) else
  match fence with
  | FenceUnknown => (p, result (Some "owner_unknown"))
  | FenceOwned => (p, result (Some "owned"))
  | FenceHeld lost_at =>
      if negb (live lost_at 1) then (p, result (Some "fence_renewal_failed")) else
      match stage_candidate now1 c p with
      | Raise _ => (p, result (Some "db_unknown"))
      | Ok (p1, (staged, attempt_id)) =>
          if negb (live lost_at 2) then (p, result (Some "fence_renewal_failed")) else
          if negb staged then (p1, result (Some "cas_lost")) else
          if negb (live lost_at 4) then (p1, result (Some "fence_renewal_failed")) else
          match finish_run_terminalization sha256_hex now2 (sc_tenant_id c) (sc_run_id c) attempt_id
                  (if String.eqb terminal_status "cancelled" then None else Some "stale_run_interrupted") p1 with
          | Raise _ => (p1, result (Some "terminalization_unknown"))
          | Ok (p2, outcome) =>
              if negb (live lost_at 5) then (p1, result (Some "fence_renewal_failed")) else
              if negb (live lost_at 6) then (p2, result (Some "fence_renewal_failed")) else
              if match outcome with Some g => completed g && progress_is_terminal None g | None => false end
                 && negb (live lost_at 7)
              then (p2, result (Some "fence_renewal_failed"))
              else (p2, Some (SweepResult (sc_tenant_id c) (sc_run_id c)
                          (match outcome with Some g => p_status g | None => Some terminal_status end)
                          (match outcome with Some g => did_transition g | None => false end)))
          end
      end
  end.

(** ** Runs whose processing raised *)

Record worker_outcome := WorkerOutcome {
  wo_status : string; wo_run_id : option string; wo_error_code : option string; wo_error_message : option string
}.

Definition or_text (s dflt : string) : string := if str_truthy s then s else dflt.

(** The identity a queue payload claims. *)
Record payload_identity := PayloadIdentity {
  pi_tenant_id : string; pi_workspace_id : string; pi_user_id : string; pi_session_id : string;
  pi_run_id : string; pi_agent_id : string; pi_execution_kind : string; pi_skill_id : string
}.
Definition locked_identity (tenant_id run_id : string) (r : prun) : payload_identity :=
  {| pi_tenant_id := tenant_id; pi_workspace_id := pr_workspace_id r; pi_user_id := default "" (pr_user_id r);
     pi_session_id := pr_session_id r; pi_run_id := run_id; pi_agent_id := pr_agent_id r;
     pi_execution_kind := or_text (pr_execution_kind r) "skill"; pi_skill_id := default "" (pr_skill_id r) |}.
#[global] Instance payload_identity_eq_dec : EqDecision payload_identity.
Proof. solve_decision. Defined.

Definition cancel_recorded (r : prun) : bool :=
  negb (bool_decide (pr_cancel_requested_at r = None))
  || str_in (default "" (pr_target r)) ["cancel_requested"; "cancelled"].

Definition queue_ownership_lost_outcome (run_id : string) : worker_outcome :=
  WorkerOutcome "ownership_lost" (Some run_id) (Some "queue_ownership_lost")
    (Some "Queue execution ownership was lost.").

(** The transaction that ends the run of a worker whose processing raised: an outcome
    at once, or the attempt and how far the end of the run got. *)
Definition escaped_transaction (now : Z) (payload : payload_identity) (queue_attempt_id attempt_id worker_id
    message : string) (evidence : pydict) p : res (pdb O * (worker_outcome + string * progress)) :=
  let error_code := "worker_process_exception" in
  let tenant_id := pi_tenant_id payload in
  let run_id := pi_run_id payload in
  let dead := WorkerOutcome "dead_letter" (Some run_id) (Some error_code) (Some message) in
  match get_run tenant_id run_id p with
  | None => Ok (p, inl dead)
  | Some locked =>
      if negb (bool_decide (locked_identity tenant_id run_id locked = payload)) then Ok (p, inl dead) else
      if str_in (pr_status locked) ["succeeded"; "failed"; "cancelled"] then
        Ok (p, inl (WorkerOutcome (pr_status locked) (Some run_id)
             (match l_error_code (pr_life locked) with Some c => if str_truthy c then Some c else None | None => None end)
             (let text := sanitize_text (l_error_message (pr_life locked)) in
              if str_truthy text then Some text else None)))
      else
      let! p := call_port (prepare_pending_authority tenant_id run_id attempt_id) p in
      let! authority := assert_worker_run_attempt_current tenant_id run_id queue_attempt_id worker_id
                          (attempt_view p) in
      match authority with
      | None => Ok (p, inl (queue_ownership_lost_outcome run_id))
      | Some attempt =>
          let! p :=
            match record_result_diagnostics with
            | None => Ok p
            | Some port =>
                let! '(o, _) := port tenant_id run_id (Some (a_id attempt)) "worker_escaped" "worker_process"
                                  error_code (Some evidence) p in
                Ok (set_outside o p)
            end in
          if cancel_recorded locked then
            let! '(p, _) := with_attempts (request_run_attempt_cancel sha256_hex now tenant_id run_id
                                             (a_id attempt) None None) p in
            let! '(p, g) := cancel_run_with_v4 now tenant_id run_id (Some [("message", PStr "任务已取消")]) p in
            Ok (p, inr (a_id attempt, g))
          else
            let! '(p, g) := fail_run_with_v4 now tenant_id run_id error_code message
                              (Some [("message", PStr "Worker processing failed unexpectedly.")]) "run_failed" p in
            Ok (p, inr (a_id attempt, g))
      end
  end.

(** [_terminalize_escaped_process_exception], two transactions: the database they leave
    and the outcome or the exception.  The arguments say what the queue knows: the
    parsed envelope if it parses, the raw run id, and whether the lease is owned. *)
Definition terminalize_escaped_process_exception (now1 now2 : Z) (envelope : option (payload_identity * string))
    (raw_run_id : option string) (owned : bool) (worker_id : string) (exception_text : option string)
    (evidence : pydict) p : pdb O * res worker_outcome :=
  let error_code := "worker_process_exception" in
  let message := or_text (sanitize_text exception_text) "Worker processing failed unexpectedly." in
  let dead run_id := WorkerOutcome "dead_letter" run_id (Some error_code) (Some message) in
  match envelope with
  | None => (p, Ok (dead raw_run_id))
  | Some (payload, queue_attempt_id) =>
      let tenant_id := pi_tenant_id payload in
      let run_id := pi_run_id payload in
      let outcome g :=
        match g with
        | Some g =>
            if progress_is_terminal None g then
              let failed := bool_decide (p_status g = Some "failed") in
              WorkerOutcome (default "" (p_status g)) (Some run_id)
                (if failed then Some error_code else None) (if failed then Some message else None)
            else dead (Some run_id)
        | None => dead (Some run_id)
        end in
      match run_attempt_id_for_queue_attempt sha256_hex tenant_id run_id queue_attempt_id with
      | Raise _ => (p, Ok (dead raw_run_id))
      | Ok attempt_id =>
          if negb owned then (p, Ok (queue_ownership_lost_outcome run_id)) else
          match escaped_transaction now1 payload queue_attempt_id attempt_id worker_id message evidence p with
          | Raise e => (p, Raise e)
          | Ok (p, inl done) => (p, Ok done)
          | Ok (p, inr (validated_attempt_id, g)) =>
              if progress_is_terminal None g then (p, Ok (outcome (Some g))) else
              match finish_run_terminalization sha256_hex now2 tenant_id run_id (Some validated_attempt_id)
                      (Some error_code) p with
              | Raise e => (p, Raise e)
              | Ok (p, g) => (p, Ok (outcome g))
              end
          end
      end
  end.

(** ** Receipts that cannot be settled *)

Definition has_sandbox_executor_reconciliation_claim (lease_id claim_token : string) p : bool :=
  existsb (fun s => String.eqb (sl_id s) lease_id && str_in (sl_status s) ["active"; "released"]
                    && String.eqb (sl_reconciliation_status s) "claimed"
                    && bool_decide (sl_claim_token s = Some claim_token)) (pd_leases p).

(** The first transaction of [_terminalize_reconciliation_failure].  [capture] is the
    diagnostics service, [continuation] the settlement to commit, with its port if one
    is configured.  The result is the progress and whether a cancel was recorded, or
    nothing when the run had ended or is gone. *)
Definition reconciliation_failure_transaction (now : Z) (tenant_id run_id lease_id : string)
    (attempt_id : option string) (claim_token : string) (capture : option (pdb O → res O))
    (continuation : option (option (string → pdb O → res O))) p
    : res (pdb O * option (progress * bool)) :=
  let run := get_run tenant_id run_id p in
  raise! "executor_reconciliation_claim_lost" when
    negb (has_sandbox_executor_reconciliation_claim lease_id claim_token p);
  match run with
  | None => Ok (p, None)
  | Some run =>
      let! p := match capture with Some f => call_port f p | None => Ok p end in
      if str_in (pr_status run) ["succeeded"; "failed"; "cancelled"] then Ok (p, None) else
      let cancel_requested := cancel_recorded run in
      let! p :=
        match continuation with
        | None => Ok p
        | Some ports =>
            match ports, attempt_id with
            | Some commit, Some _ => call_port (commit (if cancel_requested then "cancelled" else "failed")) p
            | _, _ => Raise "continuation_settlement_ports_unconfigured"
            end
        end in
      let! p :=
        match attempt_id with
        | Some attempt_id =>
            if cancel_requested then
              let! '(p, _) := with_attempts (request_run_attempt_cancel sha256_hex now tenant_id run_id
                                               attempt_id None None) p in Ok p
            else Ok p
        | None => Ok p
        end in
      let! '(p, g) :=
        if cancel_requested then cancel_run_with_v4 now tenant_id run_id (Some [("message", PStr "任务已取消")]) p
        else fail_run_with_v4 now tenant_id run_id "terminal_reconciliation_failed"
               "Executor terminal reconciliation could not be completed."
               (Some [("message", PStr "Executor terminal reconciliation could not be completed.")])
               "run_failed" p in
      let! p :=
        match attempt_id with
        | Some attempt_id =>
            if progress_is_terminal None g then
              let! '(p, _) :=
                terminalize sha256_hex now tenant_id run_id attempt_id (default "None" (p_status g))
                  (if bool_decide (p_status g = Some "cancelled") then "run_cancelled"
                   else "executor_terminal_reconciliation_failed")
                  (if bool_decide (p_status g = Some "failed") then Some "terminal_reconciliation_failed" else None)
                  p in Ok p
            else Ok p
        | None => Ok p
        end in
      Ok (p, Some (g, cancel_requested))
  end.

(** Two transactions: the database they leave, and the exception if there is one. *)
Definition terminalize_reconciliation_failure (now1 now2 : Z) (tenant_id run_id lease_id : string)
    (attempt_id : option string) (claim_token : string) (capture : option (pdb O → res O))
    (continuation : option (option (string → pdb O → res O))) p : pdb O * res unit :=
  match reconciliation_failure_transaction now1 tenant_id run_id lease_id attempt_id claim_token
          capture continuation p with
  | Raise e => (p, Raise e)
  | Ok (p, Some (g, cancel_requested)) =>
      if progress_is_terminal None g then (p, Ok tt)
      else match finish_run_terminalization sha256_hex now2 tenant_id run_id attempt_id
                   (if cancel_requested then None else Some "terminal_reconciliation_failed") p with
           | Raise e => (p, Raise e)
           | Ok (p, _) => (p, Ok tt)
           end
  | Ok (p, None) => (p, Ok tt)
  end.

End Stale.
