(* ===== verification/PlatformExample.v ===== *)
(** * A small database

    Concrete ports and a run that a worker binds, its owner cancels and the worker
    settles, for the examples. *)
From stdpp Require Import base gmap list strings.
From Stdlib Require Import ZArith Lia Ascii.
From S2P Require Import Prelude QueueRuntime PyValue RunAttempt RunAttemptFacts RunLifecycle Platform WorkerLifecycle Cancellation StaleReconciliation.
#[local] Open Scope py_scope.

#[export] Instance toy_lifecycle_ports : LifecyclePorts := {|
  validate_result_size := fun _ => Ok tt;
  sanitize_payload := fun v => v;
  sanitize_text := fun s => default ""%string s;
  make_trace_id := fun r => ("trace_" +:+ r)%string
|}.
#[export] Instance toy_platform_ports : PlatformPorts unit := {|
  release_provider_lineage := fun _ _ _ => Ok tt;
  finalize_terminal_transition := Some (fun _ _ _ => Ok tt);
  append_terminal_row := fun _ _ _ => Ok tt;
  append_cancel_requested := fun _ _ _ _ _ => Ok tt;
  append_cancel_terminal := fun _ _ _ => Ok tt;
  prepare_pending_authority := fun _ _ _ _ => Ok tt;
  stream_events_latest := fun _ _ _ => None;
  record_result_diagnostics := Some (fun _ _ _ _ _ _ result _ => Ok (tt, result));
  spec_binds := fun _ _ => true
|}.

Definition wit_prun : prun :=
  {| pr_life := {| l_status := "queued"; l_user_id := Some "u"; l_trace_id := "trace"; l_result_json := [];
                   l_error_code := None; l_error_message := None; l_observed := Observability None 0 0 0 0;
                   l_finished_at := None; l_cancel_requested_at := None; l_target := None; l_reason := "";
                   l_staged_result := []; l_staged_error_code := None; l_staged_error_message := None |};
     pr_workspace_id := "ws"; pr_session_id := "s"; pr_agent_id := "ag"; pr_execution_kind := "chat";
     pr_skill_id := None; pr_cancel_requested_by := None; pr_created_at := 1; pr_queued_at := Some 1;
     pr_started_at := None |}.
Definition wit_pdb : pdb unit :=
  {| pd_runs := {[ ("t", "r") := wit_prun ]}; pd_attempts := []; pd_steps := []; pd_artifacts := ∅;
     pd_events := []; pd_audit := []; pd_leases := []; pd_outside := tt |}.
Definition wit_worker : worker :=
  {| w_tenant_id := "t"; w_run_id := "r"; w_attempt_id := "rat_" +:+ toy_digest ("t" +:+ nul +:+ "r" +:+ nul +:+ "q");
     w_queue_attempt_id := "q"; w_owner_id := "w"; w_queue_lease := None; w_reconciliation_lease_id := None;
     w_reconciliation_claim_token := None; w_reconciliation_owner_generation := PNone;
     w_reconciliation_scope := RunScope "" "" "" ""; w_reconciliation_owner_bound := false |}.
Definition pdb_of {A} (m : res (pdb unit * A)) : pdb unit := match m with Ok (p, _) => p | Raise _ => wit_pdb end.

(** A worker binds, the owner asks for a cancellation, the worker settles it. *)
Definition wit_bound : pdb unit := pdb_of (bind_execution_spec toy_digest 5 wit_worker wit_spec wit_pdb).
Definition wit_asked : pdb unit := pdb_of (request_owner_cancel toy_digest 8 "t" "r" "u" wit_bound).
Definition wit_settled : pdb unit := pdb_of (worker_cancel toy_digest 9 wit_worker None wit_asked).

Lemma wit_bind_ok : ∃ a, bind_execution_spec toy_digest 5 wit_worker wit_spec wit_pdb = Ok (wit_bound, a).
Proof. eexists. vm_compute. reflexivity. Qed.
Lemma wit_ask_ok : ∃ c, request_owner_cancel toy_digest 8 "t" "r" "u" wit_bound = Ok (wit_asked, c).
Proof. eexists. vm_compute. reflexivity. Qed.
Lemma wit_settle_ok : worker_cancel toy_digest 9 wit_worker None wit_asked = Ok (wit_settled, true).
Proof. vm_compute. reflexivity. Qed.
