(* ===== verification/PlatformTrace.v ===== *)
(** * The platform as a transition system

    One step is one transaction of a use case: a worker binds its attempt, sends a
    heartbeat or ends the run, somebody asks for a cancellation, the reconciler stages
    or finishes an end, an executor receipt fails, or another module changes the rest
    of the database.  The theorems hold for every sequence of steps.  Two things are
    conditions on the callers rather than checks of the code: a worker that ends a run
    was admitted for it, and a caller that finishes a run names its attempt.  The handler
    of an exception that escaped a worker ([terminalize_escaped_process_exception] of
    [StaleReconciliation]) is left out of the steps, because it breaks what they keep;
    [OrphanedRuns] proves that it does. *)
From stdpp Require Import base gmap list strings.
From Stdlib Require Import ZArith Lia Ascii.
From S2P Require Import Prelude QueueRuntime PyValue RunAttempt RunAttemptFacts RunLifecycle RunLifecycleFacts Platform PlatformFacts WorkerLifecycle Cancellation StaleReconciliation.
#[local] Open Scope py_scope.

Section Trace.
Context `{PyRuntime} `{LifecyclePorts} {O : Type} `{PlatformPorts O} (sha256_hex : string → string).
Implicit Types (p : pdb O) (w : worker).
Notation joint_except := (joint_except sha256_hex).
Notation pjoint p := (joint_except None (attempt_view p)).

(** A worker was admitted for the run: if the run has an attempt, it is the worker's. *)
Definition admitted w p : Prop :=
  is_reconciliation w = false →
  ∀ a, a ∈ pd_attempts p → akey a = (w_tenant_id w, w_run_id w) → a_queue_attempt_id a = w_queue_attempt_id w.
(** A caller names the attempt of the run, if it has one. *)
Definition names_attempt (t r : string) (i : option string) p : Prop :=
  ∀ a, a ∈ pd_attempts p → akey a = (t, r) → i = Some (a_id a).

(** Transactions of other modules: they submit runs and change other tables, but
    neither attempts nor the status of a run nor a recorded cancel request. *)
Record outside_transaction p p' : Prop := {
  ot_attempts : pd_attempts p' = pd_attempts p;
  ot_runs : ∀ k r, pd_runs p !! k = Some r → ∃ r', pd_runs p' !! k = Some r' ∧
    pr_status r' = pr_status r ∧ pr_cancel_requested_at r' = pr_cancel_requested_at r
}.

Inductive platform_step : pdb O → pdb O → Prop :=
| ps_outside p p' : outside_transaction p p' → platform_step p p'
| ps_bind now w spec p p' a : bind_execution_spec sha256_hex now w spec p = Ok (p', a) → platform_step p p'
| ps_heartbeat now t r q m worker_id e h p p' a :
    with_attempts (heartbeat_worker sha256_hex now t r q m worker_id e h) p = Ok (p', a) → platform_step p p'
| ps_complete now w result p p' b :
    admitted w p → worker_complete sha256_hex now w result p = Ok (p', b) → platform_step p p'
| ps_fail now w code message result p p' b :
    admitted w p → worker_fail sha256_hex now w code message result p = Ok (p', b) → platform_step p p'
| ps_cancel now w result p p' b :
    admitted w p → worker_cancel sha256_hex now w result p = Ok (p', b) → platform_step p p'
| ps_owner_cancel now t r u p p' c : request_owner_cancel sha256_hex now t r u p = Ok (p', c) → platform_step p p'
| ps_admin_cancel now t r u p p' c : request_admin_cancel sha256_hex now t r u p = Ok (p', c) → platform_step p p'
| ps_stage_stale now c p p' out : stage_candidate sha256_hex now c p = Ok (p', out) → platform_step p p'
| ps_finish now t r i code p p' g :
    names_attempt t r i p → finish_run_terminalization sha256_hex now t r i code p = Ok (p', g) → platform_step p p'
| ps_receipt_failed now t r lease i claim capture continuation p p' g :
    names_attempt t r i p →
    reconciliation_failure_transaction sha256_hex now t r lease i claim capture continuation p = Ok (p', g) →
    platform_step p p'.

(** ** Single operations *)

Lemma set_run_joint hole k r r' p :
  pd_runs p !! k = Some r → pr_status r' = pr_status r → joint_except hole (attempt_view p) →
  joint_except hole (attempt_view (set_pd_runs <[k := r']> p)).
Proof.
  intros Hr Hs [Hc Hsi Hm]. split; [by destruct Hc|done|]. intros a Ha Hh. destruct (Hm a Ha Hh) as (r0 & Hr0 & Hst).
  unfold mirrors. cbn [attempt_view set_pd_runs db_runs pd_runs] in *. rewrite lookup_fmap in Hr0. rewrite lookup_fmap.
  destruct (decide (akey a = k)) as [<-|Hne].
  - rewrite lookup_insert_eq. rewrite Hr in Hr0. simpl in *. injection Hr0 as <-. eexists. split; [done|].
    simpl in *. congruence.
  - rewrite lookup_insert_ne by done. eauto.
Qed.

Lemma stage_joint now t r target reason result code message p p' out :
  with_life now (stage_run_terminalization t r target reason result code message) p = Ok (p', out) →
  pjoint p → pjoint p'.
Proof.
  intros (d & Hs & ->)%with_life_inv Hj. apply (life_joint_same _ now (t, r)); [|by eapply stage_status|done].
  by eapply stage_effect.
Qed.

Lemma cancel_attempt_joint now t r i k o p p' out :
  with_attempts (request_run_attempt_cancel sha256_hex now t r i k o) p = Ok (p', out) → pjoint p → pjoint p'.
Proof. intros E. eapply with_attempts_joint; [exact E|]. intros. by eapply cancel_steps. Qed.

Lemma updated_in now pred upd db db' new :
  sql_update_attempt sha256_hex now pred upd db = Ok (db', Some new) → new ∈ db_attempts db'.
Proof.
  intros (old & _ & _ & Hin & _ & Hi & -> & _)%update_effect. apply replaced_in. eauto.
Qed.

Lemma get_run_attempt_spec t r i db a :
  get_run_attempt t r i db = Some a → a ∈ db_attempts db ∧ akey a = (t, r) ∧ a_id a = i.
Proof.
  unfold get_run_attempt. intros (n & Hn & Hx)%find_lookup. unfold is_attempt, akey in *. to_prop.
  split; [by eapply list_elem_of_lookup_2|]. split; congruence.
Qed.

(** The row a cancel request returns is the attempt of the table. *)
Lemma cancel_returns now t r i k o db db' out :
  request_run_attempt_cancel sha256_hex now t r i k o db = Ok (db', out) →
  match out with
  | Some row => row ∈ db_attempts db' ∧ akey row = (t, r) ∧ a_id row = i
  | None => db' = db ∧ get_run_attempt t r i db = None
  end.
Proof.
  unfold request_run_attempt_cancel. intros E. run_res E; simplify_eq;
    try match goal with Hg : get_run_attempt _ _ _ _ = Some _ |- _ => pose proof (get_run_attempt_spec _ _ _ _ _ Hg) as Hspec end;
    try done.
  - match goal with Hu : sql_update_attempt _ _ _ _ _ = _ |- _ =>
      split; [by eapply updated_in|]; destruct (update_effect _ _ _ _ _ _ _ Hu) as (old & Hf & _ & _ & -> & -> & _) end.
    apply find_lookup in Hf as (n & _ & Hx%expected_row_parts). naive_solver.
  - match goal with Ht : transition_run_attempt _ _ _ _ _ _ _ _ _ _ _ _ = _ |- _ =>
      destruct (transition_cases _ _ _ _ _ _ _ _ _ _ _ _ _ _ Ht) as (? & ? & _ & [(-> & _ & ?)|(_ & pred & upd & Hu & _)]) end;
      [done|]. split_and!; [|done..]. by eapply updated_in.
Qed.

Lemma restore_attempt_spec w p row :
  restore_attempt w p = Ok row →
  row ∈ pd_attempts p ∧ akey row = (w_tenant_id w, w_run_id w) ∧ a_id row = w_attempt_id w ∧
  str_in (a_status row) ["running"; "cancel_requested"] = true.
Proof.
  unfold restore_attempt. intros E. run_res E; simplify_eq.
  all: match goal with Hr : restore_reconciliation _ _ _ _ _ _ _ _ = _ |- _ => rename Hr into Hrest end.
  all: unfold restore_reconciliation in Hrest; destruct (w_reconciliation_owner_generation w); try done; run_res Hrest; simplify_eq.
  all: match goal with Hg : get_run_attempt _ _ _ _ = Some _ |- _ => apply get_run_attempt_spec in Hg as (? & ? & ?) end.
  all: split_and!; try done; to_prop.
  all: match goal with Ho : _ || _ = true |- _ => apply orb_true_iff in Ho as [Ho|Ho]; to_prop end.
  all: by match goal with Ho : a_status _ = _ |- _ => rewrite Ho end.
Qed.

(** The attempt a worker acts on is the only one of its run. *)
Lemma current_attempt_spec w p out :
  current_attempt w p = Ok out → admitted w p →
  match out with
  | Some a => a ∈ pd_attempts p ∧ akey a = (w_tenant_id w, w_run_id w)
  | None => ∀ a, a ∈ pd_attempts p → akey a ≠ (w_tenant_id w, w_run_id w)
  end.
Proof.
  unfold current_attempt, assert_worker_run_attempt_current.
  intros E Hadm. destruct (is_reconciliation w) eqn:Er.
  - run_res E; simplify_eq. match goal with Hr : restore_attempt _ _ = _ |- _ => apply restore_attempt_spec in Hr end.
    naive_solver.
  - destruct (get_run_attempt_for_queue_attempt _ _ _ _) as [row|] eqn:Eg; run_res E; simplify_eq;
      unfold get_run_attempt_for_queue_attempt in Eg.
    + apply find_lookup in Eg as (n & Hn & Hx). to_prop. split; [by eapply list_elem_of_lookup_2|].
      unfold akey. congruence.
    + intros a Ha Hk. eapply List.find_none in Eg; [|by apply list_elem_of_In]. cbv beta in Eg.
      rewrite (Hadm Er a Ha Hk) in Eg. injection Hk as Et Ei. by rewrite Et, Ei, !String.eqb_refl in Eg.
Qed.

Definition is_current (t r : string) (attempt : option attempt_row) p : Prop :=
  match attempt with
  | Some a => a ∈ pd_attempts p ∧ akey a = (t, r)
  | None => ∀ a, a ∈ pd_attempts p → akey a ≠ (t, r)
  end.

Lemma current_only hole t r a p b :
  joint_except hole (attempt_view p) → a ∈ pd_attempts p → akey a = (t, r) →
  b ∈ pd_attempts p → akey b = (t, r) → a_id b = a_id a.
Proof. intros Hj Ha Hk Hb Hk'. apply (j_single _ _ _ Hj b a Hb Ha). congruence. Qed.

(** An ended run and its current attempt. *)
Lemma follow_joint now w attempt s reason code p0 p p' :
  ends sha256_hex (w_tenant_id w) (w_run_id w) s p0 p → is_current (w_tenant_id w) (w_run_id w) attempt p0 →
  terminalize_current sha256_hex now w attempt true s reason code p = Ok p' → pjoint p'.
Proof.
  intros [Ha Hh Hs] Hcur. unfold terminalize_current. destruct attempt as [a|]; simpl in Hcur; rewrite <- Ha in Hcur.
  - intros E. run_res E. simplify_eq. destruct Hcur as [Hin Hk].
    eapply terminalize_closes; [exact Hh|exact Hs| |eassumption]. intros b Hb Hkb. by eapply current_only.
  - intros [= <-]. by eapply hole_empty.
Qed.

Lemma not_followed now w attempt s reason code p p' :
  terminalize_current sha256_hex now w attempt false s reason code p = Ok p' → p' = p.
Proof. unfold terminalize_current. by destruct attempt; intros [= <-]. Qed.

Lemma outside_refl p : ∃ o, p = set_outside o p.
Proof. by exists (pd_outside p); destruct p. Qed.

Lemma diagnostics_outside w attempt code result p p' out :
  record_diagnostics w attempt code result p = Ok (p', out) → ∃ o, p' = set_outside o p.
Proof.
  unfold record_diagnostics. intros E. run_res E; simplify_eq; eauto using outside_refl.
Qed.

Lemma complete_joint now w result p p' b :
  worker_complete sha256_hex now w result p = Ok (p', b) → admitted w p → pjoint p → pjoint p'.
Proof.
  unfold worker_complete. intros E Hadm Hj. run_res E; simplify_eq; [done|].
  match goal with Hc : current_attempt _ _ = _ |- _ => pose proof (current_attempt_spec _ _ _ Hc Hadm) as Hcur end.
  match goal with Hd : record_diagnostics _ _ _ _ _ = _ |- _ => apply diagnostics_outside in Hd as [o' ->] end.
  match goal with Hc : complete_run_with_v4 _ _ _ _ _ = _ |- _ => apply (complete_v4_ends sha256_hex) in Hc; [|done] end.
  destruct b; [by eapply follow_joint|].
  match goal with Ht : terminalize_current _ _ _ _ _ _ _ _ _ = _ |- _ => apply not_followed in Ht as -> end. naive_solver.
Qed.

Lemma terminal_of_none s g : progress_is_terminal None g = false → progress_is_terminal (Some s) g = false.
Proof.
  unfold progress_is_terminal. destruct (completed g); [|done]. destruct (p_status g) as [s'|]; [|done]. simpl.
  rewrite andb_true_r. by intros ->.
Qed.

Lemma fail_joint now w code message result p p' b :
  worker_fail sha256_hex now w code message result p = Ok (p', b) → admitted w p → pjoint p → pjoint p'.
Proof.
  unfold worker_fail. intros E Hadm Hj. run_res E; simplify_eq; [done|].
  match goal with Hc : current_attempt _ _ = _ |- _ => pose proof (current_attempt_spec _ _ _ Hc Hadm) as Hcur end.
  match goal with Hd : record_diagnostics _ _ _ _ _ = _ |- _ => apply diagnostics_outside in Hd as [o' ->] end.
  match goal with Hc : fail_run_with_v4 _ _ _ _ _ _ _ _ = _ |- _ =>
    apply (fail_v4_ends sha256_hex) in Hc as [(Hg & _ & Hj')|(-> & Hends)]; [| |done] end.
  - rewrite (terminal_of_none _ _ Hg) in *.
    match goal with Ht : terminalize_current _ _ _ _ _ _ _ _ _ = _ |- _ => by apply not_followed in Ht as -> end.
  - by eapply follow_joint.
Qed.

Lemma with_attempts_inv {A} (f : attempt_db → res (attempt_db * A)) p p' x :
  with_attempts f p = Ok (p', x) → ∃ db, f (attempt_view p) = Ok (db, x) ∧ p' = put_attempt_view db p.
Proof. unfold with_attempts. intros E. run_res E. simplify_eq. eauto. Qed.

(** The cancel request keeps the worker's attempt current. *)
Lemma request_current now t r attempt p p' attempt' :
  match attempt with
  | Some a => with_attempts (request_run_attempt_cancel sha256_hex now t r (a_id a) None None) p
  | None => Ok (p, None)
  end = Ok (p', attempt') →
  is_current t r attempt p → pjoint p → pjoint p' ∧ is_current t r attempt' p'.
Proof.
  destruct attempt as [a|]; [|by intros [= <- <-]]. intros E Hcur Hj.
  split; [by eapply cancel_attempt_joint|]. apply with_attempts_inv in E as (db & E & ->).
  destruct Hcur as [Hin Hk]. apply cancel_returns in E. destruct attempt' as [a'|]; simpl; [naive_solver|].
  destruct E as [-> Hg]. exfalso. pose proof (get_run_attempt_found _ _ _ (j_consistent _ _ _ Hj) Hin) as Hf.
  injection Hk as Et Er. rewrite Et, Er in Hf. congruence.
Qed.

Lemma cancel_joint now w result p p' b :
  worker_cancel sha256_hex now w result p = Ok (p', b) → admitted w p → pjoint p → pjoint p'.
Proof.
  unfold worker_cancel. intros E Hadm Hj. run_res E; simplify_eq; [done|].
  match goal with Hc : current_attempt _ _ = _ |- _ => pose proof (current_attempt_spec _ _ _ Hc Hadm) as Hcur end.
  match goal with Hr : match ?a with Some _ => with_attempts _ _ | None => _ end = _ |- _ =>
    destruct (request_current _ _ _ _ _ _ _ Hr Hcur Hj) as [Hj1 Hcur1] end.
  match goal with Hd : match result with Some _ => _ | None => _ end = Ok (?q, _) |- _ =>
    assert (∃ o, q = set_outside o d) as [o' ->] end.
  { repeat case_match; simplify_eq; eauto using diagnostics_outside, outside_refl. }
  match goal with Hc : cancel_run_with_v4 _ _ _ _ _ = _ |- _ =>
    apply (cancel_v4_ends sha256_hex) in Hc as [(Hg & _ & Hj')|(-> & Hends)]; [| |done] end.
  - rewrite (terminal_of_none _ _ Hg) in *.
    match goal with Ht : terminalize_current _ _ _ _ _ _ _ _ _ = _ |- _ => by apply not_followed in Ht as -> end.
  - by eapply follow_joint.
Qed.

(** ** Requests *)

Lemma fold_later_some l b : ∃ c, fold_left later l (Some b) = Some c.
Proof. revert b. induction l as [|x l IH]; intros b; simpl; [eauto|]. case_match; apply IH. Qed.

Lemma latest_none t r db a :
  get_latest_run_attempt t r db = None → a ∈ db_attempts db → akey a ≠ (t, r).
Proof.
  unfold get_latest_run_attempt. set (l := List.filter _ _). intros Hn Ha Hk. injection Hk as Et Er.
  assert (In a l) as Hin.
  { apply filter_In. split; [by apply list_elem_of_In|]. by rewrite Et, Er, !String.eqb_refl. }
  destruct l as [|x l']; [done|]. simpl in Hn. destruct (fold_later_some l' x). congruence.
Qed.

Lemma mark_status now u r : pr_status (mark_cancel_requested now u r) = pr_status r.
Proof. done. Qed.

Lemma record_request_joint now t r u message payload run p p' i :
  record_request sha256_hex now t r u message payload run p = Ok (p', i) → pd_runs p !! (t, r) = Some run →
  pjoint p → pjoint p' ∧ (i = None → ∀ a, a ∈ pd_attempts p' → akey a ≠ (t, r)).
Proof.
  unfold record_request. intros E Hr Hj.
  set (p1 := set_pd_runs _ p) in *. set (e := cancel_event _ _ _ _ _) in *.
  assert (pjoint p1) as Hj1 by by apply (set_run_joint None (t, r) run).
  set (p2 := if bool_decide _ then add_event now e p1 else p1) in *.
  assert (attempt_view p2 = attempt_view p1) as Hv by (unfold p2; by case_bool_decide).
  assert (pd_attempts p2 = pd_attempts p1) as Ha by (unfold p2; by case_bool_decide).
  rewrite <- Hv in Hj1. clearbody p2. run_res E. simplify_eq.
  match goal with Hw : with_life _ _ ?q = _ |- _ => rename q into p3; rename Hw into Hstage end.
  destruct (get_latest_run_attempt t r (attempt_view p1)) as [a|] eqn:Hl; simpl in *.
  - split; [|done]. eapply stage_joint; [exact Hstage|].
    match goal with Hc : (if _ then _ else _) = Ok p3 |- _ => run_res Hc; simplify_eq; [|done] end.
    by eapply cancel_attempt_joint.
  - simplify_eq. split; [by eapply stage_joint|]. intros _ a Hin. apply with_life_inv in Hstage as (x & _ & ->).
    simpl in Hin. rewrite Ha in Hin. by eapply latest_none.
Qed.

Lemma eligible_found t r owner p run : eligible_run t r owner p = Some run → pd_runs p !! (t, r) = Some run.
Proof. unfold eligible_run, get_run. repeat case_match; by intros [= <-]. Qed.

Lemma finish_request_joint now t authority g p p' c :
  finish_request sha256_hex now t authority g p = Ok (p', c) →
  ca_attempt_id authority = None ∨ g = None → pjoint p → pjoint p'.
Proof.
  unfold finish_request. intros E Hor Hj. run_res E. simplify_eq.
  match goal with Hm : match ca_attempt_id authority with _ => _ end = Ok ?q |- _ => assert (q = p) as -> end; [|done].
  by destruct Hor as [Hn|Hn]; rewrite Hn in *; repeat case_match; simplify_eq.
Qed.

Lemma progress_context_joint now t r p p' g :
  progress_run_terminalization_with_context now t r p = Ok (p', g) → pjoint p →
  (∀ a, a ∈ pd_attempts p → akey a ≠ (t, r)) → pjoint p'.
Proof.
  unfold progress_run_terminalization_with_context. intros E Hj Hno. run_res E. simplify_eq.
  match goal with Hw : with_life _ _ _ = _ |- _ => apply with_life_inv in Hw as (x & Hp & ->) end.
  assert (pjoint (put_life_view now x p)) as Hj'.
  { destruct (progress_ends _ _ _ _ _ _ _ Hp Hj) as [[Hj' _]|(s & _ & _ & [_ Hh _])]; [done|]. by eapply hole_empty. }
  match goal with Hc : (if ?b then _ else _) = Ok _ |- _ => destruct b; [|by simplify_eq] end.
  match goal with Hc : call_port _ _ = _ |- _ => by apply call_port_outside in Hc as [? ->] end.
Qed.

Lemma port_if (b : bool) f p p' : (if b then call_port f p else Ok p) = Ok p' → ∃ o, p' = set_outside o p.
Proof. destruct b; [apply call_port_outside|]. intros [= <-]. apply outside_refl. Qed.

(** The rest of a request, from an authority that tells whether there is an attempt. *)
Lemma finish_authorized_joint now t authority p p' c :
  finish_authorized_request sha256_hex now t authority p = Ok (p', c) → pjoint p →
  (∀ x, authority = Some x → ca_attempt_id x = None → ∀ a, a ∈ pd_attempts p → akey a ≠ (t, ca_run_id x)) → pjoint p'.
Proof.
  unfold finish_authorized_request. intros E Hj Hno. destruct authority as [x|]; [|by simplify_eq].
  specialize (Hno x eq_refl). run_res E. simplify_eq.
  assert (∃ o, x0 = set_outside o p) as [o1 ->].
  { destruct (ca_attempt_id x); [by eapply call_port_outside|]. injection Heqr as <-. apply outside_refl. }
  apply port_if in Heqr0 as [o2 ->]. apply port_if in Heqr2 as [o4 ->].
  eapply finish_request_joint; [exact Heqr3| |].
  - destruct (_ && _) eqn:Eb in Heqr1; to_prop; [by left|right; by simplify_eq].
  - change (pjoint d). destruct (_ && _) eqn:Eb in Heqr1; to_prop; [|by simplify_eq].
    eapply progress_context_joint; [exact Heqr1|done|]. by apply Hno.
Qed.

Lemma owner_request_joint now t r u p p' c :
  request_owner_cancel sha256_hex now t r u p = Ok (p', c) → pjoint p → pjoint p'.
Proof.
  unfold request_owner_cancel, begin_owner_request. intros E Hj. run_res E.
  match goal with Hb : match eligible_run _ _ _ _ with _ => _ end = _ |- _ => rename Hb into Hbegin end.
  destruct (eligible_run _ _ _ _) as [run|] eqn:He in Hbegin; run_res Hbegin; simplify_eq.
  - apply eligible_found in He.
    match goal with Hr : record_request _ _ _ _ _ _ _ _ _ = _ |- _ =>
      destruct (record_request_joint _ _ _ _ _ _ _ _ _ _ Hr He Hj) as [Hj1 Hno] end.
    eapply finish_authorized_joint; [exact E|done|]. intros x [= <-] Hn. by apply Hno.
  - simpl in E. by simplify_eq.
Qed.

Lemma admin_request_joint now t r u p p' c :
  request_admin_cancel sha256_hex now t r u p = Ok (p', c) → pjoint p → pjoint p'.
Proof.
  unfold request_admin_cancel, begin_admin_request. intros E Hj. run_res E.
  match goal with Hb : match eligible_run _ _ _ _ with _ => _ end = _ |- _ => rename Hb into Hbegin end.
  destruct (eligible_run _ _ _ _) as [run|] eqn:He in Hbegin; run_res Hbegin; simplify_eq.
  - apply eligible_found in He.
    match goal with Hr : record_request _ _ _ _ _ _ _ _ _ = _ |- _ =>
      destruct (record_request_joint _ _ _ _ _ _ _ _ _ _ Hr He Hj) as [Hj1 Hno] end.
    eapply finish_authorized_joint; [exact E|done|]. intros x [= <-] Hn. by apply Hno.
  - simpl in E. by simplify_eq.
Qed.

(** ** The reconciler *)

Lemma stage_stale_joint now t ws u r st sb cb ts code message p p' b :
  stage_stale_run_reconciliation now t ws u r st sb cb ts code message p = Ok (p', b) → pjoint p → pjoint p'.
Proof.
  unfold stage_stale_run_reconciliation, get_run. intros E Hj. run_res E; simplify_eq; try done.
  by apply (set_run_joint None (t, r) p0).
Qed.

Lemma stage_candidate_joint now c p p' out :
  stage_candidate sha256_hex now c p = Ok (p', out) → pjoint p → pjoint p'.
Proof.
  unfold stage_candidate. intros E Hj. run_res E; simplify_eq.
  all: match goal with Hs : stage_stale_run_reconciliation _ _ _ _ _ _ _ _ _ _ _ _ = _ |- _ =>
    pose proof (stage_stale_joint _ _ _ _ _ _ _ _ _ _ _ _ _ _ Hs Hj) as Hj1 end.
  2: done.
  match goal with Hw : with_attempts _ _ = _ |- _ => eapply with_attempts_joint; [exact Hw| |done] end.
  intros. by eapply prepare_steps.
Qed.

Definition reports_end (g : option progress) : bool :=
  match g with Some g => progress_is_terminal None g | None => false end.

Lemma progress_v4_ends now t r p p' g :
  progress_run_terminalization_with_v4 now t r p = Ok (p', g) → pjoint p →
  pd_attempts p' = pd_attempts p ∧
  if reports_end g
  then ∃ s, p_status <$> g = Some (Some s) ∧ ends sha256_hex t r s p p'
  else pjoint p'.
Proof.
  unfold progress_run_terminalization_with_v4. intros E Hj.
  destruct (with_life now _ p) as [[d o]|] eqn:Hw; simpl in E; [|done]. apply with_life_inv in Hw as (x & Hp & ->).
  assert (∃ o', p' = set_outside o' (put_life_view now x p) ∧ g = o) as (o' & -> & ->).
  { destruct o; run_res E; simplify_eq; [|by destruct (outside_refl (put_life_view now x p)) as [? ?]; eauto].
    match goal with Ha : after_end _ _ _ _ _ = _ |- _ => apply after_end_outside in Ha as [? ->] end. eauto. }
  split; [done|]. destruct (progress_ends _ _ _ _ _ _ _ Hp Hj) as [[Hj' Hg]|(s & -> & Hin & Hends)].
  - destruct (reports_end o) eqn:Er; [|done]. destruct o as [g|]; [|done]. destruct (Hg g eq_refl) as [_ Hs].
    simpl in Er. specialize (Hs Er). unfold progress_is_terminal in Er. to_prop.
    destruct (p_status g) as [s|] eqn:Eg; [|done]. exists s. simpl. rewrite Eg. split; [done|].
    apply ends_outside. split; [done|by apply hole_weaken|done].
  - rewrite str_in_elem, !elem_of_cons, elem_of_nil in Hin. destruct Hin as [->|[->|[]]];
      (simpl; eexists; split; [done|by apply ends_outside]).
Qed.

Lemma finish_joint now t r i code p p' g :
  finish_run_terminalization sha256_hex now t r i code p = Ok (p', g) → names_attempt t r i p → pjoint p → pjoint p'.
Proof.
  unfold finish_run_terminalization. intros E Hn Hj.
  destruct (progress_run_terminalization_with_v4 now t r p) as [[d o]|] eqn:Hp; simpl in E; [|done].
  destruct (progress_v4_ends _ _ _ _ _ _ Hp Hj) as [Ha Hends].
  destruct (reports_end o) eqn:Er.
  - destruct o as [g0|]; [|done]. destruct Hends as (s & Hs & [_ Hh Hst]). simpl in Er, Hs. injection Hs as Hs.
    destruct i as [i|].
    + rewrite Er, Hs in E. simpl in E. run_res E. simplify_eq.
      match goal with Ht : terminalize _ _ _ _ _ _ _ _ _ = _ |- _ => eapply terminalize_closes; [exact Hh|exact Hst| |exact Ht] end.
      intros a Hin Hk. rewrite Ha in Hin. specialize (Hn a Hin Hk). congruence.
    + simplify_eq. eapply hole_empty; [exact Hh|]. simpl. rewrite Ha. intros a Hin Hk. by specialize (Hn a Hin Hk).
  - destruct i as [i|]; [|by simplify_eq]. destruct o as [g0|]; simpl in *; [|by simplify_eq]. rewrite Er in E. by simplify_eq.
Qed.

Lemma names_after_cancel now t r i p p' out :
  with_attempts (request_run_attempt_cancel sha256_hex now t r i None None) p = Ok (p', out) →
  names_attempt t r (Some i) p → pjoint p → names_attempt t r (Some i) p'.
Proof.
  intros E Hn Hj. pose proof (cancel_attempt_joint _ _ _ _ _ _ _ _ _ E Hj) as Hj'.
  apply with_attempts_inv in E as (db & E & ->). apply cancel_returns in E. destruct out as [row|].
  - destruct E as (Hin & Hk & <-). intros a Ha Hka. f_equal. symmetry. by eapply current_only.
  - destruct E as [-> _]. exact Hn.
Qed.

(** Whichever way the run is ended. *)
Lemma end_v4_ends (b : bool) now t r code message result1 result2 reason p p' g :
  (if b then cancel_run_with_v4 now t r result1 p else fail_run_with_v4 now t r code message result2 reason p)
    = Ok (p', g) → pjoint p →
  (progress_is_terminal None g = false ∧ pd_attempts p' = pd_attempts p ∧ pjoint p') ∨
  ∃ s, progress_is_terminal None g = true ∧ p_status g = Some s ∧ ends sha256_hex t r s p p'.
Proof.
  destruct b; intros E Hj.
  - apply (cancel_v4_ends sha256_hex) in E as [?|(-> & ?)]; [by left| |done]. right. by exists "cancelled".
  - apply (fail_v4_ends sha256_hex) in E as [?|(-> & ?)]; [by left| |done]. right. by exists "failed".
Qed.

(** The parts of the transaction that ends the run of a failed receipt. *)
Lemma receipt_parts now t r lease i claim capture continuation p p' g :
  reconciliation_failure_transaction sha256_hex now t r lease i claim capture continuation p = Ok (p', g) →
  (∃ o, p' = set_outside o p) ∨
  ∃ o p1 p2 g' (b : bool) code message result1 result2 reason reason' code',
    (p1 = set_outside o p ∨ ∃ i0 out, i = Some i0 ∧
       with_attempts (request_run_attempt_cancel sha256_hex now t r i0 None None) (set_outside o p) = Ok (p1, out)) ∧
    (if b then cancel_run_with_v4 now t r result1 p1 else fail_run_with_v4 now t r code message result2 reason p1)
      = Ok (p2, g') ∧
    match i with
    | Some i => if progress_is_terminal None g'
                then ∃ out, terminalize sha256_hex now t r i (default "None" (p_status g')) reason' code' p2 = Ok (p', out)
                else p' = p2
    | None => p' = p2
    end.
Proof.
  unfold reconciliation_failure_transaction. intros E.
  destruct (has_sandbox_executor_reconciliation_claim lease claim p); simpl in E; [|done].
  destruct (get_run t r p) as [run|]; [|simplify_eq; left; apply outside_refl].
  destruct (match capture with Some f => call_port f p | None => Ok p end) as [p1|] eqn:E1; simpl in E; [|done].
  assert (∃ o, p1 = set_outside o p) as [o1 ->].
  { destruct capture; [by eapply call_port_outside|]. injection E1 as <-. apply outside_refl. }
  destruct (_ || _); [simplify_eq; eauto|]. right.
  destruct (match continuation with None => _ | Some _ => _ end) as [p2|] eqn:E2; simpl in E; [|done].
  assert (∃ o, p2 = set_outside o p) as [o2 ->].
  { destruct continuation as [[f|]|]; [|done|injection E2 as <-; by eexists]. destruct i; [|done].
    apply call_port_outside in E2 as [? ->]. by eexists. }
  destruct (match i with Some _ => _ | None => Ok (set_outside o2 p) end) as [p3|] eqn:E3; simpl in E; [|done].
  run_res E. simplify_eq. exists o2, p3. do 10 eexists. split_and!; [|eassumption|].
  - destruct i as [i|]; [|left; by simplify_eq]. destruct (cancel_recorded run); [|left; by simplify_eq].
    run_res E3. simplify_eq. right. eauto.
  - destruct i as [i|]; [|by simplify_eq].
    match goal with Hm : (if progress_is_terminal None _ then _ else _) = Ok _ |- _ => rename Hm into Hterm end.
    destruct (progress_is_terminal None _); [|by simplify_eq]. run_res Hterm. simplify_eq. eauto.
Qed.

Lemma receipt_failed_joint now t r lease i claim capture continuation p p' g :
  reconciliation_failure_transaction sha256_hex now t r lease i claim capture continuation p = Ok (p', g) →
  names_attempt t r i p → pjoint p → pjoint p'.
Proof.
  intros [[o ->]|(o & p1 & p2 & g' & b & code & message & result1 & result2 & reason & reason' & code' & Hp1 & Hp2 & Hp3)]%receipt_parts Hn Hj;
    [done|].
  assert (names_attempt t r i p1 ∧ pjoint p1) as [Hn1 Hj1].
  { destruct Hp1 as [->|(i0 & out & -> & Hc)]; [done|]. split; [by eapply names_after_cancel|by eapply cancel_attempt_joint]. }
  destruct (end_v4_ends _ _ _ _ _ _ _ _ _ _ _ _ Hp2 Hj1) as [(Hg & _ & Hj2)|(s & Hg & Hs & [Ha Hh Hst])]; rewrite Hg in Hp3.
  - destruct i; by subst.
  - rewrite Hs in Hp3. simpl in Hp3. destruct i as [i|].
    + destruct Hp3 as [out Hp3]. eapply terminalize_closes; [exact Hh|exact Hst| |exact Hp3].
      intros a Hin Hk. rewrite Ha in Hin. specialize (Hn1 a Hin Hk). congruence.
    + subst. eapply hole_empty; [exact Hh|]. simpl. rewrite Ha. intros a Hin Hk. by specialize (Hn1 a Hin Hk).
Qed.

(** ** The invariant *)

Lemma bind_joint now w spec p p' a :
  bind_execution_spec sha256_hex now w spec p = Ok (p', a) → pjoint p → pjoint p'.
Proof.
  unfold bind_execution_spec. intros E Hj. run_res E. simplify_eq.
  match goal with Hw : with_attempts _ _ = _ |- _ => eapply with_attempts_joint; [exact Hw| |done] end.
  intros. by eapply start_steps.
Qed.

Lemma outside_joint p p' : outside_transaction p p' → pjoint p → pjoint p'.
Proof.
  intros [Ha Hr] [Hc Hs Hm]. split; simpl in *.
  - destruct Hc as [Hc1 Hc2]. split; simpl in *; by rewrite Ha.
  - by rewrite Ha.
  - rewrite Ha. intros a Hin Hne. destruct (Hm a Hin Hne) as (r & Hk & Hst). unfold mirrors in *. simpl in *.
    rewrite lookup_fmap in Hk. destruct (pd_runs p !! akey a) as [pr|] eqn:E; simpl in Hk; [|done]. injection Hk as <-.
    destruct (Hr _ _ E) as (pr' & E' & Hst' & _). rewrite lookup_fmap, E'. simpl. eexists. split; [done|].
    simpl in *. congruence.
Qed.

Lemma step_joint p p' : platform_step p p' → pjoint p → pjoint p'.
Proof.
  destruct 1; eauto using outside_joint, bind_joint, complete_joint, fail_joint, cancel_joint, owner_request_joint,
    admin_request_joint, stage_candidate_joint, finish_joint, receipt_failed_joint.
  intros Hj. eapply with_attempts_joint; [eassumption| |done]. intros. by eapply heartbeat_steps.
Qed.
End Trace.
