(* ===== verification/PlatformPaths.v ===== *)
(** * What a transaction does to the attempts

    Every step of [PlatformTrace] changes the table of attempts only through its
    trigger-guarded updates, whatever it does to the runs beside them.  So an attempt
    that was asked to cancel can only be cancelled, over any number of transactions. *)
From stdpp Require Import base gmap list strings.
From Stdlib Require Import ZArith Lia Ascii.
From S2P Require Import Prelude QueueRuntime PyValue RunAttempt RunAttemptFacts RunLifecycle RunLifecycleFacts Platform PlatformFacts WorkerLifecycle Cancellation StaleReconciliation PlatformTrace.
#[local] Open Scope py_scope.

(** The attempt was asked to cancel, or was cancelled. *)
Definition asked (a : attempt_row) : bool := str_in (a_status a) ["cancel_requested"; "cancelled"].

Section Paths.
Context `{PyRuntime} `{LifecyclePorts} {O : Type} `{PlatformPorts O} (sha256_hex : string → string).
Implicit Types (p : pdb O) (w : worker).
Notation sql_step := (sql_step sha256_hex).
Notation platform_step := (platform_step sha256_hex).

(** ** An attempt that was asked to cancel *)

Lemma guard_update_asked now old new db dbr :
  guard_update now old new db = Ok dbr → asked old = true → asked new = true.
Proof.
  unfold guard_update. intros Hg Ho. unfold asked in Ho.
  rewrite str_in_elem, !elem_of_cons, elem_of_nil in Ho. unfold asked.
  destruct (String.eqb_spec (a_status new) (a_status old)) as [E|Hne].
  { rewrite E, str_in_elem, !elem_of_cons. naive_solver. }
  run_res Hg. destruct Ho as [Ho|[Ho|[]]]; rewrite Ho in *.
  - match goal with Hl : negb (sql_legal_transition _ _) = false |- _ =>
      apply negb_false_iff in Hl; unfold sql_legal_transition in Hl; simpl in Hl;
      rewrite orb_false_r in Hl; apply String.eqb_eq in Hl; by rewrite Hl end.
  - match goal with Hl : negb (sql_legal_transition _ _) = false |- _ => done end.
Qed.

Lemma step_asked db db' a :
  sql_step db db' → attempts_consistent sha256_hex db → a ∈ db_attempts db → asked a = true →
  ∃ a', a' ∈ db_attempts db' ∧ akey a' = akey a ∧ asked a' = true.
Proof.
  intros Hs Hc Hin Ha. destruct Hs as [? ? [new d d' Hi|now pred upd d d' row Hu]|runs d].
  - exists a. split; [|done]. revert Hi. unfold sql_insert_attempt.
    destruct (guard_insert new d) as [[]|]; simpl; [|done]. do 2 (case_match; [done|]).
    intros [= <-]. simpl. apply elem_of_app. by left.
  - apply update_spec in Hu as [(_ & _ & ->)|(old & dbr & Hf & _ & Hh & Hg & _ & _ & ->)]; [by exists a|].
    pose proof (guard_update_evolves _ _ _ _ _ Hh Hg) as Hev.
    pose proof (same_identity_id _ _ (ev_id _ _ Hev)) as Hid.
    apply list_elem_of_lookup in Hin as [j Hj]. pose proof (replace_lookup (upd old) _ _ _ Hj) as Hr'.
    eexists. split; [by eapply list_elem_of_lookup_2|]. destruct (String.eqb (a_id a) (a_id (upd old))) eqn:E; [|done].
    to_prop. apply find_lookup in Hf as (k & Hk & _).
    assert (j = k) as -> by (eapply (consistent_id_unique _ d); [done..|congruence]). simplify_eq.
    split; [|by eapply guard_update_asked]. pose proof (ev_id _ _ Hev) as Hs. unfold same_identity, akey in *.
    to_prop. congruence.
  - by exists a.
Qed.

Lemma steps_asked db db' a :
  rtc sql_step db db' → attempts_consistent sha256_hex db → a ∈ db_attempts db → asked a = true →
  ∃ a', a' ∈ db_attempts db' ∧ akey a' = akey a ∧ asked a' = true.
Proof.
  intros Hs. revert a. induction Hs as [db|db db1 db2 Hs _ IH]; intros a Hc Hin Ha; [by exists a|].
  destruct (step_asked _ _ _ Hs Hc Hin Ha) as (a1 & Hin1 & Hk1 & Ha1).
  destruct (IH a1) as (a2 & Hin2 & Hk2 & Ha2); [by eapply consistent_step|done..|].
  exists a2. split; [done|]. split; [congruence|done].
Qed.

(** ** Transactions are paths of the table *)

Definition path p p' : Prop := rtc sql_step (attempt_view p) (attempt_view p').

Lemma path_trans p1 p2 p3 : path p1 p2 → path p2 p3 → path p1 p3.
Proof. unfold path. intros ? ?. by etransitivity. Qed.

Lemma path_same p p' : pd_attempts p' = pd_attempts p → path p p'.
Proof.
  intros E. apply rtc_once. unfold attempt_view at 2. rewrite E. exact (step_runs _ _ (attempt_view p)).
Qed.

Lemma path_attempts {A} (f : attempt_db → res (attempt_db * A)) p p' x :
  with_attempts f p = Ok (p', x) →
  (∀ db db' x, f db = Ok (db', x) → rtc (guarded_step sha256_hex) db db') → path p p'.
Proof.
  unfold with_attempts. intros E Hf. run_res E. simplify_eq. unfold path.
  match goal with Hr : f _ = Ok _ |- _ => apply Hf in Hr; rewrite (attempt_view_put _ _ _ Hr) end.
  eapply rtc_subrel; [|eassumption]. by constructor.
Qed.

Lemma life_attempts {A} now (f : lifecycle_db → res (lifecycle_db * A)) p p' x :
  with_life now f p = Ok (p', x) → pd_attempts p' = pd_attempts p.
Proof. by intros (d & _ & ->)%with_life_inv. Qed.

Lemma after_end_attempts t r terminal did p p' : after_end t r terminal did p = Ok p' → pd_attempts p' = pd_attempts p.
Proof. by intros [o ->]%after_end_outside. Qed.

Lemma complete_v4_attempts now t r result p p' b :
  complete_run_with_v4 now t r result p = Ok (p', b) → pd_attempts p' = pd_attempts p.
Proof.
  unfold complete_run_with_v4. intros E. run_res E. simplify_eq.
  repeat match goal with
  | Hw : with_life _ _ _ = _ |- _ => apply life_attempts in Hw
  | Ha : after_end _ _ _ _ _ = _ |- _ => apply after_end_attempts in Ha end. congruence.
Qed.
Lemma fail_v4_attempts now t r code message result reason p p' g :
  fail_run_with_v4 now t r code message result reason p = Ok (p', g) → pd_attempts p' = pd_attempts p.
Proof.
  unfold fail_run_with_v4. intros E. run_res E. simplify_eq.
  repeat match goal with
  | Hw : with_life _ _ _ = _ |- _ => apply life_attempts in Hw
  | Ha : after_end _ _ _ _ _ = _ |- _ => apply after_end_attempts in Ha end. congruence.
Qed.
Lemma cancel_v4_attempts now t r result p p' g :
  cancel_run_with_v4 now t r result p = Ok (p', g) → pd_attempts p' = pd_attempts p.
Proof.
  unfold cancel_run_with_v4. intros E. run_res E. simplify_eq.
  repeat match goal with
  | Hw : with_life _ _ _ = _ |- _ => apply life_attempts in Hw
  | Ha : after_end _ _ _ _ _ = _ |- _ => apply after_end_attempts in Ha end. congruence.
Qed.
Lemma progress_v4_attempts now t r p p' g :
  progress_run_terminalization_with_v4 now t r p = Ok (p', g) → pd_attempts p' = pd_attempts p.
Proof.
  unfold progress_run_terminalization_with_v4. intros E. run_res E; simplify_eq.
  all: repeat match goal with
  | Hw : with_life _ _ _ = _ |- _ => apply life_attempts in Hw
  | Ha : after_end _ _ _ _ _ = _ |- _ => apply after_end_attempts in Ha end. all: congruence.
Qed.

Lemma terminalize_path now t r i st reason code p p' out :
  terminalize sha256_hex now t r i st reason code p = Ok (p', out) → path p p'.
Proof.
  unfold terminalize. intros E. run_res E. simplify_eq.
  match goal with Hw : with_attempts _ _ = Ok (?q, _) |- _ =>
    assert (path p q) as Hq by (eapply path_attempts; [exact Hw|intros; by eapply terminalize_steps]) end.
  repeat case_match; simplify_eq; try done.
  match goal with Hc : call_port _ _ = _ |- _ => apply call_port_outside in Hc as [? ->] end.
  eapply path_trans; [exact Hq|by apply path_same].
Qed.

Lemma follow_path now w attempt ended s reason code p p' :
  terminalize_current sha256_hex now w attempt ended s reason code p = Ok p' → path p p'.
Proof.
  unfold terminalize_current. intros E. destruct attempt as [a|], ended; simplify_eq; try by apply path_same.
  run_res E. simplify_eq. by eapply terminalize_path.
Qed.

Lemma cancel_path now t r i k o p p' out :
  with_attempts (request_run_attempt_cancel sha256_hex now t r i k o) p = Ok (p', out) → path p p'.
Proof. intros E. eapply path_attempts; [exact E|]. intros. by eapply cancel_steps. Qed.

Lemma worker_complete_path now w result p p' b :
  worker_complete sha256_hex now w result p = Ok (p', b) → path p p'.
Proof.
  unfold worker_complete. intros E. run_res E; simplify_eq; [by apply path_same|].
  match goal with Hd : record_diagnostics _ _ _ _ _ = _ |- _ => apply diagnostics_outside in Hd as [o' ->] end.
  match goal with Hc : complete_run_with_v4 _ _ _ _ _ = _ |- _ => apply complete_v4_attempts in Hc end.
  eapply path_trans; [by apply path_same|by eapply follow_path].
Qed.

Lemma worker_fail_path now w code message result p p' b :
  worker_fail sha256_hex now w code message result p = Ok (p', b) → path p p'.
Proof.
  unfold worker_fail. intros E. run_res E; simplify_eq; [by apply path_same|].
  match goal with Hd : record_diagnostics _ _ _ _ _ = _ |- _ => apply diagnostics_outside in Hd as [o' ->] end.
  match goal with Hc : fail_run_with_v4 _ _ _ _ _ _ _ _ = _ |- _ => apply fail_v4_attempts in Hc end.
  eapply path_trans; [by apply path_same|by eapply follow_path].
Qed.

Lemma worker_cancel_path now w result p p' b :
  worker_cancel sha256_hex now w result p = Ok (p', b) → path p p'.
Proof.
  unfold worker_cancel. intros E. run_res E; simplify_eq; [by apply path_same|].
  match goal with Hr : match ?a with Some _ => with_attempts _ _ | None => _ end = Ok (?q, _) |- _ =>
    assert (path p q) as Hh1 by (destruct a; [by eapply cancel_path|injection Hr as <- _; by apply path_same]) end.
  match goal with Hd : match result with Some _ => _ | None => _ end = Ok (?q, _) |- _ =>
    assert (∃ o, q = set_outside o d) as [o' ->] end.
  { repeat case_match; simplify_eq; eauto using diagnostics_outside, outside_refl. }
  match goal with Hc : cancel_run_with_v4 _ _ _ _ _ = _ |- _ => apply cancel_v4_attempts in Hc end.
  eapply path_trans; [exact Hh1|]. eapply path_trans; [by apply path_same|by eapply follow_path].
Qed.

Lemma record_request_path now t r u message payload run p p' i :
  record_request sha256_hex now t r u message payload run p = Ok (p', i) → path p p'.
Proof.
  unfold record_request. intros E. set (p1 := set_pd_runs _ p) in *. set (e := cancel_event _ _ _ _ _) in *.
  set (p2 := if bool_decide _ then add_event now e p1 else p1) in *.
  assert (path p p2) as Hh by (apply path_same; unfold p2; by case_bool_decide).
  clearbody p2. run_res E. simplify_eq.
  match goal with Hw : with_life _ _ ?q = _ |- _ => rename q into p3; apply life_attempts in Hw end.
  eapply path_trans; [|by apply path_same]. eapply path_trans; [exact Hh|].
  match goal with Hm : match _ with Some _ => _ | None => _ end = Ok p3 |- _ => rename Hm into Hatt end.
  destruct (a_id <$> _) as [a|]; [|simplify_eq; by apply path_same].
  destruct (String.eqb _ _) in Hatt; [|simplify_eq; by apply path_same].
  run_res Hatt. simplify_eq. by eapply cancel_path.
Qed.

Lemma finish_authorized_path now t authority p p' c :
  finish_authorized_request sha256_hex now t authority p = Ok (p', c) → path p p'.
Proof.
  unfold finish_authorized_request. intros E. destruct authority as [x|]; [|simplify_eq; by apply path_same].
  run_res E. simplify_eq. assert (∃ o, x0 = set_outside o p) as [o1 ->].
  { destruct (ca_attempt_id x); [by eapply call_port_outside|]. injection Heqr as <-. apply outside_refl. }
  apply port_if in Heqr0 as [o2 ->]. apply port_if in Heqr2 as [o4 ->].
  assert (path p d) as Hd.
  { destruct (_ && _) in Heqr1; [|simplify_eq; by apply path_same].
    unfold progress_run_terminalization_with_context in Heqr1. run_res Heqr1. simplify_eq.
    match goal with Hc : (if _ then _ else _) = Ok _ |- _ => apply port_if in Hc as [o' ->] end.
    match goal with Hw : with_life _ _ _ = _ |- _ => apply life_attempts in Hw end. by apply path_same. }
  eapply path_trans; [exact Hd|]. unfold finish_request in Heqr3. run_res Heqr3. simplify_eq.
  match goal with Hm : match ca_attempt_id x with _ => _ end = Ok _ |- _ => rename Hm into Hfin end.
  repeat case_match; simplify_eq; try by apply path_same.
  all: run_res Hfin; simplify_eq; match goal with Ht : terminalize _ _ _ _ _ _ _ _ _ = _ |- _ => apply terminalize_path in Ht end.
  all: eapply path_trans; [by apply (path_same d (set_outside o4 d))|]; eapply path_trans; [eassumption|by apply path_same].
Qed.

Lemma owner_request_path now t r u p p' c : request_owner_cancel sha256_hex now t r u p = Ok (p', c) → path p p'.
Proof.
  unfold request_owner_cancel, begin_owner_request. intros E. run_res E.
  match goal with Hb : match eligible_run _ _ _ _ with _ => _ end = _ |- _ => rename Hb into Hbegin end.
  destruct (eligible_run _ _ _ _) as [run|] in Hbegin; run_res Hbegin; simplify_eq;
    [|simpl in E; simplify_eq; by apply path_same].
  eapply path_trans; [by eapply record_request_path|by eapply finish_authorized_path].
Qed.

Lemma admin_request_path now t r u p p' c : request_admin_cancel sha256_hex now t r u p = Ok (p', c) → path p p'.
Proof.
  unfold request_admin_cancel, begin_admin_request. intros E. run_res E.
  match goal with Hb : match eligible_run _ _ _ _ with _ => _ end = _ |- _ => rename Hb into Hbegin end.
  destruct (eligible_run _ _ _ _) as [run|] in Hbegin; run_res Hbegin; simplify_eq;
    [|simpl in E; simplify_eq; by apply path_same].
  eapply path_trans; [by eapply record_request_path|by eapply finish_authorized_path].
Qed.

Lemma stage_candidate_path now c p p' out : stage_candidate sha256_hex now c p = Ok (p', out) → path p p'.
Proof.
  unfold stage_candidate. intros E. run_res E; simplify_eq.
  all: match goal with Hs : stage_stale_run_reconciliation _ _ _ _ _ _ _ _ _ _ _ ?q = Ok (?q', _) |- _ =>
    assert (pd_attempts q' = pd_attempts q) as Hq by (unfold stage_stale_run_reconciliation in Hs; run_res Hs; by simplify_eq) end.
  2: by apply path_same.
  eapply path_trans; [by apply path_same|]. eapply path_attempts; [eassumption|]. intros. by eapply prepare_steps.
Qed.

Lemma finish_path now t r i code p p' g :
  finish_run_terminalization sha256_hex now t r i code p = Ok (p', g) → path p p'.
Proof.
  unfold finish_run_terminalization. intros E.
  destruct (progress_run_terminalization_with_v4 now t r p) as [[d o]|] eqn:Hp; simpl in E; [|done].
  apply progress_v4_attempts in Hp. repeat case_match; simplify_eq; try by apply path_same.
  all: run_res E; simplify_eq; eapply path_trans; [by apply path_same|by eapply terminalize_path].
Qed.

Lemma receipt_path now t r lease i claim capture continuation p p' g :
  reconciliation_failure_transaction sha256_hex now t r lease i claim capture continuation p = Ok (p', g) → path p p'.
Proof.
  intros [[o ->]|(o & p1 & p2 & g' & b & code & message & result1 & result2 & reason & reason' & code' & Hp1 & Hp2 & Hp3)]%receipt_parts;
    [by apply path_same|].
  assert (path p p1) as Hh1.
  { destruct Hp1 as [->|(i0 & out & -> & Hc)]; [by apply path_same|].
    eapply path_trans; [|by eapply cancel_path]. by apply path_same. }
  assert (pd_attempts p2 = pd_attempts p1) as Hh2 by (destruct b; [by eapply cancel_v4_attempts|by eapply fail_v4_attempts]).
  eapply path_trans; [exact Hh1|]. eapply path_trans; [by apply path_same|].
  destruct i as [i|]; [|subst; by apply path_same]. destruct (progress_is_terminal None g'); [|subst; by apply path_same].
  destruct Hp3 as [out Hp3]. by eapply terminalize_path.
Qed.

Lemma step_path p p' : platform_step p p' → path p p'.
Proof.
  destruct 1 as [p p' [Ha _]|now w spec p p' a E|now t r q m wid e h p p' a E| | | | | | | |];
    eauto using path_same, worker_complete_path, worker_fail_path, worker_cancel_path, owner_request_path, admin_request_path,
      stage_candidate_path, finish_path, receipt_path.
  - unfold bind_execution_spec in E. run_res E. simplify_eq. eapply path_attempts; [eassumption|].
    intros. by eapply start_steps.
  - eapply path_attempts; [exact E|]. intros. by eapply heartbeat_steps.
Qed.

Lemma steps_path p p' : rtc platform_step p p' → path p p'.
Proof. induction 1 as [|? ? ? Hs _ IH]; [by apply path_same|]. eapply path_trans; [by apply step_path|done]. Qed.
End Paths.
