(* ===== verification/PlatformSafety.v ===== *)
(** * What holds on every path of the platform

    Consequences of the transition system of [PlatformTrace]. *)
From stdpp Require Import base gmap list strings.
From Stdlib Require Import ZArith Lia Ascii.
From S2P Require Import Prelude QueueRuntime PyValue RunAttempt RunAttemptFacts RunLifecycle RunLifecycleFacts Platform PlatformFacts WorkerLifecycle Cancellation StaleReconciliation PlatformExample PlatformTrace PlatformPaths.
#[local] Open Scope py_scope.

Section Safety.
Context `{PyRuntime} `{LifecyclePorts} {O : Type} `{PlatformPorts O} (sha256_hex : string → string).
Implicit Types (p : pdb O) (w : worker).
Notation pjoint p := (joint_except sha256_hex None (attempt_view p)).
Notation platform_step := (platform_step sha256_hex).

(** ** A recorded cancel request *)

(** A step of a run that keeps a recorded request and turns into a success only
    without one. *)
Definition held {A} (status : A → string) (cancel : A → option Z) (m m' : gmap run_key A) : Prop :=
  ∀ k r, m !! k = Some r → ∃ r', m' !! k = Some r' ∧
    (∀ c, cancel r = Some c → cancel r' = Some c) ∧
    (status r' = "succeeded" → status r = "succeeded" ∨ cancel r = None).
Notation held_a db db' := (held r_status r_cancel_requested_at (db_runs db) (db_runs db')).
Notation held_l db db' := (held l_status l_cancel_requested_at (ld_runs db) (ld_runs db')).
Notation held_p p p' := (held pr_status pr_cancel_requested_at (pd_runs p) (pd_runs p')).

Lemma held_refl {A} (status : A → string) (cancel : A → option Z) (m : gmap run_key A) : held status cancel m m.
Proof. intros k r Hr. exists r. split_and!; auto. Qed.

Lemma held_trans {A} (status : A → string) (cancel : A → option Z) (m1 m2 m3 : gmap run_key A) :
  held status cancel m1 m2 → held status cancel m2 m3 → held status cancel m1 m3.
Proof.
  intros H12 H23 k r Hr. destruct (H12 k r Hr) as (r2 & Hr2 & Hc2 & Hs2). destruct (H23 k r2 Hr2) as (r3 & Hr3 & Hc3 & Hs3).
  exists r3. split_and!; [done|by auto|]. intros Hs. destruct (Hs3 Hs) as [Hs'|Hn]; [by auto|].
  right. destruct (cancel r) as [c|] eqn:E; [|done]. specialize (Hc2 c eq_refl). congruence.
Qed.

Lemma held_insert {A} (status : A → string) (cancel : A → option Z) (m : gmap run_key A) k r r' :
  m !! k = Some r → (∀ c, cancel r = Some c → cancel r' = Some c) →
  (status r' = "succeeded" → status r = "succeeded" ∨ cancel r = None) → held status cancel m (<[k := r']> m).
Proof.
  intros Hr Hc Hs k' x Hx. destruct (decide (k' = k)) as [->|Hne].
  - rewrite lookup_insert_eq. exists r'. simplify_eq. by split_and!.
  - rewrite lookup_insert_ne by done. exists x. split_and!; auto.
Qed.
#[local] Hint Resolve held_refl : platform.

(** *** Attempts *)

Lemma transition_held now t r i es rs k o g args db db' row :
  transition_run_attempt sha256_hex now t r i es rs k o g args db = Ok (db', row) →
  (rs = "succeeded" → r_status <$> db_runs db !! (t, r) = Some "succeeded") → held_a db db'.
Proof.
  intros (_ & _ & Hrs & [(-> & _ & _)|(Hne & pred & upd & Hu & Hold)])%transition_cases Hs; [apply held_refl|].
  destruct (update_effect _ _ _ _ _ _ _ Hu) as (old & Hf & Hnew & _ & _ & _ & _ & [[_ ->]|(_ & r0 & Hr0 & Ha & ->)]);
    [apply held_refl|].
  destruct (Hold old Hf) as (Hk & _ & _ & _). rewrite Hk in *. eapply held_insert; [exact Hr0|done|].
  simpl. rewrite Hrs. intros Hp. left. assert (rs = "succeeded") as ->; [|rewrite Hr0 in Hs; simpl in Hs; naive_solver].
  unfold projected_run_status in Hp. repeat case_match; done.
Qed.

Lemma transition_held_open now t r i es rs k o g args db db' row :
  transition_run_attempt sha256_hex now t r i es rs k o g args db = Ok (db', row) → rs ≠ "succeeded" → held_a db db'.
Proof. intros. by eapply transition_held. Qed.

Lemma same_status_held now pred upd db db' row :
  sql_update_attempt sha256_hex now pred upd db = Ok (db', row) → (∀ a, a_status (upd a) = a_status a) → held_a db db'.
Proof.
  intros Hu Hs. destruct row as [new|].
  - destruct (update_effect _ _ _ _ _ _ _ Hu) as (old & _ & -> & _ & _ & _ & _ & [[_ ->]|(Hne & _)]); [apply held_refl|].
    by destruct (Hne (Hs old)).
  - apply update_spec in Hu as [(_ & _ & ->)|(? & ? & _ & ? & _)]; [apply held_refl|done].
Qed.

Ltac chain_held :=
  repeat match goal with Ht : transition_run_attempt _ _ _ _ _ _ _ _ _ _ _ _ = Ok _ |- _ =>
    apply transition_held_open in Ht; [|done] end;
  repeat (eapply held_trans; [eassumption|]); try apply held_refl; try done.

Lemma start_held now t r q wid spec m e h db db' row :
  start_worker_run_attempt sha256_hex now t r q wid spec m e h db = Ok (db', row) → held_a db db'.
Proof.
  unfold start_worker_run_attempt, transition_from. intros E. run_res E; [simplify_eq; apply held_refl|].
  all: match goal with Hc : create_run_attempt _ _ _ _ _ _ _ _ _ _ _ = Ok (?d, _) |- _ =>
    assert (held_a db d) as Hd by (unfold create_run_attempt, sql_insert_attempt in Hc; run_res Hc;
      match goal with Hx : res_bind _ _ = Ok _ |- _ => run_res Hx end; simplify_eq; apply held_refl) end.
  all: chain_held.
Qed.

Lemma heartbeat_held now t r q m wid e h db db' row :
  heartbeat_worker sha256_hex now t r q m wid e h db = Ok (db', row) → held_a db db'.
Proof.
  unfold heartbeat_worker. intros E. run_res E; simplify_eq; [|apply held_refl].
  match goal with Hh : heartbeat_worker_run_attempt _ _ _ _ _ _ _ _ _ _ _ _ = _ |- _ => rename Hh into Hx end.
  unfold heartbeat_worker_run_attempt in Hx. run_res Hx. simplify_eq. by eapply same_status_held.
Qed.

Lemma cancel_held now t r i k o db db' row :
  request_run_attempt_cancel sha256_hex now t r i k o db = Ok (db', row) → held_a db db'.
Proof.
  unfold request_run_attempt_cancel. intros E. run_res E; simplify_eq; try apply held_refl.
  - by eapply same_status_held.
  - chain_held.
Qed.

Lemma prepare_held now t r st wid db db' row :
  prepare_stale_run_attempt_reconciliation sha256_hex now t r st wid db = Ok (db', row) → held_a db db'.
Proof.
  unfold prepare_stale_run_attempt_reconciliation, transition_from. intros E. run_res E; simplify_eq;
    try apply held_refl; try (by eapply cancel_held).
  all: repeat match goal with Hi : (if _ then _ else _) = Ok _ |- _ => run_res Hi; simplify_eq end.
  all: chain_held.
Qed.

Lemma terminalize_held now t r i st reason code db db' row :
  terminalize_run_attempt sha256_hex now t r i st reason code db = Ok (db', row) →
  (st = "succeeded" → r_status <$> db_runs db !! (t, r) = Some "succeeded") → held_a db db'.
Proof.
  unfold terminalize_run_attempt. intros E Hs. run_res E; simplify_eq; try apply held_refl. by eapply transition_held.
Qed.

(** *** The life cycle *)

Lemma stage_held t r target reason result code message db db' row :
  stage_run_terminalization t r target reason result code message db = Ok (db', row) → held_l db db'.
Proof.
  unfold stage_run_terminalization. intros E. run_res E; simplify_eq; try apply held_refl.
  eapply held_insert; [eassumption|done|]. by left.
Qed.

Lemma clear_held t r db : held_l db (clear_cancel_requested_terminalization t r db).
Proof.
  unfold clear_cancel_requested_terminalization. destruct (ld_runs db !! (t, r)) eqn:E; [|apply held_refl].
  case_match; [|apply held_refl]. eapply held_insert; [eassumption|done|]. by left.
Qed.

Lemma complete_held now t r result db db' b :
  complete_run now t r result db = Ok (db', b) → held_l db db'.
Proof.
  unfold complete_run, complete_run_sql. intros E. run_res E; simplify_eq; try apply held_refl. to_prop.
  eapply held_insert; [eassumption|done|]. by right.
Qed.

Lemma finalize_held now t r target observed db db' out :
  finalize_staged_terminalization now t r target observed db = Ok (db', out) → held_l db db'.
Proof.
  unfold finalize_staged_terminalization. intros E. run_res E; simplify_eq; try apply held_refl. to_prop.
  eapply held_insert; [eassumption|done|]. simpl. intros ->. done.
Qed.

Lemma progress_held now t r db db' g :
  progress_run_terminalization now t r db = Ok (db', g) → held_l db db'.
Proof.
  unfold progress_run_terminalization. intros E. run_res E; simplify_eq; try apply held_refl; try apply clear_held.
  all: match goal with Hf : finalize_staged_terminalization _ _ _ _ _ _ = _ |- _ => exact (finalize_held _ _ _ _ _ _ _ _ Hf) end.
Qed.

Lemma terminate_held now t r target reason result code message db db' g :
  terminate_run now t r target reason result code message db = Ok (db', g) → held_l db db'.
Proof.
  unfold terminate_run. intros E. run_res E; simplify_eq.
  all: match goal with Hs : stage_run_terminalization _ _ _ _ _ _ _ _ = _ |- _ => apply stage_held in Hs end; try done.
  match goal with Hp : progress_run_terminalization _ _ _ _ = _ |- _ => apply progress_held in Hp end.
  by eapply held_trans.
Qed.

(** *** The platform *)

Lemma with_life_held {A} now (f : lifecycle_db → res (lifecycle_db * A)) p p' x :
  with_life now f p = Ok (p', x) → (∀ db db' x, f db = Ok (db', x) → held_l db db') → held_p p p'.
Proof.
  intros (d & Hd & ->)%with_life_inv Hf. apply Hf in Hd. intros k r Hr. simpl. rewrite map_lookup_imap, Hr. simpl.
  destruct (Hd k (pr_life r)) as (l & Hl & Hc & Hs); [simpl; by rewrite lookup_fmap, Hr|].
  eexists. split; [done|]. by rewrite Hl.
Qed.

Lemma put_attempts_held db p : held_a (attempt_view p) db → held_p p (put_attempt_view db p).
Proof.
  intros Hd k r Hr. simpl. rewrite map_lookup_imap, Hr. simpl.
  destruct (Hd k (attempt_run r)) as (a & Ha & Hc & Hs); [simpl; by rewrite lookup_fmap, Hr|].
  eexists. split; [done|]. by rewrite Ha.
Qed.

Lemma with_attempts_held {A} (f : attempt_db → res (attempt_db * A)) p p' x :
  with_attempts f p = Ok (p', x) → (∀ db db' x, f db = Ok (db', x) → held_a db db') → held_p p p'.
Proof. intros (d & Hd & ->)%with_attempts_inv Hf. by eapply put_attempts_held, Hf. Qed.

Lemma terminalize_p_held now t r i st reason code p p' out :
  terminalize sha256_hex now t r i st reason code p = Ok (p', out) →
  pr_status <$> pd_runs p !! (t, r) = Some st → held_p p p'.
Proof.
  unfold terminalize. intros E Hs. run_res E. simplify_eq.
  match goal with Hw : with_attempts _ _ = _ |- _ => apply with_attempts_inv in Hw as (d' & Hd & ->) end.
  assert (held_p p (put_attempt_view d' p)) as Hh.
  { apply put_attempts_held. eapply terminalize_held; [exact Hd|]. intros ->. simpl. rewrite lookup_fmap.
    destruct (pd_runs p !! (t, r)); [|done]. simpl in *. congruence. }
  repeat case_match; simplify_eq; try done.
  match goal with Hc : call_port _ _ = _ |- _ => by apply call_port_outside in Hc as [? ->] end.
Qed.

Lemma after_end_held t r terminal did p p' : after_end t r terminal did p = Ok p' → held_p p p'.
Proof. intros [o ->]%after_end_outside. apply held_refl. Qed.

Lemma complete_v4_held now t r result p p' b :
  complete_run_with_v4 now t r result p = Ok (p', b) → held_p p p'.
Proof.
  unfold complete_run_with_v4. intros E. run_res E. simplify_eq.
  eapply held_trans; [eapply with_life_held; [eassumption|]|by eapply after_end_held]. intros. by eapply complete_held.
Qed.

Lemma fail_v4_held now t r code message result reason p p' g :
  fail_run_with_v4 now t r code message result reason p = Ok (p', g) → held_p p p'.
Proof.
  unfold fail_run_with_v4. intros E. run_res E. simplify_eq.
  eapply held_trans; [eapply with_life_held; [eassumption|]|by eapply after_end_held].
  unfold fail_run. intros ? ? ? Ef. run_res Ef. by eapply terminate_held.
Qed.

Lemma cancel_v4_held now t r result p p' g :
  cancel_run_with_v4 now t r result p = Ok (p', g) → held_p p p'.
Proof.
  unfold cancel_run_with_v4. intros E. run_res E. simplify_eq.
  eapply held_trans; [eapply with_life_held; [eassumption|]|by eapply after_end_held].
  unfold cancel_run. intros ? ? ? Ef. run_res Ef. by eapply terminate_held.
Qed.

Lemma progress_v4_held now t r p p' g :
  progress_run_terminalization_with_v4 now t r p = Ok (p', g) → held_p p p'.
Proof.
  unfold progress_run_terminalization_with_v4. intros E. run_res E; simplify_eq.
  all: match goal with Hw : with_life _ _ _ = _ |- _ =>
    apply with_life_held in Hw; [|intros; by eapply progress_held] end; try done.
  eapply held_trans; [eassumption|by eapply after_end_held].
Qed.

Lemma follow_held now w attempt ended s reason code p p' :
  terminalize_current sha256_hex now w attempt ended s reason code p = Ok p' →
  (ended = true → pr_status <$> pd_runs p !! (w_tenant_id w, w_run_id w) = Some s) → held_p p p'.
Proof.
  unfold terminalize_current. intros E Hends. destruct attempt as [a|], ended; simplify_eq; try apply held_refl.
  run_res E. simplify_eq. eapply terminalize_p_held; [eassumption|]. by apply Hends.
Qed.

Lemma worker_complete_held now w result p p' b :
  worker_complete sha256_hex now w result p = Ok (p', b) → pjoint p → held_p p p'.
Proof.
  unfold worker_complete. intros E Hj. run_res E; simplify_eq; [apply held_refl|].
  match goal with Hd : record_diagnostics _ _ _ _ _ = _ |- _ => apply diagnostics_outside in Hd as [o' ->] end.
  match goal with Hc : complete_run_with_v4 _ _ _ _ _ = _ |- _ =>
    pose proof (complete_v4_held _ _ _ _ _ _ _ Hc) as Hh; pose proof (complete_v4_ends sha256_hex _ _ _ _ _ _ _ Hc Hj) as Hends end.
  eapply held_trans; [exact Hh|]. eapply follow_held; [eassumption|]. intros ->. by destruct Hends.
Qed.

Lemma worker_fail_held now w code message result p p' b :
  worker_fail sha256_hex now w code message result p = Ok (p', b) → pjoint p → held_p p p'.
Proof.
  unfold worker_fail. intros E Hj. run_res E; simplify_eq; [apply held_refl|].
  match goal with Hd : record_diagnostics _ _ _ _ _ = _ |- _ => apply diagnostics_outside in Hd as [o' ->] end.
  match goal with Hc : fail_run_with_v4 _ _ _ _ _ _ _ _ = _ |- _ =>
    pose proof (fail_v4_held _ _ _ _ _ _ _ _ _ _ Hc) as Hh;
    apply (fail_v4_ends sha256_hex) in Hc as [(Hg & _)|(-> & Hends)]; [| |done] end.
  all: eapply held_trans; [exact Hh|]; eapply follow_held; [eassumption|].
  - by rewrite (terminal_of_none _ _ Hg).
  - by destruct Hends.
Qed.

Lemma worker_cancel_held now w result p p' b :
  worker_cancel sha256_hex now w result p = Ok (p', b) → admitted w p → pjoint p → held_p p p'.
Proof.
  unfold worker_cancel. intros E Hadm Hj. run_res E; simplify_eq; [apply held_refl|].
  match goal with Hc : current_attempt _ _ = _ |- _ => pose proof (current_attempt_spec _ _ _ Hc Hadm) as Hcur end.
  match goal with Hr : match ?a with Some _ => with_attempts _ _ | None => _ end = Ok (?q, _) |- _ =>
    destruct (request_current _ _ _ _ _ _ _ _ Hr Hcur Hj) as [Hj1 Hcur1];
    assert (held_p p q) as Hh1 by (destruct a; [eapply with_attempts_held; [exact Hr|intros; by eapply cancel_held]|
      injection Hr as <- _; apply held_refl]) end.
  match goal with Hd : match result with Some _ => _ | None => _ end = Ok (?q, _) |- _ =>
    assert (∃ o, q = set_outside o d) as [o' ->] end.
  { repeat case_match; simplify_eq; eauto using diagnostics_outside, outside_refl. }
  match goal with Hc : cancel_run_with_v4 _ _ _ _ _ = _ |- _ =>
    pose proof (cancel_v4_held _ _ _ _ _ _ _ Hc) as Hh2;
    apply (cancel_v4_ends sha256_hex) in Hc as [(Hg & _)|(-> & Hends)]; [| |done] end.
  all: eapply held_trans; [exact Hh1|]; eapply held_trans; [exact Hh2|]; eapply follow_held; [eassumption|].
  - by rewrite (terminal_of_none _ _ Hg).
  - by destruct Hends.
Qed.

Lemma finish_held now t r i code p p' g :
  finish_run_terminalization sha256_hex now t r i code p = Ok (p', g) → pjoint p → held_p p p'.
Proof.
  unfold finish_run_terminalization. intros E Hj.
  destruct (progress_run_terminalization_with_v4 now t r p) as [[d o]|] eqn:Hp; simpl in E; [|done].
  destruct (progress_v4_ends sha256_hex _ _ _ _ _ _ Hp Hj) as [_ Hends]. apply progress_v4_held in Hp.
  destruct i as [i|], o as [g0|]; try (by simplify_eq). simpl in Hends.
  destruct (progress_is_terminal None g0); [|by simplify_eq]. destruct Hends as (s & Hs & [_ _ Hst]).
  injection Hs as Hs. rewrite Hs in E. simpl in E. run_res E. simplify_eq.
  eapply held_trans; [exact Hp|]. by eapply terminalize_p_held.
Qed.

Lemma record_request_held now t r u message payload run p p' i :
  record_request sha256_hex now t r u message payload run p = Ok (p', i) → pd_runs p !! (t, r) = Some run → held_p p p'.
Proof.
  unfold record_request. intros E Hr.
  set (p1 := set_pd_runs _ p) in *. set (e := cancel_event _ _ _ _ _) in *.
  assert (held_p p p1) as Hh1.
  { eapply held_insert; [exact Hr| |by left]. unfold pr_cancel_requested_at. simpl. by intros c ->. }
  set (p2 := if bool_decide _ then add_event now e p1 else p1) in *.
  assert (pd_runs p2 = pd_runs p1) as Hv by (unfold p2; by case_bool_decide).
  rewrite <- Hv in Hh1. clearbody p2. run_res E. simplify_eq.
  match goal with Hw : with_life _ _ ?q = _ |- _ => rename q into p3;
    apply with_life_held in Hw; [|intros; by eapply stage_held] end.
  eapply held_trans; [|eassumption]. eapply held_trans; [exact Hh1|].
  match goal with Hm : match _ with Some _ => _ | None => _ end = Ok p3 |- _ => rename Hm into Hatt end.
  destruct (a_id <$> _) as [a|]; [|simplify_eq; apply held_refl].
  destruct (String.eqb _ _) in Hatt; [|simplify_eq; apply held_refl].
  run_res Hatt. simplify_eq. eapply with_attempts_held; [eassumption|]. intros. by eapply cancel_held.
Qed.

Lemma finish_request_runs now t authority g p p' c :
  finish_request sha256_hex now t authority g p = Ok (p', c) →
  ca_attempt_id authority = None ∨ g = None → pd_runs p' = pd_runs p.
Proof.
  unfold finish_request. intros E Hor. run_res E. simplify_eq.
  match goal with Hm : match ca_attempt_id authority with _ => _ end = Ok ?q |- _ => assert (q = p) as -> end; [|done].
  by destruct Hor as [Hn|Hn]; rewrite Hn in *; repeat case_match; simplify_eq.
Qed.

Lemma progress_context_held now t r p p' g :
  progress_run_terminalization_with_context now t r p = Ok (p', g) → held_p p p'.
Proof.
  unfold progress_run_terminalization_with_context. intros E. run_res E. simplify_eq.
  match goal with Hc : (if _ then _ else _) = Ok _ |- _ => apply port_if in Hc as [o' ->] end.
  match goal with Hw : with_life _ _ _ = _ |- _ => apply (with_life_held _ _ _ _ _ Hw) end.
  intros. by eapply progress_held.
Qed.

Lemma finish_authorized_held now t authority p p' c :
  finish_authorized_request sha256_hex now t authority p = Ok (p', c) → held_p p p'.
Proof.
  unfold finish_authorized_request. intros E. destruct authority as [x|]; [|simplify_eq; apply held_refl].
  run_res E. simplify_eq. assert (∃ o, x0 = set_outside o p) as [o1 ->].
  { destruct (ca_attempt_id x); [by eapply call_port_outside|]. injection Heqr as <-. apply outside_refl. }
  apply port_if in Heqr0 as [o2 ->]. apply port_if in Heqr2 as [o4 ->].
  apply finish_request_runs in Heqr3 as ->.
  - destruct (_ && _) eqn:Eb in Heqr1; to_prop; [by apply progress_context_held in Heqr1|].
    simplify_eq. apply held_refl.
  - destruct (_ && _) eqn:Eb in Heqr1; to_prop; [by left|right; by simplify_eq].
Qed.

Lemma owner_request_held now t r u p p' c :
  request_owner_cancel sha256_hex now t r u p = Ok (p', c) → held_p p p'.
Proof.
  unfold request_owner_cancel, begin_owner_request. intros E. run_res E.
  match goal with Hb : match eligible_run _ _ _ _ with _ => _ end = _ |- _ => rename Hb into Hbegin end.
  destruct (eligible_run _ _ _ _) as [run|] eqn:He in Hbegin; run_res Hbegin; simplify_eq;
    [|simpl in E; simplify_eq; apply held_refl].
  apply eligible_found in He. eapply held_trans; [by eapply record_request_held|by eapply finish_authorized_held].
Qed.

Lemma admin_request_held now t r u p p' c :
  request_admin_cancel sha256_hex now t r u p = Ok (p', c) → held_p p p'.
Proof.
  unfold request_admin_cancel, begin_admin_request. intros E. run_res E.
  match goal with Hb : match eligible_run _ _ _ _ with _ => _ end = _ |- _ => rename Hb into Hbegin end.
  destruct (eligible_run _ _ _ _) as [run|] eqn:He in Hbegin; run_res Hbegin; simplify_eq;
    [|simpl in E; simplify_eq; apply held_refl].
  apply eligible_found in He. eapply held_trans; [by eapply record_request_held|by eapply finish_authorized_held].
Qed.

Lemma stage_stale_held now t ws u r st sb cb ts code message p p' b :
  stage_stale_run_reconciliation now t ws u r st sb cb ts code message p = Ok (p', b) → held_p p p'.
Proof.
  unfold stage_stale_run_reconciliation, get_run. intros E. run_res E; simplify_eq; try apply held_refl.
  eapply held_insert; [eassumption| |]; [done|by left].
Qed.

Lemma stage_candidate_held now c p p' out : stage_candidate sha256_hex now c p = Ok (p', out) → held_p p p'.
Proof.
  unfold stage_candidate. intros E. run_res E; simplify_eq.
  all: match goal with Hs : stage_stale_run_reconciliation _ _ _ _ _ _ _ _ _ _ _ _ = _ |- _ => apply stage_stale_held in Hs end; try done.
  eapply held_trans; [eassumption|]. eapply with_attempts_held; [eassumption|]. intros. by eapply prepare_held.
Qed.

Lemma end_v4_held (b : bool) now t r code message result1 result2 reason p p' g :
  (if b then cancel_run_with_v4 now t r result1 p else fail_run_with_v4 now t r code message result2 reason p)
    = Ok (p', g) → held_p p p'.
Proof. destruct b; [apply cancel_v4_held|apply fail_v4_held]. Qed.

Lemma receipt_held now t r lease i claim capture continuation p p' g :
  reconciliation_failure_transaction sha256_hex now t r lease i claim capture continuation p = Ok (p', g) →
  pjoint p → held_p p p'.
Proof.
  intros [[o ->]|(o & p1 & p2 & g' & b & code & message & result1 & result2 & reason & reason' & code' & Hp1 & Hp2 & Hp3)]%receipt_parts Hj;
    [apply held_refl|].
  assert (pjoint p1 ∧ held_p p p1) as [Hj1 Hh1].
  { destruct Hp1 as [->|(i0 & out & -> & Hc)]; [split; [done|apply held_refl]|]. split; [by eapply cancel_attempt_joint|].
    apply (with_attempts_held _ _ _ _ Hc). intros. by eapply cancel_held. }
  eapply held_trans; [exact Hh1|]. pose proof (end_v4_held _ _ _ _ _ _ _ _ _ _ _ _ Hp2) as Hh2.
  eapply held_trans; [exact Hh2|].
  destruct (end_v4_ends sha256_hex _ _ _ _ _ _ _ _ _ _ _ _ Hp2 Hj1) as [(Hg & _)|(s & Hg & Hs & [_ _ Hst])]; rewrite Hg in Hp3.
  - destruct i; subst; apply held_refl.
  - rewrite Hs in Hp3. simpl in Hp3. destruct i as [i|]; [|subst; apply held_refl].
    destruct Hp3 as [out Hp3]. by eapply terminalize_p_held.
Qed.

Lemma step_held p p' : platform_step p p' → pjoint p → held_p p p'.
Proof.
  destruct 1 as [p p' [Ha Hr]|now w spec p p' a E|now t r q m wid e h p p' a E| | | | | | | |]; intros Hj;
    eauto using worker_complete_held, worker_fail_held, worker_cancel_held, owner_request_held, admin_request_held,
      stage_candidate_held, finish_held, receipt_held.
  - intros k r Hk. destruct (Hr k r Hk) as (r' & Hk' & Hs & Hc). exists r'. rewrite Hs, Hc. split_and!; auto.
  - unfold bind_execution_spec in E. run_res E. simplify_eq. eapply with_attempts_held; [eassumption|].
    intros. by eapply start_held.
  - eapply with_attempts_held; [exact E|]. intros. by eapply heartbeat_held.
Qed.

Lemma empty_joint p : pd_attempts p = [] → pjoint p.
Proof.
  intros Hnil. split; simpl; rewrite ?Hnil.
  - split; simpl; rewrite ?Hnil; [done|]. intros i j a b _ Ha. by rewrite lookup_nil in Ha.
  - intros a b Ha. by apply elem_of_nil in Ha.
  - intros a Ha. by apply elem_of_nil in Ha.
Qed.

Lemma steps_joint p p' : rtc platform_step p p' → pjoint p → pjoint p'.
Proof. induction 1; eauto using step_joint. Qed.

Lemma steps_held p p' : rtc platform_step p p' → pjoint p → held_p p p'.
Proof.
  intros Hs. induction Hs as [|p1 p2 p3 Hstep _ IH]; intros Hj; [apply held_refl|].
  eapply held_trans; [by eapply step_held|]. apply IH. by eapply step_joint.
Qed.

(** C2.  A run and its attempt agree: starting from a database without attempts, after
    every sequence of the transactions of [platform_step] (workers that bind, heartbeat
    and end, cancel requests, the reconciler, failed receipts, other modules) each
    attempt's run shows the projection of the attempt's status, so that an ended run
    has no open attempt and a run with an ended attempt has ended the same way, and no
    run has two attempts.  A worker that ends a run is one admitted for it (if the run
    has an attempt, it is the worker's), and whoever finishes a staged end or a failed
    receipt names the run's attempt.  The handler of an exception that escaped a worker
    is not among the transactions: it ends the run and leaves its attempt open
    ([escaped_end_leaves_attempt_open] in [OrphanedRuns]). *)
Theorem run_mirrors_its_attempt p p' :
  pd_attempts p = [] → rtc platform_step p p' →
  (∀ a, a ∈ pd_attempts p' → ∃ r, pd_runs p' !! akey a = Some r ∧
     pr_status r = projected_run_status (a_status a) ∧
     (is_terminal (pr_status r) = true ∨ is_terminal (a_status a) = true → a_status a = pr_status r)) ∧
  (∀ a b, a ∈ pd_attempts p' → b ∈ pd_attempts p' → akey a = akey b → a = b).
Proof.
  intros Hj%empty_joint Hs. destruct (steps_joint _ _ Hs Hj) as [Hc Hsi Hm]. split.
  - intros a Ha. destruct (Hm a Ha) as (r & Hr & Hst); [done|]. simpl in Hr. rewrite lookup_fmap in Hr.
    destruct (pd_runs p' !! akey a) as [pr|] eqn:E; simpl in Hr; [|done]. injection Hr as <-.
    exists pr. split_and!; [done..|]. intros Ht. change (pr_status pr = projected_run_status (a_status a)) in Hst.
    apply list_elem_of_lookup in Ha as [n Hn].
    destruct (row_checks_parts _ _ (Forall_lookup_1 _ _ _ _ (ac_checks _ _ Hc) Hn)) as (Hin & _).
    destruct (status_cases _ Hin) as [(Hp & _ & Hf)|[(Hp & _ & Hf)|(Hp & _ & _)]]; [..|congruence].
    all: rewrite Hst, Hp in Ht; destruct Ht as [Ht|Ht]; [done|congruence].
  - intros a b Ha Hb Hk. eapply (consistent_same_row _ _ _ _ Hc Ha Hb). by apply Hsi.
Qed.

(** C9.  A recorded cancel request wins: once a cancel request stands on a run that has
    not succeeded, no sequence of the transactions of [platform_step], of whatever
    workers and reconcilers, lets the run succeed or forgets the request; and once the
    request has reached the run's attempt, the run does not fail either: it runs on or
    is cancelled. *)
Theorem cancel_request_wins p0 p p' k r c :
  pd_attempts p0 = [] → rtc platform_step p0 p →
  pd_runs p !! k = Some r → pr_cancel_requested_at r = Some c → pr_status r ≠ "succeeded" →
  rtc platform_step p p' →
  ∃ r', pd_runs p' !! k = Some r' ∧ pr_cancel_requested_at r' = Some c ∧ pr_status r' ≠ "succeeded" ∧
    ((∃ a, a ∈ pd_attempts p ∧ akey a = k ∧ a_status a = "cancel_requested") →
     pr_status r' = "running" ∨ pr_status r' = "cancelled").
Proof.
  intros Hj%empty_joint Hs0 Hr Hc Hst Hs. apply (steps_joint _ _ Hs0) in Hj.
  destruct (steps_held _ _ Hs Hj k r Hr) as (r' & Hr' & Hc' & Hs'). exists r'. split_and!; [done|by auto| |].
  { intros E. destruct (Hs' E); congruence. }
  intros (a & Hin & Hk & Ha).
  destruct (steps_asked _ _ _ a (steps_path _ _ _ Hs) (j_consistent _ _ _ Hj) Hin) as (a' & Hin' & Hk' & Ha').
  { unfold asked. by rewrite Ha. }
  destruct (j_mirrors _ _ _ (steps_joint _ _ Hs Hj) a' Hin') as (rr & Hrr & Hm); [done|].
  simpl in Hrr. rewrite Hk', Hk, lookup_fmap, Hr' in Hrr. simpl in Hrr. injection Hrr as <-.
  change (pr_status r' = projected_run_status (a_status a')) in Hm. rewrite Hm. unfold asked in Ha'.
  rewrite str_in_elem, !elem_of_cons, elem_of_nil in Ha'. destruct Ha' as [->|[->|[]]]; auto.
Qed.

End Safety.

(** ** Examples *)

Lemma wit_admitted : admitted wit_worker wit_asked.
Proof.
  intros _ a Ha _. assert (Forall (fun a => a_queue_attempt_id a = "q"%string) (pd_attempts wit_asked)) as Hf
    by (vm_compute; repeat constructor).
  exact (proj1 (Forall_forall _ _) Hf a Ha).
Qed.
Lemma wit_path1 : rtc (platform_step toy_digest) wit_pdb wit_asked.
Proof.
  destruct wit_bind_ok as [a Hb], wit_ask_ok as [c Ha]. eapply rtc_l; [exact (ps_bind _ _ _ _ _ _ _ Hb)|].
  apply rtc_once. exact (ps_owner_cancel _ _ _ _ _ _ _ _ Ha).
Qed.
Lemma wit_path2 : rtc (platform_step toy_digest) wit_asked wit_settled.
Proof. apply rtc_once. exact (ps_cancel _ _ _ _ _ _ _ wit_admitted wit_settle_ok). Qed.

Lemma run_mirrors_its_attempt_witness :
  (∀ a, a ∈ pd_attempts wit_settled → ∃ r, pd_runs wit_settled !! akey a = Some r ∧
     pr_status r = projected_run_status (a_status a) ∧
     (is_terminal (pr_status r) = true ∨ is_terminal (a_status a) = true → a_status a = pr_status r)) ∧
  (∀ a b, a ∈ pd_attempts wit_settled → b ∈ pd_attempts wit_settled → akey a = akey b → a = b).
Proof.
  refine (run_mirrors_its_attempt toy_digest wit_pdb wit_settled _ _); [reflexivity|].
  etransitivity; [exact wit_path1|exact wit_path2].
Defined.

Lemma wit_asked_attempt :
  ∃ a, a ∈ pd_attempts wit_asked ∧ akey a = ("t", "r")%string ∧ a_status a = "cancel_requested"%string.
Proof.
  assert (Exists (fun a => akey a = ("t", "r")%string ∧ a_status a = "cancel_requested"%string) (pd_attempts wit_asked)) as Hx
    by (vm_compute; constructor; split; reflexivity).
  apply Exists_exists in Hx as (a & Hin & Hk & Ha). by exists a.
Qed.

Lemma cancel_request_wins_witness :
  ∃ r', pd_runs wit_settled !! ("t", "r")%string = Some r' ∧ pr_cancel_requested_at r' = Some 8 ∧
    pr_status r' ≠ "succeeded"%string ∧
    ((∃ a, a ∈ pd_attempts wit_asked ∧ akey a = ("t", "r")%string ∧ a_status a = "cancel_requested"%string) ∧
     (pr_status r' = "running"%string ∨ pr_status r' = "cancelled"%string)).
Proof.
  destruct (cancel_request_wins toy_digest wit_pdb wit_asked wit_settled ("t", "r")%string
    (default wit_prun (pd_runs wit_asked !! ("t", "r")%string)) 8) as (r' & H1 & H2 & H3 & H4).
  - reflexivity.
  - exact wit_path1.
  - vm_compute. reflexivity.
  - vm_compute. reflexivity.
  - vm_compute. discriminate.
  - exact wit_path2.
  - exists r'. split; [exact H1|]. split; [exact H2|]. split; [exact H3|].
    split; [exact wit_asked_attempt|exact (H4 wit_asked_attempt)].
Defined.
