(* ===== verification/OrphanedRuns.v ===== *)
(** * Runs without an owner: what recovery does and what it leaves

    The sweep over stale runs ([StaleReconciliation]) lists the right candidates in the
    right order, and fails a stale run together with its attempt.  Two paths do not
    recover: a run whose cancellation was asked for is listed but never settled by the
    sweep, and a worker whose processing raised ends the run without its attempt. *)
From stdpp Require Import base gmap list strings.
From Stdlib Require Import ZArith Lia Ascii Sorted.
From S2P Require Import Prelude QueueRuntime PyValue RunAttempt RunAttemptFacts RunLifecycle RunLifecycleFacts Platform PlatformFacts WorkerLifecycle Cancellation StaleReconciliation PlatformExample PlatformTrace PlatformSafety.
#[local] Open Scope py_scope.

Section Orphans.
Context `{PyRuntime} `{LifecyclePorts} {O : Type} `{PlatformPorts O} (sha256_hex : string → string).
Implicit Types (p : pdb O).
Notation pjoint p := (joint_except sha256_hex None (attempt_view p)).

(** ** Staged ends *)

Lemma staged_not_matched t ws u r st sb cb ts run p :
  pr_target run ≠ None → stale_matches t ws u r st sb cb ts run p = false.
Proof.
  intros Hne. unfold stale_matches. rewrite (bool_decide_false _ Hne). by rewrite !andb_false_r.
Qed.

(** C22.  A run with a staged end is never settled by the sweep.  A cancel request on a
    running run stages the end as [cancel_requested]; when its worker disappears the
    run becomes a candidate of the sweep, but the compare-and-set that settles a
    candidate wants nothing staged, so every sweep loses it and changes nothing. *)
Theorem staged_cancel_is_never_reconciled now1 now2 text_le clock stale_after limit c p run :
  c ∈ list_stale_run_reconciliation_candidates text_le clock stale_after
        (Some CANCEL_REQUESTED_ORPHAN_RECONCILIATION_SECONDS) limit p →
  pd_runs p !! (sc_tenant_id c, sc_run_id c) = Some run → pr_target run ≠ None →
  sc_tenant_id c ≠ "" → sc_workspace c ≠ "" → sc_run_id c ≠ "" → str_in (sc_status c) ["queued"; "running"] = true →
  reconcile_candidate sha256_hex now1 now2 (FenceHeld None) c p
  = (p, Some (SweepResult (sc_tenant_id c) (sc_run_id c) (Some "cas_lost") false)).
Proof.
  intros _ Hrun Hstaged Ht Hw Hr Hs. unfold reconcile_candidate.
  assert (∀ s, s ≠ "" → str_truthy s = true) as Htr by (intros s; by destruct s).
  rewrite (Htr _ Ht), (Htr _ Hw), (Htr _ Hr), Hs. cbn [negb orb live].
  unfold stage_candidate, stage_stale_run_reconciliation, get_run. rewrite Hs, Hrun. cbn [negb].
  destruct (bool_decide (sc_cancel_requested_at c = None)); rewrite staged_not_matched by done; done.
Qed.

(** ** The candidates of the sweep *)

Lemma insert_by_perm {A} (le : A → A → bool) x l : insert_by le x l ≡ₚ x :: l.
Proof.
  induction l as [|y l IH]; simpl; [done|]. destruct (le x y); [done|]. rewrite IH. apply Permutation_swap.
Qed.
Lemma sort_by_perm {A} (le : A → A → bool) l : sort_by le l ≡ₚ l.
Proof. induction l as [|x l IH]; simpl; [done|]. by rewrite insert_by_perm, IH. Qed.

Lemma take_elem {A} n (l : list A) x : x ∈ take n l → x ∈ l.
Proof. intros Hx. rewrite <- (take_drop n l). apply elem_of_app. by left. Qed.

Lemma candidate_sound text_le clock stale_after cancel_after limit p c :
  c ∈ list_stale_run_reconciliation_candidates text_le clock stale_after cancel_after limit p →
  ∃ r, pd_runs p !! (sc_tenant_id c, sc_run_id c) = Some r ∧ c = candidate_of (sc_tenant_id c, sc_run_id c) r p ∧
    is_candidate clock (Z.max stale_after 1) (Z.max (default (Z.max stale_after 1) cancel_after) 1)
      (sc_tenant_id c, sc_run_id c) r p = true.
Proof.
  unfold list_stale_run_reconciliation_candidates. intros Hc%take_elem. rewrite sort_by_perm in Hc.
  apply list_elem_of_fmap in Hc as ([[t r] run] & -> & Hin). apply list_elem_of_In, filter_In in Hin as [Hin Hcand].
  apply list_elem_of_In, elem_of_map_to_list in Hin. exists run. by split_and!.
Qed.

Definition stalest (a b : stale_candidate) : Prop := sc_stale_before a ≤ sc_stale_before b.

Lemma insert_sorted text_le x l :
  StronglySorted stalest l → StronglySorted stalest (insert_by (candidate_le text_le) x l).
Proof.
  induction l as [|y l IH]; simpl; intros Hs; [by repeat constructor|].
  assert (if candidate_le text_le x y then stalest x y else stalest y x) as Hle.
  { unfold candidate_le, stalest. destruct (Z.eqb_spec (sc_stale_before x) (sc_stale_before y)) as [E|].
    - repeat case_match; lia.
    - destruct (Z.ltb_spec (sc_stale_before x) (sc_stale_before y)); lia. }
  apply StronglySorted_inv in Hs as [Hs Hf]. destruct (candidate_le text_le x y).
  - constructor; [by constructor|]. constructor; [done|]. eapply Forall_impl; [exact Hf|]. unfold stalest in *. intros z Hz. simpl in Hz. lia.
  - constructor; [by apply IH|]. rewrite insert_by_perm. by constructor.
Qed.

Lemma sorted_candidates text_le l : StronglySorted stalest (sort_by (candidate_le text_le) l).
Proof. induction l as [|x l IH]; simpl; [constructor|]. by apply insert_sorted. Qed.

Lemma sorted_prefix n l x :
  StronglySorted stalest l → x ∈ l → x ∈ take n l ∨ (length (take n l) = n ∧ ∀ c, c ∈ take n l → stalest c x).
Proof.
  intros Hs Hx. rewrite <- (take_drop n l) in Hx. apply elem_of_app in Hx as [Hx|Hx]; [by left|right].
  split.
  - apply length_take_le. destruct (le_lt_dec (length l) n) as [Hle|]; [|lia]. rewrite drop_ge in Hx by done.
    by apply elem_of_nil in Hx.
  - intros c Hc. revert l Hs Hx Hc. induction n as [|n IH]; intros l Hs Hx Hc; [by apply elem_of_nil in Hc|].
    destruct l as [|y l]; [by apply elem_of_nil in Hc|]. simpl in *. apply StronglySorted_inv in Hs as [Hs Hf].
    apply elem_of_cons in Hc as [->|Hc]; [|by eapply IH]. rewrite Forall_forall in Hf. apply Hf.
    rewrite <- (take_drop n l). apply elem_of_app. by right.
Qed.

(** A sweep takes the stalest runs and no more than it may: it lists at most the
    given number of runs, between 1 and 50; each is open, has no active sandbox and
    was quiet for long enough; and an eligible run is left out only when the list is
    full of runs that were quiet for at least as long. *)
Lemma sweep_takes_the_stalest text_le clock stale_after cancel_after limit p :
  let listed := list_stale_run_reconciliation_candidates text_le clock stale_after cancel_after limit p in
  let bound := Z.max 1 (Z.min limit 50) in
  let eligible := is_candidate clock (Z.max stale_after 1) (Z.max (default (Z.max stale_after 1) cancel_after) 1) in
  Z.of_nat (length listed) ≤ bound ≤ 50 ∧
  (∀ c, c ∈ listed → ∃ k r, pd_runs p !! k = Some r ∧ c = candidate_of k r p ∧ eligible k r p = true) ∧
  (∀ k r, pd_runs p !! k = Some r → eligible k r p = true →
     candidate_of k r p ∈ listed ∨
     (Z.of_nat (length listed) = bound ∧
      ∀ c, c ∈ listed → sc_stale_before c ≤ run_last_activity k.1 k.2 r p)).
Proof.
  intros listed bound eligible. split_and!; try lia.
  - unfold listed, list_stale_run_reconciliation_candidates. rewrite length_take. lia.
  - intros c (r & Hr & Hc & He)%candidate_sound. eauto.
  - intros k r Hr He.
    assert (candidate_of k r p ∈ sort_by (candidate_le text_le) ((fun kr => candidate_of kr.1 kr.2 p) <$>
      List.filter (fun kr => eligible kr.1 kr.2 p) (map_to_list (pd_runs p)))) as Hin.
    { rewrite sort_by_perm. apply list_elem_of_fmap. exists (k, r). split; [done|]. apply list_elem_of_In, filter_In.
      split; [|done]. by apply list_elem_of_In, elem_of_map_to_list. }
    destruct (sorted_prefix (Z.to_nat bound) _ _ (sorted_candidates _ _) Hin) as [?|[Hlen Hall]]; [by left|right].
    split; [|exact Hall]. unfold listed, list_stale_run_reconciliation_candidates. fold bound. fold eligible.
    rewrite Hlen. lia.
Qed.

(** ** A worker whose processing raised *)

Lemma open_not_terminal run :
  str_in (pr_status run) ["queued"; "running"] = true → run_is_terminal (pr_life run) = false.
Proof.
  unfold run_is_terminal, pr_status. rewrite str_in_elem, !elem_of_cons, elem_of_nil. by intros [->|[->|[]]].
Qed.

Lemma fail_uncontested now t r code message result reason p p' g run :
  fail_run_with_v4 now t r code message result reason p = Ok (p', g) → pjoint p →
  pd_runs p !! (t, r) = Some run → str_in (pr_status run) ["queued"; "running"] = true → pr_target run = None →
  g = RunTerminalizationProgress true (Some "failed") true ∧ ends sha256_hex t r "failed" p p'.
Proof.
  intros E Hj Hrun Hopen Htg. pose proof (fail_v4_ends sha256_hex _ _ _ _ _ _ _ _ _ _ E Hj) as [(Hg & _)|?]; [|done].
  exfalso. unfold fail_run_with_v4 in E. run_res E. simplify_eq.
  match goal with Hw : with_life _ _ _ = _ |- _ => apply with_life_inv in Hw as (x & Hf & ->) end.
  unfold fail_run in Hf. run_res Hf. eapply terminate_forced in Hf; [| |exact (open_not_terminal _ Hopen)| |done].
  - by rewrite Hf in Hg.
  - simpl. by rewrite lookup_fmap, Hrun.
  - unfold pr_target in Htg. by rewrite Htg.
Qed.

(** What the transaction does to an open run with nothing recorded. *)
Lemma escaped_parts now payload q i worker_id message evidence p p' x run :
  escaped_transaction sha256_hex now payload q i worker_id message evidence p = Ok (p', x) → pjoint p →
  pd_runs p !! (pi_tenant_id payload, pi_run_id payload) = Some run →
  str_in (pr_status run) ["queued"; "running"] = true → cancel_recorded run = false → pr_target run = None →
  match x with
  | inl out => wo_status out ≠ "failed"
  | inr (j, g) =>
      g = RunTerminalizationProgress true (Some "failed") true ∧
      ends sha256_hex (pi_tenant_id payload) (pi_run_id payload) "failed" p p' ∧
      ∃ a, a ∈ pd_attempts p ∧ akey a = (pi_tenant_id payload, pi_run_id payload) ∧ a_queue_attempt_id a = q ∧
        is_terminal (a_status a) = false
  end.
Proof.
  unfold escaped_transaction, get_run. intros E Hj Hrun Hopen Hnc Htg. rewrite Hrun, Hnc in E.
  destruct (negb _) eqn:Eid in E; [by simplify_eq|].
  assert (str_in (pr_status run) ["succeeded"; "failed"; "cancelled"] = false) as Hnt.
  { rewrite str_in_elem, !elem_of_cons, elem_of_nil in Hopen. by destruct Hopen as [->|[->|[]]]. }
  rewrite Hnt in E. run_res E; simplify_eq; [|done].
  match goal with Hc : call_port _ _ = _ |- _ => apply call_port_outside in Hc as [o1 ->] end.
  match goal with Hd : match record_result_diagnostics with _ => _ end = Ok ?y |- _ =>
    assert (∃ o, y = set_outside o p) as [o2 ->] end.
  { destruct record_result_diagnostics; run_res Heqr1; simplify_eq; by eexists. }
  match goal with Hf : fail_run_with_v4 _ _ _ _ _ _ _ _ = _ |- _ =>
    apply (fail_uncontested _ _ _ _ _ _ _ (set_outside o2 p) _ _ run) in Hf as [-> [Ha Hh Hs]]; try done end.
  split_and!; [done|by split|].
  match goal with Hc : assert_worker_run_attempt_current _ _ _ _ _ = _ |- _ => unfold assert_worker_run_attempt_current in Hc; run_res Hc end.
  simplify_eq. unfold get_run_attempt_for_queue_attempt in *.
  match goal with Hg : List.find _ _ = Some _ |- _ => apply find_lookup in Hg as (n & Hn & Hx) end. to_prop.
  eexists. split_and!; [by eapply list_elem_of_lookup_2| |done|done]. unfold akey. congruence.
Qed.

(** A worker whose processing raised ends the run without its attempt.  Whenever
    [_terminalize_escaped_process_exception] reports a run failed that was open, had
    no cancel request and nothing staged, the run has failed but the attempts are as
    they were: the worker's attempt is still open. *)
Lemma escaped_end_leaves_attempt_open now1 now2 payload q raw worker_id text evidence p p' out run :
  pjoint p → pd_runs p !! (pi_tenant_id payload, pi_run_id payload) = Some run →
  str_in (pr_status run) ["queued"; "running"] = true → cancel_recorded run = false → pr_target run = None →
  terminalize_escaped_process_exception sha256_hex now1 now2 (Some (payload, q)) raw true worker_id text evidence p
    = (p', Ok out) →
  wo_status out = "failed" →
  pr_status <$> pd_runs p' !! (pi_tenant_id payload, pi_run_id payload) = Some "failed" ∧
  pd_attempts p' = pd_attempts p ∧
  ∃ a, a ∈ pd_attempts p' ∧ akey a = (pi_tenant_id payload, pi_run_id payload) ∧ a_queue_attempt_id a = q ∧
    is_terminal (a_status a) = false.
Proof.
  intros Hj Hrun Hopen Hnc Htg. unfold terminalize_escaped_process_exception.
  destruct (run_attempt_id_for_queue_attempt _ _ _ _) as [i|]; [|intros E Hf; simplify_eq; done].
  cbn [negb]. set (message := or_text _ _).
  destruct (escaped_transaction _ _ _ _ _ _ _ _ _) as [[p1 [early|[j g]]]|] eqn:Et; [| |done];
    pose proof (escaped_parts _ _ _ _ _ _ _ _ _ _ _ Et Hj Hrun Hopen Hnc Htg) as Hparts; simpl in Hparts.
  - intros E Hf. by simplify_eq.
  - destruct Hparts as (-> & [Ha Hh Hs] & Hatt). intros E _. cbn in E. simplify_eq.
    split_and!; [done|done|]. by rewrite Ha.
Qed.
End Orphans.

(** ** Examples *)

Definition wit_candidate : stale_candidate :=
  {| sc_tenant_id := "t"; sc_workspace := "ws"; sc_user := Some "u"; sc_run_id := "r"; sc_status := "running";
     sc_cancel_requested_at := Some 8; sc_stale_before := 8 |}.

Lemma wit_candidates :
  list_stale_run_reconciliation_candidates (fun _ _ => true) 60000000 30
    (Some CANCEL_REQUESTED_ORPHAN_RECONCILIATION_SECONDS) 10 wit_asked = [wit_candidate].
Proof. vm_compute. reflexivity. Qed.

(** The owner asked for a cancellation of a running run and the worker disappeared: a
    minute later the run is a candidate, and stays one. *)
Lemma staged_cancel_is_never_reconciled_witness :
  reconcile_candidate toy_digest 60000000 60000001 (FenceHeld None) wit_candidate wit_asked
  = (wit_asked, Some (SweepResult "t" "r" (Some "cas_lost"%string) false)).
Proof.
  eapply (staged_cancel_is_never_reconciled toy_digest 60000000 60000001 (fun _ _ => true) 60000000 30 10 wit_candidate wit_asked).
  - rewrite wit_candidates. apply list_elem_of_singleton. reflexivity.
  - vm_compute. reflexivity.
  - discriminate.
  - discriminate.
  - discriminate.
  - discriminate.
  - reflexivity.
Defined.

Definition wit_identity : payload_identity :=
  {| pi_tenant_id := "t"; pi_workspace_id := "ws"; pi_user_id := "u"; pi_session_id := "s"; pi_run_id := "r";
     pi_agent_id := "ag"; pi_execution_kind := "chat"; pi_skill_id := "" |}.
Definition wit_escaped : pdb unit :=
  (terminalize_escaped_process_exception toy_digest 9 10 (Some (wit_identity, "q"%string)) None true "w"
     (Some "boom"%string) [] wit_bound).1.

(** The run failed, its attempt still runs. *)
Example escaped_run_and_attempt :
  pr_status <$> pd_runs wit_escaped !! ("t", "r") = Some "failed" ∧ (is_terminal ∘ a_status) <$> pd_attempts wit_escaped = [false].
Proof. vm_compute. done. Qed.
