(* ===== verification/StaleLiveness.v ===== *)
(** * The sweep ends what it may end

    A run that nobody owns any more does not stay open: when the sweep lists it, holds
    its fence and the modules it calls answer, the run and its attempt are failed in
    that sweep. *)
From stdpp Require Import base gmap list strings.
From Stdlib Require Import ZArith Lia Ascii.
From S2P Require Import Prelude QueueRuntime PyValue RunAttempt RunAttemptFacts RunLifecycle RunLifecycleFacts Platform PlatformFacts WorkerLifecycle Cancellation StaleReconciliation PlatformExample PlatformTrace PlatformSafety.
#[local] Open Scope py_scope.

Definition answers {A} (m : res A) : Prop := ∃ x, m = Ok x.

Section Liveness.
Context `{PyRuntime} `{LifecyclePorts} {O : Type} `{PlatformPorts O} (sha256_hex : string → string).
Implicit Types (p : pdb O).
Notation pjoint p := (joint_except sha256_hex None (attempt_view p)).

(** The calls into the other modules on the way to an end succeed. *)
Record ports_answer : Prop := {
  lineage_released : ∀ t r p, answers (release_provider_lineage t r p);
  row_appended : ∀ t r p, answers (append_terminal_row t r p);
  hook_answers : ∀ hook a b p, finalize_terminal_transition = Some hook → answers (hook a b p)
}.

Lemma call_port_answers f p : answers (f p) → ∃ o, call_port f p = Ok (set_outside o p).
Proof. intros [o E]. unfold call_port. rewrite E. simpl. eauto. Qed.

Lemma after_end_answers t r p : ports_answer → ∃ o, after_end t r true true p = Ok (set_outside o p).
Proof.
  intros Hp. unfold after_end, append_run_terminal_v4_row.
  destruct (call_port_answers (release_provider_lineage t r) p) as [o1 ->]; [by apply lineage_released|]. simpl.
  destruct (call_port_answers (append_terminal_row t r) (set_outside o1 p)) as [o2 ->]; [by apply row_appended|]. eauto.
Qed.

(** An expired attempt follows a run that has failed. *)
Lemma terminalize_answers now a code p :
  ports_answer → attempts_consistent sha256_hex (attempt_view p) → a ∈ pd_attempts p →
  strip (a_owner_id a) = a_owner_id a → a_status a = "expired" →
  pr_status <$> pd_runs p !! akey a = Some "failed" →
  ∃ p' out, terminalize sha256_hex now (a_tenant_id a) (a_run_id a) (a_id a) "failed" "run_failed" code p = Ok (p', out).
Proof.
  intros Hp Hc Hin Hs Ha Hr. unfold terminalize, with_attempts, terminalize_run_attempt. cbn [is_terminal negb].
  change (negb (is_terminal "failed")) with false. cbv iota.
  rewrite (get_run_attempt_found _ (attempt_view p) a Hc Hin). rewrite Ha. cbn [andb].
  change (is_terminal "expired") with false. cbn [andb]. change (String.eqb "failed" "cancelled") with false. cbn [andb].
  destruct (pd_runs p !! akey a) as [run|] eqn:Er; [|done]. injection Hr as Hr.
  destruct (transition_progress sha256_hex now a "failed" (TransitionArgs None None None None None "run_failed" code)
    (attempt_view p) (a_owner_kind a, a_owner_id a) (attempt_run run)) as (db' & row & E); try done.
  { by rewrite Ha. }
  { simpl. rewrite lookup_fmap. unfold akey in Er. by rewrite Er. }
  { simpl. by rewrite Hr. }
  unfold transition_from in E. rewrite Ha in E. rewrite E. cbn [res_bind].
  destruct finalize_terminal_transition as [hook|] eqn:Eh; [|by eauto].
  destruct (call_port_answers (hook a row) (put_attempt_view db' p)) as [o ->]; [by eapply hook_answers|].
  simpl. eauto.
Qed.

(** A staged failure is carried through, and the attempt follows. *)
Lemma finish_answers now t r i code p run obs :
  ports_answer → pjoint p → pd_runs p !! (t, r) = Some run → run_is_terminal (pr_life run) = false →
  pr_target run = Some "failed" → result_observability_values (Some (l_staged_result (pr_life run))) = Ok obs →
  fits_int4 (merge_observed obs (l_observed (pr_life run))) = true →
  match i with
  | None => True
  | Some i => ∃ a, a ∈ pd_attempts p ∧ akey a = (t, r) ∧ a_id a = i ∧ a_status a = "expired" ∧
                strip (a_owner_id a) = a_owner_id a
  end →
  ∃ p', finish_run_terminalization sha256_hex now t r i code p
    = Ok (p', Some (RunTerminalizationProgress true (Some "failed") true)).
Proof.
  intros Hp Hj Hrun Hopen Htg Hobs Hfits Hi. unfold finish_run_terminalization.
  unfold progress_run_terminalization_with_v4, with_life.
  destruct (progress_completes now t r "failed" (life_view p) (pr_life run) obs) as (d & E & Hend); try done.
  { simpl. by rewrite lookup_fmap, Hrun. }
  rewrite E. cbn [res_bind completed p_status did_transition].
  change (progress_is_terminal None (RunTerminalizationProgress true (Some "failed"%string) true)) with true.
  destruct (after_end_answers t r (put_life_view now d p) Hp) as [o ->]. cbn [res_bind].
  pose proof (progress_effect _ _ _ _ _ _ E) as Heff.
  destruct i as [i|]; [|by eauto]. destruct Hi as (a & Hin & Hk & <- & Ha & Hs).
  destruct Hend as ((final & Hruns & Hst & _) & _).
  assert (ends sha256_hex t r "failed" p (put_life_view now d p)) as [_ [Hc _ _] Hfs].
  { apply life_ends; [done..|by rewrite Hrun|]. rewrite Hruns, lookup_insert_eq. simpl. by rewrite Hst. }
  injection Hk as Et Er.
  destruct (terminalize_answers now a code (set_outside o (put_life_view now d p))) as (p' & out & Ef); try done.
  { unfold akey. by rewrite Et, Er. }
  rewrite Et, Er in Ef.
  change (progress_is_terminal None (RunTerminalizationProgress true (Some "failed"%string) true)) with true.
  cbn [p_status default from_option id]. rewrite bool_decide_true by done.
  change ("run_" +:+ "failed")%string with "run_failed"%string. rewrite Ef. simpl. eauto.
Qed.
(** What the sweep may end: an open run with no cancel request, nothing staged, no
    active sandbox and no receipt to settle, whose attempt has a well-formed owner and
    no cancel request. *)
Record ownerless (t r : string) (run : prun) p : Prop := {
  ow_run : pd_runs p !! (t, r) = Some run;
  ow_open : str_in (pr_status run) ["queued"; "running"] = true;
  ow_not_asked : pr_cancel_requested_at run = None;
  ow_unstaged : pr_target run = None;
  ow_no_sandbox : has_active_lease t r p = false;
  ow_no_receipt : unsettled_receipt t r p = false;
  ow_attempts : ∀ a, a ∈ pd_attempts p → akey a = (t, r) →
    strip (a_owner_id a) = a_owner_id a ∧ a_status a ≠ "cancel_requested"
}.

Lemma ownerless_matches t r run p :
  ownerless t r run p →
  stale_matches t (pr_workspace_id run) (pr_user_id run) r (pr_status run) (run_last_activity t r run p)
    (pr_cancel_requested_at run) "failed" run p = true.
Proof.
  intros [Hr Ho Hn Ht Hs Hu _]. unfold stale_matches. rewrite Hn, Ht, Hs, Hu, !String.eqb_refl, !bool_decide_true by done.
  simpl. by rewrite Z.leb_refl.
Qed.

(** The database after staging. *)
Definition staged_failed (now : Z) (t r : string) (run : prun) p : pdb O :=
  add_audit
    {| au_tenant_id := t; au_user_id := None; au_action := "run.stale.reconcile"; au_target_id := r;
       au_trace_id := Some (l_trace_id (pr_life run));
       au_payload := [("workspace_id", PStr (pr_workspace_id run)); ("target_user_id", opt_str (pr_user_id run));
                      ("expected_status", PStr (pr_status run)); ("result_status", PStr "failed");
                      ("reason", PStr "stale_run_no_owner"); ("error_code", opt_str (Some "stale_run_interrupted"))] |}
    (add_event now (stale_event t r "failed" (Some "stale_run_interrupted") run)
      (set_pd_runs <[(t, r) := set_staging "failed" "stale_run_no_owner" (stale_result "failed")
         (Some "stale_run_interrupted") (Some "Run interrupted because no live execution owner remains.") run]> p)).

Lemma stage_ownerless now t r run p :
  ownerless t r run p →
  stage_stale_run_reconciliation now t (pr_workspace_id run) (pr_user_id run) r (pr_status run)
    (run_last_activity t r run p) (pr_cancel_requested_at run) "failed" (Some "stale_run_interrupted")
    (Some "Run interrupted because no live execution owner remains.") p
  = Ok (staged_failed now t r run p, true).
Proof.
  intros Hw. unfold stage_stale_run_reconciliation, get_run. rewrite (ow_open _ _ _ _ Hw), (ow_run _ _ _ _ Hw).
  cbn [negb]. change (str_in "failed" ["failed"; "cancelled"]) with true. cbn [negb].
  by rewrite (ownerless_matches _ _ _ _ Hw).
Qed.

Lemma open_of_projected s run :
  str_in s RUN_ATTEMPT_STATUSES = true → str_in run ["queued"; "running"] = true → run = projected_run_status s → is_open s = true.
Proof.
  intros Hs Hr ->. unfold RUN_ATTEMPT_STATUSES in Hs. rewrite str_in_elem, !elem_of_cons, elem_of_nil in Hs.
  decompose [or] Hs; subst; done.
Qed.

(** Taking the attempt over: it is left expired, if there is one. *)
Lemma prepare_answers now t r run p :
  pjoint p → pd_runs p !! (t, r) = Some run → str_in (pr_status run) ["queued"; "running"] = true →
  (∀ a, a ∈ pd_attempts p → akey a = (t, r) → strip (a_owner_id a) = a_owner_id a ∧ a_status a ≠ "cancel_requested") →
  ∃ db out, prepare_stale_run_attempt_reconciliation sha256_hex now t r "failed" reconciler_id (attempt_view p) = Ok (db, out) ∧
    (∃ row, db_runs db !! (t, r) = Some row ∧ str_in (r_status row) ["queued"; "running"] = true) ∧
    match out with
    | None => names_attempt t r None p ∧ db = attempt_view p
    | Some a => a ∈ db_attempts db ∧ akey a = (t, r) ∧ a_status a = "expired" ∧ strip (a_owner_id a) = a_owner_id a
    end.
Proof.
  intros Hj Hrun Hopen Hown.
  assert (db_runs (attempt_view p) !! (t, r) = Some (attempt_run run)) as Hview by (simpl; by rewrite lookup_fmap, Hrun).
  destruct (get_latest_run_attempt t r (attempt_view p)) as [a|] eqn:El.
  - destruct (latest_in _ _ _ _ El) as (Hin & Et & Er). destruct Hj as [Hc Hs Hm].
    assert (akey a = (t, r)) as Hk by (unfold akey; by rewrite Et, Er).
    destruct (Hown a Hin Hk) as [Hstrip Hncr]. destruct (Hm a Hin) as (row & Hrow & Hst); [done|].
    rewrite Hk, Hview in Hrow. injection Hrow as <-.
    assert (is_open (a_status a) = true) as Ho.
    { eapply open_of_projected; [|exact Hopen|exact Hst]. destruct Hc as [Hchk _]. rewrite Forall_forall in Hchk.
      by destruct (row_checks_parts _ a (Hchk a Hin)). }
    destruct (prepare_failed_progress sha256_hex now (strip reconciler_id) (strip_idem _) eq_refl t r reconciler_id a (attempt_view p))
      as (db & row & E & Hready); [|done|].
    { unfold stale_attempt. split_and!; try done. by exists (attempt_run run). }
    destruct Hready as (_ & Hin' & Hexp & Et' & Er' & Hs' & _ & Hr'). exists db, (Some row).
    split_and!; try done. unfold akey. by rewrite Et', Er'.
  - exists (attempt_view p), None. split_and!; try done.
    + unfold prepare_stale_run_attempt_reconciliation. rewrite El. done.
    + exists (attempt_run run). done.
    + intros a Hin Hk. exfalso. by eapply latest_none.
Qed.
(** Both halves of the first transaction. *)
Lemma stage_candidate_answers now t r run p :
  pjoint p → ownerless t r run p →
  ∃ p1 i run1, stage_candidate sha256_hex now (candidate_of (t, r) run p) p = Ok (p1, (true, i)) ∧
    pd_runs p1 !! (t, r) = Some run1 ∧ run_is_terminal (pr_life run1) = false ∧ pr_target run1 = Some "failed" ∧
    l_staged_result (pr_life run1) = stale_result "failed" ∧ l_observed (pr_life run1) = l_observed (pr_life run) ∧
    names_attempt t r i p1 ∧
    match i with
    | None => True
    | Some i => ∃ a, a ∈ pd_attempts p1 ∧ akey a = (t, r) ∧ a_id a = i ∧ a_status a = "expired" ∧
                  strip (a_owner_id a) = a_owner_id a
    end.
Proof.
  intros Hj Hw. set (ps := staged_failed now t r run p).
  assert (pjoint ps) as Hjs by (eapply stage_stale_joint; [by apply stage_ownerless|done]).
  set (runs := set_staging "failed" "stale_run_no_owner" (stale_result "failed") (Some "stale_run_interrupted")
    (Some "Run interrupted because no live execution owner remains.") run).
  assert (pd_runs ps !! (t, r) = Some runs) as Hruns by apply lookup_insert_eq.
  destruct (prepare_answers now t r runs ps Hjs Hruns (ow_open _ _ _ _ Hw) (ow_attempts _ _ _ _ Hw))
    as (db & out & E & (row & Hrow & Hopen) & Hout).
  pose proof (prepare_steps _ _ _ _ _ _ _ _ _ E) as Hsteps.
  assert (pjoint (put_attempt_view db ps)) as Hj1.
  { rewrite (attempt_view_put _ _ _ Hsteps). by eapply guarded_steps_joint. }
  exists (put_attempt_view db ps), (a_id <$> out), (put_attempt_run row runs). split_and!.
  - unfold stage_candidate, candidate_of. cbn [sc_cancel_requested_at sc_tenant_id sc_workspace sc_user sc_run_id sc_status sc_stale_before fst snd].
    rewrite (bool_decide_true (pr_cancel_requested_at run = None)) by apply (ow_not_asked _ _ _ _ Hw). cbv iota.
    change (String.eqb "failed" "cancelled") with false. cbv iota. rewrite (stage_ownerless now t r run p Hw).
    cbn [res_bind]. unfold with_attempts. fold ps. by rewrite E.
  - unfold put_attempt_view. cbn [pd_runs]. rewrite map_lookup_imap, Hruns. cbn. by rewrite Hrow.
  - unfold run_is_terminal. simpl. rewrite str_in_elem, !elem_of_cons, elem_of_nil in Hopen. by destruct Hopen as [->|[->|[]]].
  - done.
  - done.
  - done.
  - destruct out as [a|]; [|by destruct Hout as [Hn ->]]. destruct Hout as (Hin & Hk & _).
    intros b Hb Hkb. simpl. f_equal. apply (j_single _ _ _ Hj1); [done..|congruence].
  - destruct out as [a|]; [|done]. simpl. exists a. by destruct Hout as (? & ? & ? & ?).
Qed.

Lemma stale_result_observed : ∃ obs, result_observability_values (Some (stale_result "failed")) = Ok obs ∧
  ∀ prior, merge_observed obs prior = prior.
Proof. eexists. split; [reflexivity|]. intros [l i o tt c]. reflexivity. Qed.
Lemma failed_of_projected s :
  str_in s RUN_ATTEMPT_STATUSES = true → "failed"%string = projected_run_status s → s = "failed"%string.
Proof.
  intros Hs. unfold RUN_ATTEMPT_STATUSES in Hs. rewrite str_in_elem, !elem_of_cons, elem_of_nil in Hs.
  decompose [or] Hs; subst; done.
Qed.

Lemma finish_status now t r i code p p' s :
  finish_run_terminalization sha256_hex now t r i code p = Ok (p', Some (RunTerminalizationProgress true (Some s) true)) →
  pjoint p → str_in s ["failed"; "cancelled"] = true → pr_status <$> pd_runs p' !! (t, r) = Some s.
Proof.
  unfold finish_run_terminalization. intros E Hj Hin.
  destruct (progress_run_terminalization_with_v4 now t r p) as [[d o]|] eqn:Hp; simpl in E; [|done].
  assert (o = Some (RunTerminalizationProgress true (Some s) true)) as ->.
  { destruct i, o as [g|]; run_res E; by simplify_eq. }
  assert (is_terminal s = true ∧ progress_is_terminal None (RunTerminalizationProgress true (Some s) true) = true) as [Ht Hg].
  { rewrite str_in_elem, !elem_of_cons, elem_of_nil in Hin. by destruct Hin as [->|[->|[]]]. }
  destruct (progress_v4_ends _ _ _ _ _ _ _ Hp Hj) as [_ Hends]. unfold reports_end in Hends. rewrite Hg in Hends.
  destruct Hends as (s' & Hs' & [_ _ Hst]). simpl in Hs'. injection Hs' as <-.
  destruct i as [i|]; [|by simplify_eq]. rewrite Hg in E. run_res E. simplify_eq. by eapply terminalize_keeps_ended.
Qed.

(** C11.  A run without an owner is failed by the sweep that lists it.  The run is open,
    no cancel was asked for, nothing is staged, it has no active sandbox and no receipt
    to settle, its attempt if it has one carries a well-formed owner and no cancel
    request, and its usage counters are in range.  When the sweep holds the fence and
    the other modules answer, it reports the run failed, and the run and every attempt
    of it have failed. *)
Theorem ownerless_run_is_failed now1 now2 t r run p :
  ports_answer → pjoint p → ownerless t r run p → fits_int4 (l_observed (pr_life run)) = true →
  t ≠ "" → r ≠ "" → pr_workspace_id run ≠ "" →
  ∃ p', reconcile_candidate sha256_hex now1 now2 (FenceHeld None) (candidate_of (t, r) run p) p
      = (p', Some (SweepResult t r (Some "failed") true)) ∧
    pr_status <$> pd_runs p' !! (t, r) = Some "failed" ∧
    (∀ a, a ∈ pd_attempts p' → akey a = (t, r) → a_status a = "failed").
Proof.
  intros Hp Hj Hw Hfits Ht Hr Hws. unfold reconcile_candidate.
  destruct (stage_candidate_answers now1 t r run p Hj Hw) as (p1 & i & run1 & Es & Hrun1 & Hnt & Htg & Hres & Hobs & Hn & Hi).
  destruct stale_result_observed as (obs & Eobs & Hmerge).
  pose proof (stage_candidate_joint _ _ _ _ _ _ Es Hj) as Hj1.
  destruct (finish_answers now2 t r i (Some "stale_run_interrupted") p1 run1 obs) as [p2 Ef]; try done.
  { by rewrite Hres. }
  { by rewrite Hobs, Hmerge. }
  pose proof (finish_joint _ _ _ _ _ _ _ _ _ Ef Hn Hj1) as Hj2.
  assert (∀ s, s ≠ "" → str_truthy s = true) as Htr by (intros s; by destruct s).
  rewrite Es. unfold candidate_of. cbn [sc_tenant_id sc_workspace sc_run_id sc_status sc_cancel_requested_at fst snd].
  rewrite (Htr _ Ht), (Htr _ Hr), (Htr _ Hws), (ow_open _ _ _ _ Hw). cbn [negb orb live].
  rewrite (bool_decide_true (pr_cancel_requested_at run = None)) by apply (ow_not_asked _ _ _ _ Hw).
  change (String.eqb "failed" "cancelled") with false. cbv iota. rewrite Ef. exists p2.
  assert (pr_status <$> pd_runs p2 !! (t, r) = Some "failed") as Hst by by eapply finish_status.
  split_and!; [done|done|]. intros a Ha Hk. destruct (j_mirrors _ _ _ Hj2 a Ha) as (row & Hrow & Hs); [done|].
  rewrite Hk in Hrow. simpl in Hrow. rewrite lookup_fmap in Hrow.
  destruct (pd_runs p2 !! (t, r)) as [run2|]; [|done]. simpl in Hrow, Hst. injection Hrow as <-. injection Hst as Hst.
  simpl in Hs. rewrite Hst in Hs. eapply failed_of_projected; [|done]. destruct Hj2 as [[Hchk _] _ _].
  rewrite Forall_forall in Hchk. by destruct (row_checks_parts _ a (Hchk a Ha)).
Qed.
End Liveness.

(** ** Example *)

Lemma toy_ports_answer : ports_answer.
Proof. split; intros; [by eexists..|]. injection H as <-. by eexists. Qed.

Definition wit_bound_run : prun := default wit_prun (pd_runs wit_bound !! ("t", "r")%string).

Lemma wit_ownerless : ownerless "t" "r" wit_bound_run wit_bound.
Proof.
  split; try (vm_compute; reflexivity). intros a Ha _.
  assert (pd_attempts wit_bound = [List.hd wit_row (pd_attempts wit_bound)]) as E by (vm_compute; reflexivity).
  rewrite E in Ha. apply list_elem_of_singleton in Ha as ->. split; [vm_compute; reflexivity|]. vm_compute. discriminate.
Qed.

Lemma ownerless_run_is_failed_witness :
  ∃ p', reconcile_candidate toy_digest 60000000 60000001 (FenceHeld None) (candidate_of ("t", "r") wit_bound_run wit_bound) wit_bound
      = (p', Some (SweepResult "t" "r" (Some "failed"%string) true)) ∧
    pr_status <$> pd_runs p' !! ("t", "r")%string = Some "failed"%string ∧
    (∀ a, a ∈ pd_attempts p' → akey a = ("t", "r")%string → a_status a = "failed"%string).
Proof.
  apply (ownerless_run_is_failed toy_digest 60000000 60000001 "t" "r" wit_bound_run wit_bound).
  - exact toy_ports_answer.
  - destruct wit_bind_ok as [a Hb]. eapply (bind_joint toy_digest); [exact Hb|]. by apply empty_joint.
  - exact wit_ownerless.
  - vm_compute. reflexivity.
  - discriminate.
  - discriminate.
  - vm_compute. discriminate.
Defined.
