(* ===== verification/ResultCommit.v ===== *)
(** * Committing the result of an execution

    - [src/app/runs/application/worker_result_commit.py]: a worker's result is written
      in one transaction with the end of the run; when the end is refused everything is
      rolled back, and a success that lost to a cancel request is cancelled in a second
      transaction.
    - [src/app/runs/application/worker_execution_terminal.py]: the end of a run whose
      execution was cancelled or raised.

    The writers of artifacts, snapshots, messages and provider sessions are ports; they
    take the database to a database and may raise.  A transaction that raises leaves
    the database as it was. *)
From stdpp Require Import base gmap list strings.
From Stdlib Require Import ZArith Lia Ascii.
From S2P Require Import Prelude PyValue RunTerminal RunAttempt RunLifecycle Platform WorkerLifecycle StaleReconciliation.
#[local] Open Scope py_scope.

(** ** Documents *)

(** [d[k] = v] and [{**a, **b}]. *)
Fixpoint dict_put (k : string) (v : pyval) (d : pydict) : pydict :=
  match d with
  | [] => [(k, v)]
  | (k', v') :: d' => if String.eqb k' k then (k, v) :: d' else (k', v') :: dict_put k v d'
  end.
Definition dict_merge (a b : pydict) : pydict := fold_left (fun d kv => dict_put kv.1 kv.2 d) b a.
(** [{key: d[key] for key in keys if key in d}]. *)
Definition dict_pick (keys : list string) (d : pydict) : pydict :=
  omap (fun k => if has_key k d then Some (k, get k d) else None) keys.
Definition dict_keep (keep : string → bool) (d : pydict) : pydict := List.filter (fun kv => keep kv.1) d.
(** The mapping [{**v}] and [v.items()] need. *)
Definition mapping (v : pyval) : res pydict :=
  match as_dict v with Some d => Ok d | None => Raise "TypeError" end.

(** ** Commands *)

Record executor_result := ExecutorResult {
  er_status : string; er_result : pydict; er_executor_payload : pydict; er_artifact_count : Z
}.

Record commit_command := WorkerResultCommitCommand {
  cm_tenant_id : string; cm_run_id : string; cm_result : executor_result; cm_result_payload : pydict;
  cm_artifact_records : list pydict; cm_skill_snapshot : pyval;
  cm_event_trace_id : option string; cm_event_observed : option observability;
  cm_attempt_id : string; cm_trace_id : string;
  cm_reconciliation_lease_id : option string; cm_reconciliation_claim_token : option string
}.

Record commit_outcome := WorkerResultCommitOutcome {
  co_status : string; co_error_code : option string; co_error_message : option string
}.
Definition STALE : commit_outcome :=
  WorkerResultCommitOutcome "skipped" (Some "stale_terminal_state") (Some "Run already reached a terminal state").

Record materialized := Materialized {
  mt_result : executor_result; mt_result_payload : pydict; mt_artifact_records : list pydict;
  mt_assistant_message : option string; mt_assistant_metadata : pydict
}.

Class ResultPorts (O : Type) := {
  materialize_answer (c : commit_command) (result_payload : pydict) (receipt : pyval) : pdb O → res (pdb O * materialized);
  persist_artifacts (c : commit_command) (records : list pydict) : pdb O → res (pdb O);
  persist_skill_snapshots (c : commit_command) (r : executor_result) : pdb O → res (pdb O);
  persist_assistant (c : commit_command) (r : executor_result) (records : list pydict) (message : option string)
    (metadata result_payload : pydict) : pdb O → res (pdb O);
  persist_failure_event (c : commit_command) (r : executor_result) (error_code : string) : pdb O → res (pdb O);
  public_failure_message (r : executor_result) : string;
  (** Size and type checks of an event. *)
  event_accepted (e : run_event) : res unit;
  settle_continuation : option (string → string → string → pydict → pdb O → res (pdb O));
  release_continuation_lease : option (pyval → string → pdb O → res (pdb O));
  release_runtime_lease (reason : string) : pdb O → res (pdb O);
  predispatch_failure_result (error_code : string) : pydict
}.

Section Commit.
Context `{PyRuntime} `{LifecyclePorts} {O : Type} `{PlatformPorts O} `{ResultPorts O} (sha256_hex : string → string).
Implicit Types (p : pdb O) (w : worker) (c : commit_command).

Definition append_run_event (now : Z) (e : run_event) p : res (pdb O) :=
  let! _ := event_accepted e in Ok (add_event now e p).

(** [append_worker_user_event]. *)
Definition append_user_event (now : Z) c (event_type stage message : string) (payload : pydict)
    (trace_id : option string) (observed : option observability) p : res (pdb O) :=
  if str_in event_type ["run_failed"; "run_cancelled"] then Ok p else
  append_run_event now
    {| e_tenant_id := cm_tenant_id c; e_run_id := cm_run_id c; e_trace_id := trace_id; e_type := event_type;
       e_stage := stage; e_message := message;
       e_payload := dict_merge [("visible_to_user", PBool true); ("severity", PStr "info")] payload;
       e_visible_to_user := None; e_error_code := None; e_observed := observed |} p.

Definition hidden_event (tenant_id run_id event_type stage message : string) (payload : pydict) : run_event :=
  {| e_tenant_id := tenant_id; e_run_id := run_id; e_trace_id := None; e_type := event_type; e_stage := stage;
     e_message := message; e_payload := payload; e_visible_to_user := None; e_error_code := None; e_observed := None |}.

Definition continuation_settlement c : pyval := get "continuation_settlement" (er_executor_payload (cm_result c)).

(** [{**settlement, "sdk_settlement": {**settlement.get("sdk_settlement", {}), "status": status}}]. *)
Definition settlement_with_status (settlement : pydict) (status : string) : res pydict :=
  let! sdk := mapping (get_default "sdk_settlement" (PDict []) settlement) in
  Ok (dict_put "sdk_settlement" (PDict (dict_put "status" (PStr status) sdk)) settlement).

Definition settle_provider c (status : string) p : res (pdb O) :=
  match continuation_settlement c with
  | PNone => Ok p
  | v =>
      match settle_continuation with
      | None => Raise "continuation_settlement_ports_unconfigured"
      | Some settle =>
          match as_dict v with
          | None => Raise "continuation_settlement_invalid"
          | Some settlement =>
              raise! "continuation_lease_release_unconfigured" when
                has_key "runtime_lease" settlement && bool_decide (release_continuation_lease (O := O) = None);
              let! settlement := settlement_with_status settlement status in
              settle (cm_tenant_id c) (cm_run_id c) (cm_attempt_id c) settlement p
          end
      end
  end.

Definition release_leases c (reason : string) p : res (pdb O) :=
  let! p :=
    match continuation_settlement c, release_continuation_lease with
    | PNone, _ | _, None => Ok p
    | settlement, Some release => release settlement reason p
    end in
  release_runtime_lease reason p.

Definition is_sandbox_executor_reconciliation_claim_current (lease_id : string) (claim_token : option string) p : bool :=
  match claim_token with
  | None => false
  | Some token =>
      existsb (fun s => String.eqb (sl_id s) lease_id && str_in (sl_status s) ["active"; "released"]
                        && String.eqb (sl_reconciliation_status s) "claimed"
                        && bool_decide (sl_claim_token s = Some token)) (pd_leases p)
  end.

(** ** Failures that count as cancellations *)

Definition sandbox_failure_prefers_cancelled (r : executor_result) : bool :=
  str_in (strip (str_or_empty (get "sandbox_provider" (er_executor_payload r)))) ["docker"; "opensandbox"]
  && str_in (py_lower (strip (str_or_empty (get "runtime_terminal_status" (er_executor_payload r)))))
       ["cancelled"; "canceled"].

(** [value in {...}] of texts; a list or dict is not hashable. *)
Definition in_texts (v : pyval) (texts : list string) : res bool :=
  match v with
  | PStr s => Ok (str_in s texts)
  | PList _ | PDict _ => Raise "TypeError"
  | _ => Ok false
  end.

Definition stopped_failed_cancel c (r : executor_result) (locked : prun) : res bool :=
  if String.eqb (er_status r) "failed"
     && eq_str (get "runtime_terminal_status" (er_executor_payload r)) "failed"
     && negb (bool_decide (cm_reconciliation_lease_id c = None))
     && negb (bool_decide (cm_reconciliation_claim_token c = None))
     && bool_decide (pr_target locked = Some "cancel_requested") then
    match as_dict (get "continuation_settlement" (er_executor_payload r)) with
    | None => Ok false
    | Some settlement =>
        let! stopped := in_texts (get "stop_evidence" settlement) ["provider_stopped"; "provider_not_found"] in
        Ok (stopped && match as_dict (get "workspace_receipt" settlement) with
                       | None => false
                       | Some receipt => eq_str (get "state" receipt) "saved"
                       end)
    end
  else Ok false.

Definition OBSERVED_KEYS : list string := ["latency_ms"; "token_counts"; "cost"].
Definition cancelled_observation (result_payload : pydict) : pydict :=
  let private := private_cost_observation (PDict result_payload) in
  dict_merge
    (dict_merge [("message", PStr "任务已取消")]
       (match private with [] => [] | _ => dict_pick OBSERVED_KEYS result_payload end))
    private.

Definition SDK_FACT_KEYS : list string :=
  ["error_code"; "terminal_reason"; "owner_generation"; "input_accepted"; "mirror_complete"; "received_result";
   "ack_unknown"; "external_effect_unknown"].
(** A stopped failure keeps the facts of the executor. *)
Definition stopped_cancel_result (settlement result_payload : pydict) : res pydict :=
  let! private := mapping (py_or (get "runtime_private_payload" result_payload) (PDict [])) in
  let! sdk := mapping (get_default "sdk_settlement" (PDict []) settlement) in
  Ok (dict_put "runtime_private_payload"
        (PDict (dict_put "sdk_settlement" (PDict (dict_keep (fun k => str_in k SDK_FACT_KEYS) sdk)) private))
        result_payload).

(** ** The transaction of a result *)

(** A transaction either commits with an outcome, or is blocked and rolled back; then
    the result and its payload as far as they were rewritten are kept. *)
Definition attempt_outcome : Type := executor_result * pydict + pdb O * commit_outcome.

Definition claim_holds c p : bool :=
  match cm_reconciliation_lease_id c with
  | None => true
  | Some lease_id => is_sandbox_executor_reconciliation_claim_current lease_id (cm_reconciliation_claim_token c) p
  end.

(** The answer is reconstructed from its receipt before it is written. *)
Definition resolve_answer c (cancel_requested : bool) p : res (pdb O * materialized) :=
  let r := cm_result c in
  let succeeded := String.eqb (er_status r) "succeeded" in
  let result_payload :=
    if succeeded && cancel_requested
    then dict_put "cancel_status" (PStr "cancel_requested_but_completed") (cm_result_payload c)
    else cm_result_payload c in
  let receipt := get "answer_receipt" (er_executor_payload r) in
  if succeeded && negb (is_none receipt) then
    let! '(p, m) := materialize_answer c result_payload receipt p in
    if negb (String.eqb (er_status (mt_result m)) "succeeded") && cancel_requested then
      Ok (p, {| mt_result := mt_result m;
                mt_result_payload := dict_keep (fun k => negb (String.eqb k "cancel_status")) (mt_result_payload m);
                mt_artifact_records := mt_artifact_records m; mt_assistant_message := mt_assistant_message m;
                mt_assistant_metadata := mt_assistant_metadata m |})
    else Ok (p, m)
  else Ok (p, Materialized r result_payload (cm_artifact_records c) None []).

Definition commit_success (now : Z) w c (cancel_requested : bool) (m : materialized) p : res attempt_outcome :=
  let r := mt_result m in
  let result_payload := mt_result_payload m in
  let! p := persist_assistant c r (mt_artifact_records m) (mt_assistant_message m) (mt_assistant_metadata m)
              result_payload p in
  let text := py_str (py_or (py_or (match mt_assistant_message m with Some s => PStr s | None => PNone end)
                                   (get "message" result_payload)) (PStr "")) in
  let! p :=
    if str_truthy (strip text) || negb (bool_decide (mt_artifact_records m = []))
    then append_user_event now c "assistant_message_created" "message" "Assistant response is ready"
           [("artifact_count", PInt (er_artifact_count r)); ("skills", cm_skill_snapshot c)] None None p
    else Ok p in
  let! p :=
    if cancel_requested
    then append_user_event now c "cancel_requested_but_completed" "control" "取消请求已记录，但任务已完成"
           [("severity", PStr "warning")] None None p
    else Ok p in
  let! p := settle_provider c "succeeded" p in
  let! '(p, terminal_written) := worker_complete sha256_hex now w result_payload p in
  if negb terminal_written then Ok (inl (r, result_payload)) else
  let! p := append_user_event now c "run_succeeded" "worker" "Run succeeded"
              (dict_merge
                 ([("artifact_count", PInt (er_artifact_count r)); ("skills", cm_skill_snapshot c)]
                  ++ (if has_key "cost" result_payload then [("cost", get "cost" result_payload)] else []))
                 (private_cost_observation (PDict result_payload)))
              (cm_event_trace_id c) (cm_event_observed c) p in
  let! p := append_run_event now
              (hidden_event (cm_tenant_id c) (cm_run_id c) "status" "worker" "Run succeeded"
                 [("artifact_count", PInt (er_artifact_count r)); ("visible_to_user", PBool false)]) p in
  let! p := release_leases c "run_succeeded" p in
  Ok (inr (p, WorkerResultCommitOutcome "succeeded" None None)).

Definition commit_cancel (now : Z) w c (stopped : bool) (m : materialized) p : res attempt_outcome :=
  let! p := settle_provider c "cancelled" p in
  let! cancelled_result :=
    if stopped then
      let! settlement := mapping (get "continuation_settlement" (er_executor_payload (mt_result m))) in
      stopped_cancel_result settlement (mt_result_payload m)
    else Ok (cancelled_observation (mt_result_payload m)) in
  let! '(p, terminal_written) := worker_cancel sha256_hex now w (Some cancelled_result) p in
  if negb terminal_written then Ok (inl (mt_result m, mt_result_payload m)) else
  let! p := release_leases c "run_cancelled" p in
  Ok (inr (p, WorkerResultCommitOutcome "cancelled" None None)).

Definition commit_failure (now : Z) w c (m : materialized) p : res attempt_outcome :=
  let r := mt_result m in
  let error_code := py_str (py_or (get "error_code" (er_result r)) (PStr "executor_reported_failure")) in
  let error_message := public_failure_message r in
  let! p := settle_provider c "failed" p in
  let! '(p, terminal_written) := worker_fail sha256_hex now w error_code error_message (Some (mt_result_payload m)) p in
  if negb terminal_written then Ok (inl (r, mt_result_payload m)) else
  let! p := persist_failure_event c r error_code p in
  let! p := release_leases c "run_failed" p in
  Ok (inr (p, WorkerResultCommitOutcome "failed" (Some error_code) (Some error_message))).

Definition result_transaction (now : Z) w c p : res attempt_outcome :=
  let blocked := Ok (inl (cm_result c, cm_result_payload c)) in
  match get_run (cm_tenant_id c) (cm_run_id c) p with
  | None => blocked
  | Some locked =>
      if str_in (pr_status locked) ["succeeded"; "failed"; "cancelled"] then blocked else
      raise! "executor_reconciliation_claim_lost" when negb (claim_holds c p);
      let cancel_requested := is_cancel_requested (w_tenant_id w) (w_run_id w) (life_view p) in
      let! '(p, m) := resolve_answer c cancel_requested p in
      let! p := persist_artifacts c (mt_artifact_records m) p in
      let! p := persist_skill_snapshots c (mt_result m) p in
      if String.eqb (er_status (mt_result m)) "succeeded" then commit_success now w c cancel_requested m p else
      let! stopped := stopped_failed_cancel c (mt_result m) locked in
      if cancel_requested && (sandbox_failure_prefers_cancelled (mt_result m) || stopped)
      then commit_cancel now w c stopped m p
      else commit_failure now w c m p
  end.

(** What follows a blocked success. *)
Definition blocked_success (now : Z) w c (result_payload : pydict) p : res (pdb O * commit_outcome) :=
  if String.eqb (classify_success_commit_block (w_tenant_id w) (w_run_id w) (life_view p)) "cancel_requested" then
    let! p := settle_provider c "cancelled" p in
    let! '(p, terminal_written) := worker_cancel sha256_hex now w (Some (cancelled_observation result_payload)) p in
    if terminal_written then
      let! p := release_leases c "run_cancelled" p in
      Ok (p, WorkerResultCommitOutcome "cancelled" None None)
    else Ok (p, STALE)
  else Ok (p, STALE).

(** [_commit]: the database it leaves, and the outcome or the exception. *)
Definition commit_result (now1 now2 : Z) w c p : pdb O * res commit_outcome :=
  match result_transaction now1 w c p with
  | Raise e => (p, Raise e)
  | Ok (inr (p', outcome)) => (p', Ok outcome)
  | Ok (inl (r, result_payload)) =>
      if negb (String.eqb (er_status r) "succeeded") then (p, Ok STALE) else
      match blocked_success now2 w c result_payload p with
      | Raise e => (p, Raise e)
      | Ok (p', outcome) => (p', Ok outcome)
      end
  end.

(** ** The end of an execution that was cancelled or raised *)

Definition predispatch_ports (settlement : option pydict) : res unit :=
  raise! "continuation_settlement_ports_unconfigured" when
    negb (bool_decide (settlement = None))
    && (bool_decide (settle_continuation (O := O) = None) || bool_decide (release_continuation_lease (O := O) = None));
  Ok tt.

Definition settle_predispatch (tenant_id run_id attempt_id : string) (settlement : option pydict) p : res (pdb O) :=
  let! _ := predispatch_ports settlement in
  match settlement, settle_continuation with
  | Some settlement, Some settle => settle tenant_id run_id attempt_id settlement p
  | _, _ => Ok p
  end.
Definition release_predispatch (settlement : option pydict) (reason : string) p : res (pdb O) :=
  match settlement, release_continuation_lease with
  | Some settlement, Some release => release (PDict settlement) reason p
  | _, _ => Ok p
  end.

(** [d[key]]. *)
Definition item (k : string) (d : pydict) : res pyval :=
  if has_key k d then Ok (get k d) else Raise "KeyError".

Definition execution_cancel_transaction (now : Z) w (tenant_id run_id attempt_id : string) (settlement : option pydict) p
    : res (option (pdb O)) :=
  let! '(p, settlement) :=
    match settlement with
    | None => Ok (p, None)
    | Some d =>
        let! p := call_port (prepare_pending_authority tenant_id run_id attempt_id) p in
        let! _ := predispatch_ports settlement in
        let! sdk_value := item "sdk_settlement" d in
        let! sdk := mapping sdk_value in
        let! generation := item "owner_generation" sdk in
        let! bound := bind_undispatched_cancel_generation w generation p in
        let d := dict_put "sdk_settlement" (PDict (dict_put "owner_generation" (PInt bound) sdk)) d in
        let! p := settle_predispatch tenant_id run_id attempt_id (Some d) p in
        Ok (p, Some d)
    end in
  let! '(p, terminal_written) := worker_cancel sha256_hex now w (Some [("message", PStr "任务已取消")]) p in
  if negb terminal_written then Ok None else
  let! p := release_runtime_lease "run_cancelled" p in
  let! p := release_predispatch settlement "run_cancelled" p in
  Ok (Some p).

Definition execution_cancel (now : Z) w (tenant_id run_id attempt_id : string) (settlement : option pydict) p
    : pdb O * res commit_outcome :=
  match execution_cancel_transaction now w tenant_id run_id attempt_id settlement p with
  | Raise e => (p, Raise e)
  | Ok None => (p, Ok STALE)
  | Ok (Some p') => (p', Ok (WorkerResultCommitOutcome "cancelled" None None))
  end.

(** [WorkerEarlyFailureService.fail_run]. *)
Definition early_fail_run (now : Z) w (error_code error_message : string) (result_json : option pydict) p
    : res (pdb O * bool) :=
  let result_json := match result_json with
                     | Some ((_ :: _) as d) => d
                     | _ => predispatch_failure_result error_code
                     end in
  worker_fail sha256_hex now w error_code error_message (Some result_json) p.

Definition fail_or_cancel_transaction (now : Z) w (tenant_id run_id attempt_id executor_type failure_code
    failure_message : string) (failure_result : option pydict) (settlement : option pydict) p
    : res (option (pdb O * commit_outcome)) :=
  let! p := call_port (prepare_pending_authority tenant_id run_id attempt_id) p in
  let! p := settle_predispatch tenant_id run_id attempt_id settlement p in
  if is_cancel_requested (w_tenant_id w) (w_run_id w) (life_view p) then
    let! '(p, terminal_written) := worker_cancel sha256_hex now w (Some [("message", PStr "任务已取消")]) p in
    if negb terminal_written then Ok None else
    let! p := release_runtime_lease "run_cancelled" p in
    let! p := release_predispatch settlement "run_cancelled" p in
    Ok (Some (p, WorkerResultCommitOutcome "cancelled" None None))
  else
    let! '(p, terminal_written) := early_fail_run now w failure_code failure_message failure_result p in
    if negb terminal_written then Ok None else
    let! p := append_run_event now
                (hidden_event tenant_id run_id "error" "executor" "Executor failed"
                   [("error", PStr failure_message); ("executor_type", PStr executor_type);
                    ("visible_to_user", PBool false)]) p in
    let! p := release_runtime_lease "run_failed" p in
    let! p := release_predispatch settlement "run_failed" p in
    Ok (Some (p, WorkerResultCommitOutcome "failed" (Some failure_code) (Some failure_message))).

Definition fail_or_cancel (now : Z) w (tenant_id run_id attempt_id executor_type failure_code failure_message : string)
    (failure_result : option pydict) (settlement : option pydict) p : pdb O * res commit_outcome :=
  match fail_or_cancel_transaction now w tenant_id run_id attempt_id executor_type failure_code failure_message
          failure_result settlement p with
  | Raise e => (p, Raise e)
  | Ok None => (p, Ok STALE)
  | Ok (Some (p', outcome)) => (p', Ok outcome)
  end.

End Commit.
