(* ===== verification/ResultCommitFacts.v ===== *)
(** * What a reported result means

    The outcome a worker reports for a result is the durable status of the run and of
    its attempt; and a failure that meets a recorded cancel request is dropped. *)
From stdpp Require Import base gmap list strings.
From Stdlib Require Import ZArith Lia Ascii.
From S2P Require Import Prelude QueueRuntime PyValue RunAttempt RunAttemptFacts RunLifecycle RunLifecycleFacts Platform PlatformFacts WorkerLifecycle Cancellation StaleReconciliation PlatformExample PlatformTrace PlatformSafety ResultCommit.
#[local] Open Scope py_scope.

Section Facts.
Context `{PyRuntime} `{LifecyclePorts} {O : Type} `{PlatformPorts O} `{ResultPorts O} (sha256_hex : string → string).
Implicit Types (p : pdb O) (w : worker) (c : commit_command).
Notation pjoint p := (joint_except sha256_hex None (attempt_view p)).
Notation run_of w := (w_tenant_id w, w_run_id w).

(** ** The ends a worker writes *)

Lemma follow_status now w attempt s reason code p p' :
  terminalize_current sha256_hex now w attempt true s reason code p = Ok p' → is_terminal s = true →
  pr_status <$> pd_runs p !! run_of w = Some s → pr_status <$> pd_runs p' !! run_of w = Some s.
Proof.
  unfold terminalize_current. intros E Ht Hs. destruct attempt; run_res E; simplify_eq; [|done].
  by eapply terminalize_keeps_ended.
Qed.

Lemma worker_complete_status now w result p p' run :
  worker_complete sha256_hex now w result p = Ok (p', true) → pjoint p → pd_runs p !! run_of w = Some run →
  str_in (pr_status run) ["succeeded"; "failed"; "cancelled"] = false →
  pr_status <$> pd_runs p' !! run_of w = Some "succeeded" ∧ pr_cancel_requested_at run = None ∧ pr_target run = None.
Proof.
  unfold worker_complete, lock_run, get_run, observed_terminal_progress. intros E Hj Hr Hopen. rewrite Hr in E.
  cbn [res_bind] in E. rewrite Hopen in E. run_res E. simplify_eq.
  match goal with Hd : record_diagnostics _ _ _ _ _ = _ |- _ => apply diagnostics_outside in Hd as [o' ->] end.
  match goal with Hc : complete_run_with_v4 _ _ _ _ _ = _ |- _ =>
    pose proof (complete_v4_ends sha256_hex _ _ _ _ _ _ _ Hc Hj) as [_ _ Hs];
    unfold complete_run_with_v4 in Hc; run_res Hc; simplify_eq end.
  match goal with Hw : with_life _ _ _ = _ |- _ => apply with_life_inv in Hw as (db & Hw & ->);
    apply complete_status in Hw as (l & Hl & _ & Hc & Ht & _) end.
  simpl in Hl. rewrite lookup_fmap, Hr in Hl. simplify_eq/=. split_and!; [|done..]. by eapply follow_status.
Qed.

Lemma worker_fail_status now w code message result p p' :
  worker_fail sha256_hex now w code message result p = Ok (p', true) → pjoint p →
  pr_status <$> pd_runs p' !! run_of w = Some "failed".
Proof.
  unfold worker_fail, lock_run, get_run, observed_terminal_progress. intros E Hj.
  destruct (pd_runs p !! run_of w) as [run|] eqn:Hr; [|done]. cbn [res_bind] in E.
  destruct (str_in _ _) eqn:Ht in E; run_res E; simplify_eq; cbn in *; to_prop; [rewrite Hr; simpl; congruence|].
  match goal with Hd : record_diagnostics _ _ _ _ _ = _ |- _ => apply diagnostics_outside in Hd as [o' ->] end.
  match goal with Hc : fail_run_with_v4 _ _ _ _ _ _ _ _ = _ |- _ =>
    apply (fail_v4_ends sha256_hex) in Hc as [(Hg & _)|(-> & [_ _ Hs])]; [| |done] end.
  - exfalso. apply (terminal_of_none "failed") in Hg. congruence.
  - by eapply follow_status.
Qed.

Lemma worker_cancel_status now w result p p' :
  worker_cancel sha256_hex now w result p = Ok (p', true) → admitted w p → pjoint p →
  pr_status <$> pd_runs p' !! run_of w = Some "cancelled".
Proof.
  unfold worker_cancel, lock_run, get_run, observed_terminal_progress. intros E Hadm Hj.
  destruct (pd_runs p !! run_of w) as [run|] eqn:Hr; [|done]. cbn [res_bind] in E.
  destruct (str_in _ _) eqn:Ht in E; run_res E; simplify_eq; cbn in *; to_prop; [rewrite Hr; simpl; congruence|].
  match goal with Hc : current_attempt _ _ = _ |- _ => pose proof (current_attempt_spec _ _ _ Hc Hadm) as Hcur end.
  match goal with Hr : match ?a with Some _ => with_attempts _ _ | None => _ end = _ |- _ =>
    destruct (request_current _ _ _ _ _ _ _ _ Hr Hcur Hj) as [Hj1 Hcur1] end.
  match goal with Hd : match result with Some _ => _ | None => _ end = Ok (?q, _) |- _ =>
    assert (∃ o, q = set_outside o d) as [o' ->] end.
  { repeat case_match; simplify_eq; eauto using diagnostics_outside, outside_refl. }
  match goal with Hc : cancel_run_with_v4 _ _ _ _ _ = _ |- _ =>
    apply (cancel_v4_ends sha256_hex) in Hc as [(Hg & _)|(-> & [_ _ Hs])]; [| |done] end.
  - exfalso. apply (terminal_of_none "cancelled") in Hg. congruence.
  - by eapply follow_status.
Qed.
(** ** The writers *)

(** The rows the ends are about. *)
Definition core p : gmap run_key prun * list attempt_row := (pd_runs p, pd_attempts p).

Definition keeps_core (f : pdb O → res (pdb O)) : Prop := ∀ p p', f p = Ok p' → core p' = core p.

(** The writers of other modules touch neither runs nor attempts. *)
Record writers_quiet : Prop := {
  wq_materialize : ∀ c payload receipt p p' m, materialize_answer c payload receipt p = Ok (p', m) → core p' = core p;
  wq_artifacts : ∀ c records, keeps_core (persist_artifacts c records);
  wq_snapshots : ∀ c r, keeps_core (persist_skill_snapshots c r);
  wq_assistant : ∀ c r records message metadata payload, keeps_core (persist_assistant c r records message metadata payload);
  wq_failure : ∀ c r code, keeps_core (persist_failure_event c r code);
  wq_settle : ∀ f t r a s, settle_continuation = Some f → keeps_core (f t r a s);
  wq_release : ∀ f s reason, release_continuation_lease = Some f → keeps_core (f s reason);
  wq_runtime : ∀ reason, keeps_core (release_runtime_lease reason)
}.
Context (Hquiet : writers_quiet).

Lemma event_quiet now e : keeps_core (append_run_event now e).
Proof. intros p p'. unfold append_run_event. intros E. run_res E. by simplify_eq. Qed.

Lemma user_event_quiet now c type stage message payload trace observed :
  keeps_core (append_user_event now c type stage message payload trace observed).
Proof. intros p p'. unfold append_user_event. case_match; [by intros [= <-]|]. apply event_quiet. Qed.

Lemma settle_quiet c status : keeps_core (settle_provider c status).
Proof.
  intros p p'. unfold settle_provider. destruct (continuation_settlement c); [by intros [= <-]| | | | | |];
    (destruct settle_continuation as [f|] eqn:Ef; [|done]); intros E; run_res E; by eapply wq_settle.
Qed.

Lemma release_quiet c reason : keeps_core (release_leases c reason).
Proof.
  intros p p'. unfold release_leases. intros E. run_res E. apply (wq_runtime Hquiet) in E. rewrite E.
  match goal with Hm : match continuation_settlement c with _ => _ end = Ok _ |- _ => rename Hm into Hr end.
  destruct (continuation_settlement c), release_continuation_lease as [f|] eqn:Ef; simplify_eq; try done;
    by eapply wq_release.
Qed.

Lemma resolve_quiet c b p p' m : resolve_answer c b p = Ok (p', m) → core p' = core p.
Proof.
  unfold resolve_answer. case_match; [|by intros [= <- _]]. intros E. run_res E; simplify_eq; by eapply wq_materialize.
Qed.

Lemma core_parts p p' :
  core p' = core p → attempt_view p' = attempt_view p ∧ pd_runs p' = pd_runs p ∧ pd_attempts p' = pd_attempts p.
Proof. intros [= Hr Ha]. unfold attempt_view. by rewrite Hr, Ha. Qed.

(** ** One transaction *)

(** What the transaction of a result does to run and attempt. *)
Definition ends_as w (s : string) p p' : Prop :=
  pjoint p' ∧ pr_status <$> pd_runs p' !! run_of w = Some s ∧
  (s = "succeeded" → ∀ run, pd_runs p !! run_of w = Some run → pr_cancel_requested_at run = None).

Lemma ends_as_core w s p0 p p1 p' :
  core p = core p0 → core p' = core p1 → ends_as w s p p1 → ends_as w s p0 p'.
Proof.
  intros (Hv & Hr & _)%core_parts (Hv1 & Hr1 & _)%core_parts (Hj & Hs & Hc). unfold ends_as. by rewrite Hv1, Hr1, <- Hr.
Qed.

Lemma admitted_core w p p' : core p' = core p → admitted w p → admitted w p'.
Proof. intros (_ & _ & Ha)%core_parts. unfold admitted. by rewrite Ha. Qed.

(** Collect the rows along a chain of writers. *)
Ltac core_chain :=
  repeat match goal with
  | E : append_run_event _ _ _ = Ok _ |- _ => apply event_quiet in E
  | E : append_user_event _ _ _ _ _ _ _ _ _ = Ok _ |- _ => apply user_event_quiet in E
  | E : settle_provider _ _ _ = Ok _ |- _ => apply settle_quiet in E
  | E : release_leases _ _ _ = Ok _ |- _ => apply release_quiet in E
  | E : persist_assistant _ _ _ _ _ _ _ = Ok _ |- _ => apply (wq_assistant Hquiet) in E
  | E : persist_failure_event _ _ _ _ = Ok _ |- _ => apply (wq_failure Hquiet) in E
  | E : persist_artifacts _ _ _ = Ok _ |- _ => apply (wq_artifacts Hquiet) in E
  | E : persist_skill_snapshots _ _ _ = Ok _ |- _ => apply (wq_snapshots Hquiet) in E
  | E : resolve_answer _ _ _ = Ok _ |- _ => apply resolve_quiet in E
  | E : (if ?b then append_user_event _ _ _ _ _ _ _ _ _ else _) = Ok _ |- _ => destruct b; [|injection E as <-]
  end.

Lemma commit_success_ends now w c b m p p' o :
  commit_success sha256_hex now w c b m p = Ok (inr (p', o)) → admitted w p → pjoint p →
  (∀ run, pd_runs p !! run_of w = Some run → str_in (pr_status run) ["succeeded"; "failed"; "cancelled"] = false) →
  co_status o = "succeeded" ∧ ends_as w "succeeded" p p'.
Proof.
  unfold commit_success. intros E Hadm Hj Hopen. run_res E. simplify_eq. split; [done|].
  match goal with Hc : worker_complete _ _ _ _ ?q = Ok (_, ?t) |- _ =>
    destruct t; [|done]; rename Hc into Hcomplete; assert (core q = core p) as Hq end.
  { core_chain; congruence. }
  destruct (core_parts _ _ Hq) as (Hv & Hr & _).
  match type of Hcomplete with _ = Ok (?q', _) =>
    apply (ends_as_core w "succeeded" p x2 q' p'); [exact Hq|core_chain; congruence|] end.
  pose proof Hcomplete as Hrun. unfold worker_complete, lock_run, get_run in Hrun.
  destruct (pd_runs x2 !! run_of w) as [run|] eqn:Erun in Hrun; [|done]. clear Hrun.
  assert (str_in (pr_status run) ["succeeded"; "failed"; "cancelled"] = false) as Hnt by (apply Hopen; congruence).
  assert (pjoint x2) as Hj2 by (by rewrite Hv).
  destruct (worker_complete_status _ _ _ _ _ _ Hcomplete Hj2 Erun Hnt) as (Hs & Hc & _). unfold ends_as. split_and!.
  - eapply complete_joint; [exact Hcomplete|by eapply admitted_core|done].
  - done.
  - intros _ run' Hrun'. congruence.
Qed.

Lemma commit_cancel_ends now w c b m p p' o :
  commit_cancel sha256_hex now w c b m p = Ok (inr (p', o)) → admitted w p → pjoint p →
  co_status o = "cancelled" ∧ ends_as w "cancelled" p p'.
Proof.
  unfold commit_cancel. intros E Hadm Hj. run_res E. simplify_eq. split; [done|].
  match goal with Hc : worker_cancel _ _ _ _ ?q = Ok (_, ?t) |- _ =>
    destruct t; [|done]; rename Hc into Hcancel; assert (core q = core p) as Hq by (core_chain; congruence);
    assert (pjoint q) as Hjq by (by rewrite (proj1 (core_parts _ _ Hq)));
    pose proof (admitted_core _ _ _ Hq Hadm) as Hadmq end.
  match type of Hcancel with worker_cancel _ _ _ _ ?q = Ok (?q', _) =>
    apply (ends_as_core w "cancelled" p q q' p'); [exact Hq|core_chain; congruence|] end.
  unfold ends_as. split_and!.
  - by eapply cancel_joint.
  - by eapply worker_cancel_status.
  - done.
Qed.

Lemma commit_failure_ends now w c m p p' o :
  commit_failure sha256_hex now w c m p = Ok (inr (p', o)) → admitted w p → pjoint p →
  co_status o = "failed" ∧ ends_as w "failed" p p'.
Proof.
  unfold commit_failure. intros E Hadm Hj. run_res E. simplify_eq. split; [done|].
  match goal with Hc : worker_fail _ _ _ _ _ _ ?q = Ok (?q', ?t) |- _ =>
    destruct t; [|done]; rename Hc into Hfail; assert (core q = core p) as Hq by (core_chain; congruence);
    assert (pjoint q) as Hjq by (by rewrite (proj1 (core_parts _ _ Hq)));
    pose proof (admitted_core _ _ _ Hq Hadm) as Hadmq;
    apply (ends_as_core w "failed" p q q' p'); [exact Hq|core_chain; congruence|] end.
  unfold ends_as. split_and!.
  - by eapply fail_joint.
  - by eapply worker_fail_status.
  - done.
Qed.
Lemma transaction_ends now w c p p' o :
  result_transaction sha256_hex now w c p = Ok (inr (p', o)) →
  cm_tenant_id c = w_tenant_id w → cm_run_id c = w_run_id w → admitted w p → pjoint p →
  str_in (co_status o) ["succeeded"; "failed"; "cancelled"] = true ∧ ends_as w (co_status o) p p'.
Proof.
  unfold result_transaction, get_run. intros E Ht Hr Hadm Hj. rewrite Ht, Hr in E.
  destruct (pd_runs p !! run_of w) as [locked|] eqn:Hrun; [|done].
  destruct (str_in (pr_status locked) _) eqn:Hopen; [done|].
  destruct (negb (claim_holds c p)); [done|].
  destruct (resolve_answer _ _ _) as [[p1 m]|] eqn:E1; cbn [res_bind] in E; [|done].
  destruct (persist_artifacts _ _ _) as [p2|] eqn:E2; cbn [res_bind] in E; [|done].
  destruct (persist_skill_snapshots _ _ _) as [p3|] eqn:E3; cbn [res_bind] in E; [|done].
  assert (core p3 = core p) as Hq by (core_chain; congruence). clear E1 E2 E3.
  destruct (core_parts _ _ Hq) as (Hv & Hruns & _).
  pose proof (admitted_core _ _ _ Hq Hadm) as Hadm3. assert (pjoint p3) as Hj3 by (by rewrite Hv).
  assert (∀ s, co_status o = s ∧ ends_as w s p3 p' → str_in s ["succeeded"; "failed"; "cancelled"] = true →
    str_in (co_status o) ["succeeded"; "failed"; "cancelled"] = true ∧ ends_as w (co_status o) p p') as Hdone.
  { intros s [<- He] Hs. split; [done|]. by eapply ends_as_core. }
  destruct (String.eqb (er_status (mt_result m)) "succeeded").
  - eapply Hdone; [eapply commit_success_ends; [exact E|done|done|]|done]. intros run. rewrite Hruns, Hrun. congruence.
  - destruct (stopped_failed_cancel _ _ _) as [stopped|]; cbn [res_bind] in E; [|done]. destruct (_ && _) in E.
    + eapply Hdone; [by eapply commit_cancel_ends|done].
    + eapply Hdone; [by eapply commit_failure_ends|done].
Qed.

Lemma blocked_success_ends now w c payload p p' o :
  blocked_success sha256_hex now w c payload p = Ok (p', o) → admitted w p → pjoint p →
  (co_status o = "cancelled" ∧ ends_as w "cancelled" p p') ∨
  (o = STALE ∧ pjoint p' ∧ (p' = p ∨ ∃ run, pd_runs p !! run_of w = Some run ∧ cancel_recorded run = true)).
Proof.
  unfold blocked_success. intros E Hadm Hj. destruct (String.eqb _ _) eqn:Hclass in E; [|simplify_eq; auto].
  assert (∃ run, pd_runs p !! run_of w = Some run ∧ cancel_recorded run = true) as Hrec.
  { unfold classify_success_commit_block in Hclass. simpl in Hclass. rewrite lookup_fmap in Hclass.
    destruct (pd_runs p !! run_of w) as [run|]; simpl in Hclass; [|done]. exists run. split; [done|].
    destruct (run_is_terminal _); [done|]. unfold cancel_recorded, pr_cancel_requested_at, pr_target.
    by destruct (_ || _) in Hclass |- *. }
  destruct (settle_provider _ _ _) as [p1|] eqn:E1; cbn [res_bind] in E; [|done]. apply settle_quiet in E1.
  destruct (worker_cancel _ _ _ _ _) as [[p2 written]|] eqn:E2; cbn [res_bind] in E; [|done].
  assert (pjoint p1) as Hj1 by (by rewrite (proj1 (core_parts _ _ E1))). pose proof (admitted_core _ _ _ E1 Hadm) as Hadm1.
  pose proof (cancel_joint _ _ _ _ _ _ _ E2 Hadm1 Hj1) as Hj2. destruct written.
  - left. destruct (release_leases _ _ _) as [p3|] eqn:E3; cbn [res_bind] in E; [|done]. injection E as <- <-. split; [done|].
    apply release_quiet in E3. eapply ends_as_core; [exact E1|exact E3|]. unfold ends_as. split_and!; [done| |done].
    by eapply worker_cancel_status.
  - right. simplify_eq. auto.
Qed.

(** C7.  A reported outcome is durable.  When a worker commits a result, run and attempt
    agree afterwards; an outcome of succeeded, failed or cancelled is the status of the
    run, and succeeded only if no cancel had been asked for; a skipped result leaves the
    database as it was, unless a recorded cancel was being settled; and an exception
    leaves it as it was. *)
Theorem commit_outcome_is_durable now1 now2 w c p p' out :
  cm_tenant_id c = w_tenant_id w → cm_run_id c = w_run_id w → admitted w p → pjoint p →
  commit_result sha256_hex now1 now2 w c p = (p', out) →
  pjoint p' ∧
  match out with
  | Raise _ => p' = p
  | Ok o =>
      if str_in (co_status o) ["succeeded"; "failed"; "cancelled"]
      then pr_status <$> pd_runs p' !! run_of w = Some (co_status o) ∧
           (co_status o = "succeeded" → ∀ run, pd_runs p !! run_of w = Some run → pr_cancel_requested_at run = None)
      else o = STALE ∧ (p' = p ∨ ∃ run, pd_runs p !! run_of w = Some run ∧ cancel_recorded run = true)
  end.
Proof.
  intros Ht Hr Hadm Hj. unfold commit_result.
  destruct (result_transaction _ _ _ _ _) as [[[r payload]|[p1 o]]|] eqn:E; [| |intros [= <- <-]; done].
  - destruct (negb _); [intros [= <- <-]; split; [done|]; by split; [|left]|].
    destruct (blocked_success _ _ _ _ _ _) as [[p2 o]|] eqn:Eb; intros [= <- <-]; [|done].
    destruct (blocked_success_ends _ _ _ _ _ _ _ Eb Hadm Hj) as [(Hs & Hj2 & Hst & _)|(-> & Hj2 & Hor)]; [|done].
    rewrite Hs. split; [done|]. by rewrite <- Hst.
  - intros [= <- <-]. destruct (transaction_ends _ _ _ _ _ _ E Ht Hr Hadm Hj) as [Hin (Hj1 & Hst & Hc)].
    rewrite Hin. auto.
Qed.
(** ** A failure after a cancel request *)

Lemma terminate_loses now t r reason result code message db db' g row :
  terminate_run now t r "failed" reason result code message db = Ok (db', g) →
  ld_runs db !! (t, r) = Some row → l_target row = Some "cancel_requested" → completed g = false.
Proof.
  unfold terminate_run, stage_run_terminalization. intros E Hr Ht. simpl negb in E. cbv iota in E. rewrite Hr, Ht in E.
  destruct (run_is_terminal row); cbn [res_bind] in E; [by injection E as _ <-|]. by injection E as _ <-.
Qed.

Lemma worker_fail_blocked now w code message result p p' b run :
  worker_fail sha256_hex now w code message result p = Ok (p', b) → pd_runs p !! run_of w = Some run →
  str_in (pr_status run) ["succeeded"; "failed"; "cancelled"] = false → pr_target run = Some "cancel_requested" → b = false.
Proof.
  unfold worker_fail, lock_run, get_run, observed_terminal_progress. intros E Hr Ht Htg. rewrite Hr in E.
  cbn [res_bind] in E. rewrite Ht in E. run_res E. simplify_eq.
  match goal with Hd : record_diagnostics _ _ _ _ _ = _ |- _ => apply diagnostics_outside in Hd as [o' ->] end.
  match goal with Hc : fail_run_with_v4 _ _ _ _ _ _ _ _ = _ |- _ => unfold fail_run_with_v4 in Hc; run_res Hc; simplify_eq end.
  match goal with Hw : with_life _ _ _ = _ |- _ => apply with_life_inv in Hw as (db & Hw & ->); unfold fail_run in Hw; run_res Hw;
    eapply terminate_loses in Hw; [| |exact Htg] end.
  - unfold progress_is_terminal. match goal with Hw : completed _ = false |- _ => by rewrite Hw end.
  - simpl. by rewrite lookup_fmap, Hr.
Qed.

(** C23.  A failure that meets a cancel request is dropped.  When a run is open with its
    cancellation requested and staged, and an executor outside a sandbox reports a
    failure, the failure is refused because the cancellation is staged, everything is
    rolled back and the result is skipped: the run stays open, neither failed nor
    cancelled. *)
Theorem failed_result_is_dropped now1 now2 w c p run :
  cm_tenant_id c = w_tenant_id w → cm_run_id c = w_run_id w → pd_runs p !! run_of w = Some run →
  str_in (pr_status run) ["succeeded"; "failed"; "cancelled"] = false → pr_target run = Some "cancel_requested" →
  er_status (cm_result c) = "failed" → sandbox_failure_prefers_cancelled (cm_result c) = false →
  cm_reconciliation_lease_id c = None →
  commit_result sha256_hex now1 now2 w c p = (p, Ok STALE) ∨
  ∃ e, commit_result sha256_hex now1 now2 w c p = (p, Raise e).
Proof.
  intros Ht Hr Hrun Hopen Htg Hs Hpref Hlease. unfold commit_result.
  destruct (result_transaction _ _ _ _ _) as [out|e] eqn:E; [left|by eauto]. unfold result_transaction, get_run in E.
  rewrite Ht, Hr, Hrun, Hopen in E. unfold claim_holds, resolve_answer, stopped_failed_cancel in E.
  rewrite Hlease, Hs in E. cbn [negb] in E. change (String.eqb "failed" "succeeded") with false in E. cbn [andb res_bind] in E.
  cbn [mt_result mt_result_payload mt_artifact_records] in E.
  destruct (persist_artifacts _ _ _) as [p1|] eqn:E1; cbn [res_bind] in E; [|done].
  destruct (persist_skill_snapshots _ _ _) as [p2|] eqn:E2; cbn [res_bind] in E; [|done].
  rewrite Hs, bool_decide_true in E by done. change (String.eqb "failed" "succeeded") with false in E.
  cbn [negb andb] in E. rewrite !andb_false_r in E. cbn [andb res_bind] in E. rewrite Hpref, andb_false_r in E.
  unfold commit_failure in E. cbn [mt_result mt_result_payload] in E.
  destruct (settle_provider _ _ _) as [p3|] eqn:E3; cbn [res_bind] in E; [|done].
  destruct (worker_fail _ _ _ _ _ _ _) as [[p4 written]|] eqn:E4; cbn [res_bind] in E; [|done].
  assert (core p3 = core p) as Hq by (core_chain; congruence). destruct (core_parts _ _ Hq) as (_ & Hruns & _).
  assert (written = false) as -> by (eapply worker_fail_blocked; [exact E4|by rewrite Hruns|done|done]).
  cbn [negb] in E. injection E as <-. by rewrite Hs.
Qed.
End Facts.

(** ** Examples *)

#[local] Instance toy_result_ports : ResultPorts unit := {|
  materialize_answer := fun c payload _ p =>
    Ok (p, Materialized (cm_result c) payload (cm_artifact_records c) (Some "hello"%string) []);
  persist_artifacts := fun _ _ p => Ok p;
  persist_skill_snapshots := fun _ _ p => Ok p;
  persist_assistant := fun _ _ _ _ _ _ p => Ok p;
  persist_failure_event := fun _ _ _ p => Ok p;
  public_failure_message := fun _ => "Executor failed"%string;
  event_accepted := fun _ => Ok tt;
  settle_continuation := Some (fun _ _ _ _ p => Ok p);
  release_continuation_lease := Some (fun _ _ p => Ok p);
  release_runtime_lease := fun _ p => Ok p;
  predispatch_failure_result := fun _ => []
|}.

Lemma toy_writers_quiet : writers_quiet (O := unit).
Proof.
  split; unfold keeps_core; cbn; intros; repeat match goal with E : Some _ = Some _ |- _ => injection E as <- end;
    by match goal with E : Ok _ = Ok _ |- _ => injection E as <- end.
Qed.

Definition wit_command (status : string) : commit_command :=
  {| cm_tenant_id := "t"; cm_run_id := "r"; cm_result := ExecutorResult status [] [] 0;
     cm_result_payload := [("message", PStr "hello")]; cm_artifact_records := []; cm_skill_snapshot := PList [];
     cm_event_trace_id := None; cm_event_observed := None; cm_attempt_id := w_attempt_id wit_worker;
     cm_trace_id := "trace"; cm_reconciliation_lease_id := None; cm_reconciliation_claim_token := None |}.
Definition wit_committed : pdb unit := (commit_result toy_digest 9 10 wit_worker (wit_command "succeeded") wit_bound).1.

Lemma wit_bound_admitted : admitted wit_worker wit_bound.
Proof.
  intros _ a Ha _.
  assert (pd_attempts wit_bound = [List.hd wit_row (pd_attempts wit_bound)]) as E by (vm_compute; reflexivity).
  rewrite E in Ha. apply list_elem_of_singleton in Ha as ->. vm_compute. reflexivity.
Qed.

(** A success is committed; run and attempt have succeeded. *)
Lemma commit_outcome_is_durable_witness :
  joint_except toy_digest None (attempt_view wit_committed) ∧
  pr_status <$> pd_runs wit_committed !! ("t", "r")%string = Some "succeeded"%string ∧
  ("succeeded"%string = "succeeded"%string → ∀ run, pd_runs wit_bound !! ("t", "r")%string = Some run → pr_cancel_requested_at run = None).
Proof.
  apply (commit_outcome_is_durable toy_digest toy_writers_quiet 9 10 wit_worker (wit_command "succeeded") wit_bound wit_committed
    (Ok (WorkerResultCommitOutcome "succeeded" None None))).
  - reflexivity.
  - reflexivity.
  - exact wit_bound_admitted.
  - destruct wit_bind_ok as [a Hb]. eapply (bind_joint toy_digest); [exact Hb|]. by apply empty_joint.
  - vm_compute. reflexivity.
Defined.

(** The owner asked for a cancellation, then the executor reports a failure. *)
Lemma failed_result_is_dropped_witness :
  (commit_result toy_digest 9 10 wit_worker (wit_command "failed") wit_asked = (wit_asked, Ok STALE) ∨
   ∃ e, commit_result toy_digest 9 10 wit_worker (wit_command "failed") wit_asked = (wit_asked, Raise e)) ∧
  commit_result toy_digest 9 10 wit_worker (wit_command "failed") wit_asked = (wit_asked, Ok STALE).
Proof.
  split; [|vm_compute; reflexivity].
  eapply (failed_result_is_dropped toy_digest toy_writers_quiet 9 10 wit_worker (wit_command "failed") wit_asked).
  - reflexivity.
  - reflexivity.
  - vm_compute. reflexivity.
  - reflexivity.
  - reflexivity.
  - reflexivity.
  - reflexivity.
  - reflexivity.
Defined.
