(* ===== verification/McpTools.v ===== *)
(** * Tool references and the tool policy

    [src/app/mcp/domain/identifiers.py], [src/app/mcp/domain/tool_references.py] and
    [src/app/mcp/domain/tool_policy.py]: how a tool of an MCP server is named, and the
    policy that allows or denies one invocation.

    A Python value is a [pyval]; a list stands for a list, tuple or set where the code
    accepts any of them and only asks for membership.  The patterns accept ASCII only,
    so lengths in bytes and in characters agree. *)
From stdpp Require Import base list strings.
From Stdlib Require Import ZArith Lia Ascii.
From S2P Require Import Prelude Redis PyValue RunTerminal.
#[local] Open Scope py_scope.

(** ** Identifiers *)

Definition MCP_SAFE_ID_PATTERN : string → bool := id_pattern ["_"; "."; ":"; "-"]%char 127.
Definition SAFE_PRINCIPAL_USER_ID_PATTERN : string → bool := id_pattern ["_"; "."; ":"; "@"; "+"; "-"]%char 127.

Definition is_safe_mcp_id (value : pyval) : bool :=
  match value with PStr s => MCP_SAFE_ID_PATTERN s | _ => false end.

Definition assert_safe_mcp_id (value field_name : string) : res string :=
  raise! (field_name +:+ " contains unsupported characters") when negb (is_safe_mcp_id (PStr value));
  Ok value.

(** [value.partition(sep)]: what comes before and after the first separator. *)
Fixpoint partition (sep s : string) : option (string * string) :=
  match strip_prefix sep s with
  | Some rest => Some ("", rest)
  | None =>
      match s with
      | EmptyString => None
      | String c s' => match partition sep s' with
                       | Some (before, after) => Some (String c before, after)
                       | None => None
                       end
      end
  end.
Definition contains (sep s : string) : bool := match partition sep s with Some _ => true | None => false end.

Definition assert_safe_mcp_principal_user_id (value field_name : string) : res string :=
  raise! (field_name +:+ " contains unsupported characters") when
    negb (SAFE_PRINCIPAL_USER_ID_PATTERN value) || contains ".." value;
  Ok value.

(** ** References *)

Definition MCP_TOOL_REFERENCE_SEPARATOR : string := "::".
Definition MCP_PUBLIC_TOOL_NAME_PATTERN : string → bool := id_pattern ["_"; "."; ":"; "-"]%char 383.

Definition is_valid_mcp_public_tool_name (value : pyval) : bool :=
  match value with PStr s => MCP_PUBLIC_TOOL_NAME_PATTERN s | _ => false end.

Definition build_mcp_tool_reference (server_id public_tool_name : string) : res string :=
  let server := strip server_id in
  let tool := strip public_tool_name in
  raise! "mcp_server_id_invalid" when
    negb (MCP_SAFE_ID_PATTERN server) || contains MCP_TOOL_REFERENCE_SEPARATOR server;
  raise! "mcp_public_tool_name_invalid" when negb (is_valid_mcp_public_tool_name (PStr tool));
  Ok (server +:+ MCP_TOOL_REFERENCE_SEPARATOR +:+ tool).

Definition parse_mcp_tool_reference (value : pyval) : res (string * string) :=
  match value with
  | PStr value =>
      raise! "mcp_tool_reference_invalid" when negb (String.eqb value (strip value));
      match partition MCP_TOOL_REFERENCE_SEPARATOR value with
      | None => Raise "mcp_tool_reference_invalid"
      | Some (server_id, public_tool_name) =>
          let! built := build_mcp_tool_reference server_id public_tool_name in
          raise! "mcp_tool_reference_invalid" when negb (String.eqb built value);
          Ok (server_id, public_tool_name)
      end
  | _ => Raise "mcp_tool_reference_invalid"
  end.

Definition assert_mcp_tool_reference (value field_name : string) : res string :=
  match parse_mcp_tool_reference (PStr value) with
  | Ok _ => Ok value
  | Raise _ => Raise (field_name +:+ " contains an invalid MCP tool reference")
  end.

Section Tools.
Context `{PyRuntime}.

Definition mcp_runtime_metadata_usable (tool : list (string * pyval)) : bool :=
  let server_id := str_or_empty (get "server_id" tool) in
  let tool_id := str_or_empty (get "tool_id" tool) in
  match parse_mcp_tool_reference (PStr tool_id) with
  | Raise _ => false
  | Ok (reference_server_id, reference_tool_name) =>
      MCP_SAFE_ID_PATTERN server_id
      && String.eqb reference_server_id server_id
      && match get "allowed_tools" tool with
         | PList [PStr name] => is_valid_mcp_public_tool_name (PStr name) && String.eqb name reference_tool_name
         | _ => false
         end
      && String.eqb (str_or_empty (get "endpoint" tool)) ""
      && str_in (py_lower (str_or_empty (get "transport_type" tool))) ["http"; "streamable_http"; "sse"]
      && String.eqb (py_lower (str_or_empty (get "auth_mode" tool))) "none"
  end.

(** ** Policy *)

Definition RISK_ORDER : list (string * Z) := [("low", 0); ("medium", 1); ("high", 2)].
Definition BUILTIN_TOOL_IDENTITIES : list string :=
  ["Read"; "Glob"; "Grep"; "LS"; "Bash"; "Write"; "Edit"; "NotebookEdit"; "Agent"; "WebFetch"; "WebSearch"; "Skill"].

(** Allowed and required parameter keys of the builtin tools. *)
Record builtin_tool_contract := BuiltinToolParameterContract {
  allowed_parameter_keys : list string; required_parameter_keys : list string
}.
Definition BUILTIN_TOOL_PARAMETER_CONTRACTS : list (string * builtin_tool_contract) :=
  [("Read", BuiltinToolParameterContract ["file_path"; "offset"; "limit"; "pages"] ["file_path"]);
   ("Glob", BuiltinToolParameterContract ["pattern"; "path"] ["pattern"]);
   ("Grep", BuiltinToolParameterContract
      ["pattern"; "path"; "glob"; "output_mode"; "-i"; "multiline"; "head_limit"; "offset"; "context"; "-A"; "-B";
       "-C"; "-n"; "-o"; "type"] ["pattern"]);
   ("LS", BuiltinToolParameterContract ["path"] []);
   ("Bash", BuiltinToolParameterContract ["command"; "timeout"; "description"] ["command"]);
   ("Write", BuiltinToolParameterContract ["file_path"; "content"] ["file_path"; "content"]);
   ("Edit", BuiltinToolParameterContract ["file_path"; "old_string"; "new_string"; "replace_all"]
      ["file_path"; "old_string"; "new_string"]);
   ("NotebookEdit", BuiltinToolParameterContract ["notebook_path"; "new_source"; "cell_id"; "cell_type"; "edit_mode"]
      ["notebook_path"; "new_source"]);
   ("Agent", BuiltinToolParameterContract ["agent"; "prompt"; "description"] ["agent"]);
   ("WebFetch", BuiltinToolParameterContract ["url"; "prompt"] ["url"]);
   ("WebSearch", BuiltinToolParameterContract ["query"] ["query"]);
   ("Skill", BuiltinToolParameterContract ["skill"] ["skill"])].

(** The check the module makes when it is loaded, and that a required key is allowed. *)
Lemma contracts_cover_builtins :
  fst <$> BUILTIN_TOOL_PARAMETER_CONTRACTS = BUILTIN_TOOL_IDENTITIES ∧
  Forall (fun kv => forallb (fun k => str_in k (allowed_parameter_keys kv.2)) (required_parameter_keys kv.2) = true)
    BUILTIN_TOOL_PARAMETER_CONTRACTS.
Proof. split; [reflexivity|]. repeat constructor. Qed.

Record tool_policy_decision := ToolPolicyDecision {
  td_outcome : string; td_reason : string; td_canonical_identity : string; td_risk_level : string;
  td_write_capable : bool
}.
Definition allowed (d : tool_policy_decision) : bool := String.eqb (td_outcome d) "allow".

Definition risk_rank (s : string) : Z := default 0 (assoc s RISK_ORDER).
Definition max_risk (left right : string) : string :=
  let left_value := if str_truthy left then left else "low" in
  let right_value := if str_truthy right then right else "low" in
  if risk_rank right_value <=? risk_rank left_value then left_value else right_value.

Definition canonical_identity (value : pyval) : string :=
  match value with
  | PStr s =>
      if negb (str_truthy s) then ""
      else if str_in s BUILTIN_TOOL_IDENTITIES then s
      else match strip_prefix "mcp__" s with
           | None => ""
           | Some rest =>
               match partition "__" rest with
               | None => ""
               | Some (server, tool) =>
                   if negb (is_safe_mcp_id (PStr server)) || negb (is_valid_mcp_public_tool_name (PStr tool))
                   then "" else s
               end
           end
  | _ => ""
  end.

Definition mcp_identity (server tool : pyval) : string :=
  match server, tool with
  | PStr s, PStr t =>
      if negb (str_truthy s) || negb (str_truthy t) then ""
      else canonical_identity (PStr ("mcp__" +:+ s +:+ "__" +:+ t))
  | _, _ => ""
  end.

Definition declared_identities (value : pyval) : list string :=
  match value with
  | PList items => List.filter str_truthy (canonical_identity <$> items)
  | _ => []
  end.

Definition risk_level (tool : list (string * pyval)) : string :=
  let value := py_str (py_or (get "risk_level" tool) (PStr "low")) in
  if str_in value (fst <$> RISK_ORDER) then value else "low".

Definition evaluate_tool_policy (tool : list (string * pyval)) : tool_policy_decision :=
  let risk := risk_level tool in
  let write_capable := is_true (get "write_capable" tool) in
  let decision outcome reason identity := ToolPolicyDecision outcome reason identity risk write_capable in
  let requested := canonical_identity (get "requested_identity" tool) in
  let identity := if str_truthy requested then requested
                  else mcp_identity (get "mcp_server" tool) (get "mcp_tool" tool) in
  if negb (str_truthy identity) then decision "deny" "tool_identity_malformed" "" else
  if negb (is_true (get "registered" tool)) then decision "deny" "tool_not_registered" identity else
  let identities := declared_identities (get "declared_identities" tool) in
  let identities :=
    if is_true (get "declared" tool) && bool_decide (identities = []) && negb (is_none (get "mcp_server" tool))
    then [identity] else identities in
  if negb (is_true (get "declared" tool)) || negb (str_in identity identities)
  then decision "deny" "tool_identity_undeclared" identity else
  if negb (is_true (get "active" tool)) then decision "deny" "tool_not_active" identity else
  if negb (is_true (get "distributed" tool)) then decision "deny" "tool_not_distributed" identity else
  if negb (is_true (get "identity_authorized" tool)) then decision "deny" "tool_identity_not_authorized" identity else
  if negb (is_true (get "object_authorized" tool)) then decision "deny" "tool_object_not_authorized" identity else
  if negb (is_true (get "parameters_authorized" tool)) then decision "deny" "tool_parameters_not_authorized" identity else
  decision "allow" "tool_policy_allowed" identity.

End Tools.
