(* ===== verification/McpToolsFacts.v ===== *)
(** * Naming tools and allowing them

    A reference parses back to the server and the tool it was built from, except for
    servers whose name ends in a colon; the policy allows exactly the declared and
    authorized tools; and two tools of different servers can share one identity. *)
From stdpp Require Import base list strings.
From Stdlib Require Import ZArith Lia Ascii.
From S2P Require Import Prelude Redis PyValue QueueRuntime RunTerminal McpTools.
#[local] Open Scope py_scope.

(** ** Plain text *)

Lemma safe_id_plain s : MCP_SAFE_ID_PATTERN s = true → str_forall plain s = true.
Proof. by apply id_pattern_plain. Qed.
Lemma tool_name_plain s : MCP_PUBLIC_TOOL_NAME_PATTERN s = true → str_forall plain s = true.
Proof. by apply id_pattern_plain. Qed.

(** ** Splitting at the first separator *)

Lemma partition_join sep s a b : partition sep s = Some (a, b) → s = a +:+ sep +:+ b.
Proof.
  revert a b. induction s as [|c s IH]; intros a b; simpl.
  - destruct (strip_prefix sep "") as [t|] eqn:E; [|done]. intros [= <- <-]. by apply strip_prefix_Some in E.
  - destruct (strip_prefix sep (String c s)) as [t|] eqn:E.
    + intros [= <- <-]. by apply strip_prefix_Some in E.
    + destruct (partition sep s) as [[x y]|] eqn:Ep; [|done]. intros [= <- <-]. transitivity (String c (x +:+ sep +:+ y)); [f_equal; by apply IH|done].
Qed.

Lemma contains_cons sep c s : contains sep (String c s) = false → contains sep s = false.
Proof.
  unfold contains. simpl. destruct (strip_prefix sep (String c s)); [done|]. by destruct (partition sep s) as [[]|].
Qed.

Fixpoint ends_with_colon (s : string) : bool :=
  match s with
  | EmptyString => false
  | String c s' => match s' with EmptyString => Ascii.eqb c ":" | _ => ends_with_colon s' end
  end.

(** A server without [::] that does not end in a colon is what comes back. *)
Lemma partition_clean s t :
  contains "::" s = false → ends_with_colon s = false → partition "::" (s +:+ "::" +:+ t) = Some (s, t).
Proof.
  induction s as [|c s IH]; intros Hc He; [done|]. pose proof (contains_cons _ _ _ Hc) as Hc'.
  assert (strip_prefix "::" (String c (s +:+ "::" +:+ t)) = None) as Hn.
  { destruct (strip_prefix _ _) as [u|] eqn:E; [|done]. apply strip_prefix_Some in E. simpl in E.
    injection E as -> E. exfalso. destruct s as [|d s]; [by simpl in He|]. simpl in E. injection E as -> E.
    by unfold contains in Hc. }
  change ((String c s +:+ "::" +:+ t)%string) with (String c (s +:+ "::" +:+ t)). cbn [partition]. rewrite Hn.
  rewrite IH; [done|done|]. destruct s; [done|]. exact He.
Qed.

(** A server that ends in a colon loses it. *)
Lemma partition_colon s t :
  contains "::" s = false → ends_with_colon s = true →
  ∃ s', partition "::" (s +:+ "::" +:+ t) = Some (s', ":" +:+ t).
Proof.
  induction s as [|c s IH]; intros Hc He; [done|]. pose proof (contains_cons _ _ _ Hc) as Hc'.
  change ((String c s +:+ "::" +:+ t)%string) with (String c (s +:+ "::" +:+ t)). destruct s as [|d s].
  - simpl in He. apply Ascii.eqb_eq in He as ->. by exists "".
  - destruct (IH Hc' He) as [s' Hs]. cbn [partition]. rewrite Hs.
    destruct (strip_prefix "::" (String c (String d s +:+ "::" +:+ t))) as [u|] eqn:E; [|by eauto].
    exfalso. apply strip_prefix_Some in E. simpl in E. injection E as -> -> _. by unfold contains in Hc.
Qed.

(** ** References *)

Lemma build_parts server tool r :
  build_mcp_tool_reference server tool = Ok r →
  MCP_SAFE_ID_PATTERN (strip server) = true ∧ contains "::" (strip server) = false ∧
  MCP_PUBLIC_TOOL_NAME_PATTERN (strip tool) = true ∧ r = strip server +:+ "::" +:+ strip tool.
Proof.
  unfold build_mcp_tool_reference, is_valid_mcp_public_tool_name. intros E. run_res E. simplify_eq. to_prop. done.
Qed.

Lemma built_plain server tool r : build_mcp_tool_reference server tool = Ok r → strip r = r.
Proof.
  intros (Hs & _ & Ht & ->)%build_parts. apply strip_plain. rewrite !str_forall_app.
  rewrite (safe_id_plain _ Hs), (tool_name_plain _ Ht). done.
Qed.

Lemma build_stripped server tool :
  build_mcp_tool_reference (strip server) (strip tool) = build_mcp_tool_reference server tool.
Proof. unfold build_mcp_tool_reference. by rewrite !strip_idem. Qed.

(** Tool references parse back.  A reference built from a server and a tool parses
    to exactly these two, stripped, unless the server ends in a colon: such a reference
    is built but never parses.  Conversely a text parses only if it is the reference
    of what it parses to. *)
Lemma tool_reference_roundtrip :
  (∀ server tool r, build_mcp_tool_reference server tool = Ok r →
     if ends_with_colon (strip server) then ∃ e, parse_mcp_tool_reference (PStr r) = Raise e
     else parse_mcp_tool_reference (PStr r) = Ok (strip server, strip tool)) ∧
  (∀ v server tool, parse_mcp_tool_reference v = Ok (server, tool) →
     v = PStr (server +:+ "::" +:+ tool) ∧ build_mcp_tool_reference server tool = Ok (server +:+ "::" +:+ tool)).
Proof.
  split.
  - intros server tool r Hb. unfold parse_mcp_tool_reference. rewrite (built_plain _ _ _ Hb), String.eqb_refl. cbn [negb].
    pose proof (build_parts _ _ _ Hb) as (Hs & Hc & Ht & Hr). destruct (ends_with_colon _) eqn:He.
    + destruct (partition_colon _ (strip tool) Hc He) as [s' Hp]. rewrite Hr. unfold MCP_TOOL_REFERENCE_SEPARATOR. rewrite Hp.
      unfold build_mcp_tool_reference. rewrite (strip_plain (":" +:+ strip tool)) by exact (tool_name_plain _ Ht).
      destruct (_ || _); [by eexists|]. by eexists.
    + rewrite Hr at 1. unfold MCP_TOOL_REFERENCE_SEPARATOR. rewrite (partition_clean _ _ Hc He).
      rewrite build_stripped, Hb. cbn [res_bind]. by rewrite String.eqb_refl.
  - intros v server tool. unfold parse_mcp_tool_reference. destruct v as [| | | |s| |]; try done. intros E.
    run_res E. simplify_eq. to_prop. subst.
    match goal with Hp : partition _ _ = Some _ |- _ => apply partition_join in Hp; unfold MCP_TOOL_REFERENCE_SEPARATOR in Hp end.
    split; congruence.
Qed.

(** The gap, at a server and a tool. *)
Example colon_server_is_lost :
  build_mcp_tool_reference "docs:" "search" = Ok "docs:::search"%string ∧
  match parse_mcp_tool_reference (PStr "docs:::search") with Ok _ => False | Raise _ => True end.
Proof. by vm_compute. Qed.

(** ** The policy *)

(** A builtin tool, or a tool of a server split at the first double underscore. *)
Definition well_named (id : string) : Prop :=
  str_in id BUILTIN_TOOL_IDENTITIES = true ∨
  ∃ rest server tool, id = "mcp__" +:+ rest ∧ partition "__" rest = Some (server, tool) ∧
    MCP_SAFE_ID_PATTERN server = true ∧ MCP_PUBLIC_TOOL_NAME_PATTERN tool = true.

Lemma well_named_truthy id : well_named id → str_truthy id = true.
Proof. intros [Hb|(rest & s & t & -> & _)]; [|done]. by destruct id. Qed.

Lemma canonical_spec v :
  canonical_identity v = "" ∨ (v = PStr (canonical_identity v) ∧ well_named (canonical_identity v)).
Proof.
  destruct v as [| | | |s| |]; try (by left). unfold canonical_identity.
  destruct (str_truthy s); cbn [negb]; [|by left]. destruct (str_in s BUILTIN_TOOL_IDENTITIES) eqn:Eb.
  { right. split; [done|by left]. }
  destruct (strip_prefix "mcp__" s) as [rest|] eqn:Ep; [|by left].
  destruct (partition "__" rest) as [[server tool]|] eqn:Es; [|by left].
  destruct (_ || _) eqn:Ev; [by left|]. right. split; [done|]. right. apply strip_prefix_Some in Ep.
  apply orb_false_iff in Ev as [E1%negb_false_iff E2%negb_false_iff]. by exists rest, server, tool.
Qed.

Lemma canonical_complete id : well_named id → canonical_identity (PStr id) = id.
Proof.
  intros Hw. unfold canonical_identity. rewrite (well_named_truthy _ Hw). cbn [negb].
  destruct Hw as [-> |(rest & s & t & Hid & Hp & Hs & Ht)]; [done|].
  destruct (str_in id _); [done|]. rewrite (proj2 (strip_prefix_Some "mcp__" id rest) Hid), Hp.
  unfold is_safe_mcp_id, is_valid_mcp_public_tool_name. by rewrite Hs, Ht.
Qed.

Lemma declared_spec id v :
  str_in id (declared_identities v) = true ↔ well_named id ∧ ∃ items, v = PList items ∧ PStr id ∈ items.
Proof.
  rewrite str_in_elem. split.
  - destruct v as [| | | | |items|]; try (by intros ?%elem_of_nil). simpl.
    intros [Hin Ht]%list_elem_of_In%filter_In. apply list_elem_of_In, list_elem_of_fmap in Hin as (v & -> & Hin).
    destruct (canonical_spec v) as [E|[Ev Hw]]; [by rewrite E in Ht|]. split; [done|]. exists items. by rewrite <- Ev.
  - intros (Hw & items & -> & Hin). simpl. apply list_elem_of_In, filter_In. split; [|by apply well_named_truthy].
    apply list_elem_of_In, list_elem_of_fmap. exists (PStr id). by rewrite canonical_complete.
Qed.

Lemma none_declared v :
  declared_identities v = [] ↔ ∀ id, well_named id → ¬ ∃ items, v = PList items ∧ PStr id ∈ items.
Proof.
  split.
  - intros E id Hw Hin. assert (str_in id (declared_identities v) = true) as Hd by (apply declared_spec; done). by rewrite E in Hd.
  - intros Hn. destruct (declared_identities v) as [|id l] eqn:E; [done|].
    assert (str_in id (declared_identities v) = true) as [Hw Hin]%declared_spec; [|by destruct (Hn id Hw)].
    rewrite E. simpl. by rewrite String.eqb_refl.
Qed.

Section Policy.
Context `{PyRuntime}.
Implicit Types (tool : list (string * pyval)).

(** The tool an invocation names: the requested identity, or server and tool when the
    requested identity is no identity. *)
Definition names tool (id : string) : Prop :=
  get "requested_identity" tool = PStr id ∨
  (∀ id', well_named id' → get "requested_identity" tool ≠ PStr id') ∧
  ∃ server t, get "mcp_server" tool = PStr server ∧ get "mcp_tool" tool = PStr t ∧ server ≠ "" ∧ t ≠ "" ∧
    id = "mcp__" +:+ server +:+ "__" +:+ t.

(** It is among the declared ones, or none is declared and a server was selected. *)
Definition declares tool (id : string) : Prop :=
  (∃ items, get "declared_identities" tool = PList items ∧ PStr id ∈ items) ∨
  (∀ id', well_named id' → ¬ ∃ items, get "declared_identities" tool = PList items ∧ PStr id' ∈ items) ∧
  get "mcp_server" tool ≠ PNone.

Definition authorization_flags : list string :=
  ["registered"; "declared"; "active"; "distributed"; "identity_authorized"; "object_authorized"; "parameters_authorized"].

Lemma is_true_spec v : is_true v = true ↔ v = PBool true.
Proof. destruct v as [|[]| | | | |]; split; intros E; try done; by injection E. Qed.

Definition chosen_identity tool : string :=
  let requested := canonical_identity (get "requested_identity" tool) in
  if str_truthy requested then requested else mcp_identity (get "mcp_server" tool) (get "mcp_tool" tool).

Lemma chosen_spec tool id :
  str_truthy id = true → chosen_identity tool = id ↔ well_named id ∧ names tool id.
Proof.
  intros Hid. unfold chosen_identity.
  destruct (canonical_spec (get "requested_identity" tool)) as [E|[Ev Hw]].
  - rewrite E. change (str_truthy "") with false. cbv iota. split.
    + intros Em. unfold mcp_identity in Em. destruct (get "mcp_server" tool) as [| | | |s| |] eqn:Es; try (by subst).
      destruct (get "mcp_tool" tool) as [| | | |t| |] eqn:Et; try (by subst).
      destruct (negb (str_truthy s) || negb (str_truthy t)) eqn:Eb; [by subst|].
      apply orb_false_iff in Eb as [E1%negb_false_iff E2%negb_false_iff].
      destruct (canonical_spec (PStr ("mcp__" +:+ s +:+ "__" +:+ t))) as [E0|[E0 Hw0]]; [rewrite E0 in Em; by subst|].
      rewrite Em in E0, Hw0. injection E0 as <-. split; [done|]. right. split.
      * intros id' Hw' Eq. rewrite Eq, (canonical_complete _ Hw') in E. apply well_named_truthy in Hw'. by subst.
      * exists s, t. split_and!; try done; by intros ->.
    + intros [Hw [Eq|[_ (s & t & Es & Et & Hs & Ht & ->)]]].
      * rewrite Eq, (canonical_complete _ Hw) in E. by subst.
      * unfold mcp_identity. rewrite Es, Et. assert (∀ x, x ≠ "" → str_truthy x = true) as Htr by (intros x; by destruct x).
        rewrite (Htr _ Hs), (Htr _ Ht). cbn [negb orb]. by apply canonical_complete.
  - rewrite (well_named_truthy _ Hw). split.
    + intros <-. split; [done|]. by left.
    + intros [Hw' [Eq|[Hn _]]]; [|by destruct (Hn _ Hw)]. rewrite Eq. by apply canonical_complete.
Qed.
Lemma declared_effective tool id :
  well_named id → is_true (get "declared" tool) = true →
  str_in id (if is_true (get "declared" tool) && bool_decide (declared_identities (get "declared_identities" tool) = [])
                && negb (is_none (get "mcp_server" tool)) then [id]
             else declared_identities (get "declared_identities" tool)) = true ↔ declares tool id.
Proof.
  intros Hw Hd. rewrite Hd. cbn [andb]. unfold declares.
  destruct (bool_decide_reflect (declared_identities (get "declared_identities" tool) = [])) as [E|E]; cbn [andb].
  - pose proof (proj1 (none_declared _) E) as Hn. destruct (get "mcp_server" tool); cbn [is_none negb str_in];
      rewrite ?String.eqb_refl; [|by split; [intros _; right|]..].
    rewrite E. split; [done|]. intros [Hin|[_ ?]]; [by destruct (Hn id Hw)|done].
  - rewrite declared_spec. split; [intros [_ ?]; by left|]. intros [?|[Hn _]]; [done|]. by destruct E; apply none_declared.
Qed.

Lemma risk_known tool : risk_level tool ∈ ["low"; "medium"; "high"].
Proof.
  unfold risk_level. destruct (str_in _ _) eqn:E; [by apply str_in_elem in E|]. by left.
Qed.

(** What the policy may decide about a tool. *)
Definition decided tool (d : tool_policy_decision) : Prop :=
  let id := td_canonical_identity d in
  td_outcome d ∈ ["allow"; "deny"] ∧ td_risk_level d ∈ ["low"; "medium"; "high"] ∧ (id = "" ∨ well_named id) ∧
  (allowed d = true ↔
   (∀ flag, flag ∈ authorization_flags → get flag tool = PBool true) ∧
   well_named id ∧ names tool id ∧ declares tool id).

Lemma denied tool reason id w :
  well_named id →
  ¬ ((∀ flag, flag ∈ authorization_flags → is_true (get flag tool) = true) ∧ declares tool id) →
  decided tool (ToolPolicyDecision "deny" reason id (risk_level tool) w).
Proof.
  intros Hw Hn. split_and!; [by right; left|apply risk_known|by right|]. split; [done|].
  intros (Hf & _ & _ & Hd). destruct Hn. split; [|done]. intros flag Hin. by rewrite (Hf flag Hin).
Qed.

(** C24.  The tool policy fails closed.  Every decision allows or denies, carries a risk
    of the table, and names either nothing or a well-formed tool.  It allows exactly
    when each of the seven flags is the value [True] and the tool it names is the one
    the invocation names, is well-formed and is declared. *)
Theorem tool_policy_fails_closed tool : decided tool (evaluate_tool_policy tool).
Proof.
  unfold evaluate_tool_policy. fold (chosen_identity tool). destruct (str_truthy (chosen_identity tool)) eqn:Ht; cbn [negb].
  2: { split_and!; [by right; left|apply risk_known|by left|]. split; [done|].
       intros (_ & Hw & _). by apply well_named_truthy in Hw. }
  pose proof (proj1 (chosen_spec tool _ Ht) eq_refl) as [Hw Hn]. set (id := chosen_identity tool) in *.
  assert (∀ flag, str_in flag authorization_flags = true → is_true (get flag tool) = false →
    ¬ ((∀ flag, flag ∈ authorization_flags → is_true (get flag tool) = true) ∧ declares tool id)) as Hflag.
  { intros flag Hin%str_in_elem Hf [Hall _]. by rewrite (Hall flag Hin) in Hf. }
  destruct (is_true (get "registered" tool)) eqn:E1; cbn [negb]; [|by apply denied; [|eapply Hflag; [|exact E1]]].
  destruct (is_true (get "declared" tool)) eqn:E2; cbn [negb orb]; [|by apply denied; [|eapply Hflag; [|exact E2]]].
  pose proof (declared_effective tool id Hw E2) as Hd. rewrite E2 in Hd. cbn [andb] in Hd |- *.
  destruct (str_in id _) eqn:E3; cbn [negb]; [|apply denied; [done|intros [_ ?%Hd]; done]].
  apply proj1 in Hd. specialize (Hd eq_refl).
  destruct (is_true (get "active" tool)) eqn:E4; cbn [negb]; [|by apply denied; [|eapply Hflag; [|exact E4]]].
  destruct (is_true (get "distributed" tool)) eqn:E5; cbn [negb]; [|by apply denied; [|eapply Hflag; [|exact E5]]].
  destruct (is_true (get "identity_authorized" tool)) eqn:E6; cbn [negb]; [|by apply denied; [|eapply Hflag; [|exact E6]]].
  destruct (is_true (get "object_authorized" tool)) eqn:E7; cbn [negb]; [|by apply denied; [|eapply Hflag; [|exact E7]]].
  destruct (is_true (get "parameters_authorized" tool)) eqn:E8; cbn [negb]; [|by apply denied; [|eapply Hflag; [|exact E8]]].
  split_and!; [by left|apply risk_known|by right|]. split; [|done]. intros _. split_and!; [|done..].
  intros flag Hin. apply is_true_spec. unfold authorization_flags in Hin. rewrite !elem_of_cons, elem_of_nil in Hin.
  decompose [or] Hin; subst; done.
Qed.
End Policy.

(** ** Identities of two servers *)

(** Two tools can share an identity.  When the parts are valid and the first is
    cut at its first double underscore, the tool [c] of the server [a__b] and the tool
    [b__c] of the server [a] have the same identity, so the policy allows the one where
    only the other is declared. *)
Lemma mcp_identities_collide a b c :
  MCP_SAFE_ID_PATTERN a = true → partition "__" (a +:+ "__" +:+ b +:+ "__" +:+ c) = Some (a, b +:+ "__" +:+ c) →
  MCP_PUBLIC_TOOL_NAME_PATTERN (b +:+ "__" +:+ c) = true → c ≠ "" →
  mcp_identity (PStr (a +:+ "__" +:+ b)) (PStr c) = mcp_identity (PStr a) (PStr (b +:+ "__" +:+ c)) ∧
  mcp_identity (PStr a) (PStr (b +:+ "__" +:+ c)) = "mcp__" +:+ a +:+ "__" +:+ b +:+ "__" +:+ c.
Proof.
  intros Ha Hp Hb Hc. assert (well_named ("mcp__" +:+ a +:+ "__" +:+ b +:+ "__" +:+ c)) as Hw.
  { right. by exists (a +:+ "__" +:+ b +:+ "__" +:+ c), a, (b +:+ "__" +:+ c). }
  assert (str_truthy a = true) as Hta by (by destruct a).
  assert (str_truthy (b +:+ "__" +:+ c) = true) as Htb by (by destruct b).
  assert (str_truthy (a +:+ "__" +:+ b) = true) as Hta' by (by destruct a).
  assert (str_truthy c = true) as Htc by (by destruct c).
  unfold mcp_identity. rewrite Hta, Htb, Hta', Htc. cbn [negb orb].
  assert ((a +:+ "__" +:+ b) +:+ "__" +:+ c = a +:+ "__" +:+ b +:+ "__" +:+ c) as E by by rewrite !append_assoc.
  rewrite (canonical_complete _ Hw). by rewrite E, canonical_complete.
Qed.

Example mcp_identities_collide_docs :
  mcp_identity (PStr "docs__v2") (PStr "search") = mcp_identity (PStr "docs") (PStr "v2__search") ∧
  mcp_identity (PStr "docs") (PStr "v2__search") = "mcp__docs__v2__search"%string.
Proof.
  apply (mcp_identities_collide "docs" "v2" "search"); [reflexivity|reflexivity|reflexivity|discriminate].
Qed.
