(* ===== verification/WorkspacePolicy.v ===== *)
(** * Paths of a run workspace

    [src/app/sandbox/domain/workspace_policy.py] and
    [src/app/sandbox/domain/workspace_delivery.py]: which paths a run may read, change,
    have collected as artifacts and deliver.

    [casefold] is the Unicode table of the runtime and a parameter; the theorems hold
    for every table. *)
From stdpp Require Import base list strings.
From Stdlib Require Import ZArith Lia Ascii.
From S2P Require Import Prelude PyValue RunTerminal.
#[local] Open Scope py_scope.

(** ** Tables *)

Definition PLATFORM_CLAUDE_INSTRUCTIONS_FILENAME : string := "CLAUDE.md".
Definition WORKSPACE_RUNTIME_PRIVATE_ROOTS : list string := [".ai-platform"; ".claude-config"; ".home"; ".pins"; ".tmp"].
Definition MUTATION_PROTECTED_ROOTS : list string := WORKSPACE_RUNTIME_PRIVATE_ROOTS ++ [".claude"; "inputs"].

(** ** Paths *)

(** [PurePosixPath(text)]: whether it is absolute, and its other parts. *)
Record pure_path := PurePath { pp_root : string; pp_names : list string }.
Definition pure_posix_path (text : string) : pure_path :=
  let root :=
    match strip_prefix "/" text with
    | None => ""
    | Some rest => match strip_prefix "/" rest with
                   | None => "/"
                   | Some rest => match strip_prefix "/" rest with None => "//" | Some _ => "/" end
                   end
    end in
  PurePath root (List.filter (fun part => negb (str_in part [""; "."])) (split_on "/" text)).
Definition is_absolute (path : pure_path) : bool := str_truthy (pp_root path).
(** [path.parts]; the root is the first part of an absolute path. *)
Definition parts (path : pure_path) : list string :=
  if is_absolute path then pp_root path :: pp_names path else pp_names path.

Section Policy.
Context (casefold : string → string).

Definition MUTATION_PROTECTED_ROOT_FILES : list string :=
  [casefold PLATFORM_CLAUDE_INSTRUCTIONS_FILENAME; "claude.local.md"; ".ai-platform-opensandbox-lease.json"].
Definition COLLECTION_PRIVATE_DIRECTORIES : list string :=
  MUTATION_PROTECTED_ROOTS ++ [".native-skill-tmp"; "runtime"; "_audit"; "_debug"].
Definition COLLECTION_PRIVATE_FILES : list string :=
  MUTATION_PROTECTED_ROOT_FILES ++ ["run-state.json"; "step-event.json"; "step-response.json"].
Definition READABLE_SCRATCH_ROOTS : list string := [".tmp"].
Definition READ_PRIVATE_FILES : list string :=
  List.filter (fun name => negb (String.eqb name (casefold PLATFORM_CLAUDE_INSTRUCTIONS_FILENAME))) COLLECTION_PRIVATE_FILES.
Definition READ_PRIVATE_DIRECTORIES : list string :=
  List.filter (fun name => negb (str_in name ([".claude"; "inputs"] ++ READABLE_SCRATCH_ROOTS))) COLLECTION_PRIVATE_DIRECTORIES.

(** [[A-Za-z0-9_-]{1,128}], matched in full. *)
Definition session_pattern (s : string) : bool :=
  str_forall (fun c => is_alnum c || Ascii.eqb c "_" || Ascii.eqb c "-") s
  && Nat.leb 1 (String.length s) && Nat.leb (String.length s) 128.

Definition names_refused (path : pure_path) : bool := existsb (fun part => str_in part [""; "."; ".."]) (parts path).

Definition workspace_read_allowed (path : pure_path) (native_session_id : option string) : bool :=
  if is_absolute path || str_in ".." (parts path) then false else
  match parts path with
  | [] => true
  | first :: rest =>
      let lowered := casefold <$> parts path in
      if match parts path with
         | p0 :: p1 :: p2 :: p3 :: p4 :: _ :: _ =>
             bool_decide ([p0; p1; p2] = [".claude-config"; "projects"; "ai-platform"])
             && bool_decide (native_session_id = Some p3) && session_pattern p3 && String.eqb p4 "tool-results"
         | _ => false
         end then true else
      if String.eqb (casefold first) ".claude" then
        match lowered with _ :: second :: _ => String.eqb second "skills" | _ => false end
      else
        negb (str_in (casefold first) READ_PRIVATE_DIRECTORIES)
        && negb (match rest with [] => str_in (casefold first) READ_PRIVATE_FILES | _ => false end)
  end.

Definition workspace_mutation_allowed (path : pure_path) : bool :=
  match parts path with
  | [] => false
  | first :: rest =>
      if is_absolute path || names_refused path then false else
      if str_in (casefold first) MUTATION_PROTECTED_ROOTS then false else
      negb (match rest with [] => str_in (casefold first) MUTATION_PROTECTED_ROOT_FILES | _ => false end)
  end.

Definition workspace_collection_directory_allowed (path : pure_path) : bool :=
  match parts path with
  | [] => false
  | first :: _ =>
      if is_absolute path || names_refused path then false else
      negb (str_in (casefold first) COLLECTION_PRIVATE_DIRECTORIES)
  end.

Definition workspace_collection_file_allowed (path : pure_path) : bool :=
  match parts path with
  | [] => false
  | first :: rest =>
      if is_absolute path || names_refused path then false else
      negb (str_in (casefold first) COLLECTION_PRIVATE_DIRECTORIES)
      && negb (match rest with [] => str_in (casefold first) COLLECTION_PRIVATE_FILES | _ => false end)
  end.

Definition workspace_delivery_file_allowed (path : pure_path) (allowed_skill_names : list string) : bool :=
  if workspace_collection_file_allowed path then true else
  if is_absolute path || names_refused path then false else
  match parts path with
  | p0 :: p1 :: p2 :: p3 :: _ :: _ =>
      bool_decide ([casefold p0; casefold p1] = [".claude"; "skills"])
      && str_in p2 (List.filter str_truthy allowed_skill_names) && String.eqb (casefold p3) "output"
  | _ => false
  end.

(** [opensandbox_delivery_files]; [safe_relative_path] is given by the caller.  The
    selection is one text, which is refused, or a sequence. *)
Definition SELECTION_INVALID : string := "OpenSandbox workspace collection selection is invalid".
Fixpoint select_delivery (safe_relative_path : string → res string) (allowed_skill_names : list string)
    (declared : list pyval) (normalized_paths : list string) : res (list string) :=
  match declared with
  | [] => Ok normalized_paths
  | PStr raw :: declared' =>
      let! relative := safe_relative_path raw in
      raise! SELECTION_INVALID when
        str_in relative normalized_paths
        || negb (workspace_delivery_file_allowed (pure_posix_path relative) allowed_skill_names);
      select_delivery safe_relative_path allowed_skill_names declared' (normalized_paths ++ [relative])
  | _ :: _ => Raise SELECTION_INVALID
  end.
Definition opensandbox_delivery_files (safe_relative_path : string → res string) (allowed_skill_names : list string)
    (max_files : Z) (response_files : string + list pyval) : res (list string) :=
  match response_files with
  | inl _ => Raise SELECTION_INVALID
  | inr declared_paths =>
      raise! "workspace artifacts exceed the file count limit" when max_files <? Z.of_nat (length declared_paths);
      select_delivery safe_relative_path allowed_skill_names declared_paths []
  end.

(** ** What the policies promise together *)

Lemma str_in_filter f s l : str_in s (List.filter f l) = true → str_in s l = true.
Proof.
  rewrite !str_in_elem. intros Hin. apply list_elem_of_In. apply list_elem_of_In, filter_In in Hin. by destruct Hin.
Qed.

Lemma not_listed f s l : str_in s l = false → str_in s (List.filter f l) = false.
Proof. intros Hn. destruct (str_in s (List.filter f l)) eqn:E; [|done]. apply str_in_filter in E. congruence. Qed.

Lemma refused_covers_dots path : names_refused path = false → str_in ".." (parts path) = false.
Proof.
  unfold names_refused. induction (parts path) as [|x l IH]; [done|]. cbn [existsb str_in].
  intros [Hx Hl]%orb_false_iff. rewrite (IH Hl), orb_false_r. destruct (String.eqb_spec ".." x) as [<-|]; [done|done].
Qed.

(** A platform-owned path: its first name belongs to the platform. *)
Definition platform_root (path : pure_path) : bool :=
  match pp_names path with first :: _ => str_in (casefold first) MUTATION_PROTECTED_ROOTS | [] => false end.

Lemma collected_open path :
  workspace_collection_file_allowed path = true →
  ∃ first rest, parts path = first :: rest ∧ is_absolute path = false ∧ names_refused path = false ∧
    str_in (casefold first) COLLECTION_PRIVATE_DIRECTORIES = false ∧
    (rest = [] → str_in (casefold first) COLLECTION_PRIVATE_FILES = false).
Proof.
  unfold workspace_collection_file_allowed. destruct (parts path) as [|first rest]; [done|].
  destruct (is_absolute path || names_refused path) eqn:E; [done|]. apply orb_false_iff in E as [Ea En].
  rewrite andb_true_iff, !negb_true_iff. intros [Hd Hf]. exists first, rest. split_and!; try done. by intros ->.
Qed.

Lemma delivery_cases path skills :
  workspace_delivery_file_allowed path skills = true →
  is_absolute path = false ∧ names_refused path = false ∧
  (workspace_collection_file_allowed path = true ∨
   ∃ c d skill o rest, parts path = c :: d :: skill :: o :: rest ∧ rest ≠ [] ∧ casefold c = ".claude" ∧
     casefold d = "skills" ∧ skill ∈ skills ∧ casefold o = "output").
Proof.
  unfold workspace_delivery_file_allowed. destruct (workspace_collection_file_allowed path) eqn:Ec.
  - destruct (collected_open _ Ec) as (? & ? & _ & ? & ? & _). auto.
  - destruct (is_absolute path || names_refused path) eqn:E; [done|]. apply orb_false_iff in E as [Ea En].
    destruct (parts path) as [|c [|d [|skill [|o [|x rest]]]]] eqn:Ep; try done. rewrite !andb_true_iff.
    intros [[H1%bool_decide_eq_true H2%str_in_filter] H3%String.eqb_eq]. injection H1 as Hc Hd. split_and!; [done|done|].
    right. exists c, d, skill, o, (x :: rest). split_and!; try done. by apply str_in_elem.
Qed.

Lemma delivered_readable path skills sid :
  workspace_delivery_file_allowed path skills = true → workspace_read_allowed path sid = true.
Proof.
  intros (Ha & Hn & Hcase)%delivery_cases. unfold workspace_read_allowed. rewrite Ha, (refused_covers_dots _ Hn). cbn [orb].
  destruct Hcase as [(first & rest & Hp & _ & _ & Hd & Hf)%collected_open|
    (c & d & skill & o & rest & Hp & _ & Hc & Hd & _)]; rewrite Hp; cbn [fmap list_fmap].
  - match goal with |- (if ?b then _ else _) = _ => destruct b end; [done|].
    destruct (String.eqb_spec (casefold first) ".claude") as [E|_]; [by rewrite E in Hd|].
    unfold READ_PRIVATE_DIRECTORIES. rewrite (not_listed _ _ _ Hd). cbn [negb andb].
    destruct rest; [|done]. unfold READ_PRIVATE_FILES. by rewrite (not_listed _ _ _ (Hf eq_refl)).
  - match goal with |- (if ?b then _ else _) = _ => destruct b end; [done|]. by rewrite Hc, Hd.
Qed.

Lemma collected_mutable path :
  workspace_collection_file_allowed path = true → workspace_mutation_allowed path = true.
Proof.
  intros (first & rest & Hp & Ha & Hn & Hd & Hf)%collected_open. unfold workspace_mutation_allowed. rewrite Hp, Ha, Hn.
  cbn [orb]. unfold COLLECTION_PRIVATE_DIRECTORIES in Hd. rewrite str_in_app in Hd. apply orb_false_iff in Hd as [-> _].
  destruct rest; [|done]. specialize (Hf eq_refl). unfold COLLECTION_PRIVATE_FILES in Hf. rewrite str_in_app in Hf.
  by apply orb_false_iff in Hf as [-> _].
Qed.

Lemma select_sound safe skills declared : ∀ normalized result,
  select_delivery safe skills declared normalized = Ok result →
  NoDup normalized →
  Forall (fun f => workspace_delivery_file_allowed (pure_posix_path f) skills = true) normalized →
  NoDup result ∧ Forall (fun f => workspace_delivery_file_allowed (pure_posix_path f) skills = true) result ∧
  length result = (length normalized + length declared)%nat.
Proof.
  induction declared as [|v declared IH]; intros normalized result; cbn [select_delivery].
  - intros [= <-] Hnd Hall. simpl. split_and!; [done..|lia].
  - destruct v as [| | | |raw| |]; try done. intros E Hnd Hall. run_res E. apply orb_false_iff in Heqb as [Hin Hok%negb_false_iff].
    destruct (IH _ _ E) as (Hnd' & Hall' & Hlen).
    + apply NoDup_app. split_and!; [done| |apply NoDup_singleton]. intros z Hz ->%list_elem_of_singleton.
      apply str_in_elem in Hz. congruence.
    + apply Forall_app. split; [done|]. by apply Forall_singleton.
    + split_and!; [done..|]. rewrite Hlen, length_app. simpl. lia.
Qed.

(** C25.  What leaves a workspace was open to the run.  A collected file could be changed
    and read by the run, and a delivered one read; a path the run may change is never
    under a root of the platform, and a delivered one only in the output directory of
    a skill the run was given.  A delivery selection that is accepted has no
    duplicates, keeps within the limit, and every file of it may be delivered. *)
Theorem workspace_policies_nest :
  (∀ path, workspace_collection_file_allowed path = true → workspace_mutation_allowed path = true) ∧
  (∀ path, workspace_mutation_allowed path = true → is_absolute path = false ∧ platform_root path = false) ∧
  (∀ path skills sid, workspace_delivery_file_allowed path skills = true →
     is_absolute path = false ∧ ".." ∉ pp_names path ∧ workspace_read_allowed path sid = true ∧
     (platform_root path = true →
      ∃ c d skill o rest, pp_names path = c :: d :: skill :: o :: rest ∧ rest ≠ [] ∧ casefold c = ".claude" ∧
        casefold d = "skills" ∧ skill ∈ skills ∧ casefold o = "output")) ∧
  (∀ safe skills limit files result, opensandbox_delivery_files safe skills limit files = Ok result →
     NoDup result ∧ Z.of_nat (length result) ≤ limit ∧
     Forall (fun f => workspace_delivery_file_allowed (pure_posix_path f) skills = true) result).
Proof.
  split_and!.
  - exact collected_mutable.
  - intros path. unfold workspace_mutation_allowed, platform_root, parts.
    destruct (is_absolute path) eqn:Ea; [by simpl|]. destruct (pp_names path) as [|first rest]; [done|]. cbn [orb].
    destruct (names_refused path); [done|]. by destruct (str_in (casefold first) MUTATION_PROTECTED_ROOTS).
  - intros path skills sid Hd. pose proof (delivered_readable _ _ sid Hd) as Hr.
    destruct (delivery_cases _ _ Hd) as (Ha & Hn & Hcase). pose proof (refused_covers_dots _ Hn) as Hdots.
    unfold platform_root. unfold parts in *. rewrite Ha in *. split_and!; [done| |done|].
    + intros Hin%str_in_elem. congruence.
    + intros Hroot. destruct Hcase as [(first & rest & Hp & _ & _ & Hdir & _)%collected_open|Hskill]; [|exact Hskill].
      exfalso. unfold parts in Hp. rewrite Ha in Hp. rewrite Hp in Hroot. unfold COLLECTION_PRIVATE_DIRECTORIES in Hdir.
      rewrite str_in_app, Hroot in Hdir. done.
  - intros safe skills limit files result. unfold opensandbox_delivery_files. destruct files as [|declared]; [done|].
    intros E. run_res E. destruct (select_sound _ _ _ _ _ E) as (Hnd & Hall & Hlen); [constructor|constructor|].
    split_and!; [done| |done]. simpl in Hlen. rewrite Hlen. to_prop. lia.
Qed.
End Policy.

(** At a delivered skill output and a collected report, with the case folding of
    ASCII. *)
Lemma workspace_policies_nest_witness :
  workspace_mutation_allowed py_lower (pure_posix_path "out/report.md") = true ∧
  workspace_read_allowed py_lower (pure_posix_path ".claude/skills/pdf/output/a.pdf") None = true ∧
  NoDup ["out/report.md"; ".claude/skills/pdf/output/a.pdf"]%string.
Proof.
  destruct (workspace_policies_nest py_lower) as (H1 & _ & H3 & H4). split_and!.
  - apply H1. vm_compute. reflexivity.
  - eapply (H3 _ ["pdf"]%string). vm_compute. reflexivity.
  - eapply (H4 Ok ["pdf"]%string 2 (inr [PStr "out/report.md"; PStr ".claude/skills/pdf/output/a.pdf"])).
    vm_compute. reflexivity.
Defined.
