(* ===== verification/CancelTail.v ===== *)
(** * Receipts after a cancellation

    [src/app/runs/domain/cancel_tail.py] and [authorize_cancel_tail_receipt] of
    [src/app/runs/application/attempt_lifecycle.py]: a cancel request takes the
    execution away from its worker, but the worker may still hand in the receipts of
    what it had started, as long as its sandbox lease lives. *)
From stdpp Require Import base gmap list strings.
From Stdlib Require Import ZArith Lia Ascii.
From S2P Require Import Prelude QueueRuntime PyValue RunAttempt RunAttemptFacts RunLifecycle Platform WorkerLifecycle PlatformFacts Cancellation StaleReconciliation PlatformExample PlatformTrace PlatformSafety.
#[local] Open Scope py_scope.

(** The lease row a caller presents; a column that is missing or of another type is
    [None]. *)
Record tail_lease := TailLease {
  tl_tenant_id : option string; tl_run_id : option string; tl_attempt_id : option string;
  tl_workspace_id : option string; tl_user_id : option string; tl_session_id : option string;
  tl_status : option string; tl_released_at : option Z; tl_expires_at : option datetime;
  tl_payload_generation : option Z
}.

Definition TAIL_OPERATIONS : list string := ["provider_append"; "executor_terminal"; "tool_completion"].

(** [run.get(key) == lease.get(key) and bool(run.get(key))]. *)
Definition same_column (value : option string) (column : option string) : bool :=
  bool_decide (value = column) && match value with Some s => str_truthy s | None => false end.

Definition cancel_tail_receipt_allowed (key : run_key) (run : prun) (attempt : attempt_row) (lease : tail_lease)
    (tenant_id run_id attempt_id : string) (owner_generation : pyval) (operation : string) (now : datetime)
    (operation_started : pyval) : bool :=
  if negb (str_in operation TAIL_OPERATIONS) then false else
  if String.eqb operation "tool_completion" && negb (is_true operation_started) then false else
  match owner_generation with
  | PInt owner_generation =>
      if owner_generation <? 1 then false else
      if negb (dt_aware now) then false else
      match tl_expires_at lease, tl_payload_generation lease with
      | Some expires_at, Some payload_generation =>
          if negb (dt_aware expires_at) then false else
          String.eqb key.1 (a_tenant_id attempt) && bool_decide (tl_tenant_id lease = Some (a_tenant_id attempt))
          && bool_decide (tl_tenant_id lease = Some tenant_id)
          && String.eqb key.2 (a_run_id attempt) && bool_decide (tl_run_id lease = Some (a_run_id attempt))
          && bool_decide (tl_run_id lease = Some run_id)
          && bool_decide (tl_attempt_id lease = Some (a_id attempt)) && String.eqb (a_id attempt) attempt_id
          && same_column (Some (pr_workspace_id run)) (tl_workspace_id lease)
          && same_column (pr_user_id run) (tl_user_id lease)
          && same_column (Some (pr_session_id run)) (tl_session_id lease)
          && String.eqb (pr_status run) "running" && negb (bool_decide (pr_cancel_requested_at run = None))
          && String.eqb (a_status attempt) "cancel_requested"
          && String.eqb (a_owner_kind attempt) "queue_worker" && str_truthy (a_owner_id attempt)
          && (a_owner_generation attempt =? owner_generation + 1)
          && (payload_generation =? owner_generation)
          && bool_decide (tl_status lease = Some "active") && bool_decide (tl_released_at lease = None)
          && (dt_instant now <? dt_instant expires_at)
      | _, _ => false
      end
  | _ => false
  end.

Section Tail.
Context `{PyRuntime} {O : Type} (sha256_hex : string → string).
Implicit Types (p : pdb O).

Definition authorize_cancel_tail_receipt (tenant_id run_id attempt_id : string) (scope : run_scope) (lease : tail_lease)
    (owner_generation : pyval) (operation : string) (now : datetime) (operation_started : pyval) p : bool :=
  if negb (scope_given scope) then false else
  match get_scoped_reconciliation_run tenant_id run_id scope p with
  | None => false
  | Some run =>
      match get_run_attempt tenant_id run_id attempt_id (attempt_view p) with
      | None => false
      | Some attempt =>
          cancel_tail_receipt_allowed (tenant_id, run_id) run attempt lease tenant_id run_id attempt_id owner_generation
            operation now operation_started
      end
  end.

(** What an accepted receipt says about the attempt. *)
Lemma authorized_parts t r i scope lease g op now started p :
  authorize_cancel_tail_receipt t r i scope lease g op now started p = true →
  ∃ z a, g = PInt z ∧ get_run_attempt t r i (attempt_view p) = Some a ∧ a_status a = "cancel_requested" ∧
    a_owner_kind a = "queue_worker" ∧ a_owner_generation a = z + 1 ∧ tl_status lease = Some "active" ∧
    ∃ e, tl_expires_at lease = Some e ∧ dt_instant now < dt_instant e.
Proof.
  unfold authorize_cancel_tail_receipt, cancel_tail_receipt_allowed. intros E.
  destruct (negb (scope_given scope)); [done|]. destruct (get_scoped_reconciliation_run _ _ _ _) as [run|]; [|done].
  destruct (get_run_attempt t r i (attempt_view p)) as [a|]; [|done].
  destruct (negb (str_in op TAIL_OPERATIONS)); [done|]. destruct (String.eqb op _ && _); [done|].
  destruct g as [| |z| | | |]; try done. destruct (z <? 1); [done|]. destruct (negb (dt_aware now)); [done|].
  destruct (tl_expires_at lease) as [e|]; [|done]. destruct (tl_payload_generation lease) as [pg|]; [|done].
  destruct (negb (dt_aware e)); [done|]. to_prop. exists z, a. split_and!; try done; try lia. exists e. split; [done|lia].
Qed.

Lemma attempt_found t r i db a :
  get_run_attempt t r i db = Some a → a ∈ db_attempts db ∧ a_tenant_id a = t ∧ a_run_id a = r ∧ a_id a = i.
Proof.
  unfold get_run_attempt. intros (n & Hn & Hx)%find_lookup. unfold is_attempt in Hx. to_prop.
  split_and!; try done. by eapply list_elem_of_lookup_2.
Qed.

(** After a cancellation only receipts are left to the worker.  When a receipt of
    the owner generation [g] is accepted, every transition that presents [g] is refused,
    no other generation is accepted, and if after any further operations on attempts a
    receipt of [g] is accepted again, the attempt has kept its status, owner and
    generation in between. *)
Lemma cancel_tail_is_receipts_only t r i scope lease g op now started p :
  attempts_consistent sha256_hex (attempt_view p) →
  authorize_cancel_tail_receipt t r i scope lease (PInt g) op now started p = true →
  (∀ now' es rs k o args out, transition_run_attempt sha256_hex now' t r i es rs k o g args (attempt_view p) ≠ Ok out) ∧
  (∀ scope' lease' g' op' now' started',
     authorize_cancel_tail_receipt t r i scope' lease' g' op' now' started' p = true → g' = PInt g) ∧
  (∀ scope' lease' op' now' started' p2, rtc (attempt_op sha256_hex) (attempt_view p) (attempt_view p2) →
     authorize_cancel_tail_receipt t r i scope' lease' (PInt g) op' now' started' p2 = true →
     ∃ a a2, get_run_attempt t r i (attempt_view p) = Some a ∧ get_run_attempt t r i (attempt_view p2) = Some a2 ∧
       a_status a2 = a_status a ∧ a_owner_kind a2 = a_owner_kind a ∧ a_owner_id a2 = a_owner_id a ∧
       a_owner_generation a2 = a_owner_generation a).
Proof.
  intros Hc (z & a & [= <-] & Ha & Hs & Hk & Hg & _)%authorized_parts.
  destruct (attempt_found _ _ _ _ _ Ha) as (Hin & Et & Er & Ei). split_and!.
  - intros now' es rs k o args out (b & Hb & Hid & Hgb)%transition_needs_generation.
    assert (b = a) as ->; [|lia]. eapply consistent_same_row; [exact Hc|done|done|congruence].
  - intros scope' lease' g' op' now' started' (z' & a' & -> & Ha' & _ & _ & Hg' & _)%authorized_parts.
    assert (a' = a) as -> by congruence. f_equal. lia.
  - intros scope' lease' op' now' started' p2 Hops (z' & a2 & [= <-] & Ha2 & Hs2 & Hk2 & Hg2 & _)%authorized_parts.
    exists a, a2. apply ops_steps in Hops. destruct (steps_evolve _ _ _ _ Hops Hc Hin) as (Hc2 & b & Hb & Hev).
    destruct (attempt_found _ _ _ _ _ Ha2) as (Hin2 & _ & _ & Ei2).
    assert (b = a2) as ->.
    { eapply consistent_same_row; [exact Hc2|done|done|]. rewrite (same_identity_id _ _ (ev_id _ _ Hev)). congruence. }
    split_and!; [done|done|congruence|congruence| |congruence].
    destruct (decide (a_owner_id a2 = a_owner_id a)) as [|Hne]; [done|]. exfalso.
    pose proof (ev_fence _ _ Hev ltac:(right; right; congruence)). lia.
Qed.
End Tail.

(** ** Example *)

Definition wit_tail_lease : tail_lease :=
  {| tl_tenant_id := Some "t"; tl_run_id := Some "r"; tl_attempt_id := Some (w_attempt_id wit_worker);
     tl_workspace_id := Some "ws"; tl_user_id := Some "u"; tl_session_id := Some "s"; tl_status := Some "active";
     tl_released_at := None; tl_expires_at := Some (DateTime 100 true); tl_payload_generation := Some 4 |}%string.

(** The owner asked for a cancellation; the worker started with generation 4.  Its receipt
    is accepted, one of a later generation is not. *)
Example tail_receipts :
  map (fun g => authorize_cancel_tail_receipt "t" "r" (w_attempt_id wit_worker) (RunScope "ws" "u" "s" "ag") wit_tail_lease (PInt g)
                  "executor_terminal" (DateTime 50 true) PNone wit_asked) [4; 5] = [true; false].
Proof. by vm_compute. Qed.
