(* ===== verification/Numerals.v ===== *)
(** * Decimal numerals

    [str(n)] and [int(s)] as Python has them, beyond what the prelude defines:
    [str.isdecimal] and [int] accept the decimal digits of every script, [int] refuses
    more than 4300 digits, and the text of an integer is the only numeral without a
    leading zero that [int] reads back as it. *)
From stdpp Require Import base list strings.
From Stdlib Require Import ZArith Lia Ascii.
From S2P Require Import Prelude.
#[local] Open Scope py_scope.

(** ** Reading *)

Definition byte (c : ascii) : Z := Z.of_N (N_of_ascii c).

(** The code points of a UTF-8 string. *)
Fixpoint utf8_points (s : string) : list Z :=
  match s with
  | EmptyString => []
  | String a s1 =>
      if byte a <? 128 then byte a :: utf8_points s1 else
      match s1 with
      | EmptyString => [byte a]
      | String b s2 =>
          if byte a <? 224 then ((byte a - 192) * 64 + (byte b - 128)) :: utf8_points s2 else
          match s2 with
          | EmptyString => [byte a]
          | String c s3 =>
              if byte a <? 240
              then (((byte a - 224) * 64 + (byte b - 128)) * 64 + (byte c - 128)) :: utf8_points s3 else
              match s3 with
              | EmptyString => [byte a]
              | String d s4 =>
                  ((((byte a - 240) * 64 + (byte b - 128)) * 64 + (byte c - 128)) * 64 + (byte d - 128))
                    :: utf8_points s4
              end
          end
      end
  end.

(** The zeros of the decimal digits of Unicode 15.1; nine digits follow each. *)
Definition decimal_zeros : list Z :=
  [48; 1632; 1776; 1984; 2406; 2534; 2662; 2790; 2918; 3046; 3174; 3302; 3430; 3558; 3664; 3792; 3872;
   4160; 4240; 6112; 6160; 6470; 6608; 6784; 6800; 6992; 7088; 7232; 7248; 42528; 43216; 43264; 43472;
   43504; 43600; 44016; 65296; 66720; 68912; 69734; 69872; 69942; 70096; 70384; 70736; 70864; 71248;
   71360; 71472; 71904; 72016; 72784; 73040; 73120; 73552; 92768; 92864; 93008; 120782; 120792; 120802;
   120812; 120822; 123200; 123632; 124144; 125264; 130032].
Definition decimal_digit (point : Z) : option Z :=
  (fun zero => point - zero) <$> List.find (fun zero => (zero <=? point) && (point <? zero + 10)) decimal_zeros.

(** [s.isdecimal()]. *)
Definition isdecimal (s : string) : bool :=
  str_truthy s && forallb (fun point => match decimal_digit point with Some _ => true | None => false end) (utf8_points s).

(** [int(s)] of a string [isdecimal] accepts; the interpreter's limit on the length
    of a numeral makes the longer ones a ValueError. *)
Definition INT_MAX_STR_DIGITS : Z := 4300.
Definition int_of_decimal (s : string) : option Z :=
  let points := utf8_points s in
  if INT_MAX_STR_DIGITS <? Z.of_nat (length points) then None
  else Some (fold_left (fun acc point => 10 * acc + default 0 (decimal_digit point)) points 0).

(** Numerals of ASCII digits without a leading zero. *)
Definition canonical_decimal (s : string) : bool :=
  match s with
  | EmptyString => false
  | String c rest => if Ascii.eqb c "0" then String.eqb rest "" else is_digit c && str_forall is_digit rest
  end.

(** ** Lemmas *)

Lemma digit_range c : is_digit c = true → 48 <= byte c <= 57.
Proof.
  unfold is_digit, ascii_between, byte. rewrite andb_true_iff, !N.leb_le.
  change (N_of_ascii "0") with 48%N. change (N_of_ascii "9") with 57%N. lia.
Qed.

Lemma byte_digit d : 0 <= d < 10 → byte (digit_char d) = 48 + d.
Proof. intros Hd. unfold byte, digit_char. rewrite N_ascii_embedding; lia. Qed.

Lemma digit_char_digit d : 0 <= d < 10 → is_digit (digit_char d) = true.
Proof.
  intros Hd. unfold is_digit, ascii_between, digit_char. rewrite N_ascii_embedding by lia.
  rewrite andb_true_iff, !N.leb_le. change (N_of_ascii "0") with 48%N. change (N_of_ascii "9") with 57%N. lia.
Qed.

Lemma byte_inj c d : byte c = byte d → c = d.
Proof. unfold byte. intros E. rewrite <- (ascii_N_embedding c), <- (ascii_N_embedding d). f_equal. lia. Qed.

Lemma dec_value_app s t acc : dec_value (s +:+ t) acc = dec_value t (dec_value s acc).
Proof. revert acc. induction s as [|c s IH]; intros acc; simpl; [done|]. apply IH. Qed.

Lemma dec_value_mono s acc : str_forall is_digit s = true → 0 <= acc → acc <= dec_value s acc.
Proof.
  revert acc. induction s as [|c s IH]; intros acc; simpl; [lia|]. rewrite andb_true_iff. intros [Hc Hs] Ha.
  pose proof (digit_range c Hc). unfold byte in *. etrans; [|apply IH; [done|lia]]. lia.
Qed.

Lemma canonical_digits s : canonical_decimal s = true → str_forall is_digit s = true.
Proof.
  destruct s as [|c s]; [done|]. simpl. destruct (Ascii.eqb c "0") eqn:E; [|done].
  apply Ascii.eqb_eq in E as ->. by destruct s.
Qed.

(** A numeral is one digit or a numeral that is not zero followed by a digit. *)
Lemma canonical_snoc s :
  canonical_decimal s = true →
  ∃ d, is_digit d = true ∧
    (s = String d "" ∨ ∃ s', s = s' +:+ String d "" ∧ canonical_decimal s' = true ∧ 1 <= dec_value s' 0).
Proof.
  destruct s as [|c s]; [done|]. simpl. destruct (Ascii.eqb c "0") eqn:E.
  { apply Ascii.eqb_eq in E as ->. intros ->%String.eqb_eq. exists "0"%char. split; [done|by left]. }
  rewrite andb_true_iff. intros [Hc Hs].
  destruct (str_rev s) as [|d r] eqn:Er.
  { exists c. split; [done|left]. f_equal. rewrite <- (str_rev_involutive s), Er. done. }
  assert (s = str_rev r +:+ String d "") as Hsr.
  { rewrite <- (str_rev_involutive s), Er. change (String d r) with (String d "" +:+ r). by rewrite str_rev_append. }
  rewrite Hsr, str_forall_app in Hs. simpl in Hs. rewrite andb_true_r in Hs. apply andb_true_iff in Hs as [Hr Hd].
  exists d. split; [done|right]. exists (String c (str_rev r)). split; [by rewrite Hsr|]. split; [cbn [canonical_decimal]; by rewrite E, Hc|].
  simpl. etrans; [|apply dec_value_mono; [done|]]; pose proof (digit_range c Hc); unfold byte in *; [|lia].
  assert (byte c ≠ 48); [|unfold byte in *; lia]. intros E0. apply (byte_inj c "0"%char) in E0. by subst.
Qed.

Lemma canonical_inj s t :
  canonical_decimal s = true → canonical_decimal t = true → dec_value s 0 = dec_value t 0 → s = t.
Proof.
  revert t. induction s as [s IH] using (induction_ltof1 _ String.length). unfold ltof in IH. intros t Hs Ht Ev.
  destruct (canonical_snoc s Hs) as (d & Hd & Cs), (canonical_snoc t Ht) as (e & He & Ct).
  apply digit_range in Hd, He. unfold byte in *.
  destruct Cs as [->|(s' & -> & Hs' & Vs)], Ct as [->|(t' & -> & Ht' & Vt)];
    rewrite ?dec_value_app in Ev; simpl in Ev; try lia.
  - f_equal. apply byte_inj. unfold byte. lia.
  - assert (s' = t') as ->.
    { apply IH; [|done..|]; [|lia]. rewrite append_length. simpl. lia. }
    do 2 f_equal. apply byte_inj. unfold byte. lia.
Qed.

Lemma dec_digits_spec fuel n acc :
  (0 < fuel)%nat → 0 <= n < 10 ^ Z.of_nat fuel →
  ∃ s, dec_digits fuel n acc = s +:+ acc ∧ canonical_decimal s = true ∧ dec_value s 0 = n.
Proof.
  revert n acc. induction fuel as [|fuel IH]; intros n acc Hf Hn; [lia|]. simpl.
  assert (0 <= n mod 10 < 10) as Hm by (apply Z.mod_pos_bound; lia).
  pose proof (Z.div_mod n 10). destruct (Z.eqb_spec (n / 10) 0) as [E|E].
  - exists (String (digit_char (n mod 10)) ""). split; [done|]. pose proof (byte_digit _ Hm) as Hb.
    pose proof (digit_char_digit _ Hm) as Hd. unfold byte in Hb. split; [|simpl; lia].
    unfold canonical_decimal. rewrite Hd. by destruct (Ascii.eqb _ _).
  - rewrite Nat2Z.inj_succ, Z.pow_succ_r in Hn by lia.
    destruct fuel as [|fuel]; [simpl in Hn; exfalso; apply E; apply Z.div_small; lia|].
    destruct (IH (n / 10) (String (digit_char (n mod 10)) acc)) as (s & -> & Hc & Hv); [lia| |].
    { split; [apply Z.div_pos; lia|]. apply Z.div_lt_upper_bound; lia. }
    exists (s +:+ String (digit_char (n mod 10)) ""). rewrite append_assoc. split; [done|].
    rewrite dec_value_app, Hv. pose proof (byte_digit _ Hm) as Hb. unfold byte in Hb. simpl. split; [|lia].
    destruct s as [|c s]; [done|]. simpl in *. destruct (Ascii.eqb c "0") eqn:Ec.
    + apply Ascii.eqb_eq in Ec as ->. apply String.eqb_eq in Hc as ->. simpl in Hv. lia.
    + apply andb_true_iff in Hc as [-> Hs]. rewrite str_forall_app, Hs. simpl. by rewrite digit_char_digit.
Qed.

Lemma py_str_nat_spec n : 0 <= n → canonical_decimal (py_str_nat n) = true ∧ dec_value (py_str_nat n) 0 = n.
Proof.
  intros Hn. unfold py_str_nat.
  destruct (dec_digits_spec (S (Z.to_nat (Z.log2 n))) n "") as (s & -> & Hc & Hv); [lia| |].
  - split; [done|]. rewrite Nat2Z.inj_succ, Z2Nat.id by apply Z.log2_nonneg.
    destruct (Z.eq_dec n 0) as [->|Hz]; [done|]. eapply Z.lt_le_trans; [apply Z.log2_spec; lia|].
    apply Z.pow_le_mono_l. lia.
  - assert (∀ u, u +:+ "" = u) as Hnil
      by (intros u; induction u as [|x u IH]; [done|]; change (String x (u +:+ "") = String x u); by rewrite IH).
    by rewrite Hnil.
Qed.

Lemma py_str_int_nonneg n : 0 <= n → py_str_int n = py_str_nat n.
Proof. intros Hn. unfold py_str_int. by destruct (Z.ltb_spec n 0); [lia|]. Qed.

(** The text of an integer and the numerals without a leading zero correspond. *)
Lemma py_str_int_canonical n : 0 <= n → canonical_decimal (py_str_int n) = true.
Proof. intros Hn. rewrite py_str_int_nonneg by done. by apply py_str_nat_spec. Qed.
Lemma dec_value_py_str_int n : 0 <= n → dec_value (py_str_int n) 0 = n.
Proof. intros Hn. rewrite py_str_int_nonneg by done. by apply py_str_nat_spec. Qed.
Lemma py_str_int_dec_value s : canonical_decimal s = true → py_str_int (dec_value s 0) = s.
Proof.
  intros Hs. assert (0 <= dec_value s 0) as Hp by (apply dec_value_mono; [by apply canonical_digits|lia]).
  apply canonical_inj; [by apply py_str_int_canonical|done|by apply dec_value_py_str_int].
Qed.

(** ** ASCII digits *)

Definition is_ascii (c : ascii) : bool := byte c <? 128.

Lemma digit_ascii c : is_digit c = true → is_ascii c = true.
Proof. intros Hc%digit_range. unfold is_ascii. apply Z.ltb_lt. lia. Qed.

Lemma utf8_points_ascii s : str_forall is_ascii s = true → utf8_points s = byte <$> String.list_ascii_of_string s.
Proof.
  induction s as [|c s IH]; [done|]. cbn [str_forall utf8_points String.list_ascii_of_string]. rewrite andb_true_iff.
  intros [Hc Hs]. unfold is_ascii in Hc. rewrite Hc, IH by done. done.
Qed.

Lemma decimal_digit_ascii c :
  is_ascii c = true → decimal_digit (byte c) = if is_digit c then Some (byte c - 48) else None.
Proof. destruct c as [[] [] [] [] [] [] [] []]; try done; by vm_compute. Qed.

Lemma isdecimal_ascii s : str_forall is_ascii s = true → isdecimal s = str_truthy s && str_forall is_digit s.
Proof.
  intros Hs. unfold isdecimal. f_equal. rewrite utf8_points_ascii by done.
  induction s as [|c s IH]; [done|]. cbn [String.list_ascii_of_string str_forall] in *. rewrite fmap_cons. cbn [forallb].
  apply andb_true_iff in Hs as [Hc Hs]. rewrite decimal_digit_ascii, IH by done. by destruct (is_digit c).
Qed.

Lemma int_of_decimal_ascii s :
  str_forall is_digit s = true →
  int_of_decimal s = if INT_MAX_STR_DIGITS <? Z.of_nat (String.length s) then None else Some (dec_value s 0).
Proof.
  intros Hs. assert (str_forall is_ascii s = true) as Ha by (eapply str_forall_impl; [apply digit_ascii|done]).
  unfold int_of_decimal. rewrite utf8_points_ascii by done.
  assert (length (byte <$> String.list_ascii_of_string s) = String.length s) as ->.
  { rewrite length_fmap. clear. induction s; simpl; congruence. }
  destruct (_ <? _); [done|]. f_equal. clear Ha. generalize 0 at 2 3. induction s as [|c s IH]; intros acc; [done|].
  cbn [String.list_ascii_of_string str_forall dec_value] in *. rewrite fmap_cons. cbn [fold_left].
  apply andb_true_iff in Hs as [Hc Hs]. rewrite decimal_digit_ascii, Hc by by apply digit_ascii. by apply IH.
Qed.

#[export] Hint Resolve py_str_int_canonical canonical_digits : platform.
