(* ===== verification/StreamCursors.v ===== *)
(** * Stream cursors and keys

    [src/app/streaming/domain/live.py], [transport.py] and [run_events.py]: the Redis
    key of a run's stream, the ids Redis gives its entries, and the cursor a browser
    sends back in [Last-Event-ID] to resume one.

    A Redis id is kept as its text, as the code keeps it; [redis_id_tuple] reads it.
    [tenant_scope] is an HMAC of the tenant and a parameter here ([hmac_sha256_hex]). *)
From stdpp Require Import base list strings.
From Stdlib Require Import ZArith Lia Ascii.
From S2P Require Import Prelude Numerals.
#[local] Open Scope py_scope.

(** ** Exceptions of the streaming code

    [except] clauses tell the classes apart, so an exception keeps its class.
    [is_value_error] says which are ValueErrors; [DatabaseError] is any exception of the
    database driver. *)
Inductive stream_exn :=
| StreamContractError (code : string)
| StreamTransportUnavailable (code : string)
| V4ProjectionError (code : string)
| SseAuthorityConflictError (code : string)
| RunEventLedgerConflictError (code : string)
| PersistenceSizeLimitError (code : string)
| RepositoryConflictError (code : string)
| AssistantAnswerReceiptError (retryable : bool)
| V4PublicationStreamExpired
| V4PublicationTransportUnavailable (code : string)
| DatabaseError (code : string)
| PyRuntimeError (code : string)
| PyValueError (code : string)
| PyTypeError (code : string).

Definition is_value_error (e : stream_exn) : bool :=
  match e with
  | StreamTransportUnavailable _ | V4PublicationStreamExpired | V4PublicationTransportUnavailable _ | PyTypeError _ | PyRuntimeError _
  | DatabaseError _ => false
  | _ => true
  end.

Inductive sres (A : Type) := SOk (a : A) | SErr (e : stream_exn).
Arguments SOk {A} a.
Arguments SErr {A} e.

Definition sbind {A B} (m : sres A) (k : A → sres B) : sres B :=
  match m with SOk a => k a | SErr e => SErr e end.

Notation "'do!' x ':=' m 'in' k" := (sbind m (fun x => k))
  (at level 10, x name, m at level 100, k at level 200) : py_scope.
Notation "'do!' ' p ':=' m 'in' k" := (sbind m (fun x => match x with p => k end))
  (at level 10, p pattern, m at level 100, k at level 200) : py_scope.
Notation "'fail!' e 'when' b ; k" := (if b then SErr e else k)
  (at level 10, e at level 9, b at level 100, k at level 200) : py_scope.

#[global] Instance stream_exn_eq_dec : EqDecision stream_exn.
Proof. solve_decision. Defined.

Lemma sbind_ok {A B} (m : sres A) (k : A → sres B) b : sbind m k = SOk b → ∃ a, m = SOk a ∧ k a = SOk b.
Proof. destruct m as [a|]; [|done]. by exists a. Qed.

(** Case analysis on the outcome of the calls an operation makes. *)
Ltac run_sres E :=
  repeat match type of E with
  | sbind ?m _ = SOk _ => let x := fresh "x" in destruct m as [x|] eqn:?; cbn [sbind] in E; [|discriminate E]
  | (if ?b then _ else _) = SOk _ => destruct b eqn:?; try discriminate E
  | (let '(_, _) := ?p in _) = SOk _ => let d := fresh "d" in let o := fresh "o" in destruct p as [d o]
  | match ?o with Some _ => _ | None => _ end = SOk _ => destruct o eqn:?; try discriminate E
  end.

(** ** Redis ids *)

Definition STREAM_KEY_PREFIX : string := "ai-platform:sse:v3".
Definition RUN_ID_PATTERN : string → bool := id_pattern ["_"; "-"]%char 127.
Definition is_scope_char : ascii → bool := id_char ["_"; "-"]%char.
Definition TENANT_SCOPE_PATTERN (s : string) : bool :=
  str_truthy s && str_forall is_scope_char s && Nat.leb (String.length s) 128.

(** The two numerals of a Redis id, [ms-seq], matched in full and without leading
    zeros. *)
Definition redis_id_parts (s : string) : option (string * string) :=
  match split_on "-" s with
  | [ms; seq] => if canonical_decimal ms && canonical_decimal seq then Some (ms, seq) else None
  | _ => None
  end.
Definition REDIS_ID_PATTERN (s : string) : bool :=
  match redis_id_parts s with Some _ => true | None => false end.

Section TenantScope.
(** [hmac.new(secret, message, sha256).hexdigest()]. *)
Variable hmac_sha256_hex : string → string → string.

Definition tenant_scope (tenant_id secret : string) : sres string :=
  fail! (StreamContractError "stream_tenant_scope_authority_missing")
    when negb (str_truthy tenant_id) || negb (str_truthy secret);
  SOk (String.substring 0 32 (hmac_sha256_hex secret tenant_id)).
End TenantScope.

(** The text Redis gives an id. *)
Definition redis_id_text (i : Z * Z) : string := py_str_int i.1 +:+ "-" +:+ py_str_int i.2.

(** [int] of a numeral the patterns accept. *)
Definition int_field (s : string) : sres Z :=
  match int_of_decimal s with Some n => SOk n | None => SErr (PyValueError "int_max_str_digits") end.

Definition redis_id_tuple (value : string) : sres (Z * Z) :=
  match redis_id_parts value with
  | None => SErr (StreamContractError "stream_redis_id_invalid")
  | Some (ms, seq) =>
      do! ms := int_field ms in
      do! seq := int_field seq in
      SOk (ms, seq)
  end.

(** Tuples of integers compare lexicographically. *)
Definition id_ltb (a b : Z * Z) : bool := (a.1 <? b.1) || ((a.1 =? b.1) && (a.2 <? b.2)).
Definition id_leb (a b : Z * Z) : bool := negb (id_ltb b a).
Definition id_eqb (a b : Z * Z) : bool := (a.1 =? b.1) && (a.2 =? b.2).

Definition live_redis_id_is_after (candidate current : string) : sres bool :=
  do! candidate := redis_id_tuple candidate in
  do! current := redis_id_tuple current in
  SOk (id_ltb current candidate).

Definition stream_key (tenant_scope_value run_id : string) (stream_incarnation : Z) : sres string :=
  fail! (StreamContractError "stream_key_invalid")
    when negb (TENANT_SCOPE_PATTERN tenant_scope_value) || negb (RUN_ID_PATTERN run_id) || (stream_incarnation <? 1);
  SOk (STREAM_KEY_PREFIX +:+ ":{" +:+ tenant_scope_value +:+ ":" +:+ run_id +:+ "}:"
       +:+ py_str_int stream_incarnation +:+ ":events").

(** ** The cursor of a stream *)

Record stream_cursor := StreamCursor { sc_run_id : string; sc_stream_incarnation : Z; sc_redis_id : string }.

#[global] Instance stream_cursor_eq_dec : EqDecision stream_cursor.
Proof. solve_decision. Defined.

(** The dataclass with its [__post_init__]. *)
Definition new_stream_cursor (run_id : string) (stream_incarnation : Z) (redis_id : string) : sres stream_cursor :=
  fail! (StreamContractError "stream_cursor_invalid")
    when negb (RUN_ID_PATTERN run_id) || (stream_incarnation <? 1) || negb (REDIS_ID_PATTERN redis_id);
  SOk (StreamCursor run_id stream_incarnation redis_id).

Definition sc_event_id (c : stream_cursor) : string :=
  sc_run_id c +:+ ":" +:+ py_str_int (sc_stream_incarnation c) +:+ ":" +:+ sc_redis_id c.

(** [s.rpartition(sep)]: the parts around the last separator. *)
Fixpoint rpartition (sep : ascii) (s : string) : option (string * string) :=
  match s with
  | EmptyString => None
  | String c s' =>
      match rpartition sep s' with
      | Some (h, t) => Some (String c h, t)
      | None => if Ascii.eqb c sep then Some ("", s') else None
      end
  end.

Definition parse_stream_cursor (value run_id : string) : sres stream_cursor :=
  fail! (StreamContractError "stream_cursor_invalid") when negb (str_truthy value) || negb (String.eqb value (strip value));
  match rpartition ":" value with
  | None => SErr (StreamContractError "stream_cursor_foreign_run")
  | Some (prefix, redis_id) =>
      match rpartition ":" prefix with
      | None => SErr (StreamContractError "stream_cursor_foreign_run")
      | Some (parsed_run, incarnation) =>
          fail! (StreamContractError "stream_cursor_foreign_run") when negb (String.eqb parsed_run run_id);
          fail! (StreamContractError "stream_cursor_incarnation_invalid")
            when negb (isdecimal incarnation)
                 || match strip_prefix "0" incarnation with Some _ => true | None => false end;
          do! incarnation := int_field incarnation in
          new_stream_cursor run_id incarnation redis_id
      end
  end.

(** ** The cursor of the durable ledger *)

Definition standard_error_code (value : option string) : string :=
  let normalized := strip (default "" value) in
  if str_truthy normalized then normalized else "unknown_error".

Record run_cursor := RunCursor { rc_run_id : string; rc_sequence : Z }.

#[global] Instance run_cursor_eq_dec : EqDecision run_cursor.
Proof. solve_decision. Defined.

Definition new_run_cursor (run_id : string) (sequence : Z) : sres run_cursor :=
  fail! (PyValueError "run_cursor_run_id_invalid") when negb (str_truthy run_id);
  fail! (PyValueError "run_cursor_sequence_invalid") when sequence <? 0;
  SOk (RunCursor run_id sequence).

Definition rc_event_id (c : run_cursor) : string := rc_run_id c +:+ ":" +:+ py_str_int (rc_sequence c).
