(* ===== verification/StreamCursorsFacts.v ===== *)
(** * Cursors and keys name one place each

    A cursor reads back from its event id, and an ASCII text is a cursor of a run only
    if it is the event id of that cursor; the text of a Redis id and its pair of
    integers determine each other; the key of a stream determines the tenant scope,
    the run and the incarnation. *)
From stdpp Require Import base list strings.
From Stdlib Require Import ZArith Lia Ascii.
From S2P Require Import Prelude Numerals StreamCursors.
#[local] Open Scope py_scope.

Definition lacks (sep c : ascii) : bool := negb (Ascii.eqb c sep).

Lemma rpartition_None sep s : rpartition sep s = None ↔ str_forall (lacks sep) s = true.
Proof.
  induction s as [|c s IH]; [done|]. cbn [rpartition str_forall]. rewrite andb_true_iff, <- IH. unfold lacks.
  destruct (rpartition sep s) as [[h t]|]; [split; [done|intros [_ ?]; done]|].
  destruct (Ascii.eqb c sep); simpl; split; try done. by intros [].
Qed.

Lemma rpartition_app sep h t : str_forall (lacks sep) t = true → rpartition sep (h +:+ String sep t) = Some (h, t).
Proof.
  intros Ht. induction h as [|c h IH].
  - change ("" +:+ String sep t) with (String sep t). cbn [rpartition]. apply rpartition_None in Ht as ->.
    by rewrite Ascii.eqb_refl.
  - change (String c h +:+ String sep t) with (String c (h +:+ String sep t)). cbn [rpartition]. by rewrite IH.
Qed.

Lemma rpartition_join sep s h t :
  rpartition sep s = Some (h, t) → s = h +:+ String sep t ∧ str_forall (lacks sep) t = true.
Proof.
  revert h t. induction s as [|c s IH]; intros h t; [done|]. cbn [rpartition].
  destruct (rpartition sep s) as [[h' t']|] eqn:Er.
  - intros [= <- <-]. destruct (IH _ _ eq_refl) as [-> ?]. done.
  - destruct (Ascii.eqb c sep) eqn:Ec; [|done]. intros [= <- <-]. apply Ascii.eqb_eq in Ec as ->.
    split; [done|]. by apply rpartition_None.
Qed.

(** ** Redis ids *)

Lemma digits_lack sep s : is_digit sep = false → str_forall is_digit s = true → str_forall (lacks sep) s = true.
Proof.
  intros Hs. apply str_forall_impl. intros x Hx. unfold lacks. destruct (Ascii.eqb x sep) eqn:E; [|done].
  apply Ascii.eqb_eq in E as ->. congruence.
Qed.

Lemma split_on_dash a b :
  str_forall is_digit a = true → str_forall is_digit b = true → split_on "-" (a +:+ "-" +:+ b) = [a; b].
Proof.
  intros Ha Hb. induction a as [|c a IH].
  - change ("" +:+ "-" +:+ b) with (String "-" b). cbn [split_on]. simpl. f_equal.
    induction b as [|d b IHb]; [done|]. simpl in *. apply andb_true_iff in Hb as [Hd Hb].
    destruct (Ascii.eqb d "-") eqn:E; [by apply Ascii.eqb_eq in E as ->|]. by rewrite IHb.
  - change (String c a +:+ "-" +:+ b) with (String c (a +:+ "-" +:+ b)). cbn [split_on str_forall] in *.
    apply andb_true_iff in Ha as [Hc Ha]. destruct (Ascii.eqb c "-") eqn:E; [by apply Ascii.eqb_eq in E as ->|].
    by rewrite IH.
Qed.

Lemma split_on_nonempty sep s : split_on sep s ≠ [].
Proof. destruct s; cbn [split_on]; [done|]. destruct (Ascii.eqb _ _); [done|]. by destruct (split_on _ _). Qed.

Lemma split_on_one sep s a : split_on sep s = [a] → s = a.
Proof.
  revert a. induction s as [|c s IH]; intros a; [by intros [= <-]|]. cbn [split_on].
  destruct (Ascii.eqb c sep); [intros [= _ Hs]; by apply split_on_nonempty in Hs|].
  destruct (split_on sep s) as [|w ws] eqn:Es; [by apply split_on_nonempty in Es|]. intros [= <- ->]. f_equal. by apply IH.
Qed.

Lemma split_on_two sep s a b : split_on sep s = [a; b] → s = a +:+ String sep b.
Proof.
  revert a. induction s as [|c s IH]; intros a; [done|]. cbn [split_on]. destruct (Ascii.eqb c sep) eqn:E.
  - apply Ascii.eqb_eq in E as ->. intros [= <- ->%split_on_one]. done.
  - destruct (split_on sep s) as [|w ws] eqn:Es; [by apply split_on_nonempty in Es|]. intros [= <- ->].
    change (String c w +:+ String sep b) with (String c (w +:+ String sep b)). f_equal. by apply IH.
Qed.

Lemma redis_id_parts_spec s a b :
  redis_id_parts s = Some (a, b) ↔ s = a +:+ "-" +:+ b ∧ canonical_decimal a = true ∧ canonical_decimal b = true.
Proof.
  unfold redis_id_parts. split.
  - destruct (split_on "-" s) as [|x [|y [|]]] eqn:Es; try done. destruct (_ && _) eqn:E; [|done]. intros [= <- <-].
    apply andb_true_iff in E as [? ?]. split; [|done]. by apply split_on_two.
  - intros (-> & Ha & Hb). rewrite split_on_dash by by apply canonical_digits. by rewrite Ha, Hb.
Qed.

Lemma redis_id_pattern_text s : REDIS_ID_PATTERN s = true → str_forall (lacks ":") s = true ∧ str_forall plain s = true.
Proof.
  unfold REDIS_ID_PATTERN. destruct (redis_id_parts s) as [[a b]|] eqn:E; [|done]. intros _.
  apply redis_id_parts_spec in E as (-> & Ha%canonical_digits & Hb%canonical_digits). rewrite !str_forall_app, !andb_true_iff.
  repeat split; try done; try (by apply digits_lack);
    (eapply str_forall_impl; [|eassumption]; intros x Hx; eapply between_plain; [| |exact Hx]; done).
Qed.

(** Ids Python can read: not negative and of at most 4300 digits each. *)
Definition readable_id (i : Z * Z) : Prop :=
  0 <= i.1 ∧ 0 <= i.2 ∧ Z.of_nat (String.length (py_str_int i.1)) <= INT_MAX_STR_DIGITS ∧
  Z.of_nat (String.length (py_str_int i.2)) <= INT_MAX_STR_DIGITS.

Lemma int_field_canonical s n :
  canonical_decimal s = true → int_field s = SOk n ↔ n = dec_value s 0 ∧ Z.of_nat (String.length s) <= INT_MAX_STR_DIGITS.
Proof.
  intros Hs. unfold int_field. rewrite int_of_decimal_ascii by by apply canonical_digits.
  destruct (Z.ltb_spec INT_MAX_STR_DIGITS (Z.of_nat (String.length s))); split; try done; try (by intros [? ?]; lia).
  - by intros [= <-].
  - by intros [-> ?].
Qed.

Lemma canonical_value_pos s : canonical_decimal s = true → 0 <= dec_value s 0.
Proof. intros Hs. apply dec_value_mono; [by apply canonical_digits|lia]. Qed.

(** The text of a Redis id and the pair it stands for determine each other. *)
Lemma redis_id_tuple_spec s i : redis_id_tuple s = SOk i ↔ s = redis_id_text i ∧ readable_id i.
Proof.
  unfold redis_id_tuple, redis_id_text, readable_id. split.
  - destruct (redis_id_parts s) as [[a b]|] eqn:E; [|done]. apply redis_id_parts_spec in E as (-> & Ha & Hb).
    intros E. run_sres E. injection E as <-. cbn [fst snd].
    repeat match goal with Hi : int_field _ = SOk _ |- _ => apply int_field_canonical in Hi as [-> ?]; [|done] end.
    rewrite !py_str_int_dec_value by done. pose proof (canonical_value_pos a Ha). by pose proof (canonical_value_pos b Hb).
  - destruct i as [m q]; cbn [fst snd]. intros (-> & Hm & Hq & Lm & Lq).
    assert (redis_id_parts (py_str_int m +:+ "-" +:+ py_str_int q) = Some (py_str_int m, py_str_int q)) as ->.
    { apply redis_id_parts_spec. split; [done|]. by split; apply py_str_int_canonical. }
    assert (∀ n, 0 <= n → Z.of_nat (String.length (py_str_int n)) <= INT_MAX_STR_DIGITS → int_field (py_str_int n) = SOk n) as Hi.
    { intros n ? ?. apply int_field_canonical; [by apply py_str_int_canonical|]. by rewrite dec_value_py_str_int. }
    rewrite (Hi m), (Hi q) by done. done.
Qed.

Lemma redis_id_text_inj i j :
  0 <= i.1 → 0 <= i.2 → 0 <= j.1 → 0 <= j.2 → redis_id_text i = redis_id_text j → i = j.
Proof.
  intros ? ? ? ? E.
  assert (∀ k : Z * Z, 0 <= k.1 → 0 <= k.2 → split_on "-" (redis_id_text k) = [py_str_int k.1; py_str_int k.2]) as Hk.
  { intros k ? ?. apply split_on_dash; by apply canonical_digits, py_str_int_canonical. }
  apply (f_equal (split_on "-")) in E. rewrite !Hk in E by done. injection E as Em Eq.
  apply (f_equal (fun s => dec_value s 0)) in Em, Eq. rewrite !dec_value_py_str_int in Em, Eq by done.
  destruct i, j; simpl in *; congruence.
Qed.

(** [live_redis_id_is_after] is the order of the pairs. *)
Lemma id_ltb_spec a b : id_ltb a b = true ↔ a.1 < b.1 ∨ (a.1 = b.1 ∧ a.2 < b.2).
Proof. unfold id_ltb. rewrite orb_true_iff, andb_true_iff, Z.eqb_eq, !Z.ltb_lt. done. Qed.
Lemma id_leb_spec a b : id_leb a b = true ↔ a = b ∨ id_ltb a b = true.
Proof.
  unfold id_leb. rewrite negb_true_iff. destruct a as [a1 a2], b as [b1 b2].
  destruct (id_ltb (b1, b2) (a1, a2)) eqn:E; split; try done.
  - apply id_ltb_spec in E. simpl in E. intros [[= -> ->]|H%id_ltb_spec]; simpl in *; lia.
  - intros _. assert (¬ (b1 < a1 ∨ b1 = a1 ∧ b2 < a2)) as Hn.
    { intros Hn. assert (id_ltb (b1, b2) (a1, a2) = true) as Ht by by apply id_ltb_spec. congruence. }
    destruct (decide ((a1, a2) = (b1, b2))) as [|Hd]; [by left|right]. apply id_ltb_spec. simpl.
    destruct (decide (a1 = b1)) as [->|]; [right|left]; [|lia]. split; [done|].
    assert (a2 ≠ b2) by congruence. lia.
Qed.
Lemma id_ltb_trans a b c : id_ltb a b = true → id_ltb b c = true → id_ltb a c = true.
Proof. rewrite !id_ltb_spec. lia. Qed.
Lemma id_ltb_irrefl a : id_ltb a a = false.
Proof. destruct (id_ltb a a) eqn:E; [|done]. apply id_ltb_spec in E. lia. Qed.
Lemma id_eqb_eq a b : id_eqb a b = true ↔ a = b.
Proof. unfold id_eqb. rewrite andb_true_iff, !Z.eqb_eq. destruct a, b; simpl. split; [by intros [-> ->]|by intros [= -> ->]]. Qed.

(** ** Cursors *)

Lemma run_id_plain s : RUN_ID_PATTERN s = true → str_forall plain s = true.
Proof. by apply id_pattern_plain. Qed.

Lemma plain_ascii c : plain c = true → is_ascii c = true.
Proof.
  unfold plain, ascii_between, is_ascii, byte. rewrite andb_true_iff, !N.leb_le, Z.ltb_lt.
  change (N_of_ascii "~") with 126%N. lia.
Qed.

Lemma str_digit_plain s : str_forall is_digit s = true → str_forall plain s = true.
Proof. apply str_forall_impl. intros x Hx. eapply between_plain; [| |exact Hx]; done. Qed.

Lemma event_id_plain c :
  RUN_ID_PATTERN (sc_run_id c) = true → REDIS_ID_PATTERN (sc_redis_id c) = true → 1 <= sc_stream_incarnation c →
  str_forall plain (sc_event_id c) = true.
Proof.
  intros Hr Hi Hn. unfold sc_event_id. rewrite !str_forall_app, !andb_true_iff.
  repeat split; try done; [by apply run_id_plain| |by apply redis_id_pattern_text].
  apply str_digit_plain, canonical_digits, py_str_int_canonical. lia.
Qed.

Lemma new_cursor_spec run inc rid c :
  new_stream_cursor run inc rid = SOk c ↔
  c = StreamCursor run inc rid ∧ RUN_ID_PATTERN run = true ∧ 1 <= inc ∧ REDIS_ID_PATTERN rid = true.
Proof.
  unfold new_stream_cursor. destruct (RUN_ID_PATTERN run), (REDIS_ID_PATTERN rid), (Z.ltb_spec inc 1); simpl;
    split; intros E; destruct_and?; simplify_eq; try done; try lia.
Qed.

Lemma canonical_incarnation s :
  str_forall is_digit s = true → strip_prefix "0" s = None → str_truthy s = true → canonical_decimal s = true.
Proof.
  destruct s as [|c s]; [done|]. cbn [strip_prefix str_forall canonical_decimal]. intros H Hp _.
  rewrite (Ascii.eqb_sym c). destruct (Ascii.eqb "0" c); [done|]. done.
Qed.

Lemma parse_sound v run c :
  str_forall is_ascii v = true → parse_stream_cursor v run = SOk c →
  v = sc_event_id c ∧ sc_run_id c = run ∧
  new_stream_cursor (sc_run_id c) (sc_stream_incarnation c) (sc_redis_id c) = SOk c ∧
  Z.of_nat (String.length (py_str_int (sc_stream_incarnation c))) <= INT_MAX_STR_DIGITS.
Proof.
  intros Ha E. unfold parse_stream_cursor in E. run_sres E. rename d into prefix, o into rid, d0 into prun, o0 into inc.
  to_prop. subst prun. apply rpartition_join in Heqo as [-> _]. apply rpartition_join in Heqo0 as [-> _].
  rewrite !str_forall_app in Ha. cbn [str_forall] in Ha. to_prop.
  destruct (strip_prefix "0" inc) eqn:Hz; [done|]. rewrite isdecimal_ascii in * by done. to_prop.
  assert (canonical_decimal inc = true) as Hc by by apply canonical_incarnation.
  apply int_field_canonical in Heqs as [-> Hl]; [|done]. apply new_cursor_spec in E as (-> & ? & ? & ?).
  unfold sc_event_id; simpl. rewrite py_str_int_dec_value by done. rewrite append_assoc.
  split_and!; try done. apply new_cursor_spec. done.
Qed.

(** The numeral of a positive integer does not start with a zero. *)
Lemma positive_numeral n : 1 <= n → strip_prefix "0" (py_str_int n) = None.
Proof.
  intros Hn. assert (0 <= n) as Hpos by lia. pose proof (py_str_int_canonical n Hpos) as Hcan.
  destruct (py_str_int n) as [|ch t] eqn:En; [done|]. cbn [strip_prefix]. destruct (Ascii.eqb "0" ch) eqn:E0; [|done].
  apply Ascii.eqb_eq in E0 as <-. cbn [canonical_decimal] in Hcan. rewrite Ascii.eqb_refl in Hcan.
  apply String.eqb_eq in Hcan as ->. apply (f_equal (fun s => dec_value s 0)) in En.
  rewrite dec_value_py_str_int in En by done. simpl in En. lia.
Qed.

Lemma event_id_parts c :
  REDIS_ID_PATTERN (sc_redis_id c) = true → 1 <= sc_stream_incarnation c →
  rpartition ":" (sc_event_id c) = Some (sc_run_id c +:+ ":" +:+ py_str_int (sc_stream_incarnation c), sc_redis_id c) ∧
  rpartition ":" (sc_run_id c +:+ ":" +:+ py_str_int (sc_stream_incarnation c)) =
    Some (sc_run_id c, py_str_int (sc_stream_incarnation c)).
Proof.
  intros Hr Hi. unfold sc_event_id. split.
  - rewrite <- !append_assoc. rewrite (append_assoc _ ":" (sc_redis_id c)). rewrite (append_assoc (sc_run_id c)).
    apply rpartition_app. by apply redis_id_pattern_text.
  - apply rpartition_app, digits_lack; [done|]. apply canonical_digits, py_str_int_canonical. lia.
Qed.

Lemma parse_complete c :
  new_stream_cursor (sc_run_id c) (sc_stream_incarnation c) (sc_redis_id c) = SOk c →
  Z.of_nat (String.length (py_str_int (sc_stream_incarnation c))) <= INT_MAX_STR_DIGITS →
  parse_stream_cursor (sc_event_id c) (sc_run_id c) = SOk c.
Proof.
  intros Hn Hl. apply new_cursor_spec in Hn as (Hc & Hr & Hi & Hid). unfold parse_stream_cursor.
  rewrite strip_plain, String.eqb_refl by by apply event_id_plain.
  destruct (event_id_parts c Hid Hi) as [-> ->]. rewrite String.eqb_refl.
  assert (str_truthy (sc_event_id c) = true) as ->.
  { unfold sc_event_id. by destruct (sc_run_id c). }
  pose proof (py_str_int_canonical (sc_stream_incarnation c) ltac:(lia)) as Hcan. pose proof (canonical_digits _ Hcan) as Hd.
  rewrite isdecimal_ascii by (eapply str_forall_impl; [apply digit_ascii|done]). rewrite Hd, positive_numeral by done.
  assert (str_truthy (py_str_int (sc_stream_incarnation c)) = true) as -> by by destruct (py_str_int _).
  cbn [negb orb andb]. rewrite (proj2 (int_field_canonical _ (sc_stream_incarnation c) Hcan)).
  - cbn [sbind]. by apply new_cursor_spec.
  - split; [|done]. by rewrite dec_value_py_str_int by lia.
Qed.

(** The cursor codec.  An ASCII text parses as a cursor of a run exactly when it
    is the event id of a well-formed cursor of that run (whose incarnation has at most
    4300 digits, the interpreter's limit); so a browser that returns the id it was
    sent resumes at that entry, and no other text stands for the same place. *)
Lemma cursor_codec v run c :
  str_forall is_ascii v = true →
  parse_stream_cursor v run = SOk c ↔
  v = sc_event_id c ∧ sc_run_id c = run ∧
  new_stream_cursor (sc_run_id c) (sc_stream_incarnation c) (sc_redis_id c) = SOk c ∧
  Z.of_nat (String.length (py_str_int (sc_stream_incarnation c))) <= INT_MAX_STR_DIGITS.
Proof.
  intros Ha. split; [by apply parse_sound|]. intros (-> & <- & Hn & Hl). by apply parse_complete.
Qed.


(** ** Keys *)

Lemma scope_lacks s : TENANT_SCOPE_PATTERN s = true → str_forall (lacks ":") s = true ∧ str_forall (lacks "}") s = true.
Proof.
  unfold TENANT_SCOPE_PATTERN. intros H. to_prop.
  assert (∀ x, is_scope_char x = true → lacks ":" x = true ∧ lacks "}" x = true) as Hx.
  { intros x. unfold is_scope_char, id_char, lacks.
    destruct (Ascii.eqb x ":") eqn:E1; [by apply Ascii.eqb_eq in E1 as ->|].
    by destruct (Ascii.eqb x "}") eqn:E2; [by apply Ascii.eqb_eq in E2 as ->|]. }
  split; (eapply str_forall_impl; [|eassumption]); by intros x [? ?]%Hx.
Qed.

Lemma run_id_scope s : RUN_ID_PATTERN s = true → TENANT_SCOPE_PATTERN s = true.
Proof.
  unfold RUN_ID_PATTERN, TENANT_SCOPE_PATTERN, id_pattern. destruct s as [|c s]; [done|]. rewrite !andb_true_iff.
  intros [[Hc Hs] Hl]. split_and!; [done| |apply Nat.leb_le in Hl; apply Nat.leb_le; simpl; lia].
  simpl. apply andb_true_iff. split; [|done]. unfold is_scope_char, id_char. by rewrite Hc.
Qed.

Lemma lacks_split sep s s' t t' :
  str_forall (lacks sep) s = true → str_forall (lacks sep) s' = true → s +:+ String sep t = s' +:+ String sep t' →
  s = s' ∧ t = t'.
Proof.
  revert s'. induction s as [|c s IH]; intros [|c' s'] Hs Hs' E.
  - by injection E as ->.
  - injection E as Ec Et. cbn [str_forall] in Hs'. unfold lacks in Hs' at 1. subst c'. by rewrite Ascii.eqb_refl in Hs'.
  - injection E as Ec Et. cbn [str_forall] in Hs. unfold lacks in Hs at 1. subst c. by rewrite Ascii.eqb_refl in Hs.
  - cbn [str_forall] in *. apply andb_true_iff in Hs as [? Hs], Hs' as [? Hs']. injection E as -> E.
    destruct (IH s' Hs Hs' E) as [-> ->]. done.
Qed.

Lemma append_inv_l a s t : a +:+ s = a +:+ t → s = t.
Proof. induction a as [|c a IH]; [done|]. intros E. injection E as E. by apply IH. Qed.

(** Streams are separated: the Redis key of a stream determines the tenant scope,
    the run and the incarnation it was made for, so two streams that differ in any of
    them never share a key. *)
Lemma stream_keys_separate scope run inc scope' run' inc' key :
  stream_key scope run inc = SOk key → stream_key scope' run' inc' = SOk key →
  scope = scope' ∧ run = run' ∧ inc = inc'.
Proof.
  unfold stream_key. intros E E'. run_sres E. run_sres E'. injection E as E. injection E' as E'.
  rewrite <- E' in E. to_prop. apply append_inv_l, append_inv_l in E.
  match goal with Hs : TENANT_SCOPE_PATTERN scope = true, Hs' : TENANT_SCOPE_PATTERN scope' = true |- _ =>
    apply scope_lacks in Hs as [? ?], Hs' as [? ?] end.
  repeat match goal with Hr : RUN_ID_PATTERN _ = true |- _ => apply run_id_scope, scope_lacks in Hr as [? ?] end.
  apply lacks_split in E as [<- E]; [|done..].
  change (run +:+ "}:" +:+ ?x) with (run +:+ String "}" (":" +:+ x)) in E.
  apply lacks_split in E as [<- E]; [|done..]. apply (append_inv_l ":") in E.
  apply lacks_split in E as [E _]; [|by apply digits_lack, canonical_digits, py_str_int_canonical; [|lia]..].
  apply (f_equal (fun s => dec_value s 0)) in E. rewrite !dec_value_py_str_int in E by lia. done.
Qed.

