(* ===== verification/StreamProtocol.v ===== *)
(** * The protocol of the public event stream

    [src/app/streaming/domain/protocol_v4.py], generated in the repository from one
    contract: the event types, the fields each payload may and must have, the values,
    lengths and ranges of the fields, and the typed dictionaries of the payloads and
    envelopes.  Frozen sets are lists, dictionaries association lists.

    A [TypedDict] is a value of [pytype]; [has_type] says when a Python value has the
    type a checker would give it: a typed dictionary has its required keys and no
    undeclared ones, a literal is equal in type and value, and an [int] is not a
    [bool]. *)
From stdpp Require Import base list strings.
From Stdlib Require Import ZArith Lia Ascii.
From S2P Require Import Prelude Redis PyValue.

(** ** Types *)

Inductive pytype :=
| TStr | TInt | TBool | TNone
| TDict
| TLit (v : pyval)
| TStrs (values : list string)
| TUnion (ts : list pytype)
| TList (t : pytype)
| TTyped (fields : list (string * (bool * pytype))).

Definition same_bool (v w : pyval) : bool :=
  match v, w with PBool a, PBool b => Bool.eqb a b | _, _ => false end.

Fixpoint has_type (t : pytype) (v : pyval) {struct t} : bool :=
  match t with
  | TStr => is_str v
  | TInt => is_exact_int v
  | TBool => is_bool v
  | TNone => is_none v
  | TDict => match v with PDict _ => true | _ => false end
  | TLit w => same_bool v w
  | TStrs values => match v with PStr s => str_in s values | _ => false end
  | TUnion ts => existsb (fun t => has_type t v) ts
  | TList t => match v with PList l => forallb (has_type t) l | _ => false end
  | TTyped fields =>
      match v with
      | PDict kvs =>
          forallb (fun f => match f with
                            | (name, (required, t)) =>
                                match assoc name kvs with Some x => has_type t x | None => negb required end
                            end) fields
          && forallb (fun kv => str_in kv.1 (fst <$> fields)) kvs
      | _ => false
      end
  end.


(** ** The registries *)

Definition PUBLIC_RUN_STREAM_SCHEMA : string := "ai-platform.public-run-stream-event.v4".
Definition INTERNAL_STREAM_EVENT_SCHEMA : string := "ai-platform.stream-event.v4".
Definition STREAM_PROJECTION_VERSION : string := "public-stream-v4".
Definition STREAM_DESIGN_ID : string := "ai-platform.redis-streams-sse-event-channel.v4".
Definition PUBLIC_STREAM_EVENT_TYPES : list string :=
  ["message.started"; "message.delta";
   "message.part.delta"; "message.part.classified"; "message.completed"; "commentary.delta";
   "thinking.started"; "thinking.delta"; "thinking.completed"; "model.completed"; "agent.progress";
   "tool.started"; "tool.completed"; "tool.failed"; "tool.denied"; "subagent.started";
   "subagent.progress"; "subagent.completed"; "subagent.failed"; "subagent.cancelled";
   "artifact.created"; "artifact.ready"; "artifact.failed"; "policy.checking"; "policy.allowed";
   "policy.denied"; "run.cancel_requested"; "run.succeeded"; "run.cancelled"; "run.failed";
   "stream.open"; "stream.heartbeat"; "stream.gap"; "stream.end"].
Definition PUBLIC_APPLICATION_ENVELOPE_FIELDS : list string :=
  ["schema"; "event_id"; "run_id";
   "message_id"; "seq"; "event_type"; "stream_incarnation"; "replayable"; "trace_ref";
   "causation_event_id"; "emitted_at"; "payload"].
Definition PUBLIC_CONTROL_ENVELOPE_FIELDS : list string :=
  ["schema"; "event_id"; "run_id";
   "message_id"; "seq"; "event_type"; "stream_incarnation"; "replayable"; "trace_ref";
   "causation_event_id"; "emitted_at"; "payload"].
Definition PUBLIC_TOOL_CATEGORIES : list string :=
  ["skill"; "mcp"; "read"; "write"; "edit";
   "search"; "execute"].
Definition PUBLIC_APPLICATION_EVENT_TYPES : list string :=
  ["message.started"; "message.delta";
   "message.part.delta"; "message.part.classified"; "message.completed"; "commentary.delta";
   "thinking.started"; "thinking.delta"; "thinking.completed"; "agent.progress"; "model.completed";
   "tool.started"; "tool.completed"; "tool.failed"; "tool.denied"; "subagent.started";
   "subagent.progress"; "subagent.completed"; "subagent.failed"; "subagent.cancelled";
   "artifact.created"; "artifact.ready"; "artifact.failed"; "policy.checking"; "policy.allowed";
   "policy.denied"; "run.cancel_requested"; "run.succeeded"; "run.cancelled"; "run.failed"].
Definition PUBLIC_CONTROL_EVENT_TYPES : list string :=
  ["stream.open"; "stream.heartbeat";
   "stream.gap"; "stream.end"].
Definition PUBLIC_MESSAGE_CORRELATED_EVENT_TYPES : list string :=
  ["message.started";
   "message.delta"; "message.part.delta"; "message.part.classified"; "message.completed";
   "commentary.delta"; "thinking.started"; "thinking.delta"; "thinking.completed"; "model.completed";
   "tool.started"; "tool.completed"; "tool.failed"; "tool.denied"; "subagent.started";
   "subagent.progress"; "subagent.completed"; "subagent.failed"; "subagent.cancelled"].
Definition PUBLIC_PAYLOAD_FIELDS : list (string * list string) :=
  [("stream.open", ["design_id"]);
   ("stream.heartbeat", ["status"]);
   ("stream.gap", ["reason"; "recovery"; "requested_event_id"; "requested_stream_incarnation"; "current_stream_incarnation"; "earliest_available_event_id"; "latest_available_event_id"]);
   ("stream.end", ["terminal_event_id"]);
   ("message.started", []);
   ("message.delta", ["delta"]);
   ("message.part.delta", ["schema_version"; "part_id"; "delta"]);
   ("message.part.classified", ["schema_version"; "part_id"; "role"]);
   ("message.completed", ["delta_count"; "text_length"]);
   ("commentary.delta", ["summary_id"; "delta"]);
   ("thinking.started", ["thinking_id"; "public_summary"]);
   ("thinking.delta", ["thinking_id"; "delta"]);
   ("thinking.completed", ["thinking_id"; "public_summary"]);
   ("agent.progress", ["schema_version"; "step_id"; "phase"; "lifecycle"; "message"]);
   ("model.completed", ["duration_ms"; "turn_count"; "stop_category"]);
   ("tool.started", ["operation_id"; "category"; "display_name"; "input_summary"; "evidence_refs"]);
   ("tool.completed", ["operation_id"; "category"; "display_name"; "duration_ms"; "result_summary"; "evidence_refs"; "artifact_refs"]);
   ("tool.failed", ["operation_id"; "category"; "display_name"; "duration_ms"; "failure_category"; "evidence_refs"]);
   ("tool.denied", ["operation_id"; "category"; "display_name"; "denial_code"]);
   ("subagent.started", ["subagent_id"; "display_name"]);
   ("subagent.progress", ["subagent_id"; "display_name"; "duration_ms"; "current_category"; "progress_percent"]);
   ("subagent.completed", ["subagent_id"; "display_name"; "duration_ms"]);
   ("subagent.failed", ["subagent_id"; "display_name"; "duration_ms"; "failure_category"]);
   ("subagent.cancelled", ["subagent_id"; "display_name"; "duration_ms"; "reason_code"]);
   ("artifact.created", ["artifact_id"; "filename"; "media_type"; "size_bytes"; "status"; "evidence_ref"]);
   ("artifact.ready", ["artifact_id"; "filename"; "media_type"; "size_bytes"; "status"; "evidence_ref"]);
   ("artifact.failed", ["artifact_id"; "status"; "failure_category"; "filename"; "media_type"]);
   ("policy.checking", ["decision_id"; "category"; "display_name"]);
   ("policy.allowed", ["decision_id"; "category"; "display_name"; "decision_code"]);
   ("policy.denied", ["decision_id"; "category"; "display_name"; "decision_code"]);
   ("run.cancel_requested", ["source"]);
   ("run.succeeded", ["terminal_event_id"; "hydrate_required"]);
   ("run.cancelled", ["terminal_event_id"; "hydrate_required"; "reason_code"]);
   ("run.failed", ["terminal_event_id"; "hydrate_required"; "projection_version"; "code"; "default_message"; "detail"])].
Definition PUBLIC_REQUIRED_PAYLOAD_FIELDS : list (string * list string) :=
  [("stream.open", ["design_id"]);
   ("stream.heartbeat", ["status"]);
   ("stream.gap", ["reason"; "recovery"; "requested_event_id"; "requested_stream_incarnation"; "current_stream_incarnation"; "earliest_available_event_id"; "latest_available_event_id"]);
   ("stream.end", ["terminal_event_id"]);
   ("message.started", []);
   ("message.delta", ["delta"]);
   ("message.part.delta", ["schema_version"; "part_id"; "delta"]);
   ("message.part.classified", ["schema_version"; "part_id"; "role"]);
   ("message.completed", ["delta_count"; "text_length"]);
   ("commentary.delta", ["summary_id"; "delta"]);
   ("thinking.started", []);
   ("thinking.delta", ["thinking_id"; "delta"]);
   ("thinking.completed", []);
   ("agent.progress", ["schema_version"; "step_id"; "phase"; "lifecycle"; "message"]);
   ("model.completed", ["duration_ms"; "turn_count"; "stop_category"]);
   ("tool.started", ["operation_id"; "category"; "display_name"]);
   ("tool.completed", ["operation_id"; "category"; "display_name"; "duration_ms"]);
   ("tool.failed", ["operation_id"; "category"; "display_name"; "duration_ms"; "failure_category"]);
   ("tool.denied", ["operation_id"; "category"; "display_name"; "denial_code"]);
   ("subagent.started", ["subagent_id"; "display_name"]);
   ("subagent.progress", ["subagent_id"; "display_name"; "duration_ms"; "current_category"]);
   ("subagent.completed", ["subagent_id"; "display_name"; "duration_ms"]);
   ("subagent.failed", ["subagent_id"; "display_name"; "duration_ms"; "failure_category"]);
   ("subagent.cancelled", ["subagent_id"; "display_name"; "duration_ms"; "reason_code"]);
   ("artifact.created", ["artifact_id"; "filename"; "media_type"; "size_bytes"; "status"]);
   ("artifact.ready", ["artifact_id"; "filename"; "media_type"; "size_bytes"; "status"]);
   ("artifact.failed", ["artifact_id"; "status"; "failure_category"]);
   ("policy.checking", ["decision_id"; "category"; "display_name"]);
   ("policy.allowed", ["decision_id"; "category"; "display_name"; "decision_code"]);
   ("policy.denied", ["decision_id"; "category"; "display_name"; "decision_code"]);
   ("run.cancel_requested", ["source"]);
   ("run.succeeded", ["terminal_event_id"; "hydrate_required"]);
   ("run.cancelled", ["terminal_event_id"; "hydrate_required"; "reason_code"]);
   ("run.failed", ["terminal_event_id"; "hydrate_required"; "projection_version"; "code"; "default_message"; "detail"])].
Definition PUBLIC_PAYLOAD_ENUMS : list (string * string * list pyval) :=
  [("stream.open", "design_id", [PStr "ai-platform.redis-streams-sse-event-channel.v4"]);
   ("stream.heartbeat", "status", [PStr "queued"; PStr "running"]);
   ("stream.gap", "reason", [PStr "retained_history_unavailable"; PStr "stream_missing"; PStr "stream_continuity_unproven"; PStr "stream_incarnation_mismatch"]);
   ("stream.gap", "recovery", [PStr "reload_durable_state"]);
   ("message.part.delta", "schema_version", [PStr "ai-platform.assistant-text-part.v1"]);
   ("message.part.classified", "schema_version", [PStr "ai-platform.assistant-text-part.v1"]);
   ("message.part.classified", "role", [PStr "answer"; PStr "work"]);
   ("thinking.started", "public_summary", [PStr "Analyzing the request"]);
   ("thinking.completed", "public_summary", [PStr "Analysis step completed"]);
   ("agent.progress", "schema_version", [PStr "ai-platform.public-agent-progress.v1"]);
   ("agent.progress", "phase", [PStr "attachment_materialization"; PStr "skill_staging"; PStr "sandbox_preparation"; PStr "sandbox_submission"; PStr "model_wait"; PStr "artifact_validation"; PStr "artifact_recovery"]);
   ("agent.progress", "lifecycle", [PStr "started"; PStr "progress"; PStr "completed"; PStr "failed"]);
   ("model.completed", "stop_category", [PStr "completed"; PStr "max_turns"; PStr "cancelled"; PStr "failed"; PStr "unknown"]);
   ("tool.started", "category", [PStr "skill"; PStr "mcp"; PStr "read"; PStr "write"; PStr "edit"; PStr "search"; PStr "execute"]);
   ("tool.completed", "category", [PStr "skill"; PStr "mcp"; PStr "read"; PStr "write"; PStr "edit"; PStr "search"; PStr "execute"]);
   ("tool.failed", "category", [PStr "skill"; PStr "mcp"; PStr "read"; PStr "write"; PStr "edit"; PStr "search"; PStr "execute"]);
   ("tool.failed", "failure_category", [PStr "invalid_input"; PStr "not_found"; PStr "permission_denied"; PStr "timeout"; PStr "unavailable"; PStr "execution_failed"]);
   ("tool.denied", "category", [PStr "skill"; PStr "mcp"; PStr "read"; PStr "write"; PStr "edit"; PStr "search"; PStr "execute"]);
   ("tool.denied", "denial_code", [PStr "capability_not_authorized"; PStr "policy_denied"]);
   ("subagent.progress", "current_category", [PStr "skill"; PStr "mcp"; PStr "read"; PStr "write"; PStr "edit"; PStr "search"; PStr "execute"]);
   ("subagent.failed", "failure_category", [PStr "subagent_failed"]);
   ("subagent.cancelled", "reason_code", [PStr "user_cancelled"; PStr "run_cancelled"; PStr "timeout"]);
   ("artifact.created", "status", [PStr "created"]);
   ("artifact.ready", "status", [PStr "ready"]);
   ("artifact.failed", "status", [PStr "failed"]);
   ("artifact.failed", "failure_category", [PStr "artifact_failed"; PStr "unavailable"]);
   ("policy.checking", "category", [PStr "skill"; PStr "mcp"; PStr "read"; PStr "write"; PStr "edit"; PStr "search"; PStr "execute"]);
   ("policy.allowed", "category", [PStr "skill"; PStr "mcp"; PStr "read"; PStr "write"; PStr "edit"; PStr "search"; PStr "execute"]);
   ("policy.allowed", "decision_code", [PStr "allowed"]);
   ("policy.denied", "category", [PStr "skill"; PStr "mcp"; PStr "read"; PStr "write"; PStr "edit"; PStr "search"; PStr "execute"]);
   ("policy.denied", "decision_code", [PStr "capability_not_authorized"; PStr "policy_denied"]);
   ("run.cancel_requested", "source", [PStr "user"; PStr "system"]);
   ("run.succeeded", "hydrate_required", [PBool true]);
   ("run.cancelled", "hydrate_required", [PBool true]);
   ("run.cancelled", "reason_code", [PStr "user_cancelled"; PStr "policy_cancelled"; PStr "timeout"]);
   ("run.failed", "hydrate_required", [PBool true]);
   ("run.failed", "projection_version", [PStr "ai-platform.chat-public-projection.v1"])].
Definition PUBLIC_PAYLOAD_STRING_BOUNDS : list (string * string * (Z * Z)) :=
  [("message.delta", "delta", (1, 8192));
   ("message.part.delta", "delta", (1, 8192));
   ("commentary.delta", "delta", (1, 8192));
   ("thinking.delta", "delta", (1, 8192));
   ("agent.progress", "message", (1, 128));
   ("tool.started", "display_name", (1, 128));
   ("tool.started", "input_summary", (0, 512));
   ("tool.completed", "display_name", (1, 128));
   ("tool.completed", "result_summary", (0, 2048));
   ("tool.failed", "display_name", (1, 128));
   ("tool.denied", "display_name", (1, 128));
   ("subagent.started", "display_name", (1, 128));
   ("subagent.progress", "display_name", (1, 128));
   ("subagent.completed", "display_name", (1, 128));
   ("subagent.failed", "display_name", (1, 128));
   ("subagent.cancelled", "display_name", (1, 128));
   ("artifact.created", "filename", (1, 255));
   ("artifact.created", "media_type", (1, 128));
   ("artifact.ready", "filename", (1, 255));
   ("artifact.ready", "media_type", (1, 128));
   ("artifact.failed", "filename", (1, 255));
   ("artifact.failed", "media_type", (1, 128));
   ("policy.checking", "display_name", (1, 128));
   ("policy.allowed", "display_name", (1, 128));
   ("policy.denied", "display_name", (1, 128));
   ("run.failed", "code", (1, 128));
   ("run.failed", "default_message", (1, 1024));
   ("run.failed", "detail", (0, 2048))].
Definition PUBLIC_PAYLOAD_INTEGER_BOUNDS : list (string * string * (Z * option Z)) :=
  [("stream.gap", "requested_stream_incarnation", (1, None));
   ("stream.gap", "current_stream_incarnation", (1, None));
   ("message.completed", "delta_count", (1, None));
   ("message.completed", "text_length", (1, None));
   ("model.completed", "duration_ms", (0, Some 86400000));
   ("model.completed", "turn_count", (0, Some 10000));
   ("tool.completed", "duration_ms", (0, Some 86400000));
   ("tool.failed", "duration_ms", (0, Some 86400000));
   ("subagent.progress", "duration_ms", (0, Some 86400000));
   ("subagent.progress", "progress_percent", (0, Some 100));
   ("subagent.completed", "duration_ms", (0, Some 86400000));
   ("subagent.failed", "duration_ms", (0, Some 86400000));
   ("subagent.cancelled", "duration_ms", (0, Some 86400000));
   ("artifact.created", "size_bytes", (0, Some 1099511627776));
   ("artifact.ready", "size_bytes", (0, Some 1099511627776))].
Definition PUBLIC_PAYLOAD_REF_FIELDS : list string :=
  ["artifact_id"; "decision_id"; "operation_id";
   "part_id"; "step_id"; "subagent_id"; "summary_id"; "terminal_event_id"; "thinking_id"].
Definition PUBLIC_PAYLOAD_NULLABLE_REF_FIELDS : list string :=
  ["earliest_available_event_id";
   "evidence_ref"; "latest_available_event_id"; "requested_event_id"].
Definition PUBLIC_PAYLOAD_REF_ARRAY_FIELDS : list string :=
  ["artifact_refs"; "evidence_refs"].

(** ** Aliases *)

Definition SafeRefV4 : pytype := TStr.
Definition TraceRefV4 : pytype := TStr.
Definition EventIdV4 : pytype := TStr.
Definition RunIdV4 : pytype := TStr.
Definition AttemptIdV4 : pytype := TStr.
Definition DisplayNameV4 : pytype := TStr.
Definition NullableSafeRefV4 : pytype := TUnion [SafeRefV4; TNone].
Definition NullableTraceRefV4 : pytype := TUnion [TraceRefV4; TNone].
Definition SafeRefArrayV4 : pytype := TList SafeRefV4.
Definition SafeFilenameV4 : pytype := TStr.
Definition ToolCategoryV4 : pytype := TStrs ["skill"; "mcp"; "read"; "write"; "edit"; "search"; "execute"].
Definition EmptyPayloadV4 : pytype := TDict.

(** ** Typed dictionaries *)

Definition StreamOpenControlV4Payload : pytype := TTyped
  [
   ("design_id", (true, TStrs ["ai-platform.redis-streams-sse-event-channel.v4"]))].
Definition StreamHeartbeatControlV4Payload : pytype := TTyped
  [
   ("status", (true, TStrs ["queued"; "running"]))].
Definition StreamGapControlV4Payload : pytype := TTyped
  [
   ("reason", (true, TStrs ["retained_history_unavailable"; "stream_missing"; "stream_continuity_unproven"; "stream_incarnation_mismatch"]));
   ("recovery", (true, TStrs ["reload_durable_state"]));
   ("requested_event_id", (true, NullableSafeRefV4));
   ("requested_stream_incarnation", (true, TUnion [TInt; TNone]));
   ("current_stream_incarnation", (true, TInt));
   ("earliest_available_event_id", (true, NullableSafeRefV4));
   ("latest_available_event_id", (true, NullableSafeRefV4))].
Definition StreamEndControlV4Payload : pytype := TTyped
  [("terminal_event_id", (true, SafeRefV4))].
Definition MessageDeltaEventV4Payload : pytype := TTyped
  [("delta", (true, TStr))].
Definition MessagePartDeltaEventV4Payload : pytype := TTyped
  [
   ("schema_version", (true, TStrs ["ai-platform.assistant-text-part.v1"]));
   ("part_id", (true, SafeRefV4)); ("delta", (true, TStr))].
Definition MessagePartClassifiedEventV4Payload : pytype := TTyped
  [
   ("schema_version", (true, TStrs ["ai-platform.assistant-text-part.v1"]));
   ("part_id", (true, SafeRefV4)); ("role", (true, TStrs ["answer"; "work"]))].
Definition MessageCompletedEventV4Payload : pytype := TTyped
  [("delta_count", (true, TInt));
   ("text_length", (true, TInt))].
Definition CommentaryDeltaEventV4Payload : pytype := TTyped
  [("summary_id", (true, SafeRefV4));
   ("delta", (true, TStr))].
Definition ThinkingStartedEventV4Payload : pytype := TTyped
  [("thinking_id", (false, SafeRefV4));
   ("public_summary", (false, TStrs ["Analyzing the request"]))].
Definition ThinkingDeltaEventV4Payload : pytype := TTyped
  [("thinking_id", (true, SafeRefV4));
   ("delta", (true, TStr))].
Definition ThinkingCompletedEventV4Payload : pytype := TTyped
  [("thinking_id", (false, SafeRefV4));
   ("public_summary", (false, TStrs ["Analysis step completed"]))].
Definition AgentProgressEventV4Payload : pytype := TTyped
  [
   ("schema_version", (true, TStrs ["ai-platform.public-agent-progress.v1"]));
   ("step_id", (true, SafeRefV4));
   ("phase", (true, TStrs ["attachment_materialization"; "skill_staging"; "sandbox_preparation"; "sandbox_submission"; "model_wait"; "artifact_validation"; "artifact_recovery"]));
   ("lifecycle", (true, TStrs ["started"; "progress"; "completed"; "failed"]));
   ("message", (true, TStr))].
Definition ModelCompletedEventV4Payload : pytype := TTyped
  [("duration_ms", (true, TInt));
   ("turn_count", (true, TInt));
   ("stop_category", (true, TStrs ["completed"; "max_turns"; "cancelled"; "failed"; "unknown"]))].
Definition ToolStartedEventV4Payload : pytype := TTyped
  [("operation_id", (true, SafeRefV4));
   ("category", (true, ToolCategoryV4)); ("display_name", (true, DisplayNameV4));
   ("input_summary", (false, TStr)); ("evidence_refs", (false, SafeRefArrayV4))].
Definition ToolCompletedEventV4Payload : pytype := TTyped
  [("operation_id", (true, SafeRefV4));
   ("category", (true, ToolCategoryV4)); ("display_name", (true, DisplayNameV4));
   ("duration_ms", (true, TInt)); ("result_summary", (false, TStr));
   ("evidence_refs", (false, SafeRefArrayV4)); ("artifact_refs", (false, SafeRefArrayV4))].
Definition ToolFailedEventV4Payload : pytype := TTyped
  [("operation_id", (true, SafeRefV4));
   ("category", (true, ToolCategoryV4)); ("display_name", (true, DisplayNameV4));
   ("duration_ms", (true, TInt));
   ("failure_category", (true, TStrs ["invalid_input"; "not_found"; "permission_denied"; "timeout"; "unavailable"; "execution_failed"]));
   ("evidence_refs", (false, SafeRefArrayV4))].
Definition ToolDeniedEventV4Payload : pytype := TTyped
  [("operation_id", (true, SafeRefV4));
   ("category", (true, ToolCategoryV4)); ("display_name", (true, DisplayNameV4));
   ("denial_code", (true, TStrs ["capability_not_authorized"; "policy_denied"]))].
Definition SubagentStartedEventV4Payload : pytype := TTyped
  [("subagent_id", (true, SafeRefV4));
   ("display_name", (true, DisplayNameV4))].
Definition SubagentProgressEventV4Payload : pytype := TTyped
  [("subagent_id", (true, SafeRefV4));
   ("display_name", (true, DisplayNameV4)); ("duration_ms", (true, TInt));
   ("current_category", (true, ToolCategoryV4)); ("progress_percent", (false, TInt))].
Definition SubagentCompletedEventV4Payload : pytype := TTyped
  [("subagent_id", (true, SafeRefV4));
   ("display_name", (true, DisplayNameV4)); ("duration_ms", (true, TInt))].
Definition SubagentFailedEventV4Payload : pytype := TTyped
  [("subagent_id", (true, SafeRefV4));
   ("display_name", (true, DisplayNameV4)); ("duration_ms", (true, TInt));
   ("failure_category", (true, TStrs ["subagent_failed"]))].
Definition SubagentCancelledEventV4Payload : pytype := TTyped
  [("subagent_id", (true, SafeRefV4));
   ("display_name", (true, DisplayNameV4)); ("duration_ms", (true, TInt));
   ("reason_code", (true, TStrs ["user_cancelled"; "run_cancelled"; "timeout"]))].
Definition ArtifactCreatedEventV4Payload : pytype := TTyped
  [("artifact_id", (true, SafeRefV4));
   ("filename", (true, SafeFilenameV4)); ("media_type", (true, TStr)); ("size_bytes", (true, TInt));
   ("status", (true, TStrs ["created"])); ("evidence_ref", (false, NullableSafeRefV4))].
Definition ArtifactReadyEventV4Payload : pytype := TTyped
  [("artifact_id", (true, SafeRefV4));
   ("filename", (true, SafeFilenameV4)); ("media_type", (true, TStr)); ("size_bytes", (true, TInt));
   ("status", (true, TStrs ["ready"])); ("evidence_ref", (false, NullableSafeRefV4))].
Definition ArtifactFailedEventV4Payload : pytype := TTyped
  [("artifact_id", (true, SafeRefV4));
   ("status", (true, TStrs ["failed"]));
   ("failure_category", (true, TStrs ["artifact_failed"; "unavailable"]));
   ("filename", (false, SafeFilenameV4)); ("media_type", (false, TStr))].
Definition PolicyCheckingEventV4Payload : pytype := TTyped
  [("decision_id", (true, SafeRefV4));
   ("category", (true, ToolCategoryV4)); ("display_name", (true, DisplayNameV4))].
Definition PolicyAllowedEventV4Payload : pytype := TTyped
  [("decision_id", (true, SafeRefV4));
   ("category", (true, ToolCategoryV4)); ("display_name", (true, DisplayNameV4));
   ("decision_code", (true, TStrs ["allowed"]))].
Definition PolicyDeniedEventV4Payload : pytype := TTyped
  [("decision_id", (true, SafeRefV4));
   ("category", (true, ToolCategoryV4)); ("display_name", (true, DisplayNameV4));
   ("decision_code", (true, TStrs ["capability_not_authorized"; "policy_denied"]))].
Definition RunCancelRequestedEventV4Payload : pytype := TTyped
  [
   ("source", (true, TStrs ["user"; "system"]))].
Definition RunSucceededEventV4Payload : pytype := TTyped
  [("terminal_event_id", (true, SafeRefV4));
   ("hydrate_required", (true, TLit (PBool true)))].
Definition RunCancelledEventV4Payload : pytype := TTyped
  [("terminal_event_id", (true, SafeRefV4));
   ("hydrate_required", (true, TLit (PBool true)));
   ("reason_code", (true, TStrs ["user_cancelled"; "policy_cancelled"; "timeout"]))].
Definition RunFailedEventV4Payload : pytype := TTyped
  [("terminal_event_id", (true, SafeRefV4));
   ("hydrate_required", (true, TLit (PBool true)));
   ("projection_version", (true, TStrs ["ai-platform.chat-public-projection.v1"]));
   ("code", (true, TStr)); ("default_message", (true, TStr)); ("detail", (true, TUnion [TStr; TNone]))].
Definition PublicApplicationEnvelopeV4 : pytype := TTyped
  [
   ("schema", (true, TStrs ["ai-platform.public-run-stream-event.v4"]));
   ("event_id", (true, EventIdV4)); ("run_id", (true, RunIdV4));
   ("message_id", (true, NullableSafeRefV4)); ("seq", (true, TInt));
   ("event_type", (true, TStrs ["message.started"; "message.delta"; "message.part.delta"; "message.part.classified"; "message.completed"; "commentary.delta"; "thinking.started"; "thinking.delta"; "thinking.completed"; "model.completed"; "agent.progress"; "tool.started"; "tool.completed"; "tool.failed"; "tool.denied"; "subagent.started"; "subagent.progress"; "subagent.completed"; "subagent.failed"; "subagent.cancelled"; "artifact.created"; "artifact.ready"; "artifact.failed"; "policy.checking"; "policy.allowed"; "policy.denied"; "run.cancel_requested"; "run.succeeded"; "run.cancelled"; "run.failed"]));
   ("stream_incarnation", (true, TInt)); ("replayable", (true, TLit (PBool true)));
   ("trace_ref", (true, NullableTraceRefV4)); ("causation_event_id", (true, NullableSafeRefV4));
   ("emitted_at", (true, TStr)); ("payload", (true, TDict))].
Definition PublicMessageApplicationEnvelopeV4 : pytype := TTyped
  [
   ("schema", (true, TStrs ["ai-platform.public-run-stream-event.v4"]));
   ("event_id", (true, EventIdV4)); ("run_id", (true, RunIdV4)); ("message_id", (true, SafeRefV4));
   ("seq", (true, TInt));
   ("event_type", (true, TStrs ["message.started"; "message.delta"; "message.part.delta"; "message.part.classified"; "message.completed"; "commentary.delta"; "thinking.started"; "thinking.delta"; "thinking.completed"; "model.completed"; "agent.progress"; "tool.started"; "tool.completed"; "tool.failed"; "tool.denied"; "subagent.started"; "subagent.progress"; "subagent.completed"; "subagent.failed"; "subagent.cancelled"; "artifact.created"; "artifact.ready"; "artifact.failed"; "policy.checking"; "policy.allowed"; "policy.denied"; "run.cancel_requested"; "run.succeeded"; "run.cancelled"; "run.failed"]));
   ("stream_incarnation", (true, TInt)); ("replayable", (true, TLit (PBool true)));
   ("trace_ref", (true, NullableTraceRefV4)); ("causation_event_id", (true, NullableSafeRefV4));
   ("emitted_at", (true, TStr)); ("payload", (true, TDict))].
Definition PublicTransportControlEnvelopeV4 : pytype := TTyped
  [
   ("schema", (true, TStrs ["ai-platform.public-run-stream-control.v4"]));
   ("event_id", (true, EventIdV4)); ("run_id", (true, RunIdV4)); ("message_id", (true, TNone));
   ("seq", (true, TNone));
   ("event_type", (true, TStrs ["stream.open"; "stream.heartbeat"; "stream.gap"; "stream.end"]));
   ("stream_incarnation", (true, TInt)); ("replayable", (true, TBool)); ("trace_ref", (true, TNone));
   ("causation_event_id", (true, NullableSafeRefV4)); ("emitted_at", (true, TStr));
   ("payload", (true, TDict))].
Definition StreamOpenControlV4 : pytype := TTyped
  [
   ("schema", (true, TStrs ["ai-platform.public-run-stream-control.v4"]));
   ("event_id", (true, EventIdV4)); ("run_id", (true, RunIdV4)); ("message_id", (true, TNone));
   ("seq", (true, TNone)); ("event_type", (true, TStrs ["stream.open"]));
   ("stream_incarnation", (true, TInt)); ("replayable", (true, TLit (PBool true)));
   ("trace_ref", (true, TNone)); ("causation_event_id", (true, NullableSafeRefV4));
   ("emitted_at", (true, TStr)); ("payload", (true, StreamOpenControlV4Payload))].
Definition StreamHeartbeatControlV4 : pytype := TTyped
  [
   ("schema", (true, TStrs ["ai-platform.public-run-stream-control.v4"]));
   ("event_id", (true, EventIdV4)); ("run_id", (true, RunIdV4)); ("message_id", (true, TNone));
   ("seq", (true, TNone)); ("event_type", (true, TStrs ["stream.heartbeat"]));
   ("stream_incarnation", (true, TInt)); ("replayable", (true, TLit (PBool false)));
   ("trace_ref", (true, TNone)); ("causation_event_id", (true, NullableSafeRefV4));
   ("emitted_at", (true, TStr)); ("payload", (true, StreamHeartbeatControlV4Payload))].
Definition StreamGapControlV4 : pytype := TTyped
  [
   ("schema", (true, TStrs ["ai-platform.public-run-stream-control.v4"]));
   ("event_id", (true, EventIdV4)); ("run_id", (true, RunIdV4)); ("message_id", (true, TNone));
   ("seq", (true, TNone)); ("event_type", (true, TStrs ["stream.gap"]));
   ("stream_incarnation", (true, TInt)); ("replayable", (true, TLit (PBool false)));
   ("trace_ref", (true, TNone)); ("causation_event_id", (true, NullableSafeRefV4));
   ("emitted_at", (true, TStr)); ("payload", (true, StreamGapControlV4Payload))].
Definition StreamEndControlV4 : pytype := TTyped
  [
   ("schema", (true, TStrs ["ai-platform.public-run-stream-control.v4"]));
   ("event_id", (true, EventIdV4)); ("run_id", (true, RunIdV4)); ("message_id", (true, TNone));
   ("seq", (true, TNone)); ("event_type", (true, TStrs ["stream.end"]));
   ("stream_incarnation", (true, TInt)); ("replayable", (true, TLit (PBool true)));
   ("trace_ref", (true, TNone)); ("causation_event_id", (true, NullableSafeRefV4));
   ("emitted_at", (true, TStr)); ("payload", (true, StreamEndControlV4Payload))].
Definition MessageStartedEventV4 : pytype := TTyped
  [
   ("schema", (true, TStrs ["ai-platform.public-run-stream-event.v4"]));
   ("event_id", (true, EventIdV4)); ("run_id", (true, RunIdV4)); ("message_id", (true, SafeRefV4));
   ("seq", (true, TInt)); ("event_type", (true, TStrs ["message.started"]));
   ("stream_incarnation", (true, TInt)); ("replayable", (true, TLit (PBool true)));
   ("trace_ref", (true, NullableTraceRefV4)); ("causation_event_id", (true, NullableSafeRefV4));
   ("emitted_at", (true, TStr)); ("payload", (true, EmptyPayloadV4))].
Definition MessageDeltaEventV4 : pytype := TTyped
  [
   ("schema", (true, TStrs ["ai-platform.public-run-stream-event.v4"]));
   ("event_id", (true, EventIdV4)); ("run_id", (true, RunIdV4)); ("message_id", (true, SafeRefV4));
   ("seq", (true, TInt)); ("event_type", (true, TStrs ["message.delta"]));
   ("stream_incarnation", (true, TInt)); ("replayable", (true, TLit (PBool true)));
   ("trace_ref", (true, NullableTraceRefV4)); ("causation_event_id", (true, NullableSafeRefV4));
   ("emitted_at", (true, TStr)); ("payload", (true, MessageDeltaEventV4Payload))].
Definition MessagePartDeltaEventV4 : pytype := TTyped
  [
   ("schema", (true, TStrs ["ai-platform.public-run-stream-event.v4"]));
   ("event_id", (true, EventIdV4)); ("run_id", (true, RunIdV4)); ("message_id", (true, SafeRefV4));
   ("seq", (true, TInt)); ("event_type", (true, TStrs ["message.part.delta"]));
   ("stream_incarnation", (true, TInt)); ("replayable", (true, TLit (PBool true)));
   ("trace_ref", (true, NullableTraceRefV4)); ("causation_event_id", (true, NullableSafeRefV4));
   ("emitted_at", (true, TStr)); ("payload", (true, MessagePartDeltaEventV4Payload))].
Definition MessagePartClassifiedEventV4 : pytype := TTyped
  [
   ("schema", (true, TStrs ["ai-platform.public-run-stream-event.v4"]));
   ("event_id", (true, EventIdV4)); ("run_id", (true, RunIdV4)); ("message_id", (true, SafeRefV4));
   ("seq", (true, TInt)); ("event_type", (true, TStrs ["message.part.classified"]));
   ("stream_incarnation", (true, TInt)); ("replayable", (true, TLit (PBool true)));
   ("trace_ref", (true, NullableTraceRefV4)); ("causation_event_id", (true, NullableSafeRefV4));
   ("emitted_at", (true, TStr)); ("payload", (true, MessagePartClassifiedEventV4Payload))].
Definition MessageCompletedEventV4 : pytype := TTyped
  [
   ("schema", (true, TStrs ["ai-platform.public-run-stream-event.v4"]));
   ("event_id", (true, EventIdV4)); ("run_id", (true, RunIdV4)); ("message_id", (true, SafeRefV4));
   ("seq", (true, TInt)); ("event_type", (true, TStrs ["message.completed"]));
   ("stream_incarnation", (true, TInt)); ("replayable", (true, TLit (PBool true)));
   ("trace_ref", (true, NullableTraceRefV4)); ("causation_event_id", (true, NullableSafeRefV4));
   ("emitted_at", (true, TStr)); ("payload", (true, MessageCompletedEventV4Payload))].
Definition CommentaryDeltaEventV4 : pytype := TTyped
  [
   ("schema", (true, TStrs ["ai-platform.public-run-stream-event.v4"]));
   ("event_id", (true, EventIdV4)); ("run_id", (true, RunIdV4)); ("message_id", (true, SafeRefV4));
   ("seq", (true, TInt)); ("event_type", (true, TStrs ["commentary.delta"]));
   ("stream_incarnation", (true, TInt)); ("replayable", (true, TLit (PBool true)));
   ("trace_ref", (true, NullableTraceRefV4)); ("causation_event_id", (true, NullableSafeRefV4));
   ("emitted_at", (true, TStr)); ("payload", (true, CommentaryDeltaEventV4Payload))].
Definition ThinkingStartedEventV4 : pytype := TTyped
  [
   ("schema", (true, TStrs ["ai-platform.public-run-stream-event.v4"]));
   ("event_id", (true, EventIdV4)); ("run_id", (true, RunIdV4)); ("message_id", (true, SafeRefV4));
   ("seq", (true, TInt)); ("event_type", (true, TStrs ["thinking.started"]));
   ("stream_incarnation", (true, TInt)); ("replayable", (true, TLit (PBool true)));
   ("trace_ref", (true, NullableTraceRefV4)); ("causation_event_id", (true, NullableSafeRefV4));
   ("emitted_at", (true, TStr)); ("payload", (true, ThinkingStartedEventV4Payload))].
Definition ThinkingDeltaEventV4 : pytype := TTyped
  [
   ("schema", (true, TStrs ["ai-platform.public-run-stream-event.v4"]));
   ("event_id", (true, EventIdV4)); ("run_id", (true, RunIdV4)); ("message_id", (true, SafeRefV4));
   ("seq", (true, TInt)); ("event_type", (true, TStrs ["thinking.delta"]));
   ("stream_incarnation", (true, TInt)); ("replayable", (true, TLit (PBool true)));
   ("trace_ref", (true, NullableTraceRefV4)); ("causation_event_id", (true, NullableSafeRefV4));
   ("emitted_at", (true, TStr)); ("payload", (true, ThinkingDeltaEventV4Payload))].
Definition ThinkingCompletedEventV4 : pytype := TTyped
  [
   ("schema", (true, TStrs ["ai-platform.public-run-stream-event.v4"]));
   ("event_id", (true, EventIdV4)); ("run_id", (true, RunIdV4)); ("message_id", (true, SafeRefV4));
   ("seq", (true, TInt)); ("event_type", (true, TStrs ["thinking.completed"]));
   ("stream_incarnation", (true, TInt)); ("replayable", (true, TLit (PBool true)));
   ("trace_ref", (true, NullableTraceRefV4)); ("causation_event_id", (true, NullableSafeRefV4));
   ("emitted_at", (true, TStr)); ("payload", (true, ThinkingCompletedEventV4Payload))].
Definition AgentProgressEventV4 : pytype := TTyped
  [
   ("schema", (true, TStrs ["ai-platform.public-run-stream-event.v4"]));
   ("event_id", (true, EventIdV4)); ("run_id", (true, RunIdV4));
   ("message_id", (true, NullableSafeRefV4)); ("seq", (true, TInt));
   ("event_type", (true, TStrs ["agent.progress"])); ("stream_incarnation", (true, TInt));
   ("replayable", (true, TLit (PBool true))); ("trace_ref", (true, NullableTraceRefV4));
   ("causation_event_id", (true, NullableSafeRefV4)); ("emitted_at", (true, TStr));
   ("payload", (true, AgentProgressEventV4Payload))].
Definition ModelCompletedEventV4 : pytype := TTyped
  [
   ("schema", (true, TStrs ["ai-platform.public-run-stream-event.v4"]));
   ("event_id", (true, EventIdV4)); ("run_id", (true, RunIdV4)); ("message_id", (true, SafeRefV4));
   ("seq", (true, TInt)); ("event_type", (true, TStrs ["model.completed"]));
   ("stream_incarnation", (true, TInt)); ("replayable", (true, TLit (PBool true)));
   ("trace_ref", (true, NullableTraceRefV4)); ("causation_event_id", (true, NullableSafeRefV4));
   ("emitted_at", (true, TStr)); ("payload", (true, ModelCompletedEventV4Payload))].
Definition ToolStartedEventV4 : pytype := TTyped
  [
   ("schema", (true, TStrs ["ai-platform.public-run-stream-event.v4"]));
   ("event_id", (true, EventIdV4)); ("run_id", (true, RunIdV4)); ("message_id", (true, SafeRefV4));
   ("seq", (true, TInt)); ("event_type", (true, TStrs ["tool.started"]));
   ("stream_incarnation", (true, TInt)); ("replayable", (true, TLit (PBool true)));
   ("trace_ref", (true, NullableTraceRefV4)); ("causation_event_id", (true, NullableSafeRefV4));
   ("emitted_at", (true, TStr)); ("payload", (true, ToolStartedEventV4Payload))].
Definition ToolCompletedEventV4 : pytype := TTyped
  [
   ("schema", (true, TStrs ["ai-platform.public-run-stream-event.v4"]));
   ("event_id", (true, EventIdV4)); ("run_id", (true, RunIdV4)); ("message_id", (true, SafeRefV4));
   ("seq", (true, TInt)); ("event_type", (true, TStrs ["tool.completed"]));
   ("stream_incarnation", (true, TInt)); ("replayable", (true, TLit (PBool true)));
   ("trace_ref", (true, NullableTraceRefV4)); ("causation_event_id", (true, NullableSafeRefV4));
   ("emitted_at", (true, TStr)); ("payload", (true, ToolCompletedEventV4Payload))].
Definition ToolFailedEventV4 : pytype := TTyped
  [
   ("schema", (true, TStrs ["ai-platform.public-run-stream-event.v4"]));
   ("event_id", (true, EventIdV4)); ("run_id", (true, RunIdV4)); ("message_id", (true, SafeRefV4));
   ("seq", (true, TInt)); ("event_type", (true, TStrs ["tool.failed"]));
   ("stream_incarnation", (true, TInt)); ("replayable", (true, TLit (PBool true)));
   ("trace_ref", (true, NullableTraceRefV4)); ("causation_event_id", (true, NullableSafeRefV4));
   ("emitted_at", (true, TStr)); ("payload", (true, ToolFailedEventV4Payload))].
Definition ToolDeniedEventV4 : pytype := TTyped
  [
   ("schema", (true, TStrs ["ai-platform.public-run-stream-event.v4"]));
   ("event_id", (true, EventIdV4)); ("run_id", (true, RunIdV4)); ("message_id", (true, SafeRefV4));
   ("seq", (true, TInt)); ("event_type", (true, TStrs ["tool.denied"]));
   ("stream_incarnation", (true, TInt)); ("replayable", (true, TLit (PBool true)));
   ("trace_ref", (true, NullableTraceRefV4)); ("causation_event_id", (true, NullableSafeRefV4));
   ("emitted_at", (true, TStr)); ("payload", (true, ToolDeniedEventV4Payload))].
Definition SubagentStartedEventV4 : pytype := TTyped
  [
   ("schema", (true, TStrs ["ai-platform.public-run-stream-event.v4"]));
   ("event_id", (true, EventIdV4)); ("run_id", (true, RunIdV4)); ("message_id", (true, SafeRefV4));
   ("seq", (true, TInt)); ("event_type", (true, TStrs ["subagent.started"]));
   ("stream_incarnation", (true, TInt)); ("replayable", (true, TLit (PBool true)));
   ("trace_ref", (true, NullableTraceRefV4)); ("causation_event_id", (true, NullableSafeRefV4));
   ("emitted_at", (true, TStr)); ("payload", (true, SubagentStartedEventV4Payload))].
Definition SubagentProgressEventV4 : pytype := TTyped
  [
   ("schema", (true, TStrs ["ai-platform.public-run-stream-event.v4"]));
   ("event_id", (true, EventIdV4)); ("run_id", (true, RunIdV4)); ("message_id", (true, SafeRefV4));
   ("seq", (true, TInt)); ("event_type", (true, TStrs ["subagent.progress"]));
   ("stream_incarnation", (true, TInt)); ("replayable", (true, TLit (PBool true)));
   ("trace_ref", (true, NullableTraceRefV4)); ("causation_event_id", (true, NullableSafeRefV4));
   ("emitted_at", (true, TStr)); ("payload", (true, SubagentProgressEventV4Payload))].
Definition SubagentCompletedEventV4 : pytype := TTyped
  [
   ("schema", (true, TStrs ["ai-platform.public-run-stream-event.v4"]));
   ("event_id", (true, EventIdV4)); ("run_id", (true, RunIdV4)); ("message_id", (true, SafeRefV4));
   ("seq", (true, TInt)); ("event_type", (true, TStrs ["subagent.completed"]));
   ("stream_incarnation", (true, TInt)); ("replayable", (true, TLit (PBool true)));
   ("trace_ref", (true, NullableTraceRefV4)); ("causation_event_id", (true, NullableSafeRefV4));
   ("emitted_at", (true, TStr)); ("payload", (true, SubagentCompletedEventV4Payload))].
Definition SubagentFailedEventV4 : pytype := TTyped
  [
   ("schema", (true, TStrs ["ai-platform.public-run-stream-event.v4"]));
   ("event_id", (true, EventIdV4)); ("run_id", (true, RunIdV4)); ("message_id", (true, SafeRefV4));
   ("seq", (true, TInt)); ("event_type", (true, TStrs ["subagent.failed"]));
   ("stream_incarnation", (true, TInt)); ("replayable", (true, TLit (PBool true)));
   ("trace_ref", (true, NullableTraceRefV4)); ("causation_event_id", (true, NullableSafeRefV4));
   ("emitted_at", (true, TStr)); ("payload", (true, SubagentFailedEventV4Payload))].
Definition SubagentCancelledEventV4 : pytype := TTyped
  [
   ("schema", (true, TStrs ["ai-platform.public-run-stream-event.v4"]));
   ("event_id", (true, EventIdV4)); ("run_id", (true, RunIdV4)); ("message_id", (true, SafeRefV4));
   ("seq", (true, TInt)); ("event_type", (true, TStrs ["subagent.cancelled"]));
   ("stream_incarnation", (true, TInt)); ("replayable", (true, TLit (PBool true)));
   ("trace_ref", (true, NullableTraceRefV4)); ("causation_event_id", (true, NullableSafeRefV4));
   ("emitted_at", (true, TStr)); ("payload", (true, SubagentCancelledEventV4Payload))].
Definition ArtifactCreatedEventV4 : pytype := TTyped
  [
   ("schema", (true, TStrs ["ai-platform.public-run-stream-event.v4"]));
   ("event_id", (true, EventIdV4)); ("run_id", (true, RunIdV4));
   ("message_id", (true, NullableSafeRefV4)); ("seq", (true, TInt));
   ("event_type", (true, TStrs ["artifact.created"])); ("stream_incarnation", (true, TInt));
   ("replayable", (true, TLit (PBool true))); ("trace_ref", (true, NullableTraceRefV4));
   ("causation_event_id", (true, NullableSafeRefV4)); ("emitted_at", (true, TStr));
   ("payload", (true, ArtifactCreatedEventV4Payload))].
Definition ArtifactReadyEventV4 : pytype := TTyped
  [
   ("schema", (true, TStrs ["ai-platform.public-run-stream-event.v4"]));
   ("event_id", (true, EventIdV4)); ("run_id", (true, RunIdV4));
   ("message_id", (true, NullableSafeRefV4)); ("seq", (true, TInt));
   ("event_type", (true, TStrs ["artifact.ready"])); ("stream_incarnation", (true, TInt));
   ("replayable", (true, TLit (PBool true))); ("trace_ref", (true, NullableTraceRefV4));
   ("causation_event_id", (true, NullableSafeRefV4)); ("emitted_at", (true, TStr));
   ("payload", (true, ArtifactReadyEventV4Payload))].
Definition ArtifactFailedEventV4 : pytype := TTyped
  [
   ("schema", (true, TStrs ["ai-platform.public-run-stream-event.v4"]));
   ("event_id", (true, EventIdV4)); ("run_id", (true, RunIdV4));
   ("message_id", (true, NullableSafeRefV4)); ("seq", (true, TInt));
   ("event_type", (true, TStrs ["artifact.failed"])); ("stream_incarnation", (true, TInt));
   ("replayable", (true, TLit (PBool true))); ("trace_ref", (true, NullableTraceRefV4));
   ("causation_event_id", (true, NullableSafeRefV4)); ("emitted_at", (true, TStr));
   ("payload", (true, ArtifactFailedEventV4Payload))].
Definition PolicyCheckingEventV4 : pytype := TTyped
  [
   ("schema", (true, TStrs ["ai-platform.public-run-stream-event.v4"]));
   ("event_id", (true, EventIdV4)); ("run_id", (true, RunIdV4));
   ("message_id", (true, NullableSafeRefV4)); ("seq", (true, TInt));
   ("event_type", (true, TStrs ["policy.checking"])); ("stream_incarnation", (true, TInt));
   ("replayable", (true, TLit (PBool true))); ("trace_ref", (true, NullableTraceRefV4));
   ("causation_event_id", (true, NullableSafeRefV4)); ("emitted_at", (true, TStr));
   ("payload", (true, PolicyCheckingEventV4Payload))].
Definition PolicyAllowedEventV4 : pytype := TTyped
  [
   ("schema", (true, TStrs ["ai-platform.public-run-stream-event.v4"]));
   ("event_id", (true, EventIdV4)); ("run_id", (true, RunIdV4));
   ("message_id", (true, NullableSafeRefV4)); ("seq", (true, TInt));
   ("event_type", (true, TStrs ["policy.allowed"])); ("stream_incarnation", (true, TInt));
   ("replayable", (true, TLit (PBool true))); ("trace_ref", (true, NullableTraceRefV4));
   ("causation_event_id", (true, NullableSafeRefV4)); ("emitted_at", (true, TStr));
   ("payload", (true, PolicyAllowedEventV4Payload))].
Definition PolicyDeniedEventV4 : pytype := TTyped
  [
   ("schema", (true, TStrs ["ai-platform.public-run-stream-event.v4"]));
   ("event_id", (true, EventIdV4)); ("run_id", (true, RunIdV4));
   ("message_id", (true, NullableSafeRefV4)); ("seq", (true, TInt));
   ("event_type", (true, TStrs ["policy.denied"])); ("stream_incarnation", (true, TInt));
   ("replayable", (true, TLit (PBool true))); ("trace_ref", (true, NullableTraceRefV4));
   ("causation_event_id", (true, NullableSafeRefV4)); ("emitted_at", (true, TStr));
   ("payload", (true, PolicyDeniedEventV4Payload))].
Definition RunCancelRequestedEventV4 : pytype := TTyped
  [
   ("schema", (true, TStrs ["ai-platform.public-run-stream-event.v4"]));
   ("event_id", (true, EventIdV4)); ("run_id", (true, RunIdV4));
   ("message_id", (true, NullableSafeRefV4)); ("seq", (true, TInt));
   ("event_type", (true, TStrs ["run.cancel_requested"])); ("stream_incarnation", (true, TInt));
   ("replayable", (true, TLit (PBool true))); ("trace_ref", (true, NullableTraceRefV4));
   ("causation_event_id", (true, NullableSafeRefV4)); ("emitted_at", (true, TStr));
   ("payload", (true, RunCancelRequestedEventV4Payload))].
Definition RunSucceededEventV4 : pytype := TTyped
  [
   ("schema", (true, TStrs ["ai-platform.public-run-stream-event.v4"]));
   ("event_id", (true, EventIdV4)); ("run_id", (true, RunIdV4));
   ("message_id", (true, NullableSafeRefV4)); ("seq", (true, TInt));
   ("event_type", (true, TStrs ["run.succeeded"])); ("stream_incarnation", (true, TInt));
   ("replayable", (true, TLit (PBool true))); ("trace_ref", (true, NullableTraceRefV4));
   ("causation_event_id", (true, NullableSafeRefV4)); ("emitted_at", (true, TStr));
   ("payload", (true, RunSucceededEventV4Payload))].
Definition RunCancelledEventV4 : pytype := TTyped
  [
   ("schema", (true, TStrs ["ai-platform.public-run-stream-event.v4"]));
   ("event_id", (true, EventIdV4)); ("run_id", (true, RunIdV4));
   ("message_id", (true, NullableSafeRefV4)); ("seq", (true, TInt));
   ("event_type", (true, TStrs ["run.cancelled"])); ("stream_incarnation", (true, TInt));
   ("replayable", (true, TLit (PBool true))); ("trace_ref", (true, NullableTraceRefV4));
   ("causation_event_id", (true, NullableSafeRefV4)); ("emitted_at", (true, TStr));
   ("payload", (true, RunCancelledEventV4Payload))].
Definition RunFailedEventV4 : pytype := TTyped
  [
   ("schema", (true, TStrs ["ai-platform.public-run-stream-event.v4"]));
   ("event_id", (true, EventIdV4)); ("run_id", (true, RunIdV4));
   ("message_id", (true, NullableSafeRefV4)); ("seq", (true, TInt));
   ("event_type", (true, TStrs ["run.failed"])); ("stream_incarnation", (true, TInt));
   ("replayable", (true, TLit (PBool true))); ("trace_ref", (true, NullableTraceRefV4));
   ("causation_event_id", (true, NullableSafeRefV4)); ("emitted_at", (true, TStr));
   ("payload", (true, RunFailedEventV4Payload))].
Definition RunEventSourceV4 : pytype := TTyped
  [("kind", (true, TStrs ["run_event"]));
   ("run_event_id", (true, SafeRefV4)); ("sequence", (true, TInt)); ("callback_sequence", (false, TInt))].
Definition StreamAuthoritySourceV4 : pytype := TTyped
  [("kind", (true, TStrs ["stream_authority"]));
   ("authority_id", (true, SafeRefV4))].
Definition PublicApplicationEventV4 : pytype := TUnion
  [MessageStartedEventV4; MessageDeltaEventV4;
   MessagePartDeltaEventV4; MessagePartClassifiedEventV4; MessageCompletedEventV4;
   CommentaryDeltaEventV4; ThinkingStartedEventV4; ThinkingDeltaEventV4; ThinkingCompletedEventV4;
   ModelCompletedEventV4; AgentProgressEventV4; ToolStartedEventV4; ToolCompletedEventV4;
   ToolFailedEventV4; ToolDeniedEventV4; SubagentStartedEventV4; SubagentProgressEventV4;
   SubagentCompletedEventV4; SubagentFailedEventV4; SubagentCancelledEventV4; ArtifactCreatedEventV4;
   ArtifactReadyEventV4; ArtifactFailedEventV4; PolicyCheckingEventV4; PolicyAllowedEventV4;
   PolicyDeniedEventV4; RunCancelRequestedEventV4; RunSucceededEventV4; RunCancelledEventV4;
   RunFailedEventV4].
Definition PublicTransportControlEventV4 : pytype := TUnion
  [StreamOpenControlV4;
   StreamHeartbeatControlV4; StreamGapControlV4; StreamEndControlV4].
Definition PublicRunStreamEventV4 : pytype := TUnion
  [PublicApplicationEventV4;
   PublicTransportControlEventV4].
Definition InternalStreamEnvelopeV4 : pytype := TTyped
  [
   ("schema", (true, TStrs ["ai-platform.stream-event.v4"])); ("event_id", (true, EventIdV4));
   ("tenant_scope", (true, TStr)); ("run_id", (true, RunIdV4)); ("attempt_id", (true, AttemptIdV4));
   ("message_id", (true, NullableSafeRefV4)); ("seq", (true, TUnion [TInt; TNone]));
   ("event_type", (true, TStrs ["message.started"; "message.delta"; "message.part.delta"; "message.part.classified"; "message.completed"; "commentary.delta"; "thinking.started"; "thinking.delta"; "thinking.completed"; "model.completed"; "agent.progress"; "tool.started"; "tool.completed"; "tool.failed"; "tool.denied"; "subagent.started"; "subagent.progress"; "subagent.completed"; "subagent.failed"; "subagent.cancelled"; "artifact.created"; "artifact.ready"; "artifact.failed"; "policy.checking"; "policy.allowed"; "policy.denied"; "run.cancel_requested"; "run.succeeded"; "run.cancelled"; "run.failed"; "stream.open"; "stream.heartbeat"; "stream.gap"; "stream.end"]));
   ("stream_incarnation", (true, TInt)); ("replayable", (true, TBool));
   ("trace_ref", (true, NullableTraceRefV4)); ("causation_event_id", (true, NullableSafeRefV4));
   ("emitted_at", (true, TStr)); ("projection_version", (true, TStrs ["public-stream-v4"]));
   ("payload", (true, TDict)); ("source", (true, TUnion [RunEventSourceV4; StreamAuthoritySourceV4]))].
