(* ===== verification/StreamEvents.v ===== *)
(** * Validating and projecting public stream events

    [src/app/streaming/domain/public_payload_fields.py] and
    [src/app/streaming/domain/public_events_v4.py]: the closed validators of payloads
    and envelopes, the envelope built for a transport control, the projection of a
    committed ledger row for its stream authority, and the public form of an envelope.

    A validated envelope is the record [envelope]; [envelope_dict] is the dictionary
    the code returns for it.  A [datetime] is not a JSON value: the one field that can
    hold one, [emitted_at] (and [created_at] of a row), is passed beside the dictionary
    as a [stamp], which is [Some] when it does. *)
From stdpp Require Import base list strings.
From Stdlib Require Import ZArith Lia Ascii.
From S2P Require Import Prelude Redis PyValue Numerals RunAttempt StreamCursors StreamProtocol.
#[local] Open Scope py_scope.

(** ** Field predicates *)

(** [type(value) is type(option) and value == option] for the strings and bools the
    registries have. *)
Definition exact_enum_member (value : pyval) (options : list pyval) : bool :=
  existsb (fun option => match value, option with
                         | PStr a, PStr b => String.eqb a b
                         | PBool a, PBool b => Bool.eqb a b
                         | _, _ => false
                         end) options.

Definition SAFE_REF_PATTERN : string → bool := id_pattern ["_"; "-"]%char 255.
Definition safe_public_ref (value : pyval) : bool :=
  match value with PStr s => SAFE_REF_PATTERN s | _ => false end.

Definition bounded_public_string (value : pyval) (minimum maximum : Z) : bool :=
  match value with PStr s => (minimum <=? py_len s) && (py_len s <=? maximum) | _ => false end.

Definition bounded_public_integer (value : pyval) (minimum : Z) (maximum : option Z) : bool :=
  match value with
  | PInt n => (minimum <=? n) && match maximum with None => true | Some m => n <=? m end
  | _ => false
  end.

(** Control characters and the separators are single bytes of a UTF-8 string. *)
Definition safe_public_filename_characters (value : string) : bool :=
  str_forall (fun c => negb ((byte c <? 32) || (byte c =? 127) || Ascii.eqb c "/" || Ascii.eqb c "\")) value.

(** ** Checks that raise *)

Definition invalid_field {A} (name : string) : sres A := SErr (V4ProjectionError ("v4_" +:+ name +:+ "_invalid")).

Definition v4_nonempty (value : pyval) (name : string) : sres string :=
  match value with PStr s => if str_truthy s then SOk s else invalid_field name | _ => invalid_field name end.

Definition bounded_string (value : pyval) (name : string) (maximum minimum : Z) : sres string :=
  match value with
  | PStr s => if bounded_public_string value minimum maximum then SOk s else invalid_field name
  | _ => invalid_field name
  end.

Definition v4_safe_ref (value : pyval) (name : string) : sres string :=
  match value with PStr s => if SAFE_REF_PATTERN s then SOk s else invalid_field name | _ => invalid_field name end.

Definition nullable_safe_ref (value : pyval) (name : string) : sres (option string) :=
  if is_none value then SOk None else do! s := v4_safe_ref value name in SOk (Some s).

Definition nonnegative_int (value : pyval) (name : string) (maximum : Z) : sres Z :=
  match value with
  | PInt n => if (0 <=? n) && (n <=? maximum) then SOk n else invalid_field name
  | _ => invalid_field name
  end.

Definition positive_int (value : pyval) (name : string) : sres Z :=
  match value with PInt n => if n <? 1 then invalid_field name else SOk n | _ => invalid_field name end.

Fixpoint validate_refs (l : list pyval) (name : string) : sres (list string) :=
  match l with
  | [] => SOk []
  | item :: l => do! r := v4_safe_ref item name in do! rs := validate_refs l name in SOk (r :: rs)
  end.
Definition validate_ref_array (value : pyval) (name : string) : sres (list string) :=
  match value with
  | PList l =>
      fail! (V4ProjectionError ("v4_" +:+ name +:+ "_invalid")) when 32 <? Z.of_nat (length l);
      do! refs := validate_refs l name in
      if bool_decide (NoDup refs) then SOk refs else invalid_field name
  | _ => invalid_field name
  end.

(** ** Registry lookups *)

Fixpoint assoc2 {A} (a b : string) (l : list (string * string * A)) : option A :=
  match l with
  | [] => None
  | (x, y, v) :: l => if String.eqb x a && String.eqb y b then Some v else assoc2 a b l
  end.

(** [PUBLIC_REQUIRED_PAYLOAD_FIELDS[event_type]] and [PUBLIC_PAYLOAD_FIELDS[event_type]]. *)
Definition required_fields (event_type : string) : list string := default [] (assoc event_type PUBLIC_REQUIRED_PAYLOAD_FIELDS).
Definition allowed_fields (event_type : string) : list string := default [] (assoc event_type PUBLIC_PAYLOAD_FIELDS).
#[global] Arguments required_fields : simpl never.
#[global] Arguments allowed_fields : simpl never.

Definition RUN_DOMAIN_EVENT_TYPES : list string :=
  ["run.cancel_requested"; "run.succeeded"; "run.failed"; "run.cancelled"].
Definition RUN_TERMINAL_EVENT_TYPES : list string := ["run.succeeded"; "run.failed"; "run.cancelled"].
Definition CONTROL_SCHEMA : string := "ai-platform.public-run-stream-control.v4".
Definition CONTROL_REPLAYABLE : list (string * bool) :=
  [("stream.open", true); ("stream.heartbeat", false); ("stream.gap", false); ("stream.end", true)].
Definition AGENT_PROGRESS_SCHEMA : string := "ai-platform.public-agent-progress.v1".
Definition AGENT_PROGRESS_MESSAGES : list (string * list (string * string)) :=
  [("attachment_materialization",
    [("started", "Preparing authorized attachments"); ("progress", "Preparing authorized attachments");
     ("completed", "Authorized attachments are ready"); ("failed", "Authorized attachments could not be prepared")]);
   ("skill_staging",
    [("started", "Loading authorized Skills"); ("progress", "Loading authorized Skills");
     ("completed", "Authorized Skills are ready"); ("failed", "Authorized Skills could not be loaded")]);
   ("sandbox_preparation",
    [("started", "Preparing controlled execution"); ("progress", "Preparing controlled execution");
     ("completed", "Controlled execution is ready"); ("failed", "Controlled execution could not be prepared")]);
   ("sandbox_submission",
    [("started", "Running controlled task"); ("progress", "Controlled task is still running");
     ("completed", "Controlled task has completed"); ("failed", "Controlled task did not complete")]);
   ("model_wait",
    [("started", "Waiting for the model response"); ("progress", "Waiting for the model response");
     ("completed", "Model response is ready"); ("failed", "Model response was not available")]);
   ("artifact_validation",
    [("started", "Checking generated results"); ("progress", "Checking generated results");
     ("completed", "Generated results have been checked"); ("failed", "Generated results could not be checked")]);
   ("artifact_recovery",
    [("started", "Preparing result recovery"); ("progress", "Preparing result recovery");
     ("completed", "Result recovery is ready"); ("failed", "Result recovery did not complete")])].
Definition CALLBACK_EVENT_TYPES : list string :=
  List.filter (fun t => negb (str_in t ["thinking.started"; "thinking.delta"; "thinking.completed"]))
    PUBLIC_MESSAGE_CORRELATED_EVENT_TYPES ++ ["agent.progress"].

Notation dict := (list (string * pyval)).

(** Keys within a set, a set within the keys. *)
Definition keys_within (d : dict) (allowed : list string) : bool := forallb (fun kv => str_in kv.1 allowed) d.
Definition has_keys (d : dict) (required : list string) : bool := forallb (fun k => has_key k d) required.
Definition same_keys (d : dict) (keys : list string) : bool := keys_within d keys && has_keys d keys.

Fixpoint check_items (check : string → pyval → sres unit) (d : dict) : sres unit :=
  match d with
  | [] => SOk tt
  | (key, value) :: d => do! _ := check key value in check_items check d
  end.

Definition ensure (b : bool) (e : stream_exn) : sres unit := if b then SOk tt else SErr e.

(** ** Payloads *)

Definition MAX_BIGINT : Z := 2 ^ 63 - 1.

(** One item of the loop of [_validate_control_payload]. *)
Definition check_control_item (event_type key : string) (value : pyval) : sres unit :=
  do! _ := match assoc2 event_type key PUBLIC_PAYLOAD_ENUMS with
           | Some enum_values => if exact_enum_member value enum_values then SOk tt else invalid_field key
           | None => SOk tt
           end in
  do! _ := (if str_in key PUBLIC_PAYLOAD_REF_FIELDS then do! _ := v4_safe_ref value key in SOk tt
            else if str_in key PUBLIC_PAYLOAD_NULLABLE_REF_FIELDS then do! _ := nullable_safe_ref value key in SOk tt
            else if str_in key PUBLIC_PAYLOAD_REF_ARRAY_FIELDS then do! _ := validate_ref_array value key in SOk tt
            else if str_in key ["requested_stream_incarnation"; "current_stream_incarnation"] then
              if negb (is_none value) || String.eqb key "current_stream_incarnation"
              then do! _ := positive_int value key in SOk tt else SOk tt
            else SOk tt) in
  match assoc2 event_type key PUBLIC_PAYLOAD_INTEGER_BOUNDS with
  | Some (_, maximum) =>
      if is_none value then SOk tt
      else do! _ := nonnegative_int value key (default MAX_BIGINT maximum) in SOk tt
  | None => SOk tt
  end.

Definition validate_control_payload (event_type : string) (payload : pyval) : sres dict :=
  match payload with
  | PDict result =>
      fail! (V4ProjectionError "v4_control_payload_invalid") when 8 <? Z.of_nat (length result);
      let required := required_fields event_type in
      let allowed := allowed_fields event_type in
      fail! (V4ProjectionError "v4_control_payload_invalid")
        when negb (keys_within result allowed) || negb (has_keys result required);
      do! _ := check_items (check_control_item event_type) result in
      fail! (V4ProjectionError "v4_stream_open_payload_invalid")
        when String.eqb event_type "stream.open" && negb (same_keys result required);
      fail! (V4ProjectionError "v4_stream_heartbeat_payload_invalid")
        when String.eqb event_type "stream.heartbeat" && negb (same_keys result required);
      if String.eqb event_type "stream.gap" then
        fail! (V4ProjectionError "v4_stream_gap_payload_invalid") when negb (same_keys result required);
        do! _ := (if is_none (get "requested_stream_incarnation" result) then SOk 0
                  else positive_int (get "requested_stream_incarnation" result) "requested_stream_incarnation") in
        do! _ := positive_int (get "current_stream_incarnation" result) "current_stream_incarnation" in
        SOk result
      else
        fail! (V4ProjectionError "v4_stream_end_payload_invalid")
          when String.eqb event_type "stream.end" && negb (same_keys result required);
        SOk result
  | _ => SErr (V4ProjectionError "v4_control_payload_invalid")
  end.

(** One item of the loop of [_validate_payload]. *)
Definition check_payload_item (event_type key : string) (value : pyval) : sres unit :=
  match assoc2 event_type key PUBLIC_PAYLOAD_ENUMS with
  | Some enum_values => if exact_enum_member value enum_values then SOk tt else invalid_field key
  | None =>
      if str_in key PUBLIC_PAYLOAD_REF_FIELDS then do! _ := v4_safe_ref value key in SOk tt
      else if str_in key PUBLIC_PAYLOAD_NULLABLE_REF_FIELDS then do! _ := nullable_safe_ref value key in SOk tt
      else if str_in key PUBLIC_PAYLOAD_REF_ARRAY_FIELDS then do! _ := validate_ref_array value key in SOk tt
      else if String.eqb key "filename" then
        do! filename := bounded_string value key 255 1 in
        ensure (safe_public_filename_characters filename) (V4ProjectionError "v4_filename_invalid")
      else if String.eqb key "detail" && is_none value then SOk tt
      else match assoc2 event_type key PUBLIC_PAYLOAD_STRING_BOUNDS with
           | Some (minimum, maximum) => do! _ := bounded_string value key maximum minimum in SOk tt
           | None =>
               match assoc2 event_type key PUBLIC_PAYLOAD_INTEGER_BOUNDS with
               | Some (minimum, maximum) =>
                   if bounded_public_integer value minimum maximum then SOk tt else invalid_field key
               | None => SErr (V4ProjectionError "v4_payload_key_unimplemented")
               end
           end
  end.

Section Validation.
Context `{PyRuntime}.

Definition expected_progress_message (phase lifecycle : pyval) : option string :=
  match phase, lifecycle with
  | PStr phase, PStr lifecycle => assoc lifecycle (default [] (assoc phase AGENT_PROGRESS_MESSAGES))
  | _, _ => None
  end.

Definition validate_payload (event_type : string) (payload : pyval) : sres dict :=
  fail! (V4ProjectionError "v4_event_type_not_public") when negb (str_in event_type PUBLIC_APPLICATION_EVENT_TYPES);
  match payload with
  | PDict result =>
      fail! (V4ProjectionError "v4_payload_invalid") when 64 <? Z.of_nat (length result);
      let required := required_fields event_type in
      let allowed := allowed_fields event_type in
      fail! (V4ProjectionError "v4_payload_keys_invalid")
        when negb (keys_within result allowed) || negb (has_keys result required);
      if String.eqb event_type "agent.progress" then
        let phase := get "phase" result in
        match expected_progress_message phase (get "lifecycle" result) with
        | Some expected_message =>
            if eq_str (get "schema_version" result) AGENT_PROGRESS_SCHEMA
               && eq_str (get "step_id" result) ("phase_" +:+ py_str phase)
               && eq_str (get "message" result) expected_message
            then SOk result else SErr (V4ProjectionError "v4_agent_progress_payload_invalid")
        | None => SErr (V4ProjectionError "v4_agent_progress_payload_invalid")
        end
      else
        fail! (V4ProjectionError "v4_payload_unknown_key")
          when existsb (fun kv => match strip_prefix "__" kv.1 with Some _ => true | None => false end) result;
        do! _ := check_items (check_payload_item event_type) result in
        let display_name := py_str (get "display_name" result) in
        fail! (V4ProjectionError "v4_input_summary_invalid")
          when String.eqb event_type "tool.started" && has_key "input_summary" result
               && negb (eq_str (get "input_summary" result) ("Starting " +:+ display_name));
        fail! (V4ProjectionError "v4_result_summary_invalid")
          when String.eqb event_type "tool.completed" && has_key "result_summary" result
               && negb (eq_str (get "result_summary" result) (display_name +:+ " completed"));
        SOk result
  | _ => SErr (V4ProjectionError "v4_payload_invalid")
  end.

Definition validate_source (source : pyval) : sres dict :=
  match source with
  | PDict d =>
      match get "kind" d with
      | PStr kind =>
          if String.eqb kind "run_event" then
            fail! (V4ProjectionError "v4_source_invalid")
              when negb (keys_within d ["kind"; "run_event_id"; "sequence"; "callback_sequence"]);
            do! run_event_id := v4_safe_ref (get "run_event_id" d) "run_event_id" in
            do! sequence := positive_int (get "sequence" d) "source_sequence" in
            let result := [("kind", PStr kind); ("run_event_id", PStr run_event_id); ("sequence", PInt sequence)] in
            if has_key "callback_sequence" d then
              do! n := nonnegative_int (get "callback_sequence" d) "callback_sequence" MAX_BIGINT in
              SOk (result ++ [("callback_sequence", PInt n)])
            else SOk result
          else if String.eqb kind "stream_authority" then
            fail! (V4ProjectionError "v4_source_invalid") when negb (same_keys d ["kind"; "authority_id"]);
            do! authority_id := v4_safe_ref (get "authority_id" d) "authority_id" in
            SOk [("kind", PStr kind); ("authority_id", PStr authority_id)]
          else SErr (V4ProjectionError "v4_source_invalid")
      | _ => SErr (V4ProjectionError "v4_source_invalid")
      end
  | _ => SErr (V4ProjectionError "v4_source_invalid")
  end.
End Validation.

(** ** Timestamps *)

(** The Python and OpenSSL calls the streaming code makes beyond the JSON codec:
    [hashlib.sha256(data).hexdigest()], and [datetime.fromisoformat], which fails or
    says whether the time it read has a zone. *)
Class StreamRuntime := {
  sha256_hex : string → string;
  fromisoformat : string → option bool
}.

Definition pad (width : nat) (n : Z) : string :=
  let s := py_str_int n in
  String.append (String.string_of_list_ascii (repeat "0"%char (width - String.length s))) s.

(** The civil date of a day counted from 1970-01-01. *)
Definition civil (day : Z) : Z * Z * Z :=
  let z := day + 719468 in
  let era := z / 146097 in
  let doe := z mod 146097 in
  let yoe := (doe - doe / 1460 + doe / 36524 - doe / 146096) / 365 in
  let doy := doe - (365 * yoe + yoe / 4 - yoe / 100) in
  let mp := (5 * doy + 2) / 153 in
  let d := doy - (153 * mp + 2) / 5 + 1 in
  let m := if mp <? 10 then mp + 3 else mp - 9 in
  (yoe + era * 400 + (if m <=? 2 then 1 else 0), m, d).

(** [dt.astimezone(timezone.utc).isoformat().replace("+00:00", "Z")] of an instant in
    microseconds. *)
Definition utc_isoformat (instant : Z) : string :=
  let seconds := instant / 1000000 in
  let micros := instant mod 1000000 in
  let '(year, month, day) := civil (seconds / 86400) in
  let second := seconds mod 86400 in
  pad 4 year +:+ "-" +:+ pad 2 month +:+ "-" +:+ pad 2 day +:+ "T"
  +:+ pad 2 (second / 3600) +:+ ":" +:+ pad 2 (second / 60 mod 60) +:+ ":" +:+ pad 2 (second mod 60)
  +:+ (if micros =? 0 then "" else "." +:+ pad 6 micros) +:+ "Z".

(** [s.replace(c, by)] of one character. *)
Fixpoint replace_char (c : ascii) (by_ : string) (s : string) : string :=
  match s with
  | EmptyString => ""
  | String x s => if Ascii.eqb x c then by_ +:+ replace_char c by_ s else String x (replace_char c by_ s)
  end.

(** ** Envelopes *)

Record envelope := Envelope {
  ev_event_id : string; ev_tenant_scope : string; ev_run_id : string; ev_attempt_id : string;
  ev_message_id : option string; ev_seq : option Z; ev_event_type : string; ev_stream_incarnation : Z;
  ev_replayable : bool; ev_trace_ref : option string; ev_causation_event_id : option string;
  ev_emitted_at : string; ev_payload : dict; ev_source : dict
}.

Definition opt_str (s : option string) : pyval := match s with Some s => PStr s | None => PNone end.
Definition opt_int (n : option Z) : pyval := match n with Some n => PInt n | None => PNone end.

Definition envelope_dict (e : envelope) : dict :=
  [("schema", PStr INTERNAL_STREAM_EVENT_SCHEMA);
   ("event_id", PStr (ev_event_id e));
   ("tenant_scope", PStr (ev_tenant_scope e));
   ("run_id", PStr (ev_run_id e));
   ("attempt_id", PStr (ev_attempt_id e));
   ("message_id", opt_str (ev_message_id e));
   ("seq", opt_int (ev_seq e));
   ("event_type", PStr (ev_event_type e));
   ("stream_incarnation", PInt (ev_stream_incarnation e));
   ("replayable", PBool (ev_replayable e));
   ("trace_ref", opt_str (ev_trace_ref e));
   ("causation_event_id", opt_str (ev_causation_event_id e));
   ("emitted_at", PStr (ev_emitted_at e));
   ("projection_version", PStr STREAM_PROJECTION_VERSION);
   ("payload", PDict (ev_payload e));
   ("source", PDict (ev_source e))].

Definition ENVELOPE_KEYS : list string :=
  ["schema"; "event_id"; "tenant_scope"; "run_id"; "attempt_id"; "message_id"; "seq"; "event_type";
   "stream_incarnation"; "replayable"; "trace_ref"; "causation_event_id"; "emitted_at"; "projection_version";
   "payload"; "source"].

Definition TRACE_REF_PATTERN : string → bool := id_pattern ["_"; "-"]%char 127.

(** [value in frozenset]: an unhashable value is a TypeError. *)
Definition hashable (v : pyval) : bool := match v with PList _ | PDict _ => false | _ => true end.

Section Envelopes.
Context `{PyRuntime} `{StreamRuntime}.

Definition as_utc (stamp : option datetime) (value : pyval) : sres string :=
  match stamp with
  | Some d => bounded_string (PStr (utc_isoformat (dt_instant d))) "emitted_at" 64 1
  | None =>
      do! result := bounded_string value "emitted_at" 64 1 in
      match fromisoformat (replace_char "Z" "+00:00" result) with
      | Some true => bounded_string (PStr result) "emitted_at" 64 1
      | _ => SErr (V4ProjectionError "v4_emitted_at_invalid")
      end
  end.

(** The branch of [validate_internal_envelope_v4] on controls and application events:
    the message id, the sequence number and the payload it accepts. *)
Definition validate_identity (event_type : string) (env : dict) : sres (option string * option Z * option string * bool * dict) :=
  let message_id := get "message_id" env in
  let seq := get "seq" env in
  let trace_ref := get "trace_ref" env in
  let replayable := get "replayable" env in
  if str_in event_type PUBLIC_CONTROL_EVENT_TYPES then
    fail! (V4ProjectionError "v4_control_identity_invalid")
      when negb (is_none message_id) || negb (is_none seq) || negb (is_none trace_ref);
    let expected := default false (assoc event_type CONTROL_REPLAYABLE) in
    match replayable with
    | PBool b =>
        fail! (V4ProjectionError "v4_control_replayable_invalid") when negb (Bool.eqb b expected);
        do! payload := validate_control_payload event_type (get "payload" env) in
        SOk (None, None, None, b, payload)
    | _ => SErr (V4ProjectionError "v4_control_replayable_invalid")
    end
  else
    do! message_id := (if str_in event_type PUBLIC_MESSAGE_CORRELATED_EVENT_TYPES
                       then do! m := v4_safe_ref message_id "message_id" in SOk (Some m)
                       else nullable_safe_ref message_id "message_id") in
    do! seq := positive_int seq "seq" in
    fail! (V4ProjectionError "v4_replayable_invalid") when negb (is_true replayable);
    do! trace_ref := match trace_ref with
                     | PNone => SOk None
                     | PStr s => if TRACE_REF_PATTERN s then SOk (Some s) else invalid_field "trace_ref"
                     | _ => invalid_field "trace_ref"
                     end in
    do! payload := validate_payload event_type (get "payload" env) in
    SOk (message_id, Some seq, trace_ref, true, payload).

Definition validate_internal_envelope_v4 (stamp : option datetime) (value : pyval) : sres envelope :=
  match value with
  | PDict env =>
      fail! (V4ProjectionError "v4_internal_envelope_invalid")
        when negb (same_keys env ENVELOPE_KEYS) || negb (eq_str (get "schema" env) INTERNAL_STREAM_EVENT_SCHEMA);
      fail! (PyTypeError "unhashable") when negb (hashable (get "event_type" env));
      match get "event_type" env with
      | PStr event_type =>
          fail! (V4ProjectionError "v4_event_type_invalid") when negb (str_in event_type PUBLIC_STREAM_EVENT_TYPES);
          do! event_id := bounded_string (get "event_id" env) "event_id" 256 1 in
          do! tenant_scope := bounded_string (get "tenant_scope" env) "tenant_scope" 128 1 in
          fail! (V4ProjectionError "v4_tenant_scope_invalid") when negb (TENANT_SCOPE_PATTERN tenant_scope);
          do! run_id := bounded_string (get "run_id" env) "run_id" 128 1 in
          fail! (V4ProjectionError "v4_run_id_invalid") when negb (RUN_ID_PATTERN run_id);
          do! attempt_id := bounded_string (get "attempt_id" env) "attempt_id" 256 1 in
          do! '(message_id, seq, trace_ref, replayable, payload) := validate_identity event_type env in
          do! stream_incarnation := positive_int (get "stream_incarnation" env) "stream_incarnation" in
          do! causation_event_id := nullable_safe_ref (get "causation_event_id" env) "causation_event_id" in
          do! emitted_at := as_utc stamp (get "emitted_at" env) in
          fail! (V4ProjectionError "v4_projection_version_invalid")
            when negb (eq_str (get "projection_version" env) STREAM_PROJECTION_VERSION);
          do! source := validate_source (get "source" env) in
          SOk {| ev_event_id := event_id; ev_tenant_scope := tenant_scope; ev_run_id := run_id;
                 ev_attempt_id := attempt_id; ev_message_id := message_id; ev_seq := seq;
                 ev_event_type := event_type; ev_stream_incarnation := stream_incarnation;
                 ev_replayable := replayable; ev_trace_ref := trace_ref;
                 ev_causation_event_id := causation_event_id; ev_emitted_at := emitted_at;
                 ev_payload := payload; ev_source := source |}
      | _ => SErr (V4ProjectionError "v4_event_type_invalid")
      end
  | _ => SErr (V4ProjectionError "v4_internal_envelope_invalid")
  end.

(** [emitted_at or datetime.now(timezone.utc)]: no text, or an empty one, takes the
    clock. *)
Definition build_v4_control (now : Z) (event_id tenant_scope run_id attempt_id : string) (stream_incarnation : Z)
    (event_type : string) (payload source : dict) (causation_event_id : option string)
    (emitted_at : option string) : sres envelope :=
  fail! (V4ProjectionError "v4_control_type_invalid") when negb (str_in event_type PUBLIC_CONTROL_EVENT_TYPES);
  let text := default "" emitted_at in
  let stamp := if str_truthy text then None else Some (DateTime now true) in
  validate_internal_envelope_v4 stamp
    (PDict [("schema", PStr INTERNAL_STREAM_EVENT_SCHEMA); ("event_id", PStr event_id);
            ("tenant_scope", PStr tenant_scope); ("run_id", PStr run_id); ("attempt_id", PStr attempt_id);
            ("message_id", PNone); ("seq", PNone); ("event_type", PStr event_type);
            ("stream_incarnation", PInt stream_incarnation);
            ("replayable", PBool (default false (assoc event_type CONTROL_REPLAYABLE)));
            ("trace_ref", PNone); ("causation_event_id", opt_str causation_event_id); ("emitted_at", PStr text);
            ("projection_version", PStr STREAM_PROJECTION_VERSION); ("payload", PDict payload);
            ("source", PDict source)]).

(** ** The public form *)

Definition project_validated_internal_envelope_v4 (internal : envelope) : dict :=
  [("schema", PStr (if str_in (ev_event_type internal) PUBLIC_CONTROL_EVENT_TYPES
                    then CONTROL_SCHEMA else PUBLIC_RUN_STREAM_SCHEMA));
   ("event_id", PStr (ev_event_id internal));
   ("run_id", PStr (ev_run_id internal));
   ("message_id", opt_str (ev_message_id internal));
   ("seq", opt_int (ev_seq internal));
   ("event_type", PStr (ev_event_type internal));
   ("stream_incarnation", PInt (ev_stream_incarnation internal));
   ("replayable", PBool (ev_replayable internal));
   ("trace_ref", opt_str (ev_trace_ref internal));
   ("causation_event_id", opt_str (ev_causation_event_id internal));
   ("emitted_at", PStr (ev_emitted_at internal));
   ("payload", PDict (ev_payload internal))].

(** [try: ... except V4ProjectionError: return None]. *)
Definition or_none {A} (m : sres A) : sres (option A) :=
  match m with
  | SOk a => SOk (Some a)
  | SErr (V4ProjectionError _) => SOk None
  | SErr e => SErr e
  end.

Definition project_public_envelope_v4 (stamp : option datetime) (env : pyval) : sres (option dict) :=
  do! internal := or_none (validate_internal_envelope_v4 stamp env) in
  SOk (project_validated_internal_envelope_v4 <$> internal).

Definition build_public_v4_control (now : Z) (event_id tenant_scope run_id attempt_id : string) (stream_incarnation : Z)
    (event_type : string) (payload source : dict) (causation_event_id emitted_at : option string) : sres dict :=
  do! control := build_v4_control now event_id tenant_scope run_id attempt_id stream_incarnation event_type payload source
                   causation_event_id emitted_at in
  do! public := project_public_envelope_v4 None (PDict (envelope_dict control)) in
  match public with
  | Some public => SOk public
  | None => SErr (V4ProjectionError "v4_control_projection_invalid")
  end.

(** ** Rows of the ledger *)

Definition V4_METADATA_KEY : string := "__stream_v4".
Definition V4_METADATA_VERSION : Z := 1.

Record authority_view := AuthorityView {
  av_tenant_id : string; av_tenant_scope : string; av_run_id : string; av_attempt_id : string;
  av_stream_incarnation : Z; av_authorization_epoch : Z
}.

Definition row_metadata (row : dict) : option dict :=
  match get "payload_json" row with
  | PDict payload => match get V4_METADATA_KEY payload with PDict m => Some m | _ => None end
  | _ => None
  end.
Definition public_payload (row : dict) : pyval :=
  match get "payload_json" row with
  | PDict payload => PDict (List.filter (fun kv => negb (String.eqb kv.1 V4_METADATA_KEY)) payload)
  | _ => PNone
  end.

Definition starts_with (prefix s : string) : bool := match strip_prefix prefix s with Some _ => true | None => false end.

(** The test of a row against the authority: its id and event type when it is the
    authority's own. *)
Definition authority_row (row metadata : dict) (authority : authority_view) : option (string * string) :=
  match get "id" row, get "event_type" row, get "attempt_id" metadata with
  | PStr row_id, PStr event_type, PStr attempt_id =>
      if starts_with "evt4_" row_id && eq_str (get "tenant_id" row) (av_tenant_id authority)
         && eq_str (get "run_id" row) (av_run_id authority) && String.eqb attempt_id (av_attempt_id authority)
         && eq_int (get "stream_incarnation" metadata) (av_stream_incarnation authority)
         && eq_int (get "authorization_epoch" metadata) (av_authorization_epoch authority)
         && eq_int (get "version" metadata) V4_METADATA_VERSION
      then Some (row_id, event_type) else None
  | _, _, _ => None
  end.

Definition project_public_v4 (created_at : option datetime) (row : dict) (authority : authority_view)
    : sres (option envelope) :=
  if negb (is_true (get "visible_to_user" row)) then SOk None else
  match row_metadata row with
  | None => SOk None
  | Some metadata =>
      match authority_row row metadata authority with
      | None => SOk None
      | Some (row_id, event_type) =>
          or_none
            (do! sequence := positive_int (get "sequence" row) "seq" in
             let message_id := get "message_id" metadata in
             do! _ := (if str_in event_type PUBLIC_MESSAGE_CORRELATED_EVENT_TYPES || negb (is_none message_id)
                       then do! _ := v4_safe_ref message_id "message_id" in SOk tt else SOk tt) in
             do! emitted_at := as_utc created_at (get "created_at" row) in
             validate_internal_envelope_v4 None
               (PDict [("schema", PStr INTERNAL_STREAM_EVENT_SCHEMA); ("event_id", PStr row_id);
                       ("tenant_scope", PStr (av_tenant_scope authority)); ("run_id", PStr (av_run_id authority));
                       ("attempt_id", PStr (av_attempt_id authority)); ("message_id", message_id);
                       ("seq", PInt sequence); ("event_type", PStr event_type);
                       ("stream_incarnation", PInt (av_stream_incarnation authority)); ("replayable", PBool true);
                       ("trace_ref", get "trace_ref" metadata);
                       ("causation_event_id", get "causation_event_id" metadata); ("emitted_at", PStr emitted_at);
                       ("projection_version", PStr STREAM_PROJECTION_VERSION); ("payload", public_payload row);
                       ("source", PDict [("kind", PStr "run_event"); ("run_event_id", PStr row_id);
                                         ("sequence", PInt sequence)])]))
      end
  end.

(** Historical rows carry their own authority, vouched for by the query that read
    them; their [event_type] column is text. *)
Definition project_persisted (types : list string) (created_at : option datetime) (row : dict)
    (tenant_id run_id : string) : sres (option dict) :=
  match get "event_type" row with
  | PStr row_type =>
      if negb (eq_str (get "tenant_id" row) tenant_id && eq_str (get "run_id" row) run_id
               && is_true (get "v4_attempt_authorized" row) && str_in row_type types) then SOk None else
      match row_metadata row with
      | None => SOk None
      | Some metadata =>
          do! r := or_none
            (do! attempt_id := v4_safe_ref (get "attempt_id" metadata) "attempt_id" in
             do! stream_incarnation := positive_int (get "stream_incarnation" metadata) "stream_incarnation" in
             do! authorization_epoch := positive_int (get "authorization_epoch" metadata) "authorization_epoch" in
             do! projected := project_public_v4 created_at row
                                (AuthorityView tenant_id "history" run_id attempt_id stream_incarnation
                                   authorization_epoch) in
             SOk match projected with
                 | Some p => if str_in (ev_event_type p) types
                             then Some (project_validated_internal_envelope_v4 p) else None
                 | None => None
                 end) in
          SOk (match r with Some r => r | None => None end)
      end
  | _ => SOk None
  end.
Definition ASSISTANT_MESSAGE_TYPES : list string :=
  ["message.started"; "message.delta"; "message.part.delta"; "message.part.classified"; "message.completed"].

Definition project_persisted_message_delta_v4 := project_persisted ["message.delta"].
Definition project_persisted_assistant_message_v4 := project_persisted ASSISTANT_MESSAGE_TYPES.
Definition project_persisted_message_part_v4 (created_at : option datetime) (row : dict) (tenant_id run_id : string)
    : sres (option dict) :=
  match get "event_type" row with
  | PStr t => if str_in t ["message.part.delta"; "message.part.classified"]
              then project_persisted_assistant_message_v4 created_at row tenant_id run_id else SOk None
  | _ => SOk None
  end.

(** ** Derived identities *)

Definition opaque_message_id (tenant_id run_id : string) : string :=
  "msg4_" +:+ sha256_hex ("ai-platform-message-v4:" +:+ tenant_id +:+ ":" +:+ run_id).

End Envelopes.
