(* ===== verification/StreamEventsFacts.v ===== *)
(** * Validated events have the types of the protocol

    Every envelope the validator accepts has the generated type of internal envelopes,
    and its public form the generated type of the event it carries: the registries the
    validators read and the typed dictionaries clients are built from agree.  A
    validated envelope validates again as itself. *)
From stdpp Require Import base list strings.
From Stdlib Require Import ZArith Lia Ascii.
From S2P Require Import Prelude Redis PyValue QueueRuntime Numerals RunAttempt StreamCursors StreamProtocol StreamEvents.
#[local] Open Scope py_scope.

Example epoch_text : utc_isoformat 1735689600123456 = "2025-01-01T00:00:00.123456Z".
Proof. vm_compute. reflexivity. Qed.

(** ** Association lists *)

Lemma lookup_in {A} k (d : list (string * A)) v : assoc k d = Some v → (k, v) ∈ d.
Proof.
  induction d as [|[k' v'] d IH]; [done|]. simpl. destruct (String.eqb k' k) eqn:E.
  - intros [= ->]. apply String.eqb_eq in E as ->. left.
  - intros ?%IH. by right.
Qed.
Lemma has_key_spec k (d : dict) : has_key k d = true ↔ ∃ v, assoc k d = Some v.
Proof. unfold has_key. destruct (assoc k d); split; [eauto|done|done|by intros [? ?]]. Qed.

Lemma check_items_spec check d k v : check_items check d = SOk tt → (k, v) ∈ d → check k v = SOk tt.
Proof.
  induction d as [|[k' v'] d IH]; intros E Hin; [by apply elem_of_nil in Hin|]. cbn [check_items] in E. run_sres E.
  apply elem_of_cons in Hin as [[= -> ->]|Hin]; [|by apply IH]. by destruct x.
Qed.

(** ** What a check guarantees *)

Definition accepts (v : pytype) (t : pytype) : bool :=
  match v, t with
  | TStr, TStr | TInt, TInt | TNone, TNone => true
  | _, _ => false
  end.
(** The type has all values of a primitive type. *)
Definition admits (v t : pytype) : bool := accepts v t || match t with TUnion ts => existsb (accepts v) ts | _ => false end.

Lemma admits_sound v t x :
  admits v t = true → has_type v x = true → match v with TStr | TInt | TNone => true | _ => false end = true →
  has_type t x = true.
Proof.
  assert (∀ t, accepts v t = true → has_type v x = true → has_type t x = true) as Ha.
  { by destruct v; intros []; simpl. }
  unfold admits. rewrite orb_true_iff. intros [Ht|Ht] Hv _; [by apply Ha|]. destruct t; try done.
  apply existsb_exists in Ht as (t & Hin & Ht). simpl. apply existsb_exists. exists t. split; [done|by apply Ha].
Qed.

(** The values an enumeration admits are its members. *)
Lemma exact_enum_member_has_type v options t :
  exact_enum_member v options = true → forallb (has_type t) options = true → has_type t v = true.
Proof.
  unfold exact_enum_member. rewrite existsb_exists, forallb_forall. intros (o & Hin & Ho) Ht. apply Ht in Hin.
  destruct v, o; try done; [apply eqb_prop in Ho as ->|apply String.eqb_eq in Ho as ->]; done.
Qed.

(** The check of one payload field implies a type. *)
Definition covers (event_type key : string) (t : pytype) : bool :=
  match assoc2 event_type key PUBLIC_PAYLOAD_ENUMS with
  | Some options => forallb (has_type t) options
  | None =>
      if str_in key PUBLIC_PAYLOAD_REF_FIELDS then admits TStr t
      else if str_in key PUBLIC_PAYLOAD_NULLABLE_REF_FIELDS then admits TStr t && admits TNone t
      else if str_in key PUBLIC_PAYLOAD_REF_ARRAY_FIELDS
      then match t with TList t => admits TStr t | _ => false end
      else if String.eqb key "filename" then admits TStr t
      else (negb (String.eqb key "detail") || admits TNone t)
           && match assoc2 event_type key PUBLIC_PAYLOAD_STRING_BOUNDS with
              | Some _ => admits TStr t
              | None => admits TInt t
              end
  end.

Lemma v4_safe_ref_value v name s : v4_safe_ref v name = SOk s → v = PStr s ∧ SAFE_REF_PATTERN s = true.
Proof. destruct v as [| | | |s'| |]; try done. simpl. destruct (SAFE_REF_PATTERN s') eqn:E; [|done]. by intros [= <-]. Qed.
Lemma nullable_ref_value v name o :
  nullable_safe_ref v name = SOk o → v = opt_str o ∧ match o with Some s => SAFE_REF_PATTERN s = true | None => True end.
Proof.
  unfold nullable_safe_ref. destruct (is_none v) eqn:En.
  - intros [= <-]. by destruct v.
  - intros E. run_sres E. injection E as <-. by apply v4_safe_ref_value in Heqs as [-> ?].
Qed.
Lemma bounded_string_value v name hi lo s : bounded_string v name hi lo = SOk s → v = PStr s ∧ lo <= py_len s <= hi.
Proof.
  destruct v as [| | | |s'| |]; try done. cbn [bounded_string bounded_public_string].
  destruct ((lo <=? py_len s') && (py_len s' <=? hi)) eqn:E; [|done]. intros [= <-]. to_prop. done.
Qed.
Lemma positive_int_value v name n : positive_int v name = SOk n → v = PInt n ∧ 1 <= n.
Proof. destruct v; try done. simpl. destruct (Z.ltb_spec z 1); [done|]. intros [= <-]. done. Qed.
Lemma nonnegative_int_value v name hi n : nonnegative_int v name hi = SOk n → v = PInt n ∧ 0 <= n <= hi.
Proof. destruct v; try done. simpl. destruct (_ && _) eqn:E; [|done]. intros [= <-]. to_prop. done. Qed.
Lemma validate_refs_value l name rs : validate_refs l name = SOk rs → l = PStr <$> rs.
Proof.
  revert rs. induction l as [|v l IH]; intros rs; cbn [validate_refs]; [by intros [= <-]|]. intros E. run_sres E.
  injection E as <-. apply v4_safe_ref_value in Heqs as [-> _]. rewrite fmap_cons. f_equal. by apply IH.
Qed.
Lemma ref_array_value v name rs : validate_ref_array v name = SOk rs → v = PList (PStr <$> rs).
Proof.
  destruct v; try done. unfold validate_ref_array. intros E. run_sres E. injection E as <-.
  by apply validate_refs_value in Heqs as ->.
Qed.

Lemma covers_sound event_type key v t :
  check_payload_item event_type key v = SOk tt → covers event_type key t = true → has_type t v = true.
Proof.
  unfold check_payload_item, covers. destruct (assoc2 _ _ PUBLIC_PAYLOAD_ENUMS) as [options|].
  { destruct (exact_enum_member v options) eqn:E; [|done]. intros _. by apply exact_enum_member_has_type. }
  destruct (str_in key PUBLIC_PAYLOAD_REF_FIELDS).
  { intros E. run_sres E. apply v4_safe_ref_value in Heqs as [-> _]. intros Ht. by eapply admits_sound. }
  destruct (str_in key PUBLIC_PAYLOAD_NULLABLE_REF_FIELDS).
  { intros E. run_sres E. apply nullable_ref_value in Heqs as [-> _]. intros Ht. to_prop.
    destruct x; [by apply (admits_sound TStr)|by apply (admits_sound TNone)]. }
  destruct (str_in key PUBLIC_PAYLOAD_REF_ARRAY_FIELDS).
  { intros E. run_sres E. apply ref_array_value in Heqs as ->. intros Ht. destruct t; try done. simpl.
    apply forallb_forall. intros y Hy. apply list_elem_of_In, list_elem_of_fmap in Hy as (s & -> & _).
    by apply (admits_sound TStr). }
  destruct (String.eqb key "filename").
  { intros E. run_sres E. apply bounded_string_value in Heqs as [-> _]. intros Ht. by apply (admits_sound TStr). }
  rewrite andb_true_iff. destruct (String.eqb key "detail" && is_none v) eqn:Ed.
  { intros _ [Hd _]. to_prop. subst key. destruct v; try done. by apply (admits_sound TNone). }
  intros E [_ Ht]. destruct (assoc2 _ _ PUBLIC_PAYLOAD_STRING_BOUNDS) as [[lo hi]|].
  { run_sres E. apply bounded_string_value in Heqs as [-> _]. by apply (admits_sound TStr). }
  destruct (assoc2 _ _ PUBLIC_PAYLOAD_INTEGER_BOUNDS) as [[lo hi]|]; [|done].
  destruct v; try done. by apply (admits_sound TInt).
Qed.

(** ** Payloads *)

Definition dict_conforms (event_type : string) (ok : string → pytype → bool) (t : pytype) : bool :=
  match t with
  | TTyped fields =>
      forallb (fun f => ok f.1 f.2.2
                        && (negb f.2.1 || str_in f.1 (required_fields event_type))) fields
      && forallb (fun k => str_in k (fst <$> fields)) (allowed_fields event_type)
  | TDict => true
  | _ => false
  end.

Lemma dict_conforms_sound event_type ok t (d : dict) :
  dict_conforms event_type ok t = true →
  keys_within d (allowed_fields event_type) = true →
  has_keys d (required_fields event_type) = true →
  (∀ k v u, (k, v) ∈ d → ok k u = true → has_type u v = true) →
  has_type t (PDict d) = true.
Proof.
  intros Hc Hk Hr Hi. destruct t as [| | | | | | | | |fields]; try done. cbn [dict_conforms has_type] in *. to_prop. apply andb_true_iff.
  repeat match goal with Hf : forallb _ _ = true |- _ => rewrite forallb_forall in Hf end. split.
  - apply forallb_forall. intros [name [req u]] Hin. match goal with Hf : ∀ x, In x fields → _ |- _ => apply Hf in Hin end.
    to_prop. simpl in *. destruct (assoc name d) as [v|] eqn:Ea.
    + eapply Hi; [by apply lookup_in|done].
    + match goal with Ho : _ || _ = true |- _ => rename Ho into Hor end.
      apply orb_true_iff in Hor as [Ho|Ho]; [done|].
      unfold has_keys in Hr. rewrite forallb_forall in Hr. apply str_in_elem, list_elem_of_In, Hr in Ho.
      unfold has_key in Ho. by rewrite Ea in Ho.
  - apply forallb_forall. intros [k v] Hin. unfold keys_within in Hk. rewrite forallb_forall in Hk. apply Hk in Hin. simpl in *.
    apply str_in_elem, list_elem_of_In in Hin. by match goal with Hf : ∀ x, In x _ → str_in x _ = true |- _ => apply Hf in Hin end.
Qed.

Section Payloads.
Context `{PyRuntime}.

Lemma validate_payload_value event_type v d :
  validate_payload event_type v = SOk d →
  v = PDict d ∧ str_in event_type PUBLIC_APPLICATION_EVENT_TYPES = true ∧
  keys_within d (allowed_fields event_type) = true ∧
  has_keys d (required_fields event_type) = true.
Proof.
  unfold validate_payload. intros E. destruct (str_in event_type PUBLIC_APPLICATION_EVENT_TYPES); [|done]. simpl in E.
  destruct v as [| | | | | |d']; try done.
  destruct (64 <? _); [done|]. destruct (_ || _) eqn:Ek; [done|]. to_prop.
  assert (d' = d) as -> by (run_sres E; congruence). done.
Qed.

(** An application payload has a typed dictionary its registries imply. *)
Lemma payload_typed event_type v d t :
  validate_payload event_type v = SOk d → event_type ≠ "agent.progress" →
  dict_conforms event_type (covers event_type) t = true → has_type t (PDict d) = true.
Proof.
  intros E Hp Hc. destruct (validate_payload_value _ _ _ E) as (-> & _ & Hk & Hr).
  eapply dict_conforms_sound; [done..|]. intros k v u Hin. apply covers_sound. revert E. unfold validate_payload.
  rewrite Hk, Hr. apply String.eqb_neq in Hp as ->. intros E. run_sres E. destruct x. by eapply check_items_spec.
Qed.


(** A key with a value has it in the dictionary. *)
Lemma required_value k (d : dict) required :
  has_keys d required = true → str_in k required = true → assoc k d = Some (get k d).
Proof.
  intros Hr Hk. unfold has_keys in Hr. rewrite forallb_forall in Hr. apply str_in_elem, list_elem_of_In, Hr in Hk.
  apply has_key_spec in Hk as [v Hv]. unfold get, get_default. by rewrite Hv.
Qed.

Lemma eq_str_true v s : eq_str v s = true → v = PStr s.
Proof. destruct v; try done. simpl. by intros ->%String.eqb_eq. Qed.

(** A text that has a message names a phase and one of its steps. *)
Lemma progress_message_types phase lifecycle m :
  expected_progress_message phase lifecycle = Some m →
  has_type (TStrs ["attachment_materialization"; "skill_staging"; "sandbox_preparation"; "sandbox_submission";
                   "model_wait"; "artifact_validation"; "artifact_recovery"]) phase = true ∧
  has_type (TStrs ["started"; "progress"; "completed"; "failed"]) lifecycle = true.
Proof.
  unfold expected_progress_message. destruct phase as [| | | |p| |]; try done. destruct lifecycle as [| | | |l| |]; try done.
  destruct (assoc p AGENT_PROGRESS_MESSAGES) as [texts|] eqn:Ep; [|done]. intros El. apply lookup_in in El, Ep. split.
  - apply str_in_elem. apply (list_elem_of_fmap_2 fst) in Ep. exact Ep.
  - apply str_in_elem.
    assert (Forall (fun r => (fst <$> r.2) = ["started"; "progress"; "completed"; "failed"]) AGENT_PROGRESS_MESSAGES) as Ha
      by by repeat constructor.
    rewrite Forall_forall in Ha. apply Ha in Ep. simpl in Ep. rewrite <- Ep. apply (list_elem_of_fmap_2 fst) in El. exact El.
Qed.

(** Progress reports have no item checks of their own; the texts fix their types. *)
Lemma progress_typed v d :
  validate_payload "agent.progress" v = SOk d → has_type AgentProgressEventV4Payload (PDict d) = true.
Proof.
  intros E. destruct (validate_payload_value _ _ _ E) as (-> & _ & Hk & Hr). revert E. unfold validate_payload.
  rewrite Hk, Hr. rewrite String.eqb_refl. change (str_in "agent.progress" PUBLIC_APPLICATION_EVENT_TYPES) with true.
  cbn [negb orb]. intros E. run_sres E. clear E. to_prop.
  match goal with He : expected_progress_message _ _ = Some _ |- _ => apply progress_message_types in He as [Hph Hl] end.
  repeat match goal with He : eq_str _ _ = true |- _ => apply eq_str_true in He end.
  unfold AgentProgressEventV4Payload. cbn [has_type]. apply andb_true_iff. split; [|exact Hk].
  cbn [forallb]. rewrite !(required_value _ d _ Hr) by (vm_compute; reflexivity).  rewrite Hph, Hl.
  repeat match goal with He : get _ d = PStr _ |- _ => rewrite He; clear He end. reflexivity.
Qed.
End Payloads.

(** ** Controls *)

Definition covers_control (event_type key : string) (t : pytype) : bool :=
  match assoc2 event_type key PUBLIC_PAYLOAD_ENUMS with
  | Some options => forallb (has_type t) options
  | None =>
      if str_in key PUBLIC_PAYLOAD_REF_FIELDS then admits TStr t
      else if str_in key PUBLIC_PAYLOAD_NULLABLE_REF_FIELDS then admits TStr t && admits TNone t
      else if str_in key PUBLIC_PAYLOAD_REF_ARRAY_FIELDS then false
      else str_in key ["requested_stream_incarnation"; "current_stream_incarnation"] && admits TInt t
           && (String.eqb key "current_stream_incarnation" || admits TNone t)
  end.

Lemma covers_control_sound event_type key v t :
  check_control_item event_type key v = SOk tt → covers_control event_type key t = true → has_type t v = true.
Proof.
  unfold check_control_item, covers_control. intros E. apply sbind_ok in E as ([] & Heqs & E).
  apply sbind_ok in E as ([] & Heqs0 & _).
  destruct (assoc2 _ _ PUBLIC_PAYLOAD_ENUMS) as [options|].
  { destruct (exact_enum_member v options) eqn:Em; [|done]. by apply exact_enum_member_has_type. }
  destruct (str_in key PUBLIC_PAYLOAD_REF_FIELDS).
  { run_sres Heqs0. apply v4_safe_ref_value in Heqs1 as [-> _]. intros Ht. by apply (admits_sound TStr). }
  destruct (str_in key PUBLIC_PAYLOAD_NULLABLE_REF_FIELDS).
  { run_sres Heqs0. apply nullable_ref_value in Heqs1 as [-> _]. intros Ht. to_prop.
    destruct x; [by apply (admits_sound TStr)|by apply (admits_sound TNone)]. }
  destruct (str_in key PUBLIC_PAYLOAD_REF_ARRAY_FIELDS); [done|]. rewrite !andb_true_iff. intros [[Hk Hi] Hn].
  rewrite Hk in Heqs0. destruct (negb (is_none v) || String.eqb key "current_stream_incarnation") eqn:Eb.
  - run_sres Heqs0. apply positive_int_value in Heqs1 as [-> _]. by apply (admits_sound TInt).
  - to_prop. destruct v; try done. apply orb_true_iff in Hn as [Hn|Hn]; [by to_prop|]. by apply (admits_sound TNone).
Qed.

Lemma control_payload_value event_type v d :
  validate_control_payload event_type v = SOk d →
  v = PDict d ∧ keys_within d (allowed_fields event_type) = true ∧ has_keys d (required_fields event_type) = true ∧
  check_items (check_control_item event_type) d = SOk tt.
Proof.
  unfold validate_control_payload. intros E. destruct v as [| | | | | |d']; try done.
  destruct (8 <? _); [done|]. destruct (_ || _) eqn:Ek; [done|]. to_prop.
  destruct (check_items _ d') as [[]|] eqn:Ec; [|done]. cbn [sbind] in E.
  assert (d' = d) as -> by (run_sres E; congruence). done.
Qed.

Lemma control_typed event_type v d t :
  validate_control_payload event_type v = SOk d → dict_conforms event_type (covers_control event_type) t = true →
  has_type t (PDict d) = true.
Proof.
  intros E Hc. destruct (control_payload_value _ _ _ E) as (-> & Hk & Hr & Hi).
  eapply dict_conforms_sound; [done..|]. intros k v u Hin. apply covers_control_sound. by eapply check_items_spec.
Qed.

(** ** Envelopes *)

(** The type of the public envelope of one event. *)
Definition public_event_type (schema : string) (message_id seq : pytype) (event_type : string)
    (replayable trace_ref payload : pytype) : pytype := TTyped
  [("schema", (true, TStrs [schema])); ("event_id", (true, EventIdV4)); ("run_id", (true, RunIdV4));
   ("message_id", (true, message_id)); ("seq", (true, seq)); ("event_type", (true, TStrs [event_type]));
   ("stream_incarnation", (true, TInt)); ("replayable", (true, replayable)); ("trace_ref", (true, trace_ref));
   ("causation_event_id", (true, NullableSafeRefV4)); ("emitted_at", (true, TStr)); ("payload", (true, payload))].

Definition application_type (event_type : string) (message_id payload : pytype) : pytype :=
  public_event_type PUBLIC_RUN_STREAM_SCHEMA message_id TInt event_type (TLit (PBool true)) NullableTraceRefV4 payload.
Definition control_type (event_type : string) (replayable : bool) (payload : pytype) : pytype :=
  public_event_type CONTROL_SCHEMA TNone TNone event_type (TLit (PBool replayable)) TNone payload.

(** The members of [PublicRunStreamEventV4] in terms of those two. *)
Definition application_rows : list (string * (pytype * pytype * pytype)) :=
  [("message.started", (MessageStartedEventV4, SafeRefV4, EmptyPayloadV4));
   ("message.delta", (MessageDeltaEventV4, SafeRefV4, MessageDeltaEventV4Payload));
   ("message.part.delta", (MessagePartDeltaEventV4, SafeRefV4, MessagePartDeltaEventV4Payload));
   ("message.part.classified", (MessagePartClassifiedEventV4, SafeRefV4, MessagePartClassifiedEventV4Payload));
   ("message.completed", (MessageCompletedEventV4, SafeRefV4, MessageCompletedEventV4Payload));
   ("commentary.delta", (CommentaryDeltaEventV4, SafeRefV4, CommentaryDeltaEventV4Payload));
   ("thinking.started", (ThinkingStartedEventV4, SafeRefV4, ThinkingStartedEventV4Payload));
   ("thinking.delta", (ThinkingDeltaEventV4, SafeRefV4, ThinkingDeltaEventV4Payload));
   ("thinking.completed", (ThinkingCompletedEventV4, SafeRefV4, ThinkingCompletedEventV4Payload));
   ("model.completed", (ModelCompletedEventV4, SafeRefV4, ModelCompletedEventV4Payload));
   ("agent.progress", (AgentProgressEventV4, NullableSafeRefV4, AgentProgressEventV4Payload));
   ("tool.started", (ToolStartedEventV4, SafeRefV4, ToolStartedEventV4Payload));
   ("tool.completed", (ToolCompletedEventV4, SafeRefV4, ToolCompletedEventV4Payload));
   ("tool.failed", (ToolFailedEventV4, SafeRefV4, ToolFailedEventV4Payload));
   ("tool.denied", (ToolDeniedEventV4, SafeRefV4, ToolDeniedEventV4Payload));
   ("subagent.started", (SubagentStartedEventV4, SafeRefV4, SubagentStartedEventV4Payload));
   ("subagent.progress", (SubagentProgressEventV4, SafeRefV4, SubagentProgressEventV4Payload));
   ("subagent.completed", (SubagentCompletedEventV4, SafeRefV4, SubagentCompletedEventV4Payload));
   ("subagent.failed", (SubagentFailedEventV4, SafeRefV4, SubagentFailedEventV4Payload));
   ("subagent.cancelled", (SubagentCancelledEventV4, SafeRefV4, SubagentCancelledEventV4Payload));
   ("artifact.created", (ArtifactCreatedEventV4, NullableSafeRefV4, ArtifactCreatedEventV4Payload));
   ("artifact.ready", (ArtifactReadyEventV4, NullableSafeRefV4, ArtifactReadyEventV4Payload));
   ("artifact.failed", (ArtifactFailedEventV4, NullableSafeRefV4, ArtifactFailedEventV4Payload));
   ("policy.checking", (PolicyCheckingEventV4, NullableSafeRefV4, PolicyCheckingEventV4Payload));
   ("policy.allowed", (PolicyAllowedEventV4, NullableSafeRefV4, PolicyAllowedEventV4Payload));
   ("policy.denied", (PolicyDeniedEventV4, NullableSafeRefV4, PolicyDeniedEventV4Payload));
   ("run.cancel_requested", (RunCancelRequestedEventV4, NullableSafeRefV4, RunCancelRequestedEventV4Payload));
   ("run.succeeded", (RunSucceededEventV4, NullableSafeRefV4, RunSucceededEventV4Payload));
   ("run.cancelled", (RunCancelledEventV4, NullableSafeRefV4, RunCancelledEventV4Payload));
   ("run.failed", (RunFailedEventV4, NullableSafeRefV4, RunFailedEventV4Payload))].
Definition control_rows : list (string * (pytype * bool * pytype)) :=
  [("stream.open", (StreamOpenControlV4, true, StreamOpenControlV4Payload));
   ("stream.heartbeat", (StreamHeartbeatControlV4, false, StreamHeartbeatControlV4Payload));
   ("stream.gap", (StreamGapControlV4, false, StreamGapControlV4Payload));
   ("stream.end", (StreamEndControlV4, true, StreamEndControlV4Payload))].

Definition members (t : pytype) : list pytype := match t with TUnion ts => ts | _ => [] end.

(** The generated types are those, and each payload type follows from the registries. *)
Definition application_row_ok (r : string * (pytype * pytype * pytype)) : Prop :=
  match r with
  | (event_type, (member, message_id, payload)) =>
      member = application_type event_type message_id payload ∧ In member (members PublicApplicationEventV4) ∧
      (message_id = SafeRefV4 ∧ str_in event_type PUBLIC_MESSAGE_CORRELATED_EVENT_TYPES = true ∨
       message_id = NullableSafeRefV4) ∧
      (event_type = "agent.progress" ∧ payload = AgentProgressEventV4Payload ∨
       event_type ≠ "agent.progress" ∧ dict_conforms event_type (covers event_type) payload = true)
  end.
Definition control_row_ok (r : string * (pytype * bool * pytype)) : Prop :=
  match r with
  | (event_type, (member, replayable, payload)) =>
      member = control_type event_type replayable payload ∧ In member (members PublicTransportControlEventV4) ∧
      default false (assoc event_type CONTROL_REPLAYABLE) = replayable ∧
      dict_conforms event_type (covers_control event_type) payload = true
  end.

Ltac find_member := first [left; reflexivity | right; find_member].

Lemma application_rows_ok : Forall application_row_ok application_rows.
Proof.
  repeat (apply Forall_cons; split; [split; [reflexivity|split; [find_member|split]]|]); try (apply Forall_nil; exact I);
    first [left; split; [reflexivity|vm_compute; reflexivity] | right; reflexivity
          | right; split; [discriminate|vm_compute; reflexivity]].
Qed.

Lemma control_rows_ok : Forall control_row_ok control_rows.
Proof.
  repeat (apply Forall_cons; split; [split; [reflexivity|split; [find_member|split; [reflexivity|vm_compute; reflexivity]]]|]);
    apply Forall_nil; exact I.
Qed.

Lemma member_typed t ts v : In t ts → has_type t v = true → has_type (TUnion ts) v = true.
Proof. intros Hin Ht. cbn [has_type]. apply existsb_exists. by exists t. Qed.

(** The public form of an envelope has the type of its event when its parts have. *)
Lemma public_typed schema mt st et rt tt pt e :
  schema = (if str_in (ev_event_type e) PUBLIC_CONTROL_EVENT_TYPES then CONTROL_SCHEMA else PUBLIC_RUN_STREAM_SCHEMA) →
  ev_event_type e = et → has_type mt (opt_str (ev_message_id e)) = true → has_type st (opt_int (ev_seq e)) = true →
  has_type rt (PBool (ev_replayable e)) = true → has_type tt (opt_str (ev_trace_ref e)) = true →
  has_type pt (PDict (ev_payload e)) = true →
  has_type (public_event_type schema mt st et rt tt pt) (PDict (project_validated_internal_envelope_v4 e)) = true.
Proof.
  intros -> <- Hm Hs Hr Ht Hp. unfold public_event_type, project_validated_internal_envelope_v4.
  cbn [has_type forallb assoc fst String.eqb Ascii.eqb Bool.eqb]. rewrite Hm, Hs, Hr, Ht, Hp. cbn [str_in is_str is_exact_int orb andb].
  rewrite !String.eqb_refl. by destruct (ev_causation_event_id e).
Qed.

Section Envelopes.
Context `{PyRuntime} `{StreamRuntime}.

Lemma app_type_in et : str_in et PUBLIC_APPLICATION_EVENT_TYPES = true → ∃ r, (et, r) ∈ application_rows.
Proof.
  assert (forallb (fun t => match assoc t application_rows with Some _ => true | None => false end)
            PUBLIC_APPLICATION_EVENT_TYPES = true) as Ha by (vm_compute; reflexivity).
  rewrite forallb_forall in Ha. intros Hin%str_in_elem%list_elem_of_In%Ha.
  destruct (assoc et application_rows) as [r|] eqn:E; [|done]. exists r. by apply lookup_in.
Qed.
Lemma control_type_in et : str_in et PUBLIC_CONTROL_EVENT_TYPES = true → ∃ r, (et, r) ∈ control_rows.
Proof.
  assert (forallb (fun t => match assoc t control_rows with Some _ => true | None => false end)
            PUBLIC_CONTROL_EVENT_TYPES = true) as Ha by (vm_compute; reflexivity).
  rewrite forallb_forall in Ha. intros Hin%str_in_elem%list_elem_of_In%Ha.
  destruct (assoc et control_rows) as [r|] eqn:E; [|done]. exists r. by apply lookup_in.
Qed.

(** What the identity branch establishes, by the kind of the event. *)
Definition identity_spec (et : string) (payload_value : pyval) (m : option string) (q : option Z) (tr : option string) (rp : bool) (p : dict) : Prop :=
  (str_in et PUBLIC_CONTROL_EVENT_TYPES = true ∧ m = None ∧ q = None ∧ tr = None ∧
   rp = default false (assoc et CONTROL_REPLAYABLE) ∧ validate_control_payload et payload_value = SOk p) ∨
  (str_in et PUBLIC_CONTROL_EVENT_TYPES = false ∧ (∃ n, q = Some n ∧ 1 <= n) ∧ rp = true ∧
   (str_in et PUBLIC_MESSAGE_CORRELATED_EVENT_TYPES = true → m ≠ None) ∧
   (∀ s, m = Some s → SAFE_REF_PATTERN s = true) ∧ (∀ s, tr = Some s → TRACE_REF_PATTERN s = true) ∧
   validate_payload et payload_value = SOk p).

Lemma validate_identity_spec et env m q tr rp p :
  validate_identity et env = SOk (m, q, tr, rp, p) →
  identity_spec et (get "payload" env) m q tr rp p ∧ get "message_id" env = opt_str m ∧ get "seq" env = opt_int q ∧
  get "trace_ref" env = opt_str tr ∧ get "replayable" env = PBool rp.
Proof.
  unfold validate_identity, identity_spec. destruct (str_in et PUBLIC_CONTROL_EVENT_TYPES) eqn:Ec; intros E.
  - destruct (_ || _) eqn:Eo; [done|]. to_prop. destruct (get "replayable" env); try done. run_sres E. injection E as <- <- <- <- <-.
    to_prop. apply eqb_prop in Heqb0. subst. repeat match goal with Hn : is_none ?v = true |- _ => destruct v; try done; clear Hn end.
    split_and!; try done. left. done.
  - apply sbind_ok in E as (m' & Em & E). apply sbind_ok in E as (n & En & E). run_sres E. injection E as <- <- <- <- <-.
    apply positive_int_value in En as [Hq Hn].
    assert (get "message_id" env = opt_str m' ∧ (∀ s, m' = Some s → SAFE_REF_PATTERN s = true) ∧
            (str_in et PUBLIC_MESSAGE_CORRELATED_EVENT_TYPES = true → m' ≠ None)) as (Hm & Hms & Hmn).
    { destruct (str_in et PUBLIC_MESSAGE_CORRELATED_EVENT_TYPES).
      - run_sres Em. injection Em as <-. apply v4_safe_ref_value in Heqs1 as [-> ?]. split_and!; [done| |done]. by intros s [= <-].
      - apply nullable_ref_value in Em as [-> Hs]. split_and!; [done| |done]. by destruct m' as [y|]; intros s [= <-]. }
    assert (get "trace_ref" env = opt_str x ∧ ∀ s, x = Some s → TRACE_REF_PATTERN s = true) as [Htr Hts].
    { destruct (get "trace_ref" env) as [| | | |y| |]; try done; [by injection Heqs as <-|].
      destruct (TRACE_REF_PATTERN y) eqn:Et; [|done]. injection Heqs as <-. split; [done|]. by intros ? [= <-]. }
    destruct (get "replayable" env) as [|[]| | | | |]; try done.
    split_and!; try done. right. split_and!; try done. eauto.
Qed.

(** The parts of a validated envelope. *)
Lemma validated_parts stamp v e :
  validate_internal_envelope_v4 stamp v = SOk e →
  ∃ env, v = PDict env ∧
    identity_spec (ev_event_type e) (get "payload" env) (ev_message_id e) (ev_seq e) (ev_trace_ref e) (ev_replayable e)
      (ev_payload e) ∧
    str_in (ev_event_type e) PUBLIC_STREAM_EVENT_TYPES = true ∧
    1 <= py_len (ev_event_id e) <= 256 ∧ 1 <= py_len (ev_tenant_scope e) <= 128 ∧
    TENANT_SCOPE_PATTERN (ev_tenant_scope e) = true ∧ 1 <= py_len (ev_run_id e) <= 128 ∧
    RUN_ID_PATTERN (ev_run_id e) = true ∧ 1 <= py_len (ev_attempt_id e) <= 256 ∧ 1 <= ev_stream_incarnation e ∧
    (∀ s, ev_causation_event_id e = Some s → SAFE_REF_PATTERN s = true) ∧
    as_utc stamp (get "emitted_at" env) = SOk (ev_emitted_at e) ∧ validate_source (get "source" env) = SOk (ev_source e).
Proof.
  unfold validate_internal_envelope_v4. destruct v as [| | | | | |env]; try done. intros E. exists env. split; [done|].
  destruct (_ || _); [done|]. destruct (negb (hashable _)); [done|]. destruct (get "event_type" env) as [| | | |et| |]; try done.
  destruct (str_in et PUBLIC_STREAM_EVENT_TYPES) eqn:Et; [|done]. cbn [negb] in E. run_sres E.
  injection E as <-. simpl. to_prop.
  repeat match goal with Hb : bounded_string _ _ _ _ = SOk _ |- _ => apply bounded_string_value in Hb as [_ ?] end.
  repeat match goal with Hb : positive_int _ _ = SOk _ |- _ => apply positive_int_value in Hb as [_ ?] end.
  match goal with Hb : nullable_safe_ref _ _ = SOk _ |- _ => apply nullable_ref_value in Hb as [_ Hn] end.
  match goal with Hb : validate_identity _ _ = SOk _ |- _ => apply validate_identity_spec in Hb as [Hid _] end.
  split_and!; try done; try lia. intros s ->. done.
Qed.

(** A trace reference of a validated envelope has its form. *)
Lemma validated_trace stamp env e s :
  validate_internal_envelope_v4 stamp (PDict env) = SOk e → get "trace_ref" env = PStr s → TRACE_REF_PATTERN s = true.
Proof.
  unfold validate_internal_envelope_v4. intros E Hs.
  destruct (_ || _); [done|]. destruct (negb (hashable _)); [done|]. destruct (get "event_type" env) as [| | | |et| |]; try done.
  destruct (str_in et PUBLIC_STREAM_EVENT_TYPES); [|done]. cbn [negb] in E. run_sres E. injection E as <-.
  match goal with Hb : validate_identity _ _ = SOk _ |- _ => apply validate_identity_spec in Hb as (Hid & _ & _ & Ht & _) end.
  rewrite Hs in Ht. destruct Hid as [(_ & _ & _ & -> & _)|(_ & _ & _ & _ & _ & Htr & _)]; [done|].
  match goal with Hx : PStr s = opt_str ?o |- _ => destruct o; [|done]; injection Hx as <- end. by apply Htr.
Qed.

(** The fields of a validated envelope are those of the dictionary. *)
Lemma validated_fields stamp env e :
  validate_internal_envelope_v4 stamp (PDict env) = SOk e →
  get "event_type" env = PStr (ev_event_type e) ∧ get "event_id" env = PStr (ev_event_id e) ∧ get "seq" env = opt_int (ev_seq e) ∧
  get "message_id" env = opt_str (ev_message_id e) ∧ get "payload" env = PDict (ev_payload e) ∧
  get "causation_event_id" env = opt_str (ev_causation_event_id e).
Proof.
  unfold validate_internal_envelope_v4. intros E.
  destruct (_ || _); [done|]. destruct (negb (hashable _)); [done|]. destruct (get "event_type" env) as [| | | |et| |] eqn:Et; try done.
  destruct (str_in et PUBLIC_STREAM_EVENT_TYPES); [|done]. cbn [negb] in E. apply sbind_ok in E as (i & Hi & E).
  apply bounded_string_value in Hi as [Hi _]. run_sres E. injection E as <-. cbn.
  match goal with Hb : nullable_safe_ref _ _ = SOk _ |- _ => apply nullable_ref_value in Hb as [-> _] end.
  match goal with Hb : validate_identity _ _ = SOk _ |- _ => apply validate_identity_spec in Hb as (Hid & -> & -> & _) end.
  split_and!; try done. destruct Hid as [(_ & _ & _ & _ & _ & Hp)|(_ & _ & _ & _ & _ & _ & Hp)].
  - by destruct (control_payload_value _ _ _ Hp) as [-> _].
  - by destruct (validate_payload_value _ _ _ Hp) as [-> _].
Qed.

(** A validated source is its own normal form. *)
Lemma validate_source_idem v d : validate_source v = SOk d → validate_source (PDict d) = SOk d.
Proof.
  unfold validate_source at 1. destruct v as [| | | | | |s]; try done. destruct (get "kind" s) as [| | | |kind| |]; try done.
  destruct (String.eqb kind "run_event") eqn:Ek; [apply String.eqb_eq in Ek as ->|].
  - intros E. destruct (negb _); [done|]. apply sbind_ok in E as (i & Hi & E). apply sbind_ok in E as (n & Hn & E).
    apply v4_safe_ref_value in Hi as [_ Hi]. apply positive_int_value in Hn as [_ Hn].
    destruct (has_key "callback_sequence" s); [apply sbind_ok in E as (c & Hc & E); apply nonnegative_int_value in Hc as [_ Hc]|];
      injection E as <-; unfold validate_source; cbn [get get_default assoc app String.eqb Ascii.eqb Bool.eqb default from_option id
        keys_within forallb fst str_in orb andb negb has_key v4_safe_ref positive_int sbind]; rewrite Hi; cbn [sbind];
      (destruct (Z.ltb_spec n 1); [lia|]); cbn [sbind nonnegative_int]; [|done].
    destruct (Z.leb_spec 0 c), (Z.leb_spec c MAX_BIGINT); try lia. done.
  - destruct (String.eqb kind "stream_authority") eqn:Ek'; [|done]. apply String.eqb_eq in Ek' as ->. intros E.
    destruct (negb _); [done|]. apply sbind_ok in E as (i & Hi & E). apply v4_safe_ref_value in Hi as [_ Hi]. injection E as <-.
    unfold validate_source. cbn. by rewrite Hi.
Qed.

Lemma validate_source_typed v d :
  validate_source v = SOk d → has_type (TUnion [RunEventSourceV4; StreamAuthoritySourceV4]) (PDict d) = true.
Proof.
  unfold validate_source. destruct v as [| | | | | |s]; try done. destruct (get "kind" s) as [| | | |kind| |]; try done.
  destruct (String.eqb kind "run_event") eqn:Ek; [apply String.eqb_eq in Ek as ->|].
  - intros E. run_sres E; by injection E as <-.
  - destruct (String.eqb kind "stream_authority") eqn:Ek'; [|done]. apply String.eqb_eq in Ek' as ->. intros E.
    run_sres E. by injection E as <-.
Qed.

(** The public form of an application event. *)
Lemma application_public_typed e v :
  str_in (ev_event_type e) PUBLIC_CONTROL_EVENT_TYPES = false → validate_payload (ev_event_type e) v = SOk (ev_payload e) →
  (∃ n, ev_seq e = Some n ∧ 1 <= n) → ev_replayable e = true →
  (str_in (ev_event_type e) PUBLIC_MESSAGE_CORRELATED_EVENT_TYPES = true → ev_message_id e ≠ None) →
  has_type PublicApplicationEventV4 (PDict (project_validated_internal_envelope_v4 e)) = true.
Proof.
  intros Hc Hv (n & Hs & Hn) Hr Hm. destruct (validate_payload_value _ _ _ Hv) as (_ & Ht & _ & _).
  destruct (app_type_in _ Ht) as [[[member mt] pt] Hin]. pose proof application_rows_ok as Hok. rewrite Forall_forall in Hok.
  apply Hok in Hin as (-> & Hmem & Hmt & Hpt). change PublicApplicationEventV4 with (TUnion (members PublicApplicationEventV4)).
  eapply member_typed; [exact Hmem|]. unfold application_type. apply public_typed; try done.
  - by rewrite Hc.
  - destruct Hmt as [[-> Hcor]| ->]; [|by destruct (ev_message_id e)]. by destruct (ev_message_id e); [|destruct (Hm Hcor)].
  - by rewrite Hs.
  - by rewrite Hr.
  - by destruct (ev_trace_ref e).
  - destruct Hpt as [[Hp ->]|[Hp Hcov]]; [rewrite Hp in Hv; by apply progress_typed in Hv|by eapply payload_typed].
Qed.

Lemma control_public_typed e v :
  str_in (ev_event_type e) PUBLIC_CONTROL_EVENT_TYPES = true → validate_control_payload (ev_event_type e) v = SOk (ev_payload e) →
  ev_message_id e = None → ev_seq e = None → ev_trace_ref e = None →
  ev_replayable e = default false (assoc (ev_event_type e) CONTROL_REPLAYABLE) →
  has_type PublicTransportControlEventV4 (PDict (project_validated_internal_envelope_v4 e)) = true.
Proof.
  intros Hc Hv Hm Hs Ht Hr. destruct (control_type_in _ Hc) as [[[member rp] pt] Hin].
  pose proof control_rows_ok as Hok. rewrite Forall_forall in Hok. apply Hok in Hin as (-> & Hmem & Hrp & Hpt).
  change PublicTransportControlEventV4 with (TUnion (members PublicTransportControlEventV4)).
  eapply member_typed; [exact Hmem|]. unfold control_type. apply public_typed; try done.
  - by rewrite Hc.
  - by rewrite Hm.
  - by rewrite Hs.
  - rewrite Hr, Hrp. by destruct rp.
  - by rewrite Ht.
  - by eapply control_typed.
Qed.

(** C29.  Validated events have the types of the protocol.  An envelope the validator
    accepts has the generated type of internal envelopes, and its public form the
    generated type of public events: the twelve public fields and no others (no tenant
    scope, attempt or source), a payload with the required fields of its event type and
    no undeclared ones, each field of its declared type. *)
Theorem validated_events_typed stamp v e :
  validate_internal_envelope_v4 stamp v = SOk e →
  has_type InternalStreamEnvelopeV4 (PDict (envelope_dict e)) = true ∧
  has_type PublicRunStreamEventV4 (PDict (project_validated_internal_envelope_v4 e)) = true.
Proof.
  intros E. destruct (validated_parts _ _ _ E) as (env & -> & Hid & Ht & Hparts). destruct_and!. split.
  - match goal with Hs : validate_source _ = SOk _ |- _ => apply validate_source_typed in Hs end.
    unfold InternalStreamEnvelopeV4, envelope_dict.
    cbn [has_type forallb assoc fst String.eqb Ascii.eqb Bool.eqb is_str is_exact_int is_bool andb].
    change (TUnion [RunEventSourceV4; StreamAuthoritySourceV4]) with (TUnion [RunEventSourceV4; StreamAuthoritySourceV4]) in *.
    match goal with Hs : has_type _ (PDict (ev_source e)) = true |- _ => cbn [has_type] in Hs; rewrite Hs end.
    unfold PUBLIC_STREAM_EVENT_TYPES in Ht. rewrite Ht.
    by destruct (ev_message_id e), (ev_seq e), (ev_trace_ref e), (ev_causation_event_id e).
  - change PublicRunStreamEventV4 with (TUnion [PublicApplicationEventV4; PublicTransportControlEventV4]).
    destruct Hid as [(Hc & Hm & Hs & Htr & Hr & Hp)|(Hc & Hs & Hr & Hm & _ & _ & Hp)].
    + eapply member_typed; [right; left; reflexivity|]. by eapply control_public_typed.
    + eapply member_typed; [left; reflexivity|]. by eapply application_public_typed.
Qed.

Lemma bounded_string_ok s name hi lo : lo <= py_len s <= hi → bounded_string (PStr s) name hi lo = SOk s.
Proof. intros [? ?]. cbn [bounded_string bounded_public_string]. by destruct (Z.leb_spec lo (py_len s)), (Z.leb_spec (py_len s) hi); try lia. Qed.
Lemma positive_int_ok n name : 1 <= n → positive_int (PInt n) name = SOk n.
Proof. intros Hn. simpl. by destruct (Z.ltb_spec n 1); [lia|]. Qed.
Lemma nullable_ref_ok o name :
  (∀ s, o = Some s → SAFE_REF_PATTERN s = true) → nullable_safe_ref (opt_str o) name = SOk o.
Proof.
  intros Ho. destruct o as [s|]; [|done]. unfold nullable_safe_ref. cbn [opt_str is_none v4_safe_ref]. by rewrite (Ho s).
Qed.

(** The text [as_utc] returns is a text it accepts. *)
Lemma as_utc_again stamp v text :
  as_utc stamp v = SOk text →
  (∀ d, stamp = Some d → fromisoformat (replace_char "Z" "+00:00" (utc_isoformat (dt_instant d))) = Some true) →
  as_utc None (PStr text) = SOk text.
Proof.
  unfold as_utc. intros E Hd. destruct stamp as [d|].
  - apply bounded_string_value in E as [Et Hl]. injection Et as <-. rewrite bounded_string_ok by done. cbn [sbind].
    rewrite (Hd d eq_refl). by apply bounded_string_ok.
  - apply sbind_ok in E as (t & Ht & E). apply bounded_string_value in Ht as [-> Hl].
    destruct (fromisoformat (replace_char "Z" "+00:00" t)) as [[]|] eqn:Ef; try done.
    rewrite bounded_string_ok in E by done. injection E as <-. rewrite bounded_string_ok by done. cbn [sbind]. rewrite Ef.
    by apply bounded_string_ok.
Qed.

Lemma identity_again e v :
  identity_spec (ev_event_type e) v (ev_message_id e) (ev_seq e) (ev_trace_ref e) (ev_replayable e) (ev_payload e) →
  validate_identity (ev_event_type e) (envelope_dict e) =
    SOk (ev_message_id e, ev_seq e, ev_trace_ref e, ev_replayable e, ev_payload e).
Proof.
  unfold validate_identity. intros [(Hc & Hm & Hs & Htr & Hr & Hp)|(Hc & (n & Hs & Hn) & Hr & Hm & Hms & Hts & Hp)]; rewrite Hc;
    change (get "message_id" (envelope_dict e)) with (opt_str (ev_message_id e));
    change (get "seq" (envelope_dict e)) with (opt_int (ev_seq e));
    change (get "trace_ref" (envelope_dict e)) with (opt_str (ev_trace_ref e));
    change (get "replayable" (envelope_dict e)) with (PBool (ev_replayable e));
    change (get "payload" (envelope_dict e)) with (PDict (ev_payload e)).
  - destruct (control_payload_value _ _ _ Hp) as [-> _]. rewrite Hm, Hs, Htr, Hr, Hp, eqb_reflx. done.
  - destruct (validate_payload_value _ _ _ Hp) as [-> _]. rewrite Hs, Hr. cbn [opt_int].
    assert ((if str_in (ev_event_type e) PUBLIC_MESSAGE_CORRELATED_EVENT_TYPES
             then do! m := v4_safe_ref (opt_str (ev_message_id e)) "message_id" in SOk (Some m)
             else nullable_safe_ref (opt_str (ev_message_id e)) "message_id") = SOk (ev_message_id e)) as ->.
    { destruct (str_in _ PUBLIC_MESSAGE_CORRELATED_EVENT_TYPES); [|by apply nullable_ref_ok].
      destruct (ev_message_id e) as [s|]; [|by destruct (Hm eq_refl)]. cbn [opt_str v4_safe_ref]. by rewrite (Hms s). }
    cbn [sbind]. rewrite positive_int_ok by done. cbn [sbind is_true negb].
    destruct (ev_trace_ref e) as [s|]; cbn [opt_str]; [rewrite (Hts s) by done|]; cbn [sbind]; by rewrite Hp.
Qed.

(** An envelope of the right form is its own validation. *)
Lemma envelope_validates v e :
  identity_spec (ev_event_type e) v (ev_message_id e) (ev_seq e) (ev_trace_ref e) (ev_replayable e) (ev_payload e) →
  str_in (ev_event_type e) PUBLIC_STREAM_EVENT_TYPES = true →
  1 <= py_len (ev_event_id e) <= 256 → 1 <= py_len (ev_tenant_scope e) <= 128 →
  TENANT_SCOPE_PATTERN (ev_tenant_scope e) = true → 1 <= py_len (ev_run_id e) <= 128 →
  RUN_ID_PATTERN (ev_run_id e) = true → 1 <= py_len (ev_attempt_id e) <= 256 → 1 <= ev_stream_incarnation e →
  (∀ s, ev_causation_event_id e = Some s → SAFE_REF_PATTERN s = true) →
  as_utc None (PStr (ev_emitted_at e)) = SOk (ev_emitted_at e) → validate_source (PDict (ev_source e)) = SOk (ev_source e) →
  validate_internal_envelope_v4 None (PDict (envelope_dict e)) = SOk e.
Proof.
  intros Hid Ht Hi Hsc Hscp Hr Hrp Ha Hn Hca Hat Hso.
  unfold validate_internal_envelope_v4. change (same_keys (envelope_dict e) ENVELOPE_KEYS) with true.
  change (eq_str (get "schema" (envelope_dict e)) INTERNAL_STREAM_EVENT_SCHEMA) with true.
  change (eq_str (get "projection_version" (envelope_dict e)) STREAM_PROJECTION_VERSION) with true.
  change (get "event_type" (envelope_dict e)) with (PStr (ev_event_type e)).
  change (get "event_id" (envelope_dict e)) with (PStr (ev_event_id e)).
  change (get "tenant_scope" (envelope_dict e)) with (PStr (ev_tenant_scope e)).
  change (get "run_id" (envelope_dict e)) with (PStr (ev_run_id e)).
  change (get "attempt_id" (envelope_dict e)) with (PStr (ev_attempt_id e)).
  change (get "stream_incarnation" (envelope_dict e)) with (PInt (ev_stream_incarnation e)).
  change (get "causation_event_id" (envelope_dict e)) with (opt_str (ev_causation_event_id e)).
  change (get "emitted_at" (envelope_dict e)) with (PStr (ev_emitted_at e)).
  change (get "source" (envelope_dict e)) with (PDict (ev_source e)). cbn [negb orb hashable].
  rewrite Ht, !bounded_string_ok by done. cbn [negb sbind]. rewrite Hscp, Hrp, (identity_again _ _ Hid). cbn [negb sbind].
  rewrite positive_int_ok by done. rewrite nullable_ref_ok, Hat by done. cbn [sbind].
  rewrite Hso. cbn [sbind]. by destruct e.
Qed.

(** A validated envelope validates as itself: the dictionary the validator returns
    passes the validator and gives the same envelope again (a time it wrote itself must
    be one [fromisoformat] reads with a zone, which its format is).  So an envelope that
    reaches Redis decodes to what was appended. *)
Lemma validation_idempotent stamp v e :
  validate_internal_envelope_v4 stamp v = SOk e →
  (∀ d, stamp = Some d → fromisoformat (replace_char "Z" "+00:00" (utc_isoformat (dt_instant d))) = Some true) →
  validate_internal_envelope_v4 None (PDict (envelope_dict e)) = SOk e.
Proof.
  intros E Hd. destruct (validated_parts _ _ _ E) as (env & -> & Hid & Ht & Hi & Hsc & Hscp & Hr & Hrp & Ha & Hn & Hca & Hat & Hso).
  eapply envelope_validates; try done; [by eapply as_utc_again|by eapply validate_source_idem].
Qed.
End Envelopes.

(** ** A concrete runtime *)

Definition toy_stream : StreamRuntime := {| sha256_hex := toy_digest; fromisoformat _ := Some true |}.

(** A delta of a message, as a committed row gives it. *)
Definition sample_envelope : envelope :=
  {| ev_event_id := "evt4_9"; ev_tenant_scope := "t_1"; ev_run_id := "run_7"; ev_attempt_id := "att_1";
     ev_message_id := Some "msg4_a"; ev_seq := Some 3; ev_event_type := "message.delta"; ev_stream_incarnation := 1;
     ev_replayable := true; ev_trace_ref := None; ev_causation_event_id := None;
     ev_emitted_at := "2025-01-01T00:00:00Z"; ev_payload := [("delta", PStr "hello")];
     ev_source := [("kind", PStr "run_event"); ("run_event_id", PStr "evt4_9"); ("sequence", PInt 3)] |}.

Lemma validated_events_typed_witness :
  @validate_internal_envelope_v4 toy_py toy_stream None (PDict (envelope_dict sample_envelope)) = SOk sample_envelope ∧
  has_type InternalStreamEnvelopeV4 (PDict (envelope_dict sample_envelope)) = true ∧
  has_type PublicRunStreamEventV4 (PDict (project_validated_internal_envelope_v4 sample_envelope)) = true.
Proof.
  split; [reflexivity|].
  apply (@validated_events_typed toy_py toy_stream None (PDict (envelope_dict sample_envelope))). reflexivity.
Defined.

