(* ===== verification/CanonicalJson.v ===== *)
(** * Canonical JSON text

    [json.dumps(value, ensure_ascii=False, sort_keys=True, separators=(",", ":"),
    allow_nan=False)], the text every digest and derived identity of the streaming
    code is taken of ([canonical_json_bytes] of
    [src/app/streaming/domain/transport.py], [_canonical_json] of the event ledger).
    Keys sort by code point, which is the order of their UTF-8 bytes; the text of a
    finite float is [repr], a field of [PyRuntime]. *)
From stdpp Require Import base list strings.
From Stdlib Require Import ZArith Lia Ascii.
From S2P Require Import Prelude Redis PyValue Numerals StreamCursors.
#[local] Open Scope py_scope.

Definition hex_char (n : Z) : ascii := ascii_of_N (Z.to_N (if n <? 10 then 48 + n else 87 + n)).

(** The escapes of the JSON encoder when it keeps other characters. *)
Definition json_escape (c : ascii) : string :=
  let n := byte c in
  if n =? 34 then byte_string [92; 34]%N
  else if n =? 92 then "\\"
  else if n =? 8 then "\b"
  else if n =? 12 then "\f"
  else if n =? 10 then "\n"
  else if n =? 13 then "\r"
  else if n =? 9 then "\t"
  else if n <? 32 then "\u00" +:+ String (hex_char (n / 16)) (String (hex_char (n mod 16)) "")
  else String c "".
Fixpoint json_chars (s : string) : string :=
  match s with EmptyString => "" | String c s => json_escape c +:+ json_chars s end.
Definition quote : string := byte_string [34]%N.
Definition json_string (s : string) : string := quote +:+ json_chars s +:+ quote.

(** [sorted(d.items())]. *)
Fixpoint insert_key {A} (kv : string * A) (l : list (string * A)) : list (string * A) :=
  match l with
  | [] => [kv]
  | kv' :: l' => if str_ltb kv.1 kv'.1 then kv :: l else kv' :: insert_key kv l'
  end.
Definition sort_keys {A} (l : list (string * A)) : list (string * A) := foldr insert_key [] l.

Fixpoint join (sep : string) (l : list string) : string :=
  match l with [] => "" | [x] => x | x :: l => x +:+ sep +:+ join sep l end.

(** All of the texts, or none when one cannot be written. *)
Fixpoint all_some {A} (l : list (option A)) : option (list A) :=
  match l with
  | [] => Some []
  | Some x :: l => (fun xs => x :: xs) <$> all_some l
  | None :: _ => None
  end.

Section CanonicalJson.
Context `{PyRuntime}.

(** [None] is the ValueError of a float that is not finite. *)
Fixpoint canonical_json (v : pyval) : option string :=
  match v with
  | PNone => Some "null"
  | PBool b => Some (if b then "true" else "false")
  | PInt n => Some (py_str_int n)
  | PFloat x => if lnum_finite x then Some (py_str_other v) else None
  | PStr s => Some (json_string s)
  | PList l => (fun ts => "[" +:+ join "," ts +:+ "]") <$> all_some (map canonical_json l)
  | PDict kvs =>
      (fun ts => "{" +:+ join "," (map (fun kt => json_string kt.1 +:+ ":" +:+ kt.2) (sort_keys ts)) +:+ "}")
        <$> all_some (map (fun kv => match kv with (k, x) => (fun t => (k, t)) <$> canonical_json x end) kvs)
  end.

Definition canonical_json_bytes (v : pyval) : sres string :=
  match canonical_json v with
  | Some s => SOk s
  | None => SErr (StreamContractError "stream_json_not_canonicalizable")
  end.

End CanonicalJson.
