(* ===== verification/StreamChannel.v ===== *)
(** * The Redis stream of a run

    [src/app/streaming/redis.py] and [src/app/streaming/infrastructure/callback_stream.py]:
    the two Lua scripts that append to the stream of a run, and the clients that call
    them.  A channel is the pair of keys the scripts work on: the stream and the hash
    beside it that records the phase of the stream and the receipts of what was
    appended.

    - Time is Redis's clock in milliseconds.  A key is gone once the clock is past its
      expiry; both scripts see both keys at one instant.
    - [XADD ... *] gives the next id of the stream.  [MAXLEN ~] lets Redis drop entries
      from the front as long as the given number remain; how many it drops is the
      argument [trim].
    - A call over the network can fail with the script run or not ([network]). *)
From stdpp Require Import base gmap list strings.
From Stdlib Require Import ZArith Lia Ascii.
From S2P Require Import Prelude Redis PyValue Numerals StreamCursors StreamProtocol StreamEvents CanonicalJson.
#[local] Open Scope py_scope.

(** ** The two keys *)

Record stream_entry := StreamEntry { en_id : Z * Z; en_envelope : string }.
Record redis_stream := RedisStream { rs_entries : list stream_entry; rs_last : Z * Z; rs_expire : option Z }.
Record state_hash := StateHash { sh_fields : gmap string string; sh_expire : option Z }.
Record channel := Channel { ch_stream : option redis_stream; ch_state : option state_hash }.

Definition empty_channel : channel := Channel None None.

Definition alive (now : Z) (expire : option Z) : bool := match expire with Some t => now <=? t | None => true end.
Definition expire (now : Z) (c : channel) : channel :=
  Channel (match ch_stream c with Some s => if alive now (rs_expire s) then Some s else None | None => None end)
          (match ch_state c with Some h => if alive now (sh_expire h) then Some h else None | None => None end).

Definition entries (c : channel) : list stream_entry := match ch_stream c with Some s => rs_entries s | None => [] end.
Definition xlen (c : channel) : Z := Z.of_nat (length (entries c)).
Definition hget (c : channel) (field : string) : option string :=
  match ch_state c with Some h => sh_fields h !! field | None => None end.
Definition hset (fields : list (string * string)) (c : channel) : channel :=
  let h := default (StateHash ∅ None) (ch_state c) in
  Channel (ch_stream c)
          (Some (StateHash (foldl (fun m kv => <[kv.1 := kv.2]> m) (sh_fields h) fields) (sh_expire h))).
(** PEXPIRE of both keys, as the scripts always do it. *)
Definition touch (now ttl : Z) (c : channel) : channel :=
  Channel ((fun s => RedisStream (rs_entries s) (rs_last s) (Some (now + ttl))) <$> ch_stream c)
          ((fun h => StateHash (sh_fields h) (Some (now + ttl))) <$> ch_state c).

Definition U64_MAX : Z := 2 ^ 64 - 1.
Definition next_id (now : Z) (last : Z * Z) : option (Z * Z) :=
  if last.1 <? now then Some (now, 0)
  else if last.2 =? U64_MAX then if last.1 =? U64_MAX then None else Some (last.1 + 1, 0)
  else Some (last.1, last.2 + 1).

(** [XADD key MAXLEN ~ maxlen * envelope text]; [None] when the ids are exhausted. *)
Definition xadd (now : Z) (maxlen trim : nat) (text : string) (c : channel) : option (channel * (Z * Z)) :=
  let s := default (RedisStream [] (0, 0) None) (ch_stream c) in
  match next_id now (rs_last s) with
  | None => None
  | Some i =>
      let l := rs_entries s ++ [StreamEntry i text] in
      Some (Channel (Some (RedisStream (drop (Nat.min trim (length l - maxlen)) l) i (rs_expire s))) (ch_state c), i)
  end.

(** ** Appending one event *)

Inductive reply := RId (redis_id : option string) | RErr (message : string).

Record append_args := AppendArgs {
  aa_maxlen : nat; aa_event_id : string; aa_envelope : string; aa_ttl : Z; aa_type : string; aa_digest : string;
  aa_terminal_event_id : string; aa_protocol : string
}.

Definition is_phase (phase : option string) (s : string) : bool :=
  match phase with Some p => String.eqb p s | None => false end.
Definition field_is (c : channel) (field value : string) : bool :=
  match hget c field with Some v => String.eqb v value | None => false end.

(** Everything the script decides before it looks at callbacks: [Some] when it returns. *)
Definition append_gate (now : Z) (a : append_args) (c : channel) : option (channel * reply) :=
  let phase := hget c "phase" in
  let has_phase := match phase with Some _ => true | None => false end in
  let err m := Some (c, RErr m) in
  if negb (String.eqb (aa_protocol a) "v4") then err "stream_protocol_invalid" else
  if has_phase && negb (field_is c "open_protocol" (aa_protocol a)) then err "stream_protocol_conflict" else
  if has_phase && (xlen c =? 0) then err "stream_missing" else
  if String.eqb (aa_type a) "stream_open" then
    if has_phase && field_is c "open_event_id" (aa_event_id a) && field_is c "open_digest" (aa_digest a) then
      Some (if is_phase phase "open" then touch now (aa_ttl a) c else c, RId (hget c "open_redis_id"))
    else if has_phase || negb (xlen c =? 0) then err "stream_open_conflict" else None
  else if String.eqb (aa_type a) "terminal" then
    if (is_phase phase "terminal" || is_phase phase "ended")
       && field_is c "terminal_event_id" (aa_event_id a) && field_is c "terminal_digest" (aa_digest a) then
      Some (touch now (aa_ttl a) c, RId (hget c "terminal_redis_id"))
    else if negb has_phase && (xlen c =? 0) then err "stream_missing"
    else if negb (is_phase phase "open") then err "stream_terminal_conflict" else None
  else if String.eqb (aa_type a) "end" then
    if is_phase phase "ended" && field_is c "end_event_id" (aa_event_id a) && field_is c "end_digest" (aa_digest a) then
      Some (touch now (aa_ttl a) c, RId (hget c "end_redis_id"))
    else if negb (is_phase phase "terminal") || negb (field_is c "terminal_event_id" (aa_terminal_event_id a))
    then err "stream_end_without_terminal" else None
  else
    if negb (is_phase phase "open") then err "stream_terminal_closed"
    else if field_is c "last_event_id" (aa_event_id a) then
      if negb (field_is c "last_event_digest" (aa_digest a)) then err "stream_event_receipt_conflict"
      else Some (touch now (aa_ttl a) c, RId (hget c "last_event_redis_id"))
    else None.

Section Scripts.
Context `{LuaRuntime}.

(** [tonumber(HGET callback_sequence or '0') < (source.callback_sequence or 0)]; [None]
    when the script fails: undecodable text, no source table, a comparison with
    something that is not a number. *)
Definition callback_pending (c : channel) (envelope : string) : option bool :=
  match cjson_decode envelope with
  | None => None
  | Some t =>
      match tfield "source" t with
      | Some (LObj source) =>
          match tonumber_str (default "0" (hget c "callback_sequence")) with
          | None => None
          | Some delivered =>
              match assoc "callback_sequence" source with
              | None | Some (LBool false) => Some (lnum_ltb delivered (lint 0))
              | Some (LNum n) => Some (lnum_ltb delivered n)
              | Some _ => None
              end
          end
      | Some (LArr _) =>
          match tonumber_str (default "0" (hget c "callback_sequence")) with
          | None => None
          | Some delivered => Some (lnum_ltb delivered (lint 0))
          end
      | _ => None
      end
  end.

(** The append itself and the receipts it leaves. *)
Definition append_commit (now : Z) (trim : nat) (a : append_args) (c : channel) : channel * reply :=
  match xadd now (aa_maxlen a) trim (aa_envelope a) c with
  | None => (c, RErr "stream_ids_exhausted")
  | Some (c, i) =>
      let id := redis_id_text i in
      let c := if String.eqb (aa_type a) "stream_open" then
                 hset [("phase", "open"); ("open_event_id", aa_event_id a); ("open_digest", aa_digest a);
                       ("open_redis_id", id); ("open_protocol", aa_protocol a)] c else c in
      let c := if String.eqb (aa_type a) "terminal" then
                 hset [("phase", "terminal"); ("terminal_event_id", aa_event_id a); ("terminal_digest", aa_digest a);
                       ("terminal_redis_id", id)] c else c in
      let c := if String.eqb (aa_type a) "end" then
                 hset [("phase", "ended"); ("end_event_id", aa_event_id a); ("end_digest", aa_digest a);
                       ("end_redis_id", id)] c
               else if negb (String.eqb (aa_type a) "stream_open") && negb (String.eqb (aa_type a) "terminal") then
                 hset [("last_event_id", aa_event_id a); ("last_event_digest", aa_digest a);
                       ("last_event_redis_id", id)] c
               else c in
      (touch now (aa_ttl a) c, RId (Some id))
  end.

(** [_APPEND_WITH_TTL_LUA]. *)
Definition append_with_ttl (now : Z) (trim : nat) (a : append_args) (c : channel) : channel * reply :=
  let c := expire now c in
  match append_gate now a c with
  | Some r => r
  | None =>
      if String.eqb (aa_type a) "terminal" || String.eqb (aa_type a) "run.cancel_requested" then
        match callback_pending c (aa_envelope a) with
        | None => (c, RErr "script_error")
        | Some true => (c, RErr "stream_callback_pending")
        | Some false => append_commit now trim a c
        end
      else append_commit now trim a c
  end.

(** ** Appending a callback batch *)

Record batch_args := BatchArgs {
  ba_sequence : Z; ba_digest : string; ba_envelopes : string; ba_maxlen : nat; ba_ttl : Z
}.

Fixpoint xadd_all (now : Z) (maxlen : nat) (trims : list nat) (texts : list string) (c : channel) (last : option (Z * Z))
    : option (channel * option (Z * Z)) :=
  match texts with
  | [] => Some (c, last)
  | text :: texts =>
      match xadd now maxlen (hd 0%nat trims) text c with
      | None => None
      | Some (c, i) => xadd_all now maxlen (tl trims) texts c (Some i)
      end
  end.

Definition strings_of (l : list lval) : option (list string) :=
  all_some (map (fun v => match v with LStr s => Some s | _ => None end) l).

(** [_APPEND_CALLBACK_BATCH].  Its client sends a non-empty array of strings; the script
    fails on anything else. *)
Definition append_callback (now : Z) (trims : list nat) (b : batch_args) (c : channel) : channel * reply :=
  let c := expire now c in
  if negb (field_is c "open_protocol" "v4") || (xlen c =? 0) then (c, RErr "stream_callback_authority_unavailable") else
  match tonumber_str (default "0" (hget c "callback_sequence")), tonumber_str (py_str_int (ba_sequence b)) with
  | Some delivered, Some sequence =>
      if lnum_leb sequence delivered then
        if lnum_eqb delivered sequence && negb (field_is c "callback_digest" (ba_digest b))
        then (c, RErr "stream_callback_receipt_conflict")
        else (c, RId (hget c "callback_redis_id"))
      else if negb (is_phase (hget c "phase") "open") then (c, RErr "stream_callback_closed")
      else
        match cjson_decode (ba_envelopes b) with
        | Some (LArr l) =>
            match strings_of l with
            | Some texts =>
                match xadd_all now (ba_maxlen b) trims texts c None with
                | Some (c, Some i) =>
                    let c := hset [("callback_sequence", py_str_int (ba_sequence b)); ("callback_digest", ba_digest b);
                                   ("callback_redis_id", redis_id_text i)] c in
                    (touch now (ba_ttl b) c, RId (Some (redis_id_text i)))
                | _ => (c, RErr "script_error")
                end
            | None => (c, RErr "script_error")
            end
        | _ => (c, RErr "script_error")
        end
  | _, _ => (c, RErr "script_error")
  end.

End Scripts.

(** ** The clients *)

(** The streams of Redis, by the key of the stream; the hash of a stream is beside it. *)
Definition streams := gmap string channel.
Definition channel_at (ss : streams) (key : string) : channel := default empty_channel (ss !! key).

(** A call that reached Redis, or one that failed with the script run or not. *)
Inductive network := Answered | Lost (ran : bool).

Definition SSE_STREAM_MAXLEN : nat := N.to_nat 10000.
Definition SSE_STREAM_ACTIVE_IDLE_TTL_MS : Z := 7200000.
Definition SSE_STREAM_TERMINAL_TTL_MS : Z := 7200000.
Definition SCRIPT_CONTRACT_ERRORS : list string :=
  ["stream_end_without_terminal"; "stream_event_receipt_conflict"; "stream_missing"; "stream_open_conflict";
   "stream_protocol_conflict"; "stream_protocol_invalid"; "stream_terminal_closed"; "stream_terminal_conflict"].

Definition transport_type (event_type : string) : string :=
  if String.eqb event_type "stream.open" then "stream_open"
  else if String.eqb event_type "stream.end" then "end"
  else if str_in event_type ["stream.end"; "run.succeeded"; "run.cancelled"; "run.failed"] then "terminal"
  else event_type.

Section Clients.
Context `{LuaRuntime} `{PyRuntime} `{StreamRuntime}.

Definition append_request (event_id event_type envelope_bytes terminal_event_id : string) : append_args :=
  {| aa_maxlen := SSE_STREAM_MAXLEN; aa_event_id := event_id; aa_envelope := envelope_bytes;
     aa_ttl := if str_in event_type ["stream.end"; "run.succeeded"; "run.cancelled"; "run.failed"]
               then SSE_STREAM_TERMINAL_TTL_MS else SSE_STREAM_ACTIVE_IDLE_TTL_MS;
     aa_type := transport_type event_type; aa_digest := sha256_hex envelope_bytes;
     aa_terminal_event_id := terminal_event_id; aa_protocol := "v4" |}.

(** [RedisStreamBridge.append_canonical]. *)
Definition append_canonical (net : network) (now : Z) (trim : nat) (tenant_scope_value run_id : string)
    (stream_incarnation : Z) (event_id event_type envelope_bytes terminal_event_id : string) (ss : streams)
    : streams * sres string :=
  match stream_key tenant_scope_value run_id stream_incarnation with
  | SErr e => (ss, SErr e)
  | SOk key =>
      let '(c, answer) := append_with_ttl now trim (append_request event_id event_type envelope_bytes terminal_event_id)
                            (channel_at ss key) in
      let unavailable := SErr (StreamTransportUnavailable "stream_append_unavailable") in
      match net with
      | Lost ran => (if ran then <[key := c]> ss else ss, unavailable)
      | Answered =>
          (<[key := c]> ss,
           match answer with
           | RId (Some id) => SOk id
           | RId None => SOk "None"
           | RErr m => if str_in m SCRIPT_CONTRACT_ERRORS then SErr (StreamContractError m) else unavailable
           end)
      end
  end.

(** The requirements [append_callback_batch] has of the envelopes of a batch. *)
Fixpoint batch_sequence (first : envelope) (previous : Z) (items : list envelope) : option Z :=
  match items with
  | [] => Some previous
  | item :: items =>
      match ev_seq item with
      | Some seq =>
          if String.eqb (ev_tenant_scope item) (ev_tenant_scope first) && String.eqb (ev_run_id item) (ev_run_id first)
             && String.eqb (ev_attempt_id item) (ev_attempt_id first)
             && (ev_stream_incarnation item =? ev_stream_incarnation first)
             && (previous <? seq) && negb (starts_with "stream." (ev_event_type item))
             && negb (str_in (ev_event_type item) RUN_TERMINAL_EVENT_TYPES)
          then batch_sequence first seq items else None
      | None => None
      end
  end.

Fixpoint validate_all (items : list pyval) : sres (list envelope) :=
  match items with
  | [] => SOk []
  | item :: items =>
      do! e := validate_internal_envelope_v4 None item in
      do! es := validate_all items in
      SOk (e :: es)
  end.
Fixpoint canonical_all (items : list envelope) : sres (list string) :=
  match items with
  | [] => SOk []
  | item :: items =>
      do! t := canonical_json_bytes (PDict (envelope_dict item)) in
      do! ts := canonical_all items in
      SOk (t :: ts)
  end.

(** [append_callback_batch]. *)
Definition append_callback_batch (net : network) (now : Z) (trims : list nat) (envelopes : list pyval) (ss : streams)
    : streams * sres string :=
  let prepared :=
    fail! (StreamContractError "stream_callback_batch_invalid") when match envelopes with [] => true | _ => false end;
    do! validated := validate_all envelopes in
    match validated with
    | [] => SErr (StreamContractError "stream_callback_batch_invalid")
    | first :: _ =>
        match batch_sequence first 0 validated with
        | None => SErr (StreamContractError "stream_callback_batch_invalid")
        | Some previous_sequence =>
            do! texts := canonical_all validated in
            let payload := json_dumps (PList (PStr <$> texts)) in
            do! key := stream_key (ev_tenant_scope first) (ev_run_id first) (ev_stream_incarnation first) in
            SOk (key, BatchArgs previous_sequence (sha256_hex payload) payload SSE_STREAM_MAXLEN
                        SSE_STREAM_ACTIVE_IDLE_TTL_MS)
        end
    end in
  match prepared with
  | SErr e => (ss, SErr e)
  | SOk (key, args) =>
      let '(c, answer) := append_callback now trims args (channel_at ss key) in
      let unavailable := SErr (StreamTransportUnavailable "stream_callback_append_unavailable") in
      match net with
      | Lost ran => (if ran then <[key := c]> ss else ss, unavailable)
      | Answered =>
          (<[key := c]> ss,
           match answer with
           | RId (Some id) => SOk id
           | RId None => SOk "None"
           | RErr m => if String.eqb m "stream_callback_receipt_conflict" then SErr (StreamContractError m) else unavailable
           end)
      end
  end.

Definition stream_end_event_id (terminal_event_id : string) : sres string :=
  do! _ := v4_safe_ref (PStr terminal_event_id) "terminal_event_id" in
  do! material := canonical_json_bytes (PList [PStr "ai-platform-stream-end-v4"; PStr terminal_event_id]) in
  SOk ("evt4_end_" +:+ sha256_hex material).

(** The terminal event an envelope names: its own id for the end of a run, that of the
    run's end for the end of the stream. *)
Definition terminal_reference (internal : envelope) : sres string :=
  if str_in (ev_event_type internal) RUN_TERMINAL_EVENT_TYPES then
    do! terminal_event_id := v4_nonempty (PStr (ev_event_id internal)) "event_id" in
    do! named := v4_nonempty (get "terminal_event_id" (ev_payload internal)) "terminal_event_id" in
    fail! (StreamContractError "v4_terminal_event_id_mismatch") when negb (String.eqb named terminal_event_id);
    SOk terminal_event_id
  else if String.eqb (ev_event_type internal) "stream.end" then
    do! payload := validate_control_payload (ev_event_type internal) (PDict (ev_payload internal)) in
    v4_nonempty (get "terminal_event_id" payload) "terminal_event_id"
  else SOk "".

(** [V4RedisStreamBridge.append]: the event, and after the end of a run the end of its
    stream; [between] is what other clients do to Redis between the two calls. *)
Definition bridge_append (net1 net2 : network) (now1 now2 : Z) (trim1 trim2 : nat) (between : streams → streams)
    (value : pyval) (ss : streams) : streams * sres string :=
  let prepared :=
    do! internal := validate_internal_envelope_v4 None value in
    do! event_type := v4_nonempty (PStr (ev_event_type internal)) "event_type" in
    fail! (StreamContractError "v4_control_not_replayable") when str_in event_type ["stream.heartbeat"; "stream.gap"];
    do! payload := canonical_json_bytes (PDict (envelope_dict internal)) in
    do! terminal_event_id := terminal_reference internal in
    SOk (internal, payload, terminal_event_id) in
  match prepared with
  | SErr e => (ss, SErr e)
  | SOk (internal, payload, terminal_event_id) =>
      let '(ss, r) := append_canonical net1 now1 trim1 (ev_tenant_scope internal) (ev_run_id internal)
                        (ev_stream_incarnation internal) (ev_event_id internal) (ev_event_type internal) payload
                        terminal_event_id ss in
      match r with
      | SErr e => (ss, SErr e)
      | SOk redis_id =>
          if negb (str_in (ev_event_type internal) RUN_TERMINAL_EVENT_TYPES) then (ss, SOk redis_id) else
          let closing :=
            do! end_id := stream_end_event_id (ev_event_id internal) in
            do! e := build_v4_control 0 end_id (ev_tenant_scope internal) (ev_run_id internal) (ev_attempt_id internal)
                       (ev_stream_incarnation internal) "stream.end"
                       [("terminal_event_id", PStr (ev_event_id internal))] (ev_source internal)
                       (Some (ev_event_id internal)) (Some (ev_emitted_at internal)) in
            do! text := canonical_json_bytes (PDict (envelope_dict e)) in
            SOk (e, text) in
          match closing with
          | SErr (StreamContractError m) => (ss, SErr (StreamContractError m))
          | SErr _ => (ss, SErr (StreamTransportUnavailable "v4_stream_append_unavailable"))
          | SOk (e, text) =>
              append_canonical net2 now2 trim2 (ev_tenant_scope internal) (ev_run_id internal)
                (ev_stream_incarnation internal) (ev_event_id e) "stream.end" text (ev_event_id internal) (between ss)
          end
      end
  end.

End Clients.
