(* ===== verification/StreamChannelFacts.v ===== *)
(** * The life of a stream

    The scripts that append to a stream keep it a stream: opened once, then events and
    callback batches, then at most one terminal event and at most one end after it.  The
    history of everything appended since the stream was opened is kept beside the channel
    here; what Redis retains is always a suffix of it, in the order of its ids. *)
From stdpp Require Import base gmap list strings relations.
From Stdlib Require Import ZArith Lia Ascii Sorted.
From S2P Require Import Prelude Redis PyValue QueueRuntime Numerals StreamCursors StreamCursorsFacts StreamProtocol.
From S2P Require Import StreamEvents CanonicalJson StreamChannel.
#[local] Open Scope py_scope.

(** ** Ids *)

Lemma next_id_after now last i : next_id now last = Some i → id_ltb last i = true.
Proof.
  unfold next_id. intros E. apply id_ltb_spec. destruct (Z.ltb_spec last.1 now); [injection E as <-; simpl; lia|].
  destruct (_ =? _); [destruct (_ =? _); [done|]|]; injection E as <-; simpl; lia.
Qed.

(** ** The history *)

(** What was appended, with the transport type it was appended under; the entries of a
    callback batch have the type [callback]. *)
Notation history := (list (string * stream_entry)).

Definition entry_lt (x y : string * stream_entry) : Prop := id_ltb (en_id x.2) (en_id y.2) = true.
Definition ordered (h : history) : Prop := StronglySorted entry_lt h.

Definition middle (x : string * stream_entry) : Prop := ¬ x.1 ∈ ["stream_open"; "terminal"; "end"].

(** The shape of a history in each phase. *)
Inductive shaped : option string → history → Prop :=
| shaped_open o evs : o.1 = "stream_open" → Forall middle evs → shaped (Some "open") (o :: evs)
| shaped_terminal o evs t :
    o.1 = "stream_open" → Forall middle evs → t.1 = "terminal" → shaped (Some "terminal") (o :: evs ++ [t])
| shaped_ended o evs t e :
    o.1 = "stream_open" → Forall middle evs → t.1 = "terminal" → e.1 = "end" →
    shaped (Some "ended") (o :: evs ++ [t; e]).

(** Both keys are there with one expiry, or neither is. *)
Inductive stream_inv : channel → history → Prop :=
| inv_absent h : stream_inv empty_channel h
| inv_present s f t h k :
    rs_expire s = Some t → rs_entries s = drop k (snd <$> h) → (k < length h)%nat → ordered h →
    (∃ x, last h = Some x ∧ rs_last s = en_id x.2) → f !! "open_protocol" = Some "v4" → shaped (f !! "phase") h →
    stream_inv (Channel (Some s) (Some (StateHash f (Some t)))) h.

Lemma shaped_nonempty p h : shaped p h → h ≠ [].
Proof. by destruct 1. Qed.

Lemma ordered_snoc h x : ordered h → (∀ y, last h = Some y → entry_lt y x) → ordered (h ++ [x]).
Proof.
  intros Ho. induction Ho as [|a h Ho IH Ha]; intros Hl; [repeat constructor|]. cbn [app]. constructor.
  - apply IH. intros y Hy. apply Hl. destruct h; [done|]. by rewrite last_cons_cons.
  - apply Forall_app. split; [done|]. repeat constructor. destruct h as [|b h].
    + apply Hl. done.
    + destruct (last (b :: h)) as [y|] eqn:Ey; [|by apply last_None in Ey].
      assert (entry_lt y x) as Hy by (apply Hl; by rewrite last_cons_cons).
      apply last_Some_elem_of in Ey. rewrite Forall_forall in Ha. eapply id_ltb_trans; [by apply Ha|done].
Qed.

(** ** Adding an entry *)

Definition base (now : Z) (c : channel) (h : history) : history :=
  match ch_stream (expire now c) with Some _ => h | None => [] end.

Lemma expire_inv now c h : stream_inv c h → stream_inv (expire now c) (base now c h).
Proof.
  intros Hi. unfold base, expire. inversion Hi as [|s f t h' k He Hr Hk Ho Hl Hp Hs]; subst; cbn [ch_stream ch_state sh_expire].
  - apply inv_absent.
  - rewrite He. destruct (alive now (Some t)); [|apply inv_absent]. by eapply inv_present.
Qed.

(** XADD on a stream the invariant holds of: the new entry is the last of the history,
    and Redis has dropped entries at the front only. *)
Lemma xadd_present now m trim text s st h k ty c i :
  rs_entries s = drop k (snd <$> h) → (k < length h)%nat → ordered h → (∃ x, last h = Some x ∧ rs_last s = en_id x.2) →
  (1 ≤ m)%nat → xadd now m trim text (Channel (Some s) st) = Some (c, i) →
  ∃ s' k', c = Channel (Some s') st ∧ rs_expire s' = rs_expire s ∧ rs_last s' = i ∧
    rs_entries s' = drop k' (snd <$> (h ++ [(ty, StreamEntry i text)])) ∧ (k' < S (length h))%nat ∧
    ordered (h ++ [(ty, StreamEntry i text)]).
Proof.
  intros Hr Hk Ho (x & Hx & Hl) Hm E. unfold xadd in E. cbn [ch_stream ch_state default from_option id] in E.
  destruct (next_id now (rs_last s)) as [j|] eqn:Ei; [|done]. injection E as <- <-.
  set (l := rs_entries s ++ [StreamEntry j text]). set (n := Nat.min trim (length l - m)).
  exists (RedisStream (drop n l) j (rs_expire s)), (k + n)%nat. cbn [rs_expire rs_last rs_entries].
  assert (l = drop k (snd <$> (h ++ [(ty, StreamEntry j text)]))) as Hll.
  { rewrite fmap_app, drop_app_le by (rewrite length_fmap; lia). by rewrite <- Hr. }
  split_and!; try done.
  - rewrite Hll, drop_drop. done.
  - assert (length l = S (length h - k))%nat by (unfold l; rewrite length_app, Hr, length_drop, length_fmap; simpl; lia). lia.
  - apply ordered_snoc; [done|]. intros y Hy. rewrite Hx in Hy. injection Hy as <-. unfold entry_lt. simpl. rewrite <- Hl.
    by apply next_id_after in Ei.
Qed.

(** ** The gate *)

Lemma touch_inv now ttl c h : stream_inv c h → stream_inv (touch now ttl c) h.
Proof.
  intros Hi. inversion Hi as [|s f t h' k He Hr Hk Ho Hl Hp Hs]; subst; unfold touch; cbn; [apply inv_absent|].
  by eapply inv_present.
Qed.

Lemma gate_returns now a c c' r : append_gate now a c = Some (c', r) → c' = c ∨ c' = touch now (aa_ttl a) c.
Proof.
  unfold append_gate. intros E.
  repeat match type of E with (if ?b then _ else _) = _ => destruct b end; simplify_eq; eauto.
  all: destruct (is_phase _ _); simplify_eq; eauto.
Qed.

(** When the gate lets an append through, the phase is the one its type asks for. *)
Lemma gate_passes now a c h :
  stream_inv c h → append_gate now a c = None →
  (aa_type a = "stream_open" ∧ c = empty_channel) ∨
  (c ≠ empty_channel ∧
   (aa_type a = "terminal" ∧ hget c "phase" = Some "open" ∨
    aa_type a = "end" ∧ hget c "phase" = Some "terminal" ∨
    aa_type a ∉ ["stream_open"; "terminal"; "end"] ∧ hget c "phase" = Some "open")).
Proof.
  intros Hi E. unfold append_gate in E.
  assert (∀ s, is_phase (hget c "phase") s = true → hget c "phase" = Some s) as Hph.
  { intros s. unfold is_phase. destruct (hget c "phase") as [p|]; [|done]. by intros ->%String.eqb_eq. }
  destruct (String.eqb_spec (aa_type a) "stream_open") as [Et|Et].
  { left. split; [done|]. inversion Hi as [|s f t h' k He Hr Hk Ho Hl Hp Hs]; subst; [done|].
    assert (is_Some (f !! "phase")) as [p Hpp] by (destruct Hs; eauto). unfold hget in E; cbn in E. rewrite Hpp in E.
    cbn in E. repeat match type of E with (if ?b then _ else _) = _ => destruct b; try done end. }
  right. split.
  { intros ->. cbn in E. destruct (negb (String.eqb (aa_protocol a) "v4")); [done|]. cbn in E.
    repeat match type of E with (if ?b then _ else _) = _ => destruct b; try done end. }
  destruct (negb _); [done|]. do 2 (destruct (_ && _); [done|]).
  destruct (String.eqb_spec (aa_type a) "terminal") as [Et2|Et2].
  { left. split; [done|]. apply Hph. repeat match type of E with (if ?b then _ else _) = _ => destruct b eqn:?; try done end. by to_prop. }
  destruct (String.eqb_spec (aa_type a) "end") as [Et3|Et3].
  { right; left. split; [done|]. apply Hph. repeat match type of E with (if ?b then _ else _) = _ => destruct b eqn:?; try done end. by to_prop. }
  right; right. split; [rewrite !not_elem_of_cons; repeat split; try done; apply not_elem_of_nil|]. apply Hph.
  repeat match type of E with (if ?b then _ else _) = _ => destruct b eqn:?; try done end; by to_prop.
Qed.

(** ** The step of an append *)

Section Steps.
Context `{LuaRuntime}.

Definition admitted (now : Z) (a : append_args) (c : channel) : bool :=
  match append_gate now a c with
  | Some _ => false
  | None => if String.eqb (aa_type a) "terminal" || String.eqb (aa_type a) "run.cancel_requested"
            then bool_decide (callback_pending c (aa_envelope a) = Some false) else true
  end.

Definition append_history (now : Z) (trim : nat) (a : append_args) (c : channel) (h : history) : history :=
  let c0 := expire now c in
  if admitted now a c0 then
    match xadd now (aa_maxlen a) trim (aa_envelope a) c0 with
    | Some (_, i) => base now c h ++ [(aa_type a, StreamEntry i (aa_envelope a))]
    | None => base now c h
    end
  else base now c h.

Lemma append_cases now trim a c :
  (admitted now a (expire now c) = true ∧ append_gate now a (expire now c) = None ∧
   append_with_ttl now trim a c = append_commit now trim a (expire now c)) ∨
  (admitted now a (expire now c) = false ∧
   ((append_with_ttl now trim a c).1 = expire now c ∨ (append_with_ttl now trim a c).1 = touch now (aa_ttl a) (expire now c))).
Proof.
  unfold admitted, append_with_ttl. destruct (append_gate now a (expire now c)) as [[c' r]|] eqn:Eg.
  { right. split; [done|]. simpl. by eapply gate_returns. }
  destruct (_ || _); [|by left]. destruct (callback_pending _ _) as [[]|]; [right|left|right]; (split; [done|]); eauto.
Qed.

Lemma shaped_phase_open h : shaped (Some "open") h → ∃ o evs, h = o :: evs ∧ o.1 = "stream_open" ∧ Forall middle evs.
Proof. inversion 1; subst. eauto. Qed.
Lemma shaped_phase_terminal h :
  shaped (Some "terminal") h → ∃ o evs t, h = o :: evs ++ [t] ∧ o.1 = "stream_open" ∧ Forall middle evs ∧ t.1 = "terminal".
Proof. inversion 1; subst. eauto 10. Qed.

Ltac lookups := repeat (rewrite lookup_insert_ne by discriminate); rewrite ?lookup_insert_eq.

Lemma extend_inv now ttl s f e h x k :
  rs_entries s = drop k (snd <$> (h ++ [x])) → (k < S (length h))%nat → ordered (h ++ [x]) → rs_last s = en_id x.2 →
  f !! "open_protocol" = Some "v4" → shaped (f !! "phase") (h ++ [x]) →
  stream_inv (touch now ttl (Channel (Some s) (Some (StateHash f e)))) (h ++ [x]).
Proof.
  intros Hr Hk Ho Hl Hp Hs. unfold touch. cbn. eapply inv_present; cbn; try done.
  - rewrite length_app. simpl. lia.
  - exists x. split; [apply last_snoc|done].
Qed.

(** The commit of an admitted append extends the history by its entry. *)
Lemma commit_inv now trim a c h :
  stream_inv c h → (1 ≤ aa_maxlen a)%nat → append_gate now a c = None → (c = empty_channel → h = []) →
  stream_inv (append_commit now trim a c).1
    match xadd now (aa_maxlen a) trim (aa_envelope a) c with
    | Some (_, i) => h ++ [(aa_type a, StreamEntry i (aa_envelope a))]
    | None => h
    end.
Proof.
  intros Hi Hm Hg Hemp. unfold append_commit. destruct (xadd _ _ _ _ c) as [[c' i]|] eqn:Ex; [|done].
  destruct (gate_passes _ _ _ _ Hi Hg) as [[Ht Hc]|[Hc Hph]].
  - rewrite Hc in Ex. rewrite (Hemp Hc). rewrite Ht. unfold xadd in Ex.
    cbn [empty_channel ch_stream ch_state default from_option id rs_last rs_entries rs_expire] in Ex.
    destruct (next_id now (0, 0)) as [j|]; [|done]. injection Ex as <- <-.
    cbn. replace (Nat.min trim (1 - aa_maxlen a)) with 0%nat by lia.
    eapply (inv_present _ _ _ _ 0); cbn; [done|done|lia|repeat constructor|by eexists| |].
    + lookups. assert (aa_protocol a = "v4") as ->; [|done]. unfold append_gate in Hg.
      destruct (String.eqb_spec (aa_protocol a) "v4"); [done|]. done.
    + lookups. by constructor.
  - inversion Hi as [|s f t h' k He Hr Hk Ho Hl Hp Hs]; subst; [done|].
    destruct (xadd_present _ _ _ _ _ _ _ _ (aa_type a) _ _ Hr Hk Ho Hl Hm Ex) as (s' & k' & -> & He' & Hl' & Hr' & Hk' & Ho').
    unfold hget in Hph. cbn [ch_state sh_fields] in Hph.
    destruct Hph as [[Ht Hph]|[[Ht Hph]|[Ht Hph]]].
    + rewrite Ht in *. rewrite Hph in Hs. apply shaped_phase_open in Hs as (o & evs & -> & Ho1 & Hev).
      eapply extend_inv; [done..| |]; cbn [foldl fst snd ch_stream ch_state default from_option id sh_fields]; lookups; [done|]. by apply (shaped_terminal o evs (_, _)).
    + rewrite Ht in *. rewrite Hph in Hs. apply shaped_phase_terminal in Hs as (o & evs & tt & -> & Ho1 & Hev & Htt).
      eapply extend_inv; [done..| |]; cbn [foldl fst snd ch_stream ch_state default from_option id sh_fields]; lookups; [done|].
      rewrite <- app_comm_cons, <- app_assoc. by apply (shaped_ended o evs tt (_, _)).
    + rewrite Hph in Hs. apply shaped_phase_open in Hs as (o & evs & -> & Ho1 & Hev).
      assert (aa_type a ≠ "stream_open" ∧ aa_type a ≠ "terminal" ∧ aa_type a ≠ "end") as (N1 & N2 & N3) by set_solver.
      apply String.eqb_neq in N1, N2, N3. rewrite N1, N2, N3.
      eapply extend_inv; [done..| |]; cbn [foldl fst snd ch_stream ch_state default from_option id sh_fields]; lookups; [done|]. rewrite Hph.
      apply shaped_open; [done|]. apply Forall_app. split; [done|]. by repeat constructor.
Qed.

Lemma append_inv now trim a c h :
  stream_inv c h → (1 ≤ aa_maxlen a)%nat → stream_inv (append_with_ttl now trim a c).1 (append_history now trim a c h).
Proof.
  intros Hi Hm. pose proof (expire_inv now _ _ Hi) as He. unfold append_history.
  destruct (append_cases now trim a c) as [(Ha & Hg & ->)|(Ha & Hc)]; rewrite Ha.
  - assert (expire now c = empty_channel → base now c h = []) as Hemp by (unfold base; by intros ->).
    pose proof (commit_inv now trim a _ _ He Hm Hg Hemp) as Hcm. by destruct (xadd _ _ _ _ _) as [[? ?]|].
  - destruct Hc as [-> | ->]; [done|by apply touch_inv].
Qed.

(** ** The step of a callback batch *)

(** The entries a run of XADDs creates. *)
Fixpoint added (now : Z) (maxlen : nat) (trims : list nat) (texts : list string) (c : channel) : list stream_entry :=
  match texts with
  | [] => []
  | text :: texts =>
      match xadd now maxlen (hd 0%nat trims) text c with
      | None => []
      | Some (c, i) => StreamEntry i text :: added now maxlen (tl trims) texts c
      end
  end.

Definition as_callbacks (l : list stream_entry) : history := pair "callback" <$> l.

Lemma xadd_all_present now m trims texts s st h k last0 c' i :
  rs_entries s = drop k (snd <$> h) → (k < length h)%nat → ordered h → (∃ x, last h = Some x ∧ rs_last s = en_id x.2) →
  (1 ≤ m)%nat → xadd_all now m trims texts (Channel (Some s) st) last0 = Some (c', i) →
  let h' := h ++ as_callbacks (added now m trims texts (Channel (Some s) st)) in
  ∃ s' k', c' = Channel (Some s') st ∧ rs_entries s' = drop k' (snd <$> h') ∧ (k' < length h')%nat ∧ ordered h' ∧
    (∃ x, last h' = Some x ∧ rs_last s' = en_id x.2).
Proof.
  revert trims s h k last0. induction texts as [|text texts IH]; intros trims s h k last0 Hr Hk Ho Hl Hm E;
    cbn [xadd_all added] in *.
  - injection E as <- <-. unfold as_callbacks. rewrite app_nil_r. by exists s, k.
  - destruct (xadd now m (hd 0%nat trims) text (Channel (Some s) st)) as [[c1 j]|] eqn:Ex; [|done].
    destruct (xadd_present _ _ _ _ _ _ _ _ "callback" _ _ Hr Hk Ho Hl Hm Ex) as (s' & k' & -> & _ & Hl' & Hr' & Hk' & Ho').
    specialize (IH (tl trims) s' (h ++ [("callback", StreamEntry j text)]) k' (Some j)). cbn zeta in *.
    unfold as_callbacks in *. rewrite fmap_cons.
    replace (h ++ ("callback", StreamEntry j text) :: (pair "callback" <$> added now m (tl trims) texts (Channel (Some s') st)))
      with ((h ++ [("callback", StreamEntry j text)]) ++ (pair "callback" <$> added now m (tl trims) texts (Channel (Some s') st)))
      by by rewrite <- app_assoc.
    apply IH; try done; [rewrite length_app; simpl; lia|]. eexists. split; [apply last_snoc|done].
Qed.

(** The texts of a batch the script goes on to append. *)
Definition batch_texts (b : batch_args) (c : channel) : option (list string) :=
  if negb (field_is c "open_protocol" "v4") || (xlen c =? 0) then None else
  match tonumber_str (default "0" (hget c "callback_sequence")), tonumber_str (py_str_int (ba_sequence b)) with
  | Some delivered, Some sequence =>
      if lnum_leb sequence delivered || negb (is_phase (hget c "phase") "open") then None
      else match cjson_decode (ba_envelopes b) with Some (LArr l) => strings_of l | _ => None end
  | _, _ => None
  end.

Definition batch_history (now : Z) (trims : list nat) (b : batch_args) (c : channel) (h : history) : history :=
  let c0 := expire now c in
  match batch_texts b c0 with
  | Some texts =>
      match xadd_all now (ba_maxlen b) trims texts c0 None with
      | Some (_, Some _) => base now c h ++ as_callbacks (added now (ba_maxlen b) trims texts c0)
      | _ => base now c h
      end
  | None => base now c h
  end.

(** A batch is appended whole with its receipt, or the channel stays as it is. *)
Lemma batch_cases now trims b c :
  (∃ texts c' i, batch_texts b (expire now c) = Some texts ∧ is_phase (hget (expire now c) "phase") "open" = true ∧
     xadd_all now (ba_maxlen b) trims texts (expire now c) None = Some (c', Some i) ∧
     append_callback now trims b c =
       (touch now (ba_ttl b)
          (hset [("callback_sequence", py_str_int (ba_sequence b)); ("callback_digest", ba_digest b);
                 ("callback_redis_id", redis_id_text i)] c'), RId (Some (redis_id_text i)))) ∨
  ((append_callback now trims b c).1 = expire now c ∧
   ∀ texts c' i, batch_texts b (expire now c) = Some texts →
     xadd_all now (ba_maxlen b) trims texts (expire now c) None ≠ Some (c', Some i)).
Proof.
  unfold append_callback, batch_texts. generalize (expire now c) as c0. intros c0.
  destruct (_ || _); [right; by split|]. destruct (tonumber_str (default _ _)) as [delivered|]; [|right; by split].
  destruct (tonumber_str (py_str_int _)) as [sequence|]; [|right; by split].
  destruct (lnum_leb sequence delivered); [right; split; [by destruct (_ && _)|done]|].
  destruct (is_phase _ _) eqn:Ep; [|right; by split]. cbn [orb negb].
  destruct (cjson_decode _) as [[]|]; try (right; by split). destruct (strings_of _) as [texts|]; [|right; by split].
  destruct (xadd_all _ _ _ _ _ _) as [[c' [i|]]|] eqn:Ex; [left; eauto 10|right..]; (split; [done|]); intros ? ? ? [= <-]; by rewrite Ex.
Qed.

Lemma batch_inv now trims b c h :
  stream_inv c h → (1 ≤ ba_maxlen b)%nat → stream_inv (append_callback now trims b c).1 (batch_history now trims b c h).
Proof.
  intros Hi Hm. pose proof (expire_inv now _ _ Hi) as He. unfold batch_history.
  destruct (batch_cases now trims b c) as [(texts & c' & i & Ht & Hp & Ex & ->)|[-> Hn]].
  - rewrite Ht, Ex. clear Ht Hi. revert He Hp Ex. generalize (expire now c) as c0, (base now c h) as h0. intros c0 h0 He Hp Ex.
    inversion He as [|s f t h' k Hexp Hr Hk Ho Hl Hpr Hs]; subst; [done|]. destruct (xadd_all_present _ _ _ _ _ _ _ _ _ _ _ Hr Hk Ho Hl Hm Ex) as (s' & k' & -> & Hr' & Hk' & Ho' & Hl').
    unfold hset, touch. cbn. eapply inv_present; cbn; try done; lookups; [done|].
    unfold is_phase, hget in Hp. cbn in Hp. destruct (f !! "phase") as [p|] eqn:Ep; [|done]. apply String.eqb_eq in Hp as ->.
    apply shaped_phase_open in Hs as (o & evs & -> & Ho1 & Hev). cbn [app]. apply shaped_open; [done|].
    apply Forall_app. split; [done|]. apply Forall_fmap, Forall_true. intros x. unfold middle; cbn. set_solver.
  - destruct (batch_texts b (expire now c)) as [texts|] eqn:Et; [|done].
    destruct (xadd_all _ _ _ _ _ _) as [[c' [i|]]|] eqn:Ex; [|done..]. by destruct (Hn _ _ _ eq_refl Ex).
Qed.

(** ** Reachable streams *)

(** One script run on the stream, or time passing. *)
Inductive stream_step : channel * history → channel * history → Prop :=
| step_append now trim a c h :
    (1 ≤ aa_maxlen a)%nat →
    stream_step (c, h) ((append_with_ttl now trim a c).1, append_history now trim a c h)
| step_batch now trims b c h :
    (1 ≤ ba_maxlen b)%nat →
    stream_step (c, h) ((append_callback now trims b c).1, batch_history now trims b c h)
| step_expire now c h : stream_step (c, h) (expire now c, base now c h).

Definition reachable_stream (c : channel) (h : history) : Prop := rtc stream_step (empty_channel, []) (c, h).

Lemma reachable_inv c h : reachable_stream c h → stream_inv c h.
Proof.
  unfold reachable_stream. intros Hr. change (stream_inv (c, h).1 (c, h).2). revert Hr. generalize (c, h) as y. intros y Hr.
  remember (empty_channel, []) as x eqn:Ex. assert (stream_inv x.1 x.2) as Hx by (subst; apply inv_absent). clear Ex.
  induction Hr as [x|x y z Hxy _ IH]; [done|]. apply IH. clear IH. destruct Hxy; cbn in *;
    [by apply append_inv|by apply batch_inv|by apply expire_inv].
Qed.

(** C28.  The life of a stream.  Whatever sequence of appends, callback batches and
    expirations a stream goes through, what Redis retains is a suffix of what was
    appended since it was opened, in the order of its ids; the first entry appended is
    the opening, at most one terminal event follows and nothing but one end of stream
    after it; the recorded phase says how far the stream has come; and its two keys
    exist together or not at all. *)
Theorem stream_life c h :
  reachable_stream c h →
  c = empty_channel ∨
  ∃ s hash, ch_stream c = Some s ∧ ch_state c = Some hash ∧ rs_expire s = sh_expire hash ∧ rs_entries s ≠ [] ∧
    (∃ k, rs_entries s = drop k (snd <$> h)) ∧ ordered h ∧ shaped (hget c "phase") h.
Proof.
  intros Hr%reachable_inv. inversion Hr as [|s f t h' k He Hr' Hk Ho Hl Hp Hs]; subst; [by left|right].
  exists s, (StateHash f (Some t)). split_and!; try done; [|by eexists]. rewrite Hr'. intros E.
  apply (f_equal length) in E. rewrite length_drop, length_fmap in E. simpl in E. lia.
Qed.

(** ** Retries *)

(** What the scripts can see of a channel. *)
Definition same_view (c c' : channel) : Prop := entries c' = entries c ∧ ∀ f, hget c' f = hget c f.

Lemma touch_view now ttl c : same_view c (touch now ttl c).
Proof. unfold same_view, touch, entries, hget. by destruct c as [[] []]. Qed.

Lemma gate_view now now' a c c' x r :
  same_view c c' → append_gate now a c = Some (x, r) → ∃ x', append_gate now' a c' = Some (x', r) ∧ same_view c' x'.
Proof.
  intros [He Hf] E. unfold append_gate, field_is, xlen in *. rewrite He, !Hf in *.
  repeat match type of E with (if ?b then _ else _) = _ => destruct b end; simplify_eq; eauto using touch_view;
    (eexists; split; [done|]); try done; try apply touch_view. destruct (is_phase _ _); [apply touch_view|done].
Qed.

Lemma xadd_entries now m trim text c c' i :
  xadd now m trim text c = Some (c', i) → (1 ≤ m)%nat → xlen c' =? 0 = false ∧ ∀ f, hget c' f = hget c f.
Proof.
  unfold xadd. destruct (next_id _ _) as [j|]; [|done]. intros [= <- <-] Hm. split; [|done].
  apply Z.eqb_neq. unfold xlen, entries; cbn. rewrite length_drop, length_app. simpl. lia.
Qed.

Definition put (f : string) (acc : option string) (kv : string * string) : option string :=
  if String.eqb kv.1 f then Some kv.2 else acc.

Lemma hget_hset l c f : hget (hset l c) f = foldl (put f) (hget c f) l.
Proof.
  unfold hget, hset. cbn [ch_state sh_fields].
  assert (sh_fields (default (StateHash ∅ None) (ch_state c)) !! f =
          match ch_state c with Some h => sh_fields h !! f | None => None end) as <- by by destruct (ch_state c).
  generalize (sh_fields (default (StateHash ∅ None) (ch_state c))) as m. induction l as [|[k v] l IH]; intros m; [done|].
  cbn [foldl]. rewrite IH. unfold put at 3; cbn. destruct (String.eqb_spec k f) as [->|Hn].
  - by rewrite lookup_insert_eq.
  - by rewrite lookup_insert_ne.
Qed.

(** The receipts an append leaves. *)
Definition receipts (a : append_args) (id : string) : list (string * string) :=
  if String.eqb (aa_type a) "stream_open" then
    [("phase", "open"); ("open_event_id", aa_event_id a); ("open_digest", aa_digest a); ("open_redis_id", id);
     ("open_protocol", aa_protocol a)]
  else if String.eqb (aa_type a) "terminal" then
    [("phase", "terminal"); ("terminal_event_id", aa_event_id a); ("terminal_digest", aa_digest a);
     ("terminal_redis_id", id)]
  else if String.eqb (aa_type a) "end" then
    [("phase", "ended"); ("end_event_id", aa_event_id a); ("end_digest", aa_digest a); ("end_redis_id", id)]
  else [("last_event_id", aa_event_id a); ("last_event_digest", aa_digest a); ("last_event_redis_id", id)].

Lemma commit_view now trim a c c' r :
  append_commit now trim a c = (c', RId r) → (1 ≤ aa_maxlen a)%nat →
  ∃ id, r = Some id ∧ xlen c' =? 0 = false ∧ ∀ f, hget c' f = foldl (put f) (hget c f) (receipts a id).
Proof.
  intros Hc Hm. unfold append_commit in Hc. destruct (xadd _ _ _ _ c) as [[c1 i]|] eqn:Ex; [|done]. injection Hc as <- <-.
  exists (redis_id_text i). split; [done|]. destruct (xadd_entries _ _ _ _ _ _ _ Ex Hm) as [Hx Hf].
  assert (∀ l f, hget (touch now (aa_ttl a) (hset l c1)) f = foldl (put f) (hget c f) l) as Hh.
  { intros l f. rewrite (proj2 (touch_view _ _ _)), hget_hset. by rewrite Hf. }
  assert (∀ l, xlen (touch now (aa_ttl a) (hset l c1)) =? 0 = false) as Hxl.
  { intros l. unfold xlen. by rewrite (proj1 (touch_view _ _ _)). }
  unfold receipts. destruct (String.eqb (aa_type a) "stream_open") eqn:E1; [apply String.eqb_eq in E1; rewrite E1 in *|].
  { split; [apply Hxl|]. apply Hh. }
  destruct (String.eqb (aa_type a) "terminal") eqn:E2; [apply String.eqb_eq in E2; rewrite E2 in *|].
  { split; [apply Hxl|]. apply Hh. }
  destruct (String.eqb (aa_type a) "end"); (split; [apply Hxl|]); apply Hh.
Qed.

(** The receipts a commit leaves answer the same request. *)
Lemma commit_again now now' trim a c c' r :
  (1 ≤ aa_maxlen a)%nat → append_gate now a c = None → append_commit now trim a c = (c', RId r) →
  ∃ x, append_gate now' a c' = Some (x, RId r) ∧ same_view c' x.
Proof.
  intros Hm Hg Hc. destruct (commit_view _ _ _ _ _ _ Hc Hm) as (id & -> & Hx & Hf). clear Hc.
  unfold append_gate in *. destruct (String.eqb_spec (aa_protocol a) "v4") as [Hp|]; [|done]. rewrite Hp in *. cbn [negb] in *.
  unfold field_is. rewrite !Hf, Hx. unfold receipts in *.
  destruct (String.eqb (aa_type a) "stream_open") eqn:E1.
  { cbn. rewrite Hp, !String.eqb_refl. cbn. eexists. split; [done|]. apply touch_view. }
  assert (∃ p, hget c "phase" = Some p ∧ field_is c "open_protocol" "v4" = true) as (p & Hph & Hop).
  { destruct (hget c "phase") as [p|]; cbn in Hg.
    - destruct (field_is c "open_protocol" "v4"); [eauto|done].
    - repeat match type of Hg with (if ?b then _ else _) = _ => destruct b; try done end. }
  rewrite Hph, Hop in Hg. cbn in Hg. unfold field_is in Hop. destruct (hget c "open_protocol") as [q|] eqn:Eq; [|done].
  destruct (String.eqb (aa_type a) "terminal") eqn:E2; [|destruct (String.eqb (aa_type a) "end") eqn:E3].
  - cbn. rewrite Hop, !String.eqb_refl. cbn. eexists. split; [done|]. apply touch_view.
  - cbn. rewrite Hop, !String.eqb_refl. cbn. eexists. split; [done|]. apply touch_view.
  - cbn. rewrite Hph, Hop, !String.eqb_refl. cbn. destruct (xlen c =? 0); [done|].
    destruct (String.eqb p "open"); [|done]. cbn. eexists. split; [done|]. apply touch_view.
Qed.

(** Retrying an append is safe.  When the script answered an append with an id, the
    same request made again while the keys are alive answers the same id and appends
    nothing: a publisher that lost the answer can repeat it. *)
Lemma append_retry now now' trim trim' a c c' id :
  (1 ≤ aa_maxlen a)%nat → append_with_ttl now trim a c = (c', RId id) → expire now' c' = c' →
  ∃ c'', append_with_ttl now' trim' a c' = (c'', RId id) ∧ entries c'' = entries c'.
Proof.
  intros Hm E Ha. assert (∃ x, append_gate now' a c' = Some (x, RId id) ∧ same_view c' x) as (x & Hg & Hv).
  { unfold append_with_ttl in E. destruct (append_gate now a (expire now c)) as [[c1 r]|] eqn:Eg.
    - injection E as -> ->. eapply gate_view; [|exact Eg].
      destruct (gate_returns _ _ _ _ _ Eg) as [-> | ->]; [done|apply touch_view].
    - destruct (_ || _); [destruct (callback_pending _ _) as [[]|]; try done|]; by eapply commit_again. }
  exists x. unfold append_with_ttl. rewrite Ha, Hg. split; [done|]. apply Hv.
Qed.
End Steps.

(** ** A concrete stream *)

(** Lua's [tonumber] on the decimal numerals the clients write. *)
Definition stream_lua : LuaRuntime := {|
  cjson_encode := encode_text;
  cjson_decode := decode_text;
  tonumber_str s := if canonical_decimal s then Some (lint (dec_value s 0)) else None;
  tostring_num n := enc_num n "";
  tostring_other _ := "table"
|}.

Definition sample_open : append_args := AppendArgs 10000 "sev_1" "open" 7200000 "stream_open" "d0" "" "v4".
Definition sample_delta : append_args := AppendArgs 10000 "evt4_2" "delta" 7200000 "message.delta" "d1" "" "v4".
Definition sample_terminal : append_args :=
  AppendArgs 10000 "evt4_3" (encode_text (LObj [("source", LObj [])])) 7200000 "terminal" "d2" "evt4_3" "v4".
Definition sample_end : append_args := AppendArgs 10000 "evt4_end_3" "end" 7200000 "end" "d3" "evt4_3" "v4".

Definition run_appends (l : list (Z * append_args)) (x : channel * history) : channel * history :=
  foldl (fun x na => ((@append_with_ttl stream_lua na.1 0 na.2 x.1).1, @append_history stream_lua na.1 0 na.2 x.1 x.2)) x l.
Definition sample_run : channel * history :=
  run_appends [(1000, sample_open); (1001, sample_delta); (1001, sample_terminal); (1002, sample_end)] (empty_channel, []).

Lemma run_appends_reachable l x :
  Forall (fun na => (1 ≤ aa_maxlen na.2)%nat) l → rtc (@stream_step stream_lua) x (run_appends l x).
Proof.
  revert x. induction l as [|[now a] l IH]; intros [c h] Hl; [apply rtc_refl|]. inversion Hl; subst.
  eapply rtc_l; [|by apply IH]. by apply step_append.
Qed.

Example sample_entries :
  map en_id (entries sample_run.1) = [(1000, 0); (1001, 0); (1001, 1); (1002, 0)] ∧ hget sample_run.1 "phase" = Some "ended".
Proof. by vm_compute. Qed.

Lemma sample_reachable : @reachable_stream stream_lua sample_run.1 sample_run.2.
Proof.
  unfold reachable_stream. rewrite <- surjective_pairing. apply run_appends_reachable.
  repeat constructor; apply Nat.leb_le; vm_compute; reflexivity.
Qed.

Lemma stream_life_witness :
  @reachable_stream stream_lua sample_run.1 sample_run.2 ∧
  (sample_run.1 = empty_channel ∨
   ∃ s hash, ch_stream sample_run.1 = Some s ∧ ch_state sample_run.1 = Some hash ∧ rs_expire s = sh_expire hash ∧
     rs_entries s ≠ [] ∧ (∃ k, rs_entries s = drop k (snd <$> sample_run.2)) ∧ ordered sample_run.2 ∧
     shaped (hget sample_run.1 "phase") sample_run.2).
Proof. split; [apply sample_reachable|]. apply (@stream_life stream_lua), sample_reachable. Defined.

