(* ===== verification/StreamReplay.v ===== *)
(** * Reading a stream back

    The reading half of [V4RedisStreamBridge] in [src/app/streaming/infrastructure/v4.py]:
    decoding entries, the bounds of what is retained, where a browser may resume, the
    replay of one page with proof that nothing before it was lost, waiting for new
    entries, and the notice of a gap.

    Each call reads Redis at its own instant: a [view] is the streams at that instant, or
    [None] when the call fails.  Redis answers with rows of the shape it documents; the
    code's checks of that shape are kept where a row is decoded. *)
From stdpp Require Import base gmap list strings.
From Stdlib Require Import ZArith Lia Ascii.
From S2P Require Import Prelude Redis PyValue Numerals RunAttempt StreamCursors StreamProtocol StreamEvents.
From S2P Require Import CanonicalJson StreamChannel.
#[local] Open Scope py_scope.

Record v4_entry := V4StreamEntry { ve_cursor : stream_cursor; ve_envelope : envelope }.

Record stream_gap := StreamGap {
  gap_reason : string; gap_requested_event_id : option string; gap_requested_stream_incarnation : option Z;
  gap_current_stream_incarnation : Z; gap_earliest_available_event_id : option string;
  gap_latest_available_event_id : option string
}.
Record resume_decision := ResumeDecision {
  rd_after_redis_id : option string; rd_gap : option stream_gap; rd_terminal_event_id : option string; rd_ended : bool;
  rd_replay_tail_redis_id : option string
}.

Definition view := option streams.

(** ** Rows *)

Fixpoint field_pairs (l : list pyval) : option (list (pyval * pyval)) :=
  match l with
  | [] => Some []
  | [_] => None
  | k :: v :: l => (fun ps => (k, v) :: ps) <$> field_pairs l
  end.
Fixpoint normalized_pairs (l : list (pyval * pyval)) (acc : list (string * string)) : sres (list (string * string)) :=
  match l with
  | [] => SOk acc
  | (PStr k, PStr v) :: l =>
      fail! (StreamContractError "v4_stream_fields_duplicate") when match assoc k acc with Some _ => true | None => false end;
      normalized_pairs l (acc ++ [(k, v)])
  | _ :: _ => SErr (StreamContractError "v4_stream_fields_invalid")
  end.
Definition normalize_redis_fields (fields : pyval) : sres (list (string * string)) :=
  match fields with
  | PDict kvs => normalized_pairs (map (fun kv => (PStr kv.1, kv.2)) kvs) []
  | PList l =>
      match field_pairs l with
      | Some pairs => normalized_pairs pairs []
      | None => SErr (StreamContractError "v4_stream_fields_invalid")
      end
  | _ => SErr (StreamContractError "v4_stream_fields_invalid")
  end.

(** An entry as the client library returns it and as a script does. *)
Definition client_row (e : stream_entry) : pyval :=
  PList [PStr (redis_id_text (en_id e)); PDict [("envelope", PStr (en_envelope e))]].
Definition script_row (e : stream_entry) : pyval :=
  PList [PStr (redis_id_text (en_id e)); PList [PStr "envelope"; PStr (en_envelope e)]].

Section Bridge.
Context `{PyRuntime} `{StreamRuntime}.

Definition decode_row (row : pyval) (tenant_scope_value run_id attempt_id : string) (stream_incarnation : Z)
    : sres v4_entry :=
  match row with
  | PList [id; raw_fields] =>
      let redis_id := py_str id in
      do! _ := redis_id_tuple redis_id in
      do! fields := normalize_redis_fields raw_fields in
      match assoc "envelope" fields with
      | None => SErr (StreamContractError "v4_stream_envelope_missing")
      | Some raw =>
          let parsed := match json_loads raw with
                        | Some v => validate_internal_envelope_v4 None v
                        | None => SErr (PyValueError "json_decode")
                        end in
          match parsed with
          | SErr _ => SErr (StreamContractError "v4_stream_envelope_invalid")
          | SOk e =>
              fail! (StreamContractError "v4_stream_authority_mismatch")
                when negb (String.eqb (ev_tenant_scope e) tenant_scope_value) || negb (String.eqb (ev_run_id e) run_id)
                     || negb (String.eqb (ev_attempt_id e) attempt_id)
                     || negb (ev_stream_incarnation e =? stream_incarnation);
              do! cursor := new_stream_cursor run_id stream_incarnation redis_id in
              SOk (V4StreamEntry cursor e)
          end
      end
  | _ => SErr (StreamContractError "v4_stream_row_invalid")
  end.

Fixpoint decode_rows (rows : list pyval) (tenant_scope_value run_id attempt_id : string) (stream_incarnation : Z)
    : sres (list v4_entry) :=
  match rows with
  | [] => SOk []
  | row :: rows =>
      do! e := decode_row row tenant_scope_value run_id attempt_id stream_incarnation in
      do! es := decode_rows rows tenant_scope_value run_id attempt_id stream_incarnation in
      SOk (e :: es)
  end.

(** ** Bounds *)

Definition retained_bounds (first_view last_view : view) (tenant_scope_value run_id attempt_id : string)
    (stream_incarnation : Z) : sres (option (v4_entry * v4_entry)) :=
  do! key := stream_key tenant_scope_value run_id stream_incarnation in
  match first_view, last_view with
  | Some v1, Some v2 =>
      match head (entries (channel_at v1 key)), last (entries (channel_at v2 key)) with
      | None, None => SOk None
      | Some first, Some last =>
          do! f := decode_row (client_row first) tenant_scope_value run_id attempt_id stream_incarnation in
          do! l := decode_row (client_row last) tenant_scope_value run_id attempt_id stream_incarnation in
          SOk (Some (f, l))
      | _, _ => SErr (StreamTransportUnavailable "v4_stream_bounds_unproven")
      end
  | _, _ => SErr (StreamTransportUnavailable "v4_stream_bounds_unavailable")
  end.

(** ** Where a reader may resume *)

(** Redis refuses ids beyond 64 bits. *)
Definition u64_id (i : Z * Z) : bool := (i.1 <=? U64_MAX) && (i.2 <=? U64_MAX).

Definition find_entry (c : channel) (i : Z * Z) : option stream_entry :=
  List.find (fun e => id_eqb (en_id e) i) (entries c).

(** The last part of [resolve_resume]: the entry of the cursor itself. *)
Definition resume_at (exact_view : view) (tenant_scope_value run_id attempt_id : string) (incarnation : Z)
    (cursor : stream_cursor) (i : Z * Z) (first last : v4_entry) : sres resume_decision :=
  do! key := stream_key tenant_scope_value run_id incarnation in
  match exact_view with
  | None => SErr (StreamTransportUnavailable "v4_stream_cursor_lookup_unavailable")
  | Some v =>
      fail! (StreamTransportUnavailable "v4_stream_cursor_lookup_unavailable") when negb (u64_id i);
      match find_entry (channel_at v key) i with
      | None =>
          SOk (ResumeDecision None
                 (Some (StreamGap "stream_continuity_unproven" (Some (sc_event_id cursor))
                          (Some (sc_stream_incarnation cursor)) incarnation (Some (sc_event_id (ve_cursor first)))
                          (Some (sc_event_id (ve_cursor last))))) None false None)
      | Some e =>
          do! entry := decode_row (client_row e) tenant_scope_value run_id attempt_id incarnation in
          let event_type := ev_event_type (ve_envelope entry) in
          let tail := Some (sc_redis_id (ve_cursor last)) in
          if str_in event_type RUN_TERMINAL_EVENT_TYPES then
            do! t := v4_nonempty (PStr (ev_event_id (ve_envelope entry))) "event_id" in
            SOk (ResumeDecision (Some (sc_redis_id cursor)) None (Some t) false tail)
          else if String.eqb event_type "stream.end" then
            do! t := v4_nonempty (get "terminal_event_id" (ev_payload (ve_envelope entry))) "terminal_event_id" in
            SOk (ResumeDecision (Some (sc_redis_id cursor)) None (Some t) true tail)
          else SOk (ResumeDecision (Some (sc_redis_id cursor)) None None false tail)
      end
  end.

Definition resolve_resume (first_view last_view exact_view : view) (tenant_scope_value run_id attempt_id : string)
    (current_stream_incarnation : Z) (last_event_id : option string) : sres resume_decision :=
  let text := default "" last_event_id in
  do! cursor := (if str_truthy text then do! c := parse_stream_cursor text run_id in SOk (Some c) else SOk None) in
  let requested := sc_event_id <$> cursor in
  let incarnation := sc_stream_incarnation <$> cursor in
  let gap reason first last :=
    ResumeDecision None (Some (StreamGap reason requested incarnation current_stream_incarnation first last)) None false None in
  fail! (StreamContractError "stream_cursor_future_incarnation")
    when match incarnation with Some n => current_stream_incarnation <? n | None => false end;
  if match incarnation with Some n => n <? current_stream_incarnation | None => false end
  then SOk (gap "stream_incarnation_mismatch" None None) else
  do! bounds := retained_bounds first_view last_view tenant_scope_value run_id attempt_id current_stream_incarnation in
  match bounds with
  | None => SOk (gap "stream_missing" None None)
  | Some (first, last) =>
      let unavailable := gap "retained_history_unavailable" (Some (sc_event_id (ve_cursor first)))
                           (Some (sc_event_id (ve_cursor last))) in
      match cursor with
      | None =>
          if String.eqb (ev_event_type (ve_envelope first)) "stream.open"
          then SOk (ResumeDecision (Some "0-0") None None false (Some (sc_redis_id (ve_cursor last))))
          else SOk unavailable
      | Some cursor =>
          do! i := redis_id_tuple (sc_redis_id cursor) in
          do! lo := redis_id_tuple (sc_redis_id (ve_cursor first)) in
          do! hi := redis_id_tuple (sc_redis_id (ve_cursor last)) in
          fail! (StreamContractError "stream_cursor_future_redis_id") when id_ltb hi i;
          if id_ltb i lo then SOk unavailable
          else resume_at exact_view tenant_scope_value run_id attempt_id current_stream_incarnation cursor i first last
      end
  end.

(** ** One page *)

(** [XRANGE min max COUNT count]; an exclusive start is written with a parenthesis. *)
Definition xrange (c : channel) (exclusive : bool) (lo hi : Z * Z) (count : nat) : list stream_entry :=
  take count (List.filter (fun e => (if exclusive then id_ltb lo (en_id e) else id_leb lo (en_id e)) && id_leb (en_id e) hi)
                (entries c)).

(** [_V4_REPLAY_PAGE_LUA]: the status, and the rows after the predecessor. *)
Definition replay_page_script (c : channel) (exclusive : bool) (lo hi : Z * Z) (count : nat) (predecessor : option string)
    : Z * list stream_entry :=
  let rows := xrange c exclusive lo hi count in
  if match rows with [] => true | _ => false end && match ch_stream c with None => true | Some _ => false end
  then (-1, rows)
  else match predecessor with
       | None => (1, rows)
       | Some predecessor =>
           match rows with
           | [] => (0, rows)
           | e :: rest => if String.eqb (redis_id_text (en_id e)) predecessor then (1, rest) else (0, rows)
           end
       end.

Definition replay_page (v : view) (tenant_scope_value run_id attempt_id : string) (stream_incarnation : Z)
    (after_redis_id through_redis_id : string) : sres (list v4_entry) :=
  do! after := redis_id_tuple after_redis_id in
  do! through := redis_id_tuple through_redis_id in
  if id_ltb through after then SOk [] else
  do! key := stream_key tenant_scope_value run_id stream_incarnation in
  let from_start := String.eqb after_redis_id "0-0" in
  match v with
  | None => SErr (StreamTransportUnavailable "v4_stream_replay_unavailable")
  | Some v =>
      fail! (StreamTransportUnavailable "v4_stream_replay_unavailable") when negb (u64_id after) || negb (u64_id through);
      let '(continuity, rows) :=
        replay_page_script (channel_at v key) from_start after through (if from_start then 128 else 129)
          (if from_start then None else Some after_redis_id) in
      fail! (StreamContractError "stream_missing") when continuity =? -1;
      fail! (StreamContractError "stream_replay_continuity_unproven") when negb (continuity =? 1);
      do! es := decode_rows (map script_row rows) tenant_scope_value run_id attempt_id stream_incarnation in
      fail! (StreamContractError "stream_replay_continuity_unproven")
        when from_start && match es with
                           | [] => true
                           | e :: _ => negb (String.eqb (ev_event_type (ve_envelope e)) "stream.open")
                           end;
      SOk es
  end.

(** ** Waiting for entries *)

(** What XREAD returns once there is something after the id, or nothing when it times
    out. *)
Definition xread (c : channel) (after : Z * Z) (count : nat) : list stream_entry :=
  take count (List.filter (fun e => id_ltb after (en_id e)) (entries c)).

Definition read_stream (read_view page_view : view) (tenant_scope_value run_id attempt_id : string)
    (stream_incarnation : Z) (after_redis_id : string) (count block_ms : Z) : sres (list v4_entry) :=
  do! after := redis_id_tuple after_redis_id in
  fail! (StreamContractError "v4_stream_read_options_invalid")
    when negb ((1 <=? count) && (count <=? 128) && (1 <=? block_ms) && (block_ms <=? 5000));
  do! key := stream_key tenant_scope_value run_id stream_incarnation in
  match read_view with
  | None => SErr (StreamTransportUnavailable "v4_stream_read_unavailable")
  | Some v =>
      fail! (StreamTransportUnavailable "v4_stream_read_unavailable") when negb (u64_id after);
      match last (xread (channel_at v key) after (Z.to_nat count)) with
      | None => replay_page page_view tenant_scope_value run_id attempt_id stream_incarnation after_redis_id after_redis_id
      | Some e =>
          let tail := redis_id_text (en_id e) in
          do! t := redis_id_tuple tail in
          fail! (StreamContractError "stream_replay_continuity_unproven") when id_leb t after;
          do! es := replay_page page_view tenant_scope_value run_id attempt_id stream_incarnation after_redis_id tail in
          match last es with
          | Some e => if String.eqb (sc_redis_id (ve_cursor e)) tail then SOk es
                      else SErr (StreamContractError "stream_replay_continuity_unproven")
          | None => SErr (StreamContractError "stream_replay_continuity_unproven")
          end
      end
  end.

(** ** Gaps *)

(** The Redis id a request named: of a cursor of this run and incarnation, or an id
    itself. *)
Definition requested_redis_id (run_id requested_event_id : string) (requested_stream_incarnation : option Z) : sres string :=
  match parse_stream_cursor requested_event_id run_id with
  | SOk parsed =>
      if bool_decide (requested_stream_incarnation = Some (sc_stream_incarnation parsed)) then SOk (sc_redis_id parsed)
      else match redis_id_tuple requested_event_id with
           | SOk _ => SOk requested_event_id
           | SErr _ => SErr (StreamContractError "v4_gap_cursor_invalid")
           end
  | SErr (StreamContractError _) =>
      match redis_id_tuple requested_event_id with
      | SOk _ => SOk requested_event_id
      | SErr _ => SErr (StreamContractError "v4_gap_cursor_invalid")
      end
  | SErr e => SErr e
  end.

Definition build_gap (now : Z) (first_view last_view : view) (event_id tenant_scope_value run_id attempt_id : string)
    (requested_event_id : option string) (requested_stream_incarnation : option Z) (current_stream_incarnation : Z)
    (reason : string) : sres (envelope * string) :=
  do! requested := match requested_event_id with
                   | None => SOk None
                   | Some r => do! i := requested_redis_id run_id r requested_stream_incarnation in SOk (Some i)
                   end in
  do! bounds := retained_bounds first_view last_view tenant_scope_value run_id attempt_id current_stream_incarnation in
  do! '(earliest, latest, cursor) :=
    match bounds with
    | None =>
        fail! (StreamTransportUnavailable "v4_gap_bounds_unavailable") when negb (String.eqb reason "stream_missing");
        do! c := new_stream_cursor run_id current_stream_incarnation "0-0" in
        SOk (None, None, sc_event_id c)
    | Some (first, last) =>
        SOk (Some (sc_redis_id (ve_cursor first)), Some (sc_redis_id (ve_cursor last)), sc_event_id (ve_cursor last))
    end in
  do! env := build_v4_control now event_id tenant_scope_value run_id attempt_id current_stream_incarnation "stream.gap"
               [("reason", PStr reason); ("recovery", PStr "reload_durable_state"); ("requested_event_id", opt_str requested);
                ("requested_stream_incarnation", opt_int requested_stream_incarnation);
                ("current_stream_incarnation", PInt current_stream_incarnation);
                ("earliest_available_event_id", opt_str earliest); ("latest_available_event_id", opt_str latest)]
               [("kind", PStr "stream_authority"); ("authority_id", PStr event_id)] None None in
  SOk (env, cursor).

End Bridge.
