(* ===== verification/StreamAuthority.v ===== *)
(** * The authority of a stream and the leases of its readers

    The PostgreSQL half of [src/app/streaming/redis.py]: the row that admits one attempt's
    stream ([sse_stream_authorities]) with its canonical opening event, its confirmation,
    its revocation, and the short leases under which an API process may deliver frames
    ([sse_authority_leases]).

    - The tables are maps by their keys; the columns no operation reads are left out.
    - Times are microseconds; [now] of an operation is the clock it reads,
      [clock_timestamp()] of the database for leases.
    - The run of a stream is there: the callers lock its row first, so the foreign key
      holds. *)
From stdpp Require Import base gmap list strings.
From Stdlib Require Import ZArith Lia Ascii.
From S2P Require Import Prelude Redis PyValue Numerals RunAttempt StreamCursors StreamProtocol StreamEvents CanonicalJson.
#[local] Open Scope py_scope.

Record stream_authority := StreamAuthority {
  sa_tenant_id : string; sa_run_id : string; sa_attempt_id : string; sa_tenant_scope : string;
  sa_stream_incarnation : Z; sa_state : string; sa_open_event_id : string; sa_open_payload_bytes : string;
  sa_open_payload_digest : string; sa_authorization_epoch : Z; sa_revocation_state : string;
  sa_design_id : string; sa_projection_version : string
}.

Record sse_lease := SseAuthorityLease {
  sl_lease_id : string; sl_tenant_id : string; sl_run_id : string; sl_api_instance_id : string;
  sl_connection_id : string; sl_authorization_epoch : Z; sl_lease_not_after : Z
}.
(** A lease row also says when and why it was closed. *)
Record sse_lease_row := SseLeaseRow { lr_lease : sse_lease; lr_closed_at : option Z; lr_close_reason : option string }.

Record sse_db := SseDb {
  sd_authorities : gmap (string * string) stream_authority;
  sd_leases : gmap (string * string * string * string) sse_lease_row
}.

Definition set_authority (a : stream_authority) (db : sse_db) : sse_db :=
  SseDb (<[(sa_tenant_id a, sa_run_id a) := a]> (sd_authorities db)) (sd_leases db).

Definition SSE_AUTHORITY_LEASE_SECONDS : Z := 15.

(** [SseAuthorityLease.allows_frame]. *)
Definition allows_frame (l : sse_lease) (now : Z) : bool := now <? sl_lease_not_after l.

Definition get_stream_authority (db : sse_db) (tenant_id run_id : string) : option stream_authority :=
  sd_authorities db !! (tenant_id, run_id).

Section Admission.
Context `{PyRuntime} `{StreamRuntime}.

Definition semantic_id (kind : string) (parts : list pyval) : sres string :=
  do! material := canonical_json_bytes (PList (PStr kind :: parts)) in
  SOk ("sev_" +:+ sha256_hex material).

(** The checks of an existing admission: its receipt is the canonical opening event of
    this stream. *)
Definition admission_matches (a : stream_authority) : bool :=
  String.eqb (sa_design_id a) STREAM_DESIGN_ID && String.eqb (sa_projection_version a) STREAM_PROJECTION_VERSION
  && str_truthy (sa_open_payload_bytes a) && String.eqb (sha256_hex (sa_open_payload_bytes a)) (sa_open_payload_digest a)
  && match json_loads (sa_open_payload_bytes a) with
     | None => false
     | Some v =>
         bool_decide (canonical_json v = Some (sa_open_payload_bytes a))
         && match validate_internal_envelope_v4 None v with
            | SErr _ => false
            | SOk e =>
                String.eqb (ev_event_type e) "stream.open" && String.eqb (ev_event_id e) (sa_open_event_id a)
                && String.eqb (ev_tenant_scope e) (sa_tenant_scope a) && String.eqb (ev_run_id e) (sa_run_id a)
                && String.eqb (ev_attempt_id e) (sa_attempt_id a)
                && (ev_stream_incarnation e =? sa_stream_incarnation a)
                && match ev_payload e with
                   | [("design_id", PStr d)] => String.eqb d STREAM_DESIGN_ID
                   | _ => false
                   end
                && match ev_source e with
                   | [("kind", PStr k); ("authority_id", PStr i)] =>
                       String.eqb k "stream_authority" && String.eqb i (sa_open_event_id a)
                   | _ => false
                   end
            end
     end.

Definition create_or_get_stream_admission_v4 (now : Z) (tenant_id run_id attempt_id tenant_scope : string) (db : sse_db)
    : sres (sse_db * stream_authority) :=
  match get_stream_authority db tenant_id run_id with
  | Some current =>
      fail! (SseAuthorityConflictError "sse_stream_attempt_conflict")
        when negb (String.eqb (sa_attempt_id current) attempt_id) || negb (String.eqb (sa_tenant_scope current) tenant_scope);
      fail! (SseAuthorityConflictError "sse_stream_protocol_conflict") when negb (admission_matches current);
      SOk (db, current)
  | None =>
      let incarnation := 1 in
      do! event_id := semantic_id "ai-platform-stream-open-v4"
                        [PStr tenant_scope; PStr run_id; PStr attempt_id; PInt incarnation] in
      do! e := build_v4_control now event_id tenant_scope run_id attempt_id incarnation "stream.open"
                 [("design_id", PStr STREAM_DESIGN_ID)]
                 [("kind", PStr "stream_authority"); ("authority_id", PStr event_id)] None None in
      do! payload := canonical_json_bytes (PDict (envelope_dict e)) in
      let row := {| sa_tenant_id := tenant_id; sa_run_id := run_id; sa_attempt_id := attempt_id;
                    sa_tenant_scope := tenant_scope; sa_stream_incarnation := incarnation;
                    sa_state := "admission_pending"; sa_open_event_id := event_id; sa_open_payload_bytes := payload;
                    sa_open_payload_digest := sha256_hex payload; sa_authorization_epoch := 1;
                    sa_revocation_state := "active"; sa_design_id := STREAM_DESIGN_ID;
                    sa_projection_version := STREAM_PROJECTION_VERSION |} in
      SOk (set_authority row db, row)
  end.
End Admission.

Definition set_state (state : string) (a : stream_authority) : stream_authority :=
  {| sa_tenant_id := sa_tenant_id a; sa_run_id := sa_run_id a; sa_attempt_id := sa_attempt_id a;
     sa_tenant_scope := sa_tenant_scope a; sa_stream_incarnation := sa_stream_incarnation a; sa_state := state;
     sa_open_event_id := sa_open_event_id a; sa_open_payload_bytes := sa_open_payload_bytes a;
     sa_open_payload_digest := sa_open_payload_digest a; sa_authorization_epoch := sa_authorization_epoch a;
     sa_revocation_state := sa_revocation_state a; sa_design_id := sa_design_id a;
     sa_projection_version := sa_projection_version a |}.
Definition set_revoked (a : stream_authority) : stream_authority :=
  {| sa_tenant_id := sa_tenant_id a; sa_run_id := sa_run_id a; sa_attempt_id := sa_attempt_id a;
     sa_tenant_scope := sa_tenant_scope a; sa_stream_incarnation := sa_stream_incarnation a; sa_state := sa_state a;
     sa_open_event_id := sa_open_event_id a; sa_open_payload_bytes := sa_open_payload_bytes a;
     sa_open_payload_digest := sa_open_payload_digest a; sa_authorization_epoch := sa_authorization_epoch a + 1;
     sa_revocation_state := "committed"; sa_design_id := sa_design_id a;
     sa_projection_version := sa_projection_version a |}.

Definition confirm_stream_admission (authority : stream_authority) (db : sse_db) : sres (sse_db * stream_authority) :=
  match get_stream_authority db (sa_tenant_id authority) (sa_run_id authority) with
  | Some a =>
      if String.eqb (sa_attempt_id a) (sa_attempt_id authority)
         && (sa_stream_incarnation a =? sa_stream_incarnation authority)
         && str_in (sa_state a) ["admission_pending"; "confirmed"; "terminal"]
         && String.eqb (sa_open_event_id a) (sa_open_event_id authority)
         && String.eqb (sa_open_payload_digest a) (sa_open_payload_digest authority)
      then let a := set_state (if String.eqb (sa_state a) "terminal" then "terminal" else "confirmed") a in
           SOk (set_authority a db, a)
      else SErr (SseAuthorityConflictError "sse_stream_admission_fenced")
  | None => SErr (SseAuthorityConflictError "sse_stream_admission_fenced")
  end.

(** ** Leases *)

(** [lease_id] is the fresh uuid of the call. *)
Definition issue_sse_authority_lease (now : Z) (lease_id : string) (authority : option stream_authority)
    (tenant_id run_id api_instance_id connection_id : string) (lease_seconds : Z) (db : sse_db) : sres (sse_db * sse_lease) :=
  match authority with
  | Some a =>
      fail! (SseAuthorityConflictError "sse_stream_not_confirmed")
        when negb (str_in (sa_state a) ["confirmed"; "degraded"; "terminal"]);
      fail! (SseAuthorityConflictError "sse_authority_revoked") when negb (String.eqb (sa_revocation_state a) "active");
      let lease := SseAuthorityLease lease_id tenant_id run_id api_instance_id connection_id (sa_authorization_epoch a)
                     (now + lease_seconds * 1000000) in
      SOk (SseDb (sd_authorities db)
             (<[(tenant_id, run_id, api_instance_id, connection_id) := SseLeaseRow lease None None]> (sd_leases db)), lease)
  | None => SErr (SseAuthorityConflictError "sse_stream_not_confirmed")
  end.

Definition acquire_sse_authority_lease (now : Z) (lease_id tenant_id run_id api_instance_id connection_id : string)
    (lease_seconds : Z) (db : sse_db) : sres (sse_db * sse_lease) :=
  fail! (PyValueError "sse_authority_lease_seconds_invalid") when negb ((1 <=? lease_seconds) && (lease_seconds <=? 15));
  issue_sse_authority_lease now lease_id (get_stream_authority db tenant_id run_id) tenant_id run_id api_instance_id
    connection_id lease_seconds db.

Definition acquire_sse_admission_lease (now : Z) (lease_id tenant_id run_id api_instance_id connection_id : string)
    (lease_seconds : Z) (db : sse_db) : sres (sse_db * (option stream_authority * option sse_lease)) :=
  fail! (PyValueError "sse_authority_lease_seconds_invalid") when negb ((1 <=? lease_seconds) && (lease_seconds <=? 15));
  let authority := get_stream_authority db tenant_id run_id in
  match authority with
  | Some a =>
      if String.eqb (sa_state a) "admission_pending" then SOk (db, (authority, None))
      else do! '(db, lease) := issue_sse_authority_lease now lease_id authority tenant_id run_id api_instance_id
                                 connection_id lease_seconds db in
           SOk (db, (authority, Some lease))
  | None => SOk (db, (None, None))
  end.

(** The update of the row whose lease has the id; ids are unique. *)
Definition close_row (now : Z) (lease_id reason : string) (r : sse_lease_row) : sse_lease_row :=
  if String.eqb (sl_lease_id (lr_lease r)) lease_id
  then SseLeaseRow (lr_lease r) (Some (default now (lr_closed_at r))) (Some reason) else r.
Definition close_sse_authority_lease (now : Z) (lease_id reason : string) (db : sse_db) : sse_db * bool :=
  (SseDb (sd_authorities db) (close_row now lease_id reason <$> sd_leases db),
   existsb (fun kr => String.eqb (sl_lease_id (lr_lease kr.2)) lease_id) (map_to_list (sd_leases db))).

Definition commit_sse_revocation (tenant_id run_id : string) (db : sse_db) : sres (sse_db * stream_authority) :=
  match get_stream_authority db tenant_id run_id with
  | Some a =>
      if String.eqb (sa_revocation_state a) "active"
      then SOk (set_authority (set_revoked a) db, set_revoked a)
      else SErr (SseAuthorityConflictError "sse_revocation_conflict")
  | None => SErr (SseAuthorityConflictError "sse_revocation_conflict")
  end.
