(* ===== verification/StreamAuthorityFacts.v ===== *)
(** * Revocation takes effect within a lease

    Readers hold leases of at most fifteen seconds, and a revoked authority issues no
    more: once the revocation of a run's stream is committed, no lease of that run lets a
    frame through fifteen seconds later, whatever operations follow. *)
From stdpp Require Import base gmap list strings relations.
From Stdlib Require Import ZArith Lia Ascii.
From S2P Require Import Prelude Redis PyValue QueueRuntime Numerals RunAttempt StreamCursors StreamProtocol StreamEvents.
From S2P Require Import StreamEventsFacts CanonicalJson StreamAuthority.
#[local] Open Scope py_scope.

Definition lease_limit : Z := SSE_AUTHORITY_LEASE_SECONDS * 1000000.

(** The tables, every lease handed out so far, and when each stream was revoked. *)
Record sse_trace := SseTrace {
  tr_db : sse_db; tr_issued : list sse_lease; tr_revoked : gmap (string * string) Z; tr_clock : Z
}.

Definition lease_key (l : sse_lease) : string * string := (sl_tenant_id l, sl_run_id l).

Section Trace.
Context `{PyRuntime} `{StreamRuntime}.

(** One committed operation at a time not before the last. *)
Inductive sse_step : sse_trace → sse_trace → Prop :=
| step_create now tr t r i scope db a :
    tr_clock tr <= now → create_or_get_stream_admission_v4 now t r i scope (tr_db tr) = SOk (db, a) →
    sse_step tr (SseTrace db (tr_issued tr) (tr_revoked tr) now)
| step_confirm now tr authority db a :
    tr_clock tr <= now → confirm_stream_admission authority (tr_db tr) = SOk (db, a) →
    sse_step tr (SseTrace db (tr_issued tr) (tr_revoked tr) now)
| step_acquire now tr id t r api conn seconds db l :
    tr_clock tr <= now → acquire_sse_authority_lease now id t r api conn seconds (tr_db tr) = SOk (db, l) →
    sse_step tr (SseTrace db (l :: tr_issued tr) (tr_revoked tr) now)
| step_admission now tr id t r api conn seconds db a l :
    tr_clock tr <= now → acquire_sse_admission_lease now id t r api conn seconds (tr_db tr) = SOk (db, (a, Some l)) →
    sse_step tr (SseTrace db (l :: tr_issued tr) (tr_revoked tr) now)
| step_close now tr id reason :
    tr_clock tr <= now →
    sse_step tr (SseTrace (close_sse_authority_lease now id reason (tr_db tr)).1 (tr_issued tr) (tr_revoked tr) now)
| step_revoke now tr t r db a :
    tr_clock tr <= now → commit_sse_revocation t r (tr_db tr) = SOk (db, a) →
    sse_step tr (SseTrace db (tr_issued tr) (<[(t, r) := now]> (tr_revoked tr)) now).

Record trace_inv (tr : sse_trace) : Prop := {
  ti_keys : ∀ k a, sd_authorities (tr_db tr) !! k = Some a → (sa_tenant_id a, sa_run_id a) = k;
  ti_revoked : ∀ k t, tr_revoked tr !! k = Some t →
    ∃ a, sd_authorities (tr_db tr) !! k = Some a ∧ sa_revocation_state a ≠ "active";
  ti_recent : ∀ l, l ∈ tr_issued tr → sl_lease_not_after l <= tr_clock tr + lease_limit;
  ti_bound : ∀ l t, l ∈ tr_issued tr → tr_revoked tr !! lease_key l = Some t → sl_lease_not_after l <= t + lease_limit
}.

(** A row replaced by one of its own key that stays revoked if it was. *)
Lemma set_authority_inv tr a a' now :
  trace_inv tr → tr_clock tr <= now → sd_authorities (tr_db tr) !! (sa_tenant_id a', sa_run_id a') = Some a →
  (sa_revocation_state a ≠ "active" → sa_revocation_state a' ≠ "active") →
  trace_inv (SseTrace (set_authority a' (tr_db tr)) (tr_issued tr) (tr_revoked tr) now).
Proof.
  intros [Hk Hr Hc Hb] Hn Ha Hs. split; cbn.
  - intros k b. destruct (decide (k = (sa_tenant_id a', sa_run_id a'))) as [->|Hne].
    + rewrite lookup_insert_eq. by intros [= <-].
    + rewrite lookup_insert_ne by done. apply Hk.
  - intros k t Ht. destruct (Hr k t Ht) as (b & Hb' & Hst). destruct (decide (k = (sa_tenant_id a', sa_run_id a'))) as [->|Hne].
    + exists a'. rewrite lookup_insert_eq. split; [done|]. apply Hs. rewrite Ha in Hb'. by injection Hb' as ->.
    + exists b. by rewrite lookup_insert_ne.
  - intros l Hl%Hc. lia.
  - done.
Qed.

(** A lease is issued for an active stream, for at most fifteen seconds. *)
Lemma issue_spec now id authority t r api conn seconds db db' l :
  issue_sse_authority_lease now id authority t r api conn seconds db = SOk (db', l) → seconds <= 15 →
  (∃ a, authority = Some a ∧ sa_revocation_state a = "active") ∧ sd_authorities db' = sd_authorities db ∧
  lease_key l = (t, r) ∧ sl_lease_not_after l <= now + lease_limit.
Proof.
  unfold issue_sse_authority_lease. destruct authority as [a|]; [|done]. intros E Hs. run_sres E. injection E as <- <-.
  to_prop. split_and!; [eauto|done|done|]. unfold lease_limit, SSE_AUTHORITY_LEASE_SECONDS. simpl. lia.
Qed.

Lemma issue_inv tr now t r a l db :
  trace_inv tr → tr_clock tr <= now → sd_authorities (tr_db tr) !! (t, r) = Some a → sa_revocation_state a = "active" →
  sd_authorities db = sd_authorities (tr_db tr) → lease_key l = (t, r) → sl_lease_not_after l <= now + lease_limit →
  trace_inv (SseTrace db (l :: tr_issued tr) (tr_revoked tr) now).
Proof.
  intros [Hk Hr Hc Hb] Hn Ha Hs Hdb Hl Hna. split; cbn; rewrite ?Hdb; try done.
  - intros l' [->|Hin]%elem_of_cons; [done|]. apply Hc in Hin. lia.
  - intros l' t' [->|Hin]%elem_of_cons Ht; [|by apply Hb]. rewrite Hl in Ht. destruct (Hr _ _ Ht) as (b & Hb' & Hst).
    rewrite Ha in Hb'. injection Hb' as ->. done.
Qed.

Lemma sse_step_inv tr tr' : sse_step tr tr' → trace_inv tr → trace_inv tr'.
Proof.
  intros Hst Hi. destruct Hst as [now tr t r i scope db a Hn E|now tr authority db a Hn E|now tr id t r api conn seconds db l Hn E
    |now tr id t r api conn seconds db a l Hn E|now tr id reason Hn|now tr t r db a Hn E].
  - unfold create_or_get_stream_admission_v4, get_stream_authority in E.
    destruct (sd_authorities (tr_db tr) !! (t, r)) as [cur|] eqn:Ec.
    + run_sres E. injection E as <- <-. destruct Hi as [Hk Hr Hc Hb]. split; cbn; [done..| |done]. intros l Hl%Hc. lia.
    + run_sres E. injection E as <- <-. destruct Hi as [Hk Hr Hc Hb]. split; cbn; [| | |done].
      * intros k b. destruct (decide (k = (t, r))) as [->|Hne]; [rewrite lookup_insert_eq; by intros [= <-]|].
        rewrite lookup_insert_ne by done. apply Hk.
      * intros k t' Ht. destruct (Hr _ _ Ht) as (b & Hb' & ?). exists b. rewrite lookup_insert_ne; [done|].
        intros <-. congruence.
      * intros l Hl%Hc. lia.
  - unfold confirm_stream_admission, get_stream_authority in E.
    destruct (sd_authorities (tr_db tr) !! _) as [cur|] eqn:Ec; [|done]. run_sres E. injection E as <- _.
    pose proof (ti_keys _ Hi _ _ Ec) as Hkey. eapply (set_authority_inv tr cur); [done|done| |done]. cbn. by rewrite Hkey.
  - unfold acquire_sse_authority_lease, get_stream_authority in E. run_sres E. to_prop.
    apply issue_spec in E as ((a & Ha & Hs) & Hdb & Hl & Hna); [|done]. by eapply issue_inv.
  - unfold acquire_sse_admission_lease, get_stream_authority in E. run_sres E. to_prop. injection E as <- _ <-.
    apply issue_spec in Heqs0 as ((b & Ha & Hs) & Hdb & Hl & Hna); [|done]. injection Ha as <-. by eapply issue_inv.
  - destruct Hi as [Hk Hr Hc Hb]. split; cbn; [done..| |done]. intros l Hl%Hc. lia.
  - unfold commit_sse_revocation, get_stream_authority in E. destruct (sd_authorities (tr_db tr) !! (t, r)) as [cur|] eqn:Ec; [|done].
    run_sres E. injection E as <- _. pose proof (ti_keys _ Hi _ _ Ec) as Hkey.
    assert (trace_inv (SseTrace (set_authority (set_revoked cur) (tr_db tr)) (tr_issued tr) (tr_revoked tr) now)) as [Hk Hr Hc Hb].
    { eapply (set_authority_inv tr cur); [done|done| |done]. cbn. by rewrite Hkey. }
    split; cbn in *; try done.
    + intros k t'. destruct (decide (k = (t, r))) as [->|Hne].
      * intros _. exists (set_revoked cur). rewrite Hkey, lookup_insert_eq. done.
      * rewrite lookup_insert_ne by done. apply Hr.
    + intros l t' Hl. destruct (decide (lease_key l = (t, r))) as [->|Hne].
      * rewrite lookup_insert_eq. intros [= <-]. by apply Hc.
      * rewrite lookup_insert_ne by done. by apply Hb.
Qed.

Definition empty_trace (clock : Z) : sse_trace := SseTrace (SseDb ∅ ∅) [] ∅ clock.

(** Revocation takes effect within one lease.  Once the revocation of a run's stream
    is committed at some time, no lease of that run handed out before or after lets a
    frame through fifteen seconds later, whatever admissions, confirmations, renewals and
    closings happen in any order. *)
Lemma revocation_takes_effect clock tr l t now :
  rtc sse_step (empty_trace clock) tr → l ∈ tr_issued tr → tr_revoked tr !! lease_key l = Some t →
  allows_frame l now = true → now < t + SSE_AUTHORITY_LEASE_SECONDS * 1000000.
Proof.
  intros Hr Hl Ht Ha. assert (trace_inv tr) as Hi.
  { assert (trace_inv (empty_trace clock)) as H0'.
    { split; cbn; [by intros k a|by intros k t'|by intros l' ?%elem_of_nil|by intros l' t' ?%elem_of_nil]. }
    revert H0'. induction Hr as [|x y z Hxy _ IH]; [done|]. intros Hx. apply IH; [done..|]. by eapply sse_step_inv. }
  pose proof (ti_bound _ Hi l t Hl Ht) as Hb. unfold allows_frame in Ha. to_prop. unfold lease_limit in Hb. lia.
Qed.
End Trace.

(** ** A concrete trace *)

Definition noon : Z := 1735689600000000.
Definition ok_or {A} (d : A) (m : sres A) : A := match m with SOk a => a | SErr _ => d end.
Definition returns {A} (m : sres A) : bool := match m with SOk _ => true | SErr _ => false end.
Lemma ok_or_pair {A B} (d : A * B) (m : sres (A * B)) : returns m = true → m = SOk ((ok_or d m).1, (ok_or d m).2).
Proof. destruct m as [[]|]; done. Qed.
Definition no_authority : stream_authority := StreamAuthority "" "" "" "" 0 "" "" "" "" 0 "" "" "".
Definition no_lease : sse_lease := SseAuthorityLease "" "" "" "" "" 0 0.

Definition created := ok_or (SseDb ∅ ∅, no_authority)
  (@create_or_get_stream_admission_v4 toy_py toy_stream noon "t" "run_7" "att_1" "t_1" (SseDb ∅ ∅)).
Definition confirmed := ok_or (SseDb ∅ ∅, no_authority) (confirm_stream_admission created.2 created.1).
Definition leased := ok_or (SseDb ∅ ∅, no_lease)
  (acquire_sse_authority_lease (noon + 1000000) "sle_1" "t" "run_7" "api" "conn" 15 confirmed.1).
Definition revoked := ok_or (SseDb ∅ ∅, no_authority) (commit_sse_revocation "t" "run_7" leased.1).
Definition sample_trace : sse_trace := SseTrace revoked.1 [leased.2] {[("t", "run_7") := noon + 2000000]} (noon + 2000000).

Lemma sample_trace_reachable : rtc (@sse_step toy_py toy_stream) (empty_trace noon) sample_trace.
Proof.
  eapply rtc_l; [eapply (@step_create toy_py toy_stream noon (empty_trace noon) "t" "run_7" "att_1" "t_1" created.1 created.2);
                 [done|apply ok_or_pair; vm_compute; reflexivity]|].
  eapply rtc_l; [eapply (@step_confirm toy_py toy_stream noon _ created.2 confirmed.1 confirmed.2); [done|apply ok_or_pair; vm_compute; reflexivity]|].
  eapply rtc_l; [eapply (@step_acquire toy_py toy_stream (noon + 1000000) _ "sle_1" "t" "run_7" "api" "conn" 15 leased.1 leased.2);
                 [done|apply ok_or_pair; vm_compute; reflexivity]|].
  eapply rtc_l; [eapply (@step_revoke toy_py toy_stream (noon + 2000000) _ "t" "run_7" revoked.1 revoked.2);
                 [done|apply ok_or_pair; vm_compute; reflexivity]|].
  apply rtc_refl.
Qed.

