(* ===== verification/StreamDelivery.v ===== *)
(** * Delivering a stream to a browser

    [src/app/routes/lambchat_compat.py]: [_await_sse_admission], which waits for the
    stream of a run to be admitted, and [chat_session_stream], which replays what the
    browser has not seen and then follows the stream, under a short lease that it renews.

    The route is an asynchronous generator.  It reads a world that changes under it: at
    every [await] and every reading of a clock the next [instant] of the world is
    consumed, and the world is an arbitrary sequence of instants.  An instant says what
    the clock shows, what Redis answers, what the database holds (or that the call
    fails) and whether the client goes away there.  Time is in microseconds; the clocks
    of the database and of the API process are one clock.  The frames delivered are kept
    in order, each with the clock reading of its authorization. *)
From stdpp Require Import base gmap list strings.
From Stdlib Require Import ZArith Lia Ascii.
From S2P Require Import Prelude Redis PyValue Numerals RunAttempt RunTerminal StreamCursors StreamProtocol StreamEvents.
From S2P Require Import CanonicalJson StreamChannel StreamReplay StreamAuthority.
#[local] Open Scope py_scope.

(** What [get_authorized_run] returns for the principal, of what the route reads. *)
Record authorized_run := AuthorizedRun { ar_session_id : string; ar_status : string }.

Definition TERMINAL_STATUSES : list string := ["succeeded"; "failed"; "cancelled"].

(** ** Admission *)

Inductive admission_error :=
| Conflict (code : string) (retry_after : option Z)
| RunNotFound
| AdmissionFailed
| StillWaiting.

Definition SSE_RETRYABLE_STARTUP_CODES : list string := ["sse_stream_not_admitted"; "sse_stream_not_confirmed"].
Definition sse_retryable (code : string) : bool := str_in code SSE_RETRYABLE_STARTUP_CODES.
Definition SSE_STARTUP_ADMISSION_WAIT : Z := 5000000.
Definition SSE_STARTUP_ADMISSION_POLL : Z := 100000.
Definition sse_admission_timeout (code : string) : admission_error := Conflict code (Some 1).

(** How the transaction of one round ends: by the timeout around it, during the lookup of
    the lease or before; by another exception; or with the run it read and the tables. *)
Inductive round_outcome :=
| RoundTimeout (in_lease_lookup : bool)
| RoundFailed
| RoundDone (now : Z) (run : option authorized_run) (db : sse_db).

(** One round: the monotonic clock at its three readings and the outcome. *)
Record admission_round := AdmissionRound {
  rnd_start : Z; rnd_outcome : round_outcome; rnd_after : Z; rnd_before_sleep : Z
}.

Section Admission.
Context (session_id tenant_id run_id api_instance_id connection_id lease_id : string).

Fixpoint await_sse_admission (rounds : list admission_round) (deadline : Z) (startup_code : string)
    : (authorized_run * stream_authority * sse_lease) + admission_error :=
  match rounds with
  | [] => inr StillWaiting
  | r :: rounds =>
      if deadline - rnd_start r <=? 0 then inr (sse_admission_timeout startup_code) else
      match rnd_outcome r with
      | RoundTimeout in_lease_lookup =>
          inr (sse_admission_timeout (if in_lease_lookup then "sse_stream_not_confirmed" else startup_code))
      | RoundFailed => inr AdmissionFailed
      | RoundDone now run db =>
          match run with
          | Some run =>
              if negb (String.eqb (ar_session_id run) session_id) then inr RunNotFound else
              match acquire_sse_admission_lease now lease_id tenant_id run_id api_instance_id connection_id
                      SSE_AUTHORITY_LEASE_SECONDS db with
              | SErr (SseAuthorityConflictError code) => inr (Conflict code None)
              | SErr _ => inr AdmissionFailed
              | SOk (_, (authority, lease)) =>
                  let pending := match authority with
                                 | None => true
                                 | Some a => String.eqb (sa_state a) "admission_pending"
                                 end in
                  if pending && str_in (ar_status run) TERMINAL_STATUSES then inr (Conflict "sse_run_already_terminal" None) else
                  match lease, authority with
                  | Some lease, Some a =>
                      if deadline <=? rnd_after r then inr (sse_admission_timeout "sse_stream_not_confirmed")
                      else inl (run, a, lease)
                  | _, _ =>
                      let code := match authority with
                                  | None => "sse_stream_not_admitted"
                                  | Some _ => "sse_stream_not_confirmed"
                                  end in
                      if deadline - rnd_before_sleep r <=? 0 then inr (sse_admission_timeout code)
                      else await_sse_admission rounds deadline code
                  end
              end
          | None => inr RunNotFound
          end
      end
  end.
End Admission.

(** ** The generator *)

Inductive frame :=
| EntryFrame (e : v4_entry)
| GapFrame (e : envelope) (cursor : string)
| Heartbeat.

Record instant := Instant {
  in_now : Z;
  in_redis : view;
  in_database : option (option authorized_run * sse_db);
  in_lease_id : string;
  in_cancelled : bool
}.

Record gstate := GState {
  gs_tick : nat;
  gs_clock : Z;
  gs_lease : sse_lease;
  gs_status : string;
  gs_after : string;
  gs_terminal : option string;
  gs_exit : string;
  gs_frames : list (Z * frame)
}.

(** How a piece of the generator ends: it goes on, returns, raises, is cancelled by the
    client's going away, dies of an exception of the database, or has used its fuel. *)
Inductive flow (A : Type) :=
| Next (a : A) | Return | Raise (e : stream_exn) | Cancelled | Crash | OutOfFuel.
Arguments Next {A} a.
Arguments Return {A}.
Arguments Raise {A} e.
Arguments Cancelled {A}.
Arguments Crash {A}.
Arguments OutOfFuel {A}.

Definition gen (A : Type) : Type := gstate → gstate * flow A.

Definition gret {A} (a : A) : gen A := fun st => (st, Next a).
Definition gbind {A B} (m : gen A) (k : A → gen B) : gen B :=
  fun st => match m st with
            | (st, Next a) => k a st
            | (st, Return) => (st, Return)
            | (st, Raise e) => (st, Raise e)
            | (st, Cancelled) => (st, Cancelled)
            | (st, Crash) => (st, Crash)
            | (st, OutOfFuel) => (st, OutOfFuel)
            end.
Notation "'let!' x ':=' m 'in' k" := (gbind m (fun x => k))
  (at level 10, x name, m at level 100, k at level 200) : py_scope.

Definition stop {A} : gen A := fun st => (st, Return).
Definition raise {A} (e : stream_exn) : gen A := fun st => (st, Raise e).
Definition crash {A} : gen A := fun st => (st, Crash).
Definition lift {A} (m : sres A) : gen A := match m with SOk a => gret a | SErr e => raise e end.
Definition read {A} (f : gstate → A) : gen A := fun st => (st, Next (f st)).

Definition set_lease (l : sse_lease) : gen unit := fun st =>
  (GState (gs_tick st) (gs_clock st) l (gs_status st) (gs_after st) (gs_terminal st) (gs_exit st) (gs_frames st), Next tt).
Definition set_status (s : string) : gen unit := fun st =>
  (GState (gs_tick st) (gs_clock st) (gs_lease st) s (gs_after st) (gs_terminal st) (gs_exit st) (gs_frames st), Next tt).
Definition set_after (a : string) : gen unit := fun st =>
  (GState (gs_tick st) (gs_clock st) (gs_lease st) (gs_status st) a (gs_terminal st) (gs_exit st) (gs_frames st), Next tt).
Definition set_terminal (t : option string) : gen unit := fun st =>
  (GState (gs_tick st) (gs_clock st) (gs_lease st) (gs_status st) (gs_after st) t (gs_exit st) (gs_frames st), Next tt).
Definition set_exit (e : string) : gen unit := fun st =>
  (GState (gs_tick st) (gs_clock st) (gs_lease st) (gs_status st) (gs_after st) (gs_terminal st) e (gs_frames st), Next tt).

Section Generator.
Context `{PyRuntime} `{StreamRuntime}.
Context (world : nat → instant).

(** The text of a frame ([_sse]). *)
Definition sse (event : string) (data : pyval) (event_id : string) : string :=
  (if str_truthy event_id then "id: " +:+ event_id +:+ byte_string [10]%N else "") +:+ "event: " +:+ event +:+ byte_string [10]%N
  +:+ "data: " +:+ json_dumps data +:+ byte_string [10; 10]%N.
Definition frame_text (f : frame) : string :=
  match f with
  | EntryFrame e => sse (ev_event_type (ve_envelope e)) (PDict (project_validated_internal_envelope_v4 (ve_envelope e)))
                      (sc_event_id (ve_cursor e))
  | GapFrame e cursor => sse "stream.gap" (PDict (project_validated_internal_envelope_v4 e)) cursor
  | Heartbeat => ": heartbeat" +:+ byte_string [10; 10]%N
  end.

(** Reading the clock, and waiting for something outside. *)
Definition tick (st : gstate) : gstate :=
  GState (S (gs_tick st)) (in_now (world (gs_tick st))) (gs_lease st) (gs_status st) (gs_after st) (gs_terminal st)
    (gs_exit st) (gs_frames st).
Definition clock : gen Z := fun st => (tick st, Next (in_now (world (gs_tick st)))).
Definition await : gen instant := fun st =>
  let i := world (gs_tick st) in
  (GState (S (gs_tick st)) (gs_clock st) (gs_lease st) (gs_status st) (gs_after st) (gs_terminal st) (gs_exit st) (gs_frames st),
   if in_cancelled i then Cancelled else Next i).

(** [yield frame]: the generator waits until the next frame is asked for. *)
Definition yield (f : frame) : gen unit := fun st =>
  let st := GState (gs_tick st) (gs_clock st) (gs_lease st) (gs_status st) (gs_after st) (gs_terminal st) (gs_exit st)
              (gs_frames st ++ [(gs_clock st, f)]) in
  (let! _ := await in gret tt) st.

Context (session_id tenant_id run_id api_instance_id connection_id : string) (authority : stream_authority).

Definition refresh_lease : gen bool :=
  let! now := clock in
  let! lease := read gs_lease in
  if allows_frame lease now then gret true else
  let! i := await in
  match in_database i with
  | None => crash
  | Some (run, db) =>
      match run with
      | Some run =>
          if negb (String.eqb (ar_session_id run) session_id) then gret false else
          let! _ := set_status (ar_status run) in
          match acquire_sse_authority_lease (in_now i) (in_lease_id i) tenant_id run_id api_instance_id connection_id
                  SSE_AUTHORITY_LEASE_SECONDS db with
          | SOk (_, lease) =>
              let! _ := set_lease lease in
              let! now := clock in
              gret (allows_frame lease now)
          | SErr e => if is_value_error e then gret false else raise e
          end
      | None => gret false
      end
  end.

Definition authorize_frame : gen bool :=
  let! ok := refresh_lease in
  if ok then gret true else
  let! _ := set_exit "transport_failure" in
  gret false.

(** [value == terminal] for a payload field and a string or None. *)
Definition names_terminal (value : pyval) (terminal : option string) : bool :=
  match value, terminal with
  | PStr s, Some t => String.eqb s t
  | PNone, None => true
  | _, _ => false
  end.

(** [project_entry]: whether the entry ends the stream. *)
Definition project_entry (e : v4_entry) : gen bool :=
  let env := ve_envelope e in
  let event_type := ev_event_type env in
  let! _ := (if str_in event_type RUN_TERMINAL_EVENT_TYPES then set_terminal (Some (ev_event_id env)) else gret tt) in
  let ended := String.eqb event_type "stream.end" in
  let! restored := read gs_terminal in
  if ended && negb (names_terminal (get "terminal_event_id" (ev_payload env)) restored)
  then raise (StreamContractError "stream_end_without_observed_terminal")
  else gret ended.

Definition gap_frame (reason : string) (requested_event_id : option string) (requested_stream_incarnation : option Z)
    : gen frame :=
  let! first := await in
  let! last := await in
  let! now := clock in
  let! gap := lift (build_gap now (in_redis first) (in_redis last) ("evt4_gap_" +:+ connection_id) (sa_tenant_scope authority)
                      run_id (sa_attempt_id authority) requested_event_id requested_stream_incarnation
                      (sa_stream_incarnation authority) reason) in
  gret (GapFrame gap.1 gap.2).

(** A gap ends the stream: the notice is the last frame. *)
Definition end_with_gap {A} (reason : string) (requested_event_id : option string) (requested_stream_incarnation : option Z)
    : gen A :=
  let! _ := set_exit "stream_contract_failure" in
  let! f := gap_frame reason requested_event_id requested_stream_incarnation in
  let! ok := authorize_frame in
  if ok then let! _ := yield f in stop else stop.

(** The [except StreamContractError] around the two reads. *)
Definition or_gap {A} (m : sres A) : gen A :=
  match m with
  | SOk a => gret a
  | SErr (StreamContractError code) =>
      if str_in code ["stream_replay_continuity_unproven"; "stream_missing"] then
        let! after := read gs_after in
        end_with_gap (if String.eqb code "stream_missing" then "stream_missing" else "stream_continuity_unproven")
          (Some after) (Some (sa_stream_incarnation authority))
      else raise (StreamContractError code)
  | SErr e => raise e
  end.

(** What both loops do with an entry. *)
Definition deliver_entry (e : v4_entry) : gen unit :=
  let! _ := set_after (sc_redis_id (ve_cursor e)) in
  let! ended := project_entry e in
  let! ok := authorize_frame in
  if negb ok then stop else
  let! _ := yield (EntryFrame e) in
  if ended then let! _ := set_exit "terminal_completed" in stop else gret tt.

Fixpoint deliver_page (es : list v4_entry) : gen unit :=
  match es with
  | [] => gret tt
  | e :: es => let! _ := deliver_entry e in deliver_page es
  end.

Fixpoint deliver_live (es : list v4_entry) : gen unit :=
  match es with
  | [] => gret tt
  | e :: es =>
      let! after := read gs_after in
      let! newer := lift (live_redis_id_is_after (sc_redis_id (ve_cursor e)) after) in
      let! _ := (if newer then deliver_entry e else gret tt) in
      deliver_live es
  end.

(** [while replay_tail is not None and after != replay_tail]. *)
Fixpoint replay_loop (fuel : nat) (replay_tail : string) : gen unit :=
  let! previous_after := read gs_after in
  if String.eqb previous_after replay_tail then gret tt else
  match fuel with
  | O => fun st => (st, OutOfFuel)
  | S fuel =>
      let! i := await in
      let! es := or_gap (replay_page (in_redis i) (sa_tenant_scope authority) run_id (sa_attempt_id authority)
                           (sa_stream_incarnation authority) previous_after replay_tail) in
      if match es with [] => true | _ => false end
      then raise (StreamContractError "stream_replay_history_unavailable") else
      let! _ := deliver_page es in
      let! after := read gs_after in
      if String.eqb after previous_after then raise (StreamContractError "stream_replay_history_unavailable")
      else replay_loop fuel replay_tail
  end.

(** [while True]. *)
Fixpoint live_loop (fuel : nat) : gen unit :=
  match fuel with
  | O => fun st => (st, OutOfFuel)
  | S fuel =>
      let! ok := authorize_frame in
      if negb ok then stop else
      let! after := read gs_after in
      let! i := await in
      let! j := await in
      let! es := or_gap (read_stream (in_redis i) (in_redis j) (sa_tenant_scope authority) run_id (sa_attempt_id authority)
                           (sa_stream_incarnation authority) after 128 5000) in
      match es with
      | [] =>
          let! ok := authorize_frame in
          if negb ok then stop else
          let! status := read gs_status in
          if str_in status TERMINAL_STATUSES then let! _ := set_exit "terminal_completed" in stop else
          let! _ := yield Heartbeat in
          live_loop fuel
      | es => let! _ := deliver_live es in live_loop fuel
      end
  end.

(** The body of [stream()]. *)
Definition stream_body (replay_fuel live_fuel : nat) (resume : resume_decision) : gen unit :=
  match rd_gap resume with
  | Some gap => end_with_gap (gap_reason gap) (gap_requested_event_id gap) (gap_requested_stream_incarnation gap)
  | None =>
      if rd_ended resume then let! _ := set_exit "terminal_completed" in stop else
      let! ok := authorize_frame in
      if negb ok then stop else
      let! _ := match rd_replay_tail_redis_id resume with
                | Some tail => replay_loop replay_fuel tail
                | None => gret tt
                end in
      live_loop live_fuel
  end.

(** ** The exit *)

Definition SSE_EXIT_REASONS : list string :=
  ["terminal_completed"; "client_disconnected"; "transport_failure"; "stream_contract_failure"; "stream_setup_failure"].

(** The reason recorded and whether the exception goes on to the server. *)
Definition exit_of {A} (st : gstate) (f : flow A) : string * bool :=
  match f with
  | Cancelled => ("client_disconnected", true)
  | Raise (StreamTransportUnavailable _) => ("transport_failure", false)
  | Raise (StreamContractError _) => ("stream_contract_failure", false)
  | Raise _ | Crash => (gs_exit st, true)
  | Next _ | Return | OutOfFuel => (gs_exit st, false)
  end.

(** [record_sse_exit]: the lease is closed when the database answers. *)
Definition record_sse_exit (i : instant) (lease : sse_lease) (reason : string) : string * option sse_db * bool :=
  let reason := if str_in reason SSE_EXIT_REASONS then reason else "transport_failure" in
  match in_database i with
  | Some (_, db) =>
      let '(db, released) := close_sse_authority_lease (in_now i) (sl_lease_id lease) reason db in (reason, Some db, released)
  | None => (reason, None, false)
  end.

Definition start_state (lease : sse_lease) (status : string) (resume : resume_decision) : gstate :=
  let after := default "" (rd_after_redis_id resume) in
  GState 0 (in_now (world 0)) lease status (if str_truthy after then after else "0-0") (rd_terminal_event_id resume)
    "transport_failure" [].

Definition stream (replay_fuel live_fuel : nat) (lease : sse_lease) (status : string) (resume : resume_decision)
    : gstate * flow unit :=
  stream_body replay_fuel live_fuel resume (start_state lease status resume).

End Generator.

(** ** Before the stream starts

    [chat_session_stream] up to the generator: where to resume, and the HTTP status of
    a refusal with the reason recorded for it. *)
Inductive stream_setup := Started (resume : resume_decision) | Refused (status : Z) (detail reason : string).

Definition setup_stream `{PyRuntime} `{StreamRuntime} (runtime_present : bool) (first last exact : view)
    (authority : stream_authority) (run_id : string) (last_event_id : option string) : stream_setup :=
  if negb runtime_present then Refused 503 "sse_stream_unavailable" "stream_setup_failure" else
  let resumed :=
    do! resume := resolve_resume first last exact (sa_tenant_scope authority) run_id (sa_attempt_id authority)
                    (sa_stream_incarnation authority) last_event_id in
    fail! (StreamContractError "stream_replay_bounds_unavailable")
      when match rd_gap resume, rd_replay_tail_redis_id resume with None, None => negb (rd_ended resume) | _, _ => false end;
    SOk resume in
  match resumed with
  | SOk resume => Started resume
  | SErr (StreamContractError code) => Refused 400 code "stream_contract_failure"
  | SErr (StreamTransportUnavailable _) => Refused 503 "sse_stream_unavailable" "transport_failure"
  | SErr _ => Refused 503 "sse_stream_unavailable" "stream_setup_failure"
  end.
