(* ===== verification/StreamDeliveryFacts.v ===== *)
(** * What a browser receives

    Whatever happens to the stream, to the database and to the clock while a connection
    is served, the events the browser receives are a contiguous stretch of the history
    of the stream that starts right after the place it resumed from; when continuity is
    lost the connection says so and ends.  The replay of the backlog ends after at most
    as many pages as the history has entries, and no frame leaves later than one lease
    after a revocation.

    The history is a list of entries in the order of their ids, and what Redis answers at
    any instant is a stretch of it: Redis drops entries at the front and appends at the
    end ([stream_life]), and a stream that expired and was opened again has later ids. *)
From stdpp Require Import base gmap list strings relations.
From Stdlib Require Import ZArith Lia Ascii Sorted.
From S2P Require Import Prelude Redis PyValue QueueRuntime Numerals RunAttempt StreamCursors StreamCursorsFacts StreamProtocol.
From S2P Require Import StreamEvents StreamEventsFacts CanonicalJson StreamChannel StreamChannelFacts StreamReplay StreamAuthority.
From S2P Require Import StreamAuthorityFacts StreamDelivery.
#[local] Open Scope py_scope.

(** ** Stretches of a sorted history *)

Definition before (x y : stream_entry) : Prop := id_ltb (en_id x) (en_id y) = true.

Record recorded (E : list stream_entry) : Prop := {
  rec_sorted : StronglySorted before E;
  rec_ids : Forall (fun x => 0 <= (en_id x).1 ∧ 0 <= (en_id x).2 ∧ en_id x ≠ (0, 0)) E
}.

Definition stretch (s E : list stream_entry) : Prop := ∃ a b, E = a ++ s ++ b.

Lemma stretch_trans r s E : stretch r s → stretch s E → stretch r E.
Proof. intros (a & b & ->) (a' & b' & ->). exists (a' ++ a), (b ++ b'). by rewrite !app_assoc. Qed.
Lemma stretch_take n s : stretch (take n s) s.
Proof. exists [], (drop n s). by rewrite app_nil_l, take_drop. Qed.

Lemma sorted_app a b : StronglySorted before (a ++ b) → StronglySorted before a ∧ StronglySorted before b ∧
  ∀ x y, x ∈ a → y ∈ b → before x y.
Proof.
  induction a as [|z a IH]; cbn [app]; intros Hs.
  - split_and!; [constructor|done|by intros x y ?%elem_of_nil].
  - inversion Hs as [|? ? Hs' Hf]; subst. apply IH in Hs' as (Ha & Hb & Hab). rewrite Forall_app in Hf. destruct Hf as [Hfa Hfb].
    split_and!; [by constructor|done|]. intros x y [->|Hx]%elem_of_cons Hy; [|by apply Hab].
    rewrite Forall_forall in Hfb. by apply Hfb.
Qed.

Lemma recorded_stretch s E : recorded E → stretch s E → recorded s.
Proof.
  intros [Hs Hi] (a & b & ->). apply sorted_app in Hs as (_ & Hs & _). apply sorted_app in Hs as (Hs & _).
  rewrite !Forall_app in Hi. by destruct Hi as (_ & Hi & _).
Qed.

Definition above (exclusive : bool) (lo : Z * Z) (e : stream_entry) : bool :=
  if exclusive then id_ltb lo (en_id e) else id_leb lo (en_id e).

Lemma leb_ltb a b c : id_leb a b = true → id_ltb b c = true → id_ltb a c = true.
Proof. rewrite id_leb_spec. intros [->|H1] H2; [done|]. by eapply id_ltb_trans. Qed.
Lemma above_before exclusive lo x y : above exclusive lo x = true → before x y → above exclusive lo y = true.
Proof.
  unfold above, before. destruct exclusive; intros H1 H2; [by eapply id_ltb_trans|]. apply id_leb_spec. right. by eapply leb_ltb.
Qed.
Lemma above_true_all exclusive lo x s :
  Forall (before x) s → above exclusive lo x = true → Forall (fun y => above exclusive lo y = true) s.
Proof. intros Hf Hx. eapply Forall_impl; [exact Hf|]. intros y Hy. by eapply above_before. Qed.

Lemma filter_none {A} (f : A → bool) l : Forall (fun x => f x = false) l → List.filter f l = [].
Proof. induction 1 as [|x l Hx _ IH]; [done|]. cbn. by rewrite Hx. Qed.

Lemma filter_all {A} (f : A → bool) l : Forall (fun x => f x = true) l → List.filter f l = l.
Proof. induction 1 as [|x l Hx _ IH]; [done|]. cbn. by rewrite Hx, IH. Qed.
Lemma filter_and {A} (f g : A → bool) l : List.filter (fun x => f x && g x) l = List.filter g (List.filter f l).
Proof. induction l as [|x l IH]; [done|]. cbn. destruct (f x); cbn; [|done]. destruct (g x); by rewrite IH. Qed.

Lemma above_suffix exclusive lo s :
  StronglySorted before s → ∃ a, s = a ++ List.filter (above exclusive lo) s ∧ Forall (fun x => above exclusive lo x = false) a.
Proof.
  induction 1 as [|x s Hs (a & Ha & Hf) Hx]; [by exists []|]. cbn [List.filter]. destruct (above exclusive lo x) eqn:Ea.
  - exists []. split; [|done]. cbn [app]. f_equal. symmetry. apply filter_all. by eapply above_true_all.
  - exists (x :: a). split; [by rewrite <- app_comm_cons, <- Ha|by constructor].
Qed.
Lemma below_prefix hi s :
  StronglySorted before s → ∃ b, s = List.filter (fun e => id_leb (en_id e) hi) s ++ b ∧
    Forall (fun x => id_leb (en_id x) hi = false) b.
Proof.
  induction 1 as [|x s Hs (b & Hb & Hf) Hx]; [by exists []|]. cbn [List.filter]. destruct (id_leb (en_id x) hi) eqn:Ea.
  - exists b. split; [by rewrite <- app_comm_cons, <- Hb|done].
  - exists (x :: s). assert (Forall (fun y => id_leb (en_id y) hi = false) s) as Hn.
    { eapply Forall_impl; [exact Hx|]. unfold before. intros y Hy. apply not_true_iff_false. intros Hle.
      apply id_leb_spec in Hle. apply not_true_iff_false in Ea. apply Ea, id_leb_spec. right.
      destruct Hle as [<-|Hle]; [done|by eapply id_ltb_trans]. }
    rewrite (filter_none _ _ Hn). split; [done|by constructor].
Qed.

(** A range of ids selects a stretch. *)
Lemma range_stretch exclusive lo hi s :
  StronglySorted before s → stretch (List.filter (fun e => above exclusive lo e && id_leb (en_id e) hi) s) s.
Proof.
  intros Hs. rewrite filter_and. destruct (above_suffix exclusive lo s Hs) as (a & Ha & _).
  assert (StronglySorted before (List.filter (above exclusive lo) s)) as Hs' by (rewrite Ha in Hs; apply sorted_app in Hs; apply Hs).
  destruct (below_prefix hi _ Hs') as (b & Hb & _). exists a, b. by rewrite <- Hb.
Qed.

Lemma xrange_stretch c exclusive lo hi n :
  StronglySorted before (entries c) → stretch (xrange c exclusive lo hi n) (entries c) ∧
    Forall (fun e => above exclusive lo e = true ∧ id_leb (en_id e) hi = true) (xrange c exclusive lo hi n).
Proof.
  intros Hs. unfold xrange. split.
  - eapply stretch_trans; [apply stretch_take|]. by apply range_stretch.
  - apply Forall_take, List.Forall_forall. intros x [_ Hx]%filter_In. by apply andb_true_iff in Hx.
Qed.

(** An entry is at one place only. *)
Lemma before_irrefl x : ¬ before x x.
Proof. unfold before. by rewrite id_ltb_irrefl. Qed.
Lemma split_unique E a b a' b' x y :
  StronglySorted before E → E = a ++ x :: b → E = a' ++ y :: b' → en_id x = en_id y → a = a' ∧ x = y ∧ b = b'.
Proof.
  revert a a'. induction E as [|z E IH]; intros a a' Hs E1 E2 Hid; [by destruct a|].
  assert (∀ u v, u ∈ (E : list stream_entry) → v = z → en_id u = en_id v → False) as Hz.
  { intros u v Hu -> Hv. inversion Hs as [|? ? _ Hf]; subst. rewrite Forall_forall in Hf. apply Hf in Hu. unfold before in Hu.
    by rewrite Hv, id_ltb_irrefl in Hu. }
  destruct a as [|a0 a], a' as [|a0' a']; cbn [app] in *; injection E1 as Ez1 Et1; injection E2 as Ez2 Et2.
  - split_and!; congruence.
  - exfalso. apply (Hz y x); [rewrite Et2; apply elem_of_app; right; left|done|done].
  - exfalso. apply (Hz x y); [rewrite Et1; apply elem_of_app; right; left|done|done].
  - inversion Hs; subst z. destruct (IH a a') as (-> & -> & ->); [done..|]. split_and!; congruence.
Qed.

(** ** One page *)

Section Delivery.
Context `{PyRuntime} `{StreamRuntime}.
Context (world : nat → instant) (session_id tenant_id run_id api_instance_id connection_id : string).
Context (authority : stream_authority) (key : string) (E : list stream_entry).
Context (Hkey : stream_key (sa_tenant_scope authority) run_id (sa_stream_incarnation authority) = SOk key).
Context (HE : recorded E).

Notation page v := (replay_page v (sa_tenant_scope authority) run_id (sa_attempt_id authority) (sa_stream_incarnation authority)).

Definition decodes (e : v4_entry) (x : stream_entry) : Prop :=
  decode_row (script_row x) (sa_tenant_scope authority) run_id (sa_attempt_id authority) (sa_stream_incarnation authority) = SOk e.

Definition shows (v : view) : Prop := ∀ ss, v = Some ss → stretch (entries (channel_at ss key)) E.

Lemma new_cursor_id r n i c : new_stream_cursor r n i = SOk c → sc_redis_id c = i.
Proof. unfold new_stream_cursor. intros Hc. run_sres Hc. by injection Hc as <-. Qed.

Lemma decodes_id e x :
  decodes e x → sc_redis_id (ve_cursor e) = redis_id_text (en_id x) ∧ ∃ i, redis_id_tuple (redis_id_text (en_id x)) = SOk i.
Proof.
  unfold decodes, script_row, decode_row. cbn [py_str]. intros Hd. apply sbind_ok in Hd as (i & Hi & Hd).
  apply sbind_ok in Hd as (fields & _ & Hd). destruct (assoc "envelope" fields) as [raw|]; [|done].
  destruct (match json_loads raw with Some _ => _ | None => _ end) as [env|]; [|done].
  destruct (_ || _); [done|]. apply sbind_ok in Hd as (c & Hc & Hd). injection Hd as <-. cbn. split; [by eapply new_cursor_id|eauto].
Qed.

Lemma tuple_of_text i j : 0 <= i.1 → 0 <= i.2 → redis_id_tuple (redis_id_text i) = SOk j → j = i.
Proof.
  intros H1 H2 [Ht [Hr1 Hr2]]%redis_id_tuple_spec. symmetry. apply redis_id_text_inj; try done; lia.
Qed.

Lemma in_E_ids x : x ∈ E → 0 <= (en_id x).1 ∧ 0 <= (en_id x).2 ∧ en_id x ≠ (0, 0).
Proof. destruct HE as [_ Hi]. rewrite Forall_forall in Hi. apply Hi. Qed.

Lemma decodes_tuple e x : x ∈ E → decodes e x → redis_id_tuple (sc_redis_id (ve_cursor e)) = SOk (en_id x).
Proof.
  intros (H1 & H2 & _)%in_E_ids Hd. apply decodes_id in Hd as (-> & i & Hi). rewrite Hi. f_equal. by apply tuple_of_text.
Qed.

Lemma decode_rows_all rows es :
  decode_rows (map script_row rows) (sa_tenant_scope authority) run_id (sa_attempt_id authority) (sa_stream_incarnation authority)
    = SOk es → Forall2 decodes es rows.
Proof.
  revert es. induction rows as [|x rows IH]; cbn [map decode_rows]; intros es Hd; [injection Hd as <-; constructor|].
  apply sbind_ok in Hd as (e & He & Hd). apply sbind_ok in Hd as (es' & Hes & Hd). injection Hd as <-. constructor; [done|by apply IH].
Qed.

(** A page is what follows the id asked for. *)
Definition follows (after : string) (a ys : list stream_entry) : Prop :=
  if String.eqb after "0-0"
  then ∃ y e, head ys = Some y ∧ decodes e y ∧ ev_event_type (ve_envelope e) = "stream.open"
  else ∃ p, last a = Some p ∧ redis_id_text (en_id p) = after.

Lemma page_spec v after through es lo hi :
  shows v → page v after through = SOk es → es ≠ [] → redis_id_tuple after = SOk lo → redis_id_tuple through = SOk hi →
  ∃ a ys b, E = a ++ ys ++ b ∧ Forall2 decodes es ys ∧ follows after a ys ∧
    Forall (fun y => id_ltb lo (en_id y) = true ∧ id_leb (en_id y) hi = true) ys.
Proof.
  intros Hv Hp Hne Hlo Hhi. unfold replay_page in Hp. rewrite Hlo, Hhi in Hp. cbn [sbind] in Hp.
  destruct (id_ltb hi lo); [by injection Hp as <-|]. rewrite Hkey in Hp. cbn [sbind] in Hp. destruct v as [ss|]; [|done].
  specialize (Hv ss eq_refl). pose proof (rec_sorted _ (recorded_stretch _ _ HE Hv)) as Hs.
  destruct (_ || _); [done|]. unfold replay_page_script in Hp.
  set (first := String.eqb after "0-0") in *. set (c := channel_at ss key) in *.
  destruct (xrange_stretch c first lo hi (if first then 128%nat else 129%nat) Hs) as [Hst Hr].
  pose proof (stretch_trans _ _ _ Hst Hv) as (a & b & HEq). clear Hst. set (rows := xrange c first lo hi _) in *.
  destruct ((match rows with [] => true | _ => false end) && _); [done|].
  unfold follows. fold first. subst first. destruct (String.eqb_spec after "0-0") as [->|Hns].
  - cbn in Hp. apply sbind_ok in Hp as (es' & Hd & Hp). apply decode_rows_all in Hd.
    destruct es' as [|e es']; [done|]. destruct (String.eqb_spec (ev_event_type (ve_envelope e)) "stream.open") as [Ho|]; [|done].
    injection Hp as <-. exists a, rows, b. split_and!; [done|done| |done].
    apply Forall2_cons_inv_l in Hd as (y & ys & Hy & _ & ->). eauto 10.
  - destruct rows as [|p ys] eqn:Er; [done|]. destruct (String.eqb_spec (redis_id_text (en_id p)) after) as [Hpa|]; [|done].
    cbn in Hp. apply sbind_ok in Hp as (es' & Hd & Hp). apply decode_rows_all in Hd. injection Hp as <-.
    exists (a ++ [p]), ys, b. rewrite HEq. split_and!; [by rewrite <- app_assoc|done|exists p; by rewrite last_snoc|].
    assert (en_id p = lo) as Hplo.
    { symmetry. rewrite <- Hpa in Hlo. apply tuple_of_text in Hlo; [done|apply in_E_ids|apply in_E_ids];
        rewrite HEq; apply elem_of_app; right; apply elem_of_app; left; left. }
    assert (StronglySorted before (p :: ys)) as Hsp.
    { destruct HE as [HsE _]. rewrite HEq in HsE. apply sorted_app in HsE as (_ & HsE & _). by apply sorted_app in HsE as (HsE & _). }
    inversion Hsp as [|? ? _ Hf]; subst. inversion Hr; subst. rewrite Forall_forall in *. intros y Hy. split; [by apply Hf|].
    by apply Hr; right.
Qed.

Lemma read_spec v w after es :
  shows w → read_stream v w (sa_tenant_scope authority) run_id (sa_attempt_id authority) (sa_stream_incarnation authority) after
    128 5000 = SOk es → es ≠ [] →
  ∃ lo a ys b, redis_id_tuple after = SOk lo ∧ E = a ++ ys ++ b ∧ Forall2 decodes es ys ∧ follows after a ys ∧
    Forall (fun y => id_ltb lo (en_id y) = true) ys.
Proof.
  intros Hw Hr Hne. unfold read_stream in Hr. apply sbind_ok in Hr as (lo & Hlo & Hr). cbn [negb] in Hr.
  rewrite Hkey in Hr. cbn in Hr. destruct v as [ss|]; [|done]. destruct (negb _); [done|].
  assert (∃ through, page w after through = SOk es) as [through Hp].
  { destruct (last _) as [e|]; [|eauto]. apply sbind_ok in Hr as (t & _ & Hr). destruct (id_leb t lo); [done|].
    apply sbind_ok in Hr as (es' & Hp & Hr). destruct (last es') as [e'|]; [|done]. destruct (String.eqb _ _); [|done].
    injection Hr as <-. eauto. }
  assert (∃ hi, redis_id_tuple through = SOk hi) as [hi Hhi].
  { unfold replay_page in Hp. rewrite Hlo in Hp. cbn in Hp. apply sbind_ok in Hp as (hi & Hhi & _). eauto. }
  destruct (page_spec _ _ _ _ _ _ Hw Hp Hne Hlo Hhi) as (a & ys & b & HEq & Hd & Hf & Hi).
  exists lo, a, ys, b. split_and!; try done. eapply Forall_impl; [exact Hi|]. by intros y [? _].
Qed.

(** ** Positions *)

Definition delivered (fs : list (Z * frame)) : list v4_entry :=
  omap (fun tf => match tf.2 with EntryFrame e => Some e | _ => None end) fs.
Definition is_gap (tf : Z * frame) : bool := match tf.2 with GapFrame _ _ => true | _ => false end.

Record received (start : string) (a xs b : list stream_entry) (fs : list (Z * frame)) : Prop := {
  rc_history : E = a ++ xs ++ b;
  rc_entries : Forall2 decodes (delivered fs) xs;
  rc_start : xs = [] ∨ follows start a xs
}.

(** Between entries: what was delivered ends where [after] stands. *)
Record standing (start : string) (a xs b : list stream_entry) (st : gstate) : Prop := {
  sg_received : received start a xs b (gs_frames st);
  sg_no_gap : Forall (fun f => is_gap f = false) (gs_frames st);
  sg_after : gs_after st = match last xs with Some x => redis_id_text (en_id x) | None => start end
}.
Definition at_position (start : string) (st : gstate) : Prop := ∃ a xs b, standing start a xs b st.

(** What holds at the end: a gap notice can only be the last frame. *)
Definition result (start : string) (st : gstate) : Prop :=
  ∃ a xs b fs rest, received start a xs b (gs_frames st) ∧ gs_frames st = fs ++ rest ∧
    Forall (fun f => is_gap f = false) fs ∧ (rest = [] ∨ ∃ t e c, rest = [(t, GapFrame e c)]).

Lemma follows_head after a ys ys' : head ys = head ys' → follows after a ys → follows after a ys'.
Proof. unfold follows. intros ->. done. Qed.

Lemma standing_result start a xs b st : standing start a xs b st → result start st.
Proof.
  intros [Hr Hg _]. exists a, xs, b, (gs_frames st), []. split_and!; [done|by rewrite app_nil_r|done|by left].
Qed.

Lemma id_of_text x i : x ∈ E → redis_id_text i = redis_id_text (en_id x) → 0 <= i.1 → 0 <= i.2 → i = en_id x.
Proof. intros (? & ? & _)%in_E_ids Ht ? ?. by apply redis_id_text_inj. Qed.

(** A page asked for at a position continues it. *)
Lemma standing_continues start a xs b st a' ys b' :
  standing start a xs b st → E = a' ++ ys ++ b' → ys ≠ [] → follows (gs_after st) a' ys →
  ∃ a2, E = a2 ++ (xs ++ ys) ++ b' ∧ follows start a2 (xs ++ ys).
Proof.
  intros [[HEq Hd Hst] _ Haf] HEq' Hne Hf. destruct (last xs) as [x|] eqn:El.
  - apply last_Some in El as [xs0 ->].
    assert (x ∈ E) as Hx by (rewrite HEq, !elem_of_app; right; left; right; left).
    unfold follows in Hf. rewrite Haf in Hf. destruct (String.eqb_spec (redis_id_text (en_id x)) "0-0") as [H0'|_].
    { exfalso. destruct (in_E_ids x Hx) as (? & ? & Hn). apply Hn. symmetry. apply (id_of_text x (0, 0)); [done|by rewrite H0'|simpl; lia|simpl; lia]. }
    destruct Hf as (p & [a0 ->]%last_Some & Hp).
    destruct (split_unique E (a ++ xs0) b a0 (ys ++ b') x p) as (Ha & -> & Hb).
    + apply HE.
    + rewrite HEq, <- !app_assoc. done.
    + rewrite HEq', <- !app_assoc. done.
    + symmetry. assert (p ∈ E) as Hpe by (rewrite HEq', !elem_of_app; left; right; left).
      apply in_E_ids in Hpe as (? & ? & _). by apply id_of_text.
    + exists a. rewrite HEq, Hb, <- !app_assoc. split; [done|]. destruct Hst as [Hn|Hst]; [by destruct xs0|].
      eapply follows_head; [|exact Hst]. by destruct xs0.
  - apply last_None in El as ->. exists a'. cbn [app]. split; [done|]. by rewrite <- Haf.
Qed.

(** ** Reasoning about the generator *)

(** How a run ends: [Q] when it goes on, [F] when it runs out of fuel, [R] otherwise. *)
Definition ends {A} (Q : A → gstate → Prop) (R F : gstate → Prop) (r : gstate * flow A) : Prop :=
  match r.2 with Next a => Q a r.1 | OutOfFuel => F r.1 | _ => R r.1 end.

Lemma ends_bind {A B} (Q1 : A → gstate → Prop) (Q : B → gstate → Prop) R F m k st :
  ends Q1 R F (m st) → (∀ a st', Q1 a st' → ends Q R F (k a st')) → ends Q R F (gbind m k st).
Proof. intros H1 Hk. unfold gbind. destruct (m st) as [st' []]; try exact H1. by apply Hk. Qed.

(** Code that neither moves nor delivers, and needs no fuel. *)
Definition keeps {A} (m : gen A) : Prop :=
  ∀ st, gs_after (m st).1 = gs_after st ∧ gs_frames (m st).1 = gs_frames st ∧ (m st).2 ≠ OutOfFuel.

Lemma keeps_bind {A B} (m : gen A) (k : A → gen B) : keeps m → (∀ a, keeps (k a)) → keeps (gbind m k).
Proof.
  intros Hm Hk st. unfold gbind. destruct (Hm st) as (H1 & H2 & H3). destruct (m st) as [st' [a| | | | |]]; cbn in *; try done.
  destruct (Hk a st') as (H4 & H5 & H6). by rewrite H4, H5.
Qed.
Lemma keeps_ret {A} (a : A) : keeps (gret a). Proof. done. Qed.
Lemma keeps_raise {A} e : keeps (raise (A := A) e). Proof. done. Qed.
Lemma keeps_stop {A} : keeps (stop (A := A)). Proof. done. Qed.
Lemma keeps_crash {A} : keeps (crash (A := A)). Proof. done. Qed.
Lemma keeps_read {A} (f : gstate → A) : keeps (read f). Proof. done. Qed.
Lemma keeps_lift {A} (m : sres A) : keeps (lift m). Proof. by destruct m. Qed.
Lemma keeps_await : keeps (await world). Proof. intros st. cbn. by destruct (in_cancelled _). Qed.
Lemma keeps_clock : keeps (clock world). Proof. done. Qed.
Lemma keeps_exit e : keeps (set_exit e). Proof. done. Qed.
Lemma keeps_lease l : keeps (set_lease l). Proof. done. Qed.
Lemma keeps_status s : keeps (set_status s). Proof. done. Qed.
Lemma keeps_terminal t : keeps (set_terminal t). Proof. done. Qed.

Create HintDb keeps.
#[local] Hint Resolve keeps_bind keeps_ret keeps_raise keeps_stop keeps_crash keeps_read keeps_lift keeps_await keeps_clock
  keeps_exit keeps_lease keeps_status keeps_terminal : keeps.

Notation authorize := (authorize_frame world session_id tenant_id run_id api_instance_id connection_id).
Notation deliver := (deliver_entry world session_id tenant_id run_id api_instance_id connection_id).

Lemma keeps_authorize : keeps authorize.
Proof.
  apply keeps_bind; [|intros []; auto with keeps].
  apply keeps_bind; [auto with keeps|intros now]. apply keeps_bind; [auto with keeps|intros lease].
  destruct (allows_frame lease now); [auto with keeps|]. apply keeps_bind; [auto with keeps|intros i].
  destruct (in_database i) as [[[r|] db]|]; [|auto with keeps..]. destruct (negb _); [auto with keeps|].
  apply keeps_bind; [auto with keeps|intros _]. destruct (acquire_sse_authority_lease _ _ _ _ _ _ _ _) as [[d l]|e]; [auto 6 with keeps|].
  destruct (is_value_error e); auto with keeps.
Qed.
Lemma keeps_project e : keeps (project_entry e).
Proof.
  unfold project_entry. apply keeps_bind; [destruct (str_in _ _); auto with keeps|intros _].
  apply keeps_bind; [auto with keeps|intros r]. destruct (_ && _); auto with keeps.
Qed.
Lemma keeps_gap_frame r i n : keeps (gap_frame world run_id connection_id authority r i n).
Proof. unfold gap_frame. repeat (apply keeps_bind; [auto with keeps|intros ?]). auto with keeps. Qed.
#[local] Hint Resolve keeps_authorize keeps_project keeps_gap_frame : keeps.

Lemma ends_keeps {A} (m : gen A) (Q : A → gstate → Prop) (R F : gstate → Prop) st :
  keeps m → (∀ a st', gs_after st' = gs_after st → gs_frames st' = gs_frames st → Q a st') →
  (∀ st', gs_after st' = gs_after st → gs_frames st' = gs_frames st → R st') → ends Q R F (m st).
Proof.
  intros Hm HQ HR. destruct (Hm st) as (Ha & Hf & Hn). unfold ends. destruct (m st) as [st' []]; cbn in *; auto. done.
Qed.

(** The first step of a piece of code moves nothing. *)
Lemma ends_keeps_bind {A B} (m : gen A) (k : A → gen B) (Q : B → gstate → Prop) (R F : gstate → Prop) st :
  keeps m → (∀ st', gs_after st' = gs_after st → gs_frames st' = gs_frames st → R st') →
  (∀ a st', gs_after st' = gs_after st → gs_frames st' = gs_frames st → ends Q R F (k a st')) → ends Q R F (gbind m k st).
Proof. intros Hm HR Hk. eapply ends_bind; [apply ends_keeps; [done|exact (λ a st' Ha Hf, conj Ha Hf)|done]|]. intros a st' [Ha Hf]. auto. Qed.

Lemma standing_transfer start a xs b st st' :
  standing start a xs b st → gs_after st' = gs_after st → gs_frames st' = gs_frames st → standing start a xs b st'.
Proof. intros [H1 H2 H3] Ha Hf. split; by rewrite ?Ha, ?Hf. Qed.
Lemma result_transfer start st st' : result start st → gs_frames st' = gs_frames st → result start st'.
Proof. intros Hr Hf. unfold result. by rewrite Hf. Qed.

Lemma yield_frames f st : gs_frames (yield world f st).1 = gs_frames st ++ [(gs_clock st, f)] ∧
  gs_after (yield world f st).1 = gs_after st ∧ (yield world f st).2 ≠ OutOfFuel.
Proof. unfold yield, gbind, await. cbn. by destruct (in_cancelled _). Qed.

Lemma ends_yield {Q : () → gstate → Prop} {R F : gstate → Prop} f st :
  (∀ st', gs_frames st' = gs_frames st ++ [(gs_clock st, f)] → gs_after st' = gs_after st → Q tt st' ∧ R st') →
  ends Q R F (yield world f st).
Proof.
  intros Hq. destruct (yield_frames f st) as (Hf & Ha & Hn). unfold ends. destruct (yield world f st) as [st' [[]| | | | |]]; cbn in *;
    try (by apply Hq); done.
Qed.

Lemma delivered_app fs gs : delivered (fs ++ gs) = delivered fs ++ delivered gs.
Proof. apply omap_app. Qed.

(** ** The loops *)

Section Loops.
Context (Hworld : ∀ n, shows (in_redis (world n))) (start : string).

Lemma gap_ends {A} (F : gstate → Prop) a xs b r i n st (Q : A → gstate → Prop) :
  standing start a xs b st →
  ends Q (result start) F
    (end_with_gap world session_id tenant_id run_id api_instance_id connection_id authority r i n st).
Proof.
  intros Hs. assert (∀ st', gs_frames st' = gs_frames st → result start st') as HR.
  { intros st' Hf. eapply result_transfer; [by eapply standing_result|done]. }
  unfold end_with_gap. apply ends_keeps_bind; [auto with keeps|auto|]. intros _ st1 A1 F1.
  eapply (ends_bind (λ f st', gs_frames st' = gs_frames st ∧ ∃ e c, f = GapFrame e c)).
  { unfold gap_frame. do 4 (apply ends_keeps_bind; [auto with keeps|intros; apply HR; congruence|intros ? ? ? ?]).
    cbn. split; [congruence|eauto]. }
  intros f st2 [F2 (e & c & ->)]. apply ends_keeps_bind; [auto with keeps|intros; apply HR; congruence|]. intros [] st3 A3 F3.
  - apply (ends_bind (λ _, result start)); [|intros [] st4 H4; exact H4].
    apply ends_yield. intros st4 F4 A4.
    assert (result start st4); [|by split]. destruct Hs as [[HEq Hd Hst] Hg Ha].
    exists a, xs, b, (gs_frames st), [(gs_clock st3, GapFrame e c)]. rewrite F4, F3, F2. split_and!; eauto.
    split; [done| |done]. rewrite delivered_app. cbn. by rewrite app_nil_r.
  - cbn. apply HR. congruence.
Qed.

(** Reading a page, or ending with the notice of a gap. *)
Lemma or_gap_ends {A} (F : gstate → Prop) a xs b (m : sres A) st :
  standing start a xs b st →
  ends (λ es st', m = SOk es ∧ standing start a xs b st') (result start) F
    (or_gap world session_id tenant_id run_id api_instance_id connection_id authority m st).
Proof.
  intros Hs. destruct m as [es|e]; [done|]. pose proof (standing_result _ _ _ _ _ Hs) as HR.
  destruct e; cbn [or_gap]; try exact HR. destruct (str_in _ _); [|exact HR]. by eapply gap_ends.
Qed.

Lemma deliver_ends (F : gstate → Prop) a xs b y e st :
  E = a ++ (xs ++ [y]) ++ b → Forall2 decodes (delivered (gs_frames st)) xs →
  Forall (fun f => is_gap f = false) (gs_frames st) → follows start a (xs ++ [y]) → decodes e y →
  ends (λ _, standing start a (xs ++ [y]) b) (result start) F (deliver e st).
Proof.
  intros HEq Hd Hg Hf He.
  assert (∀ st', gs_frames st' = gs_frames st → result start st') as HR.
  { intros st' F'. exists a, xs, ([y] ++ b), (gs_frames st), []. rewrite F'. split_and!; [|by rewrite app_nil_r|done|by left].
    split; [by rewrite HEq, <- !app_assoc|done|]. destruct xs; [by left|right]. by eapply follows_head; [|exact Hf]. }
  apply decodes_id in He as Hid. destruct Hid as [Hid _].
  eapply (ends_bind (λ _ st', gs_after st' = redis_id_text (en_id y) ∧ gs_frames st' = gs_frames st)); [by cbn|].
  intros _ st1 [A1 F1]. apply ends_keeps_bind; [auto with keeps|intros; apply HR; congruence|]. intros ended st2 A2 F2.
  apply ends_keeps_bind; [auto with keeps|intros; apply HR; congruence|]. intros [] st3 A3 F3; [|cbn; apply HR; congruence].
  assert (∀ st', gs_frames st' = gs_frames st3 ++ [(gs_clock st3, EntryFrame e)] → gs_after st' = gs_after st3 →
    standing start a (xs ++ [y]) b st') as HS.
  { intros st' F' A'. split; rewrite ?F', ?A', ?A3, ?A2, ?A1, ?F3, ?F2, ?F1.
    - split; [done| |by right]. rewrite delivered_app. cbn. by apply Forall2_app; [|constructor].
    - apply Forall_app. split; [done|]. by repeat constructor.
    - by rewrite last_snoc. }
  apply (ends_bind (λ _, standing start a (xs ++ [y]) b)).
  - apply ends_yield. intros st4 F4 A4. split; [by apply HS|]. eapply standing_result. by apply HS.
  - intros _ st4 H4. destruct ended; [|exact H4]. cbn. apply standing_result in H4. exact H4.
Qed.

Lemma page_ends (F : gstate → Prop) a b es ys xs st :
  E = a ++ (xs ++ ys) ++ b → follows start a (xs ++ ys) → Forall2 decodes es ys → standing start a xs (ys ++ b) st →
  ends (λ _, standing start a (xs ++ ys) b) (result start) F
    (deliver_page world session_id tenant_id run_id api_instance_id connection_id es st).
Proof.
  intros HEq Hf Hd. revert xs st HEq Hf. induction Hd as [|e y es ys He Hd IH]; intros xs st HEq Hf Hs.
  - rewrite app_nil_r. exact Hs.
  - destruct Hs as [[_ Hx _] Hg Ha]. cbn [deliver_page].
    replace (xs ++ y :: ys) with ((xs ++ [y]) ++ ys) in * by by rewrite <- app_assoc.
    apply (ends_bind (λ _, standing start a (xs ++ [y]) (ys ++ b))).
    + apply deliver_ends; try done; [by rewrite HEq, <- !app_assoc|]. eapply follows_head; [|exact Hf]. by destruct xs.
    + intros _ st1 H1. by apply IH.
Qed.

Lemma live_page_ends (F : gstate → Prop) a b es ys xs st lo :
  E = a ++ (xs ++ ys) ++ b → follows start a (xs ++ ys) → Forall2 decodes es ys → standing start a xs (ys ++ b) st →
  redis_id_tuple (gs_after st) = SOk lo → Forall (fun y => id_ltb lo (en_id y) = true) ys →
  ends (λ _, standing start a (xs ++ ys) b) (result start) F
    (deliver_live world session_id tenant_id run_id api_instance_id connection_id es st).
Proof.
  intros HEq Hf Hd. revert xs st lo HEq Hf. induction Hd as [|e y es ys He Hd IH]; intros xs st lo HEq Hf Hs Hlo Hlt.
  - rewrite app_nil_r. exact Hs.
  - destruct Hs as [[_ Hx _] Hg Ha]. cbn [deliver_live]. inversion Hlt as [|? ? Hy Hys]; subst.
    assert (y ∈ E) as Hin by (rewrite HEq, !elem_of_app; right; left; right; left).
    pose proof (decodes_tuple _ _ Hin He) as Ht.
    assert (live_redis_id_is_after (sc_redis_id (ve_cursor e)) (gs_after st) = SOk true) as Hn.
    { unfold live_redis_id_is_after. rewrite Ht, Hlo. cbn. by rewrite Hy. }
    unfold gbind at 1, read. cbn [fst snd]. rewrite Hn. unfold gbind at 1. cbn [lift gret].
    replace (xs ++ y :: ys) with ((xs ++ [y]) ++ ys) in * by by rewrite <- app_assoc.
    apply (ends_bind (λ _, standing start a (xs ++ [y]) (ys ++ b))).
    + apply deliver_ends; try done; [by rewrite HEq, <- !app_assoc|]. eapply follows_head; [|exact Hf]. by destruct xs.
    + intros _ st1 H1. apply (IH _ _ (en_id y)); try done.
      * destruct H1 as [_ _ ->]. rewrite last_snoc. apply decodes_id in He as (<- & _). done.
      * destruct HE as [HsE _]. rewrite HEq in HsE. apply sorted_app in HsE as (_ & HsE & _). apply sorted_app in HsE as (HsE & _).
        rewrite <- app_assoc in HsE. apply sorted_app in HsE as (_ & HsE & _). inversion HsE; subst. done.
Qed.

(** How much of the history is after a position. *)
Definition remaining (after : string) : nat :=
  match redis_id_tuple after with
  | SOk lo => length (List.filter (fun e => id_ltb lo (en_id e)) E)
  | SErr _ => 0
  end.

Lemma filter_smaller {A} (f g : A → bool) l x :
  (∀ y, f y = true → g y = true) → x ∈ l → g x = true → f x = false →
  (length (List.filter f l) < length (List.filter g l))%nat.
Proof.
  intros Hfg Hx Hg Hf.
  assert (∀ l, (length (List.filter f l) ≤ length (List.filter g l))%nat) as Hle.
  { induction l0 as [|y l0 IH]; [done|]. cbn. specialize (Hfg y). destruct (f y), (g y); cbn; try lia; by specialize (Hfg eq_refl). }
  induction Hx as [x l|x y l Hx IH]; cbn.
  - rewrite Hf, Hg. cbn. specialize (Hle l). lia.
  - specialize (IH Hg Hf). specialize (Hfg y). destruct (f y), (g y); cbn; try lia; by specialize (Hfg eq_refl).
Qed.

Lemma remaining_decreases after lo y :
  redis_id_tuple after = SOk lo → y ∈ E → id_ltb lo (en_id y) = true → redis_id_tuple (redis_id_text (en_id y)) = SOk (en_id y) →
  (remaining (redis_id_text (en_id y)) < remaining after)%nat.
Proof.
  intros Ha Hy Hlt Ht. unfold remaining. rewrite Ha, Ht. apply (filter_smaller _ _ _ y); [|done|done|apply id_ltb_irrefl].
  intros z Hz. by eapply id_ltb_trans.
Qed.
Lemma remaining_bound after : (remaining after ≤ length E)%nat.
Proof. unfold remaining. destruct (redis_id_tuple after); [|lia]. apply List.filter_length_le. Qed.

Notation replay := (replay_loop world session_id tenant_id run_id api_instance_id connection_id authority).
Notation live := (live_loop world session_id tenant_id run_id api_instance_id connection_id authority).

(** The replay keeps its position, and runs out of fuel only when it is given less than
    is left of the history. *)
Lemma replay_ends (F : gstate → Prop) tail fuel st :
  at_position start st → (remaining (gs_after st) < fuel)%nat ∨ (∀ st', at_position start st' → F st') →
  ends (λ _, at_position start) (result start) F (replay fuel tail st).
Proof.
  revert st. induction fuel as [|fuel IH]; intros st Hp Hfu; cbn [replay_loop];
    (apply (ends_bind (λ after st', after = gs_after st ∧ st' = st)); [by cbn|]; intros after ? [-> ->]);
    (destruct (String.eqb (gs_after st) tail); [exact Hp|]).
  { destruct Hfu as [Hfu|Hfu]; [lia|]. by apply Hfu. }
  destruct Hp as (a & xs & b & Hs). pose proof (standing_result _ _ _ _ _ Hs) as HR.
  apply (ends_bind (λ i st', shows (in_redis i) ∧ gs_after st' = gs_after st ∧ gs_frames st' = gs_frames st)).
  { unfold await, ends. cbn. destruct (in_cancelled _); cbn; [|by split]. by eapply result_transfer. }
  intros i st1 (Hi & A1 & F1). pose proof (standing_transfer _ _ _ _ _ _ Hs A1 F1) as Hs1. rewrite <- A1.
  eapply ends_bind; [by apply or_gap_ends|]. intros es st2 [Hpage Hs2]. cbn beta.
  destruct es as [|e es]; [by apply standing_result in Hs2|].
  assert (∃ lo hi, redis_id_tuple (gs_after st1) = SOk lo ∧ redis_id_tuple tail = SOk hi) as (lo & hi & Hlo & Hhi).
  { unfold replay_page in Hpage. apply sbind_ok in Hpage as (lo & Hlo & Hpage). apply sbind_ok in Hpage as (hi & Hhi & _). eauto. }
  destruct (page_spec _ _ _ _ _ _ Hi Hpage ltac:(done) Hlo Hhi) as (a' & ys & b' & HEq & Hd & Hf & Hids).
  assert (ys ≠ []) as Hys by (intros ->; inversion Hd).
  assert (gs_after st2 = gs_after st1) as A2 by (by destruct Hs1 as [_ _ ->], Hs2 as [_ _ ->]).
  rewrite <- A2 in Hf. destruct (standing_continues _ _ _ _ _ _ _ _ Hs2 HEq Hys Hf) as (a2 & HEq2 & Hf2).
  apply (ends_bind (λ _, standing start a2 (xs ++ ys) b')).
  { apply page_ends; [done..|]. destruct Hs2 as [[_ Hx _] Hg Ha]. split; [|done|done].
    split; [by rewrite HEq2, <- app_assoc|done|]. destruct xs; [by left|right]. by eapply follows_head; [|exact Hf2]. }
  intros _ st3 Hs3. apply (ends_bind (λ after st', after = gs_after st3 ∧ st' = st3)); [by cbn|]. intros after ? [-> ->].
  destruct (String.eqb _ _); [by apply standing_result in Hs3|]. apply IH; [by exists a2, (xs ++ ys), b'|].
  destruct Hfu as [Hfu|Hfu]; [left|by right]. destruct Hs3 as [_ _ A3]. rewrite A3, last_app.
  destruct (last ys) as [y|] eqn:Ey; [|by apply last_None in Ey].
  apply last_Some in Ey as [ys0 ->]. apply Forall2_app_inv_r in Hd as (es1 & es2 & _ & Hd2 & _).
  apply Forall2_cons_inv_r in Hd2 as (e2 & ? & He2 & _ & _).
  assert (y ∈ E) as Hy by (rewrite HEq, !elem_of_app; right; left; right; left).
  apply Forall_app in Hids as [_ Hids]. inversion Hids as [|? ? [Hylo _] _]; subst.
  assert (remaining (redis_id_text (en_id y)) < remaining (gs_after st1))%nat; [|rewrite A1 in *; lia].
  apply (remaining_decreases _ lo); try done. pose proof (decodes_tuple _ _ Hy He2) as Ht. apply decodes_id in He2 as (He2 & _).
  by rewrite He2 in Ht.
Qed.

Lemma await_ends (F : gstate → Prop) a xs b st :
  standing start a xs b st →
  ends (λ i st', shows (in_redis i) ∧ standing start a xs b st') (result start) F (await world st).
Proof.
  intros Hs. unfold await, ends. cbn. destruct (in_cancelled _); cbn; [|split; [done|]].
  - eapply result_transfer; [by eapply standing_result|done].
  - by eapply standing_transfer.
Qed.
Lemma authorize_ends (F : gstate → Prop) a xs b st :
  standing start a xs b st → ends (λ _, standing start a xs b) (result start) F (authorize st).
Proof.
  intros Hs. apply ends_keeps; [auto with keeps|intros; by eapply standing_transfer|].
  intros st' _ Hf. eapply result_transfer; [by eapply standing_result|done].
Qed.

Lemma heartbeat_standing a xs b st st' :
  standing start a xs b st → gs_frames st' = gs_frames st ++ [(gs_clock st, Heartbeat)] → gs_after st' = gs_after st →
  standing start a xs b st'.
Proof.
  intros [[H1 H2 H3] Hg Ha] Hf Haf. split; rewrite ?Hf, ?Haf; [|apply Forall_app; split; [done|by repeat constructor]|done].
  split; [done| |done]. rewrite delivered_app. cbn. by rewrite app_nil_r.
Qed.

Lemma live_ends fuel st :
  at_position start st → ends (λ _, at_position start) (result start) (result start) (live fuel st).
Proof.
  revert st. induction fuel as [|fuel IH]; intros st (a & xs & b & Hs); cbn [live_loop]; [by eapply standing_result|].
  eapply ends_bind; [by apply authorize_ends|]. intros ok st1 Hs1. cbn beta in Hs1.
  destruct ok; cbn [negb]; [|by apply standing_result in Hs1].
  apply (ends_bind (λ after st', after = gs_after st1 ∧ st' = st1)); [by cbn|]. intros after ? [-> ->].
  eapply ends_bind; [by apply await_ends|]. intros i st2 [_ Hs2].
  eapply ends_bind; [by apply await_ends|]. intros j st3 [Hj Hs3].
  eapply ends_bind; [by apply or_gap_ends|]. intros es st4 [Hread Hs4]. destruct es as [|e es].
  - eapply ends_bind; [by apply authorize_ends|]. intros ok st5 Hs5. cbn beta in Hs5.
    destruct ok; cbn [negb]; [|by apply standing_result in Hs5].
    apply (ends_bind (λ status st', st' = st5)); [by cbn|]. intros status ? ->.
    destruct (str_in _ _); [by apply standing_result in Hs5|].
    apply (ends_bind (λ _, standing start a xs b)); [|intros _ st6 Hs6; apply IH; by exists a, xs, b].
    apply ends_yield. intros st6 F6 A6. pose proof (heartbeat_standing _ _ _ _ _ Hs5 F6 A6) as Hs6.
    split; [done|by eapply standing_result].
  - destruct (read_spec _ _ _ _ Hj Hread ltac:(done)) as (lo & a' & ys & b' & Hlo & HEq & Hd & Hf & Hids).
    assert (gs_after st4 = gs_after st1) as A4 by (by destruct Hs1 as [_ _ ->], Hs4 as [_ _ ->]).
    rewrite <- A4 in *. assert (ys ≠ []) as Hys by (intros ->; inversion Hd).
    destruct (standing_continues _ _ _ _ _ _ _ _ Hs4 HEq Hys Hf) as (a2 & HEq2 & Hf2).
    apply (ends_bind (λ _, standing start a2 (xs ++ ys) b')); [|intros _ st5 Hs5; apply IH; by exists a2, (xs ++ ys), b'].
    eapply live_page_ends; [done..| |done|done]. destruct Hs4 as [[_ Hx _] Hg Ha]. split; [|done|done].
    split; [by rewrite HEq2, <- app_assoc|done|]. destruct xs; [by left|right]. by eapply follows_head; [|exact Hf2].
Qed.
End Loops.

Notation run_stream := (stream world session_id tenant_id run_id api_instance_id connection_id authority).

Definition resume_start (resume : resume_decision) : string :=
  let after := default "" (rd_after_redis_id resume) in if str_truthy after then after else "0-0".

Lemma start_standing lease status resume :
  standing (resume_start resume) [] [] E (start_state world lease status resume).
Proof. split; [split; [done|constructor|by left]|constructor|done]. Qed.

Lemma stream_ends (Hworld : ∀ n, shows (in_redis (world n))) replay_fuel live_fuel lease status resume :
  result (resume_start resume) (run_stream replay_fuel live_fuel lease status resume).1.
Proof.
  set (start := resume_start resume). pose proof (start_standing lease status resume) as Hs. fold start in Hs.
  assert (ends (λ _, result start) (result start) (result start) (run_stream replay_fuel live_fuel lease status resume)) as He;
    [|by unfold ends in He; destruct (run_stream _ _ _ _ _) as [st []]].
  unfold stream, stream_body. destruct (rd_gap resume) as [gap|]; [by eapply gap_ends|].
  destruct (rd_ended resume); [by apply standing_result in Hs|].
  eapply ends_bind; [by apply authorize_ends|]. intros ok st1 Hs1. cbn beta in Hs1.
  destruct ok; cbn [negb]; [|by apply standing_result in Hs1].
  apply (ends_bind (λ _, at_position start)).
  - destruct (rd_replay_tail_redis_id resume) as [tail|]; [|by exists [], [], E].
    apply replay_ends; [done|by exists [], [], E|]. right. intros st' (a & xs & b & Hs'). by eapply standing_result.
  - intros _ st2 Hp2. pose proof (live_ends Hworld start live_fuel st2 Hp2) as He.
    unfold ends in *. destruct (live_loop _ _ _ _ _ _ _ _ _) as [st3 []]; try done.
    destruct He as (a' & xs & b & He'). by eapply standing_result.
Qed.

(** C26.  The replay of the backlog terminates.  Started anywhere the stream can be resumed
    from, the loop over pages of the backlog ends (at the tail, with a notice of a gap, or
    with an exception) after at most as many pages as the history has entries, although
    pages are read while entries are appended and dropped: every page moves strictly
    forward. *)
Theorem replay_terminates (Hworld : ∀ n, shows (in_redis (world n))) fuel tail lease status resume :
  (length E < fuel)%nat →
  (replay_loop world session_id tenant_id run_id api_instance_id connection_id authority fuel tail
     (start_state world lease status resume)).2 ≠ OutOfFuel.
Proof.
  intros Hfuel. assert (at_position (resume_start resume) (start_state world lease status resume)) as Hp
    by (exists [], [], E; apply start_standing).
  pose proof (replay_ends Hworld _ (λ _, False) tail fuel _ Hp) as He.
  intros Hn. unfold ends in He. rewrite Hn in He. apply He. left.
  pose proof (remaining_bound (gs_after (start_state world lease status resume))). lia.
Qed.

(** ** Revocation *)

Section Revocation.
Context (t : Z).
Context (Hrevoked : ∀ n run db a, in_database (world n) = Some (run, db) → t <= in_now (world n) →
  get_stream_authority db tenant_id run_id = Some a → sa_revocation_state a ≠ "active").

Notation limit := (t + SSE_AUTHORITY_LEASE_SECONDS * 1000000).

Record bounded (st : gstate) : Prop := {
  bd_lease : sl_lease_not_after (gs_lease st) <= limit;
  bd_frames : Forall (fun f => f.1 < limit) (gs_frames st)
}.
Definition stays {A} (m : gen A) : Prop := ∀ st, bounded st → bounded (m st).1.

Lemma stays_bind {A B} (m : gen A) (k : A → gen B) : stays m → (∀ a, stays (k a)) → stays (gbind m k).
Proof.
  intros Hm Hk st Hb. unfold gbind. specialize (Hm st Hb). destruct (m st) as [st' []]; cbn in *; try done. by apply Hk.
Qed.
Lemma stays_transfer {A} (m : gen A) :
  (∀ st, gs_lease (m st).1 = gs_lease st ∧ gs_frames (m st).1 = gs_frames st) → stays m.
Proof. intros Hm st [H1 H2]. destruct (Hm st) as [Hl Hf]. split; by rewrite ?Hl, ?Hf. Qed.
Lemma stays_ret {A} (a : A) : stays (gret a). Proof. by apply stays_transfer. Qed.
Lemma stays_stop {A} : stays (stop (A := A)). Proof. by apply stays_transfer. Qed.
Lemma stays_raise {A} e : stays (raise (A := A) e). Proof. by apply stays_transfer. Qed.
Lemma stays_crash {A} : stays (crash (A := A)). Proof. by apply stays_transfer. Qed.
Lemma stays_read {A} (f : gstate → A) : stays (read f). Proof. by apply stays_transfer. Qed.
Lemma stays_lift {A} (m : sres A) : stays (lift m). Proof. destruct m; by apply stays_transfer. Qed.
Lemma stays_await : stays (await world). Proof. by apply stays_transfer. Qed.
Lemma stays_clock : stays (clock world). Proof. by apply stays_transfer. Qed.
Lemma stays_exit e : stays (set_exit e). Proof. by apply stays_transfer. Qed.
Lemma stays_status s : stays (set_status s). Proof. by apply stays_transfer. Qed.
Lemma stays_after s : stays (set_after s). Proof. by apply stays_transfer. Qed.
Lemma stays_terminal s : stays (set_terminal s). Proof. by apply stays_transfer. Qed.

Create HintDb stays.
#[local] Hint Resolve stays_bind stays_ret stays_stop stays_raise stays_crash stays_read stays_lift stays_await stays_clock
  stays_exit stays_status stays_after stays_terminal : stays.

(** A lease acquired from the tables of an instant ends within one lease of the
    revocation. *)
Lemma acquired_bound n run db d l :
  in_database (world n) = Some (run, db) →
  acquire_sse_authority_lease (in_now (world n)) (in_lease_id (world n)) tenant_id run_id api_instance_id connection_id
    SSE_AUTHORITY_LEASE_SECONDS db = SOk (d, l) → sl_lease_not_after l <= limit.
Proof.
  intros Hdb Hl. unfold acquire_sse_authority_lease in Hl. run_sres Hl.
  apply issue_spec in Hl as ((a & Ea & Ha) & _ & _ & Hn); [|done]. unfold lease_limit in Hn.
  destruct (Z.le_gt_cases t (in_now (world n))) as [Hle|Hlt]; [|lia]. by destruct (Hrevoked _ _ _ _ Hdb Hle Ea).
Qed.

(** After a successful authorization the clock is before the end of the lease. *)
Lemma authorize_bounded st :
  bounded st → bounded (authorize st).1 ∧ ((authorize st).2 = Next true → gs_clock (authorize st).1 < limit).
Proof.
  intros Hb. unfold authorize_frame, refresh_lease, gbind, clock, read, await. cbn [fst snd gret tick gs_lease].
  destruct (allows_frame (gs_lease st) (in_now (world (gs_tick st)))) eqn:Ea.
  { destruct Hb as [H1 H2]. unfold allows_frame in Ea. apply Z.ltb_lt in Ea. cbn. split; [by split|]. intros _. lia. }
  destruct (in_cancelled _); [cbn; split; [by split; destruct Hb|done]|]. change (gs_tick (tick world st)) with (S (gs_tick st)).
  destruct (in_database (world (S (gs_tick st)))) as [[[r|] db]|] eqn:Ed; [|cbn; split; [by split; destruct Hb|done]..].
  destruct (negb _); [cbn; split; [by split; destruct Hb|done]|]. cbn [set_status].
  destruct (acquire_sse_authority_lease _ _ _ _ _ _ _ _) as [[d l]|e] eqn:El;
    [|destruct (is_value_error e); cbn; (split; [by split; destruct Hb|done])].
  apply (acquired_bound _ _ _ _ _ Ed) in El. cbn. destruct (allows_frame l _) eqn:Ef; cbn.
  - apply Z.ltb_lt in Ef. destruct Hb as [H1 H2]. split; [by split|]. intros _. lia.
  - destruct Hb as [H1 H2]. split; [by split|done].
Qed.

Lemma yield_bounded f st : bounded st → gs_clock st < limit → bounded (yield world f st).1.
Proof.
  intros [H1 H2] Hc. destruct (yield_frames f st) as (Hf & _ & _). split; [|rewrite Hf; apply Forall_app; split; [done|by repeat constructor]].
  unfold yield, gbind, await. cbn. by destruct (in_cancelled _).
Qed.

(** Every frame is yielded right after an authorization. *)
Lemma stays_authorized {A} (f : frame) (then_ : gen A) (k : bool → gen A) :
  k true = gbind (yield world f) (λ _, then_) → stays then_ → stays (k false) → stays (gbind authorize k).
Proof.
  intros Ek Hk Hno st Hb. destruct (authorize_bounded st Hb) as [H1 H2]. unfold gbind at 1.
  destruct (authorize st) as [st1 [[]| | | | |]]; cbn in *; try done; [rewrite Ek|by apply Hno].
  specialize (H2 eq_refl). pose proof (yield_bounded f st1 H1 H2) as H3. unfold gbind.
  destruct (yield world f st1) as [st2 [[]| | | | |]]; cbn in *; try done. by apply Hk.
Qed.
Lemma stays_authorize {A} (k : bool → gen A) : (∀ ok, stays (k ok)) → stays (gbind authorize k).
Proof.
  intros Hk st Hb. destruct (authorize_bounded st Hb) as [H1 _]. unfold gbind.
  destruct (authorize st) as [st1 []]; cbn in *; try done. by apply Hk.
Qed.
Lemma stays_if {A} (b : bool) (m k : gen A) : stays m → stays k → stays (if b then m else k).
Proof. by destruct b. Qed.

Lemma stays_gap {A} r i n :
  stays (end_with_gap (A := A) world session_id tenant_id run_id api_instance_id connection_id authority r i n).
Proof.
  unfold end_with_gap. apply stays_bind; [auto with stays|intros _].
  apply stays_bind; [unfold gap_frame; repeat (apply stays_bind; [auto with stays|intros ?]); auto with stays|intros f].
  eapply stays_authorized; [reflexivity|auto with stays..].
Qed.
Lemma stays_or_gap {A} (m : sres A) :
  stays (or_gap world session_id tenant_id run_id api_instance_id connection_id authority m).
Proof.
  destruct m as [a|e]; [apply stays_ret|]. destruct e; cbn [or_gap]; auto with stays. apply stays_if; [|auto with stays].
  apply stays_bind; [auto with stays|intros after]. apply stays_gap.
Qed.
Lemma stays_deliver e : stays (deliver e).
Proof.
  unfold deliver_entry. apply stays_bind; [auto with stays|intros _]. apply stays_bind.
  { unfold project_entry. apply stays_bind; [apply stays_if; auto with stays|intros _]. apply stays_bind; [auto with stays|intros r].
    apply stays_if; auto with stays. }
  intros ended. eapply stays_authorized; [reflexivity|apply stays_if|]; auto with stays.
Qed.
#[local] Hint Resolve stays_or_gap stays_deliver stays_if : stays.

Lemma stays_page es : stays (deliver_page world session_id tenant_id run_id api_instance_id connection_id es).
Proof. induction es; cbn [deliver_page]; auto with stays. Qed.
Lemma stays_live_page es : stays (deliver_live world session_id tenant_id run_id api_instance_id connection_id es).
Proof. induction es; cbn [deliver_live]; auto 8 with stays. Qed.

Lemma stays_replay fuel tail :
  stays (replay_loop world session_id tenant_id run_id api_instance_id connection_id authority fuel tail).
Proof.
  induction fuel as [|fuel IH]; cbn [replay_loop]; (apply stays_bind; [auto with stays|intros prev]);
    (apply stays_if; [auto with stays|]); [by apply stays_transfer|].
  apply stays_bind; [auto with stays|intros i]. apply stays_bind; [auto with stays|intros es].
  apply stays_if; [auto with stays|]. apply stays_bind; [apply stays_page|intros _].
  apply stays_bind; [auto with stays|intros after]. apply stays_if; auto with stays.
Qed.

Lemma stays_live fuel : stays (live_loop world session_id tenant_id run_id api_instance_id connection_id authority fuel).
Proof.
  induction fuel as [|fuel IH]; cbn [live_loop]; [by apply stays_transfer|].
  apply stays_authorize. intros ok. apply stays_if; [auto with stays|]. apply stays_bind; [auto with stays|intros after].
  do 2 (apply stays_bind; [auto with stays|intros ?]). apply stays_bind; [auto with stays|intros es].
  destruct es as [|e es]; [|apply stays_bind; [apply stays_live_page|auto]].
  intros st Hb. destruct (authorize_bounded st Hb) as [H1 H2]. unfold gbind at 1.
  destruct (authorize st) as [st1 [[]| | | | |]]; cbn [fst snd negb] in *; try exact H1. specialize (H2 eq_refl).
  unfold gbind at 1, read. cbn [fst snd]. destruct (str_in _ _); [by apply (stays_bind (set_exit _)); auto with stays|].
  pose proof (yield_bounded Heartbeat st1 H1 H2) as H3. unfold gbind.
  destruct (yield world Heartbeat st1) as [st2 [[]| | | | |]]; cbn in *; try done. by apply IH.
Qed.

(** C27.  No frame after a revocation.  When the authority of a stream is revoked at some
    time, every frame a connection delivers, a heartbeat or a notice of a gap included,
    was authorized less than one lease (fifteen seconds) after it, however long the
    connection stays open; the lease it started with was issued before the revocation. *)
Theorem no_frame_after_revocation replay_fuel live_fuel lease status resume :
  sl_lease_not_after lease <= t + SSE_AUTHORITY_LEASE_SECONDS * 1000000 →
  Forall (fun f => f.1 < t + SSE_AUTHORITY_LEASE_SECONDS * 1000000)
    (gs_frames (stream world session_id tenant_id run_id api_instance_id connection_id authority replay_fuel live_fuel lease
                  status resume).1).
Proof.
  intros Hl. apply bd_frames. unfold stream.
  assert (stays (stream_body world session_id tenant_id run_id api_instance_id connection_id authority replay_fuel live_fuel resume))
    as Hs; [|apply Hs; by split; [|constructor]].
  unfold stream_body. destruct (rd_gap resume) as [gap|]; [apply stays_gap|]. apply stays_if; [auto with stays|].
  apply stays_authorize. intros ok. apply stays_if; [auto with stays|].
  apply stays_bind; [|intros _; apply stays_live]. destruct (rd_replay_tail_redis_id resume); [apply stays_replay|auto with stays].
Qed.
End Revocation.
End Delivery.

(** ** A concrete connection *)

(** The authority confirmed in [StreamAuthorityFacts], an opening event and two deltas;
    the second delta is appended after the connection has started. *)
Definition sample_key : string := "ai-platform:sse:v3:{t_1:run_7}:1:events".
Definition delta_text (n : Z) (text : string) : string :=
  encode_text (lval_of_py (PDict (envelope_dict
    {| ev_event_id := "evt4_" +:+ py_str_int n; ev_tenant_scope := "t_1"; ev_run_id := "run_7"; ev_attempt_id := "att_1";
       ev_message_id := Some "msg4_a"; ev_seq := Some n; ev_event_type := "message.delta"; ev_stream_incarnation := 1;
       ev_replayable := true; ev_trace_ref := None; ev_causation_event_id := None;
       ev_emitted_at := "2025-01-01T00:00:00Z"; ev_payload := [("delta", PStr text)];
       ev_source := [("kind", PStr "run_event"); ("run_event_id", PStr ("evt4_" +:+ py_str_int n)); ("sequence", PInt n)] |}))).
Definition open_text : string :=
  match @build_v4_control toy_py toy_stream noon "sev_1" "t_1" "run_7" "att_1" 1 "stream.open"
          [("design_id", PStr STREAM_DESIGN_ID)] [("kind", PStr "stream_authority"); ("authority_id", PStr "sev_1")] None None with
  | SOk e => encode_text (lval_of_py (PDict (envelope_dict e)))
  | SErr _ => ""
  end.
Definition sample_history : list stream_entry :=
  Eval vm_compute in
  [StreamEntry (1000, 0) open_text; StreamEntry (1001, 0) (delta_text 2 "hel");
   StreamEntry (1001, 1) (delta_text 3 "lo")].
Definition sample_redis (n : nat) : streams :=
  {[sample_key := Channel (Some (RedisStream (take n sample_history) (1001, 1) None)) None]}.
Definition sample_world (n : nat) : instant :=
  Instant (noon + 2000000 + Z.of_nat n) (Some (sample_redis (if (n <? 6)%nat then 2 else 3)))
    (Some (Some (AuthorizedRun "ses_1" "running"), revoked.1)) "sle_2" false.
Definition sample_resume : resume_decision := ResumeDecision (Some "0-0") None None false (Some "1001-0").
Definition sample_stream : gstate * flow unit :=
  @stream toy_py toy_stream sample_world "ses_1" "t" "run_7" "api" "conn" confirmed.2 3 2 leased.2 "running" sample_resume.

Example sample_delivery :
  map (fun f => match f.2 with EntryFrame e => sc_event_id (ve_cursor e) | GapFrame _ _ => "gap" | Heartbeat => "heartbeat" end)
    (gs_frames sample_stream.1) = ["run_7:1:1000-0"; "run_7:1:1001-0"; "run_7:1:1001-1"; "heartbeat"] ∧
  sample_stream.2 = OutOfFuel.
Proof. vm_compute. done. Qed.

Lemma sample_recorded : recorded sample_history.
Proof.
  split.
  - repeat constructor.
  - repeat (constructor; [cbn; split_and!; [lia|lia|discriminate]|]). constructor.
Qed.
Lemma sample_shows n : shows sample_key sample_history (in_redis (sample_world n)).
Proof.
  intros ss [= <-]. destruct (n <? 6)%nat; [exists [], (drop 2 sample_history)|exists [], []]; vm_compute; reflexivity.
Qed.

Lemma replay_terminates_witness :
  (@replay_loop toy_py toy_stream sample_world "ses_1" "t" "run_7" "api" "conn" confirmed.2 4 "1001-0"
     (start_state sample_world leased.2 "running" sample_resume)).2 ≠ OutOfFuel.
Proof.
  apply (@replay_terminates toy_py toy_stream sample_world "ses_1" "t" "run_7" "api" "conn" confirmed.2 sample_key
           sample_history eq_refl sample_recorded sample_shows 4 "1001-0" leased.2 "running" sample_resume).
  apply Nat.ltb_lt. vm_compute. reflexivity.
Defined.

Lemma no_frame_after_revocation_witness :
  Forall (fun f => f.1 < noon + 2000000 + SSE_AUTHORITY_LEASE_SECONDS * 1000000) (gs_frames sample_stream.1).
Proof.
  apply (@no_frame_after_revocation toy_py toy_stream sample_world "ses_1" "t" "run_7" "api" "conn" confirmed.2 (noon + 2000000)).
  - intros n run db a Hd _ E.
    assert (revoked.1 = db) as <- by exact (f_equal (fun o => match o with Some (_, d) => d | None => revoked.1 end) Hd).
    apply (f_equal (fun o => match o with Some a => sa_revocation_state a | None => "" end)) in E. rewrite <- E.
    vm_compute. discriminate.
  - vm_compute. discriminate.
Defined.

(** ** Waiting for the admission *)

Section Waiting.
Context (session_id tenant_id run_id api_instance_id connection_id lease_id : string).

(** The monotonic clock does not go back, and [asyncio.sleep] sleeps at least as long as
    it is asked to. *)
Inductive paced (deadline : Z) : Z → list admission_round → Prop :=
| paced_nil now : paced deadline now []
| paced_cons now r rounds :
    now <= rnd_start r → rnd_start r <= rnd_before_sleep r →
    paced deadline (rnd_before_sleep r + Z.min SSE_STARTUP_ADMISSION_POLL (deadline - rnd_before_sleep r)) rounds →
    paced deadline now (r :: rounds).

Lemma paced_waits deadline now rounds code :
  paced deadline now rounds → deadline - now <= Z.of_nat (length rounds) * SSE_STARTUP_ADMISSION_POLL - SSE_STARTUP_ADMISSION_POLL →
  rounds ≠ [] →
  await_sse_admission session_id tenant_id run_id api_instance_id connection_id lease_id rounds deadline code ≠ inr StillWaiting.
Proof.
  intros Hp. revert code. induction Hp as [|now r rounds Hs Hb Hp IH]; intros code Hl Hne; [done|]. clear Hne.
  cbn [await_sse_admission]. destruct (Z.leb_spec (deadline - rnd_start r) 0) as [|Hd]; [done|].
  destruct (rnd_outcome r) as [[]| |wall run db]; [done..|]. destruct run as [run|]; [|done]. destruct (negb _); [done|].
  destruct (acquire_sse_admission_lease _ _ _ _ _ _ _ _) as [[? [auth lease]]|[]]; try done.
  destruct (_ && _); [done|].
  assert (∀ code, (if deadline - rnd_before_sleep r <=? 0 then inr (sse_admission_timeout code)
    else await_sse_admission session_id tenant_id run_id api_instance_id connection_id lease_id rounds deadline code) ≠
    inr StillWaiting) as Hnext.
  { intros code'. destruct (Z.leb_spec (deadline - rnd_before_sleep r) 0); [done|].
    unfold SSE_STARTUP_ADMISSION_POLL in *. cbn [length] in Hl. apply IH; [lia|]. intros ->. cbn in Hl. lia. }
  destruct lease as [lease|], auth as [a|]; try apply Hnext. by destruct (deadline <=? rnd_after r).
Qed.

(** The wait for an admission ends.  A connection that waits for its stream to be
    admitted is answered, with a lease, a refusal or a retryable timeout, within at most
    51 rounds of polling, whatever the transactions of the rounds do, when the clock does
    not go back and a sleep takes at least the time asked for. *)
Lemma admission_wait_ends now rounds code :
  paced (now + SSE_STARTUP_ADMISSION_WAIT) now rounds → length rounds = 51%nat →
  await_sse_admission session_id tenant_id run_id api_instance_id connection_id lease_id rounds
    (now + SSE_STARTUP_ADMISSION_WAIT) code ≠ inr StillWaiting.
Proof.
  intros Hp Hl. eapply paced_waits; [done| |by intros ->]. rewrite Hl. unfold SSE_STARTUP_ADMISSION_WAIT, SSE_STARTUP_ADMISSION_POLL. lia.
Qed.
End Waiting.

(** A run whose stream is not admitted, polled every tenth of a second. *)
Definition idle_round (start : Z) : admission_round :=
  AdmissionRound start (RoundDone noon (Some (AuthorizedRun "ses_1" "running")) (SseDb ∅ ∅)) start start.
Fixpoint idle_rounds (n : nat) (start : Z) : list admission_round :=
  match n with O => [] | S n => idle_round start :: idle_rounds n (start + SSE_STARTUP_ADMISSION_POLL) end.

Lemma idle_paced n start deadline : paced deadline start (idle_rounds n start).
Proof.
  revert start. induction n as [|n IH]; intros start; cbn [idle_rounds]; constructor; cbn [rnd_start rnd_before_sleep idle_round]; try lia.
  specialize (IH (start + SSE_STARTUP_ADMISSION_POLL)).
  assert (start + Z.min SSE_STARTUP_ADMISSION_POLL (deadline - start) <= start + SSE_STARTUP_ADMISSION_POLL) by lia.
  destruct n; cbn [idle_rounds] in *; constructor; inversion IH; subst; cbn in *; auto; lia.
Qed.

