(* ===== verification/StreamRecords.v ===== *)
(** * From the writers of a stream to its readers

    The log of a stream is everything that was ever appended under its key, over all the
    times it expired and was opened again.  As long as the clock of Redis does not go
    back, the ids of the log increase and what Redis holds at any time is a stretch of
    it; a connection served in such a world delivers a stretch of the log. *)
From stdpp Require Import base gmap list strings relations.
From Stdlib Require Import ZArith Lia Ascii Sorted.
From S2P Require Import Prelude Redis PyValue QueueRuntime Numerals RunAttempt StreamCursors StreamCursorsFacts StreamProtocol.
From S2P Require Import StreamEvents StreamEventsFacts CanonicalJson StreamChannel StreamChannelFacts StreamReplay StreamAuthority.
From S2P Require Import StreamAuthorityFacts StreamDelivery StreamDeliveryFacts.
#[local] Open Scope py_scope.

(** ** The log *)

Section Log.
Context `{LuaRuntime}.

(** What a step appended: the end of the history of the stream's current life. *)
Definition appended (now : Z) (c : channel) (h h' : history) : list stream_entry :=
  snd <$> drop (length (base now c h)) h'.

(** Runs of the scripts on one key, with the clock of Redis, the history of the current
    life of the stream and the log. *)
Inductive logged : Z → channel → history → list stream_entry → Prop :=
| logged_start clock : 0 < clock → logged clock empty_channel [] []
| logged_append clock now trim a c h L :
    logged clock c h L → clock <= now → (1 ≤ aa_maxlen a)%nat → 0 < aa_ttl a →
    logged now (append_with_ttl now trim a c).1 (append_history now trim a c h)
      (L ++ appended now c h (append_history now trim a c h))
| logged_batch clock now trims b c h L :
    logged clock c h L → clock <= now → (1 ≤ ba_maxlen b)%nat → 0 < ba_ttl b →
    logged now (append_callback now trims b c).1 (batch_history now trims b c h)
      (L ++ appended now c h (batch_history now trims b c h))
| logged_expire clock now c h L :
    logged clock c h L → clock <= now → logged now (expire now c) (base now c h) L.

Definition ms (x : stream_entry) : Z := (en_id x).1.
Definition seq (x : stream_entry) : Z := (en_id x).2.

Record log_inv (clock : Z) (c : channel) (h : history) (L : list stream_entry) : Prop := {
  li_clock : 0 < clock;
  li_stream : stream_inv c h;
  li_ids : Forall (fun x => 0 < ms x <= clock ∧ 0 <= seq x < Z.of_nat (length L)) L;
  li_sorted : StronglySorted before L;
  li_present : ∀ s, ch_stream c = Some s →
    (∃ pre, L = pre ++ (snd <$> h)) ∧ ∃ t, rs_expire s = Some t ∧ Forall (fun x => ms x < t) L;
  li_absent : ch_stream c = None → h = [] ∧ Forall (fun x => ms x < clock) L
}.

Lemma ordered_sorted h : ordered h → StronglySorted before (snd <$> h).
Proof.
  induction 1 as [|x h Hs IH Hx]; [constructor|]. rewrite fmap_cons. constructor; [done|]. apply Forall_fmap.
  eapply Forall_impl; [exact Hx|]. done.
Qed.

Lemma log_inv_later clock now c h L :
  log_inv clock c h L → clock <= now → log_inv now (expire now c) (base now c h) L.
Proof.
  intros [H0 Hs Hi Hso Hp Ha] Hn.
  assert (Forall (fun x => 0 < ms x <= now ∧ 0 <= seq x < Z.of_nat (length L)) L) as Hi'.
  { eapply Forall_impl; [exact Hi|]. cbn. lia. }
  split; try done; [lia|by apply expire_inv| |].
  - intros s Es. unfold base. rewrite Es. unfold expire in Es. cbn in Es. destruct (ch_stream c) as [s'|] eqn:Ec; [|done].
    destruct (alive now (rs_expire s')); [|done]. injection Es as ->. by apply Hp.
  - intros Es. unfold base. rewrite Es. split; [done|]. unfold expire in Es. cbn in Es. destruct (ch_stream c) as [s'|] eqn:Ec.
    + destruct (Hp s' eq_refl) as (_ & t & Et & Hf). rewrite Et in Es. cbn in Es. destruct (Z.leb_spec now t); [done|].
      eapply Forall_impl; [exact Hf|]. cbn. lia.
    + destruct (Ha eq_refl) as [_ Hf]. eapply Forall_impl; [exact Hf|]. cbn. lia.
Qed.

Lemma sorted_join a b :
  StronglySorted before a → StronglySorted before b → (∀ x y, x ∈ a → y ∈ b → before x y) → StronglySorted before (a ++ b).
Proof.
  intros Ha Hb Hab. induction Ha as [|x a Ha IH Hx]; [done|]. cbn [app]. constructor.
  - apply IH. intros y z Hy. apply Hab. by right.
  - apply Forall_app. split; [done|]. apply Forall_forall. intros y Hy. apply Hab; [left|done].
Qed.

(** Entries a script appends at [now] extend the log. *)
Lemma extend_log now c h L c' s ttl new :
  log_inv now c h L → stream_inv c' (h ++ new) → new ≠ [] → ch_stream c' = Some s → rs_expire s = Some (now + ttl) → 0 < ttl →
  Forall (fun x => ms x.2 = now ∧ 0 <= seq x.2 < Z.of_nat (length L + length new)) new →
  log_inv now c' (h ++ new) (L ++ (snd <$> new)).
Proof.
  intros [H0 Hs Hi Hso Hp Ha] Hs' Hne Ec Ee Ht Hnew.
  assert (ordered (h ++ new)) as Ho by (inversion Hs'; subst; done).
  assert (∀ x, x ∈ (snd <$> new) → ms x = now ∧ 0 <= seq x < Z.of_nat (length L + length new)) as Hids.
  { intros x (y & -> & Hy)%list_elem_of_fmap. rewrite Forall_forall in Hnew. by apply Hnew. }
  assert (Forall (fun x => 0 < ms x <= now ∧ 0 <= seq x < Z.of_nat (length (L ++ (snd <$> new)))) (L ++ (snd <$> new))) as Hi'.
  { rewrite length_app, length_fmap. apply Forall_app. split; [eapply Forall_impl; [exact Hi|]; cbn; lia|].
    apply Forall_forall. intros x Hx. destruct (Hids x Hx). lia. }
  assert (StronglySorted before (L ++ (snd <$> new)) ∧ ∃ pre, L ++ (snd <$> new) = pre ++ (snd <$> (h ++ new))) as [Hso' Hpre].
  { destruct (ch_stream c) as [s0|] eqn:E0.
    - destruct (Hp s0 eq_refl) as ((pre & ->) & _). apply ordered_sorted in Ho. rewrite fmap_app in *.
      split; [|exists pre; by rewrite app_assoc]. apply sorted_join; [done|exact (proj1 (proj2 (sorted_app _ _ Ho)))|].
      apply sorted_app in Ho as (_ & _ & Ho). intros x y [Hx|Hx]%elem_of_app Hy; [|by apply Ho].
      apply sorted_app in Hso as (_ & _ & Hso). inversion Hs as [|s1 f t h' k He Hr Hk _ _ _ _]; subst; [done|].
      destruct h as [|z h]; [by cbn in Hk; lia|]. eapply id_ltb_trans; [apply (Hso x z.2)|apply (Ho z.2 y)]; try done; left.
    - destruct (Ha eq_refl) as [-> Hf]. cbn [app] in *. split; [|by exists L].
      apply sorted_join; [done|by apply ordered_sorted|]. intros x y Hx Hy. rewrite Forall_forall in Hf. apply Hf in Hx.
      apply Hids in Hy. unfold before. apply id_ltb_spec. left. unfold ms in *. lia. }
  split; try done; [|by rewrite Ec].
  intros s1 E1. rewrite Ec in E1. injection E1 as <-. split; [done|]. exists (now + ttl). split; [done|].
  eapply Forall_impl; [exact Hi'|]. cbn. lia.
Qed.

Lemma touch_log now ttl c h L : log_inv now c h L → 0 < ttl → log_inv now (touch now ttl c) h L.
Proof.
  intros [H0 Hs Hi Hso Hp Ha] Ht. split; try done; [by apply touch_inv| |].
  - intros s Es. destruct (ch_stream c) as [s0|] eqn:E0; cbn in Es; rewrite E0 in Es; [|done]. injection Es as <-.
    destruct (Hp s0 eq_refl) as (Hpre & _). split; [done|]. exists (now + ttl). split; [done|].
    eapply Forall_impl; [exact Hi|]. cbn. lia.
  - intros Es. apply Ha. unfold touch in Es. cbn in Es. by destruct (ch_stream c).
Qed.

(** The id of the next entry, while there are fewer than 2^64 of them. *)
Lemma next_id_now now last i n :
  last.1 <= now → 0 <= last.2 < n ∨ last = (0, 0) → n <= U64_MAX → 0 < now → next_id now last = Some i → 0 <= n →
  i.1 = now ∧ 0 <= i.2 < n + 1.
Proof.
  intros H1 H2 Hn Hnow Hi Hn0. unfold next_id in Hi. destruct (Z.ltb_spec last.1 now) as [|Hge]; [injection Hi as <-; cbn; lia|].
  destruct H2 as [H2| ->]; [|cbn in Hge; lia]. destruct (Z.eqb_spec last.2 U64_MAX); [lia|]. injection Hi as <-. cbn. lia.
Qed.

Lemma last_in_log now c h L s :
  log_inv now c h L → ch_stream c = Some s → (rs_last s).1 <= now ∧ 0 <= (rs_last s).2 < Z.of_nat (length L).
Proof.
  intros [H0 Hs Hi Hso Hp Ha] Es. destruct (Hp s Es) as ((pre & HL) & _). inversion Hs as [|s1 f t h' k He Hr Hk Ho Hl _ _]; subst; [done|].
  injection Es as ->. destruct Hl as (x & Hx & ->). rewrite Forall_forall in Hi.
  destruct (Hi x.2) as [? ?]; [|unfold ms, seq in *; lia]. rewrite elem_of_app. right. apply list_elem_of_fmap. exists x. split; [done|]. by apply last_Some_elem_of.
Qed.

Lemma xadd_stream now m trim text c c' i :
  xadd now m trim text c = Some (c', i) → ∃ s, ch_stream c' = Some s ∧ rs_last s = i.
Proof. unfold xadd. destruct (next_id _ _); [|done]. intros [= <- <-]. by eexists. Qed.
Lemma xadd_id now m trim text c c' i :
  xadd now m trim text c = Some (c', i) → next_id now (rs_last (default (RedisStream [] (0, 0) None) (ch_stream c))) = Some i.
Proof. unfold xadd. destruct (next_id _ _); [|done]. by intros [= <- <-]. Qed.

Lemma appended_app now c h new : appended now c h (base now c h ++ new) = snd <$> new.
Proof. unfold appended. by rewrite drop_app_length. Qed.
Lemma appended_none now c h : appended now c h (base now c h) = [].
Proof. unfold appended. by rewrite drop_all. Qed.

Lemma commit_stream now trim a c c1 i :
  xadd now (aa_maxlen a) trim (aa_envelope a) c = Some (c1, i) →
  ∃ s, ch_stream (append_commit now trim a c).1 = Some s ∧ rs_expire s = Some (now + aa_ttl a).
Proof.
  intros Ex. destruct (xadd_stream _ _ _ _ _ _ _ Ex) as (s & Es & _). unfold append_commit. rewrite Ex.
  destruct (String.eqb _ _), (String.eqb _ _), (String.eqb _ _); cbn; rewrite Es; by eexists.
Qed.

Lemma append_log now trim a c h L :
  log_inv now (expire now c) (base now c h) L → (1 ≤ aa_maxlen a)%nat → 0 < aa_ttl a →
  Z.of_nat (length (L ++ appended now c h (append_history now trim a c h))) <= U64_MAX →
  stream_inv c h →
  log_inv now (append_with_ttl now trim a c).1 (append_history now trim a c h)
    (L ++ appended now c h (append_history now trim a c h)).
Proof.
  intros Hl Hm Ht Hn Hsi. pose proof (append_inv now trim a c h Hsi Hm) as Hs. unfold append_history in *.
  destruct (append_cases now trim a c) as [(Ha & Hg & Eq)|(Ha & Hc)]; rewrite Ha in *.
  - rewrite Eq in *. destruct (xadd now (aa_maxlen a) trim (aa_envelope a) (expire now c)) as [[c1 i]|] eqn:Ex.
    + rewrite appended_app in *. destruct (commit_stream _ _ _ _ _ _ Ex) as (s & Es & Ee).
      eapply extend_log; try done. constructor; [|done]. cbn [length snd]. apply xadd_id in Ex.
      rewrite length_app in Hn. cbn in Hn.
      pose proof (li_clock _ _ _ _ Hl) as Hnow.
      assert (i.1 = now ∧ 0 <= i.2 < Z.of_nat (length L) + 1); [|unfold ms, seq; cbn; lia].
      destruct (ch_stream (expire now c)) as [s0|] eqn:E0; cbn in Ex; (eapply next_id_now; [| | | |exact Ex|]); try done; try lia;
        [destruct (last_in_log _ _ _ _ _ Hl E0); auto..| |]; cbn; auto; lia.
    + rewrite appended_none, app_nil_r. unfold append_commit. by rewrite Ex.
  - rewrite appended_none, app_nil_r. destruct Hc as [-> | ->]; [done|by apply touch_log].
Qed.

(** The ids of a batch. *)
Lemma added_ids now m trims texts s st n :
  0 < now → (rs_last s).1 <= now → 0 <= (rs_last s).2 < n →
  n + Z.of_nat (length (added now m trims texts (Channel (Some s) st))) <= U64_MAX →
  Forall (fun x => ms x = now ∧ 0 <= seq x < n + Z.of_nat (length (added now m trims texts (Channel (Some s) st))))
    (added now m trims texts (Channel (Some s) st)).
Proof.
  intros Hnow. revert trims s n. induction texts as [|text texts IH]; intros trims s n H1 H2 Hn; cbn [added] in *; [constructor|].
  destruct (xadd now m (hd 0%nat trims) text (Channel (Some s) st)) as [[c1 i]|] eqn:Ex; [|constructor].
  pose proof (xadd_id _ _ _ _ _ _ _ Ex) as Hi. cbn in Hi.
  destruct (next_id_now now _ i n H1 (or_introl H2) ltac:(lia) Hnow Hi ltac:(lia)) as [Hi1 Hi2].
  unfold xadd in Ex. cbn in Ex. rewrite Hi in Ex. injection Ex as <-. cbn [length] in *. constructor.
  - unfold ms, seq. cbn. lia.
  - match goal with |- context [added _ _ _ _ (Channel (Some ?s') _)] => specialize (IH (tl trims) s' (n + 1)) end. cbn in IH.
    eapply Forall_impl; [apply IH; lia|]. cbn. lia.
Qed.

Lemma batch_log now trims b c h L :
  log_inv now (expire now c) (base now c h) L → (1 ≤ ba_maxlen b)%nat → 0 < ba_ttl b →
  Z.of_nat (length (L ++ appended now c h (batch_history now trims b c h))) <= U64_MAX →
  stream_inv c h →
  log_inv now (append_callback now trims b c).1 (batch_history now trims b c h)
    (L ++ appended now c h (batch_history now trims b c h)).
Proof.
  intros Hl Hm Ht Hn Hsi. pose proof (batch_inv now trims b c h Hsi Hm) as Hs. unfold batch_history in *.
  destruct (batch_cases now trims b c) as [(texts & c' & i & Htx & Hp & Ex & Eq)|[Eq Hno]].
  - rewrite Htx, Ex in *. rewrite Eq in *. rewrite appended_app in *. clear Eq Htx Hsi.
    set (c0 := expire now c) in *. set (h0 := base now c h) in *. clearbody c0 h0.
    pose proof (li_stream _ _ _ _ Hl) as Hs0. inversion Hs0 as [|s f t h' k He Hr Hk Ho Hla Hpr Hsh]; subst; [done|].
    destruct (xadd_all_present _ _ _ _ _ _ _ _ _ _ _ Hr Hk Ho Hla Hm Ex) as (s' & k' & -> & _).
    destruct texts as [|text texts]; [by injection Ex|].
    destruct (last_in_log _ _ _ _ s Hl eq_refl) as [Hl1 Hl2]. rewrite length_app, length_fmap in Hn. unfold as_callbacks in *.
    rewrite length_fmap in Hn.
    eapply (extend_log _ _ _ _ _ _ (ba_ttl b)); try done.
    + cbn [xadd_all added] in *. by destruct (xadd _ _ _ _ _) as [[]|].
    + apply Forall_fmap. rewrite length_fmap. eapply Forall_impl;
        [apply (added_ids _ _ _ _ _ _ (Z.of_nat (length L)) (li_clock _ _ _ _ Hl)); [done|done|lia]|]. cbn. lia.
  - rewrite Eq. destruct (batch_texts b (expire now c)) as [texts|] eqn:Et; [|by rewrite appended_none, app_nil_r].
    destruct (xadd_all _ _ _ _ _ _) as [[c' [i|]]|] eqn:Ex; [by destruct (Hno _ _ _ eq_refl Ex)|by rewrite appended_none, app_nil_r..].
Qed.

Lemma logged_inv clock c h L : logged clock c h L → Z.of_nat (length L) <= U64_MAX → log_inv clock c h L.
Proof.
  induction 1 as [clock Hc|clock now trim a c h L Hl IH Hn Hm Ht|clock now trims b c h L Hl IH Hn Hm Ht|clock now c h L Hl IH Hn]; intros Hlen.
  - split; try done; [apply inv_absent|constructor].
  - assert (log_inv clock c h L) as Hi by (apply IH; rewrite length_app in Hlen; lia).
    apply append_log; try done; [by eapply log_inv_later|apply Hi].
  - assert (log_inv clock c h L) as Hi by (apply IH; rewrite length_app in Hlen; lia).
    apply batch_log; try done; [by eapply log_inv_later|apply Hi].
  - eapply log_inv_later; [by apply IH|done].
Qed.

(** The log is a history as the readers see it. *)
Lemma log_recorded clock c h L :
  logged clock c h L → Z.of_nat (length L) <= U64_MAX → recorded L ∧ stretch (entries c) L.
Proof.
  intros Hl Hn. destruct (logged_inv _ _ _ _ Hl Hn) as [H0 Hs Hi Hso Hp Ha]. split.
  - split; [done|]. eapply Forall_impl; [exact Hi|]. cbn. unfold ms, seq. intros x Hx. split_and!; try lia. intros E. rewrite E in Hx. cbn in Hx. lia.
  - inversion Hs as [|s f t h' k He Hr Hk Ho Hla Hpr Hsh]; subst; [exists [], L; by rewrite app_nil_l|].
    destruct (Hp s eq_refl) as ((pre & ->) & _). unfold entries. cbn. rewrite Hr.
    exists (pre ++ take k (snd <$> h)), []. by rewrite app_nil_r, <- app_assoc, take_drop.
Qed.
End Log.

(** ** Delivery *)

Section Composition.
Context `{PyRuntime} `{StreamRuntime} `{LuaRuntime}.
Context (world : nat → instant) (session_id tenant_id run_id api_instance_id connection_id : string).
Context (authority : stream_authority) (key : string).

(** C3.  Delivery without holes.  Whatever is appended to a stream and dropped from it, and
    whatever Redis, the database, the clock and the client do while a connection is
    served, the events it delivers are a contiguous stretch of the log of the stream, each
    decoded from its entry, in order and once: with a cursor the stretch starts right after
    the entry of the cursor, without one it starts with an opening event.  A gap is
    announced at most once, and nothing is delivered after it. *)
Theorem delivery_is_contiguous clock c h L replay_fuel live_fuel lease status resume :
  stream_key (sa_tenant_scope authority) run_id (sa_stream_incarnation authority) = SOk key →
  logged clock c h L → Z.of_nat (length L) <= U64_MAX →
  (∀ n ss, in_redis (world n) = Some ss →
     ∃ clock' h' L', logged clock' (channel_at ss key) h' L' ∧ L' `prefix_of` L) →
  let frames := gs_frames (stream world session_id tenant_id run_id api_instance_id connection_id authority replay_fuel
                             live_fuel lease status resume).1 in
  (∃ a xs b, L = a ++ xs ++ b ∧ Forall2 (decodes run_id authority) (delivered frames) xs ∧
     (xs = [] ∨ follows run_id authority (resume_start resume) a xs)) ∧
  ∃ fs rest, frames = fs ++ rest ∧ Forall (fun f => is_gap f = false) fs ∧ (rest = [] ∨ ∃ t e c, rest = [(t, GapFrame e c)]).
Proof.
  intros Hkey Hl Hn Hw. destruct (log_recorded _ _ _ _ Hl Hn) as [Hrec _].
  assert (∀ n, shows key L (in_redis (world n))) as Hshows.
  { intros n ss Hss. destruct (Hw n ss Hss) as (clock' & h' & L' & Hl' & (r & ->)).
    rewrite length_app in Hn. destruct (log_recorded _ _ _ _ Hl' ltac:(lia)) as [_ (a & b & Hs)].
    exists a, (b ++ r). rewrite Hs, <- !app_assoc. done. }
  destruct (stream_ends world session_id tenant_id run_id api_instance_id connection_id authority key L Hkey Hrec Hshows
              replay_fuel live_fuel lease status resume) as (a & xs & b & fs & rest & [H1' H2 H3] & Hf & Hg & Hr).
  cbn zeta. split; [by exists a, xs, b|]. by exists fs, rest.
Qed.
End Composition.

(** ** A concrete stream and a connection *)

Definition log_args : list (Z * append_args) :=
  [(1000, AppendArgs 10000 "sev_1" open_text 7200000 "stream_open" "d0" "" "v4");
   (1001, AppendArgs 10000 "evt4_2" (delta_text 2 "hel") 7200000 "message.delta" "d1" "" "v4");
   (1001, AppendArgs 10000 "evt4_3" (delta_text 3 "lo") 7200000 "message.delta" "d2" "" "v4")].
Definition log_step (x : channel * history * list stream_entry) (na : Z * append_args) : channel * history * list stream_entry :=
  let '(c, h, L) := x in
  let h' := @append_history stream_lua na.1 0 na.2 c h in
  ((@append_with_ttl stream_lua na.1 0 na.2 c).1, h', L ++ appended na.1 c h h').
Definition log_state (n : nat) : channel * history * list stream_entry :=
  foldl log_step (empty_channel, [], []) (take n log_args).

Lemma log_states_logged l clock c h L :
  @logged stream_lua clock c h L → Forall (fun na => clock <= na.1 ∧ (1 ≤ aa_maxlen na.2)%nat ∧ 0 < aa_ttl na.2) l →
  StronglySorted (fun x y => x.1 <= y.1) l →
  ∃ clock', let '(c', h', L') := foldl log_step (c, h, L) l in @logged stream_lua clock' c' h' L' ∧ L `prefix_of` L'.
Proof.
  revert clock c h L. induction l as [|[now a] l IH]; intros clock c h L Hl Hf Hs; [by exists clock|]. cbn [foldl log_step fst snd].
  inversion Hf as [|? ? (Hn & Hm & Ht) Hf']; inversion Hs as [|? ? Hs' Hle]; subst. cbn in Hn, Hm, Ht.
  destruct (IH now (@append_with_ttl stream_lua now 0 a c).1 (@append_history stream_lua now 0 a c h)
              (L ++ appended now c h (@append_history stream_lua now 0 a c h))) as [clock' Hc'].
  - by eapply logged_append.
  - rewrite Forall_forall in *. intros x Hx. split; [by apply Hle|]. by apply Hf'.
  - done.
  - exists clock'. unfold log_step at 1. cbn [fst snd]. destruct (foldl _ _ l) as [[c' h'] L']. destruct Hc' as [Hc' Hp].
    split; [done|]. etrans; [|exact Hp]. by eexists.
Qed.
Lemma log_state_logged n :
  ∃ clock, @logged stream_lua clock (log_state n).1.1 (log_state n).1.2 (log_state n).2.
Proof.
  destruct (log_states_logged (take n log_args) 1000 empty_channel [] []) as [clock Hc].
  - by apply logged_start.
  - apply Forall_take. repeat (constructor; [cbn [fst snd aa_maxlen aa_ttl]; split_and!; [lia|apply Nat.leb_le; vm_compute; reflexivity|lia]|]).
    constructor.
  - assert (StronglySorted (fun x y : Z * append_args => x.1 <= y.1) log_args) as Hs
      by (repeat constructor; cbn [fst]; lia).
    rewrite <- (take_drop n log_args) in Hs. clear -Hs. revert Hs. generalize (drop n log_args) as r, (take n log_args) as l.
    intros r l. induction l as [|x l IH]; [constructor|]. cbn [app]. inversion 1 as [|? ? Hs' Hf]; subst.
    constructor; [by apply IH|]. apply Forall_app in Hf. apply Hf.
  - exists clock. unfold log_state. destruct (foldl _ _ _) as [[c h] L]. apply Hc.
Qed.

Definition log_world (n : nat) : instant :=
  Instant (noon + 2000000 + Z.of_nat n) (Some {[sample_key := (log_state (if (n <? 6)%nat then 2 else 3)).1.1]})
    (Some (Some (AuthorizedRun "ses_1" "running"), revoked.1)) "sle_2" false.

Lemma channel_at_singleton (x : channel) : channel_at {[sample_key := x]} sample_key = x.
Proof. vm_compute. reflexivity. Qed.
Lemma log_prefix n : (n <= 3)%nat → (log_state n).2 = take n (log_state 3).2.
Proof. intros Hn. do 4 (destruct n as [|n]; [vm_compute; reflexivity|]). lia. Qed.

Lemma delivery_is_contiguous_witness :
  let frames := gs_frames (@stream toy_py toy_stream log_world "ses_1" "t" "run_7" "api" "conn" confirmed.2 3 2 leased.2 "running"
                             sample_resume).1 in
  map en_id (log_state 3).2 = [(1000, 0); (1001, 0); (1001, 1)] ∧ length (delivered frames) = 3%nat ∧
  (∃ a xs b, (log_state 3).2 = a ++ xs ++ b ∧ Forall2 (@decodes toy_py toy_stream "run_7" confirmed.2) (delivered frames) xs ∧
     (xs = [] ∨ @follows toy_py toy_stream "run_7" confirmed.2 "0-0" a xs)) ∧
  ∃ fs rest, frames = fs ++ rest ∧ Forall (fun f => is_gap f = false) fs ∧ (rest = [] ∨ ∃ t e c, rest = [(t, GapFrame e c)]).
Proof.
  cbn zeta. split; [vm_compute; reflexivity|]. split; [vm_compute; reflexivity|].
  destruct (log_state_logged 3) as [clock Hl].
  apply (@delivery_is_contiguous toy_py toy_stream stream_lua log_world "ses_1" "t" "run_7" "api" "conn" confirmed.2 sample_key
           clock (log_state 3).1.1 (log_state 3).1.2 (log_state 3).2 3 2 leased.2 "running" sample_resume).
  - vm_compute. reflexivity.
  - exact Hl.
  - vm_compute. discriminate.
  - intros n ss Hss. set (k := if (n <? 6)%nat then 2%nat else 3%nat).
    assert (ss = {[sample_key := (log_state k).1.1]}) as -> by exact (eq_sym (f_equal (fun o => match o with Some x => x | None => ∅ end) Hss)).
    destruct (log_state_logged k) as [clock' Hl']. exists clock', (log_state k).1.2, (log_state k).2. split.
    + rewrite channel_at_singleton. exact Hl'.
    + rewrite log_prefix by (subst k; destruct (n <? 6)%nat; lia). apply prefix_take.
Defined.
