(* ===== verification/EventLedger.v ===== *)
(** * The durable ledger of run events

    [src/app/streaming/infrastructure/event_ledger_postgres.py] and
    [src/app/streaming/infrastructure/run_events_postgres.py]: the sequence numbers of a
    run's events, single events, callback batches with their receipts, the fence of the
    terminal drain and the pages a reader takes.

    - The tables [run_events], [run_event_cursors], [run_event_batches] and
      [run_event_terminal_drains] of [src/app/schema.sql] with their keys.  An operation
      runs in the transaction of its caller, which an exception rolls back: it returns the
      new tables or an error.  The row of [run_event_cursors] is locked until the
      transaction ends, so the appends of a run are one after the other.
    - A statement that breaks a key or leaves the range of a column raises
      [DatabaseError].  The run an event belongs to is there: the callers hold its row.
    - The time of a transaction and the fresh ids are arguments.  Times are
      microseconds. *)
From stdpp Require Import base gmap list strings.
From Stdlib Require Import ZArith Lia Ascii.
From S2P Require Import Prelude Redis PyValue Numerals RunAttempt StreamCursors StreamProtocol StreamEvents CanonicalJson.
#[local] Open Scope py_scope.

(** ** Data *)

Record ledger_event := LedgerEvent {
  le_event_type : string; le_stage : string; le_message : string; le_payload : dict; le_trace_id : option string;
  le_severity : option string; le_visible_to_user : option bool; le_error_code : option string; le_latency_ms : option Z;
  le_input_token_count : option Z; le_output_token_count : option Z; le_total_token_count : option Z;
  le_estimated_cost_minor : option Z
}.

Record event_receipt := EventReceipt { rp_event_id : string; rp_cursor : run_cursor; rp_created_at : string }.
Record batch_receipt := BatchReceipt {
  br_receipt_id : string; br_event_ids : list string; br_first_cursor : option run_cursor; br_through_cursor : option run_cursor;
  br_duplicate : bool; br_payload_digest : string; br_projection_version : string; br_item_count : Z;
  br_callback_received_at : string
}.

Record event_shape := EventShape {
  es_trace_id : string; es_schema_version : string; es_event_type : string; es_stage : string; es_message : string;
  es_severity : string; es_visible_to_user : bool; es_error_code : option string; es_latency_ms : option Z;
  es_input_token_count : Z; es_output_token_count : Z; es_total_token_count : Z; es_estimated_cost_minor : Z;
  es_payload_json : dict
}.
Record event_row := EventRow {
  er_id : string; er_tenant_id : string; er_run_id : string; er_sequence : Z; er_shape : event_shape; er_created_at : Z
}.
Record batch_row := BatchRow {
  bt_id : string; bt_event_ids : list string; bt_first_sequence : option Z; bt_through_sequence : option Z;
  bt_payload_digest : string; bt_projection_version : string; bt_item_count : Z; bt_first_source : option Z;
  bt_through_source : option Z; bt_callback_received_at : Z; bt_durable_committed_at : option Z
}.

(** Events in the order they were inserted. *)
Record event_ledger := Ledger {
  lg_events : list event_row;
  lg_cursors : gmap (string * string) Z;
  lg_batches : gmap (string * string * string * string) batch_row;
  lg_drains : gmap (string * string * string) string
}.

Definition set_events (l : list event_row) (g : event_ledger) : event_ledger := Ledger l (lg_cursors g) (lg_batches g) (lg_drains g).
Definition set_cursor (k : string * string) (n : Z) (g : event_ledger) : event_ledger :=
  Ledger (lg_events g) (<[k := n]> (lg_cursors g)) (lg_batches g) (lg_drains g).
Definition set_batch (k : string * string * string * string) (b : batch_row) (g : event_ledger) : event_ledger :=
  Ledger (lg_events g) (lg_cursors g) (<[k := b]> (lg_batches g)) (lg_drains g).

Definition EVENT_ENVELOPE_SCHEMA_VERSION : string := "ai-platform.event-envelope.v1".
Definition CALLBACK_BATCH_PROJECTION_VERSION : string := "callback-receipt-v2.1".
Definition LEGACY_PROJECTION_VERSION : string := "legacy-run-event-v1".

(** ** Values *)

Definition require_nonempty (value field_name : string) : sres unit :=
  fail! (PyValueError ("run_event_" +:+ field_name +:+ "_invalid")) when negb (str_truthy value);
  SOk tt.

(** [s.replace(sub, "", 1)]. *)
Fixpoint remove_first (sub s : string) : string :=
  match strip_prefix sub s with
  | Some rest => rest
  | None => match s with EmptyString => "" | String c s => String c (remove_first sub s) end
  end.
(** [standard_trace_id] of a nonempty run id. *)
Definition standard_trace_id (run_id : string) : string :=
  "trace_" +:+ replace_char "-" "_" (remove_first "run_" run_id).

(** Python's [==] on JSON values; the keys of a dict are distinct. *)
Fixpoint py_eq (a b : pyval) {struct a} : bool :=
  match a, b with
  | PNone, PNone => true
  | PStr s, PStr t => String.eqb s t
  | PList l, PList m =>
      (fix eq_list (l m : list pyval) {struct l} : bool :=
         match l, m with
         | [], [] => true
         | x :: l, y :: m => py_eq x y && eq_list l m
         | _, _ => false
         end) l m
  | PDict d, PDict e =>
      Nat.eqb (length d) (length e)
      && forallb (fun kv => match kv with (k, x) => match assoc k e with Some y => py_eq x y | None => false end end) d
  | PBool _, _ | PInt _, _ | PFloat _, _ =>
      match num_value a, num_value b with Some x, Some y => lnum_eqb x y | _, _ => false end
  | _, _ => false
  end.

(** ** Reading an event *)

Section Events.
Context `{PyRuntime} `{StreamRuntime}.

Definition truthy_str (s : option string) : option string :=
  match s with Some s => if str_truthy s then Some s else None | None => None end.

Definition severity (e : ledger_event) : string :=
  let candidate := match truthy_str (le_severity e) with
                   | Some s => s
                   | None => py_str (py_or (get "severity" (le_payload e)) (PStr "info"))
                   end in
  if str_in candidate ["info"; "warning"; "error"] then candidate else "info".

Definition visible (e : ledger_event) : bool :=
  match le_visible_to_user e with
  | Some b => b
  | None => truthy (get_default "visible_to_user" (PBool true) (le_payload e))
  end.

Definition error_code (e : ledger_event) : option string :=
  match truthy_str (le_error_code e) with
  | Some s => Some (standard_error_code (Some s))
  | None =>
      let candidate := get "error_code" (le_payload e) in
      if truthy candidate then Some (standard_error_code (Some (py_str candidate))) else None
  end.

Definition persisted_event_shape (run_id : string) (e : ledger_event) : event_shape := {|
  es_trace_id := match truthy_str (le_trace_id e) with Some t => t | None => standard_trace_id run_id end;
  es_schema_version := EVENT_ENVELOPE_SCHEMA_VERSION;
  es_event_type := le_event_type e; es_stage := le_stage e; es_message := le_message e;
  es_severity := severity e; es_visible_to_user := visible e; es_error_code := error_code e;
  es_latency_ms := le_latency_ms e;
  es_input_token_count := default 0 (le_input_token_count e); es_output_token_count := default 0 (le_output_token_count e);
  es_total_token_count := default 0 (le_total_token_count e);
  es_estimated_cost_minor := default 0 (le_estimated_cost_minor e);
  es_payload_json := le_payload e
|}.

(** The comparison of a stored row with the shape of an event, column by column. *)
Definition same_shape (a b : event_shape) : bool :=
  String.eqb (es_trace_id a) (es_trace_id b) && String.eqb (es_schema_version a) (es_schema_version b)
  && String.eqb (es_event_type a) (es_event_type b) && String.eqb (es_stage a) (es_stage b)
  && String.eqb (es_message a) (es_message b) && String.eqb (es_severity a) (es_severity b)
  && Bool.eqb (es_visible_to_user a) (es_visible_to_user b) && bool_decide (es_error_code a = es_error_code b)
  && bool_decide (es_latency_ms a = es_latency_ms b) && (es_input_token_count a =? es_input_token_count b)
  && (es_output_token_count a =? es_output_token_count b) && (es_total_token_count a =? es_total_token_count b)
  && (es_estimated_cost_minor a =? es_estimated_cost_minor b)
  && py_eq (PDict (es_payload_json a)) (PDict (es_payload_json b)).

(** The integer columns have 32 bits, the sequences 64. *)
Definition int4 (n : Z) : bool := (- 2 ^ 31 <=? n) && (n <=? 2 ^ 31 - 1).
Definition columns_fit (s : event_shape) : bool :=
  int4 (default 0 (es_latency_ms s)) && int4 (es_input_token_count s) && int4 (es_output_token_count s)
  && int4 (es_total_token_count s) && int4 (es_estimated_cost_minor s).

(** [_canonical_json]. *)
Definition ledger_json (v : pyval) : sres string :=
  match canonical_json v with Some s => SOk s | None => SErr (PyValueError "Out of range float values are not JSON compliant") end.

Definition event_fields (e : ledger_event) : dict :=
  [("event_type", PStr (le_event_type e)); ("stage", PStr (le_stage e)); ("message", PStr (le_message e));
   ("payload", PDict (le_payload e)); ("trace_id", opt_str (le_trace_id e)); ("severity", opt_str (le_severity e));
   ("visible_to_user", match le_visible_to_user e with Some b => PBool b | None => PNone end);
   ("error_code", opt_str (le_error_code e)); ("latency_ms", opt_int (le_latency_ms e));
   ("input_token_count", opt_int (le_input_token_count e)); ("output_token_count", opt_int (le_output_token_count e));
   ("total_token_count", opt_int (le_total_token_count e)); ("estimated_cost_minor", opt_int (le_estimated_cost_minor e))].

Definition batch_payload_digest (events : list ledger_event) (projection_version : string) : sres string :=
  do! text := ledger_json (PDict [("schema", PStr "ai-platform.executor-callback-batch.v2.1");
                                  ("projection_version", PStr projection_version);
                                  ("items", PList (imap (fun index e => PDict (("item_index", PInt (Z.of_nat index)) :: event_fields e))
                                                     events))]) in
  SOk (sha256_hex text).

Definition stable_batch_event_id (tenant_id run_id attempt_id batch_id : string) (item_index : Z) (projection_version : string)
    : sres string :=
  do! text := ledger_json (PList [PStr "ai-platform-callback-event-id-v2.1"; PStr tenant_id; PStr run_id; PStr attempt_id;
                                  PStr batch_id; PInt item_index; PStr projection_version]) in
  SOk ("evt_" +:+ sha256_hex text).

Fixpoint stable_batch_event_ids (tenant_id run_id attempt_id batch_id : string) (indexes : list nat) (projection_version : string)
    : sres (list string) :=
  match indexes with
  | [] => SOk []
  | i :: indexes =>
      do! id := stable_batch_event_id tenant_id run_id attempt_id batch_id (Z.of_nat i) projection_version in
      do! ids := stable_batch_event_ids tenant_id run_id attempt_id batch_id indexes projection_version in
      SOk (id :: ids)
  end.

(** ** Sequences *)

Definition run_rows (tenant_id run_id : string) (rows : list event_row) : list event_row :=
  List.filter (fun r => String.eqb (er_tenant_id r) tenant_id && String.eqb (er_run_id r) run_id) rows.
(** [coalesce(max(sequence), 0)]. *)
Definition max_sequence (rows : list event_row) : Z :=
  match rows with [] => 0 | r :: rows => foldl (fun m r => Z.max m (er_sequence r)) (er_sequence r) rows end.

(** The insert of the cursor row and the update that takes [count] numbers from it.  The
    column is checked to be positive. *)
Definition take_sequences (tenant_id run_id : string) (count : Z) (g : event_ledger) : sres (event_ledger * Z) :=
  let next := default (max_sequence (run_rows tenant_id run_id (lg_events g)) + 1) (lg_cursors g !! (tenant_id, run_id)) in
  fail! (DatabaseError "check or range of next_sequence") when (next <=? 0) || (MAX_BIGINT <? next + count);
  SOk (set_cursor (tenant_id, run_id) (next + count) g, next).

Definition ledger_cursor (run_id : string) (sequence : Z) : sres run_cursor :=
  match new_run_cursor run_id sequence with
  | SErr e => if is_value_error e then SErr (RunEventLedgerConflictError "run_event_cursor_unavailable") else SErr e
  | r => r
  end.

Definition allocate_cursor (tenant_id run_id : string) (g : event_ledger) : sres (event_ledger * run_cursor) :=
  do! '(g, n) := take_sequences tenant_id run_id 1 g in
  do! cursor := ledger_cursor run_id n in
  SOk (g, cursor).

Definition allocate_cursor_range (tenant_id run_id : string) (count : Z) (g : event_ledger) : sres (event_ledger * run_cursor) :=
  fail! (PyValueError "run_event_cursor_range_invalid") when count <? 1;
  do! '(g, n) := take_sequences tenant_id run_id count g in
  do! cursor := ledger_cursor run_id n in
  SOk (g, cursor).

(** ** Appending *)

(** One row of an insert: the id is the primary key, the sequence unique in its run. *)
Definition insert_event (row : event_row) (g : event_ledger) : sres event_ledger :=
  fail! (DatabaseError "unique_violation run_events")
    when existsb (fun r => String.eqb (er_id r) (er_id row)) (lg_events g)
         || existsb (fun r => er_sequence r =? er_sequence row) (run_rows (er_tenant_id row) (er_run_id row) (lg_events g));
  fail! (DatabaseError "numeric_value_out_of_range") when negb (columns_fit (er_shape row));
  SOk (set_events (lg_events g ++ [row]) g).

Fixpoint insert_events (rows : list event_row) (g : event_ledger) : sres event_ledger :=
  match rows with
  | [] => SOk g
  | row :: rows => do! g := insert_event row g in insert_events rows g
  end.

Definition append_event (now : Z) (fresh : string) (tenant_id run_id : string) (event : ledger_event) (event_id : option string)
    (g : event_ledger) : sres (event_ledger * event_receipt) :=
  do! _ := require_nonempty tenant_id "tenant_id" in
  do! _ := require_nonempty run_id "run_id" in
  do! _ := require_nonempty (le_event_type event) "type" in
  do! _ := require_nonempty (le_stage event) "stage" in
  let event_id := match truthy_str event_id with Some i => i | None => "evt_" +:+ fresh end in
  do! _ := require_nonempty event_id "id" in
  do! '(g, cursor) := allocate_cursor tenant_id run_id g in
  do! g := insert_event (EventRow event_id tenant_id run_id (rc_sequence cursor) (persisted_event_shape run_id event) now) g in
  SOk (g, EventReceipt event_id cursor (utc_isoformat now)).

Fixpoint require_all (l : list string) (field_name : string) : sres unit :=
  match l with
  | [] => SOk tt
  | x :: l => do! _ := require_nonempty x field_name in require_all l field_name
  end.
Fixpoint require_events (l : list ledger_event) : sres unit :=
  match l with
  | [] => SOk tt
  | e :: l =>
      do! _ := require_nonempty (le_event_type e) "type" in
      do! _ := require_nonempty (le_stage e) "stage" in
      require_events l
  end.

(** The rows of the one insert of a batch, and their receipts. *)
Definition batch_rows (now : Z) (tenant_id run_id : string) (first : Z) (items : list (string * ledger_event)) : list event_row :=
  imap (fun index item => EventRow item.1 tenant_id run_id (first + Z.of_nat index) (persisted_event_shape run_id item.2) now) items.

Definition append_events (now : Z) (fresh : string) (tenant_id run_id : string) (events : list ledger_event)
    (event_ids : list string) (g : event_ledger) : sres (event_ledger * list event_receipt) :=
  do! _ := require_nonempty tenant_id "tenant_id" in
  do! _ := require_nonempty run_id "run_id" in
  fail! (PyValueError "run_event_batch_identity_invalid") when negb (Nat.eqb (length events) (length event_ids));
  do! _ := require_all event_ids "id" in
  fail! (RunEventLedgerConflictError "run_event_event_id_conflict") when negb (bool_decide (NoDup event_ids));
  match events, event_ids with
  | [], _ => SOk (g, [])
  | [event], event_id :: _ =>
      do! _ := require_events events in
      do! '(g, receipt) := append_event now fresh tenant_id run_id event (Some event_id) g in
      SOk (g, [receipt])
  | _, _ =>
      do! _ := require_events events in
      do! '(g, first) := allocate_cursor_range tenant_id run_id (Z.of_nat (length events)) g in
      let rows := batch_rows now tenant_id run_id (rc_sequence first) (zip event_ids events) in
      do! g := insert_events rows g in
      SOk (g, map (fun r => EventReceipt (er_id r) (RunCursor run_id (er_sequence r)) (utc_isoformat (er_created_at r))) rows)
  end.

(** ** Batches *)

Definition optional_cursor (run_id : string) (sequence : option Z) : sres (option run_cursor) :=
  match sequence with
  | Some n => do! c := new_run_cursor run_id n in SOk (Some c)
  | None => SOk None
  end.

(** [_batch_receipt]. *)
Definition receipt_of_batch (run_id : string) (duplicate : bool) (row : batch_row) : sres batch_receipt :=
  do! first := optional_cursor run_id (bt_first_sequence row) in
  do! through := optional_cursor run_id (bt_through_sequence row) in
  fail! (RunEventLedgerConflictError "run_event_batch_receipt_unavailable") when negb (str_truthy (bt_id row));
  fail! (RunEventLedgerConflictError "run_event_batch_receipt_unavailable")
    when negb (str_truthy (bt_payload_digest row)) || negb (str_truthy (bt_projection_version row));
  SOk (BatchReceipt (bt_id row) (List.filter str_truthy (bt_event_ids row)) first through duplicate (bt_payload_digest row)
         (bt_projection_version row) (bt_item_count row) (utc_isoformat (bt_callback_received_at row))).

Definition find_event (tenant_id run_id event_id : string) (rows : list event_row) : option event_row :=
  List.find (fun r => String.eqb (er_id r) event_id) (run_rows tenant_id run_id rows).

Definition source_bounds (events : list ledger_event) : option Z * option Z :=
  match events with [] => (None, None) | _ => (Some 0, Some (Z.of_nat (length events) - 1)) end.

(** [_upgrade_matching_legacy_batch_receipt]. *)
Definition upgrade_matching_legacy_batch_receipt (key : string * string * string * string) (row : batch_row)
    (tenant_id run_id : string) (events : list ledger_event) (payload_digest projection_version : string) (g : event_ledger)
    : sres (event_ledger * batch_row) :=
  let event_ids := List.filter str_truthy (bt_event_ids row) in
  fail! (RunEventLedgerConflictError "run_event_batch_conflict") when negb (Nat.eqb (length event_ids) (length events));
  fail! (RunEventLedgerConflictError "run_event_batch_conflict")
    when negb (forallb (fun item => match find_event tenant_id run_id item.1 (lg_events g) with
                                    | Some persisted => same_shape (er_shape persisted) (persisted_event_shape run_id item.2)
                                    | None => false
                                    end) (zip event_ids events));
  let upgraded := BatchRow (bt_id row) (bt_event_ids row) (bt_first_sequence row) (bt_through_sequence row) payload_digest
                    projection_version (Z.of_nat (length events)) (source_bounds events).1 (source_bounds events).2
                    (bt_callback_received_at row) (bt_durable_committed_at row) in
  SOk (set_batch key upgraded g, upgraded).

Definition append_batch (now : Z) (fresh : string) (tenant_id run_id attempt_id batch_id : string) (events : list ledger_event)
    (projection_version : string) (g : event_ledger) : sres (event_ledger * batch_receipt) :=
  do! _ := require_nonempty tenant_id "tenant_id" in
  do! _ := require_nonempty run_id "run_id" in
  do! _ := require_nonempty attempt_id "attempt_id" in
  do! _ := require_nonempty batch_id "batch_id" in
  do! _ := require_nonempty projection_version "projection_version" in
  do! payload_digest := batch_payload_digest events projection_version in
  let item_count := Z.of_nat (length events) in
  let receipt_id := "evb_" +:+ fresh in
  let key := (tenant_id, run_id, attempt_id, batch_id) in
  match lg_batches g !! key with
  | Some row =>
      do! '(g, row) :=
        (if String.eqb (bt_payload_digest row) "" && String.eqb (bt_projection_version row) LEGACY_PROJECTION_VERSION
         then upgrade_matching_legacy_batch_receipt key row tenant_id run_id events payload_digest projection_version g
         else SOk (g, row)) in
      fail! (RunEventLedgerConflictError "run_event_batch_conflict")
        when negb (String.eqb (bt_payload_digest row) payload_digest && String.eqb (bt_projection_version row) projection_version
                   && (bt_item_count row =? item_count));
      do! receipt := receipt_of_batch run_id true row in
      SOk (g, receipt)
  | None =>
      fail! (DatabaseError "unique_violation run_event_batches")
        when existsb (fun kb => String.eqb (bt_id kb.2) receipt_id) (map_to_list (lg_batches g));
      fail! (DatabaseError "numeric_value_out_of_range") when negb (int4 item_count);
      do! event_ids := stable_batch_event_ids tenant_id run_id attempt_id batch_id (seq 0 (length events)) projection_version in
      do! '(g, receipts) := append_events now fresh tenant_id run_id events event_ids g in
      let sequences := map (fun r => rc_sequence (rp_cursor r)) receipts in
      let row := BatchRow receipt_id (map rp_event_id receipts)
                   (match sequences with [] => None | n :: l => Some (foldl Z.min n l) end)
                   (match sequences with [] => None | n :: l => Some (foldl Z.max n l) end)
                   payload_digest projection_version item_count (source_bounds events).1 (source_bounds events).2 now (Some now) in
      do! receipt := receipt_of_batch run_id false row in
      SOk (set_batch key row g, receipt)
  end.

(** ** The terminal drain *)

Definition acquire_terminal_drain_fence (tenant_id run_id attempt_id batch_id : string) (g : event_ledger) : sres (event_ledger * bool) :=
  do! _ := require_nonempty tenant_id "tenant_id" in
  do! _ := require_nonempty run_id "run_id" in
  do! _ := require_nonempty attempt_id "attempt_id" in
  do! _ := require_nonempty batch_id "batch_id" in
  match lg_drains g !! (tenant_id, run_id, attempt_id) with
  | None => SOk (Ledger (lg_events g) (lg_cursors g) (lg_batches g)
                   (<[(tenant_id, run_id, attempt_id) := batch_id]> (lg_drains g)), false)
  | Some existing =>
      fail! (RunEventLedgerConflictError "terminal_drain_already_consumed") when negb (String.eqb existing batch_id);
      SOk (g, true)
  end.

(** ** Reading *)

(** [order by sequence asc, created_at asc], stable. *)
Definition row_leb (a b : event_row) : bool :=
  (er_sequence a <? er_sequence b) || ((er_sequence a =? er_sequence b) && (er_created_at a <=? er_created_at b)).
Fixpoint insert_row (r : event_row) (l : list event_row) : list event_row :=
  match l with [] => [r] | x :: l => if row_leb r x then r :: x :: l else x :: insert_row r l end.
Definition sort_rows (l : list event_row) : list event_row := foldr insert_row [] l.

(** A row with the flag whether its attempt exists; [attempts] are the keys of
    [run_attempts], and [jsonb_text] is the text PostgreSQL gives a JSON value that is not
    a string. *)
Definition attempt_authorized (attempts : list (string * string * string)) (jsonb_text : pyval → option string) (r : event_row)
    : bool :=
  match get "__stream_v4" (es_payload_json (er_shape r)) with
  | PDict metadata =>
      match assoc "attempt_id" metadata with
      | None | Some PNone => false
      | Some v =>
          match (match v with PStr s => Some s | _ => jsonb_text v end) with
          | Some id => existsb (fun a => String.eqb a.1.1 (er_tenant_id r) && String.eqb a.1.2 (er_run_id r) && String.eqb a.2 id)
                         attempts
          | None => false
          end
      end
  | _ => false
  end.

Definition rows_after (tenant_id : string) (cursor : run_cursor) (g : event_ledger) : list event_row :=
  sort_rows (List.filter (fun r => rc_sequence cursor <? er_sequence r) (run_rows tenant_id (rc_run_id cursor) (lg_events g))).

Definition read_event_rows (attempts : list (string * string * string)) (jsonb_text : pyval → option string) (tenant_id : string)
    (cursor : run_cursor) (limit : option Z) (g : event_ledger) : sres (list (event_row * bool)) :=
  do! _ := require_nonempty tenant_id "tenant_id" in
  fail! (PyValueError "run_event_page_limit_invalid") when match limit with Some n => n <? 1 | None => false end;
  let rows := rows_after tenant_id cursor g in
  let page := match limit with Some n => take (Z.to_nat n) rows | None => rows end in
  SOk (map (fun r => (r, attempt_authorized attempts jsonb_text r)) page).

(** ** The repository *)

Definition RUN_EVENT_MESSAGE_MAX_BYTES : Z := 16 * 1024.
Definition RUN_EVENT_PAYLOAD_MAX_BYTES : Z := 64 * 1024.

Definition ensure_text_size (value : string) (max_bytes : Z) (code : string) : sres unit :=
  fail! (PersistenceSizeLimitError code) when max_bytes <? Z.of_nat (String.length value);
  SOk tt.
Definition ensure_json_size (value : pyval) (max_bytes : Z) (code invalid_code : string) : sres unit :=
  match canonical_json value with
  | None => SErr (PersistenceSizeLimitError invalid_code)
  | Some text => ensure_text_size text max_bytes code
  end.

Definition optional_string (field : string) (v : pyval) : sres (option string) :=
  match v with
  | PNone => SOk None
  | PStr s => SOk (Some s)
  | _ => SErr (PyValueError ("run_event_" +:+ field +:+ "_invalid"))
  end.
Definition optional_integer (field : string) (v : pyval) : sres (option Z) :=
  match v with
  | PNone => SOk None
  | PInt n => SOk (Some n)
  | _ => SErr (PyValueError ("run_event_" +:+ field +:+ "_invalid"))
  end.
Definition required_string (field : string) (v : pyval) : sres string :=
  match v with
  | PStr s => if str_truthy s then SOk s else SErr (PyValueError ("run_event_" +:+ field +:+ "_invalid"))
  | _ => SErr (PyValueError ("run_event_" +:+ field +:+ "_invalid"))
  end.

(** [_ledger_event_from_values]. *)
Definition ledger_event_from_values (event_type stage message payload trace_id severity visible_to_user error_code latency_ms
    input_token_count output_token_count total_token_count estimated_cost_minor : pyval) : sres ledger_event :=
  do! event_type := required_string "type" event_type in
  do! stage := required_string "stage" stage in
  do! message := match message with PStr s => SOk s | _ => SErr (PyValueError "run_event_message_invalid") end in
  do! payload := match payload with
                 | PNone => SOk []
                 | PDict d => SOk d
                 | _ => SErr (PyValueError "run_event_payload_invalid")
                 end in
  do! _ := ensure_text_size message RUN_EVENT_MESSAGE_MAX_BYTES "run_event_message_too_large" in
  do! _ := ensure_json_size (PDict payload) RUN_EVENT_PAYLOAD_MAX_BYTES "run_event_payload_too_large" "run_event_payload_invalid" in
  do! trace_id := optional_string "trace_id" trace_id in
  do! severity := optional_string "severity" severity in
  do! error_code := optional_string "error_code" error_code in
  do! visible_to_user := match visible_to_user with
                         | PNone => SOk None
                         | PBool b => SOk (Some b)
                         | _ => SErr (PyValueError "run_event_visible_to_user_invalid")
                         end in
  do! latency_ms := optional_integer "latency_ms" latency_ms in
  do! input_token_count := optional_integer "input_token_count" input_token_count in
  do! output_token_count := optional_integer "output_token_count" output_token_count in
  do! total_token_count := optional_integer "total_token_count" total_token_count in
  do! estimated_cost_minor := optional_integer "estimated_cost_minor" estimated_cost_minor in
  SOk (LedgerEvent event_type stage message payload trace_id severity visible_to_user error_code latency_ms input_token_count
         output_token_count total_token_count estimated_cost_minor).

Definition ledger_event_from_dict (event : pyval) : sres ledger_event :=
  match event with
  | PDict d =>
      ledger_event_from_values (get "event_type" d) (get "stage" d) (get_default "message" (PStr "") d) (get "payload" d)
        (get "trace_id" d) (get "severity" d) (get "visible_to_user" d) (get "error_code" d) (get "latency_ms" d)
        (get_default "input_token_count" (PInt 0) d) (get_default "output_token_count" (PInt 0) d)
        (get_default "total_token_count" (PInt 0) d) (get_default "estimated_cost_minor" (PInt 0) d)
  | _ => SErr (PyValueError "run_event_batch_event_invalid")
  end.

Fixpoint ledger_events_from_dicts (events : list pyval) : sres (list ledger_event) :=
  match events with
  | [] => SOk []
  | e :: events =>
      do! e := ledger_event_from_dict e in
      do! es := ledger_events_from_dicts events in
      SOk (e :: es)
  end.

(** [except RunEventLedgerConflictError]. *)
Definition repository_conflict {A} (m : sres A) : sres A :=
  match m with SErr (RunEventLedgerConflictError code) => SErr (RepositoryConflictError code) | m => m end.

Definition append_event_batch (now : Z) (fresh : string) (tenant_id run_id attempt_id batch_id : string) (events : list pyval)
    (g : event_ledger) : sres (event_ledger * batch_receipt) :=
  repository_conflict (
    do! events := ledger_events_from_dicts events in
    append_batch now fresh tenant_id run_id attempt_id batch_id events CALLBACK_BATCH_PROJECTION_VERSION g).

Definition acquire_run_event_terminal_drain_fence (tenant_id run_id attempt_id batch_id : string) (g : event_ledger)
    : sres (event_ledger * bool) :=
  repository_conflict (acquire_terminal_drain_fence tenant_id run_id attempt_id batch_id g).

Definition list_run_events (attempts : list (string * string * string)) (jsonb_text : pyval → option string)
    (tenant_id run_id : string) (after_sequence limit through_sequence : option Z) (g : event_ledger) : sres (list (event_row * bool)) :=
  fail! (PyValueError "run_event_page_through_sequence_invalid")
    when match through_sequence with Some n => n <? 0 | None => false end;
  do! cursor := new_run_cursor run_id (default 0 after_sequence) in
  do! rows := read_event_rows attempts jsonb_text tenant_id cursor limit g in
  SOk (List.filter (fun r => match through_sequence with Some n => er_sequence r.1 <=? n | None => true end) rows).

(** [list(dict.fromkeys(l))]. *)
Fixpoint first_seen (seen l : list string) : list string :=
  match l with
  | [] => []
  | x :: l => if str_in x seen then first_seen seen l else x :: first_seen (x :: seen) l
  end.

(** [list_run_event_sequence_bounds]: the last sequence of each requested run that has
    events. *)
Definition list_run_event_sequence_bounds (tenant_id : string) (run_ids : list string) (g : event_ledger) : list (string * Z) :=
  omap (fun run_id => match run_rows tenant_id run_id (lg_events g) with
                      | [] => None
                      | rows => Some (run_id, max_sequence rows)
                      end) (first_seen [] (List.filter str_truthy run_ids)).

End Events.
