(* ===== verification/EventLedgerFacts.v ===== *)
(** * The ledger numbers, receipts and pages

    Over every sequence of committed appends the events of a run are numbered from one
    without a hole, in the order in which they were committed; a callback batch that was
    accepted once is answered with its first receipt for ever and never appended again;
    and a reader that pages through the ledger while it grows sees every event once, in
    order. *)
From stdpp Require Import base gmap list strings relations.
From Stdlib Require Import ZArith Lia Ascii Sorted.
From S2P Require Import Prelude Redis PyValue QueueRuntime Numerals RunAttempt StreamCursors StreamProtocol StreamEvents.
From S2P Require Import StreamEventsFacts CanonicalJson EventLedger.
#[local] Open Scope py_scope.

(** ** The numbers of a run *)

Definition numbers (from : Z) (n : nat) : list Z := map (fun i => from + Z.of_nat i) (seq 0 n).

Lemma numbers_S from n : numbers from (S n) = from :: numbers (from + 1) n.
Proof.
  unfold numbers. cbn [seq map]. f_equal; [lia|]. rewrite <- seq_shift, map_map. apply map_ext. intros i. lia.
Qed.
Lemma numbers_app from a b : numbers from (a + b) = numbers from a ++ numbers (from + Z.of_nat a) b.
Proof.
  revert from. induction a as [|a IH]; intros from; [cbn; by rewrite Z.add_0_r|]. cbn [Nat.add]. rewrite !numbers_S, IH. cbn [app].
  do 3 f_equal. lia.
Qed.
Lemma numbers_length from n : length (numbers from n) = n.
Proof. unfold numbers. by rewrite length_map, length_seq. Qed.

Lemma run_rows_app t r a b : run_rows t r (a ++ b) = run_rows t r a ++ run_rows t r b.
Proof. apply List.filter_app. Qed.

(** The rows of one run; another run has none of them. *)
Definition rows_of (t r : string) (rows : list event_row) : Prop :=
  Forall (fun x => er_tenant_id x = t ∧ er_run_id x = r) rows.
Lemma rows_of_same t r rows : rows_of t r rows → run_rows t r rows = rows.
Proof.
  unfold run_rows. induction 1 as [|x rows [Ht Hr] _ IH]; [done|]. cbn. rewrite Ht, Hr, !String.eqb_refl. cbn. by rewrite IH.
Qed.
Lemma rows_of_other t r t' r' rows : rows_of t r rows → (t', r') ≠ (t, r) → run_rows t' r' rows = [].
Proof.
  unfold run_rows. intros Hr Hn. induction Hr as [|x rows [Ht Hr] _ IH]; [done|]. cbn. rewrite Ht, Hr.
  destruct (String.eqb_spec t t') as [<-|]; [|done]. destruct (String.eqb_spec r r') as [<-|]; done.
Qed.

Record ledger_inv (g : event_ledger) : Prop := {
  in_ids : NoDup (er_id <$> lg_events g);
  in_numbers : ∀ t r, map er_sequence (run_rows t r (lg_events g)) = numbers 1 (length (run_rows t r (lg_events g)));
  in_cursor : ∀ t r, lg_cursors g !! (t, r) =
    match run_rows t r (lg_events g) with [] => None | rows => Some (Z.of_nat (length rows) + 1) end
}.

(** What the appends do to the tables: rows of one run at the end, numbered on, and the
    cursor of the run after them. *)
Record extends (t r : string) (rows : list event_row) (g g' : event_ledger) : Prop := {
  ex_events : lg_events g' = lg_events g ++ rows;
  ex_cursors : lg_cursors g' =
    match rows with [] => lg_cursors g
    | _ => <[(t, r) := Z.of_nat (length (run_rows t r (lg_events g)) + length rows) + 1]> (lg_cursors g) end;
  ex_rows : rows_of t r rows;
  ex_numbers : map er_sequence rows = numbers (Z.of_nat (length (run_rows t r (lg_events g))) + 1) (length rows);
  ex_ids : NoDup (er_id <$> lg_events g')
}.

Lemma extends_inv t r rows g g' : ledger_inv g → extends t r rows g g' → ledger_inv g'.
Proof.
  intros [Hi Hn Hc] [He Hcu Hr Hnu Hid]. split; [done| |].
  - intros t' r'. rewrite He, run_rows_app. destruct (decide ((t', r') = (t, r))) as [[= -> ->]|Hne].
    + rewrite (rows_of_same _ _ _ Hr), map_app, Hn, Hnu, length_app, numbers_app. do 2 f_equal. lia.
    + by rewrite (rows_of_other _ _ _ _ _ Hr Hne), app_nil_r.
  - intros t' r'. rewrite He, run_rows_app, Hcu. destruct (decide ((t', r') = (t, r))) as [[= -> ->]|Hne].
    + rewrite (rows_of_same _ _ _ Hr). destruct rows as [|x rows]; [by rewrite app_nil_r|]. rewrite lookup_insert_eq.
      destruct (run_rows t r (lg_events g)); cbn [app length]; f_equal; rewrite ?length_app; cbn [length]; lia.
    + rewrite (rows_of_other _ _ _ _ _ Hr Hne), app_nil_r. destruct rows; [done|]. rewrite lookup_insert_ne by done. done.
Qed.

Lemma take_spec t r k g g' n :
  ledger_inv g → take_sequences t r k g = SOk (g', n) →
  n = Z.of_nat (length (run_rows t r (lg_events g))) + 1 ∧ g' = set_cursor (t, r) (n + k) g.
Proof.
  intros [_ _ Hc] E. unfold take_sequences in E. rewrite Hc in E. destruct (_ || _); [done|]. injection E as <- <-.
  destruct (run_rows t r (lg_events g)); done.
Qed.

Lemma existsb_none {A} (f : A → bool) l : existsb f l = false → ∀ x, x ∈ l → f x = false.
Proof.
  induction l as [|y l IH]; cbn; intros E x Hx; [by apply elem_of_nil in Hx|]. apply orb_false_iff in E as [E1 E2].
  apply elem_of_cons in Hx as [->|Hx]; [done|by apply IH].
Qed.

Lemma insert_spec row g g' :
  insert_event row g = SOk g' → g' = set_events (lg_events g ++ [row]) g ∧ er_id row ∉ (er_id <$> lg_events g).
Proof.
  unfold insert_event. destruct (_ || _) eqn:Eu; [done|]. destruct (negb _); [done|]. intros [= <-]. split; [done|].
  apply orb_false_iff in Eu as [Eu _]. intros (x & Hx & Hin)%list_elem_of_fmap.
  apply (existsb_none _ _ Eu) in Hin. rewrite <- Hx, String.eqb_refl in Hin. done.
Qed.
Lemma inserts_spec rows g g' :
  insert_events rows g = SOk g' → NoDup (er_id <$> lg_events g) →
  g' = set_events (lg_events g ++ rows) g ∧ NoDup (er_id <$> lg_events g').
Proof.
  revert g. induction rows as [|row rows IH]; intros g E Hd; cbn [insert_events] in E.
  - injection E as <-. rewrite app_nil_r. by destruct g.
  - apply sbind_ok in E as (g1 & E1 & E). apply insert_spec in E1 as [-> Hn]. apply IH in E as [-> Hd'].
    + split; [unfold set_events; cbn; by rewrite <- app_assoc|done].
    + cbn. rewrite fmap_app. apply NoDup_app. split_and!; [done| |apply NoDup_singleton].
      intros x Hx ->%list_elem_of_singleton. done.
Qed.

Section Ledger.
Context `{PyRuntime} `{StreamRuntime}.

Lemma ledger_cursor_spec r n c : ledger_cursor r n = SOk c → c = RunCursor r n.
Proof.
  unfold ledger_cursor, new_run_cursor. destruct (negb _); [done|]. destruct (n <? 0); [done|]. by intros [= <-].
Qed.

Lemma append_event_extends now fresh t r e id g g' rp :
  ledger_inv g → append_event now fresh t r e id g = SOk (g', rp) →
  ∃ row, extends t r [row] g g' ∧ er_id row = rp_event_id rp ∧ er_sequence row = rc_sequence (rp_cursor rp) ∧
    er_shape row = persisted_event_shape r e ∧ lg_batches g' = lg_batches g ∧ lg_drains g' = lg_drains g ∧ rc_run_id (rp_cursor rp) = r.
Proof.
  intros Hi E. unfold append_event in E. do 5 (apply sbind_ok in E as (? & _ & E)).
  apply sbind_ok in E as ([g1 c] & Ea & E). unfold allocate_cursor in Ea. apply sbind_ok in Ea as ([g2 n] & Et & Ea).
  apply (take_spec _ _ _ _ _ _ Hi) in Et as [-> ->]. apply sbind_ok in Ea as (c' & Hc%ledger_cursor_spec & Ea). injection Ea as <- <-.
  apply sbind_ok in E as (g3 & Ein & E). injection E as <- <-. apply insert_spec in Ein as [-> Hn]. subst c'. cbn in Hn.
  eexists. split; [split; cbn; [reflexivity|..]|cbn; split_and!; done].
  - f_equal. lia.
  - by repeat constructor.
  - unfold numbers. cbn. by rewrite Z.add_0_r.
  - rewrite fmap_app. apply NoDup_app. split_and!; [apply Hi| |apply NoDup_singleton]. intros y Hy ->%list_elem_of_singleton. done.
Qed.

Lemma batch_rows_spec now t r first items :
  rows_of t r (batch_rows now t r first items) ∧
  map er_sequence (batch_rows now t r first items) = numbers first (length (batch_rows now t r first items)) ∧
  map er_id (batch_rows now t r first items) = items.*1 ∧ length (batch_rows now t r first items) = length items ∧
  map er_shape (batch_rows now t r first items) = map (fun item => persisted_event_shape r item.2) items.
Proof.
  unfold batch_rows. rewrite length_imap.
  revert first. induction items as [|[i e] items IH]; intros first; [by split_and!; try constructor|].
  rewrite imap_cons. cbn [map length fmap list_fmap].
  assert (imap ((λ index item, EventRow item.1 t r (first + Z.of_nat index) (persisted_event_shape r item.2) now) ∘ S) items =
          imap (λ index item, EventRow item.1 t r (first + 1 + Z.of_nat index) (persisted_event_shape r item.2) now) items) as ->.
  { apply imap_ext. intros k x _. cbn. f_equal. lia. }
  destruct (IH (first + 1)) as (H1 & H2 & H3 & H4 & H5). cbn [er_sequence er_id er_shape fst snd]. split_and!; try congruence.
  - by constructor.
  - rewrite numbers_S, H2. f_equal. lia.
Qed.

(** A batch of events becomes that many rows, numbered on from the last. *)
Lemma append_events_extends now fresh t r es ids g g' rps :
  ledger_inv g → append_events now fresh t r es ids g = SOk (g', rps) →
  ∃ rows, extends t r rows g g' ∧ lg_batches g' = lg_batches g ∧ lg_drains g' = lg_drains g ∧
    map er_id rows = map rp_event_id rps ∧ map er_sequence rows = map (fun p => rc_sequence (rp_cursor p)) rps ∧
    map er_shape rows = map (persisted_event_shape r) es ∧ map rp_event_id rps = ids ∧ Forall (fun p => rc_run_id (rp_cursor p) = r) rps.
Proof.
  intros Hi E. unfold append_events in E. do 2 (apply sbind_ok in E as (? & _ & E)).
  destruct (Nat.eqb_spec (length es) (length ids)) as [Hl|]; [|done]. cbn [negb] in E. apply sbind_ok in E as ([] & Hids & E).
  destruct (negb _); [done|].
  destruct es as [|e [|e' es]], ids as [|i [|i' ids]]; try done.
  - injection E as <- <-. exists []. split; [|by split_and!]. split; cbn; rewrite ?app_nil_r; try done; [constructor|apply Hi].
  - apply sbind_ok in E as (? & _ & E). apply sbind_ok in E as ([g1 p] & Ea & E). injection E as <- <-.
    assert (rp_event_id p = i) as Hpi.
    { cbn in Hids. apply sbind_ok in Hids as ([] & Hi' & _). unfold require_nonempty in Hi'. unfold append_event in Ea.
      cbn [truthy_str] in Ea. destruct (str_truthy i); [|done]. do 5 (apply sbind_ok in Ea as (? & _ & Ea)).
      apply sbind_ok in Ea as ([] & _ & Ea). apply sbind_ok in Ea as (? & _ & Ea). by injection Ea as <- <-. }
    destruct (append_event_extends _ _ _ _ _ _ _ _ _ Hi Ea) as (row & Hx & Hid & Hsq & Hsh & Hb & Hd & Hr).
    exists [row]. cbn. rewrite Hid, Hsq, Hsh, Hpi. split_and!; try done. by repeat constructor.
  - apply sbind_ok in E as (? & _ & E). apply sbind_ok in E as ([g1 c] & Ea & E). unfold allocate_cursor_range in Ea.
    destruct (_ <? 1); [done|]. apply sbind_ok in Ea as ([g2 n] & Et & Ea). apply (take_spec _ _ _ _ _ _ Hi) in Et as [-> ->].
    apply sbind_ok in Ea as (c' & Hc%ledger_cursor_spec & Ea). injection Ea as <- <-. subst c'.
    cbn [rc_sequence] in E. set (items := zip (i :: i' :: ids) (e :: e' :: es)) in *.
    set (first := Z.of_nat (length (run_rows t r (lg_events g))) + 1) in *.
    destruct (batch_rows_spec now t r first items) as (H1 & H2 & H3 & H4 & H5).
    assert (length items = S (S (length es))) as Hli by (unfold items; rewrite length_zip_with; cbn in *; lia).
    assert (items.*1 = i :: i' :: ids) as Hf1 by (apply fst_zip; cbn in *; lia).
    assert (items.*2 = e :: e' :: es) as Hf2 by (apply snd_zip; cbn in *; lia).
    clearbody items. set (rows := batch_rows now t r first items) in *. clearbody rows.
    apply sbind_ok in E as (g3 & Ein & E). injection E as <- <-. apply inserts_spec in Ein as [-> Hd]; [|apply Hi]. exists rows.
    rewrite !map_map. cbn [rp_event_id rp_cursor rc_sequence rc_run_id]. split.
    + split; try done. cbn [lg_cursors set_events set_cursor]. destruct rows as [|row0 l] eqn:Eb; [by cbn in H4; lia|].
      f_equal. rewrite H4, Hli. subst first. cbn [length]. lia.
    + split_and!; try done.
      * rewrite H5, <- Hf2. rewrite <- list_fmap_compose. reflexivity.
      * rewrite <- Hf1, <- H3. done.
      * apply Forall_fmap, Forall_true. done.
Qed.

(** ** Committed operations *)

Inductive ledger_step : event_ledger → event_ledger → Prop :=
| step_event now fresh t r e id g g' rp : append_event now fresh t r e id g = SOk (g', rp) → ledger_step g g'
| step_events now fresh t r es ids g g' rps : append_events now fresh t r es ids g = SOk (g', rps) → ledger_step g g'
| step_batch now fresh t r a b es pv g g' rc : append_batch now fresh t r a b es pv g = SOk (g', rc) → ledger_step g g'
| step_drain t r a b g g' dup : acquire_terminal_drain_fence t r a b g = SOk (g', dup) → ledger_step g g'.

Definition is_legacy (row : batch_row) : bool :=
  String.eqb (bt_payload_digest row) "" && String.eqb (bt_projection_version row) LEGACY_PROJECTION_VERSION.

Lemma receipt_spec r dup row rc :
  receipt_of_batch r dup row = SOk rc → is_legacy row = false ∧
  ∀ dup', receipt_of_batch r dup' row = SOk (BatchReceipt (br_receipt_id rc) (br_event_ids rc) (br_first_cursor rc)
    (br_through_cursor rc) dup' (br_payload_digest rc) (br_projection_version rc) (br_item_count rc) (br_callback_received_at rc)).
Proof.
  unfold receipt_of_batch, is_legacy. intros E. apply sbind_ok in E as (f & Ef & E). apply sbind_ok in E as (l & El & E).
  rewrite Ef, El. cbn [sbind]. destruct (negb (str_truthy (bt_id row))); [done|].
  destruct (str_truthy (bt_payload_digest row)) eqn:Ed; [|done]. destruct (negb (str_truthy (bt_projection_version row))); [done|].
  injection E as <-. split; [|done]. by destruct (bt_payload_digest row).
Qed.

(** What a batch does: nothing to the events when its receipt is there, and then the
    receipt row is kept or an old one brought up to date; or its rows and its receipt. *)
Lemma batch_step now fresh t r a b es pv g g' rc :
  ledger_inv g → append_batch now fresh t r a b es pv g = SOk (g', rc) →
  ∃ digest row rows, batch_payload_digest es pv = SOk digest ∧ lg_batches g' = <[(t, r, a, b) := row]> (lg_batches g) ∧
    lg_drains g' = lg_drains g ∧ receipt_of_batch r (br_duplicate rc) row = SOk rc ∧
    bt_payload_digest row = digest ∧ bt_projection_version row = pv ∧ bt_item_count row = Z.of_nat (length es) ∧
    extends t r rows g g' ∧
    match lg_batches g !! (t, r, a, b) with
    | Some old => rows = [] ∧ br_duplicate rc = true ∧ (row = old ∨ is_legacy old = true)
    | None => br_duplicate rc = false ∧ map er_id rows = bt_event_ids row ∧ map er_shape rows = map (persisted_event_shape r) es
    end.
Proof.
  intros Hi E. unfold append_batch in E. do 5 (apply sbind_ok in E as (? & _ & E)). apply sbind_ok in E as (digest & Hd & E).
  assert (∀ m d, extends t r [] g (Ledger (lg_events g) (lg_cursors g) m d)) as Hnone.
  { intros m d. split; cbn; rewrite ?app_nil_r; try done; [constructor|apply Hi]. }
  destruct (lg_batches g !! (t, r, a, b)) as [old|] eqn:Eo.
  - apply sbind_ok in E as ([g1 row] & Eu & E). fold (is_legacy old) in Eu.
    destruct (negb _) eqn:Em; [done|]. to_prop. apply sbind_ok in E as (rc' & Er & E). injection E as <- <-.
    exists digest, row, []. assert (br_duplicate rc' = true) as Hdup by (unfold receipt_of_batch in Er; run_sres Er; by injection Er as <-).
    destruct (is_legacy old) eqn:El.
    + unfold upgrade_matching_legacy_batch_receipt in Eu. destruct (negb (Nat.eqb _ _)); [done|]. destruct (negb (forallb _ _)); [done|].
      injection Eu as <- <-. rewrite Hdup. split_and!; try done; [apply Hnone|by right].
    + injection Eu as <- <-. rewrite Hdup. split_and!; try done; [by rewrite insert_id|destruct g; apply Hnone|by left].
  - destruct (existsb _ _); [done|]. destruct (negb (int4 _)); [done|]. apply sbind_ok in E as (ids & _ & E).
    apply sbind_ok in E as ([g1 rps] & Ea & E). apply sbind_ok in E as (rc' & Er & E). injection E as <- <-.
    destruct (append_events_extends _ _ _ _ _ _ _ _ _ Hi Ea) as (rows & Hx & Hb & Hdr & Hid & Hsq & Hsh & _).
    assert (br_duplicate rc' = false) as Hdup by (unfold receipt_of_batch in Er; run_sres Er; by injection Er as <-).
    eexists digest, _, rows. rewrite Hdup. split; [done|]. split; [cbn; by rewrite Hb|]. split; [done|]. split; [exact Er|].
    cbn. split_and!; try done. destruct Hx as [H1 H2 H3 H4 H5]. by split.
Qed.

Lemma step_extends g g' : ledger_inv g → ledger_step g g' → ∃ t r rows, extends t r rows g g'.
Proof.
  intros Hi Hs. revert Hi. destruct Hs as [now fresh t r e id g g' rp E|now fresh t r es ids g g' rps E
    |now fresh t r a b es pv g g' rc E|t r a b g g' dup E]; intros Hi.
  - destruct (append_event_extends _ _ _ _ _ _ _ _ _ Hi E) as (row & Hx & _). eauto.
  - destruct (append_events_extends _ _ _ _ _ _ _ _ _ Hi E) as (rows & Hx & _). eauto.
  - destruct (batch_step _ _ _ _ _ _ _ _ _ _ _ Hi E) as (? & ? & rows & _ & _ & _ & _ & _ & _ & _ & Hx & _). eauto.
  - unfold acquire_terminal_drain_fence in E. do 4 (apply sbind_ok in E as (? & _ & E)). exists t, r, [].
    assert (lg_events g' = lg_events g ∧ lg_cursors g' = lg_cursors g) as [He Hc]
      by (destruct (lg_drains g !! _); [destruct (negb _); [done|]|]; by injection E as <- <-).
    split; rewrite ?He, ?Hc, ?app_nil_r; try done; [constructor|apply Hi].
Qed.

Lemma steps_inv g g' : ledger_inv g → rtc ledger_step g g' → ledger_inv g'.
Proof.
  intros Hi Hr. revert Hi. induction Hr as [|x y z Hxy _ IH]; [done|]. intros Hx. apply IH.
  destruct (step_extends _ _ Hx Hxy) as (t & r & rows & He). by eapply extends_inv.
Qed.

Definition empty_ledger : event_ledger := Ledger [] ∅ ∅ ∅.
Lemma empty_inv : ledger_inv empty_ledger.
Proof. split; cbn; [constructor|done|]. intros t r. apply lookup_empty. Qed.
Lemma reachable_ledger g : rtc ledger_step empty_ledger g → ledger_inv g.
Proof. apply steps_inv, empty_inv. Qed.

(** C4.  The numbers of a run.  Over every sequence of committed appends, batches and
    fences the events of a run are numbered 1, 2, 3, ... in the order they were committed,
    whatever is appended for other runs in between; no two events have one id; and the
    next number of the run is one more than its events. *)
Theorem events_numbered g t r :
  rtc ledger_step empty_ledger g →
  let rows := run_rows t r (lg_events g) in
  map er_sequence rows = map (fun i => 1 + Z.of_nat i) (seq 0 (length rows)) ∧ NoDup (er_id <$> lg_events g) ∧
  lg_cursors g !! (t, r) = match rows with [] => None | _ => Some (Z.of_nat (length rows) + 1) end.
Proof. intros [Hi Hn Hc]%reachable_ledger. split_and!; [apply Hn|done|]. rewrite Hc. by destruct (run_rows _ _ _). Qed.

(** ** Replays of a batch *)

Lemma step_keeps_batch g g' k row :
  ledger_inv g → ledger_step g g' → lg_batches g !! k = Some row → is_legacy row = false → lg_batches g' !! k = Some row.
Proof.
  intros Hi Hs. revert Hi. destruct Hs as [now fresh t r e id g g' rp E|now fresh t r es ids g g' rps E
    |now fresh t r a b es pv g g' rc E|t r a b g g' dup E]; intros Hi Hk Hl.
  - destruct (append_event_extends _ _ _ _ _ _ _ _ _ Hi E) as (_ & _ & _ & _ & _ & -> & _). done.
  - destruct (append_events_extends _ _ _ _ _ _ _ _ _ Hi E) as (_ & _ & -> & _). done.
  - destruct (batch_step _ _ _ _ _ _ _ _ _ _ _ Hi E) as (digest & row' & rows & _ & Hb & _ & _ & _ & _ & _ & _ & Hm). rewrite Hb.
    destruct (decide (k = (t, r, a, b))) as [->|Hne]; [|by rewrite lookup_insert_ne]. rewrite lookup_insert_eq, Hk in *.
    destruct Hm as (_ & _ & [->|Hl']); congruence.
  - unfold acquire_terminal_drain_fence in E. do 4 (apply sbind_ok in E as (? & _ & E)).
    destruct (lg_drains g !! _); [destruct (negb _); [done|]|]; by injection E as <- <-.
Qed.
Lemma steps_keep_batch g g' k row :
  ledger_inv g → rtc ledger_step g g' → lg_batches g !! k = Some row → is_legacy row = false → lg_batches g' !! k = Some row.
Proof.
  intros Hi Hr. revert Hi. induction Hr as [|x y z Hxy _ IH]; [done|]. intros Hx Hk Hl.
  destruct (step_extends _ _ Hx Hxy) as (t & r & rows & He). apply IH; [by eapply extends_inv| |done]. by eapply step_keeps_batch.
Qed.

(** C5.  A callback batch is accepted once.  When a batch was accepted, the same batch
    delivered again, at any time and after any committed operations, is answered with the
    ids, cursors and time of its first receipt, marked as a duplicate, and changes nothing;
    and a batch under its id with another digest is refused as a conflict. *)
Theorem batch_accepted_once now fresh t r a b es pv g g1 rc now' fresh' g2 :
  rtc ledger_step empty_ledger g → append_batch now fresh t r a b es pv g = SOk (g1, rc) → rtc ledger_step g1 g2 →
  append_batch now' fresh' t r a b es pv g2 =
    SOk (g2, BatchReceipt (br_receipt_id rc) (br_event_ids rc) (br_first_cursor rc) (br_through_cursor rc) true
               (br_payload_digest rc) (br_projection_version rc) (br_item_count rc) (br_callback_received_at rc)) ∧
  ∀ es' digest', batch_payload_digest es' pv = SOk digest' → batch_payload_digest es pv ≠ SOk digest' →
    append_batch now' fresh' t r a b es' pv g2 = SErr (RunEventLedgerConflictError "run_event_batch_conflict").
Proof.
  intros Hi%reachable_ledger E Hr.
  destruct (batch_step _ _ _ _ _ _ _ _ _ _ _ Hi E) as (digest & row & rows & Hd & Hb & _ & Hrc & Hrd & Hrp & Hrn & Hx & _).
  apply receipt_spec in Hrc as [Hl Hrc].
  assert (lg_batches g2 !! (t, r, a, b) = Some row) as Hrow.
  { eapply steps_keep_batch; [|exact Hr| |done]; [by eapply extends_inv|by rewrite Hb, lookup_insert_eq]. }
  unfold append_batch in E. apply sbind_ok in E as (? & E1 & E). apply sbind_ok in E as (? & E2 & E).
  apply sbind_ok in E as (? & E3 & E). apply sbind_ok in E as (? & E4 & E). apply sbind_ok in E as (? & E5 & _).
  unfold append_batch. rewrite E1, E2, E3, E4, E5. cbn [sbind]. rewrite Hrow. fold (is_legacy row). rewrite Hl. split.
  - rewrite Hd. cbn [sbind]. rewrite Hrd, Hrp, Hrn, !String.eqb_refl, Z.eqb_refl. cbn [negb andb sbind]. by rewrite Hrc.
  - intros es' digest' Hd' Hne. rewrite Hd'. cbn [sbind]. rewrite Hrd.
    destruct (String.eqb_spec digest digest') as [->|]; [by destruct Hne|done].
Qed.

(** ** Pages *)

Lemma sorted_insert x l : Forall (fun y => er_sequence x < er_sequence y) l → insert_row x l = x :: l.
Proof.
  destruct l as [|y l]; [done|]. intros Hf. inversion Hf; subst. cbn. unfold row_leb.
  destruct (Z.ltb_spec (er_sequence x) (er_sequence y)); [done|lia].
Qed.
Lemma sort_sorted l : StronglySorted (fun x y => er_sequence x < er_sequence y) l → sort_rows l = l.
Proof. unfold sort_rows. induction 1 as [|x l _ IH Hf]; [done|]. cbn. rewrite IH. by apply sorted_insert. Qed.

Lemma filter_numbered from n l c :
  map er_sequence l = numbers from n →
  List.filter (fun x => c <? er_sequence x) l = drop (Z.to_nat (c + 1 - from)) l.
Proof.
  revert from l. induction n as [|n IH]; intros from l Hl.
  - destruct l; [by rewrite drop_nil|done].
  - destruct l as [|x l]; [done|]. rewrite numbers_S in Hl. cbn in Hl. injection Hl as Hx Hl. cbn. rewrite Hx.
    destruct (Z.ltb_spec c from).
    + replace (Z.to_nat (c + 1 - from)) with 0%nat by lia. cbn. f_equal. rewrite (IH (from + 1)) by done.
      replace (Z.to_nat (c + 1 - (from + 1))) with 0%nat by lia. done.
    + rewrite (IH (from + 1)) by done. replace (Z.to_nat (c + 1 - from)) with (S (Z.to_nat (c + 1 - (from + 1)))) by lia. done.
Qed.
Lemma numbered_sorted from n l :
  map er_sequence l = numbers from n → StronglySorted (fun x y => er_sequence x < er_sequence y) l ∧
  Forall (fun x => from <= er_sequence x) l.
Proof.
  revert from l. induction n as [|n IH]; intros from l Hl; [destruct l; [split; constructor|done]|].
  destruct l as [|x l]; [done|]. rewrite numbers_S in Hl. cbn in Hl. injection Hl as Hx Hl. destruct (IH _ _ Hl) as [Hs Hf]. split.
  - constructor; [done|]. eapply Forall_impl; [exact Hf|]. cbn. lia.
  - constructor; [lia|]. eapply Forall_impl; [exact Hf|]. cbn. lia.
Qed.

(** In a ledger numbered so, what comes after a cursor is the rest of the run's events. *)
Lemma rows_after_drop g t r c :
  ledger_inv g → 0 <= c → rows_after t (RunCursor r c) g = drop (Z.to_nat c) (run_rows t r (lg_events g)).
Proof.
  intros [_ Hn _] Hc. unfold rows_after. cbn. specialize (Hn t r).
  rewrite (filter_numbered 1 _ _ c Hn). replace (c + 1 - 1) with c by lia. apply sort_sorted.
  apply numbered_sorted in Hn as [Hs _]. rewrite <- (take_drop (Z.to_nat c)) in Hs. revert Hs.
  generalize (drop (Z.to_nat c) (run_rows t r (lg_events g))) as d, (take (Z.to_nat c) (run_rows t r (lg_events g))) as k.
  intros d k. induction k as [|x k IH]; [done|]. cbn [app]. inversion 1; subst. by apply IH.
Qed.

Lemma steps_grow g g' t r :
  ledger_inv g → rtc ledger_step g g' → ∃ more, run_rows t r (lg_events g') = run_rows t r (lg_events g) ++ more.
Proof.
  intros Hi Hr. revert Hi. induction Hr as [x|x y z Hxy _ IH]; intros Hx; [exists []; by rewrite app_nil_r|].
  destruct (step_extends _ _ Hx Hxy) as (t' & r' & rows & He). destruct IH as [more Hm]; [by eapply extends_inv|].
  exists (run_rows t r rows ++ more). rewrite Hm. destruct He as [-> _ _ _ _]. by rewrite run_rows_app, app_assoc.
Qed.

Section Paging.
Context (attempts : list (string * string * string)) (jsonb_text : pyval → option string).

(** A reader: pages of given limits, each read from the ledger of its own time after the
    last row it has. *)
Fixpoint read_pages (t r : string) (after : Z) (reads : list (Z * event_ledger)) : sres (list event_row * Z) :=
  match reads with
  | [] => SOk ([], after)
  | (limit, g) :: reads =>
      do! page := read_event_rows attempts jsonb_text t (RunCursor r after) (Some limit) g in
      let after := match last page with Some x => er_sequence x.1 | None => after end in
      do! '(rows, after) := read_pages t r after reads in
      SOk (page.*1 ++ rows, after)
  end.

Inductive growing : event_ledger → list (Z * event_ledger) → event_ledger → Prop :=
| growing_nil g g' : rtc ledger_step g g' → growing g [] g'
| growing_cons g limit g1 reads g' : rtc ledger_step g g1 → growing g1 reads g' → growing g ((limit, g1) :: reads) g'.

Lemma growing_inv g reads g' : ledger_inv g → growing g reads g' → ledger_inv g'.
Proof. intros Hi Hg. induction Hg as [g g' Hr|g l g1 reads g' Hr _ IH]; [by eapply steps_inv|]. apply IH. by eapply steps_inv. Qed.
Lemma growing_grow g reads g' t r :
  ledger_inv g → growing g reads g' → ∃ more, run_rows t r (lg_events g') = run_rows t r (lg_events g) ++ more.
Proof.
  intros Hi Hg. induction Hg as [g g' Hr|g l g1 reads g' Hr _ IH]; [by apply steps_grow|].
  destruct (steps_grow _ _ t r Hi Hr) as [m1 Hm1]. destruct IH as [m2 Hm2]; [by eapply steps_inv|].
  exists (m1 ++ m2). by rewrite Hm2, Hm1, app_assoc.
Qed.

Lemma last_number l n x : map er_sequence l = numbers n (length l) → last l = Some x → er_sequence x = n + Z.of_nat (length l) - 1.
Proof.
  revert n. induction l as [|y l IH]; intros n Hl Hx; [done|]. cbn [length] in Hl. rewrite numbers_S in Hl. cbn in Hl. injection Hl as Hy Hl.
  destruct l as [|z l]; [cbn in *; injection Hx as <-; lia|]. rewrite last_cons_cons in Hx. rewrite (IH _ Hl Hx). cbn [length]. lia.
Qed.

Lemma numbers_drop from n k : (k ≤ n)%nat → drop k (numbers from n) = numbers (from + Z.of_nat k) (n - k).
Proof.
  intros Hk. replace n with (k + (n - k))%nat at 1 by lia. rewrite numbers_app, drop_app_length'; [done|]. by rewrite numbers_length.
Qed.

Lemma numbers_take from n k : take k (numbers from n) = numbers from (k `min` n).
Proof.
  destruct (Nat.le_ge_cases k n) as [Hk|Hk].
  - rewrite Nat.min_l by done. replace n with (k + (n - k))%nat at 1 by lia.
    rewrite numbers_app, take_app_length'; [done|]. by rewrite numbers_length.
  - rewrite Nat.min_r by done. apply take_ge. by rewrite numbers_length.
Qed.

(** One page moves the cursor by its length. *)
Lemma page_advances g t r c limit page :
  ledger_inv g → 0 <= c → read_event_rows attempts jsonb_text t (RunCursor r c) (Some limit) g = SOk page →
  page.*1 = take (Z.to_nat limit) (drop (Z.to_nat c) (run_rows t r (lg_events g))) ∧
  match last page with Some x => er_sequence x.1 | None => c end = c + Z.of_nat (length page).
Proof.
  intros Hi Hc E. unfold read_event_rows in E. apply sbind_ok in E as ([] & _ & E). destruct (_ <? _); [done|].
  rewrite (rows_after_drop _ _ _ _ Hi Hc) in E. injection E as <-. set (rows := run_rows t r (lg_events g)) in *.
  set (p := take (Z.to_nat limit) (drop (Z.to_nat c) rows)). split; [by rewrite <- list_fmap_compose, list_fmap_id|].
  change (map ?f p) with (f <$> p). rewrite fmap_last, length_fmap. destruct (last p) as [x|] eqn:El; cbn.
  - destruct (decide (Z.to_nat c ≤ length rows)%nat) as [Hle|]; [|by subst p; rewrite drop_ge in El by lia; rewrite take_nil in El].
    pose proof (in_numbers _ Hi t r) as Hn. fold rows in Hn.
    assert (map er_sequence p = numbers (1 + c) (length p)) as Hp.
    { unfold p. rewrite <- firstn_map, <- skipn_map, Hn. rewrite numbers_drop by lia.
      rewrite numbers_take, length_take, length_drop, Z2Nat.id by lia. done. }
    rewrite (last_number _ _ _ Hp El). lia.
  - apply last_None in El. rewrite El. cbn. lia.
Qed.

(** C30.  Paging misses nothing.  A reader that follows a run page by page, from pages of any
    size read while events of this and other runs are appended, has exactly the events of
    the run up to its cursor, in order and once: after it, the events of the run in the
    ledger of any later time are those it has followed by those after its cursor. *)
Theorem paging_is_complete t r g reads g' rows after :
  rtc ledger_step empty_ledger g → growing g reads g' → read_pages t r 0 reads = SOk (rows, after) →
  run_rows t r (lg_events g') = rows ++ rows_after t (RunCursor r after) g' ∧ after = Z.of_nat (length rows).
Proof.
  intros Hi%reachable_ledger Hg E.
  assert (∀ c, 0 <= c → ∀ rows after, read_pages t r c reads = SOk (rows, after) →
    (Z.to_nat c ≤ length (run_rows t r (lg_events g)))%nat →
    drop (Z.to_nat c) (run_rows t r (lg_events g')) = rows ++ drop (Z.to_nat after) (run_rows t r (lg_events g')) ∧
    after = c + Z.of_nat (length rows)) as Hgen.
  { clear E rows after. induction Hg as [g g' Hr|g limit g1 reads g' Hr Hg IH]; intros c Hc rows after E Hle; cbn [read_pages] in E.
    - injection E as <- <-. cbn. split; [done|lia].
    - pose proof (steps_inv _ _ Hi Hr) as Hi1. apply sbind_ok in E as (page & Ep & E).
      destruct (page_advances _ _ _ _ _ _ Hi1 Hc Ep) as [Hp Ha]. rewrite Ha in E. apply sbind_ok in E as ([rows' after'] & Er & E).
      injection E as <- <-. destruct (steps_grow _ _ t r Hi Hr) as [m1 Hm1].
      assert (length page = length (page.*1)) as Hlp by by rewrite length_fmap.
      assert (Z.to_nat c + length page ≤ length (run_rows t r (lg_events g1)))%nat as Hle1.
      { rewrite Hlp, Hp, length_take, length_drop, Hm1, length_app. lia. }
      destruct (IH Hi1 (c + Z.of_nat (length page)) ltac:(lia) rows' after' Er ltac:(lia)) as [Hd ->].
      rewrite length_app, <- Hlp. split; [|lia]. rewrite <- app_assoc, <- Hd.
      destruct (growing_grow _ _ _ t r Hi1 Hg) as [m2 Hm2]. rewrite Hm2.
      rewrite !drop_app_le by lia. rewrite app_assoc. f_equal.
      replace (Z.to_nat (c + Z.of_nat (length page))) with (Z.to_nat c + length page)%nat by lia.
      rewrite <- drop_drop. rewrite Hlp, Hp, length_take, length_drop.
      rewrite <- (take_drop (Z.to_nat limit `min` (length (run_rows t r (lg_events g1)) - Z.to_nat c))
                    (drop (Z.to_nat c) (run_rows t r (lg_events g1)))) at 1. f_equal.
      destruct (Nat.le_ge_cases (Z.to_nat limit) (length (run_rows t r (lg_events g1)) - Z.to_nat c)) as [Hmin|Hmin];
        [by rewrite Nat.min_l by done|]. rewrite Nat.min_r by done. rewrite !take_ge; try done; rewrite length_drop; lia. }
  destruct (Hgen 0 ltac:(lia) rows after E ltac:(lia)) as [Hd Ha]. rewrite rows_after_drop; [|by eapply growing_inv|lia].
  split; [exact Hd|lia].
Qed.
End Paging.
End Ledger.

(** ** A concrete event_ledger *)

Definition text_event (text : string) : ledger_event :=
  LedgerEvent "message.delta" "model" text [("delta", PStr text)] None None None None None (Some 0) (Some 0) (Some 0) (Some 0).
Definition result_or {A} (d : event_ledger * A) (m : sres (event_ledger * A)) : event_ledger * A := match m with SOk x => x | SErr _ => d end.
Lemma result_or_pair {A} d (m : sres (event_ledger * A)) :
  match m with SOk _ => true | SErr _ => false end = true → m = SOk ((result_or d m).1, (result_or d m).2).
Proof. destruct m as [[]|]; done. Qed.
Definition no_receipt : batch_receipt := BatchReceipt "" [] None None false "" "" 0 "".
Definition no_event_receipt : event_receipt := EventReceipt "" (RunCursor "" 0) "".

Definition ledger_a := result_or (empty_ledger, no_event_receipt)
  (@append_event toy_py 1735689600000000 "0a" "t" "run_7" (text_event "one") None empty_ledger).
Definition ledger_b := result_or (empty_ledger, no_receipt)
  (@append_batch toy_py toy_stream 1735689600000001 "0b" "t" "run_7" "att_1" "cb_1" [text_event "two"; text_event "three"]
     CALLBACK_BATCH_PROJECTION_VERSION ledger_a.1).
Definition ledger_c := result_or (empty_ledger, no_event_receipt)
  (@append_event toy_py 1735689600000002 "0c" "t" "run_7" (text_event "four") None ledger_b.1).

Lemma ledger_a_steps : rtc (@ledger_step toy_py toy_stream) empty_ledger ledger_a.1.
Proof.
  apply rtc_once, (@step_event toy_py toy_stream 1735689600000000 "0a" "t" "run_7" (text_event "one") None _ _ ledger_a.2).
  apply result_or_pair. vm_compute. reflexivity.
Qed.
Lemma ledger_b_step : @append_batch toy_py toy_stream 1735689600000001 "0b" "t" "run_7" "att_1" "cb_1"
  [text_event "two"; text_event "three"] CALLBACK_BATCH_PROJECTION_VERSION ledger_a.1 = SOk (ledger_b.1, ledger_b.2).
Proof. apply result_or_pair. vm_compute. reflexivity. Qed.
Lemma ledger_c_steps : rtc (@ledger_step toy_py toy_stream) ledger_b.1 ledger_c.1.
Proof.
  apply rtc_once, (@step_event toy_py toy_stream 1735689600000002 "0c" "t" "run_7" (text_event "four") None _ _ ledger_c.2).
  apply result_or_pair. vm_compute. reflexivity.
Qed.

Lemma events_numbered_witness :
  let rows := run_rows "t" "run_7" (lg_events ledger_a.1) in
  length rows = 1%nat ∧ map er_sequence rows = map (fun i => 1 + Z.of_nat i) (seq 0 (length rows)) ∧
  NoDup (er_id <$> lg_events ledger_a.1) ∧
  lg_cursors ledger_a.1 !! ("t", "run_7") = match rows with [] => None | _ => Some (Z.of_nat (length rows) + 1) end.
Proof. split; [vm_compute; reflexivity|]. apply (@events_numbered toy_py toy_stream), ledger_a_steps. Defined.

Lemma batch_accepted_once_witness :
  map er_sequence (lg_events ledger_c.1) = [1; 2; 3; 4] ∧ br_duplicate ledger_b.2 = false ∧
  @append_batch toy_py toy_stream 1735689600000009 "0d" "t" "run_7" "att_1" "cb_1" [text_event "two"; text_event "three"]
    CALLBACK_BATCH_PROJECTION_VERSION ledger_c.1 =
    SOk (ledger_c.1, BatchReceipt (br_receipt_id ledger_b.2) (br_event_ids ledger_b.2) (br_first_cursor ledger_b.2)
           (br_through_cursor ledger_b.2) true (br_payload_digest ledger_b.2) (br_projection_version ledger_b.2)
           (br_item_count ledger_b.2) (br_callback_received_at ledger_b.2)).
Proof.
  split; [vm_compute; reflexivity|]. split; [vm_compute; reflexivity|].
  exact (proj1 (@batch_accepted_once toy_py toy_stream 1735689600000001 "0b" "t" "run_7" "att_1" "cb_1"
                  [text_event "two"; text_event "three"] CALLBACK_BATCH_PROJECTION_VERSION ledger_a.1 ledger_b.1 ledger_b.2
                  1735689600000009 "0d" ledger_c.1 ledger_a_steps ledger_b_step ledger_c_steps)).
Defined.

Lemma paging_is_complete_witness :
  run_rows "t" "run_7" (lg_events ledger_c.1) =
    take 3 (lg_events ledger_c.1) ++ rows_after "t" (RunCursor "run_7" 3) ledger_c.1 ∧
  3 = Z.of_nat (length (take 3 (lg_events ledger_c.1))).
Proof.
  apply (@paging_is_complete toy_py toy_stream [] (fun _ => None) "t" "run_7" ledger_a.1
           [(1, ledger_a.1); (2, ledger_b.1)] ledger_c.1).
  - apply ledger_a_steps.
  - eapply growing_cons; [apply rtc_refl|]. eapply growing_cons; [|apply growing_nil, ledger_c_steps].
    eapply rtc_once, (step_batch _ _ _ _ _ _ _ _ _ _ _ ledger_b_step).
  - vm_compute. reflexivity.
Defined.
