(* ===== verification/StreamRows.v ===== *)
(** * The stream rows of the event ledger

    The first half of [src/app/streaming/infrastructure/v4.py]: how an application event
    becomes a durable row of [run_events] with a derived identity and the reserved
    metadata of its stream, how a batch of rows is appended once, how new answer facts
    are checked against the facts the ledger has, and how the answer of a run is read
    back against a receipt.  The identities are those of
    [src/app/streaming/domain/public_events_v4.py].

    - Rows live in the ledger of [EventLedger]; an operation returns the new ledger or
      the error that rolls the caller's transaction back.
    - A row the code passes around is a mapping: [v4_row] keeps its [created_at] apart,
      a datetime when the row comes from the database and text when it was just written.
    - [jsonb_text] is the text PostgreSQL's [->>] gives a float, an array or an object.
    - Sets and dictionaries are visited in the order of insertion.  Where Python leaves
      the order open every visit raises the same error. *)
From stdpp Require Import base gmap list strings.
From Stdlib Require Import ZArith Lia Ascii.
From S2P Require Import Prelude Redis PyValue Numerals RunAttempt RunTerminal TextParts StreamCursors StreamProtocol StreamEvents CanonicalJson StreamAuthority EventLedger.
#[local] Open Scope py_scope.

(** ** Identities *)

(** Four hexadecimal digits. *)
Definition hex4 (n : Z) : string :=
  String (hex_char (n / 4096)) (String (hex_char (n / 256 mod 16)) (String (hex_char (n / 16 mod 16)) (String (hex_char (n mod 16)) ""))).

(** A character of a string literal when the encoder keeps to ASCII. *)
Definition ascii_escape (point : Z) : string :=
  if point <=? 126 then json_escape (ascii_of_N (Z.to_N point))
  else if point <? 65536 then "\u" +:+ hex4 point
  else let v := point - 65536 in
       "\u" +:+ hex4 (55296 + v / 1024) +:+ "\u" +:+ hex4 (56320 + v mod 1024).
Definition ascii_json_string (s : string) : string := quote +:+ String.concat "" (map ascii_escape (utf8_points s)) +:+ quote.

Definition V4_PUBLIC_STAGE : string := "agent_kernel".
Definition CHAT_PUBLIC_PROJECTION_VERSION : string := "ai-platform.chat-public-projection.v1".

(** A row as the code hands it around. *)
Record v4_row := V4Row { vr_fields : dict; vr_created_at : option datetime }.

(** The columns of a selected row. *)
Definition stored_row (r : event_row) : v4_row :=
  V4Row [("id", PStr (er_id r)); ("tenant_id", PStr (er_tenant_id r)); ("run_id", PStr (er_run_id r));
         ("sequence", PInt (er_sequence r)); ("event_type", PStr (es_event_type (er_shape r)));
         ("visible_to_user", PBool (es_visible_to_user (er_shape r))); ("payload_json", PDict (es_payload_json (er_shape r)))]
    (Some (DateTime (er_created_at r) true)).
(** The mapping the code builds for a row of its own. *)
Definition built_row (event_id tenant_id run_id : string) (sequence : Z) (event : ledger_event) (created_at : string) : v4_row :=
  V4Row [("id", PStr event_id); ("tenant_id", PStr tenant_id); ("run_id", PStr run_id); ("sequence", PInt sequence);
         ("event_type", PStr (le_event_type event)); ("visible_to_user", PBool true); ("payload_json", PDict (le_payload event));
         ("created_at", PStr created_at)] None.

Definition view (a : stream_authority) : authority_view :=
  AuthorityView (sa_tenant_id a) (sa_tenant_scope a) (sa_run_id a) (sa_attempt_id a) (sa_stream_incarnation a)
    (sa_authorization_epoch a).

Section Rows.
Context `{PyRuntime} `{StreamRuntime}.

Definition stable_event_id (tenant_id run_id attempt_id batch_id : string) (callback_index batch_index : Z) : string :=
  "evt4_" +:+ sha256_hex ("[" +:+ join "," [ascii_json_string "ai-platform-agent-kernel-event-id-v4"; ascii_json_string tenant_id;
                                          ascii_json_string run_id; ascii_json_string attempt_id; ascii_json_string batch_id;
                                          py_str_int callback_index; py_str_int batch_index] +:+ "]").

Definition stable_run_event_id (tenant_id run_id attempt_id : string) (stream_incarnation : Z) (event_type : string) : sres string :=
  do! text := canonical_json_bytes (PList [PStr "ai-platform-agent-kernel-run-event-id-v4"; PStr tenant_id; PStr run_id;
                                           PStr attempt_id; PInt stream_incarnation; PStr event_type]) in
  SOk ("evt4_run_" +:+ sha256_hex text).

(** [_safe_ref] of a value that may be absent. *)
Definition optional_ref (value : option string) (name : string) : sres unit :=
  match value with Some s => do! _ := v4_safe_ref (PStr s) name in SOk tt | None => SOk tt end.

(** ** Preparing a row *)

(** The lease or, for the facts of the run itself, the state of the stream must allow the
    row. *)
Definition check_row_scope (event_type : string) (authority : stream_authority) (execution_lease_id : option string) : sres unit :=
  match execution_lease_id with
  | None =>
      fail! (V4ProjectionError "v4_run_authority_scope_mismatch")
        when negb (str_in event_type RUN_DOMAIN_EVENT_TYPES)
             || negb (str_in (sa_state authority) ["admission_pending"; "confirmed"; "terminal"])
             || (String.eqb event_type "run.cancel_requested" && String.eqb (sa_state authority) "terminal");
      SOk tt
  | Some lease =>
      do! _ := v4_nonempty (PStr lease) "execution_lease_id" in
      fail! (V4ProjectionError "v4_callback_authority_scope_mismatch") when negb (String.eqb (sa_state authority) "confirmed");
      SOk tt
  end.

Definition row_metadata_dict (batch_id : string) (callback_index batch_index : Z) (attempt_id : string) (authority : stream_authority)
    (execution_lease_id message_id trace_ref causation_event_id source_event_id source_run_id : option string) : dict :=
  [("version", PInt V4_METADATA_VERSION); ("callback_batch_id", PStr batch_id); ("callback_index", PInt callback_index);
   ("batch_index", PInt batch_index); ("attempt_id", PStr attempt_id);
   ("stream_incarnation", PInt (sa_stream_incarnation authority)); ("authorization_epoch", PInt (sa_authorization_epoch authority));
   ("execution_lease_id", opt_str execution_lease_id); ("message_id", opt_str message_id); ("trace_ref", opt_str trace_ref);
   ("causation_event_id", opt_str causation_event_id); ("source_event_id", opt_str source_event_id);
   ("source_run_id", opt_str source_run_id);
   ("lease_fence", PStr (match execution_lease_id with Some _ => "active" | None => "not_required" end));
   ("cancellation_fence", PStr "not_requested")].

(** The event id is the caller's, that of the run's fact, or that of the callback item. *)
Definition prepare_application_v4_row (tenant_id run_id attempt_id batch_id : string) (callback_index batch_index : Z)
    (event_type : string) (payload : pyval) (authority : stream_authority)
    (execution_lease_id event_id message_id trace_ref causation_event_id source_event_id source_run_id : option string)
    : sres (string * ledger_event) :=
  fail! (V4ProjectionError "v4_callback_item_invalid") when negb (str_in event_type PUBLIC_APPLICATION_EVENT_TYPES);
  let is_run_domain := str_in event_type RUN_DOMAIN_EVENT_TYPES in
  do! _ := check_row_scope event_type authority execution_lease_id in
  fail! (V4ProjectionError "v4_callback_authority_scope_mismatch")
    when negb (String.eqb tenant_id (sa_tenant_id authority)) || negb (String.eqb run_id (sa_run_id authority))
         || negb (String.eqb attempt_id (sa_attempt_id authority))
         || (negb is_run_domain && negb (String.eqb (sa_state authority) "confirmed")) || negb (str_truthy batch_id);
  do! event_id := match event_id with
                  | None => if is_run_domain
                            then do! i := stable_run_event_id tenant_id run_id attempt_id (sa_stream_incarnation authority) event_type in
                                 SOk (Some i)
                            else SOk None
                  | Some i => SOk (Some i)
                  end in
  do! _ := optional_ref event_id "event_id" in
  fail! (V4ProjectionError "v4_terminal_event_id_mismatch")
    when str_in event_type RUN_TERMINAL_EVENT_TYPES
         && negb (match payload with
                  | PDict d => match event_id with Some i => eq_str (get "terminal_event_id" d) i | None => is_none (get "terminal_event_id" d) end
                  | _ => match event_id with Some _ => false | None => true end
                  end);
  fail! (V4ProjectionError "v4_callback_item_invalid") when (callback_index <? 0) || (batch_index <? 0);
  do! payload := validate_payload event_type payload in
  do! _ := (if str_in event_type PUBLIC_MESSAGE_CORRELATED_EVENT_TYPES
            then match message_id with
                 | None => SErr (V4ProjectionError "v4_callback_message_id_invalid")
                 | Some _ => optional_ref message_id "message_id"
                 end
            else optional_ref message_id "message_id") in
  do! _ := optional_ref source_event_id "source_event_id" in
  do! _ := optional_ref source_run_id "source_run_id" in
  fail! (V4ProjectionError "v4_callback_source_run_mismatch")
    when match source_run_id with Some r => negb (String.eqb r run_id) | None => false end;
  do! _ := optional_ref trace_ref "trace_ref" in
  do! _ := optional_ref causation_event_id "causation_event_id" in
  let metadata := row_metadata_dict batch_id callback_index batch_index attempt_id authority execution_lease_id message_id trace_ref
                    causation_event_id source_event_id source_run_id in
  let event := LedgerEvent event_type V4_PUBLIC_STAGE "" (assoc_set V4_METADATA_KEY (PDict metadata) payload) trace_ref None
                 (Some true) None None (Some 0) (Some 0) (Some 0) (Some 0) in
  SOk (match truthy_str event_id with
       | Some i => i
       | None => stable_event_id tenant_id run_id attempt_id batch_id callback_index batch_index
       end, event).

(** ** Answer facts *)

Definition ASSISTANT_ANSWER_FACT_TYPES : list string :=
  ["message.started"; "message.delta"; "message.part.delta"; "message.part.classified"; "message.completed"].
Definition is_fact (event : ledger_event) : bool := str_in (le_event_type event) ASSISTANT_ANSWER_FACT_TYPES.
Definition is_part (event_type : string) : bool := str_in event_type ASSISTANT_TEXT_PART_EVENT_TYPES.

Definition part_error {A} : sres A := SErr (V4ProjectionError "v4_part_ledger_invalid").

(** [->>] of a JSON value. *)
Definition field_text (jsonb_text : pyval → option string) (v : pyval) : option string :=
  match v with
  | PNone => None
  | PStr s => Some s
  | PInt n => Some (py_str_int n)
  | PBool b => Some (if b then "true" else "false")
  | PFloat _ | PList _ | PDict _ => jsonb_text v
  end.

Definition event_metadata (event : ledger_event) : option dict := row_metadata [("payload_json", PDict (le_payload event))].
Definition stored_metadata (r : event_row) : dict := default [] (row_metadata (vr_fields (stored_row r))).
Definition text_of (v : pyval) : option string := match v with PStr s => Some s | _ => None end.

Section Facts.
Context (jsonb_text : pyval → option string) (tenant_id run_id : string) (authority : stream_authority) (g : event_ledger).

Definition metadata_is (key value : string) (r : event_row) : bool :=
  bool_decide (field_text jsonb_text (get key (stored_metadata r)) = Some value).

(** The rows of this stream, in the order of their sequence. *)
Definition stream_rows : list event_row :=
  List.filter (fun r => metadata_is "attempt_id" (sa_attempt_id authority) r
                        && metadata_is "stream_incarnation" (py_str_int (sa_stream_incarnation authority)) r)
    (sort_rows (run_rows tenant_id run_id (lg_events g))).
Definition of_type (event_type : string) (r : event_row) : bool := String.eqb (es_event_type (er_shape r)) event_type.

Definition project_row (row : v4_row) : sres envelope :=
  do! projected := project_public_v4 (vr_created_at row) (vr_fields row) (view authority) in
  match projected with Some e => SOk e | None => part_error end.
Fixpoint project_rows (rows : list v4_row) : sres (list envelope) :=
  match rows with
  | [] => SOk []
  | row :: rows => do! e := project_row row in do! es := project_rows rows in SOk (e :: es)
  end.

Inductive lookup_key := BY_MESSAGE | BY_PART.
(** [lookup]: the first rows of a type that name a message or a part, or the last. *)
Definition lookup_rows (event_type : string) (key : lookup_key) (value : string) (latest : bool) (limit : nat) : sres (list event_row) :=
  let matching := List.filter (fun r => of_type event_type r
                                        && match key with
                                           | BY_MESSAGE => metadata_is "message_id" value r
                                           | BY_PART => bool_decide (field_text jsonb_text (get "part_id" (es_payload_json (er_shape r)))
                                                                     = Some value)
                                           end) stream_rows in
  let rows := take limit (if latest then rev matching else matching) in
  do! _ := project_rows (map stored_row rows) in
  SOk rows.

Fixpoint event_message_ids (incoming : list (string * ledger_event)) : sres (list (string * string)) :=
  match incoming with
  | [] => SOk []
  | (event_id, event) :: incoming =>
      match event_metadata event with
      | None => part_error
      | Some metadata =>
          do! message_id := v4_safe_ref (get "message_id" metadata) "message_id" in
          do! rest := event_message_ids incoming in
          SOk ((event_id, message_id) :: rest)
      end
  end.

(** The new facts of a message, in order: it starts once, and nothing comes before. *)
Fixpoint check_actions (started : bool) (actions : list (string * ledger_event)) : sres unit :=
  match actions with
  | [] => SOk tt
  | (_, event) :: actions =>
      if String.eqb (le_event_type event) "message.started"
      then if started then part_error else check_actions true actions
      else if negb started || String.eqb (le_event_type event) "message.delta" then part_error
      else check_actions started actions
  end.

Definition check_message (message_ids : list (string * string)) (new : list (string * ledger_event)) (message_id : string) : sres unit :=
  do! starts := lookup_rows "message.started" BY_MESSAGE message_id false 2 in
  do! completed := lookup_rows "message.completed" BY_MESSAGE message_id false 1 in
  do! legacy := lookup_rows "message.delta" BY_MESSAGE message_id false 1 in
  fail! (V4ProjectionError "v4_part_ledger_invalid")
    when Nat.ltb 1 (length starts) || match legacy with [] => false | _ => true end;
  let actions := List.filter (fun ie => bool_decide (assoc ie.1 message_ids = Some message_id)) new in
  fail! (V4ProjectionError "v4_part_ledger_invalid")
    when match completed, actions with _ :: _, _ :: _ => true | _, _ => false end;
  check_actions (match starts with [] => false | _ => true end) actions.
Fixpoint check_messages (message_ids : list (string * string)) (new : list (string * ledger_event)) (messages : list string) : sres unit :=
  match messages with
  | [] => SOk tt
  | m :: messages => do! _ := check_message message_ids new m in check_messages message_ids new messages
  end.

(** The state of a part before the batch. *)
Definition load_part (part_id : string) : sres append_state :=
  do! first := lookup_rows "message.part.delta" BY_PART part_id false 1 in
  do! classified := lookup_rows "message.part.classified" BY_PART part_id true 1 in
  let message_of r := text_of (get "message_id" (stored_metadata r)) in
  let owner := match first with r :: _ => message_of r | [] => None end in
  fail! (V4ProjectionError "v4_part_ledger_invalid")
    when match classified with
         | c :: _ => match first with [] => true | _ => negb (bool_decide (message_of c = owner)) end
         | [] => false
         end;
  SOk {| as_owner_message_id := owner; as_has_delta := match first with [] => false | _ => true end;
         as_latest_role := match classified with c :: _ => text_of (get "role" (es_payload_json (er_shape c))) | [] => None end;
         as_role_reversed := false |}.

(** The states of the parts and the sources of the deltas seen so far. *)
Definition parts_seen : Type := list (string * append_state) * list (string * string).

Definition check_part (message_ids : list (string * string)) (existing : list (string * v4_row)) (event_id : string)
    (event : ledger_event) (seen : parts_seen) : sres parts_seen :=
  let '(states, sources) := seen in
  let payload := List.filter (fun kv => negb (String.eqb kv.1 V4_METADATA_KEY)) (le_payload event) in
  let metadata := default [] (event_metadata event) in
  let message_id := default "" (assoc event_id message_ids) in
  do! part_id := v4_safe_ref (get "part_id" payload) "part_id" in
  do! '(states, state) := match assoc part_id states with
                          | Some state => SOk (states, state)
                          | None => do! state := load_part part_id in SOk (assoc_set part_id state states, state)
                          end in
  do! sources := (if String.eqb (le_event_type event) "message.part.delta"
                  then do! source := v4_safe_ref (get "source_event_id" metadata) "source_event_id" in
                       fail! (V4ProjectionError "v4_part_ledger_invalid")
                         when match assoc source sources with Some _ => true | None => false end;
                       SOk (assoc_set source event_id sources)
                  else SOk sources) in
  match assoc event_id existing with
  | None =>
      match apply_assistant_text_part_append_fact state message_id (le_event_type event) (PDict payload) (get "source_event_id" metadata) with
      | Ok (_, state) => SOk (assoc_set part_id state states, sources)
      | Raise _ => part_error
      end
  | Some _ =>
      fail! (V4ProjectionError "v4_part_ledger_invalid") when negb (bool_decide (as_owner_message_id state = Some message_id));
      SOk (states, sources)
  end.
Fixpoint check_parts (message_ids : list (string * string)) (existing : list (string * v4_row)) (incoming : list (string * ledger_event))
    (seen : parts_seen) : sres parts_seen :=
  match incoming with
  | [] => SOk seen
  | (event_id, event) :: incoming =>
      do! seen := (if is_part (le_event_type event) then check_part message_ids existing event_id event seen else SOk seen) in
      check_parts message_ids existing incoming seen
  end.

(** No other delta of the stream has the source. *)
Definition source_taken (source event_id : string) : bool :=
  existsb (fun r => of_type "message.part.delta" r && metadata_is "source_event_id" source r && negb (String.eqb (er_id r) event_id))
    stream_rows.

(** ** The whole ledger *)

Definition fact_rows : list event_row := List.filter (fun r => str_in (es_event_type (er_shape r)) ASSISTANT_ANSWER_FACT_TYPES) stream_rows.

Definition row_id (row : v4_row) : string := match get "id" (vr_fields row) with PStr s => s | _ => "" end.
Definition row_sequence (row : v4_row) : Z := match get "sequence" (vr_fields row) with PInt n => n | _ => 0 end.
Definition row_type (row : v4_row) : string := match get "event_type" (vr_fields row) with PStr s => s | _ => "" end.

Fixpoint add_known (known : list string) (rows : list v4_row) : list v4_row * list string :=
  match rows with
  | [] => ([], known)
  | row :: rows =>
      if str_in (row_type row) ASSISTANT_ANSWER_FACT_TYPES && negb (str_in (row_id row) known)
      then let '(added, known) := add_known (known ++ [row_id row]) rows in (row :: added, known)
      else add_known known rows
  end.
Fixpoint add_incoming (known : list string) (next_sequence : Z) (incoming : list (string * ledger_event)) : list v4_row :=
  match incoming with
  | [] => []
  | (event_id, event) :: incoming =>
      if str_in event_id known then add_incoming known next_sequence incoming
      else built_row event_id tenant_id run_id (next_sequence + 1) event "2026-01-01T00:00:00Z"
             :: add_incoming (known ++ [event_id]) (next_sequence + 1) incoming
  end.

Definition v4_row_leb (a b : v4_row) : bool :=
  (row_sequence a <? row_sequence b) || ((row_sequence a =? row_sequence b) && negb (str_ltb (row_id b) (row_id a))).
Fixpoint insert_v4_row (r : v4_row) (l : list v4_row) : list v4_row :=
  match l with [] => [r] | x :: l => if v4_row_leb r x then r :: x :: l else x :: insert_v4_row r l end.
Definition sort_v4_rows (l : list v4_row) : list v4_row := foldr insert_v4_row [] l.

(** The facts by message, the owner of each part and the sources of the deltas. *)
Record grouped := Grouped { gr_facts : list (string * list pyval); gr_owners : list (string * string); gr_sources : list string }.
Definition group_row (row : v4_row) (acc : grouped) : sres grouped :=
  do! projected := project_row row in
  match ev_message_id projected, row_metadata (vr_fields row) with
  | Some message_id, Some metadata =>
      let source := get "source_event_id" metadata in
      let fact := PDict (envelope_dict projected ++ [("source_event_id", source)]) in
      let facts := assoc_set message_id (default [] (assoc message_id (gr_facts acc)) ++ [fact]) (gr_facts acc) in
      if negb (is_part (ev_event_type projected)) then SOk (Grouped facts (gr_owners acc) (gr_sources acc)) else
      do! owners := match get "part_id" (ev_payload projected) with
                    | PStr part_id =>
                        let owner := default message_id (assoc part_id (gr_owners acc)) in
                        if String.eqb owner message_id then SOk (assoc_set part_id owner (gr_owners acc)) else part_error
                    | _ => SOk (gr_owners acc)
                    end in
      if String.eqb (ev_event_type projected) "message.part.delta" then
        match source with
        | PStr s => if str_in s (gr_sources acc) then part_error else SOk (Grouped facts owners (gr_sources acc ++ [s]))
        | _ => part_error
        end
      else SOk (Grouped facts owners (gr_sources acc))
  | _, _ => part_error
  end.
Fixpoint group_rows (rows : list v4_row) (acc : grouped) : sres grouped :=
  match rows with
  | [] => SOk acc
  | row :: rows => do! acc := group_row row acc in group_rows rows acc
  end.

Definition fact_is_part (fact : pyval) : bool :=
  match fact with PDict d => existsb (eq_str (get "event_type" d)) ASSISTANT_TEXT_PART_EVENT_TYPES | _ => false end.
Fixpoint reduce_messages (messages : list (string * list pyval)) : sres unit :=
  match messages with
  | [] => SOk tt
  | (_, facts) :: messages =>
      do! _ := (if existsb fact_is_part facts
                then match reduce_assistant_text_part_message facts None with Ok _ => SOk tt | Raise _ => part_error end
                else SOk tt) in
      reduce_messages messages
  end.

Definition max_row_sequence (rows : list v4_row) : Z :=
  match rows with [] => 0 | r :: rows => foldl (fun m r => Z.max m (row_sequence r)) (row_sequence r) rows end.

Definition validate_assistant_part_append_full (incoming : list (string * ledger_event)) (existing : list (string * v4_row)) : sres unit :=
  let stored := map stored_row fact_rows in
  let '(added, known) := add_known (map row_id stored) (map snd existing) in
  let ledger_rows := stored ++ added in
  let rows := ledger_rows ++ add_incoming known (max_row_sequence ledger_rows) incoming in
  do! grouped := group_rows (sort_v4_rows rows) (Grouped [] [] []) in
  reduce_messages (gr_facts grouped).

Definition validate_assistant_part_append (prepared : list (string * ledger_event)) (existing : list (string * v4_row)) : sres unit :=
  let incoming := foldl (fun d ie => assoc_set ie.1 ie.2 d) [] (List.filter (fun ie => is_fact ie.2) prepared) in
  match incoming with
  | [] => SOk tt
  | _ =>
      let new := List.filter (fun ie => match assoc ie.1 existing with Some _ => false | None => true end) incoming in
      let contains_parts := existsb (fun ie => is_part (le_event_type ie.2)) incoming in
      if negb contains_parts
         && (match new with [] => true | _ => false end || negb (existsb (of_type "message.part.delta") stream_rows))
      then SOk tt else
      if negb contains_parts || existsb (fun ie => String.eqb (le_event_type ie.2) "message.completed") new
      then validate_assistant_part_append_full incoming existing else
      do! message_ids := event_message_ids incoming in
      do! _ := check_messages message_ids new (first_seen [] (map snd message_ids)) in
      do! seen := check_parts message_ids existing incoming ([], []) in
      fail! (V4ProjectionError "v4_part_ledger_invalid") when existsb (fun se => source_taken se.1 se.2) seen.2;
      SOk tt
  end.

End Facts.

(** ** Appending *)

(** [unique]: the first event of each identity; another one with the same identity must be
    equal to it. *)
Fixpoint unique_rows (prepared : list (string * ledger_event)) (unique : list (string * ledger_event))
    : sres (list (string * ledger_event)) :=
  match prepared with
  | [] => SOk unique
  | (event_id, event) :: prepared =>
      match assoc event_id unique with
      | Some prior =>
          fail! (V4ProjectionError "v4_callback_existing_row_conflict")
            when negb (String.eqb (le_event_type prior) (le_event_type event))
                 || negb (py_eq (PDict (le_payload prior)) (PDict (le_payload event)));
          unique_rows prepared unique
      | None => unique_rows prepared (unique ++ [(event_id, event)])
      end
  end.

Definition row_conflicts (tenant_id run_id : string) (event : ledger_event) (r : event_row) : bool :=
  negb (String.eqb (er_tenant_id r) tenant_id) || negb (String.eqb (er_run_id r) run_id)
  || negb (String.eqb (es_event_type (er_shape r)) (le_event_type event)) || negb (es_visible_to_user (er_shape r))
  || negb (py_eq (PDict (es_payload_json (er_shape r))) (PDict (le_payload event))).

Definition append_prepared_application_v4_rows (jsonb_text : pyval → option string) (now : Z) (fresh : string)
    (tenant_id run_id : string) (prepared : list (string * ledger_event)) (authority : stream_authority) (g : event_ledger)
    : sres (event_ledger * list v4_row) :=
  do! unique := unique_rows prepared [] in
  let found := List.filter (fun r => str_in (er_id r) (map fst unique)) (lg_events g) in
  fail! (V4ProjectionError "v4_callback_existing_row_conflict")
    when existsb (fun r => match assoc (er_id r) unique with Some event => row_conflicts tenant_id run_id event r | None => false end) found;
  let existing := map (fun r => (er_id r, stored_row r)) found in
  do! _ := validate_assistant_part_append jsonb_text tenant_id run_id authority g prepared existing in
  let missing := List.filter (fun ie => negb (str_in ie.1 (map er_id found))) unique in
  do! '(g, existing) :=
    match missing with
    | [] => SOk (g, existing)
    | _ =>
        do! '(g, receipts) := append_events now fresh tenant_id run_id (map snd missing) (map fst missing) g in
        SOk (g, existing ++ map (fun mr => (mr.1.1, built_row (rp_event_id mr.2) tenant_id run_id (rc_sequence (rp_cursor mr.2)) mr.1.2
                                                    (rp_created_at mr.2))) (zip missing receipts))
    end in
  SOk (g, omap (fun ie => assoc ie.1 existing) prepared).

Definition append_application_v4_row (jsonb_text : pyval → option string) (now : Z) (fresh : string)
    (tenant_id run_id attempt_id batch_id : string) (callback_index batch_index : Z) (event_type : string) (payload : pyval)
    (authority : stream_authority)
    (execution_lease_id event_id message_id trace_ref causation_event_id source_event_id source_run_id : option string)
    (g : event_ledger) : sres (event_ledger * v4_row) :=
  do! prepared := prepare_application_v4_row tenant_id run_id attempt_id batch_id callback_index batch_index event_type payload authority
                    execution_lease_id event_id message_id trace_ref causation_event_id source_event_id source_run_id in
  do! '(g, rows) := append_prepared_application_v4_rows jsonb_text now fresh tenant_id run_id [prepared] authority g in
  match rows with
  | row :: _ => SOk (g, row)
  | [] => SErr (PyTypeError "tuple index out of range")
  end.

Definition append_run_v4_row (jsonb_text : pyval → option string) (now : Z) (fresh : string) (tenant_id run_id attempt_id : string)
    (event_type : string) (payload : pyval) (batch_id : string) (event_id trace_ref : option string) (db : sse_db) (g : event_ledger)
    : sres (event_ledger * option v4_row) :=
  match get_stream_authority db tenant_id run_id with
  | None => SOk (g, None)
  | Some authority =>
      let attempt_id := if str_truthy attempt_id then attempt_id else sa_attempt_id authority in
      do! '(g, row) := append_application_v4_row jsonb_text now fresh tenant_id run_id attempt_id batch_id 0 0 event_type payload authority
                         None event_id None trace_ref None event_id (Some run_id) g in
      SOk (g, Some row)
  end.

Definition append_run_cancel_requested_v4_row (jsonb_text : pyval → option string) (now : Z) (fresh : string) (tenant_id run_id source : string)
    (trace_ref : option string) (db : sse_db) (g : event_ledger) : sres (event_ledger * option v4_row) :=
  fail! (V4ProjectionError "v4_run_cancel_source_invalid") when negb (str_in source ["user"; "system"]);
  append_run_v4_row jsonb_text now fresh tenant_id run_id "" "run.cancel_requested" (PDict [("source", PStr source)])
    ("cancel-request-" +:+ run_id) None trace_ref db g.

Definition run_terminal_payload (status terminal_event_id : string) (error_code : pyval) (reason_code : string) : sres dict :=
  if String.eqb status "succeeded" then SOk [("terminal_event_id", PStr terminal_event_id); ("hydrate_required", PBool true)]
  else if String.eqb status "cancelled" then
    fail! (V4ProjectionError "v4_run_cancel_reason_invalid")
      when negb (str_in reason_code ["user_cancelled"; "policy_cancelled"; "timeout"]);
    SOk [("terminal_event_id", PStr terminal_event_id); ("hydrate_required", PBool true); ("reason_code", PStr reason_code)]
  else
    fail! (V4ProjectionError "v4_run_terminal_status_invalid") when negb (String.eqb status "failed");
    match public_terminal_projection (PStr status) error_code with
    | Raise e => SErr (PyValueError e)
    | Ok None => SErr (V4ProjectionError "v4_run_public_terminal_projection_unavailable")
    | Ok (Some projection) =>
        fail! (V4ProjectionError "v4_run_public_terminal_projection_unavailable")
          when negb (String.eqb (tp_detail_kind projection) "failed");
        fail! (V4ProjectionError "v4_run_public_terminal_projection_invalid")
          when negb (str_truthy (tp_detail_code projection)) || negb (str_truthy (tp_message projection));
        SOk [("terminal_event_id", PStr terminal_event_id); ("hydrate_required", PBool true);
             ("projection_version", PStr CHAT_PUBLIC_PROJECTION_VERSION); ("code", PStr (tp_detail_code projection));
             ("default_message", PStr (tp_message projection)); ("detail", PNone)]
    end.

Definition append_run_terminal_v4_row (jsonb_text : pyval → option string) (now : Z) (fresh : string)
    (tenant_id run_id attempt_id status terminal_event_id : string) (error_code : pyval) (reason_code : string) (trace_ref : option string)
    (db : sse_db) (g : event_ledger) : sres (event_ledger * option v4_row) :=
  do! payload := run_terminal_payload status terminal_event_id error_code reason_code in
  append_run_v4_row jsonb_text now fresh tenant_id run_id attempt_id ("run." +:+ status) (PDict payload) terminal_event_id
    (Some terminal_event_id) trace_ref db g.

Record callback_item := V4CallbackItem {
  ci_callback_index : Z; ci_batch_index : Z; ci_event_type : string; ci_payload : dict; ci_message_id : option string;
  ci_trace_ref : option string; ci_causation_event_id : option string; ci_source_event_id : option string; ci_source_run_id : option string
}.

Fixpoint prepare_callback_rows (tenant_id run_id attempt_id batch_id : string) (authority : stream_authority) (execution_lease_id : string)
    (items : list callback_item) : sres (list (string * ledger_event)) :=
  match items with
  | [] => SOk []
  | item :: items =>
      fail! (V4ProjectionError "v4_callback_source_run_mismatch")
        when match ci_source_run_id item with Some r => negb (String.eqb r run_id) | None => false end;
      do! row := prepare_application_v4_row tenant_id run_id attempt_id batch_id (ci_callback_index item) (ci_batch_index item)
                   (ci_event_type item) (PDict (ci_payload item)) authority (Some execution_lease_id) None (ci_message_id item)
                   (ci_trace_ref item) (ci_causation_event_id item) (ci_source_event_id item) (ci_source_run_id item) in
      do! rows := prepare_callback_rows tenant_id run_id attempt_id batch_id authority execution_lease_id items in
      SOk (row :: rows)
  end.

Definition append_callback_v4_rows (jsonb_text : pyval → option string) (now : Z) (fresh : string)
    (tenant_id run_id attempt_id batch_id : string) (items : list callback_item) (authority : stream_authority)
    (execution_lease_id : string) (g : event_ledger) : sres (event_ledger * list v4_row) :=
  do! prepared := prepare_callback_rows tenant_id run_id attempt_id batch_id authority execution_lease_id items in
  append_prepared_application_v4_rows jsonb_text now fresh tenant_id run_id prepared authority g.

(** ** The answer of a run *)

Definition RECEIPT_V1 : string := "ai-platform.assistant-answer-receipt.v1".
Definition RECEIPT_V2 : string := "ai-platform.assistant-answer-receipt.v2".
Definition RECEIPT_KEYS : list string := ["schema_version"; "message_id"; "delta_count"; "text_length"; "last_delta_event_id"].

Record answer_receipt := AnswerReceipt {
  ar_version : string; ar_message_id : string; ar_delta_count : Z; ar_text_length : Z; ar_last_delta_event_id : string
}.

(** The checks of the receipt itself. *)
Definition read_receipt (attempt_id : string) (receipt : pyval) : sres answer_receipt :=
  match receipt with
  | PDict d =>
      match get "schema_version" d with
      | PStr version =>
          fail! (V4ProjectionError "receipt_schema_version") when negb (str_in version [RECEIPT_V1; RECEIPT_V2]);
          fail! (V4ProjectionError "receipt_fields") when negb (same_keys d RECEIPT_KEYS);
          do! message_id := v4_safe_ref (get "message_id" d) "message_id" in
          do! last_delta_event_id := v4_safe_ref (get "last_delta_event_id" d) "last_delta_event_id" in
          match get "delta_count" d, get "text_length" d with
          | PInt delta_count, PInt text_length =>
              fail! (V4ProjectionError "receipt_count") when (delta_count <? 1) || (text_length <? 1);
              do! _ := v4_safe_ref (PStr attempt_id) "attempt_id" in
              SOk (AnswerReceipt version message_id delta_count text_length last_delta_event_id)
          | _, _ => SErr (V4ProjectionError "receipt_count")
          end
      | _ => SErr (V4ProjectionError "receipt_schema_version")
      end
  | _ => SErr (V4ProjectionError "receipt")
  end.

(** The visible answer rows of an attempt, whatever their incarnation. *)
Definition answer_rows (jsonb_text : pyval → option string) (tenant_id run_id attempt_id : string) (g : event_ledger) : list event_row :=
  List.filter (fun r => str_in (es_event_type (er_shape r)) ASSISTANT_ANSWER_FACT_TYPES && es_visible_to_user (er_shape r)
                        && has_key V4_METADATA_KEY (es_payload_json (er_shape r)) && metadata_is jsonb_text "attempt_id" attempt_id r)
    (sort_rows (run_rows tenant_id run_id (lg_events g))).

Fixpoint project_answer_rows (authority : stream_authority) (rows : list event_row) : sres (list (envelope * dict)) :=
  match rows with
  | [] => SOk []
  | r :: rows =>
      match row_metadata (vr_fields (stored_row r)) with
      | None => SErr (V4ProjectionError "metadata")
      | Some metadata =>
          do! e := project_row authority (stored_row r) in
          do! rest := project_answer_rows authority rows in
          SOk ((e, metadata) :: rest)
      end
  end.

Fixpoint increasing (l : list (option Z)) : bool :=
  match l with
  | [] => true
  | x :: l' =>
      match x, l' with
      | _, [] => true
      | Some a, Some b :: _ => (a <? b) && increasing l'
      | _, _ => false
      end
  end.

Fixpoint source_refs (l : list dict) : sres (list string) :=
  match l with
  | [] => SOk []
  | m :: l => do! s := v4_safe_ref (get "source_event_id" m) "source_event_id" in do! ss := source_refs l in SOk (s :: ss)
  end.

(** [rows[1:-1]]. *)
Definition inner {A} (l : list A) : list A := match l with [] => [] | _ :: l => removelast l end.
Definition delta_text (e : envelope) : string := match get "delta" (ev_payload e) with PStr s => s | _ => "" end.

(** A message of plain deltas, receipt version 1. *)
Definition legacy_answer (receipt : answer_receipt) (rows : list (envelope * dict)) : sres string :=
  let types := map (fun em => ev_event_type em.1) rows in
  let deltas := inner rows in
  fail! (V4ProjectionError "event_order")
    when negb (match types with t :: _ => String.eqb t "message.started" | [] => false end)
         || negb (match last types with Some t => String.eqb t "message.completed" | None => false end)
         || negb (Nat.eqb (length (List.filter (String.eqb "message.started") types)) 1)
         || negb (Nat.eqb (length (List.filter (String.eqb "message.completed") types)) 1)
         || existsb (fun t => negb (String.eqb t "message.delta")) (inner types);
  fail! (V4ProjectionError "sequence") when negb (increasing (map (fun em => ev_seq em.1) rows));
  fail! (V4ProjectionError "delta_count") when negb (Z.of_nat (length deltas) =? ar_delta_count receipt);
  do! sources := source_refs (map snd deltas) in
  fail! (V4ProjectionError "last_delta_event_id")
    when match sources with [] => true | _ => false end || negb (all_different sources)
         || negb (bool_decide (last sources = Some (ar_last_delta_event_id receipt)));
  match last rows with
  | None => SErr (V4ProjectionError "event_order")
  | Some (completed, metadata) =>
      fail! (V4ProjectionError "causation_event_id")
        when negb (bool_decide (ev_causation_event_id completed = Some (ar_last_delta_event_id receipt)))
             || negb (eq_str (get "causation_event_id" metadata) (ar_last_delta_event_id receipt));
      fail! (V4ProjectionError "completed_receipt")
        when negb (eq_int (get "delta_count" (ev_payload completed)) (ar_delta_count receipt))
             || negb (eq_int (get "text_length" (ev_payload completed)) (ar_text_length receipt));
      let text := String.concat "" (map (fun em => delta_text em.1) deltas) in
      fail! (V4ProjectionError "text_length") when negb (py_len text =? ar_text_length receipt);
      SOk text
  end.

(** A message of parts, receipt version 2. *)
Definition part_receipt_answer (receipt : answer_receipt) (rows : list (envelope * dict)) : sres string :=
  let facts := map (fun em => PDict (envelope_dict em.1 ++ [("source_event_id", get "source_event_id" em.2)])) rows in
  match reduce_assistant_text_part_message facts (Some (ar_message_id receipt)) with
  | Raise _ => SErr (V4ProjectionError "part_receipt_invalid")
  | Ok state =>
      match ps_answer state with
      | None => SErr (V4ProjectionError "part_answer_incomplete")
      | Some answer =>
          fail! (V4ProjectionError "part_answer_incomplete") when negb (ps_has_parts state) || negb (ps_completed state);
          fail! (V4ProjectionError "part_receipt_mismatch")
            when negb (pa_delta_count answer =? ar_delta_count receipt) || negb (pa_text_length answer =? ar_text_length receipt)
                 || negb (String.eqb (pa_last_delta_event_id answer) (ar_last_delta_event_id receipt));
          fail! (V4ProjectionError "causation_event_id")
            when negb (match last rows with Some em => eq_str (get "causation_event_id" em.2) (ar_last_delta_event_id receipt) | None => false end);
          SOk (pa_text answer)
      end
  end.

(** [except (KeyError, TypeError, V4ProjectionError)]. *)
Definition receipt_error {A} (m : sres A) : sres A :=
  match m with
  | SErr (V4ProjectionError _) | SErr (PyTypeError _) => SErr (AssistantAnswerReceiptError false)
  | m => m
  end.

Definition load_answer_by_receipt (jsonb_text : pyval → option string) (tenant_id run_id attempt_id : string) (receipt : pyval)
    (db : sse_db) (g : event_ledger) : sres string :=
  do! receipt := receipt_error (read_receipt attempt_id receipt) in
  match get_stream_authority db tenant_id run_id with
  | None => SErr (AssistantAnswerReceiptError false)
  | Some authority =>
      fail! (AssistantAnswerReceiptError false) when negb (String.eqb (sa_attempt_id authority) attempt_id);
      let stored := answer_rows jsonb_text tenant_id run_id attempt_id g in
      fail! (AssistantAnswerReceiptError false) when match stored with [] => true | _ => false end;
      receipt_error
        (do! rows := project_answer_rows authority stored in
         fail! (V4ProjectionError "message_id")
           when existsb (fun em => negb (bool_decide (ev_message_id em.1 = Some (ar_message_id receipt)))) rows;
         if String.eqb (ar_version receipt) RECEIPT_V2 then part_receipt_answer receipt rows else legacy_answer receipt rows)
  end.

End Rows.
