(* ===== verification/StreamRowsFacts.v ===== *)
(** * What the stream rows promise

    A prepared row is the public event it was prepared from: whatever the ledger accepts
    projects back to the event, under the sequence the ledger gave it.  Rows are recorded
    once, and the answer read back against a receipt is the text the receipt is for. *)
From stdpp Require Import base gmap list strings.
From Stdlib Require Import ZArith Lia Ascii.
From S2P Require Import Prelude Redis PyValue Numerals QueueFacts QueueRuntime RunAttempt RunTerminal TextParts TextPartsFacts StreamCursors StreamProtocol StreamEvents StreamEventsFacts CanonicalJson StreamAuthority EventLedger EventLedgerFacts StreamRows.
#[local] Open Scope py_scope.

(** [hexdigest()] of SHA-256 is 64 hexadecimal digits. *)
Class DigestLaws `{StreamRuntime} := {
  digest_length s : String.length (sha256_hex s) = 64%nat;
  digest_hex s : str_forall is_alnum (sha256_hex s) = true
}.

(** An authority admission gives: its names have the form envelopes ask for. *)
Record publishing (a : stream_authority) : Prop := {
  pb_scope : TENANT_SCOPE_PATTERN (sa_tenant_scope a) = true;
  pb_run : RUN_ID_PATTERN (sa_run_id a) = true;
  pb_attempt : 1 <= py_len (sa_attempt_id a) <= 256;
  pb_incarnation : 1 <= sa_stream_incarnation a
}.

(** An identifier has one byte for each character. *)
Lemma id_char_single c : id_char ["_"; "-"]%char c = true → utf8_continuation c = false.
Proof. by destruct c as [[] [] [] [] [] [] [] []]. Qed.
Lemma id_len s : str_forall (id_char ["_"; "-"]%char) s = true → py_len s = Z.of_nat (String.length s).
Proof.
  induction s as [|c s IH]; [done|]. cbn [str_forall py_len String.length]. rewrite andb_true_iff. intros [Hc Hs].
  rewrite (id_char_single _ Hc), IH by done. lia.
Qed.
Lemma pattern_len more s : id_pattern ["_"; "-"]%char more s = true → 1 <= py_len s <= Z.of_nat more + 1.
Proof.
  destruct s as [|c s]; [done|]. cbn [id_pattern]. rewrite !andb_true_iff, Nat.leb_le. intros [[Hc Hs] Hl].
  rewrite id_len; cbn [String.length str_forall]; [lia|]. unfold id_char at 1. by rewrite Hc, Hs.
Qed.
Lemma scope_len s : TENANT_SCOPE_PATTERN s = true → 1 <= py_len s <= 128.
Proof.
  unfold TENANT_SCOPE_PATTERN. rewrite !andb_true_iff, Nat.leb_le. intros [[Ht Hs] Hl]. rewrite id_len by done.
  destruct s; [done|]. cbn [String.length] in *. lia.
Qed.

Section Publishing.
Context `{PyRuntime} `{StreamRuntime} `{!DigestLaws}.

(** The text of the time is one the validator reads. *)
Definition readable_time (now : Z) : Prop :=
  fromisoformat (replace_char "Z" "+00:00" (utc_isoformat now)) = Some true ∧ 1 <= py_len (utc_isoformat now) <= 64.

Definition published (a : stream_authority) (event_id event_type : string) (sequence now : Z) (payload : dict)
    (message_id trace_ref causation_event_id : option string) : envelope := {|
  ev_event_id := event_id; ev_tenant_scope := sa_tenant_scope a; ev_run_id := sa_run_id a; ev_attempt_id := sa_attempt_id a;
  ev_message_id := message_id; ev_seq := Some sequence; ev_event_type := event_type;
  ev_stream_incarnation := sa_stream_incarnation a; ev_replayable := true; ev_trace_ref := trace_ref;
  ev_causation_event_id := causation_event_id; ev_emitted_at := utc_isoformat now; ev_payload := payload;
  ev_source := [("kind", PStr "run_event"); ("run_event_id", PStr event_id); ("sequence", PInt sequence)]
|}.

(** ** Prepared rows *)

Lemma optional_ref_ok o name : optional_ref o name = SOk tt → ∀ s, o = Some s → SAFE_REF_PATTERN s = true.
Proof. unfold optional_ref. intros E s ->. cbn [v4_safe_ref] in E. by destruct (SAFE_REF_PATTERN s). Qed.

Lemma metadata_key_reserved t d : keys_within d (allowed_fields t) = true → assoc V4_METADATA_KEY d = None.
Proof.
  intros Hk. destruct (assoc V4_METADATA_KEY d) as [v|] eqn:E; [|done]. apply lookup_in in E.
  unfold keys_within in Hk. rewrite forallb_forall in Hk. specialize (Hk _ (proj1 (list_elem_of_In _ _) E)). cbn [fst] in Hk.
  unfold allowed_fields in Hk. destruct (assoc t PUBLIC_PAYLOAD_FIELDS) as [l|] eqn:El; [|done]. cbn [default] in Hk.
  apply lookup_in, list_elem_of_In in El.
  assert (forallb (fun tl => negb (str_in V4_METADATA_KEY tl.2)) PUBLIC_PAYLOAD_FIELDS = true) as Ha by reflexivity.
  rewrite forallb_forall in Ha. specialize (Ha _ El). cbn [snd id] in Ha, Hk. unfold id in Hk. by rewrite Hk in Ha.
Qed.

Lemma assoc_set_new {A} k (v : A) d : assoc k d = None → assoc_set k v d = d ++ [(k, v)].
Proof.
  induction d as [|[k' w] d IH]; [done|]. cbn [assoc assoc_set app]. destruct (String.eqb k' k) eqn:Ek; [done|].
  intros E. by rewrite IH.
Qed.
Lemma without_key {A} k (d : list (string * A)) : assoc k d = None → List.filter (fun kv => negb (String.eqb kv.1 k)) d = d.
Proof.
  induction d as [|[k' w] d IH]; [done|]. cbn [assoc List.filter fst]. destruct (String.eqb k' k); [done|]. cbn [negb].
  intros E. by rewrite IH.
Qed.

Lemma alnum_id_char s : str_forall is_alnum s = true → str_forall (id_char ["_"; "-"]%char) s = true.
Proof. apply str_forall_impl. intros c Hc. unfold id_char. by rewrite Hc. Qed.

(** A derived identity: a short prefix and a digest. *)
Lemma derived_ref prefix s :
  match prefix with
  | EmptyString => false
  | String c p => is_alnum c && str_forall (id_char ["_"; "-"]%char) p && Nat.leb (String.length p) 100
  end = true → SAFE_REF_PATTERN (prefix +:+ sha256_hex s) = true.
Proof.
  destruct prefix as [|c p]; [done|].
  change (SAFE_REF_PATTERN (String c p +:+ sha256_hex s))
    with (is_alnum c && str_forall (id_char ["_"; "-"]%char) (p +:+ sha256_hex s) && Nat.leb (String.length (p +:+ sha256_hex s)) 255).
  rewrite !andb_true_iff, str_forall_app, andb_true_iff. intros [[Hc Hp] Hl]. split; [split; [done|split; [done|]]|].
  - apply alnum_id_char, digest_hex.
  - apply Nat.leb_le in Hl. apply Nat.leb_le. rewrite append_length, digest_length. lia.
Qed.

Lemma run_event_id_form t r att n type i :
  stable_run_event_id t r att n type = SOk i → SAFE_REF_PATTERN i = true ∧ starts_with "evt4_" i = true.
Proof.
  unfold stable_run_event_id. intros E. apply sbind_ok in E as (text & _ & E). injection E as <-. split; [by apply derived_ref|done].
Qed.
Lemma stable_event_id_form t r att b ci bi :
  SAFE_REF_PATTERN (stable_event_id t r att b ci bi) = true ∧ starts_with "evt4_" (stable_event_id t r att b ci bi) = true.
Proof. unfold stable_event_id. split; [by apply derived_ref|done]. Qed.

Lemma prepare_spec t r att batch ci bi type payload a lease eid mid trace cause src srun id e :
  prepare_application_v4_row t r att batch ci bi type payload a lease eid mid trace cause src srun = SOk (id, e) →
  ∃ d, payload = PDict d ∧ validate_payload type (PDict d) = SOk d ∧
    t = sa_tenant_id a ∧ r = sa_run_id a ∧ att = sa_attempt_id a ∧
    (∀ s, mid = Some s → SAFE_REF_PATTERN s = true) ∧ (∀ s, cause = Some s → SAFE_REF_PATTERN s = true) ∧
    (str_in type PUBLIC_MESSAGE_CORRELATED_EVENT_TYPES = true → mid ≠ None) ∧
    e = LedgerEvent type V4_PUBLIC_STAGE ""
          (d ++ [(V4_METADATA_KEY, PDict (row_metadata_dict batch ci bi att a lease mid trace cause src srun))]) trace None
          (Some true) None None (Some 0) (Some 0) (Some 0) (Some 0) ∧
    SAFE_REF_PATTERN id = true ∧ match eid with None => starts_with "evt4_" id = true | Some i => id = i end.
Proof.
  unfold prepare_application_v4_row. intros E. destruct (negb (str_in type _)); [done|].
  apply sbind_ok in E as (_ & _ & E). destruct (_ || _ || _ || _ || _) eqn:Es; [done|].
  apply sbind_ok in E as (eid' & Hid & E). apply sbind_ok in E as ([] & Hr & E).
  destruct (str_in type RUN_TERMINAL_EVENT_TYPES && _); [done|]. destruct ((ci <? 0) || _); [done|]. apply sbind_ok in E as (d & Hp & E).
  apply sbind_ok in E as ([] & Hm & E). apply sbind_ok in E as (_ & _ & E). apply sbind_ok in E as (_ & _ & E).
  destruct (match srun with Some _ => _ | None => _ end); [done|]. apply sbind_ok in E as (_ & _ & E).
  apply sbind_ok in E as ([] & Hc & E). injection E as Ei Ee.
  destruct (validate_payload_value _ _ _ Hp) as (-> & _ & Hk & _).
  rewrite assoc_set_new in Ee by by eapply metadata_key_reserved.
  rewrite !orb_false_iff, !negb_false_iff, !String.eqb_eq in Es. destruct Es as [[[[-> ->] ->] _] _].
  exists d. do 5 (split; [done|]). split; [|split; [by eapply optional_ref_ok|split; [|split; [done|]]]].
  - destruct (str_in type PUBLIC_MESSAGE_CORRELATED_EVENT_TYPES); [|by eapply optional_ref_ok].
    destruct mid; [by eapply optional_ref_ok|done].
  - intros Ht. rewrite Ht in Hm. by destruct mid.
  - destruct (stable_event_id_form (sa_tenant_id a) (sa_run_id a) (sa_attempt_id a) batch ci bi) as [S1 S2].
    destruct eid as [i|].
    { injection Hid as <-. pose proof (optional_ref_ok _ _ Hr i eq_refl) as Hs. destruct i; [done|]. cbn in Ei. by subst id. }
    destruct (str_in type RUN_DOMAIN_EVENT_TYPES).
    + apply sbind_ok in Hid as (i & Hi & Hid). injection Hid as <-. destruct (run_event_id_form _ _ _ _ _ _ Hi) as [R1 R2].
      destruct i; [done|]. cbn in Ei. by subst id.
    + injection Hid as <-. cbn in Ei. by subst id.
Qed.

Lemma assoc_app {A} k (d e : list (string * A)) : assoc k d = None → assoc k (d ++ e) = assoc k e.
Proof. induction d as [|[k' v] d IH]; [done|]. cbn [assoc app]. by destruct (String.eqb k' k). Qed.

Lemma application_not_control et :
  str_in et PUBLIC_APPLICATION_EVENT_TYPES = true →
  str_in et PUBLIC_CONTROL_EVENT_TYPES = false ∧ str_in et PUBLIC_STREAM_EVENT_TYPES = true.
Proof.
  intros Ht. assert (forallb (fun t => negb (str_in t PUBLIC_CONTROL_EVENT_TYPES) && str_in t PUBLIC_STREAM_EVENT_TYPES)
    PUBLIC_APPLICATION_EVENT_TYPES = true) as Ha by reflexivity.
  rewrite forallb_forall in Ha. apply str_in_elem, list_elem_of_In, Ha in Ht. apply andb_true_iff in Ht as [Ht ->].
  by apply negb_true_iff in Ht.
Qed.

Lemma eq_int_refl n : eq_int (PInt n) n = true.
Proof. unfold eq_int. cbn. unfold lnum_eqb. cbn. lia. Qed.

(** A mapping with the columns of a prepared row, and a time the validator reads, is the
    public event. *)
Lemma prepared_projects a fields stamp now id type d n batch ci bi lease mid trace cause src srun :
  publishing a → readable_time now → 1 <= n → validate_payload type (PDict d) = SOk d →
  get "visible_to_user" fields = PBool true → get "id" fields = PStr id → get "tenant_id" fields = PStr (sa_tenant_id a) →
  get "run_id" fields = PStr (sa_run_id a) → get "sequence" fields = PInt n → get "event_type" fields = PStr type →
  get "payload_json" fields =
    PDict (d ++ [(V4_METADATA_KEY, PDict (row_metadata_dict batch ci bi (sa_attempt_id a) a lease mid trace cause src srun))]) →
  as_utc stamp (get "created_at" fields) = SOk (utc_isoformat now) →
  SAFE_REF_PATTERN id = true → starts_with "evt4_" id = true →
  (∀ s, mid = Some s → SAFE_REF_PATTERN s = true) → (∀ s, cause = Some s → SAFE_REF_PATTERN s = true) →
  (str_in type PUBLIC_MESSAGE_CORRELATED_EVENT_TYPES = true → mid ≠ None) → (∀ s, trace = Some s → TRACE_REF_PATTERN s = true) →
  project_row a (V4Row fields stamp) = SOk (published a id type n now d mid trace cause).
Proof.
  intros Ha [Hf Hl] Hn Hp Hv Hi Ht Hr Hs He Hj Hu Hid Hev Hm Hc Hmn Htr.
  destruct (validate_payload_value _ _ _ Hp) as (_ & Happ & Hk & _). pose proof (metadata_key_reserved _ _ Hk) as Hres.
  destruct (application_not_control _ Happ) as [Hnc Hpub].
  unfold project_row, project_public_v4. cbn [vr_created_at vr_fields]. rewrite Hv. cbn [is_true negb].
  unfold row_metadata. rewrite Hj. unfold get at 1, get_default. rewrite (assoc_app _ _ _ Hres). cbn [assoc]. rewrite String.eqb_refl.
  cbn [default from_option Datatypes.id]. unfold authority_row. rewrite Hi, He, Ht, Hr.
  set (meta := row_metadata_dict _ _ _ _ _ _ _ _ _ _ _).
  change (get "attempt_id" meta) with (PStr (sa_attempt_id a)).
  change (get "stream_incarnation" meta) with (PInt (sa_stream_incarnation a)).
  change (get "authorization_epoch" meta) with (PInt (sa_authorization_epoch a)).
  change (get "version" meta) with (PInt V4_METADATA_VERSION). change (get "message_id" meta) with (opt_str mid).
  change (get "trace_ref" meta) with (opt_str trace). change (get "causation_event_id" meta) with (opt_str cause).
  cbn [view av_tenant_id av_run_id av_attempt_id av_stream_incarnation av_authorization_epoch av_tenant_scope eq_str].
  rewrite Hev, !String.eqb_refl, !eq_int_refl. cbn [andb]. rewrite Hs, positive_int_ok by done. cbn [sbind].
  assert ((if str_in type PUBLIC_MESSAGE_CORRELATED_EVENT_TYPES || negb (is_none (opt_str mid))
           then do! _ := v4_safe_ref (opt_str mid) "message_id" in SOk tt else SOk tt) = SOk tt) as ->.
  { destruct mid as [m|]; cbn [opt_str is_none negb v4_safe_ref].
    - rewrite orb_true_r, (Hm m) by done. done.
    - destruct (str_in type _); [by destruct (Hmn eq_refl)|done]. }
  cbn [sbind]. rewrite Hu. cbn [sbind]. unfold public_payload. rewrite Hj, List.filter_app, (without_key _ _ Hres).
  cbn [List.filter fst]. rewrite String.eqb_refl. cbn [negb]. rewrite app_nil_r.
  change (PDict [("schema", PStr INTERNAL_STREAM_EVENT_SCHEMA); ("event_id", _); _; _; _; _; _; _; _; _; _; _; _; _; _; _])
    with (PDict (envelope_dict (published a id type n now d mid trace cause))).
  destruct Ha as [Hsc Hrn ? ?]. pose proof (scope_len _ Hsc). pose proof (pattern_len _ _ Hrn). pose proof (pattern_len _ _ Hid).
  rewrite (envelope_validates (PDict d)); try done.
  - cbn [published ev_event_type ev_message_id ev_seq ev_trace_ref ev_replayable ev_payload]. right. split_and!; eauto.
  - cbn [published ev_emitted_at]. unfold as_utc. rewrite bounded_string_ok by done. cbn [sbind]. rewrite Hf.
    by apply bounded_string_ok.
  - cbn [published ev_source]. unfold validate_source.
    cbn [get get_default assoc String.eqb Ascii.eqb Bool.eqb default from_option Datatypes.id keys_within forallb fst str_in orb andb
      negb has_key v4_safe_ref]. rewrite Hid. cbn [sbind]. by rewrite positive_int_ok.
Qed.

(** A row that projects has an event id of version 4, and its trace reference the form
    of an envelope's. *)
Lemma project_demands a row e :
  project_row a row = SOk e → ∃ meta id, row_metadata (vr_fields row) = Some meta ∧
    get "id" (vr_fields row) = PStr id ∧ starts_with "evt4_" id = true ∧
    ∀ s, get "trace_ref" meta = PStr s → TRACE_REF_PATTERN s = true.
Proof.
  unfold project_row, project_public_v4. intros E. apply sbind_ok in E as (p & E & Hp).
  destruct p as [p|]; [|done]. injection Hp as ->. revert E. destruct (negb (is_true _)); [done|].
  destruct (row_metadata (vr_fields row)) as [meta|]; [|done].
  unfold authority_row. destruct (get "id" _) as [| | | |id| |]; try done. destruct (get "event_type" _) as [| | | |ty| |]; try done.
  destruct (get "attempt_id" meta); try done. destruct (_ && _) eqn:Ea; [|done]. rewrite !andb_true_iff in Ea.
  set (m := sbind _ _). intros E. destruct m as [e'|ex] eqn:Eo; [|by destruct ex]. injection E as ->. subst m.
  apply sbind_ok in Eo as (n & _ & Eo). apply sbind_ok in Eo as (_ & _ & Eo). apply sbind_ok in Eo as (u & _ & Eo).
  exists meta, id. split_and!; [done|done|naive_solver|]. intros tr Htr. by eapply validated_trace.
Qed.

(** The trace reference of a prepared row, as it is stored. *)
Definition trace_fits (trace : option string) : bool :=
  match trace with Some s => TRACE_REF_PATTERN s | None => true end.

(** A prepared row that does not meet the demands projects to nothing. *)
Lemma prepared_is_lost a fields stamp id d batch ci bi lease mid trace cause src srun :
  assoc V4_METADATA_KEY d = None → get "id" fields = PStr id →
  get "payload_json" fields =
    PDict (d ++ [(V4_METADATA_KEY, PDict (row_metadata_dict batch ci bi (sa_attempt_id a) a lease mid trace cause src srun))]) →
  starts_with "evt4_" id && trace_fits trace = false → ∀ e, project_row a (V4Row fields stamp) ≠ SOk e.
Proof.
  intros Hres Hi Hj Hbad e E. destruct (project_demands _ _ _ E) as (meta & id' & Hm & Hi' & Hev & Htr). cbn [vr_fields] in *.
  rewrite Hi in Hi'. injection Hi' as <-. unfold row_metadata in Hm. rewrite Hj in Hm. unfold get, get_default in Hm.
  rewrite (assoc_app _ _ _ Hres) in Hm. cbn [assoc] in Hm. rewrite String.eqb_refl in Hm. cbn in Hm. injection Hm as <-.
  rewrite Hev in Hbad. cbn [andb] in Hbad. destruct trace as [s|]; [|done]. cbn [trace_fits] in Hbad.
  rewrite (Htr s) in Hbad; done.
Qed.

(** C31.  What is recorded is what is published, exactly.  When a row of a stream is
    prepared, the event id is the caller's or one derived for it.  If that id starts with
    evt4_ and the trace reference, if any, has the form an envelope asks for (at most 128
    characters), then whichever sequence number and time the ledger gives the row, the row
    read back from the table and the row handed to the publisher project to the same
    public event: the caller's payload, message and causation, under that number and time,
    with none of the reserved metadata.  Otherwise neither projects to any event, although
    the row was accepted.  (The names of the authority have the form admission gives
    them.) *)
Theorem recorded_rows_are_published t r att batch ci bi type payload a lease eid mid trace cause src srun id e n now :
  publishing a → readable_time now → 1 <= n →
  prepare_application_v4_row t r att batch ci bi type payload a lease eid mid trace cause src srun = SOk (id, e) →
  ∃ d, payload = PDict d ∧ match eid with Some i => id = i | None => starts_with "evt4_" id = true end ∧
    let stored := project_row a (stored_row (EventRow id t r n (persisted_event_shape r e) now)) in
    let handed_over := project_row a (built_row id t r n e (utc_isoformat now)) in
    if starts_with "evt4_" id && trace_fits trace
    then stored = SOk (published a id type n now d mid trace cause) ∧
         handed_over = SOk (published a id type n now d mid trace cause)
    else ∀ ev, stored ≠ SOk ev ∧ handed_over ≠ SOk ev.
Proof.
  intros Ha Hnow Hn E. destruct (prepare_spec _ _ _ _ _ _ _ _ _ _ _ _ _ _ _ _ _ _ E)
    as (d & -> & Hp & -> & -> & -> & Hm & Hc & Hmn & -> & Hid & Hev).
  exists d. split; [done|]. split; [by destruct eid|]. cbn zeta. pose proof Hnow as [Hf Hl].
  destruct (starts_with "evt4_" id && trace_fits trace) eqn:Eok.
  - apply andb_true_iff in Eok as [Hev' Ht].
    assert (∀ s, trace = Some s → TRACE_REF_PATTERN s = true) as Htr by by intros s ->.
    split; eapply prepared_projects; try done; unfold as_utc.
    + by apply bounded_string_ok.
    + change (get "created_at" _) with (PStr (utc_isoformat now)). rewrite bounded_string_ok by done. cbn [sbind]. rewrite Hf.
      by apply bounded_string_ok.
  - destruct (validate_payload_value _ _ _ Hp) as (_ & _ & Hk & _). pose proof (metadata_key_reserved _ _ Hk) as Hres.
    intros ev. split; by eapply prepared_is_lost.
Qed.

End Publishing.

(** ** Rows are recorded once *)

Section Recording.
Context `{PyRuntime} `{StreamRuntime}.

Lemma assoc_unique {A} k (v : A) d : NoDup d.*1 → (k, v) ∈ d → assoc k d = Some v.
Proof.
  induction d as [|[k' w] d IH]; [by intros _ ?%elem_of_nil|]. cbn [fmap list_fmap fst]. intros [Hn Hd]%NoDup_cons Hin. cbn [assoc].
  apply elem_of_cons in Hin as [[= <- <-]|Hin]; [by rewrite String.eqb_refl|].
  destruct (String.eqb_spec k' k) as [->|]; [|by apply IH]. destruct Hn. by apply (list_elem_of_fmap_2 fst) in Hin.
Qed.
Lemma assoc_missing {A} k (d : list (string * A)) : k ∉ d.*1 → assoc k d = None.
Proof.
  intros Hk. destruct (assoc k d) as [v|] eqn:E; [|done]. destruct Hk. apply lookup_in, (list_elem_of_fmap_2 fst) in E. done.
Qed.

(** The events of a batch by identity. *)
Lemma unique_rows_spec prepared u u' :
  unique_rows prepared u = SOk u' → NoDup u.*1 →
  NoDup u'.*1 ∧ (∀ x, x ∈ u → x ∈ u') ∧ (∀ x, x ∈ u' → x ∈ u ∨ x ∈ prepared) ∧
  (∀ id e, (id, e) ∈ prepared → ∃ e0, (id, e0) ∈ u' ∧ le_event_type e0 = le_event_type e).
Proof.
  revert u. induction prepared as [|[id e] prepared IH]; intros u E Hd; cbn [unique_rows] in E.
  { injection E as <-. split_and!; try done; [by left|]. by intros ? ? ?%elem_of_nil. }
  destruct (assoc id u) as [e0|] eqn:Ea.
  - destruct (_ || _) eqn:Ec; [done|]. to_prop. destruct (IH _ E Hd) as (U1 & U2 & U3 & U4). split; [done|]. split; [done|]. split.
    + intros x [Hx|Hx]%U3; [by left|right]. by right.
    + intros id' e' [[= -> ->]|Hin]%elem_of_cons; [|by apply U4]. exists e0. split; [by apply U2, lookup_in|done].
  - assert (id ∉ u.*1) as Hni.
    { intros (x & -> & Hx)%list_elem_of_fmap. destruct x as [k v]. by rewrite (assoc_unique k v) in Ea. }
    destruct (IH _ E) as (U1 & U2 & U3 & U4).
    { rewrite fmap_app. apply NoDup_app. split; [done|]. split; [|apply NoDup_singleton]. by intros x Hx ->%list_elem_of_singleton. }
    split; [done|]. split; [intros x Hx; apply U2, elem_of_app; by left|]. split.
    + intros x [[Hx|Hx]%elem_of_app|Hx]%U3; [by left| |]; right; [|by right]. apply list_elem_of_singleton in Hx as ->. by left.
    + intros id' e' [[= -> ->]|Hin]%elem_of_cons; [|by apply U4]. exists e. split; [|done]. apply U2, elem_of_app. right. by left.
Qed.

(** An event as it must be to be found again: visible, and equal to itself, which a NaN
    is not. *)
Definition sound_row (ie : string * ledger_event) : Prop :=
  le_visible_to_user ie.2 = Some true ∧ py_eq (PDict (le_payload ie.2)) (PDict (le_payload ie.2)) = true.
Lemma sound_no_conflict t r ie row :
  sound_row ie → er_tenant_id row = t → er_run_id row = r → er_shape row = persisted_event_shape r ie.2 →
  row_conflicts t r ie.2 row = false.
Proof.
  intros [Hv He] Ht Hr Hs. unfold row_conflicts. rewrite Ht, Hr, Hs. cbn [persisted_event_shape es_event_type es_visible_to_user es_payload_json].
  unfold visible. by rewrite Hv, He, !String.eqb_refl.
Qed.

Lemma append_prepared_spec jt now fresh t r prepared a g g' rows :
  ledger_inv g → append_prepared_application_v4_rows jt now fresh t r prepared a g = SOk (g', rows) →
  ∃ unique new, unique_rows prepared [] = SOk unique ∧ extends t r new g g' ∧ rtc ledger_step g g' ∧
    map er_id new = map fst (List.filter (fun ie => negb (str_in ie.1 (er_id <$> lg_events g))) unique) ∧
    map er_shape new =
      map (fun ie => persisted_event_shape r ie.2) (List.filter (fun ie => negb (str_in ie.1 (er_id <$> lg_events g))) unique) ∧
    (∀ row e, row ∈ lg_events g → assoc (er_id row) unique = Some e → row_conflicts t r e row = false) ∧
    (new = [] → g' = g).
Proof.
  intros Hi E. unfold append_prepared_application_v4_rows in E. apply sbind_ok in E as (unique & Hu & E).
  set (found := List.filter (fun r => str_in (er_id r) (map fst unique)) (lg_events g)) in *.
  destruct (existsb _ found) eqn:Ex; [done|]. apply sbind_ok in E as (_ & _ & E). apply sbind_ok in E as ([g1 ex] & Em & E).
  injection E as <- _. destruct (unique_rows_spec _ _ _ Hu) as (Hd & _); [constructor|].
  assert (∀ row e, row ∈ lg_events g → assoc (er_id row) unique = Some e → row_conflicts t r e row = false) as Hc.
  { intros row e Hrow Ha. assert (row ∈ found) as Hf.
    { apply list_elem_of_In, filter_In. split; [by apply list_elem_of_In|]. apply str_in_elem.
      apply lookup_in, (list_elem_of_fmap_2 fst) in Ha. done. }
    pose proof (existsb_none _ _ Ex row Hf) as Hn. cbn beta in Hn. by rewrite Ha in Hn. }
  assert (List.filter (fun ie => negb (str_in ie.1 (map er_id found))) unique =
          List.filter (fun ie => negb (str_in ie.1 (er_id <$> lg_events g))) unique) as Hmiss.
  { apply List.filter_ext_in. intros [id e] Hin%list_elem_of_In. cbn [fst]. f_equal. apply eq_true_iff_eq.
    rewrite !str_in_elem. split; intros (x & -> & Hx)%list_elem_of_fmap.
    - apply list_elem_of_fmap. exists x. split; [done|]. by apply list_elem_of_In, filter_In in Hx as [Hx%list_elem_of_In _].
    - apply (list_elem_of_fmap_2 er_id). apply list_elem_of_In, filter_In. split; [by apply list_elem_of_In|].
      apply str_in_elem. apply (list_elem_of_fmap_2 fst) in Hin. done. }
  rewrite Hmiss in Em. exists unique. set (missing := List.filter (fun ie => negb (str_in ie.1 (er_id <$> lg_events g))) unique) in *.
  destruct missing as [|m missing'] eqn:Emm.
  { injection Em as <- _. exists []. split; [done|]. split; [|split; [done|by split_and!]].
    split; rewrite ?app_nil_r; cbn; try done; [constructor|apply Hi]. }
  rewrite <- Emm in *. apply sbind_ok in Em as ([g2 receipts] & Ea & Em). injection Em as <- _.
  destruct (append_events_extends _ _ _ _ _ _ _ _ _ Hi Ea) as (new & Hx & _ & _ & Hid & _ & Hsh & Hids & _). exists new.
  split; [done|]. split; [done|]. split; [eapply rtc_once, step_events; exact Ea|].
  split; [by rewrite Hid, Hids|]. split; [by rewrite Hsh, map_map|]. split; [done|].
  intros ->. rewrite Hids, Emm in Hid. done.
Qed.

Lemma steps_events g g' : ledger_inv g → rtc ledger_step g g' → ∃ more, lg_events g' = lg_events g ++ more.
Proof.
  intros Hi Hr. revert Hi. induction Hr as [|x y z Hxy _ IH]; intros Hi; [exists []; by rewrite app_nil_r|].
  destruct (step_extends _ _ Hi Hxy) as (t & r & rows & Hx). destruct (IH (extends_inv _ _ _ _ _ Hi Hx)) as [more Hm].
  exists (rows ++ more). by rewrite Hm, (ex_events _ _ _ _ _ Hx), app_assoc.
Qed.

Lemma lookup_map {A B} (f : A → B) l i : map f l !! i = f <$> l !! i.
Proof. exact (list_lookup_fmap f l i). Qed.

(** After an append every event of the batch has a row that agrees with it. *)
Lemma append_prepared_records jt now fresh t r prepared a g g' rows :
  ledger_inv g → Forall sound_row prepared →
  append_prepared_application_v4_rows jt now fresh t r prepared a g = SOk (g', rows) →
  ∃ unique, unique_rows prepared [] = SOk unique ∧ rtc ledger_step g g' ∧
    ∀ id e, (id, e) ∈ unique → ∃ row, row ∈ lg_events g' ∧ er_id row = id ∧ row_conflicts t r e row = false.
Proof.
  intros Hi Hs E. destruct (append_prepared_spec _ _ _ _ _ _ _ _ _ _ Hi E) as (unique & new & Hu & Hx & Hr & Hid & Hsh & Hc & _).
  destruct (unique_rows_spec _ _ _ Hu) as (Hd & _ & Hsub & _); [constructor|].
  exists unique. split; [done|]. split; [done|]. intros id e Hin. rewrite (ex_events _ _ _ _ _ Hx).
  destruct (str_in id (er_id <$> lg_events g)) eqn:Ei.
  - apply str_in_elem, list_elem_of_fmap in Ei as (row & -> & Hrow). exists row. split; [apply elem_of_app; by left|]. split; [done|].
    apply Hc; [done|]. by apply assoc_unique.
  - set (missing := List.filter _ unique) in *. assert ((id, e) ∈ missing) as Hm.
    { apply list_elem_of_In, filter_In. split; [by apply list_elem_of_In|]. cbn [fst]. by rewrite Ei. }
    apply list_elem_of_lookup in Hm as [i Hm].
    pose proof (f_equal (fun l => l !! i) Hid) as Hid'. pose proof (f_equal (fun l => l !! i) Hsh) as Hsh'. cbn beta in Hid', Hsh'.
    rewrite !lookup_map, Hm in Hid'. rewrite !lookup_map, Hm in Hsh'. destruct (new !! i) as [row|] eqn:Er; [|done].
    cbn [fmap option_fmap option_map fst snd] in Hid', Hsh'. injection Hid' as Hid'. injection Hsh' as Hsh'.
    apply list_elem_of_lookup_2 in Er. exists row. split; [apply elem_of_app; by right|]. split; [done|].
    pose proof (ex_rows _ _ _ _ _ Hx) as Hro. unfold rows_of in Hro. rewrite Forall_forall in Hro. destruct (Hro _ Er) as [Ht Hrr].
    apply (sound_no_conflict t r (id, e)); try done. rewrite Forall_forall in Hs. apply Hs. by destruct (Hsub _ Hin) as [?%elem_of_nil|].
Qed.

Lemma filter_by_id row l : NoDup (er_id <$> l) → row ∈ l → List.filter (fun x => String.eqb (er_id x) (er_id row)) l = [row].
Proof.
  induction l as [|x l IH]; [by intros _ ?%elem_of_nil|]. cbn [fmap list_fmap]. intros [Hn Hd]%NoDup_cons Hin. cbn [List.filter].
  apply elem_of_cons in Hin as [->|Hin].
  - rewrite String.eqb_refl. f_equal. destruct (List.filter _ l) as [|y f] eqn:Ef; [done|]. destruct Hn.
    assert (y ∈ List.filter (fun z => String.eqb (er_id z) (er_id x)) l) as [Hy He]%list_elem_of_In%filter_In by (rewrite Ef; by left).
    apply String.eqb_eq in He. rewrite <- He. by apply (list_elem_of_fmap_2 er_id), list_elem_of_In.
  - destruct (String.eqb_spec (er_id x) (er_id row)) as [He|]; [|by apply IH]. destruct Hn. rewrite He. by apply (list_elem_of_fmap_2 er_id).
Qed.
Lemma filter_all_false {A} (f : A → bool) l : (∀ x, x ∈ l → f x = false) → List.filter f l = [].
Proof.
  induction l as [|x l IH]; [done|]. intros Hf. cbn [List.filter]. rewrite (Hf x) by by left. apply IH. intros y Hy. apply Hf. by right.
Qed.
Lemma existsb_all_false {A} (f : A → bool) l : (∀ x, x ∈ l → f x = false) → existsb f l = false.
Proof.
  induction l as [|x l IH]; [done|]. intros Hf. cbn [existsb]. rewrite (Hf x) by by left. apply IH. intros y Hy. apply Hf. by right.
Qed.
(** The rows of a list of identities. *)
Lemma stored_by_id {B} (prepared : list (string * B)) (found : list event_row) :
  (∀ x, x ∈ prepared → x.1 ∈ er_id <$> found) →
  ∃ stored, omap (fun ie => assoc ie.1 (map (fun r => (er_id r, stored_row r)) found)) prepared = map stored_row stored ∧
    map er_id stored = map fst prepared ∧ Forall (fun row => row ∈ found) stored.
Proof.
  induction prepared as [|[id e] prepared IH]; intros Hf; [by exists []|].
  destruct IH as (stored & E & Hid & Hst); [intros x Hx; apply Hf; by right|].
  assert (∃ row, assoc id (map (fun r => (er_id r, stored_row r)) found) = Some (stored_row row) ∧ er_id row = id ∧ row ∈ found)
    as (row & Ea & He & Hrow).
  { pose proof (Hf (id, e) ltac:(by left)) as Hin. cbn [fst] in Hin. clear -Hin. induction found as [|x found IH]; [by apply elem_of_nil in Hin|].
    cbn [map assoc]. destruct (String.eqb_spec (er_id x) id) as [<-|Hne]; [exists x; split_and!; [done|done|by left]|].
    cbn [fmap list_fmap] in Hin. apply elem_of_cons in Hin as [->|Hin]; [done|]. destruct (IH Hin) as (row & ? & ? & ?).
    exists row. split_and!; [done|done|by right]. }
  exists (row :: stored). cbn [omap list_omap map fst]. rewrite Ea, He. split; [f_equal; exact E|]. split; [by rewrite Hid|]. by constructor.
Qed.

(** A later append of the batch finds every row. *)
Lemma no_rows_missing prepared unique t r g :
  ledger_inv g → unique_rows prepared [] = SOk unique →
  (∀ id e, (id, e) ∈ unique → ∃ row, row ∈ lg_events g ∧ er_id row = id ∧ row_conflicts t r e row = false) →
  (∀ id, id ∈ unique.*1 → str_in id (er_id <$> lg_events g) = true) ∧
  (∀ row e, row ∈ lg_events g → assoc (er_id row) unique = Some e → row_conflicts t r e row = false).
Proof.
  intros Hi Hu Hrec. split.
  - intros id ([id' e] & -> & Hin)%list_elem_of_fmap. destruct (Hrec _ _ Hin) as (row & Hrow & <- & _).
    by apply str_in_elem, (list_elem_of_fmap_2 er_id).
  - intros row e Hrow Ha. destruct (Hrec _ _ (lookup_in _ _ _ Ha)) as (row' & Hrow' & He & Hc).
    assert (row' = row) as <-; [|done]. pose proof (in_ids _ Hi) as Hd.
    apply list_elem_of_lookup in Hrow as [i Hl], Hrow' as [j Hl'].
    assert (i = j) as ->; [|by rewrite Hl in Hl'; injection Hl'].
    eapply NoDup_lookup; [exact Hd|by rewrite list_lookup_fmap, Hl|rewrite list_lookup_fmap, Hl'; cbn; by rewrite He].
Qed.

(** Without answer facts the later append goes through. *)
Lemma repeated_append jt now fresh t r prepared unique a g :
  unique_rows prepared [] = SOk unique → (∀ id, id ∈ unique.*1 → str_in id (er_id <$> lg_events g) = true) →
  (∀ row e, row ∈ lg_events g → assoc (er_id row) unique = Some e → row_conflicts t r e row = false) →
  existsb (fun ie => is_fact ie.2) prepared = false →
  ∃ stored, append_prepared_application_v4_rows jt now fresh t r prepared a g = SOk (g, map stored_row stored) ∧
    map er_id stored = map fst prepared ∧ Forall (fun row => row ∈ lg_events g) stored.
Proof.
  intros Hu Hall Hno Hf. unfold append_prepared_application_v4_rows. rewrite Hu. cbn [sbind].
  set (found := List.filter (fun r => str_in (er_id r) (map fst unique)) (lg_events g)).
  assert (∀ id, id ∈ unique.*1 → id ∈ er_id <$> found) as Hfound.
  { intros id Hid. pose proof (Hall _ Hid) as (row & -> & Hrow)%str_in_elem%list_elem_of_fmap. apply (list_elem_of_fmap_2 er_id).
    apply list_elem_of_In, filter_In. split; [by apply list_elem_of_In|]. by apply str_in_elem. }
  rewrite existsb_all_false.
  2: { intros row Hrow%list_elem_of_In. apply filter_In in Hrow as [Hrow%list_elem_of_In _].
       destruct (assoc (er_id row) unique) eqn:Ea; [by eapply Hno|done]. }
  assert (validate_assistant_part_append jt t r a g prepared (map (fun r => (er_id r, stored_row r)) found) = SOk tt) as ->.
  { unfold validate_assistant_part_append. rewrite filter_all_false; [done|]. intros x Hx. by eapply existsb_none in Hf. }
  cbn [sbind]. rewrite filter_all_false.
  2: { intros [id e] Hin. cbn [fst]. apply negb_false_iff, str_in_elem, Hfound. by apply (list_elem_of_fmap_2 fst) in Hin. }
  cbn [sbind]. destruct (unique_rows_spec _ _ _ Hu) as (_ & _ & _ & Hcov); [constructor|].
  destruct (stored_by_id prepared found) as (stored & Es & Hid & Hst).
  { intros [id e] Hin. destruct (Hcov _ _ Hin) as (e0 & He & _). apply Hfound. by apply (list_elem_of_fmap_2 fst) in He. }
  exists stored. split; [by rewrite Es|]. split; [done|]. eapply Forall_impl; [exact Hst|].
  intros row Hrow%list_elem_of_In. by apply filter_In in Hrow as [Hrow%list_elem_of_In _].
Qed.

(** C32.  A row of the stream is recorded once.  When a batch of prepared rows has been
    appended to a ledger the code can reach, then after any further committed work every
    row of the batch has exactly one row of the ledger, of the same run and type and
    visible; appending the batch again, by whoever and whenever, never changes the ledger;
    and when the batch has no answer facts (such as the terminal fact of a run) the
    repeated append is accepted and returns the recorded rows. *)
Theorem stream_rows_recorded_once jt now fresh t r prepared a g g1 rows g2 :
  rtc ledger_step empty_ledger g → Forall sound_row prepared →
  append_prepared_application_v4_rows jt now fresh t r prepared a g = SOk (g1, rows) → rtc ledger_step g1 g2 →
  (∀ id e, (id, e) ∈ prepared →
     ∃ row, List.filter (fun x => String.eqb (er_id x) id) (lg_events g2) = [row] ∧ er_tenant_id row = t ∧ er_run_id row = r ∧
       es_event_type (er_shape row) = le_event_type e ∧ es_visible_to_user (er_shape row) = true) ∧
  (∀ now' fresh' a' g3 rows', append_prepared_application_v4_rows jt now' fresh' t r prepared a' g2 = SOk (g3, rows') → g3 = g2) ∧
  (existsb (fun ie => is_fact ie.2) prepared = false →
   ∀ now' fresh' a', ∃ stored, append_prepared_application_v4_rows jt now' fresh' t r prepared a' g2 = SOk (g2, map stored_row stored) ∧
     map er_id stored = map fst prepared ∧ Forall (fun row => row ∈ lg_events g2) stored).
Proof.
  intros Hg%reachable_ledger Hs E H12.
  destruct (append_prepared_records _ _ _ _ _ _ _ _ _ _ Hg Hs E) as (unique & Hu & H01 & Hrec).
  assert (ledger_inv g1) as Hg1 by by eapply steps_inv. assert (ledger_inv g2) as Hg2 by by eapply steps_inv.
  destruct (steps_events _ _ Hg1 H12) as [more Hmore].
  assert (∀ id e, (id, e) ∈ unique → ∃ row, row ∈ lg_events g2 ∧ er_id row = id ∧ row_conflicts t r e row = false) as Hrec2.
  { intros id e Hin. destruct (Hrec _ _ Hin) as (row & Hrow & ? & ?). exists row. split; [|done]. rewrite Hmore. apply elem_of_app. by left. }
  assert (List.filter (fun ie => negb (str_in ie.1 (er_id <$> lg_events g2))) unique = []) as Hnil.
  { apply filter_all_false. intros [id e] Hin. cbn [fst]. destruct (Hrec2 _ _ Hin) as (row & Hrow & <- & _). apply negb_false_iff, str_in_elem.
    by apply (list_elem_of_fmap_2 er_id). }
  clear Hrec. destruct (no_rows_missing _ _ _ _ _ Hg2 Hu Hrec2) as [Hall Hno].
  destruct (unique_rows_spec _ _ _ Hu) as (Hd & _ & _ & Hcov); [constructor|]. split; [|split].
  - intros id e (e0 & Hin & Hty)%Hcov. destruct (Hrec2 _ _ Hin) as (row & Hrow & <- & Hc). exists row.
    unfold row_conflicts in Hc. rewrite !orb_false_iff, !negb_false_iff, !String.eqb_eq in Hc. destruct Hc as [[[[-> ->] ->] ->] _].
    split; [|done]. apply filter_by_id; [apply Hg2|done].
  - intros now' fresh' a' g3 rows' E'.
    destruct (append_prepared_spec _ _ _ _ _ _ _ _ _ _ Hg2 E') as (unique' & new & Hu' & _ & _ & Hid & _ & _ & Hsame).
    rewrite Hu in Hu'. injection Hu' as <-. apply Hsame. rewrite Hnil in Hid. by destruct new.
  - intros Hf now' fresh' a'. by eapply repeated_append.
Qed.

End Recording.

(** ** The answer of a run *)

Section Answers.
Context `{PyRuntime} `{StreamRuntime}.

(** The public payload of a stored row. *)
Definition row_payload (x : event_row) : dict :=
  List.filter (fun kv => negb (String.eqb kv.1 V4_METADATA_KEY)) (es_payload_json (er_shape x)).

(** A projected row is an application event with the type, number, message and payload of
    the row. *)
Lemma project_values a row e :
  project_row a row = SOk e →
  ∃ meta n, row_metadata (vr_fields row) = Some meta ∧ get "id" (vr_fields row) = PStr (ev_event_id e) ∧
    get "event_type" (vr_fields row) = PStr (ev_event_type e) ∧ public_payload (vr_fields row) = PDict (ev_payload e) ∧
    get "sequence" (vr_fields row) = PInt n ∧ 1 <= n ∧ ev_seq e = Some n ∧
    get "message_id" meta = opt_str (ev_message_id e) ∧ get "causation_event_id" meta = opt_str (ev_causation_event_id e) ∧
    (∀ s, ev_message_id e = Some s → SAFE_REF_PATTERN s = true) ∧
    (str_in (ev_event_type e) PUBLIC_MESSAGE_CORRELATED_EVENT_TYPES = true → ev_message_id e ≠ None) ∧
    validate_payload (ev_event_type e) (PDict (ev_payload e)) = SOk (ev_payload e).
Proof.
  unfold project_row, project_public_v4. intros E. apply sbind_ok in E as (p & E & Hp).
  destruct p as [p|]; [|done]. injection Hp as ->. revert E. destruct (negb (is_true _)); [done|].
  destruct (row_metadata (vr_fields row)) as [meta|]; [|done].
  unfold authority_row. destruct (get "id" _) as [| | | |id| |]; try done. destruct (get "event_type" _) as [| | | |ty| |]; try done.
  destruct (get "attempt_id" meta); try done. destruct (_ && _); [|done].
  set (m := sbind _ _). intros E. destruct m as [e'|ex] eqn:Eo; [|by destruct ex]. injection E as ->. subst m.
  apply sbind_ok in Eo as (n & Hn & Eo). apply positive_int_value in Hn as [Hn Hpos].
  apply sbind_ok in Eo as (_ & _ & Eo). apply sbind_ok in Eo as (u & _ & Eo).
  destruct (validated_parts _ _ _ Eo) as (env & Henv & Hid & _). injection Henv as <-.
  apply validated_fields in Eo as (H1 & H2 & H3 & H4 & H5 & H6).
  change (get "event_type" _) with (PStr ty) in H1. change (get "event_id" _) with (PStr id) in H2.
  change (get "seq" _) with (PInt n) in H3. change (get "message_id" _) with (get "message_id" meta) in H4 at 1.
  change (get "payload" _) with (public_payload (vr_fields row)) in H5. change (get "payload" _) with (public_payload (vr_fields row)) in Hid.
  change (get "causation_event_id" _) with (get "causation_event_id" meta) in H6 at 1.
  injection H1 as ->. injection H2 as ->. exists meta, n. destruct (ev_seq e) as [n'|] eqn:Es; [|done]. injection H3 as <-.
  destruct Hid as [(_ & _ & Hc & _)|(_ & _ & _ & Hmn & Hm & _ & Hpl)]; [done|]. rewrite H5 in Hpl. by split_and!.
Qed.
Lemma project_row_values a x e :
  project_row a (stored_row x) = SOk e →
  ev_event_type e = es_event_type (er_shape x) ∧ ev_payload e = row_payload x ∧ ev_seq e = Some (er_sequence x) ∧
  ev_event_id e = er_id x ∧ opt_str (ev_message_id e) = get "message_id" (stored_metadata x).
Proof.
  intros E. destruct (project_values _ _ _ E) as (meta & n & Hm & Hi & Ht & Hp & Hs & _ & Hn & Hmi & _).
  unfold stored_metadata. rewrite Hm. cbn [default from_option]. rewrite Hn. cbn in Hi, Ht, Hs.
  change (public_payload _) with (PDict (row_payload x)) in Hp.
  injection Hi as <-. injection Ht as <-. injection Hs as <-. injection Hp as <-. by split_and!.
Qed.

(** What a row adds to a message, and the text of a message of plain deltas. *)
Definition row_fact (x : event_row) : list (string * pyval) :=
  [("event_type", PStr (es_event_type (er_shape x))); ("payload", PDict (row_payload x))].
Definition row_delta (x : event_row) : string := match get "delta" (row_payload x) with PStr s => s | _ => "" end.

(** Facts that agree on type and payload have the same parts. *)
Definition same_fact (f f' : list (string * pyval)) : Prop :=
  get "event_type" f = get "event_type" f' ∧ get "payload" f = get "payload" f'.
Lemma same_fact_part ty f f' : same_fact f f' → fact_part ty f = fact_part ty f'.
Proof. intros [E1 E2]. unfold fact_part. by rewrite E1, E2. Qed.
Lemma same_parts fs fs' : Forall2 same_fact fs fs' → parts_of fs = parts_of fs'.
Proof.
  unfold parts_of. generalize (@nil string). intros acc HF. revert acc. induction HF as [|f f' fs fs' Hf _ IH]; intros acc; [done|].
  cbn [fold_left]. unfold add_part at 2 4. rewrite (same_fact_part _ _ _ Hf). apply IH.
Qed.
Lemma same_omap {B} (h : list (string * pyval) → option B) fs fs' :
  (∀ f f', same_fact f f' → h f = h f') → Forall2 same_fact fs fs' → omap h fs = omap h fs'.
Proof. intros Hh. induction 1 as [|f f' fs fs' Hf _ IH]; [done|]. cbn [omap list_omap]. rewrite (Hh _ _ Hf). destruct (h f'); [by f_equal|done]. Qed.
Lemma same_payload_str k f f' : same_fact f f' → payload_str k f = payload_str k f'.
Proof. intros [_ E]. unfold payload_str. by rewrite E. Qed.
Lemma same_deltas p fs fs' : Forall2 same_fact fs fs' → deltas_of p fs = deltas_of p fs'.
Proof. apply same_omap. intros f f' Hf. by rewrite (same_fact_part _ _ _ Hf), (same_payload_str _ _ _ Hf). Qed.
Lemma same_roles p fs fs' : Forall2 same_fact fs fs' → roles_of p fs = roles_of p fs'.
Proof. apply same_omap. intros f f' Hf. by rewrite (same_fact_part _ _ _ Hf), (same_payload_str _ _ _ Hf). Qed.
Lemma same_answer_parts fs fs' : Forall2 same_fact fs fs' → answer_parts fs = answer_parts fs'.
Proof. intros HF. unfold answer_parts. rewrite (same_parts _ _ HF). apply List.filter_ext. intros p. by rewrite (same_roles p _ _ HF). Qed.

Lemma same_answer_deltas fs fs' : Forall2 same_fact fs fs' → length (answer_deltas fs) = length (answer_deltas fs').
Proof.
  intros HF. unfold answer_deltas. rewrite (same_answer_parts _ _ HF). generalize (answer_parts fs'). intros ps.
  induction HF as [|f f' fs fs' Hf _ IH]; [done|]. cbn [List.filter]. rewrite (same_fact_part _ _ _ Hf).
  destruct (fact_part _ f'); [|done]. destruct (str_in _ ps); cbn [length]; [by f_equal|done].
Qed.

(** The parts classified as answer, each with its deltas. *)
Definition parts_text (fs : list (list (string * pyval))) : string :=
  String.concat (newline +:+ newline) (map (fun p => String.concat "" (deltas_of p fs)) (answer_parts fs)).
Lemma same_parts_text fs fs' : Forall2 same_fact fs fs' → parts_text fs = parts_text fs'.
Proof.
  intros HF. unfold parts_text. rewrite (same_answer_parts _ _ HF). f_equal. apply map_ext. intros p. by rewrite (same_deltas p _ _ HF).
Qed.

Lemma project_answer_rows_spec a rows ems :
  project_answer_rows a rows = SOk ems → Forall2 (fun x em => project_row a (stored_row x) = SOk em.1) rows ems.
Proof.
  revert ems. induction rows as [|x rows IH]; intros ems E; cbn [project_answer_rows] in E; [injection E as <-; constructor|].
  destruct (row_metadata _); [|done]. apply sbind_ok in E as (e & He & E). apply sbind_ok in E as (rest & Hr & E). injection E as <-.
  constructor; [done|by apply IH].
Qed.

Lemma part_receipt_answer_spec a rc rows ems text :
  Forall2 (fun x em => project_row a (stored_row x) = SOk em.1) rows ems → part_receipt_answer rc ems = SOk text →
  text = parts_text (map row_fact rows) ∧ py_len text = ar_text_length rc ∧
  Z.of_nat (length (answer_deltas (map row_fact rows))) = ar_delta_count rc ∧
  (∀ p, p ∈ parts_of (map row_fact rows) → last (roles_of p (map row_fact rows)) ≠ None).
Proof.
  intros HF E. unfold part_receipt_answer in E. destruct (reduce_assistant_text_part_message _ _) as [st|] eqn:Er; [|done].
  destruct (ps_answer st) as [ans|] eqn:Ea; [|done]. destruct (_ || _); [done|]. destruct (_ || _) eqn:Em; [done|].
  destruct (negb (match last ems with Some _ => _ | None => _ end)); [done|]. injection E as <-. rewrite !orb_false_iff, !negb_false_iff, !Z.eqb_eq in Em. destruct Em as [[Hc Hl] _].
  destruct (reduced_mirrors _ _ _ Er) as (lg & M & Hn & Ef); [by rewrite Ea|]. destruct st as [hp c o]. cbn in Ea. subst o.
  destruct (finish_spec _ _ _ _ _ Ef M Hn) as ((Hcount & _) & H1 & _ & H3 & H4 & _). set (fs := dicts _) in *.
  assert (Forall2 same_fact fs (map row_fact rows)) as Hs.
  { unfold fs, dicts. clear -HF. induction HF as [|x em rows ems Hx _ IH]; [constructor|]. constructor; [|exact IH].
    destruct (project_row_values _ _ _ Hx) as (E1 & E2 & _). split; cbn; [by rewrite E1|by rewrite E2]. }
  split; [rewrite H3; by apply same_parts_text|]. split; [by rewrite <- Hl, H4|].
  split; [by rewrite <- (same_answer_deltas _ _ Hs), <- Hcount|]. intros p. rewrite <- (same_parts _ _ Hs), <- (same_roles p _ _ Hs). apply H1.
Qed.

Lemma inner_map {A B} (f : A → B) l : inner (map f l) = map f (inner l).
Proof.
  destruct l as [|x l]; [done|]. cbn [map inner]. induction l as [|y l IH]; [done|]. cbn [map removelast]. destruct l; [done|].
  cbn [map] in *. by rewrite IH.
Qed.
Lemma split_ends {A} (l : list A) x y : head l = Some x → last l = Some y → x ≠ y → l = x :: inner l ++ [y].
Proof.
  intros Hh [l' ->]%last_Some Hne. destruct l' as [|z l']; cbn [app head] in Hh; injection Hh as ->; [done|].
  cbn [app inner]. by rewrite removelast_last.
Qed.

Lemma legacy_answer_spec a rc rows ems text :
  Forall2 (fun x em => project_row a (stored_row x) = SOk em.1) rows ems → legacy_answer rc ems = SOk text →
  map (fun x => es_event_type (er_shape x)) rows =
    "message.started" :: repeat "message.delta" (Z.to_nat (ar_delta_count rc)) ++ ["message.completed"] ∧
  text = String.concat "" (map row_delta (inner rows)) ∧ py_len text = ar_text_length rc.
Proof.
  intros HF E. unfold legacy_answer in E. destruct (_ || _ || _ || _ || _) eqn:Eo; [done|].
  rewrite !orb_false_iff, !negb_false_iff in Eo. destruct Eo as [[[[Eh El] _] _] Ei].
  destruct (negb (increasing _)); [done|]. destruct (negb (Z.of_nat _ =? _)) eqn:Ec; [done|]. apply negb_false_iff, Z.eqb_eq in Ec.
  apply sbind_ok in E as (sources & _ & E). destruct (_ || _ || _); [done|]. destruct (last ems) as [[completed meta]|]; [|done].
  destruct (_ || _); [done|]. destruct (_ || _); [done|]. destruct (negb (py_len _ =? _)) eqn:Et; [done|].
  apply negb_false_iff, Z.eqb_eq in Et. injection E as <-. clear meta completed sources.
  assert (map (fun em => ev_event_type em.1) ems = map (fun x => es_event_type (er_shape x)) rows) as Hty.
  { clear -HF. induction HF as [|x em rows ems Hx _ IH]; [done|]. cbn [map]. destruct (project_row_values _ _ _ Hx) as (-> & _). by rewrite IH. }
  assert (map (fun em => delta_text em.1) ems = map row_delta rows) as Hdt.
  { clear -HF. induction HF as [|x em rows ems Hx _ IH]; [done|]. cbn [map]. destruct (project_row_values _ _ _ Hx) as (_ & Hp & _).
    unfold delta_text at 1. rewrite Hp, IH. done. }
  split; [|split; [by rewrite <- !inner_map, Hdt|done]]. rewrite <- Hty. set (types := map _ ems) in *.
  rewrite (split_ends types "message.started" "message.completed"); [|by destruct types; [|apply String.eqb_eq in Eh as ->]
    |by destruct (last types); [apply String.eqb_eq in El as ->|]|done].
  do 2 f_equal. replace (Z.to_nat (ar_delta_count rc)) with (length (inner types)).
  - clear -Ei. induction (inner types) as [|ty l IH]; [done|]. cbn in Ei |- *. apply orb_false_iff in Ei as [E1 E2].
    apply negb_false_iff, String.eqb_eq in E1 as ->. by rewrite <- IH.
  - unfold types. rewrite inner_map, length_map. lia.
Qed.

(** C33.  The answer read back is the one its receipt is for.  When the answer of an
    attempt is loaded against a receipt, the receipt is well formed and the stream belongs
    to the attempt; every visible answer row of the attempt projects under the stream's
    authority and is of the receipt's message; the text has the length the receipt says;
    and it is made of the durable rows: in version 1 the rows are one start, as many
    deltas as the receipt says and one completion, and the text is their deltas in order;
    in version 2 every part of the rows is classified, the text is that of the parts
    whose last role is answer, and the deltas of those parts are as many as the receipt
    says. *)
Theorem answer_matches_receipt jt t r att receipt db g text :
  load_answer_by_receipt jt t r att receipt db g = SOk text →
  ∃ a rc, get_stream_authority db t r = Some a ∧ sa_attempt_id a = att ∧ read_receipt att receipt = SOk rc ∧
    let rows := answer_rows jt t r att g in
    Forall (fun x => ∃ e, project_row a (stored_row x) = SOk e ∧ ev_message_id e = Some (ar_message_id rc)) rows ∧
    py_len text = ar_text_length rc ∧
    (ar_version rc = RECEIPT_V1 →
       map (fun x => es_event_type (er_shape x)) rows =
         "message.started" :: repeat "message.delta" (Z.to_nat (ar_delta_count rc)) ++ ["message.completed"] ∧
       text = String.concat "" (map row_delta (inner rows))) ∧
    (ar_version rc = RECEIPT_V2 →
       (∀ p, p ∈ parts_of (map row_fact rows) → last (roles_of p (map row_fact rows)) ≠ None) ∧
       text = parts_text (map row_fact rows) ∧
       Z.of_nat (length (answer_deltas (map row_fact rows))) = ar_delta_count rc).
Proof.
  unfold load_answer_by_receipt. intros E. apply sbind_ok in E as (rc & Hr & E).
  assert (read_receipt att receipt = SOk rc) as Hrc by (destruct (read_receipt att receipt) as [|[]]; done). clear Hr.
  destruct (get_stream_authority db t r) as [a|]; [|done]. destruct (String.eqb_spec (sa_attempt_id a) att) as [Ha|]; [|done].
  cbn [negb] in E. set (rows := answer_rows jt t r att g) in *. destruct (match rows with [] => true | _ => false end); [done|].
  set (m := sbind _ _) in E. assert (m = SOk text) as Em by (destruct m as [|[]]; done). subst m. clear E.
  apply sbind_ok in Em as (ems & Hp & Em). apply project_answer_rows_spec in Hp as HF. destruct (existsb _ ems) eqn:Ex; [done|].
  exists a, rc. split; [done|]. split; [done|]. split; [done|]. cbn zeta. split.
  { clear -HF Ex. induction HF as [|x em rows ems Hx _ IH]; [constructor|]. cbn in Ex. apply orb_false_iff in Ex as [E1 E2].
    constructor; [|by apply IH]. exists em.1. split; [done|]. by apply negb_false_iff, bool_decide_eq_true in E1. }
  destruct (String.eqb_spec (ar_version rc) RECEIPT_V2) as [Hv|Hv].
  - destruct (part_receipt_answer_spec _ _ _ _ _ HF Em) as (H1 & H2 & H3 & H4). split; [done|]. split; [|done]. rewrite Hv. done.
  - destruct (legacy_answer_spec _ _ _ _ _ HF Em) as (H1 & H2 & H3). split; [done|]. by split.
Qed.

End Answers.

(** ** A concrete stream *)

Lemma hex_digit_alnum n : is_alnum (hex_digit n) = true.
Proof.
  unfold hex_digit. pose proof (Z.mod_pos_bound n 16 ltac:(lia)) as Hb. remember (Z.to_nat (n mod 16)) as k.
  assert (k < 16)%nat by lia. do 16 (destruct k as [|k]; [reflexivity|]). lia.
Qed.
#[export] Instance toy_digest_laws : @DigestLaws toy_stream.
Proof.
  split; intros s; cbn [sha256_hex toy_stream]; unfold toy_digest; generalize (poly_hash s 7); generalize 64%nat;
    intros k; (induction k as [|k IH]; intros n; [done|]); cbn [hex_digits str_forall String.length].
  - by rewrite IH.
  - by rewrite hex_digit_alnum, IH.
Qed.

Definition sample_authority : stream_authority :=
  StreamAuthority "t" "run_7" "att_1" "t_1" 1 "confirmed" "sev_1" "{}" "d" 1 "active" STREAM_DESIGN_ID STREAM_PROJECTION_VERSION.
Definition sample_db : sse_db := SseDb {[("t", "run_7") := sample_authority]} ∅.

Definition sample_item (index : Z) (event_type : string) (payload : dict) (cause source : option string) : callback_item :=
  V4CallbackItem index 0 event_type payload (Some "msg4_a") None cause source None.
Definition sample_items : list callback_item :=
  [sample_item 0 "message.started" [] None None;
   sample_item 1 "message.delta" [("delta", PStr "Hello ")] None (Some "src_1");
   sample_item 2 "message.delta" [("delta", PStr "world")] None (Some "src_2");
   sample_item 3 "message.completed" [("delta_count", PInt 2); ("text_length", PInt 11)] (Some "src_2") None].
Definition sample_appended : event_ledger * list v4_row :=
  match @append_callback_v4_rows toy_py toy_stream (fun _ => None) 1735689600000000 "0a" "t" "run_7" "att_1" "cb_1" sample_items
          sample_authority "lease_1" empty_ledger with
  | SOk p => p
  | SErr _ => (empty_ledger, [])
  end.
Definition sample_receipt : pyval :=
  PDict [("schema_version", PStr RECEIPT_V1); ("message_id", PStr "msg4_a"); ("delta_count", PInt 2); ("text_length", PInt 11);
         ("last_delta_event_id", PStr "src_2")].

Example sample_answer :
  @load_answer_by_receipt toy_py toy_stream (fun _ => None) "t" "run_7" "att_1" sample_receipt sample_db sample_appended.1
  = SOk "Hello world".
Proof. vm_compute. reflexivity. Qed.

Definition sample_prepared : string * ledger_event :=
  match @prepare_application_v4_row toy_py toy_stream "t" "run_7" "att_1" "cb_1" 1 0 "message.delta" (PDict [("delta", PStr "Hello ")])
          sample_authority (Some "lease_1") None (Some "msg4_a") None None (Some "src_1") None with
  | SOk p => p
  | SErr _ => ("", text_event "")
  end.

Lemma recorded_rows_are_published_witness :
  @project_row toy_py toy_stream sample_authority
    (@stored_row (EventRow sample_prepared.1 "t" "run_7" 2 (@persisted_event_shape toy_py "run_7" sample_prepared.2) 1735689600000000)) =
  SOk (published sample_authority sample_prepared.1 "message.delta" 2 1735689600000000 [("delta", PStr "Hello ")] (Some "msg4_a") None None).
Proof.
  destruct (@recorded_rows_are_published toy_py toy_stream toy_digest_laws "t" "run_7" "att_1" "cb_1" 1 0 "message.delta"
    (PDict [("delta", PStr "Hello ")]) sample_authority (Some "lease_1") None (Some "msg4_a") None None (Some "src_1") None
    sample_prepared.1 sample_prepared.2 2 1735689600000000) as (d & Hd & _ & Hp).
  - split; vm_compute; done.
  - split; vm_compute; done.
  - lia.
  - vm_compute. reflexivity.
  - injection Hd as <-. exact (proj1 Hp).
Defined.

(** The terminal fact of the sample run, recorded twice. *)
Definition sample_terminal (now : Z) (g : event_ledger) : sres (event_ledger * option v4_row) :=
  @append_run_terminal_v4_row toy_py toy_stream (fun _ => None) now "0b" "t" "run_7" "att_1" "succeeded" "evt4_end" PNone "user_cancelled"
    None sample_db g.
Definition sample_terminal_row : string * ledger_event :=
  match @prepare_application_v4_row toy_py toy_stream "t" "run_7" "att_1" "evt4_end" 0 0 "run.succeeded"
          (PDict [("terminal_event_id", PStr "evt4_end"); ("hydrate_required", PBool true)])
          sample_authority None (Some "evt4_end") None None None (Some "evt4_end") (Some "run_7") with
  | SOk p => p
  | SErr _ => ("", text_event "")
  end.
Definition sample_ended : event_ledger * list v4_row :=
  result_or (empty_ledger, []) (@append_prepared_application_v4_rows toy_py toy_stream (fun _ => None) 1735689600000000 "0b" "t" "run_7"
    [sample_terminal_row] sample_authority empty_ledger).
Lemma sample_ended_ok :
  @append_prepared_application_v4_rows toy_py toy_stream (fun _ => None) 1735689600000000 "0b" "t" "run_7" [sample_terminal_row]
    sample_authority empty_ledger = SOk (sample_ended.1, sample_ended.2).
Proof. vm_compute. reflexivity. Qed.
Example sample_terminal_recorded :
  match sample_terminal 1735689600000000 empty_ledger with SOk (g, Some _) => lg_events g = lg_events sample_ended.1 | _ => False end.
Proof. vm_compute. reflexivity. Qed.

Lemma stream_rows_recorded_once_witness :
  ∃ stored, @append_prepared_application_v4_rows toy_py toy_stream (fun _ => None) 1735689700000000 "0c" "t" "run_7" [sample_terminal_row]
      sample_authority sample_ended.1 = SOk (sample_ended.1, map stored_row stored) ∧
    map er_id stored = ["evt4_end"] ∧ Forall (fun row => row ∈ lg_events sample_ended.1) stored.
Proof.
  apply (@stream_rows_recorded_once toy_py toy_stream (fun _ => None) 1735689600000000 "0b" "t" "run_7" [sample_terminal_row]
    sample_authority empty_ledger sample_ended.1 sample_ended.2 sample_ended.1).
  - constructor.
  - constructor; [|constructor]. split; vm_compute; reflexivity.
  - exact sample_ended_ok.
  - constructor.
  - vm_compute. reflexivity.
Defined.

(** A message of parts with its receipt of version 2: a part of work between the deltas of
    the answer. *)
Definition part_of (part text : string) : dict :=
  [("schema_version", PStr ASSISTANT_TEXT_PART_SCHEMA); ("part_id", PStr part); ("delta", PStr text)].
Definition part_role (part role : string) : dict :=
  [("schema_version", PStr ASSISTANT_TEXT_PART_SCHEMA); ("part_id", PStr part); ("role", PStr role)].
Definition sample_part_items : list callback_item :=
  [sample_item 0 "message.started" [] None None;
   sample_item 1 "message.part.delta" (part_of "part_1" "Hello ") None (Some "src_1");
   sample_item 2 "message.part.delta" (part_of "part_2" "thinking") None (Some "src_2");
   sample_item 3 "message.part.delta" (part_of "part_1" "world") None (Some "src_3");
   sample_item 4 "message.part.classified" (part_role "part_2" "work") None None;
   sample_item 5 "message.part.classified" (part_role "part_1" "answer") None None;
   sample_item 6 "message.completed" [("delta_count", PInt 2); ("text_length", PInt 11)] (Some "src_3") None].
Definition sample_parts : event_ledger * list v4_row :=
  result_or (empty_ledger, []) (@append_callback_v4_rows toy_py toy_stream (fun _ => None) 1735689600000000 "0a" "t" "run_7" "att_1" "cb_1"
    sample_part_items sample_authority "lease_1" empty_ledger).
Definition sample_part_receipt : pyval :=
  PDict [("schema_version", PStr RECEIPT_V2); ("message_id", PStr "msg4_a"); ("delta_count", PInt 2); ("text_length", PInt 11);
         ("last_delta_event_id", PStr "src_3")].

Lemma answer_matches_receipt_witness :
  let rows := answer_rows (fun _ => None) "t" "run_7" "att_1" sample_parts.1 in
  map (fun x => es_event_type (er_shape x)) rows = map ci_event_type sample_part_items ∧
  "Hello world"%string = parts_text (map row_fact rows) ∧ Z.of_nat (length (answer_deltas (map row_fact rows))) = 2.
Proof.
  cbn zeta. split; [vm_compute; reflexivity|].
  destruct (@answer_matches_receipt toy_py toy_stream (fun _ => None) "t" "run_7" "att_1" sample_part_receipt sample_db sample_parts.1
    "Hello world") as (a & rc & _ & _ & H1 & _ & _ & _ & H2); [vm_compute; reflexivity|].
  vm_compute in H1. injection H1 as <-. destruct (H2 eq_refl) as (_ & H3 & H4). by split.
Defined.

(** A trace reference of 129 to 256 characters passes the checks of a row and not those of
    an envelope: the row is recorded and can never be published. *)
Definition long_trace : string := String.string_of_list_ascii (repeat "a"%char 129).
Lemma long_trace_is_recorded_and_lost :
  ∃ id e, @prepare_application_v4_row toy_py toy_stream "t" "run_7" "att_1" "cb_1" 1 0 "message.delta" (PDict [("delta", PStr "Hello ")])
      sample_authority (Some "lease_1") None (Some "msg4_a") (Some long_trace) None (Some "src_1") None = SOk (id, e) ∧
    (∃ g row, @append_prepared_application_v4_rows toy_py toy_stream (fun _ => None) 1735689600000000 "0a" "t" "run_7" [(id, e)]
       sample_authority empty_ledger = SOk (g, [row]) ∧ @project_row toy_py toy_stream sample_authority row = part_error).
Proof. do 2 eexists. split; [vm_compute; reflexivity|]. do 2 eexists. split; [vm_compute; reflexivity|]. vm_compute. reflexivity. Qed.
