(* ===== verification/PartLedger.v ===== *)
(** * Messages of parts, fact by fact

    The reference reading of the answer facts of a stream: facts of many messages in the
    order of their sequence, each with the message it belongs to ([entry]).  A ledger is
    [sound] when every message that has parts reduces, a part belongs to one message and no
    source is used twice, which is what the full scan of the ledger checks.  The theorem of
    this file is that facts checked one by one against the compact state of the part they
    name ([accepts]) keep a sound ledger sound, so that the scan need not be repeated. *)
From stdpp Require Import base list strings sorting.
From Stdlib Require Import ZArith Lia Ascii.
From S2P Require Import Prelude Redis QueueScripts QueueFacts PyValue TextParts TextPartsFacts.
#[local] Open Scope py_scope.

Notation entry := (string * list (string * pyval))%type.

Definition fact_type (f : fact) : string := match get "event_type" f with PStr s => s | _ => "" end.
Definition fact_seq (f : fact) : Z := match get "seq" f with PInt n => n | _ => 0 end.
Definition is_part_type (t : string) : bool := str_in t ASSISTANT_TEXT_PART_EVENT_TYPES.

Definition facts_of (m : string) (M : list entry) : list fact := (List.filter (fun en => String.eqb en.1 m) M).*2.

(** A fact as the projection of a row gives it. *)
Record well_formed (en : entry) : Prop := {
  wf_type : get "event_type" en.2 = PStr (fact_type en.2);
  wf_known : str_in (fact_type en.2) ANSWER_FACT_TYPES = true;
  wf_seq : get "seq" en.2 = PInt (fact_seq en.2);
  wf_positive : 0 < fact_seq en.2;
  wf_message : get "message_id" en.2 = PStr en.1;
  wf_ref : is_safe_ref en.1 = true;
  wf_payload : ∃ d, get "payload" en.2 = PDict d ∧ (is_part_type (fact_type en.2) = true → ∃ p, get "part_id" d = PStr p)
}.

(** The part a fact names, whatever it says of it. *)
Definition names (f : fact) : option string :=
  match fact_part "message.part.delta" f with Some p => Some p | None => fact_part "message.part.classified" f end.

(** The sources of the deltas. *)
Definition delta_source (f : fact) : option pyval :=
  if String.eqb (fact_type f) "message.part.delta" then Some (get "source_event_id" f) else None.
Definition sources_of (M : list entry) : list pyval := omap (fun en => delta_source en.2) M.

Section Reading.
Context `{PyRuntime}.

Record sound (M : list entry) : Prop := {
  so_formed : Forall well_formed M;
  so_owner : ∀ m f m' f' p, (m, f) ∈ M → (m', f') ∈ M → names f = Some p → names f' = Some p → m = m';
  so_sources : NoDup (sources_of M) ∧ Forall (fun v => is_str v = true) (sources_of M);
  so_reduces : ∀ m, existsb (fun f => is_part_type (fact_type f)) (facts_of m M) = true →
    ∃ st, reduce_assistant_text_part_message (PDict <$> facts_of m M) None = Ok st
}.

(** ** The compact state of a part *)

(** The message of the first delta of a part, and the last classification with its
    message. *)
Definition first_owner (p : string) (M : list entry) : option string :=
  fst <$> List.find (fun en => bool_decide (fact_part "message.part.delta" en.2 = Some p)) M.
Definition last_class (p : string) (M : list entry) : option (string * option string) :=
  last (omap (fun en => if bool_decide (fact_part "message.part.classified" en.2 = Some p)
                        then Some (en.1, payload_str "role" en.2) else None) M).
Definition consistent (p : string) (M : list entry) : Prop :=
  ∀ m r, last_class p M = Some (m, r) → first_owner p M = Some m.
Definition state_of (p : string) (M : list entry) : append_state :=
  {| as_owner_message_id := first_owner p M;
     as_has_delta := match first_owner p M with Some _ => true | None => false end;
     as_latest_role := match last_class p M with Some (_, r) => r | None => None end;
     as_role_reversed := false |}.

(** ** Facts of one message *)

Lemma facts_of_app m M N : facts_of m (M ++ N) = facts_of m M ++ facts_of m N.
Proof. unfold facts_of. by rewrite List.filter_app, fmap_app. Qed.
Lemma facts_of_same m f : facts_of m [(m, f)] = [f].
Proof. unfold facts_of. cbn. by rewrite String.eqb_refl. Qed.
Lemma facts_of_other m m' f : m' ≠ m → facts_of m [(m', f)] = [].
Proof. intros Hne. unfold facts_of. cbn. by rewrite (proj2 (String.eqb_neq _ _) Hne). Qed.
Lemma facts_of_in m f M : f ∈ facts_of m M ↔ (m, f) ∈ M.
Proof.
  unfold facts_of. rewrite list_elem_of_fmap. split.
  - intros ([m' f'] & -> & Hin%list_elem_of_In). apply filter_In in Hin as [Hin He]. cbn in *. apply String.eqb_eq in He as ->.
    by apply list_elem_of_In.
  - intros Hin. exists (m, f). split; [done|]. apply list_elem_of_In, filter_In. split; [by apply list_elem_of_In|]. cbn. apply String.eqb_refl.
Qed.

(** The facts with their types, as the reducer takes them. *)
Definition typed (fs : list fact) : list (string * fact) := (fun f => (fact_type f, f)) <$> fs.

Lemma reduce_facts_app expected i l1 l2 lg :
  reduce_facts expected i (l1 ++ l2) lg =
  res_bind (reduce_facts expected i l1 lg) (reduce_facts expected (i + Z.of_nat (length l1)) l2).
Proof.
  revert i lg. induction l1 as [|[t f] l1 IH]; intros i lg.
  { cbn [app reduce_facts res_bind length]. by rewrite Z.add_0_r. }
  cbn [app reduce_facts]. destruct (reduce_fact expected i t f lg) as [lg1|]; [|done]. cbn [res_bind]. rewrite IH. cbn [length].
  replace (i + 1 + Z.of_nat (length l1)) with (i + Z.of_nat (S (length l1))) by lia. done.
Qed.

Lemma fact_types_formed fs m : Forall (fun f => well_formed (m, f)) fs → fact_types (PDict <$> fs) = Ok (fact_type <$> fs).
Proof.
  induction 1 as [|f fs Hf _ IH]; [done|]. cbn [fmap list_fmap fact_types as_dict]. destruct Hf as [Ht Hk _ _ _ _ _]. cbn [snd] in *.
  rewrite Ht, Hk. cbn [negb]. change (list_fmap _ _ PDict fs) with (PDict <$> fs) in *. by rewrite IH.
Qed.
Lemma zip_typed fs : zip (fact_type <$> fs) fs = typed fs.
Proof. unfold typed. induction fs as [|f fs IH]; [done|]. cbn. by rewrite <- IH. Qed.

(** The reducer on well-formed facts. *)
Lemma reduce_message_eq fs m :
  Forall (fun f => well_formed (m, f)) fs → fs ≠ [] →
  reduce_assistant_text_part_message (PDict <$> fs) None =
  (if str_in "message.delta" (fact_type <$> fs) && existsb (fun t => str_in t (fact_type <$> fs)) ASSISTANT_TEXT_PART_EVENT_TYPES
   then invalid "mixed_legacy_and_part_events"
   else res_bind (reduce_facts None 0 (typed fs) empty_ledger) (finish_ledger fs)).
Proof.
  intros Hf Hne. unfold reduce_assistant_text_part_message. destruct fs as [|f fs]; [done|]. set (l := f :: fs) in *.
  assert ((fun x => default [] (as_dict x)) <$> (PDict <$> l) = l) as Hd by (rewrite <- list_fmap_compose; apply list_fmap_id).
  rewrite (fact_types_formed _ _ Hf), Hd. cbn [res_bind]. rewrite zip_typed. done.
Qed.

(** ** A message that is open *)

Definition source_text (f : fact) : list string := match delta_source f with Some (PStr s) => [s] | _ => [] end.

Lemma delta_type_source f s : fact_type f = "message.part.delta" → get "source_event_id" f = PStr s → source_text f = [s].
Proof. intros Ht Hs. unfold source_text, delta_source. by rewrite Ht, Hs. Qed.
Lemma other_type_source f : fact_type f ≠ "message.part.delta" → source_text f = [].
Proof. intros Hne. unfold source_text, delta_source. by rewrite (proj2 (String.eqb_neq _ _) Hne). Qed.

Lemma common_values m f lg lg1 d :
  well_formed (m, f) → common_checks None f lg = Ok (lg1, d) →
  get "payload" f = PDict d ∧ lg_completed lg = None ∧ lg_previous lg < fact_seq f ∧
  lg_completed lg1 = None ∧ lg_message_id lg1 = Some m ∧ lg_started lg1 = lg_started lg ∧ lg_previous lg1 = fact_seq f ∧
  lg_sources lg1 = lg_sources lg.
Proof.
  intros [_ _ Hs _ Hm Hr (d' & Hp & _)] E. cbn [fst snd] in *. unfold common_checks in E. rewrite Hs in E. cbn [sequence_of] in E.
  destruct (Z.leb_spec (fact_seq f) (lg_previous lg)); [done|]. rewrite Hm in E. cbn [safe_ref] in E. rewrite Hr in E. cbn [res_bind] in E.
  destruct (match lg_message_id lg with Some _ => _ | None => _ end); [done|]. destruct (lg_completed lg) eqn:Ec; [done|].
  rewrite Hp in E. cbn [as_dict] in E. injection E as <- <-. cbn. by split_and!.
Qed.

(** What reading one more fact does to a ledger that stays open. *)
Lemma reduce_fact_keeps i m f lg lg' :
  well_formed (m, f) → reduce_fact None i (fact_type f) f lg = Ok lg' → fact_type f ≠ "message.completed" →
  lg_completed lg' = None ∧ lg_message_id lg' = Some m ∧ lg_started lg' = true ∧ lg_previous lg' = fact_seq f ∧
  lg_sources lg' = lg_sources lg ++ source_text f ∧
  (fact_type f = "message.part.classified" → ∃ r, payload_str "role" f = Some r ∧ r ≠ "pending").
Proof.
  intros Hw E Hne. unfold reduce_fact in E. destruct (common_checks None f lg) as [[lg1 d]|] eqn:Ec; [|done]. cbn [res_bind] in E.
  destruct (common_values _ _ _ _ _ Hw Ec) as (Hp & _ & _ & C1 & C2 & C3 & C4 & C5).
  destruct (String.eqb_spec (fact_type f) "message.started") as [Ht|Hn1].
  { destruct (_ || _); [done|]. injection E as <-. cbn. rewrite C5, other_type_source by (by rewrite Ht). rewrite app_nil_r.
    split_and!; try done. by rewrite Ht. }
  destruct (lg_started lg1) eqn:Es; [|done]. cbn [negb] in E.
  destruct (String.eqb_spec (fact_type f) "message.part.delta") as [Ht|Hn2].
  { unfold reduce_delta in E. destruct (negb _); [done|]. destruct (safe_ref (get "part_id" d)) as [pid|]; [|done]. cbn [res_bind] in E.
    destruct (valid_delta _); [|done]. destruct (safe_ref (get "source_event_id" f)) as [src|] eqn:Er; [|done]. cbn [res_bind] in E.
    destruct (str_in src _); [done|]. injection E as <-. cbn. destruct (safe_ref_spec _ _ Er) as [Hs _].
    rewrite (delta_type_source _ _ Ht Hs), C5. split_and!; try done. by rewrite Ht. }
  destruct (String.eqb_spec (fact_type f) "message.part.classified") as [Ht|Hn3].
  { unfold reduce_classified in E. destruct (negb _); [done|]. destruct (safe_ref (get "part_id" d)) as [pid|]; [|done]. cbn [res_bind] in E.
    destruct (valid_role (get "role" d)) as [role|] eqn:Er; [|done]. destruct (assoc _ _); [|done]. destruct (_ && _); [done|].
    injection E as <-. cbn. rewrite C5, other_type_source, app_nil_r by done. split_and!; try done. intros _.
    destruct (valid_role_spec _ _ Er) as [Hr Hin]. exists role. unfold payload_str. rewrite Hp. cbn. rewrite Hr. split; [done|].
    by intros ->. }
  rewrite other_type_source, app_nil_r by done.
  destruct (String.eqb_spec (fact_type f) "message.delta") as [_|_]; [injection E as <-; by split_and!|].
  rewrite (proj2 (String.eqb_neq _ _) Hne) in E. injection E as <-. by split_and!.
Qed.

Record opened (m : string) (M : list entry) (lg : ledger) : Prop := {
  op_reduced : reduce_facts None 0 (typed (facts_of m M)) empty_ledger = Ok lg;
  op_streaming : streaming m lg;
  op_mirrors : mirrors (facts_of m M) lg;
  op_previous : ∃ f, f ∈ facts_of m M ∧ lg_previous lg = fact_seq f;
  op_sources : lg_sources lg = concat (source_text <$> facts_of m M);
  op_roles : ∀ f, f ∈ facts_of m M → fact_type f = "message.part.classified" → ∃ r, payload_str "role" f = Some r ∧ r ≠ "pending"%string;
  op_types : Forall (fun f => fact_type f ≠ "message.completed" ∧ fact_type f ≠ "message.delta") (facts_of m M)
}.

Lemma typed_snd fs : (typed fs).*2 = fs.
Proof. unfold typed. rewrite <- list_fmap_compose. apply list_fmap_id. Qed.

Lemma facts_formed m M : Forall well_formed M → Forall (fun f => well_formed (m, f)) (facts_of m M).
Proof. rewrite !Forall_forall. intros HF f Hf%facts_of_in. by apply HF. Qed.

(** A reduction without completion leaves the message open. *)
Lemma reduce_opens m M lg :
  Forall well_formed M → facts_of m M ≠ [] → reduce_facts None 0 (typed (facts_of m M)) empty_ledger = Ok lg →
  Forall (fun f => fact_type f ≠ "message.completed" ∧ fact_type f ≠ "message.delta") (facts_of m M) → opened m M lg.
Proof.
  intros Hw Hne E Ht. pose proof (facts_formed m _ Hw) as Hf.
  assert (mirrors (facts_of m M) lg) as Hm.
  { rewrite <- (typed_snd (facts_of m M)). refine (reduce_facts_mirrors None 0 _ _ _ [] _ E mirrors_empty).
    unfold typed. apply Forall_fmap. eapply Forall_impl; [exact Hf|]. intros f Hfw. exact (wf_type _ Hfw). }
  remember (facts_of m M) as fs eqn:Efs.
  assert (lg_completed lg = None ∧ lg_message_id lg = Some m ∧ lg_started lg = true ∧ (∃ f, f ∈ fs ∧ lg_previous lg = fact_seq f) ∧
          lg_sources lg = concat (source_text <$> fs) ∧
          (∀ f, f ∈ fs → fact_type f = "message.part.classified" → ∃ r, payload_str "role" f = Some r ∧ r ≠ "pending"%string))
    as (K1 & K2 & K3 & K4 & K5 & K6).
  { clear Hm Efs. revert lg E Hne. induction fs as [|f fs IH] using rev_ind; intros lg E Hne; [done|].
    apply Forall_app in Ht as [Ht1 Ht2], Hf as [Hf1 Hf2]. inversion Ht2 as [|? ? [Hc _] _]; subst. inversion Hf2 as [|? ? Hw' _]; subst.
    unfold typed in E. rewrite fmap_app, reduce_facts_app in E. fold (typed fs) in E.
    destruct (reduce_facts None 0 (typed fs) empty_ledger) as [lg1|] eqn:E1; [|done]. cbn [res_bind fmap list_fmap reduce_facts] in E.
    destruct (reduce_fact _ _ _ f lg1) as [lg2|] eqn:E2; [|done]. cbn [res_bind] in E. injection E as <-.
    destruct (reduce_fact_keeps _ _ _ _ _ Hw' E2 Hc) as (R1 & R2 & R3 & R4 & R5 & R6). split_and!; try done.
    - exists f. split; [apply elem_of_app; right; by left|done].
    - rewrite fmap_app, concat_app. cbn [fmap list_fmap concat]. rewrite app_nil_r, R5. f_equal.
      destruct fs as [|f0 fs']; [cbn in E1; by injection E1 as <-|]. by destruct (IH Ht1 Hf1 lg1 eq_refl) as (_ & _ & _ & _ & ? & _).
    - intros f' [Hin|Hin]%elem_of_app; [|by apply list_elem_of_singleton in Hin as ->].
      destruct fs as [|f0 fs']; [by apply elem_of_nil in Hin|]. destruct (IH Ht1 Hf1 lg1 eq_refl) as (_ & _ & _ & _ & _ & K); [done|]. by apply K. }
  split; rewrite <- ?Efs; try done.
  - split; try done.
    + intros p Hp. rewrite (mi_text _ _ Hm) in Hp. rewrite (mi_roles _ _ Hm). by destruct (str_in p (parts_of fs)).
    + destruct fs as [|f fs]; [done|]. inversion Hf as [|? ? Hw' _]; subst. apply (wf_ref _ Hw').
Qed.

(** ** The state of a part and the ledger of its message *)

Lemma parts_of_in p fs : p ∈ parts_of fs ↔ ∃ f, f ∈ fs ∧ fact_part "message.part.delta" f = Some p.
Proof.
  induction fs as [|f fs IH] using rev_ind.
  { split; [by intros ?%elem_of_nil|]. by intros (f & Hf%elem_of_nil & _). }
  rewrite parts_snoc. unfold add_part. destruct (fact_part "message.part.delta" f) as [q|] eqn:Eq.
  - assert (p ∈ (if str_in q (parts_of fs) then parts_of fs else parts_of fs ++ [q]) ↔ p ∈ parts_of fs ∨ p = q) as ->.
    { destruct (str_in q (parts_of fs)) eqn:Es; [apply str_in_elem in Es; naive_solver|]. by rewrite elem_of_app, list_elem_of_singleton. }
    rewrite IH. split.
    + intros [(f' & ? & ?)| ->]; [exists f'|exists f]; rewrite elem_of_app, list_elem_of_singleton; auto.
    + intros (f' & [Hf'| ->%list_elem_of_singleton]%elem_of_app & E'); [left; eauto|right; congruence].
  - rewrite IH. split; intros (f' & Hf & E'); exists f'.
    + rewrite elem_of_app. auto.
    + apply elem_of_app in Hf as [Hf|Hf%list_elem_of_singleton]; [done|]. subst. congruence.
Qed.

Lemma first_owner_none p M m f : first_owner p M = None → (m, f) ∈ M → fact_part "message.part.delta" f ≠ Some p.
Proof.
  unfold first_owner. intros E Hin Hp. destruct (List.find _ M) as [en|] eqn:Ef; [done|].
  apply list_elem_of_In in Hin. pose proof (List.find_none _ _ Ef _ Hin) as Hn. cbn in Hn. by apply bool_decide_eq_false in Hn.
Qed.
Lemma first_owner_some p M m : first_owner p M = Some m → ∃ f, (m, f) ∈ M ∧ fact_part "message.part.delta" f = Some p.
Proof.
  unfold first_owner. destruct (List.find _ M) as [[m' f]|] eqn:Ef; [|done]. intros [= <-]. apply List.find_some in Ef as [Hin Hp].
  exists f. split; [by apply list_elem_of_In|]. by apply bool_decide_eq_true in Hp.
Qed.
Lemma first_owner_app p M N : first_owner p (M ++ N) = match first_owner p M with Some m => Some m | None => first_owner p N end.
Proof. unfold first_owner. induction M as [|en M IH]; [done|]. cbn [app List.find]. by destruct (bool_decide _). Qed.

Definition class_of (p : string) (en : entry) : option (string * option string) :=
  if bool_decide (fact_part "message.part.classified" en.2 = Some p) then Some (en.1, payload_str "role" en.2) else None.
Lemma last_class_snoc p M en :
  last_class p (M ++ [en]) = match class_of p en with Some c => Some c | None => last_class p M end.
Proof.
  unfold last_class. fold (class_of p). rewrite omap_app. cbn [omap list_omap]. destruct (class_of p en); [by rewrite last_snoc|].
  by rewrite app_nil_r.
Qed.

(** The last classification of the part in its message. *)
Lemma last_class_of_message p m r M :
  last_class p M = Some (m, r) → last ((fun f => payload_str "role" f) <$>
    List.filter (fun f => bool_decide (fact_part "message.part.classified" f = Some p)) (facts_of m M)) = Some r.
Proof.
  induction M as [|en M IH] using rev_ind; [done|]. rewrite last_class_snoc, facts_of_app, List.filter_app, fmap_app. destruct en as [m' f].
  unfold class_of. cbn [fst snd]. destruct (bool_decide (fact_part _ f = Some p)) eqn:Eb.
  - intros [= <- <-]. rewrite facts_of_same. cbn [List.filter]. rewrite Eb. cbn [fmap list_fmap]. by rewrite last_snoc.
  - intros E. destruct (decide (m' = m)) as [->|Hne].
    + rewrite facts_of_same. cbn [List.filter]. rewrite Eb. cbn [fmap list_fmap]. rewrite app_nil_r. by apply IH.
    + rewrite facts_of_other by done. cbn [List.filter fmap list_fmap]. rewrite app_nil_r. by apply IH.
Qed.
Lemma last_class_none p M m f : last_class p M = None → (m, f) ∈ M → fact_part "message.part.classified" f ≠ Some p.
Proof.
  induction M as [|en M IH] using rev_ind; [by intros _ ?%elem_of_nil|]. rewrite last_class_snoc. destruct (class_of p en) eqn:Ec; [done|].
  intros E [Hin|Hin%list_elem_of_singleton]%elem_of_app; [by apply IH|]. subst en. unfold class_of in Ec. cbn [fst snd] in Ec.
  destruct (bool_decide _) eqn:Eb; [done|]. by apply bool_decide_eq_false in Eb.
Qed.
Lemma roles_of_filter p fs :
  (∀ f, f ∈ fs → fact_part "message.part.classified" f = Some p → payload_str "role" f ≠ None) →
  Some <$> roles_of p fs = (fun f => payload_str "role" f) <$> List.filter (fun f => bool_decide (fact_part "message.part.classified" f = Some p)) fs.
Proof.
  unfold roles_of. induction fs as [|f fs IH]; [done|]. intros Hr. cbn [omap list_omap List.filter].
  destruct (bool_decide (fact_part _ f = Some p)) eqn:Eb.
  - apply bool_decide_eq_true in Eb. destruct (payload_str "role" f) as [r|] eqn:Er; [|by destruct (Hr f ltac:(by left) Eb)].
    cbn [fmap list_fmap]. rewrite Er. f_equal. apply IH. intros f' Hf'. apply Hr. by right.
  - apply IH. intros f' Hf'. apply Hr. by right.
Qed.

Lemma classified_type f p m : well_formed (m, f) → fact_part "message.part.classified" f = Some p → fact_type f = "message.part.classified".
Proof.
  intros Hw Hp. unfold fact_part in Hp. destruct (eq_str _ _) eqn:Ee; [|done]. pose proof (wf_type _ Hw) as Ht. cbn [snd] in Ht.
  rewrite Ht in Ee. cbn in Ee. by apply String.eqb_eq.
Qed.

(** For a part of an open message the state read off the whole stream is that of the
    message's ledger. *)
Lemma opened_view m M lg p :
  Forall well_formed M → opened m M lg → consistent p M → first_owner p M = None ∨ first_owner p M = Some m →
  part_view lg p = state_of p M.
Proof.
  intros Hw Ho Hc Hown. pose proof (op_mirrors _ _ _ Ho) as Hm. unfold part_view, state_of.
  rewrite (mi_text _ _ Hm), (mi_roles _ _ Hm), (sg_message _ _ (op_streaming _ _ _ Ho)).
  destruct Hown as [E|E]; rewrite E.
  - assert (str_in p (parts_of (facts_of m M)) = false) as ->.
    { apply str_in_false. intros (f & Hf%facts_of_in & Hp)%parts_of_in. by eapply first_owner_none. }
    destruct (last_class p M) as [[m' r]|] eqn:El; [|done]. pose proof (Hc _ _ El). congruence.
  - assert (str_in p (parts_of (facts_of m M)) = true) as ->.
    { apply str_in_elem, parts_of_in. destruct (first_owner_some _ _ _ E) as (f & Hf & Hp). exists f. by rewrite facts_of_in. }
    f_equal. assert (∀ f, f ∈ facts_of m M → fact_part "message.part.classified" f = Some p → ∃ r, payload_str "role" f = Some r ∧ r ≠ "pending") as Hr.
    { intros f Hf Hp. apply (op_roles _ _ _ Ho f Hf). eapply classified_type; [|done]. rewrite Forall_forall in Hw. apply Hw. by apply facts_of_in. }
    assert (Some <$> last (roles_of p (facts_of m M)) = last ((fun f => payload_str "role" f) <$>
      List.filter (fun f => bool_decide (fact_part "message.part.classified" f = Some p)) (facts_of m M))) as Hl.
    { rewrite <- fmap_last, roles_of_filter; [done|]. intros f Hf Hp. by destruct (Hr f Hf Hp) as (r & -> & _). }
    destruct (last_class p M) as [[m' r]|] eqn:El.
    + pose proof (Hc _ _ El) as E'. rewrite E in E'. injection E' as <-. rewrite (last_class_of_message _ _ _ _ El) in Hl.
      destruct (last (roles_of p (facts_of m M))) as [r'|] eqn:Elr; [|done]. injection Hl as <-. cbn [default from_option id].
      apply last_Some_elem_of in Elr. unfold roles_of in Elr. apply list_elem_of_omap in Elr as (f & Hf & Hfr).
      destruct (bool_decide _) eqn:Eb; [|done]. apply bool_decide_eq_true in Eb. destruct (Hr f Hf Eb) as (r'' & Hr' & Hne).
      rewrite Hr' in Hfr. injection Hfr as ->. unfold Datatypes.id. by rewrite (proj2 (String.eqb_neq _ _) Hne).
    + assert (List.filter (fun f => bool_decide (fact_part "message.part.classified" f = Some p)) (facts_of m M) = []) as Hnil.
      { destruct (List.filter _ _) as [|f l] eqn:Ef; [done|]. assert (f ∈ f :: l) as Hin by by left. rewrite <- Ef in Hin.
        apply list_elem_of_In, filter_In in Hin as [Hin%list_elem_of_In Hb]. apply bool_decide_eq_true in Hb. apply facts_of_in in Hin.
        by destruct (last_class_none _ _ _ _ El Hin). }
      rewrite Hnil in Hl. cbn in Hl. by destruct (last (roles_of p (facts_of m M))).
Qed.

(** ** One accepted fact *)

Lemma part_types t : is_part_type t = true ↔ t = "message.part.delta" ∨ t = "message.part.classified".
Proof. unfold is_part_type, ASSISTANT_TEXT_PART_EVENT_TYPES. rewrite str_in_elem, !elem_of_cons, elem_of_nil. naive_solver. Qed.

Lemma apply_values st m t d src p st' :
  apply_assistant_text_part_append_fact st m t (PDict d) src = Ok (p, st') →
  (as_owner_message_id st = None ∨ as_owner_message_id st = Some m) ∧ get "part_id" d = PStr p ∧
  ((t = "message.part.delta" ∧ (∃ s, src = PStr s) ∧
    st' = {| as_owner_message_id := Some m; as_has_delta := true; as_latest_role := as_latest_role st; as_role_reversed := as_role_reversed st |}) ∨
   (t = "message.part.classified" ∧ as_has_delta st = true ∧ ∃ role, get "role" d = PStr role ∧
    st' = {| as_owner_message_id := Some m; as_has_delta := true; as_latest_role := Some role; as_role_reversed := as_role_reversed st |})).
Proof.
  unfold apply_assistant_text_part_append_fact. intros E. destruct (safe_ref (PStr m)) as [m'|] eqn:Em; [|done]. cbn [res_bind as_dict] in E.
  apply safe_ref_spec in Em as [[= <-] _]. destruct (str_in t _) eqn:Et; [|done]. cbn [negb] in E. destruct (negb (eq_str _ _)); [done|].
  destruct (safe_ref (get "part_id" d)) as [p'|] eqn:Ep; [|done]. cbn [res_bind] in E. apply safe_ref_spec in Ep as [Ep _].
  destruct (as_role_reversed st); [done|].
  assert (as_owner_message_id st = None ∨ as_owner_message_id st = Some m) as Ho.
  { revert E. destruct (as_owner_message_id st) as [o|]; [|by left]. destruct (String.eqb o m) eqn:Eo; [|done].
    apply String.eqb_eq in Eo as ->. by right. }
  destruct (match as_owner_message_id st with Some _ => _ | None => _ end); [done|].
  apply part_types in Et as [->| ->]; cbn [String.eqb Ascii.eqb Bool.eqb] in E.
  - destruct (valid_delta _); [|done]. destruct (safe_ref src) as [src'|] eqn:Es; [|done]. cbn [res_bind] in E. injection E as <- <-.
    apply safe_ref_spec in Es as [-> _]. split_and!; try done. left. split_and!; eauto.
  - destruct (valid_role _) as [role|] eqn:Er; [|done]. destruct (as_has_delta st) eqn:Eh; [|done]. cbn [negb] in E.
    destruct (_ && _); [done|]. injection E as <- <-. apply valid_role_spec in Er as [Er _]. split_and!; try done. right. split_and!; eauto.
Qed.

Lemma part_of_delta m f d p :
  well_formed (m, f) → fact_type f = "message.part.delta" → get "payload" f = PDict d → get "part_id" d = PStr p →
  fact_part "message.part.delta" f = Some p ∧ fact_part "message.part.classified" f = None.
Proof.
  intros Hw Ht Hp Hi. pose proof (wf_type _ Hw) as Hty. cbn [snd] in Hty. rewrite Ht in Hty. split.
  - eapply fact_part_same; [done|by rewrite Hp|done].
  - by eapply fact_part_other.
Qed.
Lemma part_of_classified m f d p :
  well_formed (m, f) → fact_type f = "message.part.classified" → get "payload" f = PDict d → get "part_id" d = PStr p →
  fact_part "message.part.classified" f = Some p ∧ fact_part "message.part.delta" f = None.
Proof.
  intros Hw Ht Hp Hi. pose proof (wf_type _ Hw) as Hty. cbn [snd] in Hty. rewrite Ht in Hty. split.
  - eapply fact_part_same; [done|by rewrite Hp|done].
  - by eapply fact_part_other.
Qed.
Lemma no_part m f t : well_formed (m, f) → fact_type f ≠ t → fact_part t f = None.
Proof. intros Hw Hne. eapply fact_part_other; [apply (wf_type _ Hw)|done]. Qed.

(** The check of a fact against the stream so far. *)
Definition accepted (M : list entry) (m : string) (f : fact) (p : string) (st' : append_state) : Prop :=
  consistent p M ∧
  apply_assistant_text_part_append_fact (state_of p M) m (fact_type f) (get "payload" f) (get "source_event_id" f) = Ok (p, st').

(** An accepted fact makes the state the check computed, and no other part changes. *)
Lemma accepted_state M m f p st' :
  well_formed (m, f) → accepted M m f p st' →
  state_of p (M ++ [(m, f)]) = st' ∧ consistent p (M ++ [(m, f)]) ∧ names f = Some p ∧
  (first_owner p M = None ∨ first_owner p M = Some m) ∧
  (fact_type f = "message.part.delta" → ∃ s, get "source_event_id" f = PStr s).
Proof.
  intros Hw [Hc E]. destruct (wf_payload _ Hw) as (d & Hd & _). cbn [snd] in Hd. rewrite Hd in E.
  destruct (apply_values _ _ _ _ _ _ _ E) as (Ho & Hp & [(Ht & Hs & ->)|(Ht & Hh & role & Hr & ->)]); cbn [as_owner_message_id state_of] in Ho.
  - destruct (part_of_delta _ _ _ _ Hw Ht Hd Hp) as [P1 P2].
    assert (first_owner p (M ++ [(m, f)]) = Some m) as Hf.
    { rewrite first_owner_app. destruct Ho as [->| ->]; [|done]. unfold first_owner. cbn [List.find snd]. by rewrite bool_decide_eq_true_2. }
    assert (last_class p (M ++ [(m, f)]) = last_class p M) as Hl.
    { rewrite last_class_snoc. unfold class_of. cbn [snd]. by rewrite P2. }
    unfold state_of, consistent. rewrite Hf, Hl. split; [done|]. split.
    { intros m' r' El. pose proof (Hc _ _ El). destruct Ho; congruence. }
    split; [unfold names; by rewrite P1|]. done.
  - destruct (part_of_classified _ _ _ _ Hw Ht Hd Hp) as [P1 P2]. cbn [as_has_delta state_of] in Hh.
    destruct Ho as [Ho|Ho]; [by rewrite Ho in Hh|].
    assert (first_owner p (M ++ [(m, f)]) = Some m) as Hf by (by rewrite first_owner_app, Ho).
    assert (last_class p (M ++ [(m, f)]) = Some (m, Some role)) as Hl.
    { rewrite last_class_snoc. unfold class_of. cbn [fst snd]. rewrite P1, bool_decide_eq_true_2 by done.
      unfold payload_str. rewrite Hd. cbn [as_dict]. by rewrite Hr. }
    unfold state_of, consistent. rewrite Hf, Hl. split; [done|]. split; [by intros ? ? [= <- <-]|].
    split; [unfold names; by rewrite P2|]. split; [by right|]. by rewrite Ht.
Qed.

Lemma other_state M m f p q : well_formed (m, f) → names f = Some p ∨ is_part_type (fact_type f) = false → q ≠ p →
  state_of q (M ++ [(m, f)]) = state_of q M ∧ (consistent q M → consistent q (M ++ [(m, f)])).
Proof.
  intros Hw Hn Hne.
  assert (fact_part "message.part.delta" f ≠ Some q ∧ fact_part "message.part.classified" f ≠ Some q) as [N1 N2].
  { destruct Hn as [Hn|Hn].
    - unfold names in Hn. destruct (fact_part "message.part.delta" f) as [p'|] eqn:Ed; [injection Hn as ->|split; congruence].
      split; [congruence|]. intros Ec. pose proof (classified_type _ _ _ Hw Ec) as Ht. rewrite (no_part _ _ _ Hw) in Ed; [done|by rewrite Ht].
    - split; rewrite (no_part _ _ _ Hw); try done; intros Ht; by rewrite Ht in Hn. }
  assert (first_owner q (M ++ [(m, f)]) = first_owner q M) as Hf.
  { rewrite first_owner_app. destruct (first_owner q M); [done|]. unfold first_owner. cbn [List.find snd]. by rewrite bool_decide_eq_false_2. }
  assert (last_class q (M ++ [(m, f)]) = last_class q M) as Hl.
  { rewrite last_class_snoc. unfold class_of. cbn [snd]. by rewrite bool_decide_eq_false_2. }
  unfold state_of, consistent. rewrite Hf, Hl. done.
Qed.

(** ** Messages open and go on *)

Lemma only_start_opens m M f :
  Forall well_formed M → facts_of m M = [f] → fact_type f = "message.started" → ∃ lg, opened m M lg.
Proof.
  intros Hw Hf Ht. assert (well_formed (m, f)) as Hwf.
  { rewrite Forall_forall in Hw. apply Hw, facts_of_in. rewrite Hf. by left. }
  assert (∃ lg, reduce_facts None 0 (typed [f]) empty_ledger = Ok lg) as [lg E].
  { cbn [typed fmap list_fmap reduce_facts]. unfold reduce_fact, common_checks. destruct Hwf as [_ _ Hs Hpos Hm Hr (d & Hd & _)].
    cbn [fst snd] in *. rewrite Hs. cbn [sequence_of empty_ledger lg_previous]. destruct (Z.leb_spec (fact_seq f) 0); [lia|].
    rewrite Hm. cbn [safe_ref]. rewrite Hr. cbn [res_bind lg_message_id lg_completed]. rewrite Hd. cbn [as_dict res_bind].
    rewrite Ht. cbn [String.eqb Ascii.eqb Bool.eqb lg_started orb negb Z.eqb res_bind]. eauto. }
  exists lg. apply reduce_opens; rewrite ?Hf; try done. constructor; [|constructor]. by rewrite Ht.
Qed.
Lemma start_opens m M f :
  Forall well_formed (M ++ [(m, f)]) → facts_of m M = [] → fact_type f = "message.started" → ∃ lg, opened m (M ++ [(m, f)]) lg.
Proof. intros Hw Hn. apply only_start_opens; [done|]. by rewrite facts_of_app, facts_of_same, Hn. Qed.

Lemma source_text_in m M s : s ∈ concat (source_text <$> facts_of m M) → PStr s ∈ sources_of M.
Proof.
  intros Hin%list_elem_of_In%in_concat. destruct Hin as (l & (f & -> & Hf%facts_of_in)%list_elem_of_In%list_elem_of_fmap & Hs%list_elem_of_In). apply list_elem_of_omap. exists (m, f). split; [done|].
  cbn [snd]. unfold source_text in Hs. destruct (delta_source f) as [[]|]; try (by apply elem_of_nil in Hs).
  by apply list_elem_of_singleton in Hs as ->.
Qed.

Lemma part_extends m M lg f p st' :
  Forall well_formed (M ++ [(m, f)]) → opened m M lg → accepted M m f p st' →
  Forall (fun en => fact_seq en.2 < fact_seq f) M → NoDup (sources_of (M ++ [(m, f)])) → ∃ lg', opened m (M ++ [(m, f)]) lg'.
Proof.
  intros Hw Ho Ha Hseq Hd. pose proof (proj1 (Forall_app _ _ _) Hw) as [Hw1 Hw2]. inversion Hw2 as [|? ? Hwf _]; subst.
  destruct (accepted_state _ _ _ _ _ Hwf Ha) as (_ & _ & _ & Hown & Hsrc). destruct Ha as [Hc E].
  rewrite <- (opened_view _ _ _ _ Hw1 Ho Hc Hown) in E. destruct (wf_payload _ Hwf) as (d & Hpl & _). cbn [snd] in Hpl.
  assert (named_part (get "payload" f) = p ∧ (fact_type f = "message.part.delta" ∨ fact_type f = "message.part.classified")) as [Hp Hty].
  { pose proof E as E'. rewrite Hpl in E'. destruct (apply_values _ _ _ _ _ _ _ E') as (_ & Hi & Hk). split.
    - unfold named_part. rewrite Hpl. cbn [as_dict]. by rewrite Hi.
    - destruct Hk as [(? & _)|(? & _)]; auto. }
  pose proof (append_check_refines_reducer m lg None (Z.of_nat (length (facts_of m M))) (fact_type f) f (fact_seq f)
    (op_streaming _ _ _ Ho) (proj2 (part_types _) Hty) (wf_seq _ Hwf)) as R. cbn zeta in R. rewrite Hp in R.
  assert (∃ lg', reduce_fact None (Z.of_nat (length (facts_of m M))) (fact_type f) f lg = Ok lg') as [lg' Er].
  { rewrite E in R. destruct R as [_ R]; [|apply (wf_message _ Hwf)|by left|].
    - destruct (op_previous _ _ _ Ho) as (f' & Hf'%facts_of_in & ->). rewrite Forall_forall in Hseq. apply (Hseq _ Hf').
    - destruct (_ && existsb _ _) eqn:Ed; [|destruct R as (lg' & ? & _); eauto]. exfalso. apply andb_true_iff in Ed as [Ed Ex].
      apply String.eqb_eq in Ed. destruct (Hsrc Ed) as [s Hs]. rewrite Hs, eq_str_in in Ex. apply str_in_elem in Ex.
      rewrite (op_sources _ _ _ Ho) in Ex. apply source_text_in in Ex. unfold sources_of in Hd. rewrite omap_app in Hd.
      apply NoDup_app in Hd as (_ & Hd & _). apply (Hd _ Ex). cbn [omap list_omap snd]. unfold delta_source.
      rewrite Ed, Hs. cbn. by left. }
  exists lg'. apply reduce_opens; [done|rewrite facts_of_app, facts_of_same; by destruct (facts_of m M)| |].
  - rewrite facts_of_app, facts_of_same. unfold typed. rewrite fmap_app, reduce_facts_app. fold (typed (facts_of m M)).
    rewrite (op_reduced _ _ _ Ho). cbn [res_bind fmap list_fmap reduce_facts]. unfold typed. rewrite length_fmap, Z.add_0_l, Er. done.
  - rewrite facts_of_app, facts_of_same. apply Forall_app. split; [apply Ho|]. constructor; [|constructor]. by destruct Hty as [->| ->].
Qed.

Lemma opened_reduces m M lg :
  Forall well_formed M → opened m M lg → ∃ st, reduce_assistant_text_part_message (PDict <$> facts_of m M) None = Ok st.
Proof.
  intros Hw Ho. destruct (op_previous _ _ _ Ho) as (f & Hf & _).
  rewrite (reduce_message_eq _ m); [|by apply facts_formed|by intros Hn; rewrite Hn in Hf; apply elem_of_nil in Hf].
  assert (str_in "message.delta" (fact_type <$> facts_of m M) = false) as ->.
  { apply str_in_false. intros (f' & He & Hf')%list_elem_of_fmap. pose proof (op_types _ _ _ Ho) as Ht. rewrite Forall_forall in Ht.
    by destruct (Ht _ Hf') as [_ ?]. }
  cbn [andb]. rewrite (op_reduced _ _ _ Ho). cbn [res_bind]. unfold finish_ledger. destruct (op_streaming _ _ _ Ho) as [S1 S2 _ _ _].
  destruct (lg_has_parts lg); cbn [negb]; rewrite S2; [|by eauto]. rewrite S1. cbn [negb]. eauto.
Qed.

(** ** A batch *)

(** The new facts of a message: none, a start and then parts, or parts of a message that
    is open. *)
Definition may_act (m : string) (M N : list entry) : Prop :=
  facts_of m N = [] ∨
  (facts_of m M = [] ∧ ∃ f fs, facts_of m N = f :: fs ∧ fact_type f = "message.started" ∧
     Forall (fun f => is_part_type (fact_type f) = true) fs) ∨
  ((∃ lg, opened m M lg) ∧ Forall (fun f => is_part_type (fact_type f) = true) (facts_of m N)).

(** Every new fact of a part is accepted after those before it. *)
Fixpoint accepts (M N : list entry) : Prop :=
  match N with
  | [] => True
  | (m, f) :: N => (is_part_type (fact_type f) = true → ∃ p st', accepted M m f p st') ∧ accepts (M ++ [(m, f)]) N
  end.

(** The part of an accepted fact belongs to its message. *)
Lemma accepted_owner M m f p st' m' f' :
  sound M → well_formed (m, f) → accepted M m f p st' → (m', f') ∈ M → names f' = Some p → m' = m.
Proof.
  intros Hs Hw Ha Hin Hn. destruct (accepted_state _ _ _ _ _ Hw Ha) as (_ & _ & _ & Hown & _). destruct Ha as [Hc _].
  destruct (first_owner p M) as [o|] eqn:Eo.
  - destruct Hown as [?|[= ->]]; [done|]. destruct (first_owner_some _ _ _ Eo) as (g & Hg & Hgp).
    eapply (so_owner _ Hs); [exact Hin|exact Hg|exact Hn|]. unfold names. by rewrite Hgp.
  - exfalso. unfold names in Hn. pose proof (first_owner_none _ _ _ _ Eo Hin) as Hnd.
    destruct (fact_part "message.part.delta" f') eqn:Ed; [congruence|].
    destruct (last_class p M) as [[m1 r1]|] eqn:El; [pose proof (Hc _ _ El); congruence|]. by eapply last_class_none.
Qed.

Lemma not_named m f : well_formed (m, f) → is_part_type (fact_type f) = false → names f = None.
Proof.
  intros Hw Ht. unfold names. rewrite !(no_part _ _ _ Hw); [done| |]; intros E; by rewrite E in Ht.
Qed.

Lemma opened_same m M M' lg : facts_of m M' = facts_of m M → opened m M lg → opened m M' lg.
Proof. intros E [O1 O2 O3 O4 O5 O6 O7]. split; by rewrite ?E. Qed.

Definition earlier (a b : entry) : Prop := fact_seq a.2 < fact_seq b.2.
Lemma sorted_before M en N : StronglySorted earlier (M ++ en :: N) → Forall (fun x => fact_seq x.2 < fact_seq en.2) M.
Proof.
  intros Hs. apply Forall_forall. intros x Hx. eapply (StronglySorted_app_1_elem_of earlier); [exact Hs|done|]. by left.
Qed.

Definition good_sources (M : list entry) : Prop := NoDup (sources_of M) ∧ Forall (fun v => is_str v = true) (sources_of M).
Lemma good_sources_prefix M N : good_sources (M ++ N) → good_sources M.
Proof.
  unfold good_sources, sources_of. rewrite omap_app, Forall_app. intros [Hd [Hs _]]. split; [|done]. by apply NoDup_app in Hd as (? & _ & _).
Qed.

(** What the next fact of a message does to it. *)
Lemma fact_opens M m f N :
  Forall well_formed (M ++ [(m, f)]) → Forall (fun x => fact_seq x.2 < fact_seq f) M → NoDup (sources_of (M ++ [(m, f)])) →
  may_act m M ((m, f) :: N) → (is_part_type (fact_type f) = true → ∃ p st', accepted M m f p st') →
  (∃ lg, opened m (M ++ [(m, f)]) lg) ∧ Forall (fun f => is_part_type (fact_type f) = true) (facts_of m N).
Proof.
  intros Hw Hseq Hd Hact Hacc. assert (facts_of m ((m, f) :: N) = f :: facts_of m N) as Hf.
  { change ((m, f) :: N) with ([(m, f)] ++ N). by rewrite facts_of_app, facts_of_same. }
  unfold may_act in Hact. rewrite Hf in Hact. destruct Hact as [|[(Hn & f' & fs & [= <- <-] & Ht & Hfs)|[[lg Ho] Hfs]]]; [done| |].
  - split; [by apply start_opens|done].
  - inversion Hfs as [|? ? Hp Hrest]; subst. split; [|done]. destruct (Hacc Hp) as (p & st' & Ha). by eapply part_extends.
Qed.

Lemma names_accepted M m f : well_formed (m, f) → (is_part_type (fact_type f) = true → ∃ p st', accepted M m f p st') →
  ∀ p, names f = Some p → ∃ st', accepted M m f p st'.
Proof.
  intros Hw Hacc p Hn. destruct (is_part_type (fact_type f)) eqn:Et; [|by rewrite (not_named _ _ Hw Et) in Hn].
  destruct (Hacc eq_refl) as (p' & st' & Ha). destruct (accepted_state _ _ _ _ _ Hw Ha) as (_ & _ & Hn' & _).
  rewrite Hn in Hn'. injection Hn' as <-. eauto.
Qed.

Lemma fact_keeps_sound M m f lg :
  sound M → well_formed (m, f) → good_sources (M ++ [(m, f)]) → opened m (M ++ [(m, f)]) lg →
  (∀ p, names f = Some p → ∃ st', accepted M m f p st') → sound (M ++ [(m, f)]).
Proof.
  intros Hs Hw Hg Ho Hacc. assert (Forall well_formed (M ++ [(m, f)])) as Hwm.
  { apply Forall_app. split; [apply Hs|by constructor]. }
  split; [done| |done|].
  - assert (∀ m1 f1 p, (m1, f1) ∈ M → names f1 = Some p → names f = Some p → m1 = m) as Hnew.
    { intros m1 f1 p Hin Hn1 Hn. destruct (Hacc _ Hn) as [st' Ha]. by eapply accepted_owner. }
    intros m1 f1 m2 f2 p [H1|[= -> ->]%list_elem_of_singleton]%elem_of_app [H2|[= -> ->]%list_elem_of_singleton]%elem_of_app Hn1 Hn2.
    + by eapply (so_owner _ Hs).
    + by eapply Hnew.
    + symmetry. by eapply Hnew.
    + done.
  - intros m' Hp. destruct (decide (m' = m)) as [->|Hne]; [by eapply opened_reduces|].
    rewrite facts_of_app, facts_of_other, app_nil_r in Hp |- * by done. by apply (so_reduces _ Hs).
Qed.

(** Facts accepted one by one keep a sound ledger sound. *)
Lemma accepts_sound M N :
  sound M → Forall well_formed N → StronglySorted earlier (M ++ N) → good_sources (M ++ N) → (∀ m, may_act m M N) → accepts M N →
  sound (M ++ N).
Proof.
  revert M. induction N as [|[m f] N IH]; intros M Hs Hw Hso Hg Hact Hacc; [by rewrite app_nil_r|].
  destruct Hacc as [Ha Hacc]. inversion Hw as [|? ? Hwf HwN]; subst.
  assert (Forall well_formed (M ++ [(m, f)])) as Hwm by (apply Forall_app; split; [apply Hs|by constructor]).
  assert (good_sources (M ++ [(m, f)])) as Hg1 by (eapply (good_sources_prefix _ N); by rewrite <- app_assoc).
  destruct (fact_opens M m f N) as [[lg Ho] Hrest]; [done|exact (sorted_before _ _ _ Hso)|apply Hg1|apply Hact|done|].
  rewrite (cons_middle (m, f) M N), app_assoc in Hso, Hg |- *. apply IH; try done.
  - eapply fact_keeps_sound; try done. by apply names_accepted.
  - intros m'. destruct (decide (m' = m)) as [->|Hne]; [right; right; eauto|].
    assert (facts_of m' ((m, f) :: N) = facts_of m' N) as E2.
    { change ((m, f) :: N) with ([(m, f)] ++ N). by rewrite facts_of_app, facts_of_other. }
    assert (facts_of m' (M ++ [(m, f)]) = facts_of m' M) as E1 by (by rewrite facts_of_app, facts_of_other, app_nil_r).
    pose proof (Hact m') as Hm. unfold may_act in *. rewrite E2 in Hm. rewrite E1.
    destruct Hm as [?|[?|[[lg' Ho'] ?]]]; [by left|by right; left|right; right]. split; [|done]. exists lg'. by eapply opened_same.
Qed.

End Reading.
