(* ===== verification/PartScan.v ===== *)
(** * The scan of the answer facts

    [validate_assistant_part_append_full] of [StreamRows] reads the answer facts of a
    stream in order, groups them by message and reduces every message that has parts.
    Here it is shown to accept a ledger exactly when the facts are [sound] in the sense of
    [PartLedger]. *)
From stdpp Require Import base gmap list strings sorting.
From Stdlib Require Import ZArith Lia Ascii.
From S2P Require Import Prelude Redis PyValue Numerals QueueFacts RunAttempt TextParts TextPartsFacts PartLedger StreamCursors StreamProtocol StreamEvents StreamEventsFacts StreamAuthority EventLedger EventLedgerFacts StreamRows StreamRowsFacts.
#[local] Open Scope py_scope.

Section Scan.
Context `{PyRuntime} `{StreamRuntime}.

(** The fact of a row with the message it belongs to. *)
Definition fact_dict (e : envelope) (source : pyval) : fact := envelope_dict e ++ [("source_event_id", source)].
Definition entry_of (a : stream_authority) (row : v4_row) : sres entry :=
  do! projected := project_row a row in
  match ev_message_id projected, row_metadata (vr_fields row) with
  | Some message_id, Some metadata => SOk (message_id, fact_dict projected (get "source_event_id" metadata))
  | _, _ => part_error
  end.

(** One fact added to the groups. *)
Definition group_entry (en : entry) (acc : grouped) : sres grouped :=
  let '(m, f) := en in
  let facts := assoc_set m (default [] (assoc m (gr_facts acc)) ++ [PDict f]) (gr_facts acc) in
  if negb (is_part (fact_type f)) then SOk (Grouped facts (gr_owners acc) (gr_sources acc)) else
  do! owners := match get "part_id" (default [] (as_dict (get "payload" f))) with
                | PStr part_id =>
                    let owner := default m (assoc part_id (gr_owners acc)) in
                    if String.eqb owner m then SOk (assoc_set part_id owner (gr_owners acc)) else part_error
                | _ => SOk (gr_owners acc)
                end in
  if String.eqb (fact_type f) "message.part.delta" then
    match get "source_event_id" f with
    | PStr s => if str_in s (gr_sources acc) then part_error else SOk (Grouped facts owners (gr_sources acc ++ [s]))
    | _ => part_error
    end
  else SOk (Grouped facts owners (gr_sources acc)).

Lemma group_row_entry a row acc acc' :
  group_row a row acc = SOk acc' ↔ ∃ en, entry_of a row = SOk en ∧ group_entry en acc = SOk acc'.
Proof.
  unfold group_row, entry_of. destruct (project_row a row) as [e|ex]; cbn [sbind]; [|by split; [|intros (? & ? & _)]].
  destruct (ev_message_id e) as [m|]; [|by split; [|intros (? & ? & _)]].
  destruct (row_metadata (vr_fields row)) as [meta|]; [|by split; [|intros (? & ? & _)]].
  split; [intros E; eexists; split; [reflexivity|exact E]|]. intros (en & [= <-] & E). exact E.
Qed.

Fixpoint group_entries (M : list entry) (acc : grouped) : sres grouped :=
  match M with
  | [] => SOk acc
  | en :: M => do! acc := group_entry en acc in group_entries M acc
  end.
Lemma group_rows_entries a rows acc acc' :
  group_rows a rows acc = SOk acc' ↔ ∃ M, Forall2 (fun row en => entry_of a row = SOk en) rows M ∧ group_entries M acc = SOk acc'.
Proof.
  revert acc. induction rows as [|row rows IH]; intros acc; cbn [group_rows].
  { split; [intros E; exists []; by split; [constructor|]|]. intros (M & HF & E). by inversion HF; subst. }
  split.
  - intros (acc1 & (en & E1 & E2)%group_row_entry & E)%sbind_ok. apply IH in E as (M & HF & E). exists (en :: M).
    split; [by constructor|]. cbn [group_entries]. by rewrite E2.
  - intros (M & HF & E). inversion HF as [|? en ? M' E1 HF' ]; subst. cbn [group_entries] in E. apply sbind_ok in E as (acc1 & E2 & E).
    assert (group_row a row acc = SOk acc1) as -> by (apply group_row_entry; eauto). cbn [sbind]. apply IH. eauto.
Qed.

(** ** Entries are well formed *)

Lemma safe_ref_same s : SAFE_REF_PATTERN s = true → is_safe_ref s = true.
Proof.
  destruct s as [|c s]; [done|]. change (SAFE_REF_PATTERN (String c s))
    with (is_alnum c && str_forall (id_char ["_"; "-"]%char) s && Nat.leb (String.length s) 255).
  cbn [is_safe_ref]. rewrite !andb_true_iff. intros [[Hc Hs] Hl]. split_and!; [done| |apply Nat.leb_le in Hl; lia].
  revert Hs. apply str_forall_impl. intros x. unfold id_char, is_ref_char. cbn [existsb]. by rewrite orb_false_r, orb_assoc.
Qed.

Lemma part_payload_id t d : is_part_type t = true → validate_payload t (PDict d) = SOk d → ∃ p, get "part_id" d = PStr p.
Proof.
  intros Ht Hv. destruct (validate_payload_value _ _ _ Hv) as (_ & _ & _ & Hr).
  assert (has_key "part_id" d = true) as Hk.
  { unfold has_keys in Hr. rewrite forallb_forall in Hr. apply Hr. apply part_types in Ht as [->| ->]; vm_compute; auto. }
  apply has_key_spec in Hk as [v Hk]. unfold get, get_default. rewrite Hk. cbn [default from_option id].
  assert (check_payload_item t "part_id" v = SOk tt) as Hc.
  { unfold validate_payload in Hv. apply part_types in Ht as [->| ->]; cbn [negb str_in] in Hv;
      destruct (negb _) in Hv; try done; destruct (64 <? _) in Hv; try done; destruct (_ || _) in Hv; try done;
      cbn [String.eqb Ascii.eqb Bool.eqb] in Hv; destruct (existsb _ _) in Hv; try done;
      apply sbind_ok in Hv as ([] & Hc & _); eapply check_items_spec; eauto using lookup_in. }
  unfold Datatypes.id. apply part_types in Ht as [->| ->]; unfold check_payload_item in Hc;
    destruct (assoc2 _ _ PUBLIC_PAYLOAD_ENUMS) eqn:Ea; try discriminate Ea; cbn [str_in PUBLIC_PAYLOAD_REF_FIELDS] in Hc;
    apply sbind_ok in Hc as (s & Hs & _); apply v4_safe_ref_value in Hs as [-> _]; eauto.
Qed.

Lemma fact_dict_gets e src :
  get "event_type" (fact_dict e src) = PStr (ev_event_type e) ∧ get "seq" (fact_dict e src) = opt_int (ev_seq e) ∧
  get "message_id" (fact_dict e src) = opt_str (ev_message_id e) ∧ get "payload" (fact_dict e src) = PDict (ev_payload e) ∧
  get "source_event_id" (fact_dict e src) = src ∧ get "causation_event_id" (fact_dict e src) = opt_str (ev_causation_event_id e) ∧
  fact_type (fact_dict e src) = ev_event_type e.
Proof. done. Qed.

Lemma entry_well_formed a row en :
  entry_of a row = SOk en → str_in (row_type row) ASSISTANT_ANSWER_FACT_TYPES = true →
  well_formed en ∧ fact_type en.2 = row_type row ∧ fact_seq en.2 = row_sequence row.
Proof.
  unfold entry_of. intros E Ht. apply sbind_ok in E as (e & Ep & E).
  destruct (project_values _ _ _ Ep) as (meta & n & Hm & _ & Hty & _ & Hs & Hn & Hseq & _ & _ & Hsafe & _ & Hv).
  unfold row_type in *. unfold row_sequence. rewrite Hty in *. rewrite Hs, Hm in *.
  destruct (ev_message_id e) as [m|] eqn:Em; [|done]. injection E as <-.
  destruct (fact_dict_gets e (get "source_event_id" meta)) as (G1 & G2 & G3 & G4 & _ & _ & G7).
  assert (fact_seq (fact_dict e (get "source_event_id" meta)) = n) as G8 by (unfold fact_seq; by rewrite G2, Hseq).
  cbn [fst snd]. split; [|done]. split; cbn [fst snd].
  - by rewrite G7, G1.
  - by rewrite G7.
  - by rewrite G8, G2, Hseq.
  - lia.
  - by rewrite G3, Em.
  - by apply safe_ref_same, Hsafe.
  - exists (ev_payload e). split; [done|]. rewrite G7. intros Hp. by eapply part_payload_id.
Qed.

(** ** The groups *)

Definition owned (M : list entry) : Prop :=
  ∀ m f m' f' p, (m, f) ∈ M → (m', f') ∈ M → names f = Some p → names f' = Some p → m = m'.

Record groups (M : list entry) (acc : grouped) : Prop := {
  gp_keys : NoDup (gr_facts acc).*1;
  gp_facts : ∀ m, assoc m (gr_facts acc) = match facts_of m M with [] => None | fs => Some (PDict <$> fs) end;
  gp_owner : ∀ p m, assoc p (gr_owners acc) = Some m ↔ ∃ f, (m, f) ∈ M ∧ names f = Some p;
  gp_sources : PStr <$> gr_sources acc = sources_of M
}.

Lemma assoc_set_keys {A} k (v : A) d : NoDup d.*1 → NoDup (assoc_set k v d).*1.
Proof.
  intros Hd. destruct (assoc k d) as [w|] eqn:E.
  - assert ((assoc_set k v d).*1 = d.*1) as ->; [|done]. clear Hd. revert E. induction d as [|[k' w'] d IH]; [done|]. cbn [assoc assoc_set].
    destruct (String.eqb_spec k' k) as [->|]; [done|]. intros E. cbn [fmap list_fmap fst]. by rewrite <- IH.
  - rewrite assoc_set_new, fmap_app by done. apply NoDup_app. split; [done|]. split; [|apply NoDup_singleton].
    intros x Hx ->%list_elem_of_singleton. cbn [fst] in Hx. apply list_elem_of_fmap in Hx as ([k' v'] & -> & Hin).
    by rewrite (assoc_unique k' v') in E.
Qed.

(** The part a well-formed fact names. *)
Lemma names_payload m f p :
  well_formed (m, f) →
  names f = Some p ↔ is_part_type (fact_type f) = true ∧ get "part_id" (default [] (as_dict (get "payload" f))) = PStr p.
Proof.
  intros Hw. destruct (wf_payload _ Hw) as (d & Hd & Hi). cbn [snd] in *. rewrite Hd. cbn [as_dict default from_option]. unfold Datatypes.id. split.
  - intros Hn. destruct (is_part_type (fact_type f)) eqn:Et; [|by rewrite (not_named _ _ Hw Et) in Hn]. split; [done|].
    destruct (Hi eq_refl) as [q Hq]. rewrite Hq. f_equal. apply part_types in Et. unfold names in Hn.
    destruct Et as [Et|Et].
    + destruct (part_of_delta _ _ _ _ Hw Et Hd Hq) as [E _]. rewrite E in Hn. by injection Hn.
    + destruct (part_of_classified _ _ _ _ Hw Et Hd Hq) as [E1 E2]. rewrite E1, E2 in Hn. by injection Hn.
  - intros [Et Hq]. apply part_types in Et. unfold names. destruct Et as [Et|Et].
    + destruct (part_of_delta _ _ _ _ Hw Et Hd Hq) as [-> _]. done.
    + by destruct (part_of_classified _ _ _ _ Hw Et Hd Hq) as [-> ->].
Qed.

(** What a fact must be for the scan to go on. *)
Definition fits (M : list entry) (en : entry) : Prop :=
  (∀ m' f' p, (m', f') ∈ M → names f' = Some p → names en.2 = Some p → m' = en.1) ∧
  (∀ v, delta_source en.2 = Some v → is_str v = true ∧ v ∉ sources_of M).

Lemma groups_facts M m f acc owners sources :
  groups M acc → NoDup (assoc_set m (default [] (assoc m (gr_facts acc)) ++ [PDict f]) (gr_facts acc)).*1 ∧
  ∀ m', assoc m' (gr_facts (Grouped (assoc_set m (default [] (assoc m (gr_facts acc)) ++ [PDict f]) (gr_facts acc)) owners sources)) =
        match facts_of m' (M ++ [(m, f)]) with [] => None | fs => Some (PDict <$> fs) end.
Proof.
  intros [Hk Hf _ _]. split; [by apply assoc_set_keys|]. intros m'. cbn [gr_facts]. rewrite facts_of_app.
  destruct (decide (m' = m)) as [->|Hne].
  - rewrite assoc_set_eq, facts_of_same, Hf. destruct (facts_of m M) as [|x fs]; [done|].
    cbn [default from_option app]. f_equal. unfold Datatypes.id. change (x :: fs ++ [f]) with ((x :: fs) ++ [f]). by rewrite fmap_app.
  - rewrite assoc_set_ne, facts_of_other, app_nil_r by done. apply Hf.
Qed.

Lemma sources_snoc M en : sources_of (M ++ [en]) = sources_of M ++ match delta_source en.2 with Some v => [v] | None => [] end.
Proof. unfold sources_of. rewrite omap_app. cbn [omap list_omap]. by destruct (delta_source en.2). Qed.

Lemma owner_set M m f acc p :
  groups M acc → well_formed (m, f) → names f = Some p → (∀ m' f', (m', f') ∈ M → names f' = Some p → m' = m) →
  ∀ q m', assoc q (assoc_set p m (gr_owners acc)) = Some m' ↔ ∃ f', (m', f') ∈ M ++ [(m, f)] ∧ names f' = Some q.
Proof.
  intros [_ _ Ho _] Hw Hn Hown q m'. destruct (decide (q = p)) as [->|Hne].
  - rewrite assoc_set_eq. split.
    + intros [= <-]. exists f. split; [apply elem_of_app; right; by left|done].
    + intros (f' & [Hin|[= -> ->]%list_elem_of_singleton]%elem_of_app & Hn'); [|done]. f_equal. symmetry. by eapply Hown.
  - rewrite assoc_set_ne, Ho by done. split; intros (f' & Hin & Hn').
    + exists f'. split; [apply elem_of_app; by left|done].
    + apply elem_of_app in Hin as [Hin|[= -> ->]%list_elem_of_singleton]; [by exists f'|]. congruence.
Qed.

Lemma group_fits M m f acc acc' :
  groups M acc → well_formed (m, f) → group_entry (m, f) acc = SOk acc' → fits M (m, f) ∧ groups (M ++ [(m, f)]) acc'.
Proof.
  intros Hg Hw E. unfold group_entry in E. destruct (is_part (fact_type f)) eqn:Ep; cbn [negb] in E.
  - destruct (wf_payload _ Hw) as (d & Hd & Hi). cbn [snd] in *. destruct (Hi Ep) as [p Hp].
    assert (names f = Some p) as Hn by (apply (names_payload m); [done|]; rewrite Hd; done).
    rewrite Hd in E. change (default [] (as_dict (PDict d))) with d in E. rewrite Hp in E.
    destruct (String.eqb_spec (default m (assoc p (gr_owners acc))) m) as [Ho|]; [|done]. rewrite Ho in E. cbn [sbind] in E.
    assert (∀ m' f', (m', f') ∈ M → names f' = Some p → m' = m) as Hown.
    { intros m' f' Hin Hn'. assert (assoc p (gr_owners acc) = Some m') as Ha by (apply (gp_owner _ _ Hg); eauto). by rewrite Ha in Ho. }
    assert (∀ m' f' q, (m', f') ∈ M → names f' = Some q → names f = Some q → m' = m) as Hown'.
    { intros m' f' q Hin Hn' Hq. rewrite Hn in Hq. injection Hq as <-. by eapply Hown. }
    destruct (groups_facts M m f acc (assoc_set p m (gr_owners acc)) (gr_sources acc) Hg) as [K1 K2].
    pose proof (owner_set _ _ _ _ _ Hg Hw Hn Hown) as K3.
    unfold delta_source in *. destruct (String.eqb_spec (fact_type f) "message.part.delta") as [Et|Et].
    + destruct (get "source_event_id" f) as [| | | |s| |] eqn:Es; try done. destruct (str_in s (gr_sources acc)) eqn:Ein; [done|].
      injection E as <-. split.
      * split; [done|]. intros v. cbn [snd]. unfold delta_source. rewrite Et, String.eqb_refl, Es. intros [= <-]. split; [done|].
        rewrite <- (gp_sources _ _ Hg). intros (s' & [= <-] & Hin)%list_elem_of_fmap. apply str_in_false in Ein. done.
      * split; try done. cbn [gr_sources]. rewrite sources_snoc, fmap_app, (gp_sources _ _ Hg). cbn [snd]. unfold delta_source.
        by rewrite Et, String.eqb_refl, Es.
    + injection E as <-. assert (delta_source f = None) as Hds by (unfold delta_source; by rewrite (proj2 (String.eqb_neq _ _) Et)).
      split; [split; [done|]; intros v; cbn [snd]; by rewrite Hds|]. split; try done. cbn [gr_sources].
      rewrite sources_snoc. cbn [snd]. by rewrite Hds, app_nil_r, (gp_sources _ _ Hg).
  - injection E as <-. assert (names f = None) as Hn by by eapply not_named.
    assert (delta_source f = None) as Hds.
    { unfold delta_source. destruct (String.eqb_spec (fact_type f) "message.part.delta") as [Et|]; [by rewrite Et in Ep|done]. }
    destruct (groups_facts M m f acc (gr_owners acc) (gr_sources acc) Hg) as [K1 K2]. split; [split|split].
    + cbn [snd]. by rewrite Hn.
    + cbn [snd]. by rewrite Hds.
    + done.
    + done.
    + intros p m'. cbn [gr_owners]. rewrite (gp_owner _ _ Hg). split; intros (f' & Hin & Hn').
      * exists f'. split; [apply elem_of_app; by left|done].
      * apply elem_of_app in Hin as [Hin|[= -> ->]%list_elem_of_singleton]; [by exists f'|]. congruence.
    + cbn [gr_sources]. rewrite sources_snoc. cbn [snd]. by rewrite Hds, app_nil_r, (gp_sources _ _ Hg).
Qed.

Lemma fits_groups M m f acc :
  groups M acc → well_formed (m, f) → fits M (m, f) → ∃ acc', group_entry (m, f) acc = SOk acc'.
Proof.
  intros Hg Hw [Hown Hsrc]. cbn [fst snd] in *. unfold group_entry. destruct (is_part (fact_type f)) eqn:Ep; cbn [negb]; [|by eauto].
  destruct (wf_payload _ Hw) as (d & Hd & Hi). cbn [snd] in *. destruct (Hi Ep) as [p Hp].
  assert (names f = Some p) as Hn by (apply (names_payload m); [done|]; rewrite Hd; done).
  rewrite Hd. change (default [] (as_dict (PDict d))) with d. rewrite Hp.
  assert (default m (assoc p (gr_owners acc)) = m) as ->.
  { destruct (assoc p (gr_owners acc)) as [m'|] eqn:Ea; [|done]. apply (gp_owner _ _ Hg) in Ea as (f' & Hin & Hn'). cbn. by eapply Hown. }
  rewrite String.eqb_refl. cbn [sbind]. unfold delta_source in Hsrc.
  destruct (String.eqb (fact_type f) "message.part.delta"); [|by eauto].
  destruct (Hsrc _ eq_refl) as [Hs Hni]. destruct (get "source_event_id" f) as [| | | |s| |]; try done.
  destruct (str_in s (gr_sources acc)) eqn:Ein; [|by eauto]. destruct Hni. rewrite <- (gp_sources _ _ Hg).
  apply (list_elem_of_fmap_2 PStr). by apply str_in_elem.
Qed.

Lemma fits_sound M en : owned M → good_sources M → fits M en → owned (M ++ [en]) ∧ good_sources (M ++ [en]).
Proof.
  intros Ho [Hd Hs] [F1 F2]. destruct en as [m f]. cbn [fst snd] in *. split.
  - intros m1 f1 m2 f2 p [H1|[= -> ->]%list_elem_of_singleton]%elem_of_app [H2|[= -> ->]%list_elem_of_singleton]%elem_of_app Hn1 Hn2.
    + by eapply Ho.
    + by eapply F1.
    + symmetry. by eapply F1.
    + done.
  - unfold good_sources. rewrite sources_snoc. cbn [snd]. destruct (delta_source f) as [v|]; [|by rewrite app_nil_r].
    destruct (F2 v eq_refl) as [Hv Hni]. split; [|apply Forall_app; split; [done|by constructor]].
    apply NoDup_app. split; [done|]. split; [|apply NoDup_singleton]. by intros x Hx ->%list_elem_of_singleton.
Qed.
Lemma sound_fits M en N : owned (M ++ en :: N) → good_sources (M ++ en :: N) → fits M en.
Proof.
  intros Ho [Hd Hs]. destruct en as [m f]. split; cbn [fst snd].
  - intros m' f' p Hin Hn' Hn. eapply Ho; [apply elem_of_app; by left|apply elem_of_app; right; by left|done|done].
  - intros v Hv. unfold sources_of in *. rewrite omap_app in Hd, Hs. cbn [omap list_omap snd] in Hd, Hs. rewrite Hv in Hd, Hs.
    apply NoDup_app in Hd as (_ & Hd & _). apply Forall_app in Hs as [_ Hs]. inversion Hs; subst. split; [done|].
    intros Hin. apply (Hd _ Hin). by left.
Qed.

Lemma group_entries_spec M0 M acc gr :
  Forall well_formed M → groups M0 acc → owned M0 → good_sources M0 → group_entries M acc = SOk gr →
  groups (M0 ++ M) gr ∧ owned (M0 ++ M) ∧ good_sources (M0 ++ M).
Proof.
  intros Hw. revert M0 acc. induction Hw as [|[m f] M Hwf _ IH]; intros M0 acc Hg Ho Hs E; cbn [group_entries] in E.
  { injection E as <-. by rewrite app_nil_r. }
  apply sbind_ok in E as (acc1 & E1 & E). destruct (group_fits _ _ _ _ _ Hg Hwf E1) as [Hf Hg1].
  destruct (fits_sound _ _ Ho Hs Hf) as [Ho1 Hs1]. rewrite (cons_middle (m, f) M0 M), app_assoc. by eapply IH.
Qed.
Lemma group_entries_total M0 M acc :
  Forall well_formed M → groups M0 acc → owned (M0 ++ M) → good_sources (M0 ++ M) → ∃ gr, group_entries M acc = SOk gr ∧ groups (M0 ++ M) gr.
Proof.
  intros Hw. revert M0 acc. induction Hw as [|[m f] M Hwf _ IH]; intros M0 acc Hg Ho Hs; cbn [group_entries].
  { exists acc. by rewrite app_nil_r. }
  pose proof (sound_fits _ _ _ Ho Hs) as Hf. destruct (fits_groups _ _ _ _ Hg Hwf Hf) as [acc1 E1]. rewrite E1. cbn [sbind].
  destruct (group_fits _ _ _ _ _ Hg Hwf E1) as [_ Hg1]. rewrite (cons_middle (m, f) M0 M), app_assoc in Ho, Hs |- *. by eapply IH.
Qed.

Lemma fact_is_part_type m f : well_formed (m, f) → fact_is_part (PDict f) = is_part_type (fact_type f).
Proof. intros Hw. unfold fact_is_part. pose proof (wf_type _ Hw) as E. cbn [snd] in E. rewrite E. apply eq_str_in. Qed.

Lemma reduce_messages_spec l :
  reduce_messages l = SOk tt ↔
  ∀ m facts, (m, facts) ∈ l → existsb fact_is_part facts = true → ∃ st, reduce_assistant_text_part_message facts None = Ok st.
Proof.
  induction l as [|[m facts] l IH]; cbn [reduce_messages].
  { split; [by intros _ ? ? ?%elem_of_nil|done]. }
  split.
  - intros ([] & E1 & E)%sbind_ok m' facts' [[= -> ->]|Hin]%elem_of_cons Hp; [|by eapply IH].
    rewrite Hp in E1. destruct (reduce_assistant_text_part_message facts None); [eauto|done].
  - intros Hall. assert (reduce_messages l = SOk tt) as Hl by (apply IH; intros m' facts' Hin; apply (Hall m'); by right).
    destruct (existsb fact_is_part facts) eqn:Ep; [|done]. destruct (Hall m facts ltac:(by left) Ep) as [st ->]. done.
Qed.

(** The scan of a list of rows. *)
Definition scan (a : stream_authority) (rows : list v4_row) : sres unit :=
  do! gr := group_rows a rows (Grouped [] [] []) in reduce_messages (gr_facts gr).

Lemma groups_empty : groups [] (Grouped [] [] []).
Proof.
  split; try done; [constructor|]. intros p m. split; [done|]. by intros (f & Hf%elem_of_nil & _).
Qed.

Lemma groups_reduce M gr :
  Forall well_formed M → groups M gr →
  reduce_messages (gr_facts gr) = SOk tt ↔
  ∀ m, existsb (fun f => is_part_type (fact_type f)) (facts_of m M) = true →
    ∃ st, reduce_assistant_text_part_message (PDict <$> facts_of m M) None = Ok st.
Proof.
  intros Hw Hg. rewrite reduce_messages_spec.
  assert (∀ m, existsb fact_is_part (PDict <$> facts_of m M) = existsb (fun f => is_part_type (fact_type f)) (facts_of m M)) as Hp.
  { intros m. pose proof (facts_formed m _ Hw) as Hf. induction Hf as [|f fs Hwf _ IH]; [done|]. cbn [fmap list_fmap existsb].
    rewrite (fact_is_part_type m) by done. f_equal. exact IH. }
  split.
  - intros Hall m Hex. rewrite <- Hp in Hex. destruct (facts_of m M) as [|f fs] eqn:Ef; [done|]. rewrite <- Ef in *.
    apply (Hall m); [|done]. apply lookup_in. rewrite (gp_facts _ _ Hg), Ef. done.
  - intros Hall m facts Hin Hex. pose proof (assoc_unique _ _ _ (gp_keys _ _ Hg) Hin) as Ha. rewrite (gp_facts _ _ Hg) in Ha.
    assert (facts = PDict <$> facts_of m M) as -> by (destruct (facts_of m M); [done|]; by injection Ha as <-).
    apply Hall. by rewrite <- Hp.
Qed.

Lemma entries_formed a rows M :
  Forall (fun row => str_in (row_type row) ASSISTANT_ANSWER_FACT_TYPES = true) rows →
  Forall2 (fun row en => entry_of a row = SOk en) rows M → Forall well_formed M.
Proof.
  intros Hr HF. induction HF as [|row en rows M E _ IH]; [constructor|]. inversion Hr; subst. constructor; [|by apply IH].
  by eapply entry_well_formed.
Qed.

(** The scan accepts rows exactly when their facts are sound. *)
Lemma scan_sound a rows :
  Forall (fun row => str_in (row_type row) ASSISTANT_ANSWER_FACT_TYPES = true) rows →
  scan a rows = SOk tt ↔ ∃ M, Forall2 (fun row en => entry_of a row = SOk en) rows M ∧ sound M.
Proof.
  intros Hr. unfold scan. split.
  - intros (gr & (M & HF & Eg)%group_rows_entries & E)%sbind_ok. exists M. split; [done|].
    pose proof (entries_formed _ _ _ Hr HF) as Hw.
    destruct (group_entries_spec [] M (Grouped [] [] []) gr Hw groups_empty) as (Hg & Ho & Hs); [by intros ? ? ? ? ? ?%elem_of_nil|by split; constructor|exact Eg|].
    cbn [app] in *. split; try done. by apply (groups_reduce _ _ Hw Hg).
  - intros (M & HF & Hs). pose proof (entries_formed _ _ _ Hr HF) as Hw.
    destruct (group_entries_total [] M (Grouped [] [] []) Hw groups_empty) as (gr & Eg & Hg); [exact (so_owner _ Hs)|exact (so_sources _ Hs)|].
    assert (group_rows a rows (Grouped [] [] []) = SOk gr) as -> by (apply group_rows_entries; eauto). cbn [sbind].
    apply (groups_reduce _ _ Hw Hg), Hs.
Qed.

End Scan.
