(* ===== verification/PartRenumber.v ===== *)
(** * The numbers of facts do not matter

    The full scan of a batch that is about to be appended gives its facts provisional
    sequence numbers and times.  Soundness of a ledger does not depend on them, as long as
    the numbers increase. *)
From stdpp Require Import base list strings sorting.
From Stdlib Require Import ZArith Lia Ascii.
From S2P Require Import Prelude Redis QueueScripts QueueFacts PyValue TextParts TextPartsFacts PartLedger.
#[local] Open Scope py_scope.

(** Facts that differ in their number, time and identity only. *)
Record similar (f f0 : fact) : Prop := {
  sm_type : get "event_type" f = get "event_type" f0;
  sm_message : get "message_id" f = get "message_id" f0;
  sm_payload : get "payload" f = get "payload" f0;
  sm_source : get "source_event_id" f = get "source_event_id" f0;
  sm_cause : get "causation_event_id" f = get "causation_event_id" f0
}.

Record sim (lg lg0 : ledger) : Prop := {
  si_text : lg_text lg = lg_text lg0;
  si_roles : lg_roles lg = lg_roles lg0;
  si_order : lg_order lg = lg_order lg0;
  si_sources : lg_sources lg = lg_sources lg0;
  si_message : lg_message_id lg = lg_message_id lg0;
  si_started : lg_started lg = lg_started lg0;
  si_parts : lg_has_parts lg = lg_has_parts lg0;
  si_completed : option_Forall2 similar (lg_completed lg) (lg_completed lg0)
}.

Section Renumber.
Context `{PyRuntime}.

Lemma similar_type f f0 : similar f f0 → fact_type f = fact_type f0.
Proof. intros S. unfold fact_type. by rewrite (sm_type _ _ S). Qed.

Lemma common_sim f f0 lg lg0 lg0' d :
  sim lg lg0 → similar f f0 → get "seq" f = PInt (fact_seq f) → lg_previous lg < fact_seq f →
  common_checks None f0 lg0 = Ok (lg0', d) → ∃ lg', common_checks None f lg = Ok (lg', d) ∧ sim lg' lg0' ∧ lg_previous lg' = fact_seq f.
Proof.
  intros [S1 S2 S3 S4 S5 S6 S7 S8] [M1 M2 M3 M4 M5] Hseq Hlt E. unfold common_checks in *. rewrite Hseq. cbn [sequence_of].
  destruct (Z.leb_spec (fact_seq f) (lg_previous lg)); [lia|]. destruct (sequence_of (get "seq" f0)) as [n0|]; [|done].
  destruct (n0 <=? lg_previous lg0); [done|]. rewrite M2, M3, S5. destruct (safe_ref (get "message_id" f0)) as [cur|]; [|done]. cbn [res_bind] in *.
  destruct (match lg_message_id lg0 with Some _ => _ | None => _ end); [done|].
  inversion S8 as [x y Hxy E1 E2|E1 E2]; rewrite <- E2 in E; [done|]. cbn in E |- *.
  destruct (as_dict (get "payload" f0)) as [payload|]; [|done]. injection E as <- <-. eexists. split; [reflexivity|]. split; [|done].
  split; cbn; try done. rewrite <- ?E1, <- ?E2. constructor.
Qed.

Lemma reduce_fact_sim i t f f0 lg lg0 lg0' :
  sim lg lg0 → similar f f0 → get "seq" f = PInt (fact_seq f) → lg_previous lg < fact_seq f →
  reduce_fact None i t f0 lg0 = Ok lg0' → ∃ lg', reduce_fact None i t f lg = Ok lg' ∧ sim lg' lg0' ∧ lg_previous lg' = fact_seq f.
Proof.
  intros S M Hseq Hlt E. unfold reduce_fact in *. destruct (common_checks None f0 lg0) as [[lg1 d]|] eqn:Ec; [|done]. cbn [res_bind] in E.
  destruct (common_sim _ _ _ _ _ _ S M Hseq Hlt Ec) as (lg1' & -> & S' & Hp). cbn [res_bind]. clear S Ec Hlt.
  pose proof S' as [S1 S2 S3 S4 S5 S6 S7 S8].
  destruct (String.eqb t "message.started").
  { rewrite S6. destruct (_ || _); [done|]. injection E as <-. eexists. split; [reflexivity|]. split; [|done]. by split. }
  rewrite S6. destruct (lg_started lg1) eqn:Est; [|done]. cbn [negb] in *.
  destruct (String.eqb t "message.part.delta").
  { unfold reduce_delta in *. destruct (negb _); [done|]. destruct (safe_ref (get "part_id" d)) as [pid|]; [|done]. cbn [res_bind] in *.
    destruct (valid_delta _); [|done]. rewrite (sm_source _ _ M). destruct (safe_ref (get "source_event_id" f0)) as [src|]; [|done].
    cbn [res_bind] in *. rewrite S1, S2, S3, S4. destruct (str_in src _); [done|]. injection E as <-. eexists. split; [reflexivity|].
    split; [|done]. split; cbn; first [done|congruence]. }
  destruct (String.eqb t "message.part.classified").
  { unfold reduce_classified in *. destruct (negb _); [done|]. destruct (safe_ref (get "part_id" d)) as [pid|]; [|done]. cbn [res_bind] in *.
    destruct (valid_role _); [|done]. rewrite S1, S2. destruct (assoc pid (lg_text lg1)); [|done]. destruct (_ && _); [done|].
    injection E as <-. eexists. split; [reflexivity|]. split; [|done]. split; cbn; first [done|congruence]. }
  destruct (String.eqb t "message.delta"); [injection E as <-; by eauto|].
  destruct (String.eqb t "message.completed"); [|injection E as <-; by eauto].
  injection E as <-. eexists. split; [reflexivity|]. split; [|done]. split; cbn; first [done|congruence|by constructor].
Qed.

Lemma reduce_facts_sim i fs fs0 lg lg0 lg0' :
  Forall2 similar fs fs0 → sim lg lg0 → Forall (fun f => get "seq" f = PInt (fact_seq f)) fs →
  StronglySorted (fun f f' => fact_seq f < fact_seq f') fs → Forall (fun f => lg_previous lg < fact_seq f) fs →
  reduce_facts None i (typed fs0) lg0 = Ok lg0' → ∃ lg', reduce_facts None i (typed fs) lg = Ok lg' ∧ sim lg' lg0'.
Proof.
  intros HF. revert i lg lg0. induction HF as [|f f0 fs fs0 M _ IH]; intros i lg lg0 S Hq Hs Hp E; cbn [typed fmap list_fmap reduce_facts] in *.
  { injection E as <-. eauto. }
  destruct (reduce_fact None i (fact_type f0) f0 lg0) as [lg1|] eqn:E1; [|done]. cbn [res_bind] in E.
  inversion Hq; subst. inversion Hp; subst. inversion Hs as [|? ? Hs' Hlt]; subst. rewrite (similar_type _ _ M).
  destruct (reduce_fact_sim i (fact_type f0) f f0 lg lg0 lg1 S M) as (lg' & -> & S' & Hp'); try done. cbn [res_bind].
  eapply IH; try done. eapply Forall_impl; [exact Hlt|]. intros x Hx. cbn in Hx. lia.
Qed.

Lemma similar_fmap {B} (h : fact → B) fs fs0 : (∀ f f0, similar f f0 → h f = h f0) → Forall2 similar fs fs0 → h <$> fs = h <$> fs0.
Proof. intros Hh. induction 1 as [|f f0 fs fs0 M _ IH]; [done|]. cbn [fmap list_fmap]. rewrite (Hh _ _ M). f_equal. exact IH. Qed.
Lemma similar_filter (h : fact → bool) fs fs0 :
  (∀ f f0, similar f f0 → h f = h f0) → Forall2 similar fs fs0 → Forall2 similar (List.filter h fs) (List.filter h fs0).
Proof.
  intros Hh. induction 1 as [|f f0 fs fs0 M _ IH]; [constructor|]. cbn [List.filter]. rewrite (Hh _ _ M). destruct (h f0); [by constructor|done].
Qed.

Lemma finish_sim fs fs0 lg lg0 st :
  Forall2 similar fs fs0 → sim lg lg0 → finish_ledger fs0 lg0 = Ok st → finish_ledger fs lg = Ok st.
Proof.
  intros HF [S1 S2 S3 S4 S5 S6 S7 S8] E. unfold finish_ledger in *. rewrite S7, S6.
  destruct (lg_has_parts lg0); cbn [negb] in *; [|inversion S8 as [x y M E1 E2|E1 E2]; by rewrite <- E2 in E].
  destruct (lg_started lg0); cbn [negb] in *; [|done].
  inversion S8 as [cf cf0 M E1 E2|E1 E2]; rewrite <- E2 in E; [|done]. rewrite S2.
  destruct (existsb _ (lg_roles lg0)); [done|]. rewrite S3, S1, S5.
  pose proof (similar_filter (fun fact => eq_str (get "event_type" fact) "message.part.delta"
    && match as_dict (get "payload" fact) with
       | Some payload => bool_decide (assoc (py_str (get "part_id" payload)) (lg_roles lg0) = Some "answer")
       | None => false
       end) fs fs0 ltac:(intros f f0 Mf; cbn beta; by rewrite (sm_type _ _ Mf), (sm_payload _ _ Mf)) HF) as Hd.
  fold (answer_delta_facts (lg_roles lg0) fs) in Hd. fold (answer_delta_facts (lg_roles lg0) fs0) in Hd.
  set (sel := List.filter _ (lg_order lg0)) in *. destruct sel as [|p sel]; [done|].
  rewrite (similar_fmap (get "source_event_id") _ _ (fun f f0 Mf => sm_source _ _ Mf) Hd), (sm_payload _ _ M), (sm_cause _ _ M).
  rewrite (Forall2_length _ _ _ Hd). inversion Hd as [E3 E4|x y l l' Hxy Hl E3 E4]; rewrite <- E4 in E; [done|]. exact E.
Qed.

Lemma sorted_facts m M : StronglySorted earlier M → StronglySorted (fun f f' => fact_seq f < fact_seq f') (facts_of m M).
Proof.
  induction 1 as [|[m' f] M Hs IH Hf]; [constructor|]. unfold facts_of. cbn [List.filter fst]. destruct (String.eqb m' m); [|exact IH].
  cbn [fmap list_fmap snd]. constructor; [exact IH|]. apply Forall_forall. intros x Hx%facts_of_in. rewrite Forall_forall in Hf. exact (Hf _ Hx).
Qed.

Definition same_entry (en en0 : entry) : Prop := en.1 = en0.1 ∧ similar en.2 en0.2.
Lemma same_facts m M M0 : Forall2 same_entry M M0 → Forall2 similar (facts_of m M) (facts_of m M0).
Proof.
  induction 1 as [|[m1 f] [m2 f0] M M0 [Hm Hs] _ IH]; [constructor|]. cbn [fst snd] in *. subst m2. unfold facts_of. cbn [List.filter fst].
  destruct (String.eqb m1 m); [|exact IH]. cbn [fmap list_fmap snd]. by constructor.
Qed.
Lemma same_names f f0 : similar f f0 → names f = names f0.
Proof. intros M. unfold names, fact_part. by rewrite (sm_type _ _ M), (sm_payload _ _ M). Qed.
Lemma same_sources M M0 : Forall2 same_entry M M0 → sources_of M = sources_of M0.
Proof.
  unfold sources_of. induction 1 as [|[m1 f] [m2 f0] M M0 [_ Hs] _ IH]; [done|]. cbn [omap list_omap snd] in *.
  assert (delta_source f = delta_source f0) as -> by (unfold delta_source; by rewrite (similar_type _ _ Hs), (sm_source _ _ Hs)).
  destruct (delta_source f0); [f_equal|]; exact IH.
Qed.
Lemma same_member M M0 m f : Forall2 same_entry M M0 → (m, f) ∈ M → ∃ f0, (m, f0) ∈ M0 ∧ similar f f0.
Proof.
  intros HF Hin. apply list_elem_of_lookup in Hin as [i Hi]. destruct (Forall2_lookup_l _ _ _ _ _ HF Hi) as ([m0 f0] & H0 & [Hm Hs]).
  cbn [fst snd] in *. subst m0. exists f0. split; [by eapply list_elem_of_lookup_2|done].
Qed.

(** Soundness does not depend on the numbers. *)
Lemma sound_renumber M M0 :
  Forall2 same_entry M M0 → Forall well_formed M → StronglySorted earlier M → sound M0 → sound M.
Proof.
  intros HF Hw Hs S0. split; [done| | |].
  - intros m f m' f' p H1 H2 N1 N2. destruct (same_member _ _ _ _ HF H1) as (g & Hg & Sg), (same_member _ _ _ _ HF H2) as (g' & Hg' & Sg').
    eapply (so_owner _ S0); [exact Hg|exact Hg'|by rewrite <- (same_names _ _ Sg)|by rewrite <- (same_names _ _ Sg')].
  - rewrite (same_sources _ _ HF). apply S0.
  - intros m Hp. pose proof (same_facts m _ _ HF) as HFm. pose proof (facts_formed m _ Hw) as Hwm.
    pose proof (facts_formed m _ (so_formed _ S0)) as Hw0.
    assert (facts_of m M ≠ []) as Hne by (by intros En; rewrite En in Hp).
    assert (facts_of m M0 ≠ []) as Hne0 by (intros En; rewrite En in HFm; by inversion HFm).
    assert (fact_type <$> facts_of m M = fact_type <$> facts_of m M0) as Hty by (eapply similar_fmap; [apply similar_type|done]).
    destruct (so_reduces _ S0 m) as [st E].
    { clear -Hp HFm. induction HFm as [|f f0 fs fs0 Mf _ IH]; [done|]. cbn [existsb] in *. rewrite <- (similar_type _ _ Mf).
      destruct (is_part_type (fact_type f)); [done|]. by apply IH. }
    rewrite (reduce_message_eq _ m) in E by done. rewrite (reduce_message_eq _ m), Hty by done. destruct (_ && _); [done|].
    destruct (reduce_facts None 0 (typed (facts_of m M0)) empty_ledger) as [lg0|] eqn:E0; [|done]. cbn [res_bind] in E.
    destruct (reduce_facts_sim 0 _ _ empty_ledger empty_ledger lg0 HFm) as (lg & -> & Sl); try done.
    + split; try done. constructor.
    + eapply Forall_impl; [exact Hwm|]. intros f Hf. exact (wf_seq _ Hf).
    + by apply sorted_facts.
    + eapply Forall_impl; [exact Hwm|]. intros f Hf. exact (wf_positive _ Hf).
    + cbn [res_bind]. exists st. by eapply finish_sim.
Qed.

End Renumber.
