(* ===== verification/PartAppend.v ===== *)
(** * Appending answer facts

    A batch of prepared rows is checked with a few indexed lookups before it is appended
    ([validate_assistant_part_append] of [StreamRows]).  This file has the parts of the
    argument that the lookups are enough: which facts the rows of a batch become in the
    ledger, and what each lookup says about the facts the ledger has. *)
From stdpp Require Import base gmap list strings sorting.
From Stdlib Require Import ZArith Lia Ascii.
From S2P Require Import Prelude Redis PyValue Numerals QueueFacts QueueRuntime RunAttempt TextParts TextPartsFacts PartLedger PartRenumber StreamCursors StreamProtocol StreamEvents StreamEventsFacts CanonicalJson StreamAuthority EventLedger EventLedgerFacts StreamRows StreamRowsFacts PartScan.
#[local] Open Scope py_scope.

Section Append.
Context `{PyRuntime} `{StreamRuntime} `{!DigestLaws}.
Context (jt : pyval → option string) (t r : string) (a : stream_authority).

(** ** The facts of a ledger *)

Notation facts g := (fact_rows jt t r a g).
Definition row_order (x y : event_row) : Prop := er_sequence x < er_sequence y.

Lemma filter_sorted {A} (R : A → A → Prop) (f : A → bool) l : StronglySorted R l → StronglySorted R (List.filter f l).
Proof.
  induction 1 as [|x l _ IH Hf]; [constructor|]. cbn [List.filter]. destruct (f x); [|done]. constructor; [done|].
  apply Forall_forall. intros y Hy%list_elem_of_In. apply filter_In in Hy as [Hy%list_elem_of_In _]. rewrite Forall_forall in Hf. by apply Hf.
Qed.

Lemma run_rows_sorted g : ledger_inv g → StronglySorted row_order (run_rows t r (lg_events g)).
Proof. intros Hi. by eapply numbered_sorted, (in_numbers _ Hi). Qed.
Lemma stream_rows_eq g : ledger_inv g →
  stream_rows jt t r a g = List.filter (fun x => metadata_is jt "attempt_id" (sa_attempt_id a) x
    && metadata_is jt "stream_incarnation" (py_str_int (sa_stream_incarnation a)) x) (run_rows t r (lg_events g)).
Proof. intros Hi. unfold stream_rows. by rewrite sort_sorted by by apply run_rows_sorted. Qed.
Lemma facts_sorted g : ledger_inv g → StronglySorted row_order (facts g).
Proof. intros Hi. unfold fact_rows. rewrite stream_rows_eq by done. by apply filter_sorted, filter_sorted, run_rows_sorted. Qed.

Lemma insert_v4_first x l : Forall (fun y => row_sequence x < row_sequence y) l → insert_v4_row x l = x :: l.
Proof.
  destruct l as [|y l]; [done|]. intros Hf. inversion Hf; subst. cbn. unfold v4_row_leb.
  destruct (Z.ltb_spec (row_sequence x) (row_sequence y)); [done|lia].
Qed.
Lemma sort_v4_sorted l : StronglySorted (fun x y => row_sequence x < row_sequence y) l → sort_v4_rows l = l.
Proof. unfold sort_v4_rows. induction 1 as [|x l _ IH Hf]; [done|]. cbn. rewrite IH. by apply insert_v4_first. Qed.
Lemma map_sorted {A B} (R : A → A → Prop) (S : B → B → Prop) (f : A → B) l :
  (∀ x y, R x y → S (f x) (f y)) → StronglySorted R l → StronglySorted S (map f l).
Proof.
  intros Hf. induction 1 as [|x l _ IH Hx]; [constructor|]. cbn [map]. constructor; [done|]. apply Forall_forall.
  intros y (z & -> & Hz)%list_elem_of_fmap. rewrite Forall_forall in Hx. by apply Hf, Hx.
Qed.

(** The scan of a ledger as it stands. *)
Lemma full_is_scan g : ledger_inv g → validate_assistant_part_append_full jt t r a g [] [] = scan a (map stored_row (facts g)).
Proof.
  intros Hi. unfold validate_assistant_part_append_full. cbn [map add_known add_incoming]. rewrite !app_nil_r, sort_v4_sorted; [done|].
  eapply map_sorted; [|by apply facts_sorted]. done.
Qed.

Lemma fact_types_of g : Forall (fun row => str_in (row_type row) ASSISTANT_ANSWER_FACT_TYPES = true) (map stored_row (facts g)).
Proof.
  apply Forall_forall. intros row (x & -> & Hx%list_elem_of_In)%list_elem_of_fmap. unfold fact_rows in Hx. by apply filter_In in Hx as [_ Hx].
Qed.

(** The facts of a ledger and the entries they are. *)
Definition reads (g : event_ledger) (M : list entry) : Prop := Forall2 (fun x en => entry_of a (stored_row x) = SOk en) (facts g) M.
Lemma reads_map g M : Forall2 (fun row en => entry_of a row = SOk en) (map stored_row (facts g)) M ↔ reads g M.
Proof. unfold reads. apply Forall2_fmap_l. Qed.
Lemma full_sound g : ledger_inv g → validate_assistant_part_append_full jt t r a g [] [] = SOk tt ↔ ∃ M, reads g M ∧ sound M.
Proof.
  intros Hi. rewrite full_is_scan, scan_sound by (done || apply fact_types_of). split; intros (M & HF & Hs); exists M; by rewrite reads_map in *.
Qed.

(** What an entry says of its row. *)
Lemma entry_values row m f :
  entry_of a row = SOk (m, f) →
  ∃ meta, row_metadata (vr_fields row) = Some meta ∧ get "message_id" meta = PStr m ∧
    get "source_event_id" f = get "source_event_id" meta ∧ get "causation_event_id" f = get "causation_event_id" meta ∧
    get "payload" f = public_payload (vr_fields row) ∧ get "event_type" f = get "event_type" (vr_fields row) ∧ get "message_id" f = PStr m ∧
    fact_type f = row_type row ∧ fact_seq f = row_sequence row.
Proof.
  unfold entry_of. intros E. apply sbind_ok in E as (e & Ep & E).
  destruct (project_values _ _ _ Ep) as (meta & n & Hm & _ & Hty & Hp & Hs & Hn & Hseq & Hmi & Hca & _).
  rewrite Hm in E. destruct (ev_message_id e) as [m'|] eqn:Em; [|done]. injection E as <- <-. exists meta.
  destruct (fact_dict_gets e (get "source_event_id" meta)) as (G1 & G2 & G3 & G4 & G5 & G6 & G7).
  unfold row_type, row_sequence, fact_seq. rewrite Hty, Hs, G1, G2, G3, G4, G5, G6, G7, Hseq, Hca, Hp, Em. by split_and!.
Qed.

(** ** The rows of a batch *)

(** An event prepared for this stream, with an identity and a trace reference that can be
    published. *)
Definition for_stream (ie : string * ledger_event) : Prop :=
  ∃ batch ci bi payload lease eid mid trace cause src srun,
    prepare_application_v4_row t r (sa_attempt_id a) batch ci bi (le_event_type ie.2) payload a lease eid mid trace cause src srun
      = SOk ie ∧
    match eid with Some i => starts_with "evt4_" i = true | None => True end ∧ (∀ s, trace = Some s → TRACE_REF_PATTERN s = true).

Definition row_of (ie : string * ledger_event) (n now : Z) : event_row := EventRow ie.1 t r n (persisted_event_shape r ie.2) now.

Lemma for_stream_row ie n now :
  for_stream ie → publishing a → readable_time now → 1 <= n →
  ∃ e meta, project_row a (stored_row (row_of ie n now)) = SOk e ∧ event_metadata ie.2 = Some meta ∧
    get "attempt_id" meta = PStr (sa_attempt_id a) ∧ get "stream_incarnation" meta = PInt (sa_stream_incarnation a).
Proof.
  intros (batch & ci & bi & payload & lease & eid & mid & trace & cause & src & srun & E & Hi & Htr) Ha Hnow Hn.
  destruct ie as [id e]. cbn [fst snd] in *.
  destruct (prepare_spec _ _ _ _ _ _ _ _ _ _ _ _ _ _ _ _ _ _ E) as (d & -> & Hp & Ht & Hr & _ & Hm & Hc & Hmn & -> & Hid & Hev).
  cbn [le_event_type] in *. assert (starts_with "evt4_" id = true) as Hev' by (destruct eid; [by subst|done]).
  destruct (validate_payload_value _ _ _ Hp) as (_ & _ & Hk & _). pose proof (metadata_key_reserved _ _ Hk) as Hres.
  eexists (published a id _ n now d mid trace cause), _. split; [|split; [|split]].
  - unfold row_of. cbn [fst snd]. pose proof Hnow as [Hf Hl]. eapply prepared_projects; try done.
    + rewrite <- Ht. done.
    + rewrite <- Hr. done.
    + unfold as_utc. by apply bounded_string_ok.
  - unfold event_metadata, row_metadata. cbn [get get_default assoc String.eqb Ascii.eqb Bool.eqb default from_option le_payload].
    unfold Datatypes.id, get, get_default. rewrite (assoc_app _ _ _ Hres). cbn [assoc]. rewrite String.eqb_refl. reflexivity.
  - done.
  - done.
Qed.

(** An entry for an event: what both say of the message, the part and the source. *)
Record stands_for (ie : string * ledger_event) (en : entry) : Prop := {
  sf_meta : ∃ meta, event_metadata ie.2 = Some meta ∧ get "message_id" meta = PStr en.1 ∧
    get "source_event_id" en.2 = get "source_event_id" meta ∧ get "causation_event_id" en.2 = get "causation_event_id" meta;
  sf_payload : get "payload" en.2 = PDict (List.filter (fun kv => negb (String.eqb kv.1 V4_METADATA_KEY)) (le_payload ie.2));
  sf_event : get "event_type" en.2 = PStr (le_event_type ie.2);
  sf_type : fact_type en.2 = le_event_type ie.2;
  sf_message : get "message_id" en.2 = PStr en.1
}.

Lemma row_stands_for ie n now en : entry_of a (stored_row (row_of ie n now)) = SOk en → stands_for ie en.
Proof.
  destruct en as [m f]. intros E. destruct (entry_values _ _ _ E) as (meta & Hm & Hmi & Hs & Hc & Hp & Hty & Hmf & Ht & _).
  split; cbn [fst snd]; try done. exists meta. by split_and!.
Qed.
Lemma built_stands_for ie n text en : entry_of a (built_row ie.1 t r n ie.2 text) = SOk en → stands_for ie en.
Proof.
  destruct en as [m f]. intros E. destruct (entry_values _ _ _ E) as (meta & Hm & Hmi & Hs & Hc & Hp & Hty & Hmf & Ht & _).
  split; cbn [fst snd]; try done. exists meta. by split_and!.
Qed.
Lemma stands_for_same ie en en0 : stands_for ie en → stands_for ie en0 → same_entry en en0.
Proof.
  intros [(meta & E1 & E2 & E3 & E4) P V T G] [(meta0 & F1 & F2 & F3 & F4) P0 V0 T0 G0]. rewrite E1 in F1. injection F1 as <-.
  assert (en.1 = en0.1) as Hm by congruence. split; [done|]. split; congruence.
Qed.

(** The entry of a fact of the batch. *)
Lemma fact_entry ie n now :
  for_stream ie → publishing a → readable_time now → 1 <= n → is_fact ie.2 = true →
  ∃ en, entry_of a (stored_row (row_of ie n now)) = SOk en ∧ stands_for ie en ∧ fact_seq en.2 = n.
Proof.
  intros Hf Ha Hnow Hn Hfact. destruct (for_stream_row ie n now Hf Ha Hnow Hn) as (e & meta & Hp & Hm & _).
  destruct (project_values _ _ _ Hp) as (meta' & n' & Hm' & _ & Hty & _ & _ & _ & _ & _ & _ & _ & Hcorr & _).
  assert (∃ en, entry_of a (stored_row (row_of ie n now)) = SOk en) as [en E].
  { unfold entry_of. rewrite Hp. cbn [sbind]. rewrite Hm'. destruct (ev_message_id e) as [m|]; [by eauto|].
    assert (ev_event_type e = le_event_type ie.2) as Ht by (by injection Hty). destruct Hcorr; [|done]. rewrite Ht.
    unfold is_fact in Hfact. apply str_in_elem in Hfact.
    assert (forallb (fun x => str_in x PUBLIC_MESSAGE_CORRELATED_EVENT_TYPES) ASSISTANT_ANSWER_FACT_TYPES = true) as Hall by reflexivity.
    rewrite forallb_forall in Hall. by apply Hall, list_elem_of_In. }
  exists en. split; [done|]. split; [by eapply row_stands_for|]. destruct en as [m f].
  destruct (entry_values _ _ _ E) as (meta2 & _ & _ & _ & _ & _ & _ & _ & _ & Hseq). exact Hseq.
Qed.

(** ** The ledger after the append *)

Lemma insert_events_events rows g g' : insert_events rows g = SOk g' → lg_events g' = lg_events g ++ rows.
Proof.
  revert g. induction rows as [|x rows IH]; intros g E; cbn [insert_events] in E; [injection E as <-; by rewrite app_nil_r|].
  apply sbind_ok in E as (g1 & E1 & E). apply insert_spec in E1 as [-> _]. rewrite (IH _ E). cbn. by rewrite <- app_assoc.
Qed.
Lemma zip_unzip {A B} (P : list (A * B)) : zip (map fst P) (map snd P) = P.
Proof. induction P as [|[i e] P IH]; [done|]. cbn. by rewrite <- IH at 3. Qed.
Lemma append_events_rows now fresh P g g' rps :
  ledger_inv g → append_events now fresh t r (map snd P) (map fst P) g = SOk (g', rps) →
  lg_events g' = lg_events g ++ batch_rows now t r (Z.of_nat (length (run_rows t r (lg_events g))) + 1) P.
Proof.
  intros Hi E. unfold append_events in E. do 2 (apply sbind_ok in E as (? & _ & E)). rewrite !length_map, Nat.eqb_refl in E. cbn [negb] in E.
  apply sbind_ok in E as ([] & Hids & E). destruct (negb _); [done|]. destruct P as [|[i1 e1] [|[i2 e2] P]]; cbn [map fst snd] in E.
  - injection E as <- <-. by rewrite app_nil_r.
  - apply sbind_ok in E as (? & _ & E). apply sbind_ok in E as ([g1 p] & Ea & E). injection E as <- _. unfold append_event in Ea.
    cbn [map fst require_all] in Hids. apply sbind_ok in Hids as ([] & Hi' & _). unfold require_nonempty in Hi'. cbn [truthy_str] in Ea.
    destruct (str_truthy i1); [|done].
    do 5 (apply sbind_ok in Ea as (? & _ & Ea)). apply sbind_ok in Ea as ([g2 c] & Ec & Ea). unfold allocate_cursor in Ec.
    apply sbind_ok in Ec as ([g3 n] & Et & Ec). apply (take_spec _ _ _ _ _ _ Hi) in Et as [-> ->].
    apply sbind_ok in Ec as (c' & Hc%ledger_cursor_spec & Ec). injection Ec as <- <-. subst c'.
    apply sbind_ok in Ea as (g4 & Ein & Ea). injection Ea as <- _. apply insert_spec in Ein as [-> _]. cbn. by rewrite Z.add_0_r.
  - apply sbind_ok in E as (? & _ & E). apply sbind_ok in E as ([g1 c] & Ea & E). unfold allocate_cursor_range in Ea.
    destruct (_ <? 1); [done|]. apply sbind_ok in Ea as ([g2 n] & Et & Ea). apply (take_spec _ _ _ _ _ _ Hi) in Et as [-> ->].
    apply sbind_ok in Ea as (c' & Hc%ledger_cursor_spec & Ea). injection Ea as <- <-. subst c'.
    apply sbind_ok in E as (g3 & Ein & E). injection E as <- _. apply insert_events_events in Ein. rewrite Ein. cbn [rc_sequence].
    cbn [set_cursor lg_events]. cbn [zip zip_with]. by rewrite zip_unzip.
Qed.

Lemma batch_cons now n ie P : batch_rows now t r n (ie :: P) = row_of ie n now :: batch_rows now t r (n + 1) P.
Proof.
  unfold batch_rows. cbn [imap]. rewrite Z.add_0_r. f_equal. apply imap_ext. intros i x _. cbn. unfold row_of. f_equal. lia.
Qed.

Definition is_fact_row (x : event_row) : bool := str_in (es_event_type (er_shape x)) ASSISTANT_ANSWER_FACT_TYPES.

Section Batch.
Context (Ha : publishing a) (now : Z) (Hnow : readable_time now).

Lemma batch_in_stream n P :
  1 <= n → Forall for_stream P →
  List.filter (fun x => metadata_is jt "attempt_id" (sa_attempt_id a) x
    && metadata_is jt "stream_incarnation" (py_str_int (sa_stream_incarnation a)) x) (batch_rows now t r n P) = batch_rows now t r n P.
Proof.
  intros Hn HP. revert n Hn. induction HP as [|ie P Hie _ IH]; intros n Hn; [done|]. rewrite batch_cons. cbn [List.filter].
  destruct (for_stream_row ie n now Hie Ha Hnow Hn) as (e & meta & _ & Hm & B1 & B2). unfold metadata_is at 1 2, stored_metadata.
  change (row_metadata (vr_fields (stored_row (row_of ie n now)))) with (event_metadata ie.2). rewrite Hm. cbn [default from_option].
  unfold Datatypes.id. rewrite B1, B2. cbn [field_text]. rewrite !bool_decide_eq_true_2 by done. cbn [andb]. f_equal. apply IH. lia.
Qed.

Lemma facts_after g g' P :
  ledger_inv g → ledger_inv g' → Forall for_stream P →
  lg_events g' = lg_events g ++ batch_rows now t r (Z.of_nat (length (run_rows t r (lg_events g))) + 1) P →
  facts g' = facts g ++ List.filter is_fact_row (batch_rows now t r (Z.of_nat (length (run_rows t r (lg_events g))) + 1) P).
Proof.
  intros Hi Hi' HP E. unfold fact_rows. rewrite !stream_rows_eq by done. rewrite E, run_rows_app.
  destruct (batch_rows_spec now t r (Z.of_nat (length (run_rows t r (lg_events g))) + 1) P) as (Hr & _).
  rewrite (rows_of_same _ _ _ Hr), List.filter_app, List.filter_app. f_equal. by rewrite batch_in_stream by (done || lia).
Qed.

(** The entries the batch adds. *)
Lemma batch_entries n P :
  1 <= n → Forall for_stream P →
  ∃ N, Forall2 (fun x en => entry_of a (stored_row x) = SOk en) (List.filter is_fact_row (batch_rows now t r n P)) N ∧
    Forall2 stands_for (List.filter (fun ie => is_fact ie.2) P) N ∧ StronglySorted earlier N ∧
    Forall (fun en => n <= fact_seq en.2) N ∧ Forall well_formed N.
Proof.
  intros Hn HP. revert n Hn. induction HP as [|ie P Hie _ IH]; intros n Hn.
  { exists []. split_and!; constructor. }
  destruct (IH (n + 1) ltac:(lia)) as (N & B1 & B2 & B3 & B4 & B5). rewrite batch_cons. cbn [List.filter].
  change (is_fact_row (row_of ie n now)) with (is_fact ie.2). destruct (is_fact ie.2) eqn:Ef.
  - destruct (fact_entry ie n now Hie Ha Hnow Hn Ef) as (en & E & Hs & Hseq). exists (en :: N). split_and!; try (by constructor).
    + constructor; [done|]. eapply Forall_impl; [exact B4|]. intros x Hx. unfold earlier. cbn in Hx. lia.
    + constructor; [lia|]. eapply Forall_impl; [exact B4|]. cbn. lia.
    + constructor; [|done]. eapply entry_well_formed; [exact E|]. exact Ef.
  - exists N. split_and!; try done. eapply Forall_impl; [exact B4|]. cbn. lia.
Qed.

End Batch.

(** Distinct new identities: nothing is merged and nothing found. *)
Lemma unique_rows_fresh P u : NoDup (u ++ P).*1 → unique_rows P u = SOk (u ++ P).
Proof.
  revert u. induction P as [|[id e] P IH]; intros u Hd; cbn [unique_rows]; [by rewrite app_nil_r|].
  rewrite assoc_missing.
  - rewrite IH; [by rewrite <- app_assoc|]. by rewrite <- app_assoc.
  - rewrite fmap_app in Hd. apply NoDup_app in Hd as (_ & Hd & _). intros Hin. apply (Hd _ Hin). by left.
Qed.
Lemma dict_of_distinct (P : list (string * ledger_event)) d : NoDup (d ++ P).*1 → foldl (fun d ie => assoc_set ie.1 ie.2 d) d P = d ++ P.
Proof.
  revert d. induction P as [|[id e] P IH]; intros d Hd; cbn [foldl]; [by rewrite app_nil_r|]. cbn [fst snd].
  rewrite assoc_set_new.
  - rewrite IH; [by rewrite <- app_assoc|]. by rewrite <- app_assoc.
  - apply assoc_missing. rewrite fmap_app in Hd. apply NoDup_app in Hd as (_ & Hd & _). intros Hin. apply (Hd _ Hin). by left.
Qed.
Lemma filter_keys_distinct (f : string * ledger_event → bool) P : NoDup P.*1 → NoDup (List.filter f P).*1.
Proof.
  induction P as [|ie P IH]; [done|]. cbn [fmap list_fmap]. intros [Hn Hd]%NoDup_cons. cbn [List.filter]. destruct (f ie); [|by apply IH].
  cbn [fmap list_fmap]. apply NoDup_cons. split; [|by apply IH]. intros (x & E & Hx%list_elem_of_In)%list_elem_of_fmap. apply Hn.
  apply filter_In in Hx as [Hx%list_elem_of_In _]. rewrite E. by apply (list_elem_of_fmap_2 fst).
Qed.

(** An append of new rows: the check of the answer facts, then the insert. *)
Lemma append_fresh now fresh P g g' rows :
  ledger_inv g → NoDup P.*1 → (∀ id, id ∈ P.*1 → id ∉ er_id <$> lg_events g) →
  append_prepared_application_v4_rows jt now fresh t r P a g = SOk (g', rows) →
  validate_assistant_part_append jt t r a g P [] = SOk tt ∧
  lg_events g' = lg_events g ++ batch_rows now t r (Z.of_nat (length (run_rows t r (lg_events g))) + 1) P ∧ ledger_inv g'.
Proof.
  intros Hi Hd Hf E. assert (ledger_inv g') as Hi'.
  { destruct (append_prepared_spec _ _ _ _ _ _ _ _ _ _ Hi E) as (_ & _ & _ & _ & Hr & _). by eapply steps_inv. }
  unfold append_prepared_application_v4_rows in E. rewrite unique_rows_fresh in E by done. cbn [sbind app] in E.
  assert (List.filter (fun x => str_in (er_id x) (map fst P)) (lg_events g) = []) as Hn.
  { apply filter_all_false. intros x Hx. apply str_in_false. intros Hin. apply (Hf _ Hin). by apply (list_elem_of_fmap_2 er_id). }
  rewrite Hn in E. cbn [existsb map] in E. apply sbind_ok in E as ([] & Hv & E). split; [done|]. split; [|done].
  assert (List.filter (fun ie => negb (str_in ie.1 [])) P = P) as Hm.
  { clear. induction P as [|ie P IH]; [done|]. cbn. f_equal. exact IH. }
  rewrite Hm in E. apply sbind_ok in E as ([g1 ex] & Em & E). injection E as <- _. destruct P as [|ie P].
  { injection Em as <- _. by rewrite app_nil_r. }
  apply sbind_ok in Em as ([g2 receipts] & Ea & Em). injection Em as <- _. by eapply append_events_rows.
Qed.

(** The insert of a batch succeeds when its identities are new and its numbers follow
    those of the run. *)
Lemma inserts_succeed now P n g :
  NoDup P.*1 → (∀ id, id ∈ P.*1 → id ∉ er_id <$> lg_events g) → (∀ x, x ∈ run_rows t r (lg_events g) → er_sequence x < n) →
  Forall (fun ie => columns_fit (persisted_event_shape r ie.2) = true) P →
  insert_events (batch_rows now t r n P) g = SOk (set_events (lg_events g ++ batch_rows now t r n P) g).
Proof.
  intros Hd Hf Hn Hc. revert n g Hd Hf Hn. induction Hc as [|ie P Hie _ IH]; intros n g Hd Hf Hn.
  { cbn. rewrite app_nil_r. by destruct g. }
  rewrite batch_cons. cbn [insert_events]. cbn [fmap list_fmap] in Hd, Hf. apply NoDup_cons in Hd as [Hni Hd].
  unfold insert_event. cbn [row_of er_id er_sequence er_tenant_id er_run_id er_shape].
  rewrite existsb_all_false.
  2: { intros x Hx. apply String.eqb_neq. intros E. apply (Hf ie.1); [by left|]. rewrite <- E. by apply (list_elem_of_fmap_2 er_id). }
  rewrite existsb_all_false by (intros x Hx; specialize (Hn x Hx); lia). rewrite Hie. cbn [orb negb sbind].
  rewrite IH; [unfold set_events; cbn; by rewrite <- app_assoc|done|..]; cbn [set_events lg_events].
  - intros id Hid. rewrite fmap_app. intros [Hin|Hin]%elem_of_app; [by apply (Hf id); [right|]|].
    apply list_elem_of_singleton in Hin as ->. by apply Hni.
  - intros x. rewrite run_rows_app. intros [Hx|Hx]%elem_of_app; [specialize (Hn x Hx); lia|].
    unfold run_rows in Hx. apply list_elem_of_In, filter_In in Hx as [[<-|[]] _]. cbn. lia.
Qed.

(** An event the ledger takes: a name, a type, a stage, and counts of 32 bits. *)
Definition takeable (ie : string * ledger_event) : Prop :=
  str_truthy ie.1 = true ∧ str_truthy (le_event_type ie.2) = true ∧ str_truthy (le_stage ie.2) = true ∧
  columns_fit (persisted_event_shape r ie.2) = true.

Lemma take_succeeds k g (n := Z.of_nat (length (run_rows t r (lg_events g))) + 1) :
  ledger_inv g → n + k <= MAX_BIGINT → take_sequences t r k g = SOk (set_cursor (t, r) (n + k) g, n).
Proof.
  intros Hi Hk. unfold take_sequences. rewrite (in_cursor _ Hi).
  assert (∀ m : Z, m = n → (if (m <=? 0) || (MAX_BIGINT <? m + k) then SErr (DatabaseError "check or range of next_sequence")
                            else SOk (set_cursor (t, r) (m + k) g, m)) = SOk (set_cursor (t, r) (n + k) g, n)) as Hm.
  { intros m ->. destruct (Z.leb_spec n 0); [lia|]. destruct (Z.ltb_spec MAX_BIGINT (n + k)); [lia|]. done. }
  apply Hm. unfold n. by destruct (run_rows t r (lg_events g)).
Qed.
Lemma cursor_succeeds n : 0 <= n → str_truthy r = true → ledger_cursor r n = SOk (RunCursor r n).
Proof. intros Hn Hr. unfold ledger_cursor, new_run_cursor. rewrite Hr. by destruct (Z.ltb_spec n 0); [lia|]. Qed.

(** The checks of the names of a batch. *)
Lemma require_all_ok P field : Forall takeable P → require_all (map fst P) field = SOk tt.
Proof. induction 1 as [|ie P (E & _) _ IH]; [done|]. cbn [map require_all]. unfold require_nonempty. rewrite E. exact IH. Qed.
Lemma require_events_ok P : Forall takeable P → require_events (map snd P) = SOk tt.
Proof.
  induction 1 as [|ie P (_ & E1 & E2 & _) _ IH]; [done|]. cbn [map require_events]. unfold require_nonempty. rewrite E1, E2. exact IH.
Qed.

Lemma append_events_succeeds now fresh P g :
  ledger_inv g → str_truthy t = true → str_truthy r = true → NoDup P.*1 → (∀ id, id ∈ P.*1 → id ∉ er_id <$> lg_events g) →
  Forall takeable P → Z.of_nat (length (run_rows t r (lg_events g)) + length P) < MAX_BIGINT →
  ∃ g' rps, append_events now fresh t r (map snd P) (map fst P) g = SOk (g', rps).
Proof.
  intros Hi Ht Hr Hd Hf HP Hb. set (n := Z.of_nat (length (run_rows t r (lg_events g))) + 1).
  assert (∀ k, insert_events (batch_rows now t r n P) (set_cursor (t, r) k g) =
    SOk (set_events (lg_events g ++ batch_rows now t r n P) (set_cursor (t, r) k g))) as Hins.
  { intros k. apply (inserts_succeed now P n (set_cursor (t, r) k g)); [done|done| |eapply Forall_impl; [exact HP|]; by intros ie (_ & _ & _ & ?)].
    intros x Hx. cbn [set_cursor lg_events] in Hx. apply (list_elem_of_fmap_2 er_sequence) in Hx. change (er_sequence <$> ?l) with (map er_sequence l) in Hx.
    rewrite (in_numbers _ Hi) in Hx. unfold numbers in Hx. apply list_elem_of_fmap in Hx as (k' & -> & Hk%list_elem_of_In%in_seq). unfold n. lia. }
  unfold append_events. rewrite (require_all_ok P), (require_events_ok P), !length_map, Nat.eqb_refl, bool_decide_eq_true_2 by done.
  unfold require_nonempty. rewrite Ht, Hr. cbn [negb sbind].
  destruct P as [|[i1 e1] [|[i2 e2] P]]; cbn [map fst snd]; [by eauto|..].
  - unfold append_event, require_nonempty. inversion HP as [|? ? (T1 & T2 & T3 & T4) _]; subst. cbn [fst snd] in *.
    rewrite Ht, Hr, T2, T3. cbn [negb sbind truthy_str]. rewrite T1. cbn [negb sbind]. unfold allocate_cursor.
    rewrite take_succeeds by (done || cbn [length] in Hb; lia). cbn [sbind]. rewrite cursor_succeeds by (done || lia). cbn [sbind rc_sequence].
    specialize (Hins (n + 1)). rewrite batch_cons in Hins. cbn [insert_events] in Hins. fold n.
    apply sbind_ok in Hins as (g1 & E1 & _). unfold row_of in E1. cbn [fst snd] in E1. rewrite E1, T1. by do 2 eexists.
  - unfold allocate_cursor_range. destruct (Z.ltb_spec (Z.of_nat (length ((i1, e1) :: (i2, e2) :: P))) 1) as [Hlt|_]; [cbn [length] in Hlt; lia|].
    rewrite take_succeeds by (done || cbn [length] in Hb |- *; lia). cbn [sbind].
    rewrite cursor_succeeds by (done || lia). cbn [sbind rc_sequence]. fold n.
    assert (zip (i1 :: i2 :: map fst P) (e1 :: e2 :: map snd P) = (i1, e1) :: (i2, e2) :: P) as ->.
    { cbn [zip zip_with]. do 2 f_equal. clear. induction P as [|[i e] P IH]; [done|]. cbn [map zip zip_with fst snd]. f_equal. exact IH. }
    rewrite Hins. by do 2 eexists.
Qed.

(** The append of new rows, exactly: it fails as the check of the answer facts does, and
    otherwise adds the rows at the end. *)
Lemma append_fresh_exact now fresh P g :
  ledger_inv g → str_truthy t = true → str_truthy r = true → NoDup P.*1 → (∀ id, id ∈ P.*1 → id ∉ er_id <$> lg_events g) →
  Forall takeable P → Z.of_nat (length (run_rows t r (lg_events g)) + length P) < MAX_BIGINT →
  match validate_assistant_part_append jt t r a g P [] with
  | SErr e => append_prepared_application_v4_rows jt now fresh t r P a g = SErr e
  | SOk _ => ∃ g' rows, append_prepared_application_v4_rows jt now fresh t r P a g = SOk (g', rows) ∧
      lg_events g' = lg_events g ++ batch_rows now t r (Z.of_nat (length (run_rows t r (lg_events g))) + 1) P
  end.
Proof.
  intros Hi Ht Hr Hd Hf HP Hb. destruct (append_events_succeeds now fresh P g Hi Ht Hr Hd Hf HP Hb) as (g' & rps & Ea).
  assert (List.filter (fun x => str_in (er_id x) (map fst P)) (lg_events g) = []) as Hn.
  { apply filter_all_false. intros x Hx. apply str_in_false. intros Hin. apply (Hf _ Hin). by apply (list_elem_of_fmap_2 er_id). }
  assert (List.filter (fun ie => negb (str_in ie.1 [])) P = P) as Hm.
  { clear. induction P as [|ie P IH]; [done|]. cbn. f_equal. exact IH. }
  destruct (validate_assistant_part_append jt t r a g P []) as [[]|e] eqn:Ev.
  - assert (∃ g' rows, append_prepared_application_v4_rows jt now fresh t r P a g = SOk (g', rows)) as (g1 & rows & E).
    { unfold append_prepared_application_v4_rows. rewrite unique_rows_fresh by done. cbn [sbind app]. rewrite Hn. cbn [existsb map].
      rewrite Ev. cbn [sbind]. rewrite Hm. destruct P as [|ie P]; [cbn; by eauto|]. rewrite Ea. by do 2 eexists. }
    exists g1, rows. split; [done|]. by eapply append_fresh.
  - unfold append_prepared_application_v4_rows. rewrite unique_rows_fresh by done. cbn [sbind app]. rewrite Hn. cbn [existsb map]. by rewrite Ev.
Qed.

(** ** What the lookups find *)

Lemma Forall2_filter {A B} (R : A → B → Prop) (f : A → bool) (h : B → bool) l k :
  (∀ x y, R x y → f x = h y) → Forall2 R l k → Forall2 R (List.filter f l) (List.filter h k).
Proof.
  intros Hfh. induction 1 as [|x y l k Hxy _ IH]; [constructor|]. cbn [List.filter]. rewrite (Hfh _ _ Hxy). destruct (h y); [by constructor|done].
Qed.
Lemma filter_filter {A} (f h : A → bool) l : (∀ x, f x = true → h x = true) → List.filter f (List.filter h l) = List.filter f l.
Proof.
  intros Hfh. induction l as [|x l IH]; [done|]. cbn [List.filter]. destruct (h x) eqn:Eh; cbn [List.filter].
  - by rewrite IH.
  - destruct (f x) eqn:Ef; [|done]. by rewrite (Hfh _ Ef) in Eh.
Qed.
Lemma get_other_key k (d : dict) : k ≠ V4_METADATA_KEY → get k (List.filter (fun kv => negb (String.eqb kv.1 V4_METADATA_KEY)) d) = get k d.
Proof.
  intros Hk. unfold get, get_default. f_equal. induction d as [|[k' v] d IH]; [done|]. cbn [List.filter fst assoc].
  destruct (String.eqb_spec k' V4_METADATA_KEY) as [->|Hne]; cbn [negb assoc].
  - rewrite IH. by destruct (String.eqb_spec V4_METADATA_KEY k) as [E|]; [destruct Hk|].
  - by rewrite IH.
Qed.

Definition is_row (x : event_row) (en : entry) : Prop := entry_of a (stored_row x) = SOk en ∧ well_formed en.

Lemma are_rows l M : Forall2 (fun x en => entry_of a (stored_row x) = SOk en) l M → Forall well_formed M → Forall2 is_row l M.
Proof. induction 1 as [|x en l M E _ IH]; intros Hw; [constructor|]. inversion Hw; subst. constructor; [by split|by apply IH]. Qed.
Lemma is_row_type x en ty : is_row x en → of_type ty x = String.eqb (fact_type en.2) ty.
Proof.
  intros [E _]. destruct en as [m f]. destruct (entry_values _ _ _ E) as (? & _ & _ & _ & _ & _ & _ & _ & Ht & _). unfold of_type. cbn [snd].
  by rewrite Ht.
Qed.
Lemma is_row_message x en m : is_row x en → metadata_is jt "message_id" m x = String.eqb en.1 m.
Proof.
  intros [E _]. destruct en as [m' f]. destruct (entry_values _ _ _ E) as (meta & Hm & Hmi & _). unfold metadata_is, stored_metadata.
  rewrite Hm. cbn [default from_option fst]. unfold Datatypes.id. rewrite Hmi. cbn [field_text].
  destruct (String.eqb_spec m' m) as [->|]; [by rewrite bool_decide_eq_true_2|]. apply bool_decide_eq_false_2. congruence.
Qed.
Lemma is_row_source x en s : is_row x en → get "source_event_id" en.2 = PStr s → metadata_is jt "source_event_id" s x = true.
Proof.
  intros [E _] Hs. destruct en as [m' f]. destruct (entry_values _ _ _ E) as (meta & Hm & _ & Hsrc & _). unfold metadata_is, stored_metadata.
  rewrite Hm. cbn [default from_option fst snd] in *. unfold Datatypes.id. rewrite <- Hsrc, Hs. by apply bool_decide_eq_true_2.
Qed.
Lemma is_row_part x en ty p : is_row x en → is_part_type ty = true →
  of_type ty x && bool_decide (field_text jt (get "part_id" (es_payload_json (er_shape x))) = Some p) = bool_decide (fact_part ty en.2 = Some p).
Proof.
  intros Hr Hty. rewrite (is_row_type _ _ _ Hr). destruct Hr as [E Hw]. destruct en as [m f]. cbn [snd].
  destruct (entry_values _ _ _ E) as (_ & _ & _ & _ & _ & Hpl & _). change (public_payload _) with (PDict (row_payload x)) in Hpl.
  unfold fact_part. pose proof (wf_type _ Hw) as Ht. cbn [snd] in Ht. rewrite Ht, Hpl. cbn [eq_str as_dict].
  destruct (String.eqb_spec (fact_type f) ty) as [<-|]; cbn [andb]; [|symmetry; by apply bool_decide_eq_false_2].
  destruct (wf_payload _ Hw) as (d & Hd & Hi). cbn [snd] in *. destruct (Hi Hty) as [q Hq]. rewrite Hpl in Hd. injection Hd as <-.
  rewrite <- (get_other_key "part_id") by done. fold (row_payload x). rewrite Hq. cbn [field_text]. done.
Qed.

Section Lookups.
Context (g : event_ledger) (M : list entry) (Hi : ledger_inv g) (HM : reads g M) (Hs : sound M).

Lemma rows_are : Forall2 is_row (facts g) M.
Proof. apply are_rows; [exact HM|apply Hs]. Qed.

(** The rows a lookup of a type of fact selects. *)
Lemma select_type ty (f : event_row → bool) :
  str_in ty ASSISTANT_ANSWER_FACT_TYPES = true →
  List.filter (fun x => of_type ty x && f x) (stream_rows jt t r a g) = List.filter (fun x => of_type ty x && f x) (facts g).
Proof.
  intros Ht. unfold fact_rows. symmetry. apply filter_filter. intros x [Ho _]%andb_true_iff. unfold of_type in Ho.
  apply String.eqb_eq in Ho. by rewrite Ho.
Qed.
Lemma select_message ty m :
  str_in ty ASSISTANT_ANSWER_FACT_TYPES = true →
  Forall2 is_row (List.filter (fun x => of_type ty x && metadata_is jt "message_id" m x) (stream_rows jt t r a g))
    (List.filter (fun en => String.eqb (fact_type en.2) ty && String.eqb en.1 m) M).
Proof.
  intros Ht. rewrite select_type by done. apply Forall2_filter; [|exact rows_are]. intros x en Hr.
  by rewrite (is_row_type _ _ _ Hr), (is_row_message _ _ _ Hr).
Qed.
Lemma select_part ty p :
  is_part_type ty = true →
  Forall2 is_row (List.filter (fun x => of_type ty x && bool_decide (field_text jt (get "part_id" (es_payload_json (er_shape x))) = Some p))
      (stream_rows jt t r a g))
    (List.filter (fun en => bool_decide (fact_part ty en.2 = Some p)) M).
Proof.
  intros Ht. rewrite select_type; [|by apply part_types in Ht as [->| ->]]. apply Forall2_filter; [|exact rows_are]. intros x en Hr.
  by apply is_row_part.
Qed.

(** The facts of a type of one message. *)
Definition typed_facts (ty m : string) : list fact := List.filter (fun f => String.eqb (fact_type f) ty) (facts_of m M).
Lemma typed_facts_eq ty m :
  typed_facts ty m = (List.filter (fun en => String.eqb (fact_type en.2) ty && String.eqb en.1 m) M).*2.
Proof.
  unfold typed_facts, facts_of. clear. induction M as [|[m' f] M' IH]; [done|]. cbn [List.filter fst snd].
  destruct (String.eqb m' m); cbn [fmap list_fmap List.filter snd]; [rewrite andb_true_r|by rewrite andb_false_r].
  destruct (String.eqb (fact_type f) ty); cbn [fmap list_fmap snd]; [f_equal|]; exact IH.
Qed.

Lemma lookup_message ty m limit rows :
  str_in ty ASSISTANT_ANSWER_FACT_TYPES = true → lookup_rows jt t r a g ty BY_MESSAGE m false limit = SOk rows →
  length rows = Nat.min limit (length (typed_facts ty m)).
Proof.
  intros Ht E. unfold lookup_rows in E. apply sbind_ok in E as (_ & _ & E). injection E as <-. rewrite length_take. f_equal.
  rewrite (Forall2_length _ _ _ (select_message ty m Ht)), typed_facts_eq. by rewrite length_fmap.
Qed.

Lemma head_find {A} (f : A → bool) l : head (List.filter f l) = List.find f l.
Proof. induction l as [|x l IH]; [done|]. cbn [List.filter List.find]. by destruct (f x). Qed.
Lemma row_role x en : is_row x en →
  text_of (get "role" (es_payload_json (er_shape x))) = payload_str "role" en.2.
Proof.
  intros [E _]. destruct en as [m f]. destruct (entry_values _ _ _ E) as (_ & _ & _ & _ & _ & Hpl & _).
  change (public_payload _) with (PDict (row_payload x)) in Hpl. unfold payload_str. cbn [snd]. rewrite Hpl. cbn [as_dict].
  unfold row_payload. by rewrite get_other_key.
Qed.
Lemma row_message x en : is_row x en → text_of (get "message_id" (stored_metadata x)) = Some en.1.
Proof.
  intros [E _]. destruct en as [m f]. destruct (entry_values _ _ _ E) as (meta & Hm & Hmi & _). unfold stored_metadata. rewrite Hm.
  cbn [default from_option]. unfold Datatypes.id. by rewrite Hmi.
Qed.

(** The first delta and the last classification, as entries. *)
Lemma first_owner_head p : first_owner p M = fst <$> head (List.filter (fun en => bool_decide (fact_part "message.part.delta" en.2 = Some p)) M).
Proof. unfold first_owner. by rewrite head_find. Qed.
Lemma last_class_last p :
  last_class p M = (fun en : entry => (en.1, payload_str "role" en.2)) <$>
    last (List.filter (fun en => bool_decide (fact_part "message.part.classified" en.2 = Some p)) M).
Proof.
  unfold last_class. rewrite <- fmap_last. f_equal. clear. induction M as [|en M' IH]; [done|]. cbn [omap list_omap List.filter].
  destruct (bool_decide _); [cbn [fmap list_fmap]; f_equal|]; exact IH.
Qed.
Lemma rows_last R k : Forall2 is_row R k → Forall2 is_row (take 1 (rev R)) (match last k with Some en => [en] | None => [] end).
Proof.
  intros HF. destruct R as [|x R _] using rev_ind; [inversion HF; constructor|].
  apply Forall2_app_inv_l in HF as (k1 & k2 & _ & HF & ->). inversion HF as [|? en ? ? Hx HF']; subst. inversion HF'; subst.
  rewrite last_snoc, rev_app_distr. cbn [rev app take]. rewrite take_0. by constructor; [|constructor].
Qed.
Lemma rows_first R k : Forall2 is_row R k → Forall2 is_row (take 1 R) (match head k with Some en => [en] | None => [] end).
Proof. intros [|x en R' k' Hx HF]; cbn [take head]; rewrite ?take_0; [constructor|by constructor; [|constructor]]. Qed.

Lemma one_row R en : Forall2 is_row R [en] → ∃ x, R = [x] ∧ is_row x en.
Proof. intros HF. inversion HF as [|x ? ? ? Hx HF']; subst. inversion HF'; subst. eauto. Qed.
Lemma lookup_part ty p latest rows :
  is_part_type ty = true → lookup_rows jt t r a g ty BY_PART p latest 1 = SOk rows →
  Forall2 is_row rows (match (if latest then last else head) (List.filter (fun en => bool_decide (fact_part ty en.2 = Some p)) M) with
                       | Some en => [en] | None => [] end).
Proof.
  intros Ht E. unfold lookup_rows in E. apply sbind_ok in E as (? & _ & E). pose proof (select_part ty p Ht) as HF. injection E as <-.
  destruct latest; [by apply rows_last|by apply rows_first].
Qed.

(** The state a part is loaded with is the one the facts say. *)
Lemma load_part_state p st : load_part jt t r a g p = SOk st → st = state_of p M ∧ consistent p M.
Proof.
  unfold load_part. intros E. apply sbind_ok in E as (first & E1%lookup_part & E); [|done].
  apply sbind_ok in E as (cls & E2%lookup_part & E); [|done]. unfold state_of, consistent. rewrite first_owner_head, last_class_last.
  destruct (head _) as [en1|]; [apply one_row in E1 as (x1 & -> & R1)|inversion E1; subst];
  (destruct (last _) as [en2|]; [apply one_row in E2 as (x2 & -> & R2)|inversion E2; subst]); cbn beta iota zeta in E; cbn [fmap option_fmap option_map].
  - rewrite (row_message _ _ R1), (row_message _ _ R2) in E. destruct (bool_decide_reflect (Some en2.1 = Some en1.1)) as [Em|]; [|done].
    injection E as <-. split; [f_equal; by eapply row_role|]. intros m rr [= <- _]. congruence.
  - rewrite (row_message _ _ R1) in E. by injection E as <-.
  - done.
  - by injection E as <-.
Qed.

End Lookups.

End Append.
