(* ===== verification/PartAccept.v ===== *)
(** * Accepted batches keep the ledger sound

    A batch of new answer facts is checked with a few indexed lookups before it is appended
    ([validate_assistant_part_append] of [StreamRows]); the whole ledger is read only when
    a message completes.  The theorem of this file is that the lookups are enough: a batch
    that is accepted leaves a ledger the whole scan accepts. *)
From stdpp Require Import base gmap list strings sorting.
From Stdlib Require Import ZArith Lia Ascii.
From S2P Require Import Prelude Redis PyValue Numerals QueueFacts QueueRuntime RunAttempt TextParts TextPartsFacts PartLedger PartRenumber StreamCursors StreamProtocol StreamEvents StreamEventsFacts CanonicalJson StreamAuthority EventLedger EventLedgerFacts StreamRows StreamRowsFacts PartScan PartAppend.
#[local] Open Scope py_scope.

Section Accept.
Context `{PyRuntime} `{StreamRuntime} `{!DigestLaws}.
Context (jt : pyval → option string) (t r : string) (a : stream_authority).

Lemma entries_determined l M M' :
  Forall2 (fun x en => entry_of a (stored_row x) = SOk en) l M → Forall2 (fun x en => entry_of a (stored_row x) = SOk en) l M' → M = M'.
Proof.
  intros HF. revert M'. induction HF as [|x en l M E _ IH]; intros M' HF'; [by apply Forall2_nil_inv_l in HF'|].
  apply Forall2_cons_inv_l in HF' as (en' & k' & E' & HF' & ->). rewrite E in E'. injection E' as <-. f_equal. by apply IH.
Qed.
#[local] Instance PStr_inj : Inj eq eq PStr.
Proof. by intros x y [= ->]. Qed.

(** ** The messages of a batch *)

Lemma Forall2_with_l {A B} (R : A → B → Prop) (Q : A → Prop) l k : Forall2 R l k → Forall Q l → Forall2 (fun x y => R x y ∧ Q x) l k.
Proof. induction 1 as [|x y l k Hxy _ IH]; intros Hq; [constructor|]. inversion Hq; subst. constructor; [done|by apply IH]. Qed.

(** An event of the batch with its entry and its message in the table of identities. *)
Definition tabled (ids : list (string * string)) (ie : string * ledger_event) (en : entry) : Prop :=
  stands_for ie en ∧ assoc ie.1 ids = Some en.1.

Lemma message_ids_spec F N ids :
  NoDup F.*1 → Forall2 stands_for F N → event_message_ids F = SOk ids → Forall2 (tabled ids) F N ∧ map snd ids = N.*1.
Proof.
  intros Hd HF. revert ids Hd. induction HF as [|[id e] en F N Hse _ IH]; intros ids Hd E; cbn [event_message_ids] in E.
  { injection E as <-. by split; [constructor|]. }
  destruct (sf_meta _ _ Hse) as (meta & Hm & Hmi & _). cbn [snd] in Hm. rewrite Hm, Hmi in E.
  apply sbind_ok in E as (m & Hv & E). apply v4_safe_ref_value in Hv as [[= <-] _]. apply sbind_ok in E as (rest & E1 & E). injection E as <-.
  cbn [fmap list_fmap fst] in Hd. apply NoDup_cons in Hd as [Hni Hd]. destruct (IH _ Hd E1) as [HFr Hs]. split; [|cbn; by f_equal].
  constructor; [split; [done|]; cbn; by rewrite String.eqb_refl|].
  eapply Forall2_impl; [apply (Forall2_with_l _ (fun ie => ie.1 ≠ id) _ _ HFr)|].
  - apply Forall_forall. intros ie Hin <-. apply Hni. by apply (list_elem_of_fmap_2 fst).
  - intros ie en' [[T1 T2] Hne]. split; [done|]. cbn [assoc]. by rewrite (proj2 (String.eqb_neq _ _) (not_eq_sym Hne)).
Qed.

Lemma actions_of F N ids m :
  Forall2 (tabled ids) F N →
  Forall2 (tabled ids) (List.filter (fun ie => bool_decide (assoc ie.1 ids = Some m)) F) (List.filter (fun en => String.eqb en.1 m) N).
Proof.
  apply Forall2_filter. intros ie en [_ E]. rewrite E. destruct (String.eqb_spec en.1 m) as [->|Hne]; [by apply bool_decide_eq_true_2|].
  apply bool_decide_eq_false_2. congruence.
Qed.

Definition calm (en : entry) : Prop := well_formed en ∧ fact_type en.2 ≠ "message.completed".
Lemma calm_part en : calm en → fact_type en.2 ≠ "message.started" → fact_type en.2 ≠ "message.delta" → is_part_type (fact_type en.2) = true.
Proof.
  intros [Hw Hc] Hs Hd. pose proof (wf_known _ Hw) as Hk. apply str_in_elem in Hk. unfold ANSWER_FACT_TYPES in Hk.
  rewrite !elem_of_cons, elem_of_nil in Hk. apply part_types. naive_solver.
Qed.

(** New facts of a message that passed: a start, unless it has one, and then parts. *)
Lemma check_actions_spec ids started acts E :
  check_actions started acts = SOk tt → Forall2 (tabled ids) acts E → Forall calm E →
  (started = true → Forall (fun en => is_part_type (fact_type en.2) = true) E) ∧
  (started = false → E = [] ∨ ∃ en E', E = en :: E' ∧ fact_type en.2 = "message.started" ∧
                                       Forall (fun en => is_part_type (fact_type en.2) = true) E').
Proof.
  intros Ec HF. revert started Ec. induction HF as [|[id e] en acts E [Hse _] _ IH]; intros started Ec Hcalm.
  { split; [constructor|by left]. }
  inversion Hcalm as [|? ? Hen Hcalm']; subst. pose proof (sf_type _ _ Hse) as Ht. cbn [snd] in Ht. cbn [check_actions] in Ec. rewrite <- Ht in Ec.
  destruct (String.eqb_spec (fact_type en.2) "message.started") as [Es|Es].
  - destruct started; [done|]. split; [done|]. intros _. right. exists en, E. split_and!; [done|done|]. by apply (IH true).
  - destruct started; [|done]. cbn [negb orb] in Ec. destruct (String.eqb_spec (fact_type en.2) "message.delta") as [|Ed]; [done|].
    split; [|done]. intros _. constructor; [by apply calm_part|]. by apply (IH true).
Qed.

Lemma first_seen_in seen l x : x ∈ l → x ∉ seen → x ∈ first_seen seen l.
Proof.
  revert seen. induction l as [|y l IH]; intros seen Hin Hn; [by apply elem_of_nil in Hin|]. cbn [first_seen].
  apply elem_of_cons in Hin. destruct (str_in y seen) eqn:Ey.
  - apply str_in_elem in Ey. destruct Hin as [->|Hin]; [done|by apply IH].
  - destruct (decide (x = y)) as [->|Hne]; [by left|]. right. apply IH; [by destruct Hin|]. by intros [|]%elem_of_cons.
Qed.

Lemma match_cons {A B} (l : list A) (x y : B) : l ≠ [] → match l with [] => x | _ :: _ => y end = y.
Proof. by destruct l. Qed.
Lemma filter_keeps_all {A} (f : A → bool) l : Forall (fun x => f x = true) l → List.filter f l = l.
Proof. induction 1 as [|x l Hx _ IH]; [done|]. cbn [List.filter]. by rewrite Hx, IH. Qed.

Lemma types_of_batch (f : string → bool) F N :
  Forall2 stands_for F N → existsb (fun ie => f (le_event_type ie.2)) F = false → Forall (fun en => f (fact_type en.2) = false) N.
Proof.
  induction 1 as [|ie en F N Hse _ IH]; intros E; [constructor|]. cbn [existsb] in E. apply orb_false_iff in E as [E1 E2].
  constructor; [|by apply IH]. by rewrite (sf_type _ _ Hse).
Qed.

(** ** Ledgers without parts *)

Lemma partless_sound L : Forall well_formed L → Forall (fun en => is_part_type (fact_type en.2) = false) L → sound L.
Proof.
  intros Hw Hn. assert (∀ m f, (m, f) ∈ L → names f = None) as Hno.
  { intros m f Hin. rewrite Forall_forall in Hw, Hn. eapply not_named; [by apply Hw|exact (Hn _ Hin)]. }
  assert (sources_of L = []) as Hsrc.
  { clear -Hn. unfold sources_of. induction Hn as [|en L' He _ IH]; [done|]. cbn [omap list_omap]. unfold delta_source at 1.
    destruct (String.eqb_spec (fact_type en.2) "message.part.delta") as [E|]; [by rewrite E in He|exact IH]. }
  split; [done| |by rewrite Hsrc; split; constructor|].
  - intros m f m' f' p Hin _ Hp. by rewrite (Hno _ _ Hin) in Hp.
  - intros m (f & Hf%list_elem_of_In%facts_of_in & Hp)%existsb_exists. rewrite Forall_forall in Hn. specialize (Hn _ Hf). cbn [snd] in Hn. congruence.
Qed.

(** A classification needs a delta of its part before it. *)
Lemma reduce_without_delta i fs lg lg' :
  reduce_facts None i (typed fs) lg = Ok lg' → lg_text lg = [] → Forall (fun f => fact_type f ≠ "message.part.delta") fs →
  Forall (fun f => is_part_type (fact_type f) = false) fs.
Proof.
  revert i lg. induction fs as [|f fs IH]; intros i lg E Ht Hf; [constructor|]. inversion Hf as [|? ? Hd Hf']; subst.
  cbn [typed fmap list_fmap reduce_facts] in E. destruct (reduce_fact None i (fact_type f) f lg) as [lg1|] eqn:E1; [|done]. cbn [res_bind] in E.
  assert (fact_type f ≠ "message.part.classified" ∧ lg_text lg1 = []) as [Hc Ht1].
  { unfold reduce_fact in E1. destruct (common_checks None f lg) as [[lg2 d]|] eqn:Ec; [|done]. cbn [res_bind] in E1.
    assert (lg_text lg2 = []) as Ht2.
    { unfold common_checks in Ec. destruct (sequence_of _); [|done]. destruct (_ <=? _); [done|]. destruct (safe_ref _); [|done]. cbn [res_bind] in Ec.
      destruct (match lg_message_id lg with Some _ => _ | None => _ end); [done|]. destruct (lg_completed lg); [done|].
      destruct (as_dict _); [|done]. by injection Ec as <- _. }
    destruct (String.eqb_spec (fact_type f) "message.started") as [Hst|_].
    { destruct (_ || _); [done|]. injection E1 as <-. by rewrite Hst. }
    destruct (lg_started lg2); [|done]. cbn [negb] in E1. rewrite (proj2 (String.eqb_neq _ _) Hd) in E1.
    destruct (String.eqb_spec (fact_type f) "message.part.classified") as [Hcl|Hcl].
    { unfold reduce_classified in E1. destruct (negb _); [done|]. destruct (safe_ref _); [|done]. cbn [res_bind] in E1.
      destruct (valid_role _); [|done]. by rewrite Ht2 in E1. }
    split; [done|]. destruct (String.eqb _ _); [by injection E1 as <-|]. destruct (String.eqb _ _); by injection E1 as <-. }
  constructor; [|by eapply IH]. destruct (is_part_type (fact_type f)) eqn:Ep; [|done]. by apply part_types in Ep as [|].
Qed.
Lemma no_delta_no_parts L : sound L → Forall (fun en => fact_type en.2 ≠ "message.part.delta") L →
  Forall (fun en => is_part_type (fact_type en.2) = false) L.
Proof.
  intros Hs Hd. apply Forall_forall. intros [m f] Hin. cbn [snd]. destruct (is_part_type (fact_type f)) eqn:Ep; [|done].
  destruct (so_reduces _ Hs m) as [st E].
  { apply existsb_exists. exists f. split; [by apply list_elem_of_In, facts_of_in|done]. }
  rewrite (reduce_message_eq _ m) in E; [|apply facts_formed, Hs|intros Hn; apply facts_of_in in Hin; rewrite Hn in Hin; by apply elem_of_nil in Hin].
  destruct (_ && _); [done|]. destruct (reduce_facts None 0 (typed (facts_of m L)) TextParts.empty_ledger) as [lg|] eqn:El; [|done].
  assert (Forall (fun f => is_part_type (fact_type f) = false) (facts_of m L)) as Hall.
  { eapply reduce_without_delta; [exact El|done|]. apply Forall_forall. intros f' Hf'%facts_of_in. rewrite Forall_forall in Hd. by apply (Hd _ Hf'). }
  rewrite Forall_forall in Hall. apply facts_of_in in Hin. by rewrite (Hall _ Hin) in Ep.
Qed.

Section Batch.
Context (g : event_ledger) (M : list entry) (Hi : ledger_inv g) (HM : reads jt t r a g M) (Hs : sound M).

(** A message that goes on, read off the facts of a sound ledger. *)
Lemma first_is_start m f fs : facts_of m M = f :: fs → existsb (fun f => is_part_type (fact_type f)) (facts_of m M) = true →
  fact_type f = "message.started".
Proof.
  intros Hf Hp. destruct (so_reduces _ Hs m Hp) as [st E]. pose proof (facts_formed m _ (so_formed _ Hs)) as Hw.
  rewrite (reduce_message_eq _ m) in E by (done || by rewrite Hf). destruct (_ && _); [done|]. rewrite Hf in E.
  cbn [typed fmap list_fmap reduce_facts] in E. destruct (String.eqb_spec (fact_type f) "message.started") as [|Hne]; [done|].
  unfold reduce_fact in E. destruct (common_checks None f TextParts.empty_ledger) as [[lg1 d]|] eqn:Ec; [|done]. cbn [res_bind] in E.
  rewrite Hf in Hw. inversion Hw as [|? ? Hwf _]; subst. destruct (common_values _ _ _ _ _ Hwf Ec) as (_ & _ & _ & _ & _ & Hst & _).
  rewrite (proj2 (String.eqb_neq _ _) Hne), Hst in E. done.
Qed.

Lemma facts_open m :
  typed_facts M "message.delta" m = [] → typed_facts M "message.completed" m = [] → (length (typed_facts M "message.started" m) <= 1)%nat →
  (facts_of m M = [] ∧ typed_facts M "message.started" m = []) ∨ (∃ lg, opened m M lg) ∧ typed_facts M "message.started" m ≠ [].
Proof.
  intros Hd Hc Hst. pose proof (facts_formed m _ (so_formed _ Hs)) as Hw. unfold typed_facts in *.
  assert (Forall (fun f => fact_type f ≠ "message.completed" ∧ fact_type f ≠ "message.delta") (facts_of m M)) as Hty.
  { apply Forall_forall. intros f Hf%list_elem_of_In. split; intros Ht.
    - assert (f ∈ []) as Hn%elem_of_nil; [|done]. rewrite <- Hc. apply list_elem_of_In, filter_In. by rewrite Ht.
    - assert (f ∈ []) as Hn%elem_of_nil; [|done]. rewrite <- Hd. apply list_elem_of_In, filter_In. by rewrite Ht. }
  destruct (facts_of m M) as [|f fs] eqn:Ef; [by left|]. right.
  destruct (existsb (fun f => is_part_type (fact_type f)) (facts_of m M)) eqn:Ep.
  - pose proof (first_is_start _ _ _ Ef Ep) as Hfs. split; [|cbn [List.filter]; by rewrite Hfs].
    destruct (so_reduces _ Hs m Ep) as [st E]. rewrite (reduce_message_eq _ m) in E by (by rewrite Ef). destruct (_ && _); [done|].
    destruct (reduce_facts None 0 (typed (facts_of m M)) TextParts.empty_ledger) as [lg|] eqn:El; [|done]. exists lg.
    apply reduce_opens; [apply Hs|by rewrite Ef|done|by rewrite Ef].
  - assert (Forall (fun f => fact_type f = "message.started") (f :: fs)) as Hall.
    { apply Forall_forall. intros x Hx. rewrite Forall_forall in Hw, Hty. destruct (Hty x Hx) as [T1 T2].
      destruct (String.eqb_spec (fact_type x) "message.started") as [|T3]; [done|].
      assert (is_part_type (fact_type x) = true) as Hp by (by apply (calm_part (m, x)); [split; [by apply Hw|]| |]).
      rewrite <- not_true_iff_false in Ep. destruct Ep. rewrite Ef. apply existsb_exists. exists x. split; [by apply list_elem_of_In|done]. }
    inversion Hall as [|? ? Hf Hfs]; subst. cbn [List.filter] in *. rewrite Hf in *. cbn [String.eqb Ascii.eqb Bool.eqb] in *.
    split; [|done]. destruct fs as [|f' fs]; [by eapply only_start_opens; [apply Hs|exact Ef|]|]. inversion Hfs as [|? ? Hf' _]; subst.
    cbn [List.filter] in Hst. rewrite Hf' in Hst. cbn in Hst. lia.
Qed.

Lemma fact_of_nil {A} m (N : list (string * A)) : List.filter (fun en => String.eqb en.1 m) N = [] ↔ m ∉ N.*1.
Proof.
  induction N as [|[m' f] N IH]; [by split; [intros _ ?%elem_of_nil|]|]. cbn [List.filter fst fmap list_fmap].
  destruct (String.eqb_spec m' m) as [->|Hne].
  - split; [done|]. intros Hn. destruct Hn. by left.
  - rewrite IH. split; [intros Hn [->|?]%elem_of_cons; done|]. intros Hn Hin. apply Hn. by right.
Qed.

(** A message whose check passed may act as its new facts do. *)
Lemma check_message_acts F N ids m :
  Forall2 (tabled ids) F N → Forall calm N → check_message jt t r a g ids F m = SOk tt → may_act m M N.
Proof.
  intros HF Hcalm E. unfold check_message in E. apply sbind_ok in E as (starts & E1 & E).
  apply sbind_ok in E as (completed & E2 & E). apply sbind_ok in E as (legacy & E3 & E).
  apply (lookup_message jt t r a g M HM Hs) in E1, E2, E3; try done.
  destruct (Nat.ltb 1 (length starts) || match legacy with [] => false | _ => true end) eqn:Ev; [done|].
  apply orb_false_iff in Ev as [Ev%Nat.ltb_ge El]. destruct legacy; [|done]. clear El.
  pose proof (actions_of _ _ _ m HF) as HA. destruct (decide (List.filter (fun en => String.eqb en.1 m) N = [])) as [Hn|Hn].
  { left. unfold facts_of. by rewrite Hn. }
  assert (facts_of m N = (List.filter (fun en => String.eqb en.1 m) N).*2) as HfN by done.
  assert (Forall calm (List.filter (fun en => String.eqb en.1 m) N)) as HcE.
  { apply Forall_forall. intros x Hx%list_elem_of_In. apply filter_In in Hx as [Hx%list_elem_of_In _]. rewrite Forall_forall in Hcalm. by apply Hcalm. }
  assert (completed = [] ∧ check_actions (match starts with [] => false | _ => true end)
            (List.filter (fun ie => bool_decide (assoc ie.1 ids = Some m)) F) = SOk tt) as [-> Ec].
  { destruct (List.filter (fun ie => bool_decide (assoc ie.1 ids = Some m)) F); [by apply Forall2_nil_inv_l in HA|]. by destruct completed. }
  destruct (check_actions_spec _ _ _ _ Ec HA HcE) as [K1 K2].
  cbn [length] in E2, E3. destruct (facts_open m) as [[HnM Hst]|[Ho Hst]].
  - apply nil_length_inv. lia.
  - apply nil_length_inv. lia.
  - lia.
  - rewrite Hst in E1. destruct starts; [|done]. destruct (K2 eq_refl) as [HE|(en & E2' & HE & Hen & Hps)].
    + left. by rewrite HfN, HE.
    + right; left. split; [done|]. exists en.2, E2'.*2. rewrite HfN, HE. split_and!; [done|done|]. by apply Forall_fmap.
  - right; right. split; [done|]. destruct starts as [|x starts]; [|rewrite HfN; apply Forall_fmap; by apply K1].
    cbn in E1. destruct (typed_facts M "message.started" m); [done|]. cbn in E1. lia.
Qed.
Lemma check_messages_all ids F ms : check_messages jt t r a g ids F ms = SOk tt → ∀ m, m ∈ ms → check_message jt t r a g ids F m = SOk tt.
Proof.
  induction ms as [|m ms IH]; [by intros _ ? ?%elem_of_nil|]. cbn [check_messages]. intros ([] & E1 & E)%sbind_ok m' [->|Hin]%elem_of_cons; [done|].
  by apply IH.
Qed.

(** ** The parts of a batch *)

(** What is kept of the facts checked so far: the state of every part that was named, and
    the sources of the deltas. *)
Record seen_inv (N : list entry) (seen : parts_seen) : Prop := {
  sv_known : ∀ q st, assoc q seen.1 = Some st → st = state_of q (M ++ N) ∧ consistent q (M ++ N);
  sv_fresh : ∀ q, assoc q seen.1 = None → state_of q (M ++ N) = state_of q M ∧ (consistent q M → consistent q (M ++ N));
  sv_sources : PStr <$> seen.2.*1 = sources_of N;
  sv_distinct : NoDup seen.2.*1
}.

Lemma seen_part N seen p states st :
  seen_inv N seen →
  match assoc p seen.1 with
  | Some state => SOk (seen.1, state)
  | None => do! state := load_part jt t r a g p in SOk (assoc_set p state seen.1, state)
  end = SOk (states, st) →
  st = state_of p (M ++ N) ∧ consistent p (M ++ N) ∧ ∀ q, q ≠ p → assoc q states = assoc q seen.1.
Proof.
  intros Hv E. destruct (assoc p seen.1) as [st0|] eqn:Ep.
  - injection E as <- <-. destruct (sv_known _ _ Hv _ _ Ep). done.
  - apply sbind_ok in E as (st0 & El & E). injection E as <- <-. apply (load_part_state jt t r a g M HM Hs) in El as [-> Hc].
    destruct (sv_fresh _ _ Hv _ Ep) as [Hst Hcc]. split_and!; [done|by apply Hcc|]. intros q Hne. by rewrite assoc_set_ne.
Qed.

Lemma other_part q N en :
  well_formed en → (∀ p, names en.2 = Some p → q ≠ p) →
  state_of q (M ++ N ++ [en]) = state_of q (M ++ N) ∧ (consistent q (M ++ N) → consistent q (M ++ N ++ [en])).
Proof.
  intros Hw Hne. destruct en as [m f]. cbn [snd] in *. rewrite app_assoc. destruct (names f) as [p|] eqn:En.
  - apply (other_state _ _ _ p); [done|by left|by apply Hne].
  - apply (other_state _ _ _ (if decide (q = "") then "x" else "")); [done| |by destruct (decide (q = ""%string)); subst].
    right. destruct (is_part_type (fact_type f)) eqn:Et; [|done]. exfalso. destruct (wf_payload _ Hw) as (d & Hd & Hp). cbn [snd] in *.
    destruct (Hp Et) as [p Hpd]. assert (names f = Some p); [|congruence]. apply (names_payload m f p Hw). by rewrite Hd.
Qed.

(** A fact that is not about a part. *)
Lemma seen_other N en seen : well_formed en → is_part_type (fact_type en.2) = false → seen_inv N seen → seen_inv (N ++ [en]) seen.
Proof.
  intros Hw Ht Hv. assert (names en.2 = None) as Hn by (destruct en; by eapply not_named).
  assert (delta_source en.2 = None) as Hd.
  { unfold delta_source. destruct (String.eqb_spec (fact_type en.2) "message.part.delta") as [E|]; [by rewrite E in Ht|done]. }
  split.
  - intros q st E. destruct (other_part q N en Hw) as [-> Hc]; [by rewrite Hn|]. destruct (sv_known _ _ Hv _ _ E) as [-> ?]. auto.
  - intros q E. destruct (other_part q N en Hw) as [-> Hc]; [by rewrite Hn|]. destruct (sv_fresh _ _ Hv _ E) as [-> ?]. auto.
  - rewrite sources_snoc, Hd, app_nil_r. apply Hv.
  - apply Hv.
Qed.

(** The check of one fact of a part. *)
Lemma check_part_accepts ids N seen seen' id e en :
  seen_inv N seen → tabled ids (id, e) en → well_formed en → is_part_type (fact_type en.2) = true →
  check_part jt t r a g ids [] id e seen = SOk seen' →
  (∃ p st', accepted (M ++ N) en.1 en.2 p st') ∧ seen_inv (N ++ [en]) seen' ∧ (seen'.2 = seen.2 ∨ ∃ s, seen'.2 = seen.2 ++ [(s, id)]).
Proof.
  intros Hv [Hse Hid] Hw Ht E. destruct (sf_meta _ _ Hse) as (meta & Hm & _ & Hsrc & _). cbn [fst snd] in *.
  pose proof (sf_payload _ _ Hse) as Hpl. pose proof (sf_type _ _ Hse) as Hty. cbn [snd] in Hpl, Hty.
  unfold check_part in E. destruct seen as [states sources] eqn:Eseen. rewrite Hm, Hid, <- Hty in E. cbn [default from_option] in E. unfold Datatypes.id in E.
  rewrite <- Hsrc in E. set (payload := List.filter _ (le_payload e)) in *.
  apply sbind_ok in E as (p & Hp & E). apply v4_safe_ref_value in Hp as [Hp _]. apply sbind_ok in E as ([states1 st] & Est & E).
  apply (seen_part N (states, sources)) in Est as (-> & Hc & Hst); [|done]. cbn [fst] in Hst.
  apply sbind_ok in E as (sources1 & Eso & E). cbn [assoc] in E.
  destruct (apply_assistant_text_part_append_fact _ _ _ _ _) as [[p' st']|] eqn:Ea; [|done]. injection E as <-.
  assert (p' = p) as -> by (destruct (apply_values _ _ _ _ _ _ _ Ea) as (_ & Hp' & _); congruence).
  rewrite <- Hpl in Ea. assert (accepted (M ++ N) en.1 en.2 p st') as Hacc by done. destruct en as [m f]. cbn [fst snd] in *.
  destruct (accepted_state _ _ _ _ _ Hw Hacc) as (Hst' & Hc' & Hn & _ & _). rewrite <- app_assoc in Hst', Hc'.
  assert (∀ q, q ≠ p → ∀ p0, names f = Some p0 → q ≠ p0) as Hq by (intros q Hne p0; congruence).
  assert (NoDup sources1.*1 ∧ PStr <$> sources1.*1 = sources_of (N ++ [(m, f)]) ∧ (sources1 = sources ∨ ∃ s, sources1 = sources ++ [(s, id)]))
    as (S1 & S2 & S3).
  { rewrite sources_snoc. cbn [snd]. unfold delta_source. destruct (String.eqb (fact_type f) "message.part.delta").
    - apply sbind_ok in Eso as (s & Hs' & Eso). apply v4_safe_ref_value in Hs' as [Hs' _]. rewrite Hs'.
      destruct (assoc s sources) eqn:Eas; [done|]. injection Eso as <-. rewrite assoc_set_new, fmap_app by done. cbn [fmap list_fmap fst].
      split_and!; [|rewrite fmap_app; by rewrite <- (sv_sources _ _ Hv)|by eauto]. apply NoDup_app. split; [apply (sv_distinct _ _ Hv)|]. split; [|apply NoDup_singleton].
      intros x Hx ->%list_elem_of_singleton. apply list_elem_of_fmap in Hx as ([s' i'] & -> & Hin). cbn in Eas.
      rewrite (assoc_unique s' i') in Eas; [done|apply (sv_distinct _ _ Hv)|done].
    - injection Eso as <-. rewrite app_nil_r. split_and!; [apply (sv_distinct _ _ Hv)|apply (sv_sources _ _ Hv)|by left]. }
  split; [by eauto|]. split; [|done]. split; cbn [fst snd]; [| |done|done].
  - intros q st. destruct (decide (q = p)) as [->|Hne]; [rewrite assoc_set_eq; by intros [= <-]|]. rewrite assoc_set_ne, Hst by done.
    intros Eq. destruct (other_part q N (m, f) Hw (Hq _ Hne)) as [-> Hk]. destruct (sv_known _ _ Hv _ _ Eq) as [-> ?]. auto.
  - intros q. destruct (decide (q = p)) as [->|Hne]; [by rewrite assoc_set_eq|]. rewrite assoc_set_ne, Hst by done.
    intros Eq. destruct (other_part q N (m, f) Hw (Hq _ Hne)) as [-> Hk]. destruct (sv_fresh _ _ Hv _ Eq) as [-> ?]. auto.
Qed.

Lemma check_parts_accepts ids F N2 N1 seen seen' :
  Forall2 (tabled ids) F N2 → Forall well_formed N2 → seen_inv N1 seen → check_parts jt t r a g ids [] F seen = SOk seen' →
  PartLedger.accepts (M ++ N1) N2 ∧ seen_inv (N1 ++ N2) seen' ∧ (∀ se, se ∈ seen'.2 → se ∈ seen.2 ∨ se.2 ∈ F.*1).
Proof.
  intros HF. revert N1 seen. induction HF as [|[id e] [m f] F N2 Ht _ IH]; intros N1 seen Hw Hv E; cbn [check_parts] in E.
  { injection E as <-. rewrite app_nil_r. split_and!; [done|done|by left]. }
  inversion Hw as [|? ? Hwf Hw']; subst. apply sbind_ok in E as (seen1 & E1 & E). pose proof (sf_type _ _ (proj1 Ht)) as Hty. cbn [snd] in Hty.
  rewrite <- Hty in E1. change is_part with is_part_type in E1. cbn [PartLedger.accepts].
  assert ((is_part_type (fact_type f) = true → ∃ p st', accepted (M ++ N1) m f p st') ∧ seen_inv (N1 ++ [(m, f)]) seen1 ∧
          (∀ se, se ∈ seen1.2 → se ∈ seen.2 ∨ se.2 = id)) as (A1 & A2 & A3).
  { destruct (is_part_type (fact_type f)) eqn:Ep.
    - destruct (check_part_accepts _ _ _ _ _ _ _ Hv Ht Hwf Ep E1) as (B1 & B2 & B3). split_and!; [done|done|].
      destruct B3 as [-> |[s ->]]; [by auto|]. intros se [?| ->%list_elem_of_singleton]%elem_of_app; auto.
    - injection E1 as <-. split_and!; [done|by apply seen_other|by auto]. }
  destruct (IH _ _ Hw' A2 E) as (B1 & B2 & B3). rewrite <- app_assoc in B2. split_and!; [done|by rewrite <- app_assoc|done|].
  intros se Hin. cbn [fmap list_fmap fst]. destruct (B3 se Hin) as [Hin1|?]; [|right; by right]. destruct (A3 _ Hin1) as [?| ->]; [by left|right; by left].
Qed.

(** ** The sources of a batch *)

Lemma fact_row_stored x : x ∈ fact_rows jt t r a g → x ∈ stream_rows jt t r a g ∧ x ∈ lg_events g.
Proof.
  intros Hx%list_elem_of_In. unfold fact_rows in Hx. apply filter_In in Hx as [Hx _]. split; [by apply list_elem_of_In|].
  rewrite stream_rows_eq in Hx by done. apply filter_In in Hx as [Hx _]. unfold run_rows in Hx. by apply filter_In in Hx as [Hx%list_elem_of_In _].
Qed.
Lemma source_is_taken s id : PStr s ∈ sources_of M → id ∉ er_id <$> lg_events g → source_taken jt t r a g s id = true.
Proof.
  intros (en & Hen & Hd)%list_elem_of_omap Hid. apply list_elem_of_lookup in Hen as [i Hen].
  destruct (Forall2_lookup_r _ _ _ _ _ (rows_are jt t r a g M HM Hs) Hen) as (x & Hx & Hr). apply list_elem_of_lookup_2 in Hx.
  destruct (fact_row_stored _ Hx) as [Hx1 Hx2]. unfold delta_source in Hd. destruct (String.eqb (fact_type en.2) "message.part.delta") eqn:Et; [|done].
  injection Hd as Hd. unfold source_taken. apply existsb_exists. exists x. split; [by apply list_elem_of_In|].
  rewrite (is_row_type a _ _ _ Hr), Et, (is_row_source jt a _ _ _ Hr Hd). cbn [andb]. apply negb_true_iff, String.eqb_neq. intros <-.
  apply Hid. by apply (list_elem_of_fmap_2 er_id).
Qed.

Section New.
Context (F : list (string * ledger_event)) (N : list entry) (Hd : NoDup F.*1) (Hf : ∀ id, id ∈ F.*1 → id ∉ er_id <$> lg_events g)
  (HF : Forall2 stands_for F N) (Hw : Forall well_formed N) (Hso : StronglySorted earlier (M ++ N)).

(** The lookups. *)
Lemma lookups_sound ids seen :
  Forall (fun en => fact_type en.2 ≠ "message.completed") N →
  event_message_ids F = SOk ids → check_messages jt t r a g ids F (first_seen [] (map snd ids)) = SOk tt →
  check_parts jt t r a g ids [] F ([], []) = SOk seen → existsb (fun se => source_taken jt t r a g se.1 se.2) seen.2 = false →
  sound (M ++ N).
Proof.
  intros Hc E1 E2 E3 E4. destruct (message_ids_spec _ _ _ Hd HF E1) as [HT Hids].
  destruct (check_parts_accepts ids F N [] ([], []) seen HT Hw) as (Hacc & Hv & Hse); [|done|].
  { split; cbn; rewrite ?app_nil_r; try done. constructor. }
  rewrite app_nil_r in Hacc. cbn [app] in Hv. apply accepts_sound; try done.
  - pose proof (so_sources _ Hs) as [D1 D2]. unfold good_sources, sources_of in *. rewrite omap_app. fold (sources_of M) (sources_of N) in *.
    rewrite <- (sv_sources _ _ Hv). split.
    + apply NoDup_app. split; [done|]. split; [|apply (NoDup_fmap_2 PStr), (sv_distinct _ _ Hv)].
      intros v Hv1 (s & -> & ([s' id] & -> & Hin)%list_elem_of_fmap)%list_elem_of_fmap. cbn [fst] in *.
      destruct (Hse _ Hin) as [?%elem_of_nil|Hid]; [done|]. cbn [snd] in Hid.
      rewrite <- not_true_iff_false in E4. apply E4, existsb_exists. exists (s', id). split; [by apply list_elem_of_In|].
      apply source_is_taken; [done|by apply Hf].
    + apply Forall_app. split; [done|]. apply Forall_forall. by intros v (s & -> & _)%list_elem_of_fmap.
  - intros m. destruct (decide (m ∈ N.*1)) as [Hin|Hn]; [|left; unfold facts_of; by rewrite (proj2 (fact_of_nil _ _) Hn)].
    eapply check_message_acts; [exact HT| |].
    + apply Forall_forall. intros en Hen. rewrite Forall_forall in Hw, Hc. split; auto.
    + eapply check_messages_all; [exact E2|]. rewrite Hids. apply first_seen_in; [done|by intros ?%elem_of_nil].
Qed.

(** The scan with provisional numbers. *)
Lemma add_incoming_spec known n :
  (∀ id, id ∈ F.*1 → id ∉ known) →
  Forall2 (fun ie row => ∃ k, row = built_row ie.1 t r k ie.2 "2026-01-01T00:00:00Z" ∧ n < k) F (add_incoming t r known n F) ∧
  StronglySorted (fun x y => row_sequence x < row_sequence y) (add_incoming t r known n F) ∧
  Forall (fun row => n < row_sequence row) (add_incoming t r known n F).
Proof.
  clear HF Hf. revert known n Hd. induction F as [|[id e] F' IH]; intros known n Hd' Hk; cbn [add_incoming]; [by repeat constructor|].
  cbn [fmap list_fmap fst] in *. apply NoDup_cons in Hd' as [Hni Hd']. assert (str_in id known = false) as ->.
  { apply str_in_false. apply Hk. by left. }
  destruct (IH (known ++ [id]) (n + 1)) as (B1 & B2 & B3); [done| |].
  { intros i Hin [Hik|Hii%list_elem_of_singleton]%elem_of_app; [|by subst]. by apply (Hk i); [right|]. }
  split; [|split].
  - constructor; [exists (n + 1); split; [done|lia]|]. eapply Forall2_impl; [exact B1|]. intros ie row (k & -> & Hlt). exists k. split; [done|lia].
  - constructor; [done|]. eapply Forall_impl; [exact B3|]. intros row Hr. exact Hr.
  - constructor; [cbn; lia|]. eapply Forall_impl; [exact B3|]. intros row Hr. cbn in Hr. lia.
Qed.
Lemma max_row_bound rows : Forall (fun row => row_sequence row <= max_row_sequence rows) rows.
Proof.
  destruct rows as [|x rows]; [constructor|]. cbn [max_row_sequence].
  assert (∀ l m, m <= foldl (fun m r => Z.max m (row_sequence r)) m l ∧
                 Forall (fun row => row_sequence row <= foldl (fun m r => Z.max m (row_sequence r)) m l) l) as Hb.
  { induction l as [|y l IH]; intros m; cbn [foldl]; [by split; [lia|constructor]|]. destruct (IH (Z.max m (row_sequence y))) as [B1 B2].
    split; [lia|]. constructor; [lia|done]. }
  destruct (Hb rows (row_sequence x)). by constructor.
Qed.

Lemma full_scan_sound : validate_assistant_part_append_full jt t r a g F [] = SOk tt → Forall (fun ie => is_fact ie.2 = true) F → sound (M ++ N).
Proof.
  intros E Hfact. unfold validate_assistant_part_append_full in E. cbn [map add_known] in E. rewrite app_nil_r in E.
  set (stored := map stored_row (fact_rows jt t r a g)) in *. set (new := add_incoming t r _ _ F) in *.
  destruct (add_incoming_spec (map row_id stored) (max_row_sequence stored)) as (B1 & B2 & B3).
  { intros id Hin (row & -> & (x & -> & Hx)%list_elem_of_fmap)%list_elem_of_fmap. apply (Hf _ Hin).
    apply (list_elem_of_fmap_2 er_id). by apply fact_row_stored. }
  fold new in B1, B2, B3. rewrite sort_v4_sorted in E.
  2: { apply StronglySorted_app_2; [|eapply (map_sorted row_order); [|by apply facts_sorted]; done|done].
       intros x1 x2 Hx1 Hx2. pose proof (max_row_bound stored) as Hb. rewrite Forall_forall in Hb, B3. specialize (Hb _ Hx1). specialize (B3 _ Hx2). lia. }
  apply scan_sound in E as (M0 & HE & Hs0).
  2: { apply Forall_app. split; [apply fact_types_of|]. clear -B1 Hfact. clearbody new. induction B1 as [|ie row F' rows (k & -> & _) _ IH]; [constructor|].
       inversion Hfact; subst. constructor; [done|by apply IH]. }
  apply Forall2_app_inv_l in HE as (M1 & N0 & HE1 & HE2 & ->). assert (M1 = M) as ->.
  { apply (reads_map jt t r a) in HE1. by eapply entries_determined. }
  eapply (sound_renumber _ (M ++ N0)); [|apply Forall_app; split; [apply Hs|done]|done|done].
  apply Forall2_app; [by apply Forall_Forall2_diag, Forall_true|].
  clear -B1 HE2 HF. clearbody new. revert N HF N0 HE2. induction B1 as [|ie row F' rows (k & -> & _) _ IH]; intros N HF N0 HE2.
  - apply Forall2_nil_inv_l in HE2 as ->. by apply Forall2_nil_inv_l in HF as ->.
  - apply Forall2_cons_inv_l in HE2 as (en0 & N0' & E0 & HE2 & ->). apply Forall2_cons_inv_l in HF as (en & N' & E & HF & ->).
    constructor; [|by apply IH]. eapply stands_for_same; [exact E|]. by eapply built_stands_for.
Qed.

(** Neither the batch nor the stream has parts. *)
Lemma no_parts_sound :
  existsb (of_type "message.part.delta") (stream_rows jt t r a g) = false →
  existsb (fun ie => is_part (le_event_type ie.2)) F = false → sound (M ++ N).
Proof.
  intros E1 E2. assert (Forall (fun en => is_part_type (fact_type en.2) = false) (M ++ N)) as Hn.
  { apply Forall_app. split.
    - apply (no_delta_no_parts _ Hs). apply Forall_forall. intros en Hen Ht. apply list_elem_of_lookup in Hen as [i Hen].
      destruct (Forall2_lookup_r _ _ _ _ _ (rows_are jt t r a g M HM Hs) Hen) as (x & Hx & Hr). apply list_elem_of_lookup_2 in Hx.
      rewrite <- not_true_iff_false in E1. apply E1, existsb_exists. exists x. split; [by apply list_elem_of_In, fact_row_stored|].
      by rewrite (is_row_type a _ _ _ Hr), Ht.
    - eapply (types_of_batch is_part); [exact HF|done]. }
  apply partless_sound; [|done]. apply Forall_app. split; [apply Hs|done].
Qed.

(** The check of a batch, whichever way it goes. *)
Lemma checked_sound :
  F ≠ [] → Forall (fun ie => is_fact ie.2 = true) F → validate_assistant_part_append jt t r a g F [] = SOk tt → sound (M ++ N).
Proof.
  intros Hne Hfact E. unfold validate_assistant_part_append in E.
  assert (List.filter (fun ie => is_fact ie.2) F = F) as Hff by by apply filter_keeps_all.
  rewrite Hff, dict_of_distinct in E by done. cbn [app] in E.
  assert (List.filter (fun ie => match assoc ie.1 ([] : list (string * v4_row)) with Some _ => false | None => true end) F = F) as Hnew.
  { apply filter_keeps_all. by apply Forall_true. }
  rewrite Hnew in E. rewrite !(match_cons F) in E by done. cbn [orb] in E.
  destruct (negb (existsb (fun ie => is_part (le_event_type ie.2)) F) && negb (existsb (of_type "message.part.delta") (stream_rows jt t r a g))) eqn:E0.
  { apply andb_true_iff in E0 as [E0%negb_true_iff E1%negb_true_iff]. by apply no_parts_sound. }
  destruct (negb (existsb (fun ie => is_part (le_event_type ie.2)) F) || existsb (fun ie => String.eqb (le_event_type ie.2) "message.completed") F) eqn:E1.
  { by apply full_scan_sound. }
  apply orb_false_iff in E1 as [_ E1]. apply sbind_ok in E as (ids & A1 & E). apply sbind_ok in E as ([] & A2 & E).
  apply sbind_ok in E as (seen & A3 & E). destruct (existsb (fun se => source_taken jt t r a g se.1 se.2) seen.2) eqn:A4; [done|].
  eapply lookups_sound; try done. eapply Forall_impl; [eapply (types_of_batch (fun ty => String.eqb ty "message.completed")); [exact HF|exact E1]|].
  cbn beta. intros en He%String.eqb_neq. exact He.
Qed.

End New.
End Batch.

Lemma prepared_for_stream att batch items lease P :
  prepare_callback_rows t r att batch a lease items = SOk P → Forall (fun i => ∀ s, ci_trace_ref i = Some s → TRACE_REF_PATTERN s = true) items →
  Forall (for_stream t r a) P.
Proof.
  revert P. induction items as [|i items IH]; intros P E Htr; cbn [prepare_callback_rows] in E; [injection E as <-; constructor|].
  inversion Htr as [|? ? Hi Htr']; subst. destruct (match ci_source_run_id i with Some _ => _ | None => _ end); [done|].
  apply sbind_ok in E as ([id e] & Er & E). apply sbind_ok in E as (rows & E1 & E). injection E as <-. constructor; [|by apply IH].
  destruct (prepare_spec _ _ _ _ _ _ _ _ _ _ _ _ _ _ _ _ _ _ Er) as (d & _ & _ & _ & _ & -> & _ & _ & _ & Ee & _).
  do 11 eexists. cbn [snd]. split_and!; [rewrite Ee in Er |- *; exact Er|exact I|exact Hi].
Qed.

Lemma validate_facts g P :
  validate_assistant_part_append jt t r a g (List.filter (fun ie => is_fact ie.2) P) [] = validate_assistant_part_append jt t r a g P [].
Proof. unfold validate_assistant_part_append. by rewrite filter_filter. Qed.

Lemma reads_sorted g M : ledger_inv g → reads jt t r a g M → StronglySorted earlier M.
Proof.
  intros Hi HM. pose proof (facts_sorted jt t r a g Hi) as Hs. unfold reads in HM. revert Hs. induction HM as [|x en l M E HM IH]; intros Hs; [constructor|].
  inversion Hs as [|? ? Hs' Hx]; subst. constructor; [by apply IH|]. apply Forall_forall. intros en' Hen. apply list_elem_of_lookup in Hen as [i Hen].
  destruct (Forall2_lookup_r _ _ _ _ _ HM Hen) as (y & Hy%list_elem_of_lookup_2 & E'). rewrite Forall_forall in Hx. specialize (Hx _ Hy).
  destruct en as [m f], en' as [m' f']. destruct (entry_values a _ _ _ E) as (_ & _ & _ & _ & _ & _ & _ & _ & _ & Hq).
  destruct (entry_values a _ _ _ E') as (_ & _ & _ & _ & _ & _ & _ & _ & _ & Hq'). unfold earlier. cbn [snd]. rewrite Hq, Hq'. exact Hx.
Qed.

(** C34.  The indexed lookups are enough.  If the scan of the whole ledger accepts the answer
    facts of a stream (parts follow the start of their message, belong to one message, every
    delta has its own source, a completed message adds up) and a batch of callback items with
    new identities is appended, then the scan accepts the ledger after the append, although
    the append itself reads the whole ledger only when a message completes and otherwise
    looks up the messages, the parts and the sources the batch names.  The condition on the
    items is that a trace reference has at most the 128 characters of an envelope; the code
    takes up to 256, and with a longer one the conclusion fails
    ([long_trace_breaks_the_scan]).  The names of the authority have the form admission
    gives them, and the clock shows a time the validator reads. *)
Theorem accepted_batches_stay_sound now fresh att batch items lease P g g' rows :
  rtc ledger_step empty_ledger g → publishing a → readable_time now →
  Forall (fun i => ∀ s, ci_trace_ref i = Some s → TRACE_REF_PATTERN s = true) items →
  prepare_callback_rows t r att batch a lease items = SOk P → NoDup P.*1 → (∀ id, id ∈ P.*1 → id ∉ er_id <$> lg_events g) →
  validate_assistant_part_append_full jt t r a g [] [] = SOk tt →
  append_callback_v4_rows jt now fresh t r att batch items a lease g = SOk (g', rows) →
  validate_assistant_part_append_full jt t r a g' [] [] = SOk tt.
Proof.
  intros Hi%reachable_ledger Ha Hnow Htr Ep Hd Hf Hfull E. unfold append_callback_v4_rows in E. rewrite Ep in E. cbn [sbind] in E.
  pose proof (prepared_for_stream _ _ _ _ _ Ep Htr) as HP. destruct (append_fresh jt t r a _ _ _ _ _ _ Hi Hd Hf E) as (Hv & Hev & Hi').
  apply full_sound in Hfull as (M & HM & Hs); [|done]. apply full_sound; [done|].
  set (n := Z.of_nat (length (run_rows t r (lg_events g))) + 1) in *.
  destruct (batch_entries t r a Ha now Hnow n P) as (N & B1 & B2 & _ & _ & B5); [lia|done|].
  assert (reads jt t r a g' (M ++ N)) as HM'.
  { unfold reads. rewrite (facts_after jt t r a Ha now Hnow g g' P) by done. by apply Forall2_app. }
  exists (M ++ N). split; [done|]. set (F := List.filter (fun ie => is_fact ie.2) P) in *. destruct (decide (F = [])) as [HF|HF].
  - rewrite HF in B2. apply Forall2_nil_inv_l in B2 as ->. by rewrite app_nil_r.
  - eapply (checked_sound g M Hi HM Hs F N); try done.
    + by apply filter_keys_distinct.
    + intros id (ie & -> & Hin%list_elem_of_In)%list_elem_of_fmap. apply filter_In in Hin as [Hin%list_elem_of_In _]. apply Hf.
      by apply (list_elem_of_fmap_2 fst).
    + by eapply reads_sorted.
    + apply Forall_forall. intros ie Hin%list_elem_of_In. by apply filter_In in Hin as [_ Hin].
    + unfold F. by rewrite validate_facts.
Qed.

End Accept.

(** ** A message of parts in two batches *)

Definition first_items : list callback_item :=
  [sample_item 0 "message.started" [] None None; sample_item 1 "message.part.delta" (part_of "part_1" "Hello ") None (Some "src_1")].
Definition second_items : list callback_item :=
  [sample_item 0 "message.part.delta" (part_of "part_1" "world") None (Some "src_2");
   sample_item 1 "message.part.classified" (part_role "part_1" "answer") None None].
Definition append_parts (batch : string) (items : list callback_item) (g : event_ledger) : sres (event_ledger * list v4_row) :=
  @append_callback_v4_rows toy_py toy_stream (fun _ => None) 1735689600000000 "0a" "t" "run_7" "att_1" batch items sample_authority "lease_1" g.
Definition first_batch : event_ledger * list v4_row := result_or (empty_ledger, []) (append_parts "cb_1" first_items empty_ledger).
Definition second_batch : event_ledger * list v4_row := result_or (empty_ledger, []) (append_parts "cb_2" second_items first_batch.1).
Definition second_rows : list (string * ledger_event) :=
  match @prepare_callback_rows toy_py toy_stream "t" "run_7" "att_1" "cb_2" sample_authority "lease_1" second_items with
  | SOk rows => rows
  | SErr _ => []
  end.

Lemma first_batch_reached : rtc (@ledger_step toy_py toy_stream) empty_ledger first_batch.1.
Proof.
  assert (append_parts "cb_1" first_items empty_ledger = SOk first_batch) as E by (vm_compute; reflexivity).
  unfold append_parts, append_callback_v4_rows in E. apply sbind_ok in E as (P & _ & E). destruct first_batch as [g rows] eqn:Eg.
  destruct (append_prepared_spec _ _ _ _ _ _ _ _ _ _ empty_inv E) as (_ & _ & _ & _ & Hr & _). exact Hr.
Qed.

(** The same source twice, or a part of another message, is refused. *)
Example reused_source :
  append_parts "cb_2" [sample_item 0 "message.part.delta" (part_of "part_1" "again") None (Some "src_1")] first_batch.1 = part_error.
Proof. vm_compute. reflexivity. Qed.

(** A longer trace reference is accepted, and the scan then rejects the ledger. *)
Lemma long_trace_breaks_the_scan :
  let items := [V4CallbackItem 0 0 "message.started" [] (Some "msg4_a") (Some long_trace) None None None] in
  ∃ g rows, append_parts "cb_1" items empty_ledger = SOk (g, rows) ∧
    @validate_assistant_part_append_full toy_py toy_stream (fun _ => None) "t" "run_7" sample_authority g [] [] = part_error.
Proof. do 2 eexists. split; [vm_compute; reflexivity|]. vm_compute. reflexivity. Qed.

Lemma accepted_batches_stay_sound_witness :
  length (lg_events second_batch.1) = 4%nat ∧
  @validate_assistant_part_append_full toy_py toy_stream (fun _ => None) "t" "run_7" sample_authority second_batch.1 [] [] = SOk tt.
Proof.
  split; [vm_compute; reflexivity|].
  apply (@accepted_batches_stay_sound toy_py toy_stream toy_digest_laws (fun _ => None) "t" "run_7" sample_authority 1735689600000000 "0a" "att_1"
    "cb_2" second_items "lease_1" second_rows first_batch.1 second_batch.1 second_batch.2).
  - exact first_batch_reached.
  - split; vm_compute; done.
  - split; vm_compute; done.
  - repeat constructor; done.
  - vm_compute. reflexivity.
  - apply (bool_decide_unpack _). vm_compute. exact I.
  - intros id Hin. assert (forallb (fun i => negb (str_in i (er_id <$> lg_events first_batch.1))) second_rows.*1 = true) as Hb by (vm_compute; reflexivity).
    rewrite forallb_forall in Hb. apply list_elem_of_In in Hin. specialize (Hb _ Hin). by apply negb_true_iff, str_in_false in Hb.
  - vm_compute. reflexivity.
  - vm_compute. reflexivity.
Defined.
