(* ===== verification/StreamCallbacks.v ===== *)
(** * Callback items

    [src/app/streaming/application/callback_events_v4.py]: how the items of an executor's
    callback become the items a worker records ([StreamRows.append_callback_v4_rows]).  The
    mapper takes the lifecycle of an executor only; facts of the run, artifacts and policy
    belong to the platform.  A summary of the model's thinking is cut into deltas.

    - [sanitizer] is the caller's; what it returns may be anything.
    - Text is UTF-8: slices count the bytes that do not continue a code point. *)
From stdpp Require Import base gmap list strings.
From Stdlib Require Import ZArith Lia Ascii.
From S2P Require Import Prelude Redis PyValue Numerals QueueRuntime RunAttempt TextParts StreamCursors StreamProtocol StreamEvents StreamEventsFacts CanonicalJson StreamAuthority EventLedger EventLedgerFacts StreamRows StreamRowsFacts PartAppend.
#[local] Open Scope py_scope.

(** [s[:n]] and [s[n:]]. *)
Fixpoint take_points (n : nat) (s : string) : string :=
  match s with
  | EmptyString => EmptyString
  | String c s' =>
      if utf8_continuation c then String c (take_points n s')
      else match n with O => EmptyString | S n => String c (take_points n s') end
  end.
Fixpoint drop_points (n : nat) (s : string) : string :=
  match s with
  | EmptyString => EmptyString
  | String c s' => if utf8_continuation c then drop_points n s' else match n with O => s | S n => drop_points n s' end
  end.
(** [s[offset:offset + n] for offset in range(0, len(s), n)]. *)
Fixpoint point_chunks (fuel n : nat) (s : string) : list string :=
  match fuel with
  | O => []
  | S fuel => if str_truthy s then take_points n s :: point_chunks fuel n (drop_points n s) else []
  end.

(** [except V4ProjectionError]. *)
Definition or_refused {A B} (m : sres A) (refused : B) (k : A → sres B) : sres B :=
  match m with SOk a => k a | SErr (V4ProjectionError _) => SOk refused | SErr e => SErr e end.
(** A value looked up in a set must be hashable. *)
Definition hashable (v : pyval) : sres unit :=
  match v with PList _ | PDict _ => SErr (PyTypeError "unhashable type") | _ => SOk tt end.
(** A reference that may be missing. *)
Definition item_ref (v : pyval) (name : string) : sres (option string) :=
  match v with PNone => SOk None | v => do! s := v4_safe_ref v name in SOk (Some s) end.

Section Callbacks.
Context `{PyRuntime} `{StreamRuntime}.

Definition callback_item_to_v4 (item : dict) (callback_index batch_index : Z) (message_id : option string)
    : sres (option callback_item) :=
  do! _ := hashable (get "event_type" item) in
  match get "event_type" item, get "payload" item with
  | PStr event_type, PDict payload =>
      if negb (str_in event_type CALLBACK_EVENT_TYPES) then SOk None else
      match get "event_id" item, get "run_id" item with
      | PStr source_event_id, PStr source_run_id =>
          if negb (str_truthy source_event_id) || negb (str_truthy source_run_id) then SOk None else
          or_refused (v4_safe_ref (PStr source_event_id) "source_event_id") None (fun _ =>
          or_refused (v4_safe_ref (PStr source_run_id) "source_run_id") None (fun _ =>
          let resolved := match assoc "message_id" item with Some v => v | None => opt_str message_id end in
          if str_in event_type PUBLIC_MESSAGE_CORRELATED_EVENT_TYPES && negb (is_str resolved) then SOk None else
          or_refused (item_ref resolved "message_id") None (fun resolved_message_id =>
          or_refused (item_ref (get "trace_ref" item) "trace_ref") None (fun trace_ref =>
          or_refused (item_ref (get "causation_event_id" item) "causation_event_id") None (fun causation_event_id =>
          or_refused (validate_payload event_type (PDict payload)) None (fun _ =>
          SOk (Some (V4CallbackItem callback_index batch_index event_type payload resolved_message_id trace_ref causation_event_id
                       (Some source_event_id) (Some source_run_id))))))))) 
      | _, _ => SOk None
      end
  | _, _ => SOk None
  end.

Definition MAX_PUBLIC_THINKING_DELTA_CODEPOINTS : nat := N.to_nat 8192.
Definition MAX_THINKING_SUMMARY : Z := 262144.

Fixpoint thinking_items (callback_index batch_index : Z) (message_id source_event_id source_run_id : string)
    (payloads : list (string * dict)) : sres (list callback_item) :=
  match payloads with
  | [] => SOk []
  | (event_type, payload) :: payloads =>
      do! _ := validate_payload event_type (PDict payload) in
      do! items := thinking_items callback_index (batch_index + 1) message_id source_event_id source_run_id payloads in
      SOk (V4CallbackItem callback_index batch_index event_type payload (Some message_id) None None (Some source_event_id)
             (Some source_run_id) :: items)
  end.

Definition thinking_payloads (thinking_id : string) (chunks : list string) : list (string * dict) :=
  ("thinking.started", [("thinking_id", PStr thinking_id)])
  :: map (fun chunk => ("thinking.delta", [("thinking_id", PStr thinking_id); ("delta", PStr chunk)])) chunks
  ++ [("thinking.completed", [("thinking_id", PStr thinking_id)])].

Definition callback_thinking_summary_to_v4 (sanitizer : string → pyval) (event : dict) (callback_index first_batch_index : Z)
    (callback_batch_id expected_event_type : string) : sres (list callback_item) :=
  if negb (eq_str (get "type" event) expected_event_type) || negb (is_true (get "admin_only" event)) then SOk [] else
  do! _ := hashable (get "message" event) in
  if negb (is_none (get "message" event) || eq_str (get "message" event) "") || negb (is_none (get "causation_event_id" event))
  then SOk [] else
  match get "payload" event with
  | PDict payload =>
      if negb (same_keys payload ["summary"]) then SOk [] else
      match get "event_id" event, get "run_id" event, get "message_id" event, get "summary" payload with
      | PStr source_event_id, PStr source_run_id, PStr message_id, PStr raw_summary =>
          if negb (str_truthy raw_summary) || (MAX_THINKING_SUMMARY <? py_len raw_summary) then SOk [] else
          or_refused (v4_safe_ref (PStr source_event_id) "source_event_id") [] (fun _ =>
          or_refused (v4_safe_ref (PStr source_run_id) "source_run_id") [] (fun _ =>
          or_refused (v4_safe_ref (PStr message_id) "message_id") [] (fun _ =>
          or_refused (v4_safe_ref (PStr callback_batch_id) "callback_batch_id") [] (fun _ =>
          let thinking_id := "thinking_" +:+ String.substring 0 24
                               (sha256_hex (source_run_id +:+ ":" +:+ callback_batch_id +:+ ":" +:+ py_str_int callback_index)) in
          match sanitizer raw_summary with
          | PStr summary =>
              if negb (str_truthy summary) || (MAX_THINKING_SUMMARY <? py_len summary) || negb (eq_str (sanitizer summary) summary)
              then SOk [] else
              let chunks := point_chunks (String.length summary) MAX_PUBLIC_THINKING_DELTA_CODEPOINTS summary in
              or_refused (thinking_items callback_index first_batch_index message_id source_event_id source_run_id
                            (thinking_payloads thinking_id chunks)) [] SOk
          | _ => SOk []
          end))))
      | _, _, _, _ => SOk []
      end
  | _ => SOk []
  end.

(** ** What the mapper accepts can be recorded *)

(** The types an executor may report, and those only the platform records. *)
Definition executor_type (t : string) : bool :=
  str_in t PUBLIC_APPLICATION_EVENT_TYPES && negb (str_in t RUN_DOMAIN_EVENT_TYPES) && negb (str_in t RUN_TERMINAL_EVENT_TYPES).
Definition PLATFORM_EVENT_TYPES : list string :=
  RUN_DOMAIN_EVENT_TYPES ++ RUN_TERMINAL_EVENT_TYPES
  ++ ["artifact.created"; "artifact.ready"; "artifact.failed"; "policy.checking"; "policy.allowed"; "policy.denied"].

Lemma callback_types t : str_in t CALLBACK_EVENT_TYPES = true → executor_type t = true ∧ str_in t PLATFORM_EVENT_TYPES = false.
Proof.
  intros Ht%str_in_elem%list_elem_of_In.
  assert (forallb (fun t => executor_type t && negb (str_in t PLATFORM_EVENT_TYPES)) CALLBACK_EVENT_TYPES = true) as Hall by reflexivity.
  rewrite forallb_forall in Hall. specialize (Hall _ Ht). by rewrite andb_true_iff, negb_true_iff in Hall.
Qed.

Lemma or_refused_some {A B} (m : sres A) k (x : B) : or_refused m None k = SOk (Some x) → ∃ a, m = SOk a ∧ k a = SOk (Some x).
Proof. destruct m as [v|[]]; cbn; try done. eauto. Qed.
Lemma item_ref_value v name o : item_ref v name = SOk o → v = opt_str o ∧ optional_ref o name = SOk tt.
Proof.
  unfold item_ref. intros E. assert (v = PNone ∧ o = None ∨ ∃ s, v4_safe_ref v name = SOk s ∧ o = Some s) as [[-> ->]|(s & Hs & ->)].
  { destruct v; [left; by injection E as <-|..]; right; apply sbind_ok in E as (s' & Hs & E); injection E as <-; by eauto. }
  - done.
  - apply v4_safe_ref_value in Hs as [-> Hp]. split; [done|]. cbn. by rewrite Hp.
Qed.

Lemma filter_without {A} k (d : list (string * A)) : assoc k d = None → List.filter (fun kv => negb (String.eqb kv.1 k)) d = d.
Proof.
  induction d as [|[k' v] d IH]; [done|]. cbn [assoc List.filter fst]. destruct (String.eqb k' k); [done|]. intros E. cbn [negb].
  by rewrite IH.
Qed.

(** What the mapper says of an item. *)
Lemma callback_item_spec item ci bi mid it :
  callback_item_to_v4 item ci bi mid = SOk (Some it) →
  str_in (ci_event_type it) CALLBACK_EVENT_TYPES = true ∧ ci_callback_index it = ci ∧ ci_batch_index it = bi ∧
  get "event_type" item = PStr (ci_event_type it) ∧ get "payload" item = PDict (ci_payload it) ∧
  get "event_id" item = opt_str (ci_source_event_id it) ∧ get "run_id" item = opt_str (ci_source_run_id it) ∧ ci_source_run_id it ≠ None ∧
  validate_payload (ci_event_type it) (PDict (ci_payload it)) = SOk (ci_payload it) ∧
  optional_ref (ci_source_event_id it) "source_event_id" = SOk tt ∧ optional_ref (ci_source_run_id it) "source_run_id" = SOk tt ∧
  optional_ref (ci_message_id it) "message_id" = SOk tt ∧ optional_ref (ci_trace_ref it) "trace_ref" = SOk tt ∧
  optional_ref (ci_causation_event_id it) "causation_event_id" = SOk tt ∧
  (str_in (ci_event_type it) PUBLIC_MESSAGE_CORRELATED_EVENT_TYPES = true → ci_message_id it ≠ None).
Proof.
  unfold callback_item_to_v4. intros E. apply sbind_ok in E as ([] & _ & E).
  destruct (get "event_type" item) as [| | | |ty| |]; try done. destruct (get "payload" item) as [| | | | | |payload]; try done.
  destruct (str_in ty CALLBACK_EVENT_TYPES) eqn:Et; [|done]. cbn [negb] in E.
  destruct (get "event_id" item) as [| | | |src| |]; try done. destruct (get "run_id" item) as [| | | |srun| |]; try done.
  destruct (negb (str_truthy src) || negb (str_truthy srun)); [done|].
  apply or_refused_some in E as (? & R1 & E). apply or_refused_some in E as (? & R2 & E). cbn zeta in E.
  set (resolved := match assoc "message_id" item with Some v => v | None => opt_str mid end) in *.
  destruct (str_in ty PUBLIC_MESSAGE_CORRELATED_EVENT_TYPES && negb (is_str resolved)) eqn:Em; [done|].
  apply or_refused_some in E as (m & R3 & E). apply or_refused_some in E as (tr & R4 & E). apply or_refused_some in E as (ca & R5 & E).
  apply or_refused_some in E as (d & R6 & E). injection E as <-.
  cbn [ci_event_type ci_callback_index ci_batch_index ci_payload ci_source_event_id ci_source_run_id ci_message_id ci_trace_ref ci_causation_event_id optional_ref].
  apply item_ref_value in R3 as [Hm R3], R4 as [_ R4], R5 as [_ R5]. destruct (validate_payload_value _ _ _ R6) as ([= <-] & _).
  cbn in R1, R2. destruct (SAFE_REF_PATTERN src) eqn:S1; [|done]. destruct (SAFE_REF_PATTERN srun) eqn:S2; [|done].
  cbn [v4_safe_ref]. rewrite S1, S2. split_and!; try done. intros Hc ->. rewrite Hc, Hm in Em. done.
Qed.

(** Where an item may be recorded: on the confirmed stream of its run, under a lease. *)
Record recordable (t r att batch lease : string) (a : stream_authority) : Prop := {
  rb_scope : sa_tenant_id a = t ∧ sa_run_id a = r ∧ sa_attempt_id a = att;
  rb_state : sa_state a = "confirmed";
  rb_names : str_truthy batch = true ∧ str_truthy lease = true ∧ str_truthy t = true ∧ str_truthy r = true
}.

(** An item of the run whose fields pass the checks of a row. *)
Record sendable (r : string) (it : callback_item) : Prop := {
  sd_type : executor_type (ci_event_type it) = true;
  sd_indices : 0 <= ci_callback_index it ∧ 0 <= ci_batch_index it;
  sd_run : ci_source_run_id it = Some r;
  sd_payload : validate_payload (ci_event_type it) (PDict (ci_payload it)) = SOk (ci_payload it);
  sd_refs : optional_ref (ci_source_event_id it) "source_event_id" = SOk tt ∧ optional_ref (ci_source_run_id it) "source_run_id" = SOk tt ∧
    optional_ref (ci_message_id it) "message_id" = SOk tt ∧ optional_ref (ci_trace_ref it) "trace_ref" = SOk tt ∧
    optional_ref (ci_causation_event_id it) "causation_event_id" = SOk tt;
  sd_message : str_in (ci_event_type it) PUBLIC_MESSAGE_CORRELATED_EVENT_TYPES = true → ci_message_id it ≠ None
}.

Lemma item_prepares t r att batch lease a it :
  recordable t r att batch lease a → sendable r it →
  ∃ e, prepare_application_v4_row t r att batch (ci_callback_index it) (ci_batch_index it) (ci_event_type it) (PDict (ci_payload it)) a
         (Some lease) None (ci_message_id it) (ci_trace_ref it) (ci_causation_event_id it) (ci_source_event_id it) (ci_source_run_id it) =
       SOk (stable_event_id t r att batch (ci_callback_index it) (ci_batch_index it), e) ∧
    le_event_type e = ci_event_type it ∧ ∃ metadata, le_payload e = assoc_set V4_METADATA_KEY (PDict metadata) (ci_payload it).
Proof.
  intros [(<- & <- & <-) Hst (Hb & Hl & _)] [Ht [Hci Hbi] Hr Hv (R1 & R2 & R3 & R4 & R5) Hm].
  unfold executor_type in Ht. rewrite !andb_true_iff, !negb_true_iff in Ht. destruct Ht as [[T1 T2] T3].
  unfold prepare_application_v4_row. rewrite T1, T2, T3, Hst, !String.eqb_refl, Hb. cbn [negb orb andb check_row_scope v4_nonempty]. rewrite Hl, Hst.
  cbn [sbind negb String.eqb Ascii.eqb Bool.eqb optional_ref].
  destruct (Z.ltb_spec (ci_callback_index it) 0); [lia|]. destruct (Z.ltb_spec (ci_batch_index it) 0); [lia|]. cbn [orb].
  rewrite Hv. cbn [sbind]. rewrite R3, R1, R2, R4, R5, Hr, String.eqb_refl. cbn [negb sbind].
  destruct (str_in (ci_event_type it) PUBLIC_MESSAGE_CORRELATED_EVENT_TYPES); cbn [sbind truthy_str];
    [|eexists; split; [reflexivity|]; cbn; by eauto].
  destruct (ci_message_id it); [|by destruct Hm]. cbn [sbind]. eexists. split; [reflexivity|]. cbn. eauto.
Qed.

(** The row of an item: its identity, its type and its payload. *)
Definition row_of_item (t r att batch : string) (it : callback_item) (row : string * ledger_event) : Prop :=
  row.1 = stable_event_id t r att batch (ci_callback_index it) (ci_batch_index it) ∧ le_event_type row.2 = ci_event_type it ∧
  List.filter (fun kv => negb (String.eqb kv.1 V4_METADATA_KEY)) (le_payload row.2) = ci_payload it.

Lemma items_prepare t r att batch lease a its :
  recordable t r att batch lease a → Forall (sendable r) its →
  ∃ rows, prepare_callback_rows t r att batch a lease its = SOk rows ∧ Forall2 (row_of_item t r att batch) its rows.
Proof.
  intros Hrec. induction 1 as [|it its Hs _ (rows & IH1 & IH2)]; [exists []; by repeat constructor|].
  destruct (item_prepares _ _ _ _ _ _ _ Hrec Hs) as (e & Ee & Hte & meta & Hpe).
  exists ((stable_event_id t r att batch (ci_callback_index it) (ci_batch_index it), e) :: rows). cbn [prepare_callback_rows].
  rewrite Ee, IH1, (sd_run _ _ Hs), String.eqb_refl. cbn [negb sbind]. split; [done|]. constructor; [|done].
  destruct (validate_payload_value _ _ _ (sd_payload _ _ Hs)) as (_ & _ & Hkeys & _). apply metadata_key_reserved in Hkeys.
  unfold row_of_item. cbn [fst snd]. rewrite Hte, Hpe, assoc_set_new, List.filter_app by done. split_and!; [done|done|]. cbn [List.filter fst].
  rewrite String.eqb_refl. cbn [negb]. rewrite app_nil_r. by apply filter_without.
Qed.

(** The ledger takes the rows of items. *)
Lemma prepared_takeable `{!DigestLaws} t r att batch a lease its rows :
  prepare_callback_rows t r att batch a lease its = SOk rows → Forall (takeable r) rows.
Proof.
  revert rows. induction its as [|it its IH]; intros rows E; cbn [prepare_callback_rows] in E; [injection E as <-; constructor|].
  destruct (match ci_source_run_id it with Some _ => _ | None => _ end); [done|].
  apply sbind_ok in E as ([id e] & Er & E). apply sbind_ok in E as (rows' & E1 & E). injection E as <-. constructor; [|by apply IH].
  destruct (prepare_spec _ _ _ _ _ _ _ _ _ _ _ _ _ _ _ _ _ _ Er) as (d & _ & Hv & _ & _ & _ & _ & _ & _ & -> & Hid & _).
  destruct (validate_payload_value _ _ _ Hv) as (_ & Hty & _). unfold takeable. cbn [fst snd le_event_type le_stage].
  split_and!; [by destruct id|by destruct (ci_event_type it)|done|done].
Qed.

(** C36.  What the mapper of callback items accepts is recorded, unless the answer facts do
    not fit.  Items it accepted, of the run and with non-negative indices, always pass the
    checks of the rows on the confirmed stream of the run: every item becomes one row, under
    the identity derived from the batch and its indices, of the type and payload the
    executor sent, and none has a type that only the platform records.  When those
    identities are different and new to a ledger the code can reach, and the numbers of the
    run do not run out, the append then does exactly one of two things: if the check of the
    answer facts among the rows passes, it adds all the rows at the end of the ledger, in
    order and numbered on; otherwise it raises what the check raises. *)
Theorem accepted_items_are_recorded `{!DigestLaws} jt now fresh t r att batch lease a items its g :
  recordable t r att batch lease a →
  Forall2 (fun item it => ∃ mid, callback_item_to_v4 item (ci_callback_index it) (ci_batch_index it) mid = SOk (Some it) ∧
    get "run_id" item = PStr r ∧ 0 <= ci_callback_index it ∧ 0 <= ci_batch_index it) items its →
  rtc ledger_step empty_ledger g →
  ∃ rows, prepare_callback_rows t r att batch a lease its = SOk rows ∧ Forall2 (row_of_item t r att batch) its rows ∧
    Forall2 (fun item row => get "event_type" item = PStr (le_event_type row.2) ∧ str_in (le_event_type row.2) PLATFORM_EVENT_TYPES = false ∧
      get "payload" item = PDict (List.filter (fun kv => negb (String.eqb kv.1 V4_METADATA_KEY)) (le_payload row.2))) items rows ∧
    (NoDup rows.*1 → (∀ id, id ∈ rows.*1 → id ∉ er_id <$> lg_events g) →
     Z.of_nat (length (run_rows t r (lg_events g)) + length rows) < MAX_BIGINT →
     match validate_assistant_part_append jt t r a g rows [] with
     | SOk _ => ∃ g' stored, append_callback_v4_rows jt now fresh t r att batch its a lease g = SOk (g', stored) ∧
         lg_events g' = lg_events g ++ batch_rows now t r (Z.of_nat (length (run_rows t r (lg_events g))) + 1) rows
     | SErr e => append_callback_v4_rows jt now fresh t r att batch its a lease g = SErr e
     end).
Proof.
  intros Hrec HF Hg%reachable_ledger. destruct (items_prepare t r att batch lease a its Hrec) as (rows & Ep & HR).
  - clear Hrec. induction HF as [|item it items its (mid & E & Hr & Hci & Hbi) _ IH]; [constructor|]. constructor; [|done].
    destruct (callback_item_spec _ _ _ _ _ E) as (Ht & _ & _ & _ & _ & _ & G4 & Hn & Hv & R1 & R2 & R3 & R4 & R5 & Hm).
    split; try done; [by apply callback_types|]. destruct (ci_source_run_id it); [cbn in G4; congruence|done].
  - exists rows. split; [done|]. split; [done|]. split.
    + clear Ep Hrec. revert rows HR. induction HF as [|item it items its (mid & E & _) _ IH]; intros rows HR.
      { apply Forall2_nil_inv_l in HR as ->. constructor. }
      apply Forall2_cons_inv_l in HR as (row & rows' & (_ & Ht' & Hp') & HR & ->). constructor; [|by apply IH].
      destruct (callback_item_spec _ _ _ _ _ E) as (Ht & _ & _ & G1 & G2 & _). rewrite Ht', Hp'. split_and!; [done|by apply callback_types|done].
    + intros Hd Hf Hb. unfold append_callback_v4_rows. rewrite Ep. cbn [sbind]. destruct Hrec as [_ _ (_ & _ & Ht & Hr)].
      apply append_fresh_exact; try done. by eapply prepared_takeable.
Qed.

(** ** Summaries of the model's thinking *)

Lemma take_drop_points n s : take_points n s +:+ drop_points n s = s.
Proof.
  revert n. induction s as [|c s IH]; intros n; [done|]. cbn [take_points drop_points]. destruct (utf8_continuation c).
  - change (String c (take_points n s +:+ drop_points n s) = String c s). f_equal. apply IH.
  - destruct n as [|n]; [done|]. change (String c (take_points n s +:+ drop_points n s) = String c s). f_equal. apply IH.
Qed.
Lemma take_points_len n s : py_len (take_points n s) <= Z.of_nat n.
Proof.
  revert n. induction s as [|c s IH]; intros n; [cbn; lia|]. cbn [take_points]. destruct (utf8_continuation c) eqn:Ec.
  - cbn [py_len]. rewrite Ec. apply IH.
  - destruct n as [|n]; [cbn; lia|]. cbn [py_len]. rewrite Ec. specialize (IH n). lia.
Qed.

(** Text starts with a code point. *)
Definition starts_point (s : string) : bool := match s with String c _ => negb (utf8_continuation c) | EmptyString => true end.
Lemma drop_starts n s : starts_point (drop_points n s) = true.
Proof.
  revert n. induction s as [|c s IH]; intros n; [done|]. cbn [drop_points]. destruct (utf8_continuation c) eqn:Ec; [apply IH|].
  destruct n; [cbn; by rewrite Ec|apply IH].
Qed.
Lemma drop_shorter n s : s ≠ "" → (String.length (drop_points (S n) s) < String.length s)%nat.
Proof.
  assert (∀ n s, (String.length (drop_points n s) <= String.length s)%nat) as Hle.
  { intros k u. revert k. induction u as [|c u IH]; intros k; [done|]. cbn [drop_points String.length]. destruct (utf8_continuation c).
    - specialize (IH k). lia.
    - destruct k as [|k]; [done|]. specialize (IH k). lia. }
  intros Hne. destruct s as [|c s]; [done|]. cbn [drop_points String.length]. destruct (utf8_continuation c).
  - specialize (Hle (S n) s). lia.
  - specialize (Hle n s). lia.
Qed.
Lemma py_len_nonneg s : 0 <= py_len s.
Proof. induction s as [|c s IH]; cbn [py_len]; [done|]. destruct (utf8_continuation c); lia. Qed.

Lemma concat_cons (x : string) l : String.concat "" (x :: l) = x +:+ String.concat "" l.
Proof.
  destruct l; [|done]. cbn [String.concat]. induction x as [|c x IH]; [done|]. change (String c x = String c (x +:+ "")). f_equal. exact IH.
Qed.

(** The chunks of a text are its text, none empty and none too long. *)
Lemma chunks_spec fuel n s :
  (String.length s <= fuel)%nat → starts_point s = true →
  String.concat "" (point_chunks fuel (S n) s) = s ∧ Forall (fun chunk => 1 <= py_len chunk <= Z.of_nat (S n)) (point_chunks fuel (S n) s).
Proof.
  revert s. induction fuel as [|fuel IH]; intros s Hl Hs; cbn [point_chunks].
  { destruct s; [by split|]. cbn in Hl. lia. }
  destruct (str_truthy s) eqn:Et; [|by destruct s]. assert (s ≠ "") as Hne by (by intros ->).
  pose proof (drop_shorter n s Hne). destruct (IH (drop_points (S n) s)) as [C1 C2]; [lia|apply drop_starts|]. split.
  - rewrite concat_cons, C1. apply take_drop_points.
  - constructor; [|done]. split; [|apply take_points_len]. destruct s as [|c s]; [done|]. cbn [starts_point] in Hs. apply negb_true_iff in Hs.
    cbn [take_points]. rewrite Hs. cbn [py_len]. rewrite Hs. pose proof (py_len_nonneg (take_points n s)). lia.
Qed.

Lemma thinking_delta_valid i chunk :
  SAFE_REF_PATTERN i = true → 1 <= py_len chunk <= 8192 →
  validate_payload "thinking.delta" (PDict [("thinking_id", PStr i); ("delta", PStr chunk)]) = SOk [("thinking_id", PStr i); ("delta", PStr chunk)].
Proof.
  intros Hi [Hlo Hhi]. unfold validate_payload. cbn -[SAFE_REF_PATTERN py_len]. rewrite Hi. cbn -[SAFE_REF_PATTERN py_len].
  destruct (Z.leb_spec 1 (py_len chunk)); [|lia]. destruct (Z.leb_spec (py_len chunk) 8192); [|lia]. done.
Qed.
Lemma thinking_edge_valid t i :
  t = "thinking.started" ∨ t = "thinking.completed" → SAFE_REF_PATTERN i = true →
  validate_payload t (PDict [("thinking_id", PStr i)]) = SOk [("thinking_id", PStr i)].
Proof. intros [->| ->] Hi; unfold validate_payload; cbn -[SAFE_REF_PATTERN py_len]; by rewrite Hi. Qed.

(** The items of a summary, when its payloads are valid. *)
Lemma thinking_items_spec ci bi m src r payloads :
  Forall (fun tp => validate_payload tp.1 (PDict tp.2) = SOk tp.2) payloads →
  ∃ its, thinking_items ci bi m src r payloads = SOk its ∧ map (fun it => (ci_event_type it, ci_payload it)) its = payloads ∧
    map ci_batch_index its = map (fun k => bi + Z.of_nat k) (seq 0 (length payloads)) ∧
    Forall (fun it => ci_callback_index it = ci ∧ ci_message_id it = Some m ∧ ci_trace_ref it = None ∧ ci_causation_event_id it = None ∧
      ci_source_event_id it = Some src ∧ ci_source_run_id it = Some r) its.
Proof.
  intros HF. revert bi. induction HF as [|[t p] payloads Hv _ IH]; intros bi; cbn [thinking_items]; [exists []; by repeat constructor|].
  cbn [fst snd] in Hv. rewrite Hv. cbn [sbind]. destruct (IH (bi + 1)) as (its & -> & I1 & I2 & I3). cbn [sbind]. eexists. split; [reflexivity|].
  cbn [map ci_event_type ci_payload ci_batch_index length seq]. rewrite I1, I2. split; [done|]. split.
  - f_equal; [lia|]. rewrite <- seq_shift, map_map. apply map_ext. intros k. lia.
  - by constructor.
Qed.

Lemma take_forall f n s : str_forall f s = true → str_forall f (String.substring 0 n s) = true ∧ (String.length (String.substring 0 n s) <= n)%nat.
Proof.
  revert n. induction s as [|c s IH]; intros n; [by destruct n; cbn; auto with lia|]. cbn [str_forall]. intros [Hc Hs]%andb_true_iff.
  destruct n as [|n]; [done|]. cbn [String.substring str_forall String.length]. destruct (IH n Hs) as [-> ?]. rewrite Hc. split; [done|lia].
Qed.
Lemma thinking_id_safe `{!DigestLaws} text : SAFE_REF_PATTERN ("thinking_" +:+ String.substring 0 24 (sha256_hex text)) = true.
Proof.
  destruct (take_forall is_alnum 24 (sha256_hex text) (digest_hex _)) as [Ha Hl]. set (d := String.substring 0 24 _) in *.
  change (SAFE_REF_PATTERN ("thinking_" +:+ d)) with
    (is_alnum "t" && str_forall (id_char ["_"; "-"]%char) ("hinking_" +:+ d) && Nat.leb (String.length ("hinking_" +:+ d)) 255).
  rewrite str_forall_app, append_length, !andb_true_iff. split_and!; [done|done|by apply alnum_id_char|apply Nat.leb_le; cbn; lia].
Qed.

(** The event of a summary: its form, and a sanitizer whose result it leaves alone. *)
Record summary_event (sanitizer : string → pyval) (event : dict) (type batch r src m raw summary : string) : Prop := {
  se_type : get "type" event = PStr type;
  se_admin : get "admin_only" event = PBool true;
  se_message : get "message" event = PNone ∨ get "message" event = PStr "";
  se_cause : get "causation_event_id" event = PNone;
  se_payload : get "payload" event = PDict [("summary", PStr raw)];
  se_ids : get "event_id" event = PStr src ∧ get "run_id" event = PStr r ∧ get "message_id" event = PStr m;
  se_safe : SAFE_REF_PATTERN src = true ∧ SAFE_REF_PATTERN r = true ∧ SAFE_REF_PATTERN m = true ∧ SAFE_REF_PATTERN batch = true;
  se_raw : str_truthy raw = true ∧ py_len raw <= MAX_THINKING_SUMMARY;
  se_clean : sanitizer raw = PStr summary ∧ sanitizer summary = PStr summary;
  se_summary : str_truthy summary = true ∧ py_len summary <= MAX_THINKING_SUMMARY ∧ starts_point summary = true
}.

Lemma delta_limit : Z.of_nat MAX_PUBLIC_THINKING_DELTA_CODEPOINTS = 8192.
Proof. unfold MAX_PUBLIC_THINKING_DELTA_CODEPOINTS. by rewrite N_nat_Z. Qed.
Lemma summary_chunks summary : starts_point summary = true →
  let chunks := point_chunks (String.length summary) MAX_PUBLIC_THINKING_DELTA_CODEPOINTS summary in
  String.concat "" chunks = summary ∧ Forall (fun chunk => 1 <= py_len chunk <= 8192) chunks.
Proof.
  intros Hs. pose proof delta_limit as Hl. destruct MAX_PUBLIC_THINKING_DELTA_CODEPOINTS as [|n]; [done|]. rewrite <- Hl. by apply chunks_spec.
Qed.
Lemma thinking_payloads_valid i chunks :
  SAFE_REF_PATTERN i = true → Forall (fun chunk => 1 <= py_len chunk <= 8192) chunks →
  Forall (fun tp => validate_payload tp.1 (PDict tp.2) = SOk tp.2) (thinking_payloads i chunks).
Proof.
  intros Hi HF. unfold thinking_payloads. constructor; [apply thinking_edge_valid; auto|]. apply Forall_app. split; [|constructor; [|constructor]].
  - apply Forall_fmap. eapply Forall_impl; [exact HF|]. intros chunk Hc. by apply thinking_delta_valid.
  - apply thinking_edge_valid; auto.
Qed.

(** A summary of the model's thinking is recorded whole.  The summary of a well-formed
    event becomes a start, deltas of 1 to 8192 code points and an end, under one thinking
    id and consecutive indices; the deltas put together are the sanitized summary, and on
    the confirmed stream of the run every item is recorded. *)
Lemma thinking_summary_is_kept `{!DigestLaws} sanitizer event type t r att batch lease a src m raw summary ci first :
  summary_event sanitizer event type batch r src m raw summary → recordable t r att batch lease a → 0 <= ci → 0 <= first →
  ∃ its thinking_id chunks rows,
    callback_thinking_summary_to_v4 sanitizer event ci first batch type = SOk its ∧
    map (fun it => (ci_event_type it, ci_payload it)) its = thinking_payloads thinking_id chunks ∧
    String.concat "" chunks = summary ∧ Forall (fun chunk => 1 <= py_len chunk <= 8192) chunks ∧
    map ci_batch_index its = map (fun k => first + Z.of_nat k) (seq 0 (length its)) ∧
    prepare_callback_rows t r att batch a lease its = SOk rows ∧ Forall2 (row_of_item t r att batch) its rows.
Proof.
  intros [E1 E2 E3 E4 E5 (E6 & E7 & E8) (S1 & S2 & S3 & S4) [Hr1 Hr2] [Hc1 Hc2] (Hs1 & Hs2 & Hs3)] Hrec Hci Hfirst.
  set (thinking_id := "thinking_" +:+ String.substring 0 24 (sha256_hex (r +:+ ":" +:+ batch +:+ ":" +:+ py_str_int ci))).
  set (chunks := point_chunks (String.length summary) MAX_PUBLIC_THINKING_DELTA_CODEPOINTS summary).
  destruct (summary_chunks summary Hs3) as [C1 C2]. fold chunks in C1, C2.
  pose proof (thinking_payloads_valid thinking_id chunks (thinking_id_safe _) C2) as Hv.
  destruct (thinking_items_spec ci first m src r _ Hv) as (its & Eit & I1 & I2 & I3).
  assert (callback_thinking_summary_to_v4 sanitizer event ci first batch type = SOk its) as Ecb.
  { unfold callback_thinking_summary_to_v4. rewrite E1, E2, E4, E5, E6, E7, E8. cbn [eq_str is_true is_none negb orb]. rewrite String.eqb_refl.
    assert (hashable (get "message" event) = SOk tt ∧ is_none (get "message" event) || eq_str (get "message" event) "" = true) as [-> ->]
      by (by destruct E3 as [->| ->]).
    cbn [negb orb sbind same_keys keys_within has_keys forallb fst str_in String.eqb Ascii.eqb Bool.eqb has_key assoc andb get get_default
         default from_option]. unfold Datatypes.id. rewrite Hr1. destruct (Z.ltb_spec MAX_THINKING_SUMMARY (py_len raw)); [lia|].
    cbn [negb orb v4_safe_ref]. rewrite S1, S2, S3, S4. cbn [or_refused]. rewrite Hc1, Hs1, Hc2. cbn [negb orb eq_str]. rewrite String.eqb_refl.
    destruct (Z.ltb_spec MAX_THINKING_SUMMARY (py_len summary)); [lia|]. cbn [negb orb]. fold thinking_id chunks. by rewrite Eit. }
  assert (length its = length (thinking_payloads thinking_id chunks)) as Hlen by (by rewrite <- I1, length_map).
  assert (Forall (sendable r) its) as Hsend.
  { apply Forall_forall. intros it Hit. rewrite Forall_forall in I3. destruct (I3 _ Hit) as (F1 & F2 & F3 & F4 & F5 & F6).
    assert ((ci_event_type it, ci_payload it) ∈ thinking_payloads thinking_id chunks) as Hin.
    { rewrite <- I1. by apply (list_elem_of_fmap_2 (fun it => (ci_event_type it, ci_payload it))). }
    assert (0 <= ci_batch_index it) as Hbi.
    { assert (ci_batch_index it ∈ map ci_batch_index its) as Hb by by apply (list_elem_of_fmap_2 ci_batch_index).
      rewrite I2 in Hb. apply list_elem_of_fmap in Hb as (k & -> & _). lia. }
    rewrite Forall_forall in Hv. specialize (Hv _ Hin). cbn [fst snd] in Hv. split; rewrite ?F1, ?F2, ?F3, ?F4, ?F5, ?F6; try done.
    - unfold thinking_payloads in Hin. apply elem_of_cons in Hin as [[= -> _]|[Hin|[= -> _]%list_elem_of_singleton]%elem_of_app]; try done.
      apply list_elem_of_fmap in Hin as (chunk & [= -> _] & _). done.
    - cbn [optional_ref v4_safe_ref]. rewrite S1, S2, S3. done. }
  destruct (items_prepare _ _ _ _ _ _ _ Hrec Hsend) as (rows & Ep & HR). exists its, thinking_id, chunks, rows. rewrite Hlen. by split_and!.
Qed.

End Callbacks.

(** ** A callback *)

Lemma sample_recordable : recordable "t" "run_7" "att_1" "cb_1" "lease_1" sample_authority.
Proof. by split. Qed.

Definition sample_tool_event : dict :=
  [("event_type", PStr "message.delta"); ("payload", PDict [("delta", PStr "Hello")]); ("event_id", PStr "src_1"); ("run_id", PStr "run_7");
   ("message_id", PStr "msg4_a"); ("trace_ref", PNone)].
Definition sample_converted : callback_item :=
  V4CallbackItem 0 0 "message.delta" [("delta", PStr "Hello")] (Some "msg4_a") None None (Some "src_1") (Some "run_7").

(** An item the mapper accepts is added to the ledger with its number. *)
Lemma accepted_items_are_recorded_witness :
  ∃ rows g' stored, @append_callback_v4_rows toy_py toy_stream (fun _ => None) 1735689600000000 "0a" "t" "run_7" "att_1" "cb_1" [sample_converted]
      sample_authority "lease_1" empty_ledger = SOk (g', stored) ∧
    lg_events g' = batch_rows 1735689600000000 "t" "run_7" 1 rows ∧ map (fun row => le_event_type row.2) rows = ["message.delta"].
Proof.
  destruct (@accepted_items_are_recorded toy_py toy_stream toy_digest_laws (fun _ => None) 1735689600000000 "0a" "t" "run_7" "att_1" "cb_1" "lease_1"
    sample_authority [sample_tool_event] [sample_converted] empty_ledger) as (rows & E & HR & _ & Happ).
  - exact sample_recordable.
  - constructor; [|constructor]. exists None. split_and!; [vm_compute; reflexivity|done|done|done].
  - constructor.
  - apply Forall2_cons_inv_l in HR as (row & rows' & (_ & Ht & _) & HR & ->). apply Forall2_nil_inv_l in HR as ->.
    vm_compute in E. injection E as <-. destruct Happ as (g' & stored & E1 & E2).
    + apply NoDup_singleton.
    + intros id _. apply not_elem_of_nil.
    + done.
    + eexists [_], g', stored. split; [exact E1|]. split; [exact E2|]. exact (f_equal (fun x => [x]) Ht).
Defined.

Definition sample_thinking : dict :=
  [("type", PStr "sdk_thinking"); ("admin_only", PBool true); ("payload", PDict [("summary", PStr "First, read the file.")]);
   ("event_id", PStr "src_9"); ("run_id", PStr "run_7"); ("message_id", PStr "msg4_a")].

(** A short summary becomes a start, one delta and an end. *)
Example short_summary_items :
  match @callback_thinking_summary_to_v4 toy_py toy_stream PStr sample_thinking 0 0 "cb_1" "sdk_thinking" with
  | SOk its => map ci_event_type its
  | SErr _ => []
  end = ["thinking.started"; "thinking.delta"; "thinking.completed"].
Proof. vm_compute. reflexivity. Qed.
