(* ===== verification/StreamPublication.v ===== *)
(** * Publication by workers

    How a worker admits the stream of a run, records the facts of the run in the ledger and
    publishes what was committed to Redis:
    [src/app/streaming/application/worker_publication_v4.py],
    [src/app/streaming/application/durable_v4.py],
    [src/app/streaming/infrastructure/worker_v4.py] and
    [src/app/streaming/infrastructure/run_v4_events.py].

    - A [plane] has what these functions read and write: the runs, the ledger, the
      authorities of the streams and Redis.  A transaction that raises leaves the database
      as it was; Redis keeps what a script did.
    - Between its steps a function gives way: [between] says what others do to the plane
      meanwhile.
    - The secret of the tenant scopes is that of the settings, the HMAC a parameter. *)
From stdpp Require Import base gmap list strings.
From Stdlib Require Import ZArith Lia Ascii.
From S2P Require Import Prelude Redis PyValue Numerals RunAttempt RunTerminal RunLifecycle McpTools TextParts StreamCursors StreamProtocol StreamEvents CanonicalJson StreamChannel StreamAuthority EventLedger StreamRows.
#[local] Open Scope py_scope.

Record plane := Plane { pl_life : lifecycle_db; pl_ledger : event_ledger; pl_sse : sse_db; pl_streams : streams }.
Definition set_ledger (g : event_ledger) (p : plane) : plane := Plane (pl_life p) g (pl_sse p) (pl_streams p).
Definition set_sse (db : sse_db) (p : plane) : plane := Plane (pl_life p) (pl_ledger p) db (pl_streams p).
Definition set_streams (ss : streams) (p : plane) : plane := Plane (pl_life p) (pl_ledger p) (pl_sse p) ss.

(** [RunTerminalEventFact]. *)
Record terminal_fact := RunTerminalEventFact {
  tf_status : string; tf_terminal_reason : string; tf_error_code : option string; tf_trace_ref : option string
}.

Definition load_current_terminal_event_fact (tenant_id run_id : string) (db : lifecycle_db) : option terminal_fact :=
  match ld_runs db !! (tenant_id, run_id) with
  | Some r =>
      if str_in (l_status r) TERMINAL_RUN_STATUSES then
        let error_code := truthy_str (l_error_code r) in
        Some (RunTerminalEventFact (l_status r)
                (match error_code with
                 | Some c => c
                 | None => if String.eqb (l_status r) "cancelled" then "run_cancelled" else l_status r
                 end)
                error_code (truthy_str (Some (l_trace_id r))))
      else None
  | None => None
  end.

(** Who ended a cancelled run, read off the reason. *)
Definition terminal_reason_code (reason : string) : string :=
  if contains "timeout" (py_lower reason) then "timeout"
  else if contains "policy" (py_lower reason) then "policy_cancelled" else "user_cancelled".

(** [V4PendingAdmission]. *)
Record pending_admission := V4PendingAdmission {
  pa_tenant_id : string; pa_tenant_scope : string; pa_run_id : string; pa_attempt_id : string; pa_stream_incarnation : Z;
  pa_open_event_id : string; pa_open_payload_bytes : string; pa_open_payload_digest : string
}.

Definition validate_v4_transport_receipt (redis_id : string) : sres string :=
  fail! (PyRuntimeError "v4_publication_receipt_invalid")
    when negb (str_truthy redis_id) || negb (String.eqb redis_id (strip redis_id)) || (256 <? py_len redis_id);
  SOk redis_id.

(** The network of one call of the bridge: the two scripts an append may run. *)
Record wire := Wire {
  w_net : network; w_net_end : network; w_now : Z; w_now_end : Z; w_trim : nat; w_trim_end : nat; w_between : streams → streams
}.

Section Publication.
Context `{LuaRuntime} `{PyRuntime} `{StreamRuntime} (hmac_sha256_hex : string → string → string) (authority_secret : string).
Context (jsonb_text : pyval → option string).

(** ** The facts of the run *)

Definition append_current_run_terminal_v4_row (now : Z) (fresh tenant_id run_id : string) (life : lifecycle_db) (db : sse_db)
    (g : event_ledger) : sres (event_ledger * option v4_row) :=
  match load_current_terminal_event_fact tenant_id run_id life with
  | None => SOk (g, None)
  | Some fact =>
      match get_stream_authority db tenant_id run_id with
      | None => SOk (g, None)
      | Some authority =>
          if negb (String.eqb (sa_revocation_state authority) "active") then SOk (g, None) else
          do! terminal_event_id := stable_run_event_id tenant_id run_id (sa_attempt_id authority) (sa_stream_incarnation authority)
                                     "run.terminal" in
          StreamRows.append_run_terminal_v4_row jsonb_text now fresh tenant_id run_id (sa_attempt_id authority) (tf_status fact)
            terminal_event_id (opt_str (tf_error_code fact)) (terminal_reason_code (tf_terminal_reason fact)) (tf_trace_ref fact) db g
      end
  end.

(** [PostgresRunCancellationEventWriter]. *)
Definition prepare_cancellation_authority (now : Z) (tenant_id run_id attempt_id : string) (db : sse_db) : sres sse_db :=
  do! scope := tenant_scope hmac_sha256_hex tenant_id authority_secret in
  do! '(db, created) := create_or_get_stream_admission_v4 now tenant_id run_id attempt_id scope db in
  fail! (PyRuntimeError "v4_cancellation_attempt_fenced") when negb (String.eqb (sa_attempt_id created) attempt_id);
  SOk db.
Definition cancellation_append_terminal (now : Z) (fresh tenant_id run_id : string) (life : lifecycle_db) (db : sse_db) (g : event_ledger)
    : sres event_ledger :=
  do! '(g, _) := append_current_run_terminal_v4_row now fresh tenant_id run_id life db g in SOk g.
Definition append_cancel_requested (now : Z) (fresh tenant_id run_id source : string) (trace_ref : option string) (db : sse_db)
    (g : event_ledger) : sres event_ledger :=
  do! '(g, _) := append_run_cancel_requested_v4_row jsonb_text now fresh tenant_id run_id source trace_ref db g in SOk g.

Definition PUBLISHED_RUN_EVENT_TYPES : list string := ["run.cancel_requested"; "run.succeeded"; "run.failed"; "run.cancelled"].

(** The last fact of the run on a stream, before a sequence if one is given. *)
Definition latest_run_row (tenant_id run_id : string) (a : stream_authority) (before_sequence : option Z) (g : event_ledger)
    : option event_row :=
  last (List.filter (fun r => es_visible_to_user (er_shape r) && str_in (es_event_type (er_shape r)) PUBLISHED_RUN_EVENT_TYPES
                              && match before_sequence with Some n => er_sequence r <? n | None => true end)
          (stream_rows jsonb_text tenant_id run_id a g)).
(** The last row a callback wrote on the stream before a sequence; 0 for none. *)
Definition callback_sequence_before (tenant_id run_id : string) (a : stream_authority) (sequence : Z) (g : event_ledger) : Z :=
  foldl (fun m r => Z.max m (er_sequence r)) 0
    (List.filter (fun r => es_visible_to_user (er_shape r) && (er_sequence r <? sequence)
                           && match field_text jsonb_text (get "execution_lease_id" (stored_metadata r)) with Some _ => true | None => false end)
       (stream_rows jsonb_text tenant_id run_id a g)).

Definition with_callback_sequence (n : Z) (e : envelope) : dict :=
  assoc_set "source" (PDict (if n =? 0 then ev_source e else assoc_set "callback_sequence" (PInt n) (ev_source e))) (envelope_dict e).

(** [load_latest_run_event]: the transaction records the end of the run first. *)
Definition load_latest_run_event (now : Z) (fresh tenant_id run_id : string) (before_sequence : option Z) (p : plane)
    : plane * sres (option string) :=
  let read :=
    do! '(g, _) := append_current_run_terminal_v4_row now fresh tenant_id run_id (pl_life p) (pl_sse p) (pl_ledger p) in
    match get_stream_authority (pl_sse p) tenant_id run_id with
    | None => SOk (g, None)
    | Some authority =>
        if negb (String.eqb (sa_revocation_state authority) "active") || negb (str_in (sa_state authority) ["confirmed"; "terminal"])
        then SOk (g, None) else
        match latest_run_row tenant_id run_id authority before_sequence g with
        | None => SOk (g, None)
        | Some row =>
            do! projected := project_public_v4 (vr_created_at (stored_row row)) (vr_fields (stored_row row)) (view authority) in
            match projected with
            | None => SErr (V4ProjectionError "v4_run_event_projection_invalid")
            | Some e =>
                do! text := canonical_json_bytes
                              (PDict (with_callback_sequence (callback_sequence_before tenant_id run_id authority (er_sequence row) g) e)) in
                SOk (g, Some text)
            end
        end
    end in
  match read with SOk (g, text) => (set_ledger g p, SOk text) | SErr e => (p, SErr e) end.

(** [persist_event_and_check_cancel]. *)
Definition persist_event_and_check_cancel (now : Z) (fresh tenant_id run_id : string) (persist_event : bool)
    (event_type stage message : string) (payload : option dict) (p : plane) : plane * sres bool :=
  let write :=
    if persist_event then
      let merged := foldl (fun d kv => assoc_set kv.1 kv.2 d) [("visible_to_user", PBool true); ("severity", PStr "info")] (default [] payload) in
      do! event := ledger_event_from_values (PStr event_type) (PStr stage) (PStr message) (PDict merged) PNone PNone PNone PNone PNone
                     (PInt 0) (PInt 0) (PInt 0) (PInt 0) in
      do! '(g, _) := repository_conflict (EventLedger.append_event now fresh tenant_id run_id event None (pl_ledger p)) in
      SOk g
    else SOk (pl_ledger p) in
  match write with
  | SOk g => (set_ledger g p, SOk (is_cancel_requested tenant_id run_id (pl_life p)))
  | SErr e => (p, SErr e)
  end.

(** ** The transport *)

(** [RedisV4PublicationTransport.publish]. *)
Definition publish (w : wire) (canonical_envelope_bytes : string) (ss : streams) : streams * sres string :=
  match json_loads canonical_envelope_bytes with
  | None => (ss, SErr (PyValueError "json"))
  | Some value =>
      let '(ss, r) := bridge_append (w_net w) (w_net_end w) (w_now w) (w_now_end w) (w_trim w) (w_trim_end w) (w_between w) value ss in
      (ss, match r with
           | SErr (StreamContractError code) =>
               if String.eqb code "stream_missing"
                  && match value with
                     | PDict d => existsb (eq_str (get "event_type" d)) ["run.succeeded"; "run.failed"; "run.cancelled"]
                     | _ => false
                     end
               then SErr V4PublicationStreamExpired else SErr (StreamContractError code)
           | SErr (StreamTransportUnavailable _) => SErr (V4PublicationTransportUnavailable "StreamTransportUnavailable")
           | r => r
           end)
  end.

Definition publish_callback_batch (net : network) (now : Z) (trims : list nat) (envelopes : list envelope) (ss : streams)
    : streams * sres string :=
  let '(ss, r) := append_callback_batch net now trims (map (fun e => PDict (envelope_dict e)) envelopes) ss in
  (ss, match r with
       | SErr (StreamTransportUnavailable _) => SErr (V4PublicationTransportUnavailable "stream_callback_append_unavailable")
       | r => r
       end).

(** ** Admission *)

Fixpoint require_fields (fields : list (string * string)) : sres unit :=
  match fields with
  | [] => SOk tt
  | (name, value) :: fields =>
      fail! (PyValueError ("v4_pending_admission_" +:+ name +:+ "_invalid")) when negb (str_truthy value);
      require_fields fields
  end.
(** [V4PendingAdmission.__post_init__]. *)
Definition check_pending_admission (a : pending_admission) : sres pending_admission :=
  do! _ := require_fields [("tenant_id", pa_tenant_id a); ("tenant_scope", pa_tenant_scope a); ("run_id", pa_run_id a);
                           ("attempt_id", pa_attempt_id a); ("open_event_id", pa_open_event_id a);
                           ("open_payload_digest", pa_open_payload_digest a)] in
  fail! (PyValueError "v4_pending_admission_incarnation_invalid") when pa_stream_incarnation a <? 1;
  fail! (PyValueError "v4_pending_admission_payload_invalid") when negb (str_truthy (pa_open_payload_bytes a));
  fail! (PyValueError "v4_pending_admission_digest_invalid")
    when negb (String.eqb (sha256_hex (pa_open_payload_bytes a)) (pa_open_payload_digest a));
  do! e := match json_loads (pa_open_payload_bytes a) with
           | None => SErr (PyValueError "v4_pending_admission_payload_invalid")
           | Some v =>
               match validate_internal_envelope_v4 None v with
               | SErr e => if is_value_error e then SErr (PyValueError "v4_pending_admission_payload_invalid") else SErr e
               | SOk e => SOk e
               end
           end in
  do! text := canonical_json_bytes (PDict (envelope_dict e)) in
  fail! (PyValueError "v4_pending_admission_payload_mismatch")
    when negb (String.eqb text (pa_open_payload_bytes a)) || negb (String.eqb (ev_event_type e) "stream.open")
         || negb (String.eqb (ev_event_id e) (pa_open_event_id a)) || negb (String.eqb (ev_tenant_scope e) (pa_tenant_scope a))
         || negb (String.eqb (ev_run_id e) (pa_run_id a)) || negb (String.eqb (ev_attempt_id e) (pa_attempt_id a))
         || negb (ev_stream_incarnation e =? pa_stream_incarnation a);
  SOk a.

(** [prepare_pending_authority]: one transaction. *)
Definition prepare_pending_authority (now : Z) (tenant_id run_id attempt_id : string) (p : plane) : plane * sres pending_admission :=
  let write :=
    match ld_runs (pl_life p) !! (tenant_id, run_id) with
    | None => SErr (PyRuntimeError "v4_pending_admission_run_missing")
    | Some run =>
        fail! (PyRuntimeError "v4_pending_admission_terminal_run")
          when str_in (l_status run) ["succeeded"; "failed"; "cancelled"]
               && match get_stream_authority (pl_sse p) tenant_id run_id with None => true | Some _ => false end;
        do! scope := tenant_scope hmac_sha256_hex tenant_id authority_secret in
        do! '(db, a) := create_or_get_stream_admission_v4 now tenant_id run_id attempt_id scope (pl_sse p) in
        do! pending := check_pending_admission (V4PendingAdmission (sa_tenant_id a) (sa_tenant_scope a) (sa_run_id a) (sa_attempt_id a)
                         (sa_stream_incarnation a) (sa_open_event_id a) (sa_open_payload_bytes a) (sa_open_payload_digest a)) in
        SOk (db, pending)
    end in
  match write with SOk (db, pending) => (set_sse db p, SOk pending) | SErr e => (p, SErr e) end.

Definition confirm_pending_admission (admission : pending_admission) (p : plane) : plane * sres stream_authority :=
  let write :=
    match get_stream_authority (pl_sse p) (pa_tenant_id admission) (pa_run_id admission) with
    | None => SErr (PyRuntimeError "v4_pending_admission_fenced")
    | Some authority =>
        fail! (PyRuntimeError "v4_pending_admission_fenced")
          when negb (String.eqb (sa_attempt_id authority) (pa_attempt_id admission))
               || negb (sa_stream_incarnation authority =? pa_stream_incarnation admission)
               || negb (String.eqb (sa_open_event_id authority) (pa_open_event_id admission))
               || negb (String.eqb (sa_open_payload_digest authority) (pa_open_payload_digest admission));
        confirm_stream_admission authority (pl_sse p)
    end in
  match write with SOk (db, a) => (set_sse db p, SOk a) | SErr e => (p, SErr e) end.

(** [admit_v4_stream]: create the authority, publish the opening event, confirm. *)
Definition admit_v4_stream (now : Z) (w : wire) (between1 between2 : plane → plane) (tenant_id run_id attempt_id : string) (p : plane)
    : plane * sres stream_authority :=
  let '(p, r) := prepare_pending_authority now tenant_id run_id attempt_id p in
  match r with
  | SErr e => (p, SErr e)
  | SOk pending =>
      let p := between1 p in
      let '(ss, r) := publish w (pa_open_payload_bytes pending) (pl_streams p) in
      let p := set_streams ss p in
      match (do! redis_id := r in validate_v4_transport_receipt redis_id) with
      | SErr e => (p, SErr e)
      | SOk _ => confirm_pending_admission pending (between2 p)
      end
  end.

(** ** Publishing what was committed *)

Fixpoint project_committed (authority : stream_authority) (rows : list v4_row) : sres (list envelope) :=
  match rows with
  | [] => SOk []
  | row :: rows =>
      do! projected := project_public_v4 (vr_created_at row) (vr_fields row) (view authority) in
      match projected with
      | None => SErr (V4ProjectionError "callback_committed_batch_invalid")
      | Some e => do! es := project_committed authority rows in SOk (e :: es)
      end
  end.

(** The event before the first row of the batch is published first. *)
Definition publish_predecessor (now : Z) (fresh : string) (w : wire) (between1 : plane → plane) (first : envelope)
    (authority : stream_authority) (p : plane) : plane * sres unit :=
  let '(p, r) := load_latest_run_event now fresh (sa_tenant_id authority) (sa_run_id authority) (ev_seq first) p in
  match r with
  | SErr e => (p, SErr e)
  | SOk predecessor =>
      let p := between1 p in
      match predecessor with
      | None => (p, SOk tt)
      | Some text =>
          let '(ss, r) := publish w text (pl_streams p) in
          (set_streams ss p,
           match r with
           | SErr V4PublicationStreamExpired => SErr (V4PublicationTransportUnavailable "callback_stream_expired")
           | SErr e => SErr e
           | SOk redis_id => do! _ := validate_v4_transport_receipt redis_id in SOk tt
           end)
      end
  end.

Definition publish_callback_rows (now : Z) (fresh : string) (w : wire) (net : network) (batch_now : Z) (trims : list nat)
    (between1 between2 : plane → plane) (rows : list v4_row) (authority : stream_authority) (p : plane) : plane * sres unit :=
  match project_committed authority rows with
  | SErr e => (p, SErr e)
  | SOk [] => (p, SOk tt)
  | SOk (first :: rest) =>
      let '(p, r) := publish_predecessor now fresh w between1 first authority p in
      match r with
      | SErr e => (p, SErr e)
      | SOk _ =>
          let p := between2 p in
          let '(ss, r) := publish_callback_batch net batch_now trims (first :: rest) (pl_streams p) in
          (set_streams ss p, do! redis_id := r in do! _ := validate_v4_transport_receipt redis_id in SOk tt)
      end
  end.

Definition publish_run_event (now : Z) (fresh : string) (w : wire) (between : plane → plane) (tenant_id run_id : string) (p : plane)
    : plane * sres bool :=
  let '(p, r) := load_latest_run_event now fresh tenant_id run_id None p in
  match r with
  | SErr e => (p, SErr e)
  | SOk None => (p, SOk false)
  | SOk (Some text) =>
      let p := between p in
      let '(ss, r) := publish w text (pl_streams p) in
      (set_streams ss p,
       match (do! receipt := r in validate_v4_transport_receipt receipt) with
       | SOk _ => SOk true
       | SErr (V4PublicationTransportUnavailable _) | SErr V4PublicationStreamExpired => SOk false
       | SErr e => SErr e
       end)
  end.

End Publication.
