(* ===== verification/StreamPublicationFacts.v ===== *)
(** * What publication by workers guarantees

    The end of a run is recorded once on its stream whatever calls record it, and a callback
    batch that was acknowledged is in the stream, in the order of the ledger. *)
From stdpp Require Import base gmap list strings relations.
From Stdlib Require Import ZArith Lia Ascii.
From S2P Require Import Prelude Redis PyValue Numerals QueueFacts QueueRuntime RunAttempt RunTerminal RunLifecycle McpTools TextParts StreamCursors StreamProtocol StreamEvents StreamEventsFacts CanonicalJson StreamChannel StreamChannelFacts StreamAuthority EventLedger EventLedgerFacts StreamRows StreamRowsFacts StreamPublication.
#[local] Open Scope py_scope.

(** ** The end of a run is recorded once *)

Section Ends.
Context `{PyRuntime} `{StreamRuntime} (jt : pyval → option string).

Lemma prepare_identity t r att batch ci bi type payload a lease i mid trace cause src srun id e :
  prepare_application_v4_row t r att batch ci bi type payload a lease (Some i) mid trace cause src srun = SOk (id, e) →
  str_truthy i = true → id = i ∧ le_event_type e = type.
Proof.
  unfold prepare_application_v4_row. intros E Hi. destruct (negb (str_in type _)); [done|]. apply sbind_ok in E as (_ & _ & E).
  destruct (_ || _ || _ || _ || _); [done|]. apply sbind_ok in E as (eid' & [= <-] & E). apply sbind_ok in E as ([] & _ & E).
  destruct (str_in type RUN_TERMINAL_EVENT_TYPES && _); [done|]. destruct ((ci <? 0) || _); [done|]. apply sbind_ok in E as (d & _ & E).
  do 3 (apply sbind_ok in E as ([] & _ & E)). destruct (match srun with Some _ => _ | None => _ end); [done|].
  do 2 (apply sbind_ok in E as ([] & _ & E)). injection E as E <-. unfold truthy_str in E. rewrite Hi in E. by rewrite <- E.
Qed.

(** The append of the run's end: which row, and that it is an append of one prepared row. *)
Lemma current_terminal_spec now fresh t r life db g g' row :
  append_current_run_terminal_v4_row jt now fresh t r life db g = SOk (g', Some row) →
  ∃ fact a id e rows, load_current_terminal_event_fact t r life = Some fact ∧ get_stream_authority db t r = Some a ∧
    sa_revocation_state a = "active" ∧ stable_run_event_id t r (sa_attempt_id a) (sa_stream_incarnation a) "run.terminal" = SOk id ∧
    le_event_type e = "run." +:+ tf_status fact ∧
    append_prepared_application_v4_rows jt now fresh t r [(id, e)] a g = SOk (g', rows).
Proof.
  unfold append_current_run_terminal_v4_row. intros E. destruct (load_current_terminal_event_fact t r life) as [fact|]; [|done].
  destruct (get_stream_authority db t r) as [a|] eqn:Ea; [|done]. destruct (String.eqb_spec (sa_revocation_state a) "active") as [Hact|]; [|done].
  cbn [negb] in E. apply sbind_ok in E as (id & Hid & E). unfold StreamRows.append_run_terminal_v4_row in E.
  apply sbind_ok in E as (payload & _ & E). unfold append_run_v4_row in E. rewrite Ea in E. apply sbind_ok in E as ([g1 row1] & E1 & E).
  injection E as <- <-. unfold append_application_v4_row in E1. apply sbind_ok in E1 as ([id' e] & Ep & E1).
  apply sbind_ok in E1 as ([g2 rows] & E2 & E1). destruct rows as [|row2 rows]; [done|]. injection E1 as <- <-.
  apply prepare_identity in Ep as [-> Ht].
  - exists fact, a, id, e, (row2 :: rows). by split_and!.
  - unfold stable_run_event_id in Hid. apply sbind_ok in Hid as (text & _ & Hid). by injection Hid as <-.
Qed.

(** One prepared row that was appended is in the ledger, with its type. *)
Lemma one_row_recorded now fresh t r id e a g g' rows :
  ledger_inv g → append_prepared_application_v4_rows jt now fresh t r [(id, e)] a g = SOk (g', rows) →
  rtc ledger_step g g' ∧ (∃ row, row ∈ lg_events g' ∧ er_id row = id ∧ es_event_type (er_shape row) = le_event_type e) ∧
  ((∃ row, row ∈ lg_events g ∧ er_id row = id) → g' = g).
Proof.
  intros Hi E. destruct (append_prepared_spec _ _ _ _ _ _ _ _ _ _ Hi E) as (unique & new & Hu & Hx & Hr & Hid & Hsh & Hc & Hn).
  cbn [unique_rows assoc app] in Hu. injection Hu as <-. split; [done|]. cbn [List.filter fst snd] in Hid, Hsh.
  destruct (str_in id (er_id <$> lg_events g)) eqn:Ei; cbn [negb map] in Hid, Hsh.
  - assert (new = []) as -> by (by destruct new). specialize (Hn eq_refl). subst g'. split; [|done].
    apply str_in_elem, list_elem_of_fmap in Ei as (row & -> & Hrow). exists row. split_and!; [done|done|].
    assert (row_conflicts t r e row = false) as Hcr by (apply Hc; [done|]; cbn; by rewrite String.eqb_refl).
    unfold row_conflicts in Hcr. rewrite !orb_false_iff, !negb_false_iff, !String.eqb_eq in Hcr. by destruct Hcr as [[[_ ?] _] _].
  - split.
    + destruct new as [|row [|? ?]]; try done. cbn [map] in Hid, Hsh. injection Hid as Hid. injection Hsh as Hsh. exists row.
      split_and!; [rewrite (ex_events _ _ _ _ _ Hx); apply elem_of_app; right; by left|done|by rewrite Hsh].
    + intros (row & Hrow & <-). apply str_in_false in Ei. destruct Ei. by apply (list_elem_of_fmap_2 er_id).
Qed.

(** The end of a run is recorded once on its stream.  After the worker, the
    cancellation or the publisher has recorded the end of a run, then whoever records it
    again later on the same stream, after any committed work, adds nothing to the ledger,
    and the status it records is the recorded one: there is exactly one row under the
    identity of the end, and its type names that status. *)
Lemma end_recorded_once now fresh now' fresh' t r life life' db db' a a' g g1 g2 g3 row row' :
  rtc ledger_step empty_ledger g → get_stream_authority db t r = Some a → get_stream_authority db' t r = Some a' →
  sa_attempt_id a' = sa_attempt_id a → sa_stream_incarnation a' = sa_stream_incarnation a →
  append_current_run_terminal_v4_row jt now fresh t r life db g = SOk (g1, Some row) → rtc ledger_step g1 g2 →
  append_current_run_terminal_v4_row jt now' fresh' t r life' db' g2 = SOk (g3, Some row') →
  g3 = g2 ∧
  ∃ id stored status, stable_run_event_id t r (sa_attempt_id a) (sa_stream_incarnation a) "run.terminal" = SOk id ∧
    List.filter (fun x => String.eqb (er_id x) id) (lg_events g2) = [stored] ∧ es_event_type (er_shape stored) = "run." +:+ status ∧
    tf_status <$> load_current_terminal_event_fact t r life = Some status ∧ tf_status <$> load_current_terminal_event_fact t r life' = Some status.
Proof.
  intros Hg%reachable_ledger Ha Ha' Hat Hin E1 Hr E2.
  destruct (current_terminal_spec _ _ _ _ _ _ _ _ _ E1) as (f1 & a1 & id & e1 & rows1 & F1 & A1 & _ & I1 & T1 & P1).
  destruct (current_terminal_spec _ _ _ _ _ _ _ _ _ E2) as (f2 & a2 & id2 & e2 & rows2 & F2 & A2 & _ & I2 & T2 & P2).
  rewrite Ha in A1. injection A1 as <-. rewrite Ha' in A2. injection A2 as <-. rewrite Hat, Hin, I1 in I2. injection I2 as <-.
  destruct (one_row_recorded _ _ _ _ _ _ _ _ _ _ Hg P1) as (R1 & (x & Hx & Hxi & Hxt) & _).
  assert (ledger_inv g1) as Hg1 by by eapply steps_inv. assert (ledger_inv g2) as Hg2 by by eapply steps_inv.
  assert (x ∈ lg_events g2) as Hx2 by (destruct (steps_events _ _ Hg1 Hr) as [more ->]; apply elem_of_app; by left).
  destruct (one_row_recorded _ _ _ _ _ _ _ _ _ _ Hg2 P2) as (_ & (y & Hy & Hyi & Hyt) & Hsame).
  assert (g3 = g2) as -> by (apply Hsame; eauto). split; [done|].
  pose proof (filter_by_id _ _ (in_ids _ Hg2) Hx2) as Hfx. pose proof (filter_by_id _ _ (in_ids _ Hg2) Hy) as Hfy.
  rewrite Hxi in Hfx. rewrite Hyi, Hfx in Hfy. injection Hfy as <-.
  assert (tf_status f1 = tf_status f2) as Hst by (rewrite Hxt, T1, T2 in Hyt; by injection Hyt).
  exists id, x, (tf_status f1). rewrite F1, F2. cbn [fmap option_fmap option_map]. rewrite <- Hst, Hxt, T1. by split_and!.
Qed.

End Ends.

(** ** Acknowledged batches are in the stream *)

Section Batches.
Context `{LuaRuntime} `{PyRuntime} `{StreamRuntime} (jt : pyval → option string).

(** A run of XADDs puts its texts at the end, in order, and Redis drops from the front
    only. *)
Lemma xadd_retains now m trim text c c' i :
  xadd now m trim text c = Some (c', i) →
  ∃ k, entries c' = drop k (entries c ++ [StreamEntry i text]) ∧ (k <= length (entries c) + 1 - m)%nat ∧ ∀ f, hget c' f = hget c f.
Proof.
  unfold xadd. destruct (next_id _ _) as [j|]; [|done]. intros [= <- <-].
  assert (rs_entries (default (RedisStream [] (0, 0) None) (ch_stream c)) = entries c) as He by (unfold entries; by destruct (ch_stream c)).
  exists (Nat.min trim (length (entries c ++ [StreamEntry j text]) - m)). unfold entries at 1. cbn [ch_stream rs_entries]. rewrite He.
  split; [done|]. split; [|done]. rewrite length_app. cbn [length]. lia.
Qed.
Lemma xadd_all_retains now m trims texts c last0 c' i :
  xadd_all now m trims texts c last0 = Some (c', i) →
  ∃ k new, entries c' = drop k (entries c ++ new) ∧ map en_envelope new = texts ∧ (k <= length (entries c) + length texts - m)%nat ∧
    ∀ f, hget c' f = hget c f.
Proof.
  revert trims c last0. induction texts as [|text texts IH]; intros trims c last0 E; cbn [xadd_all] in E.
  { injection E as <- _. exists 0%nat, []. rewrite app_nil_r. split_and!; try done. lia. }
  destruct (xadd now m (hd 0%nat trims) text c) as [[c1 j]|] eqn:Ex; [|done].
  destruct (xadd_retains _ _ _ _ _ _ _ Ex) as (k1 & E1 & K1 & F1). destruct (IH _ _ _ E) as (k2 & new & E2 & N2 & K2 & F2).
  assert (k1 <= length (entries c) + 1)%nat as Hk by lia.
  exists (k1 + k2)%nat, (StreamEntry j text :: new). cbn [map length]. rewrite N2. split_and!; [|done| |by intros f; rewrite F2].
  - rewrite E2, E1, <- drop_drop, (cons_middle _ (entries c) new), app_assoc, (drop_app_le (entries c ++ [StreamEntry j text]) new k1) by (rewrite length_app; cbn; lia). done.
  - rewrite E1, length_drop, length_app in K2. cbn [length] in K2. lia.
Qed.

Lemma projected_validates created fields v e :
  project_public_v4 created fields v = SOk (Some e) → validate_internal_envelope_v4 None (PDict (envelope_dict e)) = SOk e.
Proof.
  unfold project_public_v4. intros E. destruct (negb _); [done|]. destruct (row_metadata fields) as [meta|]; [|done].
  destruct (authority_row fields meta v) as [[id ty]|]; [|done]. unfold or_none in E.
  destruct (sbind _ _) as [e'|[]] eqn:Eb in E; try done. injection E as ->. apply sbind_ok in Eb as (n & _ & Eb). apply sbind_ok in Eb as ([] & _ & Eb).
  apply sbind_ok in Eb as (at' & _ & Eb). eapply validation_idempotent; [exact Eb|done].
Qed.
Lemma committed_validate a rows es :
  project_committed a rows = SOk es → validate_all (map (fun e => PDict (envelope_dict e)) es) = SOk es.
Proof.
  revert es. induction rows as [|row rows IH]; intros es E; cbn [project_committed] in E; [by injection E as <-|].
  apply sbind_ok in E as ([e|] & Ep & E); [|done]. apply sbind_ok in E as (es' & E' & E). injection E as <-. cbn [map validate_all].
  rewrite (projected_validates _ _ _ _ Ep). cbn [sbind]. by rewrite (IH _ E').
Qed.

Lemma strings_read l : strings_of (LStr <$> l) = Some l.
Proof. unfold strings_of. induction l as [|x l IH]; [done|]. cbn in *. by rewrite IH. Qed.

Lemma channel_at_insert key c (ss : streams) : channel_at (<[key := c]> ss) key = c.
Proof. unfold channel_at. pose proof (lookup_insert_eq (ss : gmap string channel) key c) as E. unfold streams in *. by rewrite E. Qed.

(** What an answered batch did to the channel. *)
Lemma callback_answered now trims b c c' reply texts :
  append_callback now trims b c = (c', RId reply) → cjson_decode (ba_envelopes b) = Some (LArr (LStr <$> texts)) →
  (∃ d q, tonumber_str (default "0" (hget (expire now c) "callback_sequence")) = Some d ∧ tonumber_str (py_str_int (ba_sequence b)) = Some q ∧
     lnum_leb q d = true ∧ c' = expire now c ∧ (lnum_eqb d q = true → field_is (expire now c) "callback_digest" (ba_digest b) = true)) ∨
  (is_phase (hget (expire now c) "phase") "open" = true ∧ hget c' "callback_sequence" = Some (py_str_int (ba_sequence b)) ∧
   ∃ k new, entries c' = drop k (entries (expire now c) ++ new) ∧ map en_envelope new = texts ∧
     (k <= length (entries (expire now c)) + length texts - ba_maxlen b)%nat).
Proof.
  unfold append_callback. generalize (expire now c) as c0. intros c0 E Hd. destruct (_ || _); [done|].
  destruct (tonumber_str (default _ _)) as [d|] eqn:E1; [|done]. destruct (tonumber_str (py_str_int _)) as [q|] eqn:E2; [|done].
  destruct (lnum_leb q d) eqn:El.
  { left. exists d, q. destruct (lnum_eqb d q) eqn:Eq; cbn [andb] in E.
    - destruct (field_is c0 "callback_digest" (ba_digest b)) eqn:Ef; [|done]. injection E as <- _. by split_and!.
    - injection E as <- _. by split_and!. }
  right. destruct (is_phase _ _) eqn:Ep; [|done]. cbn [negb] in E. split; [done|]. rewrite Hd, strings_read in E.
  destruct (xadd_all _ _ _ _ _ _) as [[c1 [i|]]|] eqn:Ex; try done. injection E as <- _.
  destruct (xadd_all_retains _ _ _ _ _ _ _ _ Ex) as (k & new & He & Hn & Hk & Hf). split.
  - by rewrite (proj2 (touch_view _ _ _)), hget_hset.
  - exists k, new. split; [|done]. rewrite (proj1 (touch_view _ _ _)). done.
Qed.

(** An answered call of [append_callback_batch]. *)
Lemma batch_answered net now trims es ss ss' id :
  publish_callback_batch net now trims es ss = (ss', SOk id) → validate_all (map (fun e => PDict (envelope_dict e)) es) = SOk es →
  ∃ first rest texts n key c', es = first :: rest ∧ canonical_all es = SOk texts ∧ batch_sequence first 0 es = Some n ∧
    stream_key (ev_tenant_scope first) (ev_run_id first) (ev_stream_incarnation first) = SOk key ∧ ss' = <[key := c']> ss ∧
    ∃ reply, append_callback now trims (BatchArgs n (sha256_hex (json_dumps (PList (PStr <$> texts)))) (json_dumps (PList (PStr <$> texts)))
                                          SSE_STREAM_MAXLEN SSE_STREAM_ACTIVE_IDLE_TTL_MS) (channel_at ss key) = (c', RId reply).
Proof.
  unfold publish_callback_batch, append_callback_batch. intros E Hv. rewrite Hv in E. destruct es as [|first rest]; [by destruct net|].
  cbn [map] in E. cbn [sbind] in E. destruct (batch_sequence first 0 (first :: rest)) as [n|] eqn:En; [|done].
  destruct (canonical_all (first :: rest)) as [texts|ex] eqn:Et; [|by destruct ex]. cbn [sbind] in E.
  destruct (stream_key _ _ _) as [key|ex] eqn:Ek; [|by destruct ex]. cbn [sbind] in E.
  destruct (append_callback now trims _ (channel_at ss key)) as [c' answer] eqn:Ea. destruct net as [|ran]; [|by destruct ran].
  destruct answer as [reply|m]; [|by destruct (String.eqb m _)].
  exists first, rest, texts, n, key, c'. split_and!; try done; [|by exists reply]. by destruct reply; injection E as <- _.
Qed.

(** C35.  An acknowledged batch is in the stream.  When the publication of the rows of a
    callback batch returns, the script ran on the channel of the stream as the publication
    of the preceding event, and whatever other clients did after that, had left it.  Either
    the stream had a callback sequence at or after that of the batch already, with the
    receipt of this very batch if it is the same, and is left alone; or the stream was open,
    the canonical texts of the rows were added behind what it had, in the order of the
    ledger and each once (Redis drops only older entries), and the callback sequence of the
    stream is that of the last row.  No other channel changes.  (The Lua JSON decoder reads
    the list of texts that Python's encoder writes.) *)
Theorem acknowledged_batch_is_published now fresh w net batch_now trims between1 between2 rows a p p' :
  publish_callback_rows jt now fresh w net batch_now trims between1 between2 rows a p = (p', SOk tt) → rows ≠ [] →
  (∀ es texts, project_committed a rows = SOk es → canonical_all es = SOk texts →
     cjson_decode (json_dumps (PList (PStr <$> texts))) = Some (LArr (LStr <$> texts))) →
  ∃ first rest texts n key, project_committed a rows = SOk (first :: rest) ∧ canonical_all (first :: rest) = SOk texts ∧
    batch_sequence first 0 (first :: rest) = Some n ∧
    stream_key (ev_tenant_scope first) (ev_run_id first) (ev_stream_incarnation first) = SOk key ∧
    let ss := pl_streams (between2 (publish_predecessor jt now fresh w between1 first a p).1) in
    let c := expire batch_now (channel_at ss key) in let c' := channel_at (pl_streams p') key in
    pl_streams p' = <[key := c']> ss ∧
    ((∃ d q, tonumber_str (default "0" (hget c "callback_sequence")) = Some d ∧ tonumber_str (py_str_int n) = Some q ∧ lnum_leb q d = true ∧
        c' = c ∧ (lnum_eqb d q = true → field_is c "callback_digest" (sha256_hex (json_dumps (PList (PStr <$> texts)))) = true)) ∨
     (is_phase (hget c "phase") "open" = true ∧ hget c' "callback_sequence" = Some (py_str_int n) ∧
      ∃ k new, entries c' = drop k (entries c ++ new) ∧ map en_envelope new = texts ∧
        (length texts <= SSE_STREAM_MAXLEN → k <= length (entries c))%nat)).
Proof.
  intros E Hne Hjson. unfold publish_callback_rows in E. destruct (project_committed a rows) as [es|] eqn:Ep; [|done].
  pose proof (committed_validate _ _ _ Ep) as Hv. destruct es as [|first rest].
  { destruct rows as [|row rows]; [done|]. cbn [project_committed] in Ep. apply sbind_ok in Ep as ([e|] & _ & Ep); [|done].
    by apply sbind_ok in Ep as (es' & _ & Ep). }
  destruct (publish_predecessor jt now fresh w between1 first a p) as [p2 [[]|]] eqn:Epp; [|done].
  destruct (publish_callback_batch net batch_now trims (first :: rest) _) as [ss' r] eqn:Eb. injection E as <- Er.
  apply sbind_ok in Er as (id & -> & _).
  destruct (batch_answered _ _ _ _ _ _ _ Eb Hv) as (f & rs & texts & n & key & c' & [= <- <-] & Ht & Hn & Hk & -> & reply & Ea).
  exists first, rest, texts, n, key. rewrite Epp. cbn [set_streams pl_streams fst].
  assert (channel_at (<[key := c']> (pl_streams (between2 p2))) key = c') as Hc by (apply channel_at_insert).
  cbn zeta. rewrite Hc. split_and!; try done.
  destruct (callback_answered _ _ _ _ _ _ texts Ea (Hjson _ _ eq_refl Ht)) as [Hd|(Hph & Hseq & k & new & He & Hm & Hkb)]; [by left|right].
  split_and!; [done|done|]. exists k, new. split_and!; [done|done|]. cbn [ba_maxlen] in Hkb. lia.
Qed.

End Batches.

(** ** Executors are dispatched on open streams *)

Section Admission.
Context `{LuaRuntime} `{PyRuntime} `{StreamRuntime} (hmac_sha256_hex : string → string → string) (secret : string).

(** The opening event is accepted only with its receipt. *)
Lemma open_receipt now trim a c c' reply :
  append_with_ttl now trim a c = (c', RId reply) → aa_type a = "stream_open" → (1 <= aa_maxlen a)%nat →
  field_is c' "open_event_id" (aa_event_id a) = true ∧ field_is c' "open_digest" (aa_digest a) = true.
Proof.
  intros E Ht Hm. unfold append_with_ttl in E. destruct (append_gate now a (expire now c)) as [[c1 x]|] eqn:Eg.
  - injection E as -> ->. unfold append_gate in Eg. rewrite Ht in Eg. cbn [String.eqb Ascii.eqb Bool.eqb] in Eg.
    destruct (negb _); [done|]. destruct (_ && negb _); [done|]. destruct (_ && (_ =? 0)); [done|].
    destruct (_ && field_is _ "open_event_id" _ && field_is _ "open_digest" _) eqn:Ef; [|by destruct (_ || _)].
    rewrite !andb_true_iff in Ef. destruct Ef as [[_ F1] F2]. unfold field_is in *.
    destruct (is_phase _ "open"); injection Eg as <- _; rewrite ?(proj2 (touch_view _ _ _)); done.
  - rewrite Ht in E. cbn [String.eqb Ascii.eqb Bool.eqb orb] in E. destruct (commit_view _ _ _ _ _ _ E Hm) as (id & _ & _ & Hf).
    unfold field_is, receipts in *. rewrite !Hf, Ht. cbn. by rewrite !String.eqb_refl.
Qed.

Lemma pending_opens a :
  check_pending_admission a = SOk a → ∃ v e, json_loads (pa_open_payload_bytes a) = Some v ∧ validate_internal_envelope_v4 None v = SOk e ∧
    canonical_json_bytes (PDict (envelope_dict e)) = SOk (pa_open_payload_bytes a) ∧ ev_event_type e = "stream.open" ∧
    ev_event_id e = pa_open_event_id a ∧ ev_tenant_scope e = pa_tenant_scope a ∧ ev_run_id e = pa_run_id a ∧
    ev_attempt_id e = pa_attempt_id a ∧ ev_stream_incarnation e = pa_stream_incarnation a ∧
    sha256_hex (pa_open_payload_bytes a) = pa_open_payload_digest a.
Proof.
  unfold check_pending_admission. intros E. apply sbind_ok in E as (_ & _ & E). destruct (_ <? 1); [done|].
  destruct (negb (str_truthy _)); [done|]. destruct (String.eqb_spec (sha256_hex (pa_open_payload_bytes a)) (pa_open_payload_digest a)) as [Hd|]; [|done].
  cbn [negb] in E. destruct (json_loads _) as [v|]; [|done]. destruct (validate_internal_envelope_v4 None v) as [e|ex] eqn:Ev.
  2: { by destruct (is_value_error ex). }
  cbn [sbind] in E. apply sbind_ok in E as (text & Et & E). destruct (_ || _) eqn:Ec; [done|].
  rewrite !orb_false_iff, !negb_false_iff, !String.eqb_eq, Z.eqb_eq in Ec. destruct Ec as [[[[[[-> C1] C2] C3] C4] C5] C6].
  exists v, e. by split_and!.
Qed.

(** An admitted stream is open: when the admission of an attempt returns, the authority of
    the attempt is confirmed (or its run has ended meanwhile), and Redis had accepted the
    opening event of exactly this authority on the channel of the stream, whatever else
    happened to the database and to Redis in between. *)
Lemma admitted_stream_is_open now w between1 between2 t r att p p' a :
  admit_v4_stream hmac_sha256_hex secret now w between1 between2 t r att p = (p', SOk a) →
  get_stream_authority (pl_sse p') (sa_tenant_id a) (sa_run_id a) = Some a ∧ str_in (sa_state a) ["confirmed"; "terminal"] = true ∧
  ∃ key pending, let ss := (publish w (pa_open_payload_bytes pending)
      (pl_streams (between1 (prepare_pending_authority hmac_sha256_hex secret now t r att p).1))).1 in
    stream_key (pa_tenant_scope pending) (pa_run_id pending) (pa_stream_incarnation pending) = SOk key ∧
    sa_attempt_id a = pa_attempt_id pending ∧ sa_stream_incarnation a = pa_stream_incarnation pending ∧
    field_is (channel_at ss key) "open_event_id" (sa_open_event_id a) = true ∧
    field_is (channel_at ss key) "open_digest" (sa_open_payload_digest a) = true.
Proof.
  unfold admit_v4_stream. destruct (prepare_pending_authority _ _ now t r att p) as [p1 [pending|]] eqn:Eprep; [|done].
  destruct (publish w _ (pl_streams (between1 p1))) as [ss r1] eqn:Epub. intros E.
  destruct (sbind r1 validate_v4_transport_receipt) as [id|] eqn:Er; [|done]. apply sbind_ok in Er as (id' & -> & _).
  assert (check_pending_admission pending = SOk pending) as Hck.
  { unfold prepare_pending_authority in Eprep. destruct (ld_runs _ !! _); [|done]. destruct (_ && _); [done|].
    destruct (tenant_scope _ _ _); [|done]. cbn [sbind] in Eprep. destruct (create_or_get_stream_admission_v4 _ _ _ _ _ _) as [[db x0]|]; [|done].
    cbn [sbind] in Eprep. destruct (check_pending_admission _) as [pd|] eqn:Ec; [|done]. cbn [sbind] in Eprep. injection Eprep as _ <-.
    assert (∀ x y, check_pending_admission x = SOk y → y = x) as Hid.
    { intros x y. unfold check_pending_admission. intros Ex. apply sbind_ok in Ex as (_ & _ & Ex). destruct (_ <? 1); [done|].
      destruct (negb _); [done|]. destruct (negb _); [done|]. apply sbind_ok in Ex as (? & _ & Ex). apply sbind_ok in Ex as (? & _ & Ex).
      destruct (_ || _); [done|]. by injection Ex. }
    by rewrite (Hid _ _ Ec) at 1. }
  destruct (pending_opens _ Hck) as (v & e & Hl & Hv & Hc & O1 & O2 & O3 & O4 & O5 & O6 & O7).
  unfold confirm_pending_admission in E. destruct (get_stream_authority (pl_sse (between2 _)) _ _) as [a0|]; [|done].
  destruct (_ || _) eqn:Ef; [done|]. rewrite !orb_false_iff, !negb_false_iff, !String.eqb_eq, Z.eqb_eq in Ef. destruct Ef as [[[F1 F2] F3] F4].
  unfold confirm_stream_admission in E. destruct (get_stream_authority _ (sa_tenant_id a0) _) as [a1|]; [|done].
  destruct (_ && _) eqn:Eg; [|done]. rewrite !andb_true_iff, !String.eqb_eq, Z.eqb_eq in Eg. destruct Eg as [[[[G1 G2] G3] G4] G5].
  injection E as <- <-. split; [unfold get_stream_authority, set_authority; cbn; by rewrite lookup_insert_eq|].
  split; [cbn [set_state sa_state]; by destruct (String.eqb _ _)|]. cbn [fst].
  assert (∃ key, stream_key (pa_tenant_scope pending) (pa_run_id pending) (pa_stream_incarnation pending) = SOk key ∧
    field_is (channel_at ss key) "open_event_id" (pa_open_event_id pending) = true ∧
    field_is (channel_at ss key) "open_digest" (pa_open_payload_digest pending) = true) as (key & K1 & K2 & K3).
  { unfold publish in Epub. rewrite Hl in Epub. unfold bridge_append in Epub. rewrite Hv in Epub.
    cbn [sbind] in Epub. rewrite Hc in Epub. unfold terminal_reference in Epub. rewrite !O1 in Epub.
    cbn [sbind v4_nonempty str_truthy String.eqb Ascii.eqb Bool.eqb str_in orb negb RUN_TERMINAL_EVENT_TYPES] in Epub. unfold append_canonical in Epub. rewrite O2, O3, O4, O6, !O1 in Epub.
    cbn [str_in String.eqb Ascii.eqb Bool.eqb orb negb] in Epub.
    destruct (stream_key (pa_tenant_scope pending) (pa_run_id pending) (pa_stream_incarnation pending)) as [key|ex] eqn:Ek; [|by destruct ex; repeat case_match; simplify_eq].
    exists key. split; [done|]. destruct (append_with_ttl _ _ _ (channel_at _ key)) as [c' answer] eqn:Ea.
    destruct (w_net w) as [|ran]; [|by repeat case_match; simplify_eq].
    destruct answer as [reply|m]; [|by destruct (str_in m _); repeat case_match; simplify_eq].
    assert (ss = <[key := c']> (pl_streams (between1 p1))) as -> by (by destruct reply; injection Epub as <- _).
    rewrite channel_at_insert. rewrite <- O7. eapply (open_receipt _ _ (append_request (pa_open_event_id pending) "stream.open" (pa_open_payload_bytes pending) "")); [exact Ea|done|].
    cbn. unfold SSE_STREAM_MAXLEN. lia. }
  exists key, pending. cbn zeta. rewrite Epub. cbn [fst set_state sa_attempt_id sa_stream_incarnation sa_open_event_id sa_open_payload_digest].
  rewrite G1, G2, G4, G5, F1, F2, F3, F4. by split_and!.
Qed.

End Admission.

(** ** A published batch *)

Definition published_key : string := match stream_key "t_1" "run_7" 1 with SOk k => k | SErr _ => "" end.
Definition opened_channel : channel := (@append_with_ttl stream_lua 1000 0 sample_open empty_channel).1.
Definition sample_plane : plane := Plane (LifecycleDb ∅ [] ∅ [] []) sample_appended.1 sample_db {[published_key := opened_channel]}.
Definition answered : wire := Wire Answered Answered 1500 1500 0 0 id.
Definition after_publication : plane :=
  (@publish_callback_rows stream_lua toy_py toy_stream (fun _ => None) 1735689600000000 "0b" answered Answered 2000 [] id id sample_appended.2
     sample_authority sample_plane).1.

Lemma toy_strings texts : @cjson_decode stream_lua (@json_dumps toy_py (PList (PStr <$> texts))) = Some (LArr (LStr <$> texts)).
Proof.
  cbn [cjson_decode stream_lua json_dumps toy_py]. assert (lval_of_py (PList (PStr <$> texts)) = LArr (LStr <$> texts)) as ->.
  { cbn [lval_of_py]. f_equal. induction texts as [|x texts IH]; [done|]. cbn [fmap list_fmap map lval_of_py]. f_equal. exact IH. }
  apply decode_encode_text.
Qed.

Lemma publication_answered :
  (@publish_callback_rows stream_lua toy_py toy_stream (fun _ => None) 1735689600000000 "0b" answered Answered 2000 [] id id sample_appended.2
     sample_authority sample_plane).2 = SOk tt.
Proof. vm_compute. reflexivity. Qed.

Definition published_events : list envelope :=
  match @project_committed toy_py toy_stream sample_authority sample_appended.2 with SOk es => es | SErr _ => [] end.
Definition published_texts : list string := match @canonical_all toy_py published_events with SOk l => l | SErr _ => [] end.
Definition untouched_channel : channel := @expire 2000 opened_channel.

Lemma published_values :
  match published_events with
  | [] => False
  | f :: _ => stream_key (ev_tenant_scope f) (ev_run_id f) (ev_stream_incarnation f) = SOk published_key ∧
      @batch_sequence f 0 published_events = Some 4 ∧
      @expire 2000 (channel_at (pl_streams (@publish_predecessor stream_lua toy_py toy_stream (fun _ => None) 1735689600000000 "0b" answered id f
        sample_authority sample_plane).1) published_key) = untouched_channel
  end.
Proof. vm_compute. done. Qed.

(** The four rows of the sample batch are behind the opening event. *)
Lemma acknowledged_batch_is_published_witness :
  let c' := channel_at (pl_streams after_publication) published_key in
  length published_texts = 4%nat ∧ hget c' "callback_sequence" = Some (py_str_int 4) ∧
  ∃ k new, entries c' = drop k (entries untouched_channel ++ new) ∧ map en_envelope new = published_texts ∧
    (k <= length (entries untouched_channel))%nat.
Proof.
  cbn zeta. split; [vm_compute; reflexivity|].
  destruct (@acknowledged_batch_is_published stream_lua toy_py toy_stream (fun _ => None) 1735689600000000 "0b" answered Answered 2000 [] id id
    sample_appended.2 sample_authority sample_plane after_publication) as (first & rest & texts & n & key & Hp & Ht & Hn & Hk & _ & Hc).
  - rewrite <- publication_answered. apply surjective_pairing.
  - vm_compute. discriminate.
  - intros es texts _ _. apply toy_strings.
  - assert (published_events = first :: rest) as Ef by (unfold published_events; by rewrite Hp).
    assert (published_texts = texts) as <- by (unfold published_texts; by rewrite Ef, Ht).
    pose proof published_values as Hv. rewrite Ef in Hv. destruct Hv as (V1 & V2 & V3). rewrite V1 in Hk. injection Hk as <-.
    rewrite V2 in Hn. injection Hn as <-. change (id ?x) with x in Hc. rewrite V3 in Hc.
    destruct Hc as [(d & q & Hd & Hq & Hle & _)|(_ & Hs & k & new & He & Hm & Hb)].
    + vm_compute in Hd, Hq. injection Hd as <-. injection Hq as <-. discriminate Hle.
    + split; [exact Hs|]. exists k, new. split_and!; [exact He|exact Hm|]. apply Hb. vm_compute. lia.
Defined.
