(* ===== verification/RunInputs.v ===== *)
(** * Inputs of a running run

    While a run executes, its owner can send it text, and the executor can put questions to
    the owner: [src/app/runs/domain/inputs.py] (rules), the tables run_input_sessions,
    run_input_questions and run_inputs of [src/app/schema.sql] with
    [src/app/runs/infrastructure/inputs_postgres.py], and the service
    [src/app/runs/application/inputs.py].

    - The sanitizer of public text is an argument of the service, as in the code; what it
      returns may be anything.
    - Answers are stored as jsonb, which forgets the order of keys: a finite map.
    - The hook after a manual answer ([src/app/bootstrap/recovery_operations.py]) belongs to
      the recovery service; its outcome in a call is an argument.
    - An operation runs in one transaction under the lock of the run; one that raises leaves
      the tables as they were.  PostgreSQL keeps no text with a NUL byte.  Timestamps are in
      microseconds. *)
From stdpp Require Import base gmap list strings sorting.
From Stdlib Require Import ZArith Lia Ascii.
From S2P Require Import Prelude Redis PyValue RunAttempt RunTerminal.
#[local] Open Scope py_scope.

Notation pydoc := (list (string * pyval)).

Definition MAX_RUN_INPUT_CHARS : Z := 16000.
Definition MAX_RUN_QUESTION_BATCH : nat := 4.
Definition MAX_RUN_QUESTION_OPTIONS : nat := 8.
Definition MAX_RUN_ANSWER_CHARS : Z := 16000.
Definition RUN_QUESTION_TIMEOUT : Z := 300 * 1000000.

(** ** Identifiers *)

(** [int(text, 16)], which accepts more than plain digits. *)
Class HexRuntime := { int_base16 : string → option Z }.

(** [s.replace(p, "")]. *)
Fixpoint remove_all (fuel : nat) (p s : string) : string :=
  match fuel with
  | O => s
  | S fuel =>
      match strip_prefix p s with
      | Some s' => remove_all fuel p s'
      | None => match s with EmptyString => EmptyString | String c s' => String c (remove_all fuel p s') end
      end
  end.
Definition without (p s : string) : string := remove_all (S (String.length s)) p s.
(** [s.strip("{}")]. *)
Definition strip_braces (s : string) : string :=
  let half s := strip_many ["{"; "}"] (String.length s) s in str_rev (half (str_rev (half s))).

Definition hex_char (d : Z) : ascii := ascii_of_N (Z.to_N (if d <? 10 then 48 + d else 87 + d)).
(** ["%0<k>x" % n]. *)
Fixpoint hex_text (k : nat) (n : Z) (acc : string) : string :=
  match k with O => acc | S k => hex_text k (n / 16) (String (hex_char (n mod 16)) acc) end.
(** [str(uuid)]. *)
Definition uuid_text (n : Z) : string :=
  let h := hex_text 32 n "" in
  String.substring 0 8 h +:+ "-" +:+ String.substring 8 4 h +:+ "-" +:+ String.substring 12 4 h +:+ "-" +:+ String.substring 16 4 h
  +:+ "-" +:+ String.substring 20 12 h.

(** [str(UUID(value))]. *)
Definition normalize_input_id `{HexRuntime} (value : string) : res string :=
  let digits := without "-" (strip_braces (without "uuid:" (without "urn:" value))) in
  raise! "run_input_id_invalid" when negb (py_len digits =? 32);
  match int_base16 digits with
  | Some n => if (0 <=? n) && (n <? 2 ^ 128) then Ok (uuid_text n) else Raise "run_input_id_invalid"
  | None => Raise "run_input_id_invalid"
  end.

Definition normalize_question_id (value : string) : res string :=
  raise! "run_input_question_id_invalid"
    when negb (String.eqb value (strip value)) || negb (id_pattern ["."; "_"; ":"; "-"]%char 127 value);
  Ok value.

(** ** Text *)

Section Text.
Context (sanitize_text : string → pyval).

Definition sanitize_run_input_text (value : pyval) (max_chars : Z) (allow_empty : bool) : res string :=
  match value with
  | PStr text =>
      raise! "run_input_text_invalid" when max_chars <? py_len text;
      match sanitize_text text with
      | PStr result =>
          raise! "run_input_text_invalid" when negb allow_empty && negb (str_truthy (strip result));
          raise! "run_input_text_invalid" when max_chars <? py_len result;
          Ok result
      | _ => Raise "run_input_text_invalid"
      end
  | _ => Raise "run_input_text_invalid"
  end.

(** [_sanitize_question_display]. *)
Definition sanitize_question_display (value : pyval) (max_chars : Z) (fallback : string) : res string :=
  match value with
  | PStr text =>
      raise! "run_input_text_invalid" when negb (str_truthy (strip text));
      let! sanitized := sanitize_run_input_text value max_chars true in
      Ok (if str_truthy (strip sanitized) then sanitized else fallback)
  | _ => Raise "run_input_text_invalid"
  end.

(** ** Questions *)

(** A label that ends in [(recommended)], read from its end.  The reversed pieces are
    bytes of UTF-8. *)
Definition rev_lstrip (s : string) : string := strip_many (str_rev <$> py_spaces) (String.length s) s.
Definition RECOMMENDED_WORDS : list string := ["recommended"; byte_string [230; 142; 168; 232; 141; 144]%N].
Definition BRACKETS : list (string * string) :=
  [("(", ")"); (byte_string [239; 188; 136]%N, byte_string [239; 188; 137]%N)].
Definition is_recommended_question_option (label : pyval) : bool :=
  match label with
  | PStr label =>
      existsb (fun '(open, close) =>
        match strip_prefix (str_rev close) (rev_lstrip (str_rev (py_lower label))) with
        | Some rest =>
            existsb (fun word =>
              match strip_prefix (str_rev word) (rev_lstrip rest) with
              | Some rest => match strip_prefix (str_rev open) (rev_lstrip rest) with Some _ => true | None => false end
              | None => false
              end) RECOMMENDED_WORDS
        | None => false
        end) BRACKETS
  | _ => false
  end.

Record question_option := QuestionOption {
  qo_key : string; qo_label : string; qo_description : string; qo_recommended : option bool
}.
Record question := Question {
  q_key : string; q_question : string; q_header : string; q_options : list question_option; q_multi_select : bool
}.

Definition option_key (i : nat) : string := "o" +:+ py_str_int (Z.of_nat i).
Definition question_key (i : nat) : string := "q" +:+ py_str_int (Z.of_nat i).

Definition canonicalize_option (option_index : nat) (value : pyval) : res question_option :=
  match value with
  | PDict d =>
      raise! "run_input_question_invalid"
        when negb (eq_str (get_default "key" (PStr (option_key option_index)) d) (option_key option_index));
      let! label := sanitize_question_display (get "label" d) 256 ("Option " +:+ py_str_int (Z.of_nat option_index + 1)) in
      let! description := sanitize_run_input_text (get "description" d) 2000 true in
      match assoc "recommended" d with
      | Some (PBool b) => Ok (QuestionOption (option_key option_index) label description (Some b))
      | Some _ => Raise "run_input_question_invalid"
      | None =>
          Ok (QuestionOption (option_key option_index) label description
                (if is_recommended_question_option (get "label" d) then Some true else None))
      end
  | _ => Raise "run_input_question_invalid"
  end.
Fixpoint canonicalize_options (option_index : nat) (values : list pyval) : res (list question_option) :=
  match values with
  | [] => Ok []
  | value :: values =>
      let! option := canonicalize_option option_index value in
      let! options := canonicalize_options (S option_index) values in
      Ok (option :: options)
  end.

Definition canonicalize_question (question_index : nat) (value : pyval) : res question :=
  match value with
  | PDict d =>
      raise! "run_input_question_invalid"
        when negb (eq_str (get_default "key" (PStr (question_key question_index)) d) (question_key question_index));
      let! text := sanitize_question_display (get "question" d) MAX_RUN_ANSWER_CHARS
                     ("Question " +:+ py_str_int (Z.of_nat question_index + 1)) in
      let! header := sanitize_question_display (get "header" d) 128 "Question" in
      match get "options" d with
      | PList options_value =>
          raise! "run_input_question_invalid" when Nat.ltb MAX_RUN_QUESTION_OPTIONS (length options_value);
          let! options := canonicalize_options 0 options_value in
          match get "multiSelect" d with
          | PBool multi_select => Ok (Question (question_key question_index) text header options multi_select)
          | _ => Raise "run_input_question_invalid"
          end
      | _ => Raise "run_input_question_invalid"
      end
  | _ => Raise "run_input_question_invalid"
  end.
Fixpoint canonicalize_all (question_index : nat) (values : list pyval) : res (list question) :=
  match values with
  | [] => Ok []
  | value :: values =>
      let! question := canonicalize_question question_index value in
      let! questions := canonicalize_all (S question_index) values in
      Ok (question :: questions)
  end.
Definition canonicalize_questions (values : pyval) : res (list question) :=
  match values with
  | PList l =>
      raise! "run_input_question_invalid" when match l with [] => true | _ => false end || Nat.ltb MAX_RUN_QUESTION_BATCH (length l);
      canonicalize_all 0 l
  | _ => Raise "run_input_question_invalid"
  end.

(** [public_question]: [except RunInputError]. *)
Definition public_question (questions : pyval) : list question :=
  match canonicalize_questions questions with Ok qs => qs | Raise _ => [] end.

(** ** Answers *)

(** Free text, one option, or a selection. *)
Inductive answer := AText (text : string) | AOne (key : string) | AMany (keys : list string).

Fixpoint select_keys (labels selected : list string) (items : list pyval) : res (list string) :=
  match items with
  | [] => Ok selected
  | PStr item :: items =>
      raise! "run_input_answers_invalid" when negb (str_in item labels) || str_in item selected;
      select_keys labels (selected ++ [item]) items
  | _ => Raise "run_input_answers_invalid"
  end.

Definition canonicalize_answer (q : question) (value : pyval) : res answer :=
  let labels := map qo_key (q_options q) in
  match value with
  | PDict d =>
      raise! "run_input_answers_invalid" when negb (forallb (fun kv => String.eqb kv.1 "text") d && has_key "text" d);
      let! text := sanitize_run_input_text (get "text" d) MAX_RUN_ANSWER_CHARS false in Ok (AText text)
  | PStr key =>
      raise! "run_input_answers_invalid" when q_multi_select q || negb (str_in key labels);
      Ok (AOne key)
  | PList items =>
      raise! "run_input_answers_invalid"
        when negb (q_multi_select q) || match items with [] => true | _ => false end
             || Nat.ltb (length (remove_dups labels)) (length items);
      let! selected := select_keys labels [] items in Ok (AMany selected)
  | _ => Raise "run_input_answers_invalid"
  end.

(** [by_question[key]]: the last question of the key. *)
Definition question_of (questions : list question) (key : string) : option question :=
  last (List.filter (fun q => String.eqb (q_key q) key) questions).
Fixpoint canonicalize_items (questions : list question) (values : pydoc) : res (gmap string answer) :=
  match values with
  | [] => Ok ∅
  | (key, value) :: values =>
      match question_of questions key with
      | Some q =>
          let! a := canonicalize_answer q value in
          let! answers := canonicalize_items questions values in
          Ok (<[key := a]> answers)
      | None => Raise "run_input_answers_invalid"
      end
  end.
Definition canonicalize_answers (values : pyval) (questions : list question) : res (gmap string answer) :=
  match values, questions with
  | PDict d, _ :: _ =>
      raise! "run_input_answers_invalid"
        when negb (forallb (fun kv => str_in kv.1 (map q_key questions)) d && forallb (fun k => has_key k d) (map q_key questions));
      canonicalize_items questions d
  | _, _ => Raise "run_input_answers_invalid"
  end.

End Text.

#[global] Instance question_option_eq_dec : EqDecision question_option.
Proof. solve_decision. Defined.
#[global] Instance question_eq_dec : EqDecision question.
Proof. solve_decision. Defined.
#[global] Instance answer_eq_dec : EqDecision answer.
Proof. solve_decision. Defined.

(** The dict of a canonical question. *)
Definition option_value (o : question_option) : pyval :=
  PDict ([("key", PStr (qo_key o)); ("label", PStr (qo_label o)); ("description", PStr (qo_description o))]
         ++ match qo_recommended o with Some b => [("recommended", PBool b)] | None => [] end).
Definition question_value (q : question) : pyval :=
  PDict [("key", PStr (q_key q)); ("question", PStr (q_question q)); ("header", PStr (q_header q));
         ("options", PList (map option_value (q_options q))); ("multiSelect", PBool (q_multi_select q))].

Definition recommends (o : question_option) : bool := match qo_recommended o with Some b => b | None => false end.
Fixpoint default_answers_from (answers : pydoc) (questions : list question) : option pydoc :=
  match questions with
  | [] => Some answers
  | q :: questions =>
      match q_options q with
      | [] => None
      | first :: _ =>
          let selected := match List.filter recommends (q_options q) with [] => [first] | l => l end in
          let value := if q_multi_select q then PList (map (fun o => PStr (qo_key o)) selected) else PStr (qo_key (List.hd first selected)) in
          default_answers_from (assoc_set (q_key q) value answers) questions
      end
  end.
(** [answers or None]. *)
Definition default_question_answers (questions : list question) : option pydoc :=
  match default_answers_from [] questions with Some [] => None | answers => answers end.

(** ** Tables *)

Record input_session := InputSession { ss_state : string; ss_created_at : Z; ss_updated_at : Z; ss_sealed_at : option Z }.
Record question_row := QuestionRow { qr_questions : pyval; qr_status : string; qr_created_at : Z }.
Record input_row := InputRow {
  ir_attempt_id : string; ir_kind : string; ir_text : option string; ir_question_id : option string; ir_answers : gmap string answer;
  ir_status : string; ir_source : string; ir_created_at : Z
}.

Notation attempt_key := (string * string * string)%type.
(** The primary keys: tenant, run and attempt; and the question; tenant, run and input. *)
Record input_db := InputDb {
  in_sessions : gmap attempt_key input_session;
  in_questions : gmap (attempt_key * string) question_row;
  in_inputs : gmap (string * string * string) input_row
}.
Definition set_sessions f (db : input_db) : input_db := InputDb (f (in_sessions db)) (in_questions db) (in_inputs db).
Definition set_questions f (db : input_db) : input_db := InputDb (in_sessions db) (f (in_questions db)) (in_inputs db).
Definition set_inputs f (db : input_db) : input_db := InputDb (in_sessions db) (in_questions db) (f (in_inputs db)).

Fixpoint has_nul (s : string) : bool :=
  match s with EmptyString => false | String c s' => Ascii.eqb c "000" || has_nul s' end.
Fixpoint value_has_nul (v : pyval) : bool :=
  match v with
  | PStr s => has_nul s
  | PList l => existsb value_has_nul l
  | PDict d => existsb (fun kv => has_nul kv.1 || value_has_nul kv.2) d
  | _ => false
  end.
Definition answer_value (a : answer) : pyval :=
  match a with AText text => PDict [("text", PStr text)] | AOne key => PStr key | AMany keys => PList (map PStr keys) end.

Definition get_owner_run (runs : attempt_db) (tenant_id user_id run_id : string) : option run_row :=
  match db_runs runs !! (tenant_id, run_id) with
  | Some run => if bool_decide (r_user_id run = Some user_id) then Some run else None
  | None => None
  end.
Definition get_current_attempt_id (runs : attempt_db) (tenant_id run_id : string) : option string :=
  a_id <$> fold_left later
    (List.filter (fun a => String.eqb (a_tenant_id a) tenant_id && String.eqb (a_run_id a) run_id && str_in (a_status a) ["claimed"; "running"])
       (db_attempts runs)) None.

Definition get_session (db : input_db) (k : attempt_key) : option input_session := in_sessions db !! k.
Definition open_session (now : Z) (runs : attempt_db) (k : attempt_key) (db : input_db) : res (input_db * input_session) :=
  raise! "database_error" when existsb (fun x => negb (str_truthy x)) [k.1.1; k.1.2; k.2];
  match in_sessions db !! k with
  | Some session => Ok (db, session)
  | None =>
      match db_runs runs !! (k.1.1, k.1.2) with
      | None => Raise "database_error"
      | Some _ => let session := InputSession "open" now now None in Ok (set_sessions (insert k session) db, session)
      end
  end.
Definition get_input (db : input_db) (tenant_id run_id input_id : string) : option input_row := in_inputs db !! (tenant_id, run_id, input_id).
Definition get_question (db : input_db) (k : attempt_key) (question_id : string) : option question_row := in_questions db !! (k, question_id).

(** The constraints of run_inputs. *)
Definition input_row_allowed (db : input_db) (k : attempt_key) (input_id : string) (row : input_row) : bool :=
  match in_inputs db !! (k.1.1, k.1.2, input_id) with Some _ => false | None => true end
  && match in_sessions db !! k with Some _ => true | None => false end
  && match ir_question_id row with
     | Some q => match in_questions db !! (k, q) with Some _ => true | None => false end
     | None => true
     end
  && (String.eqb (ir_source row) "manual" || (String.eqb (ir_source row) "timeout_default" && String.eqb (ir_kind row) "answer"))
  && match ir_kind row, ir_text row, ir_question_id row with
     | "text", Some text, None =>
         negb (str_forall (Ascii.eqb " ") text) && (py_len text <=? 16000) && bool_decide (ir_answers row = ∅) && negb (has_nul text)
     | "answer", None, Some _ =>
         bool_decide (ir_answers row ≠ ∅) && negb (existsb (fun kv => has_nul kv.1 || value_has_nul (answer_value kv.2)) (map_to_list (ir_answers row)))
     | _, _, _ => false
     end.
Definition insert_input (now : Z) (k : attempt_key) (input_id kind : string) (text question_id : option string) (answers : gmap string answer)
    (source : string) (db : input_db) : res (input_db * input_row) :=
  let row := InputRow k.2 kind text question_id answers "queued" source now in
  raise! "database_error" when negb (input_row_allowed db k input_id row);
  Ok (set_inputs (insert (k.1.1, k.1.2, input_id) row) db, row).

Definition publish_question (now : Z) (k : attempt_key) (question_id : string) (questions : list question) (db : input_db)
    : res (input_db * question_row) :=
  let value := PList (map question_value questions) in
  raise! "database_error"
    when value_has_nul value || negb (id_pattern ["."; "_"; ":"; "-"]%char 127 question_id)
         || negb (Nat.leb 1 (length questions) && Nat.leb (length questions) 4);
  match in_questions db !! (k, question_id) with
  | Some row => Ok (db, row)
  | None =>
      raise! "database_error" when match in_sessions db !! k with Some _ => false | None => true end;
      let row := QuestionRow value "pending" now in Ok (set_questions (insert (k, question_id) row) db, row)
  end.
Definition complete_question_recommendations (k : attempt_key) (question_id : string) (questions : list question) (db : input_db)
    : res (input_db * bool) :=
  let value := PList (map question_value questions) in
  raise! "database_error" when value_has_nul value;
  match in_questions db !! (k, question_id) with
  | Some row =>
      raise! "database_error" when negb (Nat.leb 1 (length questions) && Nat.leb (length questions) 4);
      Ok (set_questions (insert (k, question_id) (QuestionRow value (qr_status row) (qr_created_at row))) db, true)
  | None => Ok (db, false)
  end.
Definition set_status (status : string) (row : question_row) : question_row := QuestionRow (qr_questions row) status (qr_created_at row).
Definition set_question_status (k : attempt_key) (question_id status : string) (db : input_db) : input_db * bool :=
  match in_questions db !! (k, question_id) with
  | Some row =>
      if String.eqb (qr_status row) "pending" then (set_questions (insert (k, question_id) (set_status status row)) db, true) else (db, false)
  | None => (db, false)
  end.

(** [order by created_at, input_id]. *)
Definition input_le (a b : string * input_row) : Prop :=
  ir_created_at a.2 < ir_created_at b.2 ∨ (ir_created_at a.2 = ir_created_at b.2 ∧ str_ltb b.1 a.1 = false).
#[global] Instance input_le_dec a b : Decision (input_le a b).
Proof. unfold input_le. apply _. Defined.
Definition run_inputs (db : input_db) (tenant_id run_id : string) : list (string * input_row) :=
  merge_sort input_le
    (omap (fun kr => if String.eqb kr.1.1.1 tenant_id && String.eqb kr.1.1.2 run_id then Some (kr.1.2, kr.2) else None) (map_to_list (in_inputs db))).
Definition list_queued_inputs (db : input_db) (k : attempt_key) (question_id kind : option string) : list (string * input_row) :=
  List.filter (fun ir =>
    String.eqb (ir_attempt_id ir.2) k.2 && String.eqb (ir_status ir.2) "queued"
    && match question_id with Some q => bool_decide (ir_question_id ir.2 = Some q) | None => true end
    && match kind with Some kind => String.eqb (ir_kind ir.2) kind | None => true end) (run_inputs db k.1.1 k.1.2).

Definition applied (row : input_row) : input_row :=
  InputRow (ir_attempt_id row) (ir_kind row) (ir_text row) (ir_question_id row) (ir_answers row) "applied" (ir_source row) (ir_created_at row).
Definition of_attempt (db : input_db) (k : attempt_key) (input_id : string) : option input_row :=
  match in_inputs db !! (k.1.1, k.1.2, input_id) with
  | Some row => if String.eqb (ir_attempt_id row) k.2 then Some row else None
  | None => None
  end.
Definition apply_row (attempt_id : string) (row : input_row) : input_row :=
  if String.eqb (ir_attempt_id row) attempt_id then applied row else row.
Definition resolve_row (row : question_row) : question_row := if String.eqb (qr_status row) "answered" then set_status "resolved" row else row.
Definition acknowledge_inputs (k : attempt_key) (input_ids : list string) (db : input_db) : res input_db :=
  raise! "run_input_ack_mismatch" when match input_ids with [] => true | _ => false end;
  let rows := omap (of_attempt db k) input_ids in
  raise! "run_input_ack_mismatch" when negb (forallb (fun i => match of_attempt db k i with Some _ => true | None => false end) input_ids);
  let db := set_inputs (fun m => foldr (alter (apply_row k.2)) m (map (fun i => (k.1.1, k.1.2, i)) input_ids)) db in
  Ok (set_questions (fun m => foldr (alter resolve_row) m (map (pair k) (omap ir_question_id rows))) db).

Definition seal_session (now : Z) (k : attempt_key) (db : input_db) : res (input_db * input_session) :=
  match in_sessions db !! k with
  | Some session =>
      if String.eqb (ss_state session) "open" then
        let sealed := InputSession "sealed" (ss_created_at session) now (Some (default now (ss_sealed_at session))) in
        Ok (set_sessions (insert k sealed) db, sealed)
      else Ok (db, session)
  | None => Raise "run_input_closed"
  end.

(** ** The service *)

(** What the recovery service does after a manual answer: nothing special, or it owns the
    question; or it raises, a [ValueError] or something else. *)
Inductive hook_outcome := HookDone (owns_question : bool) | HookValueError | HookRaises (code : string).

Record submission := Submission {
  sb_input_id : string; sb_text : option string; sb_question_id : option string; sb_answers : option pydoc; sb_redact_public : bool;
  sb_source : string
}.

Record public_input_row := PublicInput {
  pi_input_id : string; pi_kind : string; pi_source : string; pi_text : option string; pi_question_id : option string;
  pi_answers : pydoc; pi_status : string; pi_created_at : Z
}.
Record public_question_view := PublicQuestion {
  pq_question_id : string; pq_questions : list question; pq_status : string; pq_created_at : Z; pq_deadline_at : Z;
  pq_default_answers : option pydoc
}.
Record inputs_projection := InputsProjection {
  ip_run_id : string; ip_state : string; ip_inputs : list public_input_row; ip_questions : list public_question_view
}.
Record callback_reply := CallbackReply {
  cr_state : string; cr_inputs : list public_input_row; cr_question : option public_question_view; cr_error_code : option string
}.

Fixpoint mapM_res {A B} (f : A → res B) (l : list A) : res (list B) :=
  match l with [] => Ok [] | x :: l => let! y := f x in let! ys := mapM_res f l in Ok (y :: ys) end.

(** The order of the keys of a jsonb object: by length, then by bytes. *)
Definition jsonb_key_le (a b : string * answer) : Prop :=
  (String.length a.1 < String.length b.1)%nat ∨ (String.length a.1 = String.length b.1 ∧ str_ltb b.1 a.1 = false).
#[global] Instance jsonb_key_le_dec a b : Decision (jsonb_key_le a b).
Proof. unfold jsonb_key_le. apply _. Defined.
Definition jsonb_items (answers : gmap string answer) : list (string * answer) := merge_sort jsonb_key_le (map_to_list answers).

Section Service.
Context `{HexRuntime} (sanitize_text : string → pyval).

(** [_canonical_stored_questions]. *)
Definition canonical_stored_questions (value : pyval) : list question := public_question sanitize_text value.

Definition active_attempt_id (runs : attempt_db) (run : run_row) (tenant_id run_id : string) : option string :=
  if negb (String.eqb (py_lower (r_status run)) "running") || match r_cancel_requested_at run with Some _ => true | None => false end
  then None else get_current_attempt_id runs tenant_id run_id.

(** *** Projections *)

Definition public_answer (sanitizer : string → pyval) (a : answer) : res pyval :=
  match a with
  | AOne key => let! text := sanitize_run_input_text sanitizer (PStr key) MAX_RUN_ANSWER_CHARS true in Ok (PStr text)
  | AText text => let! text := sanitize_run_input_text sanitizer (PStr text) MAX_RUN_ANSWER_CHARS true in Ok (PDict [("text", PStr text)])
  | AMany keys =>
      let! texts := mapM_res (fun key => sanitize_run_input_text sanitizer (PStr key) MAX_RUN_ANSWER_CHARS true) keys in
      Ok (PList (map PStr texts))
  end.
Fixpoint public_answers (sanitizer : string → pyval) (answers : pydoc) (items : list (string * answer)) : res pydoc :=
  match items with
  | [] => Ok answers
  | (key, value) :: items =>
      match sanitizer key with
      | PStr safe_key => let! v := public_answer sanitizer value in public_answers sanitizer (assoc_set safe_key v answers) items
      | _ => public_answers sanitizer answers items
      end
  end.
Definition public_input (closed redact_public : bool) (input : string * input_row) : res public_input_row :=
  let sanitizer := if redact_public then sanitize_text else PStr in
  let '(input_id, row) := input in
  let! safe_text := match ir_text row with
                    | Some text => let! t := sanitize_run_input_text sanitizer (PStr text) MAX_RUN_INPUT_CHARS true in Ok (Some t)
                    | None => Ok None
                    end in
  let! answers := public_answers sanitizer [] (jsonb_items (ir_answers row)) in
  let status := if str_truthy (ir_status row) then ir_status row else "queued" in
  Ok (PublicInput input_id (ir_kind row) (if String.eqb (ir_source row) "timeout_default" then "timeout_default" else "manual") safe_text
        (ir_question_id row) answers (if closed && String.eqb status "queued" then "closed" else status) (ir_created_at row)).

Definition public_question_row (close_pending : bool) (question_id : string) (row : question_row) : public_question_view :=
  let status := if str_truthy (qr_status row) then qr_status row else "pending" in
  let questions := public_question sanitize_text (qr_questions row) in
  PublicQuestion question_id questions (if close_pending && str_in status ["pending"; "answered"] then "closed" else status) (qr_created_at row)
    (qr_created_at row + RUN_QUESTION_TIMEOUT) (default_question_answers questions).

(** [order by created_at, attempt_id, question_id]. *)
Definition question_le (a b : string * string * question_row) : Prop :=
  qr_created_at a.2 < qr_created_at b.2 ∨
  (qr_created_at a.2 = qr_created_at b.2 ∧
   (str_ltb a.1.1 b.1.1 = true ∨ (a.1.1 = b.1.1 ∧ str_ltb b.1.2 a.1.2 = false))).
#[global] Instance question_le_dec a b : Decision (question_le a b).
Proof. unfold question_le. apply _. Defined.
Definition list_questions (db : input_db) (tenant_id run_id : string) : list (string * string * question_row) :=
  merge_sort question_le
    (omap (fun kr => if String.eqb kr.1.1.1.1 tenant_id && String.eqb kr.1.1.1.2 run_id then Some (kr.1.1.2, kr.1.2, kr.2) else None)
       (map_to_list (in_questions db))).

Definition get_projection (runs : attempt_db) (tenant_id user_id run_id : string) (redact_public : bool) (db : input_db)
    : res (option inputs_projection) :=
  match get_owner_run runs tenant_id user_id run_id with
  | None => Ok None
  | Some run =>
      let current := active_attempt_id runs run tenant_id run_id in
      let state := match current with
                   | Some a => match get_session db (tenant_id, run_id, a) with
                               | Some session => if str_truthy (ss_state session) then ss_state session else "inactive"
                               | None => "inactive"
                               end
                   | None => "inactive"
                   end in
      let closed (attempt_id : string) := match current with Some a => negb (String.eqb attempt_id a) | None => true end || negb (String.eqb state "open") in
      let! inputs := mapM_res (fun input => public_input (closed (ir_attempt_id input.2)) redact_public input) (run_inputs db tenant_id run_id) in
      Ok (Some (InputsProjection run_id state inputs
                  (map (fun '(attempt_id, question_id, row) => public_question_row (closed attempt_id) question_id row)
                     (list_questions db tenant_id run_id))))
  end.

(** *** Submissions *)

Definition require_same_submission (sanitizer : string → pyval) (tenant_id run_id : string) (existing : input_row) (s : submission)
    (db : input_db) : res unit :=
  match sb_text s with
  | Some text =>
      raise! "run_input_id_conflict" when negb (String.eqb (ir_kind existing) "text");
      let! safe_text := sanitize_run_input_text sanitizer (PStr text) MAX_RUN_INPUT_CHARS false in
      raise! "run_input_id_conflict" when negb (bool_decide (ir_text existing = Some safe_text));
      Ok tt
  | None =>
      raise! "run_input_id_conflict" when negb (String.eqb (ir_kind existing) "answer");
      match sb_question_id s, sb_answers s with
      | Some question_id, Some answers =>
          let! question_id := normalize_question_id question_id in
          raise! "run_input_id_conflict" when negb (String.eqb (default "" (ir_question_id existing)) question_id);
          match get_question db (tenant_id, run_id, ir_attempt_id existing) question_id with
          | None => Raise "run_input_id_conflict"
          | Some question =>
              let! safe_answers := canonicalize_answers sanitizer (PDict answers) (canonical_stored_questions (qr_questions question)) in
              raise! "run_input_id_conflict" when negb (bool_decide (ir_answers existing = safe_answers));
              Ok tt
          end
      | _, _ => Raise "run_input_id_conflict"
      end
  end.

(** The hook [answer]: when the recovery service owns the question the input is applied at
    once.  [RunInputConflict] is a [ValueError]. *)
Definition recovery_answer (k : attempt_key) (input_id : string) (outcome : hook_outcome) (db : input_db) : res input_db :=
  match outcome with
  | HookValueError => Raise "run_input_recovery_answer_invalid"
  | HookRaises code => Raise code
  | HookDone false => Ok db
  | HookDone true =>
      match acknowledge_inputs k [input_id] db with Ok db => Ok db | Raise _ => Raise "run_input_recovery_answer_invalid" end
  end.

(** What a submission stores: its kind, text, question and answers. *)
Definition submission_content (sanitizer : string → pyval) (k : attempt_key) (s : submission) (db : input_db)
    : res (string * option string * option string * gmap string answer) :=
  match sb_text s, sb_question_id s, sb_answers s with
  | Some text, _, _ =>
      let! stored_text := sanitize_run_input_text sanitizer (PStr text) MAX_RUN_INPUT_CHARS false in
      Ok ("text", Some stored_text, None, ∅)
  | None, Some question_id, Some answers =>
      let! question_id := normalize_question_id question_id in
      match get_question db k question_id with
      | None => Raise "run_input_question_not_found"
      | Some question =>
          let! stored := canonicalize_answers sanitizer (PDict answers) (canonical_stored_questions (qr_questions question)) in
          raise! "run_input_question_already_answered" when negb (String.eqb (qr_status question) "pending");
          Ok ("answer", None, Some question_id, stored)
      end
  | _, _, _ => Raise "assertion_error"
  end.

Definition is_some {A} (x : option A) : bool := match x with Some _ => true | None => false end.
Definition submission_shape (s : submission) : bool :=
  ((is_some (sb_text s) && negb (is_some (sb_question_id s)) && negb (is_some (sb_answers s)))
   || (negb (is_some (sb_text s)) && is_some (sb_question_id s) && is_some (sb_answers s)))
  && str_in (sb_source s) ["manual"; "timeout_default"]
  && negb (String.eqb (sb_source s) "timeout_default" && is_some (sb_text s)).

Definition submit (now : Z) (hook : option hook_outcome) (runs : attempt_db) (tenant_id user_id run_id : string) (s : submission) (db : input_db)
    : res (input_db * option (string * string)) :=
  let sanitizer := if sb_redact_public s then sanitize_text else PStr in
  match get_owner_run runs tenant_id user_id run_id with
  | None => Ok (db, None)
  | Some run =>
      raise! "run_input_shape_invalid" when negb (submission_shape s);
      let! input_id := normalize_input_id (sb_input_id s) in
      match get_input db tenant_id run_id input_id with
      | Some existing =>
          let! _ := require_same_submission sanitizer tenant_id run_id existing s db in
          Ok (db, Some (input_id, ir_status existing))
      | None =>
          match active_attempt_id runs run tenant_id run_id with
          | None => Raise "run_input_closed"
          | Some attempt_id =>
              let k := (tenant_id, run_id, attempt_id) in
              raise! "run_input_closed" when negb (match get_session db k with Some session => String.eqb (ss_state session) "open" | None => false end);
              let! '(kind, text, question_id, answers) := submission_content sanitizer k s db in
              let! '(db, row) := insert_input now k input_id kind text question_id answers (sb_source s) db in
              let! db := match question_id with
                         | None => Ok db
                         | Some question_id =>
                             let '(db, changed) := set_question_status k question_id "answered" db in
                             raise! "run_input_question_already_answered" when negb changed;
                             match hook with
                             | Some outcome => if String.eqb (sb_source s) "manual" then recovery_answer k input_id outcome db else Ok db
                             | None => Ok db
                             end
                         end in
              Ok (db, Some (input_id, ir_status row))
          end
      end
  end.

(** *** The host's questions *)

Definition publish_platform_question (now : Z) (runs : attempt_db) (tenant_id user_id run_id attempt_id question_id : string) (questions : pyval)
    (db : input_db) : res (input_db * public_question_view) :=
  match get_owner_run runs tenant_id user_id run_id with
  | None => Raise "run_input_closed"
  | Some run =>
      let k := (tenant_id, run_id, attempt_id) in
      raise! "run_input_closed" when negb (bool_decide (active_attempt_id runs run tenant_id run_id = Some attempt_id));
      raise! "run_input_closed" when negb (match get_session db k with Some session => String.eqb (ss_state session) "open" | None => false end);
      let! canonical := canonicalize_questions sanitize_text questions in
      let! question_id := normalize_question_id question_id in
      let! '(db, row) := publish_question now k question_id canonical db in
      raise! "run_input_question_id_conflict" when negb (bool_decide (canonical_stored_questions (qr_questions row) = canonical));
      Ok (db, public_question_row false question_id row)
  end.

(** *** Callbacks of the executor *)

(** [_complete_legacy_recommendation_metadata]. *)
Definition complete_option (old new : question_option) : option question_option :=
  let with_recommended o r := QuestionOption (qo_key o) (qo_label o) (qo_description o) r in
  let '(opt, expected) := match qo_recommended old, qo_recommended new with
                          | None, Some r => (with_recommended old (Some r), new)
                          | Some r, None => (old, with_recommended new (Some r))
                          | _, _ => (old, new)
                          end in
  if bool_decide (opt = expected) then Some opt else None.
Fixpoint complete_options (old new : list question_option) : option (list question_option) :=
  match old, new with
  | [], [] => Some []
  | o :: old, n :: new =>
      match complete_option o n, complete_options old new with Some x, Some l => Some (x :: l) | _, _ => None end
  | _, _ => None
  end.
Fixpoint complete_legacy_recommendation_metadata (stored incoming : list question) : option (list question) :=
  match stored, incoming with
  | [], [] => Some []
  | old :: stored, new :: incoming =>
      if String.eqb (q_key old) (q_key new) && String.eqb (q_question old) (q_question new) && String.eqb (q_header old) (q_header new)
         && Bool.eqb (q_multi_select old) (q_multi_select new) then
        match complete_options (q_options old) (q_options new), complete_legacy_recommendation_metadata stored incoming with
        | Some options, Some completed => Some (Question (q_key old) (q_question old) (q_header old) options (q_multi_select old) :: completed)
        | _, _ => None
        end
      else None
  | _, _ => None
  end.

Definition callback_question (now : Z) (k : attempt_key) (state question_id : string) (questions : pyval) (db : input_db)
    : res (input_db * callback_reply) :=
  let! question_id := normalize_question_id question_id in
  let! canonical := canonicalize_questions sanitize_text questions in
  let! '(db, row) := publish_question now k question_id canonical db in
  let stored := canonical_stored_questions (qr_questions row) in
  match complete_legacy_recommendation_metadata stored canonical with
  | None => Raise "run_input_question_id_conflict"
  | Some compatible =>
      let! '(db, row) :=
        if bool_decide (compatible = stored) then Ok (db, row)
        else let! '(db, updated) := complete_question_recommendations k question_id compatible db in
             raise! "run_input_question_id_conflict" when negb updated;
             Ok (db, QuestionRow (PList (map question_value compatible)) (qr_status row) (qr_created_at row)) in
      Ok (db, CallbackReply state [] (Some (public_question_row false question_id row)) None)
  end.

(** [_expire_question]: [clock] is the time of the host, [fresh] the new input id. *)
Definition expire_question (now clock : Z) (fresh : string) (runs : attempt_db) (run : run_row) (k : attempt_key) (question_id : string)
    (db : input_db) : res (input_db * bool) :=
  match get_question db k question_id with
  | None => Ok (db, false)
  | Some question =>
      if negb (str_in (qr_status question) ["pending"; "closed"]) then Ok (db, false) else
      if clock <? qr_created_at question + RUN_QUESTION_TIMEOUT then Ok (db, false) else
      match default_question_answers (canonical_stored_questions (qr_questions question)) with
      | None => Ok ((set_question_status k question_id "closed" db).1, true)
      | Some answers =>
          if String.eqb (qr_status question) "pending" then
            let! '(db, _) := submit now None runs k.1.1 (match r_user_id run with Some u => u | None => "None" end) k.1.2
                               (Submission fresh None (Some question_id) (Some answers) true "timeout_default") db in
            Ok (db, false)
          else Ok (db, false)
      end
  end.

Definition callback_poll (now clock : Z) (fresh : string) (runs : attempt_db) (run : run_row) (k : attempt_key) (state : string)
    (question_id : option string) (db : input_db) : res (input_db * callback_reply) :=
  if negb (String.eqb state "open") then Ok (db, CallbackReply state [] None None) else
  let! '(db, question_id, expired) :=
    match question_id with
    | Some question_id =>
        let! question_id := normalize_question_id question_id in
        let! '(db, expired) := expire_question now clock fresh runs run k question_id db in
        Ok (db, Some question_id, expired)
    | None => Ok (db, None, false)
    end in
  if expired : bool then Ok (db, CallbackReply state [] None (Some "run_question_needs_input")) else
  let! inputs := mapM_res (public_input false false) (list_queued_inputs db k question_id None) in
  Ok (db, CallbackReply state inputs None None).

Definition callback_settle (now : Z) (k : attempt_key) (state : string) (db : input_db) : res (input_db * callback_reply) :=
  if String.eqb state "sealed" then Ok (db, CallbackReply state [] None None) else
  match list_queued_inputs db k None (Some "text") with
  | queued :: _ => let! input := public_input false false queued in Ok (db, CallbackReply "open" [input] None None)
  | [] => let! '(db, session) := seal_session now k db in Ok (db, CallbackReply (ss_state session) [] None None)
  end.

Definition callback (now clock : Z) (fresh : string) (runs : attempt_db) (tenant_id : string) (run : run_row) (run_id attempt_id operation : string)
    (question_id : option string) (questions : option pyval) (input_ids : option (list string)) (db : input_db) : res (input_db * callback_reply) :=
  let k := (tenant_id, run_id, attempt_id) in
  raise! "run_input_closed" when negb (bool_decide (active_attempt_id runs run tenant_id run_id = Some attempt_id));
  if String.eqb operation "open" then
    let! '(db, session) := open_session now runs k db in Ok (db, CallbackReply (ss_state session) [] None None)
  else
  match get_session db k with
  | None => Raise "run_input_closed"
  | Some session =>
      let state := ss_state session in
      if String.eqb operation "question" then
        raise! "run_input_closed" when negb (String.eqb state "open");
        match question_id, questions with
        | Some question_id, Some questions => callback_question now k state question_id questions db
        | _, _ => Raise "assertion_error"
        end
      else if String.eqb operation "poll" then callback_poll now clock fresh runs run k state question_id db
      else if String.eqb operation "ack" then
        match input_ids with
        | None => Raise "assertion_error"
        | Some input_ids =>
            let! ids := mapM_res normalize_input_id input_ids in
            let! db := acknowledge_inputs k ids db in
            Ok (db, CallbackReply state [] None None)
        end
      else if String.eqb operation "settle" then callback_settle now k state db
      else Raise "run_input_callback_operation_invalid"
  end.

End Service.
