(* ===== verification/RunInputsChoices.v ===== *)
(** * The choices a question offers

    What an answer may say depends on the keys of the questions, on whether they take
    several options and on the keys of the options, and on nothing else.  A later callback
    of the executor may complete the recommendation marks of a stored question; where the
    sanitizer leaves its own results alone, reading the completed question gives the same
    choices as before. *)
From stdpp Require Import base gmap list strings.
From Stdlib Require Import ZArith Lia Ascii.
From S2P Require Import Prelude Redis PyValue RunAttempt RunInputs.
#[local] Open Scope py_scope.

(** The result of a fallible step. *)
Lemma bind_ok {A B} (m : res A) (f : A → res B) y : res_bind m f = Ok y → ∃ x, m = Ok x ∧ f x = Ok y.
Proof. destruct m; [eauto|done]. Qed.

Ltac steps :=
  repeat match goal with
  | H : (if ?b then Raise _ else _) = Ok _ |- _ => destruct b eqn:?; [done|]
  | H : res_bind _ _ = Ok _ |- _ => apply bind_ok in H as (? & ? & H)
  | H : context [let '(_, _) := ?p in _] |- _ => destruct p eqn:?
  | H : Ok _ = Ok _ |- _ => injection H as ?; subst
  | H : (_, _) = (_, _) |- _ => injection H as ?; subst
  | H : negb _ = false |- _ => apply negb_false_iff in H
  | H : bool_decide _ = true |- _ => apply bool_decide_eq_true in H
  end.

(** ** Choices *)

Definition choice (q : question) : string * bool * list string := (q_key q, q_multi_select q, map qo_key (q_options q)).
Definition choices (qs : list question) : list (string * bool * list string) := map choice qs.

Section Choices.
Context (san : string → pyval).

Lemma answer_by_choice q q' v : choice q = choice q' → canonicalize_answer san q v = canonicalize_answer san q' v.
Proof. intros [= _ Hm Ho]. unfold canonicalize_answer. by rewrite Hm, Ho. Qed.
Lemma choice_found qs qs' key : choices qs = choices qs' → option_map choice (question_of qs key) = option_map choice (question_of qs' key).
Proof.
  assert (∀ qs, option_map choice (question_of qs key) = last (List.filter (fun c => String.eqb c.1.1 key) (choices qs))) as Hf.
  { intros l. unfold question_of. rewrite <- (fmap_last choice). f_equal. induction l as [|q l IH]; [done|]. cbn [List.filter choices map choice fst].
    destruct (String.eqb _ _); cbn; [by f_equal|exact IH]. }
  intros E. by rewrite !Hf, E.
Qed.
(** An answer is read by the choices alone. *)
Lemma answers_by_choices v qs qs' : choices qs = choices qs' → canonicalize_answers san v qs = canonicalize_answers san v qs'.
Proof.
  intros E. assert (∀ d, canonicalize_items san qs d = canonicalize_items san qs' d) as Hi.
  { induction d as [|[key x] d IH]; [done|]. cbn [canonicalize_items]. pose proof (choice_found _ _ key E) as Hf.
    destruct (question_of qs key) as [q|], (question_of qs' key) as [q'|]; try done. cbn in Hf. injection Hf as Hf.
    by rewrite (answer_by_choice q q') by (unfold choice; congruence); rewrite IH. }
  assert (map q_key qs = map q_key qs') as Hk.
  { assert (∀ l, map q_key l = map (fun c => c.1.1) (choices l)) as Hl by (intros l; unfold choices; by rewrite map_map). by rewrite !Hl, E. }
  unfold canonicalize_answers. destruct v; try done. rewrite Hk, Hi. destruct qs, qs'; done.
Qed.

(** ** A sanitizer that leaves its results alone *)

Definition FALLBACKS : list string :=
  "Question" :: map (fun i => "Option " +:+ py_str_int (Z.of_nat i + 1)) (seq 0 MAX_RUN_QUESTION_OPTIONS)
             ++ map (fun i => "Question " +:+ py_str_int (Z.of_nat i + 1)) (seq 0 MAX_RUN_QUESTION_BATCH).
Record stable_sanitizer : Prop := {
  st_again s s' : san s = PStr s' → san s' = PStr s';
  st_fallbacks : Forall (fun s => san s = PStr s) FALLBACKS
}.
Lemma fallbacks_fit : Forall (fun s => py_len s <= 128 ∧ str_truthy (strip s) = true) FALLBACKS.
Proof. repeat constructor; by vm_compute. Qed.

(** A text, or a shown text, that passes again as it is. *)
Definition settled (max : Z) (s : string) : Prop := san s = PStr s ∧ py_len s <= max.
Definition shown (max : Z) (s : string) : Prop := settled max s ∧ str_truthy (strip s) = true.

Lemma settled_again max s : settled max s → sanitize_run_input_text san (PStr s) max true = Ok s.
Proof. intros [E Hl]. unfold sanitize_run_input_text. rewrite E. cbn [negb andb]. by destruct (Z.ltb_spec max (py_len s)); [lia|]. Qed.
Lemma shown_again max fallback s : shown max s → sanitize_question_display san (PStr s) max fallback = Ok s.
Proof. intros [Hs Ht]. unfold sanitize_question_display. rewrite Ht. cbn [negb]. rewrite settled_again by done. cbn [res_bind]. by rewrite Ht. Qed.

Context (Hst : stable_sanitizer).

Lemma text_settles v max s : sanitize_run_input_text san v max true = Ok s → settled max s.
Proof.
  unfold sanitize_run_input_text. destruct v as [| | | |text| |]; try done. intros E. steps. destruct (san text) as [| | | |s'| |] eqn:Es; try done. steps.
  split; [exact (st_again Hst _ _ Es)|]. match goal with Hx : (_ <? py_len s) = false |- _ => apply Z.ltb_ge in Hx; lia end.
Qed.
Lemma display_settles v max fallback s : fallback ∈ FALLBACKS → 128 <= max → sanitize_question_display san v max fallback = Ok s → shown max s.
Proof.
  intros Hf Hm. unfold sanitize_question_display. destruct v; try done. intros E. steps.
  match goal with Hx : sanitize_run_input_text _ _ _ _ = Ok _ |- _ => apply text_settles in Hx as Hs end.
  destruct (str_truthy (strip x)) eqn:Et; [done|]. pose proof (st_fallbacks Hst) as F1. pose proof fallbacks_fit as F2. rewrite Forall_forall in F1, F2.
  destruct (F2 _ Hf). split; [|done]. split; [by apply F1|lia].
Qed.

(** ** Canonical questions are settled *)

Definition settled_option (j : nat) (o : question_option) : Prop :=
  qo_key o = option_key j ∧ shown 256 (qo_label o) ∧ settled 2000 (qo_description o).
Record settled_question (i : nat) (q : question) : Prop := {
  sq_key : q_key q = question_key i;
  sq_text : shown MAX_RUN_ANSWER_CHARS (q_question q);
  sq_header : shown 128 (q_header q);
  sq_few : (length (q_options q) <= MAX_RUN_QUESTION_OPTIONS)%nat;
  sq_options : ∀ j o, q_options q !! j = Some o → settled_option j o
}.

Lemma option_settles j v o : (j < MAX_RUN_QUESTION_OPTIONS)%nat → canonicalize_option san j v = Ok o → settled_option j o.
Proof.
  intros Hj. unfold canonicalize_option. destruct v as [| | | | | |d]; try done. intros E. destruct (negb _); [done|].
  apply bind_ok in E as (label & El & E). apply bind_ok in E as (description & Ed & E).
  assert (qo_key o = option_key j ∧ qo_label o = label ∧ qo_description o = description) as (H1 & H2 & H3).
  { destruct (assoc "recommended" d) as [[]|]; by steps. }
  split; [done|]. rewrite H2, H3. split; [|by eapply text_settles]. eapply display_settles; [|done|exact El].
  unfold FALLBACKS. right. apply elem_of_app. left. apply (list_elem_of_fmap_2 (fun i => "Option " +:+ py_str_int (Z.of_nat i + 1))).
  apply list_elem_of_In, in_seq. lia.
Qed.
Lemma options_settle j vs os : (j + length vs <= MAX_RUN_QUESTION_OPTIONS)%nat → canonicalize_options san j vs = Ok os →
  length os = length vs ∧ ∀ n o, os !! n = Some o → settled_option (j + n) o.
Proof.
  revert j os. induction vs as [|v vs IH]; intros j os Hj E; cbn [canonicalize_options length] in *; [by injection E as <-|].
  apply bind_ok in E as (o & Eo & E). apply bind_ok in E as (os' & Es & E). injection E as <-.
  destruct (IH (S j) os') as [Hl Hn]; [lia|done|]. split; [cbn; by rewrite Hl|]. intros [|n] x Hx; cbn in Hx.
  - injection Hx as <-. rewrite Nat.add_0_r. eapply option_settles; [lia|done].
  - rewrite Nat.add_succ_r. by apply Hn.
Qed.
Lemma question_settles i v q : (i < MAX_RUN_QUESTION_BATCH)%nat → canonicalize_question san i v = Ok q → settled_question i q.
Proof.
  intros Hi. unfold canonicalize_question. destruct v as [| | | | | |d]; try done. intros E. destruct (negb _); [done|].
  apply bind_ok in E as (text & Et & E). apply bind_ok in E as (header & Eh & E). destruct (get "options" d) as [| | | | |l|]; try done.
  destruct (Nat.ltb_spec MAX_RUN_QUESTION_OPTIONS (length l)); [done|]. apply bind_ok in E as (os & Eo & E).
  destruct (get "multiSelect" d); try done. injection E as <-. destruct (options_settle 0 l os) as [Hl Hn]; [lia|done|].
  split; cbn [q_key q_question q_header q_options]; [done| | |lia|exact Hn].
  - eapply display_settles; [|done|exact Et]. unfold FALLBACKS. right. apply elem_of_app. right.
    apply (list_elem_of_fmap_2 (fun i => "Question " +:+ py_str_int (Z.of_nat i + 1))). apply list_elem_of_In, in_seq. lia.
  - eapply display_settles; [|done|exact Eh]. by left.
Qed.

(** The questions of a batch from an index on. *)
Definition settled_batch (i : nat) (qs : list question) : Prop :=
  (i + length qs <= MAX_RUN_QUESTION_BATCH)%nat ∧ ∀ n q, qs !! n = Some q → settled_question (i + n) q.
Lemma settled_cons i q qs : settled_batch i (q :: qs) ↔ settled_question i q ∧ settled_batch (S i) qs.
Proof.
  unfold settled_batch. cbn [length]. split.
  - intros [Hl Hn]. split; [by rewrite <- (Nat.add_0_r i); apply (Hn 0%nat)|]. split; [lia|]. intros n x Hx.
    replace (S i + n)%nat with (i + S n)%nat by lia. by apply (Hn (S n)).
  - intros [Hq [Hl Hn]]. split; [lia|]. intros [|n] x Hx; cbn in Hx; [injection Hx as <-; by rewrite Nat.add_0_r|]. rewrite Nat.add_succ_r. by apply Hn.
Qed.
Lemma all_settle i vs qs : (i + length vs <= MAX_RUN_QUESTION_BATCH)%nat → canonicalize_all san i vs = Ok qs → settled_batch i qs ∧ length qs = length vs.
Proof.
  revert i qs. induction vs as [|v vs IH]; intros i qs Hi E; cbn [canonicalize_all length] in *.
  { injection E as <-. split; [|done]. split; [cbn; lia|]. by intros n q. }
  apply bind_ok in E as (q & Eq & E). apply bind_ok in E as (qs' & Es & E). injection E as <-.
  destruct (IH (S i) qs') as [Hs Hl]; [lia|done|]. split; [|cbn; by rewrite Hl]. apply settled_cons. split; [|done]. eapply question_settles; [lia|done].
Qed.
Lemma public_settles v : settled_batch 0 (public_question san v).
Proof.
  unfold public_question. destruct (canonicalize_questions san v) as [qs|] eqn:E; [|split; [cbn; lia|]; by intros n q].
  unfold canonicalize_questions in E. destruct v as [| | | | |l|]; try done. destruct (_ || _) eqn:Eb; [done|]. apply orb_false_iff in Eb as [_ Hl%Nat.ltb_ge].
  by eapply (all_settle 0 l).
Qed.

(** ** Settled questions are read as they are *)

Lemma option_read j o : settled_option j o → ∃ o', canonicalize_option san j (option_value o) = Ok o' ∧ qo_key o' = qo_key o.
Proof.
  intros (Hk & Hl & Hd). unfold canonicalize_option, option_value.
  destruct (qo_recommended o) as [b|]; cbn [app get get_default assoc String.eqb Ascii.eqb Bool.eqb default from_option]; unfold Datatypes.id;
    rewrite Hk; cbn [eq_str]; rewrite String.eqb_refl; cbn [negb];
    rewrite (shown_again 256) by done; cbn [res_bind]; rewrite settled_again by done; cbn [res_bind]; eauto.
Qed.
Lemma options_read j os : (∀ n o, os !! n = Some o → settled_option (j + n) o) →
  ∃ os', canonicalize_options san j (map option_value os) = Ok os' ∧ map qo_key os' = map qo_key os.
Proof.
  revert j. induction os as [|o os IH]; intros j Hn; [by exists []|]. cbn [map canonicalize_options].
  destruct (option_read j o) as (o' & -> & Hk); [rewrite <- (Nat.add_0_r j); by apply (Hn 0%nat)|].
  destruct (IH (S j)) as (os' & -> & Hks).
  { intros n x Hx. replace (S j + n)%nat with (j + S n)%nat by lia. by apply (Hn (S n)). }
  exists (o' :: os'). split; [done|]. cbn. by rewrite Hk, Hks.
Qed.
Lemma question_read i q : settled_question i q → ∃ q', canonicalize_question san i (question_value q) = Ok q' ∧ choice q' = choice q.
Proof.
  intros [Hk Ht Hh Hf Ho]. unfold canonicalize_question, question_value.
  cbn [get get_default assoc String.eqb Ascii.eqb Bool.eqb default from_option]. unfold Datatypes.id. rewrite Hk. cbn [eq_str]. rewrite String.eqb_refl.
  cbn [negb]. rewrite (shown_again MAX_RUN_ANSWER_CHARS) by done. cbn [res_bind]. rewrite (shown_again 128) by done. cbn [res_bind].
  rewrite length_map. destruct (Nat.ltb_spec MAX_RUN_QUESTION_OPTIONS (length (q_options q))); [lia|].
  destruct (options_read 0 (q_options q)) as (os & -> & Hks); [exact Ho|]. cbn [res_bind]. eexists. split; [reflexivity|]. unfold choice. cbn. by rewrite Hk, Hks.
Qed.
Lemma batch_read i qs : settled_batch i qs → ∃ qs', canonicalize_all san i (map question_value qs) = Ok qs' ∧ choices qs' = choices qs.
Proof.
  revert i. induction qs as [|q qs IH]; intros i Hs; [by exists []|]. apply settled_cons in Hs as [Hq Hs]. cbn [map canonicalize_all].
  destruct (question_read i q Hq) as (q' & -> & Hc). destruct (IH _ Hs) as (qs' & -> & Hcs). exists (q' :: qs'). split; [done|]. unfold choices in *. cbn [map]. by rewrite Hc, Hcs.
Qed.

(** ** Completing recommendation marks *)

Lemma complete_option_same old new o : complete_option old new = Some o →
  qo_key o = qo_key old ∧ qo_label o = qo_label old ∧ qo_description o = qo_description old.
Proof. unfold complete_option. destruct (qo_recommended old), (qo_recommended new); cbn zeta; destruct (bool_decide _); try done; by intros [= <-]. Qed.
Lemma complete_options_same old new os : complete_options old new = Some os →
  length os = length old ∧ ∀ n o, os !! n = Some o → ∃ o0, old !! n = Some o0 ∧ qo_key o = qo_key o0 ∧ qo_label o = qo_label o0 ∧ qo_description o = qo_description o0.
Proof.
  revert new os. induction old as [|o0 old IH]; intros [|n0 new] os E; cbn [complete_options] in E; try done; [by injection E as <-|].
  destruct (complete_option o0 n0) as [x|] eqn:Eo; [|done]. destruct (complete_options old new) as [l|] eqn:El; [|done]. injection E as <-.
  destruct (IH _ _ El) as [Hl Hn]. split; [cbn; by rewrite Hl|]. intros [|n] o Ho; cbn in Ho |- *; [|by apply Hn]. injection Ho as <-. exists o0.
  split; [done|]. by eapply complete_option_same.
Qed.
Lemma keys_by_index (os old : list question_option) :
  length os = length old → (∀ n o, os !! n = Some o → ∃ o0, old !! n = Some o0 ∧ qo_key o = qo_key o0) → map qo_key os = map qo_key old.
Proof.
  intros Hl Hn. apply list_eq. intros n. change (map qo_key ?l) with (qo_key <$> l). rewrite !list_lookup_fmap. destruct (os !! n) as [o|] eqn:E.
  - destruct (Hn _ _ E) as (o0 & -> & Hk). cbn. by rewrite Hk.
  - apply lookup_ge_None in E. rewrite (proj2 (lookup_ge_None old n)) by lia. done.
Qed.
(** Completion keeps texts and choices, and so stays settled. *)
Lemma complete_keeps i stored incoming compatible :
  settled_batch i stored → complete_legacy_recommendation_metadata stored incoming = Some compatible →
  settled_batch i compatible ∧ choices compatible = choices stored.
Proof.
  revert i incoming compatible. induction stored as [|old stored IH]; intros i [|new incoming] compatible Hs E; cbn [complete_legacy_recommendation_metadata] in E; try done.
  { by injection E as <-. }
  destruct (_ && _); [|done]. destruct (complete_options (q_options old) (q_options new)) as [os|] eqn:Eo; [|done].
  destruct (complete_legacy_recommendation_metadata stored incoming) as [rest|] eqn:Er; [|done]. injection E as <-.
  apply settled_cons in Hs as [[Hk Ht Hh Hf Ho] Hs]. destruct (IH _ _ _ Hs Er) as [Hs' Hc]. destruct (complete_options_same _ _ _ Eo) as [Hl Hn]. split.
  - apply settled_cons. split; [|done]. split; cbn [q_key q_question q_header q_options]; try done; [lia|]. intros j o Hj.
    destruct (Hn _ _ Hj) as (o0 & H0 & E1 & E2 & E3). destruct (Ho _ _ H0) as (S1 & S2 & S3). split; [congruence|]. by rewrite E2, E3.
  - cbn [choices map]. f_equal; [|exact Hc]. unfold choice. cbn. f_equal. apply keys_by_index; [done|]. intros n o Hx.
    destruct (Hn _ _ Hx) as (o0 & ? & ? & _). by exists o0.
Qed.

(** A completed question that is stored offers the choices of the old one. *)
Lemma completed_choices v incoming compatible :
  complete_legacy_recommendation_metadata (canonical_stored_questions san v) incoming = Some compatible →
  choices (canonical_stored_questions san (PList (map question_value compatible))) = choices (canonical_stored_questions san v).
Proof.
  unfold canonical_stored_questions. intros E. destruct (complete_keeps 0 _ _ _ (public_settles v) E) as [Hs <-].
  unfold public_question, canonicalize_questions. destruct compatible as [|q qs]; [done|]. pose proof Hs as [Hl _].
  rewrite length_map. destruct (Nat.ltb_spec MAX_RUN_QUESTION_BATCH (length (q :: qs))) as [Hlt|_]; [cbn [length] in *; lia|].
  destruct (batch_read 0 (q :: qs) Hs) as (qs' & Er & Hc). cbn [map orb] in *. by rewrite Er.
Qed.

End Choices.

(** The identity is such a sanitizer. *)
Lemma plain_sanitizer_stable : stable_sanitizer PStr.
Proof. split; [done|]. by repeat constructor. Qed.
