(* ===== verification/RunInputsFacts.v ===== *)
(** * What holds of the inputs of a run

    The transition system of the operations of [RunInputs], whatever the runs, the attempts
    and the recovery service do meanwhile: questions are answered once and in step with
    their answers, a settled attempt has heard every text, accepted inputs are kept, and an
    overdue question is settled by the next poll.  Every operation is a sequence of a few
    primitive changes of the tables; the facts are proved of those. *)
From stdpp Require Import base gmap list strings sorting.
From Stdlib Require Import ZArith Lia Ascii.
From S2P Require Import Prelude Redis PyValue RunAttempt RunTerminal RunInputs RunInputsChoices.
#[local] Open Scope py_scope.

Definition no_inputs : input_db := InputDb ∅ ∅ ∅.

(** ** Primitive changes *)

Definition pending_answer (k : attempt_key) (q : string) (row : input_row) : Prop :=
  ir_attempt_id row = k.2 ∧ ir_kind row = "answer" ∧ ir_question_id row = Some q ∧ ir_status row = "queued".
Definition pending_text (k : attempt_key) (row : input_row) : Prop :=
  ir_attempt_id row = k.2 ∧ ir_kind row = "text" ∧ ir_question_id row = None ∧ ir_status row = "queued".
Definition is_open (db : input_db) (k : attempt_key) : Prop := ∃ s, in_sessions db !! k = Some s ∧ ss_state s = "open".
Definition is_sealed (db : input_db) (k : attempt_key) : Prop := ∃ s, in_sessions db !! k = Some s ∧ ss_state s = "sealed".

(** A stored question with its recommendation marks completed from an incoming one. *)
Definition question_completed (san : string → pyval) (row row' : question_row) : Prop :=
  ∃ incoming compatible,
    complete_legacy_recommendation_metadata (canonical_stored_questions san (qr_questions row)) incoming = Some compatible ∧
    qr_questions row' = PList (map question_value compatible).

Inductive change (san : string → pyval) (db : input_db) : input_db → Prop :=
| ch_open k s : in_sessions db !! k = None → ss_state s = "open" → change san db (set_sessions (insert k s) db)
| ch_publish k q row : is_open db k → in_questions db !! (k, q) = None → qr_status row = "pending" → normalize_question_id q = Ok q →
    change san db (set_questions (insert (k, q) row) db)
| ch_complete k q row row' : in_questions db !! (k, q) = Some row → qr_status row' = qr_status row → question_completed san row row' →
    change san db (set_questions (insert (k, q) row') db)
| ch_close k q row : in_questions db !! (k, q) = Some row → qr_status row = "pending" →
    change san db (set_questions (insert (k, q) (set_status "closed" row)) db)
| ch_text k i row : is_open db k → in_inputs db !! (k.1.1, k.1.2, i) = None → pending_text k row →
    change san db (set_inputs (insert (k.1.1, k.1.2, i) row) db)
| ch_answer k i q row qrow : is_open db k → in_inputs db !! (k.1.1, k.1.2, i) = None → pending_answer k q row →
    in_questions db !! (k, q) = Some qrow → qr_status qrow = "pending" →
    change san db (set_questions (insert (k, q) (set_status "answered" qrow)) (set_inputs (insert (k.1.1, k.1.2, i) row) db))
| ch_ack k ids db' : acknowledge_inputs k ids db = Ok db' → change san db db'
| ch_seal k s s' : in_sessions db !! k = Some s → ss_state s = "open" → ss_state s' = "sealed" →
    list_queued_inputs db k None (Some "text") = [] → change san db (set_sessions (insert k s') db).

Section Facts.
Context `{HexRuntime} (san : string → pyval).

Inductive input_step (db : input_db) : input_db → Prop :=
| step_submit now hook runs t u r s db' x : submit san now hook runs t u r s db = Ok (db', x) → input_step db db'
| step_publish now runs t u r att q qs db' v : publish_platform_question san now runs t u r att q qs db = Ok (db', v) → input_step db db'
| step_callback now clock fresh runs t run r att op q qs ids db' reply :
    callback san now clock fresh runs t run r att op q qs ids db = Ok (db', reply) → input_step db db'.

Lemma normalized_id q q' : normalize_question_id q = Ok q' → q' = q ∧ normalize_question_id q = Ok q.
Proof. intros E. pose proof E as E'. unfold normalize_question_id in E'. steps. auto. Qed.

Lemma state_open db k : negb (match get_session db k with Some s => String.eqb (ss_state s) "open" | None => false end) = false → is_open db k.
Proof. rewrite negb_false_iff. unfold get_session, is_open. destruct (in_sessions db !! k) as [s|]; [|done]. intros Hs%String.eqb_eq. eauto. Qed.

Lemma publish_changes now k q qs db db' row : publish_question now k q qs db = Ok (db', row) → is_open db k → normalize_question_id q = Ok q →
  rtc (change san) db db' ∧ in_questions db' !! (k, q) = Some row.
Proof.
  intros E Ho Hq. unfold publish_question in E. steps. destruct (in_questions db !! (k, q)) as [row'|] eqn:El; steps; [split; [constructor|done]|].
  split; [|cbn; by rewrite lookup_insert_eq]. apply rtc_once. by constructor.
Qed.

(** An answered question becomes an input and, where the recovery service owns it, is
    applied at once. *)
Lemma submit_changes now hook runs t u r s db db' x : submit san now hook runs t u r s db = Ok (db', x) → rtc (change san) db db'.
Proof.
  unfold submit. destruct (get_owner_run _ _ _ _) as [run|]; [|by intros [= -> _]]. intros E. steps.
  destruct (get_input _ _ _ _) as [existing|] eqn:Ei; [by steps|]. destruct (active_attempt_id _ _ _ _) as [att|]; [|done].
  cbn zeta in E. destruct (negb (match get_session _ _ with _ => _ end)) eqn:Es; [done|]. apply state_open in Es.
  apply bind_ok in E as ([[[kind text] question_id] answers] & Ec & E). apply bind_ok in E as ([db1 row] & Eins & E).
  apply bind_ok in E as (db2 & Eq & E). steps.
  unfold insert_input in Eins. steps. unfold submission_content in Ec. destruct (sb_text s) as [txt|].
  - steps. steps. apply rtc_once. by apply (ch_text _ _ (t, r, att)).
  - destruct (sb_question_id s) as [q|]; [|done]. destruct (sb_answers s) as [d|]; [|done]. steps.
    match goal with Hq : normalize_question_id q = Ok _ |- _ => apply normalized_id in Hq as [-> Hq] end.
    destruct (get_question _ _ _) as [qrow|] eqn:Eg; [|done]. steps. unfold get_question in Eg.
    match goal with Hp : String.eqb (qr_status qrow) "pending" = true |- _ => apply String.eqb_eq in Hp end.
    unfold set_question_status in *. cbn [in_questions set_inputs] in *. rewrite Eg in *.
    match goal with Hp : qr_status qrow = "pending" |- _ => rewrite Hp in * end. cbn [String.eqb Ascii.eqb Bool.eqb] in *. steps.
    assert (change san db (set_questions (insert (t, r, att, q) (set_status "answered" qrow))
                         (set_inputs (insert (t, r, x0) (InputRow att "answer" None (Some q) answers "queued" (sb_source s) now)) db))) as Hc
      by (by apply (ch_answer _ _ (t, r, att))).
    eapply rtc_l; [exact Hc|]. clear Hc. destruct hook as [outcome|]; [|by steps]. destruct (String.eqb (sb_source s) "manual"); [|by steps].
    unfold recovery_answer in Eq. destruct outcome as [[]| |]; try done; [|by steps].
    destruct (acknowledge_inputs _ _ _) as [db3|] eqn:Ea; [|done]. steps. apply rtc_once. by eapply ch_ack.
Qed.

Lemma expire_changes now clock fresh runs run k q db db' b : expire_question san now clock fresh runs run k q db = Ok (db', b) → rtc (change san) db db'.
Proof.
  unfold expire_question, get_question. destruct (in_questions db !! (k, q)) as [row|] eqn:El; [|by intros; steps]. intros E.
  destruct (negb _); [by steps|]. destruct (_ <? _); [by steps|]. destruct (default_question_answers _) as [d|].
  - destruct (String.eqb _ _); [|by steps]. apply bind_ok in E as ([db1 x] & Es & E). steps. by eapply submit_changes.
  - steps. unfold set_question_status. rewrite El. destruct (String.eqb_spec (qr_status row) "pending"); [|done].
    apply rtc_once. by constructor.
Qed.

Lemma callback_question_changes now k st q qs db db' reply :
  callback_question san now k st q qs db = Ok (db', reply) → is_open db k → rtc (change san) db db'.
Proof.
  unfold callback_question. intros E Ho. apply bind_ok in E as (q' & Hq & E). apply normalized_id in Hq as [-> Hq].
  apply bind_ok in E as (canonical & _ & E). apply bind_ok in E as ([db1 row] & Ep & E).
  destruct (publish_changes _ _ _ _ _ _ _ Ep Ho Hq) as [Hr Hl]. cbn zeta in E.
  destruct (complete_legacy_recommendation_metadata _ _) as [compatible|] eqn:Ecm; [|done].
  apply bind_ok in E as ([db2 row2] & Ec & E). steps. etrans; [exact Hr|].
  destruct (bool_decide _); [by steps|]. apply bind_ok in Ec as ([db3 b] & Ec & E). steps.
  unfold complete_question_recommendations in Ec. steps. rewrite Hl in Ec. steps. apply rtc_once. eapply ch_complete; [done|done|]. by exists canonical, compatible.
Qed.

Lemma callback_poll_changes now clock fresh runs run k st q db db' reply :
  callback_poll san now clock fresh runs run k st q db = Ok (db', reply) → rtc (change san) db db'.
Proof.
  unfold callback_poll. intros E. destruct (negb _); [by steps|]. apply bind_ok in E as ([[db1 q'] expired] & Ee & E).
  assert (rtc (change san) db db1) as Hr.
  { destruct q as [q|]; [|by steps]. apply bind_ok in Ee as (q1 & _ & Ee). apply bind_ok in Ee as ([db2 b] & Ee & E2). steps.
    by eapply expire_changes. }
  destruct expired; [by steps|]. by steps.
Qed.

Lemma callback_settle_changes now k st s db db' reply :
  callback_settle san now k st db = Ok (db', reply) → in_sessions db !! k = Some s → rtc (change san) db db'.
Proof.
  unfold callback_settle. intros E Hs. destruct (String.eqb _ _); [by steps|].
  destruct (list_queued_inputs _ _ _ _) as [|queued l] eqn:El; [|by steps]. apply bind_ok in E as ([db1 s'] & Ese & E). steps.
  unfold seal_session in Ese. rewrite Hs in Ese. destruct (String.eqb_spec (ss_state s) "open"); steps; [|done].
  apply rtc_once. by eapply ch_seal.
Qed.

Lemma step_changes db db' : input_step db db' → rtc (change san) db db'.
Proof.
  intros [now hook runs t u r s db1 x E|now runs t u r att q qs db1 v E|now clock fresh runs t run r att op q qs ids db1 reply E].
  - by eapply submit_changes.
  - unfold publish_platform_question in E. destruct (get_owner_run _ _ _ _); [|done]. cbn zeta in E. destruct (negb (bool_decide _)); [done|].
    destruct (negb (match get_session _ _ with _ => _ end)) eqn:Es; [done|]. apply state_open in Es.
    apply bind_ok in E as (canonical & _ & E). apply bind_ok in E as (q' & Hq & E). apply normalized_id in Hq as [-> Hq].
    apply bind_ok in E as ([db2 row] & Ep & E). steps. by destruct (publish_changes _ _ _ _ _ _ _ Ep Es Hq).
  - unfold callback in E. cbn zeta in E. destruct (negb (bool_decide _)); [done|]. destruct (String.eqb op "open").
    { apply bind_ok in E as ([db2 s] & Eo & E). steps. unfold open_session in Eo. steps. destruct (in_sessions db !! _) eqn:El; [by steps|].
      destruct (db_runs runs !! _); [|done]. steps. apply rtc_once. by constructor. }
    unfold get_session in E. destruct (in_sessions db !! (t, r, att)) as [s|] eqn:El; [|done].
    destruct (String.eqb op "question").
    { destruct (negb _) eqn:Es in E; [done|]. apply negb_false_iff, String.eqb_eq in Es. destruct q as [q|]; [|done]. destruct qs as [qs|]; [|done].
      eapply callback_question_changes; [exact E|]. by exists s. }
    destruct (String.eqb op "poll"); [by eapply callback_poll_changes|]. destruct (String.eqb op "ack").
    { destruct ids as [ids|]; [|done]. apply bind_ok in E as (ids' & _ & E). apply bind_ok in E as (db2 & Ea & E). steps.
      apply rtc_once. by eapply ch_ack. }
    destruct (String.eqb op "settle"); [|done]. by eapply callback_settle_changes.
Qed.

Lemma steps_changes db db' : rtc input_step db db' → rtc (change san) db db'.
Proof. induction 1 as [|db1 db2 db3 Hs _ IH]; [done|]. etrans; [by apply step_changes|done]. Qed.

End Facts.

(** ** Acknowledgements *)

(** Updates of many rows. *)
Lemma alter_all_lookup `{Countable K} {A} (f : A → A) (ks : list K) (m : gmap K A) key :
  (∀ x, f (f x) = f x) → foldr (alter f) m ks !! key = (fun x => if bool_decide (key ∈ ks) then f x else x) <$> m !! key.
Proof.
  intros Hf. induction ks as [|k ks IH]; cbn [foldr].
  { destruct (m !! key); cbn; [|done]. by rewrite bool_decide_false by set_solver. }
  destruct (decide (k = key)) as [->|Hn].
  - rewrite lookup_alter_eq, IH. destruct (m !! key) as [x|]; cbn; [|done]. rewrite (bool_decide_true (key ∈ key :: ks)) by set_solver.
    f_equal. by destruct (bool_decide _).
  - rewrite lookup_alter_ne, IH by done. destruct (m !! key) as [x|]; cbn; [|done]. f_equal.
    by rewrite (bool_decide_ext (key ∈ k :: ks) (key ∈ ks)) by set_solver.
Qed.

Lemma apply_row_idem att row : apply_row att (apply_row att row) = apply_row att row.
Proof. unfold apply_row. destruct (String.eqb (ir_attempt_id row) att) eqn:E; cbn; by rewrite ?E. Qed.
Lemma resolve_row_idem row : resolve_row (resolve_row row) = resolve_row row.
Proof. unfold resolve_row. by destruct (String.eqb (qr_status row) "answered") eqn:E; cbn; rewrite ?E. Qed.

Lemma of_attempt_some db k i row : of_attempt db k i = Some row ↔ in_inputs db !! (k.1.1, k.1.2, i) = Some row ∧ ir_attempt_id row = k.2.
Proof.
  unfold of_attempt. destruct (in_inputs db !! _) as [row'|]; [|naive_solver]. destruct (String.eqb_spec (ir_attempt_id row') k.2); naive_solver.
Qed.

(** What an acknowledgement does to a row and to a question. *)
Record acknowledged (k : attempt_key) (ids : list string) (db db' : input_db) : Prop := {
  ak_sessions : in_sessions db' = in_sessions db;
  ak_known : ∀ i, i ∈ ids → ∃ row, of_attempt db k i = Some row;
  ak_inputs : ∀ t r i, in_inputs db' !! (t, r, i) =
    (fun row => if decide ((t, r, ir_attempt_id row) = k ∧ i ∈ ids) then applied row else row) <$> in_inputs db !! (t, r, i);
  ak_questions : ∀ k' q, in_questions db' !! (k', q) =
    (fun row => if decide (k' = k ∧ qr_status row = "answered" ∧ q ∈ omap ir_question_id (omap (of_attempt db k) ids))
                then set_status "resolved" row else row) <$> in_questions db !! (k', q)
}.

Lemma acknowledge_spec k ids db db' : acknowledge_inputs k ids db = Ok db' → acknowledged k ids db db'.
Proof.
  unfold acknowledge_inputs. intros E. destruct (match ids with [] => true | _ => false end); [done|]. cbn zeta in E.
  destruct (forallb _ ids) eqn:Ef; [|done]. cbn [negb] in E. injection E as <-. split.
  - done.
  - intros i Hi. rewrite forallb_forall in Ef. specialize (Ef i (proj1 (list_elem_of_In _ _) Hi)). destruct (of_attempt db k i); [eauto|done].
  - intros t r i. cbn [set_questions set_inputs in_inputs]. rewrite alter_all_lookup by apply apply_row_idem.
    destruct (in_inputs db !! (t, r, i)) as [row|]; cbn; [|done]. f_equal. unfold apply_row.
    assert ((t, r, i) ∈ map (λ i, (k.1.1, k.1.2, i)) ids ↔ (t, r) = k.1 ∧ i ∈ ids) as Hin.
    { rewrite list_elem_of_fmap. destruct k as [[kt kr] ka]. cbn. naive_solver. }
    destruct (decide ((t, r, ir_attempt_id row) = k ∧ i ∈ ids)) as [[<- Hi]|Hn].
    + rewrite bool_decide_true by (by apply Hin). cbn. by rewrite String.eqb_refl.
    + destruct (bool_decide _) eqn:Eb; [|done]. apply bool_decide_eq_true, Hin in Eb as [Htr Hi].
      destruct (String.eqb_spec (ir_attempt_id row) k.2) as [Ha|]; [|done]. destruct Hn. split; [|done]. destruct k as [k1 k2]. cbn in *. congruence.
  - intros k' q. cbn [set_questions set_inputs in_questions]. rewrite alter_all_lookup by apply resolve_row_idem.
    destruct (in_questions db !! (k', q)) as [row|]; cbn [fmap option_fmap option_map]; [|done]. f_equal. unfold resolve_row.
    assert ((k', q) ∈ map (pair k) (omap ir_question_id (omap (of_attempt db k) ids)) ↔ k' = k ∧ q ∈ omap ir_question_id (omap (of_attempt db k) ids)) as Hin.
    { rewrite list_elem_of_fmap. naive_solver. }
    destruct (decide _) as [(-> & Hst & Hq)|Hn].
    + rewrite bool_decide_true by (by apply Hin). by rewrite Hst.
    + destruct (bool_decide _) eqn:Eb; [|done]. apply bool_decide_eq_true, Hin in Eb as [-> Hq].
      destruct (String.eqb_spec (qr_status row) "answered"); [|done]. by destruct Hn.
Qed.

(** ** The invariant *)

(** The status of a question whose answer has the given status. *)
Definition answered_status (status : string) : string := if String.eqb status "queued" then "answered" else "resolved".

Record inputs_sound (db : input_db) : Prop := {
  so_states : ∀ k s, in_sessions db !! k = Some s → ss_state s = "open" ∨ ss_state s = "sealed";
  so_rows : ∀ t r i row, in_inputs db !! (t, r, i) = Some row →
    is_Some (in_sessions db !! (t, r, ir_attempt_id row)) ∧ (ir_status row = "queued" ∨ ir_status row = "applied") ∧
    match ir_question_id row with
    | None => ir_kind row = "text"
    | Some q => ir_kind row = "answer" ∧
        qr_status <$> in_questions db !! (t, r, ir_attempt_id row, q) = Some (answered_status (ir_status row))
    end;
  so_one : ∀ t r i j row row' q, in_inputs db !! (t, r, i) = Some row → in_inputs db !! (t, r, j) = Some row' →
    ir_attempt_id row = ir_attempt_id row' → ir_question_id row = Some q → ir_question_id row' = Some q → i = j;
  so_questions : ∀ k q row, in_questions db !! (k, q) = Some row →
    is_Some (in_sessions db !! k) ∧ normalize_question_id q = Ok q ∧
    (qr_status row = "pending" ∨ qr_status row = "closed" ∨
     ∃ i a, of_attempt db k i = Some a ∧ ir_question_id a = Some q);
  so_heard : ∀ k, is_sealed db k → ∀ i row, of_attempt db k i = Some row → ir_kind row = "text" → ir_status row = "applied"
}.

Lemma no_inputs_sound : inputs_sound no_inputs.
Proof. split; unfold no_inputs, is_sealed, of_attempt; cbn; intros; rewrite ?lookup_empty in *; naive_solver. Qed.

(** An answer is of a question that is not open any more. *)
Lemma answer_closes db k q i a : inputs_sound db → of_attempt db k i = Some a → ir_question_id a = Some q →
  ∃ row, in_questions db !! (k, q) = Some row ∧ qr_status row = answered_status (ir_status a).
Proof.
  intros Hs [Hl Ha]%of_attempt_some Hq. destruct (so_rows _ Hs _ _ _ _ Hl) as (_ & _ & Hm). rewrite Hq, Ha in Hm. destruct Hm as [_ Hm].
  destruct k as [[kt kr] ka]. cbn in *. destruct (in_questions db !! _) as [row|]; [|done]. injection Hm as Hm. eauto.
Qed.
Lemma answered_not_pending status : answered_status status ≠ "pending" ∧ answered_status status ≠ "closed".
Proof. unfold answered_status. by destruct (String.eqb _ _). Qed.

Lemma session_sound db k s :
  inputs_sound db → ss_state s = "open" ∨ ss_state s = "sealed" →
  (∀ s0, in_sessions db !! k = Some s0 → ss_state s0 = "sealed" → ss_state s = "sealed") →
  (ss_state s = "sealed" → ∀ i row, of_attempt db k i = Some row → ir_kind row = "text" → ir_status row = "applied") →
  inputs_sound (set_sessions (insert k s) db).
Proof.
  intros [S1 S2 S3 S4 S5] Hst _ Hheard.
  assert (∀ k', is_Some (in_sessions db !! k') → is_Some (<[k:=s]> (in_sessions db) !! k')) as Hmono.
  { intros k' Hk'. apply lookup_insert_is_Some'. by right. }
  split; cbn [in_sessions in_questions in_inputs set_sessions].
  - intros k' s'. rewrite lookup_insert_Some. naive_solver.
  - intros t r i row Hl. destruct (S2 _ _ _ _ Hl) as (? & ? & ?). split_and!; auto.
  - done.
  - intros k' q row Hl. destruct (S4 _ _ _ Hl) as (? & ? & ?). split_and!; auto.
  - intros k' (s' & Hl & Hsl). cbn in Hl. apply lookup_insert_Some in Hl as [[<- <-]|[_ Hl]]; [by apply Hheard|]. apply S5. by exists s'.
Qed.

Lemma question_sound db k q row :
  inputs_sound db → is_Some (in_sessions db !! k) → normalize_question_id q = Ok q →
  (∃ old, in_questions db !! (k, q) = Some old ∧ qr_status row = qr_status old) ∨
  ((qr_status row = "pending" ∨ qr_status row = "closed") ∧ ∀ i a, of_attempt db k i = Some a → ir_question_id a ≠ Some q) →
  inputs_sound (set_questions (insert (k, q) row) db).
Proof.
  intros Hs Hk Hq Hold. pose proof Hs as [S1 S2 S3 S4 S5]. split; cbn [in_sessions in_questions in_inputs set_questions].
  - done.
  - intros t r i a Hl. destruct (S2 _ _ _ _ Hl) as (? & ? & Hm). split_and!; [done|done|]. destruct (ir_question_id a) as [q'|] eqn:Eq; [|done].
    destruct Hm as [Hkind Hm]. split; [done|]. destruct (decide ((k, q) = (t, r, ir_attempt_id a, q'))) as [[= -> ->]|Hn]; [|by rewrite lookup_insert_ne].
    rewrite lookup_insert_eq. destruct Hold as [(old & Ho & Hst)|[_ Hno]]; [rewrite Ho in Hm; cbn in *; congruence|].
    destruct (Hno i a); [|done]. by apply of_attempt_some.
  - done.
  - intros k' q' row' Hl. apply lookup_insert_Some in Hl as [[[= <- <-] <-]|[_ Hl]]; [|by apply S4]. split_and!; [done|done|].
    destruct Hold as [(old & Ho & Hst)|[[]_]]; auto. rewrite Hst. by apply (S4 _ _ _ Ho).
  - done.
Qed.

(** A new row of an open session. *)
Lemma input_sound (db : input_db) (k : attempt_key) (i : string) (row : input_row) (qs : gmap (attempt_key * string) question_row) :
  inputs_sound db → is_open db k → in_inputs db !! (k.1.1, k.1.2, i) = None → ir_attempt_id row = k.2 → ir_status row = "queued" →
  (pending_text k row ∧ qs = in_questions db) ∨
  (∃ q qrow, pending_answer k q row ∧ in_questions db !! (k, q) = Some qrow ∧ qr_status qrow = "pending" ∧
     qs = <[(k, q) := set_status "answered" qrow]> (in_questions db)) →
  inputs_sound (InputDb (in_sessions db) qs (<[(k.1.1, k.1.2, i) := row]> (in_inputs db))).
Proof.
  intros Hs (s & Hk & Hst) Hi Hat Hqd Hcase. pose proof Hs as [S1 S2 S3 S4 S5]. destruct k as [[kt kr] ka]. cbn [fst snd] in *.
  assert (∀ j a q, of_attempt db (kt, kr, ka) j = Some a → ir_question_id a = Some q → ir_question_id row ≠ Some q) as Hnew.
  { intros j a q Ha Haq Hrq. destruct Hcase as [[(_ & _ & Hn & _) _]|(q' & qrow & (_ & _ & Hq' & _) & Hl & Hp & _)]; [congruence|].
    assert (q' = q) as -> by congruence. destruct (answer_closes _ _ _ _ _ Hs Ha Haq) as (row0 & Hl0 & Hst0).
    assert (row0 = qrow) as -> by congruence. by destruct (answered_not_pending (ir_status a)); congruence. }
  split; cbn [in_sessions in_questions in_inputs].
  - done.
  - intros t r j a Hl. apply lookup_insert_Some in Hl as [[[= <- <- <-] <-]|[Hne Hl]].
    + rewrite Hat. split_and!; [by exists s|by left|]. destruct Hcase as [[(_ & ? & -> & _) ->]|(q & qrow & (_ & ? & -> & _) & Hl & Hp & ->)]; [done|].
      split; [done|]. rewrite lookup_insert_eq. cbn. by rewrite Hqd.
    + destruct (S2 _ _ _ _ Hl) as (? & ? & Hm). split_and!; [done|done|]. destruct (ir_question_id a) as [q'|] eqn:Eq; [|done].
      destruct Hcase as [[_ ->]|(q & qrow & (_ & _ & Hrq & _) & Hlq & Hp & ->)]; [done|]. destruct Hm as [? Hm]. split; [done|].
      rewrite lookup_insert_ne; [done|]. intros [= -> -> -> ->]. eapply (Hnew j a); [|exact Eq|done]. by apply of_attempt_some.
  - intros t r j j' a a' q Hl Hl' Haa Hq Hq'. apply lookup_insert_Some in Hl as [[HK <-]|[Hne Hl]];
      apply lookup_insert_Some in Hl' as [[Hk' <-]|[Hne' Hl']]; simplify_eq; [done| | |by eapply S3].
    + destruct (Hnew j' a' q); [apply of_attempt_some; cbn; split; [done|congruence]|done|done].
    + destruct (Hnew j a q); [apply of_attempt_some; cbn; split; [done|congruence]|done|done].
  - intros k' q' row' Hl.
    assert (∀ j a, of_attempt db k' j = Some a → ir_question_id a = Some q' → ∃ j a, of_attempt (InputDb (in_sessions db) qs (<[(kt, kr, i):=row]> (in_inputs db))) k' j = Some a ∧ ir_question_id a = Some q') as Hkeep.
    { intros j a [Ha1 Ha2]%of_attempt_some Haq. exists j, a. split; [|done]. apply of_attempt_some. cbn. split; [|done]. rewrite lookup_insert_ne; [done|]. intros [= -> -> ->]. congruence. }
    assert (∀ old, in_questions db !! (k', q') = Some old → is_Some (in_sessions db !! k') ∧ normalize_question_id q' = Ok q' ∧
      (qr_status old = "pending" ∨ qr_status old = "closed" ∨ ∃ j a, of_attempt (InputDb (in_sessions db) qs (<[(kt, kr, i):=row]> (in_inputs db))) k' j = Some a ∧ ir_question_id a = Some q')) as Hold.
    { intros old Ho. destruct (S4 _ _ _ Ho) as (? & ? & [?|[?|(j & a & ? & ?)]]); split_and!; eauto. }
    destruct Hcase as [[_ ->]|(q & qrow & (Hra & _ & Hrq & _) & Hlq & Hp & ->)]; [by apply Hold|].
    apply lookup_insert_Some in Hl as [[[= <- <-] <-]|[_ Hl]]; [|by apply Hold]. destruct (Hold _ Hlq) as (? & ? & _). split_and!; [done|done|].
    right; right. exists i, row. split; [|done]. apply of_attempt_some. cbn. by rewrite lookup_insert_eq.
  - intros k' Hse j a [Hl Ha]%of_attempt_some Hkind. cbn in Hl. apply lookup_insert_Some in Hl as [[[= -> -> ->] <-]|[_ Hl]].
    + exfalso. destruct Hse as (s' & Hl' & Hs'). cbn in Hl'. destruct k' as [[? ?] ?]. cbn in *. subst. congruence.
    + apply (S5 k' Hse j a); [by apply of_attempt_some|done].
Qed.

(** A row after an acknowledgement. *)
Lemma ack_row k ids db db' t r i row' : acknowledged k ids db db' → in_inputs db' !! (t, r, i) = Some row' →
  ∃ row, in_inputs db !! (t, r, i) = Some row ∧ ir_attempt_id row' = ir_attempt_id row ∧ ir_kind row' = ir_kind row ∧
    ir_question_id row' = ir_question_id row ∧
    ((t, r, ir_attempt_id row) = k ∧ i ∈ ids ∧ row' = applied row ∨ ((t, r, ir_attempt_id row) = k → i ∉ ids) ∧ row' = row).
Proof.
  intros [_ _ Hin _] Hl. rewrite Hin in Hl. apply fmap_Some in Hl as (row & Hl & ->). exists row. split; [done|].
  destruct (decide _) as [[]|Hn]; split_and!; auto. right. split; [|done]. intros Hk Hi. by apply Hn.
Qed.

Lemma asked_in_batch k (ids : list string) db (q : string) : q ∈ omap ir_question_id (omap (of_attempt db k) ids) ↔
  ∃ i row, i ∈ ids ∧ of_attempt db k i = Some row ∧ ir_question_id row = Some q.
Proof.
  rewrite list_elem_of_omap. setoid_rewrite list_elem_of_omap. naive_solver.
Qed.

Lemma ack_sound k ids db db' : inputs_sound db → acknowledge_inputs k ids db = Ok db' → inputs_sound db'.
Proof.
  intros Hs Hack%acknowledge_spec. pose proof Hs as [S1 S2 S3 S4 S5]. pose proof Hack as [K1 K2 K3 K4].
  assert (∀ k' i a, of_attempt db k' i = Some a → ∃ a', of_attempt db' k' i = Some a' ∧ ir_question_id a' = ir_question_id a) as Hkeep.
  { intros k' i a [Ha1 Ha2]%of_attempt_some. setoid_rewrite of_attempt_some. rewrite K3, Ha1. cbn. eexists. split; [split; [done|]|]; by destruct (decide _). }
  split.
  - rewrite K1. done.
  - intros t r i row' Hl. destruct (ack_row _ _ _ _ _ _ _ _ Hack Hl) as (row & Hl0 & Ea & Ek & Eq & Hcase). destruct (S2 _ _ _ _ Hl0) as (Hse & Hst & Hm).
    rewrite Ea, Ek, Eq, K1. split_and!; [done|by destruct Hcase as [(_ & _ & ->)|[_ ->]]; [right|]|].
    destruct (ir_question_id row) as [q|] eqn:Erq; [|done]. destruct Hm as [Hkd Hm]. split; [done|]. rewrite K4.
    destruct (in_questions db !! (t, r, ir_attempt_id row, q)) as [qrow|]; [|done]. cbn in Hm |- *. injection Hm as Hm. f_equal.
    destruct Hcase as [(Hk & Hi & ->)|[Hno ->]]; cbn [applied ir_status].
    + assert (q ∈ omap ir_question_id (omap (of_attempt db k) ids)) as Hq.
      { apply asked_in_batch. exists i, row. split_and!; [done| |done]. apply of_attempt_some. by rewrite <- Hk. }
      destruct (decide _) as [|Hn]; [done|]. destruct Hst as [Hst|Hst]; rewrite Hst in Hm; [|done]. by destruct Hn.
    + rewrite decide_False; [done|]. intros (Hk & _ & (j & a & Hj & Ha & Haq)%asked_in_batch). apply of_attempt_some in Ha as [Ha1 Ha2].
      assert (i = j) as <-; [|by apply Hno]. rewrite <- Hk in Ha1, Ha2. by eapply (S3 t r i j row a q).
  - intros t r i j row row' q Hl Hl' Hat Hq Hq'. destruct (ack_row _ _ _ _ _ _ _ _ Hack Hl) as (r0 & ? & ? & _ & ? & _).
    destruct (ack_row _ _ _ _ _ _ _ _ Hack Hl') as (r1 & ? & ? & _ & ? & _). eapply (S3 t r i j r0 r1 q); congruence.
  - intros k' q row Hl. rewrite K4 in Hl. apply fmap_Some in Hl as (row0 & Hl & ->). destruct (S4 _ _ _ Hl) as (Hse & Hn & Hst). rewrite K1.
    split_and!; [done|done|]. destruct Hst as [Hst|[Hst|(i & a & Ha & Haq)]].
    + rewrite decide_False by (intros (_ & Hx & _); congruence). by left.
    + rewrite decide_False by (intros (_ & Hx & _); congruence). by right; left.
    + right; right. destruct (Hkeep _ _ _ Ha) as (a' & Ha' & Hq'). exists i, a'. split; [done|]. congruence.
  - intros k' (s & Hl & Hsl) i row' [Hrow Hat]%of_attempt_some Hkind. rewrite K1 in Hl.
    destruct (ack_row _ _ _ _ _ _ _ _ Hack Hrow) as (row & Hl0 & Ea & Ek & _ & Hcase). destruct Hcase as [(_ & _ & ->)|[_ ->]]; [done|].
    apply (S5 k' (ex_intro _ s (conj Hl Hsl)) i row); [|done]. by apply of_attempt_some.
Qed.

(** No text of the attempt is listed as queued: all are applied. *)
Lemma no_queued_text db k : inputs_sound db → list_queued_inputs db k None (Some "text") = [] →
  ∀ i row, of_attempt db k i = Some row → ir_kind row = "text" → ir_status row = "applied".
Proof.
  intros Hs Hnil i row [Hl Hat]%of_attempt_some Hkind. destruct (so_rows _ Hs _ _ _ _ Hl) as (_ & [Hq|?] & _); [|done]. exfalso.
  assert ((i, row) ∈ run_inputs db k.1.1 k.1.2) as Hin.
  { unfold run_inputs. rewrite merge_sort_Permutation. apply list_elem_of_omap. exists (k.1.1, k.1.2, i, row). split; [by apply elem_of_map_to_list|].
    cbn. by rewrite !String.eqb_refl. }
  assert ((i, row) ∈ list_queued_inputs db k None (Some "text")) as Hx; [|rewrite Hnil in Hx; by apply not_elem_of_nil in Hx].
  unfold list_queued_inputs. apply list_elem_of_In, filter_In. split; [by apply list_elem_of_In|]. cbn. by rewrite Hat, Hq, Hkind, String.eqb_refl.
Qed.

Lemma change_sound san db db' : inputs_sound db → change san db db' → inputs_sound db'.
Proof.
  intros Hs Hc. destruct Hc as [k s Hn Ho|k q row (s & Hk & _) Hn Hp Hq|k q row row' Hl Hst _|k q row Hl Hst|k i row Hk Hn Hp|k i q row qrow Hk Hn Hp Hl Hst|k ids db' E|k s s' Hl Ho Hse Hnil].
  - apply session_sound; [done|by left|congruence|congruence].
  - apply question_sound; [done|by exists s|done|]. right. split; [by left|]. intros i a Ha Hq'. destruct (answer_closes _ _ _ _ _ Hs Ha Hq') as (? & ? & _). congruence.
  - destruct (so_questions _ Hs _ _ _ Hl) as (? & ? & _). apply question_sound; eauto.
  - destruct (so_questions _ Hs _ _ _ Hl) as (? & ? & _). apply question_sound; [done|done|done|]. right. split; [by right|]. intros i a Ha Hq.
    destruct (answer_closes _ _ _ _ _ Hs Ha Hq) as (row0 & Hl0 & Hst0). destruct (answered_not_pending (ir_status a)). congruence.
  - pose proof Hp as (? & ? & ? & ?). apply (input_sound db k i row (in_questions db)); auto.
  - pose proof Hp as (? & ? & ? & ?). eapply (input_sound db k i row); try done. right. by exists q, qrow.
  - by eapply ack_sound.
  - apply session_sound; [done|by right|done|]. intros _. by apply no_queued_text.
Qed.
Lemma changes_sound san db db' : inputs_sound db → rtc (change san) db db' → inputs_sound db'.
Proof. intros Hs. induction 1; eauto using change_sound. Qed.

(** ** Inputs are kept *)

(** A later version of a row: the same, or applied. *)
Definition kept (row row' : input_row) : Prop := row' = row ∨ row' = applied row.
Lemma kept_trans a b c : kept a b → kept b c → kept a c.
Proof. unfold kept. intros [->| ->] [->| ->]; auto. Qed.
Lemma kept_fields a b : kept a b →
  ir_attempt_id b = ir_attempt_id a ∧ ir_kind b = ir_kind a ∧ ir_text b = ir_text a ∧ ir_question_id b = ir_question_id a ∧ ir_answers b = ir_answers a.
Proof. by intros [->| ->]. Qed.

Lemma change_keeps san db db' key row : change san db db' → in_inputs db !! key = Some row → ∃ row', in_inputs db' !! key = Some row' ∧ kept row row'.
Proof.
  intros Hc Hl. destruct Hc as [| | | |k i row0 _ Hn _|k i q row0 qrow _ Hn _ _ _|k ids db' E|]; cbn; try by (exists row; split; [done|by left]).
  - exists row. split; [|by left]. rewrite lookup_insert_ne; [done|]. intros <-. congruence.
  - exists row. split; [|by left]. rewrite lookup_insert_ne; [done|]. intros <-. congruence.
  - apply acknowledge_spec in E as [_ _ K _]. destruct key as [[t r] i]. rewrite K, Hl. cbn. eexists. split; [done|]. destruct (decide _); [by right|by left].
Qed.
Lemma changes_keep san db db' key row : rtc (change san) db db' → in_inputs db !! key = Some row → ∃ row', in_inputs db' !! key = Some row' ∧ kept row row'.
Proof.
  intros Hr. revert row. induction Hr as [db|db1 db2 db3 Hc _ IH]; intros row Hl; [exists row; split; [done|by left]|].
  destruct (change_keeps _ _ _ _ _ Hc Hl) as (row1 & Hl1 & Hk1). destruct (IH _ Hl1) as (row2 & Hl2 & Hk2). exists row2. split; [done|by eapply kept_trans].
Qed.

(** A sealed attempt gets no new text. *)
Lemma sealed_change san db db' k : change san db db' → is_sealed db k →
  is_sealed db' k ∧ ∀ i row, of_attempt db' k i = Some row → ir_kind row = "text" → ∃ old, of_attempt db k i = Some old ∧ kept old row.
Proof.
  intros Hc (s & Hl & Hst).
  assert (∀ db', in_inputs db' = in_inputs db → ∀ i row, of_attempt db' k i = Some row → ∃ old, of_attempt db k i = Some old ∧ kept old row) as Hsame.
  { intros db0 Hi i row. unfold of_attempt. rewrite Hi. intros Hr. exists row. split; [done|by left]. }
  destruct Hc as [k0 s0 Hn _|k0 q row0 _ _ _ _|k0 q row0 row1 _ _ _|k0 q row0 _ _|k0 i0 row0 (s0 & Hk0 & Hs0) Hn (Ha & _)|k0 i0 q row0 qrow (s0 & Hk0 & Hs0) Hn (Ha & Hkd & _) _ _|k0 ids db' E|k0 s0 s1 Hl0 Ho Hse _].
  - split; [|eauto]. exists s. cbn. rewrite lookup_insert_ne; [done|]. congruence.
  - split; [by exists s|eauto].
  - split; [by exists s|eauto].
  - split; [by exists s|eauto].
  - split; [by exists s|]. intros i row [Hr Hat]%of_attempt_some _. cbn in Hr. apply lookup_insert_Some in Hr as [[Hkk <-]|[_ Hr]].
    + exfalso. destruct k as [[? ?] ?], k0 as [[? ?] ?]. cbn in *. simplify_eq. congruence.
    + exists row. split; [by apply of_attempt_some|by left].
  - split; [by exists s|]. intros i row [Hr Hat]%of_attempt_some Hkind. cbn in Hr. apply lookup_insert_Some in Hr as [[Hkk <-]|[_ Hr]]; [congruence|].
    exists row. split; [by apply of_attempt_some|by left].
  - apply acknowledge_spec in E as Hack. split; [exists s; by rewrite (ak_sessions _ _ _ _ Hack)|]. intros i row [Hr Hat]%of_attempt_some _.
    destruct (ack_row _ _ _ _ _ _ _ _ Hack Hr) as (old & Hold & Ea & _ & _ & Hcase). exists old. split; [apply of_attempt_some; by rewrite <- Ea|].
    destruct Hcase as [(_ & _ & ->)|[_ ->]]; [by right|by left].
  - split; [|eauto]. destruct (decide (k0 = k)) as [->|Hne]; [exists s1; cbn; by rewrite lookup_insert_eq|]. exists s. cbn. by rewrite lookup_insert_ne.
Qed.
Lemma sealed_changes san db db' k : rtc (change san) db db' → is_sealed db k →
  is_sealed db' k ∧ ∀ i row, of_attempt db' k i = Some row → ir_kind row = "text" → ∃ old, of_attempt db k i = Some old ∧ kept old row.
Proof.
  induction 1 as [db|db1 db2 db3 Hc _ IH]; intros Hs; [split; [done|]; intros i row Hr _; exists row; split; [done|by left]|].
  destruct (sealed_change _ _ _ _ Hc Hs) as [Hs2 H2]. destruct (IH Hs2) as [Hs3 H3]. split; [done|]. intros i row Hr Hk.
  destruct (H3 _ _ Hr Hk) as (mid & Hm & Hkm). destruct (kept_fields _ _ Hkm) as (_ & Hkk & _).
  destruct (H2 _ _ Hm) as (old & Ho & Hko); [congruence|]. exists old. split; [done|by eapply kept_trans].
Qed.

(** ** What the operations guarantee *)

Section Guarantees.
Context `{HexRuntime} (san : string → pyval).

(** C37.  The tables of the inputs stay sound.  Over every sequence of submissions, questions
    of the host and callbacks of executors, whatever happens to the runs and attempts
    meanwhile: an input belongs to a session and is queued or applied; a question that is
    pending or closed has no answer and every other has exactly one; the question is
    answered while its answer is queued and resolved once it is applied; and a sealed
    session has no queued text. *)
Theorem inputs_stay_sound db : rtc (input_step san) no_inputs db → inputs_sound db.
Proof. intros Hr%steps_changes. apply (changes_sound san no_inputs); [apply no_inputs_sound|done]. Qed.

Lemma settle_seals now clock fresh runs t run r att q qs ids db db' reply :
  callback san now clock fresh runs t run r att "settle" q qs ids db = Ok (db', reply) → cr_state reply = "sealed" →
  is_sealed db' (t, r, att) ∧ in_inputs db' = in_inputs db.
Proof.
  unfold callback. cbn zeta. intros E Hst. steps. cbn [String.eqb Ascii.eqb Bool.eqb] in E. unfold get_session in E.
  destruct (in_sessions db !! (t, r, att)) as [s|] eqn:El; [|done]. unfold callback_settle in E.
  destruct (String.eqb_spec (ss_state s) "sealed") as [Hs|Hs]; [steps; split; [by exists s|done]|].
  destruct (list_queued_inputs _ _ _ _) as [|queued l]; [|steps; done]. apply bind_ok in E as ([db1 s'] & Ese & E). steps.
  unfold seal_session in Ese. rewrite El in Ese. cbn in Hst. destruct (String.eqb _ _); steps; [|done]. split; [|done]. eexists. cbn. by rewrite lookup_insert_eq.
Qed.

(** C38.  A settled attempt has heard everything.  When the settlement of an attempt answers
    that its session is sealed, then from then on, whatever happens, the texts of the
    attempt are exactly those accepted before the settlement, unchanged, and each has been
    applied: nothing the owner was told was accepted is lost, nothing is accepted after. *)
Theorem settled_attempt_heard_everything now clock fresh runs t run r att q qs ids db db' db'' reply :
  rtc (input_step san) no_inputs db →
  callback san now clock fresh runs t run r att "settle" q qs ids db = Ok (db', reply) → cr_state reply = "sealed" →
  rtc (input_step san) db' db'' →
  ∀ i, (∀ row, of_attempt db'' (t, r, att) i = Some row → ir_kind row = "text" →
          ir_status row = "applied" ∧ ∃ before, of_attempt db (t, r, att) i = Some before ∧ ir_text row = ir_text before) ∧
       (∀ before, of_attempt db (t, r, att) i = Some before → ir_kind before = "text" →
          ∃ row, of_attempt db'' (t, r, att) i = Some row ∧ ir_text row = ir_text before ∧ ir_status row = "applied").
Proof.
  intros Hr%steps_changes E Hst Hr''%steps_changes i. destruct (settle_seals _ _ _ _ _ _ _ _ _ _ _ _ _ _ E Hst) as [Hse Hin].
  destruct (sealed_changes _ _ _ _ Hr'' Hse) as [Hse'' Hold].
  assert (inputs_sound db'') as Hs.
  { apply (changes_sound san no_inputs); [apply no_inputs_sound|]. etrans; [exact Hr|]. etrans; [|exact Hr'']. eapply step_changes, step_callback, E. }
  assert (∀ x, of_attempt db' (t, r, att) x = of_attempt db (t, r, att) x) as Hsame by (intros x; unfold of_attempt; by rewrite Hin). split.
  - intros row Hrow Hk. split; [by eapply (so_heard _ Hs)|]. destruct (Hold _ _ Hrow Hk) as (old & Ho & Hkept). exists old. rewrite Hsame in Ho.
    split; [done|]. by destruct (kept_fields _ _ Hkept) as (_ & _ & -> & _).
  - intros before [Hb Ha]%of_attempt_some Hk. rewrite <- Hin in Hb. destruct (changes_keep _ _ _ _ _ Hr'' Hb) as (row & Hl & Hkept).
    destruct (kept_fields _ _ Hkept) as (E1 & E2 & E3 & _). exists row.
    assert (of_attempt db'' (t, r, att) i = Some row) as Hrow by (apply of_attempt_some; split; [done|congruence]).
    split_and!; [done|done|]. eapply (so_heard _ Hs); [exact Hse''|exact Hrow|congruence].
Qed.

(** ** Repeated submissions *)

(** The choices of a question as stored. *)
Definition stored_choices (db : input_db) (k : attempt_key) (q : string) : option (list (string * bool * list string)) :=
  (fun row => choices (canonical_stored_questions san (qr_questions row))) <$> in_questions db !! (k, q).

(** No change of the tables takes choices away or adds some. *)
Lemma change_choices db db' k q c : stable_sanitizer san → change san db db' → stored_choices db k q = Some c → stored_choices db' k q = Some c.
Proof.
  intros Hst Hc E. unfold stored_choices in *.
  assert (∀ k0 q0 row row', in_questions db !! (k0, q0) = Some row →
    choices (canonical_stored_questions san (qr_questions row')) = choices (canonical_stored_questions san (qr_questions row)) →
    (fun row => choices (canonical_stored_questions san (qr_questions row))) <$> <[(k0, q0) := row']> (in_questions db) !! (k, q) = Some c) as Hset.
  { intros k0 q0 row row' Hl Hq. destruct (decide ((k0, q0) = (k, q))) as [Heq|Hne]; [|by rewrite lookup_insert_ne].
    rewrite Heq in *. rewrite lookup_insert_eq. rewrite Hl in E. cbn in E |- *. congruence. }
  destruct Hc as [|k0 q0 row _ Hn _ _|k0 q0 row row' Hl _ (inc & comp & Ec & Eqr)|k0 q0 row Hl _|k0 i row _ _ _|k0 i q0 row qrow _ _ _ Hl _|k0 ids db' Ea|];
    cbn [set_sessions set_questions set_inputs in_questions]; try done.
  - rewrite lookup_insert_ne; [done|]. intros Heq. by rewrite <- Heq, Hn in E.
  - eapply Hset; [exact Hl|]. rewrite Eqr. by eapply completed_choices.
  - by eapply Hset.
  - by eapply Hset.
  - apply acknowledge_spec in Ea as [_ _ _ K4]. rewrite K4. destruct (in_questions db !! (k, q)) as [row|]; [|done]. cbn in E |- *. by destruct (decide _).
Qed.
Lemma changes_choices db db' k q c : stable_sanitizer san → rtc (change san) db db' → stored_choices db k q = Some c → stored_choices db' k q = Some c.
Proof. intros Hst. induction 1; eauto using change_choices. Qed.

Lemma same_submission_later sanitizer t r row row' s db db' :
  require_same_submission san sanitizer t r row s db = Ok tt → kept row row' →
  (∀ q c, sb_question_id s = Some q → stored_choices db (t, r, ir_attempt_id row) q = Some c → stored_choices db' (t, r, ir_attempt_id row) q = Some c) →
  require_same_submission san sanitizer t r row' s db' = Ok tt.
Proof.
  intros E (Ea & Ek & Et & Eq & Ean)%kept_fields Hq. unfold require_same_submission in *. rewrite Ea, Ek, Et, Eq, Ean.
  destruct (sb_text s); [done|]. destruct (negb _); [done|]. destruct (sb_question_id s) as [q|]; [|done]. destruct (sb_answers s) as [d|]; [|done].
  apply bind_ok in E as (q' & Hn & E). rewrite Hn. cbn [res_bind]. apply normalized_id in Hn as [-> _]. destruct (negb _); [done|].
  specialize (Hq q). unfold stored_choices, get_question in *. destruct (in_questions db !! _) as [qrow|]; [|done]. specialize (Hq _ eq_refl eq_refl).
  destruct (in_questions db' !! _) as [qrow'|]; [|done]. cbn in Hq. injection Hq as Hq. by rewrite (answers_by_choices _ _ _ _ Hq).
Qed.

Lemma submitted_is_same sanitizer k s db kind text qid answers row :
  submission_shape s = true → submission_content san sanitizer k s db = Ok (kind, text, qid, answers) →
  ir_attempt_id row = k.2 → ir_kind row = kind → ir_text row = text → ir_question_id row = qid → ir_answers row = answers →
  require_same_submission san sanitizer k.1.1 k.1.2 row s db = Ok tt.
Proof.
  intros Hsh E Ha Hk Ht Hq Han. unfold submission_content, require_same_submission in *. rewrite Ha, Hk, Ht, Hq, Han.
  destruct (sb_text s) as [txt|].
  - apply bind_ok in E as (safe & Es & E). injection E as <- <- <- <-. cbn [String.eqb Ascii.eqb Bool.eqb negb]. rewrite Es. cbn [res_bind].
    by rewrite bool_decide_true.
  - destruct (sb_question_id s) as [q|]; [|done]. destruct (sb_answers s) as [d|]; [|done]. apply bind_ok in E as (q' & Hn & E). rewrite Hn.
    destruct (get_question db k q') as [qrow|] eqn:Eg; [|done]. apply bind_ok in E as (st & Es & E). destruct (negb _); [done|].
    injection E as <- <- <- <-. cbn [String.eqb Ascii.eqb Bool.eqb negb res_bind default from_option]. rewrite String.eqb_refl. cbn [negb].
    replace (k.1.1, k.1.2, k.2) with k by (by destruct k as [[] ]). rewrite Eg, Es. cbn [res_bind]. by rewrite bool_decide_true.
Qed.

(** What an accepted submission leaves: a row that answers a repetition. *)
Lemma submit_leaves now hook runs t u r s db db1 i st :
  submit san now hook runs t u r s db = Ok (db1, Some (i, st)) →
  submission_shape s = true ∧ normalize_input_id (sb_input_id s) = Ok i ∧ ∃ row, in_inputs db1 !! (t, r, i) = Some row ∧
    require_same_submission san (if sb_redact_public s then san else PStr) t r row s db = Ok tt ∧
    ∀ k q, stored_choices db1 k q = stored_choices db k q.
Proof.
  unfold submit. destruct (get_owner_run _ _ _ _) as [run|]; [|done]. intros E. destruct (submission_shape s) eqn:Hsh; [|done]. cbn [negb] in E.
  apply bind_ok in E as (i' & Hn & E). rewrite Hn. destruct (get_input db t r i') as [existing|] eqn:Ei.
  { apply bind_ok in E as ([] & Es & E). steps. split_and!; [done|done|]. by exists existing. }
  destruct (active_attempt_id _ _ _ _) as [att|]; [|done]. cbn zeta in E. destruct (negb (match get_session _ _ with _ => _ end)); [done|].
  apply bind_ok in E as ([[[kind text] qid] answers] & Ec & E). apply bind_ok in E as ([db2 row] & Eins & E).
  apply bind_ok in E as (db3 & Eq & E). injection E as <- <- <-. unfold insert_input in Eins. steps. split_and!; [done|done|].
  set (row := InputRow att kind text qid answers "queued" (sb_source s) now) in *.
  pose proof (submitted_is_same _ (t, r, att) _ _ _ _ _ _ row Hsh Ec eq_refl eq_refl eq_refl eq_refl eq_refl) as Hsame. cbn [fst snd] in Hsame.
  assert (∃ row', in_inputs db3 !! (t, r, i') = Some row' ∧ kept row row' ∧ ∀ k q, stored_choices db3 k q = stored_choices db k q) as (row' & ? & Hkept & Hq).
  { destruct qid as [q|]; [|steps; exists row; split_and!; [cbn; by rewrite lookup_insert_eq|by left|done]].
    destruct (set_question_status _ _ _ _) as [db4 changed] eqn:Es. destruct changed; [|done]. cbn [negb] in Eq. unfold set_question_status in Es. cbn [set_inputs in_questions] in Es.
    destruct (in_questions db !! (t, r, att, q)) as [qrow|] eqn:El; [|done]. destruct (String.eqb _ _); [|done]. injection Es as <-.
    assert (∀ k q0, stored_choices (set_questions <[(t, r, att, q):=set_status "answered" qrow]> (set_inputs <[(t, r, i'):=row]> db)) k q0 = stored_choices db k q0) as Hsq.
    { intros k q0. unfold stored_choices. cbn. destruct (decide ((t, r, att, q) = (k, q0))) as [[= <- <-]|Hne]; [by rewrite lookup_insert_eq, El|by rewrite lookup_insert_ne]. }
    assert (∀ m, m = Ok db3 → m = Ok (set_questions <[(t, r, att, q):=set_status "answered" qrow]> (set_inputs <[(t, r, i'):=row]> db)) →
      ∃ row', in_inputs db3 !! (t, r, i') = Some row' ∧ kept row row' ∧ ∀ k q, stored_choices db3 k q = stored_choices db k q) as Hplain.
    { intros m -> [= ->]. exists row. split_and!; [cbn; by rewrite lookup_insert_eq|by left|done]. }
    destruct hook as [outcome|]; [|by eapply Hplain]. destruct (String.eqb (sb_source s) "manual"); [|by eapply Hplain].
    unfold recovery_answer in Eq. destruct outcome as [[]| |]; try done; [|by eapply Hplain].
    destruct (acknowledge_inputs _ _ _) as [db4|] eqn:Ea; [|done]. injection Eq as <-. apply acknowledge_spec in Ea as [_ _ K3 K4].
    rewrite K3. cbn [set_questions set_inputs in_inputs]. rewrite lookup_insert_eq. cbn [fmap option_fmap option_map]. eexists. split_and!; [done|destruct (decide _); [by right|by left]|].
    intros k q0. rewrite <- Hsq. unfold stored_choices. rewrite K4. destruct (in_questions _ !! (k, q0)) as [x|]; cbn; [|done]. by destruct (decide _). }
  exists row'. split_and!; [done| |done]. by eapply same_submission_later.
Qed.

(** C39.  An accepted submission can be repeated.  After a submission was accepted, the same
    submission of the owner is answered with the same input, queued or applied, and changes
    nothing, whatever was done in between and whatever became of the run as long as the
    owner still has it; and the row it left is still there with its content.  For an answer
    the sanitizer of public text must leave its own results and the fallback texts of
    questions alone: a callback of the executor may complete the recommendation marks of an
    answered question, and the completed question is read back through the sanitizer. *)
Theorem accepted_submission_is_kept now now2 hook hook2 runs runs2 t u r s db db1 db2 i st :
  rtc (input_step san) no_inputs db → submit san now hook runs t u r s db = Ok (db1, Some (i, st)) →
  rtc (input_step san) db1 db2 → is_Some (get_owner_run runs2 t u r) →
  (sb_question_id s ≠ None → stable_sanitizer san) →
  ∃ st2, submit san now2 hook2 runs2 t u r s db2 = Ok (db2, Some (i, st2)) ∧ (st2 = "queued" ∨ st2 = "applied") ∧
    ∃ row row2, in_inputs db1 !! (t, r, i) = Some row ∧ in_inputs db2 !! (t, r, i) = Some row2 ∧ kept row row2.
Proof.
  intros Hr E Hr2 [run2 Hown] Hstable. destruct (submit_leaves _ _ _ _ _ _ _ _ _ _ _ E) as (Hsh & Hn & row & Hl & Hsame & Hst).
  pose proof (steps_changes _ _ _ Hr2) as Hc2. destruct (changes_keep _ _ _ _ _ Hc2 Hl) as (row2 & Hl2 & Hkept).
  assert (inputs_sound db2) as Hs.
  { apply (changes_sound san no_inputs); [apply no_inputs_sound|]. etrans; [by eapply steps_changes|]. etrans; [by eapply submit_changes|done]. }
  exists (ir_status row2). split_and!; [|by apply (so_rows _ Hs _ _ _ _ Hl2)|by exists row, row2].
  unfold submit. rewrite Hown, Hsh, Hn. cbn [negb res_bind]. unfold get_input. rewrite Hl2.
  rewrite (same_submission_later _ _ _ _ _ _ _ db2 Hsame Hkept); [done|]. intros q c Eq Hc. rewrite <- Hst in Hc.
  eapply changes_choices; [apply Hstable; congruence|exact Hc2|exact Hc].
Qed.

End Guarantees.
