(* ===== verification/RunInputsTimeout.v ===== *)
(** * Overdue questions

    A question nobody answers within its time is settled by the next poll of its executor:
    answered with its defaults, or closed when some question has no options.  The default
    answers of canonical questions always pass the check of answers, so that the expiry
    cannot fail.  The file ends with an executed run of the service. *)
From stdpp Require Import base gmap list strings sorting.
From Stdlib Require Import ZArith Lia Ascii.
From S2P Require Import Prelude Redis QueueFacts PyValue RunAttempt RunTerminal RunInputs RunInputsChoices RunInputsFacts.
#[local] Open Scope py_scope.

(** ** The keys of canonical questions *)

Definition OPTION_KEYS : list string := map option_key (seq 0 8).
Definition QUESTION_KEYS : list string := map question_key (seq 0 4).

Lemma option_keys_distinct : NoDup OPTION_KEYS.
Proof. apply (bool_decide_unpack _). by vm_compute. Qed.
Lemma question_keys_distinct : NoDup QUESTION_KEYS.
Proof. apply (bool_decide_unpack _). by vm_compute. Qed.
(** Keys are short and plain. *)
Definition plain_key (s : string) : Prop := has_nul s = false ∧ py_len s <= MAX_RUN_ANSWER_CHARS.
Lemma keys_plain : Forall plain_key (OPTION_KEYS ++ QUESTION_KEYS).
Proof. repeat constructor; vm_compute; congruence. Qed.

Lemma first_keys (key : nat → string) n m : (n <= m)%nat → map key (seq 0 n) `prefix_of` map key (seq 0 m).
Proof.
  intros Hn. exists (map key (seq n (m - n))). rewrite <- map_app. f_equal. replace m with (n + (m - n))%nat at 1 by lia. by rewrite seq_app.
Qed.

Record canonical_question (q : question) : Prop := {
  cq_options : map qo_key (q_options q) `prefix_of` OPTION_KEYS
}.
Record canonical_questions (qs : list question) : Prop := {
  cs_keys : map q_key qs `prefix_of` QUESTION_KEYS;
  cs_each : Forall canonical_question qs
}.

Section Canonical.
Context (san : string → pyval).

Lemma option_has_key i v o : canonicalize_option san i v = Ok o → qo_key o = option_key i.
Proof.
  unfold canonicalize_option. destruct v; try done. intros E. steps. destruct (assoc _ _) as [[]|]; by steps.
Qed.
Lemma options_have_keys i vs os : canonicalize_options san i vs = Ok os → map qo_key os = map option_key (seq i (length vs)).
Proof.
  revert i os. induction vs as [|v vs IH]; intros i os; cbn [canonicalize_options]; [by intros [= <-]|]. intros E.
  apply bind_ok in E as (o & Eo & E). apply bind_ok in E as (os' & Es & E). injection E as <-. cbn.
  by rewrite (option_has_key _ _ _ Eo), (IH _ _ Es).
Qed.
Lemma question_has_key i v q : canonicalize_question san i v = Ok q → q_key q = question_key i ∧ canonical_question q.
Proof.
  unfold canonicalize_question. destruct v; try done. intros E. destruct (negb _); [done|]. apply bind_ok in E as (text & _ & E).
  apply bind_ok in E as (header & _ & E). destruct (get "options" kvs) as [| | | | |l|]; try done. destruct (Nat.ltb_spec MAX_RUN_QUESTION_OPTIONS (length l)); [done|].
  apply bind_ok in E as (os & Eo & E). destruct (get "multiSelect" kvs); try done. injection E as <-. split; [done|]. split. cbn [q_options].
  rewrite (options_have_keys _ _ _ Eo). by apply (first_keys option_key (length l) 8).
Qed.
Lemma all_have_keys i vs qs : canonicalize_all san i vs = Ok qs → map q_key qs = map question_key (seq i (length vs)) ∧ Forall canonical_question qs.
Proof.
  revert i qs. induction vs as [|v vs IH]; intros i qs; cbn [canonicalize_all]; [intros [= <-]; by repeat constructor|]. intros E.
  apply bind_ok in E as (q & Eq & E). apply bind_ok in E as (qs' & Es & E). injection E as <-. destruct (question_has_key _ _ _ Eq) as [Hk Hq].
  destruct (IH _ _ Es) as [Hks Hqs]. split; [cbn; by rewrite Hk, Hks|by constructor].
Qed.
Lemma public_canonical v : canonical_questions (public_question san v).
Proof.
  unfold public_question. destruct (canonicalize_questions san v) as [qs|] eqn:E; [|split; [apply prefix_nil|constructor]].
  unfold canonicalize_questions in E. destruct v as [| | | | |l|]; try done. destruct (_ || _) eqn:Eb; [done|]. apply orb_false_iff in Eb as [_ Hl%Nat.ltb_ge].
  destruct (all_have_keys _ _ _ E) as [Hk Hq]. split; [|done]. rewrite Hk. by apply (first_keys question_key (length l) 4).
Qed.

(** ** Default answers are accepted *)

Definition selected_options (q : question) : list question_option :=
  match q_options q with
  | [] => []
  | first :: _ => match List.filter recommends (q_options q) with [] => [first] | l => l end
  end.
Definition default_value (q : question) : pyval :=
  if q_multi_select q then PList (map (fun o => PStr (qo_key o)) (selected_options q))
  else match selected_options q with o :: _ => PStr (qo_key o) | [] => PNone end.

Lemma assoc_set_fresh {A} k (v : A) d : k ∉ map fst d → assoc_set k v d = d ++ [(k, v)].
Proof.
  induction d as [|[k' v'] d IH]; cbn; [done|]. rewrite not_elem_of_cons. intros [Hk Hd]. destruct (String.eqb_spec k' k); [done|]. by rewrite IH.
Qed.
Lemma defaults_listed qs answers d :
  NoDup (map fst answers ++ map q_key qs) → default_answers_from answers qs = Some d →
  d = answers ++ map (fun q => (q_key q, default_value q)) qs ∧ Forall (fun q => q_options q ≠ []) qs.
Proof.
  revert answers. induction qs as [|q qs IH]; intros answers Hn; cbn [default_answers_from map]; [intros [= <-]; rewrite app_nil_r; by repeat constructor|].
  destruct (q_options q) as [|first rest] eqn:Eo; [done|]. intros E. cbn [map] in Hn.
  assert (q_key q ∉ map fst answers) as Hk.
  { apply NoDup_app in Hn as (_ & Hd & _). intros Hin. by apply (Hd _ Hin), list_elem_of_here. }
  rewrite assoc_set_fresh in E by done. apply IH in E as [-> HF].
  - split; [|constructor; [congruence|done]]. rewrite <- app_assoc. cbn [app]. do 3 f_equal. unfold default_value, selected_options. rewrite Eo.
    destruct (q_multi_select q); [done|]. by destruct (List.filter recommends (first :: rest)).
  - rewrite map_app, <- app_assoc. done.
Qed.

Lemma selected_sublist q : selected_options q `sublist_of` q_options q.
Proof.
  unfold selected_options. destruct (q_options q) as [|first rest]; [done|].
  assert (List.filter recommends (first :: rest) `sublist_of` first :: rest) as Hs.
  { generalize (first :: rest). induction l as [|x l IH]; cbn; [done|]. destruct (recommends x); by constructor. }
  destruct (List.filter recommends (first :: rest)); [apply sublist_skip, sublist_nil_l|done].
Qed.
Lemma selected_some q : q_options q ≠ [] → selected_options q ≠ [].
Proof. unfold selected_options. destruct (q_options q); [done|]. by destruct (List.filter _ _). Qed.

Lemma select_all labels chosen keys : NoDup (chosen ++ keys) → Forall (fun k => str_in k labels = true) keys →
  select_keys labels chosen (map PStr keys) = Ok (chosen ++ keys).
Proof.
  revert chosen. induction keys as [|k keys IH]; intros chosen Hn; cbn [map select_keys]; [by rewrite app_nil_r|]. intros [Hk Hks]%Forall_cons.
  rewrite Hk. assert (str_in k chosen = false) as ->.
  { apply str_in_false. apply NoDup_app in Hn as (_ & Hd & _). intros Hin. by apply (Hd _ Hin), list_elem_of_here. }
  cbn [negb orb]. rewrite IH; [by rewrite <- app_assoc|by rewrite <- app_assoc|done].
Qed.

(** An answer made of option keys only. *)
Definition plain_answer (a : answer) : Prop :=
  match a with AText _ => False | AOne k => plain_key k | AMany ks => Forall plain_key ks end.

Lemma distinct_kept (l : list string) : NoDup l → remove_dups l = l.
Proof. induction 1 as [|x l Hx _ IH]; [done|]. cbn. destruct (decide_rel _ _ _); [done|]. by rewrite IH. Qed.

Lemma default_accepted q : canonical_question q → q_options q ≠ [] → ∃ a, canonicalize_answer san q (default_value q) = Ok a ∧ plain_answer a ∧ answer_value a = default_value q.
Proof.
  intros [Hp] Hne. pose proof (selected_sublist q) as Hsub. pose proof (selected_some q Hne) as Hs.
  set (labels := map qo_key (q_options q)) in *.
  assert (map qo_key (selected_options q) `sublist_of` labels) as Hk by (by apply fmap_sublist).
  assert (NoDup labels) as Hnd.
  { destruct Hp as [more Hp]. pose proof option_keys_distinct as Hd. rewrite Hp in Hd. by apply NoDup_app in Hd as [? _]. }
  assert (Forall plain_key labels) as Hpl.
  { destruct Hp as [more Hp]. pose proof keys_plain as Hall. apply Forall_app in Hall as [Hall _]. rewrite Hp in Hall. by apply Forall_app in Hall as [? _]. }
  assert (Forall (fun k => str_in k labels = true) (map qo_key (selected_options q))) as Hin.
  { apply Forall_forall. intros k Hk'. apply str_in_elem. by eapply elem_of_sublist. }
  assert (Forall plain_key (map qo_key (selected_options q))) as Hplain by (rewrite Forall_forall in Hpl |- *; eauto using elem_of_sublist).
  unfold default_value, canonicalize_answer. fold labels. destruct (q_multi_select q) eqn:Em.
  - cbn [negb orb]. exists (AMany (map qo_key (selected_options q))). rewrite <- (map_map qo_key PStr). split; [|done].
    destruct (map PStr (map qo_key (selected_options q))) as [|x l] eqn:El; [destruct (selected_options q); done|]. rewrite <- El.
    rewrite distinct_kept by done. destruct (Nat.ltb_spec (length labels) (length (map PStr (map qo_key (selected_options q))))) as [Hlt|_].
    { rewrite length_map in Hlt. apply sublist_length in Hk. lia. }
    rewrite select_all; [done|by eapply sublist_NoDup|done].
  - destruct (selected_options q) as [|o l]; [done|]. cbn in Hin, Hplain. apply Forall_cons in Hin as [Hin _], Hplain as [Hplain _].
    exists (AOne (qo_key o)). rewrite Hin. by split_and!.
Qed.

Lemma question_found qs q : NoDup (map q_key qs) → q ∈ qs → question_of qs (q_key q) = Some q.
Proof.
  intros Hn Hq. unfold question_of. assert (List.filter (fun x => String.eqb (q_key x) (q_key q)) qs = [q]) as ->; [|done].
  induction qs as [|x qs IH]; [by apply not_elem_of_nil in Hq|]. cbn in Hn |- *. apply NoDup_cons in Hn as [Hx Hn].
  apply elem_of_cons in Hq as [->|Hq].
  - rewrite String.eqb_refl. f_equal. clear IH. induction qs as [|y qs IH]; [done|]. cbn in *. apply not_elem_of_cons in Hx as [Hxy Hx]. apply NoDup_cons in Hn as [_ Hn].
    destruct (String.eqb_spec (q_key y) (q_key x)); [congruence|]. by apply IH.
  - destruct (String.eqb_spec (q_key x) (q_key q)) as [He|]; [|by apply IH]. destruct Hx. rewrite He. by apply (list_elem_of_fmap_2 q_key).
Qed.

Lemma defaults_canonical qs part :
  NoDup (map q_key qs) → (∀ q, q ∈ part → q ∈ qs ∧ canonical_question q ∧ q_options q ≠ []) →
  ∃ m, canonicalize_items san qs (map (fun q => (q_key q, default_value q)) part) = Ok m ∧
    (∀ k a, m !! k = Some a → k ∈ map q_key part ∧ plain_answer a) ∧ (part ≠ [] → m ≠ ∅) ∧
    (∀ k, answer_value <$> m !! k = assoc k (map (fun q => (q_key q, default_value q)) part)).
Proof.
  intros Hn. induction part as [|q part IH]; intros Hp; cbn [map canonicalize_items].
  { exists ∅. split_and!; [done| |done|done]. intros k a. by rewrite lookup_empty. }
  destruct (Hp q) as (Hq & Hc & Ho); [set_solver|]. rewrite (question_found _ _ Hn Hq). destruct (default_accepted q Hc Ho) as (a & -> & Ha & Hv).
  destruct IH as (m & -> & Hm & _ & Hd); [intros x Hx; apply Hp; set_solver|]. exists (<[q_key q := a]> m). split_and!; [done| |intros _; apply insert_non_empty|].
  2: { intros k. cbn [assoc]. destruct (String.eqb_spec (q_key q) k) as [->|]; [rewrite lookup_insert_eq; cbn; by rewrite Hv|by rewrite lookup_insert_ne]. }
  intros k a'. rewrite lookup_insert_Some. intros [[<- <-]|[_ Hl]]; [split; [set_solver|done]|]. destruct (Hm _ _ Hl). split; [set_solver|done].
Qed.

Lemma answers_of_items d qs m : qs ≠ [] →
  forallb (fun kv => str_in kv.1 (map q_key qs)) d = true → forallb (fun k => has_key k d) (map q_key qs) = true →
  canonicalize_items san qs d = Ok m → canonicalize_answers san (PDict d) qs = Ok m.
Proof. intros Hne H1 H2 Hm. unfold canonicalize_answers. destruct qs as [|q qs]; [done|]. by rewrite H1, H2. Qed.

(** The defaults of canonical questions are accepted as answers to them, as they are. *)
Lemma defaults_are_answers qs d : canonical_questions qs → default_question_answers qs = Some d →
  ∃ m, canonicalize_answers san (PDict d) qs = Ok m ∧ m ≠ ∅ ∧ (∀ k a, m !! k = Some a → k ∈ QUESTION_KEYS ∧ plain_answer a) ∧ ∀ k, answer_value <$> m !! k = assoc k d.
Proof.
  intros [Hk He] E. unfold default_question_answers in E.
  assert (NoDup (map q_key qs)) as Hn by (pose proof question_keys_distinct as Hd; destruct Hk as [more Hk]; rewrite Hk in Hd; by apply NoDup_app in Hd as [? _]).
  destruct (default_answers_from [] qs) as [d'|] eqn:Ed; [|done]. destruct (defaults_listed qs [] d' Hn Ed) as [-> Ho]. cbn [app] in *.
  destruct qs as [|q0 qs0]; [done|]. set (qs := q0 :: qs0) in *. assert (d = map (fun q => (q_key q, default_value q)) qs) as ->.
  { cbn [map] in E |- *. by injection E. }
  destruct (defaults_canonical qs qs Hn) as (m & Em & Hm & Hne & Hd).
  { intros q Hq. rewrite Forall_forall in He, Ho. auto. }
  exists m. split_and!; [|by apply Hne| |exact Hd].
  - apply answers_of_items; [done| | |done].
    + apply forallb_forall. intros [k v] (q & [= <- <-] & Hq)%in_map_iff. apply str_in_elem. change (q_key q ∈ map q_key qs).
      by apply (list_elem_of_fmap_2 q_key), list_elem_of_In.
    + apply forallb_forall. intros k Hin. clear Hd. unfold has_key. generalize dependent qs. intros l _ _ _ _ _ _ _ _ _ Hin.
      induction l as [|x l IH]; [done|]. cbn [map assoc] in *. destruct (String.eqb_spec (q_key x) k); [done|]. apply IH. by destruct Hin.
  - intros k a Hl. destruct (Hm _ _ Hl) as [Hin Ha]. split; [|done]. destruct Hk as [more Hk]. rewrite Hk. set_solver.
Qed.

End Canonical.

(** ** Expiry *)

Lemma plain_text_kept key : plain_key key → sanitize_run_input_text PStr (PStr key) MAX_RUN_ANSWER_CHARS true = Ok key.
Proof. intros [_ Hl]. unfold sanitize_run_input_text. destruct (Z.ltb_spec MAX_RUN_ANSWER_CHARS (py_len key)); [lia|done]. Qed.
Lemma plain_texts_kept keys : Forall plain_key keys →
  mapM_res (fun key => sanitize_run_input_text PStr (PStr key) MAX_RUN_ANSWER_CHARS true) keys = Ok keys.
Proof. induction 1 as [|key keys Hk _ IH]; cbn [mapM_res]; [done|]. by rewrite plain_text_kept, IH. Qed.
Lemma assoc_absent {A} k (d : list (string * A)) : k ∉ d.*1 → assoc k d = None.
Proof.
  induction d as [|[k' v] d IH]; [done|]. cbn. rewrite not_elem_of_cons. intros [Hk Hd]. destruct (String.eqb_spec k' k); [done|by apply IH].
Qed.
(** What is handed out of answers made of keys: their values. *)
Lemma plain_answers_public answers items : Forall (fun ka => plain_answer ka.2) items → NoDup items.*1 →
  ∃ d, public_answers PStr answers items = Ok d ∧
    ∀ k, assoc k d = match assoc k items with Some a => Some (answer_value a) | None => assoc k answers end.
Proof.
  intros HF. revert answers. induction HF as [|[key a] items Ha _ IH]; intros answers Hn; cbn [public_answers]; [by exists answers|].
  cbn [fmap list_fmap fst] in Hn. apply NoDup_cons in Hn as [Hk Hn].
  assert (public_answer PStr a = Ok (answer_value a)) as ->.
  { unfold public_answer. destruct a as [text|one|many]; [done| |]; cbn in Ha; [by rewrite plain_text_kept|by rewrite plain_texts_kept]. }
  cbn [res_bind]. destruct (IH (assoc_set key (answer_value a) answers) Hn) as (d & -> & Hd). exists d. split; [done|]. intros k. rewrite Hd. cbn [assoc].
  destruct (String.eqb_spec key k) as [->|Hne]; [by rewrite (assoc_absent k items Hk), assoc_set_eq|]. by rewrite assoc_set_ne by congruence.
Qed.
Lemma items_lookup (m : gmap string answer) k : assoc k (jsonb_items m) = m !! k.
Proof.
  assert (NoDup (jsonb_items m).*1) as Hn by (unfold jsonb_items; rewrite merge_sort_Permutation; apply NoDup_fst_map_to_list).
  assert (∀ a, (k, a) ∈ jsonb_items m ↔ m !! k = Some a) as Hin.
  { intros a. unfold jsonb_items. rewrite merge_sort_Permutation. apply elem_of_map_to_list. }
  destruct (m !! k) as [a|] eqn:E.
  - pose proof (proj2 (Hin a) eq_refl) as Ha. revert Ha Hn. clear. generalize (jsonb_items m). intros l. induction l as [|[k' x] l IH]; [by intros ?%not_elem_of_nil|]. cbn.
    intros [[= -> ->]|Hl]%elem_of_cons [Hk Hn]%NoDup_cons; [by rewrite String.eqb_refl|]. destruct (String.eqb_spec k' k) as [->|]; [|by apply IH].
    destruct Hk. by apply (list_elem_of_fmap_2 fst) in Hl.
  - apply assoc_absent. intros ([k' a] & -> & Hl)%list_elem_of_fmap. cbn [fst] in *. by apply Hin in Hl.
Qed.
Lemma plain_answer_storable a : plain_answer a → value_has_nul (answer_value a) = false.
Proof.
  destruct a as [text|one|many]; cbn; [done|by intros []|]. intros HF. induction HF as [|key keys [Hk _] _ IH]; [done|]. cbn. by rewrite Hk, IH.
Qed.

(** The only queued answer of a question. *)
Lemma only_answer db t r att i q row :
  inputs_sound db → in_inputs db !! (t, r, i) = Some row → ir_attempt_id row = att → ir_question_id row = Some q → ir_status row = "queued" →
  list_queued_inputs db (t, r, att) (Some q) None = [(i, row)].
Proof.
  intros Hs Hl Ha Hq Hst. unfold list_queued_inputs, run_inputs. cbn [fst snd].
  set (rows := omap _ (map_to_list (in_inputs db))).
  set (P := fun ir : string * input_row => _).
  assert (NoDup rows) as Hnd.
  { unfold rows. assert (NoDup (map_to_list (in_inputs db)).*1) as Hk by apply NoDup_fst_map_to_list.
    induction (map_to_list (in_inputs db)) as [|[[[t' r'] i'] a] l IH]; [constructor|]. cbn [omap list_omap fmap list_fmap map fst] in *.
    apply NoDup_cons in Hk as [Hn Hk]. cbn [fst snd]. destruct (String.eqb_spec t' t) as [->|]; [|by apply IH].
    destruct (String.eqb_spec r' r) as [->|]; [|by apply IH]. cbn [andb]. constructor; [|by apply IH].
    intros ([[[t2 r2] i2] a2] & Hin & He)%list_elem_of_omap. cbn [fst snd] in He. destruct (String.eqb_spec t2 t) as [->|]; [|done].
    destruct (String.eqb_spec r2 r) as [->|]; [|done]. cbn in He. simplify_eq. apply Hn. apply list_elem_of_fmap. by eexists (_, _). }
  assert (∀ j a, (j, a) ∈ rows ↔ in_inputs db !! (t, r, j) = Some a) as Hin.
  { intros j a. unfold rows. rewrite list_elem_of_omap. split.
    - intros ([[[t2 r2] i2] a2] & Hin & He). apply elem_of_map_to_list in Hin. cbn [fst snd] in He. destruct (String.eqb_spec t2 t) as [->|]; [|done].
      destruct (String.eqb_spec r2 r) as [->|]; [|done]. cbn in He. by simplify_eq.
    - intros Hj. exists (t, r, j, a). split; [by apply elem_of_map_to_list|]. cbn. by rewrite !String.eqb_refl. }
  assert (∀ x, x ∈ List.filter P (merge_sort input_le rows) ↔ x = (i, row)) as Hel.
  { intros [j a]. rewrite list_elem_of_In, filter_In, <- list_elem_of_In, merge_sort_Permutation, Hin. unfold P. cbn [fst snd]. split.
    - rewrite !andb_true_r, !andb_true_iff, !String.eqb_eq, bool_decide_eq_true. intros (Hj & (Hja & _) & Hjq).
      assert (j = i) as -> by (eapply (so_one _ Hs t r j i a row q); congruence). congruence.
    - intros [= -> ->]. split; [done|]. by rewrite Ha, Hst, String.eqb_refl, bool_decide_true. }
  assert (NoDup (List.filter P (merge_sort input_le rows))) as Hnf.
  { apply NoDup_ListNoDup, List.NoDup_filter, NoDup_ListNoDup. by rewrite merge_sort_Permutation. }
  destruct (List.filter P _) as [|x [|y l]] eqn:Ef.
  - assert ((i, row) ∈ ([] : list (string * input_row))) as Hx by (by apply Hel). by apply not_elem_of_nil in Hx.
  - f_equal. apply Hel. set_solver.
  - assert (x = (i, row) ∧ y = (i, row)) as [-> ->] by (split; apply Hel; set_solver). apply NoDup_cons in Hnf as [Hnf _]. set_solver.
Qed.

Section Overdue.
Context `{HexRuntime} (san : string → pyval).

(** The defaults are stored and the question is answered. *)
Lemma defaults_submitted now runs run t u r att q qrow fresh i d db :
  inputs_sound db → get_owner_run runs t u r = Some run → active_attempt_id runs run t r = Some att → is_open db (t, r, att) →
  in_questions db !! (t, r, att, q) = Some qrow → qr_status qrow = "pending" → normalize_input_id fresh = Ok i → in_inputs db !! (t, r, i) = None →
  default_question_answers (public_question san (qr_questions qrow)) = Some d →
  ∃ m, canonicalize_answers san (PDict d) (public_question san (qr_questions qrow)) = Ok m ∧ (∀ k a, m !! k = Some a → plain_answer a) ∧ (∀ k, answer_value <$> m !! k = assoc k d) ∧
    submit san now None runs t u r (Submission fresh None (Some q) (Some d) true "timeout_default") db =
      Ok (set_questions (insert (t, r, att, q) (set_status "answered" qrow))
            (set_inputs (insert (t, r, i) (InputRow att "answer" None (Some q) m "queued" "timeout_default" now)) db), Some (i, "queued")).
Proof.
  intros Hs Hown Hact (s & Hse & Hop) Hl Hst Hi Hn Hd. destruct (defaults_are_answers san _ _ (public_canonical san (qr_questions qrow)) Hd) as (m & Em & Hne & Hm & Hval).
  destruct (so_questions _ Hs _ _ _ Hl) as (_ & Hq & _). exists m. split_and!; [done|intros k a Hk; by apply (Hm k)|exact Hval|].
  unfold submit. rewrite Hown. cbn [submission_shape sb_text sb_question_id sb_answers sb_source sb_input_id sb_redact_public is_some negb orb andb str_in String.eqb Ascii.eqb Bool.eqb].
  rewrite Hi. cbn [res_bind]. unfold get_input. rewrite Hn, Hact. cbn zeta. unfold get_session. rewrite Hse, Hop. cbn [String.eqb Ascii.eqb Bool.eqb negb].
  unfold submission_content. cbn [sb_text sb_question_id sb_answers]. rewrite Hq. cbn [res_bind]. unfold get_question. rewrite Hl. unfold canonical_stored_questions.
  rewrite Em. cbn [res_bind]. rewrite Hst. cbn [String.eqb Ascii.eqb Bool.eqb negb res_bind].
  assert (existsb (fun kv => has_nul kv.1 || value_has_nul (answer_value kv.2)) (map_to_list m) = false) as Hnul.
  { apply not_true_iff_false. intros (ka & Hka & Hb)%existsb_exists. destruct ka as [k a]. apply list_elem_of_In, elem_of_map_to_list, Hm in Hka as [Hk Ha].
    pose proof keys_plain as Hp. apply Forall_app in Hp as [_ Hp]. rewrite Forall_forall in Hp. destruct (Hp _ Hk) as [Hk' _]. cbn in Hb.
    by rewrite Hk', (plain_answer_storable _ Ha) in Hb. }
  unfold insert_input, input_row_allowed. cbn [fst snd ir_question_id ir_source ir_kind ir_text ir_answers]. rewrite Hn, Hse, Hl, Hnul, bool_decide_true by done.
  cbn [String.eqb Ascii.eqb Bool.eqb negb andb orb res_bind]. unfold set_question_status. cbn [set_inputs in_questions]. rewrite Hl, Hst. done.
Qed.

(** C40.  An overdue question is settled by the next poll of an open session.  When the
    executor of the current attempt of a running run, whose session is open, polls for a
    question that has been pending for its whole time, the poll succeeds: the question is
    answered with its default answers, which are stored, and the one input handed to the
    executor carries exactly those answers; or, when some question has no options to choose
    from, it is closed and the executor is told that input is needed.  Nothing the owner or
    the executor sent before can make the expiry fail.  (A sealed session expires nothing;
    the input id made for the answers is new.) *)
Theorem overdue_question_is_settled now clock fresh runs run t u r att q qrow i db :
  rtc (input_step san) no_inputs db → db_runs runs !! (t, r) = Some run → r_user_id run = Some u →
  active_attempt_id runs run t r = Some att → is_open db (t, r, att) → in_questions db !! (t, r, att, q) = Some qrow →
  qr_status qrow = "pending" → qr_created_at qrow + RUN_QUESTION_TIMEOUT <= clock →
  normalize_input_id fresh = Ok i → in_inputs db !! (t, r, i) = None →
  ∃ db' reply, callback san now clock fresh runs t run r att "poll" (Some q) None None db = Ok (db', reply) ∧
    match default_question_answers (public_question san (qr_questions qrow)) with
    | None => cr_error_code reply = Some "run_question_needs_input" ∧
        db' = set_questions (insert (t, r, att, q) (set_status "closed" qrow)) db
    | Some d => ∃ m p, canonicalize_answers san (PDict d) (public_question san (qr_questions qrow)) = Ok m ∧
        qr_status <$> in_questions db' !! (t, r, att, q) = Some "answered" ∧
        in_inputs db' = <[(t, r, i) := InputRow att "answer" None (Some q) m "queued" "timeout_default" now]> (in_inputs db) ∧
        cr_inputs reply = [p] ∧ pi_input_id p = i ∧ pi_source p = "timeout_default" ∧ pi_question_id p = Some q ∧ cr_error_code reply = None ∧
        ∀ k, assoc k (pi_answers p) = assoc k d
    end.
Proof.
  intros Hr Hrun Hu Hact Ho Hl Hst Hclock Hi Hn. assert (inputs_sound db) as Hs.
  { apply (changes_sound san no_inputs); [apply no_inputs_sound|by eapply steps_changes]. }
  assert (get_owner_run runs t u r = Some run) as Hown by (unfold get_owner_run; by rewrite Hrun, bool_decide_true).
  destruct (so_questions _ Hs _ _ _ Hl) as (_ & Hq & _). pose proof Ho as (s & Hse & Hop).
  unfold callback. cbn zeta. rewrite bool_decide_true by done. cbn [negb String.eqb Ascii.eqb Bool.eqb]. unfold get_session. rewrite Hse, Hop.
  unfold callback_poll. cbn [negb String.eqb Ascii.eqb Bool.eqb]. rewrite Hq. cbn [res_bind]. unfold expire_question, get_question. rewrite Hl, Hst.
  cbn [str_in String.eqb Ascii.eqb Bool.eqb orb negb]. destruct (Z.ltb_spec clock (qr_created_at qrow + RUN_QUESTION_TIMEOUT)); [lia|].
  unfold canonical_stored_questions. destruct (default_question_answers (public_question san (qr_questions qrow))) as [d|] eqn:Ed.
  - destruct (defaults_submitted now runs run t u r att q qrow fresh i d db Hs Hown Hact Ho Hl Hst Hi Hn Ed) as (m & Em & Hm & Hval & Es).
    cbn [fst snd]. rewrite Hu, Es. cbn [res_bind].
    set (row := InputRow att "answer" None (Some q) m "queued" "timeout_default" now) in *.
    set (db' := set_questions _ (set_inputs _ db)) in *.
    assert (inputs_sound db') as Hs'.
    { eapply changes_sound; [exact Hs|]. eapply submit_changes, Es. }
    assert (in_inputs db' !! (t, r, i) = Some row) as Hrow by (cbn; by rewrite lookup_insert_eq).
    rewrite (only_answer db' t r att i q row Hs' Hrow) by done. cbn [mapM_res].
    destruct (plain_answers_public [] (jsonb_items m)) as (a & Ea & Hpub).
    { apply Forall_forall. intros [k x] Hk. unfold jsonb_items in Hk. rewrite merge_sort_Permutation in Hk. by apply elem_of_map_to_list, Hm in Hk. }
    { unfold jsonb_items. rewrite merge_sort_Permutation. apply NoDup_fst_map_to_list. }
    unfold public_input. cbn [row ir_text ir_answers ir_status ir_source ir_kind ir_question_id ir_created_at res_bind]. rewrite Ea. cbn [res_bind].
    do 2 eexists. split; [reflexivity|]. exists m. eexists. split_and!; try done; [cbn; by rewrite lookup_insert_eq|].
    intros k. cbn [pi_answers]. rewrite Hpub, items_lookup, <- Hval. by destruct (m !! k).
  - cbn [res_bind]. do 2 eexists. split; [reflexivity|]. cbn. split; [done|]. unfold set_question_status. by rewrite Hl, Hst.
Qed.

End Overdue.
