(* ===== verification/RunInputsExample.v ===== *)
(** * Inputs of a run, executed

    The run of [PlatformExample] with its attempt: the executor opens a session and asks a
    question, the owner sends a text, nobody answers in time, the executor polls, applies
    both inputs and settles. *)
From stdpp Require Import base gmap list strings.
From Stdlib Require Import ZArith Lia Ascii.
From S2P Require Import Prelude Redis PyValue RunAttempt RunTerminal RunLifecycle Platform PlatformExample RunInputs RunInputsChoices RunInputsFacts RunInputsTimeout.
#[local] Open Scope py_scope.

(** Hexadecimal digits only. *)
Fixpoint plain_hex (n : Z) (s : string) : option Z :=
  match s with
  | EmptyString => Some n
  | String c s =>
      if is_digit c then plain_hex (n * 16 + Z.of_N (N_of_ascii c) - 48) s
      else if ascii_between "a" "f" c then plain_hex (n * 16 + Z.of_N (N_of_ascii c) - 87) s else None
  end.
#[export] Instance plain_hex_runtime : HexRuntime := {| int_base16 := plain_hex 0 |}.

Example braces_and_dashes : normalize_input_id "{00000000-0000-0000-0000-0000000000AB}" = Raise "run_input_id_invalid" ∧
  normalize_input_id "urn:uuid:000000000000000000000000000000ab" = Ok "00000000-0000-0000-0000-0000000000ab".
Proof. by vm_compute. Qed.
Example recommended_labels : map (fun s => is_recommended_question_option (PStr s)) ["Yes (Recommended) "; "No"; "(recommended) maybe"; "A( recommended )"]
  = [true; false; false; true].
Proof. by vm_compute. Qed.

Definition out_db {A} (m : res (input_db * A)) : input_db := match m with Ok (db, _) => db | Raise _ => no_inputs end.
Definition is_ok {A} (m : res A) : bool := match m with Ok _ => true | Raise _ => false end.
Lemma ok_out {A} (m : res (input_db * A)) : is_ok m = true → ∃ x, m = Ok (out_db m, x).
Proof. destruct m as [[db x]|]; [by exists x|done]. Qed.

Lemma missing {A} (x : option A) : is_some x = false → x = None.
Proof. by destruct x. Qed.

Definition sample_runs : attempt_db := attempt_view wit_bound.
Definition running_run : run_row := Run "running" "ws" (Some "u") "s" "ag" "chat" None None (Some 5) None.
Definition running_attempt : string := default "" (get_current_attempt_id sample_runs "t" "r").
Definition sample_questions : pyval :=
  PList [PDict [("question", PStr "Which format?"); ("header", PStr "Format"); ("multiSelect", PBool false);
    ("options", PList [PDict [("label", PStr "Word"); ("description", PStr "")]; PDict [("label", PStr "PDF (Recommended)"); ("description", PStr "")]])]].
Definition input_a : string := "0000000000000000000000000000000a".
Definition input_b : string := "0000000000000000000000000000000b".
Definition id_a : string := "00000000-0000-0000-0000-00000000000a".
Definition id_b : string := "00000000-0000-0000-0000-00000000000b".

Definition call (now : Z) (op : string) (q : option string) (qs : option pyval) (ids : option (list string)) (db : input_db)
    : res (input_db * callback_reply) :=
  callback PStr now now input_b sample_runs "t" running_run "r" running_attempt op q qs ids db.
Definition note : submission := Submission input_a (Some "Please hurry") None None true "manual".

Definition in_opened : input_db := out_db (call 10 "open" None None None no_inputs).
Definition in_asked : input_db := out_db (call 20 "question" (Some "q_1") (Some sample_questions) None in_opened).
Definition in_noted : input_db := out_db (submit PStr 30 None sample_runs "t" "u" "r" note in_asked).
Definition in_expired : input_db := out_db (call 300000020 "poll" (Some "q_1") None None in_noted).
Definition in_acked : input_db := out_db (call 300000030 "ack" None None (Some [input_a; input_b]) in_expired).
Definition in_sealed : input_db := out_db (call 300000040 "settle" None None None in_acked).

Lemma in_asked_steps : rtc (input_step PStr) no_inputs in_asked.
Proof.
  eapply rtc_l; [|apply rtc_once].
  - destruct (ok_out (call 10 "open" None None None no_inputs)) as [x E]; [by vm_compute|]. eapply step_callback, E.
  - destruct (ok_out (call 20 "question" (Some "q_1") (Some sample_questions) None in_opened)) as [x E]; [by vm_compute|]. eapply step_callback, E.
Qed.
Lemma in_noted_ok : submit PStr 30 None sample_runs "t" "u" "r" note in_asked = Ok (in_noted, Some (id_a, "queued")).
Proof.
  destruct (ok_out (submit PStr 30 None sample_runs "t" "u" "r" note in_asked)) as [x E]; [by vm_compute|]. rewrite E. do 2 f_equal.
  assert (match submit PStr 30 None sample_runs "t" "u" "r" note in_asked with Ok (_, y) => y | Raise _ => None end = Some (id_a, "queued")) as E' by by vm_compute.
  by rewrite E in E'.
Qed.
Lemma later_steps : rtc (input_step PStr) in_noted in_acked.
Proof.
  eapply rtc_l; [|apply rtc_once].
  - destruct (ok_out (call 300000020 "poll" (Some "q_1") None None in_noted)) as [x E]; [by vm_compute|]. eapply step_callback, E.
  - destruct (ok_out (call 300000030 "ack" None None (Some [input_a; input_b]) in_expired)) as [x E]; [by vm_compute|]. eapply step_callback, E.
Qed.
Lemma all_steps : rtc (input_step PStr) no_inputs in_acked.
Proof. etrans; [apply in_asked_steps|]. eapply rtc_l; [|apply later_steps]. eapply step_submit, in_noted_ok. Qed.

(** The recommended option was taken, and both inputs are applied. *)
Example default_taken :
  (fun row => (ir_source row, map_to_list (ir_answers row), ir_status row)) <$> in_inputs in_sealed !! ("t", "r", id_b) =
    Some ("timeout_default", [("q0", AOne "o1")], "applied") ∧
  (fun row => (ir_text row, ir_status row)) <$> in_inputs in_sealed !! ("t", "r", id_a) = Some (Some "Please hurry", "applied").
Proof. by vm_compute. Qed.

Lemma inputs_stay_sound_witness : inputs_sound in_acked ∧ qr_status <$> in_questions in_acked !! ("t", "r", running_attempt, "q_1") = Some "resolved".
Proof. split; [apply (inputs_stay_sound PStr), all_steps|by vm_compute]. Defined.

Lemma settled_attempt_heard_everything_witness :
  ∃ row, of_attempt in_sealed ("t", "r", running_attempt) id_a = Some row ∧ ir_text row = Some "Please hurry" ∧ ir_status row = "applied".
Proof.
  destruct (ok_out (call 300000040 "settle" None None None in_acked)) as [reply E]; [by vm_compute|].
  assert (cr_state reply = "sealed") as Hst.
  { assert (match call 300000040 "settle" None None None in_acked with Ok (_, y) => cr_state y | Raise _ => "" end = "sealed") as E' by by vm_compute.
    by rewrite E in E'. }
  destruct (settled_attempt_heard_everything PStr 300000040 300000040 input_b sample_runs "t" running_run "r" running_attempt None None None
    in_acked in_sealed in_sealed reply all_steps E Hst (rtc_refl _ _) id_a) as [_ Hb].
  destruct (of_attempt in_acked ("t", "r", running_attempt) id_a) as [before|] eqn:Eb.
  - assert ((fun row => (ir_kind row, ir_text row)) <$> of_attempt in_acked ("t", "r", running_attempt) id_a = Some ("text", Some "Please hurry")) as Ek
      by by vm_compute.
    rewrite Eb in Ek. cbn in Ek. injection Ek as Ek Et. destruct (Hb before eq_refl Ek) as (row & H1 & H2 & H3). exists row. rewrite H2. auto.
  - exfalso. assert (is_some (of_attempt in_acked ("t", "r", running_attempt) id_a) = true) as Ek by by vm_compute. by rewrite Eb in Ek.
Defined.

(** The owner answers, and a later callback marks the first option as not recommended: the
    stored question changes. *)
Definition chosen : submission := Submission input_a None (Some "q_1") (Some [("q0", PStr "o0")]) true "manual".
Definition marked_questions : pyval :=
  PList [PDict [("question", PStr "Which format?"); ("header", PStr "Format"); ("multiSelect", PBool false);
    ("options", PList [PDict [("label", PStr "Word"); ("description", PStr ""); ("recommended", PBool false)];
                       PDict [("label", PStr "PDF (Recommended)"); ("description", PStr "")]])]].
Definition in_answered : input_db := out_db (submit PStr 30 None sample_runs "t" "u" "r" chosen in_asked).
Definition in_marked : input_db := out_db (call 40 "question" (Some "q_1") (Some marked_questions) None in_answered).
Definition marks_of (db : input_db) : list (option bool) :=
  match in_questions db !! ("t", "r", running_attempt, "q_1") with
  | Some row => flat_map (fun q => map qo_recommended (q_options q)) (public_question PStr (qr_questions row))
  | None => []
  end.
Lemma in_answered_ok : submit PStr 30 None sample_runs "t" "u" "r" chosen in_asked = Ok (in_answered, Some (id_a, "queued")).
Proof.
  destruct (ok_out (submit PStr 30 None sample_runs "t" "u" "r" chosen in_asked)) as [x E]; [by vm_compute|]. rewrite E. do 2 f_equal.
  assert (match submit PStr 30 None sample_runs "t" "u" "r" chosen in_asked with Ok (_, y) => y | Raise _ => None end = Some (id_a, "queued")) as E' by by vm_compute.
  by rewrite E in E'.
Qed.

Lemma accepted_submission_is_kept_witness :
  marks_of in_answered = [None; Some true] ∧ marks_of in_marked = [Some false; Some true] ∧
  ∃ st, submit PStr 400000000 None sample_runs "t" "u" "r" chosen in_marked = Ok (in_marked, Some (id_a, st)) ∧ (st = "queued" ∨ st = "applied").
Proof.
  split; [by vm_compute|]. split; [by vm_compute|].
  destruct (accepted_submission_is_kept PStr 30 400000000 None None sample_runs sample_runs "t" "u" "r" chosen in_asked in_answered in_marked id_a "queued")
    as (st & E & Hst & _).
  - exact in_asked_steps.
  - exact in_answered_ok.
  - apply rtc_once. destruct (ok_out (call 40 "question" (Some "q_1") (Some marked_questions) None in_answered)) as [x E]; [by vm_compute|].
    eapply step_callback, E.
  - eexists. vm_compute. reflexivity.
  - intros _. exact plain_sanitizer_stable.
  - exists st. auto.
Defined.

Lemma overdue_question_is_settled_witness :
  ∃ db reply, callback PStr 300000020 300000020 input_b sample_runs "t" running_run "r" running_attempt "poll" (Some "q_1") None None in_noted = Ok (db, reply) ∧
    qr_status <$> in_questions db !! ("t", "r", running_attempt, "q_1") = Some "answered" ∧
    ∃ p, cr_inputs reply = [p] ∧ assoc "q0" (pi_answers p) = Some (PStr "o1").
Proof.
  destruct (in_questions in_noted !! ("t", "r", running_attempt, "q_1")) as [qrow|] eqn:Eq.
  2: { exfalso. assert (is_some (in_questions in_noted !! ("t", "r", running_attempt, "q_1")) = true) as E by by vm_compute. by rewrite Eq in E. }
  assert ((fun row => (qr_status row, qr_created_at row, default_question_answers (public_question PStr (qr_questions row))))
    <$> in_questions in_noted !! ("t", "r", running_attempt, "q_1") = Some ("pending", 20, Some [("q0", PStr "o1")])) as Ef by by vm_compute.
  rewrite Eq in Ef. cbn in Ef. injection Ef as Ef1 Ef2 Ef3.
  destruct (overdue_question_is_settled PStr 300000020 300000020 input_b sample_runs running_run "t" "u" "r" running_attempt "q_1" qrow id_b in_noted)
    as (db & reply & E & Hcase).
  - eapply rtc_r; [apply in_asked_steps|]. eapply step_submit, in_noted_ok.
  - by vm_compute.
  - done.
  - by vm_compute.
  - apply state_open. by vm_compute.
  - exact Eq.
  - exact Ef1.
  - rewrite Ef2. unfold RUN_QUESTION_TIMEOUT. lia.
  - by vm_compute.
  - apply missing. by vm_compute.
  - exists db, reply. split; [exact E|]. rewrite Ef3 in Hcase. destruct Hcase as (m & p & _ & Ha & _ & Hp & _ & _ & _ & _ & Hd).
    split; [exact Ha|]. exists p. split; [exact Hp|]. exact (Hd "q0").
Defined.
